(* ===== verification/_CoqProject ===== *)
-Q . S2P
Prelude.v
Js.v
Entities.v
Lifecycle.v
Routing.v
Keys.v
Geometry.v
Numbers.v
Policy.v
Failures.v
Env.v
Auth.v
AuthRules.v
Media.v
Canonical.v
Store.v
Repositories.v
SigningRepositories.v
JobQueue.v
ObjectStorage.v
AuditLog.v
UseCases.v
Contracts.v
Ingestion.v
Sending.v
Signing.v
Queries.v
PrismaRows.v
PrismaMappers.v
PrismaClient.v
PrismaRepositories.v
PrismaWriters.v
PrismaMirror.v
PrismaDocumentRefinement.v
PrismaUploadRefinement.v
PrismaSigningRefinement.v
PrismaWriterRefinement.v
PrismaUnitOfWork.v
PrismaClaims.v
PrismaClaimerRefinement.v
Http.v
HttpRules.v
Config.v
ConfigRules.v
Pad.v
PadRules.v
Schemas.v
Finalization.v
Worker.v
Steps.v
Rules.v
SigningRefinement.v
DocumentRefinement.v
WorkerRefinement.v
System.v
Routes.v
RouteRules.v
Invariants.v
Envelopes.v
Unambiguity.v
JsonText.v
CheckpointStore.v
CheckpointRules.v
Outcomes.v
Queue.v
Finalized.v
Chain.v
Scenario.v
SignerOutcomes.v
Previews.v
SendOutcomes.v
Correctness.v
RequestScenario.v
Requests.v
Findings.v
S3.v
S3Rules.v
SigningClient.v
SigningPage.v
PageRules.v
