(* ===== verification/Prelude.v ===== *)
(** * An electronic-signature service, verified

    The program drafts documents, sends them to signers, captures consent and
    signatures, flattens them into the PDF and keeps a hash-chained audit log,
    for many organizations over one database.  Its packages are

    - [packages/domain]: entities, life cycles, keys, audit documents, and the
      ports the rest is written against;
    - [packages/application]: the use cases, the in-memory adapters of the ports,
      the audit verifier, the job queue, authentication;
    - [packages/database]: the repositories, writers and claimer on PostgreSQL,
      through Prisma;
    - [packages/object-storage]: the objects in S3;
    - [packages/contracts] and [packages/config]: the schemas of requests and
      answers, and of the environment;
    - [apps/api], [apps/worker], [apps/web]: the HTTP service, the background
      worker and the signer's page.

    A request passes the middlewares and the route of the API ([Routes]), which
    calls a use case ([Ingestion], [Sending], [Signing], [Queries],
    [Finalization], [AuditLog]); the use case runs units of work on the
    repositories ([Repositories], [SigningRepositories]), appends to the audit log
    and to the outbox, and stores objects ([ObjectStorage]).  The worker
    ([Worker], [JobQueue]) claims outbox events and runs their use cases.

    ** How the program is represented

    A part that keeps state is explicit state passing: [M E S A] below is a
    computation on stores [S] that returns an [A] or throws an [E], and keeps what
    was written before a throw, as JavaScript does.  [St] ([Store]) gathers the
    arrays and maps of every in-memory adapter; [Db] ([PrismaClient]) the tables of
    the database; [AuthSt] ([Auth]) accounts; [Server] ([Routes]) a running API.
    What is not source of the program is an argument: the clock, generators, hash
    functions and formats are the class [Env]; authorization, the unit of work,
    notifier, checkpoint store and identity provider are classes with the
    implementations of the source as instances; the database client is the class
    [PrismaClient] with the laws [PrismaLaws], the client of S3 the class
    [S3Client] with [S3Laws].  Each class of laws has an instance that runs, and
    the theorems that use it an example on that instance.

    Definitions carry a comment [src: file:first-last symbol] with the lines of
    [src/] they translate, and keep the names of the source: [Documents.markSent]
    of [Repositories] is [markSent] of the documents repository.  [Entities] says
    how types, members and updates are written.

    ** The files

    Foundations
    - [Prelude]: results, the monad, triples, tactics, generic lemmas.
    - [Js], [Numbers], [JsonText]: values, strings, dates, application errors
      ([domain/errors.ts]); binary64 arithmetic; [JSON.parse] and UTF-8.
    - [Env]: what comes from outside, and a sample of it.

    Domain ([packages/domain/src])
    - [Entities] ([entities.ts], [request-actor.ts]); [Lifecycle] and [Routing]
      ([document-lifecycle.ts], [signing-mode.ts]); [Keys] ([object-keys.ts],
      [organization-context.ts], [jobs/payload.ts]); [Geometry]
      ([field-geometry.ts]); [Canonical] and [Unambiguity] ([audit/canonical.ts],
      [audit/payload.ts]); [Policy] ([ports/authorization.ts] and
      [authorization/membership-policy.ts]); [Failures]
      ([jobs/finalization-failures.ts], [jobs/failures.ts]).

    Adapters in memory ([packages/application/src])
    - [Store], [Repositories], [SigningRepositories] ([documents/memory-adapters.ts]);
      [ObjectStorage] ([ports/memory-object-storage.ts]); [JobQueue] ([jobs/]);
      [AuditLog], [CheckpointStore], [CheckpointRules] ([audit/]).

    Use cases ([packages/application/src])
    - [Media] ([documents/pdf.ts], [pdf-pages.ts], [png.ts], inspectors);
      [UseCases] (idempotency, public documents, notifications); [Ingestion],
      [Sending], [Queries], [Finalization] ([documents/]); [Signing] ([signing/]);
      [Auth], [AuthRules] ([auth/]).

    Database ([packages/database])
    - [PrismaRows] ([prisma/schema.prisma]), [PrismaMappers], [PrismaClient],
      [PrismaRepositories], [PrismaWriters], [PrismaUnitOfWork]
      ([src/infrastructure/]); [PrismaMirror] is the relation between tables and
      in-memory repositories, [PrismaDocumentRefinement], [PrismaUploadRefinement],
      [PrismaSigningRefinement], [PrismaWriterRefinement], [PrismaClaims] and
      [PrismaClaimerRefinement] the refinement, method by method.

    Services and pages
    - [Contracts], [Schemas] ([packages/contracts/src]); [Config], [ConfigRules]
      ([packages/config/src/index.ts]); [Http], [HttpRules] (errors, middlewares,
      cookies and client addresses); [Routes], [RouteRules] (the routers and
      [create-app.ts]); [Worker] ([apps/worker/src]); [S3], [S3Rules]
      ([packages/object-storage/src]); [Pad], [PadRules] (the signature pad and
      submission of [apps/web/src/signing]); [SigningClient] ([signing-api.ts],
      [status.ts] and the proxy [app/signing/api]); [SigningPage]
      ([SignerApp.tsx], a machine that answers clicks, timers and whatever it
      awaits, in any order).

    The system
    - [Steps]: the abstract specification, the steps the stores may take; [Rules]
      and the files named [...Refinement] without Prisma: every use case takes only
      such steps; [System]: all calls together; [Invariants], [Envelopes], [Chain]:
      what the steps keep; [Queue], [Outcomes], [SignerOutcomes], [SendOutcomes],
      [Finalized], [Previews]: what single calls have done when they return or
      throw; [Scenario] and [RequestScenario]: runs of the whole system, the inputs
      of the examples; [Correctness], [Requests]: the theorems about every reachable
      store, every request, its answer, and every sequence of them; [PageRules]: the
      page and the API together; [Findings]: behaviours the design does not intend.

    ** What is shown

    - Refinement.  Every use case, route and turn of the worker only takes steps of
      [Steps] for the tenant it was called for ([Correctness.use_cases_refine],
      [Requests.requests_stay_in_their_tenant]); a unit of work on the database does
      what it does in memory, and nothing when it throws
      ([PrismaUnitOfWork.prisma_unit_of_work_refines]), the claimer likewise; objects in
      S3 are the objects in memory, up to failures of the service, and listings are
      complete ([S3Rules]); the audit verifier decides linkedness of chains.
    - Invariants of every reachable store: life cycles, gapless hash chains, objects
      behind references, signatures behind completed documents, uniqueness, frozen
      layouts, settled events ([Correctness], [Requests.served_stores_are_sound]).
    - Security: nothing succeeds or changes without what its route asks for
      ([Requests.only_admitted_requests_succeed]); tenants are apart; tokens are
      consumed once; errors reveal nothing ([Requests.answers_are_public],
      [HttpRules]); production configurations are fit for production
      ([ConfigRules]).
    - Function: what sending, exchanging, completing, declining, voiding, finalizing,
      downloading and claiming have done when they return, and that failures leave
      no trace or are retried a bounded number of times; the signer's page asks for a
      completion only with consent on record and repeats it under its key, and its
      requests reach the use case through the proxy and the checks of the API
      ([PageRules]).
    - Round trips: canonical audit text, checkpoints, log-in and session.

    ** Bounds and fuel

    The parsers of [JsonText] recurse on fuel; [json_parse] gives twice the length
    of the text plus one, which [CheckpointRules] shows to be enough for every text
    the program writes.  The scan of [Media] for magic bytes and the search for
    pages are bounded by the length of the body; paging through a listing of S3
    recurses on fuel, and [S3Rules] shows that one more than the number of objects
    is enough; a page that waits for its completion asks for the state of the
    session at most eight times, as the source does.  Integers are unbounded [Z]:
    the program's counters, sizes and times stay below 2^53; coordinates and
    [Math.random] are binary64.

    ** Assumptions

    Calls run one after another: interleavings within a use case are not modelled,
    except where [Findings] writes them out; the database's row lock and
    transaction appear as laws of its client.  The in-memory unit of work does not
    roll back; [SignerOutcomes] states what does hold with a transaction.  Text is
    Latin-1.  Objects have no prototypes.

    ** Not modelled

    Express, CORS, Helmet, request time-outs, graceful shutdown, health and metrics
    routes; the worker's timer loop; PDF rendering by pdf-lib (an argument, as the
    inspector is); the OIDC provider; logging, metrics and tracing; the
    markup of the page, the drawing on its canvas and the encoding of images; the
    filesystem driver of object storage, seeds, factories and test utilities, which
    are for development only. *)

From Stdlib Require Export ZArith Lia.
From stdpp Require Export base option list strings decidable relations.

#[export] Set Warnings "-clear-no-such-hyp,-register-all".
#[export] Set Default Goal Selector "!".

Create HintDb esign discriminated.

Declare Scope esign_scope.
Delimit Scope esign_scope with esign.

(** ** Results and effectful computations

    A call of the program either returns or throws; either way the stores it
    has already written stay written.  [M E S A] is that computation. *)

Inductive Result (E A : Type) : Type :=
  | Ok (a : A)
  | Throw (e : E).
Arguments Ok {E A} a.
Arguments Throw {E A} e.

Definition M (E S A : Type) : Type := S → Result E A * S.

#[export] Instance M_ret E S : MRet (M E S) := λ A a s, (Ok a, s).
#[export] Instance M_bind E S : MBind (M E S) := λ A B f m s,
  match m s with
  | (Ok a, s') => f a s'
  | (Throw e, s') => (Throw e, s')
  end.

#[export] Instance M_fmap E S : FMap (M E S) := λ A B f m s,
  match m s with
  | (Ok a, s') => (Ok (f a), s')
  | (Throw e, s') => (Throw e, s')
  end.

#[export] Instance Result_ret E : MRet (Result E) := λ A a, Ok a.
#[export] Instance Result_bind E : MBind (Result E) := λ A B f r,
  match r with Ok a => f a | Throw e => Throw e end.

#[export] Instance Result_fmap E : FMap (Result E) := λ A B f r,
  match r with Ok a => Ok (f a) | Throw e => Throw e end.

Section effects.
Context {E S : Type}.

(** A thrown exception. *)
Definition throw {A} (e : E) : M E S A := λ s, (Throw e, s).

(** Reading and writing the store. *)
Definition gets {A} (f : S → A) : M E S A := λ s, (Ok (f s), s).
Definition modify (f : S → S) : M E S unit := λ s, (Ok tt, f s).

(** A pure, possibly failing, computation. *)
Definition lift {A} (r : Result E A) : M E S A := λ s, (r, s).

(** [try { m } catch (e) { h e }]. *)
Definition try_catch {A} (m : M E S A) (h : E → M E S A) : M E S A := λ s,
  match m s with
  | (Ok a, s') => (Ok a, s')
  | (Throw e, s') => h e s'
  end.

(** [for (const x of l) { await f(x) }]. *)
Fixpoint for_each {A} (f : A → M E S unit) (l : list A) : M E S unit :=
  match l with
  | [] => mret tt
  | x :: l => f x;; for_each f l
  end.

Fixpoint map_each {A B} (f : A → M E S B) (l : list A) : M E S (list B) :=
  match l with
  | [] => mret []
  | x :: l => y ← f x; ys ← map_each f l; mret (y :: ys)
  end.
End effects.

(** Traversing a list with a failing pure function. *)
Fixpoint each {E A} (f : A → Result E unit) (l : list A) : Result E unit :=
  match l with
  | [] => Ok tt
  | x :: l => f x ≫= λ _, each f l
  end.

Definition is_ok {E A} (r : Result E A) : bool :=
  match r with Ok _ => true | Throw _ => false end.

(** [if (c) throw e]. *)
Definition throw_if {E} (c : bool) (e : E) : Result E unit := if c then Throw e else Ok tt.

Lemma Ok_inj {E A} (a b : A) : @Ok E A a = Ok b → a = b.
Proof. by intros [= ->]. Qed.

Lemma throw_if_ok {E} c (e : E) : throw_if c e = Ok tt ↔ c = false.
Proof. by destruct c. Qed.

Lemma bind_Result_ok {E A B} (r : Result E A) (f : A → Result E B) b :
  r ≫= f = Ok b ↔ ∃ a, r = Ok a ∧ f a = Ok b.
Proof. destruct r; unfold mbind; simpl; naive_solver. Qed.

Lemma each_ok {E A} (f : A → Result E unit) l :
  each f l = Ok tt ↔ ∀ x, x ∈ l → f x = Ok tt.
Proof.
  induction l as [|x l IH]; simpl.
  { split; [intros _ y Hy; by apply elem_of_nil in Hy | done]. }
  rewrite bind_Result_ok. split.
  - intros ([] & Hx & Hl) y. rewrite elem_of_cons. intros [->|Hy]; [done|].
    by apply IH.
  - intros H. exists tt. split; [apply H; left|]. apply IH. intros y Hy. apply H. by right.
Qed.

Lemma is_ok_unit {E} (r : Result E unit) : is_ok r = true ↔ r = Ok tt.
Proof. destruct r as [[]|]; simpl; naive_solver. Qed.

(** ** Reasoning about runs *)

Section runs.
Context {E S : Type}.

Lemma bind_ok {A B} (m : M E S A) (f : A → M E S B) s b s'' :
  (m ≫= f) s = (Ok b, s'') ↔ ∃ a s', m s = (Ok a, s') ∧ f a s' = (Ok b, s'').
Proof.
  unfold mbind, M_bind. destruct (m s) as [[a|e] s']; split; intros H.
  - by exists a, s'.
  - destruct H as (? & ? & [= -> ->] & ?). done.
  - done.
  - by destruct H as (? & ? & ? & ?).
Qed.

Lemma bind_run {A B} (m : M E S A) (f : A → M E S B) s a s' :
  m s = (Ok a, s') → (m ≫= f) s = f a s'.
Proof. unfold mbind, M_bind. by intros ->. Qed.

Lemma bind_run_throw {A B} (m : M E S A) (f : A → M E S B) s e s' :
  m s = (Throw e, s') → (m ≫= f) s = (Throw e, s').
Proof. unfold mbind, M_bind. by intros ->. Qed.

Lemma fmap_ok {A B} (f : A → B) (m : M E S A) s b s' :
  (f <$> m) s = (Ok b, s') ↔ ∃ a, m s = (Ok a, s') ∧ f a = b.
Proof. unfold fmap, M_fmap. destruct (m s) as [[a|e] s1]; naive_solver. Qed.

Lemma lift_ok {A} (r : Result E A) (s s' : S) a :
  lift r s = (Ok a, s') ↔ r = Ok a ∧ s' = s.
Proof. unfold lift. naive_solver. Qed.

Lemma ret_ok {A} (a b : A) (s s' : S) :
  (mret a : M E S A) s = (Ok b, s') ↔ a = b ∧ s' = s.
Proof. unfold mret, M_ret. naive_solver. Qed.

Lemma gets_ok {A} (f : S → A) s b s' :
  (gets f : M E S A) s = (Ok b, s') ↔ f s = b ∧ s' = s.
Proof. unfold gets. naive_solver. Qed.

Lemma modify_ok (f : S → S) s (u : unit) s' :
  (modify f : M E S unit) s = (Ok u, s') ↔ s' = f s.
Proof. unfold modify. destruct u. naive_solver. Qed.

Lemma throw_ok {A} (e : E) (s s' : S) (a : A) : throw e s = (Ok a, s') ↔ False.
Proof. unfold throw. naive_solver. Qed.

Lemma try_ok {A} (m : M E S A) h s a s' :
  try_catch m h s = (Ok a, s') ↔
  m s = (Ok a, s') ∨ ∃ e s1, m s = (Throw e, s1) ∧ h e s1 = (Ok a, s').
Proof. unfold try_catch. destruct (m s) as [[]]; naive_solver. Qed.
End runs.

(** [run_inv H] splits a successful run into the runs of its parts. *)
Ltac run_inv_step H :=
  first
    [ rewrite bind_ok in H;
      let a := fresh "a" in let s := fresh "s" in let H1 := fresh "Hr" in
      destruct H as (a & s & H1 & H); run_inv_step H1
    | rewrite fmap_ok in H;
      let a := fresh "a" in let H1 := fresh "Hr" in
      destruct H as (a & H & H1); subst; run_inv_step H
    | rewrite ret_ok in H; destruct H as [? ?]; subst
    | rewrite gets_ok in H; destruct H as [? ?]; subst
    | rewrite modify_ok in H; subst
    | rewrite throw_ok in H; destruct H
    | rewrite lift_ok in H; destruct H as [? ?]; subst
    | idtac ].
Ltac run_inv H := repeat (progress run_inv_step H).

(** [sym_run H] also follows the branches a successful run took. *)
Ltac sym_run H :=
  repeat match type of H with
    | (_ ≫= _) _ = _ =>
      let r := fresh "r" in let s := fresh "s" in let Hr := fresh "Hr" in
      apply bind_ok in H as (r & s & Hr & H)
    | (let _ := _ in _) _ = _ => cbv zeta in H
    | (match ?x with _ => _ end) = _ => destruct x eqn:?; try done
    | (match ?x with _ => _ end) _ = _ => destruct x eqn:?; try done
    end; simplify_eq.

(** ** A rely-guarantee logic for computations

    [triple R P m Q]: from a store satisfying [P] the run of [m] changes the
    store by [R], whether it returns or throws, and if it returns [a] then
    [Q a] holds of the store.  [R] is what every other part of the program is
    also held to, so assertions stable under [R] may be carried across calls. *)

Section logic.
Context {E S : Type} (R : relation S) `{!PreOrder R}.

Definition triple {A} (P : S → Prop) (m : M E S A) (Q : A → S → Prop) : Prop :=
  ∀ s, P s → R s (m s).2 ∧ ∀ a, (m s).1 = Ok a → Q a (m s).2.

Definition respects {A} (m : M E S A) : Prop := ∀ s, R s (m s).2.

Definition stable (F : S → Prop) : Prop := ∀ s s', R s s' → F s → F s'.

Lemma triple_respects {A} P (m : M E S A) Q s : triple P m Q → P s → R s (m s).2.
Proof. intros H HP. by destruct (H s HP). Qed.

Lemma respects_triple {A} (m : M E S A) : respects m ↔ triple (λ _, True) m (λ _ _, True).
Proof. split; [intros H s _; split; [apply H|done] | intros H s; by apply (H s)]. Qed.

Lemma respects_stable {A} (P : S → Prop) (m : M E S A) :
  respects m → stable P → triple P m (λ _, P).
Proof. intros Hm HP s Hs. split; [apply Hm|]. intros _ _. eapply HP; [apply Hm|done]. Qed.

Lemma triple_frame {A} (F P : S → Prop) (m : M E S A) Q :
  stable F → triple P m Q → triple (λ s, P s ∧ F s) m (λ a s, Q a s ∧ F s).
Proof.
  intros HF Hm s [HP HFs]. destruct (Hm s HP) as [HR HQ]. split; [done|].
  intros a Ha. split; [by apply HQ | by eapply HF].
Qed.

Lemma triple_conseq {A} (P P' : S → Prop) (m : M E S A) (Q Q' : A → S → Prop) :
  triple P' m Q' → (∀ s, P s → P' s) → (∀ a s, Q' a s → Q a s) → triple P m Q.
Proof. intros Hm HP HQ s Hs. destruct (Hm s (HP _ Hs)) as [? H]. split; [done|]. eauto. Qed.

Lemma triple_bind {A B} P (m : M E S A) Q (f : A → M E S B) K :
  triple P m Q → (∀ a, triple (Q a) (f a) K) → triple P (m ≫= f) K.
Proof.
  intros Hm Hf s HP. destruct (Hm s HP) as [HR HQ]. unfold mbind, M_bind.
  destruct (m s) as [[a|e] s'] eqn:Hs; simpl in *; [|split; [done|naive_solver]].
  destruct (Hf a s' (HQ a eq_refl)) as [HR' HK]. split; [by etrans|done].
Qed.

(** Binding a computation that leaves the assertion alone. *)
Lemma triple_bind_stable {A B} (P : S → Prop) (m : M E S A) (f : A → M E S B) K :
  stable P → respects m → (∀ a, triple P (f a) K) → triple P (m ≫= f) K.
Proof. intros HP Hm Hf. eapply triple_bind; [by apply respects_stable | exact Hf]. Qed.

Lemma respects_ret {A} (a : A) : respects (mret a).
Proof. intros s. simpl. reflexivity. Qed.
Lemma respects_throw {A} (e : E) : respects (throw e : M E S A).
Proof. intros s. simpl. reflexivity. Qed.
Lemma respects_gets {A} (f : S → A) : respects (gets f).
Proof. intros s. simpl. reflexivity. Qed.
Lemma respects_lift {A} (r : Result E A) : respects (lift r).
Proof. intros s. simpl. reflexivity. Qed.
Lemma respects_modify (f : S → S) : (∀ s, R s (f s)) → respects (modify f).
Proof. intros H s. apply H. Qed.

Lemma respects_bind {A B} (m : M E S A) (f : A → M E S B) :
  respects m → (∀ a, respects (f a)) → respects (m ≫= f).
Proof.
  intros Hm Hf s. specialize (Hm s). unfold mbind, M_bind.
  destruct (m s) as [[a|e] s'] eqn:Hs; simpl in *; [|done]. etrans; [done|apply Hf].
Qed.

Lemma respects_fmap {A B} (f : A → B) (m : M E S A) : respects m → respects (f <$> m).
Proof.
  intros Hm s. specialize (Hm s). unfold fmap, M_fmap.
  by destruct (m s) as [[a|e] s'].
Qed.

Lemma respects_try {A} (m : M E S A) h :
  respects m → (∀ e, respects (h e)) → respects (try_catch m h).
Proof.
  intros Hm Hh s. specialize (Hm s). unfold try_catch.
  destruct (m s) as [[a|e] s'] eqn:Hs; simpl in *; [done|]. etrans; [done|apply Hh].
Qed.

Lemma respects_for_each {A} (f : A → M E S unit) l :
  (∀ x, x ∈ l → respects (f x)) → respects (for_each f l).
Proof.
  induction l as [|x l IH]; intros Hf; simpl; [apply respects_ret|].
  apply respects_bind; [apply Hf; left|]. intros _. apply IH. intros y Hy. apply Hf. by right.
Qed.

Lemma respects_map_each {A B} (f : A → M E S B) l :
  (∀ x, x ∈ l → respects (f x)) → respects (map_each f l).
Proof.
  induction l as [|x l IH]; intros Hf; simpl; [apply respects_ret|].
  apply respects_bind; [apply Hf; left|]. intros y. apply respects_bind.
  - apply IH. intros z Hz. apply Hf. by right.
  - intros ys. apply respects_ret.
Qed.
Lemma respects_bind_lift {A B} (r : Result E A) (f : A → M E S B) :
  (∀ a, r = Ok a → respects (f a)) → respects (lift r ≫= f).
Proof. intros Hf s. unfold lift, mbind, M_bind. destruct r as [a|e]; simpl; [by apply Hf|reflexivity]. Qed.

(** Structural rules. *)
Lemma triple_respects_true {A} P (m : M E S A) : respects m → triple P m (λ _ _, True).
Proof. intros Hm s _. split; [apply Hm|done]. Qed.

Lemma triple_ret {A} P (a : A) (Q : A → S → Prop) : (∀ s, P s → Q a s) → triple P (mret a) Q.
Proof. intros HQ s Hs. split; [reflexivity|]. intros ? [= <-]. by apply HQ. Qed.

Lemma triple_throw {A} P (e : E) (Q : A → S → Prop) : triple P (throw e) Q.
Proof. intros s _. split; [reflexivity|done]. Qed.

Lemma triple_pure {A} (φ : Prop) P (m : M E S A) Q :
  (φ → triple P m Q) → triple (λ s, φ ∧ P s) m Q.
Proof. intros Hm s [Hφ HP]. by apply Hm. Qed.

Lemma triple_bind_lift {A B} P (r : Result E A) (f : A → M E S B) K :
  (∀ a, r = Ok a → triple P (f a) K) → triple P (lift r ≫= f) K.
Proof.
  intros Hf s HP. unfold lift, mbind, M_bind. destruct r as [a|e]; simpl; [by apply Hf|].
  split; [reflexivity|done].
Qed.

Lemma triple_bind_gets {A B} P (g : S → A) (f : A → M E S B) K :
  (∀ a, triple (λ s, P s ∧ g s = a) (f a) K) → triple P (gets g ≫= f) K.
Proof. intros Hf s HP. by apply (Hf (g s)). Qed.

(** What a run returns, added to what it keeps. *)
Lemma triple_and {A} P (m : M E S A) Q (Q' : A → S → Prop) :
  triple P m Q → (∀ s a s', P s → m s = (Ok a, s') → Q' a s') →
  triple P m (λ a s, Q a s ∧ Q' a s).
Proof.
  intros Hm HQ s HP. destruct (Hm s HP) as [HR Ha]. split; [done|]. intros a Hr.
  split; [by apply Ha|]. destruct (m s) as [r s'] eqn:Hs; simpl in *. subst r. by eapply HQ.
Qed.

Lemma triple_result {A} P (m : M E S A) (Q : A → S → Prop) :
  respects m → (∀ s a s', m s = (Ok a, s') → Q a s') → triple P m Q.
Proof.
  intros Hm HQ s _. split; [apply Hm|]. intros a Hr.
  destruct (m s) as [r s'] eqn:Hs; simpl in *. subst r. by eapply HQ.
Qed.

Lemma triple_try {A} P (m : M E S A) h Q :
  triple P m Q → (∀ e, triple (λ _, True) (h e) Q) → triple P (try_catch m h) Q.
Proof.
  intros Hm Hh s HP. destruct (Hm s HP) as [HR HQ]. unfold try_catch.
  destruct (m s) as [[a|e] s'] eqn:Hs; simpl in *; [split; [done|]; intros ? [= <-]; by apply HQ|].
  destruct (Hh e s' I) as [HR' HQ']. split; [by etrans|done].
Qed.

Lemma triple_for_each {A} P (f : A → M E S unit) l :
  (∀ x, x ∈ l → triple P (f x) (λ _, P)) → triple P (for_each f l) (λ _, P).
Proof.
  induction l as [|x l IH]; intros Hf; simpl; [by apply triple_ret|].
  apply (triple_bind P (f x) (λ _, P)); [apply Hf; left|]. intros _. apply IH.
  intros y Hy. apply Hf. by right.
Qed.

End logic.

(** A relation the run also keeps carries the assertions closed under both. *)
Lemma triple_bind_keep {E S A B} (R R' : relation S) `{!PreOrder R} P
    (m : M E S A) (f : A → M E S B) K :
  (∀ s s', R s s' → R' s s' → P s → P s') →
  respects R' m → respects R m → (∀ a, triple R P (f a) K) → triple R P (m ≫= f) K.
Proof.
  intros HP Hk Hm Hf. apply (triple_bind R P m (λ _, P)); [|exact Hf].
  intros s Hs. split; [apply Hm|]. intros _ _. exact (HP _ _ (Hm s) (Hk s) Hs).
Qed.

(** What every result of a traversal satisfies. *)
Lemma map_each_Forall {E S A B} (f : A → M E S B) (φ : B → Prop) l s ys s' :
  (∀ x s y s', f x s = (Ok y, s') → φ y) → map_each f l s = (Ok ys, s') → Forall φ ys.
Proof.
  intros Hf. revert s ys s'. induction l as [|x l IH]; intros s ys s' Hrun; simpl in Hrun.
  { apply ret_ok in Hrun as [<- _]. constructor. }
  apply bind_ok in Hrun as (y & s1 & Hy & Hrun). apply bind_ok in Hrun as (zs & s2 & Hzs & Hrun).
  apply ret_ok in Hrun as [<- _]. constructor; [by eapply Hf|by eapply IH].
Qed.

(** [respects_auto tac]: decompose a computation into primitive calls, closing
    each call with the hints of [esign]. *)
Ltac respects_step :=
  lazymatch goal with
  | |- respects _ (lift _ ≫= _) => apply respects_bind_lift; [apply _|intros ? ?]
  | |- respects _ (_ ≫= _) => apply respects_bind; [apply _| |intros ?]
  | |- respects _ (_ <$> _) => apply respects_fmap
  | |- respects _ (mret _) => apply respects_ret; apply _
  | |- respects _ (throw _) => apply respects_throw; apply _
  | |- respects _ (gets _) => apply respects_gets; apply _
  | |- respects _ (lift _) => apply respects_lift; apply _
  | |- respects _ (for_each _ _) => apply respects_for_each; [apply _|intros ? ?]
  | |- respects _ (map_each _ _) => apply respects_map_each; [apply _|intros ? ?]
  | |- respects _ (try_catch _ _) => apply respects_try; [apply _| |intros ?]
  | |- respects _ (if ?b then _ else _) => destruct b eqn:?
  | |- respects _ (match ?x with _ => _ end) => destruct x eqn:?
  | |- respects _ (let _ := _ in _) => cbv zeta
  end.
Ltac respects_auto :=
  repeat first [ progress (respects_step) | solve [eauto 4 with esign] ].

(** ** Tables

    The stores keep rows in arrays.  [find_index] is [Array.findIndex]
    together with the row it finds. *)

Section tables.
Context {T : Type}.
Implicit Types (p : T → bool) (l : list T).

Definition find_index p l : option (nat * T) := list_find (λ x, p x = true) l.
Definition find_row p l : option T := snd <$> find_index p l.

Lemma find_index_Some p l i x :
  find_index p l = Some (i, x) ↔
  l !! i = Some x ∧ p x = true ∧ ∀ j y, l !! j = Some y → j < i → p y = false.
Proof.
  unfold find_index. rewrite list_find_Some.
  split; intros (? & ? & H); split_and!; try done; intros j y Hj Hlt;
    specialize (H j y Hj Hlt); by destruct (p y).
Qed.

Lemma find_index_None p l : find_index p l = None ↔ ∀ x, x ∈ l → p x = false.
Proof.
  unfold find_index. rewrite list_find_None, Forall_forall.
  split; intros H x Hx; specialize (H x Hx); by destruct (p x).
Qed.

Lemma find_row_Some p l x : find_row p l = Some x → x ∈ l ∧ p x = true.
Proof.
  unfold find_row. rewrite fmap_Some. intros ([i y] & Hf & ->).
  apply find_index_Some in Hf as (Hl & Hp & _). split; [by eapply list_elem_of_lookup_2|done].
Qed.

Lemma find_row_None p l : find_row p l = None ↔ ∀ x, x ∈ l → p x = false.
Proof. unfold find_row. rewrite fmap_None. apply find_index_None. Qed.

(** Rows change in place by [rel], and new rows are appended that come from
    an initial row by [rel]. *)
Definition evolves (rel : relation T) (init : T → Prop) (l l' : list T) : Prop :=
  ∃ l1 l2, l' = l1 ++ l2 ∧ Forall2 rel l l1 ∧ Forall (λ y, ∃ x, init x ∧ rel x y) l2.

#[export] Instance evolves_preorder rel init `{!PreOrder rel} : PreOrder (evolves rel init).
Proof.
  split.
  - intros l. exists l, []. rewrite app_nil_r. split_and!; [done| |constructor].
    induction l; constructor; done.
  - intros l1 l2 l3 (a & b & -> & Hab & Hb) (c & d & -> & Hcd & Hd).
    apply Forall2_app_inv_l in Hcd as (c1 & c2 & Hc1 & Hc2 & ->).
    exists c1, (c2 ++ d). rewrite app_assoc. split_and!; [done| |].
    + clear -Hab Hc1 PreOrder0. revert c1 Hc1.
      induction Hab; intros c1 Hc1; inversion Hc1; subst; constructor; [by etrans|auto].
    + apply Forall_app. split; [|done]. clear -Hb Hc2 PreOrder0. revert c2 Hc2.
      induction Hb as [|y b (x & Hi & Hx)]; intros c2 Hc2; inversion Hc2; subst; constructor;
        [exists x; split; [done|by etrans]|auto].
Qed.

Lemma evolves_write rel init `{!PreOrder rel} l i x y :
  l !! i = Some x → rel x y → evolves rel init l (<[i := y]> l).
Proof.
  intros Hi Hxy. exists (<[i := y]> l), []. rewrite app_nil_r. split_and!; [done| |constructor].
  apply Forall2_same_length_lookup_2; [by rewrite length_insert|].
  intros j a b Ha Hb. destruct (decide (i = j)) as [->|Hne].
  - rewrite list_lookup_insert_eq in Hb by (by eapply lookup_lt_Some). by simplify_eq.
  - rewrite list_lookup_insert_ne in Hb by done. by simplify_eq.
Qed.

Lemma evolves_push rel init `{!PreOrder rel} l x :
  init x → evolves rel init l (l ++ [x]).
Proof.
  intros Hx. exists l, [x]. split_and!; [done| |by repeat econstructor].
  induction l; constructor; done.
Qed.

Lemma evolves_lookup rel init l l' i x :
  evolves rel init l l' → l !! i = Some x → ∃ y, l' !! i = Some y ∧ rel x y.
Proof.
  intros (l1 & l2 & -> & H & _) Hi. destruct (Forall2_lookup_l _ _ _ _ _ H Hi) as (y & Hy & ?).
  exists y. split; [by apply lookup_app_l_Some|done].
Qed.

Lemma evolves_elem rel init l l' y :
  evolves rel init l l' → y ∈ l' → (∃ x, x ∈ l ∧ rel x y) ∨ ∃ x, init x ∧ rel x y.
Proof.
  intros (l1 & l2 & -> & H & Hn). rewrite elem_of_app. intros [Hy|Hy].
  - left. apply list_elem_of_lookup in Hy as [i Hi].
    destruct (Forall2_lookup_r _ _ _ _ _ H Hi) as (x & Hx & ?).
    exists x. split; [by eapply list_elem_of_lookup_2|done].
  - right. by apply (proj1 (Forall_forall _ _) Hn).
Qed.

(** The first row matching a key stays the first one as long as rows keep
    their key. *)
Lemma evolves_find_index rel init p l l' i x :
  (∀ a b, rel a b → p a = p b) →
  evolves rel init l l' → find_index p l = Some (i, x) →
  ∃ y, find_index p l' = Some (i, y) ∧ rel x y.
Proof.
  intros Hp Hev Hf. apply find_index_Some in Hf as (Hi & Hpx & Hbefore).
  destruct (evolves_lookup _ _ _ _ _ _ Hev Hi) as (y & Hy & Hxy).
  exists y. split; [|done]. apply find_index_Some. split_and!; [done| |].
  - by rewrite <-(Hp _ _ Hxy).
  - intros j z Hj Hlt. destruct (lookup_lt_is_Some_2 l j) as [w Hw].
    { apply lookup_lt_Some in Hi. lia. }
    destruct (evolves_lookup _ _ _ _ _ _ Hev Hw) as (z' & Hz' & Hwz). simplify_eq.
    rewrite <-(Hp _ _ Hwz). eauto.
Qed.
End tables.

(** Looking a row up after an in-place update that keeps what is looked for. *)
Lemma find_index_write {T} (p : T → bool) l i x y :
  l !! i = Some x → p x = p y →
  find_index p (<[i := y]> l) =
  (λ e, (e.1, if decide (e.1 = i) then y else e.2)) <$> find_index p l.
Proof.
  intros Hi Hxy. destruct (find_index p l) as [[n u]|] eqn:Hf; simpl.
  - apply find_index_Some in Hf as (Hn & Hp & Hb). apply find_index_Some.
    assert (∀ j z, <[i:=y]> l !! j = Some z → ∃ w, l !! j = Some w ∧ p z = p w) as Hj.
    { intros j z Hz. destruct (decide (i = j)) as [->|Hne].
      - rewrite list_lookup_insert_eq in Hz by (by eapply lookup_lt_Some).
        exists x. split; [done|]. congruence.
      - rewrite list_lookup_insert_ne in Hz by done. eauto. }
    split_and!.
    + case_decide as Hni; [subst; apply list_lookup_insert_eq; by eapply lookup_lt_Some|].
      by rewrite list_lookup_insert_ne.
    + case_decide as Hni; [subst; congruence|done].
    + intros j z Hz Hlt. destruct (Hj j z Hz) as (w & Hw & ->). eauto.
  - apply find_index_None. rewrite find_index_None in Hf. intros z Hz.
    apply list_elem_of_lookup in Hz as [j Hj]. destruct (decide (i = j)) as [->|Hne].
    + rewrite list_lookup_insert_eq in Hj by (by eapply lookup_lt_Some). injection Hj as <-.
      rewrite <-Hxy. apply Hf. by eapply list_elem_of_lookup_2.
    + rewrite list_lookup_insert_ne in Hj by done. apply Hf. by eapply list_elem_of_lookup_2.
Qed.

Lemma find_row_write {T} (p : T → bool) l i x y z :
  l !! i = Some x → p x = p y → find_row p (<[i := y]> l) = Some z →
  find_row p l = Some z ∨ find_row p l = Some x ∧ z = y.
Proof.
  intros Hi Hxy. unfold find_row. rewrite (find_index_write _ _ _ _ _ Hi Hxy).
  destruct (find_index p l) as [[n u]|] eqn:Hf; simpl; [|done]. intros [= <-].
  case_decide; [subst|by left]. right.
  apply find_index_Some in Hf as (Hn & _). split; [congruence|done].
Qed.

Lemma find_row_push {T} (p : T → bool) l x z :
  find_row p (l ++ [x]) = Some z → find_row p l = Some z ∨ z = x.
Proof.
  unfold find_row. rewrite !fmap_Some. intros ([n u] & Hf & ->).
  apply find_index_Some in Hf as (Hn & Hp & Hb). simpl.
  apply lookup_app_Some in Hn as [Hn|[Hlen Hn]].
  - left. exists (n, u). split; [|done]. apply find_index_Some. split_and!; [done..|].
    intros j y Hj. apply Hb. by apply lookup_app_l_Some.
  - right. apply list_lookup_singleton_Some in Hn as [_ Hn]. done.
Qed.

(** Filtering after an in-place update or a push. *)
Lemma filter_insert_same {T} (q : T → bool) (l : list T) i x y :
  l !! i = Some x → q x = false → q y = false →
  List.filter q (<[i := y]> l) = List.filter q l.
Proof.
  intros Hi Hx Hy. rewrite <-(take_drop_middle _ _ _ Hi) at 2.
  rewrite insert_take_drop by (by eapply lookup_lt_Some).
  rewrite !List.filter_app. simpl. by rewrite Hx, Hy.
Qed.

Lemma filter_push_false {T} (q : T → bool) (l : list T) x :
  q x = false → List.filter q (l ++ [x]) = List.filter q l.
Proof. intros Hx. rewrite List.filter_app. simpl. rewrite Hx. by rewrite app_nil_r. Qed.
