(* ===== verification/Js.v ===== *)
(** The part of JavaScript the program is written in: dynamically typed
    values, strings, dates, and the application errors of
    [packages/domain/src/errors.ts].

    A string is a sequence of UTF-16 code units below 256, one [ascii] each;
    text outside Latin-1 is not modelled.  A date is its time value in
    milliseconds, [None] the invalid date.  A number is an integer or a
    binary64 ([spec_float]). *)

From Stdlib Require Import SpecFloat Ascii String.
From Stdlib Require Import Sorted.
From stdpp Require Import pretty sorting.
From S2P Require Export Prelude.
Open Scope Z_scope.

(** ** Values *)

Inductive jsnum : Type :=
  | NInt (z : Z)
  | NFlt (f : spec_float).

Definition JsDate : Type := option Z.

(** A value of type [unknown]. [VBytes] is any [ArrayBuffer] view and
    [VOther ty] a value whose [typeof] is [ty] (a function, symbol, bigint). *)
Inductive value : Type :=
  | VUndef
  | VNull
  | VBool (b : bool)
  | VNum (n : jsnum)
  | VStr (s : string)
  | VDate (d : JsDate)
  | VBytes (b : list Z)
  | VArr (l : list value)
  | VObj (m : list (string * value))
  | VOther (ty : string).

Definition object : Type := list (string * value).

(** [obj.key]. *)
Fixpoint prop (key : string) (o : object) : value :=
  match o with
  | [] => VUndef
  | (k, v) :: o => if String.eqb k key then v else prop key o
  end.

(** [{ ...obj, key: v }]: an own key keeps its place. *)
Fixpoint assign (key : string) (v : value) (o : object) : object :=
  match o with
  | [] => [(key, v)]
  | (k, w) :: o => if String.eqb k key then (k, v) :: o else (k, w) :: assign key v o
  end.

Definition keys (o : object) : list string := o.*1.

(** [x ?? d]. *)
Definition or_default (x d : value) : value :=
  match x with VUndef | VNull => d | _ => x end.

Definition nullable {A} (f : A → value) (x : option A) : value :=
  match x with Some a => f a | None => VNull end.

Lemma prop_assign_same k v o : prop k (assign k v o) = v.
Proof.
  induction o as [|[k' w] o IH]; simpl; [by rewrite String.eqb_refl|].
  destruct (String.eqb k' k) eqn:Hk; simpl; rewrite Hk; [done|exact IH].
Qed.

Lemma prop_assign_other k k' v o : k ≠ k' → prop k (assign k' v o) = prop k o.
Proof.
  intros Hne. induction o as [|[j w] o IH]; simpl.
  - by rewrite (proj2 (String.eqb_neq k' k)) by done.
  - destruct (String.eqb j k') eqn:Hj; simpl; destruct (String.eqb j k) eqn:Hj'; try done.
    apply String.eqb_eq in Hj, Hj'. congruence.
Qed.

Lemma prop_app_l k v (o o' : object) :
  prop k o = v → v ≠ VUndef → prop k (o ++ o') = v.
Proof.
  induction o as [|[j w] o IH]; simpl; intros Hv Hne; [congruence|].
  destruct (String.eqb j k); [done|by apply IH].
Qed.

(** ** Strings *)

Definition code (c : ascii) : Z := Z.of_N (N_of_ascii c).
Definition char (z : Z) : ascii := ascii_of_N (Z.to_N z).
Definition str_length (s : string) : Z := Z.of_nat (String.length s).
Definition units (s : string) : list ascii := list_ascii_of_string s.
Definition of_units (l : list ascii) : string := string_of_list_ascii l.

Definition startsWith (p s : string) : bool := String.prefix p s.

Fixpoint includes (sub s : string) : bool :=
  startsWith sub s || match s with EmptyString => false | String _ s => includes sub s end.

Definition endsWithChar (c : ascii) (s : string) : bool :=
  match last (units s) with Some d => Ascii.eqb d c | None => false end.

(** [s.slice(0, -1)]. *)
Definition drop_last_char (s : string) : string :=
  of_units (take (List.length (units s) - 1) (units s)).

(** [s.slice(0, n)]. *)
Definition slice_to (n : Z) (s : string) : string := of_units (take (Z.to_nat n) (units s)).

(** [s.split(c)]: always at least one segment. *)
Fixpoint split_at (c : ascii) (l : list ascii) : list (list ascii) :=
  match l with
  | [] => [[]]
  | d :: l =>
    match split_at c l with
    | [] => [[d]]
    | seg :: segs => if Ascii.eqb d c then [] :: seg :: segs else (d :: seg) :: segs
    end
  end.
Definition split (c : ascii) (s : string) : list string := of_units <$> split_at c (units s).

(** White space removed by [String.prototype.trim], below 256. *)
Definition is_space (c : ascii) : bool :=
  let z := code c in ((9 <=? z) && (z <=? 13)) || (z =? 32) || (z =? 160).

Fixpoint drop_while (p : ascii → bool) (l : list ascii) : list ascii :=
  match l with [] => [] | c :: l' => if p c then drop_while p l' else l end.

Definition trim (s : string) : string :=
  of_units (reverse (drop_while is_space (reverse (drop_while is_space (units s))))).

(** [toLowerCase] below 256: ASCII letters, and U+00C0..U+00DE but U+00D7. *)
Definition lower_char (c : ascii) : ascii :=
  let z := code c in
  if ((65 <=? z) && (z <=? 90)) || ((192 <=? z) && (z <=? 222) && negb (z =? 215))
  then char (z + 32) else c.
Definition toLowerCase (s : string) : string := of_units (lower_char <$> units s).

(** Template literals and [String(n)] for an integer. *)
Definition of_int (z : Z) : string := pretty z.

(** Order of [Array.prototype.sort] on strings: by code units. *)
Fixpoint string_leb (a b : string) : bool :=
  match a, b with
  | EmptyString, _ => true
  | String _ _, EmptyString => false
  | String c a, String d b =>
    if Ascii.eqb c d then string_leb a b else code c <? code d
  end.

Fixpoint insert_by {A} (le : A → A → bool) (x : A) (l : list A) : list A :=
  match l with
  | [] => [x]
  | y :: l' => if le x y then x :: l else y :: insert_by le x l'
  end.
(** A stable sort, as [Array.prototype.sort] is. *)
Definition sort_by {A} (le : A → A → bool) (l : list A) : list A :=
  foldr (insert_by le) [] l.

Lemma insert_by_perm {A} (le : A → A → bool) x l : insert_by le x l ≡ₚ x :: l.
Proof.
  induction l as [|y l IH]; simpl; [done|]. destruct (le x y); [done|].
  rewrite IH. apply Permutation_swap.
Qed.

Lemma sort_by_perm {A} (le : A → A → bool) l : sort_by le l ≡ₚ l.
Proof. induction l as [|x l IH]; simpl; [done|]. by rewrite insert_by_perm, IH. Qed.

Lemma sort_by_elem {A} (le : A → A → bool) l x : x ∈ sort_by le l ↔ x ∈ l.
Proof. by rewrite sort_by_perm. Qed.

Lemma sort_by_Forall {A} (Q : A → Prop) (le : A → A → bool) l :
  Forall Q (sort_by le l) ↔ Forall Q l.
Proof. rewrite !Forall_forall. by setoid_rewrite sort_by_elem. Qed.

Lemma string_leb_refl a : string_leb a a = true.
Proof. induction a as [|c a IH]; simpl; [done|]. by rewrite Ascii.eqb_refl. Qed.

Lemma code_inj c d : code c = code d → c = d.
Proof.
  unfold code. intros Hc. apply (inj Z.of_N) in Hc.
  by rewrite <-(ascii_N_embedding c), Hc, ascii_N_embedding.
Qed.

Lemma string_leb_antisym a b : string_leb a b = true → string_leb b a = true → a = b.
Proof.
  revert b. induction a as [|c a IH]; intros [|d b]; simpl; try done.
  destruct (Ascii.eqb c d) eqn:Hcd.
  - apply Ascii.eqb_eq in Hcd as ->. rewrite Ascii.eqb_refl. intros. f_equal. by apply IH.
  - rewrite Ascii.eqb_sym, Hcd. lia.
Qed.

Lemma string_leb_total a b : string_leb a b = true ∨ string_leb b a = true.
Proof.
  revert b. induction a as [|c a IH]; intros [|d b]; simpl; auto.
  destruct (Ascii.eqb c d) eqn:Hcd.
  - apply Ascii.eqb_eq in Hcd as ->. rewrite Ascii.eqb_refl. apply IH.
  - rewrite Ascii.eqb_sym, Hcd. apply Ascii.eqb_neq in Hcd.
    assert (code c ≠ code d) by (intros ?; by apply Hcd, code_inj). lia.
Qed.

Lemma string_leb_trans a b c :
  string_leb a b = true → string_leb b c = true → string_leb a c = true.
Proof.
  revert b c. induction a as [|x a IH]; intros [|y b] [|z c]; simpl; try done.
  destruct (Ascii.eqb x y) eqn:Hxy, (Ascii.eqb y z) eqn:Hyz.
  - apply Ascii.eqb_eq in Hxy as ->. rewrite Hyz. apply IH.
  - apply Ascii.eqb_eq in Hxy as ->. by rewrite Hyz.
  - apply Ascii.eqb_eq in Hyz as ->. by rewrite Hxy.
  - intros H1 H2. assert (Ascii.eqb x z = false) as ->; [|lia].
    apply Ascii.eqb_neq. intros ->. lia.
Qed.

Section sorting.
Context {A : Type} (le : A → A → bool).
Hypothesis le_total : ∀ a b, le a b = true ∨ le b a = true.
Hypothesis le_trans : ∀ a b c, le a b = true → le b c = true → le a c = true.
#[local] Abbreviation below := (λ a b, le a b = true).

Lemma insert_by_sorted x l : StronglySorted below l → StronglySorted below (insert_by le x l).
Proof.
  induction 1 as [|y l Hl IH Hy]; simpl; [by repeat constructor|].
  destruct (le x y) eqn:Hxy.
  - constructor; [by constructor|]. constructor; [done|].
    eapply Forall_impl; [exact Hy|]. intros z. by apply le_trans.
  - constructor; [done|]. rewrite insert_by_perm. constructor; [|done].
    destruct (le_total x y); [congruence|done].
Qed.

Lemma sort_by_sorted l : StronglySorted below (sort_by le l).
Proof. induction l as [|x l IH]; simpl; [constructor|]. by apply insert_by_sorted. Qed.

(** Permuted rows without ties sort to the same list. *)
Lemma sort_by_permutation l l' :
  (∀ a b, a ∈ l → b ∈ l → le a b = true → le b a = true → a = b) → l ≡ₚ l' →
  sort_by le l = sort_by le l'.
Proof.
  intros Hanti Hp. eapply (StronglySorted_unique_strong below); [|apply sort_by_sorted..|].
  - intros a b. rewrite !sort_by_elem, <-Hp. apply Hanti.
  - by rewrite !sort_by_perm.
Qed.
End sorting.

(** ** Facts on strings *)

Lemma startsWith_iff p s : startsWith p s = true ↔ ∃ k, s = p +:+ k.
Proof.
  unfold startsWith. revert s. induction p as [|c p IH]; intros s; simpl.
  { split; [by exists s | by destruct s]. }
  destruct s as [|d s]; simpl; [split; [done|by intros []]|].
  destruct (ascii_dec c d) as [->|Hne].
  - rewrite IH. split.
    + intros [k ->]. by exists k.
    + intros [k [= Hk]]. by exists k.
  - split; [done|]. intros [k [= ? ?]]. congruence.
Qed.

Lemma startsWith_app p k : startsWith p (p +:+ k) = true.
Proof. apply startsWith_iff. by exists k. Qed.

Lemma string_app_inj a b x y :
  String.length a = String.length b → a +:+ x = b +:+ y → a = b ∧ x = y.
Proof.
  revert b. induction a as [|c a IH]; intros [|d b]; simpl; try done.
  intros Hl Heq. injection Hl as Hl. injection Heq as Hc Heq. subst d.
  destruct (IH b Hl Heq) as [-> ->]. done.
Qed.

Lemma append_assoc a b c : (a +:+ b) +:+ c = a +:+ (b +:+ c).
Proof. induction a as [|x a IH]; [done|]. exact (f_equal (String x) IH). Qed.

Lemma units_app a b : units (a +:+ b) = units a ++ units b.
Proof. unfold units. induction a as [|c a IH]; simpl; [done|by rewrite IH]. Qed.

Lemma of_units_units s : of_units (units s) = s.
Proof. apply string_of_list_ascii_of_string. Qed.

Lemma units_of_units l : units (of_units l) = l.
Proof. apply list_ascii_of_string_of_list_ascii. Qed.

Lemma units_length s : length (units s) = String.length s.
Proof. unfold units. induction s as [|c s IH]; simpl; [done|by rewrite IH]. Qed.

Lemma units_inj a b : units a = units b → a = b.
Proof. intros H. rewrite <-(of_units_units a), <-(of_units_units b). by rewrite H. Qed.

Lemma split_at_nonempty c l : split_at c l ≠ [].
Proof. induction l as [|d l IH]; simpl; [done|]. by destruct (split_at c l), (Ascii.eqb d c). Qed.

Lemma split_at_app c l l' :
  split_at c (l ++ c :: l') = split_at c l ++ split_at c l'.
Proof.
  induction l as [|d l IH]; simpl.
  - destruct (split_at c l') eqn:H; [by apply split_at_nonempty in H|].
    by rewrite (proj2 (Ascii.eqb_eq c c) eq_refl).
  - rewrite IH. destruct (split_at c l) as [|seg segs] eqn:H;
      [by apply split_at_nonempty in H|]. simpl. by destruct (Ascii.eqb d c).
Qed.

Lemma split_at_free c l : c ∉ l → split_at c l = [l].
Proof.
  induction l as [|d l IH]; simpl; [done|]. rewrite not_elem_of_cons. intros [Hne Hl].
  rewrite IH by done. by rewrite (proj2 (Ascii.eqb_neq d c)) by done.
Qed.

(** Splitting at a separator, and at a string without it. *)
Lemma split_app c a b : split c (a +:+ String c b) = split c a ++ split c b.
Proof.
  unfold split. rewrite units_app. simpl.
  change (units (String c b)) with (c :: units b). by rewrite split_at_app, fmap_app.
Qed.
Lemma split_free c s : c ∉ units s → split c s = [s].
Proof. intros H. unfold split. rewrite split_at_free by done. simpl. by rewrite of_units_units. Qed.

(** ** Numbers

    Arithmetic on integers is exact below [2^53], the range the program's
    integers stay in; everything else is binary64. *)

Definition prec : Z := 53.
Definition emax : Z := 1024.

Definition to_float (n : jsnum) : spec_float :=
  match n with NInt z => binary_normalize prec emax z 0 false | NFlt f => f end.

Definition num_ltb (a b : jsnum) : bool :=
  match a, b with NInt x, NInt y => x <? y | _, _ => SFltb (to_float a) (to_float b) end.
Definition num_leb (a b : jsnum) : bool :=
  match a, b with NInt x, NInt y => x <=? y | _, _ => SFleb (to_float a) (to_float b) end.
Definition num_eqb (a b : jsnum) : bool :=
  match a, b with NInt x, NInt y => x =? y | _, _ => SFeqb (to_float a) (to_float b) end.
Definition num_add (a b : jsnum) : jsnum :=
  match a, b with
  | NInt x, NInt y => NInt (x + y)
  | _, _ => NFlt (SFadd prec emax (to_float a) (to_float b))
  end.

Definition isNaN (n : jsnum) : bool := match n with NFlt S754_nan => true | _ => false end.

(** [Number.isFinite] and [Number.isInteger]. *)
Definition isFinite (n : jsnum) : bool :=
  match n with NFlt S754_nan | NFlt (S754_infinity _) => false | _ => true end.
Definition isInteger (n : jsnum) : bool :=
  match n with
  | NInt _ => true
  | NFlt (S754_zero _) => true
  | NFlt (S754_finite _ m e) => (0 <=? e) || (Zpos m mod 2 ^ (- e) =? 0)
  | NFlt _ => false
  end.

(** [Math.min(...l)]. *)
Definition num_min (a b : jsnum) : jsnum :=
  if isNaN a then a else if isNaN b then b else if num_ltb b a then b else a.
Definition math_min (l : list jsnum) : jsnum :=
  foldr num_min (NFlt (S754_infinity false)) l.

(** ** Dates *)

Definition pad (n : nat) (s : string) : string :=
  String.append (of_units (replicate (n - String.length s) "0"%char)) s.

(** Proleptic Gregorian date of a day count from 1970-01-01. *)
Definition civil_from_days (days : Z) : Z * Z * Z :=
  let z := days + 719468 in
  let era := z / 146097 in
  let doe := z mod 146097 in
  let yoe := (doe - doe / 1460 + doe / 36524 - doe / 146096) / 365 in
  let doy := doe - (365 * yoe + yoe / 4 - yoe / 100) in
  let mp := (5 * doy + 2) / 153 in
  let day := doy - (153 * mp + 2) / 5 + 1 in
  let month := if mp <? 10 then mp + 3 else mp - 9 in
  let year := yoe + era * 400 + (if month <=? 2 then 1 else 0) in
  (year, month, day).

Definition format_year (y : Z) : string :=
  if (0 <=? y) && (y <=? 9999) then pad 4 (of_int y)
  else String.append (if y <? 0 then "-" else "+") (pad 6 (of_int (Z.abs y))).

(** [Date.prototype.toISOString] of a valid date. *)
Definition toISOString (t : Z) : string :=
  let '(y, m, d) := civil_from_days (t / 86400000) in
  let ms := t mod 86400000 in
  String.concat EmptyString
    [format_year y; "-"; pad 2 (of_int m); "-"; pad 2 (of_int d); "T";
     pad 2 (of_int (ms / 3600000)); ":"; pad 2 (of_int (ms / 60000 mod 60)); ":";
     pad 2 (of_int (ms / 1000 mod 60)); "."; pad 3 (of_int (ms mod 1000)); "Z"].

Example toISOString_epoch : toISOString 0 = "1970-01-01T00:00:00.000Z"%string.
Proof. reflexivity. Qed.
Example toISOString_2026 : toISOString 1787616000123 = "2026-08-25T00:00:00.123Z"%string.
Proof. reflexivity. Qed.

(** ** Application errors *)

(* [src: packages/domain/src/errors.ts:1-14 ApplicationErrorKind] *)
Inductive ApplicationErrorKind : Type :=
  | validation | authentication | authorization | not_found | conflict
  | invalid_state_transition | integrity | external_service | rate_limit.

#[export] Instance ApplicationErrorKind_eq_dec : EqDecision ApplicationErrorKind.
Proof. solve_decision. Defined.

(** A thrown value: an [ApplicationError] with its details, or any other
    error, with its [name] and [message]. *)
(* [src: packages/domain/src/errors.ts:16-31 ApplicationError] *)
Inductive Exn : Type :=
  | AppError (kind : ApplicationErrorKind) (details : object)
  | OtherError (name message : string).

(* [src: packages/domain/src/errors.ts:29-31 isApplicationError] *)
Definition isApplicationError (e : Exn) : bool :=
  match e with AppError _ _ => true | OtherError _ _ => false end.

(* [src: packages/domain/src/errors.ts:33-39 ValidationError] *)
Definition ValidationError (details : object) : Exn := AppError validation details.
(* [src: packages/domain/src/errors.ts:41-47 AuthenticationError] *)
Definition AuthenticationError (details : object) : Exn := AppError authentication details.
(* [src: packages/domain/src/errors.ts:49-55 AuthorizationError] *)
Definition AuthorizationError (details : object) : Exn := AppError authorization details.
(* [src: packages/domain/src/errors.ts:57-63 NotFoundError] *)
Definition NotFoundError (details : object) : Exn := AppError not_found details.
(* [src: packages/domain/src/errors.ts:65-71 ConflictError] *)
Definition ConflictError (details : object) : Exn := AppError conflict details.
(* [src: packages/domain/src/errors.ts:73-79 InvalidStateTransitionError] *)
Definition InvalidStateTransitionError (details : object) : Exn :=
  AppError invalid_state_transition details.
(* [src: packages/domain/src/errors.ts:81-87 IntegrityError] *)
Definition IntegrityError (details : object) : Exn := AppError integrity details.
(* [src: packages/domain/src/errors.ts:89-95 ExternalServiceError] *)
Definition ExternalServiceError (details : object) : Exn := AppError external_service details.
(* [src: packages/domain/src/errors.ts:97-103 RateLimitError] *)
Definition RateLimitError (details : object) : Exn := AppError rate_limit details.

(** Details are written as the source writes them: [{ field, reason }]. *)
Definition fieldReason (field reason : string) : object :=
  [("field", VStr field); ("reason", VStr reason)]%string.
Definition reasonOnly (reason : string) : object := [("reason", VStr reason)]%string.
Definition resourceOnly (resource : string) : object := [("resource", VStr resource)]%string.
