(* ===== verification/Entities.v ===== *)
(** Entities of [packages/domain/src/entities.ts] and [request-actor.ts]: one
    module per type, with the constructors and members of the source.

    [Module.t] is the type, [Module.mk] its constructor, [Module.set_x v r] is
    [{ ...r, x: v }], and [Module.to_string] the literal an enumeration's
    constructor stands for. *)

From Stdlib Require Import String.
From S2P Require Export Js.
Local Open Scope string_scope.

Module DocumentState.
(* [src: packages/domain/src/entities.ts:3-17 DocumentState] *)
Inductive t : Type :=
  | draft | prepared | sent | in_progress | completed | finalizing | finalized | voided | expired | declined | finalization_failed.
#[global] Instance eq_dec : EqDecision t.
Proof. solve_decision. Defined.
Definition to_string (x : t) : string :=
  match x with
  | draft => "draft"
  | prepared => "prepared"
  | sent => "sent"
  | in_progress => "in_progress"
  | completed => "completed"
  | finalizing => "finalizing"
  | finalized => "finalized"
  | voided => "voided"
  | expired => "expired"
  | declined => "declined"
  | finalization_failed => "finalization_failed"
  end.
Definition all : list t := [draft; prepared; sent; in_progress; completed; finalizing; finalized; voided; expired; declined; finalization_failed].
End DocumentState.

Module SignerStatus.
(* [src: packages/domain/src/entities.ts:19-20 SignerStatus] *)
Inductive t : Type :=
  | pending | signed | declined.
#[global] Instance eq_dec : EqDecision t.
Proof. solve_decision. Defined.
Definition to_string (x : t) : string :=
  match x with
  | pending => "pending"
  | signed => "signed"
  | declined => "declined"
  end.
Definition all : list t := [pending; signed; declined].
End SignerStatus.

Module SigningSessionStatus.
(* [src: packages/domain/src/entities.ts:22-29 SigningSessionStatus] *)
Inductive t : Type :=
  | issued | active | completed | expired | revoked.
#[global] Instance eq_dec : EqDecision t.
Proof. solve_decision. Defined.
Definition to_string (x : t) : string :=
  match x with
  | issued => "issued"
  | active => "active"
  | completed => "completed"
  | expired => "expired"
  | revoked => "revoked"
  end.
Definition all : list t := [issued; active; completed; expired; revoked].
End SigningSessionStatus.

Module SignatureFieldType.
(* [src: packages/domain/src/entities.ts:31-37 SignatureFieldType] *)
Inductive t : Type :=
  | signature | initials | date_signed | signer_name.
#[global] Instance eq_dec : EqDecision t.
Proof. solve_decision. Defined.
Definition to_string (x : t) : string :=
  match x with
  | signature => "signature"
  | initials => "initials"
  | date_signed => "date_signed"
  | signer_name => "signer_name"
  end.
Definition all : list t := [signature; initials; date_signed; signer_name].
End SignatureFieldType.

Module SigningMode.
(* [src: packages/domain/src/entities.ts:39-40 SigningMode] *)
Inductive t : Type :=
  | ordered | parallel.
#[global] Instance eq_dec : EqDecision t.
Proof. solve_decision. Defined.
Definition to_string (x : t) : string :=
  match x with
  | ordered => "ordered"
  | parallel => "parallel"
  end.
Definition all : list t := [ordered; parallel].
End SigningMode.

Module FieldOverlapPolicy.
(* [src: packages/domain/src/entities.ts:42-43 FieldOverlapPolicy] *)
Inductive t : Type :=
  | prohibit | allow.
#[global] Instance eq_dec : EqDecision t.
Proof. solve_decision. Defined.
Definition to_string (x : t) : string :=
  match x with
  | prohibit => "prohibit"
  | allow => "allow"
  end.
Definition all : list t := [prohibit; allow].
End FieldOverlapPolicy.

Module DocumentRevisionKind.
(* [src: packages/domain/src/entities.ts:45-46 DocumentRevisionKind] *)
Inductive t : Type :=
  | source | intermediate.
#[global] Instance eq_dec : EqDecision t.
Proof. solve_decision. Defined.
Definition to_string (x : t) : string :=
  match x with
  | source => "source"
  | intermediate => "intermediate"
  end.
Definition all : list t := [source; intermediate].
End DocumentRevisionKind.

Module DocumentInspectionStatus.
(* [src: packages/domain/src/entities.ts:48-49 DocumentInspectionStatus] *)
Inductive t : Type :=
  | pending | accepted | rejected.
#[global] Instance eq_dec : EqDecision t.
Proof. solve_decision. Defined.
Definition to_string (x : t) : string :=
  match x with
  | pending => "pending"
  | accepted => "accepted"
  | rejected => "rejected"
  end.
Definition all : list t := [pending; accepted; rejected].
End DocumentInspectionStatus.

Module UploadSessionStatus.
(* [src: packages/domain/src/entities.ts:51-52 UploadSessionStatus] *)
Inductive t : Type :=
  | issued | completed | expired | abandoned.
#[global] Instance eq_dec : EqDecision t.
Proof. solve_decision. Defined.
Definition to_string (x : t) : string :=
  match x with
  | issued => "issued"
  | completed => "completed"
  | expired => "expired"
  | abandoned => "abandoned"
  end.
Definition all : list t := [issued; completed; expired; abandoned].
End UploadSessionStatus.

Module AuditActorType.
(* [src: packages/domain/src/entities.ts:59-60 AuditActorType] *)
Inductive t : Type :=
  | account_user | signer | worker | system.
#[global] Instance eq_dec : EqDecision t.
Proof. solve_decision. Defined.
Definition to_string (x : t) : string :=
  match x with
  | account_user => "account_user"
  | signer => "signer"
  | worker => "worker"
  | system => "system"
  end.
Definition all : list t := [account_user; signer; worker; system].
End AuditActorType.

Module AuditEventType.
(* [src: packages/domain/src/entities.ts:62-85 AuditEventType] *)
Inductive t : Type :=
  | document_created | revision_added | fields_updated | signers_updated | document_sent | session_issued | session_revoked | session_exchanged | document_viewed | consent_recorded | signer_signed | signer_declined | document_voided | document_expired | finalization_started | document_finalized | finalization_failed | artifact_downloaded | inspection_accepted | inspection_rejected | upload_abandoned.
#[global] Instance eq_dec : EqDecision t.
Proof. solve_decision. Defined.
Definition to_string (x : t) : string :=
  match x with
  | document_created => "document_created"
  | revision_added => "revision_added"
  | fields_updated => "fields_updated"
  | signers_updated => "signers_updated"
  | document_sent => "document_sent"
  | session_issued => "session_issued"
  | session_revoked => "session_revoked"
  | session_exchanged => "session_exchanged"
  | document_viewed => "document_viewed"
  | consent_recorded => "consent_recorded"
  | signer_signed => "signer_signed"
  | signer_declined => "signer_declined"
  | document_voided => "document_voided"
  | document_expired => "document_expired"
  | finalization_started => "finalization_started"
  | document_finalized => "document_finalized"
  | finalization_failed => "finalization_failed"
  | artifact_downloaded => "artifact_downloaded"
  | inspection_accepted => "inspection_accepted"
  | inspection_rejected => "inspection_rejected"
  | upload_abandoned => "upload_abandoned"
  end.
Definition all : list t := [document_created; revision_added; fields_updated; signers_updated; document_sent; session_issued; session_revoked; session_exchanged; document_viewed; consent_recorded; signer_signed; signer_declined; document_voided; document_expired; finalization_started; document_finalized; finalization_failed; artifact_downloaded; inspection_accepted; inspection_rejected; upload_abandoned].
End AuditEventType.

Module OutboxStatus.
(* [src: packages/domain/src/entities.ts:87-88 OutboxStatus] *)
Inductive t : Type :=
  | pending | processing | processed | failed.
#[global] Instance eq_dec : EqDecision t.
Proof. solve_decision. Defined.
Definition to_string (x : t) : string :=
  match x with
  | pending => "pending"
  | processing => "processing"
  | processed => "processed"
  | failed => "failed"
  end.
Definition all : list t := [pending; processing; processed; failed].
End OutboxStatus.

Module BackgroundJobStatus.
(* [src: packages/domain/src/entities.ts:90-97 BackgroundJobStatus] *)
Inductive t : Type :=
  | pending | leased | succeeded | failed | cancelled.
#[global] Instance eq_dec : EqDecision t.
Proof. solve_decision. Defined.
Definition to_string (x : t) : string :=
  match x with
  | pending => "pending"
  | leased => "leased"
  | succeeded => "succeeded"
  | failed => "failed"
  | cancelled => "cancelled"
  end.
Definition all : list t := [pending; leased; succeeded; failed; cancelled].
End BackgroundJobStatus.

Module JobErrorCategory.
(* [src: packages/domain/src/entities.ts:99-100 JobErrorCategory] *)
Inductive t : Type :=
  | retryable | non_retryable.
#[global] Instance eq_dec : EqDecision t.
Proof. solve_decision. Defined.
Definition to_string (x : t) : string :=
  match x with
  | retryable => "retryable"
  | non_retryable => "non_retryable"
  end.
Definition all : list t := [retryable; non_retryable].
End JobErrorCategory.

Module MembershipRole.
(* [src: packages/domain/src/request-actor.ts:4-5 MembershipRole] *)
Inductive t : Type :=
  | owner | admin | member | read_only.
#[global] Instance eq_dec : EqDecision t.
Proof. solve_decision. Defined.
Definition to_string (x : t) : string :=
  match x with
  | owner => "owner"
  | admin => "admin"
  | member => "member"
  | read_only => "read_only"
  end.
Definition all : list t := [owner; admin; member; read_only].
End MembershipRole.

(* [src: packages/domain/src/entities.ts:54-57 INSPECT_DOCUMENT_JOB_TYPE] *)
Definition INSPECT_DOCUMENT_JOB_TYPE : string := "inspect_document".
Definition NOTIFY_SIGNER_JOB_TYPE : string := "notify_signer".
Definition FLATTEN_SIGNATURE_JOB_TYPE : string := "flatten_signature".
Definition VERIFY_AUDIT_CHAINS_JOB_TYPE : string := "verify_audit_chains".

(* [src: packages/domain/src/entities.ts:102-102 DEFAULT_JOB_MAX_ATTEMPTS] *)
Definition DEFAULT_JOB_MAX_ATTEMPTS : Z := 8.

Module Organization.
(* [src: packages/domain/src/entities.ts:107-113 Organization] *)
Record t : Type := mk {
  id : string;
  name : string;
  version : Z;
  createdAt : Z;
  updatedAt : Z
}.
End Organization.

Module AccountUser.
(* [src: packages/domain/src/entities.ts:115-121 AccountUser] *)
Record t : Type := mk {
  id : string;
  email : string;
  displayName : string;
  createdAt : Z;
  updatedAt : Z
}.
End AccountUser.

Module OrganizationMembership.
(* [src: packages/domain/src/entities.ts:123-130 OrganizationMembership] *)
Record t : Type := mk {
  id : string;
  organizationId : string;
  userId : string;
  role : MembershipRole.t;
  createdAt : Z;
  updatedAt : Z
}.
End OrganizationMembership.

Module AccountSession.
(* [src: packages/domain/src/entities.ts:140-148 AccountSession] *)
Record t : Type := mk {
  id : string;
  userId : string;
  tokenHash : string;
  csrfTokenHash : string;
  expiresAt : Z;
  revokedAt : option Z;
  createdAt : Z
}.
Definition set_revokedAt (v : option Z) (r : t) : t :=
  mk r.(id) r.(userId) r.(tokenHash) r.(csrfTokenHash) r.(expiresAt) v r.(createdAt).
End AccountSession.

Module Document.
(* [src: packages/domain/src/entities.ts:161-179 Document] *)
Record t : Type := mk {
  id : string;
  organizationId : string;
  ownerMembershipId : string;
  title : string;
  state : DocumentState.t;
  signingMode : SigningMode.t;
  inspectionStatus : DocumentInspectionStatus.t;
  sourceDisplayName : option string;
  expiresAt : option Z;
  currentRevisionId : option string;
  signingRevisionId : option string;
  version : Z;
  leaseOwner : option string;
  leaseUntil : option Z;
  finalizationAttemptCount : Z;
  createdAt : Z;
  updatedAt : Z
}.
Definition set_state (v : DocumentState.t) (r : t) : t :=
  mk r.(id) r.(organizationId) r.(ownerMembershipId) r.(title) v r.(signingMode)
    r.(inspectionStatus) r.(sourceDisplayName) r.(expiresAt) r.(currentRevisionId)
    r.(signingRevisionId) r.(version) r.(leaseOwner) r.(leaseUntil)
    r.(finalizationAttemptCount) r.(createdAt) r.(updatedAt).
Definition set_signingMode (v : SigningMode.t) (r : t) : t :=
  mk r.(id) r.(organizationId) r.(ownerMembershipId) r.(title) r.(state) v r.(inspectionStatus)
    r.(sourceDisplayName) r.(expiresAt) r.(currentRevisionId) r.(signingRevisionId) r.(version)
    r.(leaseOwner) r.(leaseUntil) r.(finalizationAttemptCount) r.(createdAt) r.(updatedAt).
Definition set_inspectionStatus (v : DocumentInspectionStatus.t) (r : t) : t :=
  mk r.(id) r.(organizationId) r.(ownerMembershipId) r.(title) r.(state) r.(signingMode) v
    r.(sourceDisplayName) r.(expiresAt) r.(currentRevisionId) r.(signingRevisionId) r.(version)
    r.(leaseOwner) r.(leaseUntil) r.(finalizationAttemptCount) r.(createdAt) r.(updatedAt).
Definition set_sourceDisplayName (v : option string) (r : t) : t :=
  mk r.(id) r.(organizationId) r.(ownerMembershipId) r.(title) r.(state) r.(signingMode)
    r.(inspectionStatus) v r.(expiresAt) r.(currentRevisionId) r.(signingRevisionId)
    r.(version) r.(leaseOwner) r.(leaseUntil) r.(finalizationAttemptCount) r.(createdAt)
    r.(updatedAt).
Definition set_expiresAt (v : option Z) (r : t) : t :=
  mk r.(id) r.(organizationId) r.(ownerMembershipId) r.(title) r.(state) r.(signingMode)
    r.(inspectionStatus) r.(sourceDisplayName) v r.(currentRevisionId) r.(signingRevisionId)
    r.(version) r.(leaseOwner) r.(leaseUntil) r.(finalizationAttemptCount) r.(createdAt)
    r.(updatedAt).
Definition set_currentRevisionId (v : option string) (r : t) : t :=
  mk r.(id) r.(organizationId) r.(ownerMembershipId) r.(title) r.(state) r.(signingMode)
    r.(inspectionStatus) r.(sourceDisplayName) r.(expiresAt) v r.(signingRevisionId)
    r.(version) r.(leaseOwner) r.(leaseUntil) r.(finalizationAttemptCount) r.(createdAt)
    r.(updatedAt).
Definition set_signingRevisionId (v : option string) (r : t) : t :=
  mk r.(id) r.(organizationId) r.(ownerMembershipId) r.(title) r.(state) r.(signingMode)
    r.(inspectionStatus) r.(sourceDisplayName) r.(expiresAt) r.(currentRevisionId) v
    r.(version) r.(leaseOwner) r.(leaseUntil) r.(finalizationAttemptCount) r.(createdAt)
    r.(updatedAt).
Definition set_version (v : Z) (r : t) : t :=
  mk r.(id) r.(organizationId) r.(ownerMembershipId) r.(title) r.(state) r.(signingMode)
    r.(inspectionStatus) r.(sourceDisplayName) r.(expiresAt) r.(currentRevisionId)
    r.(signingRevisionId) v r.(leaseOwner) r.(leaseUntil) r.(finalizationAttemptCount)
    r.(createdAt) r.(updatedAt).
Definition set_leaseOwner (v : option string) (r : t) : t :=
  mk r.(id) r.(organizationId) r.(ownerMembershipId) r.(title) r.(state) r.(signingMode)
    r.(inspectionStatus) r.(sourceDisplayName) r.(expiresAt) r.(currentRevisionId)
    r.(signingRevisionId) r.(version) v r.(leaseUntil) r.(finalizationAttemptCount)
    r.(createdAt) r.(updatedAt).
Definition set_leaseUntil (v : option Z) (r : t) : t :=
  mk r.(id) r.(organizationId) r.(ownerMembershipId) r.(title) r.(state) r.(signingMode)
    r.(inspectionStatus) r.(sourceDisplayName) r.(expiresAt) r.(currentRevisionId)
    r.(signingRevisionId) r.(version) r.(leaseOwner) v r.(finalizationAttemptCount)
    r.(createdAt) r.(updatedAt).
Definition set_finalizationAttemptCount (v : Z) (r : t) : t :=
  mk r.(id) r.(organizationId) r.(ownerMembershipId) r.(title) r.(state) r.(signingMode)
    r.(inspectionStatus) r.(sourceDisplayName) r.(expiresAt) r.(currentRevisionId)
    r.(signingRevisionId) r.(version) r.(leaseOwner) r.(leaseUntil) v r.(createdAt)
    r.(updatedAt).
Definition set_updatedAt (v : Z) (r : t) : t :=
  mk r.(id) r.(organizationId) r.(ownerMembershipId) r.(title) r.(state) r.(signingMode)
    r.(inspectionStatus) r.(sourceDisplayName) r.(expiresAt) r.(currentRevisionId)
    r.(signingRevisionId) r.(version) r.(leaseOwner) r.(leaseUntil)
    r.(finalizationAttemptCount) r.(createdAt) v.
End Document.

Module DocumentRevision.
(* [src: packages/domain/src/entities.ts:181-193 DocumentRevision] *)
Record t : Type := mk {
  id : string;
  organizationId : string;
  documentId : string;
  kind : DocumentRevisionKind.t;
  objectKey : string;
  contentType : string;
  sizeBytes : Z;
  sha256Digest : string;
  displayName : string;
  pageCount : Z;
  createdAt : Z
}.
End DocumentRevision.

Module UploadSession.
(* [src: packages/domain/src/entities.ts:195-209 UploadSession] *)
Record t : Type := mk {
  id : string;
  organizationId : string;
  documentId : string;
  tokenHash : string;
  status : UploadSessionStatus.t;
  displayName : string;
  contentType : string;
  maxBytes : Z;
  expiresAt : Z;
  completedAt : option Z;
  revisionId : option string;
  createdAt : Z;
  updatedAt : Z
}.
Definition set_status (v : UploadSessionStatus.t) (r : t) : t :=
  mk r.(id) r.(organizationId) r.(documentId) r.(tokenHash) v r.(displayName) r.(contentType)
    r.(maxBytes) r.(expiresAt) r.(completedAt) r.(revisionId) r.(createdAt) r.(updatedAt).
Definition set_completedAt (v : option Z) (r : t) : t :=
  mk r.(id) r.(organizationId) r.(documentId) r.(tokenHash) r.(status) r.(displayName)
    r.(contentType) r.(maxBytes) r.(expiresAt) v r.(revisionId) r.(createdAt) r.(updatedAt).
Definition set_revisionId (v : option string) (r : t) : t :=
  mk r.(id) r.(organizationId) r.(documentId) r.(tokenHash) r.(status) r.(displayName)
    r.(contentType) r.(maxBytes) r.(expiresAt) r.(completedAt) v r.(createdAt) r.(updatedAt).
Definition set_updatedAt (v : Z) (r : t) : t :=
  mk r.(id) r.(organizationId) r.(documentId) r.(tokenHash) r.(status) r.(displayName)
    r.(contentType) r.(maxBytes) r.(expiresAt) r.(completedAt) r.(revisionId) r.(createdAt) v.
End UploadSession.

Module PreviewGrant.
(* [src: packages/domain/src/entities.ts:211-219 PreviewGrant] *)
Record t : Type := mk {
  id : string;
  organizationId : string;
  documentId : string;
  revisionId : string;
  tokenHash : string;
  expiresAt : Z;
  createdAt : Z
}.
End PreviewGrant.

Module Signer.
(* [src: packages/domain/src/entities.ts:221-235 Signer] *)
Record t : Type := mk {
  id : string;
  organizationId : string;
  documentId : string;
  accountUserId : option string;
  routingOrder : jsnum;
  status : SignerStatus.t;
  email : option string;
  displayName : string;
  version : Z;
  completedAt : option Z;
  declinedAt : option Z;
  createdAt : Z;
  updatedAt : Z
}.
Definition set_status (v : SignerStatus.t) (r : t) : t :=
  mk r.(id) r.(organizationId) r.(documentId) r.(accountUserId) r.(routingOrder) v r.(email)
    r.(displayName) r.(version) r.(completedAt) r.(declinedAt) r.(createdAt) r.(updatedAt).
Definition set_version (v : Z) (r : t) : t :=
  mk r.(id) r.(organizationId) r.(documentId) r.(accountUserId) r.(routingOrder) r.(status)
    r.(email) r.(displayName) v r.(completedAt) r.(declinedAt) r.(createdAt) r.(updatedAt).
Definition set_completedAt (v : option Z) (r : t) : t :=
  mk r.(id) r.(organizationId) r.(documentId) r.(accountUserId) r.(routingOrder) r.(status)
    r.(email) r.(displayName) r.(version) v r.(declinedAt) r.(createdAt) r.(updatedAt).
Definition set_declinedAt (v : option Z) (r : t) : t :=
  mk r.(id) r.(organizationId) r.(documentId) r.(accountUserId) r.(routingOrder) r.(status)
    r.(email) r.(displayName) r.(version) r.(completedAt) v r.(createdAt) r.(updatedAt).
Definition set_updatedAt (v : Z) (r : t) : t :=
  mk r.(id) r.(organizationId) r.(documentId) r.(accountUserId) r.(routingOrder) r.(status)
    r.(email) r.(displayName) r.(version) r.(completedAt) r.(declinedAt) r.(createdAt) v.
End Signer.

Module SigningSession.
(* [src: packages/domain/src/entities.ts:237-256 SigningSession] *)
Record t : Type := mk {
  id : string;
  organizationId : string;
  documentId : string;
  signerId : string;
  tokenHash : string;
  csrfTokenHash : option string;
  status : SigningSessionStatus.t;
  expiresAt : Z;
  consumedAt : option Z;
  completedAt : option Z;
  revokedAt : option Z;
  presentationAttemptCount : Z;
  failedPresentationCount : Z;
  lastPresentedAt : option Z;
  requestId : option string;
  version : Z;
  createdAt : Z;
  updatedAt : Z
}.
Definition set_tokenHash (v : string) (r : t) : t :=
  mk r.(id) r.(organizationId) r.(documentId) r.(signerId) v r.(csrfTokenHash) r.(status)
    r.(expiresAt) r.(consumedAt) r.(completedAt) r.(revokedAt) r.(presentationAttemptCount)
    r.(failedPresentationCount) r.(lastPresentedAt) r.(requestId) r.(version) r.(createdAt)
    r.(updatedAt).
Definition set_csrfTokenHash (v : option string) (r : t) : t :=
  mk r.(id) r.(organizationId) r.(documentId) r.(signerId) r.(tokenHash) v r.(status)
    r.(expiresAt) r.(consumedAt) r.(completedAt) r.(revokedAt) r.(presentationAttemptCount)
    r.(failedPresentationCount) r.(lastPresentedAt) r.(requestId) r.(version) r.(createdAt)
    r.(updatedAt).
Definition set_status (v : SigningSessionStatus.t) (r : t) : t :=
  mk r.(id) r.(organizationId) r.(documentId) r.(signerId) r.(tokenHash) r.(csrfTokenHash) v
    r.(expiresAt) r.(consumedAt) r.(completedAt) r.(revokedAt) r.(presentationAttemptCount)
    r.(failedPresentationCount) r.(lastPresentedAt) r.(requestId) r.(version) r.(createdAt)
    r.(updatedAt).
Definition set_consumedAt (v : option Z) (r : t) : t :=
  mk r.(id) r.(organizationId) r.(documentId) r.(signerId) r.(tokenHash) r.(csrfTokenHash)
    r.(status) r.(expiresAt) v r.(completedAt) r.(revokedAt) r.(presentationAttemptCount)
    r.(failedPresentationCount) r.(lastPresentedAt) r.(requestId) r.(version) r.(createdAt)
    r.(updatedAt).
Definition set_completedAt (v : option Z) (r : t) : t :=
  mk r.(id) r.(organizationId) r.(documentId) r.(signerId) r.(tokenHash) r.(csrfTokenHash)
    r.(status) r.(expiresAt) r.(consumedAt) v r.(revokedAt) r.(presentationAttemptCount)
    r.(failedPresentationCount) r.(lastPresentedAt) r.(requestId) r.(version) r.(createdAt)
    r.(updatedAt).
Definition set_revokedAt (v : option Z) (r : t) : t :=
  mk r.(id) r.(organizationId) r.(documentId) r.(signerId) r.(tokenHash) r.(csrfTokenHash)
    r.(status) r.(expiresAt) r.(consumedAt) r.(completedAt) v r.(presentationAttemptCount)
    r.(failedPresentationCount) r.(lastPresentedAt) r.(requestId) r.(version) r.(createdAt)
    r.(updatedAt).
Definition set_lastPresentedAt (v : option Z) (r : t) : t :=
  mk r.(id) r.(organizationId) r.(documentId) r.(signerId) r.(tokenHash) r.(csrfTokenHash)
    r.(status) r.(expiresAt) r.(consumedAt) r.(completedAt) r.(revokedAt)
    r.(presentationAttemptCount) r.(failedPresentationCount) v r.(requestId) r.(version)
    r.(createdAt) r.(updatedAt).
Definition set_version (v : Z) (r : t) : t :=
  mk r.(id) r.(organizationId) r.(documentId) r.(signerId) r.(tokenHash) r.(csrfTokenHash)
    r.(status) r.(expiresAt) r.(consumedAt) r.(completedAt) r.(revokedAt)
    r.(presentationAttemptCount) r.(failedPresentationCount) r.(lastPresentedAt) r.(requestId)
    v r.(createdAt) r.(updatedAt).
Definition set_updatedAt (v : Z) (r : t) : t :=
  mk r.(id) r.(organizationId) r.(documentId) r.(signerId) r.(tokenHash) r.(csrfTokenHash)
    r.(status) r.(expiresAt) r.(consumedAt) r.(completedAt) r.(revokedAt)
    r.(presentationAttemptCount) r.(failedPresentationCount) r.(lastPresentedAt) r.(requestId)
    r.(version) r.(createdAt) v.
End SigningSession.

Module SignatureField.
(* [src: packages/domain/src/entities.ts:258-278 SignatureField] *)
Record t : Type := mk {
  id : string;
  organizationId : string;
  documentId : string;
  signerId : string;
  type : SignatureFieldType.t;
  pageNumber : jsnum;
  x : jsnum;
  y : jsnum;
  width : jsnum;
  height : jsnum;
  required : bool;
  completedAt : option Z;
  completionObjectKey : option string;
  completionContentType : option string;
  completionSizeBytes : option Z;
  completionSha256Digest : option string;
  flattenedRevisionId : option string;
  createdAt : Z;
  updatedAt : Z
}.
Definition set_completedAt (v : option Z) (r : t) : t :=
  mk r.(id) r.(organizationId) r.(documentId) r.(signerId) r.(type) r.(pageNumber) r.(x) r.(y)
    r.(width) r.(height) r.(required) v r.(completionObjectKey) r.(completionContentType)
    r.(completionSizeBytes) r.(completionSha256Digest) r.(flattenedRevisionId) r.(createdAt)
    r.(updatedAt).
Definition set_completionObjectKey (v : option string) (r : t) : t :=
  mk r.(id) r.(organizationId) r.(documentId) r.(signerId) r.(type) r.(pageNumber) r.(x) r.(y)
    r.(width) r.(height) r.(required) r.(completedAt) v r.(completionContentType)
    r.(completionSizeBytes) r.(completionSha256Digest) r.(flattenedRevisionId) r.(createdAt)
    r.(updatedAt).
Definition set_completionContentType (v : option string) (r : t) : t :=
  mk r.(id) r.(organizationId) r.(documentId) r.(signerId) r.(type) r.(pageNumber) r.(x) r.(y)
    r.(width) r.(height) r.(required) r.(completedAt) r.(completionObjectKey) v
    r.(completionSizeBytes) r.(completionSha256Digest) r.(flattenedRevisionId) r.(createdAt)
    r.(updatedAt).
Definition set_completionSizeBytes (v : option Z) (r : t) : t :=
  mk r.(id) r.(organizationId) r.(documentId) r.(signerId) r.(type) r.(pageNumber) r.(x) r.(y)
    r.(width) r.(height) r.(required) r.(completedAt) r.(completionObjectKey)
    r.(completionContentType) v r.(completionSha256Digest) r.(flattenedRevisionId)
    r.(createdAt) r.(updatedAt).
Definition set_completionSha256Digest (v : option string) (r : t) : t :=
  mk r.(id) r.(organizationId) r.(documentId) r.(signerId) r.(type) r.(pageNumber) r.(x) r.(y)
    r.(width) r.(height) r.(required) r.(completedAt) r.(completionObjectKey)
    r.(completionContentType) r.(completionSizeBytes) v r.(flattenedRevisionId) r.(createdAt)
    r.(updatedAt).
Definition set_flattenedRevisionId (v : option string) (r : t) : t :=
  mk r.(id) r.(organizationId) r.(documentId) r.(signerId) r.(type) r.(pageNumber) r.(x) r.(y)
    r.(width) r.(height) r.(required) r.(completedAt) r.(completionObjectKey)
    r.(completionContentType) r.(completionSizeBytes) r.(completionSha256Digest) v
    r.(createdAt) r.(updatedAt).
Definition set_updatedAt (v : Z) (r : t) : t :=
  mk r.(id) r.(organizationId) r.(documentId) r.(signerId) r.(type) r.(pageNumber) r.(x) r.(y)
    r.(width) r.(height) r.(required) r.(completedAt) r.(completionObjectKey)
    r.(completionContentType) r.(completionSizeBytes) r.(completionSha256Digest)
    r.(flattenedRevisionId) r.(createdAt) v.
End SignatureField.

Module ConsentRecord.
(* [src: packages/domain/src/entities.ts:280-292 ConsentRecord] *)
Record t : Type := mk {
  id : string;
  organizationId : string;
  documentId : string;
  signerId : string;
  sessionId : string;
  consentCopyId : string;
  acceptedAt : Z;
  requestId : option string;
  untrustedClientIp : option string;
  untrustedUserAgent : option string;
  createdAt : Z
}.
End ConsentRecord.

Module FinalizedArtifact.
(* [src: packages/domain/src/entities.ts:294-303 FinalizedArtifact] *)
Record t : Type := mk {
  id : string;
  organizationId : string;
  documentId : string;
  objectKey : string;
  contentType : string;
  sizeBytes : Z;
  sha256Digest : string;
  createdAt : Z
}.
End FinalizedArtifact.

Module AuditEvent.
(* [src: packages/domain/src/entities.ts:305-320 AuditEvent] *)
Record t : Type := mk {
  id : string;
  organizationId : string;
  documentId : string;
  sequence : Z;
  type : AuditEventType.t;
  actorType : AuditActorType.t;
  actorId : string;
  occurredAt : JsDate;
  payload : value;
  previousEventHash : string;
  eventHash : string;
  requestId : option string;
  chainVersion : Z;
  createdAt : JsDate
}.
Definition set_sequence (v : Z) (r : t) : t :=
  mk r.(id) r.(organizationId) r.(documentId) v r.(type) r.(actorType) r.(actorId)
    r.(occurredAt) r.(payload) r.(previousEventHash) r.(eventHash) r.(requestId)
    r.(chainVersion) r.(createdAt).
Definition set_type (v : AuditEventType.t) (r : t) : t :=
  mk r.(id) r.(organizationId) r.(documentId) r.(sequence) v r.(actorType) r.(actorId)
    r.(occurredAt) r.(payload) r.(previousEventHash) r.(eventHash) r.(requestId)
    r.(chainVersion) r.(createdAt).
Definition set_actorType (v : AuditActorType.t) (r : t) : t :=
  mk r.(id) r.(organizationId) r.(documentId) r.(sequence) r.(type) v r.(actorId)
    r.(occurredAt) r.(payload) r.(previousEventHash) r.(eventHash) r.(requestId)
    r.(chainVersion) r.(createdAt).
Definition set_actorId (v : string) (r : t) : t :=
  mk r.(id) r.(organizationId) r.(documentId) r.(sequence) r.(type) r.(actorType) v
    r.(occurredAt) r.(payload) r.(previousEventHash) r.(eventHash) r.(requestId)
    r.(chainVersion) r.(createdAt).
Definition set_occurredAt (v : JsDate) (r : t) : t :=
  mk r.(id) r.(organizationId) r.(documentId) r.(sequence) r.(type) r.(actorType) r.(actorId) v
    r.(payload) r.(previousEventHash) r.(eventHash) r.(requestId) r.(chainVersion)
    r.(createdAt).
Definition set_payload (v : value) (r : t) : t :=
  mk r.(id) r.(organizationId) r.(documentId) r.(sequence) r.(type) r.(actorType) r.(actorId)
    r.(occurredAt) v r.(previousEventHash) r.(eventHash) r.(requestId) r.(chainVersion)
    r.(createdAt).
Definition set_previousEventHash (v : string) (r : t) : t :=
  mk r.(id) r.(organizationId) r.(documentId) r.(sequence) r.(type) r.(actorType) r.(actorId)
    r.(occurredAt) r.(payload) v r.(eventHash) r.(requestId) r.(chainVersion) r.(createdAt).
Definition set_eventHash (v : string) (r : t) : t :=
  mk r.(id) r.(organizationId) r.(documentId) r.(sequence) r.(type) r.(actorType) r.(actorId)
    r.(occurredAt) r.(payload) r.(previousEventHash) v r.(requestId) r.(chainVersion)
    r.(createdAt).
Definition set_chainVersion (v : Z) (r : t) : t :=
  mk r.(id) r.(organizationId) r.(documentId) r.(sequence) r.(type) r.(actorType) r.(actorId)
    r.(occurredAt) r.(payload) r.(previousEventHash) r.(eventHash) r.(requestId) v
    r.(createdAt).
End AuditEvent.

Module OutboxEvent.
(* [src: packages/domain/src/entities.ts:322-338 OutboxEvent] *)
Record t : Type := mk {
  id : string;
  organizationId : string;
  documentId : option string;
  type : string;
  status : OutboxStatus.t;
  payload : object;
  requestId : option string;
  attemptCount : Z;
  leaseOwner : option string;
  leaseUntil : option Z;
  availableAt : Z;
  processedAt : option Z;
  lastErrorCode : option string;
  createdAt : Z;
  updatedAt : Z
}.
Definition set_status (v : OutboxStatus.t) (r : t) : t :=
  mk r.(id) r.(organizationId) r.(documentId) r.(type) v r.(payload) r.(requestId)
    r.(attemptCount) r.(leaseOwner) r.(leaseUntil) r.(availableAt) r.(processedAt)
    r.(lastErrorCode) r.(createdAt) r.(updatedAt).
Definition set_attemptCount (v : Z) (r : t) : t :=
  mk r.(id) r.(organizationId) r.(documentId) r.(type) r.(status) r.(payload) r.(requestId) v
    r.(leaseOwner) r.(leaseUntil) r.(availableAt) r.(processedAt) r.(lastErrorCode)
    r.(createdAt) r.(updatedAt).
Definition set_leaseOwner (v : option string) (r : t) : t :=
  mk r.(id) r.(organizationId) r.(documentId) r.(type) r.(status) r.(payload) r.(requestId)
    r.(attemptCount) v r.(leaseUntil) r.(availableAt) r.(processedAt) r.(lastErrorCode)
    r.(createdAt) r.(updatedAt).
Definition set_leaseUntil (v : option Z) (r : t) : t :=
  mk r.(id) r.(organizationId) r.(documentId) r.(type) r.(status) r.(payload) r.(requestId)
    r.(attemptCount) r.(leaseOwner) v r.(availableAt) r.(processedAt) r.(lastErrorCode)
    r.(createdAt) r.(updatedAt).
Definition set_availableAt (v : Z) (r : t) : t :=
  mk r.(id) r.(organizationId) r.(documentId) r.(type) r.(status) r.(payload) r.(requestId)
    r.(attemptCount) r.(leaseOwner) r.(leaseUntil) v r.(processedAt) r.(lastErrorCode)
    r.(createdAt) r.(updatedAt).
Definition set_processedAt (v : option Z) (r : t) : t :=
  mk r.(id) r.(organizationId) r.(documentId) r.(type) r.(status) r.(payload) r.(requestId)
    r.(attemptCount) r.(leaseOwner) r.(leaseUntil) r.(availableAt) v r.(lastErrorCode)
    r.(createdAt) r.(updatedAt).
Definition set_lastErrorCode (v : option string) (r : t) : t :=
  mk r.(id) r.(organizationId) r.(documentId) r.(type) r.(status) r.(payload) r.(requestId)
    r.(attemptCount) r.(leaseOwner) r.(leaseUntil) r.(availableAt) r.(processedAt) v
    r.(createdAt) r.(updatedAt).
Definition set_updatedAt (v : Z) (r : t) : t :=
  mk r.(id) r.(organizationId) r.(documentId) r.(type) r.(status) r.(payload) r.(requestId)
    r.(attemptCount) r.(leaseOwner) r.(leaseUntil) r.(availableAt) r.(processedAt)
    r.(lastErrorCode) r.(createdAt) v.
End OutboxEvent.

Module BackgroundJob.
(* [src: packages/domain/src/entities.ts:340-357 BackgroundJob] *)
Record t : Type := mk {
  id : string;
  organizationId : string;
  documentId : option string;
  outboxEventId : option string;
  type : string;
  status : BackgroundJobStatus.t;
  attemptCount : Z;
  maxAttempts : Z;
  leaseOwner : option string;
  leaseUntil : option Z;
  availableAt : Z;
  lastErrorCode : option string;
  requestId : option string;
  version : Z;
  createdAt : Z;
  updatedAt : Z
}.
Definition set_status (v : BackgroundJobStatus.t) (r : t) : t :=
  mk r.(id) r.(organizationId) r.(documentId) r.(outboxEventId) r.(type) v r.(attemptCount)
    r.(maxAttempts) r.(leaseOwner) r.(leaseUntil) r.(availableAt) r.(lastErrorCode)
    r.(requestId) r.(version) r.(createdAt) r.(updatedAt).
Definition set_attemptCount (v : Z) (r : t) : t :=
  mk r.(id) r.(organizationId) r.(documentId) r.(outboxEventId) r.(type) r.(status) v
    r.(maxAttempts) r.(leaseOwner) r.(leaseUntil) r.(availableAt) r.(lastErrorCode)
    r.(requestId) r.(version) r.(createdAt) r.(updatedAt).
Definition set_leaseOwner (v : option string) (r : t) : t :=
  mk r.(id) r.(organizationId) r.(documentId) r.(outboxEventId) r.(type) r.(status)
    r.(attemptCount) r.(maxAttempts) v r.(leaseUntil) r.(availableAt) r.(lastErrorCode)
    r.(requestId) r.(version) r.(createdAt) r.(updatedAt).
Definition set_leaseUntil (v : option Z) (r : t) : t :=
  mk r.(id) r.(organizationId) r.(documentId) r.(outboxEventId) r.(type) r.(status)
    r.(attemptCount) r.(maxAttempts) r.(leaseOwner) v r.(availableAt) r.(lastErrorCode)
    r.(requestId) r.(version) r.(createdAt) r.(updatedAt).
Definition set_availableAt (v : Z) (r : t) : t :=
  mk r.(id) r.(organizationId) r.(documentId) r.(outboxEventId) r.(type) r.(status)
    r.(attemptCount) r.(maxAttempts) r.(leaseOwner) r.(leaseUntil) v r.(lastErrorCode)
    r.(requestId) r.(version) r.(createdAt) r.(updatedAt).
Definition set_lastErrorCode (v : option string) (r : t) : t :=
  mk r.(id) r.(organizationId) r.(documentId) r.(outboxEventId) r.(type) r.(status)
    r.(attemptCount) r.(maxAttempts) r.(leaseOwner) r.(leaseUntil) r.(availableAt) v
    r.(requestId) r.(version) r.(createdAt) r.(updatedAt).
Definition set_version (v : Z) (r : t) : t :=
  mk r.(id) r.(organizationId) r.(documentId) r.(outboxEventId) r.(type) r.(status)
    r.(attemptCount) r.(maxAttempts) r.(leaseOwner) r.(leaseUntil) r.(availableAt)
    r.(lastErrorCode) r.(requestId) v r.(createdAt) r.(updatedAt).
Definition set_updatedAt (v : Z) (r : t) : t :=
  mk r.(id) r.(organizationId) r.(documentId) r.(outboxEventId) r.(type) r.(status)
    r.(attemptCount) r.(maxAttempts) r.(leaseOwner) r.(leaseUntil) r.(availableAt)
    r.(lastErrorCode) r.(requestId) r.(version) r.(createdAt) v.
End BackgroundJob.

Module IdempotencyRecord.
(* [src: packages/domain/src/entities.ts:359-373 IdempotencyRecord] *)
Record t : Type := mk {
  id : string;
  organizationId : string;
  principalType : AuditActorType.t;
  principalId : string;
  route : string;
  key : string;
  requestHash : string;
  requestId : option string;
  responseStatus : option Z;
  responseBody : option object;
  expiresAt : Z;
  createdAt : Z;
  updatedAt : Z
}.
Definition set_responseStatus (v : option Z) (r : t) : t :=
  mk r.(id) r.(organizationId) r.(principalType) r.(principalId) r.(route) r.(key)
    r.(requestHash) r.(requestId) v r.(responseBody) r.(expiresAt) r.(createdAt) r.(updatedAt).
Definition set_responseBody (v : option object) (r : t) : t :=
  mk r.(id) r.(organizationId) r.(principalType) r.(principalId) r.(route) r.(key)
    r.(requestHash) r.(requestId) r.(responseStatus) v r.(expiresAt) r.(createdAt)
    r.(updatedAt).
Definition set_updatedAt (v : Z) (r : t) : t :=
  mk r.(id) r.(organizationId) r.(principalType) r.(principalId) r.(route) r.(key)
    r.(requestHash) r.(requestId) r.(responseStatus) r.(responseBody) r.(expiresAt)
    r.(createdAt) v.
End IdempotencyRecord.

(** ** Actors *)

Module AccountUserActor.
(* [src: packages/domain/src/request-actor.ts:7-15 AccountUserActor] *)
Record t : Type := mk {
  userId : string;
  membershipId : string;
  organizationId : string;
  role : MembershipRole.t
}.
End AccountUserActor.

Module SignerActor.
(* [src: packages/domain/src/request-actor.ts:17-23 SignerActor] *)
Record t : Type := mk {
  organizationId : string;
  documentId : string;
  signerId : string;
  sessionId : string
}.
End SignerActor.

(* [src: packages/domain/src/request-actor.ts:25-35 RequestActor] *)
Inductive RequestActor : Type :=
  | account_user (a : AccountUserActor.t)
  | signer (a : SignerActor.t)
  | worker (jobId organizationId : string)
  | system.

(* [src: packages/domain/src/request-actor.ts:50-61 actorId] *)
Definition actorId (actor : RequestActor) : string :=
  match actor with
  | account_user a => AccountUserActor.userId a
  | signer a => SignerActor.signerId a
  | worker jobId _ => jobId
  | system => "system"
  end.

(* [src: packages/domain/src/request-actor.ts:63-65 actorType] *)
Definition actorType (actor : RequestActor) : AuditActorType.t :=
  match actor with
  | account_user _ => AuditActorType.account_user
  | signer _ => AuditActorType.signer
  | worker _ _ => AuditActorType.worker
  | system => AuditActorType.system
  end.
