(* ===== verification/Lifecycle.v ===== *)
(** Document and signing-session life cycles, and who may sign when:
    [packages/domain/src/document-lifecycle.ts] and [signing-mode.ts]. *)

From Stdlib Require Import String.
From S2P Require Export Entities.
Local Open Scope string_scope.

(* [src: packages/domain/src/document-lifecycle.ts:12-24 DOCUMENT_TRANSITIONS] *)
Definition DOCUMENT_TRANSITIONS (from : DocumentState.t) : list DocumentState.t :=
  match from with
  | DocumentState.draft => [DocumentState.prepared; DocumentState.sent; DocumentState.voided]
  | DocumentState.prepared => [DocumentState.draft; DocumentState.sent; DocumentState.voided]
  | DocumentState.sent =>
    [DocumentState.in_progress; DocumentState.completed; DocumentState.voided;
     DocumentState.expired; DocumentState.declined]
  | DocumentState.in_progress =>
    [DocumentState.in_progress; DocumentState.completed; DocumentState.voided;
     DocumentState.expired; DocumentState.declined]
  | DocumentState.completed => [DocumentState.finalizing]
  | DocumentState.finalizing => [DocumentState.finalized; DocumentState.finalization_failed]
  | DocumentState.finalization_failed => [DocumentState.finalizing]
  | DocumentState.finalized => []
  | DocumentState.voided => []
  | DocumentState.expired => []
  | DocumentState.declined => []
  end.

(* [src: packages/domain/src/document-lifecycle.ts:26-34 SIGNING_SESSION_TRANSITIONS] *)
Definition SIGNING_SESSION_TRANSITIONS (from : SigningSessionStatus.t) :
    list SigningSessionStatus.t :=
  match from with
  | SigningSessionStatus.issued =>
    [SigningSessionStatus.active; SigningSessionStatus.expired; SigningSessionStatus.revoked]
  | SigningSessionStatus.active =>
    [SigningSessionStatus.completed; SigningSessionStatus.expired; SigningSessionStatus.revoked]
  | SigningSessionStatus.completed => []
  | SigningSessionStatus.expired => []
  | SigningSessionStatus.revoked => []
  end.

(* [src: packages/domain/src/document-lifecycle.ts:36-38 canTransitionDocument] *)
Definition canTransitionDocument (from to : DocumentState.t) : bool :=
  bool_decide (to ∈ DOCUMENT_TRANSITIONS from).

(* [src: packages/domain/src/document-lifecycle.ts:40-44 assertDocumentTransition] *)
Definition assertDocumentTransition (from to : DocumentState.t) : Result Exn unit :=
  throw_if (negb (canTransitionDocument from to))
    (InvalidStateTransitionError
       [("from", VStr (DocumentState.to_string from)); ("to", VStr (DocumentState.to_string to));
        ("aggregate", VStr "document")]).

(* [src: packages/domain/src/document-lifecycle.ts:46-51 canTransitionSigningSession] *)
Definition canTransitionSigningSession (from to : SigningSessionStatus.t) : bool :=
  bool_decide (to ∈ SIGNING_SESSION_TRANSITIONS from).

(* [src: packages/domain/src/document-lifecycle.ts:53-60 assertSigningSessionTransition] *)
Definition assertSigningSessionTransition (from to : SigningSessionStatus.t) : Result Exn unit :=
  throw_if (negb (canTransitionSigningSession from to))
    (InvalidStateTransitionError
       [("from", VStr (SigningSessionStatus.to_string from));
        ("to", VStr (SigningSessionStatus.to_string to));
        ("aggregate", VStr "signing_session")]).

(* [src: packages/domain/src/document-lifecycle.ts:62-64 isDocumentState] *)
Definition isDocumentState (value : string) : bool :=
  bool_decide (value ∈ DocumentState.to_string <$> DocumentState.all).

(* [src: packages/domain/src/document-lifecycle.ts:66-68 isSigningSessionStatus] *)
Definition isSigningSessionStatus (value : string) : bool :=
  bool_decide (value ∈ SigningSessionStatus.to_string <$> SigningSessionStatus.all).

(* [src: packages/domain/src/document-lifecycle.ts:70-72 isInspectionAccepted] *)
Definition isInspectionAccepted (status : DocumentInspectionStatus.t) : bool :=
  bool_decide (status = DocumentInspectionStatus.accepted).

(* [src: packages/domain/src/document-lifecycle.ts:74-76 isPreparationState] *)
Definition isPreparationState (state : DocumentState.t) : bool :=
  bool_decide (state = DocumentState.draft) || bool_decide (state = DocumentState.prepared).

(* [src: packages/domain/src/document-lifecycle.ts:78-80 isPreparationLocked] *)
Definition isPreparationLocked (document : Document.t) : bool :=
  negb (isPreparationState (Document.state document)).

(* [src: packages/domain/src/document-lifecycle.ts:86-91 isAvailableForSigning] *)
Definition isAvailableForSigning (document : Document.t) : bool :=
  isInspectionAccepted (Document.inspectionStatus document) &&
  (bool_decide (Document.state document = DocumentState.sent) ||
   bool_decide (Document.state document = DocumentState.in_progress)).

(* [src: packages/domain/src/document-lifecycle.ts:93-101 assertInspectionAccepted] *)
Definition assertInspectionAccepted (document : Document.t) : Result Exn unit :=
  throw_if (negb (isInspectionAccepted (Document.inspectionStatus document)))
    (InvalidStateTransitionError
       [("aggregate", VStr "document"); ("reason", VStr "inspection_not_accepted");
        ("inspectionStatus",
          VStr (DocumentInspectionStatus.to_string (Document.inspectionStatus document)))]).

(* [src: packages/domain/src/document-lifecycle.ts:103-111 assertPreparationUnlocked] *)
Definition assertPreparationUnlocked (document : Document.t) : Result Exn unit :=
  throw_if (isPreparationLocked document)
    (InvalidStateTransitionError
       [("aggregate", VStr "document");
        ("from", VStr (DocumentState.to_string (Document.state document)));
        ("reason", VStr "preparation_locked")]).

(* [src: packages/domain/src/document-lifecycle.ts:113-131 assertReadyToSend] *)
Definition assertReadyToSend (document : Document.t) : Result Exn unit :=
  let details reason :=
    [("aggregate", VStr "document");
     ("from", VStr (DocumentState.to_string (Document.state document)));
     ("to", VStr "sent"); ("reason", VStr reason)] in
  throw_if (negb (isPreparationState (Document.state document)))
    (InvalidStateTransitionError (details "not_preparable")) ≫= λ _,
  throw_if (bool_decide (Document.currentRevisionId document = None))
    (InvalidStateTransitionError (details "missing_revision")) ≫= λ _,
  assertInspectionAccepted document.

(* [src: packages/domain/src/document-lifecycle.ts:133-139 isOpenSigningSession] *)
Definition isOpenSigningSession (session : SigningSession.t) (now : Z) : bool :=
  (bool_decide (SigningSession.status session = SigningSessionStatus.issued) ||
   bool_decide (SigningSession.status session = SigningSessionStatus.active)) &&
  (now <? SigningSession.expiresAt session)%Z &&
  bool_decide (SigningSession.revokedAt session = None).

(** ** Signing modes *)

(* [src: packages/domain/src/signing-mode.ts:4-6 isSigningMode] *)
Definition isSigningMode (value : string) : bool :=
  bool_decide (value ∈ SigningMode.to_string <$> SigningMode.all).

(* [src: packages/domain/src/signing-mode.ts:8-13 assertedSigningMode] *)
Definition assertedSigningMode (value : string) : Result Exn SigningMode.t :=
  match list_find (λ m, SigningMode.to_string m = value) SigningMode.all with
  | Some (_, m) => Ok m
  | None => Throw (ValidationError (fieldReason "signingMode" "invalid"))
  end.

(** [new Set(l)] of numbers, in insertion order. *)
Fixpoint num_set (l : list jsnum) : list jsnum :=
  match l with
  | [] => []
  | n :: l => n :: List.filter (λ m, negb (num_eqb n m)) (num_set l)
  end.
Definition num_has (s : list jsnum) (n : jsnum) : bool := existsb (num_eqb n) s.

(** The numbers [1..n] the loop on [expected] runs through. *)
Definition one_to (n : nat) : list Z := Z.of_nat <$> seq 1 n.

(* [src: packages/domain/src/signing-mode.ts:19-47 assertSignerRouting] *)
Definition assertSignerRouting (signingMode : SigningMode.t) (signers : list Signer.t) :
    Result Exn unit :=
  let err reason := ValidationError (fieldReason "routingOrder" reason) in
  throw_if (bool_decide (signers = [])) (ValidationError (fieldReason "signers" "empty")) ≫= λ _,
  let orders := Signer.routingOrder <$> signers in
  each (λ order, throw_if (negb (isInteger order) || num_ltb order (NInt 1)) (err "invalid"))
    orders ≫= λ _,
  match signingMode with
  | SigningMode.parallel =>
    throw_if (existsb (λ order, negb (num_eqb order (NInt 1))) orders)
      (err "parallel_must_be_one")
  | SigningMode.ordered =>
    let unique := num_set orders in
    throw_if (negb (length unique =? length orders)%nat) (err "ordered_must_be_unique") ≫= λ _,
    each (λ expected, throw_if (negb (num_has unique (NInt expected)))
                        (err "ordered_must_be_consecutive")) (one_to (length orders))
  end.

(* [src: packages/domain/src/signing-mode.ts:49-65 canSignerActNow] *)
Definition canSignerActNow (signingMode : SigningMode.t) (actor : Signer.t)
    (signers : list Signer.t) : bool :=
  if negb (bool_decide (Signer.status actor = SignerStatus.pending)) then false else
  match signingMode with
  | SigningMode.parallel => true
  | SigningMode.ordered =>
    let pendingOrders := Signer.routingOrder <$>
      List.filter (λ signer, bool_decide (Signer.status signer = SignerStatus.pending)) signers in
    match pendingOrders with
    | [] => false
    | _ :: _ => num_eqb (math_min pendingOrders) (Signer.routingOrder actor)
    end
  end.
