(* ===== verification/Routing.v ===== *)
(** Whose turn it is: the routing the program accepts, and that an accepted
    routing always lets exactly the right signers act. *)

From Stdlib Require Import String SpecFloat.
From stdpp Require Import sorting.
From S2P Require Export Lifecycle.
Local Open Scope Z_scope.

(** The routing orders as integers; a JavaScript integer is [NInt]. *)
Definition orders_are (l : list Signer.t) (zs : list Z) : Prop :=
  Signer.routingOrder <$> l = NInt <$> zs.

Lemma num_has_int zs z : num_has (NInt <$> zs) (NInt z) = bool_decide (z ∈ zs).
Proof.
  apply eq_true_iff_eq. unfold num_has. rewrite existsb_exists, bool_decide_eq_true. split.
  - intros (n & Hin & He). apply list_elem_of_In, list_elem_of_fmap in Hin as (y & -> & Hy).
    simpl in He. apply Z.eqb_eq in He as <-. done.
  - intros Hz. exists (NInt z). split; [|apply Z.eqb_refl].
    by apply list_elem_of_In, list_elem_of_fmap_2.
Qed.

Lemma num_set_int zs : ∃ ys, num_set (NInt <$> zs) = NInt <$> ys ∧ (∀ z, z ∈ ys ↔ z ∈ zs) ∧
  NoDup ys ∧ (length ys <= length zs)%nat ∧ (length ys = length zs → ys = zs).
Proof.
  induction zs as [|z zs (ys & Hys & Hin & Hnd & Hle & Heq)].
  { exists []. split_and!; try done. constructor. }
  change (num_set (NInt <$> (z :: zs))) with
    (NInt z :: List.filter (λ m, negb (num_eqb (NInt z) m)) (num_set (NInt <$> zs))).
  assert (List.filter (λ m, negb (num_eqb (NInt z) m)) (NInt <$> ys) =
    NInt <$> filter (λ y, y ≠ z) ys) as Hf.
  { clear. induction ys as [|y ys IH]; [done|]. simpl. rewrite filter_cons.
    destruct (Z.eqb_spec z y) as [->|Hne]; simpl.
    - rewrite decide_False by (intros []; done). exact IH.
    - rewrite decide_True by congruence. exact (f_equal (cons (NInt y)) IH). }
  exists (z :: filter (λ y, y ≠ z) ys). rewrite Hys, Hf. split_and!.
  - done.
  - intros w. rewrite !elem_of_cons, list_elem_of_filter, Hin. destruct (decide (w = z)); naive_solver.
  - constructor; [rewrite list_elem_of_filter; naive_solver|by apply NoDup_filter].
  - pose proof (length_filter (λ y, y ≠ z) ys). simpl. lia.
  - simpl. intros Hlen. pose proof (length_filter (λ y, y ≠ z) ys) as Hfl.
    assert (ys = zs) as -> by (apply Heq; lia). f_equal.
    assert (length (filter (λ y, y ≠ z) zs) = length zs) as Hsame by lia.
    clear -Hsame. induction zs as [|y zs IH]; [done|]. rewrite filter_cons in *.
    pose proof (length_filter (λ y, y ≠ z) zs). case_decide; simpl in *; [|lia].
    rewrite IH; [done|lia].
Qed.

Lemma one_to_elem n z : z ∈ one_to n ↔ 1 <= z <= Z.of_nat n.
Proof.
  unfold one_to. rewrite list_elem_of_fmap. split.
  - intros (k & -> & Hk). apply elem_of_seq in Hk. lia.
  - intros Hz. exists (Z.to_nat z). split; [lia|]. apply elem_of_seq. lia.
Qed.

Lemma one_to_NoDup n : NoDup (one_to n).
Proof. apply NoDup_fmap_2; [intros a b; lia|apply NoDup_seq]. Qed.

Lemma bind_unit_ok {E A} (r : Result E unit) (k : Result E A) b :
  (r ≫= λ _, k) = Ok b ↔ r = Ok tt ∧ k = Ok b.
Proof. rewrite bind_Result_ok. split; [intros ([] & ? & ?); by split|intros [? ?]; by exists tt]. Qed.

Lemma each_throw_if {E A} (p : A → bool) (e : E) l :
  each (λ x, throw_if (p x) e) l = Ok tt ↔ ∀ x, x ∈ l → p x = false.
Proof. rewrite each_ok. by setoid_rewrite throw_if_ok. Qed.

Lemma positive_orders {E} (e : E) zs :
  each (λ order, throw_if (negb (isInteger order) || num_ltb order (NInt 1)) e) (NInt <$> zs) = Ok tt ↔
  ∀ z, z ∈ zs → 1 <= z.
Proof.
  rewrite each_throw_if. split.
  - intros Hall z Hz. by apply Z.ltb_ge, (Hall (NInt z)), list_elem_of_fmap_2.
  - intros Hall n (z & -> & Hz)%list_elem_of_fmap. by apply Z.ltb_ge, Hall.
Qed.

Lemma parallel_orders zs :
  existsb (λ order, negb (num_eqb order (NInt 1))) (NInt <$> zs) = false ↔ ∀ z, z ∈ zs → z = 1.
Proof.
  rewrite <-not_true_iff_false, existsb_exists. split.
  - intros Hno z Hz. destruct (Z.eq_dec z 1) as [|Hne]; [done|]. destruct Hno. exists (NInt z).
    split; [by apply list_elem_of_In, list_elem_of_fmap_2|]. simpl. by apply negb_true_iff, Z.eqb_neq.
  - intros Hall (n & Hn & He). apply list_elem_of_In, list_elem_of_fmap in Hn as (z & -> & Hz).
    by rewrite (Hall z Hz) in He.
Qed.

Lemma ordered_orders {E} (e1 e2 : E) zs :
  (throw_if (negb (length (num_set (NInt <$> zs)) =? length (NInt <$> zs))%nat) e1 ≫= λ _,
   each (λ expected, throw_if (negb (num_has (num_set (NInt <$> zs)) (NInt expected))) e2)
     (one_to (length (NInt <$> zs)))) = Ok tt ↔
  zs ≡ₚ one_to (length zs).
Proof.
  rewrite bind_unit_ok, throw_if_ok, negb_false_iff, Nat.eqb_eq, each_throw_if.
  destruct (num_set_int zs) as (ys & -> & Hin & Hnd & _ & Heq). rewrite !length_fmap.
  setoid_rewrite num_has_int. setoid_rewrite negb_false_iff. setoid_rewrite bool_decide_eq_true. split.
  - intros [Hlen Hall]. symmetry. apply submseteq_length_Permutation.
    + apply NoDup_submseteq; [apply one_to_NoDup|]. intros z Hz. by apply Hin, Hall.
    + unfold one_to. by rewrite length_fmap, length_seq.
  - intros Hp. assert (NoDup zs) as Hz by (rewrite Hp; apply one_to_NoDup). split.
    + apply Permutation_length, NoDup_Permutation; done.
    + intros z Hz1. by apply Hin; rewrite Hp.
Qed.

(** The routing that is accepted: in parallel mode everyone has order one; in
    ordered mode the orders are the numbers from one to the number of signers, each
    once; and there is a signer. *)
Theorem assertSignerRouting_spec mode l zs :
  orders_are l zs →
  assertSignerRouting mode l = Ok tt ↔
  l ≠ [] ∧ match mode with
           | SigningMode.parallel => ∀ z, z ∈ zs → z = 1
           | SigningMode.ordered => zs ≡ₚ one_to (length l)
           end.
Proof.
  intros Ho. assert (length zs = length l) as Hlen.
  { pose proof (f_equal length Ho) as Hl. by rewrite !length_fmap in Hl. }
  unfold assertSignerRouting. cbv zeta. rewrite Ho, !bind_unit_ok, throw_if_ok, bool_decide_eq_false.
  rewrite positive_orders. destruct mode.
  - rewrite ordered_orders, Hlen. split; [by intros (? & _ & ?)|]. intros [Hl Hp]. split_and!; try done.
    intros z. rewrite Hp, one_to_elem. lia.
  - rewrite throw_if_ok, parallel_orders. split; [by intros (? & _ & ?)|]. intros [Hl Hall].
    split_and!; try done. intros z Hz. by rewrite (Hall z Hz).
Qed.

(** ** Turns *)

Lemma num_ltb_infinity n : num_ltb (NFlt (S754_infinity false)) n = false.
Proof.
  change (num_ltb _ n) with (SFltb (S754_infinity false) (to_float n)).
  by destruct (to_float n) as [[]|[]| |[]].
Qed.

Lemma math_min_int z zs : math_min (NInt <$> z :: zs) = NInt (foldr Z.min z zs).
Proof.
  assert (∀ x y, num_min (NInt x) (NInt y) = NInt (Z.min x y)) as Hmin.
  { intros x y. unfold num_min. simpl. destruct (Z.ltb_spec y x); f_equal; lia. }
  revert z. induction zs as [|y zs IH]; intros z.
  - change (math_min (NInt <$> [z])) with (num_min (NInt z) (NFlt (S754_infinity false))).
    unfold num_min. cbn [isNaN]. by rewrite num_ltb_infinity.
  - change (math_min (NInt <$> z :: y :: zs)) with (num_min (NInt z) (math_min (NInt <$> y :: zs))).
    rewrite IH, Hmin. f_equal. simpl. clear. induction zs as [|x zs IH]; simpl; lia.
Qed.

Lemma foldr_min_elem z zs : foldr Z.min z zs ∈ z :: zs ∧ ∀ y, y ∈ z :: zs → foldr Z.min z zs <= y.
Proof.
  induction zs as [|x zs [Hin Hle]]; simpl.
  { split; [by left|]. intros y ->%list_elem_of_singleton. lia. }
  split.
  - destruct (Z.min_spec x (foldr Z.min z zs)) as [[_ ->]|[_ ->]]; set_solver.
  - intros y. rewrite !elem_of_cons. pose proof (Hle y). intros [->|[->|Hy]].
    + pose proof (Hle z ltac:(by left)). lia.
    + lia.
    + pose proof (Hle y ltac:(by right)). lia.
Qed.

Definition pending (r : Signer.t) : bool := bool_decide (Signer.status r = SignerStatus.pending).

(** Orders seen through their integers. *)
Definition order_int (r : Signer.t) : Z :=
  match Signer.routingOrder r with NInt z => z | NFlt _ => 0 end.

Lemma orders_are_int l zs r : orders_are l zs → r ∈ l → Signer.routingOrder r = NInt (order_int r).
Proof.
  intros Ho Hr. apply (list_elem_of_fmap_2 Signer.routingOrder) in Hr. rewrite Ho in Hr.
  apply list_elem_of_fmap in Hr as (z & Hz & _). unfold order_int. by rewrite Hz.
Qed.

(** In ordered mode the pending signers with the least order act. *)
Lemma ordered_turn l zs r :
  orders_are l zs → r ∈ l →
  canSignerActNow SigningMode.ordered r l = true ↔
  pending r = true ∧ ∀ r', r' ∈ l → pending r' = true → order_int r <= order_int r'.
Proof.
  intros Ho Hr. unfold canSignerActNow. fold (pending r). destruct (pending r) eqn:Hp; simpl; [|naive_solver].
  assert (Signer.routingOrder <$> List.filter pending l =
    NInt <$> (order_int <$> List.filter pending l)) as Heq.
  { rewrite <-list_fmap_compose. apply list_fmap_ext. intros i x Hx%list_elem_of_lookup_2.
    apply (orders_are_int _ _ _ Ho). apply list_elem_of_In, List.filter_In in Hx as [Hx _].
    by apply list_elem_of_In. }
  assert (∀ x, x ∈ List.filter pending l ↔ x ∈ l ∧ pending x = true) as Hf.
  { intros x. by rewrite !list_elem_of_In, List.filter_In. }
  change (λ signer, bool_decide _) with pending. rewrite Heq.
  destruct (List.filter pending l) as [|y ys] eqn:Hys.
  { exfalso. apply (elem_of_nil r), Hf. done. }
  change (math_min (NInt <$> (order_int <$> y :: ys))) with
    (math_min (NInt <$> order_int y :: (order_int <$> ys))).
  rewrite math_min_int, (orders_are_int _ _ _ Ho Hr). simpl. rewrite Z.eqb_eq.
  destruct (foldr_min_elem (order_int y) (order_int <$> ys)) as [Hin Hle].
  change (order_int y :: (order_int <$> ys)) with (order_int <$> y :: ys) in Hin, Hle.
  split.
  - intros He. split; [done|]. intros r' Hr' Hp'. rewrite <-He.
    by apply Hle, list_elem_of_fmap_2, Hf.
  - intros [_ Hmin]. apply list_elem_of_fmap in Hin as (x & Hx & [Hxl Hxp]%Hf). rewrite Hx.
    apply Z.le_antisymm; [|by apply Hmin]. rewrite <-Hx. by apply Hle, list_elem_of_fmap_2, Hf.
Qed.

(** The routing never gets stuck: as long as a signer is pending, some signer
    may act; in ordered mode it is exactly one, and everyone before has answered. *)
Theorem turns_follow_the_routing mode l zs :
  orders_are l zs → assertSignerRouting mode l = Ok tt → (∃ r, r ∈ l ∧ pending r = true) →
  (∃ r, r ∈ l ∧ canSignerActNow mode r l = true) ∧
  (mode = SigningMode.ordered → ∀ r, r ∈ l → canSignerActNow mode r l = true →
     ∀ r', r' ∈ l → (canSignerActNow mode r' l = true → r' = r) ∧
       (order_int r' < order_int r → pending r' = false)).
Proof.
  intros Ho Hok (x & Hx & Hp). apply (assertSignerRouting_spec _ _ _ Ho) in Hok as [_ Hok].
  destruct mode.
  2: { split; [|done]. exists x. split; [done|]. unfold canSignerActNow. fold (pending x). by rewrite Hp. }
  split.
  - destruct (foldr_min_elem (order_int x) (order_int <$> List.filter pending l)) as [Hin Hle].
    apply elem_of_cons in Hin as Hin'.
    assert (∃ m, m ∈ l ∧ pending m = true ∧
      order_int m = foldr Z.min (order_int x) (order_int <$> List.filter pending l)) as (m & Hm & Hmp & He).
    { destruct Hin' as [He|(m & He & Hm)%list_elem_of_fmap]; [by exists x|].
      apply list_elem_of_In, List.filter_In in Hm as [Hm Hmp]. exists m.
      split_and!; [by apply list_elem_of_In|done|done]. }
    exists m. split; [done|]. apply (ordered_turn _ _ _ Ho Hm). split; [done|]. intros r' Hr' Hp'.
    rewrite He. apply Hle. right. apply list_elem_of_fmap_2, list_elem_of_In, List.filter_In.
    split; [by apply list_elem_of_In|done].
  - intros _ r Hr Hact r' Hr'. apply (ordered_turn _ _ _ Ho Hr) in Hact as [Hrp Hmin]. split.
    + intros Hact'. apply (ordered_turn _ _ _ Ho Hr') in Hact' as [Hrp' Hmin'].
      assert (order_int r = order_int r') as He.
      { apply Z.le_antisymm; [by apply Hmin|by apply Hmin']. }
      assert (NoDup (Signer.routingOrder <$> l)) as Hnd.
      { rewrite Ho. apply NoDup_fmap_2; [by intros a b [= ->]|]. rewrite Hok. apply one_to_NoDup. }
      apply list_elem_of_lookup in Hr as [i Hi]. apply list_elem_of_lookup in Hr' as [j Hj].
      assert (i = j) as ->; [|by simplify_eq].
      eapply (NoDup_lookup _ _ _ _ Hnd); rewrite list_lookup_fmap; [by rewrite Hi|].
      rewrite Hj. simpl. f_equal.
      rewrite (orders_are_int _ _ _ Ho (list_elem_of_lookup_2 _ _ _ Hi)).
      rewrite (orders_are_int _ _ _ Ho (list_elem_of_lookup_2 _ _ _ Hj)). by rewrite He.
    + intros Hlt. destruct (pending r') eqn:Hp'; [|done]. specialize (Hmin r' Hr' Hp'). lia.
Qed.

(** Three signers in order, the first of whom has signed. *)
Definition routed (id : string) (order : Z) (status : SignerStatus.t) : Signer.t :=
  Signer.mk id "org" "doc" None (NInt order) status None "" 1 None None 0 0.
Definition roster_of_three : list Signer.t :=
  [routed "c" 3 SignerStatus.pending; routed "a" 1 SignerStatus.signed;
   routed "b" 2 SignerStatus.pending].

Lemma assertSignerRouting_spec_witness :
  assertSignerRouting SigningMode.ordered roster_of_three = Ok tt ↔
  roster_of_three ≠ [] ∧ [3; 1; 2] ≡ₚ one_to (length roster_of_three).
Proof. apply (assertSignerRouting_spec SigningMode.ordered). reflexivity. Defined.

Lemma turns_follow_the_routing_witness :
  (∃ r, r ∈ roster_of_three ∧ canSignerActNow SigningMode.ordered r roster_of_three = true) ∧
  (SigningMode.ordered = SigningMode.ordered → ∀ r, r ∈ roster_of_three →
     canSignerActNow SigningMode.ordered r roster_of_three = true →
     ∀ r', r' ∈ roster_of_three →
       (canSignerActNow SigningMode.ordered r' roster_of_three = true → r' = r) ∧
       (order_int r' < order_int r → pending r' = false)).
Proof.
  apply (turns_follow_the_routing SigningMode.ordered roster_of_three [3; 1; 2]).
  - reflexivity.
  - vm_compute. reflexivity.
  - exists (routed "b" 2 SignerStatus.pending). split; [right; right; left|reflexivity].
Defined.
