(* ===== verification/Keys.v ===== *)
(** Opaque identifiers, tenant contexts and object-storage keys:
    [packages/domain/src/organization-context.ts], [object-keys.ts] and
    [jobs/payload.ts]. *)

From Stdlib Require Import String Ascii.
From S2P Require Export Entities.
Local Open Scope string_scope.

(** ** Character classes of the source's regular expressions *)

Definition between (lo hi : ascii) (c : ascii) : bool :=
  ((code lo <=? code c) && (code c <=? code hi))%Z.
Definition is_digit : ascii → bool := between "0" "9".
(** [[0-9a-f]] and, under the [i] flag, [[0-9a-fA-F]]. *)
Definition is_lower_hex (c : ascii) : bool := is_digit c || between "a" "f" c.
Definition is_hex (c : ascii) : bool := is_lower_hex c || between "A" "F" c.
Definition is_char (d : ascii) (c : ascii) : bool := Ascii.eqb c d.
Definition one_of (s : string) (c : ascii) : bool := existsb (Ascii.eqb c) (units s).

(** A regular expression that is a sequence of classes between [^] and [$]. *)
Definition matches (classes : list (ascii → bool)) (s : string) : bool :=
  (length classes =? length (units s))%nat &&
  forallb (λ '(cls, c), cls c) (zip classes (units s)).

Lemma matches_length classes s :
  matches classes s = true → String.length s = length classes.
Proof.
  unfold matches. rewrite andb_true_iff, Nat.eqb_eq, units_length. by intros [-> _].
Qed.

Lemma matches_elem classes (P : ascii → bool) s :
  matches classes s = true → Forall (λ cls : ascii → bool, ∀ c, cls c = true → P c = true) classes →
  ∀ c, c ∈ units s → P c = true.
Proof.
  unfold matches. rewrite andb_true_iff, Nat.eqb_eq. intros [Hlen Hall]. clear -Hlen Hall.
  revert classes Hlen Hall. induction (units s) as [|d l IH]; intros [|cls classes]; try done.
  { intros _ _ _ c Hc. by apply elem_of_nil in Hc. }
  simpl. intros [= Hlen]. rewrite andb_true_iff. intros [Hd Hl] HP c.
  inversion HP as [|?? Hcls HP']; subst. rewrite elem_of_cons. intros [->|Hc]; [by apply Hcls|].
  by eapply (IH classes).
Qed.

(* [src: packages/domain/src/organization-context.ts:3-4 OPAQUE_ID_PATTERN] *)
Definition OPAQUE_ID_PATTERN : list (ascii → bool) :=
  replicate 8 is_hex ++ [is_char "-"] ++ replicate 4 is_hex ++ [is_char "-"] ++
  [between "1" "8"] ++ replicate 3 is_hex ++ [is_char "-"] ++
  [one_of "89abAB"] ++ replicate 3 is_hex ++ [is_char "-"] ++ replicate 12 is_hex.

(* [src: packages/domain/src/organization-context.ts:20-22 isOpaqueId] *)
Definition isOpaqueId (value : string) : bool := matches OPAQUE_ID_PATTERN value.

(* [src: packages/domain/src/organization-context.ts:10-18 requireOpaqueId] *)
Definition requireOpaqueId (value field : string) : Result Exn string :=
  if String.eqb (trim value) EmptyString then
    Throw (ValidationError (fieldReason field "missing"))
  else if negb (isOpaqueId value) then
    Throw (ValidationError (fieldReason field "invalid"))
  else Ok value.

(* [src: packages/domain/src/organization-context.ts:6-8 requireOrganizationId] *)
Definition requireOrganizationId (organizationId : string) : Result Exn string :=
  requireOpaqueId organizationId "organizationId".

(** [OrganizationContext] has the one member [organizationId]. *)
(* [src: packages/domain/src/organization-context.ts:28-30 organizationContext] *)
Definition organizationContext (organizationId : string) : Result Exn string :=
  requireOrganizationId organizationId.

(* [src: packages/domain/src/request-actor.ts:37-48 organizationContextFromActor] *)
Definition organizationContextFromActor (actor : RequestActor) : Result Exn string :=
  match actor with
  | account_user a => organizationContext (AccountUserActor.organizationId a)
  | signer a => organizationContext (SignerActor.organizationId a)
  | worker _ organizationId => organizationContext organizationId
  | system => Throw (AuthorizationError (reasonOnly "system_requires_explicit_organization"))
  end.

(** ** Object keys *)

Definition slash : ascii := "/".
Definition backslash : ascii := "092".
Definition nul : ascii := "000".

(* [src: packages/domain/src/object-keys.ts:4-4 AUDIT_GENESIS_PREVIOUS_EVENT_HASH] *)
Definition AUDIT_GENESIS_PREVIOUS_EVENT_HASH : string := of_units (replicate 64 "0"%char).

(* [src: packages/domain/src/object-keys.ts:6-8 tenantObjectKeyPrefix] *)
Definition tenantObjectKeyPrefix (organizationId : string) : Result Exn string :=
  o ← requireOrganizationId organizationId;
  mret ("org/" +:+ o +:+ "/").

Definition unsafe_segment : Exn := IntegrityError (reasonOnly "object_key_unsafe_segment").

(* [src: packages/domain/src/object-keys.ts:16-31 assertSafeObjectKeySegments] *)
Definition assertSafeObjectKeySegments (key : string) : Result Exn string :=
  if existsb (is_char backslash) (units key) || existsb (is_char nul) (units key) then
    Throw unsafe_segment
  else
    let forCheck := if endsWithChar slash key then drop_last_char key else key in
    if String.eqb forCheck EmptyString || startsWith "/" forCheck then Throw unsafe_segment
    else
      each (λ segment,
              throw_if (String.eqb segment EmptyString || String.eqb segment "."
                        || String.eqb segment "..") unsafe_segment)
        (split slash forCheck) ≫= λ _,
      Ok key.

(* [src: packages/domain/src/object-keys.ts:33-44 tenantObjectKey] *)
Definition tenantObjectKey (organizationId relativeKey : string) : Result Exn string :=
  prefix ← tenantObjectKeyPrefix organizationId;
  let trimmed := of_units (drop_while (is_char slash) (units relativeKey)) in
  assertSafeObjectKeySegments trimmed ≫= λ _,
  if startsWith "org/" trimmed then
    if negb (startsWith prefix trimmed) then
      Throw (IntegrityError (reasonOnly "object_key_tenant_mismatch"))
    else Ok trimmed
  else assertSafeObjectKeySegments (prefix +:+ trimmed).

(* [src: packages/domain/src/object-keys.ts:46-53 assertTenantObjectKey] *)
Definition assertTenantObjectKey (organizationId key : string) : Result Exn string :=
  assertSafeObjectKeySegments key ≫= λ _,
  prefix ← tenantObjectKeyPrefix organizationId;
  if negb (startsWith prefix key) then
    Throw (IntegrityError (reasonOnly "object_key_not_tenant_prefixed"))
  else Ok key.

(* [src: packages/domain/src/object-keys.ts:55-55 SHA256_HEX] *)
Definition SHA256_HEX : list (ascii → bool) := replicate 64 is_lower_hex.

(* [src: packages/domain/src/object-keys.ts:69-78 digestObjectKey] *)
Definition digestObjectKey (organizationId kind sha256Digest : string) : Result Exn string :=
  if negb (matches SHA256_HEX sha256Digest) then
    Throw (IntegrityError (reasonOnly "invalid_sha256_digest"))
  else tenantObjectKey organizationId (kind +:+ "/" +:+ sha256Digest).

(* [src: packages/domain/src/object-keys.ts:57-59 sourceRevisionObjectKey] *)
Definition sourceRevisionObjectKey (organizationId sha256Digest : string) : Result Exn string :=
  digestObjectKey organizationId "revisions" sha256Digest.
(* [src: packages/domain/src/object-keys.ts:61-63 artifactObjectKey] *)
Definition artifactObjectKey (organizationId sha256Digest : string) : Result Exn string :=
  digestObjectKey organizationId "artifacts" sha256Digest.
(* [src: packages/domain/src/object-keys.ts:65-67 signatureImageObjectKey] *)
Definition signatureImageObjectKey (organizationId sha256Digest : string) : Result Exn string :=
  digestObjectKey organizationId "signatures" sha256Digest.

(** ** Job payloads *)

(** [/token|secret|.../i]: some alternative occurs in the lower-cased key. *)
(* [src: packages/domain/src/jobs/payload.ts:4-5 FORBIDDEN_PAYLOAD_KEY_PATTERN] *)
Definition FORBIDDEN_PAYLOAD_KEYS : list string :=
  ["token"; "secret"; "password"; "signature"; "pdf"; "png"; "bytes"; "cookie";
   "authorization"; "raw"; "image"; "ink"].
Definition forbidden_payload_key (key : string) : bool :=
  existsb (λ part, includes part (toLowerCase key)) FORBIDDEN_PAYLOAD_KEYS.

(* [src: packages/domain/src/jobs/payload.ts:7-7 MAX_PAYLOAD_KEYS] *)
Definition MAX_PAYLOAD_KEYS : nat := 16.

(* [src: packages/domain/src/jobs/payload.ts:9-25 assertSafeJobPayload] *)
Definition assertSafeJobPayload (payload : object) : Result Exn unit :=
  throw_if (MAX_PAYLOAD_KEYS <? length (keys payload))%nat
    (ValidationError (reasonOnly "job_payload_too_large")) ≫= λ _,
  each (λ key,
          throw_if (forbidden_payload_key key)
            (ValidationError (fieldReason key "forbidden_job_payload_key")) ≫= λ _,
          throw_if (match prop key payload with
                    | VStr value => negb (isOpaqueId value)
                    | _ => true
                    end)
            (ValidationError (fieldReason key "job_payload_must_be_opaque_id")))
    (keys payload).

(** ** Facts *)

Lemma isOpaqueId_length s : isOpaqueId s = true → String.length s = 36%nat.
Proof. intros H. by rewrite (matches_length _ _ H). Qed.

(** The characters of an opaque id: hexadecimal digits and dashes. *)
Definition id_char (c : ascii) : bool := is_hex c || is_char "-" c.

(** Inclusion of character classes, decided by enumeration. *)
Definition class_le (p q : ascii → bool) : bool :=
  forallb (λ n, implb (p (ascii_of_nat n)) (q (ascii_of_nat n))) (seq 0 256).

Lemma class_le_spec p q : class_le p q = true → ∀ c, p c = true → q c = true.
Proof.
  unfold class_le. rewrite forallb_forall. intros Hall c Hc.
  assert (In (nat_of_ascii c) (seq 0 256)) as Hin.
  { apply in_seq. pose proof (nat_ascii_bounded c). lia. }
  specialize (Hall _ Hin). by rewrite ascii_nat_embedding, Hc in Hall.
Qed.

Lemma classes_id_char : Forall (λ cls : ascii → bool, ∀ c, cls c = true → id_char c = true)
  OPAQUE_ID_PATTERN.
Proof.
  assert (forallb (λ cls, class_le cls id_char) OPAQUE_ID_PATTERN = true) as H
    by (vm_compute; reflexivity).
  rewrite forallb_forall in H. apply Forall_forall. intros cls Hcls.
  by apply class_le_spec, H, list_elem_of_In.
Qed.

Lemma isOpaqueId_chars s (P : ascii → bool) :
  isOpaqueId s = true → class_le id_char P = true → ∀ c, c ∈ units s → P c = true.
Proof.
  intros Hs HP c Hc. apply (class_le_spec _ _ HP).
  by apply (matches_elem _ _ _ Hs classes_id_char).
Qed.

Lemma isOpaqueId_no_slash s : isOpaqueId s = true → slash ∉ units s.
Proof.
  intros Hs Hin.
  by pose proof (isOpaqueId_chars s (λ c, negb (is_char slash c)) Hs eq_refl _ Hin).
Qed.

Lemma requireOrganizationId_ok o o' :
  requireOrganizationId o = Ok o' ↔ o' = o ∧ isOpaqueId o = true ∧ trim o ≠ EmptyString.
Proof.
  unfold requireOrganizationId, requireOpaqueId.
  destruct (String.eqb (trim o) EmptyString) eqn:Ht.
  { apply String.eqb_eq in Ht. naive_solver. }
  apply String.eqb_neq in Ht. destruct (isOpaqueId o); simpl; naive_solver.
Qed.

Lemma requireOrganizationId_id o o' : requireOrganizationId o = Ok o' → o' = o.
Proof. rewrite requireOrganizationId_ok. by intros (-> & _). Qed.

Lemma organizationContextFromActor_user a o :
  organizationContextFromActor (account_user a) = Ok o → o = AccountUserActor.organizationId a.
Proof. apply requireOrganizationId_id. Qed.

Lemma tenantObjectKeyPrefix_ok o p :
  tenantObjectKeyPrefix o = Ok p → isOpaqueId o = true ∧ p = "org/" +:+ o +:+ "/".
Proof.
  unfold tenantObjectKeyPrefix. rewrite bind_Result_ok. intros (o' & Ho & [= <-]).
  apply requireOrganizationId_ok in Ho as (-> & ? & _). done.
Qed.

Lemma assertSafeObjectKeySegments_id k k' : assertSafeObjectKeySegments k = Ok k' → k' = k.
Proof.
  unfold assertSafeObjectKeySegments. destruct (_ || _); [done|]. destruct (_ || _); [done|].
  rewrite bind_Result_ok. by intros ([] & _ & [= <-]).
Qed.

(** What a safe key excludes: back slashes, NULs, and empty, [.] and [..]
    segments (a single trailing slash aside). *)
Lemma assertSafeObjectKeySegments_safe k k' :
  assertSafeObjectKeySegments k = Ok k' →
  (backslash ∉ units k) ∧ (nul ∉ units k) ∧
  ∀ seg, seg ∈ split slash (if endsWithChar slash k then drop_last_char k else k) →
    seg ≠ EmptyString ∧ seg ≠ "." ∧ seg ≠ "..".
Proof.
  unfold assertSafeObjectKeySegments.
  destruct (existsb _ _ || existsb _ _) eqn:Hbad; [done|].
  destruct (String.eqb _ _ || _); [done|]. rewrite bind_Result_ok. intros ([] & Hsegs & _).
  apply orb_false_iff in Hbad as [Hb Hn]. split_and!.
  - intros Hin. apply list_elem_of_In in Hin.
    assert (existsb (is_char backslash) (units k) = true) as H; [|congruence].
    apply existsb_exists. exists backslash. split; [done|apply Ascii.eqb_refl].
  - intros Hin. apply list_elem_of_In in Hin.
    assert (existsb (is_char nul) (units k) = true) as H; [|congruence].
    apply existsb_exists. exists nul. split; [done|apply Ascii.eqb_refl].
  - intros seg Hin. rewrite each_ok in Hsegs. specialize (Hsegs seg Hin).
    apply throw_if_ok in Hsegs. rewrite !orb_false_iff, !String.eqb_neq in Hsegs. naive_solver.
Qed.

Lemma assertTenantObjectKey_ok o k k' :
  assertTenantObjectKey o k = Ok k' →
  k' = k ∧ isOpaqueId o = true ∧ startsWith ("org/" +:+ o +:+ "/") k = true ∧
  assertSafeObjectKeySegments k = Ok k.
Proof.
  unfold assertTenantObjectKey. rewrite bind_Result_ok. intros (k1 & Hk1 & H).
  pose proof (assertSafeObjectKeySegments_id _ _ Hk1) as ->.
  rewrite bind_Result_ok in H. destruct H as (p & Hp & H).
  apply tenantObjectKeyPrefix_ok in Hp as [Ho ->].
  destruct (startsWith _ k) eqn:Hs; simpl in H; [|done]. by injection H as <-.
Qed.

Lemma tenantObjectKey_accepted o r k :
  tenantObjectKey o r = Ok k → assertTenantObjectKey o k = Ok k.
Proof.
  unfold tenantObjectKey. rewrite bind_Result_ok. intros (p & Hp & H).
  rewrite bind_Result_ok in H. destruct H as (t & Ht & H).
  set (trimmed := of_units _) in *.
  assert (assertSafeObjectKeySegments k = Ok k ∧ startsWith p k = true) as [Hsafe Hpre].
  { destruct (startsWith "org/" trimmed).
    - destruct (startsWith p trimmed) eqn:Hs; simpl in H; [|done]. injection H as <-.
      by rewrite (assertSafeObjectKeySegments_id _ _ Ht) in Ht.
    - pose proof (assertSafeObjectKeySegments_id _ _ H) as ->. split; [done|apply startsWith_app]. }
  unfold assertTenantObjectKey. rewrite Hsafe. simpl. rewrite Hp. simpl. by rewrite Hpre.
Qed.

Lemma tenant_prefix_unique o1 o2 k :
  isOpaqueId o1 = true → isOpaqueId o2 = true →
  startsWith ("org/" +:+ o1 +:+ "/") k = true →
  startsWith ("org/" +:+ o2 +:+ "/") k = true → o1 = o2.
Proof.
  rewrite !startsWith_iff. intros H1 H2 [x ->] [y Hy].
  rewrite !append_assoc in Hy. apply string_app_inj in Hy as [_ Hy]; [|done].
  apply string_app_inj in Hy as [-> _]; [done|].
  by rewrite (isOpaqueId_length _ H1), (isOpaqueId_length _ H2).
Qed.

(** Digest keys are always built for a valid tenant and digest. *)
Lemma matches_sha_chars d : matches SHA256_HEX d = true → ∀ c, c ∈ units d → id_char c = true.
Proof.
  intros H. apply (matches_elem _ _ _ H). apply Forall_replicate.
  intros c Hc. unfold id_char, is_hex. by rewrite Hc.
Qed.

(** Job payloads carry nothing but opaque ids under innocuous keys. *)
Lemma assertSafeJobPayload_ok payload :
  assertSafeJobPayload payload = Ok tt ↔
  (length (keys payload) ≤ MAX_PAYLOAD_KEYS)%nat ∧
  ∀ key, key ∈ keys payload → forbidden_payload_key key = false ∧
    ∃ v, prop key payload = VStr v ∧ isOpaqueId v = true.
Proof.
  unfold assertSafeJobPayload. rewrite bind_Result_ok. split.
  - intros ([] & Hlen & H). apply throw_if_ok, Nat.ltb_ge in Hlen. split; [done|].
    intros key Hkey. rewrite each_ok in H. specialize (H key Hkey).
    rewrite bind_Result_ok in H. destruct H as ([] & Hf & Hv).
    rewrite throw_if_ok in Hf, Hv. split; [done|]. destruct (prop key payload); try done.
    eexists. split; [done|]. by apply negb_false_iff.
  - intros [Hlen H]. exists tt. split; [by apply throw_if_ok, Nat.ltb_ge|].
    apply each_ok. intros key Hkey. destruct (H key Hkey) as (Hf & v & Hv & Ho).
    by rewrite Hf, Hv, Ho.
Qed.

(** A key that is accepted for the tenant is its own normal form. *)
Lemma tenantObjectKey_accepts o k : assertTenantObjectKey o k = Ok k → tenantObjectKey o k = Ok k.
Proof.
  intros Hk. pose proof (assertTenantObjectKey_ok _ _ _ Hk) as (_ & _ & Hp & Hs).
  unfold assertTenantObjectKey in Hk. rewrite Hs in Hk. simpl in Hk.
  apply bind_Result_ok in Hk as (p & Hpre & _).
  pose proof (tenantObjectKeyPrefix_ok _ _ Hpre) as [_ ->].
  unfold tenantObjectKey. rewrite Hpre.
  change (Ok ?x ≫= ?f) with (f x). cbv beta zeta.
  assert (of_units (drop_while (is_char slash) (units k)) = k) as ->.
  { apply startsWith_iff in Hp as [x ->]. rewrite !append_assoc.
    generalize (o +:+ "/" +:+ x). intros y. unfold units, of_units. simpl.
    by rewrite string_of_list_ascii_of_string. }
  rewrite Hs. change (Ok ?x ≫= ?f) with (f x). cbv beta. rewrite Hp.
  assert (startsWith "org/" k = true) as ->; [|done].
  apply startsWith_iff in Hp as [x ->]. rewrite append_assoc. apply startsWith_app.
Qed.
