(* ===== verification/Geometry.v ===== *)
(** Signature-field placement: [packages/domain/src/field-geometry.ts].

    Coordinates are binary64 numbers, and the additions and comparisons are
    those of IEEE 754, rounding and NaN included. *)

From Stdlib Require Import String SpecFloat Permutation.
From S2P Require Export Entities.
Local Open Scope string_scope.

Module FieldBox.
(* [src: packages/domain/src/field-geometry.ts:8-8 FieldBox] *)
Record t : Type := mk {
  pageNumber : jsnum;
  x : jsnum;
  y : jsnum;
  width : jsnum;
  height : jsnum
}.
Definition of_field (f : SignatureField.t) : t :=
  mk (SignatureField.pageNumber f) (SignatureField.x f) (SignatureField.y f)
    (SignatureField.width f) (SignatureField.height f).
End FieldBox.

(** [1e-9], the nearest binary64. *)
(* [src: packages/domain/src/field-geometry.ts:4-6 EPSILON] *)
Definition EPSILON : jsnum := NFlt (S754_finite false 4835703278458517 (-82)).
Definition MIN_NORMALIZED : jsnum := NInt 0.
Definition MAX_NORMALIZED : jsnum := NInt 1.

(* [src: packages/domain/src/field-geometry.ts:10-41 assertFieldOnPage] *)
Definition assertFieldOnPage (field : FieldBox.t) (pageCount : Z) : Result Exn unit :=
  let '(FieldBox.mk pageNumber x y width height) := field in
  throw_if (negb (isInteger pageNumber) || num_ltb pageNumber (NInt 1)
            || num_ltb (NInt pageCount) pageNumber)
    (ValidationError
       [("field", VStr "pageNumber"); ("reason", VStr "out_of_bounds");
        ("pageCount", VNum (NInt pageCount))]) ≫= λ _,
  each (λ '(name, value),
          throw_if (negb (isFinite value)) (ValidationError (fieldReason name "invalid")))
    [("x", x); ("y", y); ("width", width); ("height", height)] ≫= λ _,
  throw_if (num_leb width MIN_NORMALIZED || num_leb height MIN_NORMALIZED)
    (ValidationError (fieldReason "size" "non_positive")) ≫= λ _,
  throw_if (num_ltb x MIN_NORMALIZED || num_ltb y MIN_NORMALIZED)
    (ValidationError (fieldReason "origin" "out_of_bounds")) ≫= λ _,
  throw_if (num_ltb (num_add MAX_NORMALIZED EPSILON) (num_add x width)
            || num_ltb (num_add MAX_NORMALIZED EPSILON) (num_add y height))
    (ValidationError (fieldReason "rectangle" "exceeds_page")).

(* [src: packages/domain/src/field-geometry.ts:43-57 fieldsOverlap] *)
Definition fieldsOverlap (left right : FieldBox.t) : bool :=
  let '(FieldBox.mk lpage lx ly lw lh) := left in
  let '(FieldBox.mk rpage rx ry rw rh) := right in
  if negb (num_eqb lpage rpage) then false else
  let leftRight := num_add lx lw in
  let rightRight := num_add rx rw in
  let leftTop := num_add ly lh in
  let rightTop := num_add ry rh in
  let separated :=
    num_leb leftRight (num_add rx EPSILON) || num_leb rightRight (num_add lx EPSILON) ||
    num_leb leftTop (num_add ry EPSILON) || num_leb rightTop (num_add ly EPSILON) in
  negb separated.

(** The two nested loops of [assertFieldLayout]. *)
(* [src: packages/domain/src/field-geometry.ts:59-85 assertFieldLayout] *)
Fixpoint assertNoOverlap (fields : list FieldBox.t) : Result Exn unit :=
  match fields with
  | [] => Ok tt
  | current :: rest =>
    each (λ candidate,
            throw_if (fieldsOverlap current candidate)
              (ValidationError (fieldReason "fields" "overlap_prohibited"))) rest ≫= λ _,
    assertNoOverlap rest
  end.

(* [src: packages/domain/src/field-geometry.ts:59-85 assertFieldLayout] *)
Definition assertFieldLayout (fields : list FieldBox.t) (pageCount : Z)
    (overlapPolicy : FieldOverlapPolicy.t) : Result Exn unit :=
  throw_if (pageCount <? 1)%Z (ValidationError (fieldReason "pageCount" "invalid")) ≫= λ _,
  each (λ field, assertFieldOnPage field pageCount) fields ≫= λ _,
  if negb (bool_decide (overlapPolicy = FieldOverlapPolicy.prohibit)) then Ok tt
  else assertNoOverlap fields.

(** ** Facts *)

Lemma SFcompare_sym x y :
  SFcompare x y = match SFcompare y x with Some c => Some (CompOpp c) | None => None end.
Proof.
  destruct x as [[]|[]| |[] mx ex], y as [[]|[]| |[] my ey]; simpl; try done;
    rewrite (Z.compare_antisym ey ex); destruct (ey ?= ex)%Z; simpl; try done;
    change (Pos.compare_cont Eq mx my) with (mx ?= my)%positive;
    change (Pos.compare_cont Eq my mx) with (my ?= mx)%positive;
    rewrite (Pos.compare_antisym my mx); by destruct (my ?= mx)%positive.
Qed.

Lemma num_eqb_sym a b : num_eqb a b = num_eqb b a.
Proof.
  unfold num_eqb. destruct a as [x|f], b as [y|g]; try apply Z.eqb_sym;
    unfold SFeqb; rewrite SFcompare_sym; by destruct (SFcompare _ _) as [[]|].
Qed.

Lemma fieldsOverlap_sym a b : fieldsOverlap a b = fieldsOverlap b a.
Proof.
  destruct a as [pa ax ay aw ah], b as [pb bx by_ bw bh]; unfold fieldsOverlap.
  rewrite (num_eqb_sym pb pa). destruct (num_eqb pa pb); [|done].
  change (negb true) with false. cbv iota zeta. f_equal.
  generalize (num_leb (num_add ax aw) (num_add bx EPSILON)) as p,
    (num_leb (num_add bx bw) (num_add ax EPSILON)) as q,
    (num_leb (num_add ay ah) (num_add by_ EPSILON)) as r,
    (num_leb (num_add by_ bh) (num_add ay EPSILON)) as t.
  by intros [] [] [] [].
Qed.

Lemma assertNoOverlap_ok l :
  assertNoOverlap l = Ok tt ↔ ForallOrdPairs (λ a b, fieldsOverlap a b = false) l.
Proof.
  induction l as [|a l IH]; simpl; [by split; [constructor|]|]. rewrite bind_Result_ok. split.
  - intros ([] & Ha & Hl). constructor; [|by apply IH]. apply List.Forall_forall.
    intros b Hb. apply list_elem_of_In in Hb. rewrite each_ok in Ha.
    exact (proj1 (throw_if_ok _ _) (Ha b Hb)).
  - intros H. inversion H as [|?? Ha Hl]; subst. exists tt. split; [|by apply IH].
    apply each_ok. intros b Hb. apply throw_if_ok. rewrite List.Forall_forall in Ha.
    by apply Ha, list_elem_of_In.
Qed.

(** The layout is accepted exactly when every box is on its page and, where
    overlaps are prohibited, no two boxes overlap. *)
Lemma assertFieldLayout_ok fields pageCount policy :
  assertFieldLayout fields pageCount policy = Ok tt ↔
  (1 <= pageCount)%Z ∧
  (∀ f, f ∈ fields → assertFieldOnPage f pageCount = Ok tt) ∧
  (policy = FieldOverlapPolicy.prohibit →
   ForallOrdPairs (λ a b, fieldsOverlap a b = false) fields).
Proof.
  unfold assertFieldLayout. rewrite bind_Result_ok. split.
  - intros ([] & Hp & H). apply throw_if_ok, Z.ltb_ge in Hp. rewrite bind_Result_ok in H.
    destruct H as ([] & Hf & H). split_and!; [done|by apply each_ok|]. intros ->.
    by apply assertNoOverlap_ok.
  - intros (Hp & Hf & Hno). exists tt. split; [by apply throw_if_ok, Z.ltb_ge|].
    rewrite bind_Result_ok. exists tt. split; [by apply each_ok|].
    case_bool_decide; simpl; [|done]. by apply assertNoOverlap_ok, Hno.
Qed.

Lemma ForallOrdPairs_permutation {A} (R : A → A → Prop) l l' :
  (∀ a b, R a b → R b a) → Permutation l l' → ForallOrdPairs R l → ForallOrdPairs R l'.
Proof.
  intros Hsym. induction 1 as [|x l l' HP IH|x y l|l l' l'' _ IH1 _ IH2]; intros H.
  - done.
  - inversion H as [|?? Hx Hl]; subst. constructor; [|by apply IH].
    rewrite List.Forall_forall in *. intros z Hz. apply Hx.
    by eapply Permutation_in; [symmetry|].
  - inversion H as [|?? Hy Hl]; subst. inversion Hl as [|?? Hx Hl']; subst.
    inversion Hy as [|?? Hyx Hy']; subst. repeat constructor; auto.
  - auto.
Qed.

(** Whether a layout is accepted does not depend on the order of the fields. *)
Lemma assertFieldLayout_permutation l l' pageCount policy :
  Permutation l l' →
  is_ok (assertFieldLayout l pageCount policy) = is_ok (assertFieldLayout l' pageCount policy).
Proof.
  intros HP. apply eq_true_iff_eq. rewrite !is_ok_unit, !assertFieldLayout_ok.
  split; intros (? & Hf & Hno); split_and!; try done.
  - intros f Hin. apply Hf. by rewrite HP.
  - intros Hpol. eapply ForallOrdPairs_permutation; [|exact HP|by apply Hno].
    intros a b. by rewrite fieldsOverlap_sym.
  - intros f Hin. apply Hf. by rewrite <-HP.
  - intros Hpol. eapply ForallOrdPairs_permutation; [|symmetry; exact HP|by apply Hno].
    intros a b. by rewrite fieldsOverlap_sym.
Qed.
