(* ===== verification/Numbers.v ===== *)
(** More of JavaScript's numbers: subtraction, division, [Math.max] and
    [Math.round] on binary64, and when a result is not NaN. *)

From Stdlib Require Import SpecFloat.
From S2P Require Export Geometry.

Definition num_sub (a b : jsnum) : jsnum :=
  match a, b with
  | NInt x, NInt y => NInt (x - y)
  | _, _ => NFlt (SFsub prec emax (to_float a) (to_float b))
  end.

Definition num_div (a b : jsnum) : jsnum := NFlt (SFdiv prec emax (to_float a) (to_float b)).

(** [Math.max(a, b)] and [Math.min(a, b)] where [a] comes first. *)
Definition num_max (a b : jsnum) : jsnum :=
  if isNaN a then a else if isNaN b then b else if num_ltb a b then b else a.

(** [Math.round]: to the nearest integer, ties upwards. *)
Definition math_round (n : jsnum) : jsnum :=
  match n with
  | NInt z => NInt z
  | NFlt (S754_zero _) => NInt 0
  | NFlt (S754_finite s m e) =>
    let v := if s then Zneg m else Zpos m in
    if (0 <=? e)%Z then NInt (v * 2 ^ e)
    else NInt ((2 * v + 2 ^ (- e)) / 2 ^ (- e + 1))
  | NFlt _ => n
  end.

(** The binary64 of a number is finite. *)
Definition represented (n : jsnum) : bool := isFinite (NFlt (to_float n)).

(** ** Results that are numbers *)

Lemma shr_1_nonneg r : (0 <= shr_m r)%Z → (0 <= shr_m (shr_1 r))%Z.
Proof. destruct r as [[|[p|p|]|p] rr rs]; simpl; lia. Qed.

Lemma iter_shr_nonneg p r : (0 <= shr_m r)%Z → (0 <= shr_m (SpecFloat.iter_pos shr_1 p r))%Z.
Proof.
  revert r. induction p as [p IH|p IH|]; intros r Hr; simpl; try (by apply shr_1_nonneg).
  - apply IH, IH. by apply shr_1_nonneg.
  - by apply IH, IH.
Qed.

Lemma shr_fexp_nonneg m e l : (0 <= m)%Z → (0 <= shr_m (shr_fexp prec emax m e l).1)%Z.
Proof.
  intros Hm. unfold shr_fexp, shr.
  assert (0 <= shr_m (shr_record_of_loc m l))%Z as Hr by (by destruct l as [|[]]).
  destruct (_ - e)%Z; simpl; [done|by apply iter_shr_nonneg|done].
Qed.

Lemma round_nearest_nonneg m l : (0 <= m)%Z → (0 <= round_nearest_even m l)%Z.
Proof. intros Hm. destruct l as [|[]]; simpl; try destruct (Z.even m); lia. Qed.

Lemma binary_round_number sx mx ex lx :
  (0 <= mx)%Z → isNaN (NFlt (binary_round_aux prec emax sx mx ex lx)) = false.
Proof.
  intros Hm. unfold binary_round_aux.
  pose proof (shr_fexp_nonneg mx ex lx Hm) as H1.
  destruct (shr_fexp prec emax mx ex lx) as [r1 e1]. simpl in H1.
  pose proof (shr_fexp_nonneg _ e1 loc_Exact
    (round_nearest_nonneg (shr_m r1) (loc_of_shr_record r1) H1)) as H2.
  destruct (shr_fexp prec emax (round_nearest_even _ _) e1 loc_Exact) as [r2 e2]. simpl in H2.
  destruct (shr_m r2) eqn:Hr2; [done|by destruct (_ <=? _)%Z|lia].
Qed.

Lemma binary_normalize_number m e s : isNaN (NFlt (binary_normalize prec emax m e s)) = false.
Proof.
  destruct m as [|p|p]; [done|..]; unfold binary_normalize, binary_round;
    destruct (shl_align _ _ _) as [mz ez]; by apply binary_round_number.
Qed.

(** The difference of finite numbers is a number. *)
Lemma num_sub_number a b :
  represented a = true → represented b = true → isNaN (num_sub a b) = false.
Proof.
  unfold represented, num_sub. intros Ha Hb.
  assert (isNaN (NFlt (SFsub prec emax (to_float a) (to_float b))) = false) as Hs.
  { destruct (to_float a) as [sa|sa| |sa ma ea], (to_float b) as [sb|sb| |sb mb eb]; try done.
    - by destruct sa, sb.
    - unfold SFsub. apply binary_normalize_number. }
  by destruct a, b.
Qed.

Lemma to_float_number n : isNaN n = false → isNaN (NFlt (to_float n)) = false.
Proof. destruct n as [z|f]; [intros _; apply binary_normalize_number|done]. Qed.

(** ** Order *)

Lemma num_ltb_asym a b : num_ltb a b = true → num_ltb b a = false.
Proof.
  unfold num_ltb. destruct a as [x|f], b as [y|g]; try (rewrite Z.ltb_lt, Z.ltb_ge; lia);
    unfold SFltb; rewrite SFcompare_sym; by destruct (SFcompare _ _) as [[]|].
Qed.

Lemma num_max_ge a b : isNaN (num_max a b) = false → num_ltb (num_max a b) a = false.
Proof.
  unfold num_max. destruct (isNaN a) eqn:Ha; [congruence|]. destruct (isNaN b) eqn:Hb; [congruence|].
  intros _. destruct (num_ltb a b) eqn:Hab; [by apply num_ltb_asym|].
  destruct (num_ltb a a) eqn:Haa; [|done]. by rewrite (num_ltb_asym _ _ Haa) in Haa.
Qed.

Lemma num_max_number a b : isNaN a = false → isNaN b = false → isNaN (num_max a b) = false.
Proof. unfold num_max. intros Ha Hb. rewrite Ha, Hb. by destruct (num_ltb a b). Qed.
