(* ===== verification/Policy.v ===== *)
(** Authorization: the port of [packages/domain/src/ports/authorization.ts] as
    a class, and the membership policy of
    [packages/application/src/authorization/membership-policy.ts]. *)

From Stdlib Require Import String.
From S2P Require Export Keys.
Local Open Scope string_scope.

Module AuthorizationAction.
(* [src: packages/domain/src/ports/authorization.ts:3-15 AuthorizationAction] *)
Inductive t : Type :=
  | organization_membership_read | document_read | document_write | document_send
  | document_void | document_download_artifact | signing_session_act | job_process
  | audit_verify.

Definition to_string (x : t) : string :=
  match x with
  | organization_membership_read => "organization.membership.read"
  | document_read => "document.read"
  | document_write => "document.write"
  | document_send => "document.send"
  | document_void => "document.void"
  | document_download_artifact => "document.download_artifact"
  | signing_session_act => "signing.session.act"
  | job_process => "job.process"
  | audit_verify => "audit.verify"
  end.

#[global] Instance eq_dec : EqDecision t.
Proof. solve_decision. Defined.
End AuthorizationAction.

Module AuthorizationResource.
(* [src: packages/domain/src/ports/authorization.ts:17-21 AuthorizationResource] *)
Record t : Type := mk {
  organizationId : string;
  documentId : option string;
  signerId : option string
}.
End AuthorizationResource.

(** [{ organizationId }] and [{ organizationId, documentId }]. *)
Definition org_resource (o : string) : AuthorizationResource.t :=
  AuthorizationResource.mk o None None.
Definition doc_resource (o d : string) : AuthorizationResource.t :=
  AuthorizationResource.mk o (Some d) None.

(** The port the use cases call: a decision, or an exception. *)
(* [src: packages/domain/src/ports/authorization.ts:23-29 AuthorizationPolicy] *)
Class AuthorizationPolicy : Type :=
  assertAllowed : RequestActor → AuthorizationAction.t → AuthorizationResource.t →
    Result Exn unit.

Import AuthorizationAction.

(* [src: packages/application/src/authorization/membership-policy.ts:9-30 ACCOUNT_USER_ACTIONS] *)
Definition ACCOUNT_USER_ACTIONS (role : MembershipRole.t) : list AuthorizationAction.t :=
  match role with
  | MembershipRole.owner | MembershipRole.admin =>
    [organization_membership_read; document_read; document_write; document_send; document_void;
     document_download_artifact; audit_verify]
  | MembershipRole.member =>
    [organization_membership_read; document_read; document_write; document_send]
  | MembershipRole.read_only => [organization_membership_read; document_read]
  end.

(* [src: packages/application/src/authorization/membership-policy.ts:32-34 deny] *)
Definition deny (details : object) : Result Exn unit := Throw (AuthorizationError details).

(* [src: packages/application/src/authorization/membership-policy.ts:36-38 sameOrganization] *)
Definition sameOrganization (actorOrg : string) (resource : AuthorizationResource.t) : bool :=
  String.eqb actorOrg (AuthorizationResource.organizationId resource).

Definition deny_for (reason : string) (action : AuthorizationAction.t) : Result Exn unit :=
  deny [("reason", VStr reason); ("action", VStr (to_string action))].

(** [x !== undefined && x !== y]. *)
Definition given_and_differs (x : option string) (y : string) : bool :=
  match x with Some z => negb (String.eqb z y) | None => false end.

(* [src: packages/application/src/authorization/membership-policy.ts:40-91 createMembershipAuthorizationPolicy] *)
Definition membership_assertAllowed (actor : RequestActor) (action : AuthorizationAction.t)
    (resource : AuthorizationResource.t) : Result Exn unit :=
  match actor with
  | account_user a =>
    if negb (sameOrganization (AccountUserActor.organizationId a) resource) then
      deny_for "organization_mismatch" action
    else if negb (bool_decide (action ∈ ACCOUNT_USER_ACTIONS (AccountUserActor.role a))) then
      deny [("reason", VStr "role_denied"); ("action", VStr (to_string action));
            ("role", VStr (MembershipRole.to_string (AccountUserActor.role a)))]
    else Ok tt
  | signer a =>
    if negb (bool_decide (action = signing_session_act)) then
      deny_for "signer_action_denied" action
    else if negb (sameOrganization (SignerActor.organizationId a) resource) then
      deny_for "organization_mismatch" action
    else if given_and_differs (AuthorizationResource.documentId resource)
              (SignerActor.documentId a) then
      deny_for "document_mismatch" action
    else if given_and_differs (AuthorizationResource.signerId resource)
              (SignerActor.signerId a) then
      deny_for "signer_mismatch" action
    else Ok tt
  | worker _ organizationId =>
    if negb (bool_decide (action = job_process)) then deny_for "worker_action_denied" action
    else if negb (sameOrganization organizationId resource) then
      deny_for "organization_mismatch" action
    else Ok tt
  | system =>
    if negb (bool_decide (action = job_process)) then deny_for "system_action_denied" action
    else Ok tt
  end.

#[local] Instance membership_policy : AuthorizationPolicy := membership_assertAllowed.

(** ** What the policy promises *)

(** The access matrix, written independently of the order of the checks. *)
Definition may (actor : RequestActor) (action : AuthorizationAction.t)
    (resource : AuthorizationResource.t) : Prop :=
  match actor with
  | account_user a =>
    AccountUserActor.organizationId a = AuthorizationResource.organizationId resource ∧
    match action with
    | organization_membership_read | document_read => True
    | document_write | document_send => AccountUserActor.role a ≠ MembershipRole.read_only
    | document_void | document_download_artifact | audit_verify =>
      AccountUserActor.role a = MembershipRole.owner ∨
      AccountUserActor.role a = MembershipRole.admin
    | signing_session_act | job_process => False
    end
  | signer a =>
    action = signing_session_act ∧
    SignerActor.organizationId a = AuthorizationResource.organizationId resource ∧
    (∀ d, AuthorizationResource.documentId resource = Some d → d = SignerActor.documentId a) ∧
    (∀ g, AuthorizationResource.signerId resource = Some g → g = SignerActor.signerId a)
  | worker _ organizationId =>
    action = job_process ∧ organizationId = AuthorizationResource.organizationId resource
  | system => action = job_process
  end.

Lemma sameOrganization_iff o r :
  sameOrganization o r = true ↔ o = AuthorizationResource.organizationId r.
Proof. apply String.eqb_eq. Qed.

Lemma given_and_differs_false x y :
  given_and_differs x y = false ↔ ∀ z, x = Some z → z = y.
Proof.
  destruct x as [z|]; simpl; [|naive_solver].
  rewrite negb_false_iff, String.eqb_eq. naive_solver.
Qed.

Lemma role_allows role action :
  action ∈ ACCOUNT_USER_ACTIONS role ↔
  match action with
  | organization_membership_read | document_read => True
  | document_write | document_send => role ≠ MembershipRole.read_only
  | document_void | document_download_artifact | audit_verify =>
    role = MembershipRole.owner ∨ role = MembershipRole.admin
  | signing_session_act | job_process => False
  end.
Proof. destruct role, action; simpl; set_solver. Qed.

(** Nothing of another tenant is ever allowed but to the system. *)
Lemma may_same_organization actor action resource :
  may actor action resource → actor ≠ system →
  match actor with
  | account_user a => AccountUserActor.organizationId a
  | signer a => SignerActor.organizationId a
  | worker _ o => o
  | system => AuthorizationResource.organizationId resource
  end = AuthorizationResource.organizationId resource.
Proof. destruct actor; simpl; naive_solver. Qed.

(** The membership policy decides exactly the access matrix: it allows an
    action if and only if the actor is of the resource's organization (the
    system excepted) and the actor's kind, role, document and signer admit it. *)
Theorem membership_policy_decides actor action resource :
  membership_assertAllowed actor action resource = Ok tt ↔ may actor action resource.
Proof.
  destruct actor as [a|a|j o|]; simpl; unfold deny_for, deny.
  - rewrite <-(role_allows (AccountUserActor.role a)), <-sameOrganization_iff.
    destruct (sameOrganization _ _); simpl; [|naive_solver].
    case_bool_decide; simpl; naive_solver.
  - rewrite <-sameOrganization_iff, <-!given_and_differs_false.
    case_bool_decide; simpl; [|naive_solver].
    destruct (sameOrganization _ _), (given_and_differs _ _), (given_and_differs _ _);
      simpl; naive_solver.
  - rewrite <-sameOrganization_iff. case_bool_decide; simpl; [|naive_solver].
    destruct (sameOrganization _ _); simpl; naive_solver.
  - case_bool_decide; simpl; naive_solver.
Qed.
