(* ===== verification/Failures.v ===== *)
(** Failure codes and their classification:
    [packages/domain/src/jobs/finalization-failures.ts], [jobs/failures.ts] and
    [packages/application/src/documents/pdf-failure-metrics.ts]. *)

From Stdlib Require Import String.
From S2P Require Export Entities.
Local Open Scope string_scope.

Module FinalizationFailureCode.
(* [src: packages/domain/src/jobs/finalization-failures.ts:9-23 FinalizationFailureCode] *)
Inductive t : Type :=
  | SOURCE_OBJECT_NOT_FOUND | SOURCE_INTEGRITY_FAILURE | INVALID_PDF
  | ENCRYPTED_PDF_UNSUPPORTED | INVALID_SIGNATURE_IMAGE | INVALID_SIGNATURE_FIELD
  | PDF_GENERATION_FAILED | FINAL_OBJECT_UPLOAD_FAILED | FINAL_OBJECT_INTEGRITY_FAILURE
  | CONCURRENT_FINALIZATION | DATABASE_COMMIT_FAILED.

Definition to_string (x : t) : string :=
  match x with
  | SOURCE_OBJECT_NOT_FOUND => "SOURCE_OBJECT_NOT_FOUND"
  | SOURCE_INTEGRITY_FAILURE => "SOURCE_INTEGRITY_FAILURE"
  | INVALID_PDF => "INVALID_PDF"
  | ENCRYPTED_PDF_UNSUPPORTED => "ENCRYPTED_PDF_UNSUPPORTED"
  | INVALID_SIGNATURE_IMAGE => "INVALID_SIGNATURE_IMAGE"
  | INVALID_SIGNATURE_FIELD => "INVALID_SIGNATURE_FIELD"
  | PDF_GENERATION_FAILED => "PDF_GENERATION_FAILED"
  | FINAL_OBJECT_UPLOAD_FAILED => "FINAL_OBJECT_UPLOAD_FAILED"
  | FINAL_OBJECT_INTEGRITY_FAILURE => "FINAL_OBJECT_INTEGRITY_FAILURE"
  | CONCURRENT_FINALIZATION => "CONCURRENT_FINALIZATION"
  | DATABASE_COMMIT_FAILED => "DATABASE_COMMIT_FAILED"
  end.

Definition all : list t :=
  [SOURCE_OBJECT_NOT_FOUND; SOURCE_INTEGRITY_FAILURE; INVALID_PDF; ENCRYPTED_PDF_UNSUPPORTED;
   INVALID_SIGNATURE_IMAGE; INVALID_SIGNATURE_FIELD; PDF_GENERATION_FAILED;
   FINAL_OBJECT_UPLOAD_FAILED; FINAL_OBJECT_INTEGRITY_FAILURE; CONCURRENT_FINALIZATION;
   DATABASE_COMMIT_FAILED].
End FinalizationFailureCode.
Import FinalizationFailureCode.

(* [src: packages/domain/src/jobs/finalization-failures.ts:25-29 isFinalizationFailureCode] *)
Definition isFinalizationFailureCode (v : value) : bool :=
  match v with VStr s => bool_decide (s ∈ to_string <$> all) | _ => false end.

(** [{ ...base, ...details }]. *)
Definition spread (base details : object) : object :=
  foldl (λ o '(k, v), assign k v o) base details.

(* [src: packages/domain/src/jobs/finalization-failures.ts:31-53 finalizationError] *)
Definition finalizationError (code : FinalizationFailureCode.t) (details : object) : Exn :=
  let payload := spread [("code", VStr (to_string code))] details in
  match code with
  | SOURCE_OBJECT_NOT_FOUND | PDF_GENERATION_FAILED | FINAL_OBJECT_UPLOAD_FAILED
  | DATABASE_COMMIT_FAILED => ExternalServiceError payload
  | SOURCE_INTEGRITY_FAILURE | FINAL_OBJECT_INTEGRITY_FAILURE => IntegrityError payload
  | INVALID_PDF | ENCRYPTED_PDF_UNSUPPORTED | INVALID_SIGNATURE_IMAGE
  | INVALID_SIGNATURE_FIELD => ValidationError payload
  | CONCURRENT_FINALIZATION => ConflictError payload
  end.

(** ** Job failures *)

Module ClassifiedJobFailure.
(* [src: packages/domain/src/jobs/failures.ts:4-8 ClassifiedJobFailure] *)
Record t : Type := mk {
  category : JobErrorCategory.t;
  code : string;
  retryable : bool
}.
End ClassifiedJobFailure.

Definition kind_string (k : ApplicationErrorKind) : string :=
  match k with
  | validation => "validation"
  | authentication => "authentication"
  | authorization => "authorization"
  | not_found => "not_found"
  | conflict => "conflict"
  | invalid_state_transition => "invalid_state_transition"
  | integrity => "integrity"
  | external_service => "external_service"
  | rate_limit => "rate_limit"
  end.

(* [src: packages/domain/src/jobs/failures.ts:10-22 classifyJobFailure] *)
Definition classifyJobFailure (error : Exn) : ClassifiedJobFailure.t :=
  match error with
  | AppError kind _ =>
    if bool_decide (kind = external_service) || bool_decide (kind = rate_limit) ||
       bool_decide (kind = conflict)
    then ClassifiedJobFailure.mk JobErrorCategory.retryable (kind_string kind) true
    else ClassifiedJobFailure.mk JobErrorCategory.non_retryable (kind_string kind) false
  | OtherError _ _ => ClassifiedJobFailure.mk JobErrorCategory.retryable "unknown" true
  end.

(* [src: packages/domain/src/jobs/failures.ts:24-26 formatJobErrorCode] *)
Definition formatJobErrorCode (category : JobErrorCategory.t) (code : string) : string :=
  JobErrorCategory.to_string category +:+ ":" +:+ code.

(** ** PDF metric categories *)

(* [src: packages/application/src/documents/pdf-failure-metrics.ts:4-12 PDF_METRIC_CATEGORIES] *)
Definition PDF_METRIC_CATEGORIES : list string :=
  ["INVALID_PDF"; "ENCRYPTED_PDF_UNSUPPORTED"; "PDF_GENERATION_FAILED"; "INVALID_SIGNATURE_IMAGE";
   "not_pdf"; "local_stub_reject_marker"; "inspector_unconfigured"].

(* [src: packages/application/src/documents/pdf-failure-metrics.ts:18-20 isPdfMetricCategory] *)
Definition isPdfMetricCategory (v : string) : bool := bool_decide (v ∈ PDF_METRIC_CATEGORIES).

(* [src: packages/application/src/documents/pdf-failure-metrics.ts:26-38 pdfFailureCategoryFromError] *)
Definition pdfFailureCategoryFromError (error : Exn) : option string :=
  match error with
  | OtherError _ _ => None
  | AppError _ details =>
    match prop "code" details with
    | VStr code =>
      if isPdfMetricCategory code then Some code
      else if isFinalizationFailureCode (VStr code) && isPdfMetricCategory code then Some code
      else None
    | _ => None
    end
  end.

(* [src: packages/application/src/documents/pdf-failure-metrics.ts:40-56 pdfFailureCategoryFromReasonCode] *)
Definition pdfFailureCategoryFromReasonCode (reasonCode : option string) : option string :=
  match reasonCode with
  | None => None
  | Some reasonCode =>
    if isPdfMetricCategory reasonCode then Some reasonCode
    else if String.eqb reasonCode "pdf_encrypt" then Some "ENCRYPTED_PDF_UNSUPPORTED"
    else if startsWith "pdf_" reasonCode then Some "INVALID_PDF"
    else None
  end.

(** ** Facts *)

(** Metric labels stay within the bounded set. *)
Lemma pdf_category_bounded v :
  (∃ e, pdfFailureCategoryFromError e = Some v) ∨
  (∃ r, pdfFailureCategoryFromReasonCode r = Some v) → v ∈ PDF_METRIC_CATEGORIES.
Proof.
  intros [[e He]|[r Hr]].
  - destruct e as [k d|]; simpl in He; [|done]. destruct (prop "code" d); try done.
    unfold isPdfMetricCategory in He. case_bool_decide; [naive_solver|].
    by rewrite andb_false_r in He.
  - destruct r as [r|]; simpl in Hr; [|done]. unfold isPdfMetricCategory in Hr.
    case_bool_decide; [naive_solver|]. destruct (String.eqb _ _); [injection Hr as <-; set_solver|].
    destruct (startsWith _ _); [injection Hr as <-; set_solver|done].
Qed.

(** A failure is retried exactly when it is transient: the three transient
    kinds, and errors that are not the application's. *)
Lemma classifyJobFailure_retryable e :
  ClassifiedJobFailure.retryable (classifyJobFailure e) = true ↔
  match e with
  | AppError k _ => k = external_service ∨ k = rate_limit ∨ k = conflict
  | OtherError _ _ => True
  end.
Proof. destruct e as [[] d|]; simpl; naive_solver. Qed.

Lemma classifyJobFailure_category e :
  ClassifiedJobFailure.category (classifyJobFailure e) = JobErrorCategory.retryable ↔
  ClassifiedJobFailure.retryable (classifyJobFailure e) = true.
Proof. destruct e as [[] d|]; simpl; naive_solver. Qed.

(** The code the thrower gave is the one the handler reads. *)
Lemma finalizationError_code code details :
  "code" ∉ keys details →
  ∃ kind d, finalizationError code details = AppError kind d ∧
    prop "code" d = VStr (to_string code).
Proof.
  intros Hd. assert (prop "code" (spread [("code", VStr (to_string code))] details) =
    VStr (to_string code)) as Hcode.
  { unfold spread. assert (prop "code" [("code", VStr (to_string code))] =
      VStr (to_string code)) as Hb by done. revert Hb.
    generalize [("code", VStr (to_string code))] as base.
    induction details as [|[k v] details IH]; intros base Hb; simpl; [done|].
    unfold keys in Hd. simpl in Hd. apply not_elem_of_cons in Hd as [Hk Hd].
    apply IH; [done|]. by rewrite prop_assign_other. }
  destruct code; eexists _, _; (split; [reflexivity|exact Hcode]).
Qed.
