(* ===== verification/Env.v ===== *)
(** What the program takes from outside its own source: the clock, random
    identifiers and tokens, the hash functions, the runtime's number and date
    formats, and the configuration.  Every definition that uses one of them
    takes the [Env] instance; theorems that need a property of one of them
    state it. *)

From Stdlib Require Import String SpecFloat.
From S2P Require Export Entities.

(** What one field puts on the page. *)
Module FlattenedAppearance.
(* [src: packages/domain/src/ports/services.ts:63-68 FlattenedAppearance] *)
Record t : Type := mk {
  field : SignatureField.t;
  pngBytes : option (list Z);
  signerName : option string;
  signedAt : option Z
}.
End FlattenedAppearance.

Module DocumentInspectionOutcome.
(* [src: packages/domain/src/ports/services.ts:79-82 DocumentInspectionOutcome] *)
Record t : Type := mk {
  status : DocumentInspectionStatus.t;
  reasonCode : option string
}.
End DocumentInspectionOutcome.

Module ConsentDisclosure.
(* [src: packages/domain/src/ports/services.ts:152-157 ConsentDisclosure] *)
Record t : Type := mk {
  copyId : string;
  version : string;
  title : string;
  text : string
}.
End ConsentDisclosure.

Class Env : Type := {
  (** The [n]-th reading of the clock, and the [n]-th identifier and token. *)
  clock : nat → Z;
  fresh_id : nat → string;
  raw_token : nat → string;
  (** [Hashing.sha256Hex] on strings and on bytes, [SigningTokenHasher.hash]. *)
  sha256Hex : string → string;
  sha256Bytes : list Z → string;
  token_hash : string → string;
  (** [String(x)] of a binary64, [Number(s)] of a string, [String(d)] of a date (local
      time), [new Date(s).getTime()], [Buffer.from(s, 'base64')],
      and the formats [z.string().uuid()] and [z.string().email()] of Zod. *)
  number_to_string : spec_float → string;
  string_to_number : string → jsnum;
  date_to_string : JsDate → string;
  parse_date : string → JsDate;
  zod_uuid : string → bool;
  zod_email : string → bool;
  base64_decode : string → list Z;
  (** The PDF library behind [PdfFlattener], and the selected inspector. *)
  flatten_pdf : list Z → list FlattenedAppearance.t → Z → Z → Result Exn (list Z * Z);
  inspect_pdf : string → list Z → DocumentInspectionOutcome.t;
  (** Configuration. *)
  maxUploadBytes : Z;
  uploadTtlMs : Z;
  idempotencyTtlMs : Z;
  uploadTokenHeader : string;
  sessionTtlMs : Z;
  previewTtlMs : Z;
  previewTokenHeader : string;
  leaseMs : Z;
  timeoutMs : Z;
  maxPdfBytes : Z;
  maxPngBytes : Z;
  requiresAccountAuth : bool;
  disclosure : ConsentDisclosure.t
}.

(** ** A concrete environment

    Not part of the program: an executable instance on which examples run. *)
Module Sample.

Fixpoint hex_digits (n : nat) (z : Z) : list Ascii.ascii :=
  match n with
  | O => []
  | S n => (hex_digits n (z / 16) ++ [char (let d := z mod 16 in
             if d <? 10 then 48 + d else 87 + d)])%list
  end.

Definition digest (l : list Z) : string :=
  of_units (hex_digits 64
    (foldl (λ acc c, (acc * 65599 + c + 1) mod 2305843009213693951) 7 l)).

Definition uuid (n : nat) : string :=
  String.append "00000000-0000-4000-8000-" (of_units (hex_digits 12 (Z.of_nat n))).

(** [Number] of decimal digits; the empty string is 0, anything else here NaN. *)
Definition decimal (s : string) : jsnum :=
  if forallb (λ c, (48 <=? code c) && (code c <=? 57)) (units s)
  then NInt (foldl (λ n c, n * 10 + (code c - 48)) 0 (units s)) else NFlt S754_nan.

Definition string_digest (s : string) : string := digest (code <$> units s).

Definition env : Env := {|
  clock := λ n, 1000000 + Z.of_nat n;
  fresh_id := λ n, uuid (4096 + n);
  raw_token := λ n, of_units (hex_digits 43 (Z.of_nat n));
  sha256Hex := string_digest;
  sha256Bytes := digest;
  token_hash := string_digest;
  number_to_string := λ _, "0.5"%string;
  string_to_number := decimal;
  date_to_string := λ _, "Invalid Date"%string;
  parse_date := λ s, List.find (λ t, String.eqb (toISOString t) s) (seqZ 1000000 32);
  zod_uuid := λ s, (String.length s =? 36)%nat;
  zod_email := λ _, true;
  base64_decode := λ s, code <$> units s;
  flatten_pdf := λ pdf appearances _ _, Ok (pdf ++ [Z.of_nat (length appearances)], 1)%list;
  inspect_pdf := λ _ pdf,
    if (1 <=? length pdf)%nat then DocumentInspectionOutcome.mk DocumentInspectionStatus.accepted None
    else DocumentInspectionOutcome.mk DocumentInspectionStatus.rejected (Some "malformed"%string);
  maxUploadBytes := 1048576;
  uploadTtlMs := 900000;
  idempotencyTtlMs := 86400000;
  uploadTokenHeader := "x-upload-token"%string;
  sessionTtlMs := 604800000;
  previewTtlMs := 300000;
  previewTokenHeader := "x-preview-token"%string;
  leaseMs := 60000;
  timeoutMs := 30000;
  maxPdfBytes := 1048576;
  maxPngBytes := 262144;
  requiresAccountAuth := false;
  disclosure := ConsentDisclosure.mk "consent-v1" "1" "Consent" "I agree"
|}.

End Sample.
