(* ===== verification/Auth.v ===== *)
(** Account authentication: sessions, log-in, organization actors, CSRF tokens
    and rate limiting, from [packages/application/src/auth/].

    These parts keep their own arrays and maps: [AuthSt] is their store. *)

From Stdlib Require Import String Ascii.
From stdpp Require Import gmap.
From S2P Require Export Policy Env.
Local Open Scope string_scope.

Module SecurityEvent.
(* [src: packages/domain/src/ports/security-audit.ts:3-11 NewAccountSecurityEvent] *)
Record t : Type := mk {
  id : string;
  type : string;
  actorUserId : option string;
  sessionId : option string;
  requestId : option string;
  occurredAt : Z;
  payload : object
}.
End SecurityEvent.

Module Bucket.
(* [src: packages/application/src/auth/memory-rate-limiter.ts:8-8 buckets] *)
Record t : Type := mk { count : Z; windowStartMs : Z }.
End Bucket.

Record AuthSt : Type := mkAuth {
  users : list AccountUser.t;
  memberships : list OrganizationMembership.t;
  accountSessions : list AccountSession.t;
  securityEvents : list SecurityEvent.t;
  auth_clockReads : nat;
  auth_idReads : nat;
  auth_tokenReads : nat
}.

Definition set_accountSessions (v : list AccountSession.t) (s : AuthSt) : AuthSt :=
  mkAuth s.(users) s.(memberships) v s.(securityEvents) s.(auth_clockReads) s.(auth_idReads)
    s.(auth_tokenReads).
Definition set_securityEvents (v : list SecurityEvent.t) (s : AuthSt) : AuthSt :=
  mkAuth s.(users) s.(memberships) s.(accountSessions) v s.(auth_clockReads) s.(auth_idReads)
    s.(auth_tokenReads).

Abbreviation AuthRun := (M Exn AuthSt).

(** ** Pure parts *)

(* [src: packages/application/src/auth/local-identity-provider.ts:4-6 normalizeAccountEmail] *)
Definition normalizeAccountEmail (email : string) : string := toLowerCase (trim email).

(** [Buffer.from(s, 'hex')]: pairs of digits, up to the first that is not one. *)
Definition hex_value (c : ascii) : option Z :=
  if is_digit c then Some (code c - 48)%Z
  else if Keys.between "a"%char "f"%char c then Some (code c - 87)%Z
  else if Keys.between "A"%char "F"%char c then Some (code c - 55)%Z
  else None.
Fixpoint hex_decode (l : list ascii) : list Z :=
  match l with
  | hi :: lo :: l =>
    match hex_value hi, hex_value lo with
    | Some a, Some b => (a * 16 + b)%Z :: hex_decode l
    | _, _ => []
    end
  | _ => []
  end.

(* [src: packages/application/src/auth/csrf.ts:6-8 isCsrfSafeMethod] *)
Definition isCsrfSafeMethod (method : string) : bool :=
  bool_decide (toLowerCase method ∈ ["get"; "head"; "options"]).

(** [header === undefined || header.trim() === '']. *)
Definition blank (v : option string) : bool :=
  match v with None => true | Some v => String.eqb (trim v) EmptyString end.

Definition csrf_rejected : Exn := AuthorizationError (reasonOnly "csrf_rejected").

(* [src: packages/application/src/auth/csrf.ts:10-31 assertCsrfToken] *)
Definition assertCsrfToken (headerToken cookieToken : option string) (expectedHash : string)
    (hash : string → string) : Result Exn unit :=
  if blank headerToken || blank cookieToken then Throw csrf_rejected
  else match headerToken, cookieToken with
  | Some header, Some cookie =>
    if negb (String.eqb header cookie) then Throw csrf_rejected
    else if negb (String.eqb (hash header) expectedHash) then Throw csrf_rejected
    else Ok tt
  | _, _ => Throw csrf_rejected
  end.

(** ** Rate limiting *)

Module RateLimitDecision.
(* [src: packages/domain/src/ports/rate-limiter.ts:1-4 RateLimitDecision] *)
Record t : Type := mk { allowed : bool; retryAfterSeconds : Z }.
End RateLimitDecision.

Definition Buckets : Type := gmap string Bucket.t.

(** [Math.ceil(ms / 1000)]. *)
Definition ceil_seconds (ms : Z) : Z := - (- ms / 1000).

(** A call at [nowMs]: the decision and the buckets after it. *)
(* [src: packages/application/src/auth/memory-rate-limiter.ts:11-27 consume] *)
Definition consume (max windowMs : Z) (key : string) (nowMs : Z) (buckets : Buckets) :
    RateLimitDecision.t * Buckets :=
  let fresh := (RateLimitDecision.mk true 0, <[key := Bucket.mk 1 nowMs]> buckets) in
  match buckets !! key with
  | None => fresh
  | Some existing =>
    if (windowMs <=? nowMs - Bucket.windowStartMs existing)%Z then fresh
    else if (max <=? Bucket.count existing)%Z then
      let retryAfterMs := (windowMs - (nowMs - Bucket.windowStartMs existing))%Z in
      (RateLimitDecision.mk false (Z.max 1 (ceil_seconds retryAfterMs)), buckets)
    else
      (RateLimitDecision.mk true 0,
       <[key := Bucket.mk (Bucket.count existing + 1) (Bucket.windowStartMs existing)]> buckets)
  end.

(** ** The stores *)

Section auth.
Context `{Env}.

Definition auth_nowUtc : AuthRun Z := λ s,
  (Ok (clock s.(auth_clockReads)),
   mkAuth s.(users) s.(memberships) s.(accountSessions) s.(securityEvents)
     (S s.(auth_clockReads)) s.(auth_idReads) s.(auth_tokenReads)).
Definition auth_next_id : AuthRun string := λ s,
  (Ok (fresh_id s.(auth_idReads)),
   mkAuth s.(users) s.(memberships) s.(accountSessions) s.(securityEvents)
     s.(auth_clockReads) (S s.(auth_idReads)) s.(auth_tokenReads)).
Definition auth_token : AuthRun string := λ s,
  (Ok (raw_token s.(auth_tokenReads)),
   mkAuth s.(users) s.(memberships) s.(accountSessions) s.(securityEvents)
     s.(auth_clockReads) s.(auth_idReads) (S s.(auth_tokenReads))).

(* [src: packages/application/src/auth/memory-adapters.ts:31-34 findByEmail] *)
Definition findByEmail (email : string) : AuthRun (option AccountUser.t) :=
  gets (λ s, find_row (λ u, String.eqb (AccountUser.email u) (toLowerCase (trim email))) s.(users)).

(* [src: packages/application/src/auth/memory-adapters.ts:28-30 findById] *)
Definition findUserById (userId : string) : AuthRun (option AccountUser.t) :=
  gets (λ s, find_row (λ u, String.eqb (AccountUser.id u) userId) s.(users)).

(* [src: packages/application/src/auth/memory-adapters.ts:60-66 findByUser] *)
Definition findByUser (organizationId userId : string) :
    AuthRun (option OrganizationMembership.t) :=
  gets (λ s, find_row (λ row,
    String.eqb (OrganizationMembership.organizationId row) organizationId &&
    String.eqb (OrganizationMembership.userId row) userId) s.(memberships)).

(* [src: packages/application/src/auth/memory-adapters.ts:78-81 create] *)
Definition createSession (session : AccountSession.t) : AuthRun unit :=
  modify (λ s, set_accountSessions (s.(accountSessions) ++ [session])%list s).

(* [src: packages/application/src/auth/memory-adapters.ts:82-84 findByTokenHash] *)
Definition findSessionByTokenHash (tokenHash : string) : AuthRun (option AccountSession.t) :=
  gets (λ s, find_row (λ row, String.eqb (AccountSession.tokenHash row) tokenHash)
               s.(accountSessions)).

(* [src: packages/application/src/auth/memory-adapters.ts:85-87 findById] *)
Definition findSessionById (sessionId : string) : AuthRun (option AccountSession.t) :=
  gets (λ s, find_row (λ row, String.eqb (AccountSession.id row) sessionId) s.(accountSessions)).

(* [src: packages/application/src/auth/memory-adapters.ts:88-95 revoke] *)
Definition revokeSession (sessionId : string) (revokedAt : Z) : AuthRun unit :=
  modify (λ s,
    match find_index (λ row, String.eqb (AccountSession.id row) sessionId) s.(accountSessions) with
    | None => s
    | Some (index, current) =>
      set_accountSessions (<[index := AccountSession.set_revokedAt (Some revokedAt) current]>
                             s.(accountSessions)) s
    end).

(* [src: packages/application/src/auth/memory-adapters.ts:107-109 append] *)
Definition append_security (event : SecurityEvent.t) : AuthRun unit :=
  modify (λ s, set_securityEvents (s.(securityEvents) ++ [event])%list s).

(** ** Sessions *)

(* [src: packages/application/src/auth/account-session.ts:20-37 resolveAccountSession] *)
Definition resolveAccountSession (rawSessionToken : option string) : AuthRun AccountSession.t :=
  let fail reason : AuthRun AccountSession.t := throw (AuthenticationError (reasonOnly reason)) in
  if blank rawSessionToken then fail "missing_session" else
  match rawSessionToken with
  | None => fail "missing_session"
  | Some raw =>
    found ← findSessionByTokenHash (token_hash raw);
    match found with
    | None => fail "invalid_session"
    | Some session =>
      if negb (bool_decide (AccountSession.revokedAt session = None)) then fail "revoked_session"
      else
        now ← auth_nowUtc;
        if (AccountSession.expiresAt session <=? now)%Z then fail "expired_session"
        else mret session
    end
  end.

Definition security_event (id type : string) (actorUserId sessionId : option string)
    (occurredAt : Z) (requestId : string) (payload : object) : SecurityEvent.t :=
  SecurityEvent.mk id type actorUserId sessionId (Some requestId) occurredAt payload.

(* [src: packages/application/src/auth/account-session.ts:48-65 logoutAccountUser] *)
Definition logoutAccountUser (session : AccountSession.t) (requestId : string) : AuthRun unit :=
  revokedAt ← auth_nowUtc;
  revokeSession (AccountSession.id session) revokedAt;;
  id ← auth_next_id;
  occurredAt ← auth_nowUtc;
  append_security (security_event id "logout" (Some (AccountSession.userId session))
    (Some (AccountSession.id session)) occurredAt requestId []).

(* [src: packages/application/src/auth/account-session.ts:76-101 revokeAccountSession] *)
Definition revokeAccountSession (actorUserId sessionId requestId : string) : AuthRun unit :=
  found ← findSessionById sessionId;
  match found with
  | None => throw (AuthenticationError (reasonOnly "session_not_owned"))
  | Some session =>
    if negb (String.eqb (AccountSession.userId session) actorUserId) then
      throw (AuthenticationError (reasonOnly "session_not_owned"))
    else if negb (bool_decide (AccountSession.revokedAt session = None)) then mret tt
    else
      revokedAt ← auth_nowUtc;
      revokeSession (AccountSession.id session) revokedAt;;
      id ← auth_next_id;
      occurredAt ← auth_nowUtc;
      append_security (security_event id "session_revoked" (Some actorUserId)
        (Some (AccountSession.id session)) occurredAt requestId [])
  end.

(** ** Logging in *)

(* [src: packages/application/src/auth/local-identity-provider.ts:8-15 secretsMatch] *)
Definition secretsMatch (presented expected : string) : bool :=
  bool_decide (hex_decode (units (sha256Hex presented)) =
               hex_decode (units (sha256Hex expected))).

(** The identity provider the log-in calls: an authenticated e-mail or none. *)
(* [src: packages/domain/src/ports/identity-provider.ts:10-12 IdentityProvider] *)
Class IdentityProvider : Type :=
  authenticate : string → string → AuthRun (option string).

(* [src: packages/application/src/auth/local-identity-provider.ts:21-37 createLocalIdentityProvider] *)
Definition createLocalIdentityProvider (sharedSecret : string) : IdentityProvider :=
  λ email secret,
    user ← findByEmail (normalizeAccountEmail email);
    match user with
    | Some user =>
      if secretsMatch secret sharedSecret then mret (Some (AccountUser.email user)) else mret None
    | None => mret None
    end.

(* [src: packages/application/src/auth/login-account-user.ts:101-117 appendFailedLogin] *)
Definition appendFailedLogin (providerName requestId : string) : AuthRun unit :=
  id ← auth_next_id;
  occurredAt ← auth_nowUtc;
  append_security (security_event id "login_failed" None None occurredAt requestId
    [("provider", VStr providerName)]).

Definition invalid_credentials : Exn := AuthenticationError (reasonOnly "invalid_credentials").

(** Revoking the session the client already had. *)
Definition replace_session (existingSessionTokenHash : option string) : AuthRun unit :=
  match existingSessionTokenHash with
  | None | Some EmptyString => mret tt
  | Some h =>
    existing ← findSessionByTokenHash h;
    match existing with
    | Some existing =>
      if bool_decide (AccountSession.revokedAt existing = None) then
        revokedAt ← auth_nowUtc;
        revokeSession (AccountSession.id existing) revokedAt
      else mret tt
    | None => mret tt
    end
  end.

(* [src: packages/application/src/auth/login-account-user.ts:42-96 loginAccountUser] *)
Definition loginAccountUser `{!IdentityProvider} (providerName : string)
    (email_ secret requestId : string) (existingSessionTokenHash : option string) :
    AuthRun (AccountUser.t * AccountSession.t * string * string) :=
  let email := normalizeAccountEmail email_ in
  let fail : AuthRun (AccountUser.t * AccountSession.t * string * string) :=
    appendFailedLogin providerName requestId;; throw invalid_credentials in
  identity ← authenticate email secret;
  match identity with
  | None => fail
  | Some identity =>
    user ← findByEmail identity;
    match user with
    | None => fail
    | Some user =>
      replace_session existingSessionTokenHash;;
      now ← auth_nowUtc;
      rawSessionToken ← auth_token;
      rawCsrfToken ← auth_token;
      id ← auth_next_id;
      let session := AccountSession.mk id (AccountUser.id user) (token_hash rawSessionToken)
                       (token_hash rawCsrfToken) (now + sessionTtlMs)%Z None now in
      createSession session;;
      eventId ← auth_next_id;
      append_security (security_event eventId "login_succeeded" (Some (AccountUser.id user))
        (Some (AccountSession.id session)) now requestId [("provider", VStr providerName)]);;
      mret (user, session, rawSessionToken, rawCsrfToken)
    end
  end.

(** ** Organization actors *)

(* [src: packages/application/src/auth/organization-actor.ts:32-56 resolveOrganizationActor] *)
Definition resolveOrganizationActor (userId organizationId : string) :
    AuthRun (AccountUserActor.t * string) :=
  organization ← lift (organizationContext organizationId);
  membership ← findByUser organization userId;
  match membership with
  | None => throw (AuthorizationError (reasonOnly "organization_membership_missing"))
  | Some m =>
    mret (AccountUserActor.mk userId (OrganizationMembership.id m)
            (OrganizationMembership.organizationId m) (OrganizationMembership.role m),
          organization)
  end.
End auth.
