(* ===== verification/AuthRules.v ===== *)
(** What login, account sessions and the rate limiter promise. *)

From Stdlib Require Import String.
From stdpp Require Import gmap.
From S2P Require Export Auth.
Local Open Scope string_scope.

(** ** Rate limiting *)

Section limiter.
Context (max windowMs : Z).

(** The decisions on a sequence of calls, each a key and a time. *)
Fixpoint decisions (calls : list (string * Z)) (b : gmap string Bucket.t) : list (string * RateLimitDecision.t) :=
  match calls with
  | [] => []
  | (key, now) :: calls =>
    let '(d, b') := consume max windowMs key now b in (key, d) :: decisions calls b'
  end.

(** How many calls of a key were let through. *)
Definition allowed_count (key : string) (l : list (string * RateLimitDecision.t)) : Z :=
  Z.of_nat (length (List.filter (λ e, String.eqb e.1 key && RateLimitDecision.allowed e.2) l)).

(** What a key may still be allowed before [t0 + windowMs], from a bucket. *)
Definition budget (t0 : Z) (b : option Bucket.t) : Z :=
  match b with
  | None => max
  | Some b =>
    (Z.max 0 (max - Bucket.count b) + if t0 <=? Bucket.windowStartMs b then 0 else max)%Z
  end.

Lemma consume_other key key' now (b : gmap string Bucket.t) : key ≠ key' → ((consume max windowMs key' now b).2 : gmap string Bucket.t) !! key = b !! key.
Proof.
  intros Hne. unfold consume, Buckets. cbv zeta. destruct (b !! key') as [x|].
  - destruct (windowMs <=? _)%Z; cbn [snd]; [by rewrite lookup_insert_ne|].
    destruct (max <=? _)%Z; cbn [snd]; [done|by rewrite lookup_insert_ne].
  - cbn [snd]. by rewrite lookup_insert_ne.
Qed.

(** One call pays for itself out of the budget. *)
Lemma consume_budget t0 key now (b : gmap string Bucket.t) :
  (1 ≤ max)%Z → (t0 ≤ now < t0 + windowMs)%Z →
  let '(d, b') := (consume max windowMs key now b : _ * gmap string Bucket.t) in
  ((if RateLimitDecision.allowed d then 1 else 0) + budget t0 (b' !! key) ≤ budget t0 (b !! key))%Z.
Proof.
  intros Hmax Ht. unfold consume, Buckets. cbv zeta. destruct (b !! key) as [x|] eqn:Hx; simpl.
  - destruct (Z.leb_spec windowMs (now - Bucket.windowStartMs x)).
    + simpl. rewrite lookup_insert_eq. simpl. destruct (Z.leb_spec t0 now); [|lia].
      destruct (Z.leb_spec t0 (Bucket.windowStartMs x)); lia.
    + destruct (Z.leb_spec max (Bucket.count x)); simpl.
      * rewrite Hx. simpl. lia.
      * rewrite lookup_insert_eq. simpl. destruct (Z.leb_spec t0 (Bucket.windowStartMs x)); lia.
  - rewrite lookup_insert_eq. simpl. destruct (Z.leb_spec t0 now); lia.
Qed.

(** The rate limiter limits: whatever came before, in any span as long as the
    window a key is let through at most twice the maximum; and a refused caller who
    waits as long as it is told, at least a second, is let through. *)
Theorem rate_limit_bounds t0 calls (b : gmap string Bucket.t) key :
  (1 ≤ max)%Z → Forall (λ c, t0 ≤ c.2 < t0 + windowMs)%Z calls →
  (∀ x, b !! key = Some x → 0 ≤ Bucket.count x)%Z →
  (allowed_count key (decisions calls b) ≤ 2 * max)%Z ∧
  ∀ now now' d b', consume max windowMs key now b = (d, b') → RateLimitDecision.allowed d = false →
    (1 ≤ RateLimitDecision.retryAfterSeconds d)%Z ∧
    ((now + 1000 * RateLimitDecision.retryAfterSeconds d ≤ now')%Z →
     RateLimitDecision.allowed (consume max windowMs key now' b').1 = true).
Proof.
  intros Hmax Hcalls Hcount. split.
  - assert (∀ b : gmap string Bucket.t, allowed_count key (decisions calls b) ≤ budget t0 (b !! key))%Z as Hle.
    { clear Hcount b. induction Hcalls as [|[k now] calls Hnow _ IH]; intros b; simpl.
      { unfold allowed_count, budget. simpl. destruct (b !! key); [|lia]. destruct (_ <=? _)%Z; lia. }
      destruct (String.eqb_spec k key) as [->|Hne].
      - pose proof (consume_budget t0 key now b Hmax Hnow) as Hb.
        destruct (consume max windowMs key now b) as [d b']. specialize (IH b').
        unfold allowed_count in *. simpl. rewrite String.eqb_refl. simpl.
        destruct (RateLimitDecision.allowed d); simpl; lia.
      - pose proof (consume_other key k now b (not_eq_sym Hne)) as Hb.
        destruct (consume max windowMs k now b) as [d b']. simpl in Hb. specialize (IH b').
        rewrite Hb in IH. unfold allowed_count in *. simpl.
        by rewrite (proj2 (String.eqb_neq _ _) Hne). }
    specialize (Hle b). unfold budget in Hle. destruct (b !! key) as [x|]; [|lia].
    specialize (Hcount x eq_refl). destruct (_ <=? _)%Z; lia.
  - intros now now' d b' Hc Hd. unfold consume, Buckets in Hc. cbv zeta in Hc.
    destruct (b !! key) as [x|] eqn:Hx; [|by injection Hc as <- _].
    destruct (Z.leb_spec windowMs (now - Bucket.windowStartMs x)); [by injection Hc as <- _|].
    destruct (Z.leb_spec max (Bucket.count x)); [|by injection Hc as <- _].
    injection Hc as <- <-. simpl. split; [lia|]. intros Hwait. unfold consume, Buckets. rewrite Hx.
    assert (windowMs <= now' - Bucket.windowStartMs x)%Z as Hover.
    { unfold ceil_seconds in Hwait.
      pose proof (Z.mul_div_le (- (windowMs - (now - Bucket.windowStartMs x))) 1000). lia. }
    by rewrite (proj2 (Z.leb_le _ _) Hover).
Qed.
End limiter.

Lemma rate_limit_bounds_witness :
  (allowed_count "k" (decisions 2 1000 [("k", 5); ("k", 6); ("j", 7); ("k", 8)] ∅) ≤ 2 * 2)%Z ∧
  ∀ now now' d b', consume 2 1000 "k" now ∅ = (d, b') → RateLimitDecision.allowed d = false →
    (1 ≤ RateLimitDecision.retryAfterSeconds d)%Z ∧
    ((now + 1000 * RateLimitDecision.retryAfterSeconds d ≤ now')%Z →
     RateLimitDecision.allowed (consume 2 1000 "k" now' b').1 = true).
Proof.
  apply (rate_limit_bounds 2 1000 5).
  - lia.
  - repeat constructor; simpl; lia.
  - intros x Hx. discriminate Hx.
Defined.

(** ** Logging in and out *)

Section sessions.
Context `{Env} `{!IdentityProvider}.

(** No two sessions share an identifier or a token. *)
Definition sessions_distinct (s : AuthSt) : Prop :=
  NoDup (AccountSession.id <$> s.(accountSessions)) ∧
  NoDup (AccountSession.tokenHash <$> s.(accountSessions)).

(** What a log-in files. *)
Lemma login_files provider email secret rq old s user session raw csrf s' :
  loginAccountUser provider email secret rq old s = (Ok (user, session, raw, csrf), s') →
  session ∈ s'.(accountSessions) ∧ AccountSession.tokenHash session = token_hash raw ∧
  AccountSession.csrfTokenHash session = token_hash csrf ∧
  AccountSession.revokedAt session = None ∧ AccountSession.userId session = AccountUser.id user.
Proof.
  unfold loginAccountUser. cbv zeta. intros Hrun.
  apply bind_ok in Hrun as (identity & s1 & _ & Hrun).
  destruct identity as [identity|]; [|by apply bind_ok in Hrun as (? & ? & _ & ?)].
  apply bind_ok in Hrun as (u & s2 & _ & Hrun).
  destruct u as [u|]; [|by apply bind_ok in Hrun as (? & ? & _ & ?)].
  apply bind_ok in Hrun as ([] & s3 & _ & Hrun).
  apply bind_ok in Hrun as (now & s4 & [= <- <-] & Hrun).
  apply bind_ok in Hrun as (r & s4 & [= <- <-] & Hrun).
  apply bind_ok in Hrun as (c & s4 & [= <- <-] & Hrun).
  apply bind_ok in Hrun as (i & s4 & [= <- <-] & Hrun).
  apply bind_ok in Hrun as ([] & s4 & [= <-] & Hrun).
  apply bind_ok in Hrun as (ev & s4 & [= <- <-] & Hrun).
  apply bind_ok in Hrun as ([] & s4 & [= <-] & Hrun). apply ret_ok in Hrun as [[= <- <- <- <-] ->].
  split_and!; try done. simpl. apply elem_of_app. right. by apply list_elem_of_singleton.
Qed.

(** The row a distinguishing key finds. *)
Lemma find_row_key {T} (f : T → string) l x :
  NoDup (f <$> l) → x ∈ l → find_row (λ y, String.eqb (f y) (f x)) l = Some x.
Proof.
  intros Hnd [i Hi]%list_elem_of_lookup. unfold find_row.
  assert (find_index (λ y, String.eqb (f y) (f x)) l = Some (i, x)) as ->; [|done].
  apply find_index_Some. split_and!; [done|apply String.eqb_refl|]. intros j y Hj Hlt.
  apply String.eqb_neq. intros He. assert (j = i); [|lia].
  eapply (NoDup_lookup _ _ _ (f x) Hnd); rewrite list_lookup_fmap; [by rewrite Hj; simpl; rewrite He|by rewrite Hi].
Qed.

Lemma resolve_run raw session s :
  NoDup (AccountSession.tokenHash <$> s.(accountSessions)) → session ∈ s.(accountSessions) →
  AccountSession.tokenHash session = token_hash raw → blank (Some raw) = false →
  (resolveAccountSession (Some raw) s).1 =
    if negb (bool_decide (AccountSession.revokedAt session = None)) then
      Throw (AuthenticationError (reasonOnly "revoked_session"))
    else if (AccountSession.expiresAt session <=? clock s.(auth_clockReads))%Z then
      Throw (AuthenticationError (reasonOnly "expired_session"))
    else Ok session.
Proof.
  intros Hnd Hin Hh Hb. unfold resolveAccountSession. rewrite Hb. cbv zeta.
  unfold findSessionByTokenHash, gets, mbind, M_bind.
  rewrite <-Hh, (find_row_key AccountSession.tokenHash) by done.
  destruct (negb _); [done|]. simpl. by destruct (_ <=? _)%Z.
Qed.

Lemma logout_revokes session rq s u s' :
  NoDup (AccountSession.id <$> s.(accountSessions)) → session ∈ s.(accountSessions) →
  logoutAccountUser session rq s = (Ok u, s') →
  (∃ x, x ∈ s'.(accountSessions) ∧ AccountSession.tokenHash x = AccountSession.tokenHash session ∧
        AccountSession.revokedAt x ≠ None) ∧
  AccountSession.tokenHash <$> s'.(accountSessions) = AccountSession.tokenHash <$> s.(accountSessions).
Proof.
  intros Hnd Hin Hrun. unfold logoutAccountUser in Hrun.
  apply bind_ok in Hrun as (now & s1 & [= <- <-] & Hrun).
  apply bind_ok in Hrun as ([] & s1 & [= <-] & Hrun). simpl in Hrun.
  pose proof (find_row_key AccountSession.id _ _ Hnd Hin) as Hf.
  unfold find_row in Hf. apply fmap_Some in Hf as ([n x] & Hn & ->). rewrite Hn in Hrun.
  injection Hrun as _ <-. simpl. pose proof Hn as (Hl & _)%find_index_Some. split.
  - eexists. split; [eapply list_elem_of_lookup_2, list_lookup_insert_eq; by eapply lookup_lt_Some|done].
  - rewrite list_fmap_insert. simpl. apply list_insert_id. by rewrite list_lookup_fmap, Hl.
Qed.

End sessions.

(** One user with the shared secret. *)
Definition auth_sample : AuthSt :=
  mkAuth [AccountUser.mk "user-1" "anna@example.org" "Anna" 0 0] [] [] [] 0 0 0.

