(* ===== verification/Media.v ===== *)
(** Untrusted uploads: file names, PDF structure and PNG headers, from
    [packages/application/src/documents/pdf.ts], [pdf-pages.ts],
    [structural-pdf-inspector.ts], [inspectors.ts] and [png.ts].

    A body is a list of bytes; its Latin-1 text has one code unit per byte. *)

From Stdlib Require Import String Ascii.
From S2P Require Export Env Failures Keys.
Local Open Scope string_scope.

Definition latin1 (body : list Z) : list ascii := char <$> body.
Definition bytes_of (s : string) : list Z := code <$> units s.

(** ** File names and sizes *)

(* [src: packages/application/src/documents/pdf.ts:3-3 PDF_CONTENT_TYPE] *)
Definition PDF_CONTENT_TYPE : string := "application/pdf".
(* [src: packages/application/src/documents/pdf.ts:4-4 PDF_EXTENSION] *)
Definition PDF_EXTENSION : string := ".pdf".
(* [src: packages/application/src/documents/pdf.ts:5-5 PDF_MAGIC] *)
Definition PDF_MAGIC : list Z := [37; 80; 68; 70; 45].

(* [src: packages/application/src/documents/pdf.ts:7-7 DISPLAY_NAME_MAX] *)
Definition DISPLAY_NAME_MAX : Z := 180.
(* [src: packages/application/src/documents/pdf.ts:8-8 RESERVED_FILENAME_CHARS] *)
Definition RESERVED_FILENAME_CHARS : list ascii := ["<"; ">"; ":"; "034"; "|"; "?"; "*"]%char.

Definition unsafe_filename_char (c : ascii) : bool :=
  let code := code c in
  let isControl := (code <=? 31)%Z || (code =? 127)%Z in
  let isBidiOverride := (8234 <=? code)%Z && (code <=? 8238)%Z in
  isControl || isBidiOverride || bool_decide (c ∈ RESERVED_FILENAME_CHARS).

(* [src: packages/application/src/documents/pdf.ts:10-19 replaceUnsafeFilenameChars] *)
Definition replaceUnsafeFilenameChars (value : string) : string :=
  of_units ((λ c, if unsafe_filename_char c then "_"%char else c) <$> units value).

(* [src: packages/application/src/documents/pdf.ts:21-27 assertedPdfContentType] *)
Definition assertedPdfContentType (value : option string) : Result Exn string :=
  let normalized := (λ v, toLowerCase (trim (default EmptyString (head (split ";" v))))) <$> value in
  if negb (bool_decide (normalized = Some PDF_CONTENT_TYPE)) then
    Throw (ValidationError [("reason", VStr "content_type"); ("expected", VStr PDF_CONTENT_TYPE)])
  else Ok PDF_CONTENT_TYPE.

(** [value.split(/[/\\]/)]. *)
Definition path_segments (l : list ascii) : list (list ascii) :=
  split_at slash ((λ c, if is_char backslash c then slash else c) <$> l).

(** [/\.pdf$/i.test(s)]. *)
Definition has_pdf_suffix (s : string) : bool :=
  let l := units s in
  bool_decide (lower_char <$> drop (length l - 4) l = units PDF_EXTENSION).

(* [src: packages/application/src/documents/pdf.ts:33-47 sanitizeDisplayFilename] *)
Definition sanitizeDisplayFilename (raw : string) : Result Exn string :=
  let withoutNulls := List.filter (λ c, negb (is_char nul c)) (units raw) in
  let segments := path_segments withoutNulls in
  let base := of_units (default [] (last segments)) in
  let cleaned := trim (replaceUnsafeFilenameChars base) in
  let truncated := slice_to DISPLAY_NAME_MAX cleaned in
  if negb (has_pdf_suffix truncated) then
    Throw (ValidationError [("reason", VStr "filename_extension"); ("expected", VStr PDF_EXTENSION)])
  else
    let l := units truncated in
    let withExtension := of_units (take (length l - 4) l ++ units PDF_EXTENSION)%list in
    if String.eqb withExtension PDF_EXTENSION then Ok "document.pdf" else Ok withExtension.

(* [src: packages/application/src/documents/pdf.ts:49-58 assertPdfMagicBytes] *)
Definition assertPdfMagicBytes (body : list Z) : Result Exn unit :=
  throw_if (length body <? length PDF_MAGIC)%nat (ValidationError (reasonOnly "pdf_magic")) ≫= λ _,
  each (λ i, throw_if (negb (bool_decide (body !! i = PDF_MAGIC !! i)))
               (ValidationError (reasonOnly "pdf_magic"))) (seq 0 (length PDF_MAGIC)).

(* [src: packages/application/src/documents/pdf.ts:60-67 assertUploadSize] *)
Definition assertUploadSize (body : list Z) (maxBytes : Z) : Result Exn unit :=
  throw_if (length body =? 0)%nat (ValidationError (reasonOnly "empty_body")) ≫= λ _,
  throw_if (maxBytes <? Z.of_nat (length body))%Z (ValidationError (reasonOnly "payload_too_large")).

(** ** Page counts *)

(** The rest of [l] after the literal [p]. *)
Fixpoint after_literal (p l : list ascii) : option (list ascii) :=
  match p, l with
  | [], _ => Some l
  | c :: p, d :: l => if Ascii.eqb c d then after_literal p l else None
  | _ :: _, [] => None
  end.

(** [\s*] and [\s+]. *)
Definition skip_spaces (l : list ascii) : list ascii := drop_while is_space l.
Definition skip_spaces1 (l : list ascii) : option (list ascii) :=
  match l with c :: l => if is_space c then Some (skip_spaces l) else None | [] => None end.

(** [(\d+)] as a number, at the start of [l]. *)
Definition leading_number (l : list ascii) : option Z :=
  let digits := (fix go l := match l with
                             | c :: l => if is_digit c then c :: go l else []
                             | [] => [] end) l in
  match digits with
  | [] => None
  | _ => Some (foldl (λ acc c, acc * 10 + (code c - 48))%Z 0%Z digits)
  end.

(** [\/Count\s+(\d+)] here. *)
Definition count_here (l : list ascii) : option Z :=
  l ← after_literal (units "/Count") l; l ← skip_spaces1 l; leading_number l.

(** [[^>]*\/Count\s+(\d+)]: greedy, so the last count before the next [>]. *)
Fixpoint last_count (l : list ascii) : option Z :=
  match l with
  | [] => None
  | c :: l' =>
    if Ascii.eqb c ">" then None
    else match last_count l' with Some z => Some z | None => count_here l end
  end.

(** The leftmost [\/Type\s*\/Pages[^>]*\/Count\s+(\d+)]. *)
Fixpoint catalog_count (l : list ascii) : option Z :=
  match
    (l ← after_literal (units "/Type") l; l ← after_literal (units "/Pages") (skip_spaces l);
     last_count l)
  with
  | Some z => Some z
  | None => match l with [] => None | _ :: l => catalog_count l end
  end.

(** [\/Type\s*\/Page(?!s)] here. *)
Definition page_here (l : list ascii) : bool :=
  match
    (l ← after_literal (units "/Type") l; after_literal (units "/Page") (skip_spaces l))
  with
  | Some (c :: _) => negb (Ascii.eqb c "s")
  | Some [] => true
  | None => false
  end.

(** How many matches: two of them never overlap. *)
Fixpoint page_matches (l : list ascii) : nat :=
  match l with [] => 0 | _ :: l' => (if page_here l then 1 else 0) + page_matches l' end.

(* [src: packages/application/src/documents/pdf-pages.ts:6-21 extractPdfPageCount] *)
Definition extractPdfPageCount (body : list Z) : Z :=
  let text := latin1 body in
  let from_pages := match page_matches text with O => 1%Z | S n => Z.of_nat (S n) end in
  match catalog_count text with
  | Some parsed => if (1 <=? parsed)%Z then parsed else from_pages
  | None => from_pages
  end.

(** ** Structural inspection *)

(* [src: packages/application/src/documents/structural-pdf-inspector.ts:4-4 MAX_LEADING_WHITESPACE] *)
Definition MAX_LEADING_WHITESPACE : nat := 1024.
(* [src: packages/application/src/documents/structural-pdf-inspector.ts:5-5 EOF_TAIL_BYTES] *)
Definition EOF_TAIL_BYTES : nat := 2048.

(* [src: packages/application/src/documents/structural-pdf-inspector.ts:66-75 isPdfWhitespace] *)
Definition isPdfWhitespace (byte : Z) : bool :=
  bool_decide (byte ∈ [0; 9; 10; 12; 13; 32]%Z).

(* [src: packages/application/src/documents/structural-pdf-inspector.ts:77-87 matchesMagicAt] *)
Definition matchesMagicAt (body : list Z) (offset : nat) : bool :=
  if (length body <? offset + length PDF_MAGIC)%nat then false
  else forallb (λ i, bool_decide (body !! (offset + i)%nat = PDF_MAGIC !! i))
         (seq 0 (length PDF_MAGIC)).

(** The loop of [findPdfMagicOffset]: [fuel] bounds the remaining iterations. *)
Fixpoint magic_loop (body : list Z) (fuel index : nat) : option nat :=
  let exit := if matchesMagicAt body index then Some index else None in
  match fuel with
  | O => exit
  | S fuel =>
    if ((index <? length body) && (index <? MAX_LEADING_WHITESPACE))%nat then
      match body !! index with
      | None => None
      | Some byte =>
        if matchesMagicAt body index then Some index
        else if negb (isPdfWhitespace byte) then None
        else magic_loop body fuel (S index)
      end
    else exit
  end.

(* [src: packages/application/src/documents/structural-pdf-inspector.ts:93-109 findPdfMagicOffset] *)
Definition findPdfMagicOffset (body : list Z) : option nat :=
  magic_loop body MAX_LEADING_WHITESPACE 0.

(* [src: packages/application/src/documents/structural-pdf-inspector.ts:117-127 latin1Slice] *)
Definition latin1Slice (body : list Z) (start end_ : nat) : string :=
  of_units (latin1 (take (end_ - start) (drop start body))).

(* [src: packages/application/src/documents/structural-pdf-inspector.ts:111-115 hasEofMarker] *)
Definition hasEofMarker (body : list Z) : bool :=
  includes "%%EOF" (latin1Slice body (length body - EOF_TAIL_BYTES) (length body)).

(** What may follow a complete PDF name: the end, a space or a delimiter. *)
Definition name_terminated (rest : list ascii) : bool :=
  match rest with
  | [] => true
  | c :: _ =>
    let after := code c in
    (after <=? 32)%Z ||
    bool_decide (after ∈ [40; 41; 60; 62; 91; 93; 123; 125; 47; 37]%Z)
  end.

(** Scanning for [token]; a candidate that is not terminated is skipped over
    whole ([skip] characters are still to be dropped). *)
Fixpoint scan_name (token : list ascii) (skip : nat) (l : list ascii) : bool :=
  match l with
  | [] => false
  | _ :: l' =>
    match skip with
    | S skip => scan_name token skip l'
    | O =>
      match after_literal token l with
      | Some rest =>
        if name_terminated rest then true else scan_name token (length token - 1) l'
      | None => scan_name token 0 l'
      end
    end
  end.

(* [src: packages/application/src/documents/structural-pdf-inspector.ts:129-158 includesPdfName] *)
Definition includesPdfName (haystack name : string) : bool :=
  scan_name (units ("/" +:+ name)) 0 (units haystack).

(* [src: packages/application/src/documents/structural-pdf-inspector.ts:12-64 FORBIDDEN_NAME_CHECKS] *)
Definition FORBIDDEN_NAME_CHECKS : list (string * (string → bool)) :=
  [("pdf_javascript", λ s,
      includesPdfName s "JavaScript" || includesPdfName s "JS" ||
      includes "/#4A#61#76#61#53#63#72#69#70#74" s ||
      includes "/#4a#61#76#61#53#63#72#69#70#74" s);
   ("pdf_open_action", λ s, includesPdfName s "OpenAction");
   ("pdf_aa", λ s, includesPdfName s "AA");
   ("pdf_launch", λ s, includesPdfName s "Launch");
   ("pdf_embedded_file", λ s,
      includesPdfName s "EmbeddedFile" || includesPdfName s "EmbeddedFiles");
   ("pdf_rich_media", λ s, includesPdfName s "RichMedia");
   ("pdf_xfa", λ s, includesPdfName s "XFA");
   ("pdf_submit_form", λ s, includesPdfName s "SubmitForm");
   ("pdf_import_data", λ s, includesPdfName s "ImportData");
   ("pdf_goto_remote", λ s, includesPdfName s "GoToR");
   ("pdf_encrypt", λ s, includesPdfName s "Encrypt")].

Definition rejected (reason : string) : DocumentInspectionOutcome.t :=
  DocumentInspectionOutcome.mk DocumentInspectionStatus.rejected (Some reason).
Definition accepted : DocumentInspectionOutcome.t :=
  DocumentInspectionOutcome.mk DocumentInspectionStatus.accepted None.

(* [src: packages/application/src/documents/structural-pdf-inspector.ts:160-181 inspectPdfStructure] *)
Definition inspectPdfStructure (contentType : string) (body : list Z) :
    DocumentInspectionOutcome.t :=
  if negb (String.eqb contentType PDF_CONTENT_TYPE) then rejected "not_pdf"
  else if bool_decide (findPdfMagicOffset body = None) then rejected "not_pdf"
  else if negb (hasEofMarker body) then rejected "pdf_missing_eof"
  else
    let text := latin1Slice body 0 (length body) in
    match list_find (λ check : string * (string → bool), check.2 text = true)
            FORBIDDEN_NAME_CHECKS with
    | Some (_, (reasonCode, _)) => rejected reasonCode
    | None => accepted
    end.

(** ** The other inspectors *)

(* [src: packages/application/src/documents/inspectors.ts:9-9 LOCAL_INSPECTOR_REJECT_MARKER] *)
Definition LOCAL_INSPECTOR_REJECT_MARKER : string := "%ESIGN-LOCAL-REJECT%".

(* [src: packages/application/src/documents/inspectors.ts:13-23 hasMagic] *)
Definition hasMagic (body : list Z) : bool :=
  if (length body <? length PDF_MAGIC)%nat then false
  else forallb (λ i, bool_decide (body !! i = PDF_MAGIC !! i)) (seq 0 (length PDF_MAGIC)).

(* [src: packages/application/src/documents/inspectors.ts:25-36 containsMarker] *)
Definition containsMarker (body : list Z) (marker : string) : bool :=
  includes marker (of_units (latin1 (take (Z.to_nat 4096) body))).

(* [src: packages/application/src/documents/inspectors.ts:45-57 createLocalDevelopmentDocumentInspector] *)
Definition local_inspect (contentType : string) (body : list Z) : DocumentInspectionOutcome.t :=
  if negb (String.eqb contentType PDF_CONTENT_TYPE) || negb (hasMagic body) then rejected "not_pdf"
  else if containsMarker body LOCAL_INSPECTOR_REJECT_MARKER then
    rejected "local_stub_reject_marker"
  else accepted.

(* [src: packages/application/src/documents/inspectors.ts:63-69 createFailClosedDocumentInspector] *)
Definition fail_closed_inspect (contentType : string) (body : list Z) :
    DocumentInspectionOutcome.t := rejected "inspector_unconfigured".

(* [src: packages/application/src/documents/inspectors.ts:11-11 DocumentInspectorName] *)
Inductive DocumentInspectorName : Type := local | fail_closed | structural.

(* [src: packages/application/src/documents/inspectors.ts:71-85 createDocumentInspector] *)
Definition createDocumentInspector (name : DocumentInspectorName) (nodeEnv : string) :
    Result Exn (string → list Z → DocumentInspectionOutcome.t) :=
  match name with
  | local =>
    if String.eqb nodeEnv "production" then
      Throw (ValidationError (reasonOnly "local_inspector_forbidden_in_production"))
    else Ok local_inspect
  | structural => Ok inspectPdfStructure
  | fail_closed => Ok fail_closed_inspect
  end.

(** ** Signature images *)

(* [src: packages/application/src/documents/png.ts:3-3 PNG_CONTENT_TYPE] *)
Definition PNG_CONTENT_TYPE : string := "image/png".
(* [src: packages/application/src/documents/png.ts:4-4 PNG_MAGIC] *)
Definition PNG_MAGIC : list Z := [137; 80; 78; 71; 13; 10; 26; 10].
(* [src: packages/application/src/documents/png.ts:5-5 PNG_MAX_BYTES] *)
Definition PNG_MAX_BYTES : Z := 256000.
(* [src: packages/application/src/documents/png.ts:6-6 PNG_MIN_DIMENSION] *)
Definition PNG_MIN_DIMENSION : Z := 8.
(* [src: packages/application/src/documents/png.ts:7-7 PNG_MAX_DIMENSION] *)
Definition PNG_MAX_DIMENSION : Z := 2000.

Definition image_error (details : object) : Exn :=
  finalizationError FinalizationFailureCode.INVALID_SIGNATURE_IMAGE details.
Definition image_reason (reason : string) : Exn := image_error (reasonOnly reason).

Module ValidatedPng.
(* [src: packages/application/src/documents/png.ts:9-13 ValidatedPng] *)
Record t : Type := mk { bytes : list Z; width : Z; height : Z }.
End ValidatedPng.

(* [src: packages/application/src/documents/png.ts:15-30 decodePngBase64] *)
Definition decodePngBase64 `{Env} (value : string) : Result Exn (list Z) :=
  let normalized := of_units (List.filter
    (λ c, negb (bool_decide (code c ∈ [32; 10; 13; 9]%Z))) (units value)) in
  if (str_length normalized =? 0)%Z || negb (str_length normalized mod 4 =? 0)%Z then
    Throw (image_reason "png_base64")
  else Ok (base64_decode normalized).

(* [src: packages/application/src/documents/png.ts:32-41 assertPngMagicBytes] *)
Definition assertPngMagicBytes (body : list Z) : Result Exn unit :=
  throw_if (length body <? length PNG_MAGIC)%nat (image_reason "png_magic") ≫= λ _,
  each (λ i, throw_if (negb (bool_decide (body !! i = PNG_MAGIC !! i)))
               (image_reason "png_magic")) (seq 0 (length PNG_MAGIC)).

(** [ToInt32] and [ToUint32]. *)
Definition to_int32 (z : Z) : Z := (z + 2 ^ 31) mod 2 ^ 32 - 2 ^ 31.
Definition to_uint32 (z : Z) : Z := z mod 2 ^ 32.
(** [a << n] and [a | b] on 32-bit operands. *)
Definition shl32 (a n : Z) : Z := to_int32 (Z.shiftl (to_int32 a) n).
Definition or32 (a b : Z) : Z := to_int32 (Z.lor (to_int32 a) (to_int32 b)).

(* [src: packages/application/src/documents/png.ts:87-96 readUint32] *)
Definition readUint32 (body : list Z) (offset : nat) : Result Exn Z :=
  match body !! offset, body !! (offset + 1)%nat, body !! (offset + 2)%nat,
        body !! (offset + 3)%nat with
  | Some b0, Some b1, Some b2, Some b3 =>
    Ok (to_uint32 (or32 (or32 (or32 (shl32 b0 24) (shl32 b1 16)) (shl32 b2 8)) b3))
  | _, _, _, _ => Throw (image_reason "png_ihdr")
  end.

(* [src: packages/application/src/documents/png.ts:43-58 readPngDimensions] *)
Definition readPngDimensions (body : list Z) : Result Exn (Z * Z) :=
  if (length body <? 24)%nat then Throw (image_reason "png_ihdr") else
  let ihdr := (λ i, default 0%Z (body !! i)) <$> [12; 13; 14; 15]%nat in
  if negb (bool_decide (latin1 ihdr = units "IHDR")) then Throw (image_reason "png_ihdr") else
  width ← readUint32 body 16;
  height ← readUint32 body 20;
  mret (width, height).

(* [src: packages/application/src/documents/png.ts:60-85 validateSignaturePng] *)
Definition validateSignaturePng (body : list Z) (maxBytes : Z) : Result Exn ValidatedPng.t :=
  let size := Z.of_nat (length body) in
  if ((size =? 0) || (maxBytes <? size))%Z then
    Throw (image_error [("reason", VStr "png_size"); ("size", VNum (NInt size))]) else
  assertPngMagicBytes body ≫= λ _,
  '(width, height) ← readPngDimensions body;
  if ((width <? PNG_MIN_DIMENSION) || (height <? PNG_MIN_DIMENSION) ||
      (PNG_MAX_DIMENSION <? width) || (PNG_MAX_DIMENSION <? height))%Z then
    Throw (image_error [("reason", VStr "png_dimensions"); ("width", VNum (NInt width));
                        ("height", VNum (NInt height))])
  else Ok (ValidatedPng.mk body width height).

(** ** Facts *)

Lemma after_literal_Some p l rest : after_literal p l = Some rest ↔ l = (p ++ rest)%list.
Proof.
  revert l. induction p as [|c p IH]; intros l; simpl; [naive_solver|].
  destruct l as [|d l]; [naive_solver|]. destruct (Ascii.eqb c d) eqn:Hc.
  - apply Ascii.eqb_eq in Hc as ->. rewrite IH. naive_solver.
  - apply Ascii.eqb_neq in Hc. split; [done|]. intros [= ? ?]. congruence.
Qed.

(** A terminated occurrence of a token. *)
Definition occurs (token l : list ascii) : Prop :=
  ∃ a rest, l = (a ++ token ++ rest)%list ∧ name_terminated rest = true.

Lemma occurs_cons token c l :
  occurs token (c :: l) ↔
  occurs token l ∨ ∃ rest, c :: l = (token ++ rest)%list ∧ name_terminated rest = true.
Proof.
  split.
  - intros ([|d a] & rest & Hl & Ht); [right; by exists rest|].
    injection Hl as <- ->. left. by exists a, rest.
  - intros [(a & rest & -> & Ht)|(rest & Hl & Ht)]; [by exists (c :: a), rest|by exists [], rest].
Qed.

(** After a candidate that is not terminated, the search may resume behind it. *)
Lemma occurs_skip name rest :
  slash ∉ name → name_terminated rest = false →
  occurs (slash :: name) ((slash :: name) ++ rest)%list ↔ occurs (slash :: name) rest.
Proof.
  intros Hs Hn. split.
  - intros (a & rest' & Hl & Ht). destruct a as [|c a].
    { simpl in Hl. injection Hl as Hl. apply app_inv_head in Hl. congruence. }
    injection Hl as <- Hl. apply app_eq_inv in Hl as [(k & Hk & Hr)|(k & Hk & Hr)].
    + destruct k as [|d k]; [exists [], rest'; by simpl in *; subst|].
      injection Hr as <- _. destruct Hs. rewrite Hk. set_solver.
    + exists k, rest'. by rewrite Hr.
  - intros (a & rest' & -> & Ht). exists ((slash :: name) ++ a)%list, rest'.
    by rewrite <-app_assoc.
Qed.

Lemma scan_name_spec name skip l :
  slash ∉ name →
  scan_name (slash :: name) skip l = true ↔ occurs (slash :: name) (drop skip l).
Proof.
  intros Hs. revert skip. induction l as [|c l IH]; intros skip.
  - rewrite drop_nil. split; [done|]. by intros ([|] & ? & ? & _).
  - destruct skip as [|skip]; [|apply IH]. cbn [scan_name drop].
    destruct (after_literal (slash :: name) (c :: l)) as [rest|] eqn:Ha.
    + apply after_literal_Some in Ha. destruct (name_terminated rest) eqn:Ht.
      * split; [intros _|done]. exists [], rest. by rewrite Ha.
      * rewrite IH, Ha, occurs_skip by done. injection Ha as <- ->. simpl.
        by rewrite Nat.sub_0_r, drop_app_length.
    + rewrite IH, drop_0, occurs_cons. split; [by left|]. intros [?|(rest & Hr & _)]; [done|].
      apply after_literal_Some in Hr. congruence.
Qed.

(** Scanning for a PDF name finds it exactly when it occurs complete, that
    is followed by the end of the text, a space or a delimiter: a longer name
    that begins with it does not count, and no occurrence is skipped over. *)
Theorem includesPdfName_spec haystack name :
  slash ∉ units name →
  includesPdfName haystack name = true ↔
  ∃ before after, units haystack = (before ++ slash :: units name ++ after)%list ∧
    name_terminated after = true.
Proof.
  intros Hs. unfold includesPdfName. rewrite units_app. change (units "/") with [slash]. simpl.
  rewrite scan_name_spec, drop_0 by done. unfold occurs. naive_solver.
Qed.

Lemma includesPdfName_spec_witness :
  includesPdfName "<< /JSON 1 /JS (app.alert) >>" "JS" = true ∧
  ∃ before after, units "<< /JSON 1 /JS (app.alert) >>" =
    (before ++ slash :: units "JS" ++ after)%list ∧ name_terminated after = true.
Proof.
  split; [vm_compute; reflexivity|].
  apply (includesPdfName_spec "<< /JSON 1 /JS (app.alert) >>" "JS"); [|vm_compute; reflexivity].
  intros H. apply list_elem_of_In in H. vm_compute in H.
  repeat destruct H as [H|H]; try discriminate H; exact H.
Defined.

Lemma bool_forall_magic (body : list Z) k (P : list Z) :
  forallb (λ i, bool_decide (body !! (k + i)%nat = P !! i)) (seq 0 (length P)) = true →
  take (length P) (drop k body) = P.
Proof.
  rewrite forallb_forall. intros H. apply list_eq. intros i.
  destruct (decide (i < length P)%nat) as [Hi|Hi].
  - rewrite lookup_take_lt by done. rewrite lookup_drop.
    assert (In i (seq 0 (length P))) as Hin by (apply in_seq; lia).
    by apply H, bool_decide_eq_true in Hin.
  - rewrite lookup_take_ge by lia. symmetry. apply lookup_ge_None. lia.
Qed.

Lemma magic_loop_spec body fuel index i :
  magic_loop body fuel index = Some i →
  (index ≤ i)%nat ∧ (i ≤ index + fuel)%nat ∧ take 5 (drop i body) = PDF_MAGIC ∧
  ∀ j b, (index ≤ j < i)%nat → body !! j = Some b → isPdfWhitespace b = true.
Proof.
  assert (∀ k, matchesMagicAt body k = true → take 5 (drop k body) = PDF_MAGIC) as Hm.
  { intros k. unfold matchesMagicAt. destruct (_ <? _)%nat; [done|].
    apply (bool_forall_magic body k PDF_MAGIC). }
  assert (∀ k, (if matchesMagicAt body k then Some k else None) = Some i →
    k = i ∧ take 5 (drop k body) = PDF_MAGIC) as Hexit.
  { intros k. destruct (matchesMagicAt body k) eqn:Hk; [|done]. intros [= ->]. auto. }
  revert index. induction fuel as [|fuel IH]; intros index; simpl.
  { intros H. apply Hexit in H as [-> ?]. split_and!; [lia..|done|lia]. }
  destruct (_ && _)%nat; [|intros H; apply Hexit in H as [-> ?]; split_and!; [lia..|done|lia]].
  destruct (body !! index) as [b|] eqn:Hb; [|done].
  destruct (matchesMagicAt body index) eqn:Hat.
  { intros [= <-]. split_and!; [lia..|by apply Hm|lia]. }
  destruct (isPdfWhitespace b) eqn:Hw; simpl; [|done]. intros H.
  destruct (IH _ H) as (? & ? & ? & Hws). split_and!; [lia..|done|].
  intros j c Hj Hc. destruct (decide (j = index)) as [->|]; [congruence|].
  eapply Hws; [|done]. lia.
Qed.

(** A document the structural inspector accepts is declared a PDF, starts
    with the PDF magic after at most 1024 white-space bytes and nothing else,
    has an end-of-file marker in its last 2048 bytes, and contains none of the
    forbidden names. *)
Theorem inspectPdfStructure_accepts contentType body :
  inspectPdfStructure contentType body = accepted →
  contentType = PDF_CONTENT_TYPE ∧
  (∃ i, (i ≤ MAX_LEADING_WHITESPACE)%nat ∧ take 5 (drop i body) = PDF_MAGIC ∧
     ∀ j b, (j < i)%nat → body !! j = Some b → isPdfWhitespace b = true) ∧
  hasEofMarker body = true ∧
  ∀ reason check, (reason, check) ∈ FORBIDDEN_NAME_CHECKS →
    check (latin1Slice body 0 (length body)) = false.
Proof.
  unfold inspectPdfStructure, rejected, accepted. generalize FORBIDDEN_NAME_CHECKS as checks.
  intros checks. destruct (String.eqb contentType PDF_CONTENT_TYPE) eqn:Hc; cbn [negb]; [|done].
  case_bool_decide as Ho; [done|]. destruct (hasEofMarker body); cbn [negb]; [|done].
  intros Hf. split_and!; [by apply String.eqb_eq| |done|].
  - destruct (findPdfMagicOffset body) as [i|] eqn:Hi; [|done]. clear Ho Hf Hc.
    apply magic_loop_spec in Hi as (_ & Hle & Hmagic & Hws). exists i.
    split_and!; [done..|]. intros j b Hj. apply Hws. lia.
  - intros reason check Hin. cbv zeta in Hf.
    case_match eqn:Hl; [by repeat case_match|]. apply list_find_None in Hl. rewrite Forall_forall in Hl. specialize (Hl _ Hin). simpl in Hl.
    by destruct (check _).
Qed.

Lemma inspectPdfStructure_accepts_witness :
  let body := bytes_of "  %PDF-1.7 /JSON %%EOF" in
  inspectPdfStructure PDF_CONTENT_TYPE body = accepted ∧
  hasEofMarker body = true.
Proof.
  intros body. assert (inspectPdfStructure PDF_CONTENT_TYPE body = accepted) as H
    by (vm_compute; reflexivity).
  split; [exact H|]. exact (proj1 (proj2 (proj2 (inspectPdfStructure_accepts _ _ H)))).
Defined.

Definition is_byte (b : Z) : Prop := (0 ≤ b < 256)%Z.

Lemma to_int32_mod z : (to_int32 z mod 2 ^ 32 = z mod 2 ^ 32)%Z.
Proof.
  unfold to_int32. rewrite Zminus_mod_idemp_l.
  by replace (z + 2 ^ 31 - 2 ^ 31)%Z with z by lia.
Qed.

(** Bitwise or commutes with truncation to 32 bits. *)
Lemma or32_mod a b : (or32 a b mod 2 ^ 32 = Z.lor (a mod 2 ^ 32) (b mod 2 ^ 32))%Z.
Proof.
  unfold or32. rewrite to_int32_mod, <-(to_int32_mod a), <-(to_int32_mod b).
  rewrite <-!Z.land_ones by lia. apply Z.land_lor_distr_l.
Qed.

Lemma shl32_mod a n : (0 ≤ n)%Z → (shl32 a n mod 2 ^ 32 = Z.shiftl a n mod 2 ^ 32)%Z.
Proof.
  intros Hn. unfold shl32. rewrite to_int32_mod, !Z.shiftl_mul_pow2 by done.
  by rewrite Z.mul_mod, to_int32_mod, <-Z.mul_mod by lia.
Qed.

Lemma shl32_byte b n :
  is_byte b → (0 ≤ n ≤ 24)%Z → (shl32 b n mod 2 ^ 32 = Z.shiftl b n)%Z.
Proof.
  intros [Hb Hb'] [Hn Hn']. rewrite shl32_mod, Z.shiftl_mul_pow2 by done. apply Z.mod_small.
  assert (2 ^ n ≤ 2 ^ 24)%Z by (apply Z.pow_le_mono_r; lia).
  assert (0 < 2 ^ n)%Z by lia. nia.
Qed.

(** Disjoint bits: or is addition. *)
Lemma land_shifted_small a n b :
  (0 ≤ n)%Z → (0 ≤ b < 2 ^ n)%Z → Z.land (Z.shiftl a n) b = 0%Z.
Proof.
  intros Hn Hb. assert (b = Z.land (Z.ones n) b) as ->.
  { rewrite Z.land_comm, Z.land_ones by done. symmetry. by apply Z.mod_small. }
  rewrite Z.land_assoc, Z.land_ones, Z.shiftl_mul_pow2, Z.mod_mul by lia. apply Z.land_0_l.
Qed.

Lemma lor_shifted_add a n b :
  (0 ≤ n)%Z → (0 ≤ b < 2 ^ n)%Z → Z.lor (Z.shiftl a n) b = (a * 2 ^ n + b)%Z.
Proof.
  intros Hn Hb. rewrite <-Z.add_nocarry_lor by by apply land_shifted_small.
  by rewrite Z.shiftl_mul_pow2.
Qed.

(** Reading a 32-bit length from a PNG header gives the big-endian value of
    the four bytes, in [0, 2^32), although the program computes it with signed
    32-bit shifts and ors; and it throws exactly when a byte is missing. *)
Theorem readUint32_big_endian body offset :
  Forall is_byte body →
  match body !! offset, body !! (offset + 1)%nat, body !! (offset + 2)%nat,
        body !! (offset + 3)%nat with
  | Some b0, Some b1, Some b2, Some b3 =>
    readUint32 body offset = Ok (((b0 * 256 + b1) * 256 + b2) * 256 + b3)%Z ∧
    (0 ≤ ((b0 * 256 + b1) * 256 + b2) * 256 + b3 < 2 ^ 32)%Z
  | _, _, _, _ => readUint32 body offset = Throw (image_reason "png_ihdr")
  end.
Proof.
  intros Hbytes. unfold readUint32.
  destruct (body !! offset) as [b0|] eqn:H0; [|done].
  destruct (body !! (offset + 1)%nat) as [b1|] eqn:H1; [|done].
  destruct (body !! (offset + 2)%nat) as [b2|] eqn:H2; [|done].
  destruct (body !! (offset + 3)%nat) as [b3|] eqn:H3; [|done].
  assert (∀ i b, body !! i = Some b → is_byte b) as Hb by (intros; by eapply Forall_lookup_1).
  apply Hb in H0, H1, H2, H3. clear Hb Hbytes. split; [|unfold is_byte in *; lia].
  unfold to_uint32. rewrite !or32_mod, !shl32_byte by (try done; lia).
  rewrite (Z.mod_small b3) by (unfold is_byte in *; lia). unfold is_byte in *.
  rewrite (lor_shifted_add b0 24 (Z.shiftl b1 16)), Z.shiftl_mul_pow2 by
    (rewrite ?Z.shiftl_mul_pow2; lia).
  replace (b0 * 2 ^ 24 + b1 * 2 ^ 16)%Z with (Z.shiftl (b0 * 256 + b1) 16) by
    (rewrite Z.shiftl_mul_pow2; lia).
  rewrite (lor_shifted_add _ 16), Z.shiftl_mul_pow2 by (rewrite ?Z.shiftl_mul_pow2; lia).
  replace ((b0 * 256 + b1) * 2 ^ 16 + b2 * 2 ^ 8)%Z
    with (Z.shiftl ((b0 * 256 + b1) * 256 + b2) 8) by (rewrite Z.shiftl_mul_pow2; lia).
  rewrite lor_shifted_add by lia. reflexivity.
Qed.

Lemma readUint32_big_endian_witness : readUint32 [255; 255; 255; 254] 0 = Ok 4294967294.
Proof.
  assert (Forall is_byte [255; 255; 255; 254]) as H.
  { repeat (apply Forall_cons_2; [split; reflexivity || discriminate|]). apply Forall_nil_2. }
  exact (proj1 (readUint32_big_endian [255; 255; 255; 254] 0 H)).
Defined.

(** ** Display names *)

Lemma drop_while_sub p l c : c ∈ drop_while p l → c ∈ l.
Proof.
  induction l as [|d l IH]; simpl; [done|]. destruct (p d); [|done]. intros H. right. by apply IH.
Qed.

Lemma trim_sub s c : c ∈ units (trim s) → c ∈ units s.
Proof.
  unfold trim. rewrite units_of_units, elem_of_reverse. intros H.
  by apply drop_while_sub, elem_of_reverse, drop_while_sub in H.
Qed.

Lemma slice_to_sub n s c : c ∈ units (slice_to n s) → c ∈ units s.
Proof. unfold slice_to. rewrite units_of_units. apply subseteq_take. Qed.

Lemma split_at_free_segments c l seg : seg ∈ split_at c l → c ∉ seg.
Proof.
  revert seg. induction l as [|d l IH]; intros seg; simpl; 
    [intros ->%list_elem_of_singleton; apply not_elem_of_nil|].
  destruct (split_at c l) as [|x xs] eqn:Hs; [by apply split_at_nonempty in Hs|].
  destruct (Ascii.eqb d c) eqn:Hd.
  - rewrite elem_of_cons. intros [->|Hin]; [apply not_elem_of_nil|]. by apply IH.
  - apply Ascii.eqb_neq in Hd. rewrite elem_of_cons. intros [->|Hin].
    + apply not_elem_of_cons. split; [congruence|apply IH; left].
    + apply IH. by right.
Qed.

Lemma path_segments_no_slash l seg c :
  seg ∈ path_segments l → c ∈ seg → c ≠ slash ∧ c ≠ backslash ∧ c ∈ l.
Proof.
  unfold path_segments. intros Hseg Hc. split; [intros ->; by eapply split_at_free_segments|].
  assert (∀ (c : ascii) l seg d, seg ∈ split_at c l → d ∈ seg → d ∈ l) as Hsub.
  { clear. intros c l. induction l as [|e l IH]; intros seg d; simpl.
    { intros ->%list_elem_of_singleton Hd. by apply elem_of_nil in Hd. }
    destruct (split_at c l) as [|x xs] eqn:Hs; [by apply split_at_nonempty in Hs|].
    destruct (Ascii.eqb e c); rewrite elem_of_cons; intros [->|Hin] Hd.
    - by apply elem_of_nil in Hd.
    - right. by eapply (IH seg).
    - apply elem_of_cons in Hd as [->|Hd]; [left|right]. eapply (IH x); [left|done].
    - right. eapply (IH seg); [by right|done]. }
  assert (c ≠ slash) as Hns by (intros ->; by eapply split_at_free_segments).
  pose proof (Hsub _ _ _ _ Hseg Hc) as Hin. apply list_elem_of_fmap in Hin as (e & He & Hin).
  unfold is_char in He. destruct (Ascii.eqb e backslash) eqn:Hb; [done|]. subst e.
  apply Ascii.eqb_neq in Hb. done.
Qed.

(** What the characters of a cleaned name exclude. *)
Definition safe_name_char (c : ascii) : Prop :=
  c ≠ slash ∧ c ≠ backslash ∧ unsafe_filename_char c = false.

(** Safety of a literal, by computation. *)
Lemma safe_literal s :
  forallb (λ c, negb (is_char slash c) && negb (is_char backslash c) &&
                negb (unsafe_filename_char c)) (units s) = true →
  ∀ c, c ∈ units s → safe_name_char c.
Proof.
  rewrite forallb_forall. intros H c Hc. apply list_elem_of_In, H in Hc.
  rewrite !andb_true_iff, !negb_true_iff in Hc. destruct Hc as [[Hs Hb] Hu].
  split_and!; [by apply Ascii.eqb_neq|by apply Ascii.eqb_neq|done].
Qed.

Lemma replaceUnsafe_safe s c :
  slash ∉ units s → backslash ∉ units s →
  c ∈ units (replaceUnsafeFilenameChars s) → safe_name_char c.
Proof.
  intros Hs Hb. unfold replaceUnsafeFilenameChars. rewrite units_of_units, list_elem_of_fmap.
  intros (d & -> & Hd). destruct (unsafe_filename_char d) eqn:Hu.
  - by split_and!.
  - split_and!; [| |done]; intros ->; contradiction.
Qed.

(** A display name is safe to show and to store: whatever file name the
    client sends, an accepted one has no path separator, no control character
    and none of the reserved characters, ends in ".pdf" and has at most 180
    characters. *)
Theorem sanitizeDisplayFilename_safe raw name :
  sanitizeDisplayFilename raw = Ok name →
  (∀ c, c ∈ units name → safe_name_char c) ∧
  (∃ stem, name = stem +:+ PDF_EXTENSION ∧ stem ≠ EmptyString) ∧
  (String.length name ≤ 180)%nat.
Proof.
  unfold sanitizeDisplayFilename. cbv zeta.
  set (base := of_units (default [] _)). set (truncated := slice_to _ _).
  destruct (has_pdf_suffix truncated) eqn:Hsuf; cbn [negb]; [|done].
  assert (∀ c, c ∈ units truncated → safe_name_char c) as Hsafe.
  { intros c Hc. apply slice_to_sub, trim_sub in Hc. revert Hc.
    assert (∀ d, d ∈ units base → d ≠ slash ∧ d ≠ backslash) as Hb.
    { unfold base. rewrite units_of_units. intros d Hd.
      destruct (last _) as [seg|] eqn:Hl; [|by apply elem_of_nil in Hd].
      apply last_Some_elem_of in Hl. by destruct (path_segments_no_slash _ _ _ Hl Hd) as (? & ? & _). }
    apply replaceUnsafe_safe; intros Hin; by destruct (Hb _ Hin). }
  assert (length (units truncated) ≤ 180)%nat as Hlen.
  { unfold truncated, slice_to. rewrite units_of_units, length_take. unfold DISPLAY_NAME_MAX. lia. }
  assert (4 ≤ length (units truncated))%nat as Hlen'.
  { unfold has_pdf_suffix in Hsuf. apply bool_decide_eq_true in Hsuf.
    apply (f_equal length) in Hsuf. rewrite length_fmap, length_drop in Hsuf. 
    change (length (units PDF_EXTENSION)) with 4%nat in Hsuf. lia. }
  assert (∀ c, c ∈ units PDF_EXTENSION → safe_name_char c) as Hext.
  { apply safe_literal. by vm_compute. }
  destruct (String.eqb _ _) eqn:He; intros Hn; apply Ok_inj in Hn; rewrite <-Hn; clear Hn.
  - split_and!; [|by exists "document"|simpl; lia]. apply safe_literal. by vm_compute.
  - rewrite units_of_units. split_and!.
    + intros c [Hc|Hc]%elem_of_app; [|by apply Hext]. apply Hsafe. by eapply subseteq_take.
    + exists (of_units (take (length (units truncated) - 4) (units truncated))).
      split.
      * apply units_inj. by rewrite units_app, !units_of_units.
      * intros Hempty. apply String.eqb_neq in He. apply He. apply units_inj.
        apply (f_equal units) in Hempty. rewrite units_of_units in Hempty.
        rewrite units_of_units, Hempty. done.
    + rewrite <-units_length, units_of_units, length_app, length_take.
      change (length (units PDF_EXTENSION)) with 4%nat. lia.
Qed.

Lemma sanitizeDisplayFilename_safe_witness :
  ∃ name, sanitizeDisplayFilename "C:\tmp\..\..\etc/Lease <final>.PDF" = Ok name ∧
    (String.length name ≤ 180)%nat.
Proof.
  exists "Lease _final_.pdf".
  assert (sanitizeDisplayFilename "C:\tmp\..\..\etc/Lease <final>.PDF" = Ok "Lease _final_.pdf")
    as H by (vm_compute; reflexivity).
  split; [exact H|]. exact (proj2 (proj2 (sanitizeDisplayFilename_safe _ _ H))).
Defined.
