(* ===== verification/Canonical.v ===== *)
(** Canonical audit documents and the approval of audit payloads:
    [packages/domain/src/audit/canonical.ts] and [audit/payload.ts]. *)

From Stdlib Require Import String Ascii SpecFloat Permutation.
From stdpp Require Import pretty.
From S2P Require Export Env Keys.
Local Open Scope string_scope.

(** ** Canonical JSON *)

(* [src: packages/domain/src/audit/canonical.ts:8-14 CanonicalJson] *)
Inductive CanonicalJson : Type :=
  | CNull
  | CBool (b : bool)
  | CNum (n : jsnum)
  | CStr (s : string)
  | CArr (l : list CanonicalJson)
  | CObj (m : list (string * CanonicalJson)).

(** Own keys that are array indices come first, in ascending order. *)
Definition array_index (key : string) : option Z :=
  let l := units key in
  if negb (forallb is_digit l) then None else
  let z := foldl (λ acc c, acc * 10 + (code c - 48))%Z 0%Z l in
  if String.eqb (of_int z) key && (z <? 4294967295)%Z then Some z else None.

Definition key_leb {A} (a b : string * A) : bool :=
  match array_index a.1, array_index b.1 with
  | Some i, Some j => (i <=? j)%Z
  | Some _, None => true
  | None, Some _ => false
  | None, None => string_leb a.1 b.1
  end.
Definition entry_leb {A} (a b : string * A) : bool := string_leb a.1 b.1.

(** Run the entries of an object in order, keeping those that are present. *)
Fixpoint sequence_entries {A} (l : list (string * option (Result Exn A))) :
    Result Exn (list (string * A)) :=
  match l with
  | [] => Ok []
  | (_, None) :: l => sequence_entries l
  | (k, Some r) :: l =>
    x ← r;
    rest ← sequence_entries l;
    (* [canonical['__proto__'] = x] sets the prototype, not an own member *)
    mret (if String.eqb k "__proto__" then rest else (k, x) :: rest)
  end.

(* [src: packages/domain/src/audit/canonical.ts:44-91 canonicalizeJsonValue] *)
Fixpoint canonicalizeJsonValue (value : value) : Result Exn CanonicalJson :=
  match value with
  | VNull => Ok CNull
  | VBool b => Ok (CBool b)
  | VNum n =>
    if negb (isFinite n) then Throw (ValidationError (reasonOnly "non_finite_json_number"))
    else Ok (CNum n)
  | VStr s => Ok (CStr s)
  | VDate None => Throw (ValidationError (reasonOnly "invalid_occurred_at"))
  | VDate (Some t) => Ok (CStr (toISOString t))
  | VArr l =>
    CArr <$> (fix go l :=
                match l with
                | [] => Ok []
                | entry :: l =>
                  match canonicalizeJsonValue entry with
                  | Throw e => Throw e
                  | Ok c => match go l with Throw e => Throw e | Ok cs => Ok (c :: cs) end
                  end
                end) l
  | VBytes _ => Throw (ValidationError (reasonOnly "binary_audit_payload"))
  | VObj m =>
    let entries := (fix go (m : object) :=
                      match m with
                      | [] => []
                      | (key, VUndef) :: m => (key, None) :: go m
                      | (key, nested) :: m => (key, Some (canonicalizeJsonValue nested)) :: go m
                      end) m in
    canonical ← sequence_entries (sort_by entry_leb entries);
    mret (CObj (sort_by key_leb canonical))
  | VUndef =>
    Throw (ValidationError [("reason", VStr "unsupported_json_type"); ("jsonType", VStr "undefined")])
  | VOther ty =>
    Throw (ValidationError [("reason", VStr "unsupported_json_type"); ("jsonType", VStr ty)])
  end.

(** ** [JSON.stringify] of canonical JSON *)

Definition dquote : ascii := "034".

Definition hex_digit (z : Z) : ascii := char (if (z <? 10)%Z then 48 + z else 87 + z)%Z.

Definition escape_char (c : ascii) : list ascii :=
  let z := code c in
  if Ascii.eqb c dquote then [backslash; dquote]
  else if Ascii.eqb c backslash then [backslash; backslash]
  else if (z =? 8)%Z then [backslash; "b"%char]
  else if (z =? 9)%Z then [backslash; "t"%char]
  else if (z =? 10)%Z then [backslash; "n"%char]
  else if (z =? 12)%Z then [backslash; "f"%char]
  else if (z =? 13)%Z then [backslash; "r"%char]
  else if (z <? 32)%Z then
    [backslash; "u"%char; "0"%char; "0"%char; hex_digit (z / 16)%Z; hex_digit (z mod 16)%Z]
  else [c].

Definition quote (s : string) : list ascii :=
  dquote :: (mjoin (escape_char <$> units s) ++ [dquote])%list.

Section printing.
Context `{Env}.

Definition print_number (n : jsnum) : list ascii :=
  match n with NInt z => units (of_int z) | NFlt f => units (number_to_string f) end.

Definition comma : ascii := ",".

(** The text of a value, as a list of characters. *)
Fixpoint print_json (c : CanonicalJson) : list ascii :=
  match c with
  | CNull => units "null"
  | CBool b => units (if b then "true" else "false")
  | CNum n => print_number n
  | CStr s => quote s
  | CArr l =>
    "["%char ::
    (fix go l :=
       match l with
       | [] => ["]"%char]
       | x :: l => (print_json x ++ match l with [] => ["]"%char] | _ => comma :: go l end)%list
       end) l
  | CObj m =>
    "{"%char ::
    (fix go m :=
       match m with
       | [] => ["}"%char]
       | (k, x) :: m =>
         (quote k ++ ":"%char :: print_json x ++
          match m with [] => ["}"%char] | _ => comma :: go m end)%list
       end) m
  end.

Definition json_stringify (c : CanonicalJson) : string := of_units (print_json c).

(* [src: packages/domain/src/audit/canonical.ts:93-95 serializeCanonicalJson] *)
Definition serializeCanonicalJson (v : value) : Result Exn string :=
  json_stringify <$> canonicalizeJsonValue v.

End printing.

(** A canonical value is itself a JavaScript value. *)
Fixpoint embed (c : CanonicalJson) : value :=
  match c with
  | CNull => VNull
  | CBool b => VBool b
  | CNum n => VNum n
  | CStr s => VStr s
  | CArr l => VArr (embed <$> l)
  | CObj m => VObj ((λ '(k, x), (k, embed x)) <$> m)
  end.

(* [src: packages/domain/src/audit/canonical.ts:5-6 AUDIT_CHAIN_SCHEMA_VERSION] *)
Definition AUDIT_CHAIN_SCHEMA_VERSION : Z := 1.

Module AuditEventHashInput.
(* [src: packages/domain/src/audit/canonical.ts:33-42 AuditEventHashInput] *)
Record t : Type := mk {
  schemaVersion : Z;
  previousEventHash : string;
  sequence : Z;
  type : AuditEventType.t;
  actorType : AuditActorType.t;
  actorId : string;
  occurredAt : JsDate;
  payload : value
}.
End AuditEventHashInput.

(* [src: packages/domain/src/audit/canonical.ts:97-117 toCanonicalAuditEventV1] *)
Definition toCanonicalAuditEventV1 (input : AuditEventHashInput.t) : Result Exn value :=
  let '(AuditEventHashInput.mk schemaVersion previousEventHash sequence type actorType
          actorId occurredAt payload) := input in
  throw_if (negb (schemaVersion =? AUDIT_CHAIN_SCHEMA_VERSION)%Z)
    (ValidationError [("reason", VStr "unsupported_audit_schema_version");
                      ("schemaVersion", VNum (NInt schemaVersion))]) ≫= λ _,
  match occurredAt with
  | None => Throw (ValidationError (reasonOnly "invalid_occurred_at"))
  | Some t =>
    canonical ← canonicalizeJsonValue payload;
    mret (VObj [("actorId", VStr actorId);
                ("actorType", VStr (AuditActorType.to_string actorType));
                ("occurredAt", VStr (toISOString t));
                ("payload", embed canonical);
                ("previousEventHash", VStr previousEventHash);
                ("schemaVersion", VNum (NInt AUDIT_CHAIN_SCHEMA_VERSION));
                ("sequence", VNum (NInt sequence));
                ("type", VStr (AuditEventType.to_string type))])
  end.

(** The text that is hashed, and its hash. *)
Definition auditEventText `{Env} (input : AuditEventHashInput.t) : Result Exn string :=
  toCanonicalAuditEventV1 input ≫= serializeCanonicalJson.

(* [src: packages/domain/src/audit/canonical.ts:119-129 computeAuditEventHash] *)
Definition computeAuditEventHash `{Env} (input : AuditEventHashInput.t) : Result Exn string :=
  sha256Hex <$> auditEventText input.

(** ** Approved payloads *)

(* [src: packages/domain/src/audit/payload.ts:8-25 FORBIDDEN_SUBSTRINGS] *)
Definition FORBIDDEN_SUBSTRINGS : list string :=
  ["token"; "secret"; "password"; "cookie"; "authorization"; "bearer"; "apikey"; "csrftoken";
   "sessiontoken"; "signatureimage"; "signaturebytes"; "pngbytes"; "pdfbytes"; "documentbytes";
   "pointerstream"; "rawsignature"].

(* [src: packages/domain/src/audit/payload.ts:27-39 FORBIDDEN_EXACT] *)
Definition FORBIDDEN_EXACT : list string :=
  ["email"; "name"; "phone"; "address"; "ssn"; "png"; "pdf"; "pointer"; "strokes"; "ink"; "raw"].

(* [src: packages/domain/src/audit/payload.ts:41-43 MAX_DEPTH] *)
Definition MAX_STRING_CHARS : Z := 4096.
Definition MAX_DEPTH : Z := 8.
Definition MAX_KEYS : Z := 64.

Definition is_alnum (c : ascii) : bool :=
  is_digit c || between "a" "z" c || between "A" "Z" c.

(* [src: packages/domain/src/audit/payload.ts:45-47 normalizeKey] *)
Definition normalizeKey (key : string) : string :=
  toLowerCase (of_units (List.filter is_alnum (units key))).

(* [src: packages/domain/src/audit/payload.ts:49-55 isForbiddenKey] *)
Definition isForbiddenKey (key : string) : bool :=
  let normalized := normalizeKey key in
  if bool_decide (normalized ∈ FORBIDDEN_EXACT) then true
  else existsb (λ part, includes part normalized) FORBIDDEN_SUBSTRINGS.

Definition too_deep : Exn := ValidationError (reasonOnly "audit_payload_too_deep").
Definition too_large : Exn := ValidationError (reasonOnly "audit_payload_too_large").

(** [assertApprovedValue] and [assertApprovedAuditPayload] call each other; an
    object is approved by the inner loop over its members. *)
(* [src: packages/domain/src/audit/payload.ts:57-96 assertApprovedValue] *)
Fixpoint assertApprovedValue (v : value) (depth : Z) : Result Exn unit :=
  let record (m : object) (depth : Z) : Result Exn unit :=
    throw_if (MAX_DEPTH <? depth)%Z too_deep ≫= λ _,
    throw_if (MAX_KEYS <? Z.of_nat (length m))%Z too_large ≫= λ _,
    (fix members (m : object) :=
       match m with
       | [] => Ok tt
       | (key, nested) :: m =>
         throw_if (isForbiddenKey key)
           (ValidationError (fieldReason key "forbidden_audit_payload_key")) ≫= λ _,
         match nested with
         | VUndef => members m
         | _ => assertApprovedValue nested (depth + 1)%Z ≫= λ _, members m
         end
       end) m in
  throw_if (MAX_DEPTH <? depth)%Z too_deep ≫= λ _,
  match v with
  | VNull | VBool _ | VDate _ => Ok tt
  | VNum n => throw_if (negb (isFinite n)) (ValidationError (reasonOnly "non_finite_json_number"))
  | VStr s =>
    throw_if (MAX_STRING_CHARS <? str_length s)%Z
      (ValidationError (reasonOnly "audit_payload_string_too_long"))
  | VBytes _ => Throw (ValidationError (reasonOnly "binary_audit_payload"))
  | VArr l =>
    throw_if (MAX_KEYS <? Z.of_nat (length l))%Z too_large ≫= λ _,
    (fix entries (l : list value) :=
       match l with
       | [] => Ok tt
       | entry :: l => assertApprovedValue entry (depth + 1)%Z ≫= λ _, entries l
       end) l
  | VObj m => record m (depth + 1)%Z
  | VUndef =>
    Throw (ValidationError [("reason", VStr "unsupported_json_type"); ("jsonType", VStr "undefined")])
  | VOther ty =>
    Throw (ValidationError [("reason", VStr "unsupported_json_type"); ("jsonType", VStr ty)])
  end.

(* [src: packages/domain/src/audit/payload.ts:98-125 assertApprovedAuditPayload] *)
Definition assertApprovedAuditPayload (payload : object) (depth : Z) : Result Exn unit :=
  throw_if (MAX_DEPTH <? depth)%Z too_deep ≫= λ _,
  throw_if (MAX_KEYS <? Z.of_nat (length (keys payload)))%Z too_large ≫= λ _,
  each (λ '(key, nested),
          throw_if (isForbiddenKey key)
            (ValidationError (fieldReason key "forbidden_audit_payload_key")) ≫= λ _,
          match nested with
          | VUndef => Ok tt
          | _ => assertApprovedValue nested (depth + 1)%Z
          end) payload.
