(* ===== verification/Store.v ===== *)
(** The stores the use cases run against, and the calls that read the clock
    and draw identifiers and tokens.

    [St] gathers the [records] array of every in-memory repository of
    [packages/application/src/documents/memory-adapters.ts], the object map of
    [packages/application/src/ports/memory-object-storage.ts], the messages
    handed to the notifier and the metric hooks, and how often the clock and
    the generators have been read. *)

From Stdlib Require Import String.
From S2P Require Export Env.

Module StoredObject.
(* [src: packages/application/src/ports/memory-object-storage.ts:11-11 StoredObject] *)
Record t : Type := mk {
  key : string;
  contentType : string;
  sizeBytes : Z;
  sha256Digest : string;
  body : list Z;
  storedAt : Z
}.
End StoredObject.

Module SigningInvitation.
(* [src: packages/domain/src/ports/services.ts:126-137 SigningInvitation] *)
Record t : Type := mk {
  organizationId : string;
  documentId : string;
  signerId : string;
  sessionId : string;
  to : option string;
  expiresAt : Z;
  idempotencyKey : option string;
  rawToken : option string
}.
End SigningInvitation.

Module AuditCheckpoint.
(* [src: packages/domain/src/ports/checkpoint-store.ts:1-8 AuditCheckpoint] *)
Record t : Type := mk {
  organizationId : string;
  documentId : string;
  sequence : Z;
  eventHash : string;
  schemaVersion : Z;
  anchoredAt : Z
}.
End AuditCheckpoint.

Module AuditVerificationAlert.
(* [src: packages/domain/src/ports/audit-verification.ts:13-20 AuditVerificationAlert] *)
Record t : Type := mk {
  organizationId : string;
  documentId : string;
  failureCodes : list string;
  sequence : option Z
}.
End AuditVerificationAlert.

Module JobMetrics.
(* [src: packages/application/src/jobs/metrics.ts:3-14 createMemoryJobQueueMetrics counters] *)
Record t : Type := mk {
  claims : Z;
  recoveredLeases : Z;
  attempts : Z;
  successes : Z;
  retryableFailures : Z;
  terminalFailures : Z;
  lastLatencyMs : option Z
}.
Definition zero : t := mk 0 0 0 0 0 0 None.
End JobMetrics.

Record St : Type := mkSt {
  documents : list Document.t;
  revisions : list DocumentRevision.t;
  uploadSessions : list UploadSession.t;
  previewGrants : list PreviewGrant.t;
  idempotencyRecords : list IdempotencyRecord.t;
  auditEvents : list AuditEvent.t;
  outboxEvents : list OutboxEvent.t;
  backgroundJobs : list BackgroundJob.t;
  signers : list Signer.t;
  signatureFields : list SignatureField.t;
  signingSessions : list SigningSession.t;
  consentRecords : list ConsentRecord.t;
  finalizedArtifacts : list FinalizedArtifact.t;
  objects : list (string * StoredObject.t);
  sent : list SigningInvitation.t;
  completions : list string;
  pdfFailures : list string;
  checkpoints : list AuditCheckpoint.t;
  verifications : list (bool * list string);
  alerts : list AuditVerificationAlert.t;
  jobMetrics : JobMetrics.t;
  clockReads : nat;
  idReads : nat;
  tokenReads : nat
}.

Definition set_documents (v : list Document.t) (s : St) : St :=
  mkSt v s.(revisions) s.(uploadSessions) s.(previewGrants) s.(idempotencyRecords)
    s.(auditEvents) s.(outboxEvents) s.(backgroundJobs) s.(signers) s.(signatureFields)
    s.(signingSessions) s.(consentRecords) s.(finalizedArtifacts) s.(objects) s.(sent)
    s.(completions) s.(pdfFailures) s.(checkpoints) s.(verifications) s.(alerts) s.(jobMetrics)
    s.(clockReads) s.(idReads) s.(tokenReads).
Definition set_revisions (v : list DocumentRevision.t) (s : St) : St :=
  mkSt s.(documents) v s.(uploadSessions) s.(previewGrants) s.(idempotencyRecords)
    s.(auditEvents) s.(outboxEvents) s.(backgroundJobs) s.(signers) s.(signatureFields)
    s.(signingSessions) s.(consentRecords) s.(finalizedArtifacts) s.(objects) s.(sent)
    s.(completions) s.(pdfFailures) s.(checkpoints) s.(verifications) s.(alerts) s.(jobMetrics)
    s.(clockReads) s.(idReads) s.(tokenReads).
Definition set_uploadSessions (v : list UploadSession.t) (s : St) : St :=
  mkSt s.(documents) s.(revisions) v s.(previewGrants) s.(idempotencyRecords) s.(auditEvents)
    s.(outboxEvents) s.(backgroundJobs) s.(signers) s.(signatureFields) s.(signingSessions)
    s.(consentRecords) s.(finalizedArtifacts) s.(objects) s.(sent) s.(completions)
    s.(pdfFailures) s.(checkpoints) s.(verifications) s.(alerts) s.(jobMetrics) s.(clockReads)
    s.(idReads) s.(tokenReads).
Definition set_previewGrants (v : list PreviewGrant.t) (s : St) : St :=
  mkSt s.(documents) s.(revisions) s.(uploadSessions) v s.(idempotencyRecords) s.(auditEvents)
    s.(outboxEvents) s.(backgroundJobs) s.(signers) s.(signatureFields) s.(signingSessions)
    s.(consentRecords) s.(finalizedArtifacts) s.(objects) s.(sent) s.(completions)
    s.(pdfFailures) s.(checkpoints) s.(verifications) s.(alerts) s.(jobMetrics) s.(clockReads)
    s.(idReads) s.(tokenReads).
Definition set_idempotencyRecords (v : list IdempotencyRecord.t) (s : St) : St :=
  mkSt s.(documents) s.(revisions) s.(uploadSessions) s.(previewGrants) v s.(auditEvents)
    s.(outboxEvents) s.(backgroundJobs) s.(signers) s.(signatureFields) s.(signingSessions)
    s.(consentRecords) s.(finalizedArtifacts) s.(objects) s.(sent) s.(completions)
    s.(pdfFailures) s.(checkpoints) s.(verifications) s.(alerts) s.(jobMetrics) s.(clockReads)
    s.(idReads) s.(tokenReads).
Definition set_auditEvents (v : list AuditEvent.t) (s : St) : St :=
  mkSt s.(documents) s.(revisions) s.(uploadSessions) s.(previewGrants) s.(idempotencyRecords)
    v s.(outboxEvents) s.(backgroundJobs) s.(signers) s.(signatureFields) s.(signingSessions)
    s.(consentRecords) s.(finalizedArtifacts) s.(objects) s.(sent) s.(completions)
    s.(pdfFailures) s.(checkpoints) s.(verifications) s.(alerts) s.(jobMetrics) s.(clockReads)
    s.(idReads) s.(tokenReads).
Definition set_outboxEvents (v : list OutboxEvent.t) (s : St) : St :=
  mkSt s.(documents) s.(revisions) s.(uploadSessions) s.(previewGrants) s.(idempotencyRecords)
    s.(auditEvents) v s.(backgroundJobs) s.(signers) s.(signatureFields) s.(signingSessions)
    s.(consentRecords) s.(finalizedArtifacts) s.(objects) s.(sent) s.(completions)
    s.(pdfFailures) s.(checkpoints) s.(verifications) s.(alerts) s.(jobMetrics) s.(clockReads)
    s.(idReads) s.(tokenReads).
Definition set_backgroundJobs (v : list BackgroundJob.t) (s : St) : St :=
  mkSt s.(documents) s.(revisions) s.(uploadSessions) s.(previewGrants) s.(idempotencyRecords)
    s.(auditEvents) s.(outboxEvents) v s.(signers) s.(signatureFields) s.(signingSessions)
    s.(consentRecords) s.(finalizedArtifacts) s.(objects) s.(sent) s.(completions)
    s.(pdfFailures) s.(checkpoints) s.(verifications) s.(alerts) s.(jobMetrics) s.(clockReads)
    s.(idReads) s.(tokenReads).
Definition set_signers (v : list Signer.t) (s : St) : St :=
  mkSt s.(documents) s.(revisions) s.(uploadSessions) s.(previewGrants) s.(idempotencyRecords)
    s.(auditEvents) s.(outboxEvents) s.(backgroundJobs) v s.(signatureFields)
    s.(signingSessions) s.(consentRecords) s.(finalizedArtifacts) s.(objects) s.(sent)
    s.(completions) s.(pdfFailures) s.(checkpoints) s.(verifications) s.(alerts) s.(jobMetrics)
    s.(clockReads) s.(idReads) s.(tokenReads).
Definition set_signatureFields (v : list SignatureField.t) (s : St) : St :=
  mkSt s.(documents) s.(revisions) s.(uploadSessions) s.(previewGrants) s.(idempotencyRecords)
    s.(auditEvents) s.(outboxEvents) s.(backgroundJobs) s.(signers) v s.(signingSessions)
    s.(consentRecords) s.(finalizedArtifacts) s.(objects) s.(sent) s.(completions)
    s.(pdfFailures) s.(checkpoints) s.(verifications) s.(alerts) s.(jobMetrics) s.(clockReads)
    s.(idReads) s.(tokenReads).
Definition set_signingSessions (v : list SigningSession.t) (s : St) : St :=
  mkSt s.(documents) s.(revisions) s.(uploadSessions) s.(previewGrants) s.(idempotencyRecords)
    s.(auditEvents) s.(outboxEvents) s.(backgroundJobs) s.(signers) s.(signatureFields) v
    s.(consentRecords) s.(finalizedArtifacts) s.(objects) s.(sent) s.(completions)
    s.(pdfFailures) s.(checkpoints) s.(verifications) s.(alerts) s.(jobMetrics) s.(clockReads)
    s.(idReads) s.(tokenReads).
Definition set_consentRecords (v : list ConsentRecord.t) (s : St) : St :=
  mkSt s.(documents) s.(revisions) s.(uploadSessions) s.(previewGrants) s.(idempotencyRecords)
    s.(auditEvents) s.(outboxEvents) s.(backgroundJobs) s.(signers) s.(signatureFields)
    s.(signingSessions) v s.(finalizedArtifacts) s.(objects) s.(sent) s.(completions)
    s.(pdfFailures) s.(checkpoints) s.(verifications) s.(alerts) s.(jobMetrics) s.(clockReads)
    s.(idReads) s.(tokenReads).
Definition set_finalizedArtifacts (v : list FinalizedArtifact.t) (s : St) : St :=
  mkSt s.(documents) s.(revisions) s.(uploadSessions) s.(previewGrants) s.(idempotencyRecords)
    s.(auditEvents) s.(outboxEvents) s.(backgroundJobs) s.(signers) s.(signatureFields)
    s.(signingSessions) s.(consentRecords) v s.(objects) s.(sent) s.(completions)
    s.(pdfFailures) s.(checkpoints) s.(verifications) s.(alerts) s.(jobMetrics) s.(clockReads)
    s.(idReads) s.(tokenReads).
Definition set_objects (v : list (string * StoredObject.t)) (s : St) : St :=
  mkSt s.(documents) s.(revisions) s.(uploadSessions) s.(previewGrants) s.(idempotencyRecords)
    s.(auditEvents) s.(outboxEvents) s.(backgroundJobs) s.(signers) s.(signatureFields)
    s.(signingSessions) s.(consentRecords) s.(finalizedArtifacts) v s.(sent) s.(completions)
    s.(pdfFailures) s.(checkpoints) s.(verifications) s.(alerts) s.(jobMetrics) s.(clockReads)
    s.(idReads) s.(tokenReads).
Definition set_sent (v : list SigningInvitation.t) (s : St) : St :=
  mkSt s.(documents) s.(revisions) s.(uploadSessions) s.(previewGrants) s.(idempotencyRecords)
    s.(auditEvents) s.(outboxEvents) s.(backgroundJobs) s.(signers) s.(signatureFields)
    s.(signingSessions) s.(consentRecords) s.(finalizedArtifacts) s.(objects) v s.(completions)
    s.(pdfFailures) s.(checkpoints) s.(verifications) s.(alerts) s.(jobMetrics) s.(clockReads)
    s.(idReads) s.(tokenReads).
Definition set_completions (v : list string) (s : St) : St :=
  mkSt s.(documents) s.(revisions) s.(uploadSessions) s.(previewGrants) s.(idempotencyRecords)
    s.(auditEvents) s.(outboxEvents) s.(backgroundJobs) s.(signers) s.(signatureFields)
    s.(signingSessions) s.(consentRecords) s.(finalizedArtifacts) s.(objects) s.(sent) v
    s.(pdfFailures) s.(checkpoints) s.(verifications) s.(alerts) s.(jobMetrics) s.(clockReads)
    s.(idReads) s.(tokenReads).
Definition set_pdfFailures (v : list string) (s : St) : St :=
  mkSt s.(documents) s.(revisions) s.(uploadSessions) s.(previewGrants) s.(idempotencyRecords)
    s.(auditEvents) s.(outboxEvents) s.(backgroundJobs) s.(signers) s.(signatureFields)
    s.(signingSessions) s.(consentRecords) s.(finalizedArtifacts) s.(objects) s.(sent)
    s.(completions) v s.(checkpoints) s.(verifications) s.(alerts) s.(jobMetrics)
    s.(clockReads) s.(idReads) s.(tokenReads).
Definition set_checkpoints (v : list AuditCheckpoint.t) (s : St) : St :=
  mkSt s.(documents) s.(revisions) s.(uploadSessions) s.(previewGrants) s.(idempotencyRecords)
    s.(auditEvents) s.(outboxEvents) s.(backgroundJobs) s.(signers) s.(signatureFields)
    s.(signingSessions) s.(consentRecords) s.(finalizedArtifacts) s.(objects) s.(sent)
    s.(completions) s.(pdfFailures) v s.(verifications) s.(alerts) s.(jobMetrics)
    s.(clockReads) s.(idReads) s.(tokenReads).
Definition set_verifications (v : list (bool * list string)) (s : St) : St :=
  mkSt s.(documents) s.(revisions) s.(uploadSessions) s.(previewGrants) s.(idempotencyRecords)
    s.(auditEvents) s.(outboxEvents) s.(backgroundJobs) s.(signers) s.(signatureFields)
    s.(signingSessions) s.(consentRecords) s.(finalizedArtifacts) s.(objects) s.(sent)
    s.(completions) s.(pdfFailures) s.(checkpoints) v s.(alerts) s.(jobMetrics) s.(clockReads)
    s.(idReads) s.(tokenReads).
Definition set_alerts (v : list AuditVerificationAlert.t) (s : St) : St :=
  mkSt s.(documents) s.(revisions) s.(uploadSessions) s.(previewGrants) s.(idempotencyRecords)
    s.(auditEvents) s.(outboxEvents) s.(backgroundJobs) s.(signers) s.(signatureFields)
    s.(signingSessions) s.(consentRecords) s.(finalizedArtifacts) s.(objects) s.(sent)
    s.(completions) s.(pdfFailures) s.(checkpoints) s.(verifications) v s.(jobMetrics)
    s.(clockReads) s.(idReads) s.(tokenReads).
Definition set_jobMetrics (v : JobMetrics.t) (s : St) : St :=
  mkSt s.(documents) s.(revisions) s.(uploadSessions) s.(previewGrants) s.(idempotencyRecords)
    s.(auditEvents) s.(outboxEvents) s.(backgroundJobs) s.(signers) s.(signatureFields)
    s.(signingSessions) s.(consentRecords) s.(finalizedArtifacts) s.(objects) s.(sent)
    s.(completions) s.(pdfFailures) s.(checkpoints) s.(verifications) s.(alerts) v
    s.(clockReads) s.(idReads) s.(tokenReads).
Definition set_clockReads (v : nat) (s : St) : St :=
  mkSt s.(documents) s.(revisions) s.(uploadSessions) s.(previewGrants) s.(idempotencyRecords)
    s.(auditEvents) s.(outboxEvents) s.(backgroundJobs) s.(signers) s.(signatureFields)
    s.(signingSessions) s.(consentRecords) s.(finalizedArtifacts) s.(objects) s.(sent)
    s.(completions) s.(pdfFailures) s.(checkpoints) s.(verifications) s.(alerts) s.(jobMetrics)
    v s.(idReads) s.(tokenReads).
Definition set_idReads (v : nat) (s : St) : St :=
  mkSt s.(documents) s.(revisions) s.(uploadSessions) s.(previewGrants) s.(idempotencyRecords)
    s.(auditEvents) s.(outboxEvents) s.(backgroundJobs) s.(signers) s.(signatureFields)
    s.(signingSessions) s.(consentRecords) s.(finalizedArtifacts) s.(objects) s.(sent)
    s.(completions) s.(pdfFailures) s.(checkpoints) s.(verifications) s.(alerts) s.(jobMetrics)
    s.(clockReads) v s.(tokenReads).
Definition set_tokenReads (v : nat) (s : St) : St :=
  mkSt s.(documents) s.(revisions) s.(uploadSessions) s.(previewGrants) s.(idempotencyRecords)
    s.(auditEvents) s.(outboxEvents) s.(backgroundJobs) s.(signers) s.(signatureFields)
    s.(signingSessions) s.(consentRecords) s.(finalizedArtifacts) s.(objects) s.(sent)
    s.(completions) s.(pdfFailures) s.(checkpoints) s.(verifications) s.(alerts) s.(jobMetrics)
    s.(clockReads) s.(idReads) v.

Definition empty_store : St :=
  mkSt [] [] [] [] [] [] [] [] [] [] [] [] [] [] [] [] [] [] [] []
    JobMetrics.zero 0 0 0.

(** [M] of the prelude, at this store and at JavaScript exceptions. *)
Abbreviation Run := (M Exn St).

(** ** Tables *)

(** A tenant-scoped table: its rows in the store and each row's tenant. *)
Class Table (T : Type) : Type := {
  rows : St → list T;
  set_rows : list T → St → St;
  row_org : T → string;
  rows_set_rows l s : rows (set_rows l s) = l;
  set_rows_rows s : set_rows (rows s) s = s
}.

#[export] Program Instance Document_table : Table Document.t :=
  {| rows := documents; set_rows := set_documents; row_org := Document.organizationId |}.
Next Obligation. done. Qed.
Next Obligation. by intros []. Qed.
#[export] Program Instance DocumentRevision_table : Table DocumentRevision.t :=
  {| rows := revisions; set_rows := set_revisions; row_org := DocumentRevision.organizationId |}.
Next Obligation. done. Qed.
Next Obligation. by intros []. Qed.
#[export] Program Instance UploadSession_table : Table UploadSession.t :=
  {| rows := uploadSessions; set_rows := set_uploadSessions; row_org := UploadSession.organizationId |}.
Next Obligation. done. Qed.
Next Obligation. by intros []. Qed.
#[export] Program Instance PreviewGrant_table : Table PreviewGrant.t :=
  {| rows := previewGrants; set_rows := set_previewGrants; row_org := PreviewGrant.organizationId |}.
Next Obligation. done. Qed.
Next Obligation. by intros []. Qed.
#[export] Program Instance IdempotencyRecord_table : Table IdempotencyRecord.t :=
  {| rows := idempotencyRecords; set_rows := set_idempotencyRecords; row_org := IdempotencyRecord.organizationId |}.
Next Obligation. done. Qed.
Next Obligation. by intros []. Qed.
#[export] Program Instance AuditEvent_table : Table AuditEvent.t :=
  {| rows := auditEvents; set_rows := set_auditEvents; row_org := AuditEvent.organizationId |}.
Next Obligation. done. Qed.
Next Obligation. by intros []. Qed.
#[export] Program Instance OutboxEvent_table : Table OutboxEvent.t :=
  {| rows := outboxEvents; set_rows := set_outboxEvents; row_org := OutboxEvent.organizationId |}.
Next Obligation. done. Qed.
Next Obligation. by intros []. Qed.
#[export] Program Instance BackgroundJob_table : Table BackgroundJob.t :=
  {| rows := backgroundJobs; set_rows := set_backgroundJobs; row_org := BackgroundJob.organizationId |}.
Next Obligation. done. Qed.
Next Obligation. by intros []. Qed.
#[export] Program Instance Signer_table : Table Signer.t :=
  {| rows := signers; set_rows := set_signers; row_org := Signer.organizationId |}.
Next Obligation. done. Qed.
Next Obligation. by intros []. Qed.
#[export] Program Instance SignatureField_table : Table SignatureField.t :=
  {| rows := signatureFields; set_rows := set_signatureFields; row_org := SignatureField.organizationId |}.
Next Obligation. done. Qed.
Next Obligation. by intros []. Qed.
#[export] Program Instance SigningSession_table : Table SigningSession.t :=
  {| rows := signingSessions; set_rows := set_signingSessions; row_org := SigningSession.organizationId |}.
Next Obligation. done. Qed.
Next Obligation. by intros []. Qed.
#[export] Program Instance ConsentRecord_table : Table ConsentRecord.t :=
  {| rows := consentRecords; set_rows := set_consentRecords; row_org := ConsentRecord.organizationId |}.
Next Obligation. done. Qed.
Next Obligation. by intros []. Qed.
#[export] Program Instance FinalizedArtifact_table : Table FinalizedArtifact.t :=
  {| rows := finalizedArtifacts; set_rows := set_finalizedArtifacts; row_org := FinalizedArtifact.organizationId |}.
Next Obligation. done. Qed.
Next Obligation. by intros []. Qed.

(** [records.find(p) ?? null], [records.filter(p)], [records.push(x)]. *)
Definition find_one {T} `{!Table T} (p : T → bool) : Run (option T) :=
  gets (λ s, find_row p (rows s)).
Definition find_many {T} `{!Table T} (p : T → bool) : Run (list T) :=
  gets (λ s, List.filter p (rows s)).
Definition push {T} `{!Table T} (x : T) : Run T :=
  modify (λ s, set_rows (rows s ++ [x]) s);; mret x.

(** What the body of an update decides about the row it found. *)
Inductive Change (T : Type) : Type :=
  | Keep (x : T)
  | Write (x : T).
Arguments Keep {T} x.
Arguments Write {T} x.

(** [findIndex], throw when there is none, compute, and write the row back. *)
Definition update_one {T} `{!Table T} (p : T → bool) (missing : Exn)
    (f : T → Result Exn (Change T)) : Run T := λ s,
  match find_index p (rows s) with
  | None => (Throw missing, s)
  | Some (i, current) =>
    match f current with
    | Throw e => (Throw e, s)
    | Ok (Keep x) => (Ok x, s)
    | Ok (Write x) => (Ok x, set_rows (<[i := x]> (rows s)) s)
    end
  end.

(** ** Clock and generators *)

Section generators.
Context `{Env}.

(* [src: packages/domain/src/ports/services.ts:11-13 Clock.nowUtc] *)
Definition nowUtc : Run Z := λ s,
  (Ok (clock s.(clockReads)), set_clockReads (S s.(clockReads)) s).
(* [src: packages/domain/src/ports/services.ts:15-17 IdGenerator.next] *)
Definition next_id : Run string := λ s,
  (Ok (fresh_id s.(idReads)), set_idReads (S s.(idReads)) s).
(* [src: packages/domain/src/ports/services.ts:23-25 SigningTokenGenerator.generateRawToken] *)
Definition generateRawToken : Run string := λ s,
  (Ok (raw_token s.(tokenReads)), set_tokenReads (S s.(tokenReads)) s).
End generators.

(** ** Units of work *)

(** The store after a rolled-back transaction that had led from [s] to [s']:
    the tables are those of [s]; object storage, notifications, metric hooks
    and generators are outside the transaction. *)
Definition rollback (s s' : St) : St :=
  mkSt s.(documents) s.(revisions) s.(uploadSessions) s.(previewGrants) s.(idempotencyRecords)
    s.(auditEvents) s.(outboxEvents) s.(backgroundJobs) s.(signers) s.(signatureFields)
    s.(signingSessions) s.(consentRecords) s.(finalizedArtifacts)
    s'.(objects) s'.(sent) s'.(completions) s'.(pdfFailures)
    s'.(checkpoints) s'.(verifications) s'.(alerts) s'.(jobMetrics)
    s'.(clockReads) s'.(idReads) s'.(tokenReads).

(** [UnitOfWork.run]: what the use cases rely on.  A run that returns did its
    work and nothing else; one that throws keeps the work done so far or rolls
    the tables back. *)
Class UnitOfWork : Type := {
  run : ∀ {A}, Run A → Run A;
  run_ok {A} (m : Run A) s a s' : run m s = (Ok a, s') → m s = (Ok a, s');
  run_store {A} (m : Run A) s :
    (run m s).2 = (m s).2 ∨ (run m s).2 = rollback s (m s).2
}.

(** The in-memory unit of work runs on the scope as it is. *)
(* [src: packages/application/src/documents/memory-adapters.ts:1051-1057 createMemoryUnitOfWork] *)
Definition memory_run {A} (work : Run A) : Run A := work.

#[local] Program Instance memory_unit_of_work : UnitOfWork :=
  {| run := @memory_run |}.
Next Obligation. done. Qed.
Next Obligation. by left. Qed.

(** A transaction that rolls its tables back when the work throws. *)
Definition transactional_run {A} (work : Run A) : Run A := λ s,
  match work s with
  | (Ok a, s') => (Ok a, s')
  | (Throw e, s') => (Throw e, rollback s s')
  end.

#[local] Program Instance transactional_unit_of_work : UnitOfWork :=
  {| run := @transactional_run |}.
Next Obligation. intros A m s a s'. unfold transactional_run. by destruct (m s) as [[b|e] s1]. Qed.
Next Obligation.
  intros A m s. unfold transactional_run. destruct (m s) as [[a|e] s1]; [by left|by right].
Qed.

(** ** Relations kept by every call *)

(** The part of the store that outlives a call: tables and objects. *)
Definition durable (s : St) : St :=
  set_tokenReads 0 (set_idReads 0 (set_clockReads 0
    (set_jobMetrics JobMetrics.zero (set_verifications [] (set_alerts []
      (set_pdfFailures [] (set_completions [] (set_sent [] s)))))))).

(** A relation on the durable part that a rollback keeps. *)
Class StoreRel (R : relation St) : Prop := {
  StoreRel_preorder :: PreOrder R;
  StoreRel_rollback s s' : R s s' → R s (rollback s s');
  StoreRel_quiet s s' : durable s = durable s' → R s s'
}.

Section store_rel.
Context `{Env} `{!UnitOfWork} (R : relation St) `{!StoreRel R}.

Lemma triple_run {A} P (m : Run A) Q : triple R P m Q → triple R P (run m) Q.
Proof.
  intros Hm s HP. destruct (Hm s HP) as [HR HQ]. split.
  - destruct (run_store m s) as [-> | ->]; [done|by apply StoreRel_rollback].
  - intros a Ha. destruct (run m s) as [r s'] eqn:Hrun; simpl in *. subst r.
    apply run_ok in Hrun. rewrite Hrun in HQ. by apply HQ.
Qed.

Lemma respects_run {A} (m : Run A) : respects R m → respects R (run m).
Proof. rewrite !respects_triple. intros Hm. by apply triple_run. Qed.

Lemma respects_nowUtc : respects R nowUtc.
Proof. intros s. by apply StoreRel_quiet. Qed.
Lemma respects_next_id : respects R next_id.
Proof. intros s. by apply StoreRel_quiet. Qed.
Lemma respects_generateRawToken : respects R generateRawToken.
Proof. intros s. by apply StoreRel_quiet. Qed.
Lemma respects_quiet (f : St → St) :
  (∀ s, durable s = durable (f s)) → respects R (modify f : Run unit).
Proof. intros Hf s. by apply StoreRel_quiet. Qed.

Lemma respects_find_one {T} `{!Table T} (p : T → bool) : respects R (find_one p).
Proof. apply respects_gets. apply _. Qed.
Lemma respects_find_many {T} `{!Table T} (p : T → bool) : respects R (find_many p).
Proof. apply respects_gets. apply _. Qed.
End store_rel.

#[export] Hint Resolve respects_nowUtc respects_next_id respects_generateRawToken
  respects_find_one respects_find_many : esign.

Lemma respects_push {T} `{!Table T} (R : relation St) `{!PreOrder R} (x : T) :
  (∀ s, R s (set_rows (rows s ++ [x]) s)) → respects R (push x).
Proof. intros Hx. unfold push. apply respects_bind; [done|by apply respects_modify|]. intros _. by apply respects_ret. Qed.

Lemma respects_update_one {T} `{!Table T} (R : relation St) `{!PreOrder R}
    (p : T → bool) missing f :
  (∀ s i current x, rows s !! i = Some current → p current = true →
     f current = Ok (Write x) → R s (set_rows (<[i := x]> (rows s)) s)) →
  respects R (update_one p missing f).
Proof.
  intros Hf s. unfold update_one. destruct (find_index p (rows s)) as [[i current]|] eqn:Hi;
    [|by simpl]. apply find_index_Some in Hi as (Hl & Hp & _).
  destruct (f current) as [[x|x]|e] eqn:Hc; simpl; try done. by eapply Hf.
Qed.

Lemma find_one_run {T} `{!Table T} (p : T → bool) s :
  (find_one p : Run (option T)) s = (Ok (find_row p (rows s)), s).
Proof. done. Qed.

Lemma push_run {T} `{!Table T} (x : T) s :
  (push x : Run T) s = (Ok x, set_rows (rows s ++ [x]) s).
Proof. done. Qed.

Lemma update_one_ok {T} `{!Table T} (p : T → bool) missing f s x s' :
  update_one p missing f s = (Ok x, s') ↔
  ∃ i current, find_index p (rows s) = Some (i, current) ∧
    ((f current = Ok (Keep x) ∧ s' = s) ∨
     (f current = Ok (Write x) ∧ s' = set_rows (<[i := x]> (rows s)) s)).
Proof.
  unfold update_one. destruct (find_index p (rows s)) as [[i current]|].
  - split.
    + intros Hrun. exists i, current. split; [done|].
      destruct (f current) as [[y|y]|e]; simplify_eq; naive_solver.
    + intros (j & c & [= <- <-] & [[-> ->]|[-> ->]]); done.
  - split; [done|]. by intros (? & ? & ? & _).
Qed.

(** The row an update found, and the row the key finds afterwards. *)
Lemma update_one_found {T} `{!Table T} (p : T → bool) missing f s x s' :
  update_one p missing f s = (Ok x, s') → p x = true →
  ∃ y, find_row p (rows s) = Some y ∧
    ((f y = Ok (Keep x) ∧ s' = s) ∨ (f y = Ok (Write x) ∧ find_row p (rows s') = Some x)).
Proof.
  intros Hrun Hp. apply update_one_ok in Hrun as (n & y & Hn & Hc). exists y.
  split; [unfold find_row; by rewrite Hn|]. destruct Hc as [|[Hf ->]]; [by left|right].
  split; [done|]. rewrite rows_set_rows. unfold find_row.
  pose proof Hn as (Hl & Hk & _)%find_index_Some.
  rewrite (find_index_write _ _ _ _ _ Hl) by congruence. rewrite Hn. simpl. by rewrite decide_True.
Qed.
