(* ===== verification/Repositories.v ===== *)
(** The in-memory repositories of
    [packages/application/src/documents/memory-adapters.ts]: one module per
    repository, one definition per method.  The tenant and row keys of every
    look-up are those of the source. *)

From Stdlib Require Import String.
From S2P Require Export Store Keys.
Local Open Scope string_scope.

Definition notFound (resource : string) : Exn := NotFoundError (resourceOnly resource).
Definition conflictFor (reason : string) : Exn := ConflictError (reasonOnly reason).

Definition write {T} (x : T) : Result Exn (Change T) := Ok (Write x).
Definition keep {T} (x : T) : Result Exn (Change T) := Ok (Keep x).

Module Documents.

Definition key (organizationId documentId : string) (row : Document.t) : bool :=
  String.eqb (Document.organizationId row) organizationId &&
  String.eqb (Document.id row) documentId.

(* [src: packages/application/src/documents/memory-adapters.ts:54-60 findById] *)
Definition findById (organizationId documentId : string) : Run (option Document.t) :=
  find_one (key organizationId documentId).

(* [src: packages/application/src/documents/memory-adapters.ts:61-63 listByOrganization] *)
Definition listByOrganization (organizationId : string) : Run (list Document.t) :=
  find_many (λ row : Document.t, String.eqb (Document.organizationId row) organizationId).

(* [src: packages/application/src/documents/memory-adapters.ts:64-67 create] *)
Definition create (document : Document.t) : Run Document.t := push document.

Definition bump (current updated : Document.t) : Document.t :=
  Document.set_version (Document.version current + 1) updated.

(** The update of a row at the version the caller has read. *)
Definition at_version (expectedVersion : Z) (update : Document.t → Result Exn Document.t)
    (current : Document.t) : Result Exn (Change Document.t) :=
  if negb (Document.version current =? expectedVersion)%Z then
    Throw (conflictFor "document_version")
  else
    updated ← update current;
    write (bump current updated).

(* [src: packages/application/src/documents/memory-adapters.ts:268-289 bumpDocument] *)
Definition bumpDocument (organizationId documentId : string) (expectedVersion : Z)
    (update : Document.t → Result Exn Document.t) : Run Document.t :=
  update_one (key organizationId documentId) (notFound "document")
    (at_version expectedVersion update).

(* [src: packages/application/src/documents/memory-adapters.ts:68-88 attachSourceRevision] *)
Definition attachSourceRevision (organizationId documentId : string) (expectedVersion : Z)
    (revisionId sourceDisplayName : string) : Run Document.t :=
  bumpDocument organizationId documentId expectedVersion (λ current,
    Ok (Document.set_currentRevisionId (Some revisionId)
          (Document.set_sourceDisplayName (Some sourceDisplayName) current))).

(* [src: packages/application/src/documents/memory-adapters.ts:89-107 setInspectionStatus] *)
Definition setInspectionStatus (organizationId documentId : string) (expectedVersion : Z)
    (inspectionStatus : DocumentInspectionStatus.t) : Run Document.t :=
  bumpDocument organizationId documentId expectedVersion (λ current,
    Ok (Document.set_inspectionStatus inspectionStatus current)).

(* [src: packages/application/src/documents/memory-adapters.ts:108-113 setSigningMode] *)
Definition setSigningMode (organizationId documentId : string) (expectedVersion : Z)
    (signingMode : SigningMode.t) : Run Document.t :=
  bumpDocument organizationId documentId expectedVersion (λ current,
    Ok (Document.set_signingMode signingMode current)).

(* [src: packages/application/src/documents/memory-adapters.ts:114-119 setPreparationState] *)
Definition setPreparationState (organizationId documentId : string) (expectedVersion : Z)
    (state : DocumentState.t) : Run Document.t :=
  bumpDocument organizationId documentId expectedVersion (λ current,
    Ok (Document.set_state state current)).

(* [src: packages/application/src/documents/memory-adapters.ts:120-127 markSent] *)
Definition markSent (organizationId documentId : string) (expectedVersion : Z)
    (signingRevisionId : string) (expiresAt : option Z) : Run Document.t :=
  bumpDocument organizationId documentId expectedVersion (λ current,
    Ok (Document.set_state DocumentState.sent
          (Document.set_signingRevisionId (Some signingRevisionId)
             (Document.set_expiresAt expiresAt current)))).

(** [state !== a && state !== b ...]. *)
Definition state_in (states : list DocumentState.t) (d : Document.t) : bool :=
  bool_decide (Document.state d ∈ states).

(* [src: packages/application/src/documents/memory-adapters.ts:128-135 markDeclined] *)
Definition markDeclined (organizationId documentId : string) (expectedVersion : Z) :
    Run Document.t :=
  bumpDocument organizationId documentId expectedVersion (λ current,
    if negb (state_in [DocumentState.sent; DocumentState.in_progress] current) then
      Throw (conflictFor "document_not_declinable")
    else Ok (Document.set_state DocumentState.declined current)).

(* [src: packages/application/src/documents/memory-adapters.ts:136-148 markVoided] *)
Definition markVoided (organizationId documentId : string) (expectedVersion : Z) :
    Run Document.t :=
  bumpDocument organizationId documentId expectedVersion (λ current,
    if negb (state_in [DocumentState.draft; DocumentState.prepared; DocumentState.sent;
                       DocumentState.in_progress] current) then
      Throw (conflictFor "document_not_voidable")
    else Ok (Document.set_state DocumentState.voided current)).

(* [src: packages/application/src/documents/memory-adapters.ts:149-156 markInProgress] *)
Definition markInProgress (organizationId documentId : string) (expectedVersion : Z) :
    Run Document.t :=
  bumpDocument organizationId documentId expectedVersion (λ current,
    if negb (state_in [DocumentState.sent; DocumentState.in_progress] current) then
      Throw (conflictFor "document_not_in_progress")
    else Ok (Document.set_state DocumentState.in_progress current)).

(* [src: packages/application/src/documents/memory-adapters.ts:157-164 markCompleted] *)
Definition markCompleted (organizationId documentId : string) (expectedVersion : Z) :
    Run Document.t :=
  bumpDocument organizationId documentId expectedVersion (λ current,
    if negb (state_in [DocumentState.sent; DocumentState.in_progress] current) then
      Throw (conflictFor "document_not_completable")
    else Ok (Document.set_state DocumentState.completed current)).

Definition lease_conflict : Exn :=
  ConflictError [("reason", VStr "document_lease"); ("code", VStr "CONCURRENT_FINALIZATION")].

(** A lease that another owner holds at [now]. *)
Definition leased_by_other (owner : string) (now : Z) (d : Document.t) : bool :=
  match Document.leaseUntil d with
  | Some until => (now <=? until)%Z && negb (bool_decide (Document.leaseOwner d = Some owner))
  | None => false
  end.

Definition flattenable : list DocumentState.t :=
  [DocumentState.sent; DocumentState.in_progress; DocumentState.completed;
   DocumentState.finalization_failed; DocumentState.finalizing].

Definition next_lease_state (s : DocumentState.t) : DocumentState.t :=
  match s with
  | DocumentState.completed | DocumentState.finalization_failed => DocumentState.finalizing
  | DocumentState.sent => DocumentState.in_progress
  | s => s
  end.

(* [src: packages/application/src/documents/memory-adapters.ts:165-200 claimProcessingLease] *)
Definition claimProcessingLease (organizationId documentId : string) (expectedVersion : Z)
    (owner : string) (leaseUntil now : Z) : Run Document.t :=
  bumpDocument organizationId documentId expectedVersion (λ current,
    if leased_by_other owner now current then Throw lease_conflict
    else if negb (state_in flattenable current) then
      Throw (conflictFor "document_not_flattenable")
    else
      let nextState := next_lease_state (Document.state current) in
      Ok (Document.set_state nextState
            (Document.set_leaseOwner (Some owner)
               (Document.set_leaseUntil (Some leaseUntil)
                  (Document.set_finalizationAttemptCount
                     (if bool_decide (nextState = DocumentState.finalizing)
                      then Document.finalizationAttemptCount current + 1
                      else Document.finalizationAttemptCount current)%Z current))))).

Definition without_lease (d : Document.t) : Document.t :=
  Document.set_leaseOwner None (Document.set_leaseUntil None d).

(* [src: packages/application/src/documents/memory-adapters.ts:201-225 commitFlattenedRevision] *)
Definition commitFlattenedRevision (organizationId documentId : string) (expectedVersion : Z)
    (owner revisionId : string) (finalize : bool) : Run Document.t :=
  bumpDocument organizationId documentId expectedVersion (λ current,
    if negb (bool_decide (Document.leaseOwner current = Some owner)) then Throw lease_conflict
    else if finalize then
      if negb (state_in [DocumentState.finalizing; DocumentState.completed] current) then
        Throw (conflictFor "document_not_finalizable")
      else Ok (Document.set_state DocumentState.finalized
                 (Document.set_currentRevisionId (Some revisionId) (without_lease current)))
    else Ok (Document.set_currentRevisionId (Some revisionId) (without_lease current))).

(* [src: packages/application/src/documents/memory-adapters.ts:226-246 markFinalizationFailed] *)
Definition markFinalizationFailed (organizationId documentId owner : string) :
    Run Document.t :=
  update_one (key organizationId documentId) (notFound "document") (λ current,
    if negb (bool_decide (Document.leaseOwner current = Some owner)) &&
       negb (bool_decide (Document.state current = DocumentState.finalizing))
    then keep current
    else write (bump current
      (Document.set_state
         (if bool_decide (Document.state current = DocumentState.finalizing)
          then DocumentState.finalization_failed else Document.state current)
         (without_lease current)))).

(* [src: packages/application/src/documents/memory-adapters.ts:247-264 releaseProcessingLease] *)
Definition releaseProcessingLease (organizationId documentId owner : string) : Run unit := λ s,
  match find_index (key organizationId documentId) (rows s) with
  | None => (Ok tt, s)
  | Some (index, current) =>
    if negb (bool_decide (Document.leaseOwner current = Some owner)) then (Ok tt, s)
    else (Ok tt, set_rows (<[index := bump current (without_lease current)]> (rows s)) s)
  end.

End Documents.

Module Revisions.

(* [src: packages/application/src/documents/memory-adapters.ts:301-307 findById] *)
Definition findById (organizationId revisionId : string) : Run (option DocumentRevision.t) :=
  find_one (λ row : DocumentRevision.t,
    String.eqb (DocumentRevision.organizationId row) organizationId &&
    String.eqb (DocumentRevision.id row) revisionId).

(* [src: packages/application/src/documents/memory-adapters.ts:308-312 listByDocument] *)
Definition listByDocument (organizationId documentId : string) : Run (list DocumentRevision.t) :=
  find_many (λ row : DocumentRevision.t,
    String.eqb (DocumentRevision.organizationId row) organizationId &&
    String.eqb (DocumentRevision.documentId row) documentId).

(* [src: packages/application/src/documents/memory-adapters.ts:313-316 create] *)
Definition create (revision : DocumentRevision.t) : Run DocumentRevision.t := push revision.

(* [src: packages/application/src/documents/memory-adapters.ts:317-323 findFirstByObjectKey] *)
Definition findFirstByObjectKey (organizationId objectKey : string) :
    Run (option DocumentRevision.t) :=
  find_one (λ row : DocumentRevision.t,
    String.eqb (DocumentRevision.organizationId row) organizationId &&
    String.eqb (DocumentRevision.objectKey row) objectKey).

End Revisions.

Module UploadSessions.

Definition key (organizationId uploadSessionId : string) (row : UploadSession.t) : bool :=
  String.eqb (UploadSession.organizationId row) organizationId &&
  String.eqb (UploadSession.id row) uploadSessionId.

(* [src: packages/application/src/documents/memory-adapters.ts:338-341 create] *)
Definition create (session : UploadSession.t) : Run UploadSession.t := push session.

(* [src: packages/application/src/documents/memory-adapters.ts:342-348 findById] *)
Definition findById (organizationId uploadSessionId : string) : Run (option UploadSession.t) :=
  find_one (key organizationId uploadSessionId).

(* [src: packages/application/src/documents/memory-adapters.ts:349-366 complete] *)
Definition complete (organizationId uploadSessionId revisionId : string) (completedAt : Z) :
    Run UploadSession.t :=
  update_one (key organizationId uploadSessionId) (notFound "upload_session") (λ current,
    write (UploadSession.set_status UploadSessionStatus.completed
             (UploadSession.set_completedAt (Some completedAt)
                (UploadSession.set_revisionId (Some revisionId)
                   (UploadSession.set_updatedAt completedAt current))))).

(* [src: packages/application/src/documents/memory-adapters.ts:367-382 markAbandoned] *)
Definition markAbandoned (organizationId uploadSessionId : string) (abandonedAt : Z) :
    Run UploadSession.t :=
  update_one (key organizationId uploadSessionId) (notFound "upload_session") (λ current,
    write (UploadSession.set_status UploadSessionStatus.abandoned
             (UploadSession.set_updatedAt abandonedAt current))).

(* [src: packages/application/src/documents/memory-adapters.ts:383-385 findByTokenHash] *)
Definition findByTokenHash (tokenHash : string) : Run (option UploadSession.t) :=
  find_one (λ row : UploadSession.t, String.eqb (UploadSession.tokenHash row) tokenHash).

(* [src: packages/application/src/documents/memory-adapters.ts:386-390 listExpiredIssued] *)
Definition listExpiredIssued (now : Z) (limit : nat) : Run (list UploadSession.t) :=
  found ← find_many (λ row : UploadSession.t,
    bool_decide (UploadSession.status row = UploadSessionStatus.issued) &&
    (UploadSession.expiresAt row <=? now)%Z);
  mret (take limit found).

End UploadSessions.

Module PreviewGrants.

(* [src: packages/application/src/documents/memory-adapters.ts:405-408 create] *)
Definition create (grant : PreviewGrant.t) : Run PreviewGrant.t := push grant.

(* [src: packages/application/src/documents/memory-adapters.ts:409-415 findById] *)
Definition findById (organizationId grantId : string) : Run (option PreviewGrant.t) :=
  find_one (λ row : PreviewGrant.t,
    String.eqb (PreviewGrant.organizationId row) organizationId &&
    String.eqb (PreviewGrant.id row) grantId).

(* [src: packages/application/src/documents/memory-adapters.ts:416-418 findByTokenHash] *)
Definition findByTokenHash (tokenHash : string) : Run (option PreviewGrant.t) :=
  find_one (λ row : PreviewGrant.t, String.eqb (PreviewGrant.tokenHash row) tokenHash).

End PreviewGrants.

Module IdempotencyRecords.

Definition key (organizationId principalId route k : string) (row : IdempotencyRecord.t) : bool :=
  String.eqb (IdempotencyRecord.organizationId row) organizationId &&
  String.eqb (IdempotencyRecord.principalId row) principalId &&
  String.eqb (IdempotencyRecord.route row) route &&
  String.eqb (IdempotencyRecord.key row) k.

(* [src: packages/application/src/documents/memory-adapters.ts:430-440 find] *)
Definition find (organizationId principalId route k : string) :
    Run (option IdempotencyRecord.t) :=
  find_one (key organizationId principalId route k).

(* [src: packages/application/src/documents/memory-adapters.ts:441-454 create] *)
Definition create (organizationId : string) (record : IdempotencyRecord.t) :
    Run IdempotencyRecord.t :=
  duplicate ← find_one (key organizationId (IdempotencyRecord.principalId record)
                          (IdempotencyRecord.route record) (IdempotencyRecord.key record));
  match duplicate with
  | Some _ => throw (conflictFor "idempotency_key")
  | None => push record
  end.

(* [src: packages/application/src/documents/memory-adapters.ts:455-471 complete] *)
Definition complete (organizationId recordId : string) (responseStatus : Z)
    (responseBody : object) : Run IdempotencyRecord.t :=
  update_one (λ row : IdempotencyRecord.t,
      String.eqb (IdempotencyRecord.organizationId row) organizationId &&
      String.eqb (IdempotencyRecord.id row) recordId)
    (notFound "idempotency_record") (λ current,
      write (IdempotencyRecord.set_responseStatus (Some responseStatus)
               (IdempotencyRecord.set_responseBody (Some responseBody) current))).

End IdempotencyRecords.
