(* ===== verification/SigningRepositories.v ===== *)
(** The in-memory repositories of signers, fields, sessions, consents,
    artifacts and jobs, continuing [Repositories]. *)

From Stdlib Require Import String.
From S2P Require Export Repositories.
Local Open Scope string_scope.

Module Signers.

Definition key (organizationId signerId : string) (row : Signer.t) : bool :=
  String.eqb (Signer.organizationId row) organizationId &&
  String.eqb (Signer.id row) signerId.

Definition of_document (organizationId documentId : string) (row : Signer.t) : bool :=
  String.eqb (Signer.organizationId row) organizationId &&
  String.eqb (Signer.documentId row) documentId.

(* [src: packages/application/src/documents/memory-adapters.ts:638-644 findById] *)
Definition findById (organizationId signerId : string) : Run (option Signer.t) :=
  find_one (key organizationId signerId).

Definition by_routing (left right : Signer.t) : bool :=
  num_leb (Signer.routingOrder left) (Signer.routingOrder right).

(* [src: packages/application/src/documents/memory-adapters.ts:645-652 listByDocument] *)
Definition listByDocument (organizationId documentId : string) : Run (list Signer.t) :=
  rows ← find_many (of_document organizationId documentId);
  mret (sort_by by_routing rows).

(** The row of [signer] is replaced, or appended when there is none. *)
Definition upsert (organizationId : string) (signer : Signer.t) (records : list Signer.t) :
    list Signer.t :=
  match find_index (key organizationId (Signer.id signer)) records with
  | None => records ++ [signer]
  | Some (index, _) => <[index := signer]> records
  end.

(* [src: packages/application/src/documents/memory-adapters.ts:653-680 replaceAll] *)
Definition replaceAll (organizationId documentId : string) (signers : list Signer.t) :
    Run (list Signer.t) :=
  let nextIds := Signer.id <$> signers in
  modify (λ s, set_signers
    (List.filter (λ row, negb (of_document organizationId documentId row &&
                               negb (bool_decide (Signer.id row ∈ nextIds)))) s.(Store.signers)) s);;
  modify (λ s, set_signers
    (foldl (λ records signer, upsert organizationId signer records) s.(Store.signers) signers) s);;
  mret signers.

(* [src: packages/application/src/documents/memory-adapters.ts:681-700 markDeclined] *)
Definition markDeclined (organizationId signerId : string) (expectedVersion declinedAt : Z) :
    Run Signer.t :=
  update_one (key organizationId signerId) (notFound "signer") (λ current,
    if negb (Signer.version current =? expectedVersion)%Z ||
       negb (bool_decide (Signer.status current = SignerStatus.pending))
    then Throw (conflictFor "signer_version")
    else write (Signer.set_status SignerStatus.declined
                  (Signer.set_declinedAt (Some declinedAt)
                     (Signer.set_version (Signer.version current + 1) current)))).

(* [src: packages/application/src/documents/memory-adapters.ts:701-723 markSigned] *)
Definition markSigned (organizationId signerId : string) (expectedVersion completedAt : Z) :
    Run Signer.t :=
  update_one (key organizationId signerId) (notFound "signer") (λ current,
    if bool_decide (Signer.status current = SignerStatus.signed) then keep current
    else if negb (Signer.version current =? expectedVersion)%Z ||
            negb (bool_decide (Signer.status current = SignerStatus.pending))
    then Throw (conflictFor "signer_version")
    else write (Signer.set_status SignerStatus.signed
                  (Signer.set_completedAt (Some completedAt)
                     (Signer.set_version (Signer.version current + 1) current)))).

End Signers.

Module SignatureFields.

Definition key (organizationId fieldId : string) (row : SignatureField.t) : bool :=
  String.eqb (SignatureField.organizationId row) organizationId &&
  String.eqb (SignatureField.id row) fieldId.

Definition of_document (organizationId documentId : string) (row : SignatureField.t) : bool :=
  String.eqb (SignatureField.organizationId row) organizationId &&
  String.eqb (SignatureField.documentId row) documentId.

(* [src: packages/application/src/documents/memory-adapters.ts:735-741 findById] *)
Definition findById (organizationId fieldId : string) : Run (option SignatureField.t) :=
  find_one (key organizationId fieldId).

(* [src: packages/application/src/documents/memory-adapters.ts:742-746 listByDocument] *)
Definition listByDocument (organizationId documentId : string) : Run (list SignatureField.t) :=
  find_many (of_document organizationId documentId).

(* [src: packages/application/src/documents/memory-adapters.ts:747-760 replaceAll] *)
Definition replaceAll (organizationId documentId : string) (fields : list SignatureField.t) :
    Run (list SignatureField.t) :=
  modify (λ s, set_signatureFields
    (List.filter (λ row, negb (of_document organizationId documentId row)) s.(signatureFields)
     ++ fields) s);;
  mret fields.

(* [src: packages/application/src/documents/memory-adapters.ts:761-779 complete] *)
Definition complete (organizationId fieldId : string) (completedAt : Z)
    (completionObjectKey completionContentType : option string)
    (completionSizeBytes : option Z) (completionSha256Digest : option string) :
    Run SignatureField.t :=
  update_one (key organizationId fieldId) (notFound "signature_field") (λ current,
    write (SignatureField.set_completedAt (Some completedAt)
             (SignatureField.set_completionObjectKey completionObjectKey
                (SignatureField.set_completionContentType completionContentType
                   (SignatureField.set_completionSizeBytes completionSizeBytes
                      (SignatureField.set_completionSha256Digest completionSha256Digest
                         current)))))).

(* [src: packages/application/src/documents/memory-adapters.ts:780-794 markFlattened] *)
Definition markFlattened (organizationId fieldId flattenedRevisionId : string) :
    Run SignatureField.t :=
  update_one (key organizationId fieldId) (notFound "signature_field") (λ current,
    write (SignatureField.set_flattenedRevisionId (Some flattenedRevisionId) current)).

(* [src: packages/application/src/documents/memory-adapters.ts:795-803 findFirstByCompletionObjectKey] *)
Definition findFirstByCompletionObjectKey (organizationId objectKey : string) :
    Run (option SignatureField.t) :=
  find_one (λ row : SignatureField.t,
    String.eqb (SignatureField.organizationId row) organizationId &&
    bool_decide (SignatureField.completionObjectKey row = Some objectKey)).

End SignatureFields.

Module SigningSessions.

Definition key (organizationId sessionId : string) (row : SigningSession.t) : bool :=
  String.eqb (SigningSession.organizationId row) organizationId &&
  String.eqb (SigningSession.id row) sessionId.

(** [row.status === 'issued' || row.status === 'active']. *)
Definition is_open (row : SigningSession.t) : bool :=
  bool_decide (SigningSession.status row = SigningSessionStatus.issued) ||
  bool_decide (SigningSession.status row = SigningSessionStatus.active).

Definition open_of_signer (organizationId signerId : string) (row : SigningSession.t) : bool :=
  String.eqb (SigningSession.organizationId row) organizationId &&
  String.eqb (SigningSession.signerId row) signerId && is_open row.

(* [src: packages/application/src/documents/memory-adapters.ts:818-824 findById] *)
Definition findById (organizationId sessionId : string) : Run (option SigningSession.t) :=
  find_one (key organizationId sessionId).

(* [src: packages/application/src/documents/memory-adapters.ts:825-829 listBySigner] *)
Definition listBySigner (organizationId signerId : string) : Run (list SigningSession.t) :=
  find_many (λ row : SigningSession.t,
    String.eqb (SigningSession.organizationId row) organizationId &&
    String.eqb (SigningSession.signerId row) signerId).

(* [src: packages/application/src/documents/memory-adapters.ts:830-834 listByDocument] *)
Definition listByDocument (organizationId documentId : string) : Run (list SigningSession.t) :=
  find_many (λ row : SigningSession.t,
    String.eqb (SigningSession.organizationId row) organizationId &&
    String.eqb (SigningSession.documentId row) documentId).

(* [src: packages/application/src/documents/memory-adapters.ts:835-842 listOpenBySigner] *)
Definition listOpenBySigner (organizationId signerId : string) : Run (list SigningSession.t) :=
  find_many (open_of_signer organizationId signerId).

(* [src: packages/application/src/documents/memory-adapters.ts:843-855 create] *)
Definition create (organizationId : string) (session : SigningSession.t) :
    Run SigningSession.t :=
  open ← find_one (open_of_signer organizationId (SigningSession.signerId session));
  match open with
  | Some _ => throw (conflictFor "duplicate_open_session")
  | None => push session
  end.

(* [src: packages/application/src/documents/memory-adapters.ts:856-874 revoke] *)
Definition revoke (organizationId sessionId : string) (revokedAt : Z) : Run SigningSession.t :=
  update_one (key organizationId sessionId) (notFound "signing_session") (λ current,
    if negb (is_open current) then Throw (conflictFor "session_not_open")
    else write (SigningSession.set_status SigningSessionStatus.revoked
                  (SigningSession.set_revokedAt (Some revokedAt) current))).

(* [src: packages/application/src/documents/memory-adapters.ts:875-898 markPresented] *)
Definition markPresented (organizationId sessionId : string) (presentedAt : Z) :
    Run SigningSession.t :=
  update_one (key organizationId sessionId) (notFound "signing_session") (λ current,
    if bool_decide (SigningSession.status current = SigningSessionStatus.active) then
      write (SigningSession.set_lastPresentedAt (Some presentedAt) current)
    else if negb (bool_decide (SigningSession.status current = SigningSessionStatus.issued)) then
      Throw (ConflictError
        [("reason", VStr "session_not_presentable");
         ("status", VStr (SigningSessionStatus.to_string (SigningSession.status current)))])
    else write (SigningSession.set_status SigningSessionStatus.active
                  (SigningSession.set_lastPresentedAt (Some presentedAt) current))).

(* [src: packages/application/src/documents/memory-adapters.ts:899-913 markExpired] *)
Definition markExpired (organizationId sessionId : string) (expiredAt : Z) :
    Run SigningSession.t :=
  update_one (key organizationId sessionId) (notFound "signing_session") (λ current,
    if negb (is_open current) then Throw (conflictFor "session_not_open")
    else write (SigningSession.set_status SigningSessionStatus.expired current)).

(* [src: packages/application/src/documents/memory-adapters.ts:914-940 consumeAndRotate] *)
Definition consumeAndRotate (organizationId sessionId : string) (expectedVersion : Z)
    (tokenHash csrfTokenHash : string) (consumedAt : Z) : Run SigningSession.t :=
  update_one (key organizationId sessionId) (notFound "signing_session") (λ current,
    if negb (SigningSession.version current =? expectedVersion)%Z ||
       negb (bool_decide (SigningSession.consumedAt current = None)) || negb (is_open current)
    then Throw (conflictFor "session_not_exchangeable")
    else write (SigningSession.set_tokenHash tokenHash
                  (SigningSession.set_csrfTokenHash (Some csrfTokenHash)
                     (SigningSession.set_consumedAt (Some consumedAt)
                        (SigningSession.set_status SigningSessionStatus.active
                           (SigningSession.set_lastPresentedAt (Some consumedAt)
                              (SigningSession.set_version (SigningSession.version current + 1)
                                 current))))))).

(* [src: packages/application/src/documents/memory-adapters.ts:941-962 markCompleted] *)
Definition markCompleted (organizationId sessionId : string) (completedAt : Z) :
    Run SigningSession.t :=
  update_one (key organizationId sessionId) (notFound "signing_session") (λ current,
    if bool_decide (SigningSession.status current = SigningSessionStatus.completed) then
      keep current
    else if negb (is_open current) then Throw (conflictFor "session_not_completable")
    else write (SigningSession.set_status SigningSessionStatus.completed
                  (SigningSession.set_completedAt (Some completedAt) current))).

(* [src: packages/application/src/documents/memory-adapters.ts:963-965 findByTokenHash] *)
Definition findByTokenHash (tokenHash : string) : Run (option SigningSession.t) :=
  find_one (λ row : SigningSession.t, String.eqb (SigningSession.tokenHash row) tokenHash).

End SigningSessions.

Module ConsentRecords.

(* [src: packages/application/src/documents/memory-adapters.ts:975-981 findById] *)
Definition findById (organizationId consentId : string) : Run (option ConsentRecord.t) :=
  find_one (λ row : ConsentRecord.t,
    String.eqb (ConsentRecord.organizationId row) organizationId &&
    String.eqb (ConsentRecord.id row) consentId).

Definition of_session (organizationId sessionId : string) (row : ConsentRecord.t) : bool :=
  String.eqb (ConsentRecord.organizationId row) organizationId &&
  String.eqb (ConsentRecord.sessionId row) sessionId.

(* [src: packages/application/src/documents/memory-adapters.ts:982-988 findBySession] *)
Definition findBySession (organizationId sessionId : string) : Run (option ConsentRecord.t) :=
  find_one (of_session organizationId sessionId).

(* [src: packages/application/src/documents/memory-adapters.ts:989-993 listByDocument] *)
Definition listByDocument (organizationId documentId : string) : Run (list ConsentRecord.t) :=
  find_many (λ row : ConsentRecord.t,
    String.eqb (ConsentRecord.organizationId row) organizationId &&
    String.eqb (ConsentRecord.documentId row) documentId).

(* [src: packages/application/src/documents/memory-adapters.ts:994-1006 create] *)
Definition create (organizationId : string) (consent : ConsentRecord.t) : Run ConsentRecord.t :=
  existing ← find_one (of_session organizationId (ConsentRecord.sessionId consent));
  match existing with
  | Some _ => throw (conflictFor "consent_exists")
  | None => push consent
  end.

End ConsentRecords.

Module FinalizedArtifacts.

Definition of_document (organizationId documentId : string) (row : FinalizedArtifact.t) : bool :=
  String.eqb (FinalizedArtifact.organizationId row) organizationId &&
  String.eqb (FinalizedArtifact.documentId row) documentId.

(* [src: packages/application/src/documents/memory-adapters.ts:1020-1027 findByDocument] *)
Definition findByDocument (organizationId documentId : string) :
    Run (option FinalizedArtifact.t) :=
  find_one (of_document organizationId documentId).

(* [src: packages/application/src/documents/memory-adapters.ts:1028-1040 create] *)
Definition create (organizationId : string) (artifact : FinalizedArtifact.t) :
    Run FinalizedArtifact.t :=
  existing ← find_one (of_document organizationId (FinalizedArtifact.documentId artifact));
  match existing with
  | Some _ => throw (conflictFor "artifact_exists")
  | None => push artifact
  end.

(* [src: packages/application/src/documents/memory-adapters.ts:1041-1047 findFirstByObjectKey] *)
Definition findFirstByObjectKey (organizationId objectKey : string) :
    Run (option FinalizedArtifact.t) :=
  find_one (λ row : FinalizedArtifact.t,
    String.eqb (FinalizedArtifact.organizationId row) organizationId &&
    String.eqb (FinalizedArtifact.objectKey row) objectKey).

End FinalizedArtifacts.

Module Jobs.

Module PublishInput.
(* [src: packages/domain/src/ports/services.ts:110-120 JobPublishInput] *)
Record t : Type := mk {
  id : string;
  organizationId : string;
  documentId : option string;
  type : string;
  payload : object;
  requestId : option string;
  availableAt : option Z;
  jobId : option string;
  maxAttempts : option Z
}.
End PublishInput.

Definition new_event (input : PublishInput.t) (at_ : Z) : OutboxEvent.t :=
  let '(PublishInput.mk id organizationId documentId type payload requestId _ _ _) := input in
  OutboxEvent.mk id organizationId documentId type OutboxStatus.pending payload requestId 0
    None None at_ None None at_ at_.

Definition new_job (input : PublishInput.t) (at_ : Z) : BackgroundJob.t :=
  let '(PublishInput.mk id organizationId documentId type _ requestId _ jobId maxAttempts) :=
    input in
  BackgroundJob.mk (default id jobId) organizationId documentId (Some id) type
    BackgroundJobStatus.pending 0 (default DEFAULT_JOB_MAX_ATTEMPTS maxAttempts)
    None None at_ None requestId 1 at_ at_.

(* [src: packages/application/src/documents/memory-adapters.ts:581-630 createMemoryJobPublisher] *)
Definition publish (input : PublishInput.t) : Run OutboxEvent.t :=
  lift (assertSafeJobPayload (PublishInput.payload input));;
  let at_ := default 0%Z (PublishInput.availableAt input) in
  event ← push (new_event input at_);
  push (new_job input at_);;
  mret event.

End Jobs.
