(* ===== verification/JobQueue.v ===== *)
(** The outbox worker: claiming, completing, retrying and dead-lettering jobs,
    from [packages/application/src/jobs/] and [packages/domain/src/jobs/]. *)

From Stdlib Require Import String SpecFloat.
From S2P Require Export Repositories SigningRepositories Failures.
Local Open Scope string_scope.

(** ** Backoff *)

Module BackoffPolicy.
(* [src: packages/domain/src/jobs/backoff.ts:3-6 BackoffPolicy] *)
Record t : Type := mk { baseDelayMs : Z; maxDelayMs : Z }.
End BackoffPolicy.

(** [0.999999999999]. *)
Definition almost_one : spec_float := S754_finite false 9007199254731985 (-53).

(* [src: packages/domain/src/jobs/backoff.ts:22-33 clampUnitInterval] *)
Definition clampUnitInterval (value : spec_float) : spec_float :=
  if negb (isFinite (NFlt value)) then S754_zero false
  else if SFltb value (S754_zero false) then S754_zero false
  else if SFleb (to_float (NInt 1)) value then almost_one
  else value.

(** [2 ** n] for an integer [n]: exact, or infinite from 1024 on. *)
Definition pow2 (n : Z) : spec_float := binary_normalize prec emax 1 n false.

(** [Math.floor] of a non-negative finite number. *)
Definition floor_Z (f : spec_float) : Z :=
  match f with
  | S754_finite false m e => Z.shiftl (Zpos m) e
  | _ => 0
  end.

Definition half : spec_float := S754_finite false 4503599627370496 (-53).

(* [src: packages/domain/src/jobs/backoff.ts:8-20 computeBackoffMs] *)
Definition computeBackoffMs (attemptCount : Z) (policy : BackoffPolicy.t) (random : spec_float) :
    Z :=
  let attempt := Z.max 1 attemptCount in
  let exponential := to_float (num_min (NInt (BackoffPolicy.maxDelayMs policy))
    (NFlt (SFmul prec emax (to_float (NInt (BackoffPolicy.baseDelayMs policy)))
             (pow2 (attempt - 1))))) in
  let unit := clampUnitInterval random in
  let halved := SFmul prec emax exponential half in
  floor_Z (SFadd prec emax halved (SFmul prec emax unit halved)).

Example backoff_first : computeBackoffMs 1 (BackoffPolicy.mk 1000 60000) (S754_zero false) = 500%Z.
Proof. reflexivity. Qed.
Example backoff_capped : computeBackoffMs 2000 (BackoffPolicy.mk 1000 60000) half = 45000%Z.
Proof. vm_compute. reflexivity. Qed.

(** ** Correlation and staleness *)

Module JobCorrelation.
(* [src: packages/domain/src/jobs/correlation.ts:3-10 JobCorrelation] *)
Record t : Type := mk {
  correlationId : string;
  requestId : option string;
  outboxEventId : string;
  jobId : string;
  documentId : option string;
  organizationId : string
}.
End JobCorrelation.

(* [src: packages/domain/src/jobs/correlation.ts:12-21 jobCorrelation] *)
Definition jobCorrelation (event : OutboxEvent.t) (job : BackgroundJob.t) : JobCorrelation.t :=
  JobCorrelation.mk (default (OutboxEvent.id event) (OutboxEvent.requestId event))
    (OutboxEvent.requestId event) (OutboxEvent.id event) (BackgroundJob.id job)
    (OutboxEvent.documentId event) (OutboxEvent.organizationId event).

Module JobQueueDepth.
(* [src: packages/domain/src/ports/job-queue.ts:43-49 JobQueueDepth] *)
Record t : Type := mk {
  pending : Z;
  processing : Z;
  failed : Z;
  expiredLeaseCount : Z;
  oldestAvailableAt : option Z
}.
End JobQueueDepth.

(* [src: packages/domain/src/ports/job-queue.ts:55-67 isJobQueueStale] *)
Definition isJobQueueStale (depth : JobQueueDepth.t) (now staleAfterMs : Z) : bool :=
  if (0 <? JobQueueDepth.expiredLeaseCount depth)%Z then true
  else match JobQueueDepth.oldestAvailableAt depth with
  | None => false
  | Some oldest => (staleAfterMs <=? now - oldest)%Z
  end.

(** ** The claimer *)

Module ClaimedOutboxWork.
(* [src: packages/domain/src/ports/job-queue.ts:3-7 ClaimedOutboxWork] *)
Record t : Type := mk {
  event : OutboxEvent.t;
  job : BackgroundJob.t;
  leaseRecovered : bool
}.
End ClaimedOutboxWork.

Module Outcome.
(** What [markProcessed], [scheduleRetry] and [markDeadLettered] are told. *)
Record t : Type := mk {
  organizationId : string;
  outboxEventId : string;
  jobId : string;
  owner : string
}.
End Outcome.

(** What may be claimed: due, and pending or with an expired lease. *)
Definition claimable (type : string) (now : Z) (row : OutboxEvent.t) : bool :=
  String.eqb (OutboxEvent.type row) type && (OutboxEvent.availableAt row <=? now)%Z &&
  (bool_decide (OutboxEvent.status row = OutboxStatus.pending) ||
   bool_decide (OutboxEvent.status row = OutboxStatus.processing) &&
   match OutboxEvent.leaseUntil row with Some t => (t <? now)%Z | None => false end).

Definition created_job (event : OutboxEvent.t) (now : Z) : BackgroundJob.t :=
  BackgroundJob.mk (OutboxEvent.id event) (OutboxEvent.organizationId event)
    (OutboxEvent.documentId event) (Some (OutboxEvent.id event)) (OutboxEvent.type event)
    BackgroundJobStatus.pending 0 DEFAULT_JOB_MAX_ATTEMPTS None None
    (OutboxEvent.availableAt event) None (OutboxEvent.requestId event) 1 now now.

(* [src: packages/application/src/jobs/memory-claimer.ts:39-64 ensureJob] *)
Definition ensureJob (event : OutboxEvent.t) (now : Z) : Run BackgroundJob.t :=
  existing ← find_one (λ row : BackgroundJob.t,
    bool_decide (BackgroundJob.outboxEventId row = Some (OutboxEvent.id event)));
  match existing with
  | Some job => mret job
  | None => push (created_job event now)
  end.

(** Replacing the first row a test finds, if there is one. *)
Definition update_first {T} `{!Table T} (p : T → bool) (f : T → T) : Run unit :=
  modify (λ s, match find_index p (rows s) with
               | Some (i, x) => set_rows (<[i := f x]> (rows s)) s
               | None => s
               end).

Definition leased_event (owner : string) (leaseUntil now : Z) (event : OutboxEvent.t) :
    OutboxEvent.t :=
  OutboxEvent.set_status OutboxStatus.processing
    (OutboxEvent.set_leaseOwner (Some owner)
       (OutboxEvent.set_leaseUntil (Some leaseUntil)
          (OutboxEvent.set_attemptCount (OutboxEvent.attemptCount event + 1)
             (OutboxEvent.set_updatedAt now event)))).

Definition leased_job (owner : string) (leaseUntil now : Z) (job : BackgroundJob.t) :
    BackgroundJob.t :=
  BackgroundJob.set_status BackgroundJobStatus.leased
    (BackgroundJob.set_leaseOwner (Some owner)
       (BackgroundJob.set_leaseUntil (Some leaseUntil)
          (BackgroundJob.set_attemptCount (BackgroundJob.attemptCount job + 1)
             (BackgroundJob.set_version (BackgroundJob.version job + 1)
                (BackgroundJob.set_updatedAt now job))))).

(* [src: packages/application/src/jobs/memory-claimer.ts:69-110 claimNextByType] *)
Definition claimNextByType (type : string) (now : Z) (owner : string) (leaseUntil : Z) :
    Run (option ClaimedOutboxWork.t) :=
  found ← gets (λ s, find_index (claimable type now) s.(outboxEvents));
  match found with
  | None => mret None
  | Some (index, event) =>
    let leaseRecovered := bool_decide (OutboxEvent.status event = OutboxStatus.processing) in
    let nextEvent := leased_event owner leaseUntil now event in
    modify (λ s, set_outboxEvents (<[index := nextEvent]> s.(outboxEvents)) s);;
    job ← ensureJob event now;
    let nextJob := leased_job owner leaseUntil now job in
    update_first (λ row, String.eqb (BackgroundJob.id row) (BackgroundJob.id job))
      (λ _, nextJob);;
    mret (Some (ClaimedOutboxWork.mk nextEvent nextJob leaseRecovered))
  end.

(** The fence: only the owner of a running lease may settle the event. *)
Definition held_event (o : Outcome.t) (row : OutboxEvent.t) : bool :=
  String.eqb (OutboxEvent.id row) (Outcome.outboxEventId o) &&
  String.eqb (OutboxEvent.organizationId row) (Outcome.organizationId o) &&
  bool_decide (OutboxEvent.leaseOwner row = Some (Outcome.owner o)) &&
  bool_decide (OutboxEvent.status row = OutboxStatus.processing).

Definition held_job (o : Outcome.t) (row : BackgroundJob.t) : bool :=
  String.eqb (BackgroundJob.id row) (Outcome.jobId o) &&
  String.eqb (BackgroundJob.organizationId row) (Outcome.organizationId o) &&
  bool_decide (BackgroundJob.leaseOwner row = Some (Outcome.owner o)).

Definition processed_event (at_ : Z) (event : OutboxEvent.t) : OutboxEvent.t :=
  OutboxEvent.set_status OutboxStatus.processed
    (OutboxEvent.set_processedAt (Some at_)
       (OutboxEvent.set_leaseOwner None
          (OutboxEvent.set_leaseUntil None (OutboxEvent.set_updatedAt at_ event)))).

Definition succeeded_job (at_ : Z) (job : BackgroundJob.t) : BackgroundJob.t :=
  BackgroundJob.set_status BackgroundJobStatus.succeeded
    (BackgroundJob.set_leaseOwner None
       (BackgroundJob.set_leaseUntil None
          (BackgroundJob.set_version (BackgroundJob.version job + 1)
             (BackgroundJob.set_updatedAt at_ job)))).

(** Settling the event the owner holds and then its job; nothing without one. *)
Definition settle (o : Outcome.t) (event : OutboxEvent.t → OutboxEvent.t)
    (job_held : BackgroundJob.t → bool) (job : OutboxEvent.t → BackgroundJob.t → BackgroundJob.t) :
    Run unit :=
  found ← find_one (held_event o);
  match found with
  | None => mret tt
  | Some current => update_first (held_event o) event;; update_first job_held (job current)
  end.

(* [src: packages/application/src/jobs/memory-claimer.ts:111-151 markProcessed] *)
Definition markProcessed (o : Outcome.t) (processedAt : Z) : Run unit :=
  settle o (processed_event processedAt)
    (λ row, held_job o row && bool_decide (BackgroundJob.status row = BackgroundJobStatus.leased))
    (λ _, succeeded_job processedAt).

Definition settled_event (status : OutboxStatus.t) (errorCode : string) (availableAt : option Z)
    (event : OutboxEvent.t) : OutboxEvent.t :=
  OutboxEvent.set_status status
    (OutboxEvent.set_lastErrorCode (Some errorCode)
       (OutboxEvent.set_leaseOwner None
          (OutboxEvent.set_leaseUntil None
             (OutboxEvent.set_availableAt (default (OutboxEvent.availableAt event) availableAt)
                (OutboxEvent.set_updatedAt (default (OutboxEvent.updatedAt event) availableAt)
                   event))))).

Definition settled_job (status : BackgroundJobStatus.t) (errorCode : string)
    (availableAt : option Z) (event : OutboxEvent.t) (job : BackgroundJob.t) : BackgroundJob.t :=
  BackgroundJob.set_status status
    (BackgroundJob.set_lastErrorCode (Some errorCode)
       (BackgroundJob.set_leaseOwner None
          (BackgroundJob.set_leaseUntil None
             (BackgroundJob.set_availableAt (default (BackgroundJob.availableAt job) availableAt)
                (BackgroundJob.set_version (BackgroundJob.version job + 1)
                   (BackgroundJob.set_updatedAt
                      (default (OutboxEvent.updatedAt event) availableAt) job)))))).

(* [src: packages/application/src/jobs/memory-claimer.ts:165-220 applyOutcome] *)
Definition applyOutcome (o : Outcome.t) (errorCode : string) (outboxStatus : OutboxStatus.t)
    (jobStatus : BackgroundJobStatus.t) (availableAt : option Z) : Run unit :=
  settle o (settled_event outboxStatus errorCode availableAt) (held_job o)
    (settled_job jobStatus errorCode availableAt).

(* [src: packages/application/src/jobs/memory-claimer.ts:152-156 scheduleRetry] *)
Definition scheduleRetry (o : Outcome.t) (errorCode : string) (availableAt : Z) : Run unit :=
  applyOutcome o errorCode OutboxStatus.pending BackgroundJobStatus.pending (Some availableAt).

(* [src: packages/application/src/jobs/memory-claimer.ts:157-161 markDeadLettered] *)
Definition markDeadLettered (o : Outcome.t) (errorCode : string) : Run unit :=
  applyOutcome o errorCode OutboxStatus.failed BackgroundJobStatus.failed None.

(** ** Metrics *)

Definition record_metrics (f : JobMetrics.t → JobMetrics.t) : Run unit :=
  modify (λ s, set_jobMetrics (f s.(jobMetrics)) s).

(* [src: packages/application/src/jobs/metrics.ts:23-28 recordClaim] *)
Definition recordClaim (recoveredLease : bool) (m : JobMetrics.t) : JobMetrics.t :=
  let '(JobMetrics.mk c r a s rf tf l) := m in
  JobMetrics.mk (c + 1) (if recoveredLease then r + 1 else r) a s rf tf l.
(* [src: packages/application/src/jobs/metrics.ts:29-31 recordAttempt] *)
Definition recordAttempt (m : JobMetrics.t) : JobMetrics.t :=
  let '(JobMetrics.mk c r a s rf tf l) := m in JobMetrics.mk c r (a + 1) s rf tf l.
(* [src: packages/application/src/jobs/metrics.ts:32-35 recordSuccess] *)
Definition recordSuccess (durationMs : Z) (m : JobMetrics.t) : JobMetrics.t :=
  let '(JobMetrics.mk c r a s rf tf _) := m in JobMetrics.mk c r a (s + 1) rf tf (Some durationMs).
(* [src: packages/application/src/jobs/metrics.ts:36-42 recordFailure] *)
Definition recordFailure (terminal : bool) (m : JobMetrics.t) : JobMetrics.t :=
  let '(JobMetrics.mk c r a s rf tf l) := m in
  if terminal then JobMetrics.mk c r a s rf (tf + 1) l else JobMetrics.mk c r a s (rf + 1) tf l.

(** ** The processor *)

(* [src: packages/application/src/jobs/process-outbox.ts:22-25 ProcessOutboxResult] *)
Inductive ProcessOutcome : Type := idle | succeeded | retry_scheduled | dead_lettered.

Section processor.
Context `{Env}.

Definition outcome_of (owner : string) (claimed : ClaimedOutboxWork.t) : Outcome.t :=
  Outcome.mk (OutboxEvent.organizationId (ClaimedOutboxWork.event claimed))
    (OutboxEvent.id (ClaimedOutboxWork.event claimed))
    (BackgroundJob.id (ClaimedOutboxWork.job claimed)) owner.

(** No further attempt: the failure is permanent or the attempts are used up. *)
Definition is_terminal (error : Exn) (claimed : ClaimedOutboxWork.t) : bool :=
  negb (ClassifiedJobFailure.retryable (classifyJobFailure error)) ||
  (BackgroundJob.maxAttempts (ClaimedOutboxWork.job claimed) <=?
   OutboxEvent.attemptCount (ClaimedOutboxWork.event claimed))%Z.

(** What becomes of a claimed job whose processing failed. *)
Definition process_failure (backoff : BackoffPolicy.t) (random : spec_float) (owner : string)
    (claimed : ClaimedOutboxWork.t) (error : Exn) :
    Run (ProcessOutcome * option ClaimedOutboxWork.t) :=
  let classified := classifyJobFailure error in
  let terminal := is_terminal error claimed in
  let errorCode := formatJobErrorCode (ClassifiedJobFailure.category classified)
                     (ClassifiedJobFailure.code classified) in
  if terminal then
    nowUtc;;
    markDeadLettered (outcome_of owner claimed) errorCode;;
    record_metrics (recordFailure true);;
    mret (dead_lettered, Some claimed)
  else
    let delayMs := computeBackoffMs
      (OutboxEvent.attemptCount (ClaimedOutboxWork.event claimed)) backoff random in
    now ← nowUtc;
    scheduleRetry (outcome_of owner claimed) errorCode (now + delayMs)%Z;;
    record_metrics (recordFailure false);;
    mret (retry_scheduled, Some claimed).

(** The work on a claimed job, up to its success. *)
Definition process_claimed (owner : string) (handler : ClaimedOutboxWork.t → Run unit)
    (claimed : ClaimedOutboxWork.t) (started : Z) :
    Run (ProcessOutcome * option ClaimedOutboxWork.t) :=
  lift (assertSafeJobPayload (OutboxEvent.payload (ClaimedOutboxWork.event claimed)));;
  handler claimed;;
  processedAt ← nowUtc;
  markProcessed (outcome_of owner claimed) processedAt;;
  record_metrics (recordSuccess (processedAt - started));;
  mret (succeeded, Some claimed).

(* [src: packages/application/src/jobs/process-outbox.ts:60-159 processNext] *)
Definition processNext (shouldStop : bool) (backoff : BackoffPolicy.t) (random : spec_float)
    (type owner : string) (handler : ClaimedOutboxWork.t → Run unit) :
    Run (ProcessOutcome * option ClaimedOutboxWork.t) :=
  if shouldStop then mret (idle, None) else
  now ← nowUtc;
  claimed ← claimNextByType type now owner (now + leaseMs)%Z;
  match claimed with
  | None => mret (idle, None)
  | Some claimed =>
    record_metrics (recordClaim (ClaimedOutboxWork.leaseRecovered claimed));;
    record_metrics recordAttempt;;
    started ← nowUtc;
    try_catch (process_claimed owner handler claimed started)
      (process_failure backoff random owner claimed)
  end.
End processor.
