(* ===== verification/ObjectStorage.v ===== *)
(** The object store of
    [packages/application/src/ports/memory-object-storage.ts]: immutable,
    digest-checked objects under tenant-prefixed keys.  The JavaScript [Map]
    is the association list [objects], in insertion order. *)

From Stdlib Require Import String.
From S2P Require Export Store Keys.
Local Open Scope string_scope.

(** [objects.get(key)]. *)
Fixpoint object_at (key : string) (l : list (string * StoredObject.t)) :
    option StoredObject.t :=
  match l with
  | [] => None
  | (k, o) :: l => if String.eqb k key then Some o else object_at key l
  end.

(* [src: packages/domain/src/ports/services.ts:31-36 StoredObjectMetadata] *)
Module StoredObjectMetadata.
Record t : Type := mk {
  key : string;
  contentType : string;
  sizeBytes : Z;
  sha256Digest : string
}.
End StoredObjectMetadata.

Module PutObjectInput.
(* [src: packages/domain/src/ports/services.ts:45-61 ObjectStorage] *)
Record t : Type := mk {
  organizationId : string;
  key : string;
  body : list Z;
  contentType : string;
  maxBytes : option Z;
  expectedSha256Digest : option string
}.
End PutObjectInput.

Definition digest_mismatch : Exn :=
  IntegrityError [("reason", VStr "object_digest_mismatch");
                  ("code", VStr "FINAL_OBJECT_INTEGRITY_FAILURE")].

Definition byteLength (b : list Z) : Z := Z.of_nat (length b).

Section storage.
Context `{Env}.

Definition metadata_of (key : string) (input : PutObjectInput.t) : StoredObjectMetadata.t :=
  StoredObjectMetadata.mk key (PutObjectInput.contentType input)
    (byteLength (PutObjectInput.body input)) (sha256Bytes (PutObjectInput.body input)).

(** The checks before the map is touched: the key and the digest. *)
Definition put_checks (input : PutObjectInput.t) : Result Exn string :=
  throw_if (match PutObjectInput.maxBytes input with
            | Some m => (m <? byteLength (PutObjectInput.body input))%Z
            | None => false
            end) (ValidationError (reasonOnly "payload_too_large")) ≫= λ _,
  key ← tenantObjectKey (PutObjectInput.organizationId input) (PutObjectInput.key input);
  throw_if (match PutObjectInput.expectedSha256Digest input with
            | Some d => negb (String.eqb d (sha256Bytes (PutObjectInput.body input)))
            | None => false
            end) digest_mismatch ≫= λ _,
  Ok key.

(* [src: packages/application/src/ports/memory-object-storage.ts:19-45 putObject] *)
Definition putObject (input : PutObjectInput.t) : Run StoredObjectMetadata.t :=
  key ← lift (put_checks input);
  let sha256Digest := sha256Bytes (PutObjectInput.body input) in
  existing ← gets (λ s, object_at key s.(objects));
  match existing with
  | Some o =>
    if negb (String.eqb (StoredObject.sha256Digest o) sha256Digest) then
      throw (IntegrityError (reasonOnly "immutable_key_conflict"))
    else mret (metadata_of key input)
  | None =>
    storedAt ← nowUtc;
    modify (λ s, set_objects
      (s.(objects) ++ [(key, StoredObject.mk key (PutObjectInput.contentType input)
         (byteLength (PutObjectInput.body input)) sha256Digest (PutObjectInput.body input)
         storedAt)]) s);;
    mret (metadata_of key input)
  end.

(* [src: packages/application/src/ports/memory-object-storage.ts:46-58 getObject] *)
Definition getObject (organizationId key : string) : Run (option StoredObject.t) :=
  key ← lift (assertTenantObjectKey organizationId key);
  gets (λ s, object_at key s.(objects)).

(* [src: packages/application/src/ports/memory-object-storage.ts:59-65 deleteObject] *)
Definition deleteObject (organizationId key : string) : Run unit :=
  key ← lift (assertTenantObjectKey organizationId key);
  if negb (startsWith ("org/" +:+ organizationId +:+ "/") key) then
    throw (IntegrityError (reasonOnly "object_key_tenant_mismatch"))
  else modify (λ s, set_objects
         (List.filter (λ e, negb (String.eqb e.1 key)) s.(objects)) s).

(* [src: packages/application/src/ports/memory-object-storage.ts:66-75 listKeys] *)
Definition listKeys (organizationId prefix : string) (olderThan : Z) : Run (list string) :=
  prefix ← lift (tenantObjectKey organizationId prefix);
  gets (λ s, (List.filter (λ e, startsWith prefix e.1 &&
                           (StoredObject.storedAt e.2 <=? olderThan)%Z) s.(objects)).*1).

(** ** Facts *)

(** Every object is filed under its own key, once, with the digest and size of
    its bytes. *)
Definition well_stored (e : string * StoredObject.t) : Prop :=
  StoredObject.key e.2 = e.1 ∧ StoredObject.sha256Digest e.2 = sha256Bytes (StoredObject.body e.2)
  ∧ StoredObject.sizeBytes e.2 = byteLength (StoredObject.body e.2).
Definition storage_ok (l : list (string * StoredObject.t)) : Prop :=
  NoDup l.*1 ∧ Forall well_stored l.

Lemma object_at_app key l l' :
  object_at key (l ++ l') = match object_at key l with Some o => Some o | None => object_at key l' end.
Proof. induction l as [|[k o] l IH]; simpl; [done|]. by destruct (String.eqb k key). Qed.

Lemma object_at_elem key l o : object_at key l = Some o → (key, o) ∈ l.
Proof.
  induction l as [|[k p] l IH]; simpl; [done|].
  destruct (String.eqb k key) eqn:Hk; [|intros; right; auto].
  apply String.eqb_eq in Hk as ->. intros [= ->]. left.
Qed.

Lemma object_at_None key l : object_at key l = None ↔ key ∉ l.*1.
Proof.
  induction l as [|[k p] l IH]; simpl; [set_solver|].
  destruct (String.eqb k key) eqn:Hk.
  - apply String.eqb_eq in Hk as ->. set_solver.
  - apply String.eqb_neq in Hk. set_solver.
Qed.

Lemma object_at_filter key k l :
  object_at key (List.filter (λ e, negb (String.eqb e.1 k)) l) =
  if String.eqb key k then None else object_at key l.
Proof.
  induction l as [|[j o] l IH]; simpl; [by destruct (String.eqb key k)|].
  destruct (String.eqb j k) eqn:Hj; simpl; rewrite IH.
  - apply String.eqb_eq in Hj as ->. rewrite (String.eqb_sym k key).
    by destruct (String.eqb key k).
  - destruct (String.eqb j key) eqn:Hk; [|done].
    apply String.eqb_eq in Hk as ->. by rewrite Hj.
Qed.

Lemma fst_filter_elem (f : string * StoredObject.t → bool) l k :
  k ∈ (List.filter f l).*1 → k ∈ l.*1.
Proof.
  rewrite !list_elem_of_fmap. intros (e & -> & He). exists e. split; [done|].
  apply list_elem_of_In, List.filter_In in He as [He _]. by apply list_elem_of_In.
Qed.

Lemma storage_ok_filter (f : string * StoredObject.t → bool) l :
  storage_ok l → storage_ok (List.filter f l).
Proof.
  intros [Hd Hw]. split.
  - clear Hw. induction l as [|e l IH]; simpl; [done|]. apply NoDup_cons in Hd as [He Hd].
    destruct (f e); simpl; [|by apply IH]. apply NoDup_cons. split; [|by apply IH].
    intros Hin. by apply He, (fst_filter_elem f).
  - apply Forall_forall. intros e He. apply list_elem_of_In, List.filter_In in He as [He _].
    eapply Forall_forall; [done|]. by apply list_elem_of_In.
Qed.

Lemma put_checks_ok input key :
  put_checks input = Ok key →
  tenantObjectKey (PutObjectInput.organizationId input) (PutObjectInput.key input) = Ok key ∧
  (∀ m, PutObjectInput.maxBytes input = Some m →
     (byteLength (PutObjectInput.body input) ≤ m)%Z) ∧
  (∀ d, PutObjectInput.expectedSha256Digest input = Some d →
     d = sha256Bytes (PutObjectInput.body input)).
Proof.
  unfold put_checks. rewrite bind_Result_ok. intros ([] & Hmax & Hr).
  rewrite bind_Result_ok in Hr. destruct Hr as (k & Hk & Hr).
  rewrite bind_Result_ok in Hr. destruct Hr as ([] & Hd & [= ->]).
  apply throw_if_ok in Hmax, Hd. split_and!; [done| |].
  - intros m Hm. rewrite Hm in Hmax. lia.
  - intros d Hd'. rewrite Hd' in Hd. by apply negb_false_iff, String.eqb_eq in Hd.
Qed.

(** The two ways a put succeeds. *)
Lemma putObject_ok input s m s' :
  putObject input s = (Ok m, s') →
  ∃ key, put_checks input = Ok key ∧ m = metadata_of key input ∧
    ((∃ o, object_at key s.(objects) = Some o ∧
        StoredObject.sha256Digest o = sha256Bytes (PutObjectInput.body input) ∧ s' = s) ∨
     (object_at key s.(objects) = None ∧ ∃ t,
        s' = set_objects (s.(objects) ++ [(key, StoredObject.mk key
               (PutObjectInput.contentType input) (byteLength (PutObjectInput.body input))
               (sha256Bytes (PutObjectInput.body input)) (PutObjectInput.body input) t)])
             (set_clockReads (S s.(clockReads)) s))).
Proof.
  unfold putObject. intros Hrun. run_inv Hrun. exists a. split; [done|].
  destruct (object_at a (objects s)) as [o|] eqn:Ho.
  - destruct (String.eqb _ _) eqn:Hd; simpl in Hrun; run_inv Hrun. split; [done|].
    left. apply String.eqb_eq in Hd. by exists o.
  - run_inv Hrun. match goal with Hr : nowUtc _ = _ |- _ => injection Hr as <- <- end.
    split; [done|]. right. split; [done|]. by eexists.
Qed.

Lemma putObject_throw_store input s e s' :
  putObject input s = (Throw e, s') → s' = s.
Proof.
  unfold putObject, lift, gets, mbind, M_bind, mret, M_ret, nowUtc, modify, throw.
  destruct (put_checks input) as [key|]; simpl; [|by intros [= _ <-]].
  destruct (object_at key _) as [o|]; [destruct (negb _)|]; by intros [= _ <-].
Qed.

(** One call on the store, whatever it returns. *)
Inductive StorageCall : Type :=
  | PutObject (input : PutObjectInput.t)
  | GetObject (organizationId key : string)
  | DeleteObject (organizationId key : string)
  | ListKeys (organizationId prefix : string) (olderThan : Z).

Definition call_tenant (c : StorageCall) : string :=
  match c with
  | PutObject input => PutObjectInput.organizationId input
  | GetObject o _ | DeleteObject o _ | ListKeys o _ _ => o
  end.

Definition run_call (c : StorageCall) (s : St) : St :=
  match c with
  | PutObject input => (putObject input s).2
  | GetObject o k => (getObject o k s).2
  | DeleteObject o k => (deleteObject o k s).2
  | ListKeys o p t => (listKeys o p t s).2
  end.

Lemma getObject_store o k s : (getObject o k s).2 = s.
Proof. unfold getObject, lift, gets, mbind, M_bind. by destruct (assertTenantObjectKey o k). Qed.
Lemma listKeys_store o p t s : (listKeys o p t s).2 = s.
Proof. unfold listKeys, lift, gets, mbind, M_bind. by destruct (tenantObjectKey o p). Qed.

Lemma deleteObject_run o k s :
  (deleteObject o k s).2 =
  if is_ok (assertTenantObjectKey o k)
  then set_objects (List.filter (λ e, negb (String.eqb e.1 k)) s.(objects)) s else s.
Proof.
  unfold deleteObject, lift, mbind, M_bind.
  destruct (assertTenantObjectKey o k) as [k'|] eqn:Hk; simpl; [|done].
  pose proof (assertTenantObjectKey_ok _ _ _ Hk) as (-> & _ & Hp & _).
  simpl in Hp. by rewrite Hp.
Qed.

(** What a put does to the store, returning or throwing. *)
Lemma putObject_store input s :
  (putObject input s).2 = s ∨
  ∃ key t, put_checks input = Ok key ∧ object_at key s.(objects) = None ∧
    objects (putObject input s).2 = (s.(objects) ++ [(key, StoredObject.mk key
               (PutObjectInput.contentType input) (byteLength (PutObjectInput.body input))
               (sha256Bytes (PutObjectInput.body input)) (PutObjectInput.body input) t)])%list.
Proof.
  destruct (putObject input s) as [[m|e] s'] eqn:Hrun; simpl.
  - apply putObject_ok in Hrun as (key & Hk & _ & [(o & _ & _ & ->)|(Hn & t & ->)]); [by left|].
    right. by exists key, t.
  - left. by apply putObject_throw_store in Hrun.
Qed.

Lemma run_call_storage_ok c s : storage_ok s.(objects) → storage_ok (run_call c s).(objects).
Proof.
  intros Hok. destruct c as [input|o k|o k|o p t]; simpl.
  - destruct (putObject_store input s) as [-> | (key & t & _ & Hn & ->)]; [done|].
    destruct Hok as [Hd Hw]. apply object_at_None in Hn. split.
    + rewrite fmap_app. apply NoDup_app. split_and!; [done| |apply NoDup_singleton]. simpl. set_solver.
    + apply Forall_app. split; [done|]. by repeat constructor.
  - by rewrite getObject_store.
  - rewrite deleteObject_run. destruct (is_ok _); [|done]. by apply storage_ok_filter.
  - by rewrite listKeys_store.
Qed.

Lemma run_call_keeps c s k x :
  object_at k s.(objects) = Some x →
  object_at k (run_call c s).(objects) = Some x ∨ ∃ o, c = DeleteObject o k.
Proof.
  intros Hx. destruct c as [input|o j|o j|o p t]; simpl.
  - left. destruct (putObject_store input s) as [-> | (key & t & _ & _ & ->)]; [done|].
    by rewrite object_at_app, Hx.
  - left. by rewrite getObject_store.
  - rewrite deleteObject_run. destruct (is_ok _); [|by left]. simpl. rewrite object_at_filter.
    destruct (String.eqb k j) eqn:Hk; [|by left]. apply String.eqb_eq in Hk as ->. right. by exists o.
  - left. by rewrite listKeys_store.
Qed.

Lemma run_call_foreign c s o k :
  isOpaqueId o = true → o ≠ call_tenant c → startsWith ("org/" +:+ o +:+ "/") k = true →
  object_at k (run_call c s).(objects) = object_at k s.(objects).
Proof.
  intros Ho Hne Hk. destruct c as [input|o' j|o' j|o' p t]; simpl in *.
  - destruct (putObject_store input s) as [-> | (key & t & Hc & _ & ->)]; [done|].
    rewrite object_at_app. destruct (object_at k (objects s)); [done|]. simpl.
    destruct (String.eqb key k) eqn:Hj; [|done]. apply String.eqb_eq in Hj as ->.
    apply put_checks_ok in Hc as (Hc & _). apply tenantObjectKey_accepted in Hc.
    apply assertTenantObjectKey_ok in Hc as (_ & Ho' & Hp & _).
    destruct Hne. by eapply tenant_prefix_unique.
  - by rewrite getObject_store.
  - rewrite deleteObject_run. destruct (assertTenantObjectKey o' j) as [j'|] eqn:Hj; [|done].
    simpl. rewrite object_at_filter. destruct (String.eqb k j) eqn:Hkj; [|done].
    apply String.eqb_eq in Hkj as ->. apply assertTenantObjectKey_ok in Hj as (_ & Ho' & Hp & _).
    destruct Hne. by eapply tenant_prefix_unique.
  - by rewrite listKeys_store.
Qed.

(** Object storage is immutable and self-describing: along any sequence of
    calls, returning or throwing, every object stays filed once under its own
    key with the digest and size of its bytes, and an object once stored under
    a key stays exactly as it is unless that key is deleted. *)
Theorem object_storage_immutable calls s :
  storage_ok s.(objects) →
  let s' := foldl (λ s c, run_call c s) s calls in
  storage_ok s'.(objects) ∧
  ∀ k x, object_at k s.(objects) = Some x → (∀ o, DeleteObject o k ∉ calls) →
    object_at k s'.(objects) = Some x.
Proof.
  revert s. induction calls as [|c calls IH]; intros s Hok; simpl; [done|].
  destruct (IH _ (run_call_storage_ok c s Hok)) as [Hok' Hkeep]. split; [done|].
  intros k x Hx Hnd. apply Hkeep.
  - destruct (run_call_keeps c s k x Hx) as [?|[o ->]]; [done|]. destruct (Hnd o). left.
  - intros o Hin. apply (Hnd o). by right.
Qed.

(** A put that returns can be read back: the key it reports is accepted for
    the tenant, and reading it gives an object with the digest of the bytes that
    were put, the bytes themselves when the key was new; and a put whose caller
    named a digest only returns when the bytes have it. *)
Theorem put_then_get input s m s' :
  putObject input s = (Ok m, s') →
  ∃ o, getObject (PutObjectInput.organizationId input) (StoredObjectMetadata.key m) s' =
         (Ok (Some o), s') ∧
       StoredObject.sha256Digest o = sha256Bytes (PutObjectInput.body input) ∧
       StoredObjectMetadata.sha256Digest m = sha256Bytes (PutObjectInput.body input) ∧
       (object_at (StoredObjectMetadata.key m) s.(objects) = None →
          StoredObject.body o = PutObjectInput.body input) ∧
       (∀ d, PutObjectInput.expectedSha256Digest input = Some d →
          StoredObject.sha256Digest o = d).
Proof.
  intros Hrun. apply putObject_ok in Hrun as (key & Hc & -> & Hcase).
  apply put_checks_ok in Hc as (Hk & _ & Hd). apply tenantObjectKey_accepted in Hk.
  unfold getObject, lift, gets, mbind, M_bind. simpl. rewrite Hk.
  destruct Hcase as [(o & Ho & Hdig & ->)|(Hn & t & ->)].
  - exists o. rewrite Ho. split_and!; [done..|congruence|]. intros d Hd'. by rewrite (Hd _ Hd').
  - eexists. split_and!; [| | |intros _ |intros d Hd'].
    + simpl. rewrite object_at_app, Hn. simpl. by rewrite String.eqb_refl.
    + done.
    + done.
    + done.
    + simpl. by rewrite (Hd _ Hd').
Qed.

(** Tenants are isolated in storage: a call made for one organization leaves
    every key under another organization's prefix as it was, and the objects and
    keys it returns are all under its own prefix. *)
Theorem object_storage_isolation s :
  (∀ c o k, isOpaqueId o = true → o ≠ call_tenant c →
     startsWith ("org/" +:+ o +:+ "/") k = true →
     object_at k (run_call c s).(objects) = object_at k s.(objects)) ∧
  (∀ o k x s', getObject o k s = (Ok x, s') → startsWith ("org/" +:+ o +:+ "/") k = true) ∧
  (∀ o p t ks s', listKeys o p t s = (Ok ks, s') →
     ∀ k, k ∈ ks → startsWith ("org/" +:+ o +:+ "/") k = true).
Proof.
  split_and!.
  - intros c o k. apply run_call_foreign.
  - intros o k x s' Hrun. unfold getObject in Hrun. run_inv Hrun.
    match goal with Hk : assertTenantObjectKey _ _ = _ |- _ =>
      by apply assertTenantObjectKey_ok in Hk as (_ & _ & ? & _) end.
  - intros o p t ks s' Hrun k Hin. unfold listKeys in Hrun. run_inv Hrun.
    match goal with Hk : tenantObjectKey _ _ = _ |- _ =>
      apply tenantObjectKey_accepted, assertTenantObjectKey_ok in Hk as (_ & _ & Hp & _) end.
    apply list_elem_of_fmap in Hin as (e & -> & He).
    apply list_elem_of_In, List.filter_In in He as [_ He]. apply andb_true_iff in He as [He _].
    apply startsWith_iff in Hp as [y ->], He as [z ->]. rewrite append_assoc. apply startsWith_app.
Qed.

End storage.

(** ** On a concrete store *)

#[local] Existing Instance Sample.env.

Definition sample_put : PutObjectInput.t :=
  PutObjectInput.mk (Sample.uuid 1)
    ("org/" +:+ Sample.uuid 1 +:+ "/revisions/" +:+ Sample.digest [1; 2; 3]%Z) [1; 2; 3]%Z
    "application/pdf" (Some 10%Z) (Some (Sample.digest [1; 2; 3]%Z)).

Lemma object_storage_immutable_witness :
  let s' := foldl (λ s c, run_call c s) empty_store
    [PutObject sample_put; DeleteObject (Sample.uuid 2) (PutObjectInput.key sample_put)] in
  storage_ok s'.(objects) ∧
  ∀ k x, object_at k (objects empty_store) = Some x →
    (∀ o, DeleteObject o k ∉ [PutObject sample_put;
       DeleteObject (Sample.uuid 2) (PutObjectInput.key sample_put)]) →
    object_at k s'.(objects) = Some x.
Proof. apply (object_storage_immutable _ empty_store). split; constructor. Defined.

Lemma put_then_get_witness :
  ∃ m s', putObject sample_put empty_store = (Ok m, s') ∧
    ∃ o, getObject (Sample.uuid 1) (StoredObjectMetadata.key m) s' = (Ok (Some o), s') ∧
       StoredObject.sha256Digest o = Sample.digest [1; 2; 3]%Z ∧
       StoredObjectMetadata.sha256Digest m = Sample.digest [1; 2; 3]%Z ∧
       (object_at (StoredObjectMetadata.key m) (objects empty_store) = None →
          StoredObject.body o = [1; 2; 3]%Z) ∧
       (∀ d, PutObjectInput.expectedSha256Digest sample_put = Some d →
          StoredObject.sha256Digest o = d).
Proof.
  eexists _, _. split; [vm_compute; reflexivity|].
  refine (put_then_get sample_put empty_store _ _ _). vm_compute. reflexivity.
Defined.

Lemma object_storage_isolation_witness :
  (∀ c o k, isOpaqueId o = true → o ≠ call_tenant c →
     startsWith ("org/" +:+ o +:+ "/") k = true →
     object_at k (run_call c empty_store).(objects) = object_at k (objects empty_store)) ∧
  (∀ o k x s', getObject o k empty_store = (Ok x, s') → startsWith ("org/" +:+ o +:+ "/") k = true) ∧
  (∀ o p t ks s', listKeys o p t empty_store = (Ok ks, s') →
     ∀ k, k ∈ ks → startsWith ("org/" +:+ o +:+ "/") k = true).
Proof. apply object_storage_isolation. Defined.
