(* ===== verification/AuditLog.v ===== *)
(** The hash-chained audit log: the writer of
    [packages/application/src/documents/memory-adapters.ts], the checkpoint
    stores and the chain verifier of [packages/application/src/audit/]. *)

From Stdlib Require Import String.
From S2P Require Export Canonical Policy Repositories SigningRepositories ObjectStorage.
Local Open Scope string_scope.

(** ** The writer *)

Module NewAuditEvent.
(* [src: packages/domain/src/ports/services.ts:94-104 NewAuditEvent] *)
Record t : Type := mk {
  id : string;
  organizationId : string;
  documentId : string;
  type : AuditEventType.t;
  actorType : AuditActorType.t;
  actorId : string;
  occurredAt : JsDate;
  payload : object;
  requestId : option string
}.
End NewAuditEvent.

Definition event_of (organizationId documentId : string) (row : AuditEvent.t) : bool :=
  String.eqb (AuditEvent.organizationId row) organizationId &&
  String.eqb (AuditEvent.documentId row) documentId.

(** [matching.reduce((head, row) => row.sequence > head.sequence ? row : head)]. *)
Definition latest_event (l : list AuditEvent.t) : option AuditEvent.t :=
  match l with
  | [] => None
  | e :: l => Some (foldl (λ head row,
      if (AuditEvent.sequence head <? AuditEvent.sequence row)%Z then row else head) e l)
  end.

(* [src: packages/application/src/documents/memory-adapters.ts:515-523 findLatest] *)
Definition findLatest (organizationId documentId : string) : Run (option AuditEvent.t) :=
  gets (λ s, latest_event (List.filter (event_of organizationId documentId) s.(auditEvents))).

(* [src: packages/application/src/documents/memory-adapters.ts:524-528 listByDocument] *)
Definition listAuditByDocument (organizationId documentId : string) :
    Run (list AuditEvent.t) :=
  find_many (event_of organizationId documentId).

(** What is hashed of a stored event. *)
Definition hash_input (e : AuditEvent.t) (payload : value) : AuditEventHashInput.t :=
  AuditEventHashInput.mk (AuditEvent.chainVersion e) (AuditEvent.previousEventHash e)
    (AuditEvent.sequence e) (AuditEvent.type e) (AuditEvent.actorType e) (AuditEvent.actorId e)
    (AuditEvent.occurredAt e) payload.

Section writer.
Context `{Env}.

(** The event stored after [latest]. *)
(* [src: packages/application/src/documents/memory-adapters.ts:545-572 append] *)
Definition next_event (event : NewAuditEvent.t) (latest : option AuditEvent.t) :
    Result Exn AuditEvent.t :=
  let '(NewAuditEvent.mk id organizationId documentId type actorType actorId occurredAt payload
          requestId) := event in
  let sequence := match latest with Some e => AuditEvent.sequence e + 1 | None => 0 end%Z in
  let previousEventHash :=
    match latest with
    | Some e => AuditEvent.eventHash e
    | None => AUDIT_GENESIS_PREVIOUS_EVENT_HASH
    end in
  eventHash ← computeAuditEventHash
    (AuditEventHashInput.mk AUDIT_CHAIN_SCHEMA_VERSION previousEventHash sequence type actorType
       actorId occurredAt (VObj payload));
  mret (AuditEvent.mk id organizationId documentId sequence type actorType actorId occurredAt
          (VObj payload) previousEventHash eventHash requestId AUDIT_CHAIN_SCHEMA_VERSION
          occurredAt).

(* [src: packages/application/src/documents/memory-adapters.ts:538-575 append] *)
Definition append (event : NewAuditEvent.t) : Run AuditEvent.t :=
  lift (assertApprovedAuditPayload (NewAuditEvent.payload event) 0);;
  latest ← findLatest (NewAuditEvent.organizationId event) (NewAuditEvent.documentId event);
  stored ← lift (next_event event latest);
  push stored.
End writer.

(** ** Verification reports *)

Module FailureCode.
(* [src: packages/domain/src/audit/verification.ts:1-15 AuditVerificationFailureCode] *)
Inductive t : Type :=
  | EMPTY_CHAIN | UNSUPPORTED_SCHEMA_VERSION | SEQUENCE_GAP | SEQUENCE_REORDER | HASH_MISMATCH
  | PREVIOUS_HASH_MISMATCH | GENESIS_PREVIOUS_HASH_MISMATCH | ARTIFACT_DIGEST_MISMATCH
  | ARTIFACT_MISSING | FORBIDDEN_PAYLOAD_FIELD | CHECKPOINT_MISMATCH.

Definition to_string (x : t) : string :=
  match x with
  | EMPTY_CHAIN => "EMPTY_CHAIN"
  | UNSUPPORTED_SCHEMA_VERSION => "UNSUPPORTED_SCHEMA_VERSION"
  | SEQUENCE_GAP => "SEQUENCE_GAP"
  | SEQUENCE_REORDER => "SEQUENCE_REORDER"
  | HASH_MISMATCH => "HASH_MISMATCH"
  | PREVIOUS_HASH_MISMATCH => "PREVIOUS_HASH_MISMATCH"
  | GENESIS_PREVIOUS_HASH_MISMATCH => "GENESIS_PREVIOUS_HASH_MISMATCH"
  | ARTIFACT_DIGEST_MISMATCH => "ARTIFACT_DIGEST_MISMATCH"
  | ARTIFACT_MISSING => "ARTIFACT_MISSING"
  | FORBIDDEN_PAYLOAD_FIELD => "FORBIDDEN_PAYLOAD_FIELD"
  | CHECKPOINT_MISMATCH => "CHECKPOINT_MISMATCH"
  end.
End FailureCode.
Import FailureCode.

(* [src: packages/domain/src/audit/verification.ts:17-22 AuditVerificationWarningCode] *)
Inductive WarningCode : Type := CHECKPOINT_ANCHORING_DISABLED | CHECKPOINT_STORE_UNAVAILABLE.

Module Failure.
(* [src: packages/domain/src/audit/verification.ts:24-30 AuditVerificationFailure] *)
Record t : Type := mk {
  code : FailureCode.t;
  organizationId : string;
  documentId : string;
  sequence : option Z;
  eventId : option string
}.
End Failure.

Module Warning.
(* [src: packages/domain/src/audit/verification.ts:32-36 AuditVerificationWarning] *)
Record t : Type := mk {
  code : WarningCode;
  organizationId : string;
  documentId : string
}.
End Warning.

Module Report.
(* [src: packages/domain/src/audit/verification.ts:38-49 AuditVerificationReport] *)
Record t : Type := mk {
  ok : bool;
  schemaVersion : Z;
  organizationId : string;
  documentId : string;
  eventCount : Z;
  checkedAt : string;
  headEventHash : option string;
  headSequence : option Z;
  failures : list Failure.t;
  warnings : list Warning.t
}.
End Report.

Module OrganizationReport.
(* [src: packages/domain/src/audit/verification.ts:51-58 OrganizationAuditVerificationReport] *)
Record t : Type := mk {
  ok : bool;
  organizationId : string;
  documentCount : Z;
  failedDocumentCount : Z;
  checkedAt : string;
  reports : list Report.t
}.
End OrganizationReport.

(** ** Checkpoint stores *)

(* [src: packages/domain/src/ports/checkpoint-store.ts:10-10 CheckpointPutResult] *)
Inductive CheckpointPutResult : Type := stored | exists_ | disabled.

(** The port, and the law its comment demands: a put never changes or removes a
    checkpoint, and never files a second hash for the same place. *)
(* [src: packages/domain/src/ports/checkpoint-store.ts:24-36 ImmutableCheckpointStore] *)
Class ImmutableCheckpointStore : Type := {
  enabled : bool;
  putIfAbsent : AuditCheckpoint.t → Run CheckpointPutResult;
  getLatest : string → string → Run (option AuditCheckpoint.t)
}.

Definition checkpoint_at (c : AuditCheckpoint.t) (row : AuditCheckpoint.t) : bool :=
  String.eqb (AuditCheckpoint.organizationId row) (AuditCheckpoint.organizationId c) &&
  String.eqb (AuditCheckpoint.documentId row) (AuditCheckpoint.documentId c) &&
  (AuditCheckpoint.sequence row =? AuditCheckpoint.sequence c)%Z.

(* [src: packages/application/src/audit/memory-checkpoint-store.ts:3-9 checkpointKey] *)
Definition checkpointKey (c : AuditCheckpoint.t) : string :=
  AuditCheckpoint.organizationId c +:+ ":" +:+ AuditCheckpoint.documentId c +:+ ":" +:+
  of_int (AuditCheckpoint.sequence c).

(* [src: packages/application/src/audit/memory-checkpoint-store.ts:18-36 putIfAbsent] *)
Definition memory_putIfAbsent (checkpoint : AuditCheckpoint.t) : Run CheckpointPutResult :=
  existing ← gets (λ s, find_row (checkpoint_at checkpoint) s.(checkpoints));
  match existing with
  | Some existing =>
    if negb (String.eqb (AuditCheckpoint.eventHash existing)
               (AuditCheckpoint.eventHash checkpoint)) then
      throw (IntegrityError [("reason", VStr "checkpoint_immutable_conflict");
                             ("key", VStr (checkpointKey checkpoint))])
    else mret exists_
  | None => modify (λ s, set_checkpoints (s.(checkpoints) ++ [checkpoint]) s);; mret stored
  end.

Definition latest_checkpoint (l : list AuditCheckpoint.t) : option AuditCheckpoint.t :=
  match l with
  | [] => None
  | c :: l => Some (foldl (λ head row,
      if (AuditCheckpoint.sequence head <? AuditCheckpoint.sequence row)%Z then row else head) c l)
  end.

(* [src: packages/application/src/audit/memory-checkpoint-store.ts:47-55 getLatest] *)
Definition memory_getLatest (organizationId documentId : string) :
    Run (option AuditCheckpoint.t) :=
  gets (λ s, latest_checkpoint (List.filter (λ row,
    String.eqb (AuditCheckpoint.organizationId row) organizationId &&
    String.eqb (AuditCheckpoint.documentId row) documentId) s.(checkpoints))).

(* [src: packages/application/src/audit/memory-checkpoint-store.ts:11-57 createMemoryCheckpointStore] *)
Definition createMemoryCheckpointStore : ImmutableCheckpointStore :=
  {| enabled := true; putIfAbsent := memory_putIfAbsent; getLatest := memory_getLatest |}.

(* [src: packages/application/src/audit/memory-checkpoint-store.ts:59-72 createDisabledCheckpointStore] *)
Definition createDisabledCheckpointStore : ImmutableCheckpointStore :=
  {| enabled := false; putIfAbsent := λ _, mret disabled; getLatest := λ _ _, mret None |}.

(** ** The verifier *)

(* [src: packages/application/src/audit/verify-audit-chain.ts:26-30 VerifyAuditChainInput] *)
Module VerifyAuditChainInput.
Record t : Type := mk {
  organizationId : string;
  documentId : string;
  actor : option RequestActor
}.
End VerifyAuditChainInput.

(** An object that is not an array, with its own enumerable members. *)
(* [src: packages/application/src/audit/verify-audit-chain.ts:32-34 isRecord] *)
Definition as_record (v : value) : option object :=
  match v with
  | VObj m => Some m
  | VDate _ => Some []
  | VBytes b => Some (imap (λ i x, (of_int (Z.of_nat i), VNum (NInt x))) b)
  | _ => None
  end.

(** [a.sort((left, right) => left.sequence - right.sequence)]. *)
Definition by_sequence (a b : AuditEvent.t) : bool :=
  (AuditEvent.sequence a <=? AuditEvent.sequence b)%Z.

Fixpoint any_descent (l : list Z) : bool :=
  match l with
  | x :: (y :: _) as l => (y <? x)%Z || any_descent l
  | _ => false
  end.

(** The first event whose sequence is not its index. *)
Fixpoint first_misplaced (i : Z) (l : list AuditEvent.t) : option AuditEvent.t :=
  match l with
  | [] => None
  | e :: l => if negb (AuditEvent.sequence e =? i)%Z then Some e else first_misplaced (i + 1) l
  end.

Module ScheduledResult.
(* [src: packages/application/src/audit/scheduled-verification.ts:4-9 ScheduledAuditVerificationResult] *)
Record t : Type := mk {
  organizationCount : Z;
  documentCount : Z;
  failedDocumentCount : Z;
  checkedAt : string
}.
End ScheduledResult.

Section verifier.
Context `{Env} `{!AuthorizationPolicy} `{!ImmutableCheckpointStore}.
Implicit Types (organizationId documentId : string).

(* [src: packages/application/src/audit/verify-audit-chain.ts:36-48 failure] *)
Definition failure (code : FailureCode.t) organizationId documentId
    (event : option AuditEvent.t) : Failure.t :=
  Failure.mk code organizationId documentId (AuditEvent.sequence <$> event)
    (AuditEvent.id <$> event).

(* [src: packages/application/src/audit/verify-audit-chain.ts:50-64 authorize] *)
Definition authorize (actor : RequestActor) (resource : AuthorizationResource.t) :
    Result Exn unit :=
  match actor with
  | account_user _ => assertAllowed actor AuthorizationAction.audit_verify resource
  | worker _ _ | system => assertAllowed actor AuthorizationAction.job_process resource
  | signer _ => assertAllowed actor AuthorizationAction.audit_verify resource
  end.

(* [src: packages/application/src/audit/verify-audit-chain.ts:66-110 verifyFinalizedArtifact] *)
Definition verifyFinalizedArtifact organizationId documentId (event : AuditEvent.t) :
    Run (list Failure.t) :=
  let fail code := failure code organizationId documentId (Some event) in
  let digest :=
    match as_record (AuditEvent.payload event) with
    | Some payload =>
      match prop "finalizedSha256" payload with VStr d => Some d | _ => None end
    | None => None
    end in
  artifact ← FinalizedArtifacts.findByDocument organizationId documentId;
  match artifact with
  | None => mret [fail ARTIFACT_MISSING]
  | Some artifact =>
    let expected := FinalizedArtifact.sha256Digest artifact in
    let mismatch :=
      match digest with
      | Some d => if negb (String.eqb expected d) then [fail ARTIFACT_DIGEST_MISMATCH] else []
      | None => []
      end in
    stored ← getObject organizationId (FinalizedArtifact.objectKey artifact);
    body ← match stored with
           | Some o => mret (Some (StoredObject.body o))
           | None =>
             key ← lift (artifactObjectKey organizationId expected);
             other ← getObject organizationId key;
             mret (StoredObject.body <$> other)
           end;
    match body with
    | None => mret (mismatch ++ [fail ARTIFACT_MISSING])%list
    | Some body =>
      mret (mismatch ++ (if negb (String.eqb (sha256Bytes body) expected)
                         then [fail ARTIFACT_DIGEST_MISMATCH] else []))%list
    end
  end.

(** The checks on the order of the stored events. *)
(* [src: packages/application/src/audit/verify-audit-chain.ts:168-184 verifyAuditChain sequence order] *)
Definition sequence_failures organizationId documentId (events : list AuditEvent.t) :
    list Failure.t :=
  match first_misplaced 0 events with
  | None => []
  | Some misplaced =>
    if any_descent (AuditEvent.sequence <$> events)
    then [failure SEQUENCE_REORDER organizationId documentId (head events)]
    else [failure SEQUENCE_GAP organizationId documentId (Some misplaced)]
  end.

(** The checks on one event, whose predecessor in the sorted list is [previous]. *)
(* [src: packages/application/src/audit/verify-audit-chain.ts:186-226 verifyAuditChain event checks] *)
Definition event_failures organizationId documentId (previous : option AuditEvent.t)
    (event : AuditEvent.t) : list Failure.t :=
  let fail code := failure code organizationId documentId (Some event) in
  let expectedPrevious :=
    match previous with
    | None => AUDIT_GENESIS_PREVIOUS_EVENT_HASH
    | Some p => AuditEvent.eventHash p
    end in
  let payload := AuditEvent.payload event in
  let hashed := match as_record payload with Some _ => payload | None => VObj [] end in
  ((if negb (AuditEvent.chainVersion event =? AUDIT_CHAIN_SCHEMA_VERSION)%Z
    then [fail UNSUPPORTED_SCHEMA_VERSION] else []) ++
   (if bool_decide (previous = None) &&
       negb (String.eqb (AuditEvent.previousEventHash event) AUDIT_GENESIS_PREVIOUS_EVENT_HASH)
    then [fail GENESIS_PREVIOUS_HASH_MISMATCH]
    else if negb (String.eqb (AuditEvent.previousEventHash event) expectedPrevious)
    then [fail PREVIOUS_HASH_MISMATCH] else []) ++
   match as_record payload with
   | None => [fail FORBIDDEN_PAYLOAD_FIELD]
   | Some m => if is_ok (assertApprovedAuditPayload m 0) then [] else [fail FORBIDDEN_PAYLOAD_FIELD]
   end ++
   match computeAuditEventHash (hash_input event hashed) with
   | Ok expectedHash =>
     if negb (String.eqb expectedHash (AuditEvent.eventHash event))
     then [fail HASH_MISMATCH] else []
   | Throw _ => [fail HASH_MISMATCH]
   end)%list.

(* [src: packages/application/src/audit/verify-audit-chain.ts:186-230 verifyAuditChain event loop] *)
Fixpoint verify_events organizationId documentId (previous : option AuditEvent.t)
    (sorted : list AuditEvent.t) : Run (list Failure.t) :=
  match sorted with
  | [] => mret []
  | event :: rest =>
    artifact ← (if bool_decide (AuditEvent.type event = AuditEventType.document_finalized)
                then verifyFinalizedArtifact organizationId documentId event else mret []);
    failures ← verify_events organizationId documentId (Some event) rest;
    mret (event_failures organizationId documentId previous event ++ artifact ++ failures)%list
  end.

(** The key failures are deduplicated by. *)
Definition failure_key (item : Failure.t) : string :=
  FailureCode.to_string (Failure.code item) +:+ ":" +:+
  match Failure.sequence item with Some z => of_int z | None => "none" end +:+ ":" +:+
  default "none" (Failure.eventId item).

Fixpoint dedupe (seen : list string) (failures : list Failure.t) : list Failure.t :=
  match failures with
  | [] => []
  | item :: failures =>
    if bool_decide (failure_key item ∈ seen) then dedupe seen failures
    else item :: dedupe (failure_key item :: seen) failures
  end.

(* [src: packages/application/src/audit/verify-audit-chain.ts:348-360 dedupeFailures] *)
Definition dedupeFailures (failures : list Failure.t) : list Failure.t := dedupe [] failures.

(* [src: packages/application/src/audit/verify-audit-chain.ts:362-381 publishOutcome] *)
Definition publishOutcome (report : Report.t) : Run unit :=
  let failureCodes := FailureCode.to_string ∘ Failure.code <$> Report.failures report in
  modify (λ s, set_verifications (s.(verifications) ++ [(Report.ok report, failureCodes)]) s);;
  if negb (Report.ok report) then
    modify (λ s, set_alerts (s.(alerts) ++
      [AuditVerificationAlert.mk (Report.organizationId report) (Report.documentId report)
         failureCodes
         match head (Report.failures report) with
         | Some f => match Failure.sequence f with Some z => Some z | None => Report.headSequence report end
         | None => Report.headSequence report
         end]) s)
  else mret tt.

(** The comparison with the latest checkpoint: failures and warnings. *)
(* [src: packages/application/src/audit/verify-audit-chain.ts:232-257 verifyAuditChain checkpoint comparison] *)
Definition checkpoint_findings organizationId documentId (sorted : list AuditEvent.t) :
    Run (list Failure.t * list Warning.t) :=
  if negb enabled then
    mret ([], [Warning.mk CHECKPOINT_ANCHORING_DISABLED organizationId documentId])
  else
    try_catch
      (anchored ← getLatest organizationId documentId;
       mret (match anchored with
             | None => []
             | Some anchored =>
               let atSequence := find_row (λ e,
                 (AuditEvent.sequence e =? AuditCheckpoint.sequence anchored)%Z) sorted in
               if bool_decide ((AuditEvent.eventHash <$> atSequence) =
                               Some (AuditCheckpoint.eventHash anchored)) then []
               else [failure CHECKPOINT_MISMATCH organizationId documentId atSequence]
             end, []))
      (λ _, mret ([], [Warning.mk CHECKPOINT_STORE_UNAVAILABLE organizationId documentId])).

(** Anchoring the head of a chain that verified; the warning it may add. *)
(* [src: packages/application/src/audit/verify-audit-chain.ts:274-291 verifyAuditChain head anchoring] *)
Definition anchor_head organizationId documentId (head : AuditEvent.t) : Run (list Warning.t) :=
  try_catch
    (anchoredAt ← nowUtc;
     putIfAbsent (AuditCheckpoint.mk organizationId documentId (AuditEvent.sequence head)
       (AuditEvent.eventHash head) AUDIT_CHAIN_SCHEMA_VERSION anchoredAt);;
     mret [])
    (λ _, mret [Warning.mk CHECKPOINT_STORE_UNAVAILABLE organizationId documentId]).

(** The [warnings] array is the report's: what is pushed after the report is
    built is in the report that is published and returned. *)
(* [src: packages/application/src/audit/verify-audit-chain.ts:124-295 verifyAuditChain] *)
Definition verifyAuditChain (input : VerifyAuditChainInput.t) : Run Report.t :=
  let '(VerifyAuditChainInput.mk organizationId documentId actor) := input in
  lift match actor with
       | Some actor => authorize actor (doc_resource organizationId documentId)
       | None => Ok tt
       end;;
  document ← Documents.findById organizationId documentId;
  match document with
  | None => throw (notFound "document")
  | Some _ =>
    events ← listAuditByDocument organizationId documentId;
    checkedAt ← toISOString <$> nowUtc;
    match events with
    | [] =>
      let report := Report.mk false AUDIT_CHAIN_SCHEMA_VERSION organizationId documentId 0
        checkedAt None None [failure EMPTY_CHAIN organizationId documentId None] [] in
      publishOutcome report;; mret report
    | _ =>
      let sorted := sort_by by_sequence events in
      failures ← verify_events organizationId documentId None sorted;
      '(anchoring, warnings) ← checkpoint_findings organizationId documentId sorted;
      let uniqueFailures := dedupeFailures
        (sequence_failures organizationId documentId events ++ failures ++ anchoring)%list in
      let ok := bool_decide (length uniqueFailures = 0%nat) in
      more ← match last sorted with
             | Some head =>
               if ok && enabled then anchor_head organizationId documentId head else mret []
             | None => mret []
             end;
      let report := Report.mk ok AUDIT_CHAIN_SCHEMA_VERSION organizationId documentId
        (Z.of_nat (length events)) checkedAt (AuditEvent.eventHash <$> last sorted)
        (AuditEvent.sequence <$> last sorted) uniqueFailures (warnings ++ more)%list in
      publishOutcome report;; mret report
    end
  end.

(* [src: packages/application/src/audit/verify-audit-chain.ts:304-343 verifyOrganizationAuditChains] *)
Definition verifyOrganizationAuditChains (organizationId : string) (actor : option RequestActor)
    (documentId : option string) : Run OrganizationReport.t :=
  lift match actor with
       | Some actor => authorize actor (org_resource organizationId)
       | None => Ok tt
       end;;
  documents ← match documentId with
              | None => Documents.listByOrganization organizationId
              | Some documentId =>
                found ← Documents.findById organizationId documentId;
                match found with
                | Some d => mret [d]
                | None => throw (notFound "document")
                end
              end;
  reports ← map_each (λ document, verifyAuditChain
    (VerifyAuditChainInput.mk organizationId (Document.id document) actor)) documents;
  let failedDocumentCount := Z.of_nat (length (List.filter (λ r, negb (Report.ok r)) reports)) in
  checkedAt ← toISOString <$> nowUtc;
  mret (OrganizationReport.mk (failedDocumentCount =? 0)%Z organizationId
          (Z.of_nat (length reports)) failedDocumentCount checkedAt reports).

(* [src: packages/application/src/audit/scheduled-verification.ts:11-35 createRunScheduledAuditVerification] *)
Definition runScheduledAuditVerification (listOrganizationIds : Run (list string)) :
    Run ScheduledResult.t :=
  organizationIds ← listOrganizationIds;
  reports ← map_each (λ organizationId,
    verifyOrganizationAuditChains organizationId (Some system) None) organizationIds;
  checkedAt ← toISOString <$> nowUtc;
  mret (ScheduledResult.mk (Z.of_nat (length organizationIds))
    (foldl (λ n r, n + OrganizationReport.documentCount r)%Z 0%Z reports)
    (foldl (λ n r, n + OrganizationReport.failedDocumentCount r)%Z 0%Z reports) checkedAt).
End verifier.

(* [src: packages/application/src/audit/scheduled-verification.ts:39-48 shouldRunScheduledAuditVerification] *)
Definition shouldRunScheduledAuditVerification (lastRunAt : option Z) (now intervalMs : Z) : bool :=
  match lastRunAt with None => true | Some t => (intervalMs <=? now - t)%Z end.
