(* ===== verification/UseCases.v ===== *)
(** What the use cases share: coercions of JSON values, [JSON.stringify],
    public documents and idempotency, from
    [packages/application/src/documents/public-document.ts] and
    [idempotency.ts]. *)

From Stdlib Require Import String Ascii.
From S2P Require Export AuditLog Media Lifecycle Geometry.
Local Open Scope string_scope.

Definition VInt (z : Z) : value := VNum (NInt z).
Definition VOptStr (x : option string) : value := nullable VStr x.

(** ** Coercions *)

Section coercions.
Context `{Env}.

(** [String(v)]; an array joins its entries, a plain object prints its tag. *)
Fixpoint js_String (v : value) : string :=
  match v with
  | VUndef => "undefined"
  | VNull => "null"
  | VBool b => if b then "true" else "false"
  | VNum n => of_units (print_number n)
  | VStr s => s
  | VDate d => date_to_string d
  | VArr l =>
    String.concat "," ((λ x, match x with VUndef | VNull => EmptyString | _ => js_String x end) <$> l)
  | VBytes b => String.concat "," (of_int <$> b)
  | VObj _ | VOther _ => "[object Object]"
  end.

(** [Number(v)]. *)
Definition js_Number (v : value) : jsnum :=
  match v with
  | VNum n => n
  | VNull => NInt 0
  | VUndef | VDate None => NFlt SpecFloat.S754_nan
  | VBool b => NInt (if b then 1 else 0)
  | VDate (Some t) => NInt t
  | VStr s => string_to_number s
  | _ => string_to_number (js_String v)
  end.
End coercions.

(** [Boolean(v)]. *)
Definition js_Boolean (v : value) : bool :=
  match v with
  | VUndef | VNull => false
  | VBool b => b
  | VNum n => negb (isNaN n || num_eqb n (NInt 0))
  | VStr s => negb (String.eqb s EmptyString)
  | _ => true
  end.

(** [v as T | undefined], read member by member: [v?.key]. *)
Definition member (key : string) (v : value) : value :=
  match v with VObj m => prop key m | _ => VUndef end.

(** What [JSON.stringify] makes of a value; [None] is [undefined]. *)
Fixpoint to_json (v : value) : option CanonicalJson :=
  match v with
  | VUndef | VOther _ => None
  | VNull | VDate None => Some CNull
  | VBool b => Some (CBool b)
  | VNum n => Some (if isFinite n then CNum n else CNull)
  | VStr s => Some (CStr s)
  | VDate (Some t) => Some (CStr (toISOString t))
  | VBytes b => Some (CObj (imap (λ i x, (of_int (Z.of_nat i), CNum (NInt x))) b))
  | VArr l => Some (CArr ((λ x, default CNull (to_json x)) <$> l))
  | VObj m => Some (CObj (sort_by key_leb
      (omap (λ '(k, x), (λ j, (k, j)) <$> to_json x) m)))
  end.

(* [src: packages/application/src/documents/idempotency.ts:75-82 stableJson] *)
Definition stableJson `{Env} (o : object) : string :=
  json_stringify (default CNull (to_json (VObj (sort_by entry_leb o)))).

(** ** Public documents *)

(* [src: packages/application/src/documents/public-document.ts:51-59 toPublicSigner] *)
Definition toPublicSigner (s : Signer.t) : value :=
  VObj [("signerId", VStr (Signer.id s)); ("email", VOptStr (Signer.email s));
        ("displayName", VStr (Signer.displayName s));
        ("routingOrder", VNum (Signer.routingOrder s));
        ("status", VStr (SignerStatus.to_string (Signer.status s)))].

(* [src: packages/application/src/documents/public-document.ts:61-73 toPublicSignatureField] *)
Definition toPublicSignatureField (f : SignatureField.t) : value :=
  VObj [("fieldId", VStr (SignatureField.id f)); ("signerId", VStr (SignatureField.signerId f));
        ("type", VStr (SignatureFieldType.to_string (SignatureField.type f)));
        ("pageNumber", VNum (SignatureField.pageNumber f)); ("x", VNum (SignatureField.x f));
        ("y", VNum (SignatureField.y f)); ("width", VNum (SignatureField.width f));
        ("height", VNum (SignatureField.height f));
        ("required", VBool (SignatureField.required f))].

Definition public_revision (r : DocumentRevision.t) : value :=
  VObj [("revisionId", VStr (DocumentRevision.id r));
        ("contentType", VStr (DocumentRevision.contentType r));
        ("sizeBytes", VInt (DocumentRevision.sizeBytes r));
        ("sha256Digest", VStr (DocumentRevision.sha256Digest r));
        ("displayName", VStr (DocumentRevision.displayName r));
        ("pageCount", VInt (DocumentRevision.pageCount r))].

(* [src: packages/application/src/documents/public-document.ts:75-104 toPublicDocument] *)
Definition toPublicDocument (document : Document.t) (revision : option DocumentRevision.t)
    (signers : list Signer.t) (fields : list SignatureField.t) : object :=
  [("documentId", VStr (Document.id document));
   ("title", VStr (Document.title document));
   ("state", VStr (DocumentState.to_string (Document.state document)));
   ("signingMode", VStr (SigningMode.to_string (Document.signingMode document)));
   ("inspectionStatus",
     VStr (DocumentInspectionStatus.to_string (Document.inspectionStatus document)));
   ("displayName", VOptStr (Document.sourceDisplayName document));
   ("availableForSigning", VBool (isAvailableForSigning document));
   ("currentRevision", nullable public_revision revision);
   ("signers", VArr (toPublicSigner <$> signers));
   ("fields", VArr (toPublicSignatureField <$> fields))].

(** ** Idempotency *)

(* [src: packages/application/src/documents/idempotency.ts:10-10 CREATE_DOCUMENT_ROUTE] *)
Definition CREATE_DOCUMENT_ROUTE : string := "POST /organizations/:organizationId/documents".

(* [src: packages/application/src/documents/idempotency.ts:12-18 requireIdempotencyKey] *)
Definition requireIdempotencyKey (value : option string) : Result Exn string :=
  let key := default EmptyString (trim <$> value) in
  if ((str_length key <? 8) || (128 <? str_length key))%Z then
    Throw (ValidationError (fieldReason "Idempotency-Key" "invalid"))
  else Ok key.

(** The answer of [replayOrBeginIdempotency]. *)
Inductive Begun : Type :=
  | Replay (r : IdempotencyRecord.t)
  | Begin (r : IdempotencyRecord.t).

Module IdempotencyInput.
(* [src: packages/application/src/documents/idempotency.ts:20-33 IdempotencyInput parameters] *)
Record t : Type := mk {
  organizationId : string;
  principalType : AuditActorType.t;
  principalId : string;
  route : string;
  key : string;
  request : object;
  now : Z;
  reuseInProgress : bool
}.
End IdempotencyInput.

Section idempotency.
Context `{Env}.

Definition requestHash (input : IdempotencyInput.t) : string :=
  sha256Hex (stableJson (IdempotencyInput.request input)).

(** What an existing record answers. *)
Definition resume (input : IdempotencyInput.t) (existing : IdempotencyRecord.t) :
    Result Exn Begun :=
  if negb (String.eqb (IdempotencyRecord.requestHash existing) (requestHash input)) then
    Throw (conflictFor "idempotency_replay")
  else match IdempotencyRecord.responseBody existing, IdempotencyRecord.responseStatus existing with
  | Some _, Some _ => Ok (Replay existing)
  | _, _ =>
    if IdempotencyInput.reuseInProgress input then Ok (Begin existing)
    else Throw (conflictFor "idempotency_in_progress")
  end.

(* [src: packages/application/src/documents/idempotency.ts:20-73 replayOrBeginIdempotency] *)
Definition replayOrBeginIdempotency (input : IdempotencyInput.t) : Run Begun :=
  let '(IdempotencyInput.mk organizationId principalType principalId route key request now _) :=
    input in
  existing ← IdempotencyRecords.find organizationId principalId route key;
  match existing with
  | Some existing => lift (resume input existing)
  | None =>
    id ← next_id;
    record ← IdempotencyRecords.create organizationId
      (IdempotencyRecord.mk id organizationId principalType principalId route key
         (requestHash input) None None None (now + idempotencyTtlMs)%Z now now);
    mret (Begin record)
  end.
End idempotency.

(** ** Notifications *)

(** The notifier the use cases call; whatever it does, the stores are not its
    business. *)
(* [src: packages/domain/src/ports/services.ts:143-145 Notifier] *)
Class Notifier : Type := {
  sendSigningInvitation : SigningInvitation.t → Run unit;
  notify_durable message s : durable (sendSigningInvitation message s).2 = durable s
}.

(* [src: packages/application/src/documents/notifications.ts:7-15 createMemoryNotifier] *)
#[local] Program Instance createMemoryNotifier : Notifier :=
  {| sendSigningInvitation message := modify (λ s, set_sent (s.(sent) ++ [message])%list s) |}.
Next Obligation. done. Qed.

(* [src: packages/application/src/documents/notifications.ts:17-26 createFailClosedNotifier] *)
#[local] Program Instance createFailClosedNotifier : Notifier :=
  {| sendSigningInvitation _ := throw (ExternalServiceError
       [("service", VStr "notification"); ("reason", VStr "notifier_unconfigured")]) |}.
Next Obligation. done. Qed.
