(* ===== verification/Contracts.v ===== *)
(** The public-document schema of [packages/contracts/src/documents.ts], which
    the void use case applies to a stored response before it replays it. *)

From Stdlib Require Import String.
From S2P Require Export UseCases.
Local Open Scope string_scope.

(** A strict object schema: the members, no others, each by its own schema. *)
Definition schema : Type := value → bool.

Definition strict (members : list (string * schema)) : schema := λ v,
  match v with
  | VObj m =>
    forallb (λ '(k, check), check (prop k m)) members &&
    forallb (λ k, bool_decide (k ∈ members.*1)) (keys m)
  | _ => false
  end.
Definition z_string (p : string → bool) : schema := λ v,
  match v with VStr s => p s | _ => false end.
Definition z_number (p : jsnum → bool) : schema := λ v,
  match v with VNum n => negb (isNaN n) && p n | _ => false end.
Definition z_boolean : schema := λ v, match v with VBool _ => true | _ => false end.
Definition z_nullable (s : schema) : schema := λ v, match v with VNull => true | _ => s v end.
Definition z_array (s : schema) : schema := λ v,
  match v with VArr l => forallb s l | _ => false end.
Definition z_enum (l : list string) : schema := z_string (λ s, bool_decide (s ∈ l)).

(** [.min(1)], [.int().positive()], [z.number()]. *)
Definition nonempty (s : string) : bool := negb (String.eqb s EmptyString).
Definition positive_int (n : jsnum) : bool := isInteger n && num_ltb (NInt 0) n.
Definition any_number (_ : jsnum) : bool := true.

(** [.min(k)], [.max(k)] on numbers and on lengths, [.optional()]. *)
Definition at_least (k : Z) (n : jsnum) : bool := negb (num_ltb n (NInt k)).
Definition at_most (k : Z) (n : jsnum) : bool := negb (num_ltb (NInt k) n).
Definition length_between (lo hi : Z) (n : nat) : bool :=
  ((lo <=? Z.of_nat n) && (Z.of_nat n <=? hi))%Z.
Definition z_optional (s : schema) : schema := λ v, match v with VUndef => true | _ => s v end.
Definition z_sized_array (lo hi : Z) (s : schema) : schema := λ v,
  match v with VArr l => length_between lo hi (length l) && forallb s l | _ => false end.
Definition z_sized_string (lo hi : Z) : schema :=
  z_string (λ s, length_between lo hi (String.length s)).
Definition z_true : schema := λ v, match v with VBool b => b | _ => false end.

(* [src: packages/contracts/src/documents.ts:16-16 documentInspectionStatusSchema] *)
Definition documentInspectionStatusSchema : schema := z_enum ["pending"; "accepted"; "rejected"].
(* [src: packages/contracts/src/documents.ts:17-17 signingModeSchema] *)
Definition signingModeSchema : schema := z_enum ["ordered"; "parallel"].
(* [src: packages/contracts/src/documents.ts:18-23 signatureFieldTypeSchema] *)
Definition signatureFieldTypeSchema : schema :=
  z_enum ["signature"; "initials"; "date_signed"; "signer_name"].
(* [src: packages/contracts/src/documents.ts:24-24 signerStatusSchema] *)
Definition signerStatusSchema : schema := z_enum ["pending"; "signed"; "declined"].

Section schemas.
Context `{Env}.

(* [src: packages/contracts/src/documents.ts:26-35 publicDocumentRevisionSchema] *)
Definition publicDocumentRevisionSchema : schema := strict
  [("revisionId", z_string zod_uuid);
   ("contentType", z_string (String.eqb "application/pdf"));
   ("sizeBytes", z_number positive_int);
   ("sha256Digest", z_string (matches SHA256_HEX));
   ("displayName", z_string nonempty);
   ("pageCount", z_number positive_int)].

(* [src: packages/contracts/src/documents.ts:37-45 publicSignerSchema] *)
Definition publicSignerSchema : schema := strict
  [("signerId", z_string zod_uuid);
   ("email", z_nullable (z_string zod_email));
   ("displayName", z_string nonempty);
   ("routingOrder", z_number positive_int);
   ("status", signerStatusSchema)].

(* [src: packages/contracts/src/documents.ts:47-59 publicSignatureFieldSchema] *)
Definition publicSignatureFieldSchema : schema := strict
  [("fieldId", z_string zod_uuid);
   ("signerId", z_string zod_uuid);
   ("type", signatureFieldTypeSchema);
   ("pageNumber", z_number positive_int);
   ("x", z_number any_number);
   ("y", z_number any_number);
   ("width", z_number any_number);
   ("height", z_number any_number);
   ("required", z_boolean)].

(* [src: packages/contracts/src/documents.ts:61-74 publicDocumentSchema] *)
Definition public_document_members : list (string * schema) :=
  [("documentId", z_string zod_uuid);
   ("title", z_string nonempty);
   ("state", z_string nonempty);
   ("signingMode", signingModeSchema);
   ("inspectionStatus", documentInspectionStatusSchema);
   ("displayName", z_nullable (z_string (λ _, true)));
   ("availableForSigning", z_boolean);
   ("currentRevision", z_nullable publicDocumentRevisionSchema);
   ("signers", z_array publicSignerSchema);
   ("fields", z_array publicSignatureFieldSchema)].
(* [src: packages/contracts/src/documents.ts:61-74 publicDocumentSchema] *)
Definition publicDocumentSchema : schema := strict public_document_members.
End schemas.
