(* ===== verification/Ingestion.v ===== *)
(** Document ingestion: the use cases of [create-draft-document.ts],
    [complete-source-upload.ts] and [inspect-document.ts] under
    [packages/application/src/documents/]. *)

From Stdlib Require Import String.
From S2P Require Export UseCases.
Local Open Scope string_scope.

(** An audit event of a use case. *)
Definition audit `{Env} (id organizationId documentId : string) (type : AuditEventType.t)
    (actorType : AuditActorType.t) (actorId : string) (occurredAt : Z) (payload : object)
    (requestId : option string) : Run AuditEvent.t :=
  append (NewAuditEvent.mk id organizationId documentId type actorType actorId (Some occurredAt)
            payload requestId).

Module CreateDraftDocumentInput.
(* [src: packages/application/src/documents/create-draft-document.ts:25-31 CreateDraftDocumentInput] *)
Record t : Type := mk {
  actor : AccountUserActor.t;
  title : string;
  filename : string;
  idempotencyKey : string;
  requestId : string
}.
End CreateDraftDocumentInput.

Module CompleteSourceUploadInput.
(* [src: packages/application/src/documents/complete-source-upload.ts:27-34 CompleteSourceUploadInput] *)
Record t : Type := mk {
  organizationId : string;
  documentId : string;
  rawToken : string;
  contentType : option string;
  body : list Z;
  requestId : string
}.
End CompleteSourceUploadInput.

Module InspectDocumentInput.
(* [src: packages/application/src/documents/inspect-document.ts:17-24 InspectDocumentInput] *)
Record t : Type := mk {
  organizationId : string;
  documentId : string;
  revisionId : string;
  jobId : string;
  outboxEventId : option string;
  requestId : option string
}.
End InspectDocumentInput.

Section ingestion.
Context `{Env} `{!AuthorizationPolicy} `{!UnitOfWork}.

(** ** Creating a draft *)

(* [src: packages/application/src/documents/create-draft-document.ts:202-231 replayCreateResponse] *)
Definition replayCreateResponse (body : option object) : Result Exn object :=
  match body with
  | None => Throw (IntegrityError (reasonOnly "idempotency_replay_missing_body"))
  | Some body =>
    let upload := prop "upload" body in
    let text key default_ := VStr (js_String (or_default (member key upload) (VStr default_))) in
    Ok [("documentId", VStr (js_String (prop "documentId" body)));
        ("title", VStr (js_String (prop "title" body)));
        ("state", prop "state" body);
        ("inspectionStatus", prop "inspectionStatus" body);
        ("signingMode", or_default (prop "signingMode" body) (VStr "ordered"));
        ("displayName", match prop "displayName" body with
                        | VNull => VNull
                        | v => VStr (js_String v)
                        end);
        ("availableForSigning", VBool (js_Boolean (prop "availableForSigning" body)));
        ("currentRevision", or_default (prop "currentRevision" body) VNull);
        ("signers", or_default (prop "signers" body) (VArr []));
        ("fields", or_default (prop "fields" body) (VArr []));
        ("upload", VObj
           [("url", text "url" EmptyString); ("method", VStr "PUT");
            ("expiresAt", text "expiresAt" EmptyString);
            ("maxBytes", VNum (js_Number (or_default (member "maxBytes" upload) (VInt 0))));
            ("contentType", text "contentType" PDF_CONTENT_TYPE);
            ("tokenHeader", text "tokenHeader" uploadTokenHeader);
            ("token", VNull)])]
  end.

Definition new_draft (id organizationId ownerMembershipId title displayName : string) (now : Z) :
    Document.t :=
  Document.mk id organizationId ownerMembershipId title DocumentState.draft SigningMode.ordered
    DocumentInspectionStatus.pending (Some displayName) None None None 1 None None 0 now now.

(** The checks before the idempotency record is opened. *)
Definition create_checks (input : CreateDraftDocumentInput.t) :
    Result Exn (string * string * string * string) :=
  let actor := account_user (CreateDraftDocumentInput.actor input) in
  organizationId ← organizationContextFromActor actor;
  assertAllowed actor AuthorizationAction.document_write (org_resource organizationId) ≫= λ _,
  idempotencyKey ← requireIdempotencyKey (Some (CreateDraftDocumentInput.idempotencyKey input));
  displayName ← sanitizeDisplayFilename (CreateDraftDocumentInput.filename input);
  let title := trim (CreateDraftDocumentInput.title input) in
  throw_if ((str_length title <? 1) || (200 <? str_length title))%Z
    (ValidationError (fieldReason "title" "invalid")) ≫= λ _,
  Ok (organizationId, idempotencyKey, displayName, title).

(* [src: packages/application/src/documents/create-draft-document.ts:59-197 createDraftDocument] *)
Definition createDraftDocument (input : CreateDraftDocumentInput.t) : Run object :=
  let user := CreateDraftDocumentInput.actor input in
  let actor := account_user user in
  '(organizationId, idempotencyKey, displayName, title) ← lift (create_checks input);
  begun ← (now ← nowUtc;
           replayOrBeginIdempotency (IdempotencyInput.mk organizationId
             AuditActorType.account_user (AccountUserActor.userId user) CREATE_DOCUMENT_ROUTE
             idempotencyKey [("title", VStr title);
                             ("filename", VStr (CreateDraftDocumentInput.filename input))]
             now false));
  match begun with
  | Replay record => lift (replayCreateResponse (IdempotencyRecord.responseBody record))
  | Begin record =>
    now ← nowUtc;
    documentId ← next_id;
    uploadSessionId ← next_id;
    rawToken ← generateRawToken;
    let tokenHash := token_hash rawToken in
    let expiresAt := (now + uploadTtlMs)%Z in
    let document := new_draft documentId organizationId (AccountUserActor.membershipId user)
                      title displayName now in
    run (Documents.create document;;
         UploadSessions.create (UploadSession.mk uploadSessionId organizationId documentId
           tokenHash UploadSessionStatus.issued displayName PDF_CONTENT_TYPE maxUploadBytes
           expiresAt None None now now);;
         auditId ← next_id;
         audit auditId organizationId documentId AuditEventType.document_created
           (actorType actor) (actorId actor) now
           [("documentId", VStr documentId); ("uploadSessionId", VStr uploadSessionId)]
           (Some (CreateDraftDocumentInput.requestId input)));;
    let upload :=
      [("url", VStr ("/organizations/" +:+ organizationId +:+ "/documents/" +:+ documentId
                     +:+ "/source"));
       ("method", VStr "PUT"); ("expiresAt", VStr (toISOString expiresAt));
       ("maxBytes", VInt maxUploadBytes); ("contentType", VStr PDF_CONTENT_TYPE);
       ("tokenHeader", VStr uploadTokenHeader)] in
    let public := toPublicDocument document None [] [] in
    let storedBody := (public ++ [("upload", VObj upload)])%list in
    IdempotencyRecords.complete organizationId (IdempotencyRecord.id record) 201 storedBody;;
    mret (public ++ [("upload", VObj (upload ++ [("token", VStr rawToken)]))])%list
  end.

(** ** Receiving the source *)

Definition source_integrity (reason : string) : Exn :=
  IntegrityError [("reason", VStr reason); ("code", VStr "SOURCE_INTEGRITY_FAILURE")].

(** Storing the bytes and reading them back. *)
Definition store_source (organizationId sha256Digest : string) (body : list Z) :
    Run string :=
  objectKey ← lift (sourceRevisionObjectKey organizationId sha256Digest);
  putObject (PutObjectInput.mk organizationId objectKey body PDF_CONTENT_TYPE
    (Some maxUploadBytes) (Some sha256Digest));;
  persistedObject ← getObject organizationId objectKey;
  match persistedObject with
  | None => throw (source_integrity "source_missing_after_put")
  | Some o =>
    let persistedDigest := sha256Bytes (StoredObject.body o) in
    if negb (String.eqb persistedDigest sha256Digest) ||
       negb (String.eqb (StoredObject.sha256Digest o) sha256Digest) ||
       negb (byteLength (StoredObject.body o) =? byteLength body)%Z
    then throw (source_integrity "source_digest_mismatch_after_put")
    else mret objectKey
  end.

(** The transaction that records the revision. *)
Definition record_source (session : UploadSession.t) (document : Document.t)
    (revisionId objectKey sha256Digest : string) (body : list Z) (now : Z) (requestId : string) :
    Run (Document.t * DocumentRevision.t) :=
  let organizationId := UploadSession.organizationId session in
  let documentId := UploadSession.documentId session in
  revision ← Revisions.create (DocumentRevision.mk revisionId organizationId documentId
    DocumentRevisionKind.source objectKey PDF_CONTENT_TYPE (byteLength body) sha256Digest
    (UploadSession.displayName session) (extractPdfPageCount body) now);
  updated ← Documents.attachSourceRevision organizationId documentId (Document.version document)
    revisionId (UploadSession.displayName session);
  UploadSessions.complete organizationId (UploadSession.id session) revisionId now;;
  auditId ← next_id;
  audit auditId organizationId documentId AuditEventType.revision_added
    AuditActorType.system "system" now
    [("revisionId", VStr revisionId); ("sizeBytes", VInt (byteLength body));
     ("sha256Digest", VStr sha256Digest)] (Some requestId);;
  eventId ← next_id;
  jobId ← next_id;
  Jobs.publish (Jobs.PublishInput.mk eventId organizationId (Some documentId)
    INSPECT_DOCUMENT_JOB_TYPE
    [("documentId", VStr documentId); ("revisionId", VStr revisionId)] (Some requestId) (Some now)
    (Some jobId) None);;
  mret (updated, revision).

(** An upload of a session that has no revision yet. *)
(* [src: packages/application/src/documents/complete-source-upload.ts:80-193 completeSourceUpload of an issued session] *)
Definition receive_source (input : CompleteSourceUploadInput.t) (session : UploadSession.t)
    (now : Z) : Run object :=
  let body := CompleteSourceUploadInput.body input in
  let organizationId := UploadSession.organizationId session in
  let documentId := UploadSession.documentId session in
  let status := UploadSession.status session in
  if negb (bool_decide (status = UploadSessionStatus.issued)) then
    throw (ConflictError [("reason", VStr "upload_session_not_issued");
                          ("status", VStr (UploadSessionStatus.to_string status))])
  else if (UploadSession.expiresAt session <=? now)%Z then
    throw (conflictFor "upload_expired")
  else
    lift (assertedPdfContentType (CompleteSourceUploadInput.contentType input));;
    lift (assertUploadSize body (Z.min (UploadSession.maxBytes session) maxUploadBytes));;
    lift (assertPdfMagicBytes body);;
    document ← Documents.findById organizationId documentId;
    match document with
    | None => throw (conflictFor "document_not_draft")
    | Some document =>
      if negb (bool_decide (Document.state document = DocumentState.draft)) then
        throw (conflictFor "document_not_draft")
      else if negb (bool_decide (Document.currentRevisionId document = None)) then
        throw (conflictFor "revision_already_present")
      else
        let sha256Digest := sha256Bytes body in
        objectKey ← store_source organizationId sha256Digest body;
        revisionId ← next_id;
        '(updated, revision) ← run (record_source session document revisionId objectKey
          sha256Digest body now (CompleteSourceUploadInput.requestId input));
        mret (toPublicDocument updated (Some revision) [] [])
    end.

(* [src: packages/application/src/documents/complete-source-upload.ts:50-193 completeSourceUpload] *)
Definition completeSourceUpload (input : CompleteSourceUploadInput.t) : Run object :=
  let tokenHash := token_hash (CompleteSourceUploadInput.rawToken input) in
  found ← UploadSessions.findByTokenHash tokenHash;
  match found with
  | None => throw (AuthenticationError (reasonOnly "upload_token"))
  | Some session =>
    let organizationId := UploadSession.organizationId session in
    let documentId := UploadSession.documentId session in
    if negb (String.eqb organizationId (CompleteSourceUploadInput.organizationId input)) ||
       negb (String.eqb documentId (CompleteSourceUploadInput.documentId input))
    then throw (notFound "document")
    else
      now ← nowUtc;
      match UploadSession.status session, UploadSession.revisionId session with
      | UploadSessionStatus.completed, Some (String _ _ as revisionId) =>
        document ← Documents.findById organizationId documentId;
        match document with
        | None => throw (notFound "document")
        | Some document =>
          revision ← Revisions.findById organizationId revisionId;
          mret (toPublicDocument document revision [] [])
        end
      | _, _ => receive_source input session now
      end
  end.

(** ** Inspecting the source *)

(** The bytes of a revision, checked against its metadata. *)
Definition checked_source (organizationId : string) (revision : DocumentRevision.t) :
    Run (list Z) :=
  stored ← getObject organizationId (DocumentRevision.objectKey revision);
  match stored with
  | None =>
    throw (ExternalServiceError [("service", VStr "object-storage"); ("reason", VStr "missing_object")])
  | Some o =>
    let body := StoredObject.body o in
    if negb (byteLength body =? DocumentRevision.sizeBytes revision)%Z then
      throw (source_integrity "source_size_mismatch")
    else
      let digest := sha256Bytes body in
      if negb (String.eqb digest (DocumentRevision.sha256Digest revision)) ||
         negb (String.eqb digest (StoredObject.sha256Digest o))
      then throw (source_integrity "source_digest_mismatch")
      else mret body
  end.

Definition onPdfFailure (category : string) : Run unit :=
  modify (λ s, set_pdfFailures (s.(pdfFailures) ++ [category]) s).

(* [src: packages/application/src/documents/inspect-document.ts:37-129 inspectDocument] *)
Definition inspectDocument (input : InspectDocumentInput.t) : Run DocumentInspectionStatus.t :=
  let '(InspectDocumentInput.mk organizationId documentId revisionId jobId outboxEventId
          requestId) := input in
  found ← Documents.findById organizationId documentId;
  match found with
  | None => throw (notFound "document")
  | Some document =>
    if negb (bool_decide (Document.inspectionStatus document = DocumentInspectionStatus.pending))
    then mret (if bool_decide (Document.inspectionStatus document = DocumentInspectionStatus.accepted)
               then DocumentInspectionStatus.accepted else DocumentInspectionStatus.rejected)
    else if negb (bool_decide (Document.currentRevisionId document = Some revisionId)) then
      throw (notFound "revision")
    else
      found ← Revisions.findById organizationId revisionId;
      match found with
      | None => throw (notFound "revision")
      | Some revision =>
        body ← checked_source organizationId revision;
        let outcome := inspect_pdf (DocumentRevision.contentType revision) body in
        let status := DocumentInspectionOutcome.status outcome in
        let reasonCode := DocumentInspectionOutcome.reasonCode outcome in
        (if bool_decide (status = DocumentInspectionStatus.rejected) then
           match pdfFailureCategoryFromReasonCode reasonCode with
           | Some category => onPdfFailure category
           | None => mret tt
           end
         else mret tt);;
        now ← nowUtc;
        run (Documents.setInspectionStatus organizationId documentId (Document.version document)
               status;;
             auditId ← next_id;
             audit auditId organizationId documentId
               (if bool_decide (status = DocumentInspectionStatus.accepted)
                then AuditEventType.inspection_accepted else AuditEventType.inspection_rejected)
               AuditActorType.worker jobId now
               ([("revisionId", VStr revisionId); ("reasonCode", VOptStr reasonCode);
                 ("jobType", VStr INSPECT_DOCUMENT_JOB_TYPE)] ++
                match outboxEventId with
                | Some (String _ _ as id) => [("outboxEventId", VStr id)]
                | _ => []
                end)%list requestId);;
        mret status
      end
  end.
End ingestion.
