(* ===== verification/Sending.v ===== *)
(** Preparing, sending and voiding a document, and the account user's control
    of signing sessions: [replace-preparation.ts], [send-document.ts],
    [void-document.ts] and [signing-sessions.ts] under
    [packages/application/src/documents/]. *)

From Stdlib Require Import String Ascii.
From S2P Require Export Ingestion Contracts.
Local Open Scope string_scope.

(** ** Inputs *)

Module SignerRow.
(* [src: packages/application/src/documents/replace-preparation.ts:36-41 ReplaceSignersInput row] *)
Record t : Type := mk {
  signerId : option string;
  email : string;
  displayName : string;
  routingOrder : jsnum
}.
End SignerRow.

Module ReplaceSignersInput.
(* [src: packages/application/src/documents/replace-preparation.ts:32-43 ReplaceSignersInput] *)
Record t : Type := mk {
  actor : AccountUserActor.t;
  documentId : string;
  signingMode : string;
  signers : list SignerRow.t;
  requestId : string
}.
End ReplaceSignersInput.

Module FieldRow.
(* [src: packages/application/src/documents/replace-preparation.ts:147-156 ReplaceFieldsInput row] *)
Record t : Type := mk {
  signerId : string;
  type : string;
  pageNumber : jsnum;
  x : jsnum;
  y : jsnum;
  width : jsnum;
  height : jsnum;
  required : option bool
}.
End FieldRow.

Module ReplaceFieldsInput.
(* [src: packages/application/src/documents/replace-preparation.ts:143-158 ReplaceFieldsInput] *)
Record t : Type := mk {
  actor : AccountUserActor.t;
  documentId : string;
  overlapPolicy : FieldOverlapPolicy.t;
  fields : list FieldRow.t;
  requestId : string
}.
End ReplaceFieldsInput.

Module SendDocumentInput.
(* [src: packages/application/src/documents/send-document.ts:33-39 SendDocumentInput] *)
Record t : Type := mk {
  actor : AccountUserActor.t;
  documentId : string;
  expiresAt : option string;
  idempotencyKey : string;
  requestId : string
}.
End SendDocumentInput.

Module VoidDocumentInput.
(* [src: packages/application/src/documents/void-document.ts:27-32 VoidDocumentInput] *)
Record t : Type := mk {
  actor : AccountUserActor.t;
  documentId : string;
  idempotencyKey : string;
  requestId : string
}.
End VoidDocumentInput.

Module RotateSigningSessionInput.
(* [src: packages/application/src/documents/signing-sessions.ts:24-29 RotateSigningSessionInput] *)
Record t : Type := mk {
  actor : AccountUserActor.t;
  documentId : string;
  signerId : string;
  requestId : string
}.
End RotateSigningSessionInput.

Module RevokeSigningSessionInput.
(* [src: packages/application/src/documents/signing-sessions.ts:159-164 RevokeSigningSessionInput] *)
Record t : Type := mk {
  actor : AccountUserActor.t;
  documentId : string;
  sessionId : string;
  requestId : string
}.
End RevokeSigningSessionInput.

(** ** Pure parts *)

(** [^[^\s@]+@[^\s@]+\.[^\s@]+$]: one at-sign, no white space, something before
    it, and after it a dot that is neither first nor last. *)
(* [src: packages/application/src/documents/replace-preparation.ts:30-30 EMAIL_PATTERN] *)
Definition EMAIL_PATTERN (email : string) : bool :=
  negb (existsb is_space (units email)) &&
  match split "@" email with
  | [user; domain] =>
    negb (String.eqb user EmptyString) &&
    existsb (is_char ".") (drop 1 (take (length (units domain) - 1) (units domain)))
  | _ => false
  end.

(* [src: packages/application/src/documents/replace-preparation.ts:306-320 assertEachSignerHasField] *)
Definition assertEachSignerHasField (signers : list Signer.t) (fields : list SignatureField.t) :
    Result Exn unit :=
  each (λ signer,
    throw_if (bool_decide (List.filter (λ f, String.eqb (SignatureField.signerId f)
                                              (Signer.id signer)) fields = []))
      (ValidationError [("field", VStr "fields"); ("reason", VStr "signer_missing_field");
                        ("signerId", VStr (Signer.id signer))])) signers.

(* [src: packages/application/src/documents/replace-preparation.ts:259-277 envelopeIsPrepared] *)
Definition envelopeIsPrepared (document : Document.t) (signers : list Signer.t)
    (fields : list SignatureField.t) : bool :=
  if negb (bool_decide (Document.inspectionStatus document = DocumentInspectionStatus.accepted)) ||
     bool_decide (Document.currentRevisionId document = None) then false
  else if ((length signers <? 1) || (length fields <? 1))%nat then false
  else is_ok (assertSignerRouting (Document.signingMode document) signers ≫= λ _,
              assertEachSignerHasField signers fields).

(** [new Set(l).size !== l.length]. *)
Fixpoint has_duplicates (l : list (option string)) : bool :=
  match l with
  | [] => false
  | x :: l => bool_decide (x ∈ l) || has_duplicates l
  end.

Definition account (a : AccountUserActor.t) : RequestActor := account_user a.

Section sending.
Context `{Env} `{!AuthorizationPolicy} `{!UnitOfWork} `{!Notifier}.

(* [src: packages/application/src/documents/send-document.ts:238-247 parseExpiresAt] *)
Definition parseExpiresAt (value : option string) (now : Z) : Result Exn (option Z) :=
  match value with
  | None | Some EmptyString => Ok None
  | Some value =>
    match parse_date value with
    | Some parsed =>
      if (parsed <=? now)%Z then Throw (ValidationError (fieldReason "expiresAt" "not_in_future"))
      else Ok (Some parsed)
    | None => Throw (ValidationError (fieldReason "expiresAt" "not_in_future"))
    end
  end.

(* [src: packages/application/src/documents/replace-preparation.ts:322-357 toSigner] *)
Definition toSigner (organizationId documentId : string) (existingIds : list string) (now : Z)
    (row : SignerRow.t) : Run Signer.t :=
  let email := toLowerCase (trim (SignerRow.email row)) in
  if negb (EMAIL_PATTERN email) then throw (ValidationError (fieldReason "email" "invalid")) else
  let displayName := trim (SignerRow.displayName row) in
  if ((str_length displayName <? 1) || (120 <? str_length displayName))%Z then
    throw (ValidationError (fieldReason "displayName" "invalid"))
  else
    signerId ← match SignerRow.signerId row with Some id => mret id | None => next_id end;
    if match SignerRow.signerId row with
       | Some id => negb (bool_decide (id ∈ existingIds))
       | None => false
       end then throw (ValidationError (fieldReason "signerId" "unknown_signer"))
    else mret (Signer.mk signerId organizationId documentId None (SignerRow.routingOrder row)
                 SignerStatus.pending (Some email) displayName 1 None None now now).

(* [src: packages/application/src/documents/replace-preparation.ts:359-369 requireDocument] *)
Definition requireDocument (organizationId documentId : string) : Run Document.t :=
  document ← Documents.findById organizationId documentId;
  match document with
  | None => throw (notFound "document")
  | Some document => mret document
  end.

(* [src: packages/application/src/documents/replace-preparation.ts:371-379 loadRevision] *)
Definition loadRevision (document : Document.t) : Run (option DocumentRevision.t) :=
  match Document.currentRevisionId document with
  | None => mret None
  | Some revisionId => Revisions.findById (Document.organizationId document) revisionId
  end.

(* [src: packages/application/src/documents/replace-preparation.ts:279-304 maybeMarkPrepared] *)
Definition maybeMarkPrepared (document : Document.t) (signers : list Signer.t)
    (fields : list SignatureField.t) : Run Document.t :=
  let nextState := if envelopeIsPrepared document signers fields
                   then DocumentState.prepared else DocumentState.draft in
  if bool_decide (Document.state document = nextState) then mret document
  else if negb (canTransitionDocument (Document.state document) nextState) then mret document
  else Documents.setPreparationState (Document.organizationId document) (Document.id document)
         (Document.version document) nextState.

(** ** Replacing the signers *)

(** The transaction that stores the signers and drops the fields of others. *)
Definition store_signers (input : ReplaceSignersInput.t) (organizationId : string)
    (document : Document.t) (signingMode : SigningMode.t) (signers : list Signer.t) (now : Z) :
    Run (Document.t * list Signer.t * list SignatureField.t) :=
  let user := ReplaceSignersInput.actor input in
  let documentId := Document.id document in
  replaced ← Signers.replaceAll organizationId documentId signers;
  fields ← SignatureFields.listByDocument organizationId documentId;
  let signerIds := Signer.id <$> replaced in
  let keptFields := List.filter (λ f, bool_decide (SignatureField.signerId f ∈ signerIds)) fields in
  (if negb (length keptFields =? length fields)%nat
   then SignatureFields.replaceAll organizationId documentId keptFields;; mret tt
   else mret tt);;
  next ← Documents.setSigningMode organizationId documentId (Document.version document) signingMode;
  loadRevision next;;
  next ← maybeMarkPrepared next replaced keptFields;
  auditId ← next_id;
  audit auditId organizationId documentId AuditEventType.signers_updated
    (actorType (account user)) (actorId (account user)) now
    [("signerIds", VArr (VStr <$> (Signer.id <$> replaced)));
     ("signingMode", VStr (SigningMode.to_string signingMode))]
    (Some (ReplaceSignersInput.requestId input));;
  mret (next, replaced, keptFields).

(* [src: packages/application/src/documents/replace-preparation.ts:55-138 replaceDocumentSigners] *)
Definition replaceDocumentSigners (input : ReplaceSignersInput.t) : Run object :=
  let actor := account (ReplaceSignersInput.actor input) in
  organizationId ← lift (organizationContextFromActor actor);
  lift (assertAllowed actor AuthorizationAction.document_write
          (doc_resource organizationId (ReplaceSignersInput.documentId input)));;
  document ← requireDocument organizationId (ReplaceSignersInput.documentId input);
  lift (assertPreparationUnlocked document);;
  signingMode ← lift (assertedSigningMode (ReplaceSignersInput.signingMode input));
  now ← nowUtc;
  existing ← Signers.listByDocument organizationId (Document.id document);
  signers ← map_each (toSigner organizationId (Document.id document) (Signer.id <$> existing) now)
              (ReplaceSignersInput.signers input);
  lift (assertSignerRouting signingMode signers);;
  lift (throw_if (has_duplicates (Signer.email <$> signers))
          (ValidationError (fieldReason "email" "duplicate")));;
  '(next, replaced, keptFields) ←
    run (store_signers input organizationId document signingMode signers now);
  revision ← loadRevision next;
  mret (toPublicDocument next revision replaced keptFields).

(** ** Replacing the fields *)

(** The field a row asks for. *)
Definition toField (organizationId documentId : string) (signerIds : list string) (now : Z)
    (row : FieldRow.t) : Run SignatureField.t :=
  if negb (bool_decide (FieldRow.signerId row ∈ signerIds)) then
    throw (ValidationError (fieldReason "signerId" "unknown_signer"))
  else match list_find (λ t, SignatureFieldType.to_string t = FieldRow.type row)
               SignatureFieldType.all with
  | None => throw (ValidationError (fieldReason "type" "invalid"))
  | Some (_, type) =>
    id ← next_id;
    mret (SignatureField.mk id organizationId documentId (FieldRow.signerId row) type
            (FieldRow.pageNumber row) (FieldRow.x row) (FieldRow.y row) (FieldRow.width row)
            (FieldRow.height row) (default true (FieldRow.required row))
            None None None None None None now now)
  end.

(** The transaction that stores the fields. *)
Definition store_fields (input : ReplaceFieldsInput.t) (organizationId : string)
    (document : Document.t) (signers : list Signer.t) (fields : list SignatureField.t) (now : Z) :
    Run (Document.t * list SignatureField.t) :=
  let user := ReplaceFieldsInput.actor input in
  replaced ← SignatureFields.replaceAll organizationId (Document.id document) fields;
  next ← maybeMarkPrepared document signers replaced;
  auditId ← next_id;
  audit auditId organizationId (Document.id document) AuditEventType.fields_updated
    (actorType (account user)) (actorId (account user)) now
    [("fieldIds", VArr (VStr <$> (SignatureField.id <$> replaced)))]
    (Some (ReplaceFieldsInput.requestId input));;
  mret (next, replaced).

(* [src: packages/application/src/documents/replace-preparation.ts:170-254 replaceDocumentFields] *)
Definition replaceDocumentFields (input : ReplaceFieldsInput.t) : Run object :=
  let actor := account (ReplaceFieldsInput.actor input) in
  organizationId ← lift (organizationContextFromActor actor);
  lift (assertAllowed actor AuthorizationAction.document_write
          (doc_resource organizationId (ReplaceFieldsInput.documentId input)));;
  document ← requireDocument organizationId (ReplaceFieldsInput.documentId input);
  lift (assertPreparationUnlocked document);;
  found ← loadRevision document;
  match found with
  | None => throw (ValidationError (reasonOnly "missing_revision"))
  | Some revision =>
    signers ← Signers.listByDocument organizationId (Document.id document);
    lift (throw_if (length signers =? 0)%nat (ValidationError (fieldReason "signers" "empty")));;
    now ← nowUtc;
    fields ← map_each (toField organizationId (Document.id document) (Signer.id <$> signers) now)
               (ReplaceFieldsInput.fields input);
    lift (assertFieldLayout (FieldBox.of_field <$> fields) (DocumentRevision.pageCount revision)
            (ReplaceFieldsInput.overlapPolicy input));;
    lift (assertEachSignerHasField signers fields);;
    '(next, replaced) ← run (store_fields input organizationId document signers fields now);
    mret (toPublicDocument next (Some revision) signers replaced)
  end.

(** ** Sending *)

(* [src: packages/application/src/documents/send-document.ts:31-31 SEND_DOCUMENT_ROUTE] *)
Definition SEND_DOCUMENT_ROUTE : string :=
  "POST /organizations/:organizationId/documents/:documentId/send".

(* [src: packages/application/src/documents/send-document.ts:249-275 replaySendResponse] *)
Definition replaySendResponse (body : option object) : Result Exn object :=
  match body with
  | None => Throw (IntegrityError (reasonOnly "idempotency_replay_missing_body"))
  | Some body =>
    let invitations := match prop "invitations" body with VArr l => l | _ => [] end in
    Ok [("documentId", VStr (js_String (prop "documentId" body)));
        ("title", VStr (js_String (prop "title" body)));
        ("state", prop "state" body);
        ("signingMode", prop "signingMode" body);
        ("inspectionStatus", prop "inspectionStatus" body);
        ("displayName", match prop "displayName" body with
                        | VNull => VNull
                        | v => VStr (js_String v)
                        end);
        ("availableForSigning", VBool (js_Boolean (prop "availableForSigning" body)));
        ("currentRevision", or_default (prop "currentRevision" body) VNull);
        ("signers", or_default (prop "signers" body) (VArr []));
        ("fields", or_default (prop "fields" body) (VArr []));
        ("invitations", VArr ((λ row, VObj
           [("signerId", VStr (js_String (member "signerId" row)));
            ("sessionId", VStr (js_String (member "sessionId" row)));
            ("expiresAt", VStr (js_String (member "expiresAt" row)));
            ("token", VNull)]) <$> invitations))]
  end.

(** A freshly issued session. *)
Definition new_session (id organizationId documentId signerId tokenHash : string)
    (expiresAt now : Z) (requestId : string) : SigningSession.t :=
  SigningSession.mk id organizationId documentId signerId tokenHash None
    SigningSessionStatus.issued expiresAt None None None 0 0 None (Some requestId) 1 now now.

(** One signer's turn of the loop: a session, its audit event and its job. *)
Definition issue_session (user : AccountUserActor.t) (organizationId documentId : string)
    (now : Z) (requestId : string) (signer : Signer.t) : Run (SigningSession.t * string) :=
  open ← SigningSessions.listOpenBySigner organizationId (Signer.id signer);
  if negb (length open =? 0)%nat then
    throw (ConflictError [("reason", VStr "duplicate_open_session");
                          ("signerId", VStr (Signer.id signer))])
  else
    rawToken ← generateRawToken;
    id ← next_id;
    let session := new_session id organizationId documentId (Signer.id signer)
                     (token_hash rawToken) (now + sessionTtlMs)%Z now requestId in
    SigningSessions.create organizationId session;;
    auditId ← next_id;
    audit auditId organizationId documentId AuditEventType.session_issued
      (actorType (account user)) (actorId (account user)) now
      [("signerId", VStr (Signer.id signer)); ("sessionId", VStr id)] (Some requestId);;
    eventId ← next_id;
    jobId ← next_id;
    Jobs.publish (Jobs.PublishInput.mk eventId organizationId (Some documentId)
      NOTIFY_SIGNER_JOB_TYPE
      [("signerId", VStr (Signer.id signer)); ("sessionId", VStr id)]
      (Some requestId) (Some now) (Some jobId) None);;
    mret (session, rawToken).

(** The transaction that marks the document sent and issues the sessions. *)
Definition send_transaction (user : AccountUserActor.t) (organizationId requestId : string)
    (document : Document.t) (revision : DocumentRevision.t) (signers : list Signer.t)
    (expiresAt : option Z) (now : Z) : Run (Document.t * list (SigningSession.t * string)) :=
  let documentId := Document.id document in
  updated ← Documents.markSent organizationId documentId (Document.version document)
    (DocumentRevision.id revision) expiresAt;
  issued ← map_each (issue_session user organizationId documentId now requestId) signers;
  auditId ← next_id;
  audit auditId organizationId documentId AuditEventType.document_sent
    (actorType (account user)) (actorId (account user)) now
    [("signingRevisionId", VStr (DocumentRevision.id revision));
     ("sessionIds", VArr (VStr <$> (SigningSession.id ∘ fst <$> issued)))] (Some requestId);;
  mret (updated, issued).

Definition invitation (with_token : bool) (row : SigningSession.t * string) : value :=
  VObj ([("signerId", VStr (SigningSession.signerId row.1));
         ("sessionId", VStr (SigningSession.id row.1));
         ("expiresAt", VStr (toISOString (SigningSession.expiresAt row.1)))] ++
        if with_token then [("token", VStr row.2)] else [])%list.

(* [src: packages/application/src/documents/send-document.ts:67-233 sendDocument] *)
Definition sendDocument (input : SendDocumentInput.t) : Run object :=
  let user := SendDocumentInput.actor input in
  let actor := account user in
  organizationId ← lift (organizationContextFromActor actor);
  lift (assertAllowed actor AuthorizationAction.document_send
          (doc_resource organizationId (SendDocumentInput.documentId input)));;
  idempotencyKey ← lift (requireIdempotencyKey (Some (SendDocumentInput.idempotencyKey input)));
  begun ← (now ← nowUtc;
           replayOrBeginIdempotency (IdempotencyInput.mk organizationId
             AuditActorType.account_user (AccountUserActor.userId user) SEND_DOCUMENT_ROUTE
             idempotencyKey [("documentId", VStr (SendDocumentInput.documentId input));
                             ("expiresAt", VOptStr (SendDocumentInput.expiresAt input))]
             now false));
  match begun with
  | Replay record => lift (replaySendResponse (IdempotencyRecord.responseBody record))
  | Begin record =>
    document ← requireDocument organizationId (SendDocumentInput.documentId input);
    lift (assertReadyToSend document);;
    found ← match Document.currentRevisionId document with
            | None => mret None
            | Some revisionId => Revisions.findById organizationId revisionId
            end;
    match found with
    | None => throw (ValidationError (reasonOnly "missing_revision"))
    | Some revision =>
      signers ← Signers.listByDocument organizationId (Document.id document);
      fields ← SignatureFields.listByDocument organizationId (Document.id document);
      lift (throw_if (negb (envelopeIsPrepared document signers fields))
              (ValidationError (reasonOnly "envelope_incomplete")));;
      now ← nowUtc;
      expiresAt ← lift (parseExpiresAt (SendDocumentInput.expiresAt input) now);
      '(sentDocument, issued) ← run (send_transaction user organizationId
        (SendDocumentInput.requestId input) document revision signers expiresAt now);
      for_each (λ row : SigningSession.t * string,
        let signer := find_row (λ item, String.eqb (Signer.id item)
                                          (SigningSession.signerId row.1)) signers in
        sendSigningInvitation (SigningInvitation.mk organizationId (Document.id document)
          (SigningSession.signerId row.1) (SigningSession.id row.1) (signer ≫= Signer.email)
          (SigningSession.expiresAt row.1) None (Some row.2))) issued;;
      let public := toPublicDocument sentDocument (Some revision) signers fields in
      IdempotencyRecords.complete organizationId (IdempotencyRecord.id record) 200
        (public ++ [("invitations", VArr (invitation false <$> issued))])%list;;
      mret (public ++ [("invitations", VArr (invitation true <$> issued))])%list
    end
  end.

(** ** Voiding *)

(* [src: packages/application/src/documents/void-document.ts:25-25 VOID_DOCUMENT_ROUTE] *)
Definition VOID_DOCUMENT_ROUTE : string :=
  "POST /organizations/:organizationId/documents/:documentId/void".

(* [src: packages/application/src/documents/void-document.ts:142-165 replayVoidResponse] *)
Definition replayVoidResponse (body : option object) : Result Exn object :=
  let missing := IntegrityError (reasonOnly "idempotency_replay_missing_body") in
  match body with
  | None => Throw missing
  | Some body =>
    if negb (publicDocumentSchema (VObj body)) then Throw missing
    else if negb (match prop "state" body with
                  | VStr s => String.eqb s "voided" | _ => false end)
    then Throw (conflictFor "document_not_voidable")
    else Ok ((λ k, (k, if String.eqb k "state" then VStr "voided" else prop k body)) <$>
             ["documentId"; "title"; "state"; "signingMode"; "inspectionStatus"; "displayName";
              "availableForSigning"; "currentRevision"; "signers"; "fields"])
  end.

(** Revoking the open sessions of a document; the ids of those revoked. *)
Fixpoint revoke_open (organizationId : string) (now : Z) (sessions : list SigningSession.t) :
    Run (list string) :=
  match sessions with
  | [] => mret []
  | session :: sessions =>
    if SigningSessions.is_open session then
      SigningSessions.revoke organizationId (SigningSession.id session) now;;
      revoked ← revoke_open organizationId now sessions;
      mret (SigningSession.id session :: revoked)
    else revoke_open organizationId now sessions
  end.

(** The transaction that voids the document. *)
Definition void_transaction (user : AccountUserActor.t) (organizationId requestId : string)
    (document : Document.t) (now : Z) : Run Document.t :=
  let documentId := Document.id document in
  next ← Documents.markVoided organizationId documentId (Document.version document);
  open ← SigningSessions.listByDocument organizationId documentId;
  revokedSessionIds ← revoke_open organizationId now open;
  auditId ← next_id;
  audit auditId organizationId documentId AuditEventType.document_voided
    (actorType (account user)) (actorId (account user)) now
    [("previousState", VStr (DocumentState.to_string (Document.state document)));
     ("sessionIds", VArr (VStr <$> revokedSessionIds))] (Some requestId);;
  mret next.

(* [src: packages/application/src/documents/void-document.ts:47-137 voidDocument] *)
Definition voidDocument (input : VoidDocumentInput.t) : Run object :=
  let user := VoidDocumentInput.actor input in
  let actor := account user in
  organizationId ← lift (organizationContextFromActor actor);
  lift (assertAllowed actor AuthorizationAction.document_void
          (doc_resource organizationId (VoidDocumentInput.documentId input)));;
  idempotencyKey ← lift (requireIdempotencyKey (Some (VoidDocumentInput.idempotencyKey input)));
  begun ← (now ← nowUtc;
           replayOrBeginIdempotency (IdempotencyInput.mk organizationId
             AuditActorType.account_user (AccountUserActor.userId user) VOID_DOCUMENT_ROUTE
             idempotencyKey [("documentId", VStr (VoidDocumentInput.documentId input))]
             now false));
  match begun with
  | Replay record => lift (replayVoidResponse (IdempotencyRecord.responseBody record))
  | Begin record =>
    document ← requireDocument organizationId (VoidDocumentInput.documentId input);
    lift (assertDocumentTransition (Document.state document) DocumentState.voided);;
    now ← nowUtc;
    voided ← run (void_transaction user organizationId (VoidDocumentInput.requestId input)
                    document now);
    revision ← match Document.currentRevisionId voided with
               | None => mret None
               | Some revisionId => Revisions.findById organizationId revisionId
               end;
    signers ← Signers.listByDocument organizationId (Document.id voided);
    fields ← SignatureFields.listByDocument organizationId (Document.id voided);
    let body := toPublicDocument voided revision signers fields in
    IdempotencyRecords.complete organizationId (IdempotencyRecord.id record) 200 body;;
    mret body
  end.

(** ** Rotating and revoking sessions *)

(** The transaction that replaces a signer's open sessions by a new one. *)
Definition rotate_transaction (user : AccountUserActor.t) (organizationId requestId : string)
    (document : Document.t) (signer : Signer.t) (session : SigningSession.t) (now : Z) : Run unit :=
  let log auditId type payload :=
    audit auditId organizationId (Document.id document) type
      (actorType (account user)) (actorId (account user)) now payload (Some requestId) in
  open ← SigningSessions.listOpenBySigner organizationId (Signer.id signer);
  for_each (λ old,
    SigningSessions.revoke organizationId (SigningSession.id old) now;;
    auditId ← next_id;
    log auditId AuditEventType.session_revoked
      [("signerId", VStr (Signer.id signer)); ("sessionId", VStr (SigningSession.id old));
       ("reason", VStr "rotated")];;
    mret tt) open;;
  SigningSessions.create organizationId session;;
  auditId ← next_id;
  log auditId AuditEventType.session_issued
    [("signerId", VStr (Signer.id signer)); ("sessionId", VStr (SigningSession.id session));
     ("reason", VStr "rotated")];;
  mret tt.

(* [src: packages/application/src/documents/signing-sessions.ts:51-154 rotateSigningSession] *)
Definition rotateSigningSession (input : RotateSigningSessionInput.t) : Run object :=
  let user := RotateSigningSessionInput.actor input in
  let actor := account user in
  let signerId := RotateSigningSessionInput.signerId input in
  organizationId ← lift (organizationContextFromActor actor);
  lift (assertAllowed actor AuthorizationAction.document_send
          (AuthorizationResource.mk organizationId
             (Some (RotateSigningSessionInput.documentId input)) (Some signerId)));;
  found ← Documents.findById organizationId (RotateSigningSessionInput.documentId input);
  match found with
  | None => throw (conflictFor "document_not_signable")
  | Some document =>
    if negb (isAvailableForSigning document) then throw (conflictFor "document_not_signable") else
    found ← Signers.findById organizationId signerId;
    match found with
    | None => throw (notFound "signer")
    | Some row =>
      if negb (String.eqb (Signer.documentId row) (Document.id document)) then
        throw (notFound "signer")
      else
        now ← nowUtc;
        rawToken ← generateRawToken;
        sessionId ← next_id;
        let expiresAt := (now + sessionTtlMs)%Z in
        let session := new_session sessionId organizationId (Document.id document)
                         (Signer.id row) (token_hash rawToken) expiresAt now
                         (RotateSigningSessionInput.requestId input) in
        run (rotate_transaction user organizationId (RotateSigningSessionInput.requestId input)
               document row session now);;
        sendSigningInvitation (SigningInvitation.mk organizationId (Document.id document)
          (Signer.id row) sessionId (Signer.email row) expiresAt None (Some rawToken));;
        mret [("signerId", VStr (Signer.id row)); ("sessionId", VStr sessionId);
              ("expiresAt", VStr (toISOString expiresAt)); ("token", VStr rawToken)]
    end
  end.

(* [src: packages/application/src/documents/signing-sessions.ts:174-217 revokeSigningSession] *)
Definition revokeSigningSession (input : RevokeSigningSessionInput.t) : Run object :=
  let user := RevokeSigningSessionInput.actor input in
  let actor := account user in
  organizationId ← lift (organizationContextFromActor actor);
  lift (assertAllowed actor AuthorizationAction.document_send
          (doc_resource organizationId (RevokeSigningSessionInput.documentId input)));;
  document ← requireDocument organizationId (RevokeSigningSessionInput.documentId input);
  found ← SigningSessions.findById organizationId (RevokeSigningSessionInput.sessionId input);
  match found with
  | None => throw (notFound "signing_session")
  | Some session =>
    if negb (String.eqb (SigningSession.documentId session) (Document.id document)) then
      throw (notFound "signing_session")
    else
      now ← nowUtc;
      run (SigningSessions.revoke organizationId (SigningSession.id session) now;;
           auditId ← next_id;
           audit auditId organizationId (Document.id document) AuditEventType.session_revoked
             (actorType actor) (actorId actor) now
             [("signerId", VStr (SigningSession.signerId session));
              ("sessionId", VStr (SigningSession.id session))]
             (Some (RevokeSigningSessionInput.requestId input)));;
      mret [("sessionId", VStr (SigningSession.id session)); ("status", VStr "revoked")]
  end.

(** ** Resolving a token *)

Definition signing_token : Exn := AuthenticationError (reasonOnly "signing_token").

(* [src: packages/application/src/documents/signing-sessions.ts:250-314 resolveSigningSession] *)
Definition resolveSigningSession (rawToken : string) : Run object :=
  found ← SigningSessions.findByTokenHash (token_hash rawToken);
  match found with
  | None => throw signing_token
  | Some session =>
    let organizationId := SigningSession.organizationId session in
    if bool_decide (SigningSession.status session ∈ [SigningSessionStatus.revoked;
         SigningSessionStatus.completed; SigningSessionStatus.expired])
    then throw signing_token
    else
      now ← nowUtc;
      if (SigningSession.expiresAt session <=? now)%Z then
        (if SigningSessions.is_open session
         then SigningSessions.markExpired organizationId (SigningSession.id session) now;; mret tt
         else mret tt);;
        throw signing_token
      else if negb (SigningSessions.is_open session) then throw signing_token
      else
        presented ← (if bool_decide (SigningSession.status session = SigningSessionStatus.issued)
                     then SigningSessions.markPresented organizationId
                            (SigningSession.id session) now
                     else mret session);
        document ← Documents.findById organizationId (SigningSession.documentId session);
        match document with
        | None => throw (conflictFor "document_not_signable")
        | Some document =>
          if negb (isAvailableForSigning document) then
            throw (conflictFor "document_not_signable")
          else
            fields ← SignatureFields.listByDocument organizationId
                       (SigningSession.documentId session);
            mret [("documentId", VStr (SigningSession.documentId session));
                  ("signerId", VStr (SigningSession.signerId session));
                  ("sessionId", VStr (SigningSession.id presented));
                  ("sessionStatus",
                    VStr (if bool_decide (SigningSession.status presented =
                                          SigningSessionStatus.active)
                          then "active" else "issued"));
                  ("title", VStr (Document.title document));
                  ("signingMode", VStr (SigningMode.to_string (Document.signingMode document)));
                  ("expiresAt", VStr (toISOString (SigningSession.expiresAt session)));
                  ("fields", VArr ((λ f, VObj
                     [("fieldId", VStr (SignatureField.id f));
                      ("type", VStr (SignatureFieldType.to_string (SignatureField.type f)));
                      ("pageNumber", VNum (SignatureField.pageNumber f));
                      ("required", VBool (SignatureField.required f))]) <$>
                     List.filter (λ f, String.eqb (SignatureField.signerId f)
                                         (SigningSession.signerId session)) fields))]
        end
  end.
End sending.
