(* ===== verification/Signing.v ===== *)
(** The signer's side: loading a session from its token, exchanging the token,
    viewing, consenting, declining and completing, from
    [packages/application/src/signing/]. *)

From Stdlib Require Import String Ascii.
From S2P Require Export Sending.
Local Open Scope string_scope.

Module LoadedSignerSession.
(* [src: packages/application/src/signing/load-signer-session.ts:19-24 LoadedSignerSession] *)
Record t : Type := mk {
  actor : SignerActor.t;
  session : SigningSession.t;
  document : Document.t;
  signer : Signer.t
}.
End LoadedSignerSession.

Module LoadSignerSessionInput.
(* [src: packages/application/src/signing/load-signer-session.ts:26-31 LoadSignerSessionInput] *)
Record t : Type := mk {
  rawToken : string;
  requireExchanged : bool;
  allowCompleted : bool;
  accountUserId : option string
}.
End LoadSignerSessionInput.

Module ClientRequestMetadata.
(* [src: packages/domain/src/ports/services.ts:147-150 ClientRequestMetadata] *)
Record t : Type := mk {
  untrustedClientIp : option string;
  untrustedUserAgent : option string
}.
End ClientRequestMetadata.

Module RecordSignerConsentInput.
(* [src: packages/application/src/signing/signer-mutations.ts:23-30 RecordSignerConsentInput] *)
Record t : Type := mk {
  rawToken : string;
  copyId : string;
  accepted : bool;
  requestId : string;
  metadata : ClientRequestMetadata.t;
  accountUserId : option string
}.
End RecordSignerConsentInput.

Module DeclineToSignInput.
(* [src: packages/application/src/signing/signer-mutations.ts:38-44 DeclineToSignInput] *)
Record t : Type := mk {
  rawToken : string;
  reason : option string;
  requestId : string;
  accountUserId : option string
}.
End DeclineToSignInput.

Module CompleteSigningInput.
(* [src: packages/application/src/signing/complete-signing.ts:32-42 CompleteSigningInput] *)
Record t : Type := mk {
  rawToken : string;
  consentCopyId : string;
  intentToSign : bool;
  fieldIds : list string;
  signature : option string;
  initials : option string;
  idempotencyKey : string;
  requestId : string;
  accountUserId : option string
}.
End CompleteSigningInput.

(** ** Pure parts *)

(* [src: packages/application/src/auth/csrf.ts:66-73 equalUtf8] *)
Definition hashesEqual (left right : string) : bool := String.eqb left right.

(** Printable characters: [code >= 32 && code !== 127]. *)
Definition printable (c : ascii) : bool := (32 <=? code c)%Z && negb (code c =? 127)%Z.
Definition stripControls (v : string) : string := of_units (List.filter printable (units v)).

(* [src: packages/application/src/signing/signer-mutations.ts:282-298 sanitizeDeclineReason] *)
Definition sanitizeDeclineReason (value : option string) : option string :=
  match value with
  | None => None
  | Some value =>
    let cleaned := trim (stripControls value) in
    if String.eqb cleaned EmptyString then None else Some (slice_to 500 cleaned)
  end.

(* [src: packages/application/src/signing/request-metadata.ts:34-43 sanitize] *)
Definition sanitize (value : option string) (maxLength : Z) : option string :=
  match value with
  | None => None
  | Some value =>
    let cleaned := trim (stripControls value) in
    if String.eqb cleaned EmptyString then None else Some (slice_to maxLength cleaned)
  end.

(* [src: packages/application/src/signing/request-metadata.ts:26-32 firstForwarded] *)
Definition firstForwarded (value : option string) : option string :=
  match value with
  | None => None
  | Some value =>
    if String.eqb (trim value) EmptyString then None else trim <$> head (split "," value)
  end.

(* [src: packages/application/src/signing/request-metadata.ts:14-24 clientRequestMetadataFromHeaders] *)
Definition clientRequestMetadataFromHeaders (forwardedFor remoteAddress userAgent : option string) :
    ClientRequestMetadata.t :=
  let forwarded := firstForwarded forwardedFor in
  ClientRequestMetadata.mk
    (sanitize (match forwarded with Some f => Some f | None => remoteAddress end) 64)
    (sanitize userAgent 256).

(* [src: packages/application/src/signing/complete-signing.ts:286-288 allRequiredSigned] *)
Definition allRequiredSigned (statuses : list SignerStatus.t) : bool :=
  forallb (λ s, bool_decide (s = SignerStatus.signed)) statuses.

(* [src: packages/application/src/signing/complete-signing.ts:290-306 selectFields] *)
Definition selectFields (signerFields : list SignatureField.t) (fieldIds : list string) :
    Result Exn (list SignatureField.t) :=
  let requested := remove_dups fieldIds in
  let selected := List.filter (λ f, bool_decide (SignatureField.id f ∈ requested)) signerFields in
  throw_if (negb (length selected =? length requested)%nat)
    (ValidationError (fieldReason "fieldIds" "unknown_field")) ≫= λ _,
  each (λ f, throw_if (negb (bool_decide (SignatureField.id f ∈ requested)))
               (ValidationError (fieldReason "fieldIds" "required_field_missing")))
    (List.filter SignatureField.required signerFields) ≫= λ _,
  Ok selected.

Definition has_type (type : SignatureFieldType.t) (f : SignatureField.t) : bool :=
  bool_decide (SignatureField.type f = type).

(* [src: packages/application/src/signing/complete-signing.ts:308-319 assertInkForFields] *)
Definition assertInkForFields (fields : list SignatureField.t) (hasSignature hasInitials : bool) :
    Result Exn unit :=
  throw_if (existsb (has_type SignatureFieldType.signature) fields && negb hasSignature)
    (ValidationError (fieldReason "signature" "required")) ≫= λ _,
  throw_if (existsb (has_type SignatureFieldType.initials) fields && negb hasInitials)
    (ValidationError (fieldReason "initials" "required")).

Section signing.
Context `{Env} `{!AuthorizationPolicy} `{!UnitOfWork}.

(** ** The session behind a token *)

Definition rejectToken {A} : Run A := throw signing_token.

Definition onSigningCompletion (outcome : string) : Run unit :=
  modify (λ s, set_completions (s.(completions) ++ [outcome])%list s).

(** The account check of the envelope policy. *)
Definition account_matches (signer : Signer.t) (accountUserId : option string) : bool :=
  match accountUserId with
  | None => false
  | Some id => bool_decide (Signer.accountUserId signer = Some id)
  end.

(** The checks on the session itself. *)
Definition session_admitted (input : LoadSignerSessionInput.t) (found : SigningSession.t) : bool :=
  let status := SigningSession.status found in
  negb (bool_decide (status = SigningSessionStatus.revoked) ||
        bool_decide (status = SigningSessionStatus.expired)) &&
  negb (bool_decide (status = SigningSessionStatus.completed) &&
        negb (LoadSignerSessionInput.allowCompleted input)).

(* [src: packages/application/src/signing/load-signer-session.ts:49-118 loadSignerSession] *)
Definition loadSignerSession (input : LoadSignerSessionInput.t) : Run LoadedSignerSession.t :=
  let missHash := token_hash (String nul "signing-token-miss") in
  let tokenHash := token_hash (LoadSignerSessionInput.rawToken input) in
  row ← SigningSessions.findByTokenHash tokenHash;
  let storedHash := match row with Some r => SigningSession.tokenHash r | None => missHash end in
  match row with
  | None => rejectToken
  | Some found =>
    if negb (hashesEqual tokenHash storedHash) then rejectToken else
    now ← nowUtc;
    if negb (session_admitted input found) then rejectToken else
    let organizationId := SigningSession.organizationId found in
    if (SigningSession.expiresAt found <=? now)%Z then
      (if SigningSessions.is_open found
       then SigningSessions.markExpired organizationId (SigningSession.id found) now;;
            onSigningCompletion "expired"
       else mret tt);;
      rejectToken
    else
      let exchanged := negb (bool_decide (SigningSession.consumedAt found = None)) in
      if LoadSignerSessionInput.requireExchanged input && negb exchanged then rejectToken
      else if negb (LoadSignerSessionInput.requireExchanged input) && exchanged then rejectToken
      else
        document ← Documents.findById organizationId (SigningSession.documentId found);
        match document with
        | None => throw (conflictFor "document_not_signable")
        | Some document =>
          if negb (bool_decide (SigningSession.status found = SigningSessionStatus.completed)) &&
             negb (isAvailableForSigning document)
          then throw (conflictFor "document_not_signable")
          else
            row ← Signers.findById organizationId (SigningSession.signerId found);
            match row with
            | None => rejectToken
            | Some row =>
              if negb (String.eqb (Signer.documentId row) (Document.id document)) then rejectToken
              else if requiresAccountAuth &&
                      negb (account_matches row (LoadSignerSessionInput.accountUserId input))
              then rejectToken
              else mret (LoadedSignerSession.mk
                     (SignerActor.mk organizationId (SigningSession.documentId found)
                        (SigningSession.signerId found) (SigningSession.id found))
                     found document row)
            end
        end
  end.

(** The authorization every signer operation asks for. *)
Definition authorize_signer (actor : SignerActor.t) : Result Exn unit :=
  assertAllowed (signer actor) AuthorizationAction.signing_session_act
    (AuthorizationResource.mk (SignerActor.organizationId actor)
       (Some (SignerActor.documentId actor)) (Some (SignerActor.signerId actor))).

(** Load an exchanged session and authorize its signer. *)
Definition load_exchanged (rawToken : string) (allowCompleted : bool)
    (accountUserId : option string) : Run LoadedSignerSession.t :=
  loaded ← loadSignerSession
    (LoadSignerSessionInput.mk rawToken true allowCompleted accountUserId);
  lift (authorize_signer (LoadedSignerSession.actor loaded));;
  mret loaded.

(** An audit event by the signer. *)
Definition audit_signer (loaded : LoadedSignerSession.t) (auditId : string)
    (type : AuditEventType.t) (now : Z) (payload : object) (requestId : string) :
    Run AuditEvent.t :=
  let actor := signer (LoadedSignerSession.actor loaded) in
  audit auditId (SigningSession.organizationId (LoadedSignerSession.session loaded))
    (Document.id (LoadedSignerSession.document loaded)) type (actorType actor) (actorId actor) now
    payload (Some requestId).

(** ** Exchanging the token *)

(* [src: packages/application/src/signing/exchange-signing-token.ts:33-74 exchangeSigningToken] *)
Definition exchangeSigningToken (rawToken requestId : string) (accountUserId : option string) :
    Run object :=
  loaded ← loadSignerSession (LoadSignerSessionInput.mk rawToken false false accountUserId);
  let session := LoadedSignerSession.session loaded in
  let actor := signer (LoadedSignerSession.actor loaded) in
  now ← nowUtc;
  rawSessionToken ← generateRawToken;
  rawCsrfToken ← generateRawToken;
  rotated ← run (
    rotated ← SigningSessions.consumeAndRotate (SigningSession.organizationId session)
      (SigningSession.id session) (SigningSession.version session) (token_hash rawSessionToken)
      (token_hash rawCsrfToken) now;
    auditId ← next_id;
    audit auditId (SigningSession.organizationId session) (SigningSession.documentId session)
      AuditEventType.session_exchanged (actorType actor) (actorId actor) now
      [("sessionId", VStr (SigningSession.id rotated));
       ("signerId", VStr (Signer.id (LoadedSignerSession.signer loaded)))] (Some requestId);;
    mret rotated);
  mret [("sessionId", VStr (SigningSession.id rotated));
        ("expiresAt", VStr (toISOString (SigningSession.expiresAt rotated)));
        ("rawSessionToken", VStr rawSessionToken); ("rawCsrfToken", VStr rawCsrfToken)].

(** ** Viewing and consenting *)

(* [src: packages/application/src/signing/signer-mutations.ts:59-94 recordSignerViewed] *)
Definition recordSignerViewed (rawToken requestId : string) (accountUserId : option string) :
    Run unit :=
  loaded ← load_exchanged rawToken false accountUserId;
  let session := LoadedSignerSession.session loaded in
  now ← nowUtc;
  run (SigningSessions.markPresented (SigningSession.organizationId session)
         (SigningSession.id session) now;;
       auditId ← next_id;
       audit_signer loaded auditId AuditEventType.document_viewed now
         [("sessionId", VStr (SigningSession.id session));
          ("signerId", VStr (Signer.id (LoadedSignerSession.signer loaded)))] requestId);;
  mret tt.

(* [src: packages/application/src/signing/consent-catalog.ts:10-17 createConsentDisclosureCatalog] *)
Definition findByCopyId (copyId : string) : option ConsentDisclosure.t :=
  if String.eqb copyId (ConsentDisclosure.copyId disclosure) then Some disclosure else None.

(** The checks on what is consented to. *)
Definition consent_checks (input : RecordSignerConsentInput.t) : Result Exn ConsentDisclosure.t :=
  throw_if (negb (RecordSignerConsentInput.accepted input))
    (ValidationError (fieldReason "accepted" "explicit_consent_required")) ≫= λ _,
  match findByCopyId (RecordSignerConsentInput.copyId input) with
  | None => Throw (ValidationError (fieldReason "copyId" "unknown_disclosure"))
  | Some d =>
    throw_if (negb (String.eqb (ConsentDisclosure.copyId d) (ConsentDisclosure.copyId disclosure)))
      (ValidationError (fieldReason "copyId" "stale_disclosure")) ≫= λ _,
    Ok d
  end.

Definition consent_answer (id copyId : string) (acceptedAt : Z) : object :=
  [("consentId", VStr id); ("copyId", VStr copyId); ("acceptedAt", VStr (toISOString acceptedAt))].

(* [src: packages/application/src/signing/signer-mutations.ts:108-179 recordSignerConsent] *)
Definition recordSignerConsent (input : RecordSignerConsentInput.t) : Run object :=
  accepted ← lift (consent_checks input);
  loaded ← load_exchanged (RecordSignerConsentInput.rawToken input) false
             (RecordSignerConsentInput.accountUserId input);
  let session := LoadedSignerSession.session loaded in
  let organizationId := SignerActor.organizationId (LoadedSignerSession.actor loaded) in
  existing ← ConsentRecords.findBySession organizationId (SigningSession.id session);
  match existing with
  | Some existing =>
    mret (consent_answer (ConsentRecord.id existing) (ConsentRecord.consentCopyId existing)
            (ConsentRecord.acceptedAt existing))
  | None =>
    now ← nowUtc;
    consentId ← next_id;
    let metadata := RecordSignerConsentInput.metadata input in
    run (ConsentRecords.create organizationId (ConsentRecord.mk consentId organizationId
           (Document.id (LoadedSignerSession.document loaded))
           (Signer.id (LoadedSignerSession.signer loaded)) (SigningSession.id session)
           (ConsentDisclosure.copyId accepted) now
           (Some (RecordSignerConsentInput.requestId input))
           (ClientRequestMetadata.untrustedClientIp metadata)
           (ClientRequestMetadata.untrustedUserAgent metadata) now);;
         auditId ← next_id;
         audit_signer loaded auditId AuditEventType.consent_recorded now
           [("sessionId", VStr (SigningSession.id session));
            ("consentCopyId", VStr (ConsentDisclosure.copyId accepted))]
           (RecordSignerConsentInput.requestId input));;
    mret (consent_answer consentId (ConsentDisclosure.copyId accepted) now)
  end.

(** ** Declining *)

(** The transaction that declines the signer and the document. *)
Definition decline_transaction (loaded : LoadedSignerSession.t) (reason : option string)
    (requestId : string) (now : Z) : Run unit :=
  let organizationId := SignerActor.organizationId (LoadedSignerSession.actor loaded) in
  let document := LoadedSignerSession.document loaded in
  let row := LoadedSignerSession.signer loaded in
  Signers.markDeclined organizationId (Signer.id row) (Signer.version row) now;;
  Documents.markDeclined organizationId (Document.id document) (Document.version document);;
  open ← SigningSessions.listByDocument organizationId (Document.id document);
  revoke_open organizationId now open;;
  auditId ← next_id;
  audit_signer loaded auditId AuditEventType.signer_declined now
    [("sessionId", VStr (SigningSession.id (LoadedSignerSession.session loaded)));
     ("signerId", VStr (Signer.id row)); ("reason", VOptStr reason)] requestId;;
  mret tt.

(* [src: packages/application/src/signing/signer-mutations.ts:193-277 declineToSign] *)
Definition declineToSign (input : DeclineToSignInput.t) : Run object :=
  loaded ← load_exchanged (DeclineToSignInput.rawToken input) false
             (DeclineToSignInput.accountUserId input);
  let organizationId := SignerActor.organizationId (LoadedSignerSession.actor loaded) in
  let document := LoadedSignerSession.document loaded in
  let row := LoadedSignerSession.signer loaded in
  let answer := [("documentId", VStr (Document.id document)); ("signerId", VStr (Signer.id row));
                 ("status", VStr "declined")] in
  roster ← Signers.listByDocument organizationId (Document.id document);
  if negb (canSignerActNow (Document.signingMode document) row roster) then
    throw (conflictFor "signer_not_in_turn")
  else if bool_decide (Signer.status row = SignerStatus.declined) then mret answer
  else if negb (bool_decide (Signer.status row = SignerStatus.pending)) then
    throw (conflictFor "signer_not_pending")
  else
    lift (assertDocumentTransition (Document.state document) DocumentState.declined);;
    now ← nowUtc;
    run (decline_transaction loaded (sanitizeDeclineReason (DeclineToSignInput.reason input))
           (DeclineToSignInput.requestId input) now);;
    onSigningCompletion "declined";;
    mret answer.

(** ** Completing *)

(* [src: packages/application/src/signing/complete-signing.ts:26-26 COMPLETE_SIGNING_ROUTE] *)
Definition COMPLETE_SIGNING_ROUTE : string := "POST /signing/complete".

(* [src: packages/application/src/signing/complete-signing.ts:321-332 replayCompleteResponse] *)
Definition replayCompleteResponse (body : option object) : Result Exn object :=
  match body with
  | None => Throw (IntegrityError (reasonOnly "idempotency_replay_missing_body"))
  | Some body =>
    Ok [("status", VStr match prop "status" body with
                        | VStr s => if String.eqb s "pending" then "pending" else "accepted"
                        | _ => "accepted"
                        end);
        ("documentId", VStr (js_String (prop "documentId" body)));
        ("signerId", VStr (js_String (prop "signerId" body)))]
  end.

Definition complete_answer (all_signed : bool) (loaded : LoadedSignerSession.t) : object :=
  [("status", VStr (if all_signed then "accepted" else "pending"));
   ("documentId", VStr (Document.id (LoadedSignerSession.document loaded)));
   ("signerId", VStr (Signer.id (LoadedSignerSession.signer loaded)))].

Definition decode_ink (ink : option string) : Result Exn (option ValidatedPng.t) :=
  match ink with
  | None => Ok None
  | Some pngBase64 =>
    bytes ← decodePngBase64 pngBase64;
    png ← validateSignaturePng bytes maxPngBytes;
    mret (Some png)
  end.


(** Storing an image: its key, digest and size. *)
Definition store_ink (organizationId : string) (png : option ValidatedPng.t) :
    Run (option (string * string * Z)) :=
  match png with
  | None => mret None
  | Some png =>
    let bytes := ValidatedPng.bytes png in
    let digest := sha256Bytes bytes in
    key ← lift (signatureImageObjectKey organizationId digest);
    putObject (PutObjectInput.mk organizationId key bytes PNG_CONTENT_TYPE (Some maxPngBytes)
      (Some digest));;
    mret (Some (key, digest, byteLength bytes))
  end.

(** What the transaction of a completion is given. *)
Record Completion : Type := {
  c_loaded : LoadedSignerSession.t;
  c_roster : list Signer.t;
  c_selected : list SignatureField.t;
  c_consent : ConsentRecord.t;
  c_signature : option (string * string * Z);
  c_initials : option (string * string * Z);
  c_source : string;
  c_record : IdempotencyRecord.t;
  c_now : Z
}.

(** Completing one field. *)
Definition complete_field (c : Completion) (field : SignatureField.t) : Run unit :=
  let ink := match SignatureField.type field with
             | SignatureFieldType.signature => c_signature c
             | SignatureFieldType.initials => c_initials c
             | _ => None
             end in
  SignatureFields.complete (SignerActor.organizationId (LoadedSignerSession.actor (c_loaded c)))
    (SignatureField.id field) (c_now c) ((λ x, x.1.1) <$> ink)
    ((λ _, PNG_CONTENT_TYPE) <$> ink) ((λ x, x.2) <$> ink) ((λ x, x.1.2) <$> ink);;
  mret tt.

(** The roster once this signer has signed. *)
Definition document_completed (c : Completion) : bool :=
  allRequiredSigned ((λ row,
    if String.eqb (Signer.id row) (Signer.id (LoadedSignerSession.signer (c_loaded c)))
    then SignerStatus.signed else Signer.status row) <$> c_roster c).

(** The transaction: fields, signer, session, document, audit event, job. *)
(* [src: packages/application/src/signing/complete-signing.ts:189-271 completeSigning transaction] *)
Definition complete_transaction (requestId : string) (c : Completion) : Run object :=
  let loaded := c_loaded c in
  let organizationId := SignerActor.organizationId (LoadedSignerSession.actor loaded) in
  let document := LoadedSignerSession.document loaded in
  let row := LoadedSignerSession.signer loaded in
  let session := LoadedSignerSession.session loaded in
  for_each (complete_field c) (c_selected c);;
  Signers.markSigned organizationId (Signer.id row) (Signer.version row) (c_now c);;
  SigningSessions.markCompleted organizationId (SigningSession.id session) (c_now c);;
  (if document_completed c then
     Documents.markCompleted organizationId (Document.id document) (Document.version document);;
     mret tt
   else if bool_decide (Document.state document = DocumentState.sent) then
     Documents.markInProgress organizationId (Document.id document) (Document.version document);;
     mret tt
   else mret tt);;
  auditId ← next_id;
  audit_signer loaded auditId AuditEventType.signer_signed (c_now c)
    [("signerId", VStr (Signer.id row)); ("sessionId", VStr (SigningSession.id session));
     ("fieldIds", VArr (VStr <$> (SignatureField.id <$> c_selected c)));
     ("consentCopyId", VStr (ConsentRecord.consentCopyId (c_consent c)))] requestId;;
  eventId ← next_id;
  jobId ← next_id;
  Jobs.publish (Jobs.PublishInput.mk eventId organizationId (Some (Document.id document))
    FLATTEN_SIGNATURE_JOB_TYPE
    [("documentId", VStr (Document.id document)); ("signerId", VStr (Signer.id row));
     ("sessionId", VStr (SigningSession.id session)); ("revisionId", VStr (c_source c))]
    (Some requestId) (Some (c_now c)) (Some jobId) None);;
  mret (complete_answer (document_completed c) loaded).

(** Everything up to the transaction: an answer already, or what to commit. *)
(* [src: packages/application/src/signing/complete-signing.ts:69-187 completeSigning preparation] *)
Definition complete_prepare (input : CompleteSigningInput.t) : Run (object + Completion) :=
  lift (throw_if (negb (CompleteSigningInput.intentToSign input))
          (ValidationError (fieldReason "intentToSign" "required")));;
  loaded ← load_exchanged (CompleteSigningInput.rawToken input) true
             (CompleteSigningInput.accountUserId input);
  let organizationId := SignerActor.organizationId (LoadedSignerSession.actor loaded) in
  let document := LoadedSignerSession.document loaded in
  let row := LoadedSignerSession.signer loaded in
  roster ← Signers.listByDocument organizationId (Document.id document);
  fields ← SignatureFields.listByDocument organizationId (Document.id document);
  let signerFields := List.filter (λ f, String.eqb (SignatureField.signerId f) (Signer.id row))
                        fields in
  if bool_decide (Signer.status row = SignerStatus.signed) then
    mret (inl (complete_answer (allRequiredSigned (Signer.status <$> roster)) loaded))
  else if negb (canSignerActNow (Document.signingMode document) row roster) then
    throw (conflictFor "signer_not_in_turn")
  else
    found ← ConsentRecords.findBySession organizationId
              (SigningSession.id (LoadedSignerSession.session loaded));
    match found with
    | None => throw (ValidationError (fieldReason "consentCopyId" "consent_required"))
    | Some consent =>
      if negb (String.eqb (ConsentRecord.consentCopyId consent)
                 (CompleteSigningInput.consentCopyId input))
      then throw (ValidationError (fieldReason "consentCopyId" "consent_required"))
      else
        selected ← lift (selectFields signerFields (CompleteSigningInput.fieldIds input));
        signaturePng ← lift (decode_ink (CompleteSigningInput.signature input));
        initialsPng ← lift (decode_ink (CompleteSigningInput.initials input));
        let hasSignature := negb (bool_decide (ValidatedPng.bytes <$> signaturePng = None)) in
        let hasInitials := negb (bool_decide (ValidatedPng.bytes <$> initialsPng = None)) in
        lift (assertInkForFields selected hasSignature hasInitials);;
        idempotencyKey ← lift (requireIdempotencyKey
          (Some (CompleteSigningInput.idempotencyKey input)));
        begun ← (now ← nowUtc;
                 replayOrBeginIdempotency (IdempotencyInput.mk organizationId
                   AuditActorType.signer (Signer.id row) COMPLETE_SIGNING_ROUTE idempotencyKey
                   [("documentId", VStr (Document.id document));
                    ("signerId", VStr (Signer.id row));
                    ("consentCopyId", VStr (CompleteSigningInput.consentCopyId input));
                    ("fieldIds", VArr (VStr <$>
                       sort_by string_leb (CompleteSigningInput.fieldIds input)));
                    ("hasSignature", VBool hasSignature); ("hasInitials", VBool hasInitials)]
                   now true));
        match begun with
        | Replay record =>
          answer ← lift (replayCompleteResponse (IdempotencyRecord.responseBody record));
          mret (inl answer)
        | Begin record =>
          now ← nowUtc;
          signature ← store_ink organizationId signaturePng;
          initials ← store_ink organizationId initialsPng;
          match Document.currentRevisionId document, Document.signingRevisionId document with
          | Some source, _ | None, Some source =>
            mret (inr {| c_loaded := loaded; c_roster := roster; c_selected := selected;
                         c_consent := consent; c_signature := signature; c_initials := initials;
                         c_source := source; c_record := record; c_now := now |})
          | None, None => throw (ValidationError (reasonOnly "missing_revision"))
          end
        end
    end.

(** The transaction and what follows it. *)
Definition complete_commit (requestId : string) (c : Completion) : Run object :=
  result ← run (complete_transaction requestId c);
  IdempotencyRecords.complete (SignerActor.organizationId (LoadedSignerSession.actor (c_loaded c)))
    (IdempotencyRecord.id (c_record c)) 200 result;;
  onSigningCompletion "completed";;
  mret result.

(* [src: packages/application/src/signing/complete-signing.ts:66-281 completeSigning] *)
Definition completeSigning (input : CompleteSigningInput.t) : Run object :=
  prepared ← complete_prepare input;
  match prepared with
  | inl answer => mret answer
  | inr c => complete_commit (CompleteSigningInput.requestId input) c
  end.
End signing.
