(* ===== verification/Queries.v ===== *)
(** Reading documents: the account user's view, previews and their streams, and
    what a signer is shown, from [get-organization-document.ts],
    [issue-document-preview.ts], [stream-document-preview.ts] and
    [load-document.ts] under [packages/application/src/], and
    [signing/signer-queries.ts]. *)

From Stdlib Require Import String.
From S2P Require Export Signing.
Local Open Scope string_scope.

Module SignerSessionView.
(* [src: packages/application/src/signing/signer-queries.ts:17-29 SignerSessionView] *)
Record t : Type := mk {
  documentId : string;
  signerId : string;
  sessionId : string;
  sessionStatus : string;
  title : string;
  signingMode : SigningMode.t;
  expiresAt : string;
  signerDisplayName : string;
  signerStatus : SignerStatus.t;
  consentRequired : bool;
  consented : bool
}.
End SignerSessionView.

Module SignerDocumentView.
(* [src: packages/application/src/signing/signer-queries.ts:31-37 SignerDocumentView] *)
Record t : Type := mk {
  documentId : string;
  title : string;
  signingMode : SigningMode.t;
  pageCount : option Z;
  signerDisplayName : string
}.
End SignerDocumentView.

Module SignerFieldView.
(* [src: packages/application/src/signing/signer-queries.ts:39-48 SignerFieldView] *)
Record t : Type := mk {
  fieldId : string;
  type : SignatureFieldType.t;
  pageNumber : jsnum;
  x : jsnum;
  y : jsnum;
  width : jsnum;
  height : jsnum;
  required : bool
}.
End SignerFieldView.

Module SignerConsentView.
(* [src: packages/application/src/signing/signer-queries.ts:201-208 getSignerConsent result] *)
Record t : Type := mk {
  copyId : string;
  version : string;
  title : string;
  text : string;
  required : bool;
  accepted : bool
}.
End SignerConsentView.

(** The answer that opens a preview, to account users and signers alike. *)
Module PreviewView.
(* [src: packages/application/src/documents/issue-document-preview.ts:20-26 IssueDocumentPreviewResult] *)
Record t : Type := mk {
  url : string;
  expiresAt : string;
  tokenHeader : string;
  token : string;
  contentType : string
}.
End PreviewView.

Module StreamDocumentPreviewResult.
(* [src: packages/application/src/documents/stream-document-preview.ts:16-20 StreamDocumentPreviewResult] *)
Record t : Type := mk {
  body : list Z;
  contentType : string;
  displayName : string
}.
End StreamDocumentPreviewResult.

(** A token that opens no preview. *)
Definition preview_token : Exn := AuthenticationError (reasonOnly "preview_token").
Definition preview_expired : Exn := AuthenticationError (reasonOnly "preview_expired").

Section queries.
Context `{Env} `{!AuthorizationPolicy} `{!UnitOfWork}.

(** ** Account users *)

(** The tenant of an actor who may read the document. *)
Definition read_access (actor : RequestActor) (documentId : string) : Result Exn string :=
  organizationId ← organizationContextFromActor actor;
  assertAllowed actor AuthorizationAction.document_read (doc_resource organizationId documentId) ≫= λ _,
  Ok organizationId.

(* [src: packages/application/src/use-cases/load-document.ts:19-34 loadDocument] *)
Definition loadDocument (actor : RequestActor) (documentId : string) : Run Document.t :=
  organizationId ← lift (read_access actor documentId);
  requireDocument organizationId documentId.

(* [src: packages/application/src/documents/get-organization-document.ts:24-52 getOrganizationDocument] *)
Definition getOrganizationDocument (user : AccountUserActor.t) (documentId : string) : Run object :=
  organizationId ← lift (read_access (account user) documentId);
  document ← requireDocument organizationId documentId;
  revision ← match Document.currentRevisionId document with
             | None => mret None
             | Some revisionId => Revisions.findById organizationId revisionId
             end;
  signers ← Signers.listByDocument organizationId (Document.id document);
  fields ← SignatureFields.listByDocument organizationId (Document.id document);
  mret (toPublicDocument document revision signers fields).

(** ** Previews *)

(** A grant for a revision, filed under the hash of a fresh token. *)
Definition grant_preview (organizationId documentId revisionId contentType : string) :
    Run PreviewView.t :=
  now ← nowUtc;
  rawToken ← generateRawToken;
  id ← next_id;
  grant ← PreviewGrants.create (PreviewGrant.mk id organizationId documentId revisionId
    (token_hash rawToken) (now + previewTtlMs)%Z now);
  mret (PreviewView.mk ("/document-previews/" +:+ PreviewGrant.id grant)
          (toISOString (PreviewGrant.expiresAt grant)) previewTokenHeader rawToken contentType).

(* [src: packages/application/src/documents/issue-document-preview.ts:40-85 issueDocumentPreview] *)
Definition issueDocumentPreview (user : AccountUserActor.t) (documentId : string) :
    Run PreviewView.t :=
  organizationId ← lift (read_access (account user) documentId);
  document ← Documents.findById organizationId documentId;
  match document ≫= λ d, (λ r, (d, r)) <$> Document.currentRevisionId d with
  | None => throw (notFound "document")
  | Some (document, revisionId) =>
    revision ← Revisions.findById organizationId revisionId;
    match revision with
    | None => throw (notFound "revision")
    | Some revision =>
      grant_preview organizationId (Document.id document) (DocumentRevision.id revision)
        (DocumentRevision.contentType revision)
    end
  end.

(* [src: packages/application/src/documents/stream-document-preview.ts:29-58 streamDocumentPreview] *)
Definition streamDocumentPreview (grantId rawToken : string) : Run StreamDocumentPreviewResult.t :=
  grant ← PreviewGrants.findByTokenHash (token_hash rawToken);
  match grant with
  | None => throw preview_token
  | Some grant =>
    if negb (String.eqb (PreviewGrant.id grant) grantId) then throw preview_token else
    now ← nowUtc;
    if (PreviewGrant.expiresAt grant <=? now)%Z then throw preview_expired else
    revision ← Revisions.findById (PreviewGrant.organizationId grant) (PreviewGrant.revisionId grant);
    match revision with
    | None => throw (notFound "revision")
    | Some revision =>
      object ← getObject (PreviewGrant.organizationId grant) (DocumentRevision.objectKey revision);
      match object with
      | None => throw (notFound "object")
      | Some object =>
        mret (StreamDocumentPreviewResult.mk (StoredObject.body object)
                (StoredObject.contentType object) (DocumentRevision.displayName revision))
      end
    end
  end.

(** ** Signers *)

(** The revision a signer is shown. *)
Definition shown_revision (document : Document.t) : option string :=
  match Document.signingRevisionId document with
  | Some id => Some id
  | None => Document.currentRevisionId document
  end.

(* [src: packages/application/src/signing/signer-queries.ts:64-93 getSignerSession] *)
Definition getSignerSession (rawToken : string) (accountUserId : option string) :
    Run SignerSessionView.t :=
  loaded ← load_exchanged rawToken false accountUserId;
  let session := LoadedSignerSession.session loaded in
  let document := LoadedSignerSession.document loaded in
  let signer := LoadedSignerSession.signer loaded in
  existing ← ConsentRecords.findBySession
    (SignerActor.organizationId (LoadedSignerSession.actor loaded)) (SigningSession.id session);
  mret (SignerSessionView.mk (Document.id document) (Signer.id signer) (SigningSession.id session)
    (if bool_decide (SigningSession.status session = SigningSessionStatus.active)
     then "active" else "issued")
    (Document.title document) (Document.signingMode document)
    (toISOString (SigningSession.expiresAt session)) (Signer.displayName signer)
    (Signer.status signer) true (bool_decide (is_Some existing))).

(* [src: packages/application/src/signing/signer-queries.ts:103-134 getSignerDocument] *)
Definition getSignerDocument (rawToken : string) (accountUserId : option string) :
    Run SignerDocumentView.t :=
  loaded ← load_exchanged rawToken false accountUserId;
  let document := LoadedSignerSession.document loaded in
  revision ← match shown_revision document with
             | None => mret None
             | Some revisionId =>
               Revisions.findById (SignerActor.organizationId (LoadedSignerSession.actor loaded))
                 revisionId
             end;
  mret (SignerDocumentView.mk (Document.id document) (Document.title document)
    (Document.signingMode document) (DocumentRevision.pageCount <$> revision)
    (Signer.displayName (LoadedSignerSession.signer loaded))).

Definition field_view (field : SignatureField.t) : SignerFieldView.t :=
  SignerFieldView.mk (SignatureField.id field) (SignatureField.type field)
    (SignatureField.pageNumber field) (SignatureField.x field) (SignatureField.y field)
    (SignatureField.width field) (SignatureField.height field) (SignatureField.required field).

(* [src: packages/application/src/signing/signer-queries.ts:144-175 getSignerFields] *)
Definition getSignerFields (rawToken : string) (accountUserId : option string) :
    Run (list SignerFieldView.t) :=
  loaded ← load_exchanged rawToken false accountUserId;
  fields ← SignatureFields.listByDocument
    (SignerActor.organizationId (LoadedSignerSession.actor loaded))
    (Document.id (LoadedSignerSession.document loaded));
  mret (field_view <$> List.filter (λ field,
    String.eqb (SignatureField.signerId field) (Signer.id (LoadedSignerSession.signer loaded))) fields).

(* [src: packages/application/src/signing/signer-queries.ts:186-209 getSignerConsent] *)
Definition getSignerConsent (rawToken : string) (accountUserId : option string) :
    Run SignerConsentView.t :=
  loaded ← load_exchanged rawToken false accountUserId;
  existing ← ConsentRecords.findBySession
    (SignerActor.organizationId (LoadedSignerSession.actor loaded))
    (SigningSession.id (LoadedSignerSession.session loaded));
  mret (SignerConsentView.mk (ConsentDisclosure.copyId disclosure) (ConsentDisclosure.version disclosure)
    (ConsentDisclosure.title disclosure) (ConsentDisclosure.text disclosure) true
    (bool_decide (is_Some existing))).

(* [src: packages/application/src/signing/signer-queries.ts:226-275 issueSignerPreview] *)
Definition issueSignerPreview (rawToken : string) (accountUserId : option string) :
    Run PreviewView.t :=
  loaded ← load_exchanged rawToken false accountUserId;
  let organizationId := SignerActor.organizationId (LoadedSignerSession.actor loaded) in
  match shown_revision (LoadedSignerSession.document loaded) with
  | None => throw (conflictFor "missing_revision")
  | Some revisionId =>
    revision ← Revisions.findById organizationId revisionId;
    match revision with
    | None => throw (conflictFor "missing_revision")
    | Some revision =>
      grant_preview organizationId (Document.id (LoadedSignerSession.document loaded))
        (DocumentRevision.id revision) PDF_CONTENT_TYPE
    end
  end.
End queries.
