(* ===== verification/PrismaRows.v ===== *)
(** The rows of the database, from [packages/database/prisma/schema.prisma]: one
    module per enumeration and per model, inside [Prisma].

    [Prisma.Document.t] is a row of the table [documents], [set_c v r] the row
    with another value in column [c], [touch now r] the row as an update leaves
    its [@updatedAt] column.  A [Decimal(8, 7)] is the integer of its
    ten-millionths and a [Json] column any JavaScript value; integer columns are
    unbounded. *)

From Stdlib Require Import String.
From S2P Require Export Entities.
Local Open Scope string_scope.

Module Prisma.

Module MembershipRole.
(* [src: packages/database/prisma/schema.prisma:17-24 MembershipRole] *)
Inductive t : Type :=
  | owner | admin | member | readOnly.
#[global] Instance eq_dec : EqDecision t.
Proof. solve_decision. Defined.
End MembershipRole.

Module DocumentState.
(* [src: packages/database/prisma/schema.prisma:26-40 DocumentState] *)
Inductive t : Type :=
  | draft | prepared | sent | inProgress | completed | finalizing | finalized | voided
    | expired | declined | finalizationFailed.
#[global] Instance eq_dec : EqDecision t.
Proof. solve_decision. Defined.
End DocumentState.

Module SignerStatus.
(* [src: packages/database/prisma/schema.prisma:42-48 SignerStatus] *)
Inductive t : Type :=
  | pending | signed | declined.
#[global] Instance eq_dec : EqDecision t.
Proof. solve_decision. Defined.
End SignerStatus.

Module SigningSessionStatus.
(* [src: packages/database/prisma/schema.prisma:50-58 SigningSessionStatus] *)
Inductive t : Type :=
  | issued | active | completed | expired | revoked.
#[global] Instance eq_dec : EqDecision t.
Proof. solve_decision. Defined.
End SigningSessionStatus.

Module SignatureFieldType.
(* [src: packages/database/prisma/schema.prisma:60-67 SignatureFieldType] *)
Inductive t : Type :=
  | signature | initials | dateSigned | signerName.
#[global] Instance eq_dec : EqDecision t.
Proof. solve_decision. Defined.
End SignatureFieldType.

Module SigningMode.
(* [src: packages/database/prisma/schema.prisma:69-74 SigningMode] *)
Inductive t : Type :=
  | ordered | parallel.
#[global] Instance eq_dec : EqDecision t.
Proof. solve_decision. Defined.
End SigningMode.

Module DocumentRevisionKind.
(* [src: packages/database/prisma/schema.prisma:76-81 DocumentRevisionKind] *)
Inductive t : Type :=
  | source | intermediate.
#[global] Instance eq_dec : EqDecision t.
Proof. solve_decision. Defined.
End DocumentRevisionKind.

Module DocumentInspectionStatus.
(* [src: packages/database/prisma/schema.prisma:83-89 DocumentInspectionStatus] *)
Inductive t : Type :=
  | pending | accepted | rejected.
#[global] Instance eq_dec : EqDecision t.
Proof. solve_decision. Defined.
End DocumentInspectionStatus.

Module UploadSessionStatus.
(* [src: packages/database/prisma/schema.prisma:91-98 UploadSessionStatus] *)
Inductive t : Type :=
  | issued | completed | expired | abandoned.
#[global] Instance eq_dec : EqDecision t.
Proof. solve_decision. Defined.
End UploadSessionStatus.

Module AuditActorType.
(* [src: packages/database/prisma/schema.prisma:100-107 AuditActorType] *)
Inductive t : Type :=
  | accountUser | signer | worker | system.
#[global] Instance eq_dec : EqDecision t.
Proof. solve_decision. Defined.
End AuditActorType.

Module AuditEventType.
(* [src: packages/database/prisma/schema.prisma:109-133 AuditEventType] *)
Inductive t : Type :=
  | documentCreated | revisionAdded | fieldsUpdated | signersUpdated | documentSent
    | sessionIssued | sessionRevoked | sessionExchanged | documentViewed | consentRecorded
    | signerSigned | signerDeclined | documentVoided | documentExpired | finalizationStarted
    | documentFinalized | finalizationFailed | artifactDownloaded | inspectionAccepted
    | inspectionRejected | uploadAbandoned.
#[global] Instance eq_dec : EqDecision t.
Proof. solve_decision. Defined.
End AuditEventType.

Module OutboxStatus.
(* [src: packages/database/prisma/schema.prisma:135-142 OutboxStatus] *)
Inductive t : Type :=
  | pending | processing | processed | failed.
#[global] Instance eq_dec : EqDecision t.
Proof. solve_decision. Defined.
End OutboxStatus.

Module BackgroundJobStatus.
(* [src: packages/database/prisma/schema.prisma:144-152 BackgroundJobStatus] *)
Inductive t : Type :=
  | pending | leased | succeeded | failed | cancelled.
#[global] Instance eq_dec : EqDecision t.
Proof. solve_decision. Defined.
End BackgroundJobStatus.

Module IdempotencyPrincipalType.
(* [src: packages/database/prisma/schema.prisma:154-161 IdempotencyPrincipalType] *)
Inductive t : Type :=
  | accountUser | signer | worker | system.
#[global] Instance eq_dec : EqDecision t.
Proof. solve_decision. Defined.
End IdempotencyPrincipalType.

Module AccountSecurityEventType.
(* [src: packages/database/prisma/schema.prisma:163-170 AccountSecurityEventType] *)
Inductive t : Type :=
  | loginSucceeded | loginFailed | logout | sessionRevoked.
#[global] Instance eq_dec : EqDecision t.
Proof. solve_decision. Defined.
End AccountSecurityEventType.

Module Organization.
(* [src: packages/database/prisma/schema.prisma:172-195 Organization] *)
Record t : Type := mk {
  id : string;
  name : string;
  version : Z;
  createdAt : Z;
  updatedAt : Z
}.
Definition set_updatedAt (v : Z) (r : t) : t :=
  mk r.(id) r.(name) r.(version) r.(createdAt) v.
Definition touch : Z → t → t := set_updatedAt.
End Organization.

Module User.
(* [src: packages/database/prisma/schema.prisma:198-210 User] *)
Record t : Type := mk {
  id : string;
  email : string;
  displayName : string;
  createdAt : Z;
  updatedAt : Z
}.
Definition set_updatedAt (v : Z) (r : t) : t :=
  mk r.(id) r.(email) r.(displayName) r.(createdAt) v.
Definition touch : Z → t → t := set_updatedAt.
End User.

Module OrganizationMembership.
(* [src: packages/database/prisma/schema.prisma:212-228 OrganizationMembership] *)
Record t : Type := mk {
  id : string;
  organizationId : string;
  userId : string;
  role : MembershipRole.t;
  createdAt : Z;
  updatedAt : Z
}.
Definition set_updatedAt (v : Z) (r : t) : t :=
  mk r.(id) r.(organizationId) r.(userId) r.(role) r.(createdAt) v.
Definition touch : Z → t → t := set_updatedAt.
End OrganizationMembership.

Module AccountSession.
(* [src: packages/database/prisma/schema.prisma:231-245 AccountSession] *)
Record t : Type := mk {
  id : string;
  userId : string;
  tokenHash : string;
  csrfTokenHash : string;
  expiresAt : Z;
  revokedAt : option Z;
  createdAt : Z
}.
Definition set_revokedAt (v : option Z) (r : t) : t :=
  mk r.(id) r.(userId) r.(tokenHash) r.(csrfTokenHash) r.(expiresAt) v r.(createdAt).
Definition touch (now : Z) (r : t) : t := r.
End AccountSession.

Module Document.
(* [src: packages/database/prisma/schema.prisma:263-304 Document] *)
Record t : Type := mk {
  id : string;
  organizationId : string;
  ownerMembershipId : string;
  title : string;
  state : DocumentState.t;
  signingMode : SigningMode.t;
  inspectionStatus : DocumentInspectionStatus.t;
  sourceDisplayName : option string;
  expiresAt : option Z;
  currentRevisionId : option string;
  signingRevisionId : option string;
  version : Z;
  leaseOwner : option string;
  leaseUntil : option Z;
  finalizationAttemptCount : Z;
  createdAt : Z;
  updatedAt : Z
}.
Definition set_state (v : DocumentState.t) (r : t) : t :=
  mk r.(id) r.(organizationId) r.(ownerMembershipId) r.(title) v r.(signingMode)
    r.(inspectionStatus) r.(sourceDisplayName) r.(expiresAt) r.(currentRevisionId)
    r.(signingRevisionId) r.(version) r.(leaseOwner) r.(leaseUntil)
    r.(finalizationAttemptCount) r.(createdAt) r.(updatedAt).
Definition set_signingMode (v : SigningMode.t) (r : t) : t :=
  mk r.(id) r.(organizationId) r.(ownerMembershipId) r.(title) r.(state) v r.(inspectionStatus)
    r.(sourceDisplayName) r.(expiresAt) r.(currentRevisionId) r.(signingRevisionId) r.(version)
    r.(leaseOwner) r.(leaseUntil) r.(finalizationAttemptCount) r.(createdAt) r.(updatedAt).
Definition set_inspectionStatus (v : DocumentInspectionStatus.t) (r : t) : t :=
  mk r.(id) r.(organizationId) r.(ownerMembershipId) r.(title) r.(state) r.(signingMode) v
    r.(sourceDisplayName) r.(expiresAt) r.(currentRevisionId) r.(signingRevisionId) r.(version)
    r.(leaseOwner) r.(leaseUntil) r.(finalizationAttemptCount) r.(createdAt) r.(updatedAt).
Definition set_sourceDisplayName (v : option string) (r : t) : t :=
  mk r.(id) r.(organizationId) r.(ownerMembershipId) r.(title) r.(state) r.(signingMode)
    r.(inspectionStatus) v r.(expiresAt) r.(currentRevisionId) r.(signingRevisionId)
    r.(version) r.(leaseOwner) r.(leaseUntil) r.(finalizationAttemptCount) r.(createdAt)
    r.(updatedAt).
Definition set_expiresAt (v : option Z) (r : t) : t :=
  mk r.(id) r.(organizationId) r.(ownerMembershipId) r.(title) r.(state) r.(signingMode)
    r.(inspectionStatus) r.(sourceDisplayName) v r.(currentRevisionId) r.(signingRevisionId)
    r.(version) r.(leaseOwner) r.(leaseUntil) r.(finalizationAttemptCount) r.(createdAt)
    r.(updatedAt).
Definition set_currentRevisionId (v : option string) (r : t) : t :=
  mk r.(id) r.(organizationId) r.(ownerMembershipId) r.(title) r.(state) r.(signingMode)
    r.(inspectionStatus) r.(sourceDisplayName) r.(expiresAt) v r.(signingRevisionId)
    r.(version) r.(leaseOwner) r.(leaseUntil) r.(finalizationAttemptCount) r.(createdAt)
    r.(updatedAt).
Definition set_signingRevisionId (v : option string) (r : t) : t :=
  mk r.(id) r.(organizationId) r.(ownerMembershipId) r.(title) r.(state) r.(signingMode)
    r.(inspectionStatus) r.(sourceDisplayName) r.(expiresAt) r.(currentRevisionId) v
    r.(version) r.(leaseOwner) r.(leaseUntil) r.(finalizationAttemptCount) r.(createdAt)
    r.(updatedAt).
Definition set_version (v : Z) (r : t) : t :=
  mk r.(id) r.(organizationId) r.(ownerMembershipId) r.(title) r.(state) r.(signingMode)
    r.(inspectionStatus) r.(sourceDisplayName) r.(expiresAt) r.(currentRevisionId)
    r.(signingRevisionId) v r.(leaseOwner) r.(leaseUntil) r.(finalizationAttemptCount)
    r.(createdAt) r.(updatedAt).
Definition set_leaseOwner (v : option string) (r : t) : t :=
  mk r.(id) r.(organizationId) r.(ownerMembershipId) r.(title) r.(state) r.(signingMode)
    r.(inspectionStatus) r.(sourceDisplayName) r.(expiresAt) r.(currentRevisionId)
    r.(signingRevisionId) r.(version) v r.(leaseUntil) r.(finalizationAttemptCount)
    r.(createdAt) r.(updatedAt).
Definition set_leaseUntil (v : option Z) (r : t) : t :=
  mk r.(id) r.(organizationId) r.(ownerMembershipId) r.(title) r.(state) r.(signingMode)
    r.(inspectionStatus) r.(sourceDisplayName) r.(expiresAt) r.(currentRevisionId)
    r.(signingRevisionId) r.(version) r.(leaseOwner) v r.(finalizationAttemptCount)
    r.(createdAt) r.(updatedAt).
Definition set_finalizationAttemptCount (v : Z) (r : t) : t :=
  mk r.(id) r.(organizationId) r.(ownerMembershipId) r.(title) r.(state) r.(signingMode)
    r.(inspectionStatus) r.(sourceDisplayName) r.(expiresAt) r.(currentRevisionId)
    r.(signingRevisionId) r.(version) r.(leaseOwner) r.(leaseUntil) v r.(createdAt)
    r.(updatedAt).
Definition set_updatedAt (v : Z) (r : t) : t :=
  mk r.(id) r.(organizationId) r.(ownerMembershipId) r.(title) r.(state) r.(signingMode)
    r.(inspectionStatus) r.(sourceDisplayName) r.(expiresAt) r.(currentRevisionId)
    r.(signingRevisionId) r.(version) r.(leaseOwner) r.(leaseUntil)
    r.(finalizationAttemptCount) r.(createdAt) v.
Definition touch : Z → t → t := set_updatedAt.
End Document.

Module DocumentRevision.
(* [src: packages/database/prisma/schema.prisma:306-328 DocumentRevision] *)
Record t : Type := mk {
  id : string;
  organizationId : string;
  documentId : string;
  kind : DocumentRevisionKind.t;
  objectKey : string;
  contentType : string;
  sizeBytes : Z;
  sha256Digest : string;
  displayName : string;
  pageCount : Z;
  createdAt : Z
}.
Definition touch (now : Z) (r : t) : t := r.
End DocumentRevision.

Module UploadSession.
(* [src: packages/database/prisma/schema.prisma:330-352 UploadSession] *)
Record t : Type := mk {
  id : string;
  organizationId : string;
  documentId : string;
  tokenHash : string;
  status : UploadSessionStatus.t;
  displayName : string;
  contentType : string;
  maxBytes : Z;
  expiresAt : Z;
  completedAt : option Z;
  revisionId : option string;
  createdAt : Z;
  updatedAt : Z
}.
Definition set_status (v : UploadSessionStatus.t) (r : t) : t :=
  mk r.(id) r.(organizationId) r.(documentId) r.(tokenHash) v r.(displayName) r.(contentType)
    r.(maxBytes) r.(expiresAt) r.(completedAt) r.(revisionId) r.(createdAt) r.(updatedAt).
Definition set_completedAt (v : option Z) (r : t) : t :=
  mk r.(id) r.(organizationId) r.(documentId) r.(tokenHash) r.(status) r.(displayName)
    r.(contentType) r.(maxBytes) r.(expiresAt) v r.(revisionId) r.(createdAt) r.(updatedAt).
Definition set_revisionId (v : option string) (r : t) : t :=
  mk r.(id) r.(organizationId) r.(documentId) r.(tokenHash) r.(status) r.(displayName)
    r.(contentType) r.(maxBytes) r.(expiresAt) r.(completedAt) v r.(createdAt) r.(updatedAt).
Definition set_updatedAt (v : Z) (r : t) : t :=
  mk r.(id) r.(organizationId) r.(documentId) r.(tokenHash) r.(status) r.(displayName)
    r.(contentType) r.(maxBytes) r.(expiresAt) r.(completedAt) r.(revisionId) r.(createdAt) v.
Definition touch : Z → t → t := set_updatedAt.
End UploadSession.

Module PreviewGrant.
(* [src: packages/database/prisma/schema.prisma:354-369 PreviewGrant] *)
Record t : Type := mk {
  id : string;
  organizationId : string;
  documentId : string;
  revisionId : string;
  tokenHash : string;
  expiresAt : Z;
  createdAt : Z
}.
Definition touch (now : Z) (r : t) : t := r.
End PreviewGrant.

Module Signer.
(* [src: packages/database/prisma/schema.prisma:371-397 Signer] *)
Record t : Type := mk {
  id : string;
  organizationId : string;
  documentId : string;
  accountUserId : option string;
  routingOrder : Z;
  status : SignerStatus.t;
  email : option string;
  displayName : string;
  version : Z;
  completedAt : option Z;
  declinedAt : option Z;
  createdAt : Z;
  updatedAt : Z
}.
Definition set_routingOrder (v : Z) (r : t) : t :=
  mk r.(id) r.(organizationId) r.(documentId) r.(accountUserId) v r.(status) r.(email)
    r.(displayName) r.(version) r.(completedAt) r.(declinedAt) r.(createdAt) r.(updatedAt).
Definition set_status (v : SignerStatus.t) (r : t) : t :=
  mk r.(id) r.(organizationId) r.(documentId) r.(accountUserId) r.(routingOrder) v r.(email)
    r.(displayName) r.(version) r.(completedAt) r.(declinedAt) r.(createdAt) r.(updatedAt).
Definition set_email (v : option string) (r : t) : t :=
  mk r.(id) r.(organizationId) r.(documentId) r.(accountUserId) r.(routingOrder) r.(status) v
    r.(displayName) r.(version) r.(completedAt) r.(declinedAt) r.(createdAt) r.(updatedAt).
Definition set_displayName (v : string) (r : t) : t :=
  mk r.(id) r.(organizationId) r.(documentId) r.(accountUserId) r.(routingOrder) r.(status)
    r.(email) v r.(version) r.(completedAt) r.(declinedAt) r.(createdAt) r.(updatedAt).
Definition set_version (v : Z) (r : t) : t :=
  mk r.(id) r.(organizationId) r.(documentId) r.(accountUserId) r.(routingOrder) r.(status)
    r.(email) r.(displayName) v r.(completedAt) r.(declinedAt) r.(createdAt) r.(updatedAt).
Definition set_completedAt (v : option Z) (r : t) : t :=
  mk r.(id) r.(organizationId) r.(documentId) r.(accountUserId) r.(routingOrder) r.(status)
    r.(email) r.(displayName) r.(version) v r.(declinedAt) r.(createdAt) r.(updatedAt).
Definition set_declinedAt (v : option Z) (r : t) : t :=
  mk r.(id) r.(organizationId) r.(documentId) r.(accountUserId) r.(routingOrder) r.(status)
    r.(email) r.(displayName) r.(version) r.(completedAt) v r.(createdAt) r.(updatedAt).
Definition set_updatedAt (v : Z) (r : t) : t :=
  mk r.(id) r.(organizationId) r.(documentId) r.(accountUserId) r.(routingOrder) r.(status)
    r.(email) r.(displayName) r.(version) r.(completedAt) r.(declinedAt) r.(createdAt) v.
Definition touch : Z → t → t := set_updatedAt.
End Signer.

Module SigningSession.
(* [src: packages/database/prisma/schema.prisma:399-429 SigningSession] *)
Record t : Type := mk {
  id : string;
  organizationId : string;
  documentId : string;
  signerId : string;
  tokenHash : string;
  csrfTokenHash : option string;
  status : SigningSessionStatus.t;
  expiresAt : Z;
  consumedAt : option Z;
  completedAt : option Z;
  revokedAt : option Z;
  presentationAttemptCount : Z;
  failedPresentationCount : Z;
  lastPresentedAt : option Z;
  requestId : option string;
  version : Z;
  createdAt : Z;
  updatedAt : Z
}.
Definition set_tokenHash (v : string) (r : t) : t :=
  mk r.(id) r.(organizationId) r.(documentId) r.(signerId) v r.(csrfTokenHash) r.(status)
    r.(expiresAt) r.(consumedAt) r.(completedAt) r.(revokedAt) r.(presentationAttemptCount)
    r.(failedPresentationCount) r.(lastPresentedAt) r.(requestId) r.(version) r.(createdAt)
    r.(updatedAt).
Definition set_csrfTokenHash (v : option string) (r : t) : t :=
  mk r.(id) r.(organizationId) r.(documentId) r.(signerId) r.(tokenHash) v r.(status)
    r.(expiresAt) r.(consumedAt) r.(completedAt) r.(revokedAt) r.(presentationAttemptCount)
    r.(failedPresentationCount) r.(lastPresentedAt) r.(requestId) r.(version) r.(createdAt)
    r.(updatedAt).
Definition set_status (v : SigningSessionStatus.t) (r : t) : t :=
  mk r.(id) r.(organizationId) r.(documentId) r.(signerId) r.(tokenHash) r.(csrfTokenHash) v
    r.(expiresAt) r.(consumedAt) r.(completedAt) r.(revokedAt) r.(presentationAttemptCount)
    r.(failedPresentationCount) r.(lastPresentedAt) r.(requestId) r.(version) r.(createdAt)
    r.(updatedAt).
Definition set_consumedAt (v : option Z) (r : t) : t :=
  mk r.(id) r.(organizationId) r.(documentId) r.(signerId) r.(tokenHash) r.(csrfTokenHash)
    r.(status) r.(expiresAt) v r.(completedAt) r.(revokedAt) r.(presentationAttemptCount)
    r.(failedPresentationCount) r.(lastPresentedAt) r.(requestId) r.(version) r.(createdAt)
    r.(updatedAt).
Definition set_completedAt (v : option Z) (r : t) : t :=
  mk r.(id) r.(organizationId) r.(documentId) r.(signerId) r.(tokenHash) r.(csrfTokenHash)
    r.(status) r.(expiresAt) r.(consumedAt) v r.(revokedAt) r.(presentationAttemptCount)
    r.(failedPresentationCount) r.(lastPresentedAt) r.(requestId) r.(version) r.(createdAt)
    r.(updatedAt).
Definition set_revokedAt (v : option Z) (r : t) : t :=
  mk r.(id) r.(organizationId) r.(documentId) r.(signerId) r.(tokenHash) r.(csrfTokenHash)
    r.(status) r.(expiresAt) r.(consumedAt) r.(completedAt) v r.(presentationAttemptCount)
    r.(failedPresentationCount) r.(lastPresentedAt) r.(requestId) r.(version) r.(createdAt)
    r.(updatedAt).
Definition set_lastPresentedAt (v : option Z) (r : t) : t :=
  mk r.(id) r.(organizationId) r.(documentId) r.(signerId) r.(tokenHash) r.(csrfTokenHash)
    r.(status) r.(expiresAt) r.(consumedAt) r.(completedAt) r.(revokedAt)
    r.(presentationAttemptCount) r.(failedPresentationCount) v r.(requestId) r.(version)
    r.(createdAt) r.(updatedAt).
Definition set_version (v : Z) (r : t) : t :=
  mk r.(id) r.(organizationId) r.(documentId) r.(signerId) r.(tokenHash) r.(csrfTokenHash)
    r.(status) r.(expiresAt) r.(consumedAt) r.(completedAt) r.(revokedAt)
    r.(presentationAttemptCount) r.(failedPresentationCount) r.(lastPresentedAt) r.(requestId)
    v r.(createdAt) r.(updatedAt).
Definition set_updatedAt (v : Z) (r : t) : t :=
  mk r.(id) r.(organizationId) r.(documentId) r.(signerId) r.(tokenHash) r.(csrfTokenHash)
    r.(status) r.(expiresAt) r.(consumedAt) r.(completedAt) r.(revokedAt)
    r.(presentationAttemptCount) r.(failedPresentationCount) r.(lastPresentedAt) r.(requestId)
    r.(version) r.(createdAt) v.
Definition touch : Z → t → t := set_updatedAt.
End SigningSession.

Module SignatureField.
(* [src: packages/database/prisma/schema.prisma:431-460 SignatureField] *)
Record t : Type := mk {
  id : string;
  organizationId : string;
  documentId : string;
  signerId : string;
  type : SignatureFieldType.t;
  pageNumber : Z;
  x : Z;
  y : Z;
  width : Z;
  height : Z;
  required : bool;
  completedAt : option Z;
  completionObjectKey : option string;
  completionContentType : option string;
  completionSizeBytes : option Z;
  completionSha256Digest : option string;
  flattenedRevisionId : option string;
  createdAt : Z;
  updatedAt : Z
}.
Definition set_completedAt (v : option Z) (r : t) : t :=
  mk r.(id) r.(organizationId) r.(documentId) r.(signerId) r.(type) r.(pageNumber) r.(x) r.(y)
    r.(width) r.(height) r.(required) v r.(completionObjectKey) r.(completionContentType)
    r.(completionSizeBytes) r.(completionSha256Digest) r.(flattenedRevisionId) r.(createdAt)
    r.(updatedAt).
Definition set_completionObjectKey (v : option string) (r : t) : t :=
  mk r.(id) r.(organizationId) r.(documentId) r.(signerId) r.(type) r.(pageNumber) r.(x) r.(y)
    r.(width) r.(height) r.(required) r.(completedAt) v r.(completionContentType)
    r.(completionSizeBytes) r.(completionSha256Digest) r.(flattenedRevisionId) r.(createdAt)
    r.(updatedAt).
Definition set_completionContentType (v : option string) (r : t) : t :=
  mk r.(id) r.(organizationId) r.(documentId) r.(signerId) r.(type) r.(pageNumber) r.(x) r.(y)
    r.(width) r.(height) r.(required) r.(completedAt) r.(completionObjectKey) v
    r.(completionSizeBytes) r.(completionSha256Digest) r.(flattenedRevisionId) r.(createdAt)
    r.(updatedAt).
Definition set_completionSizeBytes (v : option Z) (r : t) : t :=
  mk r.(id) r.(organizationId) r.(documentId) r.(signerId) r.(type) r.(pageNumber) r.(x) r.(y)
    r.(width) r.(height) r.(required) r.(completedAt) r.(completionObjectKey)
    r.(completionContentType) v r.(completionSha256Digest) r.(flattenedRevisionId)
    r.(createdAt) r.(updatedAt).
Definition set_completionSha256Digest (v : option string) (r : t) : t :=
  mk r.(id) r.(organizationId) r.(documentId) r.(signerId) r.(type) r.(pageNumber) r.(x) r.(y)
    r.(width) r.(height) r.(required) r.(completedAt) r.(completionObjectKey)
    r.(completionContentType) r.(completionSizeBytes) v r.(flattenedRevisionId) r.(createdAt)
    r.(updatedAt).
Definition set_flattenedRevisionId (v : option string) (r : t) : t :=
  mk r.(id) r.(organizationId) r.(documentId) r.(signerId) r.(type) r.(pageNumber) r.(x) r.(y)
    r.(width) r.(height) r.(required) r.(completedAt) r.(completionObjectKey)
    r.(completionContentType) r.(completionSizeBytes) r.(completionSha256Digest) v
    r.(createdAt) r.(updatedAt).
Definition set_updatedAt (v : Z) (r : t) : t :=
  mk r.(id) r.(organizationId) r.(documentId) r.(signerId) r.(type) r.(pageNumber) r.(x) r.(y)
    r.(width) r.(height) r.(required) r.(completedAt) r.(completionObjectKey)
    r.(completionContentType) r.(completionSizeBytes) r.(completionSha256Digest)
    r.(flattenedRevisionId) r.(createdAt) v.
Definition touch : Z → t → t := set_updatedAt.
End SignatureField.

Module ConsentRecord.
(* [src: packages/database/prisma/schema.prisma:462-482 ConsentRecord] *)
Record t : Type := mk {
  id : string;
  organizationId : string;
  documentId : string;
  signerId : string;
  sessionId : string;
  consentCopyId : string;
  acceptedAt : Z;
  requestId : option string;
  untrustedClientIp : option string;
  untrustedUserAgent : option string;
  createdAt : Z
}.
Definition touch (now : Z) (r : t) : t := r.
End ConsentRecord.

Module FinalizedArtifact.
(* [src: packages/database/prisma/schema.prisma:484-499 FinalizedArtifact] *)
Record t : Type := mk {
  id : string;
  organizationId : string;
  documentId : string;
  objectKey : string;
  contentType : string;
  sizeBytes : Z;
  sha256Digest : string;
  createdAt : Z
}.
Definition touch (now : Z) (r : t) : t := r.
End FinalizedArtifact.

Module AuditLog.
(* [src: packages/database/prisma/schema.prisma:501-524 AuditLog] *)
Record t : Type := mk {
  id : string;
  organizationId : string;
  documentId : string;
  sequence : Z;
  type : AuditEventType.t;
  actorType : AuditActorType.t;
  actorId : string;
  occurredAt : Z;
  payload : value;
  previousEventHash : string;
  eventHash : string;
  requestId : option string;
  chainVersion : Z;
  createdAt : Z
}.
Definition touch (now : Z) (r : t) : t := r.
End AuditLog.

Module OutboxEvent.
(* [src: packages/database/prisma/schema.prisma:526-551 OutboxEvent] *)
Record t : Type := mk {
  id : string;
  organizationId : string;
  documentId : option string;
  type : string;
  status : OutboxStatus.t;
  payload : value;
  requestId : option string;
  attemptCount : Z;
  leaseOwner : option string;
  leaseUntil : option Z;
  availableAt : Z;
  processedAt : option Z;
  lastErrorCode : option string;
  createdAt : Z;
  updatedAt : Z
}.
Definition set_status (v : OutboxStatus.t) (r : t) : t :=
  mk r.(id) r.(organizationId) r.(documentId) r.(type) v r.(payload) r.(requestId)
    r.(attemptCount) r.(leaseOwner) r.(leaseUntil) r.(availableAt) r.(processedAt)
    r.(lastErrorCode) r.(createdAt) r.(updatedAt).
Definition set_attemptCount (v : Z) (r : t) : t :=
  mk r.(id) r.(organizationId) r.(documentId) r.(type) r.(status) r.(payload) r.(requestId) v
    r.(leaseOwner) r.(leaseUntil) r.(availableAt) r.(processedAt) r.(lastErrorCode)
    r.(createdAt) r.(updatedAt).
Definition set_leaseOwner (v : option string) (r : t) : t :=
  mk r.(id) r.(organizationId) r.(documentId) r.(type) r.(status) r.(payload) r.(requestId)
    r.(attemptCount) v r.(leaseUntil) r.(availableAt) r.(processedAt) r.(lastErrorCode)
    r.(createdAt) r.(updatedAt).
Definition set_leaseUntil (v : option Z) (r : t) : t :=
  mk r.(id) r.(organizationId) r.(documentId) r.(type) r.(status) r.(payload) r.(requestId)
    r.(attemptCount) r.(leaseOwner) v r.(availableAt) r.(processedAt) r.(lastErrorCode)
    r.(createdAt) r.(updatedAt).
Definition set_availableAt (v : Z) (r : t) : t :=
  mk r.(id) r.(organizationId) r.(documentId) r.(type) r.(status) r.(payload) r.(requestId)
    r.(attemptCount) r.(leaseOwner) r.(leaseUntil) v r.(processedAt) r.(lastErrorCode)
    r.(createdAt) r.(updatedAt).
Definition set_processedAt (v : option Z) (r : t) : t :=
  mk r.(id) r.(organizationId) r.(documentId) r.(type) r.(status) r.(payload) r.(requestId)
    r.(attemptCount) r.(leaseOwner) r.(leaseUntil) r.(availableAt) v r.(lastErrorCode)
    r.(createdAt) r.(updatedAt).
Definition set_lastErrorCode (v : option string) (r : t) : t :=
  mk r.(id) r.(organizationId) r.(documentId) r.(type) r.(status) r.(payload) r.(requestId)
    r.(attemptCount) r.(leaseOwner) r.(leaseUntil) r.(availableAt) r.(processedAt) v
    r.(createdAt) r.(updatedAt).
Definition set_updatedAt (v : Z) (r : t) : t :=
  mk r.(id) r.(organizationId) r.(documentId) r.(type) r.(status) r.(payload) r.(requestId)
    r.(attemptCount) r.(leaseOwner) r.(leaseUntil) r.(availableAt) r.(processedAt)
    r.(lastErrorCode) r.(createdAt) v.
Definition touch : Z → t → t := set_updatedAt.
End OutboxEvent.

Module BackgroundJob.
(* [src: packages/database/prisma/schema.prisma:553-579 BackgroundJob] *)
Record t : Type := mk {
  id : string;
  organizationId : string;
  documentId : option string;
  outboxEventId : option string;
  type : string;
  status : BackgroundJobStatus.t;
  attemptCount : Z;
  maxAttempts : Z;
  leaseOwner : option string;
  leaseUntil : option Z;
  availableAt : Z;
  lastErrorCode : option string;
  requestId : option string;
  version : Z;
  createdAt : Z;
  updatedAt : Z
}.
Definition set_status (v : BackgroundJobStatus.t) (r : t) : t :=
  mk r.(id) r.(organizationId) r.(documentId) r.(outboxEventId) r.(type) v r.(attemptCount)
    r.(maxAttempts) r.(leaseOwner) r.(leaseUntil) r.(availableAt) r.(lastErrorCode)
    r.(requestId) r.(version) r.(createdAt) r.(updatedAt).
Definition set_attemptCount (v : Z) (r : t) : t :=
  mk r.(id) r.(organizationId) r.(documentId) r.(outboxEventId) r.(type) r.(status) v
    r.(maxAttempts) r.(leaseOwner) r.(leaseUntil) r.(availableAt) r.(lastErrorCode)
    r.(requestId) r.(version) r.(createdAt) r.(updatedAt).
Definition set_leaseOwner (v : option string) (r : t) : t :=
  mk r.(id) r.(organizationId) r.(documentId) r.(outboxEventId) r.(type) r.(status)
    r.(attemptCount) r.(maxAttempts) v r.(leaseUntil) r.(availableAt) r.(lastErrorCode)
    r.(requestId) r.(version) r.(createdAt) r.(updatedAt).
Definition set_leaseUntil (v : option Z) (r : t) : t :=
  mk r.(id) r.(organizationId) r.(documentId) r.(outboxEventId) r.(type) r.(status)
    r.(attemptCount) r.(maxAttempts) r.(leaseOwner) v r.(availableAt) r.(lastErrorCode)
    r.(requestId) r.(version) r.(createdAt) r.(updatedAt).
Definition set_availableAt (v : Z) (r : t) : t :=
  mk r.(id) r.(organizationId) r.(documentId) r.(outboxEventId) r.(type) r.(status)
    r.(attemptCount) r.(maxAttempts) r.(leaseOwner) r.(leaseUntil) v r.(lastErrorCode)
    r.(requestId) r.(version) r.(createdAt) r.(updatedAt).
Definition set_lastErrorCode (v : option string) (r : t) : t :=
  mk r.(id) r.(organizationId) r.(documentId) r.(outboxEventId) r.(type) r.(status)
    r.(attemptCount) r.(maxAttempts) r.(leaseOwner) r.(leaseUntil) r.(availableAt) v
    r.(requestId) r.(version) r.(createdAt) r.(updatedAt).
Definition set_version (v : Z) (r : t) : t :=
  mk r.(id) r.(organizationId) r.(documentId) r.(outboxEventId) r.(type) r.(status)
    r.(attemptCount) r.(maxAttempts) r.(leaseOwner) r.(leaseUntil) r.(availableAt)
    r.(lastErrorCode) r.(requestId) v r.(createdAt) r.(updatedAt).
Definition set_updatedAt (v : Z) (r : t) : t :=
  mk r.(id) r.(organizationId) r.(documentId) r.(outboxEventId) r.(type) r.(status)
    r.(attemptCount) r.(maxAttempts) r.(leaseOwner) r.(leaseUntil) r.(availableAt)
    r.(lastErrorCode) r.(requestId) r.(version) r.(createdAt) v.
Definition touch : Z → t → t := set_updatedAt.
End BackgroundJob.

Module IdempotencyRecord.
(* [src: packages/database/prisma/schema.prisma:581-602 IdempotencyRecord] *)
Record t : Type := mk {
  id : string;
  organizationId : string;
  principalType : IdempotencyPrincipalType.t;
  principalId : string;
  route : string;
  key : string;
  requestHash : string;
  requestId : option string;
  responseStatus : option Z;
  responseBody : option value;
  expiresAt : Z;
  createdAt : Z;
  updatedAt : Z
}.
Definition set_responseStatus (v : option Z) (r : t) : t :=
  mk r.(id) r.(organizationId) r.(principalType) r.(principalId) r.(route) r.(key)
    r.(requestHash) r.(requestId) v r.(responseBody) r.(expiresAt) r.(createdAt) r.(updatedAt).
Definition set_responseBody (v : option value) (r : t) : t :=
  mk r.(id) r.(organizationId) r.(principalType) r.(principalId) r.(route) r.(key)
    r.(requestHash) r.(requestId) r.(responseStatus) v r.(expiresAt) r.(createdAt)
    r.(updatedAt).
Definition set_updatedAt (v : Z) (r : t) : t :=
  mk r.(id) r.(organizationId) r.(principalType) r.(principalId) r.(route) r.(key)
    r.(requestHash) r.(requestId) r.(responseStatus) r.(responseBody) r.(expiresAt)
    r.(createdAt) v.
Definition touch : Z → t → t := set_updatedAt.
End IdempotencyRecord.

End Prisma.
