(* ===== verification/PrismaMappers.v ===== *)
(** The mappers between database rows and domain entities, from
    [packages/database/src/infrastructure/prisma-mappers.ts]. *)

From Stdlib Require Import String.
From S2P Require Export PrismaRows Canonical.
Local Open Scope string_scope.

(* [src: packages/database/src/infrastructure/prisma-mappers.ts:73-78 MEMBERSHIP_ROLE_TO_DOMAIN] *)
Definition MEMBERSHIP_ROLE_TO_DOMAIN (x : Prisma.MembershipRole.t) : MembershipRole.t :=
  match x with
  | Prisma.MembershipRole.owner => MembershipRole.owner
  | Prisma.MembershipRole.admin => MembershipRole.admin
  | Prisma.MembershipRole.member => MembershipRole.member
  | Prisma.MembershipRole.readOnly => MembershipRole.read_only
  end.

(* [src: packages/database/src/infrastructure/prisma-mappers.ts:90-102 DOCUMENT_STATE_TO_PRISMA] *)
Definition DOCUMENT_STATE_TO_PRISMA (x : DocumentState.t) : Prisma.DocumentState.t :=
  match x with
  | DocumentState.draft => Prisma.DocumentState.draft
  | DocumentState.prepared => Prisma.DocumentState.prepared
  | DocumentState.sent => Prisma.DocumentState.sent
  | DocumentState.in_progress => Prisma.DocumentState.inProgress
  | DocumentState.completed => Prisma.DocumentState.completed
  | DocumentState.finalizing => Prisma.DocumentState.finalizing
  | DocumentState.finalized => Prisma.DocumentState.finalized
  | DocumentState.voided => Prisma.DocumentState.voided
  | DocumentState.expired => Prisma.DocumentState.expired
  | DocumentState.declined => Prisma.DocumentState.declined
  | DocumentState.finalization_failed => Prisma.DocumentState.finalizationFailed
  end.

(* [src: packages/database/src/infrastructure/prisma-mappers.ts:104-116 DOCUMENT_STATE_TO_DOMAIN] *)
Definition DOCUMENT_STATE_TO_DOMAIN (x : Prisma.DocumentState.t) : DocumentState.t :=
  match x with
  | Prisma.DocumentState.draft => DocumentState.draft
  | Prisma.DocumentState.prepared => DocumentState.prepared
  | Prisma.DocumentState.sent => DocumentState.sent
  | Prisma.DocumentState.inProgress => DocumentState.in_progress
  | Prisma.DocumentState.completed => DocumentState.completed
  | Prisma.DocumentState.finalizing => DocumentState.finalizing
  | Prisma.DocumentState.finalized => DocumentState.finalized
  | Prisma.DocumentState.voided => DocumentState.voided
  | Prisma.DocumentState.expired => DocumentState.expired
  | Prisma.DocumentState.declined => DocumentState.declined
  | Prisma.DocumentState.finalizationFailed => DocumentState.finalization_failed
  end.

(* [src: packages/database/src/infrastructure/prisma-mappers.ts:118-125 DOCUMENT_INSPECTION_STATUS_TO_PRISMA] *)
Definition DOCUMENT_INSPECTION_STATUS_TO_PRISMA (x : DocumentInspectionStatus.t) : Prisma.DocumentInspectionStatus.t :=
  match x with
  | DocumentInspectionStatus.pending => Prisma.DocumentInspectionStatus.pending
  | DocumentInspectionStatus.accepted => Prisma.DocumentInspectionStatus.accepted
  | DocumentInspectionStatus.rejected => Prisma.DocumentInspectionStatus.rejected
  end.

(* [src: packages/database/src/infrastructure/prisma-mappers.ts:127-134 DOCUMENT_INSPECTION_STATUS_TO_DOMAIN] *)
Definition DOCUMENT_INSPECTION_STATUS_TO_DOMAIN (x : Prisma.DocumentInspectionStatus.t) : DocumentInspectionStatus.t :=
  match x with
  | Prisma.DocumentInspectionStatus.pending => DocumentInspectionStatus.pending
  | Prisma.DocumentInspectionStatus.accepted => DocumentInspectionStatus.accepted
  | Prisma.DocumentInspectionStatus.rejected => DocumentInspectionStatus.rejected
  end.

(* [src: packages/database/src/infrastructure/prisma-mappers.ts:136-141 UPLOAD_SESSION_STATUS_TO_DOMAIN] *)
Definition UPLOAD_SESSION_STATUS_TO_DOMAIN (x : Prisma.UploadSessionStatus.t) : UploadSessionStatus.t :=
  match x with
  | Prisma.UploadSessionStatus.issued => UploadSessionStatus.issued
  | Prisma.UploadSessionStatus.completed => UploadSessionStatus.completed
  | Prisma.UploadSessionStatus.expired => UploadSessionStatus.expired
  | Prisma.UploadSessionStatus.abandoned => UploadSessionStatus.abandoned
  end.

(* [src: packages/database/src/infrastructure/prisma-mappers.ts:143-151 UPLOAD_SESSION_STATUS_TO_PRISMA] *)
Definition UPLOAD_SESSION_STATUS_TO_PRISMA (x : UploadSessionStatus.t) : Prisma.UploadSessionStatus.t :=
  match x with
  | UploadSessionStatus.issued => Prisma.UploadSessionStatus.issued
  | UploadSessionStatus.completed => Prisma.UploadSessionStatus.completed
  | UploadSessionStatus.expired => Prisma.UploadSessionStatus.expired
  | UploadSessionStatus.abandoned => Prisma.UploadSessionStatus.abandoned
  end.

(* [src: packages/database/src/infrastructure/prisma-mappers.ts:153-157 SIGNER_STATUS_TO_DOMAIN] *)
Definition SIGNER_STATUS_TO_DOMAIN (x : Prisma.SignerStatus.t) : SignerStatus.t :=
  match x with
  | Prisma.SignerStatus.pending => SignerStatus.pending
  | Prisma.SignerStatus.signed => SignerStatus.signed
  | Prisma.SignerStatus.declined => SignerStatus.declined
  end.

(* [src: packages/database/src/infrastructure/prisma-mappers.ts:159-165 SESSION_STATUS_TO_DOMAIN] *)
Definition SESSION_STATUS_TO_DOMAIN (x : Prisma.SigningSessionStatus.t) : SigningSessionStatus.t :=
  match x with
  | Prisma.SigningSessionStatus.issued => SigningSessionStatus.issued
  | Prisma.SigningSessionStatus.active => SigningSessionStatus.active
  | Prisma.SigningSessionStatus.completed => SigningSessionStatus.completed
  | Prisma.SigningSessionStatus.expired => SigningSessionStatus.expired
  | Prisma.SigningSessionStatus.revoked => SigningSessionStatus.revoked
  end.

(* [src: packages/database/src/infrastructure/prisma-mappers.ts:167-172 FIELD_TYPE_TO_DOMAIN] *)
Definition FIELD_TYPE_TO_DOMAIN (x : Prisma.SignatureFieldType.t) : SignatureFieldType.t :=
  match x with
  | Prisma.SignatureFieldType.signature => SignatureFieldType.signature
  | Prisma.SignatureFieldType.initials => SignatureFieldType.initials
  | Prisma.SignatureFieldType.dateSigned => SignatureFieldType.date_signed
  | Prisma.SignatureFieldType.signerName => SignatureFieldType.signer_name
  end.

(* [src: packages/database/src/infrastructure/prisma-mappers.ts:174-179 FIELD_TYPE_TO_PRISMA] *)
Definition FIELD_TYPE_TO_PRISMA (x : SignatureFieldType.t) : Prisma.SignatureFieldType.t :=
  match x with
  | SignatureFieldType.signature => Prisma.SignatureFieldType.signature
  | SignatureFieldType.initials => Prisma.SignatureFieldType.initials
  | SignatureFieldType.date_signed => Prisma.SignatureFieldType.dateSigned
  | SignatureFieldType.signer_name => Prisma.SignatureFieldType.signerName
  end.

(* [src: packages/database/src/infrastructure/prisma-mappers.ts:181-184 SIGNING_MODE_TO_PRISMA] *)
Definition SIGNING_MODE_TO_PRISMA (x : SigningMode.t) : Prisma.SigningMode.t :=
  match x with
  | SigningMode.ordered => Prisma.SigningMode.ordered
  | SigningMode.parallel => Prisma.SigningMode.parallel
  end.

(* [src: packages/database/src/infrastructure/prisma-mappers.ts:186-189 SIGNING_MODE_TO_DOMAIN] *)
Definition SIGNING_MODE_TO_DOMAIN (x : Prisma.SigningMode.t) : SigningMode.t :=
  match x with
  | Prisma.SigningMode.ordered => SigningMode.ordered
  | Prisma.SigningMode.parallel => SigningMode.parallel
  end.

(* [src: packages/database/src/infrastructure/prisma-mappers.ts:191-197 SESSION_STATUS_TO_PRISMA] *)
Definition SESSION_STATUS_TO_PRISMA (x : SigningSessionStatus.t) : Prisma.SigningSessionStatus.t :=
  match x with
  | SigningSessionStatus.issued => Prisma.SigningSessionStatus.issued
  | SigningSessionStatus.active => Prisma.SigningSessionStatus.active
  | SigningSessionStatus.completed => Prisma.SigningSessionStatus.completed
  | SigningSessionStatus.expired => Prisma.SigningSessionStatus.expired
  | SigningSessionStatus.revoked => Prisma.SigningSessionStatus.revoked
  end.

(* [src: packages/database/src/infrastructure/prisma-mappers.ts:199-203 SIGNER_STATUS_TO_PRISMA] *)
Definition SIGNER_STATUS_TO_PRISMA (x : SignerStatus.t) : Prisma.SignerStatus.t :=
  match x with
  | SignerStatus.pending => Prisma.SignerStatus.pending
  | SignerStatus.signed => Prisma.SignerStatus.signed
  | SignerStatus.declined => Prisma.SignerStatus.declined
  end.

(* [src: packages/database/src/infrastructure/prisma-mappers.ts:205-208 REVISION_KIND_TO_DOMAIN] *)
Definition REVISION_KIND_TO_DOMAIN (x : Prisma.DocumentRevisionKind.t) : DocumentRevisionKind.t :=
  match x with
  | Prisma.DocumentRevisionKind.source => DocumentRevisionKind.source
  | Prisma.DocumentRevisionKind.intermediate => DocumentRevisionKind.intermediate
  end.

(* [src: packages/database/src/infrastructure/prisma-mappers.ts:210-213 REVISION_KIND_TO_PRISMA] *)
Definition REVISION_KIND_TO_PRISMA (x : DocumentRevisionKind.t) : Prisma.DocumentRevisionKind.t :=
  match x with
  | DocumentRevisionKind.source => Prisma.DocumentRevisionKind.source
  | DocumentRevisionKind.intermediate => Prisma.DocumentRevisionKind.intermediate
  end.

(* [src: packages/database/src/infrastructure/prisma-mappers.ts:215-237 AUDIT_EVENT_TYPE_TO_PRISMA] *)
Definition AUDIT_EVENT_TYPE_TO_PRISMA (x : AuditEventType.t) : Prisma.AuditEventType.t :=
  match x with
  | AuditEventType.document_created => Prisma.AuditEventType.documentCreated
  | AuditEventType.revision_added => Prisma.AuditEventType.revisionAdded
  | AuditEventType.fields_updated => Prisma.AuditEventType.fieldsUpdated
  | AuditEventType.signers_updated => Prisma.AuditEventType.signersUpdated
  | AuditEventType.document_sent => Prisma.AuditEventType.documentSent
  | AuditEventType.session_issued => Prisma.AuditEventType.sessionIssued
  | AuditEventType.session_revoked => Prisma.AuditEventType.sessionRevoked
  | AuditEventType.session_exchanged => Prisma.AuditEventType.sessionExchanged
  | AuditEventType.document_viewed => Prisma.AuditEventType.documentViewed
  | AuditEventType.consent_recorded => Prisma.AuditEventType.consentRecorded
  | AuditEventType.signer_signed => Prisma.AuditEventType.signerSigned
  | AuditEventType.signer_declined => Prisma.AuditEventType.signerDeclined
  | AuditEventType.document_voided => Prisma.AuditEventType.documentVoided
  | AuditEventType.document_expired => Prisma.AuditEventType.documentExpired
  | AuditEventType.finalization_started => Prisma.AuditEventType.finalizationStarted
  | AuditEventType.document_finalized => Prisma.AuditEventType.documentFinalized
  | AuditEventType.finalization_failed => Prisma.AuditEventType.finalizationFailed
  | AuditEventType.artifact_downloaded => Prisma.AuditEventType.artifactDownloaded
  | AuditEventType.inspection_accepted => Prisma.AuditEventType.inspectionAccepted
  | AuditEventType.inspection_rejected => Prisma.AuditEventType.inspectionRejected
  | AuditEventType.upload_abandoned => Prisma.AuditEventType.uploadAbandoned
  end.

(* [src: packages/database/src/infrastructure/prisma-mappers.ts:239-244 AUDIT_ACTOR_TYPE_TO_PRISMA] *)
Definition AUDIT_ACTOR_TYPE_TO_PRISMA (x : AuditActorType.t) : Prisma.AuditActorType.t :=
  match x with
  | AuditActorType.account_user => Prisma.AuditActorType.accountUser
  | AuditActorType.signer => Prisma.AuditActorType.signer
  | AuditActorType.worker => Prisma.AuditActorType.worker
  | AuditActorType.system => Prisma.AuditActorType.system
  end.

(* [src: packages/database/src/infrastructure/prisma-mappers.ts:246-268 AUDIT_EVENT_TYPE_TO_DOMAIN] *)
Definition AUDIT_EVENT_TYPE_TO_DOMAIN (x : Prisma.AuditEventType.t) : AuditEventType.t :=
  match x with
  | Prisma.AuditEventType.documentCreated => AuditEventType.document_created
  | Prisma.AuditEventType.revisionAdded => AuditEventType.revision_added
  | Prisma.AuditEventType.fieldsUpdated => AuditEventType.fields_updated
  | Prisma.AuditEventType.signersUpdated => AuditEventType.signers_updated
  | Prisma.AuditEventType.documentSent => AuditEventType.document_sent
  | Prisma.AuditEventType.sessionIssued => AuditEventType.session_issued
  | Prisma.AuditEventType.sessionRevoked => AuditEventType.session_revoked
  | Prisma.AuditEventType.sessionExchanged => AuditEventType.session_exchanged
  | Prisma.AuditEventType.documentViewed => AuditEventType.document_viewed
  | Prisma.AuditEventType.consentRecorded => AuditEventType.consent_recorded
  | Prisma.AuditEventType.signerSigned => AuditEventType.signer_signed
  | Prisma.AuditEventType.signerDeclined => AuditEventType.signer_declined
  | Prisma.AuditEventType.documentVoided => AuditEventType.document_voided
  | Prisma.AuditEventType.documentExpired => AuditEventType.document_expired
  | Prisma.AuditEventType.finalizationStarted => AuditEventType.finalization_started
  | Prisma.AuditEventType.documentFinalized => AuditEventType.document_finalized
  | Prisma.AuditEventType.finalizationFailed => AuditEventType.finalization_failed
  | Prisma.AuditEventType.artifactDownloaded => AuditEventType.artifact_downloaded
  | Prisma.AuditEventType.inspectionAccepted => AuditEventType.inspection_accepted
  | Prisma.AuditEventType.inspectionRejected => AuditEventType.inspection_rejected
  | Prisma.AuditEventType.uploadAbandoned => AuditEventType.upload_abandoned
  end.

(* [src: packages/database/src/infrastructure/prisma-mappers.ts:270-275 AUDIT_ACTOR_TYPE_TO_DOMAIN] *)
Definition AUDIT_ACTOR_TYPE_TO_DOMAIN (x : Prisma.AuditActorType.t) : AuditActorType.t :=
  match x with
  | Prisma.AuditActorType.accountUser => AuditActorType.account_user
  | Prisma.AuditActorType.signer => AuditActorType.signer
  | Prisma.AuditActorType.worker => AuditActorType.worker
  | Prisma.AuditActorType.system => AuditActorType.system
  end.

(* [src: packages/database/src/infrastructure/prisma-mappers.ts:277-282 OUTBOX_STATUS_TO_DOMAIN] *)
Definition OUTBOX_STATUS_TO_DOMAIN (x : Prisma.OutboxStatus.t) : OutboxStatus.t :=
  match x with
  | Prisma.OutboxStatus.pending => OutboxStatus.pending
  | Prisma.OutboxStatus.processing => OutboxStatus.processing
  | Prisma.OutboxStatus.processed => OutboxStatus.processed
  | Prisma.OutboxStatus.failed => OutboxStatus.failed
  end.

(* [src: packages/database/src/infrastructure/prisma-mappers.ts:284-290 JOB_STATUS_TO_DOMAIN] *)
Definition JOB_STATUS_TO_DOMAIN (x : Prisma.BackgroundJobStatus.t) : BackgroundJobStatus.t :=
  match x with
  | Prisma.BackgroundJobStatus.pending => BackgroundJobStatus.pending
  | Prisma.BackgroundJobStatus.leased => BackgroundJobStatus.leased
  | Prisma.BackgroundJobStatus.succeeded => BackgroundJobStatus.succeeded
  | Prisma.BackgroundJobStatus.failed => BackgroundJobStatus.failed
  | Prisma.BackgroundJobStatus.cancelled => BackgroundJobStatus.cancelled
  end.

(* [src: packages/database/src/infrastructure/prisma-mappers.ts:292-300 IDEMPOTENCY_PRINCIPAL_TO_PRISMA] *)
Definition IDEMPOTENCY_PRINCIPAL_TO_PRISMA (x : AuditActorType.t) : Prisma.IdempotencyPrincipalType.t :=
  match x with
  | AuditActorType.account_user => Prisma.IdempotencyPrincipalType.accountUser
  | AuditActorType.signer => Prisma.IdempotencyPrincipalType.signer
  | AuditActorType.worker => Prisma.IdempotencyPrincipalType.worker
  | AuditActorType.system => Prisma.IdempotencyPrincipalType.system
  end.

(* [src: packages/database/src/infrastructure/prisma-mappers.ts:302-310 IDEMPOTENCY_PRINCIPAL_TO_DOMAIN] *)
Definition IDEMPOTENCY_PRINCIPAL_TO_DOMAIN (x : Prisma.IdempotencyPrincipalType.t) : AuditActorType.t :=
  match x with
  | Prisma.IdempotencyPrincipalType.accountUser => AuditActorType.account_user
  | Prisma.IdempotencyPrincipalType.signer => AuditActorType.signer
  | Prisma.IdempotencyPrincipalType.worker => AuditActorType.worker
  | Prisma.IdempotencyPrincipalType.system => AuditActorType.system
  end.

(** What a column holds of the value written to it: a [Decimal(8, 7)], an [Int],
    a [Json] column; and [Prisma.Decimal.toNumber]. *)
Class PrismaColumns : Type := {
  decimal_column : jsnum → Result Exn Z;
  decimal_toNumber : Z → jsnum;
  int_column : jsnum → Result Exn Z;
  json_column : value → value
}.

(* [src: packages/database/src/infrastructure/prisma-mappers.ts:312-317 jsonRecord] *)
Definition jsonRecord (v : value) : object := match v with VObj m => m | _ => [] end.

(* [src: packages/database/src/infrastructure/prisma-mappers.ts:319-321 asInputJson] *)
Definition asInputJson (v : object) : value := VObj v.

Section mappers.
Context `{!PrismaColumns}.

(* [src: packages/database/src/infrastructure/prisma-mappers.ts:323-325 decimalToNumber] *)
Definition decimalToNumber (v : Z) : jsnum := decimal_toNumber v.

(* [src: packages/database/src/infrastructure/prisma-mappers.ts:327-335 toDomainOrganization] *)
Definition toDomainOrganization (row : Prisma.Organization.t) : Organization.t :=
  Organization.mk (Prisma.Organization.id row) (Prisma.Organization.name row)
    (Prisma.Organization.version row) (Prisma.Organization.createdAt row)
    (Prisma.Organization.updatedAt row).

(* [src: packages/database/src/infrastructure/prisma-mappers.ts:337-345 toDomainUser] *)
Definition toDomainUser (row : Prisma.User.t) : AccountUser.t :=
  AccountUser.mk (Prisma.User.id row) (Prisma.User.email row) (Prisma.User.displayName row)
    (Prisma.User.createdAt row) (Prisma.User.updatedAt row).

(* [src: packages/database/src/infrastructure/prisma-mappers.ts:347-356 toDomainMembership] *)
Definition toDomainMembership (row : Prisma.OrganizationMembership.t) : OrganizationMembership.t :=
  OrganizationMembership.mk (Prisma.OrganizationMembership.id row)
    (Prisma.OrganizationMembership.organizationId row)
    (Prisma.OrganizationMembership.userId row)
    (MEMBERSHIP_ROLE_TO_DOMAIN (Prisma.OrganizationMembership.role row))
    (Prisma.OrganizationMembership.createdAt row) (Prisma.OrganizationMembership.updatedAt row).

(* [src: packages/database/src/infrastructure/prisma-mappers.ts:358-378 toDomainDocument] *)
Definition toDomainDocument (row : Prisma.Document.t) : Document.t :=
  Document.mk (Prisma.Document.id row) (Prisma.Document.organizationId row)
    (Prisma.Document.ownerMembershipId row) (Prisma.Document.title row)
    (DOCUMENT_STATE_TO_DOMAIN (Prisma.Document.state row))
    (SIGNING_MODE_TO_DOMAIN (Prisma.Document.signingMode row))
    (DOCUMENT_INSPECTION_STATUS_TO_DOMAIN (Prisma.Document.inspectionStatus row))
    (Prisma.Document.sourceDisplayName row) (Prisma.Document.expiresAt row)
    (Prisma.Document.currentRevisionId row) (Prisma.Document.signingRevisionId row)
    (Prisma.Document.version row) (Prisma.Document.leaseOwner row)
    (Prisma.Document.leaseUntil row) (Prisma.Document.finalizationAttemptCount row)
    (Prisma.Document.createdAt row) (Prisma.Document.updatedAt row).

(* [src: packages/database/src/infrastructure/prisma-mappers.ts:380-394 toDomainRevision] *)
Definition toDomainRevision (row : Prisma.DocumentRevision.t) : DocumentRevision.t :=
  DocumentRevision.mk (Prisma.DocumentRevision.id row)
    (Prisma.DocumentRevision.organizationId row) (Prisma.DocumentRevision.documentId row)
    (REVISION_KIND_TO_DOMAIN (Prisma.DocumentRevision.kind row))
    (Prisma.DocumentRevision.objectKey row) (Prisma.DocumentRevision.contentType row)
    (Prisma.DocumentRevision.sizeBytes row) (Prisma.DocumentRevision.sha256Digest row)
    (Prisma.DocumentRevision.displayName row) (Prisma.DocumentRevision.pageCount row)
    (Prisma.DocumentRevision.createdAt row).

(* [src: packages/database/src/infrastructure/prisma-mappers.ts:396-412 toDomainUploadSession] *)
Definition toDomainUploadSession (row : Prisma.UploadSession.t) : UploadSession.t :=
  UploadSession.mk (Prisma.UploadSession.id row) (Prisma.UploadSession.organizationId row)
    (Prisma.UploadSession.documentId row) (Prisma.UploadSession.tokenHash row)
    (UPLOAD_SESSION_STATUS_TO_DOMAIN (Prisma.UploadSession.status row))
    (Prisma.UploadSession.displayName row) (Prisma.UploadSession.contentType row)
    (Prisma.UploadSession.maxBytes row) (Prisma.UploadSession.expiresAt row)
    (Prisma.UploadSession.completedAt row) (Prisma.UploadSession.revisionId row)
    (Prisma.UploadSession.createdAt row) (Prisma.UploadSession.updatedAt row).

(* [src: packages/database/src/infrastructure/prisma-mappers.ts:414-424 toDomainPreviewGrant] *)
Definition toDomainPreviewGrant (row : Prisma.PreviewGrant.t) : PreviewGrant.t :=
  PreviewGrant.mk (Prisma.PreviewGrant.id row) (Prisma.PreviewGrant.organizationId row)
    (Prisma.PreviewGrant.documentId row) (Prisma.PreviewGrant.revisionId row)
    (Prisma.PreviewGrant.tokenHash row) (Prisma.PreviewGrant.expiresAt row)
    (Prisma.PreviewGrant.createdAt row).

(* [src: packages/database/src/infrastructure/prisma-mappers.ts:426-442 toDomainSigner] *)
Definition toDomainSigner (row : Prisma.Signer.t) : Signer.t :=
  Signer.mk (Prisma.Signer.id row) (Prisma.Signer.organizationId row)
    (Prisma.Signer.documentId row) (Prisma.Signer.accountUserId row)
    (NInt (Prisma.Signer.routingOrder row))
    (SIGNER_STATUS_TO_DOMAIN (Prisma.Signer.status row)) (Prisma.Signer.email row)
    (Prisma.Signer.displayName row) (Prisma.Signer.version row) (Prisma.Signer.completedAt row)
    (Prisma.Signer.declinedAt row) (Prisma.Signer.createdAt row) (Prisma.Signer.updatedAt row).

(* [src: packages/database/src/infrastructure/prisma-mappers.ts:444-465 toDomainSigningSession] *)
Definition toDomainSigningSession (row : Prisma.SigningSession.t) : SigningSession.t :=
  SigningSession.mk (Prisma.SigningSession.id row) (Prisma.SigningSession.organizationId row)
    (Prisma.SigningSession.documentId row) (Prisma.SigningSession.signerId row)
    (Prisma.SigningSession.tokenHash row) (Prisma.SigningSession.csrfTokenHash row)
    (SESSION_STATUS_TO_DOMAIN (Prisma.SigningSession.status row))
    (Prisma.SigningSession.expiresAt row) (Prisma.SigningSession.consumedAt row)
    (Prisma.SigningSession.completedAt row) (Prisma.SigningSession.revokedAt row)
    (Prisma.SigningSession.presentationAttemptCount row)
    (Prisma.SigningSession.failedPresentationCount row)
    (Prisma.SigningSession.lastPresentedAt row) (Prisma.SigningSession.requestId row)
    (Prisma.SigningSession.version row) (Prisma.SigningSession.createdAt row)
    (Prisma.SigningSession.updatedAt row).

(* [src: packages/database/src/infrastructure/prisma-mappers.ts:467-489 toDomainSignatureField] *)
Definition toDomainSignatureField (row : Prisma.SignatureField.t) : SignatureField.t :=
  SignatureField.mk (Prisma.SignatureField.id row) (Prisma.SignatureField.organizationId row)
    (Prisma.SignatureField.documentId row) (Prisma.SignatureField.signerId row)
    (FIELD_TYPE_TO_DOMAIN (Prisma.SignatureField.type row))
    (NInt (Prisma.SignatureField.pageNumber row))
    (decimalToNumber (Prisma.SignatureField.x row))
    (decimalToNumber (Prisma.SignatureField.y row))
    (decimalToNumber (Prisma.SignatureField.width row))
    (decimalToNumber (Prisma.SignatureField.height row)) (Prisma.SignatureField.required row)
    (Prisma.SignatureField.completedAt row) (Prisma.SignatureField.completionObjectKey row)
    (Prisma.SignatureField.completionContentType row)
    (Prisma.SignatureField.completionSizeBytes row)
    (Prisma.SignatureField.completionSha256Digest row)
    (Prisma.SignatureField.flattenedRevisionId row) (Prisma.SignatureField.createdAt row)
    (Prisma.SignatureField.updatedAt row).

(* [src: packages/database/src/infrastructure/prisma-mappers.ts:491-505 toDomainConsent] *)
Definition toDomainConsent (row : Prisma.ConsentRecord.t) : ConsentRecord.t :=
  ConsentRecord.mk (Prisma.ConsentRecord.id row) (Prisma.ConsentRecord.organizationId row)
    (Prisma.ConsentRecord.documentId row) (Prisma.ConsentRecord.signerId row)
    (Prisma.ConsentRecord.sessionId row) (Prisma.ConsentRecord.consentCopyId row)
    (Prisma.ConsentRecord.acceptedAt row) (Prisma.ConsentRecord.requestId row)
    (Prisma.ConsentRecord.untrustedClientIp row) (Prisma.ConsentRecord.untrustedUserAgent row)
    (Prisma.ConsentRecord.createdAt row).

(* [src: packages/database/src/infrastructure/prisma-mappers.ts:507-518 toDomainArtifact] *)
Definition toDomainArtifact (row : Prisma.FinalizedArtifact.t) : FinalizedArtifact.t :=
  FinalizedArtifact.mk (Prisma.FinalizedArtifact.id row)
    (Prisma.FinalizedArtifact.organizationId row) (Prisma.FinalizedArtifact.documentId row)
    (Prisma.FinalizedArtifact.objectKey row) (Prisma.FinalizedArtifact.contentType row)
    (Prisma.FinalizedArtifact.sizeBytes row) (Prisma.FinalizedArtifact.sha256Digest row)
    (Prisma.FinalizedArtifact.createdAt row).

(* [src: packages/database/src/infrastructure/prisma-mappers.ts:520-537 toDomainAuditEvent] *)
Definition toDomainAuditEvent (row : Prisma.AuditLog.t) : AuditEvent.t :=
  AuditEvent.mk (Prisma.AuditLog.id row) (Prisma.AuditLog.organizationId row)
    (Prisma.AuditLog.documentId row) (Prisma.AuditLog.sequence row)
    (AUDIT_EVENT_TYPE_TO_DOMAIN (Prisma.AuditLog.type row))
    (AUDIT_ACTOR_TYPE_TO_DOMAIN (Prisma.AuditLog.actorType row)) (Prisma.AuditLog.actorId row)
    (Some (Prisma.AuditLog.occurredAt row)) (VObj (jsonRecord (Prisma.AuditLog.payload row)))
    (Prisma.AuditLog.previousEventHash row) (Prisma.AuditLog.eventHash row)
    (Prisma.AuditLog.requestId row) (Prisma.AuditLog.chainVersion row)
    (Some (Prisma.AuditLog.createdAt row)).

(* [src: packages/database/src/infrastructure/prisma-mappers.ts:539-557 toDomainOutboxEvent] *)
Definition toDomainOutboxEvent (row : Prisma.OutboxEvent.t) : OutboxEvent.t :=
  OutboxEvent.mk (Prisma.OutboxEvent.id row) (Prisma.OutboxEvent.organizationId row)
    (Prisma.OutboxEvent.documentId row) (Prisma.OutboxEvent.type row)
    (OUTBOX_STATUS_TO_DOMAIN (Prisma.OutboxEvent.status row))
    (jsonRecord (Prisma.OutboxEvent.payload row)) (Prisma.OutboxEvent.requestId row)
    (Prisma.OutboxEvent.attemptCount row) (Prisma.OutboxEvent.leaseOwner row)
    (Prisma.OutboxEvent.leaseUntil row) (Prisma.OutboxEvent.availableAt row)
    (Prisma.OutboxEvent.processedAt row) (Prisma.OutboxEvent.lastErrorCode row)
    (Prisma.OutboxEvent.createdAt row) (Prisma.OutboxEvent.updatedAt row).

(* [src: packages/database/src/infrastructure/prisma-mappers.ts:559-578 toDomainBackgroundJob] *)
Definition toDomainBackgroundJob (row : Prisma.BackgroundJob.t) : BackgroundJob.t :=
  BackgroundJob.mk (Prisma.BackgroundJob.id row) (Prisma.BackgroundJob.organizationId row)
    (Prisma.BackgroundJob.documentId row) (Prisma.BackgroundJob.outboxEventId row)
    (Prisma.BackgroundJob.type row) (JOB_STATUS_TO_DOMAIN (Prisma.BackgroundJob.status row))
    (Prisma.BackgroundJob.attemptCount row) (Prisma.BackgroundJob.maxAttempts row)
    (Prisma.BackgroundJob.leaseOwner row) (Prisma.BackgroundJob.leaseUntil row)
    (Prisma.BackgroundJob.availableAt row) (Prisma.BackgroundJob.lastErrorCode row)
    (Prisma.BackgroundJob.requestId row) (Prisma.BackgroundJob.version row)
    (Prisma.BackgroundJob.createdAt row) (Prisma.BackgroundJob.updatedAt row).

(* [src: packages/database/src/infrastructure/prisma-mappers.ts:580-600 toDomainIdempotency] *)
Definition toDomainIdempotency (row : Prisma.IdempotencyRecord.t) : IdempotencyRecord.t :=
  IdempotencyRecord.mk (Prisma.IdempotencyRecord.id row)
    (Prisma.IdempotencyRecord.organizationId row)
    (IDEMPOTENCY_PRINCIPAL_TO_DOMAIN (Prisma.IdempotencyRecord.principalType row))
    (Prisma.IdempotencyRecord.principalId row) (Prisma.IdempotencyRecord.route row)
    (Prisma.IdempotencyRecord.key row) (Prisma.IdempotencyRecord.requestHash row)
    (Prisma.IdempotencyRecord.requestId row) (Prisma.IdempotencyRecord.responseStatus row)
    (match Prisma.IdempotencyRecord.responseBody row with Some (VObj m) => Some m | _ => None end)
    (Prisma.IdempotencyRecord.expiresAt row) (Prisma.IdempotencyRecord.createdAt row)
    (Prisma.IdempotencyRecord.updatedAt row).

(* [src: packages/database/src/infrastructure/prisma-mappers.ts:602-612 toDomainAccountSession] *)
Definition toDomainAccountSession (row : Prisma.AccountSession.t) : AccountSession.t :=
  AccountSession.mk (Prisma.AccountSession.id row) (Prisma.AccountSession.userId row)
    (Prisma.AccountSession.tokenHash row) (Prisma.AccountSession.csrfTokenHash row)
    (Prisma.AccountSession.expiresAt row) (Prisma.AccountSession.revokedAt row)
    (Prisma.AccountSession.createdAt row).

End mappers.
