(* ===== verification/PrismaClient.v ===== *)
(** The tables of the database, what is unique in them, and the client the
    repositories call.

    Prisma and PostgreSQL are not part of the program: [PrismaClient] is what the
    repositories call of them, [PrismaLaws] what they rely on.  [Lists] has
    an instance on plain lists. *)

From Stdlib Require Import String Sorted.
From S2P Require Export PrismaMappers Store.
Local Open Scope string_scope.

Module Tables.
Record t : Type := mk {
  organizations : list Prisma.Organization.t;
  users : list Prisma.User.t;
  organizationMemberships : list Prisma.OrganizationMembership.t;
  accountSessions : list Prisma.AccountSession.t;
  documents : list Prisma.Document.t;
  documentRevisions : list Prisma.DocumentRevision.t;
  uploadSessions : list Prisma.UploadSession.t;
  previewGrants : list Prisma.PreviewGrant.t;
  signers : list Prisma.Signer.t;
  signingSessions : list Prisma.SigningSession.t;
  signatureFields : list Prisma.SignatureField.t;
  consentRecords : list Prisma.ConsentRecord.t;
  finalizedArtifacts : list Prisma.FinalizedArtifact.t;
  auditLogs : list Prisma.AuditLog.t;
  outboxEvents : list Prisma.OutboxEvent.t;
  backgroundJobs : list Prisma.BackgroundJob.t;
  idempotencyRecords : list Prisma.IdempotencyRecord.t
}.
Definition set_organizations (v : list Prisma.Organization.t) (r : t) : t :=
  mk v r.(users) r.(organizationMemberships) r.(accountSessions) r.(documents)
    r.(documentRevisions) r.(uploadSessions) r.(previewGrants) r.(signers) r.(signingSessions)
    r.(signatureFields) r.(consentRecords) r.(finalizedArtifacts) r.(auditLogs)
    r.(outboxEvents) r.(backgroundJobs) r.(idempotencyRecords).
Definition set_users (v : list Prisma.User.t) (r : t) : t :=
  mk r.(organizations) v r.(organizationMemberships) r.(accountSessions) r.(documents)
    r.(documentRevisions) r.(uploadSessions) r.(previewGrants) r.(signers) r.(signingSessions)
    r.(signatureFields) r.(consentRecords) r.(finalizedArtifacts) r.(auditLogs)
    r.(outboxEvents) r.(backgroundJobs) r.(idempotencyRecords).
Definition set_organizationMemberships (v : list Prisma.OrganizationMembership.t) (r : t) : t :=
  mk r.(organizations) r.(users) v r.(accountSessions) r.(documents) r.(documentRevisions)
    r.(uploadSessions) r.(previewGrants) r.(signers) r.(signingSessions) r.(signatureFields)
    r.(consentRecords) r.(finalizedArtifacts) r.(auditLogs) r.(outboxEvents) r.(backgroundJobs)
    r.(idempotencyRecords).
Definition set_accountSessions (v : list Prisma.AccountSession.t) (r : t) : t :=
  mk r.(organizations) r.(users) r.(organizationMemberships) v r.(documents)
    r.(documentRevisions) r.(uploadSessions) r.(previewGrants) r.(signers) r.(signingSessions)
    r.(signatureFields) r.(consentRecords) r.(finalizedArtifacts) r.(auditLogs)
    r.(outboxEvents) r.(backgroundJobs) r.(idempotencyRecords).
Definition set_documents (v : list Prisma.Document.t) (r : t) : t :=
  mk r.(organizations) r.(users) r.(organizationMemberships) r.(accountSessions) v
    r.(documentRevisions) r.(uploadSessions) r.(previewGrants) r.(signers) r.(signingSessions)
    r.(signatureFields) r.(consentRecords) r.(finalizedArtifacts) r.(auditLogs)
    r.(outboxEvents) r.(backgroundJobs) r.(idempotencyRecords).
Definition set_documentRevisions (v : list Prisma.DocumentRevision.t) (r : t) : t :=
  mk r.(organizations) r.(users) r.(organizationMemberships) r.(accountSessions) r.(documents)
    v r.(uploadSessions) r.(previewGrants) r.(signers) r.(signingSessions) r.(signatureFields)
    r.(consentRecords) r.(finalizedArtifacts) r.(auditLogs) r.(outboxEvents) r.(backgroundJobs)
    r.(idempotencyRecords).
Definition set_uploadSessions (v : list Prisma.UploadSession.t) (r : t) : t :=
  mk r.(organizations) r.(users) r.(organizationMemberships) r.(accountSessions) r.(documents)
    r.(documentRevisions) v r.(previewGrants) r.(signers) r.(signingSessions)
    r.(signatureFields) r.(consentRecords) r.(finalizedArtifacts) r.(auditLogs)
    r.(outboxEvents) r.(backgroundJobs) r.(idempotencyRecords).
Definition set_previewGrants (v : list Prisma.PreviewGrant.t) (r : t) : t :=
  mk r.(organizations) r.(users) r.(organizationMemberships) r.(accountSessions) r.(documents)
    r.(documentRevisions) r.(uploadSessions) v r.(signers) r.(signingSessions)
    r.(signatureFields) r.(consentRecords) r.(finalizedArtifacts) r.(auditLogs)
    r.(outboxEvents) r.(backgroundJobs) r.(idempotencyRecords).
Definition set_signers (v : list Prisma.Signer.t) (r : t) : t :=
  mk r.(organizations) r.(users) r.(organizationMemberships) r.(accountSessions) r.(documents)
    r.(documentRevisions) r.(uploadSessions) r.(previewGrants) v r.(signingSessions)
    r.(signatureFields) r.(consentRecords) r.(finalizedArtifacts) r.(auditLogs)
    r.(outboxEvents) r.(backgroundJobs) r.(idempotencyRecords).
Definition set_signingSessions (v : list Prisma.SigningSession.t) (r : t) : t :=
  mk r.(organizations) r.(users) r.(organizationMemberships) r.(accountSessions) r.(documents)
    r.(documentRevisions) r.(uploadSessions) r.(previewGrants) r.(signers) v
    r.(signatureFields) r.(consentRecords) r.(finalizedArtifacts) r.(auditLogs)
    r.(outboxEvents) r.(backgroundJobs) r.(idempotencyRecords).
Definition set_signatureFields (v : list Prisma.SignatureField.t) (r : t) : t :=
  mk r.(organizations) r.(users) r.(organizationMemberships) r.(accountSessions) r.(documents)
    r.(documentRevisions) r.(uploadSessions) r.(previewGrants) r.(signers) r.(signingSessions)
    v r.(consentRecords) r.(finalizedArtifacts) r.(auditLogs) r.(outboxEvents)
    r.(backgroundJobs) r.(idempotencyRecords).
Definition set_consentRecords (v : list Prisma.ConsentRecord.t) (r : t) : t :=
  mk r.(organizations) r.(users) r.(organizationMemberships) r.(accountSessions) r.(documents)
    r.(documentRevisions) r.(uploadSessions) r.(previewGrants) r.(signers) r.(signingSessions)
    r.(signatureFields) v r.(finalizedArtifacts) r.(auditLogs) r.(outboxEvents)
    r.(backgroundJobs) r.(idempotencyRecords).
Definition set_finalizedArtifacts (v : list Prisma.FinalizedArtifact.t) (r : t) : t :=
  mk r.(organizations) r.(users) r.(organizationMemberships) r.(accountSessions) r.(documents)
    r.(documentRevisions) r.(uploadSessions) r.(previewGrants) r.(signers) r.(signingSessions)
    r.(signatureFields) r.(consentRecords) v r.(auditLogs) r.(outboxEvents) r.(backgroundJobs)
    r.(idempotencyRecords).
Definition set_auditLogs (v : list Prisma.AuditLog.t) (r : t) : t :=
  mk r.(organizations) r.(users) r.(organizationMemberships) r.(accountSessions) r.(documents)
    r.(documentRevisions) r.(uploadSessions) r.(previewGrants) r.(signers) r.(signingSessions)
    r.(signatureFields) r.(consentRecords) r.(finalizedArtifacts) v r.(outboxEvents)
    r.(backgroundJobs) r.(idempotencyRecords).
Definition set_outboxEvents (v : list Prisma.OutboxEvent.t) (r : t) : t :=
  mk r.(organizations) r.(users) r.(organizationMemberships) r.(accountSessions) r.(documents)
    r.(documentRevisions) r.(uploadSessions) r.(previewGrants) r.(signers) r.(signingSessions)
    r.(signatureFields) r.(consentRecords) r.(finalizedArtifacts) r.(auditLogs) v
    r.(backgroundJobs) r.(idempotencyRecords).
Definition set_backgroundJobs (v : list Prisma.BackgroundJob.t) (r : t) : t :=
  mk r.(organizations) r.(users) r.(organizationMemberships) r.(accountSessions) r.(documents)
    r.(documentRevisions) r.(uploadSessions) r.(previewGrants) r.(signers) r.(signingSessions)
    r.(signatureFields) r.(consentRecords) r.(finalizedArtifacts) r.(auditLogs)
    r.(outboxEvents) v r.(idempotencyRecords).
Definition set_idempotencyRecords (v : list Prisma.IdempotencyRecord.t) (r : t) : t :=
  mk r.(organizations) r.(users) r.(organizationMemberships) r.(accountSessions) r.(documents)
    r.(documentRevisions) r.(uploadSessions) r.(previewGrants) r.(signers) r.(signingSessions)
    r.(signatureFields) r.(consentRecords) r.(finalizedArtifacts) r.(auditLogs)
    r.(outboxEvents) r.(backgroundJobs) v.
Definition empty : t := mk [] [] [] [] [] [] [] [] [] [] [] [] [] [] [] [] [].
End Tables.

(** A model of the schema: its table, its [@updatedAt] column, and when two rows
    may not both be in the table: the primary key and the [@unique] and
    [@@unique] declarations. *)
Class Model (Row : Type) : Type := {
  table : Tables.t → list Row;
  set_table : list Row → Tables.t → Tables.t;
  touch : Z → Row → Row;
  clash : Row → Row → bool;
  table_set l T : table (set_table l T) = l;
  set_table_table T : set_table (table T) T = T
}.

(** The partial index [signing_sessions_one_open_per_signer_idx] of the migrations. *)
Definition open_session (row : Prisma.SigningSession.t) : bool :=
  bool_decide (Prisma.SigningSession.status row = Prisma.SigningSessionStatus.issued) ||
  bool_decide (Prisma.SigningSession.status row = Prisma.SigningSessionStatus.active).

#[export] Program Instance Organization_model : Model Prisma.Organization.t :=
  {| table := Tables.organizations; set_table := Tables.set_organizations; touch := Prisma.Organization.touch;
     clash := λ a b,
     String.eqb (Prisma.Organization.id a) (Prisma.Organization.id b) |}.
Next Obligation. done. Qed.
Next Obligation. by intros []. Qed.

#[export] Program Instance User_model : Model Prisma.User.t :=
  {| table := Tables.users; set_table := Tables.set_users; touch := Prisma.User.touch;
     clash := λ a b,
     String.eqb (Prisma.User.id a) (Prisma.User.id b) ||
     String.eqb (Prisma.User.email a) (Prisma.User.email b) |}.
Next Obligation. done. Qed.
Next Obligation. by intros []. Qed.

#[export] Program Instance OrganizationMembership_model : Model Prisma.OrganizationMembership.t :=
  {| table := Tables.organizationMemberships; set_table := Tables.set_organizationMemberships; touch := Prisma.OrganizationMembership.touch;
     clash := λ a b,
     String.eqb (Prisma.OrganizationMembership.id a) (Prisma.OrganizationMembership.id b) ||
     (String.eqb (Prisma.OrganizationMembership.organizationId a) (Prisma.OrganizationMembership.organizationId b) &&
     String.eqb (Prisma.OrganizationMembership.userId a) (Prisma.OrganizationMembership.userId b)) |}.
Next Obligation. done. Qed.
Next Obligation. by intros []. Qed.

#[export] Program Instance AccountSession_model : Model Prisma.AccountSession.t :=
  {| table := Tables.accountSessions; set_table := Tables.set_accountSessions; touch := Prisma.AccountSession.touch;
     clash := λ a b,
     String.eqb (Prisma.AccountSession.id a) (Prisma.AccountSession.id b) ||
     String.eqb (Prisma.AccountSession.tokenHash a) (Prisma.AccountSession.tokenHash b) |}.
Next Obligation. done. Qed.
Next Obligation. by intros []. Qed.

#[export] Program Instance Document_model : Model Prisma.Document.t :=
  {| table := Tables.documents; set_table := Tables.set_documents; touch := Prisma.Document.touch;
     clash := λ a b,
     String.eqb (Prisma.Document.id a) (Prisma.Document.id b) |}.
Next Obligation. done. Qed.
Next Obligation. by intros []. Qed.

#[export] Program Instance DocumentRevision_model : Model Prisma.DocumentRevision.t :=
  {| table := Tables.documentRevisions; set_table := Tables.set_documentRevisions; touch := Prisma.DocumentRevision.touch;
     clash := λ a b,
     String.eqb (Prisma.DocumentRevision.id a) (Prisma.DocumentRevision.id b) |}.
Next Obligation. done. Qed.
Next Obligation. by intros []. Qed.

#[export] Program Instance UploadSession_model : Model Prisma.UploadSession.t :=
  {| table := Tables.uploadSessions; set_table := Tables.set_uploadSessions; touch := Prisma.UploadSession.touch;
     clash := λ a b,
     String.eqb (Prisma.UploadSession.id a) (Prisma.UploadSession.id b) ||
     String.eqb (Prisma.UploadSession.tokenHash a) (Prisma.UploadSession.tokenHash b) |}.
Next Obligation. done. Qed.
Next Obligation. by intros []. Qed.

#[export] Program Instance PreviewGrant_model : Model Prisma.PreviewGrant.t :=
  {| table := Tables.previewGrants; set_table := Tables.set_previewGrants; touch := Prisma.PreviewGrant.touch;
     clash := λ a b,
     String.eqb (Prisma.PreviewGrant.id a) (Prisma.PreviewGrant.id b) ||
     String.eqb (Prisma.PreviewGrant.tokenHash a) (Prisma.PreviewGrant.tokenHash b) |}.
Next Obligation. done. Qed.
Next Obligation. by intros []. Qed.

#[export] Program Instance Signer_model : Model Prisma.Signer.t :=
  {| table := Tables.signers; set_table := Tables.set_signers; touch := Prisma.Signer.touch;
     clash := λ a b,
     String.eqb (Prisma.Signer.id a) (Prisma.Signer.id b) |}.
Next Obligation. done. Qed.
Next Obligation. by intros []. Qed.

#[export] Program Instance SigningSession_model : Model Prisma.SigningSession.t :=
  {| table := Tables.signingSessions; set_table := Tables.set_signingSessions; touch := Prisma.SigningSession.touch;
     clash := λ a b,
     String.eqb (Prisma.SigningSession.id a) (Prisma.SigningSession.id b) ||
     String.eqb (Prisma.SigningSession.tokenHash a) (Prisma.SigningSession.tokenHash b) ||
     (open_session a && open_session b &&
     String.eqb (Prisma.SigningSession.organizationId a) (Prisma.SigningSession.organizationId b) &&
     String.eqb (Prisma.SigningSession.signerId a) (Prisma.SigningSession.signerId b)) |}.
Next Obligation. done. Qed.
Next Obligation. by intros []. Qed.

#[export] Program Instance SignatureField_model : Model Prisma.SignatureField.t :=
  {| table := Tables.signatureFields; set_table := Tables.set_signatureFields; touch := Prisma.SignatureField.touch;
     clash := λ a b,
     String.eqb (Prisma.SignatureField.id a) (Prisma.SignatureField.id b) |}.
Next Obligation. done. Qed.
Next Obligation. by intros []. Qed.

#[export] Program Instance ConsentRecord_model : Model Prisma.ConsentRecord.t :=
  {| table := Tables.consentRecords; set_table := Tables.set_consentRecords; touch := Prisma.ConsentRecord.touch;
     clash := λ a b,
     String.eqb (Prisma.ConsentRecord.id a) (Prisma.ConsentRecord.id b) ||
     String.eqb (Prisma.ConsentRecord.sessionId a) (Prisma.ConsentRecord.sessionId b) |}.
Next Obligation. done. Qed.
Next Obligation. by intros []. Qed.

#[export] Program Instance FinalizedArtifact_model : Model Prisma.FinalizedArtifact.t :=
  {| table := Tables.finalizedArtifacts; set_table := Tables.set_finalizedArtifacts; touch := Prisma.FinalizedArtifact.touch;
     clash := λ a b,
     String.eqb (Prisma.FinalizedArtifact.id a) (Prisma.FinalizedArtifact.id b) ||
     String.eqb (Prisma.FinalizedArtifact.documentId a) (Prisma.FinalizedArtifact.documentId b) |}.
Next Obligation. done. Qed.
Next Obligation. by intros []. Qed.

#[export] Program Instance AuditLog_model : Model Prisma.AuditLog.t :=
  {| table := Tables.auditLogs; set_table := Tables.set_auditLogs; touch := Prisma.AuditLog.touch;
     clash := λ a b,
     String.eqb (Prisma.AuditLog.id a) (Prisma.AuditLog.id b) ||
     (String.eqb (Prisma.AuditLog.documentId a) (Prisma.AuditLog.documentId b) &&
     (Prisma.AuditLog.sequence a =? Prisma.AuditLog.sequence b)%Z) |}.
Next Obligation. done. Qed.
Next Obligation. by intros []. Qed.

#[export] Program Instance OutboxEvent_model : Model Prisma.OutboxEvent.t :=
  {| table := Tables.outboxEvents; set_table := Tables.set_outboxEvents; touch := Prisma.OutboxEvent.touch;
     clash := λ a b,
     String.eqb (Prisma.OutboxEvent.id a) (Prisma.OutboxEvent.id b) |}.
Next Obligation. done. Qed.
Next Obligation. by intros []. Qed.

#[export] Program Instance BackgroundJob_model : Model Prisma.BackgroundJob.t :=
  {| table := Tables.backgroundJobs; set_table := Tables.set_backgroundJobs; touch := Prisma.BackgroundJob.touch;
     clash := λ a b,
     String.eqb (Prisma.BackgroundJob.id a) (Prisma.BackgroundJob.id b) |}.
Next Obligation. done. Qed.
Next Obligation. by intros []. Qed.

#[export] Program Instance IdempotencyRecord_model : Model Prisma.IdempotencyRecord.t :=
  {| table := Tables.idempotencyRecords; set_table := Tables.set_idempotencyRecords; touch := Prisma.IdempotencyRecord.touch;
     clash := λ a b,
     String.eqb (Prisma.IdempotencyRecord.id a) (Prisma.IdempotencyRecord.id b) ||
     (String.eqb (Prisma.IdempotencyRecord.organizationId a) (Prisma.IdempotencyRecord.organizationId b) &&
     String.eqb (Prisma.IdempotencyRecord.principalId a) (Prisma.IdempotencyRecord.principalId b) &&
     String.eqb (Prisma.IdempotencyRecord.route a) (Prisma.IdempotencyRecord.route b) &&
     String.eqb (Prisma.IdempotencyRecord.key a) (Prisma.IdempotencyRecord.key b)) |}.
Next Obligation. done. Qed.
Next Obligation. by intros []. Qed.
Fixpoint unique_rows {Row} (clash : Row → Row → bool) (l : list Row) : bool :=
  match l with
  | [] => true
  | x :: l => forallb (λ y, negb (clash x y)) l && unique_rows clash l
  end.

(** What the primary keys, unique constraints and indices keep. *)
Definition unique_tables (T : Tables.t) : bool :=
  unique_rows clash (Tables.organizations T) && unique_rows clash (Tables.users T) &&
  unique_rows clash (Tables.organizationMemberships T) &&
  unique_rows clash (Tables.accountSessions T) && unique_rows clash (Tables.documents T) &&
  unique_rows clash (Tables.documentRevisions T) && unique_rows clash (Tables.uploadSessions T) &&
  unique_rows clash (Tables.previewGrants T) && unique_rows clash (Tables.signers T) &&
  unique_rows clash (Tables.signingSessions T) && unique_rows clash (Tables.signatureFields T) &&
  unique_rows clash (Tables.consentRecords T) && unique_rows clash (Tables.finalizedArtifacts T) &&
  unique_rows clash (Tables.auditLogs T) && unique_rows clash (Tables.outboxEvents T) &&
  unique_rows clash (Tables.backgroundJobs T) && unique_rows clash (Tables.idempotencyRecords T).

(** ** The client

    [where] objects are predicates on rows, [data] objects functions: a row to
    create may use the time of the database (its [@default(now())] columns), an
    update maps the row it finds; [orderBy] is the order of the answer and
    [take] its length.  An update sets [@updatedAt], unless the data of an
    [upsert] does. *)
Class PrismaClient (DB : Type) : Type := {
  findUnique {Row} `{!Model Row} : (Row → bool) → M Exn DB (option Row);
  findFirst {Row} `{!Model Row} : (Row → bool) → (Row → Row → bool) → M Exn DB (option Row);
  findMany {Row} `{!Model Row} : (Row → bool) → (Row → Row → bool) → option nat → M Exn DB (list Row);
  count {Row} `{!Model Row} : (Row → bool) → M Exn DB Z;
  create {Row} `{!Model Row} : (Z → Row) → M Exn DB Row;
  updateMany {Row} `{!Model Row} : (Row → bool) → (Row → Row) → M Exn DB Z;
  deleteMany {Row} `{!Model Row} : (Row → bool) → M Exn DB Z;
  upsert {Row} `{!Model Row} : (Row → bool) → (Z → Row) → (Row → Row) → M Exn DB Row;
  transaction {A} : M Exn DB A → M Exn DB A;
  (** The raw statements: an advisory lock, held to the end of the transaction,
      and the update of the first row that matches and is not locked, which
      answers the row as it was.  And [randomUUID] of the runtime. *)
  advisory_lock : string → M Exn DB unit;
  update_first_row {Row} `{!Model Row} : (Row → bool) → (Row → Row → bool) → (Row → Row) →
    M Exn DB (option Row);
  randomUUID : M Exn DB string
}.

(** Without [orderBy], and in any order. *)
Definition unordered {Row} (a b : Row) : bool := true.

(** The answer of a look-up among [rows]. *)
Definition finds {Row} (p : Row → bool) (rows : list Row) (r : option Row) : Prop :=
  match r with
  | Some x => x ∈ rows ∧ p x = true
  | None => Forall (λ x, p x = false) rows
  end.

(** An [orderBy]: a total preorder. *)
Definition orders {Row} (le : Row → Row → bool) : Prop :=
  (∀ a b, le a b = true ∨ le b a = true) ∧
  (∀ a b c, le a b = true → le b c = true → le a c = true).

Definition updated {Row} `{!Model Row} (p : Row → bool) (data : Row → Row) (now : Z) (rows : list Row) :
    list Row := (λ x, if p x then touch now (data x) else x) <$> rows.

(** What an operation answers and does; the database may instead refuse it (a
    constraint, a lost connection), with an error of its own and no effect. *)
Definition answers {DB A} (tables : DB → Tables.t) (m : M Exn DB A)
    (Q : A → Tables.t → Tables.t → Prop) : Prop :=
  ∀ db, match m db with
        | (Ok a, db') => Q a (tables db) (tables db')
        | (Throw e, db') => isApplicationError e = false ∧ tables db' = tables db
        end.

Definition reads {A} (Q : A → Tables.t → Prop) (a : A) (T T' : Tables.t) : Prop := Q a T ∧ T' = T.

Class PrismaLaws (DB : Type) `{!PrismaClient DB} : Type := {
  tables : DB → Tables.t;
  tables_unique db : unique_tables (tables db) = true;
  findUnique_law {Row} `{!Model Row} (p : Row → bool) :
    answers tables (findUnique p) (reads (λ r T, finds p (table T) r));
  findFirst_law {Row} `{!Model Row} (p : Row → bool) le :
    orders le → answers tables (findFirst p le) (reads (λ r T, finds p (table T) r ∧
      ∀ x y, r = Some x → y ∈ table T → p y = true → le x y = true));
  findMany_law {Row} `{!Model Row} (p : Row → bool) le limit :
    orders le → answers tables (findMany p le limit) (reads (λ l T, ∃ all,
      all ≡ₚ List.filter p (table T) ∧ StronglySorted (λ a b, le a b = true) all ∧ l = match limit with Some n => take n all | None => all end));
  count_law {Row} `{!Model Row} (p : Row → bool) :
    answers tables (count p) (reads (λ n T, n = Z.of_nat (length (List.filter p (table T)))));
  create_law {Row} `{!Model Row} (data : Z → Row) :
    answers tables (create data) (λ row T T', (∃ now, row = data now) ∧
      T' = set_table (table T ++ [row]) T);
  updateMany_law {Row} `{!Model Row} (p : Row → bool) data :
    answers tables (updateMany p data) (λ n T T', n = Z.of_nat (length (List.filter p (table T))) ∧
      ∃ now, T' = set_table (updated p data now (table T)) T);
  deleteMany_law {Row} `{!Model Row} (p : Row → bool) :
    answers tables (deleteMany p) (λ n T T', n = Z.of_nat (length (List.filter p (table T))) ∧
      T' = set_table (List.filter (λ x, negb (p x)) (table T)) T);
  upsert_law {Row} `{!Model Row} (p : Row → bool) data update :
    answers tables (upsert p data update) (λ row T T', ∃ now,
      match find_index p (table T) with
      | Some (i, x) => (row = touch now (update x) ∨ row = update x) ∧
          T' = set_table (<[i := row]> (table T)) T
      | None => row = data now ∧ T' = set_table (table T ++ [row]) T
      end);
  transaction_law {A} (m : M Exn DB A) db :
    match transaction m db with
    | (Ok a, db') => m db = (Ok a, db')
    | (Throw e, db') => tables db' = tables db ∧
        (isApplicationError e = true → (m db).1 = Throw e)
    end;
  advisory_lock_law key : answers tables (advisory_lock key) (reads (λ _ _, True));
  update_first_row_law {Row} `{!Model Row} (p : Row → bool) le data :
    orders le → answers tables (update_first_row p le data) (λ r T T',
      match r with
      | Some x => ∃ i, table T !! i = Some x ∧ p x = true ∧
          (∀ y, y ∈ table T → p y = true → le x y = true) ∧
          T' = set_table (<[i := data x]> (table T)) T
      | None => Forall (λ x, p x = false) (table T) ∧ T' = T
      end);
  randomUUID_law : answers tables randomUUID (reads (λ _ _, True))
}.

(** ** A client on lists *)
Module Lists.

(** The tables with the time of the next call. *)
Record t : Type := mk { now : Z; data : Tables.t; unique : unique_tables data = true }.

Definition empty : t := mk 0 Tables.empty eq_refl.

Definition refused : Exn := OtherError "PrismaClientKnownRequestError" "Unique constraint failed".

(** Keep [T] and answer [a], unless [T] has rows that clash. *)
Definition commit {A} (a : A) (T : Tables.t) (db : t) : Result Exn A * t :=
  match bool_dec (unique_tables T) true with
  | left unique => (Ok a, mk (now db + 1) T unique)
  | right _ => (Throw refused, db)
  end.

Definition first {Row} (p : Row → bool) (le : Row → Row → bool) (l : list Row) : option Row :=
  head (sort_by le (List.filter p l)).

(** The first row that no matching row comes before. *)
Definition first_index {Row} (p : Row → bool) (le : Row → Row → bool) (l : list Row) :
    option (nat * Row) :=
  find_index (λ x, p x && forallb (λ y, negb (p y) || le x y) l) l.

#[local] Instance client : PrismaClient t := {|
  findUnique Row _ p := λ db, (Ok (find_row p (table (data db))), db);
  findFirst Row _ p le := λ db, (Ok (first p le (table (data db))), db);
  findMany Row _ p le limit := λ db,
    let all := sort_by le (List.filter p (table (data db))) in
    (Ok (match limit with Some n => take n all | None => all end), db);
  count Row _ p := λ db, (Ok (Z.of_nat (length (List.filter p (table (data db))))), db);
  create Row _ make := λ db,
    commit (make (now db)) (set_table (table (data db) ++ [make (now db)]) (data db)) db;
  updateMany Row _ p change := λ db,
    commit (Z.of_nat (length (List.filter p (table (data db)))))
      (set_table (updated p change (now db) (table (data db))) (data db)) db;
  deleteMany Row _ p := λ db,
    commit (Z.of_nat (length (List.filter p (table (data db)))))
      (set_table (List.filter (λ x, negb (p x)) (table (data db))) (data db)) db;
  upsert Row _ p make change := λ db,
    match find_index p (table (data db)) with
    | Some (i, x) =>
      let row := touch (now db) (change x) in
      commit row (set_table (<[i := row]> (table (data db))) (data db)) db
    | None => commit (make (now db)) (set_table (table (data db) ++ [make (now db)]) (data db)) db
    end;
  transaction A m := λ db, match m db with (Ok a, db') => (Ok a, db') | (Throw e, _) => (Throw e, db) end;
  advisory_lock _ := λ db, (Ok tt, db);
  update_first_row Row _ p le change := λ db,
    match first_index p le (table (data db)) with
    | Some (i, x) => commit (Some x) (set_table (<[i := change x]> (table (data db))) (data db)) db
    | None => (Ok None, db)
    end;
  randomUUID := λ db, commit ("uuid-" +:+ of_int (now db))%string (data db) db
|}.

Lemma commit_spec {A} (a : A) T db (Q : A → Tables.t → Tables.t → Prop) :
  Q a (data db) T →
  match commit a T db with
  | (Ok b, db') => Q b (data db) (data db')
  | (Throw e, db') => isApplicationError e = false ∧ data db' = data db
  end.
Proof. intros HQ. unfold commit. by destruct (bool_dec _ _). Qed.

Lemma find_row_finds {Row} (p : Row → bool) l : finds p l (find_row p l).
Proof.
  destruct (find_row p l) as [x|] eqn:Hx; simpl.
  - by apply find_row_Some.
  - apply Forall_forall. by apply find_row_None.
Qed.

Lemma first_finds {Row} (p : Row → bool) le (l : list Row) :
  orders le → finds p l (first p le l) ∧
  ∀ x y, first p le l = Some x → y ∈ l → p y = true → le x y = true.
Proof.
  intros [Ht Htr]. unfold first.
  pose proof (sort_by_sorted le Ht Htr (List.filter p l)) as Hs.
  assert (∀ y, y ∈ sort_by le (List.filter p l) ↔ y ∈ l ∧ p y = true) as Hin.
  { intros y. rewrite sort_by_elem, !list_elem_of_In, List.filter_In. done. }
  destruct (sort_by le (List.filter p l)) as [|x all]; simpl.
  - split; [|done]. apply Forall_forall. intros y Hy. destruct (p y) eqn:Hp; [|done].
    assert (y ∈ ([] : list Row)) as H by (by apply Hin). by apply elem_of_nil in H.
  - split; [apply Hin; left|]. intros z y [= <-] Hy Hp.
    assert (y ∈ x :: all) as H by (by apply Hin). apply elem_of_cons in H as [-> | H].
    + by destruct (Ht x x).
    + apply StronglySorted_inv in Hs as [_ Hs]. by eapply Forall_forall in Hs.
Qed.

Lemma first_index_Some {Row} (p : Row → bool) le (l : list Row) i x :
  first_index p le l = Some (i, x) →
  l !! i = Some x ∧ p x = true ∧ ∀ y, y ∈ l → p y = true → le x y = true.
Proof.
  intros [Hi [[Hp Hall]%andb_true_iff _]]%find_index_Some. split_and!; [done..|].
  rewrite forallb_forall in Hall. intros y Hy Hpy. specialize (Hall y).
  rewrite <-list_elem_of_In, Hpy in Hall. by apply Hall.
Qed.

Lemma first_index_None {Row} (p : Row → bool) le (l : list Row) :
  orders le → first_index p le l = None → Forall (λ x, p x = false) l.
Proof.
  intros Hle Hnone. destruct (first_finds p le l Hle) as [Hf Hmin].
  destruct (first p le l) as [x|]; [|done]. destruct Hf as [Hx Hp]. exfalso.
  pose proof (proj1 (find_index_None _ _) Hnone x Hx) as Hno. simpl in Hno. rewrite Hp in Hno.
  assert (forallb (λ y, negb (p y) || le x y) l = true) as Hall; [|by rewrite Hall in Hno].
  apply forallb_forall. intros y Hy%list_elem_of_In. destruct (p y) eqn:Hpy; [|done].
  by apply Hmin.
Qed.

#[local] Program Instance laws : PrismaLaws t := {| tables := data; tables_unique := unique |}.
Next Obligation. intros Row M p db. simpl. split; [apply find_row_finds|done]. Qed.
Next Obligation. intros Row M p le Hle db. simpl. split; [by apply first_finds|done]. Qed.
Next Obligation.
  intros Row M p le limit [Ht Htr] db. simpl. split; [|done].
  exists (sort_by le (List.filter p (table (data db)))). split_and!; [apply sort_by_perm| |done].
  by apply sort_by_sorted.
Qed.
Next Obligation. intros Row M p db. by split. Qed.
Next Obligation.
  intros Row M make db. apply (commit_spec (make (now db)) _ db
    (λ row T T', (∃ n, row = make n) ∧ T' = set_table (table T ++ [row]) T)). by split; [eexists|].
Qed.
Next Obligation.
  intros Row M p change db. apply (commit_spec _ _ db (λ n T T',
    n = Z.of_nat (length (List.filter p (table T))) ∧
    ∃ now, T' = set_table (updated p change now (table T)) T)). by split; [|eexists].
Qed.
Next Obligation.
  intros Row M p db. by apply (commit_spec _ _ db (λ n T T',
    n = Z.of_nat (length (List.filter p (table T))) ∧
    T' = set_table (List.filter (λ x, negb (p x)) (table T)) T)).
Qed.
Next Obligation.
  intros Row M p make change db. set (Q := λ (row : Row) (T T' : Tables.t), ∃ now,
      match find_index p (table T) with
      | Some (i, x) => (row = touch now (change x) ∨ row = change x) ∧
          T' = set_table (<[i := row]> (table T)) T
      | None => row = make now ∧ T' = set_table (table T ++ [row]) T
      end).
  change (match upsert p make change db with
          | (Ok a, db') => Q a (data db) (data db')
          | (Throw e, db') => isApplicationError e = false ∧ data db' = data db
          end).
  assert (∀ row T', (match find_index p (table (data db)) with
      | Some (i, x) => (row = touch (now db) (change x) ∨ row = change x) ∧
          T' = set_table (<[i := row]> (table (data db))) (data db)
      | None => row = make (now db) ∧ T' = set_table (table (data db) ++ [row]) (data db)
      end) → Q row (data db) T') as HQ by (intros row T' H; by exists (now db)).
  clearbody Q. simpl. destruct (find_index p _) as [[i x]|]; apply commit_spec, HQ; by auto.
Qed.
Next Obligation. intros A m db. simpl. by destruct (m db) as [[a|e] db']. Qed.
Next Obligation. by intros key db. Qed.
Next Obligation.
  intros Row M p le change Hle db. simpl. destruct (first_index p le _) as [[i x]|] eqn:Hf.
  - apply (commit_spec (Some x) _ db (λ r T T', match r with
      | Some x => ∃ i, table T !! i = Some x ∧ p x = true ∧
          (∀ y, y ∈ table T → p y = true → le x y = true) ∧
          T' = set_table (<[i := change x]> (table T)) T
      | None => Forall (λ x, p x = false) (table T) ∧ T' = T
      end)). apply first_index_Some in Hf as (? & ? & ?). by exists i.
  - split; [by eapply first_index_None|done].
Qed.
Next Obligation. intros db. by apply (commit_spec _ _ db (reads (λ _ _, True))). Qed.
End Lists.
