(* ===== verification/PrismaRepositories.v ===== *)
(** The repositories on the database, from
    [packages/database/src/infrastructure/prisma-tenant-repositories.ts]: one
    module per repository, one definition per method, over any client. *)

From Stdlib Require Import String.
From S2P Require Export PrismaClient SigningRepositories.
Local Open Scope string_scope.

(** The compound key [organizationId_id] of the tenant-scoped models. *)
Class TenantRow (Row : Type) : Type := {
  organization_of : Row → string;
  id_of : Row → string
}.
#[export] Instance OrganizationMembership_tenant : TenantRow Prisma.OrganizationMembership.t :=
  {| organization_of := Prisma.OrganizationMembership.organizationId;
     id_of := Prisma.OrganizationMembership.id |}.
#[export] Instance Document_tenant : TenantRow Prisma.Document.t :=
  {| organization_of := Prisma.Document.organizationId; id_of := Prisma.Document.id |}.
#[export] Instance DocumentRevision_tenant : TenantRow Prisma.DocumentRevision.t :=
  {| organization_of := Prisma.DocumentRevision.organizationId; id_of := Prisma.DocumentRevision.id |}.
#[export] Instance UploadSession_tenant : TenantRow Prisma.UploadSession.t :=
  {| organization_of := Prisma.UploadSession.organizationId; id_of := Prisma.UploadSession.id |}.
#[export] Instance PreviewGrant_tenant : TenantRow Prisma.PreviewGrant.t :=
  {| organization_of := Prisma.PreviewGrant.organizationId; id_of := Prisma.PreviewGrant.id |}.
#[export] Instance Signer_tenant : TenantRow Prisma.Signer.t :=
  {| organization_of := Prisma.Signer.organizationId; id_of := Prisma.Signer.id |}.
#[export] Instance SigningSession_tenant : TenantRow Prisma.SigningSession.t :=
  {| organization_of := Prisma.SigningSession.organizationId; id_of := Prisma.SigningSession.id |}.
#[export] Instance SignatureField_tenant : TenantRow Prisma.SignatureField.t :=
  {| organization_of := Prisma.SignatureField.organizationId; id_of := Prisma.SignatureField.id |}.
#[export] Instance ConsentRecord_tenant : TenantRow Prisma.ConsentRecord.t :=
  {| organization_of := Prisma.ConsentRecord.organizationId; id_of := Prisma.ConsentRecord.id |}.
#[export] Instance FinalizedArtifact_tenant : TenantRow Prisma.FinalizedArtifact.t :=
  {| organization_of := Prisma.FinalizedArtifact.organizationId; id_of := Prisma.FinalizedArtifact.id |}.
#[export] Instance AuditLog_tenant : TenantRow Prisma.AuditLog.t :=
  {| organization_of := Prisma.AuditLog.organizationId; id_of := Prisma.AuditLog.id |}.
#[export] Instance OutboxEvent_tenant : TenantRow Prisma.OutboxEvent.t :=
  {| organization_of := Prisma.OutboxEvent.organizationId; id_of := Prisma.OutboxEvent.id |}.
#[export] Instance BackgroundJob_tenant : TenantRow Prisma.BackgroundJob.t :=
  {| organization_of := Prisma.BackgroundJob.organizationId; id_of := Prisma.BackgroundJob.id |}.
#[export] Instance IdempotencyRecord_tenant : TenantRow Prisma.IdempotencyRecord.t :=
  {| organization_of := Prisma.IdempotencyRecord.organizationId; id_of := Prisma.IdempotencyRecord.id |}.

Definition in_org {Row} `{!TenantRow Row} (o : string) (row : Row) : bool :=
  String.eqb (organization_of row) o.
Definition at_key {Row} `{!TenantRow Row} (o i : string) (row : Row) : bool :=
  in_org o row && String.eqb (id_of row) i.

(* [src: packages/database/src/infrastructure/tenant-where.ts:3-5 tenantScope] *)
Definition tenantScope (organizationId : string) : Result Exn string :=
  requireOrganizationId organizationId.

(* [src: packages/database/src/infrastructure/tenant-where.ts:7-20 tenantCompoundWhere] *)
Definition tenantCompoundWhere (organizationId id idField : string) :
    Result Exn (string * string) :=
  organizationId ← requireOrganizationId organizationId;
  id ← requireOpaqueId id idField;
  mret (organizationId, id).

(* [src: packages/database/src/infrastructure/tenant-where.ts:22-26 assertSameOrganization] *)
Definition assertSameOrganization (left right : string) : Result Exn unit :=
  left ← requireOrganizationId left;
  right ← requireOrganizationId right;
  throw_if (negb (String.eqb left right)) (IntegrityError (reasonOnly "organization_id_mismatch")).

Section helpers.
Context {DB : Type} `{!PrismaClient DB}.

(** Throw when a row that is read back is missing. *)
Definition reload {Row T} (toDomain : Row → T) (resource : string)
    (read : M Exn DB (option Row)) : M Exn DB T :=
  row ← read;
  match row with
  | Some row => mret (toDomain row)
  | None => throw (notFound resource)
  end.

(** [updateMany], throw unless [result.count] is one, and read back. *)
Definition update_read {Row T} `{!Model Row} (toDomain : Row → T) (resource : string)
    (read : M Exn DB (option Row)) (where_ : Row → bool) (data : Row → Row) (conflict : Exn) :
    M Exn DB T :=
  count ← updateMany where_ data;
  if negb (count =? 1)%Z then throw conflict else reload toDomain resource read.

Definition update_reload {Row T} `{!Model Row} `{!TenantRow Row} (toDomain : Row → T)
    (resource : string) (o i : string) : (Row → bool) → (Row → Row) → Exn → M Exn DB T :=
  update_read toDomain resource (findUnique (at_key o i)).

(** [organizationId] and the id of a row, both checked. *)
Definition tenant_ids {A} (organizationId id idField : string) (f : string → string → M Exn DB A) :
    M Exn DB A :=
  ids ← lift (tenantCompoundWhere organizationId id idField);
  f ids.1 ids.2.
End helpers.

Module PrismaUsers.
Section repository.
Context {DB : Type} `{!PrismaClient DB}.

(* [src: packages/database/src/infrastructure/prisma-tenant-repositories.ts:78-82 findById] *)
Definition findById (userId : string) : M Exn DB (option AccountUser.t) :=
  userId ← lift (requireOpaqueId userId "userId");
  row ← findUnique (λ row, String.eqb (Prisma.User.id row) userId);
  mret (toDomainUser <$> row).

(* [src: packages/database/src/infrastructure/prisma-tenant-repositories.ts:83-87 findByEmail] *)
Definition findByEmail (email : string) : M Exn DB (option AccountUser.t) :=
  let email := toLowerCase (trim email) in
  row ← findUnique (λ row, String.eqb (Prisma.User.email row) email);
  mret (toDomainUser <$> row).

(* [src: packages/database/src/infrastructure/prisma-tenant-repositories.ts:88-95 listMemberships] *)
Definition listMemberships (userId : string) : M Exn DB (list OrganizationMembership.t) :=
  userId ← lift (requireOpaqueId userId "userId");
  rows ← findMany (λ row, String.eqb (Prisma.OrganizationMembership.userId row) userId)
    (λ a b, (Prisma.OrganizationMembership.createdAt a <=?
             Prisma.OrganizationMembership.createdAt b)%Z) None;
  mret (toDomainMembership <$> rows).
End repository.
End PrismaUsers.

Module PrismaOrganizations.
(* [src: packages/database/src/infrastructure/prisma-tenant-repositories.ts:103-107 findById] *)
Definition findById {DB} `{!PrismaClient DB} (organizationId : string) :
    M Exn DB (option Organization.t) :=
  organizationId ← lift (requireOrganizationId organizationId);
  row ← findUnique (λ row, String.eqb (Prisma.Organization.id row) organizationId);
  mret (toDomainOrganization <$> row).
End PrismaOrganizations.

Module PrismaMemberships.
Section repository.
Context {DB : Type} `{!PrismaClient DB}.

(* [src: packages/database/src/infrastructure/prisma-tenant-repositories.ts:113-118 findById] *)
Definition findById (organizationId membershipId : string) :
    M Exn DB (option OrganizationMembership.t) :=
  tenant_ids organizationId membershipId "membershipId" (λ o i,
    row ← findUnique (at_key o i); mret (toDomainMembership <$> row)).

(* [src: packages/database/src/infrastructure/prisma-tenant-repositories.ts:119-126 findByUser] *)
Definition findByUser (organizationId userId : string) :
    M Exn DB (option OrganizationMembership.t) :=
  tenant_ids organizationId userId "userId" (λ o u,
    row ← findUnique (λ row, in_org o row &&
                             String.eqb (Prisma.OrganizationMembership.userId row) u);
    mret (toDomainMembership <$> row)).
End repository.
End PrismaMemberships.

Module PrismaDocuments.
Section repository.
Context {DB : Type} `{!PrismaClient DB}.

(* [src: packages/database/src/infrastructure/prisma-tenant-repositories.ts:132-137 findById] *)
Definition findById (organizationId documentId : string) : M Exn DB (option Document.t) :=
  tenant_ids organizationId documentId "documentId" (λ o d,
    row ← findUnique (at_key o d); mret (toDomainDocument <$> row)).

(* [src: packages/database/src/infrastructure/prisma-tenant-repositories.ts:138-144 listByOrganization] *)
Definition listByOrganization (organizationId : string) : M Exn DB (list Document.t) :=
  organizationId ← lift (tenantScope organizationId);
  rows ← findMany (in_org organizationId)
    (λ a b, (Prisma.Document.createdAt b <=? Prisma.Document.createdAt a)%Z) None;
  mret (toDomainDocument <$> rows).

Definition to_row (o : string) (x : Document.t) : Prisma.Document.t :=
  Prisma.Document.mk (Document.id x) o (Document.ownerMembershipId x) (Document.title x)
    (DOCUMENT_STATE_TO_PRISMA (Document.state x)) (SIGNING_MODE_TO_PRISMA (Document.signingMode x))
    (DOCUMENT_INSPECTION_STATUS_TO_PRISMA (Document.inspectionStatus x))
    (Document.sourceDisplayName x) (Document.expiresAt x) (Document.currentRevisionId x)
    (Document.signingRevisionId x) (Document.version x) (Document.leaseOwner x)
    (Document.leaseUntil x) (Document.finalizationAttemptCount x) (Document.createdAt x)
    (Document.updatedAt x).

(* [src: packages/database/src/infrastructure/prisma-tenant-repositories.ts:145-170 create] *)
Definition create (organizationId : string) (document : Document.t) : M Exn DB Document.t :=
  lift (assertSameOrganization organizationId (Document.organizationId document));;
  organizationId ← lift (requireOrganizationId organizationId);
  row ← PrismaClient.create (λ _, to_row organizationId document);
  mret (toDomainDocument row).

(** [where: { organizationId, id, version, ... }]. *)
Definition at_version (o d : string) (expectedVersion : Z) (row : Prisma.Document.t) : bool :=
  at_key o d row && (Prisma.Document.version row =? expectedVersion)%Z.
Definition state_in (states : list Prisma.DocumentState.t) (row : Prisma.Document.t) : bool :=
  bool_decide (Prisma.Document.state row ∈ states).
(** [version: { increment: 1 }]. *)
Definition next_version (row : Prisma.Document.t) : Prisma.Document.t :=
  Prisma.Document.set_version (Prisma.Document.version row + 1) row.

Definition bump (organizationId documentId : string) (where_ : string → string → Prisma.Document.t → bool)
    (data : Prisma.Document.t → Prisma.Document.t) (conflict : Exn) : M Exn DB Document.t :=
  tenant_ids organizationId documentId "documentId" (λ o d,
    update_reload toDomainDocument "document" o d (where_ o d) (next_version ∘ data) conflict).

Definition version_conflict : Exn := conflictFor "document_version".

(* [src: packages/database/src/infrastructure/prisma-tenant-repositories.ts:171-192 attachSourceRevision] *)
Definition attachSourceRevision (organizationId documentId : string) (expectedVersion : Z)
    (revisionId sourceDisplayName : string) : M Exn DB Document.t :=
  bump organizationId documentId (λ o d, at_version o d expectedVersion)
    (λ row, Prisma.Document.set_currentRevisionId (Some revisionId)
              (Prisma.Document.set_sourceDisplayName (Some sourceDisplayName) row))
    version_conflict.

(* [src: packages/database/src/infrastructure/prisma-tenant-repositories.ts:193-213 setInspectionStatus] *)
Definition setInspectionStatus (organizationId documentId : string) (expectedVersion : Z)
    (inspectionStatus : DocumentInspectionStatus.t) : M Exn DB Document.t :=
  bump organizationId documentId (λ o d, at_version o d expectedVersion)
    (Prisma.Document.set_inspectionStatus (DOCUMENT_INSPECTION_STATUS_TO_PRISMA inspectionStatus))
    version_conflict.

(* [src: packages/database/src/infrastructure/prisma-tenant-repositories.ts:214-234 setSigningMode] *)
Definition setSigningMode (organizationId documentId : string) (expectedVersion : Z)
    (signingMode : SigningMode.t) : M Exn DB Document.t :=
  bump organizationId documentId (λ o d, at_version o d expectedVersion)
    (Prisma.Document.set_signingMode (SIGNING_MODE_TO_PRISMA signingMode)) version_conflict.

(* [src: packages/database/src/infrastructure/prisma-tenant-repositories.ts:235-255 setPreparationState] *)
Definition setPreparationState (organizationId documentId : string) (expectedVersion : Z)
    (state : DocumentState.t) : M Exn DB Document.t :=
  bump organizationId documentId (λ o d, at_version o d expectedVersion)
    (Prisma.Document.set_state (DOCUMENT_STATE_TO_PRISMA state)) version_conflict.

(* [src: packages/database/src/infrastructure/prisma-tenant-repositories.ts:256-278 markSent] *)
Definition markSent (organizationId documentId : string) (expectedVersion : Z)
    (signingRevisionId : string) (expiresAt : option Z) : M Exn DB Document.t :=
  bump organizationId documentId (λ o d, at_version o d expectedVersion)
    (λ row, Prisma.Document.set_state Prisma.DocumentState.sent
              (Prisma.Document.set_signingRevisionId (Some signingRevisionId)
                 (Prisma.Document.set_expiresAt expiresAt row)))
    version_conflict.

Definition being_signed : list Prisma.DocumentState.t :=
  [Prisma.DocumentState.sent; Prisma.DocumentState.inProgress].

(* [src: packages/database/src/infrastructure/prisma-tenant-repositories.ts:279-304 markDeclined] *)
Definition markDeclined (organizationId documentId : string) (expectedVersion : Z) :
    M Exn DB Document.t :=
  bump organizationId documentId
    (λ o d row, at_version o d expectedVersion row && state_in being_signed row)
    (Prisma.Document.set_state Prisma.DocumentState.declined) version_conflict.

(* [src: packages/database/src/infrastructure/prisma-tenant-repositories.ts:305-337 markVoided] *)
Definition markVoided (organizationId documentId : string) (expectedVersion : Z) :
    M Exn DB Document.t :=
  bump organizationId documentId
    (λ o d row, at_version o d expectedVersion row &&
       state_in [Prisma.DocumentState.draft; Prisma.DocumentState.prepared;
                 Prisma.DocumentState.sent; Prisma.DocumentState.inProgress] row)
    (Prisma.Document.set_state Prisma.DocumentState.voided) version_conflict.

(* [src: packages/database/src/infrastructure/prisma-tenant-repositories.ts:338-357 markInProgress] *)
Definition markInProgress (organizationId documentId : string) (expectedVersion : Z) :
    M Exn DB Document.t :=
  bump organizationId documentId
    (λ o d row, at_version o d expectedVersion row && state_in being_signed row)
    (Prisma.Document.set_state Prisma.DocumentState.inProgress) version_conflict.

(* [src: packages/database/src/infrastructure/prisma-tenant-repositories.ts:358-377 markCompleted] *)
Definition markCompleted (organizationId documentId : string) (expectedVersion : Z) :
    M Exn DB Document.t :=
  bump organizationId documentId
    (λ o d row, at_version o d expectedVersion row && state_in being_signed row)
    (Prisma.Document.set_state Prisma.DocumentState.completed) version_conflict.

Definition lease_conflict : Exn := Documents.lease_conflict.

(** [OR: [leaseUntil: null, leaseUntil < now, leaseOwner: owner]]. *)
Definition lease_free (owner : string) (now : Z) (row : Prisma.Document.t) : bool :=
  match Prisma.Document.leaseUntil row with
  | None => true
  | Some until => (until <? now)%Z
  end || bool_decide (Prisma.Document.leaseOwner row = Some owner).

Definition next_lease_state (s : Prisma.DocumentState.t) : Prisma.DocumentState.t :=
  if bool_decide (s = Prisma.DocumentState.completed) ||
     bool_decide (s = Prisma.DocumentState.finalizationFailed) then Prisma.DocumentState.finalizing
  else if bool_decide (s = Prisma.DocumentState.sent) then Prisma.DocumentState.inProgress
  else s.

(** The data of the claim: the next state and the attempts are those of the row
    that was read. *)
Definition lease_data (owner : string) (leaseUntil : Z) (current row : Prisma.Document.t) :
    Prisma.Document.t :=
  let nextState := next_lease_state (Prisma.Document.state current) in
  Prisma.Document.set_state nextState
    (Prisma.Document.set_leaseOwner (Some owner)
       (Prisma.Document.set_leaseUntil (Some leaseUntil)
          (Prisma.Document.set_finalizationAttemptCount
             (if bool_decide (nextState = Prisma.DocumentState.finalizing)
              then Prisma.Document.finalizationAttemptCount row + 1
              else Prisma.Document.finalizationAttemptCount current)%Z row))).

(* [src: packages/database/src/infrastructure/prisma-tenant-repositories.ts:378-438 claimProcessingLease] *)
Definition claimProcessingLease (organizationId documentId : string) (expectedVersion : Z)
    (owner : string) (leaseUntil now : Z) : M Exn DB Document.t :=
  tenant_ids organizationId documentId "documentId" (λ o d,
    current ← findFirst (λ row, at_version o d expectedVersion row &&
      state_in [Prisma.DocumentState.sent; Prisma.DocumentState.inProgress;
                Prisma.DocumentState.completed; Prisma.DocumentState.finalizationFailed;
                Prisma.DocumentState.finalizing] row && lease_free owner now row) unordered;
    match current with
    | None => throw lease_conflict
    | Some current =>
      update_reload toDomainDocument "document" o d
        (λ row, at_version o d expectedVersion row && lease_free owner now row)
        (next_version ∘ lease_data owner leaseUntil current) lease_conflict
    end).

Definition without_lease (row : Prisma.Document.t) : Prisma.Document.t :=
  Prisma.Document.set_leaseOwner None (Prisma.Document.set_leaseUntil None row).

Definition owned_by (owner : string) (row : Prisma.Document.t) : bool :=
  bool_decide (Prisma.Document.leaseOwner row = Some owner).

(* [src: packages/database/src/infrastructure/prisma-tenant-repositories.ts:439-468 commitFlattenedRevision] *)
Definition commitFlattenedRevision (organizationId documentId : string) (expectedVersion : Z)
    (owner revisionId : string) (finalize : bool) : M Exn DB Document.t :=
  bump organizationId documentId
    (λ o d row, at_version o d expectedVersion row && owned_by owner row)
    (λ row,
       let row := Prisma.Document.set_currentRevisionId (Some revisionId) (without_lease row) in
       if finalize then Prisma.Document.set_state Prisma.DocumentState.finalized row else row)
    lease_conflict.

(* [src: packages/database/src/infrastructure/prisma-tenant-repositories.ts:469-487 markFinalizationFailed] *)
Definition markFinalizationFailed (organizationId documentId owner : string) :
    M Exn DB Document.t :=
  tenant_ids organizationId documentId "documentId" (λ o d,
    updateMany (λ row, at_key o d row && owned_by owner row &&
                       state_in [Prisma.DocumentState.finalizing] row)
      (λ row, next_version (Prisma.Document.set_state Prisma.DocumentState.finalizationFailed
                              (without_lease row)));;
    reload toDomainDocument "document" (findUnique (at_key o d))).

(* [src: packages/database/src/infrastructure/prisma-tenant-repositories.ts:488-499 releaseProcessingLease] *)
Definition releaseProcessingLease (organizationId documentId owner : string) : M Exn DB unit :=
  tenant_ids organizationId documentId "documentId" (λ o d,
    updateMany (λ row, at_key o d row && owned_by owner row)
      (λ row, next_version (without_lease row));;
    mret tt).
End repository.
End PrismaDocuments.

Module PrismaRevisions.
Section repository.
Context {DB : Type} `{!PrismaClient DB}.

(* [src: packages/database/src/infrastructure/prisma-tenant-repositories.ts:507-512 findById] *)
Definition findById (organizationId revisionId : string) : M Exn DB (option DocumentRevision.t) :=
  tenant_ids organizationId revisionId "revisionId" (λ o i,
    row ← findUnique (at_key o i); mret (toDomainRevision <$> row)).

(* [src: packages/database/src/infrastructure/prisma-tenant-repositories.ts:513-521 listByDocument] *)
Definition listByDocument (organizationId documentId : string) :
    M Exn DB (list DocumentRevision.t) :=
  tenant_ids organizationId documentId "documentId" (λ o d,
    rows ← findMany (λ row, in_org o row && String.eqb (Prisma.DocumentRevision.documentId row) d)
      (λ a b, (Prisma.DocumentRevision.createdAt a <=? Prisma.DocumentRevision.createdAt b)%Z) None;
    mret (toDomainRevision <$> rows)).

Definition to_row (o : string) (x : DocumentRevision.t) : Prisma.DocumentRevision.t :=
  Prisma.DocumentRevision.mk (DocumentRevision.id x) o (DocumentRevision.documentId x)
    (REVISION_KIND_TO_PRISMA (DocumentRevision.kind x)) (DocumentRevision.objectKey x)
    (DocumentRevision.contentType x) (DocumentRevision.sizeBytes x)
    (DocumentRevision.sha256Digest x) (DocumentRevision.displayName x)
    (DocumentRevision.pageCount x) (DocumentRevision.createdAt x).

(* [src: packages/database/src/infrastructure/prisma-tenant-repositories.ts:522-541 create] *)
Definition create (organizationId : string) (revision : DocumentRevision.t) :
    M Exn DB DocumentRevision.t :=
  lift (assertSameOrganization organizationId (DocumentRevision.organizationId revision));;
  organizationId ← lift (requireOrganizationId organizationId);
  row ← PrismaClient.create (λ _, to_row organizationId revision);
  mret (toDomainRevision row).

(* [src: packages/database/src/infrastructure/prisma-tenant-repositories.ts:542-548 findFirstByObjectKey] *)
Definition findFirstByObjectKey (organizationId objectKey : string) :
    M Exn DB (option DocumentRevision.t) :=
  organizationId ← lift (requireOrganizationId organizationId);
  row ← findFirst (λ row, in_org organizationId row &&
                          String.eqb (Prisma.DocumentRevision.objectKey row) objectKey) unordered;
  mret (toDomainRevision <$> row).
End repository.
End PrismaRevisions.

Module PrismaUploadSessions.
Section repository.
Context {DB : Type} `{!PrismaClient DB}.

Definition to_row (o : string) (x : UploadSession.t) : Prisma.UploadSession.t :=
  Prisma.UploadSession.mk (UploadSession.id x) o (UploadSession.documentId x)
    (UploadSession.tokenHash x) (UPLOAD_SESSION_STATUS_TO_PRISMA (UploadSession.status x))
    (UploadSession.displayName x) (UploadSession.contentType x) (UploadSession.maxBytes x)
    (UploadSession.expiresAt x) (UploadSession.completedAt x) (UploadSession.revisionId x)
    (UploadSession.createdAt x) (UploadSession.updatedAt x).

(* [src: packages/database/src/infrastructure/prisma-tenant-repositories.ts:556-577 create] *)
Definition create (organizationId : string) (session : UploadSession.t) :
    M Exn DB UploadSession.t :=
  lift (assertSameOrganization organizationId (UploadSession.organizationId session));;
  organizationId ← lift (requireOrganizationId organizationId);
  row ← PrismaClient.create (λ _, to_row organizationId session);
  mret (toDomainUploadSession row).

(* [src: packages/database/src/infrastructure/prisma-tenant-repositories.ts:578-583 findById] *)
Definition findById (organizationId uploadSessionId : string) :
    M Exn DB (option UploadSession.t) :=
  tenant_ids organizationId uploadSessionId "uploadSessionId" (λ o i,
    row ← findUnique (at_key o i); mret (toDomainUploadSession <$> row)).

Definition issued_at (o i : string) (row : Prisma.UploadSession.t) : bool :=
  at_key o i row &&
  bool_decide (Prisma.UploadSession.status row = Prisma.UploadSessionStatus.issued).

(* [src: packages/database/src/infrastructure/prisma-tenant-repositories.ts:584-605 complete] *)
Definition complete (organizationId uploadSessionId revisionId : string) (completedAt : Z) :
    M Exn DB UploadSession.t :=
  tenant_ids organizationId uploadSessionId "uploadSessionId" (λ o i,
    update_reload toDomainUploadSession "upload_session" o i (issued_at o i)
      (λ row, Prisma.UploadSession.set_status Prisma.UploadSessionStatus.completed
                (Prisma.UploadSession.set_completedAt (Some completedAt)
                   (Prisma.UploadSession.set_revisionId (Some revisionId) row)))
      (conflictFor "upload_session_not_issued")).

(* [src: packages/database/src/infrastructure/prisma-tenant-repositories.ts:606-623 markAbandoned] *)
Definition markAbandoned (organizationId uploadSessionId : string) (abandonedAt : Z) :
    M Exn DB UploadSession.t :=
  tenant_ids organizationId uploadSessionId "uploadSessionId" (λ o i,
    update_reload toDomainUploadSession "upload_session" o i (issued_at o i)
      (Prisma.UploadSession.set_status Prisma.UploadSessionStatus.abandoned)
      (conflictFor "upload_session_not_issued")).

(* [src: packages/database/src/infrastructure/prisma-ingestion-lookups.ts:8-11 findByTokenHash] *)
Definition findByTokenHash (tokenHash : string) : M Exn DB (option UploadSession.t) :=
  row ← findUnique (λ row, String.eqb (Prisma.UploadSession.tokenHash row) tokenHash);
  mret (toDomainUploadSession <$> row).

(* [src: packages/database/src/infrastructure/prisma-ingestion-lookups.ts:12-22 listExpiredIssued] *)
Definition listExpiredIssued (now : Z) (limit : nat) : M Exn DB (list UploadSession.t) :=
  rows ← findMany
    (λ row, bool_decide (Prisma.UploadSession.status row = Prisma.UploadSessionStatus.issued) &&
            (Prisma.UploadSession.expiresAt row <=? now)%Z)
    (λ a b, (Prisma.UploadSession.expiresAt a <=? Prisma.UploadSession.expiresAt b)%Z) (Some limit);
  mret (toDomainUploadSession <$> rows).
End repository.
End PrismaUploadSessions.

Module PrismaPreviewGrants.
Section repository.
Context {DB : Type} `{!PrismaClient DB}.

Definition to_row (o : string) (x : PreviewGrant.t) : Prisma.PreviewGrant.t :=
  Prisma.PreviewGrant.mk (PreviewGrant.id x) o (PreviewGrant.documentId x)
    (PreviewGrant.revisionId x) (PreviewGrant.tokenHash x) (PreviewGrant.expiresAt x)
    (PreviewGrant.createdAt x).

(* [src: packages/database/src/infrastructure/prisma-tenant-repositories.ts:631-646 create] *)
Definition create (organizationId : string) (grant : PreviewGrant.t) : M Exn DB PreviewGrant.t :=
  lift (assertSameOrganization organizationId (PreviewGrant.organizationId grant));;
  organizationId ← lift (requireOrganizationId organizationId);
  row ← PrismaClient.create (λ _, to_row organizationId grant);
  mret (toDomainPreviewGrant row).

(* [src: packages/database/src/infrastructure/prisma-tenant-repositories.ts:647-652 findById] *)
Definition findById (organizationId grantId : string) : M Exn DB (option PreviewGrant.t) :=
  tenant_ids organizationId grantId "grantId" (λ o i,
    row ← findUnique (at_key o i); mret (toDomainPreviewGrant <$> row)).

(* [src: packages/database/src/infrastructure/prisma-ingestion-lookups.ts:28-31 findByTokenHash] *)
Definition findByTokenHash (tokenHash : string) : M Exn DB (option PreviewGrant.t) :=
  row ← findUnique (λ row, String.eqb (Prisma.PreviewGrant.tokenHash row) tokenHash);
  mret (toDomainPreviewGrant <$> row).
End repository.
End PrismaPreviewGrants.

Module PrismaSigners.
Section repository.
Context {DB : Type} `{!PrismaClient DB} `{!PrismaColumns}.

(* [src: packages/database/src/infrastructure/prisma-tenant-repositories.ts:658-663 findById] *)
Definition findById (organizationId signerId : string) : M Exn DB (option Signer.t) :=
  tenant_ids organizationId signerId "signerId" (λ o i,
    row ← findUnique (at_key o i); mret (toDomainSigner <$> row)).

Definition of_document (o d : string) (row : Prisma.Signer.t) : bool :=
  in_org o row && String.eqb (Prisma.Signer.documentId row) d.

(* [src: packages/database/src/infrastructure/prisma-tenant-repositories.ts:664-672 listByDocument] *)
Definition listByDocument (organizationId documentId : string) : M Exn DB (list Signer.t) :=
  tenant_ids organizationId documentId "documentId" (λ o d,
    rows ← findMany (of_document o d)
      (λ a b, (Prisma.Signer.routingOrder a <=? Prisma.Signer.routingOrder b)%Z) None;
    mret (toDomainSigner <$> rows)).

Definition to_row (o d : string) (routingOrder : Z) (x : Signer.t) : Prisma.Signer.t :=
  Prisma.Signer.mk (Signer.id x) o d (Signer.accountUserId x) routingOrder
    (SIGNER_STATUS_TO_PRISMA (Signer.status x)) (Signer.email x) (Signer.displayName x)
    (Signer.version x) (Signer.completedAt x) (Signer.declinedAt x) (Signer.createdAt x)
    (Signer.updatedAt x).

Definition replace_one (o d : string) (signer : Signer.t) : M Exn DB Signer.t :=
  lift (assertSameOrganization o (Signer.organizationId signer));;
  key ← lift (tenantCompoundWhere o (Signer.id signer) "signerId");
  routingOrder ← lift (int_column (Signer.routingOrder signer));
  row ← upsert (at_key key.1 key.2) (λ _, to_row o d routingOrder signer)
    (λ row, Prisma.Signer.set_routingOrder routingOrder
              (Prisma.Signer.set_email (Signer.email signer)
                 (Prisma.Signer.set_displayName (Signer.displayName signer)
                    (Prisma.Signer.set_updatedAt (Signer.updatedAt signer) row))));
  mret (toDomainSigner row).

(* [src: packages/database/src/infrastructure/prisma-tenant-repositories.ts:673-714 replaceAll] *)
Definition replaceAll (organizationId documentId : string) (signers : list Signer.t) :
    M Exn DB (list Signer.t) :=
  lift (assertSameOrganization organizationId organizationId);;
  tenant_ids organizationId documentId "documentId" (λ o d,
    let nextIds := Signer.id <$> signers in
    deleteMany (λ row, in_org o row && String.eqb (Prisma.SignatureField.documentId row) d &&
                       negb (bool_decide (Prisma.SignatureField.signerId row ∈ nextIds)));;
    deleteMany (λ row, of_document o d row && negb (bool_decide (Prisma.Signer.id row ∈ nextIds)));;
    map_each (replace_one o d) signers).

Definition pending_at (o i : string) (expectedVersion : Z) (row : Prisma.Signer.t) : bool :=
  at_key o i row && (Prisma.Signer.version row =? expectedVersion)%Z &&
  bool_decide (Prisma.Signer.status row = Prisma.SignerStatus.pending).
Definition next_version (row : Prisma.Signer.t) : Prisma.Signer.t :=
  Prisma.Signer.set_version (Prisma.Signer.version row + 1) row.

(* [src: packages/database/src/infrastructure/prisma-tenant-repositories.ts:715-741 markDeclined] *)
Definition markDeclined (organizationId signerId : string) (expectedVersion declinedAt : Z) :
    M Exn DB Signer.t :=
  tenant_ids organizationId signerId "signerId" (λ o i,
    update_reload toDomainSigner "signer" o i (pending_at o i expectedVersion)
      (λ row, next_version (Prisma.Signer.set_status Prisma.SignerStatus.declined
                              (Prisma.Signer.set_declinedAt (Some declinedAt) row)))
      (conflictFor "signer_version")).

(* [src: packages/database/src/infrastructure/prisma-tenant-repositories.ts:742-774 markSigned] *)
Definition markSigned (organizationId signerId : string) (expectedVersion completedAt : Z) :
    M Exn DB Signer.t :=
  tenant_ids organizationId signerId "signerId" (λ o i,
    existing ← findUnique (at_key o i);
    match existing with
    | Some existing =>
      if bool_decide (Prisma.Signer.status existing = Prisma.SignerStatus.signed)
      then mret (Some (toDomainSigner existing)) else mret None
    | None => mret None
    end ≫= λ signed, match signed with
    | Some signed => mret signed
    | None =>
      update_reload toDomainSigner "signer" o i (pending_at o i expectedVersion)
        (λ row, next_version (Prisma.Signer.set_status Prisma.SignerStatus.signed
                                (Prisma.Signer.set_completedAt (Some completedAt) row)))
        (conflictFor "signer_version")
    end).
End repository.
End PrismaSigners.

Module PrismaSigningSessions.
Section repository.
Context {DB : Type} `{!PrismaClient DB}.

(* [src: packages/database/src/infrastructure/prisma-tenant-repositories.ts:782-787 findById] *)
Definition findById (organizationId sessionId : string) : M Exn DB (option SigningSession.t) :=
  tenant_ids organizationId sessionId "sessionId" (λ o i,
    row ← findUnique (at_key o i); mret (toDomainSigningSession <$> row)).

(** [orderBy: { createdAt: 'desc' }]. *)
Definition latest_first (a b : Prisma.SigningSession.t) : bool :=
  (Prisma.SigningSession.createdAt b <=? Prisma.SigningSession.createdAt a)%Z.

(* [src: packages/database/src/infrastructure/prisma-tenant-repositories.ts:788-796 listBySigner] *)
Definition listBySigner (organizationId signerId : string) : M Exn DB (list SigningSession.t) :=
  tenant_ids organizationId signerId "signerId" (λ o i,
    rows ← findMany (λ row, in_org o row && String.eqb (Prisma.SigningSession.signerId row) i)
      latest_first None;
    mret (toDomainSigningSession <$> rows)).

(* [src: packages/database/src/infrastructure/prisma-tenant-repositories.ts:797-805 listByDocument] *)
Definition listByDocument (organizationId documentId : string) :
    M Exn DB (list SigningSession.t) :=
  tenant_ids organizationId documentId "documentId" (λ o d,
    rows ← findMany (λ row, in_org o row && String.eqb (Prisma.SigningSession.documentId row) d)
      latest_first None;
    mret (toDomainSigningSession <$> rows)).

(* [src: packages/database/src/infrastructure/prisma-tenant-repositories.ts:806-818 listOpenBySigner] *)
Definition listOpenBySigner (organizationId signerId : string) :
    M Exn DB (list SigningSession.t) :=
  tenant_ids organizationId signerId "signerId" (λ o i,
    rows ← findMany (λ row, in_org o row && String.eqb (Prisma.SigningSession.signerId row) i &&
                            open_session row) latest_first None;
    mret (toDomainSigningSession <$> rows)).

Definition to_row (o : string) (x : SigningSession.t) : Prisma.SigningSession.t :=
  Prisma.SigningSession.mk (SigningSession.id x) o (SigningSession.documentId x)
    (SigningSession.signerId x) (SigningSession.tokenHash x) (SigningSession.csrfTokenHash x)
    (SESSION_STATUS_TO_PRISMA (SigningSession.status x)) (SigningSession.expiresAt x)
    (SigningSession.consumedAt x) (SigningSession.completedAt x) (SigningSession.revokedAt x)
    (SigningSession.presentationAttemptCount x) (SigningSession.failedPresentationCount x)
    (SigningSession.lastPresentedAt x) (SigningSession.requestId x) (SigningSession.version x)
    (SigningSession.createdAt x) (SigningSession.updatedAt x).

(* [src: packages/database/src/infrastructure/prisma-tenant-repositories.ts:819-845 create] *)
Definition create (organizationId : string) (session : SigningSession.t) :
    M Exn DB SigningSession.t :=
  lift (assertSameOrganization organizationId (SigningSession.organizationId session));;
  organizationId ← lift (requireOrganizationId organizationId);
  row ← PrismaClient.create (λ _, to_row organizationId session);
  mret (toDomainSigningSession row).

Definition update_session (o i : string) := update_reload toDomainSigningSession "signing_session" o i.

Definition open_at (o i : string) (row : Prisma.SigningSession.t) : bool :=
  at_key o i row && open_session row.

(* [src: packages/database/src/infrastructure/prisma-tenant-repositories.ts:846-870 revoke] *)
Definition revoke (organizationId sessionId : string) (revokedAt : Z) : M Exn DB SigningSession.t :=
  tenant_ids organizationId sessionId "sessionId" (λ o i,
    update_session o i (open_at o i)
      (λ row, Prisma.SigningSession.set_status Prisma.SigningSessionStatus.revoked
                (Prisma.SigningSession.set_revokedAt (Some revokedAt) row))
      (conflictFor "session_not_open")).

(** The names of the client's enumeration, as an error reports them. *)
Definition status_name (s : Prisma.SigningSessionStatus.t) : string :=
  SigningSessionStatus.to_string (SESSION_STATUS_TO_DOMAIN s).

(* [src: packages/database/src/infrastructure/prisma-tenant-repositories.ts:871-910 markPresented] *)
Definition markPresented (organizationId sessionId : string) (presentedAt : Z) :
    M Exn DB SigningSession.t :=
  tenant_ids organizationId sessionId "sessionId" (λ o i,
    count ← updateMany (λ row, at_key o i row &&
        bool_decide (Prisma.SigningSession.status row = Prisma.SigningSessionStatus.issued))
      (λ row, Prisma.SigningSession.set_status Prisma.SigningSessionStatus.active
                (Prisma.SigningSession.set_lastPresentedAt (Some presentedAt) row));
    if negb (count =? 1)%Z then
      existing ← findUnique (at_key o i);
      match existing with
      | None => throw (notFound "signing_session")
      | Some existing =>
        if bool_decide (Prisma.SigningSession.status existing = Prisma.SigningSessionStatus.active)
        then
          updateMany (at_key o i) (Prisma.SigningSession.set_lastPresentedAt (Some presentedAt));;
          reload toDomainSigningSession "signing_session" (findUnique (at_key o i))
        else throw (ConflictError
          [("reason", VStr "session_not_presentable");
           ("status", VStr (status_name (Prisma.SigningSession.status existing)))])
      end
    else reload toDomainSigningSession "signing_session" (findUnique (at_key o i))).

(* [src: packages/database/src/infrastructure/prisma-tenant-repositories.ts:911-932 markExpired] *)
Definition markExpired (organizationId sessionId : string) (expiredAt : Z) :
    M Exn DB SigningSession.t :=
  tenant_ids organizationId sessionId "sessionId" (λ o i,
    update_session o i (open_at o i)
      (Prisma.SigningSession.set_status Prisma.SigningSessionStatus.expired)
      (conflictFor "session_not_open")).

(* [src: packages/database/src/infrastructure/prisma-tenant-repositories.ts:933-963 consumeAndRotate] *)
Definition consumeAndRotate (organizationId sessionId : string) (expectedVersion : Z)
    (tokenHash csrfTokenHash : string) (consumedAt : Z) : M Exn DB SigningSession.t :=
  tenant_ids organizationId sessionId "sessionId" (λ o i,
    update_session o i
      (λ row, at_key o i row && (Prisma.SigningSession.version row =? expectedVersion)%Z &&
              bool_decide (Prisma.SigningSession.consumedAt row = None) && open_session row)
      (λ row, Prisma.SigningSession.set_tokenHash tokenHash
                (Prisma.SigningSession.set_csrfTokenHash (Some csrfTokenHash)
                   (Prisma.SigningSession.set_consumedAt (Some consumedAt)
                      (Prisma.SigningSession.set_status Prisma.SigningSessionStatus.active
                         (Prisma.SigningSession.set_lastPresentedAt (Some consumedAt)
                            (Prisma.SigningSession.set_version
                               (Prisma.SigningSession.version row + 1) row))))))
      (conflictFor "session_not_exchangeable")).

(* [src: packages/database/src/infrastructure/prisma-tenant-repositories.ts:964-994 markCompleted] *)
Definition markCompleted (organizationId sessionId : string) (completedAt : Z) :
    M Exn DB SigningSession.t :=
  tenant_ids organizationId sessionId "sessionId" (λ o i,
    existing ← findUnique (at_key o i);
    match existing with
    | Some existing =>
      if bool_decide (Prisma.SigningSession.status existing = Prisma.SigningSessionStatus.completed)
      then mret (Some (toDomainSigningSession existing)) else mret None
    | None => mret None
    end ≫= λ completed, match completed with
    | Some completed => mret completed
    | None =>
      update_session o i (open_at o i)
        (λ row, Prisma.SigningSession.set_status Prisma.SigningSessionStatus.completed
                  (Prisma.SigningSession.set_completedAt (Some completedAt) row))
        (conflictFor "session_not_completable")
    end).

(* [src: packages/database/src/infrastructure/prisma-token-lookup.ts:7-12 findByTokenHash] *)
Definition findByTokenHash (tokenHash : string) : M Exn DB (option SigningSession.t) :=
  row ← findUnique (λ row, String.eqb (Prisma.SigningSession.tokenHash row) tokenHash);
  mret (toDomainSigningSession <$> row).
End repository.
End PrismaSigningSessions.

Module PrismaSignatureFields.
Section repository.
Context {DB : Type} `{!PrismaClient DB} `{!PrismaColumns}.

(* [src: packages/database/src/infrastructure/prisma-tenant-repositories.ts:1002-1007 findById] *)
Definition findById (organizationId fieldId : string) : M Exn DB (option SignatureField.t) :=
  tenant_ids organizationId fieldId "fieldId" (λ o i,
    row ← findUnique (at_key o i); mret (toDomainSignatureField <$> row)).

Definition of_document (o d : string) (row : Prisma.SignatureField.t) : bool :=
  in_org o row && String.eqb (Prisma.SignatureField.documentId row) d.

(* [src: packages/database/src/infrastructure/prisma-tenant-repositories.ts:1008-1016 listByDocument] *)
Definition listByDocument (organizationId documentId : string) :
    M Exn DB (list SignatureField.t) :=
  tenant_ids organizationId documentId "documentId" (λ o d,
    rows ← findMany (of_document o d)
      (λ a b, (Prisma.SignatureField.createdAt a <=? Prisma.SignatureField.createdAt b)%Z) None;
    mret (toDomainSignatureField <$> rows)).

Definition to_row (o d : string) (f : SignatureField.t) : Result Exn Prisma.SignatureField.t :=
  pageNumber ← int_column (SignatureField.pageNumber f);
  x ← decimal_column (SignatureField.x f);
  y ← decimal_column (SignatureField.y f);
  width ← decimal_column (SignatureField.width f);
  height ← decimal_column (SignatureField.height f);
  mret (Prisma.SignatureField.mk (SignatureField.id f) o d (SignatureField.signerId f)
    (FIELD_TYPE_TO_PRISMA (SignatureField.type f)) pageNumber x y width height
    (SignatureField.required f) (SignatureField.completedAt f)
    (SignatureField.completionObjectKey f) (SignatureField.completionContentType f)
    (SignatureField.completionSizeBytes f) (SignatureField.completionSha256Digest f)
    (SignatureField.flattenedRevisionId f) (SignatureField.createdAt f)
    (SignatureField.updatedAt f)).

Definition replace_one (o d : string) (field : SignatureField.t) : M Exn DB SignatureField.t :=
  lift (assertSameOrganization o (SignatureField.organizationId field));;
  data ← lift (to_row o d field);
  row ← PrismaClient.create (λ _, data);
  mret (toDomainSignatureField row).

(* [src: packages/database/src/infrastructure/prisma-tenant-repositories.ts:1017-1050 replaceAll] *)
Definition replaceAll (organizationId documentId : string) (fields : list SignatureField.t) :
    M Exn DB (list SignatureField.t) :=
  tenant_ids organizationId documentId "documentId" (λ o d,
    deleteMany (of_document o d);;
    map_each (replace_one o d) fields).

(* [src: packages/database/src/infrastructure/prisma-tenant-repositories.ts:1051-1074 complete] *)
Definition complete (organizationId fieldId : string) (completedAt : Z)
    (completionObjectKey completionContentType : option string)
    (completionSizeBytes : option Z) (completionSha256Digest : option string) :
    M Exn DB SignatureField.t :=
  tenant_ids organizationId fieldId "fieldId" (λ o i,
    update_reload toDomainSignatureField "signature_field" o i (at_key o i)
      (λ row, Prisma.SignatureField.set_completedAt (Some completedAt)
                (Prisma.SignatureField.set_completionObjectKey completionObjectKey
                   (Prisma.SignatureField.set_completionContentType completionContentType
                      (Prisma.SignatureField.set_completionSizeBytes completionSizeBytes
                         (Prisma.SignatureField.set_completionSha256Digest completionSha256Digest
                            row)))))
      (notFound "signature_field")).

(* [src: packages/database/src/infrastructure/prisma-tenant-repositories.ts:1075-1092 markFlattened] *)
Definition markFlattened (organizationId fieldId flattenedRevisionId : string) :
    M Exn DB SignatureField.t :=
  tenant_ids organizationId fieldId "fieldId" (λ o i,
    update_reload toDomainSignatureField "signature_field" o i (at_key o i)
      (Prisma.SignatureField.set_flattenedRevisionId (Some flattenedRevisionId))
      (notFound "signature_field")).

(* [src: packages/database/src/infrastructure/prisma-tenant-repositories.ts:1093-1099 findFirstByCompletionObjectKey] *)
Definition findFirstByCompletionObjectKey (organizationId objectKey : string) :
    M Exn DB (option SignatureField.t) :=
  organizationId ← lift (requireOrganizationId organizationId);
  row ← findFirst (λ row, in_org organizationId row &&
    bool_decide (Prisma.SignatureField.completionObjectKey row = Some objectKey)) unordered;
  mret (toDomainSignatureField <$> row).
End repository.
End PrismaSignatureFields.

Module PrismaConsentRecords.
Section repository.
Context {DB : Type} `{!PrismaClient DB}.

(* [src: packages/database/src/infrastructure/prisma-tenant-repositories.ts:1107-1115 findById] *)
Definition findById (organizationId consentId : string) : M Exn DB (option ConsentRecord.t) :=
  o ← lift (tenantScope organizationId);
  i ← lift (requireOpaqueId consentId "consentId");
  row ← findFirst (at_key o i) unordered;
  mret (toDomainConsent <$> row).

(* [src: packages/database/src/infrastructure/prisma-tenant-repositories.ts:1116-1123 findBySession] *)
Definition findBySession (organizationId sessionId : string) : M Exn DB (option ConsentRecord.t) :=
  tenant_ids organizationId sessionId "sessionId" (λ o i,
    row ← findFirst (λ row, in_org o row && String.eqb (Prisma.ConsentRecord.sessionId row) i)
      unordered;
    mret (toDomainConsent <$> row)).

(* [src: packages/database/src/infrastructure/prisma-tenant-repositories.ts:1124-1132 listByDocument] *)
Definition listByDocument (organizationId documentId : string) :
    M Exn DB (list ConsentRecord.t) :=
  tenant_ids organizationId documentId "documentId" (λ o d,
    rows ← findMany (λ row, in_org o row && String.eqb (Prisma.ConsentRecord.documentId row) d)
      (λ a b, (Prisma.ConsentRecord.createdAt a <=? Prisma.ConsentRecord.createdAt b)%Z) None;
    mret (toDomainConsent <$> rows)).

Definition to_row (o : string) (x : ConsentRecord.t) : Prisma.ConsentRecord.t :=
  Prisma.ConsentRecord.mk (ConsentRecord.id x) o (ConsentRecord.documentId x)
    (ConsentRecord.signerId x) (ConsentRecord.sessionId x) (ConsentRecord.consentCopyId x)
    (ConsentRecord.acceptedAt x) (ConsentRecord.requestId x) (ConsentRecord.untrustedClientIp x)
    (ConsentRecord.untrustedUserAgent x) (ConsentRecord.createdAt x).

(* [src: packages/database/src/infrastructure/prisma-tenant-repositories.ts:1133-1152 create] *)
Definition create (organizationId : string) (consent : ConsentRecord.t) :
    M Exn DB ConsentRecord.t :=
  lift (assertSameOrganization organizationId (ConsentRecord.organizationId consent));;
  organizationId ← lift (requireOrganizationId organizationId);
  row ← PrismaClient.create (λ _, to_row organizationId consent);
  mret (toDomainConsent row).
End repository.
End PrismaConsentRecords.

Module PrismaFinalizedArtifacts.
Section repository.
Context {DB : Type} `{!PrismaClient DB}.

(* [src: packages/database/src/infrastructure/prisma-tenant-repositories.ts:1160-1167 findByDocument] *)
Definition findByDocument (organizationId documentId : string) :
    M Exn DB (option FinalizedArtifact.t) :=
  tenant_ids organizationId documentId "documentId" (λ o d,
    row ← findFirst (λ row, in_org o row &&
      String.eqb (Prisma.FinalizedArtifact.documentId row) d) unordered;
    mret (toDomainArtifact <$> row)).

Definition to_row (o : string) (x : FinalizedArtifact.t) : Prisma.FinalizedArtifact.t :=
  Prisma.FinalizedArtifact.mk (FinalizedArtifact.id x) o (FinalizedArtifact.documentId x)
    (FinalizedArtifact.objectKey x) (FinalizedArtifact.contentType x)
    (FinalizedArtifact.sizeBytes x) (FinalizedArtifact.sha256Digest x)
    (FinalizedArtifact.createdAt x).

(* [src: packages/database/src/infrastructure/prisma-tenant-repositories.ts:1168-1184 create] *)
Definition create (organizationId : string) (artifact : FinalizedArtifact.t) :
    M Exn DB FinalizedArtifact.t :=
  lift (assertSameOrganization organizationId (FinalizedArtifact.organizationId artifact));;
  organizationId ← lift (requireOrganizationId organizationId);
  row ← PrismaClient.create (λ _, to_row organizationId artifact);
  mret (toDomainArtifact row).

(* [src: packages/database/src/infrastructure/prisma-tenant-repositories.ts:1185-1191 findFirstByObjectKey] *)
Definition findFirstByObjectKey (organizationId objectKey : string) :
    M Exn DB (option FinalizedArtifact.t) :=
  organizationId ← lift (requireOrganizationId organizationId);
  row ← findFirst (λ row, in_org organizationId row &&
                          String.eqb (Prisma.FinalizedArtifact.objectKey row) objectKey) unordered;
  mret (toDomainArtifact <$> row).
End repository.
End PrismaFinalizedArtifacts.

Module PrismaAuditLogs.
Section repository.
Context {DB : Type} `{!PrismaClient DB}.

Definition of_document (o d : string) (row : Prisma.AuditLog.t) : bool :=
  String.eqb (Prisma.AuditLog.organizationId row) o &&
  String.eqb (Prisma.AuditLog.documentId row) d.
Definition by_sequence (a b : Prisma.AuditLog.t) : bool :=
  (Prisma.AuditLog.sequence a <=? Prisma.AuditLog.sequence b)%Z.

(* [src: packages/database/src/infrastructure/prisma-tenant-repositories.ts:1197-1205 findLatest] *)
Definition findLatest (organizationId documentId : string) : M Exn DB (option AuditEvent.t) :=
  tenant_ids organizationId documentId "documentId" (λ o d,
    row ← findFirst (of_document o d) (λ a b, by_sequence b a);
    mret (toDomainAuditEvent <$> row)).

(* [src: packages/database/src/infrastructure/prisma-tenant-repositories.ts:1206-1214 listByDocument] *)
Definition listByDocument (organizationId documentId : string) : M Exn DB (list AuditEvent.t) :=
  tenant_ids organizationId documentId "documentId" (λ o d,
    rows ← findMany (of_document o d) by_sequence None;
    mret (toDomainAuditEvent <$> rows)).
End repository.
End PrismaAuditLogs.

Module PrismaOutboxEvents.
Section repository.
Context {DB : Type} `{!PrismaClient DB} `{!PrismaColumns}.

(* [src: packages/database/src/infrastructure/prisma-tenant-repositories.ts:1242-1249 findById] *)
Definition findById (organizationId outboxEventId : string) : M Exn DB (option OutboxEvent.t) :=
  tenant_ids organizationId outboxEventId "outboxEventId" (λ o i,
    row ← findFirst (at_key o i) unordered; mret (toDomainOutboxEvent <$> row)).

(** The columns left out take their defaults. *)
Definition to_row (o : string) (x : OutboxEvent.t) (now : Z) : Prisma.OutboxEvent.t :=
  Prisma.OutboxEvent.mk (OutboxEvent.id x) o (OutboxEvent.documentId x) (OutboxEvent.type x)
    Prisma.OutboxStatus.pending (json_column (asInputJson (OutboxEvent.payload x))) (OutboxEvent.requestId x)
    (OutboxEvent.attemptCount x) None None (OutboxEvent.availableAt x) (OutboxEvent.processedAt x)
    (OutboxEvent.lastErrorCode x) now now.

(* [src: packages/database/src/infrastructure/prisma-tenant-repositories.ts:1250-1269 create] *)
Definition create (organizationId : string) (event : OutboxEvent.t) : M Exn DB OutboxEvent.t :=
  lift (assertSameOrganization organizationId (OutboxEvent.organizationId event));;
  organizationId ← lift (requireOrganizationId organizationId);
  row ← PrismaClient.create (to_row organizationId event);
  mret (toDomainOutboxEvent row).
End repository.
End PrismaOutboxEvents.

Module PrismaBackgroundJobs.
(* [src: packages/database/src/infrastructure/prisma-tenant-repositories.ts:1277-1284 findById] *)
Definition findById {DB} `{!PrismaClient DB} (organizationId jobId : string) :
    M Exn DB (option BackgroundJob.t) :=
  tenant_ids organizationId jobId "jobId" (λ o i,
    row ← findFirst (at_key o i) unordered; mret (toDomainBackgroundJob <$> row)).
End PrismaBackgroundJobs.

Module PrismaIdempotencyRecords.
Section repository.
Context {DB : Type} `{!PrismaClient DB} `{!PrismaColumns}.

(* [src: packages/database/src/infrastructure/prisma-tenant-repositories.ts:1292-1305 find] *)
Definition find (organizationId principalId route key : string) :
    M Exn DB (option IdempotencyRecord.t) :=
  tenant_ids organizationId principalId "principalId" (λ o p,
    row ← findUnique (λ row, in_org o row &&
      String.eqb (Prisma.IdempotencyRecord.principalId row) p &&
      String.eqb (Prisma.IdempotencyRecord.route row) route &&
      String.eqb (Prisma.IdempotencyRecord.key row) key);
    mret (toDomainIdempotency <$> row)).

Definition to_row (o : string) (x : IdempotencyRecord.t) : Prisma.IdempotencyRecord.t :=
  Prisma.IdempotencyRecord.mk (IdempotencyRecord.id x) o
    (IDEMPOTENCY_PRINCIPAL_TO_PRISMA (IdempotencyRecord.principalType x))
    (IdempotencyRecord.principalId x) (IdempotencyRecord.route x) (IdempotencyRecord.key x)
    (IdempotencyRecord.requestHash x) (IdempotencyRecord.requestId x)
    (IdempotencyRecord.responseStatus x) (json_column ∘ asInputJson <$> IdempotencyRecord.responseBody x)
    (IdempotencyRecord.expiresAt x) (IdempotencyRecord.createdAt x) (IdempotencyRecord.updatedAt x).

(* [src: packages/database/src/infrastructure/prisma-tenant-repositories.ts:1306-1329 create] *)
Definition create (organizationId : string) (record : IdempotencyRecord.t) :
    M Exn DB IdempotencyRecord.t :=
  lift (assertSameOrganization organizationId (IdempotencyRecord.organizationId record));;
  organizationId ← lift (requireOrganizationId organizationId);
  row ← PrismaClient.create (λ _, to_row organizationId record);
  mret (toDomainIdempotency row).

(* [src: packages/database/src/infrastructure/prisma-tenant-repositories.ts:1330-1350 complete] *)
Definition complete (organizationId recordId : string) (responseStatus : Z)
    (responseBody : object) : M Exn DB IdempotencyRecord.t :=
  tenant_ids organizationId recordId "recordId" (λ o i,
    update_read toDomainIdempotency "idempotency_record" (findFirst (at_key o i) unordered) (at_key o i)
      (λ row, Prisma.IdempotencyRecord.set_responseStatus (Some responseStatus)
                (Prisma.IdempotencyRecord.set_responseBody
                   (Some (json_column (asInputJson responseBody))) row))
      (notFound "idempotency_record")).
End repository.
End PrismaIdempotencyRecords.
