(* ===== verification/PrismaWriters.v ===== *)
(** The audit writer, the job publisher, the account sessions, the claimer of
    outbox events and the health of the queue on the database, from
    [packages/database/src/infrastructure/] and [packages/database/src/digest.ts]. *)

From Stdlib Require Import String.
From S2P Require Export PrismaRepositories AuditLog JobQueue.
Local Open Scope string_scope.

(** The names of the enumerations in the database are those of the domain. *)
(* [src: packages/database/src/digest.ts:11-33 AUDIT_EVENT_TYPE_DB] *)
Definition AUDIT_EVENT_TYPE_DB (x : Prisma.AuditEventType.t) : AuditEventType.t :=
  match x with
  | Prisma.AuditEventType.documentCreated => AuditEventType.document_created
  | Prisma.AuditEventType.revisionAdded => AuditEventType.revision_added
  | Prisma.AuditEventType.fieldsUpdated => AuditEventType.fields_updated
  | Prisma.AuditEventType.signersUpdated => AuditEventType.signers_updated
  | Prisma.AuditEventType.documentSent => AuditEventType.document_sent
  | Prisma.AuditEventType.sessionIssued => AuditEventType.session_issued
  | Prisma.AuditEventType.sessionRevoked => AuditEventType.session_revoked
  | Prisma.AuditEventType.sessionExchanged => AuditEventType.session_exchanged
  | Prisma.AuditEventType.documentViewed => AuditEventType.document_viewed
  | Prisma.AuditEventType.consentRecorded => AuditEventType.consent_recorded
  | Prisma.AuditEventType.signerSigned => AuditEventType.signer_signed
  | Prisma.AuditEventType.signerDeclined => AuditEventType.signer_declined
  | Prisma.AuditEventType.documentVoided => AuditEventType.document_voided
  | Prisma.AuditEventType.documentExpired => AuditEventType.document_expired
  | Prisma.AuditEventType.finalizationStarted => AuditEventType.finalization_started
  | Prisma.AuditEventType.documentFinalized => AuditEventType.document_finalized
  | Prisma.AuditEventType.finalizationFailed => AuditEventType.finalization_failed
  | Prisma.AuditEventType.artifactDownloaded => AuditEventType.artifact_downloaded
  | Prisma.AuditEventType.inspectionAccepted => AuditEventType.inspection_accepted
  | Prisma.AuditEventType.inspectionRejected => AuditEventType.inspection_rejected
  | Prisma.AuditEventType.uploadAbandoned => AuditEventType.upload_abandoned
  end.

(* [src: packages/database/src/digest.ts:35-40 AUDIT_ACTOR_TYPE_DB] *)
Definition AUDIT_ACTOR_TYPE_DB (x : Prisma.AuditActorType.t) : AuditActorType.t :=
  match x with
  | Prisma.AuditActorType.accountUser => AuditActorType.account_user
  | Prisma.AuditActorType.signer => AuditActorType.signer
  | Prisma.AuditActorType.worker => AuditActorType.worker
  | Prisma.AuditActorType.system => AuditActorType.system
  end.

Module PrismaAuditWriter.
Section writer.
Context {DB : Type} `{!PrismaClient DB} `{!PrismaColumns} `{Env}.

(* [src: packages/database/src/infrastructure/prisma-audit-writer.ts:27-36 lockDocumentAuditChain] *)
Definition lockDocumentAuditChain (organizationId documentId : string) : M Exn DB unit :=
  advisory_lock ("audit:" +:+ organizationId +:+ ":" +:+ documentId)%string.

(** An invalid [Date] is refused by the client before it reaches the database. *)
Definition date_column (d : JsDate) : Result Exn Z :=
  match d with
  | Some t => Ok t
  | None => Throw (OtherError "PrismaClientValidationError" "Invalid value for argument")
  end.

(* [src: packages/database/src/infrastructure/prisma-audit-writer.ts:38-82 appendInClient] *)
Definition appendInClient (input : NewAuditEvent.t) : M Exn DB AuditEvent.t :=
  organizationId ← lift (requireOrganizationId (NewAuditEvent.organizationId input));
  documentId ← lift (requireOpaqueId (NewAuditEvent.documentId input) "documentId");
  lift (assertApprovedAuditPayload (NewAuditEvent.payload input) 0);;
  lockDocumentAuditChain organizationId documentId;;
  latest ← findFirst (PrismaAuditLogs.of_document organizationId documentId)
             (λ a b, PrismaAuditLogs.by_sequence b a);
  let sequence := match latest with Some e => Prisma.AuditLog.sequence e + 1 | None => 0 end%Z in
  let previousEventHash :=
    match latest with
    | Some e => Prisma.AuditLog.eventHash e
    | None => AUDIT_GENESIS_PREVIOUS_EVENT_HASH
    end in
  let prismaType := AUDIT_EVENT_TYPE_TO_PRISMA (NewAuditEvent.type input) in
  let prismaActorType := AUDIT_ACTOR_TYPE_TO_PRISMA (NewAuditEvent.actorType input) in
  eventHash ← lift (computeAuditEventHash (AuditEventHashInput.mk AUDIT_CHAIN_SCHEMA_VERSION
    previousEventHash sequence (AUDIT_EVENT_TYPE_DB prismaType)
    (AUDIT_ACTOR_TYPE_DB prismaActorType) (NewAuditEvent.actorId input)
    (NewAuditEvent.occurredAt input) (VObj (NewAuditEvent.payload input))));
  occurredAt ← lift (date_column (NewAuditEvent.occurredAt input));
  row ← create (λ now, Prisma.AuditLog.mk (NewAuditEvent.id input) organizationId documentId
    sequence prismaType prismaActorType (NewAuditEvent.actorId input) occurredAt
    (json_column (VObj (NewAuditEvent.payload input))) previousEventHash eventHash
    (NewAuditEvent.requestId input) AUDIT_CHAIN_SCHEMA_VERSION now);
  mret (toDomainAuditEvent row).

(** Outside a unit of work the writer opens a transaction of its own. *)
(* [src: packages/database/src/infrastructure/prisma-audit-writer.ts:84-97 createPrismaAuditWriter] *)
Definition append (inTransaction : bool) (input : NewAuditEvent.t) : M Exn DB AuditEvent.t :=
  if inTransaction then appendInClient input else transaction (appendInClient input).
End writer.
End PrismaAuditWriter.

Module PrismaJobPublisher.
Section publisher.
Context {DB : Type} `{!PrismaClient DB} `{!PrismaColumns}.
Import Jobs.

Definition event_row (organizationId : string) (availableAt : Z) (input : PublishInput.t) (now : Z) :
    Prisma.OutboxEvent.t :=
  let '(PublishInput.mk id _ documentId type payload requestId _ _ _) := input in
  Prisma.OutboxEvent.mk id organizationId documentId type Prisma.OutboxStatus.pending
    (json_column (VObj payload)) requestId 0 None None availableAt None None now now.

Definition job_row (organizationId jobId : string) (availableAt : Z) (input : PublishInput.t)
    (now : Z) : Prisma.BackgroundJob.t :=
  let '(PublishInput.mk id _ documentId type _ requestId _ _ maxAttempts) := input in
  Prisma.BackgroundJob.mk jobId organizationId documentId (Some id) type
    Prisma.BackgroundJobStatus.pending 0 (default DEFAULT_JOB_MAX_ATTEMPTS maxAttempts) None None
    availableAt None requestId 1 now now.

(** A nested [create] writes both rows or neither. *)
(* [src: packages/database/src/infrastructure/prisma-job-publisher.ts:12-45 createPrismaJobPublisher] *)
Definition publish (now : Z) (input : PublishInput.t) : M Exn DB OutboxEvent.t :=
  organizationId ← lift (requireOrganizationId (PublishInput.organizationId input));
  lift (assertSafeJobPayload (PublishInput.payload input));;
  let availableAt := default now (PublishInput.availableAt input) in
  jobId ← match PublishInput.jobId input with Some i => mret i | None => randomUUID end;
  row ← transaction (
    row ← create (event_row organizationId availableAt input);
    create (job_row organizationId jobId availableAt input);;
    mret row);
  mret (toDomainOutboxEvent row).
End publisher.
End PrismaJobPublisher.

Module PrismaAccountSessions.
Section repository.
Context {DB : Type} `{!PrismaClient DB}.

(* [src: packages/database/src/infrastructure/prisma-account-session.ts:17-30 create] *)
Definition create (session : AccountSession.t) : M Exn DB AccountSession.t :=
  id ← lift (requireOpaqueId (AccountSession.id session) "sessionId");
  userId ← lift (requireOpaqueId (AccountSession.userId session) "userId");
  row ← PrismaClient.create (λ _, Prisma.AccountSession.mk id userId
    (AccountSession.tokenHash session) (AccountSession.csrfTokenHash session)
    (AccountSession.expiresAt session) (AccountSession.revokedAt session)
    (AccountSession.createdAt session));
  mret (toDomainAccountSession row).

(* [src: packages/database/src/infrastructure/prisma-account-session.ts:31-36 findByTokenHash] *)
Definition findByTokenHash (tokenHash : string) : M Exn DB (option AccountSession.t) :=
  row ← findUnique (λ row, String.eqb (Prisma.AccountSession.tokenHash row) tokenHash);
  mret (toDomainAccountSession <$> row).

(* [src: packages/database/src/infrastructure/prisma-account-session.ts:37-43 findById] *)
Definition findById (sessionId : string) : M Exn DB (option AccountSession.t) :=
  sessionId ← lift (requireOpaqueId sessionId "sessionId");
  row ← findUnique (λ row, String.eqb (Prisma.AccountSession.id row) sessionId);
  mret (toDomainAccountSession <$> row).

(** [update] of a row that is not there is an error of the client. *)
(* [src: packages/database/src/infrastructure/prisma-account-session.ts:44-50 revoke] *)
Definition revoke (sessionId : string) (revokedAt : Z) : M Exn DB unit :=
  sessionId ← lift (requireOpaqueId sessionId "sessionId");
  count ← updateMany (λ row, String.eqb (Prisma.AccountSession.id row) sessionId)
            (Prisma.AccountSession.set_revokedAt (Some revokedAt));
  if (count =? 0)%Z
  then throw (OtherError "PrismaClientKnownRequestError" "No record was found for an update.")
  else mret tt.
End repository.
End PrismaAccountSessions.

Module PrismaOutboxClaimer.
Section claimer.
Context {DB : Type} `{!PrismaClient DB} `{!PrismaColumns}.

(** The [WHERE] clause of the claim, over the columns of the row. *)
Definition claimable (type : string) (now : Z) (row : Prisma.OutboxEvent.t) : bool :=
  String.eqb (Prisma.OutboxEvent.type row) type && (Prisma.OutboxEvent.availableAt row <=? now)%Z &&
  (bool_decide (Prisma.OutboxEvent.status row = Prisma.OutboxStatus.pending) ||
   bool_decide (Prisma.OutboxEvent.status row = Prisma.OutboxStatus.processing) &&
   match Prisma.OutboxEvent.leaseUntil row with Some t => (t <? now)%Z | None => false end).

(** [ORDER BY "availableAt" ASC, id ASC]. *)
Definition due_first (a b : Prisma.OutboxEvent.t) : bool :=
  (Prisma.OutboxEvent.availableAt a <? Prisma.OutboxEvent.availableAt b)%Z ||
  (Prisma.OutboxEvent.availableAt a =? Prisma.OutboxEvent.availableAt b)%Z &&
  string_leb (Prisma.OutboxEvent.id a) (Prisma.OutboxEvent.id b).

(** The [SET] clause. *)
Definition lease_event (owner : string) (leaseUntil : Z) (row : Prisma.OutboxEvent.t) :
    Prisma.OutboxEvent.t :=
  Prisma.OutboxEvent.set_status Prisma.OutboxStatus.processing
    (Prisma.OutboxEvent.set_leaseOwner (Some owner)
       (Prisma.OutboxEvent.set_leaseUntil (Some leaseUntil)
          (Prisma.OutboxEvent.set_attemptCount (Prisma.OutboxEvent.attemptCount row + 1) row))).

Definition lease_job (owner : string) (leaseUntil : Z) (row : Prisma.BackgroundJob.t) :
    Prisma.BackgroundJob.t :=
  Prisma.BackgroundJob.set_status Prisma.BackgroundJobStatus.leased
    (Prisma.BackgroundJob.set_leaseOwner (Some owner)
       (Prisma.BackgroundJob.set_leaseUntil (Some leaseUntil)
          (Prisma.BackgroundJob.set_attemptCount (Prisma.BackgroundJob.attemptCount row + 1)
             (Prisma.BackgroundJob.set_version (Prisma.BackgroundJob.version row + 1) row)))).

Definition job_of (event : Prisma.OutboxEvent.t) (row : Prisma.BackgroundJob.t) : bool :=
  in_org (Prisma.OutboxEvent.organizationId event) row &&
  bool_decide (Prisma.BackgroundJob.outboxEventId row = Some (Prisma.OutboxEvent.id event)).

Definition new_job (event : Prisma.OutboxEvent.t) (jobId owner : string) (leaseUntil now : Z) :
    Prisma.BackgroundJob.t :=
  Prisma.BackgroundJob.mk jobId (Prisma.OutboxEvent.organizationId event)
    (Prisma.OutboxEvent.documentId event) (Some (Prisma.OutboxEvent.id event))
    (Prisma.OutboxEvent.type event) Prisma.BackgroundJobStatus.leased
    (Prisma.OutboxEvent.attemptCount event) DEFAULT_JOB_MAX_ATTEMPTS (Some owner) (Some leaseUntil)
    (Prisma.OutboxEvent.availableAt event) None (Prisma.OutboxEvent.requestId event) 1 now now.

(** The job of the event is leased, or created when there is none. *)
Definition lease_or_create_job (event : Prisma.OutboxEvent.t) (owner : string) (leaseUntil : Z) :
    M Exn DB unit :=
  existingJob ← findFirst (job_of event) unordered;
  match existingJob with
  | Some existingJob =>
    updateMany (λ row : Prisma.BackgroundJob.t,
        in_org (Prisma.OutboxEvent.organizationId event) row &&
        String.eqb (Prisma.BackgroundJob.id row) (Prisma.BackgroundJob.id existingJob))
      (lease_job owner leaseUntil);;
    mret tt
  | None =>
    jobId ← randomUUID;
    create (new_job event jobId owner leaseUntil);;
    mret tt
  end.

(* [src: packages/database/src/infrastructure/prisma-outbox-claimer.ts:19-105 claimNextByType] *)
Definition claimNextByType (type : string) (now : Z) (owner : string) (leaseUntil : Z) :
    M Exn DB (option ClaimedOutboxWork.t) :=
  transaction (
    claimed ← update_first_row (claimable type now) due_first (lease_event owner leaseUntil);
    match claimed with
    | None => mret None
    | Some claimed =>
      eventRow ← findFirst (at_key (Prisma.OutboxEvent.organizationId claimed)
                                   (Prisma.OutboxEvent.id claimed)) unordered;
      match eventRow with
      | None => mret None
      | Some eventRow =>
        lease_or_create_job eventRow owner leaseUntil;;
        jobRow ← findFirst (job_of eventRow) unordered;
        match jobRow with
        | None => mret None
        | Some jobRow => mret (Some (ClaimedOutboxWork.mk (toDomainOutboxEvent eventRow)
            (toDomainBackgroundJob jobRow)
            (bool_decide (Prisma.OutboxEvent.status claimed = Prisma.OutboxStatus.processing))))
        end
      end
    end).

Definition held_event (o : Outcome.t) (row : Prisma.OutboxEvent.t) : bool :=
  String.eqb (Prisma.OutboxEvent.id row) (Outcome.outboxEventId o) &&
  String.eqb (Prisma.OutboxEvent.organizationId row) (Outcome.organizationId o) &&
  bool_decide (Prisma.OutboxEvent.leaseOwner row = Some (Outcome.owner o)) &&
  bool_decide (Prisma.OutboxEvent.status row = Prisma.OutboxStatus.processing).

Definition held_job (o : Outcome.t) (row : Prisma.BackgroundJob.t) : bool :=
  String.eqb (Prisma.BackgroundJob.id row) (Outcome.jobId o) &&
  String.eqb (Prisma.BackgroundJob.organizationId row) (Outcome.organizationId o) &&
  bool_decide (Prisma.BackgroundJob.leaseOwner row = Some (Outcome.owner o)) &&
  bool_decide (Prisma.BackgroundJob.status row = Prisma.BackgroundJobStatus.leased).

Definition unleased_event (row : Prisma.OutboxEvent.t) : Prisma.OutboxEvent.t :=
  Prisma.OutboxEvent.set_leaseOwner None (Prisma.OutboxEvent.set_leaseUntil None row).
Definition unleased_job (row : Prisma.BackgroundJob.t) : Prisma.BackgroundJob.t :=
  Prisma.BackgroundJob.set_leaseOwner None
    (Prisma.BackgroundJob.set_leaseUntil None
       (Prisma.BackgroundJob.set_version (Prisma.BackgroundJob.version row + 1) row)).

(** The event and the job that the owner holds are settled together. *)
Definition settle (o : Outcome.t) (event : Prisma.OutboxEvent.t → Prisma.OutboxEvent.t)
    (job : Prisma.BackgroundJob.t → Prisma.BackgroundJob.t) : M Exn DB unit :=
  transaction (
    updateMany (held_event o) (λ row, event (unleased_event row));;
    updateMany (held_job o) (λ row, job (unleased_job row));;
    mret tt).

(* [src: packages/database/src/infrastructure/prisma-outbox-claimer.ts:106-137 markProcessed] *)
Definition markProcessed (o : Outcome.t) (processedAt : Z) : M Exn DB unit :=
  settle o
    (λ row, Prisma.OutboxEvent.set_status Prisma.OutboxStatus.processed
              (Prisma.OutboxEvent.set_processedAt (Some processedAt) row))
    (Prisma.BackgroundJob.set_status Prisma.BackgroundJobStatus.succeeded).

(* [src: packages/database/src/infrastructure/prisma-outbox-claimer.ts:138-172 scheduleRetry] *)
Definition scheduleRetry (o : Outcome.t) (errorCode : string) (availableAt : Z) : M Exn DB unit :=
  settle o
    (λ row, Prisma.OutboxEvent.set_status Prisma.OutboxStatus.pending
              (Prisma.OutboxEvent.set_lastErrorCode (Some errorCode)
                 (Prisma.OutboxEvent.set_availableAt availableAt row)))
    (λ row, Prisma.BackgroundJob.set_status Prisma.BackgroundJobStatus.pending
              (Prisma.BackgroundJob.set_lastErrorCode (Some errorCode)
                 (Prisma.BackgroundJob.set_availableAt availableAt row))).

(* [src: packages/database/src/infrastructure/prisma-outbox-claimer.ts:173-205 markDeadLettered] *)
Definition markDeadLettered (o : Outcome.t) (errorCode : string) : M Exn DB unit :=
  settle o
    (λ row, Prisma.OutboxEvent.set_status Prisma.OutboxStatus.failed
              (Prisma.OutboxEvent.set_lastErrorCode (Some errorCode) row))
    (λ row, Prisma.BackgroundJob.set_status Prisma.BackgroundJobStatus.failed
              (Prisma.BackgroundJob.set_lastErrorCode (Some errorCode) row)).

Definition due (now : Z) (row : Prisma.OutboxEvent.t) : bool :=
  bool_decide (Prisma.OutboxEvent.status row = Prisma.OutboxStatus.pending) &&
  (Prisma.OutboxEvent.availableAt row <=? now)%Z.
Definition lapsed (now : Z) (row : Prisma.OutboxEvent.t) : bool :=
  bool_decide (Prisma.OutboxEvent.status row = Prisma.OutboxStatus.processing) &&
  match Prisma.OutboxEvent.leaseUntil row with Some t => (t <? now)%Z | None => false end.

(* [src: packages/database/src/infrastructure/prisma-outbox-claimer.ts:209-249 createPrismaJobQueueHealth] *)
Definition snapshot (now : Z) : M Exn DB JobQueueDepth.t :=
  pending ← count (due now);
  processing ← count (λ row, bool_decide (Prisma.OutboxEvent.status row = Prisma.OutboxStatus.processing));
  failed ← count (λ row, bool_decide (Prisma.OutboxEvent.status row = Prisma.OutboxStatus.failed));
  expiredLeaseCount ← count (lapsed now);
  oldest ← findFirst (λ row, due now row || lapsed now row)
    (λ a b, (Prisma.OutboxEvent.availableAt a <=? Prisma.OutboxEvent.availableAt b)%Z);
  mret (JobQueueDepth.mk pending processing failed expiredLeaseCount
    (Prisma.OutboxEvent.availableAt <$> oldest)).
End claimer.
End PrismaOutboxClaimer.
