(* ===== verification/PrismaMirror.v ===== *)
(** The database mirrors the in-memory repositories: the relation between their
    tables, and the rules by which a method on the database refines the method
    in memory. *)

From Stdlib Require Import String Sorted.
From S2P Require Export PrismaWriters.
Local Open Scope string_scope.

(** What [Json] and [Int] columns keep of what is written: the members of an
    object in some order, and integers. *)
Definition same_json (v w : object) : Prop :=
  canonicalizeJsonValue (VObj v) = canonicalizeJsonValue (VObj w).

Class ColumnLaws `{!PrismaColumns} : Prop := {
  int_column_exact z : int_column (NInt z) = Ok z;
  json_column_object m : ∃ m', json_column (VObj m) = VObj m' ∧ same_json m' m
}.

(** ** Entities that differ in their [updatedAt] alone

    The database sets it at every update, the in-memory repositories at some. *)
Class Same (T : Type) : Type := same : T → T → Prop.

#[export] Instance Document_same : Same Document.t := λ a b, ∃ t, b = Document.set_updatedAt t a.
#[export] Instance DocumentRevision_same : Same DocumentRevision.t := eq.
#[export] Instance UploadSession_same : Same UploadSession.t :=
  λ a b, ∃ t, b = UploadSession.set_updatedAt t a.
#[export] Instance PreviewGrant_same : Same PreviewGrant.t := eq.
#[export] Instance Signer_same : Same Signer.t := λ a b, ∃ t, b = Signer.set_updatedAt t a.
#[export] Instance SigningSession_same : Same SigningSession.t :=
  λ a b, ∃ t, b = SigningSession.set_updatedAt t a.
#[export] Instance SignatureField_same : Same SignatureField.t :=
  λ a b, ∃ t, b = SignatureField.set_updatedAt t a.
#[export] Instance ConsentRecord_same : Same ConsentRecord.t := eq.
#[export] Instance FinalizedArtifact_same : Same FinalizedArtifact.t := eq.
(** And in the order of the members of a stored response. *)
#[export] Instance IdempotencyRecord_same : Same IdempotencyRecord.t := λ a b,
  ∃ t body, b = IdempotencyRecord.set_updatedAt t (IdempotencyRecord.set_responseBody body a) ∧
    match IdempotencyRecord.responseBody a, body with
    | Some m, Some m' => same_json m m'
    | None, None => True
    | _, _ => False
    end.

(** The database dates the rows of the log and the queue itself. *)
Definition AuditEvent_stored (createdAt : JsDate) (payload : object) (e : AuditEvent.t) : AuditEvent.t :=
  AuditEvent.mk (AuditEvent.id e) (AuditEvent.organizationId e) (AuditEvent.documentId e)
    (AuditEvent.sequence e) (AuditEvent.type e) (AuditEvent.actorType e) (AuditEvent.actorId e)
    (AuditEvent.occurredAt e) (VObj payload) (AuditEvent.previousEventHash e)
    (AuditEvent.eventHash e) (AuditEvent.requestId e) (AuditEvent.chainVersion e) createdAt.
Definition OutboxEvent_stored (createdAt updatedAt : Z) (payload : object) (e : OutboxEvent.t) :
    OutboxEvent.t :=
  OutboxEvent.mk (OutboxEvent.id e) (OutboxEvent.organizationId e) (OutboxEvent.documentId e)
    (OutboxEvent.type e) (OutboxEvent.status e) payload (OutboxEvent.requestId e)
    (OutboxEvent.attemptCount e) (OutboxEvent.leaseOwner e) (OutboxEvent.leaseUntil e)
    (OutboxEvent.availableAt e) (OutboxEvent.processedAt e) (OutboxEvent.lastErrorCode e)
    createdAt updatedAt.
Definition BackgroundJob_stored (createdAt updatedAt : Z) (j : BackgroundJob.t) : BackgroundJob.t :=
  BackgroundJob.mk (BackgroundJob.id j) (BackgroundJob.organizationId j)
    (BackgroundJob.documentId j) (BackgroundJob.outboxEventId j) (BackgroundJob.type j)
    (BackgroundJob.status j) (BackgroundJob.attemptCount j) (BackgroundJob.maxAttempts j)
    (BackgroundJob.leaseOwner j) (BackgroundJob.leaseUntil j) (BackgroundJob.availableAt j)
    (BackgroundJob.lastErrorCode j) (BackgroundJob.requestId j) (BackgroundJob.version j)
    createdAt updatedAt.

#[export] Instance AuditEvent_same : Same AuditEvent.t := λ a b,
  ∃ t m, b = AuditEvent_stored t m a ∧
    match AuditEvent.payload a with VObj m' => same_json m' m | _ => False end.
#[export] Instance OutboxEvent_same : Same OutboxEvent.t := λ a b,
  ∃ t m, b = OutboxEvent_stored t.1 t.2 m a ∧ same_json (OutboxEvent.payload a) m.
#[export] Instance BackgroundJob_same : Same BackgroundJob.t := λ a b,
  ∃ t, b = BackgroundJob_stored t.1 t.2 a.

(** ** The tables of the database and of the in-memory repositories *)

Definition rows_match {Row T} `{!Same T} (toDomain : Row → T) : list Row → list T → Prop :=
  Forall2 (λ row x, same (toDomain row) x).

Section mirrors.
Context `{!PrismaColumns}.

Record mirrors (T : Tables.t) (s : St) : Prop := {
  mirrors_documents : rows_match toDomainDocument (Tables.documents T) s.(documents);
  mirrors_revisions : rows_match toDomainRevision (Tables.documentRevisions T) s.(revisions);
  mirrors_uploads : rows_match toDomainUploadSession (Tables.uploadSessions T) s.(uploadSessions);
  mirrors_previews : rows_match toDomainPreviewGrant (Tables.previewGrants T) s.(previewGrants);
  mirrors_signers : rows_match toDomainSigner (Tables.signers T) s.(signers);
  mirrors_sessions :
    rows_match toDomainSigningSession (Tables.signingSessions T) s.(signingSessions);
  mirrors_fields :
    rows_match toDomainSignatureField (Tables.signatureFields T) s.(signatureFields);
  mirrors_consents : rows_match toDomainConsent (Tables.consentRecords T) s.(consentRecords);
  mirrors_artifacts :
    rows_match toDomainArtifact (Tables.finalizedArtifacts T) s.(finalizedArtifacts);
  mirrors_records :
    rows_match toDomainIdempotency (Tables.idempotencyRecords T) s.(idempotencyRecords);
  mirrors_audit : rows_match toDomainAuditEvent (Tables.auditLogs T) s.(auditEvents);
  mirrors_outbox : rows_match toDomainOutboxEvent (Tables.outboxEvents T) s.(outboxEvents);
  mirrors_jobs : rows_match toDomainBackgroundJob (Tables.backgroundJobs T) s.(backgroundJobs)
}.

(** A model, the entity it stores and the table it mirrors. *)
Class Mirror (Row T : Type) `{!Model Row} `{!TenantRow Row} `{!Table T} `{!Same T} : Type := {
  toDomain : Row → T;
  entity_key : string → string → T → bool;
  mirror_get Tb s : mirrors Tb s → rows_match toDomain (table Tb) (rows s);
  mirror_put Tb s l l' :
    mirrors Tb s → rows_match toDomain l l' → mirrors (set_table l Tb) (set_rows l' s);
  mirror_unique Tb : unique_tables Tb = true → unique_rows clash (table Tb) = true;
  mirror_clash o i x y : at_key o i x = true → at_key o i y = true → clash x y = true;
  mirror_key o i row x : same (toDomain row) x → entity_key o i x = at_key o i row;
  touch_key o i now row : at_key o i (touch now row) = at_key o i row
}.

#[local] Obligation Tactic := idtac.
Ltac mirror_tac :=
  first
  [ (intros Tb s []; done)
  | intros Tb s l l' [] ?; by constructor
  | intros Tb; unfold unique_tables; rewrite !andb_true_iff; intros Hu; by decompose [and] Hu
  | intros o i x y; unfold at_key; rewrite !andb_true_iff, !String.eqb_eq;
    intros [_ Hx] [_ Hy]; unfold clash; simpl in *; by rewrite Hx, Hy, String.eqb_refl
  | intros o i row x; unfold same;
    first [by intros [? ->] | by intros (? & ? & -> & _) | by intros <-]
  | reflexivity ].

#[export] Program Instance Document_mirror : Mirror Prisma.Document.t Document.t :=
  {| toDomain := toDomainDocument; entity_key := Documents.key |}.
Solve Obligations with mirror_tac.
#[export] Program Instance Revision_mirror : Mirror Prisma.DocumentRevision.t DocumentRevision.t :=
  {| toDomain := toDomainRevision; entity_key o i row :=
       String.eqb (DocumentRevision.organizationId row) o && String.eqb (DocumentRevision.id row) i |}.
Solve Obligations with mirror_tac.
#[export] Program Instance Upload_mirror : Mirror Prisma.UploadSession.t UploadSession.t :=
  {| toDomain := toDomainUploadSession; entity_key := UploadSessions.key |}.
Solve Obligations with mirror_tac.
#[export] Program Instance Preview_mirror : Mirror Prisma.PreviewGrant.t PreviewGrant.t :=
  {| toDomain := toDomainPreviewGrant; entity_key o i row :=
       String.eqb (PreviewGrant.organizationId row) o && String.eqb (PreviewGrant.id row) i |}.
Solve Obligations with mirror_tac.
#[export] Program Instance Signer_mirror : Mirror Prisma.Signer.t Signer.t :=
  {| toDomain := toDomainSigner; entity_key := Signers.key |}.
Solve Obligations with mirror_tac.
#[export] Program Instance Session_mirror : Mirror Prisma.SigningSession.t SigningSession.t :=
  {| toDomain := toDomainSigningSession; entity_key := SigningSessions.key |}.
Solve Obligations with mirror_tac.
#[export] Program Instance Field_mirror : Mirror Prisma.SignatureField.t SignatureField.t :=
  {| toDomain := toDomainSignatureField; entity_key := SignatureFields.key |}.
Solve Obligations with mirror_tac.
#[export] Program Instance Consent_mirror : Mirror Prisma.ConsentRecord.t ConsentRecord.t :=
  {| toDomain := toDomainConsent; entity_key o i row :=
       String.eqb (ConsentRecord.organizationId row) o && String.eqb (ConsentRecord.id row) i |}.
Solve Obligations with mirror_tac.
#[export] Program Instance Artifact_mirror : Mirror Prisma.FinalizedArtifact.t FinalizedArtifact.t :=
  {| toDomain := toDomainArtifact; entity_key o i row :=
       String.eqb (FinalizedArtifact.organizationId row) o && String.eqb (FinalizedArtifact.id row) i |}.
Solve Obligations with mirror_tac.
#[export] Program Instance Record_mirror : Mirror Prisma.IdempotencyRecord.t IdempotencyRecord.t :=
  {| toDomain := toDomainIdempotency; entity_key o i row :=
       String.eqb (IdempotencyRecord.organizationId row) o && String.eqb (IdempotencyRecord.id row) i |}.
Solve Obligations with mirror_tac.
#[export] Program Instance Audit_mirror : Mirror Prisma.AuditLog.t AuditEvent.t :=
  {| toDomain := toDomainAuditEvent; entity_key o i row :=
       String.eqb (AuditEvent.organizationId row) o && String.eqb (AuditEvent.id row) i |}.
Solve Obligations with mirror_tac.
#[export] Program Instance Outbox_mirror : Mirror Prisma.OutboxEvent.t OutboxEvent.t :=
  {| toDomain := toDomainOutboxEvent; entity_key o i row :=
       String.eqb (OutboxEvent.organizationId row) o && String.eqb (OutboxEvent.id row) i |}.
Solve Obligations with mirror_tac.
#[export] Program Instance Job_mirror : Mirror Prisma.BackgroundJob.t BackgroundJob.t :=
  {| toDomain := toDomainBackgroundJob; entity_key o i row :=
       String.eqb (BackgroundJob.organizationId row) o && String.eqb (BackgroundJob.id row) i |}.
Solve Obligations with mirror_tac.
End mirrors.

(** ** Rows of matching tables *)

Lemma unique_rows_lookup {Row} (clash : Row → Row → bool) l i j x y :
  unique_rows clash l = true → (i < j)%nat → l !! i = Some x → l !! j = Some y → clash x y = false.
Proof.
  revert i j. induction l as [|z l IH]; intros i j Hu Hij Hx Hy; [done|].
  simpl in Hu. apply andb_true_iff in Hu as [Hz Hu].
  destruct j as [|j]; [lia|]. destruct i as [|i]; simpl in *.
  - injection Hx as ->. rewrite forallb_forall in Hz. apply negb_true_iff, Hz.
    apply list_elem_of_In. by eapply list_elem_of_lookup_2.
  - eapply IH; [done| |done..]. lia.
Qed.

(** A predicate two rows of the table cannot both satisfy holds of one row at most. *)
Lemma unique_rows_only {Row} (clash : Row → Row → bool) (p : Row → bool) l i j x y :
  unique_rows clash l = true → (∀ x y, p x = true → p y = true → clash x y = true) →
  l !! i = Some x → l !! j = Some y → p x = true → p y = true → i = j.
Proof.
  intros Hu Hp Hx Hy Hpx Hpy. destruct (decide (i = j)) as [|Hne]; [done|].
  destruct (decide (i < j)%nat) as [Hlt|Hge].
  - pose proof (unique_rows_lookup _ _ _ _ _ _ Hu Hlt Hx Hy). by rewrite Hp in H.
  - assert (j < i)%nat as Hlt by lia.
    pose proof (unique_rows_lookup _ _ _ _ _ _ Hu Hlt Hy Hx). by rewrite Hp in H.
Qed.

Lemma unique_rows_snoc {Row} (clash : Row → Row → bool) l x :
  unique_rows clash (l ++ [x]) = true → Forall (λ y, clash y x = false) l.
Proof.
  induction l as [|y l IH]; simpl; [by constructor|]. rewrite andb_true_iff, forallb_app.
  intros [[_ Hx]%andb_true_iff Hl]. constructor; [|by apply IH]. simpl in Hx.
  rewrite andb_true_r in Hx. by apply negb_true_iff.
Qed.

(** What holds of one row of a list, which alone satisfies [p]. *)
Definition only_at {Row} (p : Row → bool) (l : list Row) (i : nat) (row : Row) : Prop :=
  l !! i = Some row ∧ p row = true ∧ ∀ j y, l !! j = Some y → p y = true → j = i.

Lemma only_at_cons {Row} (p : Row → bool) z l i row :
  only_at p (z :: l) (S i) row → p z = false ∧ only_at p l i row.
Proof.
  intros (Hl & Hp & Honly). split.
  - destruct (p z) eqn:Hz; [|done]. by specialize (Honly 0%nat z eq_refl Hz).
  - split_and!; [done..|]. intros j y Hy Hpy. specialize (Honly (S j) y Hy Hpy). lia.
Qed.

Lemma only_at_head {Row} (p : Row → bool) z l row :
  only_at p (z :: l) 0%nat row → z = row ∧ Forall (λ y, p y = false) l.
Proof.
  intros ([= ->] & Hp & Honly). split; [done|]. apply Forall_lookup. intros j y Hy.
  destruct (p y) eqn:Hpy; [|done]. by specialize (Honly (S j) y Hy Hpy).
Qed.

Lemma filter_none {Row} (p : Row → bool) l : Forall (λ y, p y = false) l → List.filter p l = [].
Proof. induction 1 as [|y l Hy _ IH]; simpl; [done|]. by rewrite Hy. Qed.

Lemma filter_all {Row} (p : Row → bool) l : (∀ y, y ∈ l → p y = true) → List.filter p l = l.
Proof.
  induction l as [|y l IH]; intros Hp; simpl; [done|]. rewrite Hp by left. f_equal.
  apply IH. intros z Hz. apply Hp. by right.
Qed.

Lemma updated_cons {Row} `{!Model Row} (p : Row → bool) data now x l :
  updated p data now (x :: l) = (if p x then touch now (data x) else x) :: updated p data now l.
Proof. reflexivity. Qed.

Lemma updated_ext {Row} `{!Model Row} (p p' : Row → bool) data now l :
  (∀ x, p x = p' x) → updated p data now l = updated p' data now l.
Proof. intros Hp. apply list_fmap_ext. intros _ x _. by rewrite Hp. Qed.

Lemma updated_none {Row} `{!Model Row} (p : Row → bool) data now l :
  Forall (λ y, p y = false) l → updated p data now l = l.
Proof. induction 1 as [|y l Hy _ IH]; [done|]. simpl. rewrite Hy. by f_equal. Qed.

Lemma only_at_filter {Row} (p g : Row → bool) l i row :
  only_at p l i row →
  length (List.filter (λ x, p x && g x) l) = if g row then 1%nat else 0%nat.
Proof.
  revert i. induction l as [|z l IH]; intros i Hat; [by destruct Hat|]. destruct i as [|i]; simpl.
  - pose proof Hat as (_ & Hp & _). apply only_at_head in Hat as [-> Hl]. rewrite Hp. simpl.
    assert (List.filter (λ x, p x && g x) l = []) as Hnone.
    { apply filter_none. eapply Forall_impl; [done|]. intros y Hy. simpl. by rewrite Hy. }
    by destruct (g row); simpl; rewrite Hnone.
  - apply only_at_cons in Hat as [Hz Hat]. rewrite Hz. simpl. by eapply IH.
Qed.

Lemma only_at_updated {Row} `{!Model Row} (p g : Row → bool) data now l i row :
  only_at p l i row →
  updated (λ x, p x && g x) data now l = if g row then <[i := touch now (data row)]> l else l.
Proof.
  revert i. induction l as [|z l IH]; intros i Hat; [by destruct Hat|]. destruct i as [|i].
  - pose proof Hat as (_ & Hp & _). apply only_at_head in Hat as [-> Hl].
    rewrite updated_cons, updated_none, Hp.
    + by destruct (g row).
    + eapply Forall_impl; [done|]. intros y Hy. simpl. by rewrite Hy.
  - apply only_at_cons in Hat as [Hz Hat].
    rewrite updated_cons, Hz, (IH _ Hat). by destruct (g row).
Qed.

(** A keyed row is found on both sides, or on neither. *)
Lemma keyed_rows {Row T} `{!Same T} (toDomain : Row → T) clash (p : Row → bool) (q : T → bool) l l' :
  rows_match toDomain l l' → unique_rows clash l = true →
  (∀ x y, p x = true → p y = true → clash x y = true) →
  (∀ row x, same (toDomain row) x → q x = p row) →
  (find_index q l' = None ∧ Forall (λ row, p row = false) l) ∨
  ∃ i row x, find_index q l' = Some (i, x) ∧ l' !! i = Some x ∧ same (toDomain row) x ∧
    only_at p l i row.
Proof.
  intros Hm Hu Hclash Hq. destruct (find_index q l') as [[i x]|] eqn:Hf.
  - right. apply find_index_Some in Hf as (Hx & Hqx & _).
    destruct (Forall2_lookup_r _ _ _ _ _ Hm Hx) as (row & Hrow & Hsame).
    rewrite (Hq _ _ Hsame) in Hqx. exists i, row, x. split_and!; [done..|].
    split_and!; [done..|]. intros j y Hy Hpy. eapply unique_rows_only; try done; done.
  - left. split; [done|]. apply Forall_lookup. intros j row Hrow.
    destruct (Forall2_lookup_l _ _ _ _ _ Hm Hrow) as (x & Hx & Hsame).
    rewrite <-(Hq _ _ Hsame). eapply find_index_None; [done|]. by eapply list_elem_of_lookup_2.
Qed.

(** The first row that satisfies a predicate. *)
Lemma rows_match_index {Row T} `{!Same T} (toDomain : Row → T) (p : Row → bool) (q : T → bool) l l' :
  rows_match toDomain l l' → (∀ row x, same (toDomain row) x → q x = p row) →
  (find_index p l = None ∧ find_index q l' = None) ∨
  ∃ i row x, find_index p l = Some (i, row) ∧ find_index q l' = Some (i, x) ∧
    same (toDomain row) x ∧ x ∈ l' ∧ q x = true.
Proof.
  intros Hm Hq. destruct (find_index p l) as [[i row]|] eqn:Hf.
  - right. apply find_index_Some in Hf as (Hrow & Hp & Hbefore).
    destruct (Forall2_lookup_l _ _ _ _ _ Hm Hrow) as (x & Hx & Hs).
    exists i, row, x. split_and!; [done| |done|by eapply list_elem_of_lookup_2|by rewrite (Hq _ _ Hs)].
    apply find_index_Some. split_and!; [done|by rewrite (Hq _ _ Hs)|]. intros j y Hy Hj.
    destruct (Forall2_lookup_r _ _ _ _ _ Hm Hy) as (row' & Hrow' & Hs').
    rewrite (Hq _ _ Hs'). by eapply Hbefore.
  - left. split; [done|]. apply find_index_None. intros x [i Hi]%list_elem_of_lookup.
    destruct (Forall2_lookup_r _ _ _ _ _ Hm Hi) as (row & Hrow & Hs).
    rewrite (Hq _ _ Hs). eapply find_index_None; [exact Hf|]. by eapply list_elem_of_lookup_2.
Qed.

Lemma rows_match_insert {Row T} `{!Same T} (toDomain : Row → T) l l' i row x :
  rows_match toDomain l l' → same (toDomain row) x → rows_match toDomain (<[i := row]> l) (<[i := x]> l').
Proof. intros Hm Hs. by apply Forall2_insert. Qed.

Lemma rows_match_filter {Row T} `{!Same T} (toDomain : Row → T) (p : Row → bool) (q : T → bool) l l' :
  rows_match toDomain l l' → (∀ row x, same (toDomain row) x → q x = p row) →
  rows_match toDomain (List.filter p l) (List.filter q l').
Proof.
  intros Hm Hq. induction Hm as [|row x l l' Hs _ IH]; simpl; [constructor|].
  rewrite (Hq _ _ Hs). destruct (p row); [by constructor|done].
Qed.

(** ** Refinement

    A method on the database that answers is answered alike in memory, and the
    tables still match; one that throws an error of the program throws in memory
    too.  An error of the database itself says nothing. *)

Section refinement.
Context {DB : Type} `{!PrismaClient DB} `{!PrismaLaws DB} `{!PrismaColumns}.

Definition refines {A B} (m : M Exn DB A) (m' : Run B) (agree : A → B → Prop) (db : DB) (s : St) :
    Prop :=
  match m db with
  | (Ok a, db') => ∃ b s', m' s = (Ok b, s') ∧ agree a b ∧ mirrors (tables db') s'
  | (Throw e, _) => isApplicationError e = true → ∃ e' s', m' s = (Throw e', s')
  end.

Lemma refines_ret {A B} (a : A) b (m' : Run B) (agree : A → B → Prop) db s s' :
  m' s = (Ok b, s') → agree a b → mirrors (tables db) s' → refines (mret a) m' agree db s.
Proof. intros Hm Ha Hmir. by exists b, s'. Qed.

Lemma refines_throw {A B} e e' (m' : Run B) (agree : A → B → Prop) db s s' :
  m' s = (Throw e', s') → refines (throw e) m' agree db s.
Proof. intros Hm _. by exists e', s'. Qed.

Lemma refines_lift {A A' B} (r : Result Exn A) a (f : A → M Exn DB A') (m' : Run B)
    (agree : A' → B → Prop) db s :
  r = Ok a → refines (f a) m' agree db s → refines (lift r ≫= f) m' agree db s.
Proof. by intros ->. Qed.

(** A check that passes in memory. *)
Lemma refines_memory_lift {A B B'} (m : M Exn DB A) (b : B') (k : B' → Run B) (agree : A → B → Prop)
    db s : refines m (k b) agree db s → refines m (lift (Ok b) ≫= k) agree db s.
Proof. done. Qed.

(** One call of the client. *)
Lemma refines_call {A A' B} (m : M Exn DB A) (f : A → M Exn DB A') (m' : Run B) Q
    (agree : A' → B → Prop) db s :
  answers tables m Q →
  (∀ a db', Q a (tables db) (tables db') → refines (f a) m' agree db' s) →
  refines (m ≫= f) m' agree db s.
Proof.
  intros Hm Hf. specialize (Hm db). unfold refines, mbind, M_bind in *.
  destruct (m db) as [[a|e] db']; [by apply Hf|]. destruct Hm as [He _]. by rewrite He.
Qed.

(** One method after another; in memory the first runs from [s1] and the whole
    from [s]. *)
Lemma refines_bind {A A' B B'} (m : M Exn DB A) (f : A → M Exn DB A') (m1 : Run B) (m' : Run B')
    (agree1 : A → B → Prop) (agree : A' → B' → Prop) db s1 s :
  refines m m1 agree1 db s1 →
  (∀ a b db' s', m1 s1 = (Ok b, s') → agree1 a b → mirrors (tables db') s' →
     refines (f a) m' agree db' s) →
  (∀ e s', m1 s1 = (Throw e, s') → ∃ e' s', m' s = (Throw e', s')) →
  refines (m ≫= f) m' agree db s.
Proof.
  intros Hm Hf Hthrow. unfold refines, mbind, M_bind in *.
  destruct (m db) as [[a|e] db'].
  - destruct Hm as (b & s' & Hm & Ha & Hmir). by eapply Hf.
  - intros He. destruct (Hm He) as (e' & s' & Hm'). by eapply Hthrow.
Qed.

(** What memory does after the method in memory. *)
Lemma refines_then {A B B'} (m : M Exn DB A) (m1 : Run B) (f : B → B') (agree1 : A → B → Prop)
    (agree : A → B' → Prop) db s :
  refines m m1 agree1 db s → (∀ a b, agree1 a b → agree a (f b)) →
  refines m (x ← m1; mret (f x)) agree db s.
Proof.
  intros Hm Hf. unfold refines, mbind, M_bind in *. destruct (m db) as [[a|e] db'].
  - destruct Hm as (b & s' & -> & Ha & Hmir). exists (f b), s'. split_and!; [done|by apply Hf|done].
  - intros He. destruct (Hm He) as (e' & s' & ->). by eexists _, _.
Qed.

(** A reading call leaves the tables. *)
Lemma refines_read {A A' B} (m : M Exn DB A) (f : A → M Exn DB A') (m' : Run B) Q
    (agree : A' → B → Prop) db s :
  answers tables m (reads Q) →
  (∀ a db', Q a (tables db) → tables db' = tables db → refines (f a) m' agree db' s) →
  refines (m ≫= f) m' agree db s.
Proof. intros Hm Hf. eapply refines_call; [done|]. intros a db' [HQ Htab]. by apply Hf. Qed.

(** Identifiers that pass the checks of the tenant scope. *)
Definition valid_id (i : string) : Prop := requireOpaqueId i EmptyString = Ok i.

Lemma valid_id_field i field : valid_id i → requireOpaqueId i field = Ok i.
Proof. unfold valid_id, requireOpaqueId. destruct (String.eqb _ _); [done|]. by destruct (negb _). Qed.

Lemma refines_ids {A B} o i field (f : string → string → M Exn DB A) (m' : Run B)
    (agree : A → B → Prop) db s :
  valid_id o → valid_id i → refines (f o i) m' agree db s →
  refines (tenant_ids o i field f) m' agree db s.
Proof.
  intros Ho Hi Hf. unfold tenant_ids. apply (refines_lift _ (o, i)); [|exact Hf].
  unfold tenantCompoundWhere, requireOrganizationId. by rewrite !valid_id_field.
Qed.

Lemma same_organization o : valid_id o → assertSameOrganization o o = Ok tt.
Proof.
  intros Ho. unfold assertSameOrganization, requireOrganizationId. rewrite valid_id_field by done.
  simpl. by rewrite String.eqb_refl.
Qed.

Lemma orders_unordered {Row} : orders (@unordered Row).
Proof. split; [by left|done]. Qed.

(** *** Look-ups *)

Definition agree_option {T} `{!Same T} (a b : option T) : Prop :=
  match a, b with Some x, Some y => same x y | None, None => True | _, _ => False end.

(** Two rows of several that match. *)
Definition agree_found {T} (a b : option T) : Prop := a = None ↔ b = None.

(** The same rows in some order. *)
Definition agree_list {T} `{!Same T} (a b : list T) : Prop := ∃ b', b' ≡ₚ b ∧ Forall2 same a b'.

Lemma found_row {Row T} `{!Model Row, !TenantRow Row, !Table T, !Same T, !Mirror Row T} (p : Row → bool) (q : T → bool) Tb s r :
  mirrors Tb s → unique_tables Tb = true →
  (∀ x y, p x = true → p y = true → clash x y = true) →
  (∀ row x, same (toDomain row) x → q x = p row) →
  finds p (table Tb) r →
  (r = None ∧ find_index q (rows s) = None) ∨
  ∃ i row x, r = Some row ∧ find_index q (rows s) = Some (i, x) ∧ rows s !! i = Some x ∧
    same (toDomain row) x ∧ only_at p (table Tb) i row.
Proof.
  intros Hm Hu Hclash Hq Hr.
  destruct (keyed_rows toDomain clash p q _ _ (mirror_get _ _ Hm) (mirror_unique _ Hu) Hclash Hq)
    as [[Hf Hnone] | (i & row & x & Hf & Hx & Hs & Hat)].
  - left. split; [|done]. destruct r as [row|]; [|done]. destruct Hr as [Hin Hp].
    rewrite Forall_forall in Hnone. by rewrite Hnone in Hp.
  - right. exists i, row, x. split_and!; [|done..]. pose proof Hat as (Hl & Hp & Honly).
    destruct r as [row'|]; simpl in Hr.
    + destruct Hr as [[j Hj]%list_elem_of_lookup Hp']. specialize (Honly _ _ Hj Hp') as ->.
      by rewrite Hl in Hj.
    + rewrite Forall_lookup in Hr. by rewrite (Hr _ _ Hl) in Hp.
Qed.

Lemma findFirst_finds {Row} `{!Model Row} (p : Row → bool) :
  answers tables (findFirst p unordered) (reads (λ r T, finds p (table T) r)).
Proof.
  intros db. pose proof (findFirst_law p unordered orders_unordered db) as Hm.
  destruct (findFirst p unordered db) as [[a|e] db']; [|done]. by destruct Hm as [[Hf _] Htab].
Qed.

(** A look-up that at most one row can satisfy. *)
Lemma refines_lookup {Row T} `{!Model Row, !TenantRow Row, !Table T, !Same T, !Mirror Row T}
    (read : M Exn DB (option Row)) (p : Row → bool) (q : T → bool) db s :
  answers tables read (reads (λ r T, finds p (table T) r)) →
  mirrors (tables db) s →
  (∀ x y, p x = true → p y = true → clash x y = true) →
  (∀ row x, same (toDomain row) x → q x = p row) →
  refines (row ← read; mret (toDomain <$> row)) (find_one q) agree_option db s.
Proof.
  intros Hread Hm Hclash Hq. eapply refines_read; [exact Hread|]. intros r db' Hr Htab. simpl in Hr.
  assert (find_one q s = (Ok (snd <$> find_index q (rows s)), s)) as Hfind by done.
  destruct (found_row p q _ _ _ Hm (tables_unique db) Hclash Hq Hr)
    as [[-> Hf] | (i & row & x & -> & Hf & _ & Hs & _)];
    rewrite Hf in Hfind; (eapply refines_ret; [exact Hfind|done|by rewrite Htab]).
Qed.

Lemma refines_findFirst {Row T} `{!Model Row, !TenantRow Row, !Table T, !Same T, !Mirror Row T} (p : Row → bool) (q : T → bool) db s :
  mirrors (tables db) s →
  (∀ row x, same (toDomain row) x → q x = p row) →
  refines (row ← findFirst p unordered; mret (toDomain <$> row)) (find_one q) agree_found db s.
Proof.
  intros Hm Hq. eapply refines_read; [apply findFirst_law, orders_unordered|].
  intros r db' [Hr _] Htab.
  eapply refines_ret; [reflexivity| |by rewrite Htab]. unfold agree_found. rewrite fmap_None.
  change (snd <$> find_index q (rows s)) with (find_row q (rows s)). rewrite find_row_None.
  pose proof (mirror_get _ _ Hm) as Hmatch. destruct r as [row|]; simpl in Hr.
  - split; [done|]. intros Hnone. destruct Hr as [[i Hi]%list_elem_of_lookup Hp].
    destruct (Forall2_lookup_l _ _ _ _ _ Hmatch Hi) as (x & Hx & Hs).
    rewrite <-(Hq _ _ Hs), Hnone in Hp; [done|]. by eapply list_elem_of_lookup_2.
  - split; [|done]. intros _ x [i Hi]%list_elem_of_lookup.
    destruct (Forall2_lookup_r _ _ _ _ _ Hmatch Hi) as (row & Hrow & Hs).
    rewrite (Hq _ _ Hs). by eapply Forall_lookup in Hr.
Qed.

Lemma refines_findMany {Row T} `{!Model Row, !TenantRow Row, !Table T, !Same T, !Mirror Row T} (p : Row → bool) le (q : T → bool) db s :
  mirrors (tables db) s → orders le →
  (∀ row x, same (toDomain row) x → q x = p row) →
  refines (found ← findMany p le None; mret (toDomain <$> found)) (find_many q) agree_list db s.
Proof.
  intros Hm Hle Hq. eapply refines_read; [by apply findMany_law|]. intros l db' (all & Hperm & _ & ->) Htab.
  eapply refines_ret; [reflexivity| |by rewrite Htab].
  pose proof (rows_match_filter _ p q _ _ (mirror_get _ _ Hm) Hq) as Hmatch.
  assert (Forall2 same (toDomain <$> List.filter p (table (tables db))) (List.filter q (rows s)))
    as Hf by (by apply Forall2_fmap_l).
  apply (fmap_Permutation toDomain) in Hperm.
  destruct (Permutation_Forall2 (symmetry Hperm) Hf) as (b & Hb & Hsame). by exists b.
Qed.

(** *** Writes *)

(** [updateMany] on the row of a key, guarded by [g], against [update_one]. *)
Lemma update_keyed {Row T} `{!Model Row, !TenantRow Row, !Table T, !Same T, !Mirror Row T}
    o i (g : Row → bool) (data : Row → Row) now n db db' s :
  mirrors (tables db) s →
  n = Z.of_nat (length (List.filter (λ row, at_key o i row && g row) (table (tables db)))) →
  tables db' = set_table (updated (λ row, at_key o i row && g row) data now (table (tables db)))
    (tables db) →
  (find_index (entity_key o i) (rows s) = None ∧ n = 0%Z ∧ tables db' = tables db ∧
     Forall (λ row, at_key o i row = false) (table (tables db))) ∨
  ∃ j row x, find_index (entity_key o i) (rows s) = Some (j, x) ∧ x ∈ rows s ∧
    same (toDomain row) x ∧ only_at (at_key o i) (table (tables db)) j row ∧
    (if g row
     then n = 1%Z ∧ tables db' = set_table (<[j := touch now (data row)]> (table (tables db))) (tables db)
     else n = 0%Z ∧ tables db' = tables db).
Proof.
  intros Hm Hn Htab.
  destruct (keyed_rows toDomain clash (at_key o i) (entity_key o i) _ _ (mirror_get _ _ Hm)
    (mirror_unique _ (tables_unique db)) (mirror_clash o i) (mirror_key o i))
    as [[Hf Hnone] | (j & row & x & Hf & Hx & Hs & Hat)].
  - left. split; [done|].
    assert (Forall (λ row, at_key o i row && g row = false) (table (tables db))) as Hnone'.
    { eapply Forall_impl; [done|]. intros row Hrow. simpl. by rewrite Hrow. }
    rewrite filter_none in Hn by done. rewrite updated_none, set_table_table in Htab by done. done.
  - right. exists j, row, x. split_and!; [done|by eapply list_elem_of_lookup_2|done..|].
    rewrite (only_at_filter _ _ _ _ _ Hat) in Hn. rewrite (only_at_updated _ _ _ _ _ _ _ Hat) in Htab.
    destruct (g row); [done|]. by rewrite set_table_table in Htab.
Qed.

(** One row has the key. *)
Lemma key_row {Row T} `{!Model Row, !TenantRow Row, !Table T, !Same T, !Mirror Row T} o i row row' db :
  row ∈ table (tables db) → row' ∈ table (tables db) → at_key o i row = true →
  at_key o i row' = true → row = row'.
Proof.
  intros [j Hj]%list_elem_of_lookup [j' Hj']%list_elem_of_lookup Hk Hk'.
  assert (j = j') as ->; [|by rewrite Hj in Hj'; injection Hj'].
  eapply (unique_rows_only clash (at_key o i)); [apply mirror_unique, (tables_unique db)|
    apply mirror_clash|done..].
Qed.

(** Reading the row of a key. *)
Definition reads_key {Row} `{!Model Row, !TenantRow Row} (read : M Exn DB (option Row)) (o i : string) :=
  answers tables read (reads (λ r T, finds (at_key o i) (table T) r)).

Lemma findUnique_key {Row} `{!Model Row, !TenantRow Row} o i : reads_key (findUnique (at_key o i)) o i.
Proof. apply findUnique_law. Qed.

Lemma findFirst_key {Row} `{!Model Row, !TenantRow Row} o i :
  reads_key (findFirst (at_key o i) unordered) o i.
Proof. apply findFirst_finds. Qed.

(** The row of a key, read back. *)
Lemma reload_row {Row T} `{!Model Row, !TenantRow Row, !Table T, !Same T, !Mirror Row T}
    resource read o i j row x (m' : Run T) db s s' :
  reads_key read o i →
  mirrors (tables db) s' → table (tables db) !! j = Some row → at_key o i row = true →
  same (toDomain row) x → m' s = (Ok x, s') →
  refines (reload toDomain resource read) m' same db s.
Proof.
  intros Hread Hm Hrow Hkey Hs Hm'. eapply refines_read; [exact Hread|].
  intros r db' Hr Htab. simpl in Hr. destruct r as [row'|]; simpl in Hr.
  - destruct Hr as [[j' Hj']%list_elem_of_lookup Hkey'].
    assert (j' = j) as ->.
    { eapply (unique_rows_only clash (at_key o i)); [apply mirror_unique, (tables_unique db)|
        apply mirror_clash|done..]. }
    rewrite Hrow in Hj'. injection Hj' as <-. eapply refines_ret; [done..|]. by rewrite Htab.
  - exfalso. rewrite Forall_lookup in Hr. by rewrite (Hr _ _ Hrow) in Hkey.
Qed.

Lemma reload_missing {Row T} `{!Model Row, !TenantRow Row, !Table T, !Same T, !Mirror Row T}
    resource read o i e (m' : Run T) db s s' :
  reads_key read o i →
  Forall (λ row, at_key o i row = false) (table (tables db)) → m' s = (Throw e, s') →
  refines (reload toDomain resource read) m' same db s.
Proof.
  intros Hread Hnone Hm'. eapply refines_read; [exact Hread|]. intros r db' Hr _. simpl in Hr.
  destruct r as [row|]; [|by eapply refines_throw]. destruct Hr as [Hin Hkey].
  rewrite Forall_forall in Hnone. by rewrite Hnone in Hkey.
Qed.

Lemma update_row_found {T} `{!Table T} (q : T → bool) missing f s i x :
  find_index q (rows s) = Some (i, x) →
  update_one q missing f s =
  match f x with
  | Throw e => (Throw e, s)
  | Ok (Keep y) => (Ok y, s)
  | Ok (Write y) => (Ok y, set_rows (<[i := y]> (rows s)) s)
  end.
Proof. intros Hf. unfold update_one. by rewrite Hf. Qed.

Lemma update_one_missing {T} `{!Table T} (q : T → bool) missing f s :
  find_index q (rows s) = None → update_one q missing f s = (Throw missing, s).
Proof. intros Hf. unfold update_one. by rewrite Hf. Qed.

(** A guarded update that is read back. *)
Lemma refines_update {Row T} `{!Model Row, !TenantRow Row, !Table T, !Same T, !Mirror Row T}
    resource read o i (where_ g : Row → bool) data conflict missing (f : T → Result Exn (Change T)) db s :
  reads_key read o i → mirrors (tables db) s →
  (∀ row, where_ row = at_key o i row && g row) →
  (∀ row, at_key o i (data row) = at_key o i row) →
  (∀ row x, same (toDomain row) x → x ∈ rows s → row ∈ table (tables db) → at_key o i row = true →
     if g row then ∃ y, f x = Ok (Write y) ∧ ∀ now, same (toDomain (touch now (data row))) y
     else ∃ e, f x = Throw e) →
  refines (update_read toDomain resource read where_ data conflict)
    (update_one (entity_key o i) missing f) same db s.
Proof.
  intros Hread Hm Hwhere Hdata Hf. unfold update_read.
  eapply refines_call; [apply updateMany_law|]. intros n db' (Hn & now & Htab).
  rewrite (List.filter_ext _ _ Hwhere) in Hn. rewrite (updated_ext _ _ data now _ Hwhere) in Htab.
  destruct (update_keyed o i g data now n db db' s Hm Hn Htab)
    as [(Hnone & -> & _) | (j & row & x & Hfind & Hx & Hs & Hat & Hg)].
  - simpl. eapply refines_throw. by apply update_one_missing.
  - pose proof Hat as (Hl & Hkey & _).
    specialize (Hf row x Hs Hx (list_elem_of_lookup_2 _ _ _ Hl) Hkey). pose proof (update_row_found _ missing f _ _ _ Hfind) as Hrun.
    destruct (g row).
    + destruct Hg as [-> Htab']. simpl. destruct Hf as (y & Hy & Hsame). rewrite Hy in Hrun.
      eapply reload_row; [exact Hread| | | | |exact Hrun].
      * rewrite Htab'. apply mirror_put; [done|]. apply rows_match_insert; [by apply mirror_get|].
        apply Hsame.
      * rewrite Htab', table_set, list_lookup_insert_eq; [done|]. by eapply lookup_lt_Some.
      * by rewrite touch_key, Hdata.
      * apply Hsame.
    + destruct Hg as [-> _]. simpl. destruct Hf as [e He]. rewrite He in Hrun.
      by eapply refines_throw.
Qed.

(** An update that answers the row as it is when it is [settled] already. *)
Lemma refines_settle {Row T} `{!Model Row, !TenantRow Row, !Table T, !Same T, !Mirror Row T}
    resource o i (settled where_ g : Row → bool) data conflict missing
    (f : T → Result Exn (Change T)) db s :
  mirrors (tables db) s →
  (∀ row, where_ row = at_key o i row && g row) →
  (∀ row, at_key o i (data row) = at_key o i row) →
  (∀ row x, same (toDomain row) x → settled row = true → f x = Ok (Keep x)) →
  (∀ row x, same (toDomain row) x → settled row = false →
     if g row then ∃ y, f x = Ok (Write y) ∧ ∀ now, same (toDomain (touch now (data row))) y
     else ∃ e, f x = Throw e) →
  refines (existing ← findUnique (at_key o i);
    match existing with
    | Some existing => if settled existing then mret (Some (toDomain existing)) else mret None
    | None => mret None
    end ≫= λ answer, match answer with
    | Some answer => mret answer
    | None => update_reload toDomain resource o i where_ data conflict
    end) (update_one (entity_key o i) missing f) same db s.
Proof.
  intros Hm Hwhere Hdata Hkeep Hf.
  eapply refines_read; [apply findUnique_law|]. intros r db' Hr Htab. simpl in Hr.
  rewrite <-Htab in Hm, Hr. clear db Htab. rename db' into db.
  assert ((∀ row, row ∈ table (tables db) → at_key o i row = true → settled row = false) →
    refines (update_reload toDomain resource o i where_ data conflict)
      (update_one (entity_key o i) missing f) same db s) as Hupdate.
  { intros Hopen. unfold update_reload. eapply refines_update; [apply findUnique_key|done..|].
    intros row x Hs _ Hin Hkey. apply Hf; [done|]. by apply Hopen. }
  destruct r as [existing|]; simpl in Hr.
  - destruct Hr as [Hin Hkey]. destruct (settled existing) eqn:Hset.
    + pose proof Hin as [j Hj]%list_elem_of_lookup.
      destruct (rows_match_index toDomain (at_key o i) (entity_key o i) _ _ (mirror_get _ _ Hm)
        (mirror_key o i)) as [[Hnone _] | (n & row & x & Hrow & Hx & Hs & _)].
      { rewrite find_index_None in Hnone. by rewrite (Hnone _ Hin) in Hkey. }
      apply find_index_Some in Hrow as (Hrow & Hk & _).
      assert (row = existing) as -> by
        (eapply key_row; [by eapply list_elem_of_lookup_2|done..]).
      eapply refines_ret; [|exact Hs|done]. rewrite (update_row_found _ _ _ _ _ _ Hx).
      by rewrite (Hkeep _ _ Hs Hset).
    + apply Hupdate. intros row Hrow Hk. by rewrite (key_row o i row existing db Hrow Hin Hk Hkey).
  - apply Hupdate. intros row Hrow Hk. rewrite Forall_forall in Hr. by rewrite (Hr _ Hrow) in Hk.
Qed.

(** A new row against [push], which a check for duplicates may precede. *)
Lemma refines_create_row {Row T} `{!Model Row, !TenantRow Row, !Table T, !Same T, !Mirror Row T}
    (make : Z → Row) x (m' : Run T) db s :
  mirrors (tables db) s → (∀ now, same (toDomain (make now)) x) →
  (∀ now, Forall (λ y, clash y (make now) = false) (table (tables db)) →
     m' s = (Ok x, set_rows (rows s ++ [x]) s)) →
  refines (create make) m' (λ row, same (toDomain row)) db s.
Proof.
  intros Hm Hs Hm'. pose proof (create_law make db) as Hlaw. unfold refines.
  destruct (create make db) as [[row|e] db'].
  - destruct Hlaw as [[now ->] Htab]. exists x, (set_rows (rows s ++ [x]) s). split_and!.
    + apply (Hm' now). pose proof (mirror_unique _ (tables_unique db')) as Hu.
      rewrite Htab, table_set in Hu. by apply unique_rows_snoc.
    + apply Hs.
    + rewrite Htab. apply mirror_put; [done|]. apply Forall2_app; [by apply mirror_get|].
      constructor; [apply Hs|constructor].
  - destruct Hlaw as [He _]. by rewrite He.
Qed.

Lemma refines_create {Row T} `{!Model Row, !TenantRow Row, !Table T, !Same T, !Mirror Row T}
    (make : Z → Row) x (m' : Run T) db s :
  mirrors (tables db) s → (∀ now, same (toDomain (make now)) x) →
  (∀ now, Forall (λ y, clash y (make now) = false) (table (tables db)) →
     m' s = (Ok x, set_rows (rows s ++ [x]) s)) →
  refines (row ← create make; mret (toDomain row)) m' same db s.
Proof.
  intros Hm Hs Hm'.
  eapply refines_bind; [by eapply refines_create_row| |by eauto].
  intros row y db' s' Hrun Hrow Hmir. by eapply refines_ret.
Qed.

(** The check for duplicates passes when the database has none. *)
Lemma no_duplicate {Row T} `{!Model Row, !TenantRow Row, !Table T, !Same T, !Mirror Row T}
    (q : T → bool) new db s :
  mirrors (tables db) s → Forall (λ y, clash y new = false) (table (tables db)) →
  (∀ row x, same (toDomain row) x → q x = true → clash row new = true) →
  find_one q s = (Ok None, s).
Proof.
  intros Hm Hnone Hq. unfold find_one, gets.
  assert (find_row q (rows s) = None) as ->; [|done]. apply find_row_None.
  intros x [i Hi]%list_elem_of_lookup.
  destruct (Forall2_lookup_r _ _ _ _ _ (mirror_get _ _ Hm) Hi) as (row & Hrow & Hs).
  destruct (q x) eqn:Hqx; [|done]. rewrite Forall_lookup in Hnone.
  specialize (Hnone _ _ Hrow). simpl in Hnone. by rewrite (Hq _ _ Hs Hqx) in Hnone.
Qed.

(** The tables after rows that match [q] have been deleted. *)
Lemma delete_rows {Row T} `{!Model Row, !TenantRow Row, !Table T, !Same T, !Mirror Row T}
    (p : Row → bool) (q : T → bool) db db' s :
  mirrors (tables db) s → (∀ row x, same (toDomain row) x → q x = p row) →
  tables db' = set_table (List.filter (λ x, negb (p x)) (table (tables db))) (tables db) →
  mirrors (tables db') (set_rows (List.filter (λ x, negb (q x)) (rows s)) s).
Proof.
  intros Hm Hq ->. apply mirror_put; [done|]. apply rows_match_filter; [by apply mirror_get|].
  intros row x Hs. by rewrite (Hq _ _ Hs).
Qed.
End refinement.
