(* ===== verification/PrismaDocumentRefinement.v ===== *)
(** The documents of the database refine those in memory. *)

From Stdlib Require Import String Sorted.
From S2P Require Export PrismaMirror.
Local Open Scope string_scope.

(** The enumerations of the client and of the domain correspond. *)
Lemma document_state_round_trip s : DOCUMENT_STATE_TO_DOMAIN (DOCUMENT_STATE_TO_PRISMA s) = s.
Proof. by destruct s. Qed.
Lemma signing_mode_round_trip m : SIGNING_MODE_TO_DOMAIN (SIGNING_MODE_TO_PRISMA m) = m.
Proof. by destruct m. Qed.
Lemma inspection_round_trip i :
  DOCUMENT_INSPECTION_STATUS_TO_DOMAIN (DOCUMENT_INSPECTION_STATUS_TO_PRISMA i) = i.
Proof. by destruct i. Qed.
Lemma revision_kind_round_trip k : REVISION_KIND_TO_DOMAIN (REVISION_KIND_TO_PRISMA k) = k.
Proof. by destruct k. Qed.
Create Rewrite HintDb enums.
#[export] Hint Rewrite document_state_round_trip signing_mode_round_trip inspection_round_trip
  revision_kind_round_trip : enums.

Lemma valid_org_create o : valid_id o →
  assertSameOrganization o o = Ok tt ∧ requireOrganizationId o = Ok o.
Proof. intros Ho. split; [by apply same_organization|by apply valid_id_field]. Qed.

Section documents.
Context {DB : Type} `{!PrismaClient DB} `{!PrismaLaws DB} `{!PrismaColumns}.

(** The calls of [DocumentRepository]. *)
Inductive DocumentCall : Type → Type :=
  | FindDocument (o d : string) : DocumentCall (option Document.t)
  | ListDocuments (o : string) : DocumentCall (list Document.t)
  | CreateDocument (x : Document.t) : DocumentCall Document.t
  | AttachSourceRevision (o d : string) (v : Z) (revisionId name : string) : DocumentCall Document.t
  | SetInspectionStatus (o d : string) (v : Z) (status : DocumentInspectionStatus.t) :
      DocumentCall Document.t
  | SetSigningMode (o d : string) (v : Z) (mode : SigningMode.t) : DocumentCall Document.t
  | SetPreparationState (o d : string) (v : Z) (state : DocumentState.t) : DocumentCall Document.t
  | MarkSent (o d : string) (v : Z) (revisionId : string) (expiresAt : option Z) :
      DocumentCall Document.t
  | MarkDeclined (o d : string) (v : Z) : DocumentCall Document.t
  | MarkVoided (o d : string) (v : Z) : DocumentCall Document.t
  | MarkInProgress (o d : string) (v : Z) : DocumentCall Document.t
  | MarkCompleted (o d : string) (v : Z) : DocumentCall Document.t
  | ClaimLease (o d : string) (v : Z) (owner : string) (leaseUntil now : Z) : DocumentCall Document.t
  | CommitFlattened (o d : string) (v : Z) (owner revisionId : string) (finalize : bool) :
      DocumentCall Document.t
  | MarkFinalizationFailed (o d owner : string) : DocumentCall Document.t
  | ReleaseLease (o d owner : string) : DocumentCall unit.

Definition document_prisma {A} (c : DocumentCall A) : M Exn DB A :=
  match c with
  | FindDocument o d => PrismaDocuments.findById o d
  | ListDocuments o => PrismaDocuments.listByOrganization o
  | CreateDocument x => PrismaDocuments.create (Document.organizationId x) x
  | AttachSourceRevision o d v r n => PrismaDocuments.attachSourceRevision o d v r n
  | SetInspectionStatus o d v i => PrismaDocuments.setInspectionStatus o d v i
  | SetSigningMode o d v m => PrismaDocuments.setSigningMode o d v m
  | SetPreparationState o d v st => PrismaDocuments.setPreparationState o d v st
  | MarkSent o d v r e => PrismaDocuments.markSent o d v r e
  | MarkDeclined o d v => PrismaDocuments.markDeclined o d v
  | MarkVoided o d v => PrismaDocuments.markVoided o d v
  | MarkInProgress o d v => PrismaDocuments.markInProgress o d v
  | MarkCompleted o d v => PrismaDocuments.markCompleted o d v
  | ClaimLease o d v w u n => PrismaDocuments.claimProcessingLease o d v w u n
  | CommitFlattened o d v w r f => PrismaDocuments.commitFlattenedRevision o d v w r f
  | MarkFinalizationFailed o d w => PrismaDocuments.markFinalizationFailed o d w
  | ReleaseLease o d w => PrismaDocuments.releaseProcessingLease o d w
  end.

Definition document_memory {A} (c : DocumentCall A) : Run A :=
  match c with
  | FindDocument o d => Documents.findById o d
  | ListDocuments o => Documents.listByOrganization o
  | CreateDocument x => Documents.create x
  | AttachSourceRevision o d v r n => Documents.attachSourceRevision o d v r n
  | SetInspectionStatus o d v i => Documents.setInspectionStatus o d v i
  | SetSigningMode o d v m => Documents.setSigningMode o d v m
  | SetPreparationState o d v st => Documents.setPreparationState o d v st
  | MarkSent o d v r e => Documents.markSent o d v r e
  | MarkDeclined o d v => Documents.markDeclined o d v
  | MarkVoided o d v => Documents.markVoided o d v
  | MarkInProgress o d v => Documents.markInProgress o d v
  | MarkCompleted o d v => Documents.markCompleted o d v
  | ClaimLease o d v w u n => Documents.claimProcessingLease o d v w u n
  | CommitFlattened o d v w r f => Documents.commitFlattenedRevision o d v w r f
  | MarkFinalizationFailed o d w => Documents.markFinalizationFailed o d w
  | ReleaseLease o d w => Documents.releaseProcessingLease o d w
  end.

(** Valid identifiers, and what the use cases have checked before the call: a
    document is finalized from [finalizing] or [completed], and its finalization
    fails only under the lease it was started with. *)
Definition document_pre {A} (c : DocumentCall A) (s : St) : Prop :=
  match c with
  | ListDocuments o => valid_id o
  | CreateDocument x => valid_id (Document.organizationId x)
  | FindDocument o d | AttachSourceRevision o d _ _ _ | SetInspectionStatus o d _ _
  | SetSigningMode o d _ _ | SetPreparationState o d _ _ | MarkSent o d _ _ _ | MarkDeclined o d _
  | MarkVoided o d _ | MarkInProgress o d _ | MarkCompleted o d _ | ClaimLease o d _ _ _ _
  | ReleaseLease o d _ => valid_id o ∧ valid_id d
  | CommitFlattened o d _ _ _ finalize => valid_id o ∧ valid_id d ∧
      (finalize = true → ∀ x, x ∈ s.(documents) → Documents.key o d x = true →
         Documents.state_in [DocumentState.finalizing; DocumentState.completed] x = true)
  | MarkFinalizationFailed o d owner => valid_id o ∧ valid_id d ∧
      ∀ x, x ∈ s.(documents) → Documents.key o d x = true →
        (Document.leaseOwner x = Some owner ↔ Document.state x = DocumentState.finalizing)
  end.

Definition document_agree {A} (c : DocumentCall A) : A → A → Prop :=
  match c with
  | FindDocument _ _ => agree_option
  | ListDocuments _ => agree_list
  | CreateDocument _ | AttachSourceRevision _ _ _ _ _ | SetInspectionStatus _ _ _ _
  | SetSigningMode _ _ _ _ | SetPreparationState _ _ _ _ | MarkSent _ _ _ _ _ | MarkDeclined _ _ _
  | MarkVoided _ _ _ | MarkInProgress _ _ _ | MarkCompleted _ _ _ | ClaimLease _ _ _ _ _ _
  | CommitFlattened _ _ _ _ _ _ | MarkFinalizationFailed _ _ _ => same
  | ReleaseLease _ _ _ => eq
  end.

Lemma document_key o d row x :
  same (toDomainDocument row) x → Documents.key o d x = at_key o d row.
Proof. by intros [t ->]. Qed.

(** A versioned update. *)
Lemma refines_bump o d v where_ extra data conflict u db s :
  mirrors (tables db) s → valid_id o → valid_id d →
  (∀ row, where_ o d row = PrismaDocuments.at_version o d v row && extra row) →
  (∀ row, at_key o d (data row) = at_key o d row) →
  (∀ row x, same (toDomainDocument row) x → x ∈ s.(documents) → Documents.key o d x = true →
     if extra row
     then ∃ y, u x = Ok y ∧
       ∀ now, same (toDomainDocument (touch now (PrismaDocuments.next_version (data row))))
                   (Documents.bump x y)
     else ∃ e, u x = Throw e) →
  refines (PrismaDocuments.bump o d where_ data conflict) (Documents.bumpDocument o d v u) same db s.
Proof.
  intros Hm Ho Hd Hwhere Hdata Hu. apply refines_ids; [done..|].
  unfold update_reload, Documents.bumpDocument.
  pose proof (refines_update (Row := Prisma.Document.t) (T := Document.t)) as Hupdate.
  apply Hupdate with (o := o) (i := d) (g := λ row, (Prisma.Document.version row =? v)%Z && extra row);
    [apply findUnique_key|done| |done|].
  - intros row. rewrite Hwhere. unfold PrismaDocuments.at_version. by rewrite andb_assoc.
  - intros row x Hs Hx _ Hkey. specialize (Hu row x Hs Hx).
    rewrite <-(mirror_key o d row x Hs) in Hkey. specialize (Hu Hkey).
    assert (Document.version x = Prisma.Document.version row) as Hv by (by destruct Hs as [t ->]).
    unfold Documents.at_version. rewrite Hv.
    destruct (Prisma.Document.version row =? v)%Z; simpl; [|by eexists].
    destruct (extra row).
    + destruct Hu as (y & -> & Hy). eexists. by split.
    + destruct Hu as [e ->]. by eexists.
Qed.

Lemma document_refines_plain {A} (c : DocumentCall A) db s :
  mirrors (tables db) s → document_pre c s →
  match c with
  | AttachSourceRevision _ _ _ _ _ | SetInspectionStatus _ _ _ _ | SetSigningMode _ _ _ _
  | SetPreparationState _ _ _ _ | MarkSent _ _ _ _ _ =>
    refines (document_prisma c) (document_memory c) (document_agree c) db s
  | _ => True
  end.
Proof.
  intros Hm Hpre. destruct c; try exact I; destruct Hpre as [Ho Hd];
    (apply (refines_bump _ _ _ _ (λ _, true)); [done..|by intros row; rewrite andb_true_r|done|]);
    intros row x [t0 ->] _ _; (eexists; split; [reflexivity|]); intros now; exists t0;
    unfold toDomainDocument; simpl; by autorewrite with enums.
Qed.

(** Updates that depend on the state. *)
Lemma document_refines_guarded {A} (c : DocumentCall A) db s :
  mirrors (tables db) s → document_pre c s →
  match c with
  | MarkDeclined _ _ _ | MarkVoided _ _ _ | MarkInProgress _ _ _ | MarkCompleted _ _ _ =>
    refines (document_prisma c) (document_memory c) (document_agree c) db s
  | _ => True
  end.
Proof.
  intros Hm Hpre. destruct c; try exact I; destruct Hpre as [Ho Hd];
    (eapply refines_bump; [done..|reflexivity|done|]);
    intros row x [t0 ->] _ _; unfold PrismaDocuments.state_in, Documents.state_in;
    change (Document.state (Document.set_updatedAt t0 (toDomainDocument row)))
      with (DOCUMENT_STATE_TO_DOMAIN (Prisma.Document.state row));
    destruct (Prisma.Document.state row); simpl;
    first [by eexists | eexists; split; [reflexivity|]; intros now; by exists t0].
Qed.

Lemma refines_commit o d v owner revisionId finalize db s :
  mirrors (tables db) s → document_pre (CommitFlattened o d v owner revisionId finalize) s →
  refines (PrismaDocuments.commitFlattenedRevision o d v owner revisionId finalize)
    (Documents.commitFlattenedRevision o d v owner revisionId finalize) same db s.
Proof.
  intros Hm (Ho & Hd & Hfin). eapply refines_bump; [done..|reflexivity| |].
  { intros row. by destruct finalize. }
  intros row x [t ->] Hx Hkey. unfold PrismaDocuments.owned_by.
  change (Document.leaseOwner (Document.set_updatedAt t (toDomainDocument row)))
    with (Prisma.Document.leaseOwner row).
  destruct (bool_decide (Prisma.Document.leaseOwner row = Some owner)); simpl; [|by eexists].
  destruct finalize.
  - rewrite (Hfin eq_refl _ Hx Hkey). simpl. eexists. split; [reflexivity|]. intros now. by exists t.
  - eexists. split; [reflexivity|]. intros now. by exists t.
Qed.

(** The lease is free for the database when no other owner holds it in memory. *)
Lemma lease_free_same owner now t row :
  Documents.leased_by_other owner now (Document.set_updatedAt t (toDomainDocument row)) =
  negb (PrismaDocuments.lease_free owner now row).
Proof.
  unfold Documents.leased_by_other, PrismaDocuments.lease_free. simpl.
  destruct (Prisma.Document.leaseUntil row) as [until|]; [|done].
  rewrite negb_orb, Z.ltb_antisym. by rewrite negb_involutive.
Qed.

(** A claim the look-up refuses is refused in memory. *)
Lemma claim_refused o d v owner leaseUntil now db s :
  mirrors (tables db) s →
  Forall (λ row, PrismaDocuments.at_version o d v row &&
    PrismaDocuments.state_in [Prisma.DocumentState.sent; Prisma.DocumentState.inProgress;
      Prisma.DocumentState.completed; Prisma.DocumentState.finalizationFailed;
      Prisma.DocumentState.finalizing] row && PrismaDocuments.lease_free owner now row = false)
    (Tables.documents (tables db)) →
  ∃ e, Documents.claimProcessingLease o d v owner leaseUntil now s = (Throw e, s).
Proof.
  intros Hm Hnone. unfold Documents.claimProcessingLease, Documents.bumpDocument, update_one.
  destruct (find_index (Documents.key o d) (rows s)) as [[i x]|] eqn:Hf; [|by eexists].
  apply find_index_Some in Hf as (Hx & Hkey & _).
  destruct (Forall2_lookup_r _ _ _ _ _ (mirrors_documents _ _ Hm) Hx) as (row & Hrow & Hs).
  rewrite Forall_lookup in Hnone. specialize (Hnone _ _ Hrow). simpl in Hnone.
  rewrite (document_key o d row x Hs) in Hkey. destruct Hs as [t ->].
  unfold PrismaDocuments.at_version in Hnone. rewrite Hkey in Hnone.
  unfold Documents.at_version.
  change (Document.version (Document.set_updatedAt t (toDomainDocument row)))
    with (Prisma.Document.version row).
  destruct (Prisma.Document.version row =? v)%Z; simpl; [|by eexists].
  rewrite lease_free_same. destruct (PrismaDocuments.lease_free owner now row); simpl; [|by eexists].
  rewrite andb_true_r in Hnone. unfold PrismaDocuments.state_in in Hnone.
  unfold Documents.state_in. simpl. destruct (Prisma.Document.state row); try done; by eexists.
Qed.

Lemma refines_claim o d v owner leaseUntil now db s :
  mirrors (tables db) s → valid_id o → valid_id d →
  refines (PrismaDocuments.claimProcessingLease o d v owner leaseUntil now)
    (Documents.claimProcessingLease o d v owner leaseUntil now) same db s.
Proof.
  intros Hm Ho Hd. apply refines_ids; [done..|].
  eapply refines_read; [apply findFirst_law, orders_unordered|]. intros current db' [Hr _] Htab.
  rewrite <-Htab in Hm, Hr. clear db Htab. rename db' into db.
  pose proof (refines_update (Row := Prisma.Document.t) (T := Document.t)) as Hupdate.
  destruct current as [current|]; simpl in Hr.
  - destruct Hr as [Hin Hp]. rewrite !andb_true_iff in Hp. destruct Hp as [[Hat Hstate] Hfree].
    unfold PrismaDocuments.at_version in Hat. apply andb_true_iff in Hat as [Hkey Hv].
    apply Hupdate with (o := o) (i := d) (g := λ row, (Prisma.Document.version row =? v)%Z &&
      PrismaDocuments.lease_free owner now row); [apply findUnique_key|done| |done|].
    + intros row. unfold PrismaDocuments.at_version. by rewrite andb_assoc.
    + intros row x [t ->] _ Hrow Hkey'.
      assert (row = current) as ->.
      { apply list_elem_of_lookup in Hrow as [i Hi], Hin as [j Hj].
        simpl in Hi, Hj. assert (i = j) as ->; [|by rewrite Hi in Hj; injection Hj].
        pose proof (mirror_clash (Row := Prisma.Document.t) (T := Document.t) o d) as Hclash.
        pose proof (mirror_unique (Row := Prisma.Document.t) (T := Document.t) _ (tables_unique db)) as Hu.
        exact (unique_rows_only clash (at_key o d) _ i j row current Hu Hclash Hi Hj Hkey' Hkey). }
      rewrite Hv, Hfree. simpl. unfold Documents.at_version.
      change (Document.version (Document.set_updatedAt t (toDomainDocument current)))
        with (Prisma.Document.version current). rewrite Hv. simpl.
      rewrite (lease_free_same owner now t current), Hfree. simpl.
      unfold Documents.state_in. simpl. unfold PrismaDocuments.state_in in Hstate.
      destruct (Prisma.Document.state current) eqn:Hst; try done; simpl;
        (eexists; split; [reflexivity|]); intros; exists t;
        unfold PrismaDocuments.lease_data; rewrite Hst; reflexivity.
  - destruct (claim_refused o d v owner leaseUntil now db s Hm Hr) as [e He].
    by eapply refines_throw.
Qed.

Definition update_document := update_keyed (Row := Prisma.Document.t) (T := Document.t).
Definition reload_document := reload_row (Row := Prisma.Document.t) (T := Document.t).
Lemma put_document T s l l' :
  mirrors T s → rows_match toDomainDocument l l' →
  mirrors (Tables.set_documents l T) (set_documents l' s).
Proof. exact (mirror_put (Row := Prisma.Document.t) (T := Document.t) T s l l'). Qed.
Definition document_missing := reload_missing (Row := Prisma.Document.t) (T := Document.t).

Lemma refines_finalization_failed o d owner db s :
  mirrors (tables db) s → document_pre (MarkFinalizationFailed o d owner) s →
  refines (PrismaDocuments.markFinalizationFailed o d owner)
    (Documents.markFinalizationFailed o d owner) same db s.
Proof.
  intros Hm (Ho & Hd & Hiff). apply refines_ids; [done..|].
  eapply refines_call; [apply updateMany_law|]. intros n db' (Hn & now & Htab).
  set (g := λ row, PrismaDocuments.owned_by owner row &&
    PrismaDocuments.state_in [Prisma.DocumentState.finalizing] row).
  assert (∀ row, at_key o d row && PrismaDocuments.owned_by owner row &&
    PrismaDocuments.state_in [Prisma.DocumentState.finalizing] row = at_key o d row && g row) as Hg
    by (intros row; unfold g; by rewrite andb_assoc).
  rewrite (List.filter_ext _ _ Hg) in Hn. rewrite (updated_ext _ _ _ now _ Hg) in Htab.
  destruct (update_document o d g _ now n db db' s Hm Hn Htab)
    as [(Hf & _ & Htab' & Hnone) | (j & row & x & Hf & Hx & Hs & (Hl & Hk & _) & Hw)].
  { eapply document_missing; [apply findUnique_key| |by apply update_one_missing]. by rewrite Htab'. }
  pose proof Hs as [t ->]. specialize (Hiff _ Hx). rewrite (document_key o d row _ Hs) in Hiff.
  specialize (Hiff Hk). simpl in Hiff.
  assert (PrismaDocuments.owned_by owner row = PrismaDocuments.state_in [Prisma.DocumentState.finalizing] row)
    as Hsame.
  { unfold PrismaDocuments.owned_by, PrismaDocuments.state_in. apply bool_decide_ext.
    rewrite Hiff, list_elem_of_singleton. by destruct (Prisma.Document.state row). }
  assert (g row = PrismaDocuments.owned_by owner row) as Hgr
    by (unfold g; rewrite <-Hsame; apply andb_diag).
  rewrite Hgr in Hw. unfold PrismaDocuments.owned_by in Hw, Hsame.
  assert (Document.state (Document.set_updatedAt t (toDomain row)) = DocumentState.finalizing ↔
    Prisma.Document.leaseOwner row = Some owner) as Hst by (by rewrite Hiff).
  destruct (bool_decide_reflect (Prisma.Document.leaseOwner row = Some owner)) as [Hown|Hown].
  - destruct Hw as [_ Htab'].
    assert (Documents.markFinalizationFailed o d owner s =
      (let y := Documents.bump (Document.set_updatedAt t (toDomain row))
         (Document.set_state DocumentState.finalization_failed
            (Documents.without_lease (Document.set_updatedAt t (toDomain row)))) in
       (Ok y, set_rows (<[j := y]> (rows s)) s))) as Hrun.
    { unfold Documents.markFinalizationFailed. rewrite (update_row_found _ _ _ _ _ _ Hf).
      rewrite (bool_decide_true (Document.state _ = _)) by (by apply Hst). by rewrite andb_false_r. }
    eapply reload_document; [apply findUnique_key| | | | |exact Hrun].
    + rewrite Htab'. apply (put_document _ _ _ _ Hm).
      apply rows_match_insert; [apply (mirrors_documents _ _ Hm)|]. by exists t.
    + rewrite Htab'. apply list_lookup_insert_eq. by eapply lookup_lt_Some.
    + done.
    + by exists t.
  - destruct Hw as [_ Htab']. rewrite <-Htab' in Hm, Hl.
    eapply reload_document; [apply findUnique_key|exact Hm|exact Hl|done|exact Hs|].
    unfold Documents.markFinalizationFailed. rewrite (update_row_found _ _ _ _ _ _ Hf).
    rewrite (bool_decide_false (Document.state _ = _)) by (by rewrite Hst).
    rewrite (bool_decide_false (Document.leaseOwner _ = _)) by done. done.
Qed.

Lemma refines_release o d owner db s :
  mirrors (tables db) s → valid_id o → valid_id d →
  refines (PrismaDocuments.releaseProcessingLease o d owner)
    (Documents.releaseProcessingLease o d owner) eq db s.
Proof.
  intros Hm Ho Hd. apply refines_ids; [done..|].
  eapply refines_call; [apply updateMany_law|]. intros n db' (Hn & now & Htab).
  destruct (update_document o d (PrismaDocuments.owned_by owner) _ now n db db' s Hm Hn Htab)
    as [(Hf & _ & Htab' & Hnone) | (j & row & x & Hf & Hx & [t ->] & (Hl & _ & _) & Hw)];
    unfold Documents.releaseProcessingLease, refines.
  - simpl in Hf |- *. exists tt, s. rewrite Hf. by rewrite Htab'.
  - unfold PrismaDocuments.owned_by in Hw. simpl in Hf |- *. rewrite Hf.
    change (Document.leaseOwner (Document.set_updatedAt t (toDomainDocument row)))
      with (Prisma.Document.leaseOwner row).
    destruct (bool_decide (Prisma.Document.leaseOwner row = Some owner)); simpl.
    + destruct Hw as [_ ->]. eexists tt, _. split_and!; [done..|].
      apply (put_document _ _ _ _ Hm).
      apply rows_match_insert; [apply (mirrors_documents _ _ Hm)|]. by exists t.
    + destruct Hw as [_ ->]. by exists tt, s.
Qed.

Lemma document_refines {A} (c : DocumentCall A) db s :
  mirrors (tables db) s → document_pre c s →
  refines (document_prisma c) (document_memory c) (document_agree c) db s.
Proof.
  intros Hm Hpre. pose proof (document_refines_plain c db s Hm Hpre) as Hplain.
  pose proof (document_refines_guarded c db s Hm Hpre) as Hguarded.
  destruct c; try exact Hplain; try exact Hguarded; clear Hplain Hguarded.
  - destruct Hpre as [Ho Hd]. apply refines_ids; [done..|].
    pose proof (refines_lookup (Row := Prisma.Document.t) (T := Document.t)) as Hfind.
    apply Hfind with (p := at_key o d); [apply findUnique_law|done|apply (mirror_clash (T := Document.t))|apply document_key].
  - eapply refines_lift; [by apply valid_id_field|].
    pose proof (refines_findMany (Row := Prisma.Document.t) (T := Document.t)) as Hfind.
    apply Hfind; [done| |by intros row x [t ->]]. split; intros; rewrite ?Z.leb_le in *; lia.
  - destruct (valid_org_create _ Hpre) as [Hsame Horg].
    eapply refines_lift; [exact Hsame|]. eapply refines_lift; [exact Horg|].
    pose proof (refines_create (Row := Prisma.Document.t) (T := Document.t)) as Hcreate.
    apply Hcreate with (x := x); [done| |done]. intros _. exists (Document.updatedAt x).
    unfold PrismaDocuments.to_row. destruct x. cbn. unfold toDomainDocument. cbn. by autorewrite with enums.
  - destruct Hpre. by apply refines_claim.
  - by apply refines_commit.
  - by apply refines_finalization_failed.
  - destruct Hpre. by apply refines_release.
Qed.
End documents.
