(* ===== verification/PrismaUploadRefinement.v ===== *)
(** Revisions, uploads, preview grants, consents, artifacts and idempotency
    records of the database refine those in memory. *)

From Stdlib Require Import String Sorted.
From S2P Require Export PrismaDocumentRefinement.
Local Open Scope string_scope.

Lemma upload_status_round_trip s :
  UPLOAD_SESSION_STATUS_TO_DOMAIN (UPLOAD_SESSION_STATUS_TO_PRISMA s) = s.
Proof. by destruct s. Qed.
Lemma principal_round_trip p :
  IDEMPOTENCY_PRINCIPAL_TO_DOMAIN (IDEMPOTENCY_PRINCIPAL_TO_PRISMA p) = p.
Proof. by destruct p. Qed.
#[export] Hint Rewrite upload_status_round_trip principal_round_trip : enums.

Ltac bools := repeat match goal with
  | H : _ && _ = true |- _ => apply andb_true_iff in H as [? ?]
  | H : String.eqb _ _ = true |- _ => apply String.eqb_eq in H
  end.
(** Two rows that satisfy a look-up by unique columns clash. *)
Ltac clashing := intros x y Hx Hy; unfold at_key, in_org in *; simpl in *; bools;
  repeat match goal with H : _ = _ |- _ => rewrite H end;
  rewrite ?String.eqb_refl, ?orb_true_r; done.
Ltac same_key := intros ? ?; first [intros [? ->] | intros (? & ? & -> & _) | intros <-]; reflexivity.

(** A duplicate in memory is a clash in the database. *)
Ltac duplicates := intros row ? Hs Hq; first [destruct Hs as (? & ? & -> & _) | destruct Hs]; unfold clash; simpl in *;
  unfold ConsentRecords.of_session, FinalizedArtifacts.of_document, IdempotencyRecords.key in *;
  simpl in *; bools; subst; simpl in *;
  repeat match goal with H : _ = _ |- _ => rewrite H end;
  rewrite ?String.eqb_refl, ?orb_true_r; done.

Section uploads.
Context {DB : Type} `{!PrismaClient DB} `{!PrismaLaws DB} `{!PrismaColumns} `{!ColumnLaws}.

(** The calls of these repositories and of the look-ups by token. *)
Inductive UploadCall : Type → Type :=
  | FindRevision (o i : string) : UploadCall (option DocumentRevision.t)
  | ListRevisions (o d : string) : UploadCall (list DocumentRevision.t)
  | CreateRevision (x : DocumentRevision.t) : UploadCall DocumentRevision.t
  | FindRevisionByKey (o key : string) : UploadCall (option DocumentRevision.t)
  | CreateUpload (x : UploadSession.t) : UploadCall UploadSession.t
  | FindUpload (o i : string) : UploadCall (option UploadSession.t)
  | CompleteUpload (o i revisionId : string) (at_ : Z) : UploadCall UploadSession.t
  | AbandonUpload (o i : string) (at_ : Z) : UploadCall UploadSession.t
  | FindUploadByToken (hash : string) : UploadCall (option UploadSession.t)
  | CreatePreview (x : PreviewGrant.t) : UploadCall PreviewGrant.t
  | FindPreview (o i : string) : UploadCall (option PreviewGrant.t)
  | FindPreviewByToken (hash : string) : UploadCall (option PreviewGrant.t)
  | FindConsent (o i : string) : UploadCall (option ConsentRecord.t)
  | FindSessionConsent (o i : string) : UploadCall (option ConsentRecord.t)
  | ListConsents (o d : string) : UploadCall (list ConsentRecord.t)
  | CreateConsent (x : ConsentRecord.t) : UploadCall ConsentRecord.t
  | FindArtifact (o d : string) : UploadCall (option FinalizedArtifact.t)
  | CreateArtifact (x : FinalizedArtifact.t) : UploadCall FinalizedArtifact.t
  | FindArtifactByKey (o key : string) : UploadCall (option FinalizedArtifact.t)
  | FindRecord (o principal route key : string) : UploadCall (option IdempotencyRecord.t)
  | CreateRecord (x : IdempotencyRecord.t) : UploadCall IdempotencyRecord.t
  | CompleteRecord (o i : string) (status : Z) (body : object) : UploadCall IdempotencyRecord.t.

Definition upload_prisma {A} (c : UploadCall A) : M Exn DB A :=
  match c with
  | FindRevision o i => PrismaRevisions.findById o i
  | ListRevisions o d => PrismaRevisions.listByDocument o d
  | CreateRevision x => PrismaRevisions.create (DocumentRevision.organizationId x) x
  | FindRevisionByKey o k => PrismaRevisions.findFirstByObjectKey o k
  | CreateUpload x => PrismaUploadSessions.create (UploadSession.organizationId x) x
  | FindUpload o i => PrismaUploadSessions.findById o i
  | CompleteUpload o i r t => PrismaUploadSessions.complete o i r t
  | AbandonUpload o i t => PrismaUploadSessions.markAbandoned o i t
  | FindUploadByToken h => PrismaUploadSessions.findByTokenHash h
  | CreatePreview x => PrismaPreviewGrants.create (PreviewGrant.organizationId x) x
  | FindPreview o i => PrismaPreviewGrants.findById o i
  | FindPreviewByToken h => PrismaPreviewGrants.findByTokenHash h
  | FindConsent o i => PrismaConsentRecords.findById o i
  | FindSessionConsent o i => PrismaConsentRecords.findBySession o i
  | ListConsents o d => PrismaConsentRecords.listByDocument o d
  | CreateConsent x => PrismaConsentRecords.create (ConsentRecord.organizationId x) x
  | FindArtifact o d => PrismaFinalizedArtifacts.findByDocument o d
  | CreateArtifact x => PrismaFinalizedArtifacts.create (FinalizedArtifact.organizationId x) x
  | FindArtifactByKey o k => PrismaFinalizedArtifacts.findFirstByObjectKey o k
  | FindRecord o p r k => PrismaIdempotencyRecords.find o p r k
  | CreateRecord x => PrismaIdempotencyRecords.create (IdempotencyRecord.organizationId x) x
  | CompleteRecord o i st b => PrismaIdempotencyRecords.complete o i st b
  end.

Definition upload_memory {A} (c : UploadCall A) : Run A :=
  match c with
  | FindRevision o i => Revisions.findById o i
  | ListRevisions o d => Revisions.listByDocument o d
  | CreateRevision x => Revisions.create x
  | FindRevisionByKey o k => Revisions.findFirstByObjectKey o k
  | CreateUpload x => UploadSessions.create x
  | FindUpload o i => UploadSessions.findById o i
  | CompleteUpload o i r t => UploadSessions.complete o i r t
  | AbandonUpload o i t => UploadSessions.markAbandoned o i t
  | FindUploadByToken h => UploadSessions.findByTokenHash h
  | CreatePreview x => PreviewGrants.create x
  | FindPreview o i => PreviewGrants.findById o i
  | FindPreviewByToken h => PreviewGrants.findByTokenHash h
  | FindConsent o i => ConsentRecords.findById o i
  | FindSessionConsent o i => ConsentRecords.findBySession o i
  | ListConsents o d => ConsentRecords.listByDocument o d
  | CreateConsent x => ConsentRecords.create (ConsentRecord.organizationId x) x
  | FindArtifact o d => FinalizedArtifacts.findByDocument o d
  | CreateArtifact x => FinalizedArtifacts.create (FinalizedArtifact.organizationId x) x
  | FindArtifactByKey o k => FinalizedArtifacts.findFirstByObjectKey o k
  | FindRecord o p r k => IdempotencyRecords.find o p r k
  | CreateRecord x => IdempotencyRecords.create (IdempotencyRecord.organizationId x) x
  | CompleteRecord o i st b => IdempotencyRecords.complete o i st b
  end.

(** Valid identifiers; and an upload is completed or abandoned while it is issued,
    which the database checks and memory does not. *)
Definition upload_pre {A} (c : UploadCall A) (s : St) : Prop :=
  let issued o i := ∀ x, x ∈ s.(uploadSessions) → UploadSessions.key o i x = true →
    UploadSession.status x = UploadSessionStatus.issued in
  match c with
  | CreateRevision x => valid_id (DocumentRevision.organizationId x)
  | CreateUpload x => valid_id (UploadSession.organizationId x)
  | CreatePreview x => valid_id (PreviewGrant.organizationId x)
  | CreateConsent x => valid_id (ConsentRecord.organizationId x)
  | CreateArtifact x => valid_id (FinalizedArtifact.organizationId x)
  | CreateRecord x => valid_id (IdempotencyRecord.organizationId x)
  | FindRevisionByKey o _ | FindArtifactByKey o _ => valid_id o
  | FindUploadByToken _ | FindPreviewByToken _ => True
  | CompleteUpload o i _ _ | AbandonUpload o i _ => valid_id o ∧ valid_id i ∧ issued o i
  | FindRevision o i | ListRevisions o i | FindUpload o i | FindPreview o i | FindConsent o i
  | FindSessionConsent o i | ListConsents o i | FindArtifact o i | FindRecord o i _ _
  | CompleteRecord o i _ _ => valid_id o ∧ valid_id i
  end.

Definition upload_agree {A} (c : UploadCall A) : A → A → Prop :=
  match c with
  | FindRevision _ _ => agree_option
  | ListRevisions _ _ => agree_list
  | CreateRevision _ => same
  | FindRevisionByKey _ _ => agree_found
  | CreateUpload _ => same
  | FindUpload _ _ => agree_option
  | CompleteUpload _ _ _ _ | AbandonUpload _ _ _ => same
  | FindUploadByToken _ => agree_option
  | CreatePreview _ => same
  | FindPreview _ _ | FindPreviewByToken _ => agree_option
  | FindConsent _ _ | FindSessionConsent _ _ => agree_option
  | ListConsents _ _ => agree_list
  | CreateConsent _ => same
  | FindArtifact _ _ => agree_option
  | CreateArtifact _ => same
  | FindArtifactByKey _ _ => agree_found
  | FindRecord _ _ _ _ => agree_option
  | CreateRecord _ | CompleteRecord _ _ _ _ => same
  end.

(** The rules at each table, their instances resolved. *)
Definition find_revision := refines_lookup (Row := Prisma.DocumentRevision.t) (T := DocumentRevision.t).
Definition first_revision := refines_findFirst (Row := Prisma.DocumentRevision.t) (T := DocumentRevision.t).
Definition list_revisions := refines_findMany (Row := Prisma.DocumentRevision.t) (T := DocumentRevision.t).
Definition create_revision := refines_create (Row := Prisma.DocumentRevision.t) (T := DocumentRevision.t).
Definition find_upload := refines_lookup (Row := Prisma.UploadSession.t) (T := UploadSession.t).
Definition create_upload := refines_create (Row := Prisma.UploadSession.t) (T := UploadSession.t).
Definition update_upload := refines_update (Row := Prisma.UploadSession.t) (T := UploadSession.t).
Definition find_preview := refines_lookup (Row := Prisma.PreviewGrant.t) (T := PreviewGrant.t).
Definition create_preview := refines_create (Row := Prisma.PreviewGrant.t) (T := PreviewGrant.t).
Definition find_consent := refines_lookup (Row := Prisma.ConsentRecord.t) (T := ConsentRecord.t).
Definition list_consents := refines_findMany (Row := Prisma.ConsentRecord.t) (T := ConsentRecord.t).
Definition create_consent := refines_create (Row := Prisma.ConsentRecord.t) (T := ConsentRecord.t).
Definition no_consent := no_duplicate (Row := Prisma.ConsentRecord.t) (T := ConsentRecord.t).
Definition find_artifact := refines_lookup (Row := Prisma.FinalizedArtifact.t) (T := FinalizedArtifact.t).
Definition first_artifact := refines_findFirst (Row := Prisma.FinalizedArtifact.t) (T := FinalizedArtifact.t).
Definition create_artifact := refines_create (Row := Prisma.FinalizedArtifact.t) (T := FinalizedArtifact.t).
Definition no_artifact := no_duplicate (Row := Prisma.FinalizedArtifact.t) (T := FinalizedArtifact.t).
Definition find_record := refines_lookup (Row := Prisma.IdempotencyRecord.t) (T := IdempotencyRecord.t).
Definition create_record := refines_create (Row := Prisma.IdempotencyRecord.t) (T := IdempotencyRecord.t).
Definition no_record := no_duplicate (Row := Prisma.IdempotencyRecord.t) (T := IdempotencyRecord.t).
Definition update_record := refines_update (Row := Prisma.IdempotencyRecord.t) (T := IdempotencyRecord.t).

Lemma refines_created {A} o (x : A) o' (f : string → M Exn DB A) (m' : Run A) (agree : A → A → Prop) db s :
  valid_id o → o' = o → refines (f o) m' agree db s →
  refines (lift (assertSameOrganization o o');; o ← lift (requireOrganizationId o); f o) m' agree db s.
Proof.
  intros Ho -> Hf. destruct (valid_org_create _ Ho) as [Hsame Horg].
  eapply refines_lift; [exact Hsame|]. by eapply refines_lift.
Qed.

Lemma upload_refines_finds {A} (c : UploadCall A) db s :
  mirrors (tables db) s → upload_pre c s →
  match c with
  | FindRevision _ _ | FindUpload _ _ | FindUploadByToken _ | FindPreview _ _
  | FindPreviewByToken _ | FindConsent _ _ | FindSessionConsent _ _ | FindArtifact _ _
  | FindRecord _ _ _ _ | FindRevisionByKey _ _ | FindArtifactByKey _ _ | ListRevisions _ _
  | ListConsents _ _ =>
    refines (upload_prisma c) (upload_memory c) (upload_agree c) db s
  | _ => True
  end.
Proof.
  intros Hm Hpre. destruct c; try exact I;
    simpl in Hpre; try match type of Hpre with _ ∧ _ => destruct Hpre as [Ho Hd] end.
  - apply refines_ids; [done..|]. eapply find_revision; [apply findUnique_law|done|clashing|same_key].
  - apply refines_ids; [done..|]. eapply list_revisions; [done| |same_key].
    split; intros; rewrite ?Z.leb_le in *; lia.
  - eapply refines_lift; [by apply valid_id_field|]. eapply first_revision; [done|same_key].
  - apply refines_ids; [done..|]. eapply find_upload; [apply findUnique_law|done|clashing|same_key].
  - eapply find_upload; [apply findUnique_law|done|clashing|same_key].
  - apply refines_ids; [done..|]. eapply find_preview; [apply findUnique_law|done|clashing|same_key].
  - eapply find_preview; [apply findUnique_law|done|clashing|same_key].
  - eapply refines_lift; [by apply valid_id_field|]. eapply refines_lift; [by apply valid_id_field|].
    eapply find_consent; [apply findFirst_finds|done|clashing|same_key].
  - apply refines_ids; [done..|]. eapply find_consent; [apply findFirst_finds|done|clashing|same_key].
  - apply refines_ids; [done..|]. eapply list_consents; [done| |same_key].
    split; intros; rewrite ?Z.leb_le in *; lia.
  - apply refines_ids; [done..|]. eapply find_artifact; [apply findFirst_finds|done|clashing|same_key].
  - eapply refines_lift; [by apply valid_id_field|]. eapply first_artifact; [done|same_key].
  - apply refines_ids; [done..|]. eapply find_record; [apply findUnique_law|done|clashing|same_key].
Qed.

(** [push] after a check that finds no duplicate. *)
Lemma push_after {T} `{!Table T} (q : T → bool) conflict (x : T) s :
  find_one q s = (Ok None, s) →
  (existing ← find_one q; match existing with Some _ => throw conflict | None => push x end) s =
    (Ok x, set_rows (rows s ++ [x]) s).
Proof. intros Hq. unfold mbind, M_bind. by rewrite Hq. Qed.

(** A response body comes back with the same members. *)
Lemma body_same o (x : IdempotencyRecord.t) :
  IdempotencyRecord.organizationId x = o →
  same (toDomainIdempotency (PrismaIdempotencyRecords.to_row o x)) x.
Proof.
  intros <-. destruct x as [id org pt pid route key hash rid st body ex cr up].
  exists up, body. unfold PrismaIdempotencyRecords.to_row, toDomainIdempotency. simpl.
  destruct body as [m|]; simpl.
  - destruct (json_column_object m) as (m' & Hm' & Hsame). unfold asInputJson. rewrite Hm'.
    autorewrite with enums. by split.
  - autorewrite with enums. by split.
Qed.

Lemma upload_refines_creates {A} (c : UploadCall A) db s :
  mirrors (tables db) s → upload_pre c s →
  match c with
  | CreateRevision _ | CreateUpload _ | CreatePreview _ | CreateConsent _ | CreateArtifact _
  | CreateRecord _ => refines (upload_prisma c) (upload_memory c) (upload_agree c) db s
  | _ => True
  end.
Proof.
  intros Hm Hpre. destruct c; try exact I; simpl in Hpre; (apply refines_created; [done..|]).
  - apply create_revision with (x := x); [done| |done]. intros _. destruct x.
    cbn. unfold toDomainRevision. cbn. by autorewrite with enums.
  - apply create_upload with (x := x); [done| |done]. intros _. exists (UploadSession.updatedAt x).
    destruct x. cbn. unfold toDomainUploadSession. cbn. by autorewrite with enums.
  - apply create_preview with (x := x); [done| |done]. intros _. by destruct x.
  - apply create_consent with (x := x); [done|intros _; by destruct x|]. intros now Hnone.
    apply push_after. eapply no_consent; [done|exact Hnone|]. duplicates.
  - apply create_artifact with (x := x); [done|intros _; by destruct x|]. intros now Hnone.
    apply push_after. eapply no_artifact; [done|exact Hnone|]. duplicates.
  - apply create_record with (x := x); [done|intros _; by apply body_same|]. intros now Hnone.
    apply push_after. eapply no_record; [done|exact Hnone|]. duplicates.
Qed.

Lemma refines_complete_upload o i revisionId at_ db s :
  mirrors (tables db) s → upload_pre (CompleteUpload o i revisionId at_) s →
  refines (PrismaUploadSessions.complete o i revisionId at_)
    (UploadSessions.complete o i revisionId at_) same db s.
Proof.
  intros Hm (Ho & Hi & Hissued). apply refines_ids; [done..|]. unfold update_reload.
  eapply update_upload with (g := λ row, bool_decide
    (Prisma.UploadSession.status row = Prisma.UploadSessionStatus.issued));
    [apply findUnique_key|done|done|done|].
  intros row x Hs Hx _ Hkey. destruct Hs as [t ->]. specialize (Hissued _ Hx Hkey). simpl in Hissued.
  destruct (Prisma.UploadSession.status row) eqn:Hst; try done. simpl.
  eexists. split; [reflexivity|]. intros now. by eexists.
Qed.

Lemma refines_abandon_upload o i at_ db s :
  mirrors (tables db) s → upload_pre (AbandonUpload o i at_) s →
  refines (PrismaUploadSessions.markAbandoned o i at_) (UploadSessions.markAbandoned o i at_) same db s.
Proof.
  intros Hm (Ho & Hi & Hissued). apply refines_ids; [done..|]. unfold update_reload.
  eapply update_upload with (g := λ row, bool_decide
    (Prisma.UploadSession.status row = Prisma.UploadSessionStatus.issued));
    [apply findUnique_key|done|done|done|].
  intros row x Hs Hx _ Hkey. destruct Hs as [t ->]. specialize (Hissued _ Hx Hkey). simpl in Hissued.
  destruct (Prisma.UploadSession.status row) eqn:Hst; try done. simpl.
  eexists. split; [reflexivity|]. intros now. by eexists.
Qed.

Lemma refines_complete_record o i status body db s :
  mirrors (tables db) s → valid_id o → valid_id i →
  refines (PrismaIdempotencyRecords.complete o i status body)
    (IdempotencyRecords.complete o i status body) same db s.
Proof.
  intros Hm Ho Hi. apply refines_ids; [done..|].
  eapply update_record with (o := o) (i := i) (g := λ row, true);
    [apply findFirst_key|done|by intros row; rewrite andb_true_r|done|].
  intros row x (t & b & -> & _) _ _ _. eexists. split; [reflexivity|]. intros now.
  exists t, (Some body). split; [reflexivity|]. unfold toDomainIdempotency, asInputJson. simpl.
  destruct (json_column_object body) as (m' & -> & Hsame). done.
Qed.

Lemma upload_refines {A} (c : UploadCall A) db s :
  mirrors (tables db) s → upload_pre c s →
  refines (upload_prisma c) (upload_memory c) (upload_agree c) db s.
Proof.
  intros Hm Hpre. pose proof (upload_refines_finds c db s Hm Hpre) as Hfinds.
  pose proof (upload_refines_creates c db s Hm Hpre) as Hcreates.
  destruct c; first [exact Hfinds | exact Hcreates | idtac].
  - by apply refines_complete_upload.
  - by apply refines_abandon_upload.
  - destruct Hpre. by apply refines_complete_record.
Qed.
End uploads.
