(* ===== verification/PrismaSigningRefinement.v ===== *)
(** Signers, signing sessions and signature fields of the database refine those
    in memory. *)

From Stdlib Require Import String Sorted.
From S2P Require Export PrismaUploadRefinement.
Local Open Scope string_scope.

Lemma signer_status_round_trip s : SIGNER_STATUS_TO_DOMAIN (SIGNER_STATUS_TO_PRISMA s) = s.
Proof. by destruct s. Qed.
Lemma session_status_round_trip s : SESSION_STATUS_TO_DOMAIN (SESSION_STATUS_TO_PRISMA s) = s.
Proof. by destruct s. Qed.
Lemma field_type_round_trip f : FIELD_TYPE_TO_DOMAIN (FIELD_TYPE_TO_PRISMA f) = f.
Proof. by destruct f. Qed.
#[export] Hint Rewrite signer_status_round_trip session_status_round_trip field_type_round_trip : enums.

Section signing.
Context {DB : Type} `{!PrismaClient DB} `{!PrismaLaws DB} `{!PrismaColumns} `{!ColumnLaws}.

(** The calls of these repositories and of the look-up by token. *)
Inductive SigningCall : Type → Type :=
  | FindSigner (o i : string) : SigningCall (option Signer.t)
  | ListSigners (o d : string) : SigningCall (list Signer.t)
  | ReplaceSigners (o d : string) (l : list Signer.t) : SigningCall (list Signer.t)
  | DeclineSigner (o i : string) (v at_ : Z) : SigningCall Signer.t
  | SignSigner (o i : string) (v at_ : Z) : SigningCall Signer.t
  | FindSession (o i : string) : SigningCall (option SigningSession.t)
  | ListSignerSessions (o i : string) : SigningCall (list SigningSession.t)
  | ListDocumentSessions (o d : string) : SigningCall (list SigningSession.t)
  | ListOpenSessions (o i : string) : SigningCall (list SigningSession.t)
  | CreateSession (x : SigningSession.t) : SigningCall SigningSession.t
  | RevokeSession (o i : string) (at_ : Z) : SigningCall SigningSession.t
  | PresentSession (o i : string) (at_ : Z) : SigningCall SigningSession.t
  | ExpireSession (o i : string) (at_ : Z) : SigningCall SigningSession.t
  | RotateSession (o i : string) (v : Z) (hash csrf : string) (at_ : Z) : SigningCall SigningSession.t
  | CompleteSession (o i : string) (at_ : Z) : SigningCall SigningSession.t
  | FindSessionByToken (hash : string) : SigningCall (option SigningSession.t)
  | FindField (o i : string) : SigningCall (option SignatureField.t)
  | ListFields (o d : string) : SigningCall (list SignatureField.t)
  | ReplaceFields (o d : string) (l : list SignatureField.t) : SigningCall (list SignatureField.t)
  | CompleteField (o i : string) (at_ : Z) (key contentType : option string) (size : option Z)
      (digest : option string) : SigningCall SignatureField.t
  | FlattenField (o i revisionId : string) : SigningCall SignatureField.t
  | FindFieldByKey (o key : string) : SigningCall (option SignatureField.t).

Definition signing_prisma {A} (c : SigningCall A) : M Exn DB A :=
  match c with
  | FindSigner o i => PrismaSigners.findById o i
  | ListSigners o d => PrismaSigners.listByDocument o d
  | ReplaceSigners o d l => PrismaSigners.replaceAll o d l
  | DeclineSigner o i v t => PrismaSigners.markDeclined o i v t
  | SignSigner o i v t => PrismaSigners.markSigned o i v t
  | FindSession o i => PrismaSigningSessions.findById o i
  | ListSignerSessions o i => PrismaSigningSessions.listBySigner o i
  | ListDocumentSessions o d => PrismaSigningSessions.listByDocument o d
  | ListOpenSessions o i => PrismaSigningSessions.listOpenBySigner o i
  | CreateSession x => PrismaSigningSessions.create (SigningSession.organizationId x) x
  | RevokeSession o i t => PrismaSigningSessions.revoke o i t
  | PresentSession o i t => PrismaSigningSessions.markPresented o i t
  | ExpireSession o i t => PrismaSigningSessions.markExpired o i t
  | RotateSession o i v h c t => PrismaSigningSessions.consumeAndRotate o i v h c t
  | CompleteSession o i t => PrismaSigningSessions.markCompleted o i t
  | FindSessionByToken h => PrismaSigningSessions.findByTokenHash h
  | FindField o i => PrismaSignatureFields.findById o i
  | ListFields o d => PrismaSignatureFields.listByDocument o d
  | ReplaceFields o d l => PrismaSignatureFields.replaceAll o d l
  | CompleteField o i t k c z g => PrismaSignatureFields.complete o i t k c z g
  | FlattenField o i r => PrismaSignatureFields.markFlattened o i r
  | FindFieldByKey o k => PrismaSignatureFields.findFirstByCompletionObjectKey o k
  end.

Definition signing_memory {A} (c : SigningCall A) : Run A :=
  match c with
  | FindSigner o i => Signers.findById o i
  | ListSigners o d => Signers.listByDocument o d
  | ReplaceSigners o d l => Signers.replaceAll o d l
  | DeclineSigner o i v t => Signers.markDeclined o i v t
  | SignSigner o i v t => Signers.markSigned o i v t
  | FindSession o i => SigningSessions.findById o i
  | ListSignerSessions o i => SigningSessions.listBySigner o i
  | ListDocumentSessions o d => SigningSessions.listByDocument o d
  | ListOpenSessions o i => SigningSessions.listOpenBySigner o i
  | CreateSession x => SigningSessions.create (SigningSession.organizationId x) x
  | RevokeSession o i t => SigningSessions.revoke o i t
  | PresentSession o i t => SigningSessions.markPresented o i t
  | ExpireSession o i t => SigningSessions.markExpired o i t
  | RotateSession o i v h c t => SigningSessions.consumeAndRotate o i v h c t
  | CompleteSession o i t => SigningSessions.markCompleted o i t
  | FindSessionByToken h => SigningSessions.findByTokenHash h
  | FindField o i => SignatureFields.findById o i
  | ListFields o d => SignatureFields.listByDocument o d
  | ReplaceFields o d l => SignatureFields.replaceAll o d l
  | CompleteField o i t k c z g => SignatureFields.complete o i t k c z g
  | FlattenField o i r => SignatureFields.markFlattened o i r
  | FindFieldByKey o k => SignatureFields.findFirstByCompletionObjectKey o k
  end.

(** A field whose geometry the columns hold exactly. *)
Definition exact_field (f : SignatureField.t) : Prop :=
  (∃ z, SignatureField.pageNumber f = NInt z) ∧
  Forall (λ v, ∃ z, decimal_column v = Ok z ∧ decimal_toNumber z = v)
    [SignatureField.x f; SignatureField.y f; SignatureField.width f; SignatureField.height f].

(** A signer that replaces itself keeps all but its routing, address and name. *)
Definition replaces (x signer : Signer.t) : Prop :=
  ∃ t, signer = Signer.mk (Signer.id x) (Signer.organizationId x) (Signer.documentId x)
    (Signer.accountUserId x) (Signer.routingOrder signer) (Signer.status x) (Signer.email signer)
    (Signer.displayName signer) (Signer.version x) (Signer.completedAt x) (Signer.declinedAt x)
    (Signer.createdAt x) t.

(** Each signer of the list is valid, and new or itself among the signers stored. *)
Definition replaceable (o d : string) (stored : list Signer.t) (x : Signer.t) : Prop :=
  valid_id (Signer.id x) ∧ Signer.organizationId x = o ∧ Signer.documentId x = d ∧
  (∃ z, Signer.routingOrder x = NInt z) ∧
  ∀ y, y ∈ stored → Signers.key o (Signer.id x) y = true → replaces y x.

(** Valid identifiers; sessions are created open; fields are replaced by fields
    of the document whose geometry is exact; signers by signers of the document,
    numbered by integers, each new or itself, and no field is left of one that
    goes, which the database deletes with it and memory does not. *)
Definition signing_pre {A} (c : SigningCall A) (s : St) : Prop :=
  match c with
  | FindSigner o i | ListSigners o i | DeclineSigner o i _ _ | SignSigner o i _ _
  | FindSession o i | ListSignerSessions o i | ListDocumentSessions o i | ListOpenSessions o i
  | RevokeSession o i _ | PresentSession o i _ | ExpireSession o i _ | RotateSession o i _ _ _ _
  | CompleteSession o i _ | FindField o i | ListFields o i | CompleteField o i _ _ _ _ _
  | FlattenField o i _ => valid_id o ∧ valid_id i
  | FindFieldByKey o _ => valid_id o
  | FindSessionByToken _ => True
  | CreateSession x => valid_id (SigningSession.organizationId x) ∧ SigningSessions.is_open x = true
  | ReplaceFields o d l => valid_id o ∧ valid_id d ∧
      Forall (λ f, SignatureField.organizationId f = o ∧ SignatureField.documentId f = d ∧
                   exact_field f) l
  | ReplaceSigners o d l => valid_id o ∧ valid_id d ∧ NoDup (Signer.id <$> l) ∧
      Forall (replaceable o d s.(signers)) l ∧
      (∀ f, f ∈ s.(signatureFields) → SignatureFields.of_document o d f = true →
         SignatureField.signerId f ∈ Signer.id <$> l)
  end.

Definition signing_agree {A} (c : SigningCall A) : A → A → Prop :=
  match c with
  | FindSigner _ _ => agree_option
  | ListSigners _ _ => agree_list
  | ReplaceSigners _ _ _ => Forall2 same
  | DeclineSigner _ _ _ _ | SignSigner _ _ _ _ => same
  | FindSession _ _ | FindSessionByToken _ => agree_option
  | ListSignerSessions _ _ | ListDocumentSessions _ _ | ListOpenSessions _ _ => agree_list
  | CreateSession _ | RevokeSession _ _ _ | PresentSession _ _ _ | ExpireSession _ _ _
  | RotateSession _ _ _ _ _ _ | CompleteSession _ _ _ => same
  | FindField _ _ => agree_option
  | ListFields _ _ => agree_list
  | ReplaceFields _ _ _ => Forall2 same
  | CompleteField _ _ _ _ _ _ _ | FlattenField _ _ _ => same
  | FindFieldByKey _ _ => agree_found
  end.

Definition find_signer := refines_lookup (Row := Prisma.Signer.t) (T := Signer.t).
Definition list_signers := refines_findMany (Row := Prisma.Signer.t) (T := Signer.t).
Definition update_signer := refines_update (Row := Prisma.Signer.t) (T := Signer.t).
Definition settle_signer := refines_settle (Row := Prisma.Signer.t) (T := Signer.t).
Definition settle_session := refines_settle (Row := Prisma.SigningSession.t) (T := SigningSession.t).
Definition find_session := refines_lookup (Row := Prisma.SigningSession.t) (T := SigningSession.t).
Definition list_sessions := refines_findMany (Row := Prisma.SigningSession.t) (T := SigningSession.t).
Definition create_session := refines_create (Row := Prisma.SigningSession.t) (T := SigningSession.t).
Definition no_session := no_duplicate (Row := Prisma.SigningSession.t) (T := SigningSession.t).
Definition update_session := refines_update (Row := Prisma.SigningSession.t) (T := SigningSession.t).
Definition update_session_row := update_keyed (Row := Prisma.SigningSession.t) (T := SigningSession.t).
Definition reload_session := reload_row (Row := Prisma.SigningSession.t) (T := SigningSession.t).
Definition session_key_row := key_row (Row := Prisma.SigningSession.t) (T := SigningSession.t).
Lemma put_session T s l l' :
  mirrors T s → rows_match toDomainSigningSession l l' →
  mirrors (Tables.set_signingSessions l T) (set_signingSessions l' s).
Proof. exact (mirror_put (Row := Prisma.SigningSession.t) (T := SigningSession.t) T s l l'). Qed.
Definition find_field := refines_lookup (Row := Prisma.SignatureField.t) (T := SignatureField.t).
Definition first_field := refines_findFirst (Row := Prisma.SignatureField.t) (T := SignatureField.t).
Definition list_fields := refines_findMany (Row := Prisma.SignatureField.t) (T := SignatureField.t).
Definition create_field := refines_create (Row := Prisma.SignatureField.t) (T := SignatureField.t).
Definition delete_fields := delete_rows (Row := Prisma.SignatureField.t) (T := SignatureField.t).
Definition delete_signers := delete_rows (Row := Prisma.Signer.t) (T := Signer.t).
Lemma put_signer T s l l' :
  mirrors T s → rows_match toDomainSigner l l' → mirrors (Tables.set_signers l T) (set_signers l' s).
Proof. exact (mirror_put (Row := Prisma.Signer.t) (T := Signer.t) T s l l'). Qed.
Definition update_field := refines_update (Row := Prisma.SignatureField.t) (T := SignatureField.t).

Lemma session_open_same row x :
  same (toDomainSigningSession row) x → SigningSessions.is_open x = open_session row.
Proof.
  intros [t ->]. unfold SigningSessions.is_open, open_session. simpl.
  by destruct (Prisma.SigningSession.status row).
Qed.

Lemma signing_refines_finds {A} (c : SigningCall A) db s :
  mirrors (tables db) s → signing_pre c s →
  match c with
  | FindSigner _ _ | FindSession _ _ | ListSignerSessions _ _
  | ListDocumentSessions _ _ | ListOpenSessions _ _ | FindSessionByToken _ | FindField _ _
  | ListFields _ _ | FindFieldByKey _ _ =>
    refines (signing_prisma c) (signing_memory c) (signing_agree c) db s
  | _ => True
  end.
Proof.
  intros Hm Hpre. destruct c; try exact I;
    simpl in Hpre; try match type of Hpre with _ ∧ _ => destruct Hpre as [Ho Hd] end.
  - apply refines_ids; [done..|]. eapply find_signer; [apply findUnique_law|done|clashing|same_key].
  - apply refines_ids; [done..|]. eapply find_session; [apply findUnique_law|done|clashing|same_key].
  - apply refines_ids; [done..|]. eapply list_sessions; [done| |same_key].
    unfold PrismaSigningSessions.latest_first. split; intros; rewrite ?Z.leb_le in *; lia.
  - apply refines_ids; [done..|]. eapply list_sessions; [done| |same_key].
    unfold PrismaSigningSessions.latest_first. split; intros; rewrite ?Z.leb_le in *; lia.
  - apply refines_ids; [done..|]. eapply list_sessions; [done| |].
    + unfold PrismaSigningSessions.latest_first. split; intros; rewrite ?Z.leb_le in *; lia.
    + intros row x Hs. unfold SigningSessions.open_of_signer. rewrite (session_open_same _ _ Hs).
      by destruct Hs as [t ->].
  - eapply find_session; [apply findUnique_law|done|clashing|same_key].
  - apply refines_ids; [done..|]. eapply find_field; [apply findUnique_law|done|clashing|same_key].
  - apply refines_ids; [done..|]. eapply list_fields; [done| |same_key].
    split; intros; rewrite ?Z.leb_le in *; lia.
  - eapply refines_lift; [by apply valid_id_field|]. eapply first_field; [done|same_key].
Qed.

Lemma refines_list_signers o d db s :
  mirrors (tables db) s → valid_id o → valid_id d →
  refines (PrismaSigners.listByDocument o d) (Signers.listByDocument o d) agree_list db s.
Proof.
  intros Hm Ho Hd. apply refines_ids; [done..|].
  eapply refines_then with (f := sort_by Signers.by_routing).
  - eapply list_signers; [done| |same_key]. split; intros; rewrite ?Z.leb_le in *; lia.
  - intros l l' (b & Hb & Hsame). exists b. split; [by rewrite sort_by_perm|done].
Qed.

(** The columns an update of signers, sessions or fields leaves. *)
Ltac written := eexists; split; [reflexivity|]; intros; by eexists.

Lemma refines_decline_signer o i v at_ db s :
  mirrors (tables db) s → valid_id o → valid_id i →
  refines (PrismaSigners.markDeclined o i v at_) (Signers.markDeclined o i v at_) same db s.
Proof.
  intros Hm Ho Hi. apply refines_ids; [done..|]. unfold update_reload.
  eapply update_signer with (g := λ row, (Prisma.Signer.version row =? v)%Z &&
    bool_decide (Prisma.Signer.status row = Prisma.SignerStatus.pending));
    [apply findUnique_key|done|by intros row; unfold PrismaSigners.pending_at; rewrite andb_assoc|done|].
  intros row x [t ->] _ _ _. simpl.
  destruct (Prisma.Signer.version row =? v)%Z; simpl; [|by eexists].
  destruct (Prisma.Signer.status row); simpl; first [by eexists | written].
Qed.

Lemma refines_sign_signer o i v at_ db s :
  mirrors (tables db) s → valid_id o → valid_id i →
  refines (PrismaSigners.markSigned o i v at_) (Signers.markSigned o i v at_) same db s.
Proof.
  intros Hm Ho Hi. apply refines_ids; [done..|].
  eapply settle_signer with
    (settled := λ row, bool_decide (Prisma.Signer.status row = Prisma.SignerStatus.signed))
    (g := λ row, (Prisma.Signer.version row =? v)%Z &&
      bool_decide (Prisma.Signer.status row = Prisma.SignerStatus.pending));
    [done|by intros row; unfold PrismaSigners.pending_at; rewrite andb_assoc|done|..];
    intros row x [t ->] Hset; simpl.
  - by destruct (Prisma.Signer.status row).
  - destruct (Prisma.Signer.version row =? v)%Z; simpl;
      destruct (Prisma.Signer.status row); simpl; first [done | by eexists | written].
Qed.

Lemma refines_create_session x db s :
  mirrors (tables db) s → signing_pre (CreateSession x) s →
  refines (signing_prisma (CreateSession x)) (signing_memory (CreateSession x)) same db s.
Proof.
  intros Hm [Ho Hopen]. apply refines_created; [done..|].
  apply create_session with (x := x); [done| |].
  { intros _. exists (SigningSession.updatedAt x). destruct x. cbn. unfold toDomainSigningSession.
    cbn. by autorewrite with enums. }
  intros now Hnone. apply push_after. eapply no_session; [done|exact Hnone|].
  intros row y Hs Hq. unfold SigningSessions.open_of_signer in Hq.
  rewrite (session_open_same _ _ Hs) in Hq.
  assert (open_session (PrismaSigningSessions.to_row (SigningSession.organizationId x) x) = true)
    as Hx by (destruct x as [? ? ? ? ? ? []]; done).
  destruct Hs as [t ->]. unfold clash. simpl in *. bools. subst. simpl in *.
  repeat match goal with H : _ = _ |- _ => rewrite H end.
  by rewrite ?String.eqb_refl, ?orb_true_r.
Qed.

Lemma session_refines_updates {A} (c : SigningCall A) db s :
  mirrors (tables db) s → signing_pre c s →
  match c with
  | RevokeSession _ _ _ | ExpireSession _ _ _ | RotateSession _ _ _ _ _ _ =>
    refines (signing_prisma c) (signing_memory c) (signing_agree c) db s
  | _ => True
  end.
Proof.
  intros Hm Hpre. destruct c; try exact I; destruct Hpre as [Ho Hi]; (apply refines_ids; [done..|]).
  - eapply update_session with (g := open_session); [apply findUnique_key|done..|].
    intros row x Hs _ _ _. rewrite (session_open_same _ _ Hs). destruct Hs as [t ->].
    destruct (open_session row); simpl; [written|by eexists].
  - eapply update_session with (g := open_session); [apply findUnique_key|done..|].
    intros row x Hs _ _ _. rewrite (session_open_same _ _ Hs). destruct Hs as [t ->].
    destruct (open_session row); simpl; [written|by eexists].
  - eapply update_session with (g := λ row, (Prisma.SigningSession.version row =? v)%Z &&
      bool_decide (Prisma.SigningSession.consumedAt row = None) && open_session row);
      [apply findUnique_key|done|by intros row; rewrite !andb_assoc|done|].
    intros row x Hs _ _ _. rewrite (session_open_same _ _ Hs). destruct Hs as [t ->]. simpl.
    destruct (Prisma.SigningSession.version row =? v)%Z; simpl; [|by eexists].
    destruct (bool_decide _); simpl; [|by eexists].
    destruct (open_session row); simpl; [written|by eexists].
Qed.

Lemma refines_complete_session o i at_ db s :
  mirrors (tables db) s → valid_id o → valid_id i →
  refines (PrismaSigningSessions.markCompleted o i at_) (SigningSessions.markCompleted o i at_) same db s.
Proof.
  intros Hm Ho Hi. apply refines_ids; [done..|].
  eapply settle_session with (g := open_session) (settled := λ row,
    bool_decide (Prisma.SigningSession.status row = Prisma.SigningSessionStatus.completed));
    [done..| |]; intros row x Hs Hset; rewrite (session_open_same _ _ Hs); destruct Hs as [t ->]; simpl.
  - by destruct (Prisma.SigningSession.status row).
  - unfold open_session.
    destruct (Prisma.SigningSession.status row); simpl; first [done | by eexists | written].
Qed.

Lemma field_refines_updates {A} (c : SigningCall A) db s :
  mirrors (tables db) s → signing_pre c s →
  match c with
  | CompleteField _ _ _ _ _ _ _ | FlattenField _ _ _ =>
    refines (signing_prisma c) (signing_memory c) (signing_agree c) db s
  | _ => True
  end.
Proof.
  intros Hm Hpre. destruct c; try exact I; destruct Hpre as [Ho Hi]; (apply refines_ids; [done..|]);
    (eapply update_field with (g := λ _, true);
     [apply findUnique_key|done|by intros row; rewrite andb_true_r|done|]);
    intros row x [t0 ->] _ _ _; written.
Qed.

(** The row that presenting writes is read back. *)
Lemma presented_row o i j row row' x y (m' : Run SigningSession.t) db db' s :
  mirrors (tables db) s → only_at (at_key o i) (Tables.signingSessions (tables db)) j row →
  tables db' = Tables.set_signingSessions (<[j := row']> (Tables.signingSessions (tables db))) (tables db) →
  at_key o i row' = true → same (toDomainSigningSession row') y →
  m' s = (Ok y, set_signingSessions (<[j := y]> s.(signingSessions)) s) →
  find_index (SigningSessions.key o i) s.(signingSessions) = Some (j, x) →
  refines (reload toDomainSigningSession "signing_session" (findUnique (at_key o i))) m' same db' s.
Proof.
  intros Hm (Hl & _ & _) Htab Hkey Hs Hrun Hx.
  eapply reload_session; [apply findUnique_key| | |exact Hkey|exact Hs|exact Hrun].
  - rewrite Htab. apply (put_session _ _ _ _ Hm).
    apply rows_match_insert; [apply (mirrors_sessions _ _ Hm)|exact Hs].
  - rewrite Htab. apply list_lookup_insert_eq. by eapply lookup_lt_Some.
Qed.

Lemma refines_present o i at_ db s :
  mirrors (tables db) s → valid_id o → valid_id i →
  refines (PrismaSigningSessions.markPresented o i at_) (SigningSessions.markPresented o i at_) same db s.
Proof.
  intros Hm Ho Hi. apply refines_ids; [done..|].
  eapply refines_call; [apply updateMany_law|]. intros n db' (Hn & now & Htab).
  destruct (update_session_row o i _ _ now n db db' s Hm Hn Htab)
    as [(Hf & -> & Htab' & Hnone) | (j & row & x & Hf & Hx & Hs & Hat & Hw)].
  - simpl. eapply refines_read; [apply findUnique_law|]. intros r db2 Hr _. simpl in Hr.
    destruct r as [row|]; [|by eapply refines_throw, update_one_missing].
    destruct Hr as [Hin Hk]. rewrite Htab' in Hin. rewrite Forall_forall in Hnone.
    by rewrite (Hnone _ Hin) in Hk.
  - pose proof (update_row_found (SigningSessions.key o i) (notFound "signing_session")) as Hrun.
    pose proof Hat as (Hl & Hk & _). destruct Hs as [t ->].
    destruct (bool_decide_reflect (Prisma.SigningSession.status row = Prisma.SigningSessionStatus.issued))
      as [Hst|Hst]; destruct Hw as [-> Htab']; simpl.
    + eapply presented_row; [exact Hm|exact Hat|exact Htab'|done| | |exact Hf]; cycle 1.
      * unfold SigningSessions.markPresented. rewrite (Hrun _ _ _ _ Hf). simpl.
        rewrite Hst. reflexivity.
      * by exists t.
    + eapply refines_read; [apply findUnique_law|]. intros r db2 Hr Htab2. simpl in Hr.
      rewrite Htab' in Hr, Htab2. clear db' Htab Htab' Hn.
      destruct r as [existing|]; simpl in Hr;
        [|rewrite Forall_lookup in Hr; by rewrite (Hr _ _ Hl) in Hk].
      destruct Hr as [Hin Hk'].
      assert (existing = row) as -> by
        (eapply session_key_row; [exact Hin|by eapply list_elem_of_lookup_2|exact Hk'|exact Hk]).
      rewrite <-Htab2 in Hm. rewrite <-Htab2 in Hat.
      destruct (bool_decide_reflect (Prisma.SigningSession.status row = Prisma.SigningSessionStatus.active))
        as [Hact|Hact]; simpl.
      * eapply refines_call; [apply updateMany_law|]. intros n db3 (_ & now3 & Htab3).
        rewrite (updated_ext _ (λ row, at_key o i row && true)) in Htab3
          by (intros; by rewrite andb_true_r).
        rewrite (only_at_updated _ _ _ _ _ _ _ Hat) in Htab3.
        eapply presented_row; [exact Hm|exact Hat|exact Htab3|done| | |exact Hf]; cycle 1.
        -- unfold SigningSessions.markPresented. rewrite (Hrun _ _ _ _ Hf). simpl.
           rewrite Hact. reflexivity.
        -- by exists t.
      * assert (∃ e, SigningSessions.markPresented o i at_ s = (Throw e, s)) as [e He].
        { unfold SigningSessions.markPresented. rewrite (Hrun _ _ _ _ Hf).
          simpl. destruct (Prisma.SigningSession.status row); first [done | by eexists]. }
        by eapply refines_throw.
Qed.

(** *** Replacing fields and signers *)

Lemma field_row_same o d f :
  SignatureField.organizationId f = o → SignatureField.documentId f = d → exact_field f →
  ∃ row, PrismaSignatureFields.to_row o d f = Ok row ∧ same (toDomainSignatureField row) f.
Proof.
  intros <- <- [[page Hpage] Hexact]. rewrite !Forall_cons in Hexact.
  destruct Hexact as ((zx & Hx & Hx') & (zy & Hy & Hy') & (zw & Hw & Hw') & (zh & Hh & Hh') & _).
  unfold PrismaSignatureFields.to_row.
  rewrite Hpage, int_column_exact, Hx, Hy, Hw, Hh. eexists. split; [reflexivity|].
  exists (SignatureField.updatedAt f). unfold toDomainSignatureField, decimalToNumber. simpl.
  rewrite Hx', Hy', Hw', Hh'. destruct f. simpl in *. subst. by autorewrite with enums.
Qed.

Definition push_fields (l : list SignatureField.t) : Run (list SignatureField.t) := λ s,
  (Ok l, set_signatureFields (s.(signatureFields) ++ l) s).

Lemma refines_push_fields o d l db s :
  mirrors (tables db) s → valid_id o →
  Forall (λ f, SignatureField.organizationId f = o ∧ SignatureField.documentId f = d ∧ exact_field f) l →
  refines (map_each (PrismaSignatureFields.replace_one o d) l) (push_fields l) (Forall2 same) db s.
Proof.
  intros Hm Ho Hl. revert db s Hm. induction Hl as [|f l (Hof & Hdf & Hexact) _ IH]; intros db s Hm.
  { exists [], s. split_and!; [|constructor|done]. unfold push_fields. rewrite app_nil_r.
    by destruct s. }
  destruct (field_row_same o d f Hof Hdf Hexact) as (row & Hrow & Hs). simpl.
  eapply refines_bind with (s1 := s) (m1 := push f) (agree1 := same).
  - unfold PrismaSignatureFields.replace_one. rewrite Hof.
    eapply refines_lift; [by apply same_organization|]. eapply refines_lift; [exact Hrow|].
    by eapply create_field.
  - intros y x db' s' [= -> <-] Hy Hm'.
    eapply refines_bind; [by apply IH| |done].
    intros ys xs db'' s'' [= -> <-] Hys Hm''.
    eapply refines_ret; [|by constructor|exact Hm'']. unfold push_fields. simpl.
    by rewrite <-app_assoc.
  - done.
Qed.

Lemma refines_replace_fields o d l db s :
  mirrors (tables db) s → signing_pre (ReplaceFields o d l) s →
  refines (PrismaSignatureFields.replaceAll o d l) (SignatureFields.replaceAll o d l) (Forall2 same) db s.
Proof.
  intros Hm (Ho & Hd & Hl). apply refines_ids; [done..|].
  eapply refines_call; [apply deleteMany_law|]. intros n db' [_ Htab].
  assert (mirrors (tables db') (set_signatureFields
    (List.filter (λ row, negb (SignatureFields.of_document o d row)) s.(signatureFields)) s)) as Hm'.
  { eapply delete_fields; [exact Hm| |exact Htab]. same_key. }
  pose proof (refines_push_fields o d l db' _ Hm' Ho Hl) as Hr. exact Hr.
Qed.

(** A signer written over itself is the signer that was there. *)
Lemma replaced_same row y x z :
  same (toDomainSigner row) y → replaces y x → Signer.routingOrder x = NInt z →
  same (toDomainSigner (Prisma.Signer.set_routingOrder z (Prisma.Signer.set_email (Signer.email x)
    (Prisma.Signer.set_displayName (Signer.displayName x)
       (Prisma.Signer.set_updatedAt (Signer.updatedAt x) row))))) x.
Proof.
  intros [t ->] [t' Hx] Hz. exists t'. rewrite Hx. simpl. rewrite Hz. by destruct row.
Qed.

Definition upserted (o : string) (l : list Signer.t) : Run (list Signer.t) := λ s,
  (Ok l, set_signers (foldl (λ records signer, Signers.upsert o signer records) s.(signers) l) s).

Lemma upserted_elem o x l y : y ∈ Signers.upsert o x l → y = x ∨ y ∈ l.
Proof.
  unfold Signers.upsert. destruct (find_index _ l) as [[i z]|].
  - intros [j Hj]%list_elem_of_lookup.
    apply list_lookup_insert_Some in Hj as [(_ & -> & _) | [_ Hj]]; [by left|]. right.
    by eapply list_elem_of_lookup_2.
  - intros [Hy | ->%list_elem_of_singleton]%elem_of_app; auto.
Qed.

(** Upserting one signer does not get in the way of another. *)
Lemma replaceable_upsert o d x x' l :
  Signer.id x ≠ Signer.id x' → replaceable o d l x' → replaceable o d (Signers.upsert o x l) x'.
Proof.
  intros Hne (Hid & Ho & Hd & Hz & Hself). split_and!; [done..|].
  intros y [-> | Hy]%upserted_elem Hkey; [|by apply Hself]. exfalso.
  unfold Signers.key in Hkey. by apply andb_true_iff in Hkey as [_ Hkey%String.eqb_eq].
Qed.

Lemma refines_replace_signer o d x db s :
  mirrors (tables db) s → valid_id o → replaceable o d s.(signers) x →
  refines (PrismaSigners.replace_one o d x)
    (λ s, (Ok x, set_signers (Signers.upsert o x s.(signers)) s)) same db s.
Proof.
  intros Hm Ho (Hid & Hox & Hdx & [z Hz] & Hself). unfold PrismaSigners.replace_one.
  rewrite Hox. eapply refines_lift; [by apply same_organization|].
  eapply (refines_lift _ (o, Signer.id x)).
  { unfold tenantCompoundWhere, requireOrganizationId. by rewrite !valid_id_field. }
  eapply refines_lift; [rewrite Hz; apply int_column_exact|].
  eapply refines_call; [apply upsert_law|]. intros row db' (now & Hrow).
  pose proof (rows_match_index toDomainSigner (at_key o (Signer.id x)) (Signers.key o (Signer.id x))
    _ _ (mirrors_signers _ _ Hm)) as Hindex.
  unfold Signers.upsert. simpl in Hrow.
  destruct Hindex as [[Hf Hf'] | (i & old & y & Hf & Hf' & Hs & Hy & Hkey)]; [same_key|..];
    rewrite Hf in Hrow; destruct Hrow as [Hrow Htab].
  - rewrite <-Hox in Hrow. assert (same (toDomainSigner row) x) as Hs.
    { rewrite Hrow. exists (Signer.updatedAt x). destruct x. cbn in *. subst.
      unfold toDomainSigner. cbn. by autorewrite with enums. }
    eapply refines_ret; [by rewrite Hf'|exact Hs|]. rewrite Htab. apply put_signer; [done|].
    apply Forall2_app; [apply (mirrors_signers _ _ Hm)|]. by repeat constructor.
  - assert (same (toDomainSigner row) x) as Hsame.
    { destruct (replaced_same old y x z Hs (Hself _ Hy Hkey) Hz) as [t Ht].
      destruct Hrow as [-> | ->]; [|by exists t]. exists t. by rewrite Ht. }
    eapply refines_ret; [by rewrite Hf'|exact Hsame|]. rewrite Htab. apply put_signer; [done|].
    apply rows_match_insert; [apply (mirrors_signers _ _ Hm)|done].
Qed.

Lemma refines_upserted o d l db s :
  mirrors (tables db) s → valid_id o → NoDup (Signer.id <$> l) →
  Forall (replaceable o d s.(signers)) l →
  refines (map_each (PrismaSigners.replace_one o d) l) (upserted o l) (Forall2 same) db s.
Proof.
  intros Hm Ho. revert db s Hm. induction l as [|x l IH]; intros db s Hm Hnd Hl.
  { exists [], s. split_and!; [by destruct s|constructor|done]. }
  apply Forall_cons in Hl as [Hx Hl]. apply NoDup_cons in Hnd as [Hfresh Hnd]. simpl.
  eapply refines_bind; [by apply refines_replace_signer| |done].
  intros y b db' s' [= <- <-] Hy Hm'. eapply refines_bind; [apply IH; [exact Hm'|done|]|..].
  - rewrite !Forall_forall in Hl |- *. intros x' Hin. specialize (Hl _ Hin). apply replaceable_upsert; [|done].
    intros Heq. apply Hfresh. rewrite Heq. by apply list_elem_of_fmap_2.
  - intros ys bs db'' s'' [= <- <-] Hys Hm''.
    eapply refines_ret; [reflexivity|by constructor|exact Hm''].
  - done.
Qed.

Lemma refines_replace_signers o d l db s :
  mirrors (tables db) s → signing_pre (ReplaceSigners o d l) s →
  refines (PrismaSigners.replaceAll o d l) (Signers.replaceAll o d l) (Forall2 same) db s.
Proof.
  intros Hm (Ho & Hd & Hnd & Hl & Hfields). eapply refines_lift; [by apply same_organization|].
  apply refines_ids; [done..|].
  eapply refines_call; [apply deleteMany_law|]. intros n db' [_ Htab].
  assert (mirrors (tables db') s) as Hm'.
  { assert (set_signatureFields s.(signatureFields) s = s) as Hs by (by destruct s).
    rewrite <-Hs. rewrite <-(filter_all (λ f, negb (SignatureFields.of_document o d f &&
      negb (bool_decide (SignatureField.signerId f ∈ Signer.id <$> l)))) s.(signatureFields)).
    - eapply delete_fields; [exact Hm| |exact Htab]. same_key.
    - intros f Hf. destruct (SignatureFields.of_document o d f) eqn:Hof; [|done].
      by rewrite bool_decide_true by (by apply Hfields). }
  clear Hm Htab. eapply refines_call; [apply deleteMany_law|]. intros m db2 [_ Htab].
  assert (mirrors (tables db2) (set_signers (List.filter (λ row, negb (Signers.of_document o d row &&
    negb (bool_decide (Signer.id row ∈ Signer.id <$> l)))) s.(signers)) s)) as Hm.
  { eapply delete_signers; [exact Hm'| |exact Htab]. same_key. }
  pose proof (refines_upserted o d l db2 _ Hm Ho Hnd) as Hr. apply Hr.
  eapply Forall_impl; [exact Hl|]. intros x (? & ? & ? & ? & Hself). split_and!; [done..|].
  intros y [Hy _]%list_elem_of_In%List.filter_In. apply Hself. by apply list_elem_of_In.
Qed.

Lemma signing_refines {A} (c : SigningCall A) db s :
  mirrors (tables db) s → signing_pre c s →
  refines (signing_prisma c) (signing_memory c) (signing_agree c) db s.
Proof.
  intros Hm Hpre. pose proof (signing_refines_finds c db s Hm Hpre) as Hfinds.
  pose proof (session_refines_updates c db s Hm Hpre) as Hsessions.
  pose proof (field_refines_updates c db s Hm Hpre) as Hfields.
  destruct c; first [exact Hfinds | exact Hsessions | exact Hfields | idtac];
    clear Hfinds Hsessions Hfields.
  - destruct Hpre. by apply refines_list_signers.
  - by apply refines_replace_signers.
  - destruct Hpre. by apply refines_decline_signer.
  - destruct Hpre. by apply refines_sign_signer.
  - by apply refines_create_session.
  - destruct Hpre. by apply refines_present.
  - destruct Hpre. by apply refines_complete_session.
  - by apply refines_replace_fields.
Qed.
End signing.
