(* ===== verification/PrismaWriterRefinement.v ===== *)
(** The audit writer and the job publisher of the database refine those in
    memory. *)

From Stdlib Require Import String Sorted.
From S2P Require Export PrismaSigningRefinement.
Local Open Scope string_scope.

Lemma event_type_round_trip x : AUDIT_EVENT_TYPE_TO_DOMAIN (AUDIT_EVENT_TYPE_TO_PRISMA x) = x.
Proof. by destruct x. Qed.
Lemma event_type_db x : AUDIT_EVENT_TYPE_DB (AUDIT_EVENT_TYPE_TO_PRISMA x) = x.
Proof. by destruct x. Qed.
Lemma actor_type_round_trip x : AUDIT_ACTOR_TYPE_TO_DOMAIN (AUDIT_ACTOR_TYPE_TO_PRISMA x) = x.
Proof. by destruct x. Qed.
Lemma actor_type_db x : AUDIT_ACTOR_TYPE_DB (AUDIT_ACTOR_TYPE_TO_PRISMA x) = x.
Proof. by destruct x. Qed.
#[export] Hint Rewrite event_type_round_trip event_type_db actor_type_round_trip actor_type_db : enums.

(** The latest event is one of the greatest sequence number. *)
Lemma foldl_latest_max l head :
  let e := foldl (λ head row,
    if (AuditEvent.sequence head <? AuditEvent.sequence row)%Z then row else head) head l in
  e ∈ head :: l ∧ ∀ x, x ∈ head :: l → (AuditEvent.sequence x <= AuditEvent.sequence e)%Z.
Proof.
  revert head. induction l as [|row l IH]; intros head.
  - split; [by left|]. intros x ->%list_elem_of_singleton. simpl. lia.
  - simpl. specialize (IH (if (AuditEvent.sequence head <? AuditEvent.sequence row)%Z
      then row else head)). simpl in IH. destruct IH as [Hin Hmax].
    destruct (Z.ltb_spec (AuditEvent.sequence head) (AuditEvent.sequence row)) as [Hlt|Hge].
    + split; [by right|]. intros x [-> | Hx]%elem_of_cons; [|by apply Hmax].
      specialize (Hmax row). etrans; [|apply Hmax; left]. lia.
    + split; [by apply elem_of_cons in Hin as [-> | ?]; [left|right; right]|].
      intros x [-> | [-> | Hx]%elem_of_cons]%elem_of_cons.
      * apply Hmax. left.
      * etrans; [|apply Hmax; left]. lia.
      * apply Hmax. by right.
Qed.

Lemma latest_event_max l :
  match latest_event l with
  | Some e => e ∈ l ∧ ∀ x, x ∈ l → (AuditEvent.sequence x <= AuditEvent.sequence e)%Z
  | None => l = []
  end.
Proof. destruct l as [|e l]; simpl; [done|]. apply foldl_latest_max. Qed.

Section writers.
Context {DB : Type} `{!PrismaClient DB} `{!PrismaLaws DB} `{!PrismaColumns} `{!ColumnLaws} `{Env}.

Inductive WriterCall : Type → Type :=
  | FindLatestEvent (o d : string) : WriterCall (option AuditEvent.t)
  | AppendEvent (event : NewAuditEvent.t) : WriterCall AuditEvent.t
  | PublishJob (now : Z) (input : Jobs.PublishInput.t) : WriterCall OutboxEvent.t.

Definition writer_prisma {A} (c : WriterCall A) : M Exn DB A :=
  match c with
  | FindLatestEvent o d => PrismaAuditLogs.findLatest o d
  | AppendEvent event => PrismaAuditWriter.append true event
  | PublishJob now input => PrismaJobPublisher.publish now input
  end.

Definition writer_memory {A} (c : WriterCall A) : Run A :=
  match c with
  | FindLatestEvent o d => findLatest o d
  | AppendEvent event => append event
  | PublishJob _ input => Jobs.publish input
  end.

(** Valid identifiers and dates; and jobs are published with an identifier and
    a time of their own, for which the two sides have different defaults. *)
Definition writer_pre {A} (c : WriterCall A) (s : St) : Prop :=
  match c with
  | FindLatestEvent o d => valid_id o ∧ valid_id d
  | AppendEvent event => valid_id (NewAuditEvent.organizationId event) ∧
      valid_id (NewAuditEvent.documentId event) ∧ ∃ t, NewAuditEvent.occurredAt event = Some t
  | PublishJob _ input => valid_id (Jobs.PublishInput.organizationId input) ∧
      (∃ i, Jobs.PublishInput.jobId input = Some i) ∧ ∃ t, Jobs.PublishInput.availableAt input = Some t
  end.

Definition writer_agree {A} (c : WriterCall A) : A → A → Prop :=
  match c with
  | FindLatestEvent _ _ => agree_option
  | AppendEvent _ => same
  | PublishJob _ _ => same
  end.

Lemma event_of_same o d row x :
  same (toDomainAuditEvent row) x → event_of o d x = PrismaAuditLogs.of_document o d row.
Proof. by intros (? & ? & -> & _). Qed.

(** The latest event of a document is the same on both sides. *)
Lemma latest_same o d db s r :
  mirrors (tables db) s →
  finds (PrismaAuditLogs.of_document o d) (Tables.auditLogs (tables db)) r →
  (∀ x y, r = Some x → y ∈ Tables.auditLogs (tables db) → PrismaAuditLogs.of_document o d y = true →
     PrismaAuditLogs.by_sequence y x = true) →
  agree_option (toDomainAuditEvent <$> r)
    (latest_event (List.filter (event_of o d) s.(auditEvents))).
Proof.
  intros Hm Hr Hmax. pose proof (mirrors_audit _ _ Hm) as Hmatch.
  pose proof (latest_event_max (List.filter (event_of o d) s.(auditEvents))) as Hlatest.
  destruct (latest_event _) as [e|], r as [row|]; simpl in *.
  - destruct Hlatest as [[Hin He]%list_elem_of_In%List.filter_In Hle].
    apply list_elem_of_In, list_elem_of_lookup in Hin as [i Hi].
    destruct (Forall2_lookup_r _ _ _ _ _ Hmatch Hi) as (row' & Hrow' & Hs).
    destruct Hr as [Hin Hrow]. pose proof Hin as [j Hj]%list_elem_of_lookup.
    destruct (Forall2_lookup_l _ _ _ _ _ Hmatch Hj) as (x & Hx & Hsx).
    assert (Prisma.AuditLog.sequence row = Prisma.AuditLog.sequence row') as Hseq.
    { pose proof (event_of_same o d _ _ Hs) as Hof'. rewrite He in Hof'.
      specialize (Hmax row row' eq_refl (list_elem_of_lookup_2 _ _ _ Hrow') (eq_sym Hof')).
      specialize (Hle x). unfold PrismaAuditLogs.by_sequence in Hmax. apply Z.leb_le in Hmax.
      assert (x ∈ List.filter (event_of o d) s.(auditEvents)) as Hxin.
      { apply list_elem_of_In, List.filter_In. split.
        - apply list_elem_of_In. by eapply list_elem_of_lookup_2.
        - by rewrite (event_of_same o d _ _ Hsx). }
      specialize (Hle Hxin). destruct Hsx as (? & ? & -> & _), Hs as (? & ? & -> & _). simpl in Hle. lia. }
    assert (i = j) as ->.
    { rewrite (event_of_same o d _ _ Hs) in He. unfold PrismaAuditLogs.of_document in He, Hrow.
      apply andb_true_iff in He as [_ He%String.eqb_eq], Hrow as [_ Hrow%String.eqb_eq].
      pose proof (mirror_unique (Row := Prisma.AuditLog.t) (T := AuditEvent.t) _ (tables_unique db)) as Hu.
      eapply (unique_rows_only clash (λ y, String.eqb (Prisma.AuditLog.documentId y) d &&
        (Prisma.AuditLog.sequence y =? Prisma.AuditLog.sequence row)%Z) _ i j row' row Hu);
        [|exact Hrow'|exact Hj|..].
      - intros a b [Ha%String.eqb_eq Ha'%Z.eqb_eq]%andb_true_iff [Hb%String.eqb_eq Hb'%Z.eqb_eq]%andb_true_iff.
        unfold clash. simpl. rewrite Ha, Hb, Ha', Hb', String.eqb_refl, Z.eqb_refl. by rewrite orb_true_r.
      - by rewrite He, String.eqb_refl, Hseq, Z.eqb_refl.
      - by rewrite Hrow, String.eqb_refl, Z.eqb_refl. }
    rewrite Hrow' in Hj. by injection Hj as <-.
  - destruct Hlatest as [[Hin He]%list_elem_of_In%List.filter_In _].
    apply list_elem_of_In, list_elem_of_lookup in Hin as [i Hi].
    destruct (Forall2_lookup_r _ _ _ _ _ Hmatch Hi) as (row' & Hrow' & Hs).
    rewrite Forall_lookup in Hr. rewrite (event_of_same o d _ _ Hs) in He.
    by rewrite (Hr _ _ Hrow') in He.
  - destruct Hr as [[j Hj]%list_elem_of_lookup Hrow].
    destruct (Forall2_lookup_l _ _ _ _ _ Hmatch Hj) as (x & Hx & Hsx).
    assert (x ∈ List.filter (event_of o d) s.(auditEvents)) as Hxin.
    { apply list_elem_of_In, List.filter_In. split.
      - apply list_elem_of_In. by eapply list_elem_of_lookup_2.
      - by rewrite (event_of_same o d _ _ Hsx). }
    rewrite Hlatest in Hxin. by apply elem_of_nil in Hxin.
  - done.
Qed.

Lemma orders_by_sequence : orders (λ a b, PrismaAuditLogs.by_sequence b a).
Proof. unfold PrismaAuditLogs.by_sequence. split; intros; rewrite ?Z.leb_le in *; lia. Qed.

Lemma refines_find_latest o d db s :
  mirrors (tables db) s → valid_id o → valid_id d →
  refines (PrismaAuditLogs.findLatest o d) (findLatest o d) agree_option db s.
Proof.
  intros Hm Ho Hd. apply refines_ids; [done..|].
  eapply refines_read; [apply findFirst_law, orders_by_sequence|]. intros r db' [Hr Hmax] Htab.
  eapply refines_ret; [reflexivity| |by rewrite Htab]. by eapply latest_same.
Qed.

(** What the next event takes of the latest. *)
Lemma next_of_same (r : option Prisma.AuditLog.t) (latest : option AuditEvent.t) :
  agree_option (toDomainAuditEvent <$> r) latest →
  match latest with Some e => AuditEvent.sequence e + 1 | None => 0 end%Z =
    match r with Some e => Prisma.AuditLog.sequence e + 1 | None => 0 end%Z ∧
  match latest with Some e => AuditEvent.eventHash e | None => AUDIT_GENESIS_PREVIOUS_EVENT_HASH end =
    match r with Some e => Prisma.AuditLog.eventHash e | None => AUDIT_GENESIS_PREVIOUS_EVENT_HASH end.
Proof. destruct r, latest; simpl; try done. by intros (? & ? & -> & _). Qed.

Definition create_event := refines_create (Row := Prisma.AuditLog.t) (T := AuditEvent.t).

Lemma refines_append event db s :
  mirrors (tables db) s → writer_pre (AppendEvent event) s →
  refines (PrismaAuditWriter.append true event) (append event) same db s.
Proof.
  intros Hm (Ho & Hd & [t Ht]). destruct event as [id o d type actor actorId at_ payload req].
  simpl in Ho, Hd, Ht. subst at_.
  eapply refines_lift; [by apply valid_id_field|]. eapply refines_lift; [by apply valid_id_field|].
  simpl. unfold append. simpl.
  destruct (assertApprovedAuditPayload payload 0) as [[]|e] eqn:Hok; [|by eapply refines_throw].
  apply refines_memory_lift.
  eapply refines_lift; [reflexivity|].
  eapply refines_read; [apply advisory_lock_law|]. intros _ db1 _ Htab1.
  eapply refines_read; [apply findFirst_law, orders_by_sequence|]. intros r db2 [Hr Hmax] Htab2.
  rewrite <-Htab1 in Hm.
  pose proof (latest_same o d db1 s r Hm Hr Hmax) as Hlatest. rewrite <-Htab2 in Hm. clear Hr Hmax Htab1.
  destruct (next_of_same _ _ Hlatest) as [Hseq Hprev].
  autorewrite with enums.
  set (input := AuditEventHashInput.mk _ _ _ _ _ _ _ _).
  assert (∀ k : _ → Run AuditEvent.t, (latest ← findLatest o d; k latest) s =
    k (latest_event (List.filter (event_of o d) s.(auditEvents))) s) as Hrun by done.
  destruct (computeAuditEventHash input) as [hash|e] eqn:Hhash.
  - eapply refines_lift; [reflexivity|]. eapply refines_lift; [reflexivity|].
    eapply create_event with (x := AuditEvent.mk id o d (AuditEventHashInput.sequence input) type
      actor actorId (Some t) (VObj payload) (AuditEventHashInput.previousEventHash input) hash req AUDIT_CHAIN_SCHEMA_VERSION (Some t)); [exact Hm| |].
    + intros now. destruct (json_column_object payload) as (m & Hm' & Hsame). rewrite Hm'.
      exists (Some t), payload. simpl. unfold toDomainAuditEvent. simpl. autorewrite with enums. split; [reflexivity|done].
    + intros now _. rewrite Hrun. unfold next_event. simpl. rewrite Hseq, Hprev.
      fold input. rewrite Hhash. reflexivity.
  - eapply refines_throw. rewrite Hrun. unfold next_event. simpl. rewrite Hseq, Hprev.
    fold input. rewrite Hhash. reflexivity.
Qed.

Definition create_outbox := refines_create_row (Row := Prisma.OutboxEvent.t) (T := OutboxEvent.t).
Definition create_job := refines_create_row (Row := Prisma.BackgroundJob.t) (T := BackgroundJob.t).

(** A transaction of the database that runs a method. *)
Lemma refines_transaction {A B} (m : M Exn DB A) (m' : Run B) (agree : A → B → Prop) db s :
  refines m m' agree db s → refines (transaction m) m' agree db s.
Proof.
  intros Hm. unfold refines in *. pose proof (transaction_law m db) as Hlaw.
  destruct (transaction m db) as [[a|e] db'].
  - by rewrite Hlaw in Hm.
  - destruct Hlaw as [_ Hlaw]. intros He. specialize (Hlaw He).
    destruct (m db) as [r db'']. simpl in Hlaw. subst r. by apply Hm.
Qed.

Lemma refines_publish now input db s :
  mirrors (tables db) s → writer_pre (PublishJob now input) s →
  refines (PrismaJobPublisher.publish now input) (Jobs.publish input) same db s.
Proof.
  intros Hm (Ho & [i Hi] & [t Ht]). destruct input as [id o d type payload req avail jobId attempts].
  simpl in Ho, Hi, Ht. subst avail jobId.
  eapply refines_lift; [by apply valid_id_field|].
  unfold Jobs.publish. cbn [Jobs.PublishInput.payload Jobs.PublishInput.availableAt default].
  destruct (assertSafeJobPayload payload) as [[]|e] eqn:Hok; [|by eapply refines_throw].
  apply refines_memory_lift. eapply refines_lift; [reflexivity|].
  set (event := Jobs.new_event (Jobs.PublishInput.mk id o d type payload req (Some t) (Some i) attempts) t).
  set (job := Jobs.new_job (Jobs.PublishInput.mk id o d type payload req (Some t) (Some i) attempts) t).
  eapply refines_bind with (s1 := s) (m1 := event ← push event; push job;; mret event)
    (agree1 := λ row, same (toDomainOutboxEvent row)).
  - apply refines_transaction. eapply refines_bind with (s1 := s) (m1 := push event); [| |done].
    + apply create_outbox with (x := event); [exact Hm| |done]. intros now'.
      destruct (json_column_object payload) as (m & Hm' & Hsame).
      exists (t, t), payload. simpl. rewrite Hm'. by split.
    + intros row x db' s' [= <- <-] Hrow Hm'.
      eapply refines_bind with (m1 := push job); [| |done].
      * apply create_job with (x := job); [exact Hm'| |done]. intros now'. by exists (t, t).
      * intros jrow y db'' s'' [= <- <-] _ Hm''. by eapply refines_ret.
  - intros row x db' s' Hrun Hrow Hm'. eapply refines_ret; [|exact Hrow|exact Hm']. exact Hrun.
  - done.
Qed.

Lemma writer_refines {A} (c : WriterCall A) db s :
  mirrors (tables db) s → writer_pre c s →
  refines (writer_prisma c) (writer_memory c) (writer_agree c) db s.
Proof.
  intros Hm Hpre. destruct c.
  - destruct Hpre. by apply refines_find_latest.
  - by apply refines_append.
  - by apply refines_publish.
Qed.
End writers.
