(* ===== verification/PrismaUnitOfWork.v ===== *)
(** Units of work: a program of repository calls run in a transaction of the
    database refines the same program run on the in-memory repositories.  From
    [packages/database/src/infrastructure/prisma-unit-of-work.ts]. *)

From Stdlib Require Import String.
From S2P Require Export PrismaWriterRefinement.
Local Open Scope string_scope.

(** ** The unit of work *)

(* [src: packages/database/src/infrastructure/prisma-unit-of-work.ts:7-20 createPrismaUnitOfWork] *)
Definition run_unit_of_work {DB} `{!PrismaClient DB} {A} (work : M Exn DB A) : M Exn DB A :=
  transaction work.

(** ** Programs of repository calls *)

Section programs.
Context {DB : Type} `{!PrismaClient DB} `{!PrismaLaws DB} `{!PrismaColumns} `{!ColumnLaws} `{Env}.

Inductive Call : Type → Type :=
  | DocumentOp {A} (c : DocumentCall A) : Call A
  | UploadOp {A} (c : UploadCall A) : Call A
  | SigningOp {A} (c : SigningCall A) : Call A
  | WriterOp {A} (c : WriterCall A) : Call A.

Definition on_database {A} (c : Call A) : M Exn DB A :=
  match c with
  | DocumentOp c => document_prisma c
  | UploadOp c => upload_prisma c
  | SigningOp c => signing_prisma c
  | WriterOp c => writer_prisma c
  end.

Definition in_memory {A} (c : Call A) : Run A :=
  match c with
  | DocumentOp c => document_memory c
  | UploadOp c => upload_memory c
  | SigningOp c => signing_memory c
  | WriterOp c => writer_memory c
  end.

Definition call_pre {A} (c : Call A) (s : St) : Prop :=
  match c with
  | DocumentOp c => document_pre c s
  | UploadOp c => upload_pre c s
  | SigningOp c => signing_pre c s
  | WriterOp c => writer_pre c s
  end.

Definition call_agree {A} (c : Call A) : A → A → Prop :=
  match c with
  | DocumentOp c => document_agree c
  | UploadOp c => upload_agree c
  | SigningOp c => signing_agree c
  | WriterOp c => writer_agree c
  end.

Lemma call_refines {A} (c : Call A) db s :
  mirrors (tables db) s → call_pre c s →
  refines (on_database c) (in_memory c) (call_agree c) db s.
Proof.
  destruct c; [apply document_refines|apply upload_refines|apply signing_refines|apply writer_refines].
Qed.

(** What the callback of a unit of work does: calls, an answer or an error. *)
Inductive Script (A : Type) : Type :=
  | Return (a : A)
  | Raise (e : Exn)
  | Await {B} (c : Call B) (k : B → Script A).
Arguments Return {A} _.
Arguments Raise {A} _.
Arguments Await {A B} _ _.

Fixpoint database_run {A} (p : Script A) : M Exn DB A :=
  match p with
  | Return a => mret a
  | Raise e => throw e
  | Await c k => x ← on_database c; database_run (k x)
  end.

Fixpoint memory_run {A} (p : Script A) : Run A :=
  match p with
  | Return a => mret a
  | Raise e => throw e
  | Await c k => x ← in_memory c; memory_run (k x)
  end.

(** The program makes each call where its precondition holds. *)
Fixpoint safe {A} (p : Script A) (s : St) : Prop :=
  match p with
  | Return _ | Raise _ => True
  | Await c k => call_pre c s ∧ ∀ x s', in_memory c s = (Ok x, s') → safe (k x) s'
  end.

(** Two programs that do the same with answers that agree. *)
Inductive alike {A B} (agree : A → B → Prop) : Script A → Script B → Prop :=
  | alike_return a b : agree a b → alike agree (Return a) (Return b)
  | alike_raise e e' : alike agree (Raise e) (Raise e')
  | alike_await {C} (c : Call C) k k' :
      (∀ x y, call_agree c x y → alike agree (k x) (k' y)) →
      alike agree (Await c k) (Await c k').

Lemma script_refines {A B} (agree : A → B → Prop) p p' db s :
  alike agree p p' → mirrors (tables db) s → safe p' s →
  refines (database_run p) (memory_run p') agree db s.
Proof.
  intros Hp. revert db s. induction Hp as [a b Hab | e e' | C c k k' _ IH]; intros db s Hm Hsafe; simpl.
  - by eapply refines_ret.
  - by eapply refines_throw.
  - destruct Hsafe as [Hpre Hk]. eapply refines_bind; [by apply call_refines|..].
    + intros x y db' s' Hrun Hxy Hm'. specialize (IH x y Hxy db' s' Hm' (Hk _ _ Hrun)).
      unfold refines in *. destruct (database_run (k x) db') as [[a|e] db''].
      * destruct IH as (b & s'' & Hb & ?). exists b, s''. split; [|done].
        unfold mbind, M_bind. by rewrite Hrun.
      * intros He. destruct (IH He) as (e' & s'' & Hb). exists e', s''.
        unfold mbind, M_bind. by rewrite Hrun.
    + intros e s' Hrun. exists e, s'. unfold mbind, M_bind. by rewrite Hrun.
Qed.

End programs.
Arguments Return {A} _.
Arguments Raise {A} _.
Arguments Await {A B} _ _.

(** ** An example on plain lists *)
Module PrismaSample.

#[export] Instance columns : PrismaColumns := {|
  decimal_column v := match v with
    | NInt z => Ok z
    | NFlt _ => Throw (OtherError "PrismaClientValidationError" "Invalid value for argument")
    end;
  decimal_toNumber := NInt;
  int_column v := match v with
    | NInt z => Ok z
    | NFlt _ => Throw (OtherError "PrismaClientValidationError" "Invalid value for argument")
    end;
  json_column v := v
|}.

#[export] Instance column_laws : ColumnLaws.
Proof. split; [done|]. intros m. by exists m. Qed.

Definition org : string := Sample.uuid 1.
Definition doc : string := Sample.uuid 2.

Definition draft : Document.t :=
  Document.mk doc org (Sample.uuid 3) "Lease" DocumentState.draft SigningMode.ordered
    DocumentInspectionStatus.pending None None None None 1 None None 0 0 0.

Definition job : Jobs.PublishInput.t :=
  Jobs.PublishInput.mk (Sample.uuid 4) org (Some doc) "inspect" [("documentId", VStr doc)]
    None (Some 5%Z) (Some (Sample.uuid 5)) None.

(** A draft is created, its signing mode changed and a job published. *)
Definition work : Script Z :=
  Await (DocumentOp (CreateDocument draft)) (λ created,
  Await (DocumentOp (SetSigningMode org doc 1 SigningMode.parallel)) (λ _,
  Await (WriterOp (PublishJob 0 job)) (λ _,
  Await (DocumentOp (FindDocument org doc)) (λ found,
  match found with
  | Some document => Return (Document.version document)
  | None => Raise (notFound "document")
  end)))).
End PrismaSample.

Import PrismaSample Sample.
#[local] Existing Instances Lists.client Lists.laws env.


(** Failing the finalization of a document that another worker has leased: memory
    fails it, the database leaves it. *)
Module LeaseSample.
Definition leased : Document.t :=
  Document.set_state DocumentState.finalizing (Document.set_leaseOwner (Some "first") draft).
Definition tables_leased : Tables.t :=
  Tables.set_documents [PrismaDocuments.to_row org leased] Tables.empty.
Definition db : Lists.t := Lists.mk 1 tables_leased eq_refl.
End LeaseSample.

Example failed_finalization_differs :
  Document.state <$> (match (PrismaDocuments.markFinalizationFailed org doc "second" LeaseSample.db).1 with
                      | Ok d => Some d | Throw _ => None end) = Some DocumentState.finalizing ∧
  Document.state <$> (match (Documents.markFinalizationFailed org doc "second"
                               (set_documents [LeaseSample.leased] empty_store)).1 with
                      | Ok d => Some d | Throw _ => None end) = Some DocumentState.finalization_failed.
Proof. vm_compute. split; reflexivity. Qed.
