(* ===== verification/PrismaClaims.v ===== *)
(** The claimer on the database: what a claim takes, in what order, and what it
    leaves when it takes nothing or fails. *)

From Stdlib Require Import String Sorted.
From S2P Require Export PrismaUnitOfWork.
Import PrismaOutboxClaimer.
Local Open Scope string_scope.

(** ** Runs of the client

    What a method of the client gives when it answers; when it throws, the error
    is the client's own. *)

Section runs.
Context {DB : Type} `{!PrismaClient DB} `{!PrismaLaws DB}.

Definition gives {A} (m : M Exn DB A) (Q : A → DB → Prop) (db : DB) : Prop :=
  match m db with
  | (Ok a, db') => Q a db'
  | (Throw e, _) => isApplicationError e = false
  end.

Lemma gives_ret {A} (a : A) (Q : A → DB → Prop) db : Q a db → gives (mret a) Q db.
Proof. done. Qed.

Lemma gives_call {A B} (m : M Exn DB A) (f : A → M Exn DB B) P (Q : B → DB → Prop) db :
  answers tables m P →
  (∀ a db', P a (tables db) (tables db') → gives (f a) Q db') → gives (m ≫= f) Q db.
Proof.
  intros Hm Hf. specialize (Hm db). unfold gives, mbind, M_bind in *.
  destruct (m db) as [[a|e] db']; [by apply Hf|]. by destruct Hm.
Qed.

Lemma gives_bind {A B} (m : M Exn DB A) (f : A → M Exn DB B) P (Q : B → DB → Prop) db :
  gives m P db → (∀ a db', P a db' → gives (f a) Q db') → gives (m ≫= f) Q db.
Proof.
  intros Hm Hf. unfold gives, mbind, M_bind in *.
  destruct (m db) as [[a|e] db']; [by apply Hf|done].
Qed.

(** A transaction leaves no trace of a run that throws. *)
Lemma gives_transaction {A} (m : M Exn DB A) (Q : A → DB → Prop) db :
  gives m Q db →
  match transaction m db with
  | (Ok a, db') => Q a db'
  | (Throw e, db') => tables db' = tables db ∧ isApplicationError e = false
  end.
Proof.
  intros Hm. unfold gives in Hm. pose proof (transaction_law m db) as Hlaw.
  destruct (transaction m db) as [[a|e] db'].
  - by rewrite Hlaw in Hm.
  - destruct Hlaw as [Htab Hlaw]. split; [done|].
    destruct (isApplicationError e) eqn:He; [|done]. specialize (Hlaw eq_refl).
    destruct (m db) as [r db'']. simpl in Hlaw. subst r. by rewrite Hm in He.
Qed.
End runs.

(** ** The order of the queue *)

Lemma orders_due_first : orders due_first.
Proof.
  unfold due_first. split.
  - intros a b. destruct (Z.lt_trichotomy (Prisma.OutboxEvent.availableAt a)
      (Prisma.OutboxEvent.availableAt b)) as [Hlt | [-> | Hlt]].
    + left. apply Z.ltb_lt in Hlt. by rewrite Hlt.
    + rewrite Z.eqb_refl, Z.ltb_irrefl. simpl. apply string_leb_total.
    + right. apply Z.ltb_lt in Hlt. by rewrite Hlt.
  - intros a b c. rewrite !orb_true_iff, !andb_true_iff, !Z.ltb_lt, !Z.eqb_eq.
    intros [?|[? Hab]] [?|[? Hbc]]; [left; lia..|]. right. split; [lia|]. by eapply string_leb_trans.
Qed.

Section claims.
Context {DB : Type} `{!PrismaClient DB} `{!PrismaLaws DB} `{!PrismaColumns}.

(** At most one job belongs to an event. *)
Definition one_job_each (T : Tables.t) : Prop :=
  ∀ event i j a b, Tables.backgroundJobs T !! i = Some a → Tables.backgroundJobs T !! j = Some b →
    job_of event a = true → job_of event b = true → i = j.

(** The job the claim leases: the job of the event, or a new one. *)
Definition leased_job_row (row : Prisma.OutboxEvent.t) (owner : string) (leaseUntil : Z)
    (jobs jobs' : list Prisma.BackgroundJob.t) (job : Prisma.BackgroundJob.t) : Prop :=
  (∃ i old t, only_at (job_of row) jobs i old ∧ job = touch t (lease_job owner leaseUntil old) ∧
     jobs' = <[i := job]> jobs) ∨
  (Forall (λ old, job_of row old = false) jobs ∧
   (∃ i t, job = new_job row i owner leaseUntil t) ∧ jobs' = (jobs ++ [job])%list).

Lemma finds_only {Row} (p : Row → bool) l i row r :
  only_at p l i row → finds p l r → r = Some row.
Proof.
  intros (Hl & Hp & Honly) Hr. destruct r as [row'|]; simpl in Hr.
  - destruct Hr as [[j Hj]%list_elem_of_lookup Hp']. specialize (Honly _ _ Hj Hp') as ->.
    by rewrite Hl in Hj.
  - rewrite Forall_lookup in Hr. by rewrite (Hr _ _ Hl) in Hp.
Qed.

Lemma job_of_leased event owner leaseUntil t old :
  job_of event (touch t (lease_job owner leaseUntil old)) = job_of event old.
Proof. reflexivity. Qed.

(** A leased job, read back. *)
Lemma read_job event job (k : Prisma.BackgroundJob.t → M Exn DB (option ClaimedOutboxWork.t)) Q db :
  finds (job_of event) (Tables.backgroundJobs (tables db)) (Some job) →
  (∀ job', finds (job_of event) (Tables.backgroundJobs (tables db)) (Some job') → job' = job) →
  (∀ db', tables db' = tables db → gives (k job) Q db') →
  gives (found ← findFirst (job_of event) unordered;
         match found with None => mret None | Some job => k job end) Q db.
Proof.
  intros [Hin Hjob] Honly Hk. eapply gives_call; [apply findFirst_finds|].
  intros r db' [Hr Htab]. simpl in Hr. destruct r as [job'|].
  - rewrite (Honly _ Hr). by apply Hk.
  - simpl in Hr. rewrite Forall_forall in Hr. by rewrite (Hr _ Hin) in Hjob.
Qed.

Lemma lease_or_create_gives event owner leaseUntil db :
  one_job_each (tables db) →
  gives (lease_or_create_job event owner leaseUntil) (λ _ db', ∃ job jobs',
    leased_job_row event owner leaseUntil (Tables.backgroundJobs (tables db)) jobs' job ∧
    tables db' = Tables.set_backgroundJobs jobs' (tables db)) db.
Proof.
  intros Hone. unfold lease_or_create_job.
  eapply gives_call; [apply findFirst_finds|]. intros r db1 [Hr Htab1]. simpl in Hr.
  rewrite <-Htab1 in Hone |- *. rewrite <-Htab1 in Hr. clear Htab1 db. rename db1 into db.
  destruct r as [old|]; simpl in Hr.
  - destruct Hr as [[i Hi]%list_elem_of_lookup Hjob].
    eapply gives_call; [apply updateMany_law|]. intros n db' (_ & t & Htab).
    assert (only_at (λ row : Prisma.BackgroundJob.t,
        in_org (Prisma.OutboxEvent.organizationId event) row &&
        String.eqb (Prisma.BackgroundJob.id row) (Prisma.BackgroundJob.id old))
      (Tables.backgroundJobs (tables db)) i old) as Hat.
    { split_and!; [done| |].
      - unfold job_of in Hjob. apply andb_true_iff in Hjob as [-> _]. by rewrite String.eqb_refl.
      - intros j y Hy [_ Hid%String.eqb_eq]%andb_true_iff.
        pose proof (mirror_unique (Row := Prisma.BackgroundJob.t) (T := BackgroundJob.t) _
          (tables_unique db)) as Hu.
        eapply (unique_rows_only clash (λ x, String.eqb (Prisma.BackgroundJob.id x)
          (Prisma.BackgroundJob.id old)) _ _ _ y old Hu); [|done|exact Hi|..].
        + intros a b Ha%String.eqb_eq Hb%String.eqb_eq. unfold clash. simpl.
          by rewrite Ha, Hb, String.eqb_refl.
        + by rewrite Hid, String.eqb_refl.
        + by rewrite String.eqb_refl. }
    rewrite (updated_ext _ (λ row, (in_org (Prisma.OutboxEvent.organizationId event) row &&
      String.eqb (Prisma.BackgroundJob.id row) (Prisma.BackgroundJob.id old)) && true)) in Htab
      by (intros; by rewrite andb_true_r).
    rewrite (only_at_updated _ _ _ _ _ _ _ Hat) in Htab.
    eexists _, _. split; [|exact Htab]. left. exists i, old, t. split_and!; [|done..].
    split_and!; [done..|]. intros j y Hy Hy'. by eapply (Hone event).
  - eapply gives_call; [apply randomUUID_law|]. intros jobId db1 [_ Htab1].
    eapply gives_call; [apply create_law|]. intros row db' [[t ->] Htab].
    rewrite Htab1 in Htab. eexists _, _. split; [|exact Htab]. right.
    split_and!; [done|by eexists _, _|done].
Qed.

(** The leased job is the one the event has. *)
Lemma leased_job_only row owner leaseUntil jobs jobs' job :
  leased_job_row row owner leaseUntil jobs jobs' job →
  finds (job_of row) jobs' (Some job) ∧ ∀ job', finds (job_of row) jobs' (Some job') → job' = job.
Proof.
  intros [(i & old & t & (Hl & Hp & Honly) & -> & ->) | (Hnone & (id & t & ->) & ->)].
  - assert (<[i := touch t (lease_job owner leaseUntil old)]> jobs !! i =
      Some (touch t (lease_job owner leaseUntil old))) as Hi
      by (apply list_lookup_insert_eq; by eapply lookup_lt_Some).
    split; [split; [by eapply list_elem_of_lookup_2|by rewrite job_of_leased]|].
    intros job' [[j Hj]%list_elem_of_lookup Hjob].
    destruct (decide (i = j)) as [<-|Hne]; [by rewrite Hi in Hj; injection Hj|].
    rewrite list_lookup_insert_ne in Hj by done. by rewrite (Honly _ _ Hj Hjob) in Hne.
  - assert (job_of row (new_job row id owner leaseUntil t) = true) as Hnew.
    { unfold job_of, in_org. simpl. by rewrite String.eqb_refl, bool_decide_true. }
    split; [split; [apply elem_of_app; right; by left|done]|].
    intros job' [[Hin | ->%list_elem_of_singleton]%elem_of_app Hjob]; [|done].
    rewrite Forall_forall in Hnone. by rewrite (Hnone _ Hin) in Hjob.
Qed.

(** What a claim took: the earliest claimable event, now leased, and its job. *)
Definition claimed (type : string) (now : Z) (owner : string) (leaseUntil : Z) (T T' : Tables.t)
    (work : ClaimedOutboxWork.t) : Prop :=
  ∃ i row job jobs', Tables.outboxEvents T !! i = Some row ∧ claimable type now row = true ∧
    (∀ y, y ∈ Tables.outboxEvents T → claimable type now y = true → due_first row y = true) ∧
    leased_job_row (lease_event owner leaseUntil row) owner leaseUntil (Tables.backgroundJobs T)
      jobs' job ∧
    T' = Tables.set_backgroundJobs jobs' (Tables.set_outboxEvents
           (<[i := lease_event owner leaseUntil row]> (Tables.outboxEvents T)) T) ∧
    work = ClaimedOutboxWork.mk (toDomainOutboxEvent (lease_event owner leaseUntil row))
      (toDomainBackgroundJob job)
      (bool_decide (Prisma.OutboxEvent.status row = Prisma.OutboxStatus.processing)).

Lemma claim_gives type now owner leaseUntil db :
  one_job_each (tables db) →
  match claimNextByType type now owner leaseUntil db with
  | (Ok None, db') => Forall (λ row, claimable type now row = false) (Tables.outboxEvents (tables db)) ∧
      tables db' = tables db
  | (Ok (Some work), db') => claimed type now owner leaseUntil (tables db) (tables db') work
  | (Throw e, db') => tables db' = tables db ∧ isApplicationError e = false
  end.
Proof.
  intros Hone. set (Q := λ r db', match r with
    | None => Forall (λ row, claimable type now row = false) (Tables.outboxEvents (tables db)) ∧
        tables db' = tables db
    | Some work => claimed type now owner leaseUntil (tables db) (tables db') work
    end).
  match goal with |- match ?run with _ => _ end =>
    cut (match run with (Ok r, db') => Q r db'
                   | (Throw e, db') => tables db' = tables db ∧ isApplicationError e = false end)
  end; [by destruct (claimNextByType _ _ _ _ _) as [[[work|]|e] db']|].
  apply gives_transaction. eapply gives_call; [apply update_first_row_law, orders_due_first|].
  intros [row|] db1 Hfirst; [|by destruct Hfirst].
  destruct Hfirst as (i & Hi & Hclaim & Hmin & Htab1). simpl in Hi, Hmin, Htab1.
  eapply gives_call; [apply findFirst_finds|]. intros r db2 [Hr Htab2]. simpl in Hr.
  assert (r = Some (lease_event owner leaseUntil row)) as ->.
  { eapply finds_only; [|exact Hr]. rewrite Htab1. simpl.
    assert (<[i := lease_event owner leaseUntil row]> (Tables.outboxEvents (tables db)) !! i =
      Some (lease_event owner leaseUntil row)) as Hi'
      by (apply list_lookup_insert_eq; by eapply lookup_lt_Some).
    split_and!; [exact Hi'| |].
    - unfold at_key, in_org. simpl. by rewrite !String.eqb_refl.
    - intros j y Hy Hkey.
      pose proof (mirror_unique (Row := Prisma.OutboxEvent.t) (T := OutboxEvent.t) _
        (tables_unique db1)) as Hu. rewrite Htab1 in Hu.
      change (table _) with (<[i := lease_event owner leaseUntil row]> (Tables.outboxEvents (tables db))) in Hu.
      eapply (unique_rows_only clash (at_key (Prisma.OutboxEvent.organizationId row)
        (Prisma.OutboxEvent.id row)) _ _ _ y _ Hu); [|exact Hy|exact Hi'|exact Hkey|].
      + apply (mirror_clash (Row := Prisma.OutboxEvent.t) (T := OutboxEvent.t)).
      + unfold at_key, in_org. simpl. by rewrite !String.eqb_refl. }
  eapply gives_bind; [apply lease_or_create_gives|].
  { rewrite Htab2, Htab1. exact Hone. }
  intros _ db3 (job & jobs' & Hjob & Htab3). rewrite Htab2, Htab1 in Hjob, Htab3. simpl in Hjob.
  destruct (leased_job_only _ _ _ _ _ _ Hjob) as [Hfind Honly].
  assert (Tables.backgroundJobs (tables db3) = jobs') as Hjobs by (by rewrite Htab3).
  eapply read_job with (job := job); [by rewrite Hjobs|by rewrite Hjobs|].
  intros db4 Htab4. apply gives_ret. unfold Q. exists i, row, job, jobs'.
  split_and!; [done..|by rewrite Htab4, Htab3|done].
Qed.

(** The claimer on the database takes the earliest event that is due and
    pending or whose lease has run out, by [availableAt] and then by identifier;
    it leases that event and its job, which it creates when there is none, and
    nothing else changes.  It takes nothing exactly when there is nothing to
    take, and fails only when the database does, without a trace. *)
Theorem prisma_claims_earliest type now owner leaseUntil db :
  one_job_each (tables db) →
  match claimNextByType type now owner leaseUntil db with
  | (Ok None, db') => Forall (λ row, claimable type now row = false) (Tables.outboxEvents (tables db)) ∧
      tables db' = tables db
  | (Ok (Some work), db') => claimed type now owner leaseUntil (tables db) (tables db') work
  | (Throw e, db') => tables db' = tables db ∧ isApplicationError e = false
  end.
Proof. apply claim_gives. Qed.
End claims.

(** ** An example: one pending event and its job *)
Module ClaimSample.
Import PrismaSample.

Definition event_row : Prisma.OutboxEvent.t :=
  Prisma.OutboxEvent.mk (Sample.uuid 4) org (Some doc) "inspect" Prisma.OutboxStatus.pending
    (VObj [("documentId", VStr doc)]) None 0 None None 5 None None 3 3.
Definition job_row : Prisma.BackgroundJob.t :=
  Prisma.BackgroundJob.mk (Sample.uuid 5) org (Some doc) (Some (Sample.uuid 4)) "inspect"
    Prisma.BackgroundJobStatus.pending 0 5 None None 5 None None 1 3 3.
Definition queue : Tables.t :=
  Tables.set_backgroundJobs [job_row] (Tables.set_outboxEvents [event_row] Tables.empty).
Definition db : Lists.t := Lists.mk 7 queue eq_refl.
End ClaimSample.

Lemma one_row {Row} (x a b : Row) i j : [x] !! i = Some a → [x] !! j = Some b → i = j.
Proof. by destruct i, j. Qed.

Import PrismaSample ClaimSample.
#[local] Existing Instances Lists.client Lists.laws.

Lemma prisma_claims_earliest_witness :
  match claimNextByType "inspect" 8 "worker" 20 ClaimSample.db with
  | (Ok (Some work), db') =>
    OutboxEvent.id (ClaimedOutboxWork.event work) = Sample.uuid 4 ∧
    claimed "inspect" 8 "worker" 20 queue (tables db') work
  | _ => False
  end.
Proof.
  assert (one_job_each (tables ClaimSample.db)) as Hone.
  { intros event i j a b Ha Hb _ _. exact (one_row job_row a b i j Ha Hb). }
  pose proof (prisma_claims_earliest "inspect" 8 "worker" 20 ClaimSample.db Hone) as Hclaim.
  assert (match claimNextByType "inspect" 8 "worker" 20 ClaimSample.db with
          | (Ok (Some work), _) => OutboxEvent.id (ClaimedOutboxWork.event work) = Sample.uuid 4
          | _ => False
          end) as Hid by (vm_compute; reflexivity).
  by destruct (claimNextByType _ _ _ _ _) as [[[work|]|e] db'].
Defined.
