(* ===== verification/PrismaClaimerRefinement.v ===== *)
(** Claiming and settling on the database refine the claimer in memory. *)

From Stdlib Require Import String Sorted.
From S2P Require Export PrismaClaims.
Local Open Scope string_scope.


Lemma find_index_ext {T} (p q : T → bool) l :
  (∀ x, x ∈ l → p x = q x) → find_index p l = find_index q l.
Proof.
  intros Hpq. destruct (find_index q l) as [[i x]|] eqn:Hf.
  - apply find_index_Some in Hf as (Hx & Hq & Hbefore). apply find_index_Some. split_and!.
    + done.
    + rewrite Hpq; [done|by eapply list_elem_of_lookup_2].
    + intros j y Hy Hj. rewrite Hpq; [by eapply Hbefore|by eapply list_elem_of_lookup_2].
  - apply find_index_None. intros x Hx. rewrite Hpq by done. by eapply find_index_None.
Qed.

(** The order of the queue on events in memory. *)
Definition earlier (a b : OutboxEvent.t) : bool :=
  (OutboxEvent.availableAt a <? OutboxEvent.availableAt b)%Z ||
  (OutboxEvent.availableAt a =? OutboxEvent.availableAt b)%Z &&
  string_leb (OutboxEvent.id a) (OutboxEvent.id b).

Definition job_of_event (event : OutboxEvent.t) (job : BackgroundJob.t) : bool :=
  bool_decide (BackgroundJob.outboxEventId job = Some (OutboxEvent.id event)).

Section claimer.
Context {DB : Type} `{!PrismaClient DB} `{!PrismaLaws DB} `{!PrismaColumns}.

Inductive ClaimerCall : Type → Type :=
  | Claim (type : string) (now : Z) (owner : string) (leaseUntil : Z) :
      ClaimerCall (option ClaimedOutboxWork.t)
  | MarkProcessed (o : Outcome.t) (at_ : Z) : ClaimerCall unit
  | ScheduleRetry (o : Outcome.t) (errorCode : string) (availableAt : Z) : ClaimerCall unit
  | MarkDeadLettered (o : Outcome.t) (errorCode : string) : ClaimerCall unit.

Definition claimer_prisma {A} (c : ClaimerCall A) : M Exn DB A :=
  match c with
  | Claim type now owner leaseUntil => PrismaOutboxClaimer.claimNextByType type now owner leaseUntil
  | MarkProcessed o t => PrismaOutboxClaimer.markProcessed o t
  | ScheduleRetry o e t => PrismaOutboxClaimer.scheduleRetry o e t
  | MarkDeadLettered o e => PrismaOutboxClaimer.markDeadLettered o e
  end.

Definition claimer_memory {A} (c : ClaimerCall A) : Run A :=
  match c with
  | Claim type now owner leaseUntil => claimNextByType type now owner leaseUntil
  | MarkProcessed o t => markProcessed o t
  | ScheduleRetry o e t => scheduleRetry o e t
  | MarkDeadLettered o e => markDeadLettered o e
  end.

(** The jobs an owner holds are leased and their event is held as well. *)
Definition settle_pre (o : Outcome.t) (s : St) : Prop :=
  ∀ j, j ∈ s.(backgroundJobs) → held_job o j = true →
    BackgroundJob.status j = BackgroundJobStatus.leased ∧
    ∃ e, e ∈ s.(outboxEvents) ∧ held_event o e = true.

(** At most one job belongs to an event; the first event memory finds is the
    earliest, and has a job of its organization, which publishing gives it. *)
Definition claim_pre (type : string) (now : Z) (s : St) : Prop :=
  (∀ e i j a b, s.(backgroundJobs) !! i = Some a → s.(backgroundJobs) !! j = Some b →
     job_of_event e a = true → job_of_event e b = true → i = j) ∧
  ∀ i e, find_index (claimable type now) s.(outboxEvents) = Some (i, e) →
    (∀ y, y ∈ s.(outboxEvents) → claimable type now y = true → earlier e y = true) ∧
    ∃ j, j ∈ s.(backgroundJobs) ∧ job_of_event e j = true ∧
      BackgroundJob.organizationId j = OutboxEvent.organizationId e.

Definition claimer_pre {A} (c : ClaimerCall A) (s : St) : Prop :=
  match c with
  | Claim type now _ _ => claim_pre type now s
  | MarkProcessed o _ | ScheduleRetry o _ _ | MarkDeadLettered o _ => settle_pre o s
  end.

Definition agree_claimed (a b : option ClaimedOutboxWork.t) : Prop :=
  match a, b with
  | Some a, Some b => same (ClaimedOutboxWork.event a) (ClaimedOutboxWork.event b) ∧
      same (ClaimedOutboxWork.job a) (ClaimedOutboxWork.job b) ∧
      ClaimedOutboxWork.leaseRecovered a = ClaimedOutboxWork.leaseRecovered b
  | None, None => True
  | _, _ => False
  end.

Definition claimer_agree {A} (c : ClaimerCall A) : A → A → Prop :=
  match c with
  | Claim _ _ _ _ => agree_claimed
  | MarkProcessed _ _ | ScheduleRetry _ _ _ | MarkDeadLettered _ _ => eq
  end.

Lemma put_outbox T s l l' :
  mirrors T s → rows_match toDomainOutboxEvent l l' →
  mirrors (Tables.set_outboxEvents l T) (set_outboxEvents l' s).
Proof. exact (mirror_put (Row := Prisma.OutboxEvent.t) (T := OutboxEvent.t) T s l l'). Qed.
Lemma put_jobs T s l l' :
  mirrors T s → rows_match toDomainBackgroundJob l l' →
  mirrors (Tables.set_backgroundJobs l T) (set_backgroundJobs l' s).
Proof. exact (mirror_put (Row := Prisma.BackgroundJob.t) (T := BackgroundJob.t) T s l l'). Qed.

Lemma held_event_same o row x :
  same (toDomainOutboxEvent row) x → held_event o x = PrismaOutboxClaimer.held_event o row.
Proof.
  intros (? & ? & -> & _). unfold held_event, PrismaOutboxClaimer.held_event. simpl.
  do 3 f_equal. apply bool_decide_ext. by destruct (Prisma.OutboxEvent.status row).
Qed.

Lemma held_job_same o row x :
  same (toDomainBackgroundJob row) x →
  held_job o x && bool_decide (BackgroundJob.status x = BackgroundJobStatus.leased) =
  PrismaOutboxClaimer.held_job o row.
Proof.
  intros [? ->]. unfold held_job, PrismaOutboxClaimer.held_job. simpl. rewrite <-!andb_assoc.
  do 3 f_equal. apply bool_decide_ext. by destruct (Prisma.BackgroundJob.status row).
Qed.

(** [updateMany] on rows of which one at most matches, against the update of the
    first row in memory. *)
Lemma update_first_mirrors {Row T} `{!Model Row, !TenantRow Row, !Table T, !Same T, !Mirror Row T}
    (p : Row → bool) (q : T → bool) data f now db db' s :
  mirrors (tables db) s →
  (∀ x y, p x = true → p y = true → clash x y = true) →
  (∀ row x, same (toDomain row) x → q x = p row) →
  (∀ row x, same (toDomain row) x → p row = true → same (toDomain (touch now (data row))) (f x)) →
  tables db' = set_table (updated p data now (table (tables db))) (tables db) →
  ∃ s', update_first q f s = (Ok tt, s') ∧ mirrors (tables db') s'.
Proof.
  intros Hm Hclash Hq Hf Htab.
  destruct (keyed_rows toDomain clash p q _ _ (mirror_get _ _ Hm) (mirror_unique _ (tables_unique db))
    Hclash Hq) as [[Hnone Hall] | (i & row & x & Hx & _ & Hs & Hat)].
  - exists s. unfold update_first, modify. rewrite Hnone. split; [done|].
    rewrite updated_none, set_table_table in Htab by done. by rewrite Htab.
  - unfold update_first, modify. rewrite Hx. eexists. split; [reflexivity|].
    rewrite (updated_ext _ (λ row, p row && true)) in Htab by (intros; by rewrite andb_true_r).
    rewrite (only_at_updated _ _ _ _ _ _ _ Hat) in Htab. rewrite Htab.
    apply mirror_put; [done|]. apply rows_match_insert; [by apply mirror_get|].
    apply Hf; [done|]. by destruct Hat as (_ & ? & _).
Qed.

Definition update_outbox := update_first_mirrors (Row := Prisma.OutboxEvent.t) (T := OutboxEvent.t).
Definition update_job := update_first_mirrors (Row := Prisma.BackgroundJob.t) (T := BackgroundJob.t).

Lemma held_events_clash o a b :
  PrismaOutboxClaimer.held_event o a = true → PrismaOutboxClaimer.held_event o b = true →
  clash a b = true.
Proof.
  unfold PrismaOutboxClaimer.held_event, clash. simpl. intros Ha Hb. bools.
  repeat match goal with H : _ = _ |- _ => rewrite H end. by rewrite String.eqb_refl.
Qed.

Lemma held_jobs_clash o a b :
  PrismaOutboxClaimer.held_job o a = true → PrismaOutboxClaimer.held_job o b = true →
  clash a b = true.
Proof.
  unfold PrismaOutboxClaimer.held_job, clash. simpl. intros Ha Hb. bools.
  repeat match goal with H : _ = _ |- _ => rewrite H end. by rewrite String.eqb_refl.
Qed.

Lemma outbox_first_jobs (q : OutboxEvent.t → bool) f s :
  ∃ s', update_first q f s = (Ok tt, s') ∧ s'.(backgroundJobs) = s.(backgroundJobs).
Proof.
  unfold update_first, modify. destruct (find_index q _) as [[i x]|]; eexists; by split.
Qed.

Lemma refines_settle_work o ev jb ev' job_held jb' db s :
  mirrors (tables db) s → settle_pre o s →
  (∀ row x now, same (toDomainOutboxEvent row) x →
     same (toDomainOutboxEvent (touch now (ev (PrismaOutboxClaimer.unleased_event row)))) (ev' x)) →
  (∀ row x e now, same (toDomainBackgroundJob row) x →
     same (toDomainBackgroundJob (touch now (jb (PrismaOutboxClaimer.unleased_job row)))) (jb' e x)) →
  (∀ x, x ∈ s.(backgroundJobs) → job_held x =
     held_job o x && bool_decide (BackgroundJob.status x = BackgroundJobStatus.leased)) →
  refines (PrismaOutboxClaimer.settle o ev jb) (settle o ev' job_held jb') eq db s.
Proof.
  intros Hm Hpre Hev Hjb Hheld. apply refines_transaction.
  eapply refines_call; [apply updateMany_law|]. intros n1 db1 (_ & now1 & Htab1).
  eapply refines_call; [apply updateMany_law|]. intros n2 db2 (_ & now2 & Htab2).
  destruct (find_row (held_event o) s.(outboxEvents)) as [current|] eqn:Hfound.
  - assert (∃ s1, update_first (held_event o) ev' s = (Ok tt, s1) ∧ mirrors (tables db1) s1)
      as (s1 & Hrun1 & Hm1).
    { eapply update_outbox; [exact Hm| |intros row x; apply held_event_same| |exact Htab1].
      - intros a b. apply held_events_clash.
      - intros row x Hs _. by apply Hev. }
    assert (∃ s2, update_first (λ x, held_job o x &&
        bool_decide (BackgroundJob.status x = BackgroundJobStatus.leased)) (jb' current) s1 =
      (Ok tt, s2) ∧ mirrors (tables db2) s2) as (s2 & Hrun2 & Hm2).
    { eapply update_job; [exact Hm1| |intros row x; apply held_job_same| |exact Htab2].
      - intros a b. apply held_jobs_clash.
      - intros row x Hs _. by apply Hjb. }
    eapply refines_ret; [|done|exact Hm2]. unfold settle, mbind, M_bind.
    change (find_one (held_event o) s) with (Ok (find_row (held_event o) s.(outboxEvents)) : Result Exn _, s).
    rewrite Hfound, Hrun1. simpl.
    destruct (outbox_first_jobs (held_event o) ev' s) as (s1' & Hrun1' & Hjobs).
    rewrite Hrun1 in Hrun1'. injection Hrun1' as <-. unfold update_first, modify in Hrun2 |- *.
    rewrite (find_index_ext job_held (λ x, held_job o x &&
      bool_decide (BackgroundJob.status x = BackgroundJobStatus.leased)) (rows s1)); [exact Hrun2|].
    intros x Hx. apply Hheld. change (rows s1) with s1.(backgroundJobs) in Hx. by rewrite Hjobs in Hx.
  - eapply refines_ret; [|done|].
    { unfold settle, mbind, M_bind.
      change (find_one (held_event o) s) with (Ok (find_row (held_event o) s.(outboxEvents)) : Result Exn _, s).
      by rewrite Hfound. }
    rewrite find_row_None in Hfound. rewrite updated_none, set_table_table in Htab1; cycle 1.
    { apply Forall_lookup. intros i row Hrow.
      destruct (Forall2_lookup_l _ _ _ _ _ (mirrors_outbox _ _ Hm) Hrow) as (x & Hx & Hs).
      rewrite <-(held_event_same o _ _ Hs). apply Hfound. by eapply list_elem_of_lookup_2. }
    rewrite Htab1 in Htab2. rewrite updated_none, set_table_table in Htab2; [by rewrite Htab2|].
    apply Forall_lookup. intros i row Hrow.
    destruct (Forall2_lookup_l _ _ _ _ _ (mirrors_jobs _ _ Hm) Hrow) as (x & Hx & Hs).
    apply list_elem_of_lookup_2 in Hx.
    rewrite <-(held_job_same o _ _ Hs). destruct (held_job o x) eqn:Hj; [|done].
    destruct (Hpre _ Hx Hj) as (_ & e & He & Heh). by rewrite (Hfound _ He) in Heh.
Qed.

Lemma refines_settles {A} (c : ClaimerCall A) db s :
  mirrors (tables db) s → claimer_pre c s →
  match c with
  | Claim _ _ _ _ => True
  | MarkProcessed _ _ | ScheduleRetry _ _ _ | MarkDeadLettered _ _ =>
    refines (claimer_prisma c) (claimer_memory c) (claimer_agree c) db s
  end.
Proof.
  intros Hm Hpre. assert (∀ o x, settle_pre o s → x ∈ s.(backgroundJobs) → held_job o x =
    held_job o x && bool_decide (BackgroundJob.status x = BackgroundJobStatus.leased)) as Hleased.
  { intros o x Ho Hx. destruct (held_job o x) eqn:Hj; [|done].
    destruct (Ho _ Hx Hj) as [-> _]. by rewrite bool_decide_true. }
  destruct c; [exact I|..]; (eapply refines_settle_work; [done..| | |]);
    first [ intros row x now (t & m & -> & Hsame); eexists (t.1, _), m; split; [reflexivity|exact Hsame]
          | intros row x e now [t ->]; eexists (t.1, _); reflexivity
          | intros x Hx; first [reflexivity | by apply Hleased] ].
Qed.

Lemma claimable_same type now row x :
  same (toDomainOutboxEvent row) x →
  claimable type now x = PrismaOutboxClaimer.claimable type now row.
Proof.
  intros (? & ? & -> & _). unfold claimable, PrismaOutboxClaimer.claimable. simpl.
  by destruct (Prisma.OutboxEvent.status row).
Qed.

Lemma earlier_same row x row' y :
  same (toDomainOutboxEvent row) x → same (toDomainOutboxEvent row') y →
  earlier x y = PrismaOutboxClaimer.due_first row row'.
Proof. by intros (? & ? & -> & _) (? & ? & -> & _). Qed.

Lemma due_first_antisym a b :
  PrismaOutboxClaimer.due_first a b = true → PrismaOutboxClaimer.due_first b a = true →
  Prisma.OutboxEvent.id a = Prisma.OutboxEvent.id b.
Proof.
  unfold PrismaOutboxClaimer.due_first.
  rewrite !orb_true_iff, !andb_true_iff, !Z.ltb_lt, !Z.eqb_eq.
  intros [?|[? Hab]] [?|[? Hba]]; try lia. by apply string_leb_antisym.
Qed.

(** The event the database takes is the one memory finds. *)
Lemma claim_same type now db s i row :
  mirrors (tables db) s → claim_pre type now s →
  Tables.outboxEvents (tables db) !! i = Some row →
  PrismaOutboxClaimer.claimable type now row = true →
  (∀ y, y ∈ Tables.outboxEvents (tables db) → PrismaOutboxClaimer.claimable type now y = true →
     PrismaOutboxClaimer.due_first row y = true) →
  ∃ e, find_index (claimable type now) s.(outboxEvents) = Some (i, e) ∧
    s.(outboxEvents) !! i = Some e ∧ same (toDomainOutboxEvent row) e.
Proof.
  intros Hm Hpre Hi Hclaim Hmin. pose proof (mirrors_outbox _ _ Hm) as Hmatch.
  destruct (rows_match_index toDomainOutboxEvent (PrismaOutboxClaimer.claimable type now)
    (claimable type now) _ _ Hmatch) as [[Hnone _] | (j & row' & e & Hrow' & He & Hs & Hin & Hc)].
  - intros row' x. apply claimable_same.
  - rewrite find_index_None in Hnone. rewrite (Hnone row) in Hclaim; [done|].
    by eapply list_elem_of_lookup_2.
  - apply find_index_Some in Hrow' as (Hj & Hclaim' & _).
    destruct Hpre as [_ Hpre]. destruct (Hpre j e He) as [Hfirst _].
    destruct (Forall2_lookup_l _ _ _ _ _ Hmatch Hi) as (x & Hx & Hsx).
    specialize (Hfirst x (list_elem_of_lookup_2 _ _ _ Hx)).
    rewrite (claimable_same _ _ _ _ Hsx) in Hfirst. specialize (Hfirst Hclaim).
    specialize (Hmin row' (list_elem_of_lookup_2 _ _ _ Hj) Hclaim').
    assert (i = j) as ->.
    { rewrite (earlier_same _ _ _ _ Hs Hsx) in Hfirst.
      pose proof (due_first_antisym _ _ Hmin Hfirst) as Hid.
      pose proof (mirror_unique (Row := Prisma.OutboxEvent.t) (T := OutboxEvent.t) _
        (tables_unique db)) as Hu.
      eapply (unique_rows_only clash (λ y, String.eqb (Prisma.OutboxEvent.id y)
        (Prisma.OutboxEvent.id row)) _ _ _ row row' Hu); [|exact Hi|exact Hj|..].
      - intros a b Ha%String.eqb_eq Hb%String.eqb_eq. unfold clash. simpl.
        by rewrite Ha, Hb, String.eqb_refl.
      - by rewrite String.eqb_refl.
      - by rewrite Hid, String.eqb_refl. }
    rewrite Hi in Hj. injection Hj as <-. exists e. split_and!; [done| |done].
    by apply find_index_Some in He as (? & _).
Qed.

Lemma job_of_same row e job j :
  same (toDomainOutboxEvent row) e → same (toDomainBackgroundJob job) j →
  PrismaOutboxClaimer.job_of row job =
  String.eqb (BackgroundJob.organizationId j) (OutboxEvent.organizationId e) && job_of_event e j.
Proof. by intros (? & ? & -> & _) [? ->]. Qed.

Lemma one_job_mirrored type now db s :
  mirrors (tables db) s → claim_pre type now s → one_job_each (tables db).
Proof.
  intros Hm [Hone _] event i j a b Ha Hb Hja Hjb. pose proof (mirrors_jobs _ _ Hm) as Hmatch.
  destruct (Forall2_lookup_l _ _ _ _ _ Hmatch Ha) as (x & Hx & Hsx).
  destruct (Forall2_lookup_l _ _ _ _ _ Hmatch Hb) as (y & Hy & Hsy).
  assert (same (toDomainOutboxEvent event) (toDomainOutboxEvent event)) as Hs
    by (eexists (_, _), _; split; [reflexivity|done]).
  rewrite (job_of_same _ _ _ _ Hs Hsx) in Hja. rewrite (job_of_same _ _ _ _ Hs Hsy) in Hjb.
  apply andb_true_iff in Hja as [_ Hja], Hjb as [_ Hjb]. by eapply Hone.
Qed.

(** The job of an identifier, found in memory where it is. *)
Lemma find_job_id db s k j :
  mirrors (tables db) s → s.(backgroundJobs) !! k = Some j →
  find_index (λ row, String.eqb (BackgroundJob.id row) (BackgroundJob.id j)) s.(backgroundJobs) =
    Some (k, j).
Proof.
  intros Hm Hj. apply find_index_Some. split_and!; [done|apply String.eqb_refl|].
  intros k' y Hy Hlt. destruct (String.eqb _ _) eqn:Heq; [|done]. apply String.eqb_eq in Heq.
  pose proof (mirrors_jobs _ _ Hm) as Hmatch.
  destruct (Forall2_lookup_r _ _ _ _ _ Hmatch Hj) as (a & Ha & [? ->]).
  destruct (Forall2_lookup_r _ _ _ _ _ Hmatch Hy) as (b & Hb & [? ->]). simpl in Heq.
  pose proof (mirror_unique (Row := Prisma.BackgroundJob.t) (T := BackgroundJob.t) _
    (tables_unique db)) as Hu.
  assert (clash b a = false) as Hno by (by eapply (unique_rows_lookup clash _ k' k b a Hu)).
  unfold clash in Hno. simpl in Hno. by rewrite Heq, String.eqb_refl in Hno.
Qed.

(** A claim in memory whose event and job are there. *)
Lemma claim_run type now owner leaseUntil s i e k j :
  find_index (claimable type now) s.(outboxEvents) = Some (i, e) →
  find_index (job_of_event e) s.(backgroundJobs) = Some (k, j) →
  find_index (λ row, String.eqb (BackgroundJob.id row) (BackgroundJob.id j)) s.(backgroundJobs) =
    Some (k, j) →
  claimNextByType type now owner leaseUntil s =
    (Ok (Some (ClaimedOutboxWork.mk (leased_event owner leaseUntil now e)
       (leased_job owner leaseUntil now j)
       (bool_decide (OutboxEvent.status e = OutboxStatus.processing)))),
     set_backgroundJobs (<[k := leased_job owner leaseUntil now j]> s.(backgroundJobs))
       (set_outboxEvents (<[i := leased_event owner leaseUntil now e]> s.(outboxEvents)) s)).
Proof.
  intros He Hj Hid. unfold claimNextByType, gets, mbind, M_bind. rewrite He.
  unfold modify, ensureJob, find_one, gets, mbind, M_bind, find_row.
  change (rows (set_outboxEvents (<[i := leased_event owner leaseUntil now e]> (outboxEvents s)) s))
    with s.(backgroundJobs).
  change (λ row : BackgroundJob.t, bool_decide (BackgroundJob.outboxEventId row = Some (OutboxEvent.id e)))
    with (job_of_event e). rewrite Hj. simpl.
  unfold update_first, modify. simpl. by rewrite Hid.
Qed.

Lemma refines_claim_work type now owner leaseUntil db s :
  mirrors (tables db) s → claim_pre type now s →
  refines (PrismaOutboxClaimer.claimNextByType type now owner leaseUntil)
    (claimNextByType type now owner leaseUntil) agree_claimed db s.
Proof.
  intros Hm Hpre. pose proof (one_job_mirrored _ _ _ _ Hm Hpre) as Hone.
  pose proof (claim_gives type now owner leaseUntil db Hone) as Hgives. unfold refines.
  destruct (PrismaOutboxClaimer.claimNextByType _ _ _ _ db) as [[[work|]|err] db'].
  - destruct Hgives as (i & row & job & jobs' & Hi & Hclaim & Hmin & Hjob & Htab & ->).
    destruct (claim_same type now db s i row Hm Hpre Hi Hclaim Hmin) as (e & He & Hei & Hs).
    pose proof (proj2 Hpre i e He) as (_ & j & [k Hk]%list_elem_of_lookup & Hje & Horg).
    pose proof (mirrors_jobs _ _ Hm) as Hmatch.
    destruct (Forall2_lookup_r _ _ _ _ _ Hmatch Hk) as (old & Hold & Hsj).
    assert (PrismaOutboxClaimer.job_of (PrismaOutboxClaimer.lease_event owner leaseUntil row) old =
      true) as Hof.
    { change (PrismaOutboxClaimer.job_of row old = true). by rewrite (job_of_same _ _ _ _ Hs Hsj), Hje, Horg, String.eqb_refl. }
    destruct Hjob as [(k' & old' & t & (Hl & Hp & Honly) & -> & ->) | (Hnone & _)];
      [|rewrite Forall_lookup in Hnone; by rewrite (Hnone _ _ Hold) in Hof].
    specialize (Honly _ _ Hold Hof) as ->. rewrite Hold in Hl. injection Hl as <-.
    assert (find_index (job_of_event e) s.(backgroundJobs) = Some (k', j)) as Hfj.
    { apply find_index_Some. split_and!; [done..|]. intros k y Hy Hlt.
      destruct (job_of_event e y) eqn:Hjy; [|done].
      pose proof (proj1 Hpre e _ _ _ _ Hy Hk Hjy Hje). lia. }
    pose proof (claim_run type now owner leaseUntil s i e k' j He Hfj (find_job_id _ _ _ _ Hm Hk))
      as Hrun.
    eexists _, _. split; [exact Hrun|].
    assert (same (toDomainOutboxEvent (PrismaOutboxClaimer.lease_event owner leaseUntil row))
      (leased_event owner leaseUntil now e)) as Hse.
    { destruct Hs as (t' & m & -> & Hsame). by eexists (t'.1, now), m. }
    assert (same (toDomainBackgroundJob (touch t (PrismaOutboxClaimer.lease_job owner leaseUntil old)))
      (leased_job owner leaseUntil now j)) as Hsl.
    { destruct Hsj as [t' ->]. by exists (t'.1, now). }
    split.
    + split_and!; [exact Hse|exact Hsl|]. simpl. destruct Hs as (? & ? & -> & _). simpl.
      apply bool_decide_ext. by destruct (Prisma.OutboxEvent.status row).
    + rewrite Htab. apply put_jobs.
      * apply put_outbox; [done|]. apply rows_match_insert; [apply (mirrors_outbox _ _ Hm)|exact Hse].
      * apply rows_match_insert; [exact Hmatch|exact Hsl].
  - destruct Hgives as [Hnone Htab]. exists None, s. split_and!; [|done|by rewrite Htab].
    unfold claimNextByType, gets, mbind, M_bind.
    destruct (rows_match_index toDomainOutboxEvent (PrismaOutboxClaimer.claimable type now)
      (claimable type now) _ _ (mirrors_outbox _ _ Hm)) as [[_ ->] | (j & row & e & Hf & _)];
      [intros row x; apply claimable_same|done|].
    apply find_index_Some in Hf as (Hj & Hc & _). rewrite Forall_lookup in Hnone.
    by rewrite (Hnone _ _ Hj) in Hc.
  - destruct Hgives as [_ He]. by rewrite He.
Qed.

Lemma claimer_refines {A} (c : ClaimerCall A) db s :
  mirrors (tables db) s → claimer_pre c s →
  refines (claimer_prisma c) (claimer_memory c) (claimer_agree c) db s.
Proof.
  intros Hm Hpre. pose proof (refines_settles c db s Hm Hpre) as Hsettle.
  destruct c; [by apply refines_claim_work|exact Hsettle..].
Qed.

End claimer.

(** ** The example in memory *)

Import PrismaSample ClaimSample.
#[local] Existing Instances Lists.client Lists.laws.

Definition memory_queue : St :=
  set_backgroundJobs [toDomainBackgroundJob job_row]
    (set_outboxEvents [toDomainOutboxEvent event_row] empty_store).

Lemma memory_queue_mirrored : mirrors (tables ClaimSample.db) memory_queue.
Proof.
  constructor; try constructor; try constructor.
  - exists (3%Z, 3%Z), [("documentId", VStr doc)]. by split.
  - by exists (3%Z, 3%Z).
Qed.

Lemma memory_queue_ready : claimer_pre (Claim "inspect" 8 "worker" 20) memory_queue.
Proof.
  split.
  - intros e i j a b Ha Hb _ _. exact (one_row (toDomainBackgroundJob job_row) a b i j Ha Hb).
  - intros i e (Hi & _)%find_index_Some.
    apply list_elem_of_lookup_2, list_elem_of_singleton in Hi as ->.
    split; [intros y ->%list_elem_of_singleton _; vm_compute; reflexivity|].
    exists (toDomainBackgroundJob job_row). split; [left|]. split; vm_compute; reflexivity.
Qed.


(** The claim of the sample takes the event, on the database and in memory. *)
Example sample_claimed :
  (match claimer_prisma (Claim "inspect" 8 "worker" 20) ClaimSample.db with
   | (Ok (Some work), _) => Some (OutboxEvent.id (ClaimedOutboxWork.event work)) | _ => None end,
   match claimer_memory (Claim "inspect" 8 "worker" 20) memory_queue with
   | (Ok (Some work), _) => Some (OutboxEvent.id (ClaimedOutboxWork.event work)) | _ => None end) =
  (Some (Prisma.OutboxEvent.id event_row), Some (Prisma.OutboxEvent.id event_row)).
Proof. vm_compute. reflexivity. Qed.
