(* ===== verification/Http.v ===== *)
(** The HTTP boundary of the API: how errors are answered, and what a request
    must be before a use case sees it, from
    [packages/application/src/http/], [apps/api/src/http/client-ip.ts],
    [cookies.ts], [middleware/] and the origin check of
    [packages/application/src/auth/csrf.ts].

    A middleware is the function from a request to what it does: call [next],
    call [next] with an error, or answer.  Express, the URL parser and
    [decodeURIComponent] are not part of the program; the last two are
    arguments. *)

From Stdlib Require Import String Ascii.
From S2P Require Export Auth Signing Contracts.
Local Open Scope string_scope.

(** ** Error answers *)

Module ErrorCode.
(* [src: packages/contracts/src/index.ts:3-17 errorCodeSchema] *)
Inductive t : Type :=
  | validation | authentication | not_found | forbidden | conflict | idempotency_replay
  | payload_too_large | unsupported_media_type | rate_limited | not_ready
  | service_unavailable | external_service | internal.
Definition to_string (c : t) : string :=
  match c with
  | validation => "validation" | authentication => "authentication" | not_found => "not_found"
  | forbidden => "forbidden" | conflict => "conflict"
  | idempotency_replay => "idempotency_replay" | payload_too_large => "payload_too_large"
  | unsupported_media_type => "unsupported_media_type" | rate_limited => "rate_limited"
  | not_ready => "not_ready" | service_unavailable => "service_unavailable"
  | external_service => "external_service" | internal => "internal"
  end.
Definition all : list t :=
  [validation; authentication; not_found; forbidden; conflict; idempotency_replay;
   payload_too_large; unsupported_media_type; rate_limited; not_ready; service_unavailable;
   external_service; internal].
#[export] Instance eq_dec : EqDecision t.
Proof. solve_decision. Defined.
End ErrorCode.

(* [src: packages/application/src/http/public-messages.ts:3-17 PUBLIC_ERROR_MESSAGES] *)
Definition PUBLIC_ERROR_MESSAGES (c : ErrorCode.t) : string :=
  match c with
  | ErrorCode.validation => "The request was invalid."
  | ErrorCode.authentication => "Authentication is required."
  | ErrorCode.forbidden => "You are not allowed to perform this action."
  | ErrorCode.not_found => "The requested resource was not found."
  | ErrorCode.conflict => "The request conflicts with the current resource state."
  | ErrorCode.idempotency_replay => "This request was already processed."
  | ErrorCode.payload_too_large => "The request body is too large."
  | ErrorCode.unsupported_media_type => "The request content type is not supported."
  | ErrorCode.rate_limited => "Too many requests. Try again later."
  | ErrorCode.not_ready => "The service is temporarily unavailable."
  | ErrorCode.service_unavailable => "The service is temporarily unavailable. Try again later."
  | ErrorCode.external_service => "A downstream service is temporarily unavailable."
  | ErrorCode.internal => "An unexpected error occurred."
  end.

(* [src: packages/contracts/src/index.ts:33-45 errorEnvelope] *)
Definition errorEnvelope (code : ErrorCode.t) (message correlationId : string) : value :=
  VObj [("error", VObj [("code", VStr (ErrorCode.to_string code)); ("message", VStr message);
                        ("correlationId", VStr correlationId)])].

(* [src: packages/contracts/src/index.ts:21-31 errorEnvelopeSchema] *)
Definition errorEnvelopeSchema : schema := strict
  [("error", strict
     [("code", z_enum (ErrorCode.to_string <$> ErrorCode.all));
      ("message", z_string nonempty); ("correlationId", z_string nonempty)])].

(** The class name and the message of an application error. *)
(* [src: packages/domain/src/errors.ts:33-103 ApplicationError subclasses] *)
Definition error_class (kind : ApplicationErrorKind) : string * string :=
  match kind with
  | validation => ("ValidationError", "Validation failed")
  | authentication => ("AuthenticationError", "Authentication failed")
  | authorization => ("AuthorizationError", "Authorization failed")
  | not_found => ("NotFoundError", "Resource not found")
  | conflict => ("ConflictError", "Resource conflict")
  | invalid_state_transition => ("InvalidStateTransitionError", "Invalid state transition")
  | integrity => ("IntegrityError", "Integrity check failed")
  | external_service => ("ExternalServiceError", "External service error")
  | rate_limit => ("RateLimitError", "Rate limit exceeded")
  end.

(* [src: packages/domain/src/errors.ts:1-11 APPLICATION_ERROR_KIND] *)
Definition kind_to_string (kind : ApplicationErrorKind) : string :=
  match kind with
  | validation => "validation" | authentication => "authentication"
  | authorization => "authorization" | not_found => "not_found" | conflict => "conflict"
  | invalid_state_transition => "invalid_state_transition" | integrity => "integrity"
  | external_service => "external_service" | rate_limit => "rate_limit"
  end.

Module LogLevel.
Inductive t : Type := warn | error.
#[export] Instance eq_dec : EqDecision t.
Proof. solve_decision. Defined.
End LogLevel.

Module HttpErrorMapping.
(* [src: packages/application/src/http/to-http-error.ts:10-22 HttpErrorMapping] *)
Record t : Type := mk {
  status : Z;
  code : ErrorCode.t;
  publicMessage : string;
  retryAfterSeconds : option jsnum;
  logLevel : LogLevel.t;
  logMessage : string;
  errorName : string;
  errorKind : option string;
  details : option object
}.
End HttpErrorMapping.

(* [src: packages/application/src/http/to-http-error.ts:24-36 SECRET_DETAIL_KEYS] *)
Definition SECRET_DETAIL_KEYS : list string :=
  ["token"; "rawToken"; "password"; "authorization"; "cookie"; "signature"; "pdfBytes";
   "documentBytes"; "uploadToken"; "csrfToken"; "sessionToken"].

(* [src: packages/application/src/http/to-http-error.ts:38-44 redactDetails] *)
Definition redactDetails (details : object) : option object :=
  match List.filter (λ e, negb (bool_decide (e.1 ∈ SECRET_DETAIL_KEYS))) details with
  | [] => None
  | entries => Some entries
  end.

(* [src: packages/application/src/http/to-http-error.ts:46-61 mappingFor] *)
Definition mappingFor (kind : ApplicationErrorKind) (details : object) (status : Z)
    (code : ErrorCode.t) : HttpErrorMapping.t :=
  HttpErrorMapping.mk status code (PUBLIC_ERROR_MESSAGES code)
    (match prop "retryAfterSeconds" details with VNum n => Some n | _ => None end)
    (if (500 <=? status)%Z then LogLevel.error else LogLevel.warn)
    (error_class kind).2 (error_class kind).1 (Some (kind_to_string kind)) (redactDetails details).

Definition has_reason (reason : string) (details : object) : bool :=
  match prop "reason" details with VStr r => String.eqb r reason | _ => false end.

(* [src: packages/application/src/http/to-http-error.ts:63-106 toHttpError] *)
Definition toHttpError (error : Exn) : HttpErrorMapping.t :=
  match error with
  | AppError kind details =>
    match kind with
    | validation =>
      if has_reason "payload_too_large" details
      then mappingFor kind details 413 ErrorCode.payload_too_large
      else mappingFor kind details 400 ErrorCode.validation
    | authentication => mappingFor kind details 401 ErrorCode.authentication
    | authorization => mappingFor kind details 403 ErrorCode.forbidden
    | not_found => mappingFor kind details 404 ErrorCode.not_found
    | conflict =>
      if has_reason "idempotency_replay" details
      then mappingFor kind details 409 ErrorCode.idempotency_replay
      else mappingFor kind details 409 ErrorCode.conflict
    | invalid_state_transition => mappingFor kind details 409 ErrorCode.conflict
    | rate_limit => mappingFor kind details 429 ErrorCode.rate_limited
    | external_service => mappingFor kind details 503 ErrorCode.external_service
    | integrity => mappingFor kind details 500 ErrorCode.internal
    end
  | OtherError name message =>
    HttpErrorMapping.mk 500 ErrorCode.internal (PUBLIC_ERROR_MESSAGES ErrorCode.internal) None
      LogLevel.error "unhandled request error" name None (Some [("errorMessage", VStr message)])
  end.

(** An answer: its status, its headers and its JSON body. *)
Record Response : Type := mkResponse {
  r_status : Z;
  r_headers : list (string * string);
  r_body : value
}.

(** What a handler threw, with the [type] the body parser gives its errors: the
    answer, and what is logged: level, correlation id, mapping. *)
(* [src: apps/api/src/http/middleware/error-handler.ts:18-47 createErrorHandler] *)
Definition errorHandler `{Env} (type : option string) (err : Exn) (correlationId : option string) :
    Response * option (LogLevel.t * string * HttpErrorMapping.t) :=
  let correlationId := default "unknown" correlationId in
  if bool_decide (type = Some "entity.too.large") then
    (mkResponse 413 [] (errorEnvelope ErrorCode.payload_too_large
       (PUBLIC_ERROR_MESSAGES ErrorCode.payload_too_large) correlationId), None)
  else
    let mapped := toHttpError err in
    (mkResponse (HttpErrorMapping.status mapped)
       (match HttpErrorMapping.retryAfterSeconds mapped with
        | None => []
        | Some n => [("Retry-After", js_String (VNum n))]
        end)
       (errorEnvelope (HttpErrorMapping.code mapped) (HttpErrorMapping.publicMessage mapped)
          correlationId),
     Some (HttpErrorMapping.logLevel mapped, correlationId, mapped)).

(** ** Client addresses *)

(** [value.slice(0, value.indexOf(c))], or the whole value. *)
Fixpoint take_until (c : ascii) (l : list ascii) : list ascii :=
  match l with [] => [] | d :: l => if Ascii.eqb d c then [] else d :: take_until c l end.

(** [/^\d{1,3}(?:\.\d{1,3}){3}$/]. *)
Definition dotted_quad (l : list ascii) : bool :=
  let parts := split_at "." l in
  (length parts =? 4)%nat &&
  forallb (λ p, ((1 <=? length p) && (length p <=? 3))%nat && forallb is_digit p) parts.

(** The normalization works on the code units of the address. *)
(* [src: apps/api/src/http/client-ip.ts:56-80 normalizeIp] *)
Definition normalizeIp (value : string) : string :=
  let cleaned := trim (stripControls (trim value)) in
  if String.eqb cleaned EmptyString then EmptyString else
  let zoneless := of_units (take_until "%" (units cleaned)) in
  let lowered := toLowerCase zoneless in
  if startsWith "::ffff:" lowered then
    let mapped := drop 7 (units lowered) in
    if dotted_quad mapped then of_units mapped else lowered
  else lowered.

(** A header is absent, one value, or an array of values. *)
Inductive Header : Type :=
  | NoHeader
  | OneHeader (v : string)
  | ManyHeader (l : list string).

(* [src: apps/api/src/http/client-ip.ts:42-50 parseForwardedFor] *)
Definition parseForwardedFor (value : Header) : list string :=
  let parse raw := List.filter (λ e, negb (String.eqb e EmptyString))
                     (normalizeIp <$> split "," raw) in
  match value with
  | NoHeader => []
  | OneHeader v => parse v
  | ManyHeader l => parse (String.concat "," l)
  end.

(* [src: apps/api/src/http/client-ip.ts:20-40 resolveClientIp] *)
Definition resolveClientIp (socketAddress : option string) (forwardedFor : Header)
    (trustedProxyCount : Z) : string :=
  let normalized := normalizeIp (default EmptyString socketAddress) in
  let socket := if String.eqb normalized EmptyString then "unknown" else normalized in
  let hops := Z.max 0 trustedProxyCount in
  if (hops =? 0)%Z then socket else
  let chain := (parseForwardedFor forwardedFor ++ [socket])%list in
  let clientIndex := (Z.of_nat (length chain) - 1 - hops)%Z in
  if (clientIndex <? 0)%Z then socket else
  match chain !! Z.to_nat clientIndex with
  | None => socket
  | Some candidate => if String.eqb candidate EmptyString then socket else candidate
  end.

(** ** Cookies *)

(** [s.indexOf(c)] as the text before and after, when there is one. *)
Fixpoint cut_at (c : ascii) (l : list ascii) : option (list ascii * list ascii) :=
  match l with
  | [] => None
  | d :: l =>
    if Ascii.eqb d c then Some ([], l)
    else (λ '(a, b), (d :: a, b)) <$> cut_at c l
  end.

(** A cookie [name=value]: no name, no cookie. *)
Definition cookie_pair (part : string) : option (string * string) :=
  match cut_at "=" (units (trim part)) with
  | None | Some ([], _) => None
  | Some (name, rawValue) => Some (trim (of_units name), of_units rawValue)
  end.

(** [map.set(k, v)]: a key that is there keeps its place. *)
Fixpoint map_set (k v : string) (m : list (string * string)) : list (string * string) :=
  match m with
  | [] => [(k, v)]
  | (j, w) :: m => if String.eqb j k then (j, v) :: m else (j, w) :: map_set k v m
  end.
Fixpoint map_get (k : string) (m : list (string * string)) : option string :=
  match m with
  | [] => None
  | (j, w) :: m => if String.eqb j k then Some w else map_get k m
  end.

Section cookies.
(** [decodeURIComponent], which throws a [URIError]. *)
Context (decodeURIComponent : string → Result Exn string).

Fixpoint set_cookies (parts : list string) (cookies : list (string * string)) :
    Result Exn (list (string * string)) :=
  match parts with
  | [] => Ok cookies
  | part :: parts =>
    match cookie_pair part with
    | None => set_cookies parts cookies
    | Some (name, rawValue) =>
      value ← decodeURIComponent rawValue;
      set_cookies parts (map_set name value cookies)
    end
  end.

(* [src: apps/api/src/http/cookies.ts:11-27 parseCookieHeader] *)
Definition parseCookieHeader (header : option string) : Result Exn (list (string * string)) :=
  match header with
  | None => Ok []
  | Some header =>
    if String.eqb (trim header) EmptyString then Ok [] else set_cookies (split ";" header) []
  end.

(** The browser's side: the first cookie of the name. *)
Fixpoint find_cookie (name : string) (parts : list string) : Result Exn (option string) :=
  match parts with
  | [] => Ok None
  | part :: parts =>
    match cookie_pair part with
    | None => find_cookie name parts
    | Some (key, rawValue) =>
      if String.eqb key name then Some <$> decodeURIComponent rawValue
      else find_cookie name parts
    end
  end.

(* [src: apps/web/src/signing/csrf.ts:3-20 readCookie] *)
Definition readCookie (name cookieHeader : string) : Result Exn (option string) :=
  if String.eqb (trim cookieHeader) EmptyString then Ok None
  else find_cookie name (split ";" cookieHeader).
End cookies.

(** ** Middlewares *)

(** What a middleware does with a request. *)
Inductive Handled : Type :=
  | Next
  | Failed (e : Exn)
  | Answered (r : Response).

Module Request.
(** The parts of a request the middlewares read; [query] is what the query
    string was parsed into. *)
Record t : Type := mk {
  method : string;
  headers : list (string * string);
  query : object;
  cookies : list (string * string);
  clientIp : option string;
  ip : option string;
  correlationId : option string
}.
Definition header (r : t) (name : string) : option string := map_get name (headers r).
End Request.

(* [src: apps/api/src/http/middleware/no-parameter-pollution.ts:11-22 createNoParameterPollution] *)
Fixpoint no_pollution (query : object) : Handled :=
  match query with
  | [] => Next
  | (key, VArr _) :: _ =>
    Failed (ValidationError [("reason", VStr "parameter_pollution"); ("field", VStr key)])
  | _ :: query => no_pollution query
  end.

Definition BODY_METHODS : list string := ["POST"; "PUT"; "PATCH"; "DELETE"].

(** [Number.parseInt(s, 10)]: white space, a sign, digits; [None] is NaN. *)
Fixpoint leading_digits (l : list ascii) : list ascii :=
  match l with [] => [] | c :: l => if is_digit c then c :: leading_digits l else [] end.
Definition digits_value (l : list ascii) : Z :=
  foldl (λ acc c, (acc * 10 + (code c - 48))%Z) 0%Z l.
Definition parseInt (s : string) : option Z :=
  let l := drop_while is_space (units s) in
  let '(sign, l) :=
    match l with
    | c :: l' => if Ascii.eqb c "-" then ((-1)%Z, l') else if Ascii.eqb c "+" then (1%Z, l') else (1%Z, l)
    | [] => (1%Z, [])
    end in
  match leading_digits l with [] => None | ds => Some (sign * digits_value ds)%Z end.

(* [src: apps/api/src/http/middleware/strict-content-type.ts:41-51 hasBody] *)
Definition hasBody (r : Request.t) : bool :=
  match Request.header r "transfer-encoding" with
  | Some _ => true
  | None =>
    match Request.header r "content-length" ≫= parseInt with
    | Some length => (0 <? length)%Z
    | None => false
    end
  end.

(* [src: apps/api/src/http/middleware/strict-content-type.ts:53-59 baseContentType] *)
Definition baseContentType (value : option string) : option string :=
  raw ← value;
  base ← head (split ";" raw);
  let base := toLowerCase (trim base) in
  if String.eqb base EmptyString then None else Some base.

(* [src: apps/api/src/http/middleware/strict-content-type.ts:15-39 createStrictContentType] *)
Definition strictContentType (allowedTypes : list string) (r : Request.t) : Handled :=
  let allowed := toLowerCase <$> allowedTypes in
  if negb (bool_decide (Request.method r ∈ BODY_METHODS)) || negb (hasBody r) then Next
  else match baseContentType (Request.header r "content-type") with
  | Some base => if bool_decide (base ∈ allowed) then Next else
      Answered (mkResponse 415 [] (errorEnvelope ErrorCode.unsupported_media_type
        (PUBLIC_ERROR_MESSAGES ErrorCode.unsupported_media_type)
        (default "unknown" (Request.correlationId r))))
  | None => Answered (mkResponse 415 [] (errorEnvelope ErrorCode.unsupported_media_type
      (PUBLIC_ERROR_MESSAGES ErrorCode.unsupported_media_type)
      (default "unknown" (Request.correlationId r))))
  end.

(** [/^[A-Za-z0-9._-]{8,128}$/]. *)
Definition safe_id (s : string) : bool :=
  ((8 <=? str_length s) && (str_length s <=? 128))%Z &&
  forallb (λ c, is_digit c || Keys.between "a" "z" c || Keys.between "A" "Z" c ||
                Ascii.eqb c "." || Ascii.eqb c "_" || Ascii.eqb c "-") (units s).

(** The correlation id of a request; [fresh] is [randomUUID()]. *)
(* [src: apps/api/src/http/middleware/request-id.ts:4-17 createRequestIdMiddleware] *)
Definition correlationIdOf (incoming : option string) (fresh : string) : string :=
  match incoming with
  | Some id => if safe_id id then id else fresh
  | None => fresh
  end.

(** The bucket a request is counted in. *)
(* [src: apps/api/src/http/middleware/rate-limit.ts:10-23 createIpRateLimit] *)
Definition rateLimitKey (keyPrefix : string) (r : Request.t) : string :=
  keyPrefix +:+ ":" +:+
  default "unknown" (match Request.clientIp r with Some ip => Some ip | None => Request.ip r end).
(* [src: apps/api/src/http/middleware/rate-limit.ts:10-23 createIpRateLimit] *)
Definition ipRateLimit (max windowMs : Z) (keyPrefix : string) (nowMs : Z) (r : Request.t)
    (buckets : Buckets) : Handled * Buckets :=
  let '(decision, buckets) := consume max windowMs (rateLimitKey keyPrefix r) nowMs buckets in
  (if negb (RateLimitDecision.allowed decision)
   then Failed (RateLimitError
     [("retryAfterSeconds", VInt (RateLimitDecision.retryAfterSeconds decision))])
   else Next, buckets).

(** ** Tokens and origins *)

(* [src: apps/api/src/http/middleware/require-signer-session.ts:104-110 bearerToken] *)
Definition bearerToken (value : option string) : option string :=
  match value with
  | None => None
  | Some value =>
    if negb (startsWith "bearer " (toLowerCase value)) then None else
    let token := trim (of_units (drop 7 (units value))) in
    if String.eqb token EmptyString then None else Some token
  end.

Definition no_signing_token : Exn := AuthenticationError (reasonOnly "signing_token").

(* [src: apps/api/src/http/middleware/require-signer-session.ts:88-102 extractExchangeToken] *)
Definition extractExchangeToken (bodyToken authorization : option string) : Result Exn string :=
  let fromBody := default EmptyString (trim <$> bodyToken) in
  if negb (String.eqb fromBody EmptyString) then Ok fromBody else
  match bearerToken authorization with
  | Some token => Ok token
  | None => Throw no_signing_token
  end.

(** The token a signer's request carries: its cookie before its header. *)
(* [src: apps/api/src/http/middleware/require-signer-session.ts:40-52 createRequireSignerToken] *)
Definition requireSignerToken (sessionCookieName : string) (r : Request.t) : Result Exn string :=
  let token := match map_get sessionCookieName (Request.cookies r) with
               | Some c => Some c
               | None => bearerToken (Request.header r "authorization")
               end in
  match token with
  | Some token => if String.eqb token EmptyString then Throw no_signing_token else Ok token
  | None => Throw no_signing_token
  end.

(** [loadCsrfHash] is the look-up the middleware is given. *)
(* [src: apps/api/src/http/middleware/require-signer-session.ts:54-86 createRequireSignerCsrf] *)
Definition requireSignerCsrf (csrfCookieName csrfHeaderName : string) (hash : string → string)
    (loadCsrfHash : string → Result Exn (option string)) (signingToken : option string)
    (r : Request.t) : Result Exn unit :=
  if isCsrfSafeMethod (Request.method r) then Ok tt else
  match signingToken with
  | None => Throw no_signing_token
  | Some rawToken =>
    expectedHash ← loadCsrfHash rawToken;
    match expectedHash with
    | None => Throw no_signing_token
    | Some expectedHash =>
      assertCsrfToken (Request.header r csrfHeaderName) (map_get csrfCookieName (Request.cookies r))
        expectedHash hash
    end
  end.

Section origins.
(** [new URL(s).origin], or nothing when the URL does not parse. *)
Context (url_origin : string → option string).

(* [src: packages/application/src/auth/csrf.ts:45-60 originFromHeaders] *)
Definition originFromHeaders (originHeader refererHeader : option string) : option string :=
  if negb (blank originHeader) then trim <$> originHeader
  else if blank refererHeader then None
  else refererHeader ≫= url_origin.

(* [src: packages/application/src/auth/csrf.ts:33-43 originIsAllowed] *)
Definition originIsAllowed (originHeader refererHeader : option string)
    (allowedOrigins : list string) : bool :=
  match originFromHeaders originHeader refererHeader with
  | None => false
  | Some origin => bool_decide (origin ∈ allowedOrigins)
  end.

(* [src: apps/api/src/http/middleware/require-origin.ts:5-15 createRequireAllowedOrigin] *)
Definition requireAllowedOrigin (allowedOrigins : list string) (r : Request.t) : Handled :=
  if originIsAllowed (Request.header r "origin") (Request.header r "referer") allowedOrigins then Next
  else Failed (ValidationError (reasonOnly "origin_rejected")).
End origins.

(** ** Overload *)

Module Overload.
(** The guard's counter, and which admitted requests it has released. *)
(* [src: apps/api/src/http/middleware/overload.ts:20-46 inFlight, released] *)
Record t : Type := mk { inFlight : Z; released : list bool }.
Definition init : t := mk 0 [].

(* [src: apps/api/src/http/middleware/overload.ts:16-18 limit] *)
Definition limit (maxConcurrentRequests : Z) : Z := Z.max 1 maxConcurrentRequests.

(** A request arrives. *)
(* [src: apps/api/src/http/middleware/overload.ts:22-48 createOverloadGuard] *)
Definition arrive (max retryAfterSeconds : Z) (correlationId : option string) (s : t) : Handled * t :=
  if (limit max <=? inFlight s)%Z then
    (Answered (mkResponse 503 [("Retry-After", of_int retryAfterSeconds)]
       (errorEnvelope ErrorCode.service_unavailable
          (PUBLIC_ERROR_MESSAGES ErrorCode.service_unavailable) (default "unknown" correlationId))), s)
  else (Next, mk (inFlight s + 1) (released s ++ [false])).

(** The response of the [n]-th admitted request finishes or closes. *)
(* [src: apps/api/src/http/middleware/overload.ts:38-46 release] *)
Definition release (n : nat) (s : t) : t :=
  match released s !! n with
  | Some false => mk (inFlight s - 1) (<[n := true]> (released s))
  | _ => s
  end.
End Overload.
