(* ===== verification/HttpRules.v ===== *)
(** What the HTTP boundary promises: errors are answered without a word of
    their own, a client cannot choose the address it is counted under, the
    number of requests in flight is bounded, and the two cookie parsers agree. *)

From Stdlib Require Import String Ascii.
From S2P Require Export Http.
Local Open Scope string_scope.

(** ** Error answers *)

(** The status that goes with a code. *)
Definition status_of (c : ErrorCode.t) : Z :=
  match c with
  | ErrorCode.validation => 400 | ErrorCode.authentication => 401 | ErrorCode.forbidden => 403
  | ErrorCode.not_found => 404 | ErrorCode.conflict | ErrorCode.idempotency_replay => 409
  | ErrorCode.payload_too_large => 413 | ErrorCode.unsupported_media_type => 415
  | ErrorCode.rate_limited => 429 | ErrorCode.internal => 500
  | ErrorCode.not_ready | ErrorCode.service_unavailable | ErrorCode.external_service => 503
  end.

Lemma toHttpError_status e :
  HttpErrorMapping.status (toHttpError e) = status_of (HttpErrorMapping.code (toHttpError e)) ∧
  HttpErrorMapping.publicMessage (toHttpError e) =
    PUBLIC_ERROR_MESSAGES (HttpErrorMapping.code (toHttpError e)).
Proof. destruct e as [[] d|n m]; simpl; try done; by destruct (has_reason _ _). Qed.

Lemma envelope_conforms c correlationId :
  correlationId ≠ EmptyString →
  errorEnvelopeSchema (errorEnvelope c (PUBLIC_ERROR_MESSAGES c) correlationId) = true.
Proof.
  intros Hc. assert (nonempty correlationId = true) as Hn.
  { unfold nonempty. by apply negb_true_iff, String.eqb_neq. }
  destruct c; vm_compute in Hn |- *; by rewrite Hn.
Qed.

Lemma redactDetails_clean d entries k :
  redactDetails d = Some entries → k ∈ keys entries → k ∉ SECRET_DETAIL_KEYS.
Proof.
  unfold redactDetails. intros Hd Hk.
  assert (entries = List.filter (λ e : string * value, negb (bool_decide (e.1 ∈ SECRET_DETAIL_KEYS))) d) as ->.
  { by destruct (List.filter _ d); simplify_eq. }
  apply list_elem_of_fmap in Hk as (e & -> & He). apply list_elem_of_In, filter_In in He as [_ He].
  by apply negb_true_iff, bool_decide_eq_false in He.
Qed.

Lemma logged_details_clean e entries k :
  HttpErrorMapping.details (toHttpError e) = Some entries → k ∈ keys entries →
  k ∉ SECRET_DETAIL_KEYS.
Proof.
  destruct e as [kind d|n m].
  - intros Hd. apply (redactDetails_clean d).
    destruct kind; simpl in Hd; try done; by destruct (has_reason _ _).
  - intros [= <-] Hk. apply list_elem_of_singleton in Hk as ->. intros Hin.
    by apply (bool_decide_eq_true_2 _) in Hin.
Qed.

(** C34: errors stay private: whatever is thrown, the client is answered with the
    envelope of the contract, with one of its codes, the public message of that
    code and the status that belongs to it, and nothing else of the error; the
    details that are logged hold no member that names a secret, and the log level
    is error exactly when the status is 500 or above. *)
Theorem errors_stay_private `{Env} type err correlationId response log :
  correlationId ≠ Some EmptyString →
  errorHandler type err correlationId = (response, log) →
  errorEnvelopeSchema (r_body response) = true ∧
  (∃ c, r_body response =
          errorEnvelope c (PUBLIC_ERROR_MESSAGES c) (default "unknown" correlationId) ∧
        r_status response = status_of c) ∧
  ∀ level id mapped, log = Some (level, id, mapped) →
    (level = LogLevel.error ↔ (500 <= r_status response)%Z) ∧
    ∀ entries k, HttpErrorMapping.details mapped = Some entries → k ∈ keys entries →
      k ∉ SECRET_DETAIL_KEYS.
Proof.
  intros Hc Hrun. assert (default "unknown" correlationId ≠ EmptyString) as Hne.
  { destruct correlationId as [c|]; [|done]. simpl. intros ->. by apply Hc. }
  unfold errorHandler in Hrun. case_bool_decide; injection Hrun as <- <-; cbn [r_body r_status].
  { split; [by apply envelope_conforms|]. split; [|done]. by exists ErrorCode.payload_too_large. }
  pose proof (toHttpError_status err) as [Hs Hm]. rewrite Hm. split_and!.
  - by apply envelope_conforms.
  - by eexists.
  - intros level id mapped [= <- <- <-]. split; [|intros entries k; apply logged_details_clean].
    clear. destruct err as [[] d|n m]; simpl; try (destruct (has_reason _ _)); by simpl.
Qed.

Lemma errors_stay_private_witness :
  let err := AuthorizationError [("reason", VStr "forbidden"); ("token", VStr "secret")] in
  let answer := @errorHandler Sample.env None err (Some "request-1") in
  errorEnvelopeSchema (r_body answer.1) = true ∧
  (∃ c, r_body answer.1 = errorEnvelope c (PUBLIC_ERROR_MESSAGES c) "request-1" ∧
        r_status answer.1 = status_of c) ∧
  ∀ level id mapped, answer.2 = Some (level, id, mapped) →
    (level = LogLevel.error ↔ (500 <= r_status answer.1)%Z) ∧
    ∀ entries k, HttpErrorMapping.details mapped = Some entries → k ∈ keys entries →
      k ∉ SECRET_DETAIL_KEYS.
Proof.
  intros err answer.
  apply (@errors_stay_private Sample.env None err (Some "request-1") answer.1 answer.2);
    [done|reflexivity].
Defined.

(** ** Client addresses *)

(** A header value that proxies have appended addresses to. *)
Definition forwarded (spoof : string) (hops : list string) : string :=
  spoof +:+ ("," +:+ String.concat "," hops).

(** An address a proxy writes: no comma, and something left after normalizing. *)
Definition address (h : string) : Prop := (","%char ∉ units h) ∧ normalizeIp h ≠ EmptyString.

Lemma split_concat h hops :
  Forall (λ x, ","%char ∉ units x) (h :: hops) → split "," (String.concat "," (h :: hops)) = h :: hops.
Proof.
  revert h. induction hops as [|g hops IH]; intros h Hall.
  - simpl. apply split_free. by inversion Hall.
  - inversion Hall as [|?? Hh Hrest]; subst.
    change (String.concat "," (h :: g :: hops)) with (h +:+ (String "," (String.concat "," (g :: hops)))).
    rewrite split_app, split_free by done. by rewrite IH.
Qed.

Lemma parse_forwarded spoof h hops :
  Forall address (h :: hops) →
  parseForwardedFor (OneHeader (forwarded spoof (h :: hops))) =
    (parseForwardedFor (OneHeader spoof) ++ (normalizeIp <$> h :: hops))%list.
Proof.
  intros Hall. unfold parseForwardedFor, forwarded.
  change ("," +:+ String.concat "," (h :: hops)) with (String "," (String.concat "," (h :: hops))).
  rewrite split_app, split_concat.
  2: { eapply Forall_impl; [exact Hall|]. by intros x []. }
  rewrite fmap_app, List.filter_app. f_equal.
  assert (Forall (λ e, negb (String.eqb e EmptyString) = true) (normalizeIp <$> h :: hops)) as Hk.
  { apply Forall_fmap. eapply Forall_impl; [exact Hall|]. intros x [_ Hx]. simpl.
    by apply negb_true_iff, String.eqb_neq. }
  induction Hk as [|x l Hx _ IH]; simpl; [done|]. by rewrite Hx, IH.
Qed.

(** C35: a client cannot choose its address: behind [k] trusted proxies, each of
    which appends the peer it saw, the resolved address is what the outermost of
    them appended, whatever the client wrote before it, also when its text arrives
    as a header line of its own; without proxies the header is ignored. *)
Theorem client_ip_is_not_spoofed socket spoof hop hops :
  Forall address (hop :: hops) →
  let k := Z.of_nat (length (hop :: hops)) in
  resolveClientIp socket (OneHeader (forwarded spoof (hop :: hops))) k = normalizeIp hop ∧
  resolveClientIp socket (ManyHeader [spoof; String.concat "," (hop :: hops)]) k = normalizeIp hop ∧
  ∀ header, resolveClientIp socket header 0 = resolveClientIp socket NoHeader 0.
Proof.
  intros Hall k. assert (resolveClientIp socket (OneHeader (forwarded spoof (hop :: hops))) k =
    normalizeIp hop) as Hone; [|split; [exact Hone|by split]].
  unfold resolveClientIp. rewrite (Z.max_r 0 k) by (unfold k; lia).
  rewrite (proj2 (Z.eqb_neq k 0)) by (unfold k; simpl; lia).
  rewrite parse_forwarded by done.
  set (pre := parseForwardedFor (OneHeader spoof)). set (sock := if String.eqb _ _ then _ else _).
  rewrite !length_app. simpl length. rewrite length_fmap.
  assert (Z.of_nat (length pre + S (length hops) + 1) - 1 - k = Z.of_nat (length pre))%Z as ->.
  { unfold k. simpl. lia. }
  rewrite (proj2 (Z.ltb_ge _ _)) by lia. rewrite Nat2Z.id, <-app_assoc.
  rewrite lookup_app_r by done. rewrite Nat.sub_diag. simpl.
  inversion Hall as [|?? [_ Hne] _]; subst. by rewrite (proj2 (String.eqb_neq _ _)).
Qed.

Lemma client_ip_is_not_spoofed_witness :
  Forall address ["203.0.113.7"] ∧
  resolveClientIp (Some "10.0.0.1") (OneHeader (forwarded "1.2.3.4, 5.6.7.8" ["203.0.113.7"])) 1 =
    normalizeIp "203.0.113.7".
Proof.
  assert (Forall address ["203.0.113.7"]) as Hall.
  { constructor; [|done]. split; [|by vm_compute]. apply (bool_decide_unpack _). by vm_compute. }
  split; [exact Hall|].
  exact (proj1 (client_ip_is_not_spoofed (Some "10.0.0.1") "1.2.3.4, 5.6.7.8" "203.0.113.7" [] Hall)).
Defined.

(** ** Overload *)

Inductive OverloadEvent : Type :=
  | Arrival (correlationId : option string)
  | Release (n : nat).

Definition overload_step (max retry : Z) (s : Overload.t) (e : OverloadEvent) : Overload.t :=
  match e with
  | Arrival c => (Overload.arrive max retry c s).2
  | Release n => Overload.release n s
  end.
Definition overload_run (max retry : Z) (events : list OverloadEvent) : Overload.t :=
  foldl (overload_step max retry) Overload.init events.

(** The admitted requests whose responses are still open. *)
Definition unreleased (s : Overload.t) : nat :=
  length (List.filter negb (Overload.released s)).

Definition overload_ok (max : Z) (s : Overload.t) : Prop :=
  Overload.inFlight s = Z.of_nat (unreleased s) ∧
  (Overload.inFlight s <= Overload.limit max)%Z.

Lemma filter_release l n :
  l !! n = Some false →
  length (List.filter negb l) = S (length (List.filter negb (<[n := true]> l))).
Proof.
  revert n. induction l as [|b l IH]; intros [|n] Hn; simpl in *; try done.
  - by injection Hn as ->.
  - destruct b; simpl; by rewrite (IH _ Hn).
Qed.

Lemma overload_step_ok max retry s e : overload_ok max s → overload_ok max (overload_step max retry s e).
Proof.
  intros [Hc Hl]. destruct e as [c|n]; simpl.
  - unfold Overload.arrive. destruct (_ <=? _)%Z eqn:Hfull; [done|]. apply Z.leb_gt in Hfull.
    unfold overload_ok, unreleased in *. simpl. rewrite List.filter_app, length_app. simpl. lia.
  - unfold Overload.release. destruct (_ !! n) as [[]|] eqn:Hn; try done.
    unfold overload_ok, unreleased in *. simpl. rewrite (filter_release _ _ Hn) in Hc. lia.
Qed.

(** Requests in flight are bounded: along any arrivals and releases, finish
    and close both reported or not, the guard counts exactly the admitted requests
    not released, never more than its limit, and it sheds a request exactly when
    that many are open. *)
Theorem overload_is_bounded max retry events :
  let s := overload_run max retry events in
  Overload.inFlight s = Z.of_nat (unreleased s) ∧
  (0 <= Overload.inFlight s <= Overload.limit max)%Z ∧
  ∀ c, (Overload.arrive max retry c s).1 = Next ↔ (Z.of_nat (unreleased s) < Overload.limit max)%Z.
Proof.
  assert (∀ s, overload_ok max s → overload_ok max (foldl (overload_step max retry) s events)) as Hrun.
  { induction events as [|e events IH]; intros s Hs; simpl; [done|]. by apply IH, overload_step_ok. }
  destruct (Hrun Overload.init) as [Hc Hl].
  { split; [done|]. unfold Overload.limit. simpl. lia. }
  unfold overload_run. set (s := foldl _ _ _) in *. simpl. split_and!; [done|lia|done|].
  intros c. unfold Overload.arrive. rewrite <-Hc. destruct (_ <=? _)%Z eqn:Hfull; simpl.
  - apply Z.leb_le in Hfull. split; [done|lia].
  - apply Z.leb_gt in Hfull. done.
Qed.

(** ** Cookies *)

Section cookies.
Context (decodeURIComponent : string → Result Exn string).
Abbreviation parse := (set_cookies decodeURIComponent).

Lemma map_get_set k v m j :
  map_get j (map_set k v m) = if String.eqb k j then Some v else map_get j m.
Proof.
  induction m as [|[i w] m IH]; simpl; [done|].
  destruct (String.eqb i k) eqn:Hik; simpl.
  - apply String.eqb_eq in Hik as ->. by destruct (String.eqb k j).
  - rewrite IH. destruct (String.eqb i j) eqn:Hij; [|done].
    apply String.eqb_eq in Hij as ->. by rewrite String.eqb_sym, Hik.
Qed.

(** A name set more than once. *)
Definition cookie_names (parts : list string) : list string := (omap cookie_pair parts).*1.

Lemma set_cookies_other parts name m m' :
  parse parts m = Ok m' → name ∉ cookie_names parts → map_get name m' = map_get name m.
Proof.
  revert m. induction parts as [|p parts IH]; intros m Hrun Hn; simpl in Hrun; [by injection Hrun as ->|].
  unfold cookie_names in *. simpl in Hn. destruct (cookie_pair p) as [[k v]|] eqn:Hp; [|by apply IH].
  apply bind_Result_ok in Hrun as (w & _ & Hrun). simpl in Hn. apply not_elem_of_cons in Hn as [Hne Hn].
  rewrite (IH _ Hrun Hn), map_get_set. by rewrite (proj2 (String.eqb_neq k name)).
Qed.

Lemma find_set_cookies parts name m m' :
  parse parts m = Ok m' → NoDup (cookie_names parts) → map_get name m = None →
  find_cookie decodeURIComponent name parts = Ok (map_get name m').
Proof.
  revert m. induction parts as [|p parts IH]; intros m Hrun Hd Hm; simpl in Hrun |- *.
  { by injection Hrun as <-; rewrite Hm. }
  unfold cookie_names in *. simpl in Hd. destruct (cookie_pair p) as [[k v]|] eqn:Hp; [|by eapply IH].
  apply bind_Result_ok in Hrun as (w & Hw & Hrun). simpl in Hd. apply NoDup_cons in Hd as [Hk Hd].
  destruct (String.eqb k name) eqn:Hkn.
  - apply String.eqb_eq in Hkn as ->. rewrite (set_cookies_other _ _ _ _ Hrun Hk), map_get_set.
    rewrite String.eqb_refl, Hw. done.
  - eapply IH; [exact Hrun|done|]. by rewrite map_get_set, Hkn.
Qed.

(** The browser and the API read the same cookie, as long as no name is set
    twice: of two cookies of a name the browser takes the first, the API the
    last. *)
Lemma cookie_parsers_agree header name m :
  parseCookieHeader decodeURIComponent (Some header) = Ok m →
  NoDup (cookie_names (split ";" header)) →
  readCookie decodeURIComponent name header = Ok (map_get name m).
Proof.
  unfold parseCookieHeader, readCookie. destruct (String.eqb _ _); [by intros [= <-]|].
  intros Hrun Hd. by eapply find_set_cookies.
Qed.
End cookies.

Example duplicate_cookies_differ :
  parseCookieHeader Ok (Some "csrf=a; csrf=b") = Ok [("csrf", "b")] ∧
  readCookie Ok "csrf" "csrf=a; csrf=b" = Ok (Some "a").
Proof. by split. Qed.
