(* ===== verification/Config.v ===== *)
(** Configuration: the environment variables the API, the worker and the web
    application accept, from [packages/config/src/index.ts].

    [string_to_number] of [Env] is JavaScript's [Number]; [url_protocol] is
    [new URL(s).protocol], or nothing when the URL does not parse.  A schema is
    the function from a variable's value to what it parses into.  What Zod says
    about a variable it refuses is not modelled; what the program itself says
    about variables that do not go together is. *)

From Stdlib Require Import String Ascii SpecFloat.
From S2P Require Export Http.
Local Open Scope string_scope.
Local Open Scope Z_scope.

(** A set of literals: [z.enum]. *)
Class Literals (T : Type) : Type := { literal : T → string; literals : list T }.

Module NodeEnv.
(* [src: packages/config/src/index.ts:19-23 nodeEnvSchema] *)
Inductive t : Type := development | test | production.
Definition to_string (x : t) : string :=
  match x with development => "development" | test => "test" | production => "production" end.
#[export] Instance eq_dec : EqDecision t.
Proof. solve_decision. Defined.
#[export] Instance lits : Literals t := {| literal := to_string;
  literals := [development; test; production] |}.
End NodeEnv.
Export (hints) NodeEnv.

Module LoggerLevel.
(* [src: packages/config/src/index.ts:25-29 logLevelSchema] *)
Inductive t : Type := fatal | error | warn | info | debug | trace | silent.
Definition to_string (x : t) : string :=
  match x with
  | fatal => "fatal" | error => "error" | warn => "warn" | info => "info" | debug => "debug"
  | trace => "trace" | silent => "silent"
  end.
#[export] Instance lits : Literals t := {| literal := to_string;
  literals := [fatal; error; warn; info; debug; trace; silent] |}.
End LoggerLevel.
Export (hints) LoggerLevel.

Module AuthProvider.
(* [src: packages/config/src/index.ts:144-146 AUTH_PROVIDER] *)
Inductive t : Type := local | oidc.
Definition to_string (x : t) : string := match x with local => "local" | oidc => "oidc" end.
#[export] Instance eq_dec : EqDecision t.
Proof. solve_decision. Defined.
#[export] Instance lits : Literals t := {| literal := to_string; literals := [local; oidc] |}.
End AuthProvider.
Export (hints) AuthProvider.

Module InspectorName.
(* [src: packages/config/src/index.ts:173-173 DOCUMENT_INSPECTOR] *)
Inductive t : Type := local | fail_closed | structural.
Definition to_string (x : t) : string :=
  match x with local => "local" | fail_closed => "fail_closed" | structural => "structural" end.
#[export] Instance eq_dec : EqDecision t.
Proof. solve_decision. Defined.
#[export] Instance lits : Literals t := {| literal := to_string;
  literals := [local; fail_closed; structural] |}.
End InspectorName.
Export (hints) InspectorName.

Module StorageDriver.
(* [src: packages/config/src/index.ts:183-183 OBJECT_STORAGE_DRIVER] *)
Inductive t : Type := memory | filesystem | s3.
Definition to_string (x : t) : string :=
  match x with memory => "memory" | filesystem => "filesystem" | s3 => "s3" end.
#[export] Instance eq_dec : EqDecision t.
Proof. solve_decision. Defined.
#[export] Instance lits : Literals t := {| literal := to_string;
  literals := [memory; filesystem; s3] |}.
End StorageDriver.
Export (hints) StorageDriver.

Module CheckpointStoreName.
(* [src: packages/config/src/index.ts:194-194 AUDIT_CHECKPOINT_STORE] *)
Inductive t : Type := disabled | object_storage.
Definition to_string (x : t) : string :=
  match x with disabled => "disabled" | object_storage => "object_storage" end.
#[export] Instance lits : Literals t := {| literal := to_string;
  literals := [disabled; object_storage] |}.
End CheckpointStoreName.
Export (hints) CheckpointStoreName.

Module NotificationAdapter.
(* [src: packages/config/src/index.ts:220-220 NOTIFICATION_ADAPTER] *)
Inductive t : Type := local | fail_closed.
Definition to_string (x : t) : string :=
  match x with local => "local" | fail_closed => "fail_closed" end.
#[export] Instance lits : Literals t := {| literal := to_string; literals := [local; fail_closed] |}.
End NotificationAdapter.
Export (hints) NotificationAdapter.

#[export] Instance overlap_policy_lits : Literals FieldOverlapPolicy.t := {|
  literal := FieldOverlapPolicy.to_string; literals := FieldOverlapPolicy.all |}.

(** ** What is loaded

    [S] is the type of [AUTH_COOKIE_SECURE]: [option bool] as it is parsed,
    [bool] as it is used. *)

Module ApiConfig.
(* [src: packages/config/src/index.ts:466-466 ApiConfig] *)
Record t (S : Type) : Type := mk {
  NODE_ENV : NodeEnv.t;
  LOG_LEVEL : LoggerLevel.t;
  API_HOST : string;
  API_PORT : Z;
  CORS_ORIGINS : list string;
  JSON_BODY_LIMIT : string;
  AUTH_JSON_BODY_LIMIT : string;
  SIGNING_JSON_BODY_LIMIT : string;
  CORRELATION_ID_HEADER : string;
  TRUST_PROXY : Z;
  API_REQUEST_TIMEOUT_MS : Z;
  API_MAX_CONCURRENT_REQUESTS : Z;
  API_RATE_LIMIT_WINDOW_MS : Z;
  API_RATE_LIMIT_MAX : Z;
  SHUTDOWN_TIMEOUT_MS : Z;
  DATABASE_URL : string;
  AUTH_PROVIDER : AuthProvider.t;
  AUTH_SESSION_TTL_SECONDS : Z;
  AUTH_COOKIE_SECURE : S;
  AUTH_SESSION_COOKIE_NAME : string;
  AUTH_CSRF_COOKIE_NAME : string;
  AUTH_CSRF_HEADER_NAME : string;
  AUTH_LOGIN_RATE_LIMIT_WINDOW_MS : Z;
  AUTH_LOGIN_RATE_LIMIT_MAX : Z;
  AUTH_LOCAL_SHARED_SECRET : option string;
  AUTH_OIDC_ISSUER : option string;
  AUTH_OIDC_CLIENT_ID : option string;
  AUTH_OIDC_CLIENT_SECRET : option string;
  AUTH_OIDC_REDIRECT_URI : option string;
  DOCUMENT_MAX_UPLOAD_BYTES : Z;
  DOCUMENT_UPLOAD_TTL_SECONDS : Z;
  DOCUMENT_PREVIEW_TTL_SECONDS : Z;
  DOCUMENT_INSPECTOR : InspectorName.t;
  DOCUMENT_UPLOAD_TOKEN_HEADER : string;
  DOCUMENT_PREVIEW_TOKEN_HEADER : string;
  IDEMPOTENCY_TTL_SECONDS : Z;
  OBJECT_STORAGE_DRIVER : StorageDriver.t;
  OBJECT_STORAGE_FS_ROOT : option string;
  OBJECT_STORAGE_ENDPOINT : option string;
  OBJECT_STORAGE_REGION : option string;
  OBJECT_STORAGE_BUCKET : option string;
  OBJECT_STORAGE_ACCESS_KEY : option string;
  OBJECT_STORAGE_SECRET_KEY : option string;
  OBJECT_STORAGE_FORCE_PATH_STYLE : bool;
  AUDIT_CHECKPOINT_STORE : CheckpointStoreName.t;
  SIGNING_SESSION_TTL_SECONDS : Z;
  SIGNING_SESSION_COOKIE_NAME : string;
  SIGNING_CSRF_COOKIE_NAME : string;
  SIGNING_RATE_LIMIT_WINDOW_MS : Z;
  SIGNING_RATE_LIMIT_MAX : Z;
  SIGNING_CONSENT_COPY_ID : string;
  SIGNING_CONSENT_VERSION : string;
  SIGNING_CONSENT_TITLE : string;
  SIGNING_CONSENT_TEXT : string;
  DOCUMENT_FIELD_OVERLAP_POLICY : FieldOverlapPolicy.t;
  NOTIFICATION_ADAPTER : NotificationAdapter.t;
  NOTIFICATION_PREVIEW_DIR : string
}.
Arguments NODE_ENV {S}.
Arguments LOG_LEVEL {S}.
Arguments API_HOST {S}.
Arguments API_PORT {S}.
Arguments CORS_ORIGINS {S}.
Arguments JSON_BODY_LIMIT {S}.
Arguments AUTH_JSON_BODY_LIMIT {S}.
Arguments SIGNING_JSON_BODY_LIMIT {S}.
Arguments CORRELATION_ID_HEADER {S}.
Arguments TRUST_PROXY {S}.
Arguments API_REQUEST_TIMEOUT_MS {S}.
Arguments API_MAX_CONCURRENT_REQUESTS {S}.
Arguments API_RATE_LIMIT_WINDOW_MS {S}.
Arguments API_RATE_LIMIT_MAX {S}.
Arguments SHUTDOWN_TIMEOUT_MS {S}.
Arguments DATABASE_URL {S}.
Arguments AUTH_PROVIDER {S}.
Arguments AUTH_SESSION_TTL_SECONDS {S}.
Arguments AUTH_COOKIE_SECURE {S}.
Arguments AUTH_SESSION_COOKIE_NAME {S}.
Arguments AUTH_CSRF_COOKIE_NAME {S}.
Arguments AUTH_CSRF_HEADER_NAME {S}.
Arguments AUTH_LOGIN_RATE_LIMIT_WINDOW_MS {S}.
Arguments AUTH_LOGIN_RATE_LIMIT_MAX {S}.
Arguments AUTH_LOCAL_SHARED_SECRET {S}.
Arguments AUTH_OIDC_ISSUER {S}.
Arguments AUTH_OIDC_CLIENT_ID {S}.
Arguments AUTH_OIDC_CLIENT_SECRET {S}.
Arguments AUTH_OIDC_REDIRECT_URI {S}.
Arguments DOCUMENT_MAX_UPLOAD_BYTES {S}.
Arguments DOCUMENT_UPLOAD_TTL_SECONDS {S}.
Arguments DOCUMENT_PREVIEW_TTL_SECONDS {S}.
Arguments DOCUMENT_INSPECTOR {S}.
Arguments DOCUMENT_UPLOAD_TOKEN_HEADER {S}.
Arguments DOCUMENT_PREVIEW_TOKEN_HEADER {S}.
Arguments IDEMPOTENCY_TTL_SECONDS {S}.
Arguments OBJECT_STORAGE_DRIVER {S}.
Arguments OBJECT_STORAGE_FS_ROOT {S}.
Arguments OBJECT_STORAGE_ENDPOINT {S}.
Arguments OBJECT_STORAGE_REGION {S}.
Arguments OBJECT_STORAGE_BUCKET {S}.
Arguments OBJECT_STORAGE_ACCESS_KEY {S}.
Arguments OBJECT_STORAGE_SECRET_KEY {S}.
Arguments OBJECT_STORAGE_FORCE_PATH_STYLE {S}.
Arguments AUDIT_CHECKPOINT_STORE {S}.
Arguments SIGNING_SESSION_TTL_SECONDS {S}.
Arguments SIGNING_SESSION_COOKIE_NAME {S}.
Arguments SIGNING_CSRF_COOKIE_NAME {S}.
Arguments SIGNING_RATE_LIMIT_WINDOW_MS {S}.
Arguments SIGNING_RATE_LIMIT_MAX {S}.
Arguments SIGNING_CONSENT_COPY_ID {S}.
Arguments SIGNING_CONSENT_VERSION {S}.
Arguments SIGNING_CONSENT_TITLE {S}.
Arguments SIGNING_CONSENT_TEXT {S}.
Arguments DOCUMENT_FIELD_OVERLAP_POLICY {S}.
Arguments NOTIFICATION_ADAPTER {S}.
Arguments NOTIFICATION_PREVIEW_DIR {S}.
Arguments mk {S}.
End ApiConfig.

Module WorkerConfig.
(* [src: packages/config/src/index.ts:467-467 WorkerConfig] *)
Record t : Type := mk {
  NODE_ENV : NodeEnv.t;
  LOG_LEVEL : LoggerLevel.t;
  DATABASE_URL : string;
  WORKER_HEALTH_HOST : string;
  WORKER_HEALTH_PORT : Z;
  WORKER_POLL_INTERVAL_MS : Z;
  WORKER_LEASE_MS : Z;
  WORKER_BACKOFF_BASE_MS : Z;
  WORKER_BACKOFF_MAX_MS : Z;
  WORKER_STALE_QUEUE_MS : Z;
  WORKER_PDF_TIMEOUT_MS : Z;
  WORKER_ORPHAN_OBJECT_TTL_MS : Z;
  SHUTDOWN_TIMEOUT_MS : Z;
  OBJECT_STORAGE_ENDPOINT : string;
  OBJECT_STORAGE_REGION : string;
  OBJECT_STORAGE_BUCKET : string;
  OBJECT_STORAGE_ACCESS_KEY : string;
  OBJECT_STORAGE_SECRET_KEY : string;
  OBJECT_STORAGE_FORCE_PATH_STYLE : bool;
  OBJECT_STORAGE_DRIVER : StorageDriver.t;
  OBJECT_STORAGE_FS_ROOT : option string;
  AUDIT_CHECKPOINT_STORE : CheckpointStoreName.t;
  WORKER_AUDIT_VERIFY_INTERVAL_MS : Z;
  DOCUMENT_MAX_UPLOAD_BYTES : Z;
  DOCUMENT_INSPECTOR : InspectorName.t;
  NOTIFICATION_ADAPTER : NotificationAdapter.t;
  NOTIFICATION_PREVIEW_DIR : string
}.
End WorkerConfig.

(** ** Schemas of single variables *)

(** The environment: what a variable is set to. *)
Definition ProcessEnv : Type := string → option string.

(** The integer a number is. *)
Definition integer_value (n : jsnum) : option Z :=
  match n with
  | NInt z => Some z
  | NFlt (S754_zero _) => Some 0
  | NFlt (S754_finite s m e) =>
    if isInteger n then
      let v := if 0 <=? e then Zpos m * 2 ^ e else Zpos m / 2 ^ (- e) in
      Some (if s then - v else v)
    else None
  | NFlt _ => None
  end.

(** [.min(lo)] and [.max(hi)], where given. *)
Definition within (lo hi : option Z) (z : Z) : bool :=
  match lo with Some lo => lo <=? z | None => true end &&
  match hi with Some hi => z <=? hi | None => true end.

(** [z.enum(..)], with its default. *)
Definition enumerated {T} `{Literals T} (d : option T) (v : option string) : option T :=
  match v with
  | None => d
  | Some s => List.find (λ x, String.eqb (literal x) s) literals
  end.

(** [requiredString(..)], with its default. *)
(* [src: packages/config/src/index.ts:33-38 requiredString] *)
Definition required_string (d : option string) (v : option string) : option string :=
  s ← match v with Some s => Some s | None => d end;
  let s := trim s in
  if String.eqb s EmptyString then None else Some s.

(** [z.string().optional()]. *)
Definition optional_string (v : option string) : option (option string) := Some v.

(** [z.enum(['true', 'false']).optional()]. *)
Definition flag (v : option string) : option (option bool) :=
  match v with
  | None => Some None
  | Some s =>
    if String.eqb s "true" then Some (Some true)
    else if String.eqb s "false" then Some (Some false) else None
  end.

(* [src: packages/config/src/index.ts:40-45 parseOriginList] *)
Definition parseOriginList (value : string) : list string :=
  List.filter (λ o, negb (String.eqb o EmptyString)) (trim <$> split "," value).

(** [/^\d+(?:b|kb|mb|gb)$/i]. *)
Definition is_body_limit (s : string) : bool :=
  let digits := leading_digits (units s) in
  negb (bool_decide (digits = [])) &&
  bool_decide (toLowerCase (of_units (drop (length digits) (units s))) ∈ ["b"; "kb"; "mb"; "gb"]).

(* [src: packages/config/src/index.ts:51-53 jsonBodyLimitSchema] *)
Definition body_limit (d : string) (v : option string) : option string :=
  let s := default d v in if is_body_limit s then Some s else None.

(* [src: packages/config/src/index.ts:60-83 trustProxySchema] *)
Definition trust_proxy (v : option string) : option Z :=
  let value := default "0" v in
  let normalized := toLowerCase (trim value) in
  if bool_decide (normalized ∈ ["true"; "false"]) then None
  else if String.eqb normalized EmptyString || negb (forallb is_digit (units normalized)) then None
  else
    hops ← parseInt (trim value);
    if hops <=? 16 then Some hops else None.

(** The text a signer consents to, unless configured. *)
Definition CONSENT_TEXT : string :=
  "By selecting Agree, you confirm that you have reviewed this document and intend to sign electronically. This text is a product placeholder and is not legal advice.".

Section config.
Context `{Env} (url_protocol : string → option string).

(** [z.coerce.number().int()] with its bounds and its default, which is coerced
    and checked like a value; [Number(undefined)] is NaN. *)
Definition coerced (lo hi d : option Z) (v : option string) : option Z :=
  z ← match v with Some s => integer_value (string_to_number s) | None => d end;
  if within lo hi z then Some z else None.

(** [z.string().url()]. *)
Definition is_url (s : string) : bool := negb (bool_decide (url_protocol s = None)).

(* [src: packages/config/src/index.ts:85-92 isAbsoluteHttpUrl] *)
Definition isAbsoluteHttpUrl (value : string) : bool :=
  bool_decide (url_protocol value = Some "https:") || bool_decide (url_protocol value = Some "http:").

(* [src: packages/config/src/index.ts:94-99 databaseUrlSchema] *)
Definition database_url (v : option string) : option string :=
  value ← required_string None v;
  if startsWith "postgresql://" value || startsWith "postgres://" value then Some value else None.

(* [src: packages/config/src/index.ts:106-128 CORS_ORIGINS] *)
Definition origin_list (v : option string) : option (list string) :=
  value ← required_string None v;
  let origins := parseOriginList value in
  if bool_decide (origins = []) then None
  else if forallb is_url origins then Some origins else None.

Definition required_url (v : option string) : option string :=
  value ← required_string None v;
  if is_url value then Some value else None.

(** ** The schemas *)

(* [src: packages/config/src/index.ts:101-225 apiEnvSchema] *)
Definition apiEnvFields (env : ProcessEnv) : option (ApiConfig.t (option bool)) :=
  NODE_ENV ← enumerated (T := NodeEnv.t) None (env "NODE_ENV");
  LOG_LEVEL ← enumerated (T := LoggerLevel.t) (Some LoggerLevel.info) (env "LOG_LEVEL");
  API_HOST ← required_string (Some "0.0.0.0") (env "API_HOST");
  API_PORT ← coerced (Some 1) (Some 65535) None (env "API_PORT");
  CORS_ORIGINS ← origin_list (env "CORS_ORIGINS");
  JSON_BODY_LIMIT ← body_limit "1mb" (env "JSON_BODY_LIMIT");
  AUTH_JSON_BODY_LIMIT ← body_limit "16kb" (env "AUTH_JSON_BODY_LIMIT");
  SIGNING_JSON_BODY_LIMIT ← body_limit "512kb" (env "SIGNING_JSON_BODY_LIMIT");
  CORRELATION_ID_HEADER ← required_string (Some "x-correlation-id") (env "CORRELATION_ID_HEADER");
  TRUST_PROXY ← trust_proxy (env "TRUST_PROXY");
  API_REQUEST_TIMEOUT_MS ←
    coerced (Some 1000) (Some 120000) (Some 30000) (env "API_REQUEST_TIMEOUT_MS");
  API_MAX_CONCURRENT_REQUESTS ←
    coerced (Some 1) (Some 100000) (Some 512) (env "API_MAX_CONCURRENT_REQUESTS");
  API_RATE_LIMIT_WINDOW_MS ← coerced (Some 1) None (Some 60000) (env "API_RATE_LIMIT_WINDOW_MS");
  API_RATE_LIMIT_MAX ← coerced (Some 1) None (Some 600) (env "API_RATE_LIMIT_MAX");
  SHUTDOWN_TIMEOUT_MS ← coerced (Some 1) None (Some 10000) (env "SHUTDOWN_TIMEOUT_MS");
  DATABASE_URL ← database_url (env "DATABASE_URL");
  AUTH_PROVIDER ← enumerated (T := AuthProvider.t) None (env "AUTH_PROVIDER");
  AUTH_SESSION_TTL_SECONDS ←
    coerced (Some 60) (Some 604800) (Some 28800) (env "AUTH_SESSION_TTL_SECONDS");
  AUTH_COOKIE_SECURE ← flag (env "AUTH_COOKIE_SECURE");
  AUTH_SESSION_COOKIE_NAME ← required_string (Some "esign_sid") (env "AUTH_SESSION_COOKIE_NAME");
  AUTH_CSRF_COOKIE_NAME ← required_string (Some "esign_csrf") (env "AUTH_CSRF_COOKIE_NAME");
  AUTH_CSRF_HEADER_NAME ← required_string (Some "x-csrf-token") (env "AUTH_CSRF_HEADER_NAME");
  AUTH_LOGIN_RATE_LIMIT_WINDOW_MS ←
    coerced (Some 1) None (Some 60000) (env "AUTH_LOGIN_RATE_LIMIT_WINDOW_MS");
  AUTH_LOGIN_RATE_LIMIT_MAX ← coerced (Some 1) None (Some 10) (env "AUTH_LOGIN_RATE_LIMIT_MAX");
  AUTH_LOCAL_SHARED_SECRET ← optional_string (env "AUTH_LOCAL_SHARED_SECRET");
  AUTH_OIDC_ISSUER ← optional_string (env "AUTH_OIDC_ISSUER");
  AUTH_OIDC_CLIENT_ID ← optional_string (env "AUTH_OIDC_CLIENT_ID");
  AUTH_OIDC_CLIENT_SECRET ← optional_string (env "AUTH_OIDC_CLIENT_SECRET");
  AUTH_OIDC_REDIRECT_URI ← optional_string (env "AUTH_OIDC_REDIRECT_URI");
  DOCUMENT_MAX_UPLOAD_BYTES ←
    coerced (Some 1024) (Some 104857600) (Some 26214400) (env "DOCUMENT_MAX_UPLOAD_BYTES");
  DOCUMENT_UPLOAD_TTL_SECONDS ←
    coerced (Some 60) (Some 86400) (Some 900) (env "DOCUMENT_UPLOAD_TTL_SECONDS");
  DOCUMENT_PREVIEW_TTL_SECONDS ←
    coerced (Some 30) (Some 3600) (Some 120) (env "DOCUMENT_PREVIEW_TTL_SECONDS");
  DOCUMENT_INSPECTOR ←
    enumerated (T := InspectorName.t) (Some InspectorName.local) (env "DOCUMENT_INSPECTOR");
  DOCUMENT_UPLOAD_TOKEN_HEADER ←
    required_string (Some "x-upload-token") (env "DOCUMENT_UPLOAD_TOKEN_HEADER");
  DOCUMENT_PREVIEW_TOKEN_HEADER ←
    required_string (Some "x-preview-token") (env "DOCUMENT_PREVIEW_TOKEN_HEADER");
  IDEMPOTENCY_TTL_SECONDS ←
    coerced (Some 60) (Some 604800) (Some 86400) (env "IDEMPOTENCY_TTL_SECONDS");
  OBJECT_STORAGE_DRIVER ←
    enumerated (T := StorageDriver.t) (Some StorageDriver.memory) (env "OBJECT_STORAGE_DRIVER");
  OBJECT_STORAGE_FS_ROOT ← optional_string (env "OBJECT_STORAGE_FS_ROOT");
  OBJECT_STORAGE_ENDPOINT ← optional_string (env "OBJECT_STORAGE_ENDPOINT");
  OBJECT_STORAGE_REGION ← optional_string (env "OBJECT_STORAGE_REGION");
  OBJECT_STORAGE_BUCKET ← optional_string (env "OBJECT_STORAGE_BUCKET");
  OBJECT_STORAGE_ACCESS_KEY ← optional_string (env "OBJECT_STORAGE_ACCESS_KEY");
  OBJECT_STORAGE_SECRET_KEY ← optional_string (env "OBJECT_STORAGE_SECRET_KEY");
  OBJECT_STORAGE_FORCE_PATH_STYLE ← default true <$> flag (env "OBJECT_STORAGE_FORCE_PATH_STYLE");
  AUDIT_CHECKPOINT_STORE ←
    enumerated (T := CheckpointStoreName.t) (Some CheckpointStoreName.disabled) (env "AUDIT_CHECKPOINT_STORE");
  SIGNING_SESSION_TTL_SECONDS ←
    coerced (Some 300) (Some 2592000) (Some 604800) (env "SIGNING_SESSION_TTL_SECONDS");
  SIGNING_SESSION_COOKIE_NAME ←
    required_string (Some "esign_sign") (env "SIGNING_SESSION_COOKIE_NAME");
  SIGNING_CSRF_COOKIE_NAME ←
    required_string (Some "esign_sign_csrf") (env "SIGNING_CSRF_COOKIE_NAME");
  SIGNING_RATE_LIMIT_WINDOW_MS ←
    coerced (Some 1) None (Some 60000) (env "SIGNING_RATE_LIMIT_WINDOW_MS");
  SIGNING_RATE_LIMIT_MAX ← coerced (Some 1) None (Some 30) (env "SIGNING_RATE_LIMIT_MAX");
  SIGNING_CONSENT_COPY_ID ←
    required_string (Some "esign-disclosure-v1") (env "SIGNING_CONSENT_COPY_ID");
  SIGNING_CONSENT_VERSION ← required_string (Some "1") (env "SIGNING_CONSENT_VERSION");
  SIGNING_CONSENT_TITLE ←
    required_string (Some "Electronic signature consent") (env "SIGNING_CONSENT_TITLE");
  SIGNING_CONSENT_TEXT ← required_string (Some CONSENT_TEXT) (env "SIGNING_CONSENT_TEXT");
  DOCUMENT_FIELD_OVERLAP_POLICY ←
    enumerated (T := FieldOverlapPolicy.t) (Some FieldOverlapPolicy.prohibit) (env "DOCUMENT_FIELD_OVERLAP_POLICY");
  NOTIFICATION_ADAPTER ←
    enumerated (T := NotificationAdapter.t) (Some NotificationAdapter.local) (env "NOTIFICATION_ADAPTER");
  NOTIFICATION_PREVIEW_DIR ←
    required_string (Some "tmp/signing-notifications") (env "NOTIFICATION_PREVIEW_DIR");
  Some (ApiConfig.mk NODE_ENV LOG_LEVEL API_HOST API_PORT CORS_ORIGINS JSON_BODY_LIMIT
    AUTH_JSON_BODY_LIMIT SIGNING_JSON_BODY_LIMIT CORRELATION_ID_HEADER TRUST_PROXY
    API_REQUEST_TIMEOUT_MS API_MAX_CONCURRENT_REQUESTS API_RATE_LIMIT_WINDOW_MS
    API_RATE_LIMIT_MAX SHUTDOWN_TIMEOUT_MS DATABASE_URL AUTH_PROVIDER AUTH_SESSION_TTL_SECONDS
    AUTH_COOKIE_SECURE AUTH_SESSION_COOKIE_NAME AUTH_CSRF_COOKIE_NAME AUTH_CSRF_HEADER_NAME
    AUTH_LOGIN_RATE_LIMIT_WINDOW_MS AUTH_LOGIN_RATE_LIMIT_MAX AUTH_LOCAL_SHARED_SECRET
    AUTH_OIDC_ISSUER AUTH_OIDC_CLIENT_ID AUTH_OIDC_CLIENT_SECRET AUTH_OIDC_REDIRECT_URI
    DOCUMENT_MAX_UPLOAD_BYTES DOCUMENT_UPLOAD_TTL_SECONDS DOCUMENT_PREVIEW_TTL_SECONDS
    DOCUMENT_INSPECTOR DOCUMENT_UPLOAD_TOKEN_HEADER DOCUMENT_PREVIEW_TOKEN_HEADER
    IDEMPOTENCY_TTL_SECONDS OBJECT_STORAGE_DRIVER OBJECT_STORAGE_FS_ROOT OBJECT_STORAGE_ENDPOINT
    OBJECT_STORAGE_REGION OBJECT_STORAGE_BUCKET OBJECT_STORAGE_ACCESS_KEY
    OBJECT_STORAGE_SECRET_KEY OBJECT_STORAGE_FORCE_PATH_STYLE AUDIT_CHECKPOINT_STORE
    SIGNING_SESSION_TTL_SECONDS SIGNING_SESSION_COOKIE_NAME SIGNING_CSRF_COOKIE_NAME
    SIGNING_RATE_LIMIT_WINDOW_MS SIGNING_RATE_LIMIT_MAX SIGNING_CONSENT_COPY_ID
    SIGNING_CONSENT_VERSION SIGNING_CONSENT_TITLE SIGNING_CONSENT_TEXT
    DOCUMENT_FIELD_OVERLAP_POLICY NOTIFICATION_ADAPTER NOTIFICATION_PREVIEW_DIR).

(* [src: packages/config/src/index.ts:356-408 workerEnvSchema] *)
Definition workerEnvFields (env : ProcessEnv) : option WorkerConfig.t :=
  NODE_ENV ← enumerated (T := NodeEnv.t) None (env "NODE_ENV");
  LOG_LEVEL ← enumerated (T := LoggerLevel.t) (Some LoggerLevel.info) (env "LOG_LEVEL");
  DATABASE_URL ← database_url (env "DATABASE_URL");
  WORKER_HEALTH_HOST ← required_string (Some "0.0.0.0") (env "WORKER_HEALTH_HOST");
  WORKER_HEALTH_PORT ← coerced (Some 1) (Some 65535) None (env "WORKER_HEALTH_PORT");
  WORKER_POLL_INTERVAL_MS ← coerced (Some 100) None (Some 5000) (env "WORKER_POLL_INTERVAL_MS");
  WORKER_LEASE_MS ← coerced (Some 1000) None (Some 60000) (env "WORKER_LEASE_MS");
  WORKER_BACKOFF_BASE_MS ← coerced (Some 100) None (Some 1000) (env "WORKER_BACKOFF_BASE_MS");
  WORKER_BACKOFF_MAX_MS ← coerced (Some 1000) None (Some 300000) (env "WORKER_BACKOFF_MAX_MS");
  WORKER_STALE_QUEUE_MS ← coerced (Some 1000) None (Some 120000) (env "WORKER_STALE_QUEUE_MS");
  WORKER_PDF_TIMEOUT_MS ←
    coerced (Some 1000) (Some 120000) (Some 15000) (env "WORKER_PDF_TIMEOUT_MS");
  WORKER_ORPHAN_OBJECT_TTL_MS ←
    coerced (Some 60000) (Some 604800000) (Some 86400000) (env "WORKER_ORPHAN_OBJECT_TTL_MS");
  SHUTDOWN_TIMEOUT_MS ← coerced (Some 1) None (Some 10000) (env "SHUTDOWN_TIMEOUT_MS");
  OBJECT_STORAGE_ENDPOINT ← required_url (env "OBJECT_STORAGE_ENDPOINT");
  OBJECT_STORAGE_REGION ← required_string None (env "OBJECT_STORAGE_REGION");
  OBJECT_STORAGE_BUCKET ← required_string None (env "OBJECT_STORAGE_BUCKET");
  OBJECT_STORAGE_ACCESS_KEY ← required_string None (env "OBJECT_STORAGE_ACCESS_KEY");
  OBJECT_STORAGE_SECRET_KEY ← required_string None (env "OBJECT_STORAGE_SECRET_KEY");
  OBJECT_STORAGE_FORCE_PATH_STYLE ← default true <$> flag (env "OBJECT_STORAGE_FORCE_PATH_STYLE");
  OBJECT_STORAGE_DRIVER ←
    enumerated (T := StorageDriver.t) (Some StorageDriver.memory) (env "OBJECT_STORAGE_DRIVER");
  OBJECT_STORAGE_FS_ROOT ← optional_string (env "OBJECT_STORAGE_FS_ROOT");
  AUDIT_CHECKPOINT_STORE ←
    enumerated (T := CheckpointStoreName.t) (Some CheckpointStoreName.disabled) (env "AUDIT_CHECKPOINT_STORE");
  WORKER_AUDIT_VERIFY_INTERVAL_MS ←
    coerced (Some 10000) (Some 86400000) (Some 300000) (env "WORKER_AUDIT_VERIFY_INTERVAL_MS");
  DOCUMENT_MAX_UPLOAD_BYTES ←
    coerced (Some 1024) (Some 104857600) (Some 26214400) (env "DOCUMENT_MAX_UPLOAD_BYTES");
  DOCUMENT_INSPECTOR ←
    enumerated (T := InspectorName.t) (Some InspectorName.local) (env "DOCUMENT_INSPECTOR");
  NOTIFICATION_ADAPTER ←
    enumerated (T := NotificationAdapter.t) (Some NotificationAdapter.local) (env "NOTIFICATION_ADAPTER");
  NOTIFICATION_PREVIEW_DIR ←
    required_string (Some "tmp/signing-notifications") (env "NOTIFICATION_PREVIEW_DIR");
  Some (WorkerConfig.mk NODE_ENV LOG_LEVEL DATABASE_URL WORKER_HEALTH_HOST WORKER_HEALTH_PORT
    WORKER_POLL_INTERVAL_MS WORKER_LEASE_MS WORKER_BACKOFF_BASE_MS WORKER_BACKOFF_MAX_MS
    WORKER_STALE_QUEUE_MS WORKER_PDF_TIMEOUT_MS WORKER_ORPHAN_OBJECT_TTL_MS SHUTDOWN_TIMEOUT_MS
    OBJECT_STORAGE_ENDPOINT OBJECT_STORAGE_REGION OBJECT_STORAGE_BUCKET
    OBJECT_STORAGE_ACCESS_KEY OBJECT_STORAGE_SECRET_KEY OBJECT_STORAGE_FORCE_PATH_STYLE
    OBJECT_STORAGE_DRIVER OBJECT_STORAGE_FS_ROOT AUDIT_CHECKPOINT_STORE
    WORKER_AUDIT_VERIFY_INTERVAL_MS DOCUMENT_MAX_UPLOAD_BYTES DOCUMENT_INSPECTOR
    NOTIFICATION_ADAPTER NOTIFICATION_PREVIEW_DIR).

(** ** Variables that do not go together *)

Definition issue (b : bool) (message : string) : list string := if b then [message] else [].

Definition in_production (e : NodeEnv.t) : bool := bool_decide (e = NodeEnv.production).

(** The checks the API and the worker share. *)
(* [src: packages/config/src/index.ts:274-300 superRefine, the document inspector and the storage driver] *)
Definition shared_issues (env : NodeEnv.t) (inspector : InspectorName.t) (driver : StorageDriver.t)
    (root : option string) : list string :=
  (issue (in_production env && bool_decide (inspector = InspectorName.local))
     "DOCUMENT_INSPECTOR=local is not allowed in production. Use DOCUMENT_INSPECTOR=structural (or fail_closed as an ops kill-switch)." ++
   issue (in_production env &&
          bool_decide (driver ∈ [StorageDriver.memory; StorageDriver.filesystem]))
     "OBJECT_STORAGE_DRIVER=memory|filesystem is not allowed in production. Use OBJECT_STORAGE_DRIVER=s3 with a private S3-compatible bucket (MinIO is local-only)." ++
   issue (bool_decide (driver = StorageDriver.filesystem) && blank root)
     "OBJECT_STORAGE_FS_ROOT is required when OBJECT_STORAGE_DRIVER=filesystem. Example: tmp/object-storage")%list.

(** The variables of the identity provider and of the object store, with the
    examples of the messages. *)
Definition requiredOidc (data : ApiConfig.t (option bool)) : list (string * string * option string) :=
  [("AUTH_OIDC_ISSUER", "https://idp.example.invalid/realms/esign", ApiConfig.AUTH_OIDC_ISSUER data);
   ("AUTH_OIDC_CLIENT_ID", "your-oidc-client-id", ApiConfig.AUTH_OIDC_CLIENT_ID data);
   ("AUTH_OIDC_CLIENT_SECRET", "your-oidc-client-secret", ApiConfig.AUTH_OIDC_CLIENT_SECRET data);
   ("AUTH_OIDC_REDIRECT_URI", "https://api.example.invalid/auth/oidc/callback",
    ApiConfig.AUTH_OIDC_REDIRECT_URI data)].
Definition requiredS3 (data : ApiConfig.t (option bool)) : list (string * string * option string) :=
  [("OBJECT_STORAGE_ENDPOINT", "https://s3.example.invalid", ApiConfig.OBJECT_STORAGE_ENDPOINT data);
   ("OBJECT_STORAGE_REGION", "us-east-1", ApiConfig.OBJECT_STORAGE_REGION data);
   ("OBJECT_STORAGE_BUCKET", "esign-documents", ApiConfig.OBJECT_STORAGE_BUCKET data);
   ("OBJECT_STORAGE_ACCESS_KEY", "access-key-from-secrets-manager",
    ApiConfig.OBJECT_STORAGE_ACCESS_KEY data);
   ("OBJECT_STORAGE_SECRET_KEY", "secret-key-from-secrets-manager",
    ApiConfig.OBJECT_STORAGE_SECRET_KEY data)].

(** [value && !isAbsoluteHttpUrl(value)]. *)
Definition bad_url (v : option string) : bool :=
  match v with
  | None | Some EmptyString => false
  | Some v => negb (isAbsoluteHttpUrl v)
  end.

Definition missing (message : string → string → string)
    (required : list (string * string * option string)) : list string :=
  '(field, example, value) ← required;
  issue (blank value) (message field example).

(* [src: packages/config/src/index.ts:244-273 superRefine, AUTH_PROVIDER=oidc] *)
Definition oidc_issues (data : ApiConfig.t (option bool)) : list string :=
  (missing (λ field example, field +:+ " is required when AUTH_PROVIDER=oidc. Example: " +:+ example +:+
      ". See docs/security/authentication-setup.md") (requiredOidc data) ++
   issue (bad_url (ApiConfig.AUTH_OIDC_ISSUER data))
     "AUTH_OIDC_ISSUER must be an absolute https URL from your identity provider" ++
   issue (bad_url (ApiConfig.AUTH_OIDC_REDIRECT_URI data))
     "AUTH_OIDC_REDIRECT_URI must be an absolute URL registered with the identity provider")%list.

(* [src: packages/config/src/index.ts:301-328 superRefine, OBJECT_STORAGE_DRIVER=s3] *)
Definition s3_issues (data : ApiConfig.t (option bool)) : list string :=
  (missing (λ field example, field +:+ " is required when OBJECT_STORAGE_DRIVER=s3. Example: " +:+
      example) (requiredS3 data) ++
   issue (negb (blank (ApiConfig.OBJECT_STORAGE_ENDPOINT data)) &&
          bad_url (ApiConfig.OBJECT_STORAGE_ENDPOINT data))
     "OBJECT_STORAGE_ENDPOINT must be an absolute URL such as http://localhost:9000")%list.

(* [src: packages/config/src/index.ts:226-329 apiEnvSchema superRefine] *)
Definition apiEnvIssues (data : ApiConfig.t (option bool)) : list string :=
  let production := in_production (ApiConfig.NODE_ENV data) in
  (issue (production && bool_decide (ApiConfig.AUTH_PROVIDER data = AuthProvider.local))
     "AUTH_PROVIDER=local is not allowed in production. Configure OIDC using docs/security/authentication-setup.md" ++
   issue (bool_decide (ApiConfig.AUTH_PROVIDER data = AuthProvider.local) &&
          match ApiConfig.AUTH_LOCAL_SHARED_SECRET data with
          | None => true
          | Some secret => str_length (trim secret) <? 16
          end)
     "AUTH_LOCAL_SHARED_SECRET must be at least 16 characters when AUTH_PROVIDER=local" ++
   (if bool_decide (ApiConfig.AUTH_PROVIDER data = AuthProvider.oidc) then oidc_issues data else []) ++
   shared_issues (ApiConfig.NODE_ENV data) (ApiConfig.DOCUMENT_INSPECTOR data)
     (ApiConfig.OBJECT_STORAGE_DRIVER data) (ApiConfig.OBJECT_STORAGE_FS_ROOT data) ++
   (if bool_decide (ApiConfig.OBJECT_STORAGE_DRIVER data = StorageDriver.s3) then s3_issues data
    else []))%list.

(* [src: packages/config/src/index.ts:409-437 workerEnvSchema superRefine] *)
Definition workerEnvIssues (data : WorkerConfig.t) : list string :=
  shared_issues (WorkerConfig.NODE_ENV data) (WorkerConfig.DOCUMENT_INSPECTOR data)
    (WorkerConfig.OBJECT_STORAGE_DRIVER data) (WorkerConfig.OBJECT_STORAGE_FS_ROOT data).

(* [src: packages/config/src/index.ts:330-337 AUTH_COOKIE_SECURE] *)
Definition cookie_secure (data : ApiConfig.t (option bool)) : bool :=
  match ApiConfig.AUTH_COOKIE_SECURE data with
  | Some b => b
  | None => in_production (ApiConfig.NODE_ENV data)
  end.

(* [src: packages/config/src/index.ts:330-354 apiEnvSchema transform] *)
Definition apiEnvTransform (data : ApiConfig.t (option bool)) : ApiConfig.t bool :=
  ApiConfig.mk (ApiConfig.NODE_ENV data) (ApiConfig.LOG_LEVEL data) (ApiConfig.API_HOST data)
    (ApiConfig.API_PORT data) (ApiConfig.CORS_ORIGINS data) (ApiConfig.JSON_BODY_LIMIT data)
    (ApiConfig.AUTH_JSON_BODY_LIMIT data) (ApiConfig.SIGNING_JSON_BODY_LIMIT data)
    (ApiConfig.CORRELATION_ID_HEADER data) (ApiConfig.TRUST_PROXY data)
    (ApiConfig.API_REQUEST_TIMEOUT_MS data) (ApiConfig.API_MAX_CONCURRENT_REQUESTS data)
    (ApiConfig.API_RATE_LIMIT_WINDOW_MS data) (ApiConfig.API_RATE_LIMIT_MAX data)
    (ApiConfig.SHUTDOWN_TIMEOUT_MS data) (ApiConfig.DATABASE_URL data)
    (ApiConfig.AUTH_PROVIDER data) (ApiConfig.AUTH_SESSION_TTL_SECONDS data)
    (cookie_secure data) (ApiConfig.AUTH_SESSION_COOKIE_NAME data)
    (ApiConfig.AUTH_CSRF_COOKIE_NAME data) (toLowerCase (ApiConfig.AUTH_CSRF_HEADER_NAME data))
    (ApiConfig.AUTH_LOGIN_RATE_LIMIT_WINDOW_MS data) (ApiConfig.AUTH_LOGIN_RATE_LIMIT_MAX data)
    (ApiConfig.AUTH_LOCAL_SHARED_SECRET data) (ApiConfig.AUTH_OIDC_ISSUER data)
    (ApiConfig.AUTH_OIDC_CLIENT_ID data) (ApiConfig.AUTH_OIDC_CLIENT_SECRET data)
    (ApiConfig.AUTH_OIDC_REDIRECT_URI data) (ApiConfig.DOCUMENT_MAX_UPLOAD_BYTES data)
    (ApiConfig.DOCUMENT_UPLOAD_TTL_SECONDS data) (ApiConfig.DOCUMENT_PREVIEW_TTL_SECONDS data)
    (ApiConfig.DOCUMENT_INSPECTOR data)
    (toLowerCase (ApiConfig.DOCUMENT_UPLOAD_TOKEN_HEADER data))
    (toLowerCase (ApiConfig.DOCUMENT_PREVIEW_TOKEN_HEADER data))
    (ApiConfig.IDEMPOTENCY_TTL_SECONDS data) (ApiConfig.OBJECT_STORAGE_DRIVER data)
    (ApiConfig.OBJECT_STORAGE_FS_ROOT data) (ApiConfig.OBJECT_STORAGE_ENDPOINT data)
    (ApiConfig.OBJECT_STORAGE_REGION data) (ApiConfig.OBJECT_STORAGE_BUCKET data)
    (ApiConfig.OBJECT_STORAGE_ACCESS_KEY data) (ApiConfig.OBJECT_STORAGE_SECRET_KEY data)
    (ApiConfig.OBJECT_STORAGE_FORCE_PATH_STYLE data) (ApiConfig.AUDIT_CHECKPOINT_STORE data)
    (ApiConfig.SIGNING_SESSION_TTL_SECONDS data) (ApiConfig.SIGNING_SESSION_COOKIE_NAME data)
    (ApiConfig.SIGNING_CSRF_COOKIE_NAME data) (ApiConfig.SIGNING_RATE_LIMIT_WINDOW_MS data)
    (ApiConfig.SIGNING_RATE_LIMIT_MAX data) (ApiConfig.SIGNING_CONSENT_COPY_ID data)
    (ApiConfig.SIGNING_CONSENT_VERSION data) (ApiConfig.SIGNING_CONSENT_TITLE data)
    (ApiConfig.SIGNING_CONSENT_TEXT data) (ApiConfig.DOCUMENT_FIELD_OVERLAP_POLICY data)
    (ApiConfig.NOTIFICATION_ADAPTER data) (ApiConfig.NOTIFICATION_PREVIEW_DIR data).

(** ** Loading *)

(** The start is refused: for a variable, as Zod says, or with these details. *)
(* [src: packages/config/src/index.ts:3-8 EnvironmentValidationError] *)
Inductive ConfigError : Type :=
  | InvalidVariable (label : string)
  | EnvironmentValidationError (details : list string).

(** [formatIssue] of an issue about no single variable. *)
(* [src: packages/config/src/index.ts:10-17 formatZodEnvError] *)
Definition formatIssue (message : string) : string := "environment: " +:+ message.

(* [src: packages/config/src/index.ts:450-464 parseOrThrow] *)
Definition parseOrThrow {D C} (fields : option D) (issues : D → list string) (transform : D → C)
    (label : string) : Result ConfigError C :=
  match fields with
  | None => Throw (InvalidVariable label)
  | Some data =>
    match issues data with
    | [] => Ok (transform data)
    | found => Throw (EnvironmentValidationError
        ((label +:+ " failed validation. Check .env against .env.example.") ::
         (formatIssue <$> found)))
    end
  end.

(* [src: packages/config/src/index.ts:470-472 loadApiConfig] *)
Definition loadApiConfig (env : ProcessEnv) : Result ConfigError (ApiConfig.t bool) :=
  parseOrThrow (apiEnvFields env) apiEnvIssues apiEnvTransform "API".

(* [src: packages/config/src/index.ts:474-476 loadWorkerConfig] *)
Definition loadWorkerConfig (env : ProcessEnv) : Result ConfigError WorkerConfig.t :=
  parseOrThrow (workerEnvFields env) workerEnvIssues (λ data, data) "Worker".

(* [src: packages/config/src/index.ts:439-444 webEnvSchema] *)
Definition webEnvFields (env : ProcessEnv) : option (NodeEnv.t * string) :=
  NODE_ENV ← enumerated (T := NodeEnv.t) (Some NodeEnv.development) (env "NODE_ENV");
  NEXT_PUBLIC_API_BASE_URL ← required_url (env "NEXT_PUBLIC_API_BASE_URL");
  Some (NODE_ENV, NEXT_PUBLIC_API_BASE_URL).

(* [src: packages/config/src/index.ts:478-480 loadWebConfig] *)
Definition loadWebConfig (env : ProcessEnv) : Result ConfigError (NodeEnv.t * string) :=
  parseOrThrow (webEnvFields env) (λ _, []) (λ data, data) "Web".
End config.
