(* ===== verification/ConfigRules.v ===== *)
(** What an accepted configuration guarantees: nothing meant for development
    runs in production, whatever a provider needs is there, and every number is
    within its bounds. *)

From Stdlib Require Import String Ascii SpecFloat.
From S2P Require Export Config.
Local Open Scope string_scope.
Local Open Scope Z_scope.

(** ** Schemas of single variables *)

Section schemas.
Context `{Env} (url_protocol : string → option string).
Abbreviation is_url := (is_url url_protocol).
Abbreviation isAbsoluteHttpUrl := (isAbsoluteHttpUrl url_protocol).

Lemma coerced_within lo hi d v z : coerced lo hi d v = Some z → within lo hi z = true.
Proof.
  unfold coerced. intros (x & _ & Hx)%bind_Some. destruct (within lo hi x) eqn:Hw; [|done].
  by injection Hx as <-.
Qed.

Lemma coerced_from lo hi d v z : coerced (Some lo) hi d v = Some z → lo ≤ z.
Proof. intros Hz%coerced_within. unfold within in Hz. lia. Qed.

Lemma coerced_to lo hi d v z : coerced lo (Some hi) d v = Some z → z ≤ hi.
Proof. intros Hz%coerced_within. unfold within in Hz. lia. Qed.

Lemma required_nonempty d v s : required_string d v = Some s → s ≠ EmptyString.
Proof.
  unfold required_string. intros (x & _ & Hx)%bind_Some. simpl in Hx.
  destruct (String.eqb_spec (trim x) EmptyString) as [|Hn]; [done|]. by injection Hx as <-.
Qed.

Lemma origin_list_urls v l : origin_list url_protocol v = Some l → l ≠ [] ∧ Forall is_url l.
Proof.
  unfold origin_list. intros (x & _ & Hx)%bind_Some. simpl in Hx. case_bool_decide; [done|].
  destruct (forallb _ _) eqn:Hu; [|done]. injection Hx as <-. split; [done|].
  by apply forallb_True, Is_true_true.
Qed.

Lemma database_url_scheme v s :
  database_url v = Some s → startsWith "postgresql://" s || startsWith "postgres://" s = true.
Proof.
  unfold database_url. intros (x & _ & Hx)%bind_Some.
  destruct (startsWith _ _ || startsWith _ _) eqn:Hs; [|done]. by injection Hx as <-.
Qed.
End schemas.

(** A hop count is digits, so it is a number and not negative. *)
Lemma lower_digit c : is_digit (lower_char c) = true → is_digit c = true.
Proof. destruct c as [[] [] [] [] [] [] [] []]; vm_compute; congruence. Qed.

Lemma digit_code c : is_digit c = true → 48 ≤ code c.
Proof. destruct c as [[] [] [] [] [] [] [] []]; vm_compute; congruence. Qed.

Lemma digits_value_nonneg l : forallb is_digit l = true → 0 ≤ digits_value l.
Proof.
  unfold digits_value. cut (∀ acc, 0 ≤ acc → forallb is_digit l = true →
    0 ≤ foldl (λ acc c, acc * 10 + (code c - 48)) acc l); [intros Hc; by apply Hc|].
  induction l as [|c l IH]; intros acc Hacc; [done|]. simpl.
  intros [Hd Hl]%andb_true_iff. apply IH; [|done].
  apply digit_code in Hd. lia.
Qed.

Lemma leading_digits_all l : forallb is_digit (leading_digits l) = true.
Proof. induction l as [|c l IH]; [done|]. simpl. destruct (is_digit c) eqn:Hc; simpl; by rewrite ?Hc. Qed.

Lemma digit_plain c : is_digit c = true →
  is_space c = false ∧ Ascii.eqb c "-" = false ∧ Ascii.eqb c "+" = false.
Proof. destruct c as [[] [] [] [] [] [] [] []]; vm_compute; intuition congruence. Qed.

Lemma trust_proxy_hops v n : trust_proxy v = Some n → 0 ≤ n ≤ 16.
Proof.
  unfold trust_proxy. set (t := trim (default "0" v)). case_bool_decide; [done|].
  destruct (String.eqb _ _ || _) eqn:Hd; [done|].
  apply orb_false_iff in Hd as [_ Hd]. rewrite negb_false_iff in Hd.
  intros (x & Hx & Hn)%bind_Some. destruct (Z.leb_spec x 16); [|done]. injection Hn as <-.
  split; [|done]. unfold toLowerCase in Hd. rewrite units_of_units in Hd.
  unfold parseInt in Hx. destruct (units t) as [|c l]; [done|]. simpl in Hd.
  apply andb_true_iff in Hd as [Hc%lower_digit _]. apply digit_plain in Hc as (Hs & Hm & Hp).
  simpl in Hx. rewrite Hs, Hm, Hp in Hx. destruct (leading_digits (c :: l)) as [|d ds] eqn:Hl; [done|].
  injection Hx as <-. pose proof (leading_digits_all (c :: l)) as Ha. rewrite Hl in Ha.
  apply digits_value_nonneg in Ha. lia.
Qed.

(** ** Accepted configurations *)

(** A value that is given: not absent, not blank. *)
Definition given (v : option string) : Prop := ∃ s, v = Some s ∧ trim s ≠ EmptyString.

Section accepted.
Context `{Env} (url_protocol : string → option string).
Abbreviation is_url := (is_url url_protocol).
Abbreviation isAbsoluteHttpUrl := (isAbsoluteHttpUrl url_protocol).

Definition given_url (v : option string) : Prop :=
  ∃ s, v = Some s ∧ trim s ≠ EmptyString ∧ isAbsoluteHttpUrl s = true.

(** Nothing meant for development. *)
Definition production_ready {S} (c : ApiConfig.t S) : Prop :=
  ApiConfig.AUTH_PROVIDER c = AuthProvider.oidc ∧
  ApiConfig.DOCUMENT_INSPECTOR c ≠ InspectorName.local ∧
  ApiConfig.OBJECT_STORAGE_DRIVER c = StorageDriver.s3.

(** The selected identity provider has what it needs. *)
Definition provider_ready {S} (c : ApiConfig.t S) : Prop :=
  match ApiConfig.AUTH_PROVIDER c with
  | AuthProvider.local =>
    ∃ secret, ApiConfig.AUTH_LOCAL_SHARED_SECRET c = Some secret ∧ 16 ≤ str_length (trim secret)
  | AuthProvider.oidc =>
    given_url (ApiConfig.AUTH_OIDC_ISSUER c) ∧ given (ApiConfig.AUTH_OIDC_CLIENT_ID c) ∧
    given (ApiConfig.AUTH_OIDC_CLIENT_SECRET c) ∧ given_url (ApiConfig.AUTH_OIDC_REDIRECT_URI c)
  end.

(** The selected object store has what it needs. *)
Definition storage_ready {S} (c : ApiConfig.t S) : Prop :=
  match ApiConfig.OBJECT_STORAGE_DRIVER c with
  | StorageDriver.memory => True
  | StorageDriver.filesystem => given (ApiConfig.OBJECT_STORAGE_FS_ROOT c)
  | StorageDriver.s3 =>
    given_url (ApiConfig.OBJECT_STORAGE_ENDPOINT c) ∧ given (ApiConfig.OBJECT_STORAGE_REGION c) ∧
    given (ApiConfig.OBJECT_STORAGE_BUCKET c) ∧ given (ApiConfig.OBJECT_STORAGE_ACCESS_KEY c) ∧
    given (ApiConfig.OBJECT_STORAGE_SECRET_KEY c)
  end.

(** Every number is within its bounds. *)
Definition within_bounds {S} (c : ApiConfig.t S) : Prop :=
  1 ≤ ApiConfig.API_PORT c ≤ 65535 ∧ 0 ≤ ApiConfig.TRUST_PROXY c ≤ 16 ∧
  1000 ≤ ApiConfig.API_REQUEST_TIMEOUT_MS c ≤ 120000 ∧
  1 ≤ ApiConfig.API_MAX_CONCURRENT_REQUESTS c ≤ 100000 ∧
  1 ≤ ApiConfig.API_RATE_LIMIT_WINDOW_MS c ∧ 1 ≤ ApiConfig.API_RATE_LIMIT_MAX c ∧
  60 ≤ ApiConfig.AUTH_SESSION_TTL_SECONDS c ≤ 604800 ∧
  1 ≤ ApiConfig.AUTH_LOGIN_RATE_LIMIT_WINDOW_MS c ∧ 1 ≤ ApiConfig.AUTH_LOGIN_RATE_LIMIT_MAX c ∧
  1024 ≤ ApiConfig.DOCUMENT_MAX_UPLOAD_BYTES c ≤ 104857600 ∧
  60 ≤ ApiConfig.DOCUMENT_UPLOAD_TTL_SECONDS c ≤ 86400 ∧
  30 ≤ ApiConfig.DOCUMENT_PREVIEW_TTL_SECONDS c ≤ 3600 ∧
  60 ≤ ApiConfig.IDEMPOTENCY_TTL_SECONDS c ≤ 604800 ∧
  300 ≤ ApiConfig.SIGNING_SESSION_TTL_SECONDS c ≤ 2592000 ∧
  1 ≤ ApiConfig.SIGNING_RATE_LIMIT_WINDOW_MS c ∧ 1 ≤ ApiConfig.SIGNING_RATE_LIMIT_MAX c.

(** Cookies and origins can be told apart. *)
Definition names_given {S} (c : ApiConfig.t S) : Prop :=
  ApiConfig.AUTH_SESSION_COOKIE_NAME c ≠ EmptyString ∧
  ApiConfig.AUTH_CSRF_COOKIE_NAME c ≠ EmptyString ∧
  ApiConfig.SIGNING_SESSION_COOKIE_NAME c ≠ EmptyString ∧
  ApiConfig.SIGNING_CSRF_COOKIE_NAME c ≠ EmptyString ∧
  ApiConfig.CORS_ORIGINS c ≠ [] ∧ Forall is_url (ApiConfig.CORS_ORIGINS c).

Lemma blank_given v : blank v = false → given v.
Proof.
  destruct v as [s|]; [|done]. simpl. intros Hs%String.eqb_neq. by exists s.
Qed.

Lemma issue_nil b m : issue b m = [] → b = false.
Proof. by destruct b. Qed.

Lemma missing_nil message l : missing message l = [] → Forall (λ x, given x.2) l.
Proof.
  induction l as [|[[f e] v] l IH]; [constructor|]. unfold missing. simpl.
  intros [Hv%issue_nil Hl]%app_eq_nil. constructor; [by apply blank_given|by apply IH].
Qed.

Lemma bad_url_given v : given v → bad_url url_protocol v = false → given_url v.
Proof.
  intros (s & -> & Hs). unfold bad_url. destruct s as [|c s]; [done|].
  intros Hu%negb_false_iff. by exists (String c s).
Qed.

Ltac fields_out H := repeat (apply bind_Some in H as (? & ? & H)); injection H as <-.

Lemma fields_bounds env c : apiEnvFields url_protocol env = Some c → within_bounds c.
Proof.
  unfold apiEnvFields. intros Hc. fields_out Hc. unfold within_bounds. cbn.
  split_and!; first [eapply coerced_from; eassumption|eapply coerced_to; eassumption
                   |eapply trust_proxy_hops; eassumption].
Qed.

Lemma fields_names env c : apiEnvFields url_protocol env = Some c → names_given c.
Proof.
  unfold apiEnvFields. intros Hc. fields_out Hc. unfold names_given. cbn.
  split_and!; first [eapply required_nonempty; eassumption|eapply origin_list_urls; eassumption].
Qed.

Lemma issues_provider c : apiEnvIssues url_protocol c = [] → provider_ready c.
Proof.
  unfold apiEnvIssues. intros (_ & (Hs & (Ho & _)%app_eq_nil)%app_eq_nil)%app_eq_nil.
  apply issue_nil in Hs. unfold provider_ready. destruct (ApiConfig.AUTH_PROVIDER c) eqn:Hp.
  - rewrite bool_decide_eq_true_2 in Hs by done. simpl in Hs.
    destruct (ApiConfig.AUTH_LOCAL_SHARED_SECRET c) as [x|]; [|done]. exists x. split; [done|lia].
  - rewrite bool_decide_eq_true_2 in Ho by done. unfold oidc_issues in Ho.
    apply app_eq_nil in Ho as [Hm [Hi%issue_nil Hr%issue_nil]%app_eq_nil].
    apply missing_nil in Hm. unfold requiredOidc in Hm. rewrite !Forall_cons in Hm.
    destruct Hm as (H1 & H2 & H3 & H4 & _). split_and!; try done; by apply bad_url_given.
Qed.

Lemma issues_storage c : apiEnvIssues url_protocol c = [] → storage_ready c.
Proof.
  unfold apiEnvIssues, shared_issues.
  rewrite !app_nil. intros (_ & _ & _ & (_ & _ & Hf%issue_nil) & Hs).
  unfold storage_ready. destruct (ApiConfig.OBJECT_STORAGE_DRIVER c) eqn:Hd; [done| |].
  - rewrite bool_decide_eq_true_2 in Hf by done. by apply blank_given.
  - rewrite bool_decide_eq_true_2 in Hs by done. unfold s3_issues in Hs.
    apply app_eq_nil in Hs as [Hm Hu%issue_nil].
    apply missing_nil in Hm. unfold requiredS3 in Hm. rewrite !Forall_cons in Hm.
    destruct Hm as (H1 & H2 & H3 & H4 & H5 & _). split_and!; try done.
    apply bad_url_given; [done|]. destruct H1 as (u & Hu' & Hb). simpl in Hu'. rewrite Hu' in Hu |- *.
    unfold blank in Hu. destruct (String.eqb_spec (trim u) EmptyString); done.
Qed.

Lemma issues_production c :
  apiEnvIssues url_protocol c = [] → ApiConfig.NODE_ENV c = NodeEnv.production → production_ready c.
Proof.
  unfold apiEnvIssues, shared_issues, in_production.
  rewrite !app_nil. intros (Ha%issue_nil & _ & _ & (Hi%issue_nil & Hd%issue_nil & _) & _) Hp.
  rewrite Hp in Ha, Hi, Hd. cbn in Ha, Hi, Hd. unfold production_ready.
  destruct (ApiConfig.AUTH_PROVIDER c), (ApiConfig.DOCUMENT_INSPECTOR c),
    (ApiConfig.OBJECT_STORAGE_DRIVER c); done.
Qed.

(** C29: A configuration the API starts with is fit for its environment: in
    production the identity provider is OIDC, the inspector is not the local
    stub and objects are kept in S3; the selected provider and object store
    have every setting they need, with URLs where URLs are due; every limit,
    lifetime and port is within its bounds; cookies are named and origins are
    URLs. *)
Theorem accepted_configuration env c :
  loadApiConfig url_protocol env = Ok c →
  (ApiConfig.NODE_ENV c = NodeEnv.production → production_ready c) ∧
  provider_ready c ∧ storage_ready c ∧ within_bounds c ∧ names_given c.
Proof.
  unfold loadApiConfig, parseOrThrow. destruct (apiEnvFields url_protocol env) as [d|] eqn:Hf; [|done].
  destruct (apiEnvIssues url_protocol d) eqn:Hi; [|done]. intros [= <-].
  pose proof (issues_production d Hi) as Hp. apply issues_provider in Hi as Ha.
  apply issues_storage in Hi as Hs. apply fields_bounds in Hf as Hb. apply fields_names in Hf.
  split_and!; [exact Hp|exact Ha|exact Hs|exact Hb|exact Hf].
Qed.
End accepted.

(** ** A production configuration *)

Module ConfigSample.
Definition protocol (s : string) : option string :=
  if startsWith "https://" s then Some "https:"
  else if startsWith "http://" s then Some "http:" else None.

Definition production_env (issuer : string) : ProcessEnv := λ name, map_get name
  [("NODE_ENV", "production"); ("API_PORT", "4000"); ("CORS_ORIGINS", "https://app.example.invalid");
   ("DATABASE_URL", "postgresql://esign@db.example.invalid/esign"); ("TRUST_PROXY", "1");
   ("AUTH_PROVIDER", "oidc"); ("AUTH_COOKIE_SECURE", "false"); ("AUTH_OIDC_ISSUER", issuer);
   ("AUTH_OIDC_CLIENT_ID", "client"); ("AUTH_OIDC_CLIENT_SECRET", "secret");
   ("AUTH_OIDC_REDIRECT_URI", "https://api.example.invalid/auth/oidc/callback");
   ("DOCUMENT_INSPECTOR", "structural"); ("OBJECT_STORAGE_DRIVER", "s3");
   ("OBJECT_STORAGE_ENDPOINT", "https://s3.example.invalid"); ("OBJECT_STORAGE_REGION", "us-east-1");
   ("OBJECT_STORAGE_BUCKET", "documents"); ("OBJECT_STORAGE_ACCESS_KEY", "key");
   ("OBJECT_STORAGE_SECRET_KEY", "secret")].

Definition loaded (issuer : string) : Result ConfigError (ApiConfig.t bool) :=
  @loadApiConfig Sample.env protocol (production_env issuer).
End ConfigSample.
Import ConfigSample.

Lemma accepted_configuration_witness :
  match loaded "https://idp.example.invalid" with
  | Ok c => production_ready c ∧ provider_ready protocol c ∧ storage_ready protocol c ∧
            within_bounds c ∧ names_given protocol c
  | Throw _ => False
  end.
Proof.
  assert (Hp : ApiConfig.NODE_ENV <$> loaded "https://idp.example.invalid" =
               Ok NodeEnv.production) by (vm_compute; reflexivity).
  destruct (loaded _) as [c|] eqn:Hc; [|discriminate Hp]. injection Hp as Hp.
  destruct (@accepted_configuration Sample.env protocol _ c Hc) as (H1 & H2). split; [by apply H1|exact H2].
Defined.

(** An issuer is asked to be an https URL, but http is accepted, in production
    too; and so are session cookies without [Secure]. *)
Lemma insecure_production_accepted :
  ∃ c, loaded "http://idp.example.invalid" = Ok c ∧ ApiConfig.NODE_ENV c = NodeEnv.production ∧
       ApiConfig.AUTH_OIDC_ISSUER c = Some "http://idp.example.invalid" ∧
       ApiConfig.AUTH_COOKIE_SECURE c = false.
Proof. eexists. split; [vm_compute; reflexivity|done]. Qed.

(** The local provider is refused in production, with the reason. *)
Example local_provider_refused :
  @loadApiConfig Sample.env protocol (λ name,
    if String.eqb name "AUTH_PROVIDER" then Some "local"
    else if String.eqb name "AUTH_LOCAL_SHARED_SECRET" then Some "0123456789abcdef"
    else production_env "https://idp.example.invalid" name) =
  Throw (EnvironmentValidationError
    ["API failed validation. Check .env against .env.example.";
     "environment: AUTH_PROVIDER=local is not allowed in production. Configure OIDC using docs/security/authentication-setup.md"]).
Proof. vm_compute. reflexivity. Qed.
