(* ===== verification/Pad.v ===== *)
(** The signer's browser: capturing ink and building the request that completes
    the signing, from [apps/web/src/signing/signature/pointer.ts], [bounds.ts]
    and [submit-readiness.ts], and the request schemas of
    [packages/contracts/src/documents.ts] the result must satisfy.

    Coordinates, pressures and time stamps are the browser's numbers.  Drawing
    the ink and encoding the image are the browser's; the image is an argument. *)

From Stdlib Require Import String SpecFloat.
From S2P Require Export Numbers Queries Contracts.
Local Open Scope string_scope.

(** ** Bounds *)

(* [src: apps/web/src/signing/signature/bounds.ts:1-9 SIGNATURE_BOUNDS] *)
Definition maxPoints : nat := 4000.
Definition maxStrokes : nat := 32.
Definition maxDurationMs : Z := 90000.
Definition maxInkPngBytes : Z := 220000.
Definition minPoints : nat := 6.
Definition minStrokes : nat := 1.

(* [src: apps/web/src/signing/signature/bounds.ts:11-16 cappedDevicePixelRatio] *)
Definition cappedDevicePixelRatio (ratio : jsnum) : jsnum :=
  if negb (isFinite ratio) || num_ltb ratio (NInt 1) then NInt 1 else num_min ratio (NInt 2).

(** ** The pad *)

Module SignaturePoint.
(* [src: apps/web/src/signing/signature/pointer.ts:3-8 SignaturePoint] *)
Record t_ : Type := mk { x : jsnum; y : jsnum; t : jsnum; p : jsnum }.
End SignaturePoint.

Module SignatureStroke.
(* [src: apps/web/src/signing/signature/pointer.ts:10-13 SignatureStroke] *)
Record t : Type := mk { pointerId : Z; points : list SignaturePoint.t_ }.
Definition add (s : t) (point : SignaturePoint.t_) : t :=
  mk (pointerId s) (points s ++ [point]).
End SignatureStroke.

Module PadState.
(* [src: apps/web/src/signing/signature/pointer.ts:15-21 SignaturePadState] *)
Record t : Type := mk {
  strokes : list SignatureStroke.t;
  active : option SignatureStroke.t;
  startedAt : option jsnum;
  pointCount : nat;
  capped : bool
}.
(* [src: apps/web/src/signing/signature/pointer.ts:40-46 emptySignaturePadState] *)
Definition empty : t := mk [] None None 0 false.
Definition set_capped (s : t) : t := mk (strokes s) (active s) (startedAt s) (pointCount s) true.
Definition set_active (a : option SignatureStroke.t) (s : t) : t :=
  mk (strokes s) a (startedAt s) (pointCount s) (capped s).
End PadState.

Module PadRect.
(* [src: apps/web/src/signing/signature/pointer.ts:23-28 PadRect] *)
Record t : Type := mk { left : jsnum; top : jsnum; width : jsnum; height : jsnum }.
End PadRect.

Module PadKind.
(* [src: apps/web/src/signing/signature/pointer.ts:31-31 PadPointerEvent.kind] *)
Inductive t : Type := down | move | up | cancel.
End PadKind.

Module PadEvent.
(* [src: apps/web/src/signing/signature/pointer.ts:30-38 PadPointerEvent] *)
Record t : Type := mk {
  kind : PadKind.t;
  pointerId : Z;
  clientX : jsnum;
  clientY : jsnum;
  pressure : jsnum;
  timeStamp : jsnum;
  rect : PadRect.t
}.
End PadEvent.

(* [src: apps/web/src/signing/signature/pointer.ts:48-56 clamp01] *)
Definition clamp01 (value : jsnum) : jsnum :=
  if negb (isFinite value) || num_ltb value (NInt 0) then NInt 0
  else if num_ltb (NInt 1) value then NInt 1 else value.

(* [src: apps/web/src/signing/signature/pointer.ts:58-73 normalizePoint] *)
Definition normalizePoint (clientX clientY : jsnum) (rect : PadRect.t) : jsnum * jsnum :=
  if num_leb (PadRect.width rect) (NInt 0) || num_leb (PadRect.height rect) (NInt 0)
  then (NInt 0, NInt 0)
  else (clamp01 (num_div (num_sub clientX (PadRect.left rect)) (PadRect.width rect)),
        clamp01 (num_div (num_sub clientY (PadRect.top rect)) (PadRect.height rect))).

(** [0.5]. *)
Definition half_pressure : jsnum := NFlt (S754_finite false 4503599627370496 (-53)).

(* [src: apps/web/src/signing/signature/pointer.ts:75-80 pressureOf] *)
Definition pressureOf (value : jsnum) : jsnum :=
  if negb (isFinite value) || num_leb value (NInt 0) then half_pressure else clamp01 value.

(* [src: apps/web/src/signing/signature/pointer.ts:195-203 createPoint] *)
Definition createPoint (event : PadEvent.t) (startedAt : jsnum) : SignaturePoint.t_ :=
  let '(x, y) := normalizePoint (PadEvent.clientX event) (PadEvent.clientY event)
                   (PadEvent.rect event) in
  SignaturePoint.mk x y (num_max (NInt 0) (num_sub (PadEvent.timeStamp event) startedAt))
    (pressureOf (PadEvent.pressure event)).

(* [src: apps/web/src/signing/signature/pointer.ts:205-211 wouldExceed] *)
Definition wouldExceed (state : PadState.t) (extraPoints extraStrokes : nat) : bool :=
  let strokeCount := (length (PadState.strokes state) +
    (match PadState.active state with None => 0 | Some _ => 1 end) + extraStrokes)%nat in
  ((maxPoints <? PadState.pointCount state + extraPoints) || (maxStrokes <? strokeCount))%nat.

(* [src: apps/web/src/signing/signature/pointer.ts:213-225 endActiveStroke] *)
Definition endActiveStroke (state : PadState.t) : PadState.t :=
  match PadState.active state with
  | None => state
  | Some active =>
    match SignatureStroke.points active with
    | [] => PadState.set_active None state
    | _ => PadState.mk (PadState.strokes state ++ [active]) None (PadState.startedAt state)
             (PadState.pointCount state) (PadState.capped state)
    end
  end.

(** Another point on the active stroke. *)
Definition extend (state : PadState.t) (active : SignatureStroke.t) (event : PadEvent.t) : PadState.t :=
  let point := createPoint event (default (PadEvent.timeStamp event) (PadState.startedAt state)) in
  PadState.mk (PadState.strokes state) (Some (SignatureStroke.add active point))
    (PadState.startedAt state) (PadState.pointCount state + 1) (PadState.capped state).

(* [src: apps/web/src/signing/signature/pointer.ts:82-137 reducePointer] *)
Definition reducePointer (state : PadState.t) (event : PadEvent.t) : PadState.t :=
  let elapsed := match PadState.startedAt state with
                 | None => NInt 0
                 | Some s => num_max (NInt 0) (num_sub (PadEvent.timeStamp event) s)
                 end in
  if num_ltb (NInt maxDurationMs) elapsed then endActiveStroke (PadState.set_capped state) else
  match PadEvent.kind event with
  | PadKind.down =>
    match PadState.active state with
    | Some _ => state
    | None =>
      if wouldExceed state 1 1 then PadState.set_capped state else
      let startedAt := default (PadEvent.timeStamp event) (PadState.startedAt state) in
      PadState.mk (PadState.strokes state)
        (Some (SignatureStroke.mk (PadEvent.pointerId event) [createPoint event startedAt]))
        (Some startedAt) (PadState.pointCount state + 1) (PadState.capped state)
    end
  | kind =>
    match PadState.active state with
    | None => state
    | Some active =>
      if negb (SignatureStroke.pointerId active =? PadEvent.pointerId event)%Z then state else
      match kind with
      | PadKind.move =>
        if wouldExceed state 1 0 then PadState.set_capped state else extend state active event
      | PadKind.cancel => PadState.set_active None state
      | _ => endActiveStroke (if wouldExceed state 1 0 then state else extend state active event)
      end
    end
  end.

(* [src: apps/web/src/signing/signature/pointer.ts:139-154 addKeyboardPoint] *)
Definition addKeyboardPoint (state : PadState.t) (x y timeStamp : jsnum) : PadState.t :=
  reducePointer state (PadEvent.mk
    (match PadState.active state with None => PadKind.down | Some _ => PadKind.move end)
    (-1) x y half_pressure timeStamp (PadRect.mk (NInt 0) (NInt 0) (NInt 1) (NInt 1))).

(* [src: apps/web/src/signing/signature/pointer.ts:156-161 endKeyboardStroke] *)
Definition endKeyboardStroke (state : PadState.t) : PadState.t :=
  match PadState.active state with
  | None => state
  | Some active =>
    if negb (SignatureStroke.pointerId active =? -1)%Z then state else endActiveStroke state
  end.

(* [src: apps/web/src/signing/signature/pointer.ts:163-168 committedStrokes] *)
Definition committedStrokes (state : PadState.t) : list SignatureStroke.t :=
  match PadState.active state with
  | None => PadState.strokes state
  | Some active =>
    match SignatureStroke.points active with
    | [] => PadState.strokes state
    | _ => PadState.strokes state ++ [active]
    end
  end.

(* [src: apps/web/src/signing/signature/pointer.ts:170-175 isSignatureValid] *)
Definition isSignatureValid (state : PadState.t) : bool :=
  ((minStrokes <=? length (committedStrokes state)) && (minPoints <=? PadState.pointCount state))%nat.

(** The latest time stamp of a stroke's points, from [m] on. *)
Definition latest_time (m : jsnum) (stroke : SignatureStroke.t) : jsnum :=
  foldl (λ m p, if num_ltb m (SignaturePoint.t p) then SignaturePoint.t p else m) m
    (SignatureStroke.points stroke).

(* [src: apps/web/src/signing/signature/pointer.ts:177-187 signatureDurationMs] *)
Definition signatureDurationMs (state : PadState.t) : jsnum :=
  num_min (NInt maxDurationMs)
    (num_max (NInt 0) (math_round (foldl latest_time (NInt 0) (committedStrokes state)))).

(* [src: apps/web/src/signing/signature/pointer.ts:189-191 clearSignatureState] *)
Definition clearSignatureState : PadState.t := PadState.empty.

(** ** Submitting *)

Module InkCapture.
(* [src: apps/web/src/signing/submit-readiness.ts:12-15 InkCapture] *)
Record t : Type := mk { pngBase64 : string; state : PadState.t }.
End InkCapture.

(* [src: apps/web/src/signing/submit-readiness.ts:68-70 needsInk] *)
Definition needsInk (fields : list SignerFieldView.t) (type : SignatureFieldType.t) : bool :=
  existsb (λ f, SignerFieldView.required f && bool_decide (SignerFieldView.type f = type)) fields.

(** The reasons not to submit. *)
(* [src: apps/web/src/signing/submit-readiness.ts:17-45 submitReadiness] *)
Definition submitReadiness (consented intentToSign submitting : bool)
    (fields : list SignerFieldView.t) (signature initials : PadState.t) : list string :=
  let reason b text := if (b : bool) then [text] else [] in
  (reason submitting "Finalization is already in progress." ++
   reason (length fields =? 0)%nat "No fields are assigned to complete." ++
   reason (negb consented) "Consent is required." ++
   reason (negb intentToSign) "Intent to sign is required." ++
   reason (needsInk fields SignatureFieldType.signature && negb (isSignatureValid signature))
     "A signature is required." ++
   reason (needsInk fields SignatureFieldType.initials && negb (isSignatureValid initials))
     "Initials are required.")%list.
Definition canSubmit (reasons : list string) : bool := (length reasons =? 0)%nat.

Definition point_value (p : SignaturePoint.t_) : value :=
  VObj [("x", VNum (SignaturePoint.x p)); ("y", VNum (SignaturePoint.y p));
        ("t", VNum (SignaturePoint.t p)); ("p", VNum (SignaturePoint.p p))].

(* [src: apps/web/src/signing/submit-readiness.ts:72-86 toInkPayload] *)
Definition toInkPayload (capture : InkCapture.t) : value :=
  VObj [("pngBase64", VStr (InkCapture.pngBase64 capture));
        ("durationMs", VNum (signatureDurationMs (InkCapture.state capture)));
        ("strokes", VArr ((λ stroke,
           VObj [("points", VArr (point_value <$> SignatureStroke.points stroke))])
           <$> take maxStrokes (committedStrokes (InkCapture.state capture))))].

Definition optional (key : string) (v : option value) : object :=
  match v with None => [] | Some v => [(key, v)] end.

(* [src: apps/web/src/signing/submit-readiness.ts:47-66 buildCompleteRequest] *)
Definition buildCompleteRequest (consentCopyId : string) (fields : list SignerFieldView.t)
    (signature initials : option InkCapture.t) : value :=
  VObj ([("consentCopyId", VStr consentCopyId); ("intentToSign", VBool true);
         ("fieldIds", VArr ((λ f, VStr (SignerFieldView.fieldId f)) <$> fields))] ++
        optional "signature" (toInkPayload <$> signature) ++
        optional "initials" (toInkPayload <$> initials))%list.

(** ** The request schemas *)

(* [src: packages/contracts/src/documents.ts:311-318 signatureStrokePointSchema] *)
Definition signatureStrokePointSchema : schema := strict
  [("x", z_number (λ n, at_least 0 n && at_most 1 n));
   ("y", z_number (λ n, at_least 0 n && at_most 1 n));
   ("t", z_number (at_least 0));
   ("p", z_number (λ n, at_least 0 n && at_most 1 n))].

(* [src: packages/contracts/src/documents.ts:320-335 signatureInkPayloadSchema] *)
Definition signatureInkPayloadSchema : schema := strict
  [("pngBase64", z_sized_string 1 400000);
   ("strokes", z_sized_array 1 32
      (strict [("points", z_sized_array 1 4000 signatureStrokePointSchema)]));
   ("durationMs", z_number (λ n, isInteger n && at_least 0 n && at_most 90000 n))].

(* [src: packages/contracts/src/documents.ts:337-345 completeSigningRequestSchema] *)
Definition completeSigningRequestSchema `{Env} : schema := strict
  [("consentCopyId", z_sized_string 1 120);
   ("intentToSign", z_true);
   ("fieldIds", z_sized_array 1 200 (z_string zod_uuid));
   ("signature", z_optional signatureInkPayloadSchema);
   ("initials", z_optional signatureInkPayloadSchema)].
