(* ===== verification/PadRules.v ===== *)
(** What the signer's browser promises the API: whatever the pointer and the
    keyboard do, the ink stays within the bounds of the contract, and a request
    the page lets the signer submit is one the API accepts. *)

From Stdlib Require Import String SpecFloat.
From S2P Require Export Pad.
Local Open Scope string_scope.

(** ** Values of a schema, member by member *)

Lemma strict_members (members : list (string * schema)) (m : object) :
  Forall (λ e, e.2 (prop e.1 m) = true) members →
  Forall (λ k, k ∈ members.*1) (keys m) → strict members (VObj m) = true.
Proof.
  intros Hm Hk. unfold strict. apply andb_true_iff. split.
  - clear Hk. induction Hm as [|[k c] l Hc _ IH]; [done|]. apply andb_true_iff. by split.
  - clear Hm. induction Hk as [|k l Hk _ IH]; [done|]. apply andb_true_iff. split; [by apply bool_decide_eq_true_2|exact IH].
Qed.

Lemma forallb_fmap_Forall {A B} (f : A → B) (p : B → bool) l :
  Forall (λ x, p (f x) = true) l → forallb p (f <$> l) = true.
Proof. induction 1 as [|x l Hx _ IH]; simpl; [done|]. by rewrite Hx. Qed.

(** Keys of a literal object among those of a literal schema. *)
Ltac literal_keys := repeat constructor; apply (bool_decide_unpack _); by vm_compute.

(** ** Points *)

Definition in_unit (n : jsnum) : bool := at_least 0 n && at_most 1 n.

Lemma clamp01_in_unit v : z_number in_unit (VNum (clamp01 v)) = true.
Proof.
  unfold clamp01, in_unit, at_least, at_most. destruct (negb _ || _) eqn:Hv; [done|].
  apply orb_false_iff in Hv as [Hf Hl]. destruct (num_ltb (NInt 1) v) eqn:Hu; [done|].
  unfold z_number. cbv beta. rewrite Hl, Hu. by destruct v as [z|[]].
Qed.

Lemma pressure_in_unit v : z_number in_unit (VNum (pressureOf v)) = true.
Proof. unfold pressureOf. destruct (_ || _); [by vm_compute|apply clamp01_in_unit]. Qed.

Lemma normalize_in_unit x y r :
  z_number in_unit (VNum (normalizePoint x y r).1) = true ∧
  z_number in_unit (VNum (normalizePoint x y r).2) = true.
Proof. unfold normalizePoint. destruct (_ || _); [done|]. split; apply clamp01_in_unit. Qed.

Lemma elapsed_nonneg t s :
  represented t = true → represented s = true →
  z_number (at_least 0) (VNum (num_max (NInt 0) (num_sub t s))) = true.
Proof.
  intros Ht Hs. assert (isNaN (num_max (NInt 0) (num_sub t s)) = false) as Hn.
  { by apply num_max_number, num_sub_number. }
  unfold z_number, at_least. by rewrite Hn, (num_max_ge _ _ Hn).
Qed.

Definition point_ok (p : SignaturePoint.t_) : Prop :=
  signatureStrokePointSchema (point_value p) = true.

Lemma createPoint_ok e s :
  represented (PadEvent.timeStamp e) = true → represented s = true → point_ok (createPoint e s).
Proof.
  intros He Hs. unfold point_ok, createPoint.
  pose proof (normalize_in_unit (PadEvent.clientX e) (PadEvent.clientY e) (PadEvent.rect e)) as [Hx Hy].
  destruct (normalizePoint _ _ _) as [x y].
  apply strict_members; [|literal_keys].
  repeat constructor; [exact Hx|exact Hy|by apply elapsed_nonneg|apply pressure_in_unit].
Qed.

(** ** The pad *)

Definition stroke_ok (s : SignatureStroke.t) : Prop :=
  SignatureStroke.points s ≠ [] ∧ Forall point_ok (SignatureStroke.points s).

Definition total_points (l : list SignatureStroke.t) : nat :=
  foldr (λ s n, length (SignatureStroke.points s) + n)%nat 0%nat l.

Definition all_strokes (s : PadState.t) : list SignatureStroke.t :=
  (PadState.strokes s ++ option_list (PadState.active s))%list.

Record pad_ok (s : PadState.t) : Prop := {
  pad_strokes : Forall stroke_ok (all_strokes s);
  pad_count : (length (all_strokes s) <= maxStrokes)%nat;
  pad_total : (total_points (all_strokes s) <= PadState.pointCount s)%nat;
  pad_points : (PadState.pointCount s <= maxPoints)%nat;
  pad_started : ∀ t, PadState.startedAt s = Some t → represented t = true;
  pad_active : PadState.active s ≠ None → PadState.startedAt s ≠ None
}.

Lemma total_points_app l k : total_points (l ++ k) = (total_points l + total_points k)%nat.
Proof. induction l as [|s l IH]; simpl; [done|]. rewrite IH. lia. Qed.

Lemma empty_ok : pad_ok PadState.empty.
Proof. split; simpl; unfold maxStrokes, maxPoints; try done; try lia. Qed.

Lemma capped_ok s : pad_ok s → pad_ok (PadState.set_capped s).
Proof. by intros []. Qed.

(** Committing the active stroke keeps the strokes there are. *)
Lemma end_strokes s : pad_ok s → all_strokes (endActiveStroke s) = all_strokes s ∧
  committedStrokes s = all_strokes s.
Proof.
  intros [Hs _ _ _ _ _]. unfold endActiveStroke, committedStrokes, all_strokes in *.
  destruct (PadState.active s) as [a|] eqn:Ha; simpl in *; [|by rewrite ?Ha, !app_nil_r].
  apply Forall_app in Hs as [_ Hs]. inversion Hs as [|?? [Hne _] _]; subst.
  destruct (SignatureStroke.points a); [done|]. by rewrite app_nil_r.
Qed.

Lemma end_ok s : pad_ok s → pad_ok (endActiveStroke s).
Proof.
  intros Hs. pose proof (end_strokes s Hs) as [He _]. destruct Hs as [H1 H2 H3 H4 H5 H6].
  assert (PadState.pointCount (endActiveStroke s) = PadState.pointCount s ∧
          PadState.startedAt (endActiveStroke s) = PadState.startedAt s ∧
          PadState.active (endActiveStroke s) = None) as (Hp & Ht & Ha).
  { unfold endActiveStroke. destruct (PadState.active s) as [a|] eqn:Ha; [|done].
    by destruct (SignatureStroke.points a). }
  split; rewrite ?He, ?Hp, ?Ht, ?Ha; done.
Qed.

Lemma extend_ok s a e :
  pad_ok s → PadState.active s = Some a → represented (PadEvent.timeStamp e) = true →
  wouldExceed s 1 0 = false → pad_ok (extend s a e).
Proof.
  intros [H1 H2 H3 H4 H5 H6] Ha He Hw. unfold wouldExceed in Hw. rewrite Ha in Hw.
  apply orb_false_iff in Hw as [Hp _]. apply Nat.ltb_ge in Hp.
  unfold all_strokes in *. rewrite Ha in *. apply Forall_app in H1 as [H1 H1']. simpl in *.
  inversion H1' as [|?? [Hne Hpts] _]; subst.
  split; unfold all_strokes; simpl; try done.
  - apply Forall_app. split; [done|]. constructor; [|done]. split; simpl.
    + by destruct (SignatureStroke.points a).
    + apply Forall_app. split; [done|]. constructor; [|done]. apply createPoint_ok; [done|].
      destruct (PadState.startedAt s) as [t|] eqn:Ht; [by apply H5|]. by destruct H6.
  - rewrite !length_app in *. simpl in *. lia.
  - rewrite total_points_app in *. simpl in *. rewrite length_app. simpl. lia.
  - intros _. by apply H6.
Qed.

Lemma reducePointer_ok s e :
  represented (PadEvent.timeStamp e) = true → pad_ok s → pad_ok (reducePointer s e).
Proof.
  intros He Hs. unfold reducePointer. destruct (num_ltb _ _); [by apply end_ok, capped_ok|].
  destruct (PadEvent.kind e) eqn:Hk; destruct (PadState.active s) as [a|] eqn:Ha; try done.
  - destruct (wouldExceed s 1 1) eqn:Hw; [by apply capped_ok|].
    unfold wouldExceed in Hw. rewrite Ha in Hw. apply orb_false_iff in Hw as [Hp Hc].
    apply Nat.ltb_ge in Hp, Hc. destruct Hs as [H1 H2 H3 H4 H5 H6].
    unfold all_strokes in *. rewrite Ha in *. simpl in *. rewrite app_nil_r in *.
    assert (represented (default (PadEvent.timeStamp e) (PadState.startedAt s)) = true) as Hst.
    { destruct (PadState.startedAt s); [by apply H5|done]. }
    split; unfold all_strokes; simpl; try done.
    + apply Forall_app. split; [done|]. constructor; [|done]. split; [done|].
      simpl. constructor; [|done]. by apply createPoint_ok.
    + rewrite length_app. simpl. lia.
    + rewrite total_points_app. simpl. lia.
    + by intros t [= <-].
  - destruct (negb _); [done|]. destruct (wouldExceed s 1 0) eqn:Hw; [by apply capped_ok|].
    by apply extend_ok.
  - destruct (negb _); [done|]. apply end_ok. destruct (wouldExceed s 1 0) eqn:Hw; [done|].
    by apply extend_ok.
  - destruct (negb _); [done|]. destruct Hs as [H1 H2 H3 H4 H5 H6].
    unfold all_strokes in *. rewrite Ha in *. apply Forall_app in H1 as [H1 _].
    rewrite length_app in H2. rewrite total_points_app in H3. simpl in *.
    split; unfold all_strokes; simpl; rewrite ?app_nil_r; try done; lia.
Qed.

(** ** Any use of the pad *)

Inductive PadInput : Type :=
  | Pointer (e : PadEvent.t)
  | KeyPoint (x y timeStamp : jsnum)
  | KeyEnd
  | Clear.

Definition pad_step (s : PadState.t) (i : PadInput) : PadState.t :=
  match i with
  | Pointer e => reducePointer s e
  | KeyPoint x y t => addKeyboardPoint s x y t
  | KeyEnd => endKeyboardStroke s
  | Clear => clearSignatureState
  end.
Definition run_pad (inputs : list PadInput) : PadState.t := foldl pad_step PadState.empty inputs.

(** The browser's time stamps are finite. *)
Definition timed (i : PadInput) : Prop :=
  match i with
  | Pointer e => represented (PadEvent.timeStamp e) = true
  | KeyPoint _ _ t => represented t = true
  | KeyEnd | Clear => True
  end.

Lemma run_pad_ok inputs : Forall timed inputs → pad_ok (run_pad inputs).
Proof.
  unfold run_pad. generalize empty_ok. generalize PadState.empty.
  induction inputs as [|i inputs IH]; intros s Hs Ht; simpl; [done|].
  inversion Ht as [|?? Hi Hrest]; subst. apply IH; [|done].
  destruct i as [e|x y t| |]; simpl in *.
  - by apply reducePointer_ok.
  - by apply reducePointer_ok.
  - unfold endKeyboardStroke. destruct (PadState.active s); [|done].
    destruct (negb _); [done|by apply end_ok].
  - apply empty_ok.
Qed.

(** ** The ink a request carries *)

Lemma ltb_number a b : num_ltb a b = true → isNaN b = false.
Proof.
  destruct b as [y|[]]; try done. unfold num_ltb, SFltb.
  by destruct a as [x|f]; simpl; [destruct (binary_normalize _ _ _ _ _) as [| | |]|destruct f].
Qed.

Lemma latest_number l m :
  isNaN m = false → isNaN (foldl latest_time m l) = false.
Proof.
  revert m. induction l as [|s l IH]; intros m Hm; simpl; [done|]. apply IH. clear IH.
  unfold latest_time. revert m Hm. induction (SignatureStroke.points s) as [|p ps IHp];
    intros m Hm; simpl; [done|]. apply IHp.
  destruct (num_ltb m _) eqn:Hl; [by eapply ltb_number|done].
Qed.

Definition duration_in_bounds (n : jsnum) : bool := isInteger n && at_least 0 n && at_most 90000 n.

Lemma num_max_int a b : num_max (NInt a) (NInt b) = NInt (Z.max a b).
Proof. unfold num_max. simpl. destruct (Z.ltb_spec a b); f_equal; lia. Qed.
Lemma num_min_int a b : num_min (NInt a) (NInt b) = NInt (Z.min a b).
Proof. unfold num_min. simpl. destruct (Z.ltb_spec b a); f_equal; lia. Qed.

Lemma bounded_duration z :
  z_number duration_in_bounds (VNum (num_min (NInt maxDurationMs) (num_max (NInt 0) (NInt z)))) = true.
Proof.
  rewrite num_max_int, num_min_int. unfold z_number, duration_in_bounds, at_least, at_most, maxDurationMs.
  simpl. rewrite !(proj2 (Z.ltb_ge _ _)) by lia. done.
Qed.

Lemma duration_ok s : z_number duration_in_bounds (VNum (signatureDurationMs s)) = true.
Proof.
  unfold signatureDurationMs. pose proof (latest_number (committedStrokes s) (NInt 0) eq_refl) as Hm.
  destruct (foldl _ _ _) as [z|[sz|b| |b m e]]; try done; simpl math_round.
  - apply bounded_duration.
  - by destruct b.
  - destruct (0 <=? e)%Z; apply bounded_duration.
Qed.

(** What the browser makes of an image of at most [maxInkPngBytes] bytes. *)
Definition png_text (s : string) : Prop :=
  ∃ n, (1 <= n <= maxInkPngBytes)%Z ∧ Z.of_nat (String.length s) = (4 * ((n + 2) / 3))%Z.

Lemma png_text_length s : png_text s → length_between 1 400000 (String.length s) = true.
Proof.
  intros (n & Hn & Hl). unfold length_between, maxInkPngBytes in *. rewrite Hl.
  assert (1 <= (n + 2) / 3 <= 100000)%Z as Hq.
  { split; [apply Z.div_le_lower_bound; lia|apply Z.div_le_upper_bound; lia]. }
  apply andb_true_iff. rewrite !Z.leb_le. lia.
Qed.

Lemma length_between_ok lo hi n :
  (lo <= Z.of_nat n <= hi)%Z → length_between lo hi n = true.
Proof. intros []. unfold length_between. by rewrite !(proj2 (Z.leb_le _ _)). Qed.

Lemma stroke_points_total l s :
  s ∈ l → (length (SignatureStroke.points s) <= total_points l)%nat.
Proof. induction 1 as [|x y l Hx IH]; simpl; lia. Qed.

(** The ink of any use of the pad that counts as a signature is within the
    contract. *)
Lemma ink_conforms inputs png :
  Forall timed inputs → isSignatureValid (run_pad inputs) = true → png_text png →
  signatureInkPayloadSchema (toInkPayload (InkCapture.mk png (run_pad inputs))) = true.
Proof.
  intros Ht Hv Hpng. pose proof (run_pad_ok inputs Ht) as Hok. revert Hv Hok.
  generalize (run_pad inputs). intros s Hv Hok. pose proof (end_strokes s Hok) as [_ Hcs].
  destruct Hok as [H1 H2 H3 H4 _ _].
  unfold isSignatureValid in Hv. rewrite Hcs in Hv. apply andb_true_iff in Hv as [Hv _].
  apply Nat.leb_le in Hv. unfold minStrokes, maxStrokes, maxPoints in *.
  unfold toInkPayload. simpl InkCapture.state. rewrite Hcs, take_ge by done.
  apply strict_members; [|literal_keys]. repeat constructor; simpl.
  - by apply png_text_length.
  - apply andb_true_iff. rewrite length_fmap. split; [apply length_between_ok; lia|].
    apply forallb_fmap_Forall, Forall_forall. intros x Hx.
    rewrite Forall_forall in H1. destruct (H1 x Hx) as [Hne Hpts].
    pose proof (stroke_points_total _ _ Hx) as Hlen.
    apply strict_members; [|literal_keys]. repeat constructor. simpl.
    rewrite length_fmap. apply andb_true_iff. split.
    + apply length_between_ok. destruct (SignatureStroke.points x); [done|]. simpl in *. lia.
    + by apply forallb_fmap_Forall.
  - apply duration_ok.
Qed.

(** ** The request *)

Section requests.
Context `{Env}.

Definition field_ids (rows : list SignatureField.t) : list string := SignatureField.id <$> rows.

(** Selecting all of a signer's fields selects them. *)
Lemma selectFields_all rows : NoDup (field_ids rows) → selectFields rows (field_ids rows) = Ok rows.
Proof.
  intros Hd. unfold selectFields.
  assert (∀ f, f ∈ rows → SignatureField.id f ∈ remove_dups (field_ids rows)) as Hin.
  { intros f Hf. apply elem_of_remove_dups, list_elem_of_fmap. by exists f. }
  assert (length (remove_dups (field_ids rows)) = length rows) as Hlen.
  { rewrite <-(length_fmap SignatureField.id rows). apply Permutation_length, NoDup_Permutation;
      [apply NoDup_remove_dups|done|]. intros x. apply elem_of_remove_dups. }
  revert Hin Hlen. generalize (remove_dups (field_ids rows)). intros req Hin Hlen.
  assert (List.filter (λ f, bool_decide (SignatureField.id f ∈ req)) rows = rows) as ->.
  { clear Hd Hlen. induction rows as [|f rows IH]; [done|]. simpl.
    rewrite bool_decide_eq_true_2 by (apply Hin; by left). rewrite IH; [done|].
    intros g Hg. apply Hin. by right. }
  rewrite Hlen, Nat.eqb_refl. simpl. unfold mbind, Result_bind.
  assert (each (λ f, throw_if (negb (bool_decide (SignatureField.id f ∈ req)))
      (ValidationError (fieldReason "fieldIds" "required_field_missing")))
    (List.filter SignatureField.required rows) = Ok tt) as ->; [|done].
  apply each_ok. intros f Hf. apply throw_if_ok, negb_false_iff, bool_decide_eq_true.
  apply Hin. by apply list_elem_of_In, filter_In in Hf as [Hf%list_elem_of_In _].
Qed.

(** The image captured for a kind of ink, when the page asks for it. *)
Definition capture (fields : list SignerFieldView.t) (type : SignatureFieldType.t) (png : string)
    (state : PadState.t) : option InkCapture.t :=
  if needsInk fields type then Some (InkCapture.mk png state) else None.

Lemma needsInk_views rows type :
  needsInk (field_view <$> rows) type =
    existsb (λ f, SignatureField.required f && has_type type f) rows.
Proof. induction rows as [|f rows IH]; [done|]. exact (f_equal (orb _) IH). Qed.

(** Ink the server asks for is ink the page asked for, when no ink is optional. *)
Definition ink_required (f : SignatureField.t) : Prop :=
  has_type SignatureFieldType.signature f || has_type SignatureFieldType.initials f = true →
  SignatureField.required f = true.

Lemma ink_needed rows type png state :
  type = SignatureFieldType.signature ∨ type = SignatureFieldType.initials →
  Forall ink_required rows →
  existsb (has_type type) rows &&
    negb (bool_decide (is_Some (capture (field_view <$> rows) type png state))) = false.
Proof.
  intros Htype Hall. apply andb_false_iff. unfold capture. rewrite needsInk_views.
  destruct (existsb (has_type type) rows) eqn:He; [right|by left].
  apply existsb_exists in He as (f & Hf & Ht). apply negb_false_iff, bool_decide_eq_true.
  assert (existsb (λ f, SignatureField.required f && has_type type f) rows = true) as ->; [|done].
  apply existsb_exists. exists f. split; [done|]. rewrite Ht, andb_true_r.
  rewrite Forall_forall in Hall. apply (Hall f); [by apply list_elem_of_In|].
  apply orb_true_iff. destruct Htype as [-> | ->]; [by left|by right].
Qed.

Lemma canSubmit_parts c i b fields sig ini :
  canSubmit (submitReadiness c i b fields sig ini) = true →
  fields ≠ [] ∧ (needsInk fields SignatureFieldType.signature = true → isSignatureValid sig = true) ∧
  (needsInk fields SignatureFieldType.initials = true → isSignatureValid ini = true).
Proof.
  unfold canSubmit, submitReadiness. rewrite Nat.eqb_eq, !length_app. intros Hl.
  destruct fields as [|f fields]; [by destruct b; simpl in Hl; lia|]. split; [done|].
  destruct (needsInk _ SignatureFieldType.signature), (isSignatureValid sig),
    (needsInk _ SignatureFieldType.initials), (isSignatureValid ini); simpl in Hl; try done;
    exfalso; lia.
Qed.

Lemma capture_conforms fields type png inputs :
  Forall timed inputs → png_text png →
  (needsInk fields type = true → isSignatureValid (run_pad inputs) = true) →
  z_optional signatureInkPayloadSchema
    (default VUndef (toInkPayload <$> capture fields type png (run_pad inputs))) = true.
Proof.
  intros Ht Hp Hv. unfold capture. destruct (needsInk fields type); [|done].
  exact (ink_conforms inputs png Ht (Hv eq_refl) Hp).
Qed.

End requests.

(** Six points with a mouse, on a required signature field. *)
Definition mouse (kind : PadKind.t) (t : Z) : PadInput :=
  Pointer (PadEvent.mk kind 1 (NInt (10 + t)) (NInt 20) (NFlt (S754_zero false)) (NInt t)
    (PadRect.mk (NInt 0) (NInt 0) (NInt 600) (NInt 240))).
Definition drawn : list PadInput :=
  mouse PadKind.down 0 :: (mouse PadKind.move <$> [1; 2; 3; 4]%Z) ++ [mouse PadKind.up 5%Z].
Definition ink_field (required : bool) : SignatureField.t :=
  SignatureField.mk (Sample.uuid 7) (Sample.uuid 1) (Sample.uuid 2) (Sample.uuid 3)
    SignatureFieldType.signature (NInt 1) (NInt 0) (NInt 0) (NInt 1) (NInt 1) required
    None None None None None None 0 0.


(** An optional signature field is selected like any other, but the page neither
    asks for ink nor captures it: the request is submitted and refused. *)
Example optional_ink_is_refused :
  let rows := [ink_field false] in
  let fields := field_view <$> rows in
  let signature := capture fields SignatureFieldType.signature "iVBO" (run_pad drawn) in
  canSubmit (submitReadiness true true false fields (run_pad drawn) (run_pad [])) = true ∧
  assertInkForFields rows (bool_decide (is_Some signature)) false =
    Throw (ValidationError (fieldReason "signature" "required")).
Proof. split; vm_compute; reflexivity. Qed.
