(* ===== verification/Schemas.v ===== *)
(** The requests the API accepts and the answers it gives, from
    [packages/contracts/src/documents.ts], [auth.ts] and [audit.ts].

    A schema says which JSON values it accepts; a request's parser reads what
    the route goes on with.  Zod's uuid and e-mail formats are those of [Env],
    its format of dates is an argument. *)

From Stdlib Require Import String.
From S2P Require Export Queries AuditLog Pad.
Local Open Scope string_scope.

(** ** Reading the members of an accepted value *)

Definition str_of (v : value) : string := match v with VStr s => s | _ => EmptyString end.
Definition num_of (v : value) : jsnum := match v with VNum n => n | _ => NInt 0 end.
Definition list_of (v : value) : list value := match v with VArr l => l | _ => [] end.
Definition opt_str (v : value) : option string := match v with VStr s => Some s | _ => None end.
Definition opt_bool (v : value) : option bool := match v with VBool b => Some b | _ => None end.

(** [schema.safeParse(v)]: what is read of [v] when the schema accepts it. *)
Definition safe_parse {A} (s : schema) (read : value → A) (v : value) : option A :=
  if s v then Some (read v) else None.

Definition literal_string (s : string) : schema := z_string (String.eqb s).
Definition z_any_string : schema := z_string (λ _, true).
(** [z.string().trim().min(lo).max(hi)]. *)
Definition z_trimmed (lo hi : Z) : schema :=
  z_string (λ s, length_between lo hi (String.length (trim s))).
Definition z_int : schema := z_number isInteger.
Definition z_nonnegative_int : schema := z_number (λ n, isInteger n && at_least 0 n).

Section schemas.
Context `{Env} (datetime : string → bool).
Abbreviation z_uuid := (z_string zod_uuid).
Abbreviation z_datetime := (z_string datetime).

(** ** Documents *)

(* [src: packages/contracts/src/documents.ts:7-12 createDocumentRequestSchema] *)
Definition createDocumentRequestSchema : schema := strict
  [("title", z_trimmed 1 200); ("filename", z_sized_string 1 240)].
Definition read_create (v : value) : string * string :=
  (trim (str_of (member "title" v)), str_of (member "filename" v)).

(* [src: packages/contracts/src/documents.ts:76-88 createDocumentResponseSchema] *)
Definition createDocumentResponseSchema : schema := strict (public_document_members ++
  [("upload", strict
     [("url", z_string nonempty); ("method", literal_string "PUT"); ("expiresAt", z_datetime);
      ("maxBytes", z_number positive_int); ("contentType", literal_string "application/pdf");
      ("tokenHeader", z_string nonempty); ("token", z_nullable z_any_string)])])%list.

(* [src: packages/contracts/src/documents.ts:92-100 issuePreviewResponseSchema] *)
Definition issuePreviewResponseSchema : schema := strict
  [("url", z_string nonempty); ("expiresAt", z_datetime); ("tokenHeader", z_string nonempty);
   ("token", z_string nonempty); ("contentType", literal_string "application/pdf")].

(* [src: packages/contracts/src/documents.ts:109-127 replaceSignersRequestSchema] *)
Definition replaceSignersRequestSchema : schema := strict
  [("signingMode", signingModeSchema);
   ("signers", z_sized_array 1 50 (strict
     [("signerId", z_optional z_uuid);
      ("email", z_string (λ s, zod_email s && length_between 0 254 (String.length s)));
      ("displayName", z_trimmed 1 120); ("routingOrder", z_number positive_int)]))].
Definition read_signer (v : value) : SignerRow.t :=
  SignerRow.mk (opt_str (member "signerId" v)) (str_of (member "email" v))
    (trim (str_of (member "displayName" v))) (num_of (member "routingOrder" v)).
Definition read_signers (v : value) : string * list SignerRow.t :=
  (str_of (member "signingMode" v), read_signer <$> list_of (member "signers" v)).

(* [src: packages/contracts/src/documents.ts:131-151 replaceFieldsRequestSchema] *)
Definition replaceFieldsRequestSchema : schema := strict
  [("fields", z_sized_array 1 200 (strict
     [("signerId", z_uuid); ("type", signatureFieldTypeSchema);
      ("pageNumber", z_number positive_int); ("x", z_number any_number); ("y", z_number any_number);
      ("width", z_number any_number); ("height", z_number any_number);
      ("required", z_optional z_boolean)]))].
Definition read_field (v : value) : FieldRow.t :=
  FieldRow.mk (str_of (member "signerId" v)) (str_of (member "type" v))
    (num_of (member "pageNumber" v)) (num_of (member "x" v)) (num_of (member "y" v))
    (num_of (member "width" v)) (num_of (member "height" v)) (opt_bool (member "required" v)).
Definition read_fields (v : value) : list FieldRow.t := read_field <$> list_of (member "fields" v).

(* [src: packages/contracts/src/documents.ts:155-159 sendDocumentRequestSchema] *)
Definition sendDocumentRequestSchema : schema := strict
  [("expiresAt", z_optional (z_nullable z_datetime))].
Definition read_send (v : value) : option string := opt_str (member "expiresAt" v).

(* [src: packages/contracts/src/documents.ts:163-174 sendDocumentResponseSchema] *)
Definition sendDocumentResponseSchema : schema := strict (public_document_members ++
  [("invitations", z_array (strict
     [("signerId", z_uuid); ("sessionId", z_uuid); ("expiresAt", z_datetime);
      ("token", z_nullable z_any_string)]))])%list.

(* [src: packages/contracts/src/documents.ts:178-185 rotateSessionResponseSchema] *)
Definition rotateSessionResponseSchema : schema := strict
  [("signerId", z_uuid); ("sessionId", z_uuid); ("expiresAt", z_datetime); ("token", z_string nonempty)].

(* [src: packages/contracts/src/documents.ts:187-192 revokeSessionResponseSchema] *)
Definition revokeSessionResponseSchema : schema := strict
  [("sessionId", z_uuid); ("status", literal_string "revoked")].

(** ** Signing *)

(* [src: packages/contracts/src/documents.ts:197-201 exchangeSigningTokenRequestSchema] *)
Definition exchangeSigningTokenRequestSchema : schema := strict
  [("token", z_optional (z_sized_string 1 512))].
Definition read_exchange (v : value) : option string := opt_str (member "token" v).

(* [src: packages/contracts/src/documents.ts:203-208 exchangeSigningTokenResponseSchema] *)
Definition exchangeSigningTokenResponseSchema : schema := strict
  [("sessionId", z_uuid); ("expiresAt", z_datetime)].

(* [src: packages/contracts/src/documents.ts:210-224 signerSessionResponseSchema] *)
Definition signerSessionResponseSchema : schema := strict
  [("documentId", z_uuid); ("signerId", z_uuid); ("sessionId", z_uuid);
   ("sessionStatus", z_enum ["issued"; "active"]); ("title", z_string nonempty);
   ("signingMode", signingModeSchema); ("expiresAt", z_datetime);
   ("signerDisplayName", z_string nonempty); ("signerStatus", signerStatusSchema);
   ("consentRequired", z_boolean); ("consented", z_boolean)].

(* [src: packages/contracts/src/documents.ts:228-236 signerDocumentResponseSchema] *)
Definition signerDocumentResponseSchema : schema := strict
  [("documentId", z_uuid); ("title", z_string nonempty); ("signingMode", signingModeSchema);
   ("pageCount", z_nullable (z_number positive_int)); ("signerDisplayName", z_string nonempty)].

(* [src: packages/contracts/src/documents.ts:240-257 signerFieldsResponseSchema] *)
Definition signerFieldsResponseSchema : schema := strict
  [("fields", z_array (strict
     [("fieldId", z_uuid); ("type", signatureFieldTypeSchema); ("pageNumber", z_number positive_int);
      ("x", z_number any_number); ("y", z_number any_number); ("width", z_number any_number);
      ("height", z_number any_number); ("required", z_boolean)]))].

(* [src: packages/contracts/src/documents.ts:262-271 signerConsentResponseSchema] *)
Definition signerConsentResponseSchema : schema := strict
  [("copyId", z_string nonempty); ("version", z_string nonempty); ("title", z_string nonempty);
   ("text", z_string nonempty); ("required", z_true); ("accepted", z_boolean)].

(* [src: packages/contracts/src/documents.ts:275-280 recordSignerConsentRequestSchema] *)
Definition recordSignerConsentRequestSchema : schema := strict
  [("copyId", z_sized_string 1 120); ("accepted", z_true)].
Definition read_consent (v : value) : string * bool :=
  (str_of (member "copyId" v), default false (opt_bool (member "accepted" v))).

(* [src: packages/contracts/src/documents.ts:282-288 recordSignerConsentResponseSchema] *)
Definition recordSignerConsentResponseSchema : schema := strict
  [("consentId", z_uuid); ("copyId", z_string nonempty); ("acceptedAt", z_datetime)].

(* [src: packages/contracts/src/documents.ts:290-294 recordSignerViewedResponseSchema] *)
Definition recordSignerViewedResponseSchema : schema := strict [("viewed", z_true)].

(* [src: packages/contracts/src/documents.ts:296-300 declineToSignRequestSchema] *)
Definition declineToSignRequestSchema : schema := strict
  [("reason", z_optional (z_sized_string 0 500))].
Definition read_decline (v : value) : option string := opt_str (member "reason" v).

(* [src: packages/contracts/src/documents.ts:302-308 declineToSignResponseSchema] *)
Definition declineToSignResponseSchema : schema := strict
  [("documentId", z_uuid); ("signerId", z_uuid); ("status", literal_string "declined")].

(** The image of an ink payload, which is all the use case takes of it. *)
Definition read_ink (v : value) : option string := opt_str (member "pngBase64" v).
Record CompleteRequest : Type := {
  rq_consentCopyId : string;
  rq_intentToSign : bool;
  rq_fieldIds : list string;
  rq_signature : option string;
  rq_initials : option string
}.
Definition read_complete (v : value) : CompleteRequest := {|
  rq_consentCopyId := str_of (member "consentCopyId" v);
  rq_intentToSign := default false (opt_bool (member "intentToSign" v));
  rq_fieldIds := str_of <$> list_of (member "fieldIds" v);
  rq_signature := read_ink (member "signature" v);
  rq_initials := read_ink (member "initials" v)
|}.

(* [src: packages/contracts/src/documents.ts:349-353 completeSigningResponseSchema] *)
Definition completeSigningResponseSchema : schema := strict
  [("status", z_enum ["accepted"; "pending"])].

(** ** Accounts *)

(* [src: packages/contracts/src/auth.ts:9-19 loginRequestSchema] *)
Definition loginRequestSchema : schema := strict
  [("email", z_string (λ s, zod_email (trim s) && length_between 0 320 (String.length (trim s))));
   ("secret", z_sized_string 1 1024)].
Definition read_login (v : value) : string * string :=
  (toLowerCase (trim (str_of (member "email" v))), str_of (member "secret" v)).

(* [src: packages/contracts/src/auth.ts:23-28 loginResponseSchema] *)
Definition loginResponseSchema : schema := strict [("userId", z_uuid); ("expiresAt", z_datetime)].

(* [src: packages/contracts/src/auth.ts:7-7 membershipRoleSchema] *)
Definition membershipRoleSchema : schema := z_enum ["owner"; "admin"; "member"; "read_only"].

(* [src: packages/contracts/src/auth.ts:32-38 membershipSummarySchema] *)
Definition membershipSummarySchema : schema := strict
  [("membershipId", z_uuid); ("organizationId", z_uuid); ("role", membershipRoleSchema)].

(* [src: packages/contracts/src/auth.ts:40-46 currentAccountUserResponseSchema] *)
Definition currentAccountUserResponseSchema : schema := strict
  [("userId", z_uuid); ("displayName", z_string nonempty);
   ("memberships", z_array membershipSummarySchema)].

(* [src: packages/contracts/src/auth.ts:50-57 organizationActorResponseSchema] *)
Definition organizationActorResponseSchema : schema := strict
  [("userId", z_uuid); ("organizationId", z_uuid); ("membershipId", z_uuid);
   ("role", membershipRoleSchema)].

(* [src: packages/contracts/src/auth.ts:61-65 revokeSessionRequestSchema] *)
Definition revokeSessionRequestSchema : schema := strict [("sessionId", z_uuid)].
Definition read_revoke (v : value) : string := str_of (member "sessionId" v).

(** ** Audit reports *)

(* [src: packages/contracts/src/audit.ts:3-15 auditVerificationFailureCodeSchema] *)
Definition auditVerificationFailureCodeSchema : schema := z_enum
  ["EMPTY_CHAIN"; "UNSUPPORTED_SCHEMA_VERSION"; "SEQUENCE_GAP"; "SEQUENCE_REORDER"; "HASH_MISMATCH";
   "PREVIOUS_HASH_MISMATCH"; "GENESIS_PREVIOUS_HASH_MISMATCH"; "ARTIFACT_DIGEST_MISMATCH";
   "ARTIFACT_MISSING"; "FORBIDDEN_PAYLOAD_FIELD"; "CHECKPOINT_MISMATCH"].

(* [src: packages/contracts/src/audit.ts:17-20 auditVerificationWarningCodeSchema] *)
Definition auditVerificationWarningCodeSchema : schema := z_enum
  ["CHECKPOINT_ANCHORING_DISABLED"; "CHECKPOINT_STORE_UNAVAILABLE"].

(* [src: packages/contracts/src/audit.ts:22-30 auditVerificationFailureSchema] *)
Definition auditVerificationFailureSchema : schema := strict
  [("code", auditVerificationFailureCodeSchema); ("organizationId", z_uuid); ("documentId", z_uuid);
   ("sequence", z_nullable z_int); ("eventId", z_nullable z_uuid)].

(* [src: packages/contracts/src/audit.ts:32-38 auditVerificationWarningSchema] *)
Definition auditVerificationWarningSchema : schema := strict
  [("code", auditVerificationWarningCodeSchema); ("organizationId", z_uuid); ("documentId", z_uuid)].

(* [src: packages/contracts/src/audit.ts:40-53 auditVerificationReportSchema] *)
Definition auditVerificationReportSchema : schema := strict
  [("ok", z_boolean); ("schemaVersion", z_int); ("organizationId", z_uuid); ("documentId", z_uuid);
   ("eventCount", z_nonnegative_int); ("checkedAt", z_datetime);
   ("headEventHash", z_nullable (z_sized_string 64 64)); ("headSequence", z_nullable z_int);
   ("failures", z_array auditVerificationFailureSchema);
   ("warnings", z_array auditVerificationWarningSchema)].

(* [src: packages/contracts/src/audit.ts:55-64 organizationAuditVerificationReportSchema] *)
Definition organizationAuditVerificationReportSchema : schema := strict
  [("ok", z_boolean); ("organizationId", z_uuid); ("documentCount", z_nonnegative_int);
   ("failedDocumentCount", z_nonnegative_int); ("checkedAt", z_datetime);
   ("reports", z_array auditVerificationReportSchema)].
End schemas.
