(* ===== verification/Finalization.v ===== *)
(** The worker's side of a document: flattening signatures into the PDF,
    finalizing, cleaning up, and downloading the result, from
    [flatten-signature.ts], [cleanup-abandoned-uploads.ts],
    [cleanup-orphaned-objects.ts] and [download-finalized-artifact.ts] under
    [packages/application/src/documents/]. *)

From Stdlib Require Import String.
From S2P Require Export Signing.
Local Open Scope string_scope.

Module FlattenSignatureInput.
(* [src: packages/application/src/documents/flatten-signature.ts:33-43 FlattenSignatureInput] *)
Record t : Type := mk {
  organizationId : string;
  documentId : string;
  signerId : string;
  sessionId : string;
  revisionId : string;
  jobId : string;
  outboxEventId : string;
  requestId : option string;
  owner : string
}.
End FlattenSignatureInput.

(** [error.name]. *)
Definition exn_name (e : Exn) : string :=
  match e with
  | OtherError name _ => name
  | AppError kind _ =>
    match kind with
    | validation => "ValidationError"
    | authentication => "AuthenticationError"
    | authorization => "AuthorizationError"
    | not_found => "NotFoundError"
    | conflict => "ConflictError"
    | invalid_state_transition => "InvalidStateTransitionError"
    | integrity => "IntegrityError"
    | external_service => "ExternalServiceError"
    | rate_limit => "RateLimitError"
    end
  end.

Definition is_conflict (e : Exn) : bool :=
  match e with AppError conflict _ => true | _ => false end.

Definition details_reason (e : Exn) : value :=
  match e with AppError _ details => prop "reason" details | _ => VUndef end.

Import FinalizationFailureCode.

(** The work a job may do. *)
Module Work.
(* [src: packages/application/src/documents/flatten-signature.ts:325-341 loadAuthorizedWork result] *)
Record t : Type := mk {
  document : Document.t;
  revision : DocumentRevision.t;
  signerFields : list SignatureField.t;
  signerName : string;
  signedAt : Z;
  allSignersComplete : bool;
  consentCopyId : string;
  consentAcceptedAt : Z;
  untrustedClientIp : option string;
  untrustedUserAgent : option string;
  signaturePngDigest : option string;
  signatureFieldId : option string
}.
End Work.

Module Output.
(** The bytes a flattening produces, with where they are stored. *)
Record t : Type := mk {
  bytes : list Z;
  digest : string;
  pageCount : Z;
  objectKey : string
}.
End Output.

Inductive FlattenStatus : Type := finalized | revised | noop.

Section finalization.
Context `{Env} `{!AuthorizationPolicy} `{!UnitOfWork}.

(** ** Objects *)

(* [src: packages/application/src/documents/flatten-signature.ts:511-538 downloadAndVerifySource] *)
Definition downloadAndVerifySource (revision : DocumentRevision.t) : Run (list Z * string) :=
  key ← lift (assertTenantObjectKey (DocumentRevision.organizationId revision)
                (DocumentRevision.objectKey revision));
  stored ← getObject (DocumentRevision.organizationId revision) key;
  match stored with
  | None => throw (finalizationError SOURCE_OBJECT_NOT_FOUND [])
  | Some o =>
    let body := StoredObject.body o in
    if negb (byteLength body =? DocumentRevision.sizeBytes revision)%Z then
      throw (finalizationError SOURCE_INTEGRITY_FAILURE (reasonOnly "size"))
    else
      let digest := sha256Bytes body in
      if negb (String.eqb digest (DocumentRevision.sha256Digest revision)) ||
         negb (String.eqb digest (StoredObject.sha256Digest o))
      then throw (finalizationError SOURCE_INTEGRITY_FAILURE (reasonOnly "digest"))
      else if (maxPdfBytes <? byteLength body)%Z then
        throw (finalizationError INVALID_PDF (reasonOnly "too_large"))
      else if negb (is_ok (assertPdfMagicBytes body)) then
        throw (finalizationError INVALID_PDF (reasonOnly "pdf_magic"))
      else mret (body, digest)
  end.

(* [src: packages/application/src/documents/flatten-signature.ts:540-572 putVerifiedObject] *)
Definition putVerifiedObject (organizationId key : string) (body : list Z) (digest : string) :
    Run unit :=
  try_catch
    (putObject (PutObjectInput.mk organizationId key body PDF_CONTENT_TYPE (Some maxPdfBytes)
       (Some digest));; mret tt)
    (λ error, if isApplicationError error then throw error
              else throw (finalizationError FINAL_OBJECT_UPLOAD_FAILED
                            [("cause", VStr (exn_name error))]));;
  persisted ← getObject organizationId key;
  match persisted with
  | None => throw (finalizationError FINAL_OBJECT_INTEGRITY_FAILURE (reasonOnly "missing_after_put"))
  | Some o =>
    if negb (String.eqb (sha256Bytes (StoredObject.body o)) digest) ||
       negb (String.eqb (StoredObject.sha256Digest o) digest)
    then throw (finalizationError FINAL_OBJECT_INTEGRITY_FAILURE (reasonOnly "digest_mismatch"))
    else mret tt
  end.

(** ** What a job may work on *)

Definition invalid_field (details : object) : Exn :=
  finalizationError INVALID_SIGNATURE_FIELD details.

(** [None] is the no-op answer's [kind]; its digest is the artifact's. *)
(* [src: packages/application/src/documents/flatten-signature.ts:322-415 loadAuthorizedWork] *)
Definition loadAuthorizedWork (input : FlattenSignatureInput.t) : Run (string + Work.t) :=
  let '(FlattenSignatureInput.mk organizationId documentId signerId sessionId inputRevisionId
          _ _ _ _) := input in
  found ← Documents.findById organizationId documentId;
  match found with
  | None => throw (invalid_field (resourceOnly "document"))
  | Some document =>
    artifact ← FinalizedArtifacts.findByDocument organizationId documentId;
    match Document.state document, artifact with
    | DocumentState.finalized, Some artifact => mret (inl (FinalizedArtifact.sha256Digest artifact))
    | _, _ =>
      row ← Signers.findById organizationId signerId;
      match row with
      | None => throw (invalid_field (resourceOnly "signer"))
      | Some row =>
        if negb (String.eqb (Signer.documentId row) (Document.id document)) then
          throw (invalid_field (resourceOnly "signer"))
        else
        session ← SigningSessions.findById organizationId sessionId;
        match session with
        | None => throw (invalid_field (resourceOnly "session"))
        | Some session =>
          if negb (String.eqb (SigningSession.documentId session) (Document.id document)) ||
             negb (String.eqb (SigningSession.signerId session) (Signer.id row))
          then throw (invalid_field (resourceOnly "session"))
          else
          consent ← ConsentRecords.findBySession organizationId (SigningSession.id session);
          match consent with
          | None => throw (invalid_field (resourceOnly "consent"))
          | Some consent =>
            let revisionId := default inputRevisionId (Document.currentRevisionId document) in
            found ← Revisions.findById organizationId revisionId;
            match found with
            | None => throw (finalizationError SOURCE_OBJECT_NOT_FOUND (resourceOnly "revision"))
            | Some revision =>
              if negb (String.eqb (DocumentRevision.documentId revision) (Document.id document))
              then throw (finalizationError SOURCE_OBJECT_NOT_FOUND (resourceOnly "revision"))
              else
              signers ← Signers.listByDocument organizationId (Document.id document);
              fields ← SignatureFields.listByDocument organizationId (Document.id document);
              let signerFields := List.filter
                (λ f, String.eqb (SignatureField.signerId f) (Signer.id row)) fields in
              if (length signerFields =? 0)%nat then
                throw (invalid_field (reasonOnly "missing_fields"))
              else
                let signatureField := find_row (has_type SignatureFieldType.signature)
                                        signerFields in
                signedAt ← match Signer.completedAt row with
                           | Some t => mret t
                           | None => nowUtc
                           end;
                mret (inr (Work.mk document revision signerFields (Signer.displayName row) signedAt
                  (allRequiredSigned (Signer.status <$> signers))
                  (ConsentRecord.consentCopyId consent) (ConsentRecord.acceptedAt consent)
                  (ConsentRecord.untrustedClientIp consent)
                  (ConsentRecord.untrustedUserAgent consent)
                  (signatureField ≫= SignatureField.completionSha256Digest)
                  (SignatureField.id <$> signatureField)))
            end
          end
        end
      end
    end
  end.

(** ** Flattening *)

(** The image of a signature or initials field, checked. *)
Definition field_image (organizationId : string) (field : SignatureField.t) : Run (list Z) :=
  match SignatureField.completionObjectKey field with
  | None => throw (image_error [("fieldId", VStr (SignatureField.id field))])
  | Some objectKey =>
    key ← lift (assertTenantObjectKey organizationId objectKey);
    stored ← getObject organizationId key;
    match stored with
    | None => throw (image_reason "missing_png")
    | Some o =>
      let body := StoredObject.body o in
      if match SignatureField.completionSizeBytes field with
         | Some size => negb (byteLength body =? size)%Z
         | None => false
         end then throw (image_reason "png_size")
      else if match SignatureField.completionSha256Digest field with
              | Some d => negb (String.eqb (sha256Bytes body) d)
              | None => false
              end then throw (image_reason "png_digest")
      else lift (validateSignaturePng body maxPngBytes);; mret body
    end
  end.

(** What a field puts on the page. *)
Definition field_appearance (input : FlattenSignatureInput.t) (document : Document.t)
    (revision : DocumentRevision.t) (signerName : string) (signedAt : Z)
    (field : SignatureField.t) : Run FlattenedAppearance.t :=
  if negb (String.eqb (SignatureField.documentId field) (Document.id document)) ||
     negb (String.eqb (SignatureField.signerId field) (FlattenSignatureInput.signerId input))
  then throw (invalid_field [("fieldId", VStr (SignatureField.id field))])
  else if negb (is_ok (assertFieldOnPage (FieldBox.of_field field)
                         (DocumentRevision.pageCount revision)))
  then throw (invalid_field [("fieldId", VStr (SignatureField.id field));
                             ("reason", VStr "page_or_rectangle")])
  else
    pngBytes ← (if has_type SignatureFieldType.signature field ||
                   has_type SignatureFieldType.initials field
                then Some <$> field_image (FlattenSignatureInput.organizationId input) field
                else mret None);
    mret (FlattenedAppearance.mk field pngBytes
      (if has_type SignatureFieldType.signer_name field then Some signerName else None)
      (if has_type SignatureFieldType.date_signed field then Some signedAt else None)).

(* [src: packages/application/src/documents/flatten-signature.ts:417-509 flattenOntoRevision] *)
Definition flattenOntoRevision (input : FlattenSignatureInput.t) (document : Document.t)
    (revision : DocumentRevision.t) (signerFields : list SignatureField.t) (signerName : string)
    (signedAt : Z) : Run Output.t :=
  '(source, _) ← downloadAndVerifySource revision;
  appearances ← map_each (field_appearance input document revision signerName signedAt)
                  signerFields;
  '(pdfBytes, pageCount) ←
    try_catch (lift (flatten_pdf source appearances signedAt timeoutMs))
      (λ error, if isApplicationError error then throw error
                else throw (finalizationError PDF_GENERATION_FAILED
                              [("cause", VStr (exn_name error))]));
  let digest := sha256Bytes pdfBytes in
  objectKey ← lift (sourceRevisionObjectKey (FlattenSignatureInput.organizationId input) digest);
  putVerifiedObject (FlattenSignatureInput.organizationId input) objectKey pdfBytes digest;;
  mret (Output.mk pdfBytes digest pageCount objectKey).

(* [src: packages/application/src/documents/flatten-signature.ts:644-669 buildFinalizedAuditPayload] *)
Definition buildFinalizedAuditPayload (input : FlattenSignatureInput.t) (loaded : Work.t)
    (sourceDigest finalizedDigest : string) (occurredAt : Z) : object :=
  [("documentId", VStr (FlattenSignatureInput.documentId input));
   ("signerId", VStr (FlattenSignatureInput.signerId input));
   ("signingSessionId", VStr (FlattenSignatureInput.sessionId input));
   ("correlationId", VOptStr (FlattenSignatureInput.requestId input));
   ("eventType", VStr "document_finalized");
   ("occurredAt", VStr (toISOString occurredAt));
   ("untrustedClientIp", VOptStr (Work.untrustedClientIp loaded));
   ("untrustedUserAgent", VOptStr (Work.untrustedUserAgent loaded));
   ("sourceSha256", VStr sourceDigest);
   ("finalizedSha256", VStr finalizedDigest);
   ("signaturePngSha256", VOptStr (Work.signaturePngDigest loaded));
   ("consentVersion", VStr (Work.consentCopyId loaded));
   ("intentAcceptedAt", VStr (toISOString (Work.consentAcceptedAt loaded)));
   ("signatureFieldId", VOptStr (Work.signatureFieldId loaded));
   ("jobId", VStr (FlattenSignatureInput.jobId input));
   ("outboxEventId", VStr (FlattenSignatureInput.outboxEventId input))].

(** An audit event by the job. *)
Definition audit_worker (input : FlattenSignatureInput.t) (auditId : string)
    (type : AuditEventType.t) (occurredAt : Z) (payload : object) : Run AuditEvent.t :=
  audit auditId (FlattenSignatureInput.organizationId input)
    (FlattenSignatureInput.documentId input) type AuditActorType.worker
    (FlattenSignatureInput.jobId input) occurredAt payload (FlattenSignatureInput.requestId input).

(** What a failed transaction is reported as. *)
Definition commit_failure {A} (error : Exn) : Run A :=
  if is_conflict error then throw (finalizationError CONCURRENT_FINALIZATION [])
  else match error with
  | AppError external_service _ | OtherError _ _ =>
    throw (finalizationError DATABASE_COMMIT_FAILED [("cause", VStr (exn_name error))])
  | AppError _ _ => throw error
  end.

Definition new_artifact (id organizationId documentId objectKey : string) (bytes : list Z)
    (digest : string) (occurredAt : Z) : FinalizedArtifact.t :=
  FinalizedArtifact.mk id organizationId documentId objectKey PDF_CONTENT_TYPE (byteLength bytes)
    digest occurredAt.

(* [src: packages/application/src/documents/flatten-signature.ts:574-642 persistMissingFinalArtifact] *)
Definition persistMissingFinalArtifact (input : FlattenSignatureInput.t) (loaded : Work.t) :
    Run (FlattenStatus * option string) :=
  let organizationId := FlattenSignatureInput.organizationId input in
  let documentId := FlattenSignatureInput.documentId input in
  let revision := Work.revision loaded in
  '(source, digest) ← downloadAndVerifySource revision;
  artifactKey ← lift (artifactObjectKey organizationId digest);
  (if negb (String.eqb (DocumentRevision.objectKey revision) artifactKey)
   then putVerifiedObject organizationId artifactKey source digest else mret tt);;
  occurredAt ← nowUtc;
  try_catch
    (run (
      existing ← FinalizedArtifacts.findByDocument organizationId documentId;
      match existing with
      | Some _ => mret tt
      | None =>
        artifactId ← next_id;
        FinalizedArtifacts.create organizationId
          (new_artifact artifactId organizationId documentId artifactKey source digest occurredAt);;
        auditId ← next_id;
        audit_worker input auditId AuditEventType.document_finalized occurredAt
          (buildFinalizedAuditPayload input loaded (DocumentRevision.sha256Digest revision) digest
             occurredAt);;
        mret tt
      end))
    commit_failure;;
  mret (finalized, Some digest).

(** The transaction that records the flattened revision. *)
(* [src: packages/application/src/documents/flatten-signature.ts:172-261 flattenSignature transaction] *)
Definition flatten_transaction (input : FlattenSignatureInput.t) (loaded : Work.t)
    (leased : Document.t) (revision : DocumentRevision.t) (pendingFields : list SignatureField.t)
    (output : Output.t) (revisionId artifactId : string) (occurredAt : Z) : Run unit :=
  let organizationId := FlattenSignatureInput.organizationId input in
  let documentId := FlattenSignatureInput.documentId input in
  let finalize := Work.allSignersComplete loaded in
  (if negb (length pendingFields =? 0)%nat then
     Revisions.create (DocumentRevision.mk revisionId organizationId documentId
       DocumentRevisionKind.intermediate (Output.objectKey output) PDF_CONTENT_TYPE
       (byteLength (Output.bytes output)) (Output.digest output)
       (DocumentRevision.displayName revision) (Output.pageCount output) occurredAt);;
     for_each (λ field, SignatureFields.markFlattened organizationId (SignatureField.id field)
                          revisionId;; mret tt) pendingFields;;
     auditId ← next_id;
     audit_worker input auditId AuditEventType.revision_added occurredAt
       [("revisionId", VStr revisionId); ("sha256Digest", VStr (Output.digest output));
        ("signerId", VStr (FlattenSignatureInput.signerId input));
        ("outboxEventId", VStr (FlattenSignatureInput.outboxEventId input))];;
     mret tt
   else mret tt);;
  Documents.commitFlattenedRevision organizationId documentId (Document.version leased)
    (FlattenSignatureInput.owner input) revisionId finalize;;
  if finalize then
    existing ← FinalizedArtifacts.findByDocument organizationId documentId;
    match existing with
    | Some _ => mret tt
    | None =>
      artifactKey ← lift (artifactObjectKey organizationId (Output.digest output));
      FinalizedArtifacts.create organizationId
        (new_artifact artifactId organizationId documentId artifactKey (Output.bytes output)
           (Output.digest output) occurredAt);;
      mret tt
    end;;
    auditId ← next_id;
    audit_worker input auditId AuditEventType.document_finalized occurredAt
      (buildFinalizedAuditPayload input loaded (DocumentRevision.sha256Digest revision)
         (Output.digest output) occurredAt);;
    mret tt
  else mret tt.

(** The work done under the lease. *)
(* [src: packages/application/src/documents/flatten-signature.ts:115-280 flattenSignature under the lease] *)
Definition flatten_leased (input : FlattenSignatureInput.t) (loaded : Work.t)
    (leased : Document.t) : Run (FlattenStatus * option string) :=
  let organizationId := FlattenSignatureInput.organizationId input in
  let currentRevisionId := default (DocumentRevision.id (Work.revision loaded))
                             (Document.currentRevisionId leased) in
  found ← Revisions.findById organizationId currentRevisionId;
  match found with
  | None => throw (finalizationError SOURCE_OBJECT_NOT_FOUND (resourceOnly "revision"))
  | Some revision =>
    let pendingFields := List.filter
      (λ f, bool_decide (SignatureField.flattenedRevisionId f = None)) (Work.signerFields loaded) in
    output ← (if negb (length pendingFields =? 0)%nat
              then flattenOntoRevision input leased revision pendingFields
                     (Work.signerName loaded) (Work.signedAt loaded)
              else '(body, digest) ← downloadAndVerifySource revision;
                   mret (Output.mk body digest (DocumentRevision.pageCount revision)
                           (DocumentRevision.objectKey revision)));
    let finalize := Work.allSignersComplete loaded in
    revisionId ← (if negb (length pendingFields =? 0)%nat then next_id
                  else mret (DocumentRevision.id revision));
    artifactId ← next_id;
    occurredAt ← nowUtc;
    (if finalize then
       artifactKey ← lift (artifactObjectKey organizationId (Output.digest output));
       if negb (String.eqb (Output.objectKey output) artifactKey)
       then putVerifiedObject organizationId artifactKey (Output.bytes output)
              (Output.digest output)
       else mret tt
     else mret tt);;
    try_catch
      (run (flatten_transaction input loaded leased revision pendingFields output revisionId
              artifactId occurredAt))
      commit_failure;;
    mret (if finalize then finalized else revised, Some (Output.digest output))
  end.

(** What a failure under the lease leaves behind before it is rethrown. *)
(* [src: packages/application/src/documents/flatten-signature.ts:281-314 flattenSignature failure] *)
Definition flatten_failure {A} (input : FlattenSignatureInput.t) (error : Exn) : Run A :=
  let organizationId := FlattenSignatureInput.organizationId input in
  let documentId := FlattenSignatureInput.documentId input in
  match pdfFailureCategoryFromError error with
  | Some category => onPdfFailure category
  | None => mret tt
  end;;
  (if negb (ClassifiedJobFailure.retryable (classifyJobFailure error)) then
     Documents.markFinalizationFailed organizationId documentId (FlattenSignatureInput.owner input);;
     run (auditId ← next_id;
          occurredAt ← nowUtc;
          audit_worker input auditId AuditEventType.finalization_failed occurredAt
            [("signerId", VStr (FlattenSignatureInput.signerId input));
             ("sessionId", VStr (FlattenSignatureInput.sessionId input));
             ("code", VStr (ClassifiedJobFailure.code (classifyJobFailure error)));
             ("outboxEventId", VStr (FlattenSignatureInput.outboxEventId input))]);;
     mret tt
   else Documents.releaseProcessingLease organizationId documentId
          (FlattenSignatureInput.owner input));;
  throw error.

(* [src: packages/application/src/documents/flatten-signature.ts:65-317 flattenSignature] *)
Definition flattenSignature (input : FlattenSignatureInput.t) :
    Run (FlattenStatus * option string) :=
  loaded ← loadAuthorizedWork input;
  match loaded with
  | inl digest => mret (noop, Some digest)
  | inr loaded =>
    if bool_decide (Document.state (Work.document loaded) = DocumentState.finalized) then
      persistMissingFinalArtifact input loaded
    else
      let organizationId := FlattenSignatureInput.organizationId input in
      let documentId := FlattenSignatureInput.documentId input in
      now ← nowUtc;
      leased ← try_catch
        (Documents.claimProcessingLease organizationId documentId
           (Document.version (Work.document loaded)) (FlattenSignatureInput.owner input)
           (now + leaseMs)%Z now)
        (λ error,
           if is_conflict error &&
              match details_reason error with
              | VStr r => String.eqb r "document_lease" | _ => false end
           then throw (finalizationError CONCURRENT_FINALIZATION [])
           else throw error);
      (if bool_decide (Document.state leased = DocumentState.finalizing) then
         run (auditId ← next_id;
              audit_worker input auditId AuditEventType.finalization_started now
                [("signerId", VStr (FlattenSignatureInput.signerId input));
                 ("sessionId", VStr (FlattenSignatureInput.sessionId input));
                 ("jobType", VStr FLATTEN_SIGNATURE_JOB_TYPE);
                 ("outboxEventId", VStr (FlattenSignatureInput.outboxEventId input))]);;
         mret tt
       else mret tt);;
      try_catch (flatten_leased input loaded leased) (flatten_failure input)
  end.

(** ** Cleaning up *)

(* [src: packages/application/src/documents/cleanup-abandoned-uploads.ts:16-41 cleanupAbandonedUploads] *)
Definition cleanupAbandonedUploads (limit : nat) : Run Z :=
  now ← nowUtc;
  expired ← UploadSessions.listExpiredIssued now limit;
  for_each (λ session,
    run (UploadSessions.markAbandoned (UploadSession.organizationId session)
           (UploadSession.id session) now;;
         auditId ← next_id;
         audit auditId (UploadSession.organizationId session) (UploadSession.documentId session)
           AuditEventType.upload_abandoned AuditActorType.system (actorId system) now
           [("uploadSessionId", VStr (UploadSession.id session))] None;;
         mret tt)) expired;;
  mret (Z.of_nat (length expired)).

Definition default_prefixes : list string := ["revisions/"; "artifacts/"; "signatures/"].

(** Whether a revision, an artifact or a completed field names the object. *)
(* [src: packages/application/src/documents/cleanup-orphaned-objects.ts:33-53 referenced] *)
Definition object_referenced (organizationId key : string) : Run bool :=
  revision ← Revisions.findFirstByObjectKey organizationId key;
  match revision with
  | Some _ => mret true
  | None =>
    artifact ← FinalizedArtifacts.findFirstByObjectKey organizationId key;
    match artifact with
    | Some _ => mret true
    | None =>
      field ← SignatureFields.findFirstByCompletionObjectKey organizationId key;
      mret (negb (bool_decide (SignatureField.id <$> field = None)))
    end
  end.

(** One key's turn; whether it was deleted. *)
Definition cleanup_key (organizationId key : string) : Run Z :=
  lift (assertTenantObjectKey organizationId key);;
  referenced ← run (object_referenced organizationId key);
  if negb referenced then deleteObject organizationId key;; mret 1%Z else mret 0%Z.

Definition sum_Z : list Z → Z := foldr Z.add 0%Z.

Definition cleanup_prefix (organizationId : string) (olderThan : Z) (prefix : string) : Run Z :=
  keys ← listKeys organizationId prefix olderThan;
  sum_Z <$> map_each (cleanup_key organizationId) keys.

(* [src: packages/application/src/documents/cleanup-orphaned-objects.ts:16-57 cleanupOrphanedObjects] *)
Definition cleanupOrphanedObjects (olderThanMs : Z) (prefixes : list string)
    (organizationId : string) : Run Z :=
  olderThan ← (λ now, (now - olderThanMs)%Z) <$> nowUtc;
  sum_Z <$> map_each (cleanup_prefix organizationId olderThan) prefixes.

(** ** Downloading *)

(* [src: packages/application/src/documents/download-finalized-artifact.ts:115-122 downloadDisplayName] *)
Definition downloadDisplayName (sourceDisplayName : option string) : string :=
  match sanitizeDisplayFilename (default "finalized.pdf" sourceDisplayName) with
  | Ok name => name
  | Throw _ => "finalized.pdf"
  end.


(** Bytes, display name, digest and size; the content type is always PDF. *)
(* [src: packages/application/src/documents/download-finalized-artifact.ts:44-110 downloadFinalizedArtifact] *)
Definition downloadFinalizedArtifact (user : AccountUserActor.t) (documentId requestId : string) :
    Run (list Z * string * string * Z) :=
  let actor := account user in
  organizationId ← lift (organizationContextFromActor actor);
  lift (assertAllowed actor AuthorizationAction.document_download_artifact
          (doc_resource organizationId documentId));;
  document ← requireDocument organizationId documentId;
  if negb (bool_decide (Document.state document = DocumentState.finalized)) then
    throw (conflictFor "artifact_not_ready")
  else
    found ← FinalizedArtifacts.findByDocument organizationId (Document.id document);
    match found with
    | None => throw (notFound "artifact")
    | Some artifact =>
      stored ← getObject organizationId (FinalizedArtifact.objectKey artifact);
      match stored with
      | None => throw (notFound "object")
      | Some o =>
        let digest := sha256Bytes (StoredObject.body o) in
        if negb (String.eqb digest (FinalizedArtifact.sha256Digest artifact)) ||
           negb (String.eqb digest (StoredObject.sha256Digest o))
        then throw digest_mismatch
        else
          now ← nowUtc;
          run (auditId ← next_id;
               audit auditId organizationId (Document.id document)
                 AuditEventType.artifact_downloaded (actorType actor) (actorId actor) now
                 [("artifactId", VStr (FinalizedArtifact.id artifact));
                  ("sha256Digest", VStr (FinalizedArtifact.sha256Digest artifact))]
                 (Some requestId));;
          mret (StoredObject.body o, downloadDisplayName (Document.sourceDisplayName document),
                FinalizedArtifact.sha256Digest artifact, byteLength (StoredObject.body o))
      end
    end.
End finalization.
