(* ===== verification/Worker.v ===== *)
(** The worker of [apps/worker/src]: the handlers that take a claimed job to
    its use case, and one poll round. *)

From Stdlib Require Import String SpecFloat.
From S2P Require Export Finalization JobQueue.
Local Open Scope string_scope.

Section worker.
Context `{Env} `{!AuthorizationPolicy} `{!UnitOfWork} `{!Notifier} `{!ImmutableCheckpointStore}.

(** ** Job payloads *)

(* [src: packages/contracts/src/jobs.ts:3-3 opaqueJobIdSchema] *)
Definition opaqueJobIdSchema : schema := z_string zod_uuid.

(* [src: packages/contracts/src/jobs.ts:5-10 inspectDocumentJobPayloadSchema] *)
Definition inspectDocumentJobPayloadSchema : schema :=
  Contracts.strict [("documentId", opaqueJobIdSchema); ("revisionId", opaqueJobIdSchema)].

(* [src: packages/contracts/src/jobs.ts:14-19 notifySignerJobPayloadSchema] *)
Definition notifySignerJobPayloadSchema : schema :=
  Contracts.strict [("signerId", opaqueJobIdSchema); ("sessionId", opaqueJobIdSchema)].

(* [src: packages/contracts/src/jobs.ts:23-30 flattenSignatureJobPayloadSchema] *)
Definition flattenSignatureJobPayloadSchema : schema :=
  Contracts.strict [("documentId", opaqueJobIdSchema); ("signerId", opaqueJobIdSchema);
                   ("sessionId", opaqueJobIdSchema); ("revisionId", opaqueJobIdSchema)].

(** A string member of a payload its schema has accepted. *)
Definition text (key : string) (payload : object) : string :=
  match prop key payload with VStr s => s | _ => EmptyString end.

Definition invalid_payload : Exn := ValidationError (reasonOnly "invalid_payload").

(** ** Handlers *)

(* [src: apps/worker/src/process-ingestion.ts:19-32 processDocumentIngestionJobs handler] *)
Definition ingestion_handler (claimed : ClaimedOutboxWork.t) : Run unit :=
  let event := ClaimedOutboxWork.event claimed in
  let payload := OutboxEvent.payload event in
  if negb (inspectDocumentJobPayloadSchema (VObj payload)) then throw invalid_payload
  else
    inspectDocument (InspectDocumentInput.mk (OutboxEvent.organizationId event)
      (text "documentId" payload) (text "revisionId" payload)
      (BackgroundJob.id (ClaimedOutboxWork.job claimed)) (Some (OutboxEvent.id event))
      (OutboxEvent.requestId event));;
    mret tt.

(* [src: apps/worker/src/process-notifications.ts:14-28 processSignerNotificationJobs handler] *)
Definition notification_handler (claimed : ClaimedOutboxWork.t) : Run unit :=
  let event := ClaimedOutboxWork.event claimed in
  let payload := OutboxEvent.payload event in
  match notifySignerJobPayloadSchema (VObj payload), OutboxEvent.documentId event with
  | true, Some documentId =>
    sendSigningInvitation (SigningInvitation.mk (OutboxEvent.organizationId event) documentId
      (text "signerId" payload) (text "sessionId" payload) None (OutboxEvent.availableAt event)
      (Some (OutboxEvent.id event)) None)
  | _, _ => throw invalid_payload
  end.

(* [src: apps/worker/src/process-finalization.ts:13-29 processSignatureFlattenJobs handler] *)
Definition flatten_handler (workerId : string) (claimed : ClaimedOutboxWork.t) : Run unit :=
  let event := ClaimedOutboxWork.event claimed in
  let payload := OutboxEvent.payload event in
  if negb (flattenSignatureJobPayloadSchema (VObj payload)) ||
     bool_decide (OutboxEvent.documentId event = None)
  then throw invalid_payload
  else
    flattenSignature (FlattenSignatureInput.mk (OutboxEvent.organizationId event)
      (text "documentId" payload) (text "signerId" payload) (text "sessionId" payload)
      (text "revisionId" payload) (BackgroundJob.id (ClaimedOutboxWork.job claimed))
      (OutboxEvent.id event) (OutboxEvent.requestId event) workerId);;
    mret tt.

Definition count_succeeded (outcome : ProcessOutcome) : Z :=
  match outcome with succeeded => 1 | _ => 0 end.

(** The numbers the runtime draws for the backoff, one per processor call. *)
Record PollInput : Type := {
  p_shouldStop : bool;
  p_backoff : BackoffPolicy.t;
  p_random : nat → spec_float;
  p_workerId : string;
  p_cleanupLimit : nat;
  p_orphanTtlMs : Z;
  p_auditIntervalMs : Z;
  p_organizations : list string
}.

(* [src: apps/worker/src/process-ingestion.ts:9-38 processDocumentIngestionJobs] *)
Definition processDocumentIngestionJobs (input : PollInput) : Run (Z * Z) :=
  abandoned ← cleanupAbandonedUploads (p_cleanupLimit input);
  result ← processNext (p_shouldStop input) (p_backoff input) (p_random input 0)
    INSPECT_DOCUMENT_JOB_TYPE (p_workerId input) ingestion_handler;
  mret (count_succeeded result.1, abandoned).

(* [src: apps/worker/src/process-notifications.ts:6-31 processSignerNotificationJobs] *)
Definition processSignerNotificationJobs (input : PollInput) : Run Z :=
  result ← processNext (p_shouldStop input) (p_backoff input) (p_random input 1)
    NOTIFY_SIGNER_JOB_TYPE (p_workerId input) notification_handler;
  mret (count_succeeded result.1).

(* [src: apps/worker/src/process-finalization.ts:5-32 processSignatureFlattenJobs] *)
Definition processSignatureFlattenJobs (input : PollInput) : Run Z :=
  result ← processNext (p_shouldStop input) (p_backoff input) (p_random input 2)
    FLATTEN_SIGNATURE_JOB_TYPE (p_workerId input) (flatten_handler (p_workerId input));
  mret (count_succeeded result.1).

(** The scheduled verification keeps when it last ran. *)
(* [src: apps/worker/src/process-audit-verification.ts:8-31 createScheduledAuditVerificationPoll] *)
Definition scheduledAuditVerificationPoll (input : PollInput) (lastRunAt : option Z) :
    Run (Z * option Z) :=
  now ← nowUtc;
  if negb (shouldRunScheduledAuditVerification lastRunAt now (p_auditIntervalMs input)) then
    mret (0%Z, lastRunAt)
  else
    result ← runScheduledAuditVerification (mret (p_organizations input));
    mret (Z.max 0 (ScheduledResult.failedDocumentCount result), Some now).

(** One poll round: the jobs it claimed, and when the audit chains were last
    verified. *)
(* [src: apps/worker/src/index.ts:194-246 main poll] *)
Definition poll (input : PollInput) (lastRunAt : option Z) : Run (Z * option Z) :=
  '(inspected, abandoned) ← processDocumentIngestionJobs input;
  notified ← processSignerNotificationJobs input;
  flattened ← processSignatureFlattenJobs input;
  deleted ← sum_Z <$> map_each (cleanupOrphanedObjects (p_orphanTtlMs input) default_prefixes)
                        (p_organizations input);
  '(failed, lastRunAt) ← scheduledAuditVerificationPoll input lastRunAt;
  nowUtc;;
  mret ((inspected + abandoned + notified + flattened + deleted + failed)%Z, lastRunAt).
End worker.
