(* ===== verification/Steps.v ===== *)
(** The abstract specification: the steps the stores may take.

    [TStep P] is one write of a table or one stored object, with the rule under
    which the program makes it; [Step P] adds the deletion of an unreferenced
    object, which happens outside transactions.  [P] holds of the tenants that
    may be written.  [System] shows that every use case only takes such
    steps, and [Invariants] what follows for every reachable store. *)

From Stdlib Require Import String.
From S2P Require Export Finalization JobQueue.
Local Open Scope string_scope.

(** ** Rows *)

(** The states a single write may lead through: the declared transitions, no
    change, and finalizing a completed document. *)
Definition state_write (a b : DocumentState.t) : Prop :=
  a = b ∨ canTransitionDocument a b = true ∨
  (a = DocumentState.completed ∧ b = DocumentState.finalized).

(** Declared transitions, any number of them. *)
Definition state_path : relation DocumentState.t :=
  rtc (λ a b, canTransitionDocument a b = true).

(** Sent at some time: neither in preparation nor voided. *)
Definition engaged (s : DocumentState.t) : bool :=
  negb (bool_decide (s ∈ [DocumentState.draft; DocumentState.prepared; DocumentState.voided])).

(** Every signer has signed. *)
Definition late (s : DocumentState.t) : bool :=
  bool_decide (s ∈ [DocumentState.completed; DocumentState.finalizing;
                    DocumentState.finalized; DocumentState.finalization_failed]).

(** A document that was sent was inspected and has its revisions. *)
Definition document_wf (d : Document.t) : Prop :=
  engaged (Document.state d) = true →
  Document.inspectionStatus d = DocumentInspectionStatus.accepted ∧
  Document.currentRevisionId d ≠ None ∧ Document.signingRevisionId d ≠ None.

(** What no write ever changes, and what is frozen by sending. *)
Definition document_fixed (x y : Document.t) : Prop :=
  Document.id x = Document.id y ∧ Document.organizationId x = Document.organizationId y ∧
  Document.ownerMembershipId x = Document.ownerMembershipId y ∧
  Document.title x = Document.title y ∧
  (isPreparationState (Document.state x) = false →
     Document.signingMode x = Document.signingMode y ∧
     Document.signingRevisionId x = Document.signingRevisionId y ∧
     Document.expiresAt x = Document.expiresAt y).

Definition document_write (x y : Document.t) : Prop :=
  document_fixed x y ∧ (Document.version y = Document.version x + 1)%Z ∧
  state_write (Document.state x) (Document.state y) ∧ (document_wf x → document_wf y).

(** Any number of writes. *)
Definition document_evolves (x y : Document.t) : Prop :=
  x = y ∨ document_fixed x y ∧ (Document.version x < Document.version y)%Z ∧
          state_path (Document.state x) (Document.state y) ∧ (document_wf x → document_wf y).

Definition document_init (d : Document.t) : Prop :=
  Document.state d = DocumentState.draft ∧ Document.version d = 1%Z ∧
  Document.currentRevisionId d = None ∧
  Document.inspectionStatus d = DocumentInspectionStatus.pending.

Definition session_fixed (x y : SigningSession.t) : Prop :=
  SigningSession.id x = SigningSession.id y ∧
  SigningSession.organizationId x = SigningSession.organizationId y ∧
  SigningSession.documentId x = SigningSession.documentId y ∧
  SigningSession.signerId x = SigningSession.signerId y ∧
  SigningSession.expiresAt x = SigningSession.expiresAt y.

(** A token is consumed once: afterwards it, the secrets that replaced it and
    the time stay as they are. *)
Definition session_consumed (x y : SigningSession.t) : Prop :=
  SigningSession.consumedAt x ≠ None →
  SigningSession.consumedAt y = SigningSession.consumedAt x ∧
  SigningSession.tokenHash y = SigningSession.tokenHash x ∧
  SigningSession.csrfTokenHash y = SigningSession.csrfTokenHash x.

(** An open session moves along its declared transitions; a closed one stays. *)
Definition session_evolves (x y : SigningSession.t) : Prop :=
  session_fixed x y ∧ session_consumed x y ∧
  rtc (λ a b, canTransitionSigningSession a b = true)
    (SigningSession.status x) (SigningSession.status y) ∧
  (SigningSessions.is_open x = false → y = x).

Definition session_init (x : SigningSession.t) : Prop :=
  SigningSession.status x = SigningSessionStatus.issued ∧ SigningSession.consumedAt x = None ∧
  SigningSession.completedAt x = None ∧ SigningSession.revokedAt x = None.

Definition signer_fixed (x y : Signer.t) : Prop :=
  Signer.id x = Signer.id y ∧ Signer.organizationId x = Signer.organizationId y ∧
  Signer.documentId x = Signer.documentId y ∧ Signer.routingOrder x = Signer.routingOrder y ∧
  Signer.email x = Signer.email y ∧ Signer.displayName x = Signer.displayName y.

(** A signer answers once. *)
Definition signer_write (x y : Signer.t) : Prop :=
  signer_fixed x y ∧ Signer.status x = SignerStatus.pending ∧
  Signer.status y ≠ SignerStatus.pending ∧ (Signer.version y = Signer.version x + 1)%Z.

Definition field_fixed (x y : SignatureField.t) : Prop :=
  SignatureField.id x = SignatureField.id y ∧
  SignatureField.organizationId x = SignatureField.organizationId y ∧
  SignatureField.documentId x = SignatureField.documentId y ∧
  SignatureField.signerId x = SignatureField.signerId y ∧
  SignatureField.type x = SignatureField.type y ∧
  FieldBox.of_field x = FieldBox.of_field y ∧
  SignatureField.required x = SignatureField.required y.

Definition upload_write (x y : UploadSession.t) : Prop :=
  UploadSession.id x = UploadSession.id y ∧
  UploadSession.organizationId x = UploadSession.organizationId y ∧
  UploadSession.documentId x = UploadSession.documentId y ∧
  UploadSession.tokenHash x = UploadSession.tokenHash y ∧
  UploadSession.status y ∈ [UploadSessionStatus.completed; UploadSessionStatus.abandoned].

Definition idempotency_fixed (x y : IdempotencyRecord.t) : Prop :=
  IdempotencyRecord.id x = IdempotencyRecord.id y ∧
  IdempotencyRecord.organizationId x = IdempotencyRecord.organizationId y ∧
  IdempotencyRecord.principalId x = IdempotencyRecord.principalId y ∧
  IdempotencyRecord.route x = IdempotencyRecord.route y ∧
  IdempotencyRecord.key x = IdempotencyRecord.key y ∧
  IdempotencyRecord.requestHash x = IdempotencyRecord.requestHash y.

(** Processed and failed events are settled for good. *)
Definition event_settled (x : OutboxEvent.t) : bool :=
  bool_decide (OutboxEvent.status x ∈ [OutboxStatus.processed; OutboxStatus.failed]).

Definition event_evolves (x y : OutboxEvent.t) : Prop :=
  OutboxEvent.id x = OutboxEvent.id y ∧
  OutboxEvent.organizationId x = OutboxEvent.organizationId y ∧
  OutboxEvent.type x = OutboxEvent.type y ∧ OutboxEvent.payload x = OutboxEvent.payload y ∧
  (OutboxEvent.attemptCount x ≤ OutboxEvent.attemptCount y)%Z ∧
  (event_settled x = true → y = x).

(** ** What the rules look at *)

Definition document_at (s : St) (o d : string) : option Document.t :=
  find_row (Documents.key o d) s.(documents).
Definition signers_of (s : St) (o d : string) : list Signer.t :=
  List.filter (Signers.of_document o d) s.(signers).
Definition roster (s : St) (o d : string) : list Signer.t :=
  sort_by Signers.by_routing (signers_of s o d).
Definition fields_of (s : St) (o d : string) : list SignatureField.t :=
  List.filter (SignatureFields.of_document o d) s.(signatureFields).

Definition in_preparation (s : St) (o d : string) : Prop :=
  ∃ x, document_at s o d = Some x ∧ isPreparationState (Document.state x) = true.

(** Every signer of the document is on file as signed, and there is one. *)
Definition all_signed (s : St) (o d : string) : Prop :=
  signers_of s o d ≠ [] ∧
  ∀ r, r ∈ signers_of s o d →
    ∃ r', r' ∈ s.(signers) ∧ Signers.key o (Signer.id r) r' = true ∧
          Signer.status r' = SignerStatus.signed.

Definition someone_declined (s : St) (o d : string) : Prop :=
  ∃ r, r ∈ signers_of s o d ∧ Signer.status r = SignerStatus.declined.

(** The rules for entering a state. *)
Definition document_rule (s : St) (x y : Document.t) : Prop :=
  let o := Document.organizationId x in
  let d := Document.id x in
  Document.state x ≠ Document.state y →
  match Document.state y with
  | DocumentState.sent => envelopeIsPrepared x (roster s o d) (fields_of s o d) = true
  | DocumentState.completed => all_signed s o d
  | DocumentState.declined => someone_declined s o d
  | _ => True
  end.

(** The signer has consented in a session of theirs. *)
Definition consented (s : St) (x : Signer.t) : Prop :=
  ∃ session consent, session ∈ s.(signingSessions) ∧ consent ∈ s.(consentRecords) ∧
    SigningSession.organizationId session = Signer.organizationId x ∧
    SigningSession.documentId session = Signer.documentId x ∧
    SigningSession.signerId session = Signer.id x ∧
    ConsentRecords.of_session (Signer.organizationId x) (SigningSession.id session) consent = true.

(** Whose turn it is: the document is open for signing, or a session of the
    signer is already completed, and the routing admits the signer now. *)
Definition in_turn (s : St) (x : Signer.t) : Prop :=
  ∃ d, document_at s (Signer.organizationId x) (Signer.documentId x) = Some d ∧
    (isAvailableForSigning d = true ∨
     ∃ session, session ∈ s.(signingSessions) ∧
       SigningSession.signerId session = Signer.id x ∧
       SigningSession.status session = SigningSessionStatus.completed) ∧
    canSignerActNow (Document.signingMode d) x
      (roster s (Signer.organizationId x) (Signer.documentId x)) = true.

Definition signer_rule (s : St) (x y : Signer.t) : Prop :=
  in_turn s x ∧ (Signer.status y = SignerStatus.signed → consented s x).

Definition signer_keys (l : list Signer.t) : list (string * string) :=
  (λ r, (Signer.organizationId r, Signer.id r)) <$> l.

(** An object of the tenant with this digest is on file under the key. *)
Definition object_stored (s : St) (o key digest : string) : Prop :=
  assertTenantObjectKey o key = Ok key ∧
  ∃ x, object_at key s.(objects) = Some x ∧ StoredObject.sha256Digest x = digest.

(** No revision, artifact or completed field of the tenant names the key. *)
Definition unreferenced (s : St) (o key : string) : Prop :=
  (∀ r, r ∈ s.(revisions) → DocumentRevision.organizationId r = o →
     DocumentRevision.objectKey r ≠ key) ∧
  (∀ a, a ∈ s.(finalizedArtifacts) → FinalizedArtifact.organizationId a = o →
     FinalizedArtifact.objectKey a ≠ key) ∧
  (∀ f, f ∈ s.(signatureFields) → SignatureField.organizationId f = o →
     SignatureField.completionObjectKey f ≠ Some key).

(** The image a field's completion names is on file. *)
Definition ink_rule (s : St) (x y : SignatureField.t) : Prop :=
  ∀ key, SignatureField.completionObjectKey y = Some key →
    SignatureField.completionObjectKey x = Some key ∨
    ∃ digest, object_stored s (SignatureField.organizationId x) key digest ∧
              SignatureField.completionSha256Digest y = Some digest.

Definition of_key (x r : IdempotencyRecord.t) : bool :=
  IdempotencyRecords.key (IdempotencyRecord.organizationId x) (IdempotencyRecord.principalId x)
    (IdempotencyRecord.route x) (IdempotencyRecord.key x) r.

(** A preview is of a revision of the tenant on file. *)
Definition preview_rule (s : St) (x : PreviewGrant.t) : Prop :=
  ∃ r, r ∈ s.(revisions) ∧ DocumentRevision.organizationId r = PreviewGrant.organizationId x ∧
       DocumentRevision.id r = PreviewGrant.revisionId x.

(** The next event of a document's chain. *)
Definition next_in_chain `{Env} (s : St) (e : AuditEvent.t) : Prop :=
  ∃ input, assertApprovedAuditPayload (NewAuditEvent.payload input) 0 = Ok tt ∧
    next_event input (latest_event (List.filter
      (event_of (NewAuditEvent.organizationId input) (NewAuditEvent.documentId input))
      s.(auditEvents))) = Ok e.

(** ** Steps *)

Section steps.
Context `{Env} (P : string → Prop).

Inductive TStep : relation St :=
  | t_quiet s s' : durable s = durable s' → TStep s s'
  | t_document_new s x :
      P (Document.organizationId x) → document_init x →
      TStep s (set_documents (s.(documents) ++ [x]) s)
  | t_document s i x y :
      s.(documents) !! i = Some x → P (Document.organizationId x) →
      document_at s (Document.organizationId x) (Document.id x) = Some x →
      document_write x y → document_rule s x y →
      TStep s (set_documents (<[i := y]> s.(documents)) s)
  | t_revision_new s x :
      P (DocumentRevision.organizationId x) →
      object_stored s (DocumentRevision.organizationId x) (DocumentRevision.objectKey x)
        (DocumentRevision.sha256Digest x) →
      TStep s (set_revisions (s.(revisions) ++ [x]) s)
  | t_upload_new s x :
      P (UploadSession.organizationId x) → UploadSession.status x = UploadSessionStatus.issued →
      TStep s (set_uploadSessions (s.(uploadSessions) ++ [x]) s)
  | t_upload s i x y :
      s.(uploadSessions) !! i = Some x → P (UploadSession.organizationId x) → upload_write x y →
      TStep s (set_uploadSessions (<[i := y]> s.(uploadSessions)) s)
  | t_preview_new s x :
      P (PreviewGrant.organizationId x) → preview_rule s x →
      TStep s (set_previewGrants (s.(previewGrants) ++ [x]) s)
  | t_idempotency_new s x :
      P (IdempotencyRecord.organizationId x) → IdempotencyRecord.responseBody x = None →
      find_row (of_key x) s.(idempotencyRecords) = None →
      TStep s (set_idempotencyRecords (s.(idempotencyRecords) ++ [x]) s)
  | t_idempotency s i x y :
      s.(idempotencyRecords) !! i = Some x → P (IdempotencyRecord.organizationId x) →
      idempotency_fixed x y → IdempotencyRecord.responseBody y ≠ None →
      TStep s (set_idempotencyRecords (<[i := y]> s.(idempotencyRecords)) s)
  | t_audit s x :
      P (AuditEvent.organizationId x) → next_in_chain s x →
      TStep s (set_auditEvents (s.(auditEvents) ++ [x]) s)
  | t_event_new s x :
      P (OutboxEvent.organizationId x) → OutboxEvent.status x = OutboxStatus.pending →
      assertSafeJobPayload (OutboxEvent.payload x) = Ok tt →
      TStep s (set_outboxEvents (s.(outboxEvents) ++ [x]) s)
  | t_event s i x y :
      s.(outboxEvents) !! i = Some x → P (OutboxEvent.organizationId x) →
      event_settled x = false → event_evolves x y →
      TStep s (set_outboxEvents (<[i := y]> s.(outboxEvents)) s)
  | t_job_new s x :
      P (BackgroundJob.organizationId x) →
      TStep s (set_backgroundJobs (s.(backgroundJobs) ++ [x]) s)
  | t_job s i x y :
      s.(backgroundJobs) !! i = Some x → P (BackgroundJob.organizationId x) →
      P (BackgroundJob.organizationId y) → BackgroundJob.id x = BackgroundJob.id y →
      TStep s (set_backgroundJobs (<[i := y]> s.(backgroundJobs)) s)
  | t_signers_replaced s o d l :
      P o → in_preparation s o d →
      (∀ o', o' ≠ o → List.filter (λ r, String.eqb (Signer.organizationId r) o') l =
                      List.filter (λ r, String.eqb (Signer.organizationId r) o') s.(signers)) →
      (∀ r, r ∈ l → r ∈ s.(signers) ∨
         Signers.of_document o d r = true ∧ Signer.status r = SignerStatus.pending) →
      (NoDup (signer_keys s.(signers)) → NoDup (signer_keys l)) →
      TStep s (set_signers l s)
  | t_signer s i x y :
      s.(signers) !! i = Some x → P (Signer.organizationId x) →
      signer_write x y → signer_rule s x y →
      TStep s (set_signers (<[i := y]> s.(signers)) s)
  | t_fields_replaced s o d l :
      P o → in_preparation s o d →
      Forall (λ f, SignatureFields.of_document o d f = true ∧
                   (f ∈ s.(signatureFields) ∨ SignatureField.completionObjectKey f = None)) l →
      TStep s (set_signatureFields
        (List.filter (λ f, negb (SignatureFields.of_document o d f)) s.(signatureFields) ++ l) s)
  | t_field s i x y :
      s.(signatureFields) !! i = Some x → P (SignatureField.organizationId x) →
      field_fixed x y → ink_rule s x y →
      TStep s (set_signatureFields (<[i := y]> s.(signatureFields)) s)
  | t_session_new s x :
      P (SigningSession.organizationId x) → session_init x →
      find_row (SigningSessions.open_of_signer (SigningSession.organizationId x)
                  (SigningSession.signerId x)) s.(signingSessions) = None →
      TStep s (set_signingSessions (s.(signingSessions) ++ [x]) s)
  | t_session s i x y :
      s.(signingSessions) !! i = Some x → P (SigningSession.organizationId x) →
      SigningSessions.is_open x = true → session_evolves x y →
      TStep s (set_signingSessions (<[i := y]> s.(signingSessions)) s)
  | t_consent_new s x :
      P (ConsentRecord.organizationId x) →
      find_row (ConsentRecords.of_session (ConsentRecord.organizationId x)
                  (ConsentRecord.sessionId x)) s.(consentRecords) = None →
      TStep s (set_consentRecords (s.(consentRecords) ++ [x]) s)
  | t_artifact_new s x :
      P (FinalizedArtifact.organizationId x) →
      find_row (FinalizedArtifacts.of_document (FinalizedArtifact.organizationId x)
                  (FinalizedArtifact.documentId x)) s.(finalizedArtifacts) = None →
      object_stored s (FinalizedArtifact.organizationId x) (FinalizedArtifact.objectKey x)
        (FinalizedArtifact.sha256Digest x) →
      TStep s (set_finalizedArtifacts (s.(finalizedArtifacts) ++ [x]) s)
  | t_object_new s o key x :
      P o → assertTenantObjectKey o key = Ok key → object_at key s.(objects) = None →
      well_stored (key, x) →
      TStep s (set_objects (s.(objects) ++ [(key, x)]) s)
  | t_checkpoint_new s x :
      P (AuditCheckpoint.organizationId x) →
      find_row (checkpoint_at x) s.(checkpoints) = None →
      TStep s (set_checkpoints (s.(checkpoints) ++ [x]) s).

(** Steps outside a transaction. *)
Inductive Step : relation St :=
  | step_table s s' : TStep s s' → Step s s'
  | step_object_deleted s o key :
      P o → startsWith ("org/" +:+ o +:+ "/") key = true → isOpaqueId o = true →
      unreferenced s o key →
      Step s (set_objects (List.filter (λ e, negb (String.eqb e.1 key)) s.(objects)) s).

Definition TSteps : relation St := rtc TStep.
Definition Steps : relation St := rtc Step.

Lemma TSteps_once s s' : TStep s s' → TSteps s s'.
Proof. apply rtc_once. Qed.
Lemma TSteps_quiet s s' : durable s = durable s' → TSteps s s'.
Proof. intros. by apply rtc_once, t_quiet. Qed.
Lemma TSteps_Steps s s' : TSteps s s' → Steps s s'.
Proof. intros Hs. eapply rtc_subrel; [|exact Hs]. intros ??. apply step_table. Qed.
End steps.

(** More tenants allow more steps. *)
Lemma TStep_mono `{Env} (P Q : string → Prop) s s' :
  (∀ o, P o → Q o) → TStep P s s' → TStep Q s s'.
Proof.
  intros HPQ [];
    [ eapply t_quiet
    | eapply t_document_new
    | eapply t_document
    | eapply t_revision_new
    | eapply t_upload_new
    | eapply t_upload
    | eapply t_preview_new
    | eapply t_idempotency_new
    | eapply t_idempotency
    | eapply t_audit
    | eapply t_event_new
    | eapply t_event
    | eapply t_job_new
    | eapply t_job
    | eapply t_signers_replaced
    | eapply t_signer
    | eapply t_fields_replaced
    | eapply t_field
    | eapply t_session_new
    | eapply t_session
    | eapply t_consent_new
    | eapply t_artifact_new
    | eapply t_object_new
    | eapply t_checkpoint_new ]; eauto.
Qed.

Lemma Step_mono `{Env} (P Q : string → Prop) s s' :
  (∀ o, P o → Q o) → Step P s s' → Step Q s s'.
Proof.
  intros HPQ [? ? Ht|]; [by eapply step_table, TStep_mono|]. eapply step_object_deleted; eauto.
Qed.

Lemma Steps_mono `{Env} (P Q : string → Prop) s s' :
  (∀ o, P o → Q o) → Steps P s s' → Steps Q s s'.
Proof. intros HPQ. apply rtc_subrel. intros. by eapply Step_mono. Qed.
