(* ===== verification/Rules.v ===== *)
(** The primitive calls take the steps of [Steps]: units of work, repository
    writes and object storage. *)

From Stdlib Require Import String.
From S2P Require Export Steps.
Local Open Scope string_scope.

(** ** The steps as a relation on stores *)

Section relation.
Context `{Env} (P : string → Prop).

Lemma rollback_self s : rollback s s = s.
Proof. by destruct s. Qed.

Lemma durable_rollback s0 s : durable (rollback s0 s) = durable (rollback s0 (durable s)).
Proof. done. Qed.

(** Rolling the tables back leaves the steps that stored objects. *)
Lemma rollback_step s0 s s' : TStep P s s' → TSteps P (rollback s0 s) (rollback s0 s').
Proof.
  destruct 1; try reflexivity.
  - apply TSteps_quiet. rewrite (durable_rollback s0 s), (durable_rollback s0 s'). congruence.
  - apply TSteps_once. by apply (t_object_new P (rollback s0 s) o key x).
  - apply TSteps_once. by apply (t_checkpoint_new P (rollback s0 s) x).
Qed.

#[export] Instance TSteps_preorder : PreOrder (TSteps P).
Proof. unfold TSteps. apply _. Qed.

#[export] Instance TSteps_StoreRel : StoreRel (TSteps P).
Proof.
  split; [apply _| |].
  - intros s s' Hs. rewrite <-(rollback_self s) at 1. generalize s at 1 3 as s0.
    induction Hs as [s|s s1 s2 Hs _ IH]; intros s0; [done|].
    etrans; [by apply rollback_step|apply IH].
  - apply TSteps_quiet.
Qed.

#[export] Instance Steps_preorder : PreOrder (Steps P).
Proof. unfold Steps. apply _. Qed.

Lemma respects_Steps {A} (m : Run A) : respects (TSteps P) m → respects (Steps P) m.
Proof. intros Hm s. by apply TSteps_Steps. Qed.
End relation.

(** ** Rows under steps *)

Lemma document_fixed_refl x : document_fixed x x.
Proof. by repeat split. Qed.

Lemma state_write_path a b : state_write a b → state_path a b.
Proof.
  intros [-> | [Hab | [-> ->]]]; [done|by apply rtc_once|].
  eapply (rtc_l _ _ DocumentState.finalizing); [done|by apply rtc_once].
Qed.

(** No transition leads back into preparation from outside it. *)
Lemma transition_preparation a b :
  canTransitionDocument a b = true → isPreparationState a = false → isPreparationState b = false.
Proof. by destruct a, b. Qed.

Lemma state_path_preparation a b :
  state_path a b → isPreparationState a = false → isPreparationState b = false.
Proof. induction 1 as [|a b c Hab _ IH]; [done|]. intros. by eapply IH, transition_preparation. Qed.

Lemma document_write_evolves x y : document_write x y → document_evolves x y.
Proof.
  intros (? & Hv & Hs & ?). right. split_and!; [done|lia|by apply state_write_path|done].
Qed.

#[export] Instance document_evolves_preorder : PreOrder document_evolves.
Proof.
  split; [by left|]. intros x y z [-> | (Hf & Hv & Hp & Hw)]; [done|].
  intros [<- | (Hf' & Hv' & Hp' & Hw')]; [by right|]. right. split_and!; [|lia|by etrans|auto].
  destruct Hf as (? & ? & ? & ? & Hx), Hf' as (? & ? & ? & ? & Hy).
  split_and!; [congruence..|]. intros Hprep. destruct (Hx Hprep) as (? & ? & ?).
  destruct Hy as (? & ? & ?); [by eapply state_path_preparation|]. split_and!; congruence.
Qed.

Lemma document_evolves_key o d x y :
  document_evolves x y → Documents.key o d x = Documents.key o d y.
Proof. unfold Documents.key. intros [-> | ((-> & -> & _) & _)]; done. Qed.

(** A row that has evolved and still has its version has not changed. *)
Lemma document_evolves_same x y :
  document_evolves x y → Document.version y = Document.version x → y = x.
Proof. intros [-> | (_ & ? & _)]; [done|lia]. Qed.

#[export] Instance session_evolves_preorder : PreOrder session_evolves.
Proof.
  split; [intros x; by repeat split|]. intros x y z (Hf & Hc & Hp & Ho) (Hf' & Hc' & Hp' & Ho').
  split; [|split; [|split]].
  - destruct Hf as (? & ? & ? & ? & ?), Hf' as (? & ? & ? & ? & ?). split_and!; congruence.
  - intros Hx. destruct (Hc Hx) as (He & ? & ?). destruct Hc' as (? & ? & ?); [congruence|].
    split_and!; congruence.
  - by etrans.
  - intros Hx. specialize (Ho Hx). subst y. auto.
Qed.

#[export] Instance event_evolves_preorder : PreOrder event_evolves.
Proof.
  split; [intros x; by repeat split|]. intros x y z (? & ? & ? & ? & ? & Hx) (? & ? & ? & ? & ? & Hy).
  split_and!; [congruence..|lia|]. intros Hs. specialize (Hx Hs). subst y. auto.
Qed.

(** ** The documents table *)

Definition documents_evolve (s s' : St) : Prop :=
  evolves document_evolves document_init s.(documents) s'.(documents).

#[export] Instance documents_evolve_preorder : PreOrder documents_evolve.
Proof. unfold documents_evolve. split; [intros s; reflexivity|intros ???; apply transitivity]. Qed.

Lemma TStep_documents `{Env} P s s' : TStep P s s' → documents_evolve s s'.
Proof.
  unfold documents_evolve. destruct 1; simpl; try reflexivity.
  - assert (documents s = documents s') as -> by
      (change (documents (durable s) = documents (durable s')); congruence). reflexivity.
  - apply evolves_push; [apply _|done].
  - eapply evolves_write; [apply _|done|]. by apply document_write_evolves.
Qed.

Lemma TSteps_documents `{Env} P s s' : TSteps P s s' → documents_evolve s s'.
Proof. induction 1; [done|]. etrans; [by eapply TStep_documents|done]. Qed.

(** What was read of a document, carried along. *)
Definition knows (o i : string) (d : Document.t) (s : St) : Prop :=
  ∃ n x, find_index (Documents.key o i) s.(documents) = Some (n, x) ∧ document_evolves d x ∧
    Documents.key o i d = true.

Lemma knows_evolve o i d s s' : documents_evolve s s' → knows o i d s → knows o i d s'.
Proof.
  intros Hs (n & x & Hx & Hd & Hk).
  destruct (evolves_find_index _ _ _ _ _ _ _ (document_evolves_key o i) Hs Hx) as (y & Hy & ?).
  exists n, y. split_and!; [done|by etrans|done].
Qed.

Lemma knows_stable `{Env} P o i d : stable (TSteps P) (knows o i d).
Proof. intros s s' Hs. apply knows_evolve. by eapply TSteps_documents. Qed.

Lemma document_at_knows s o i d : document_at s o i = Some d → knows o i d s.
Proof.
  unfold document_at, find_row. rewrite fmap_Some. intros ([n x] & Hx & ->). exists n, x.
  split_and!; [done|reflexivity|]. by apply find_index_Some in Hx as (_ & ? & _).
Qed.

Lemma key_document o i d :
  Documents.key o i d = true ↔ Document.organizationId d = o ∧ Document.id d = i.
Proof. unfold Documents.key. by rewrite andb_true_iff, !String.eqb_eq. Qed.

(** ** Writes of a document *)

(** A write that keeps the envelope and moves the state. *)
Lemma document_write_intro x y :
  Document.id x = Document.id y → Document.organizationId x = Document.organizationId y →
  Document.ownerMembershipId x = Document.ownerMembershipId y →
  Document.title x = Document.title y → Document.signingMode x = Document.signingMode y →
  Document.signingRevisionId x = Document.signingRevisionId y →
  Document.expiresAt x = Document.expiresAt y →
  Document.inspectionStatus x = Document.inspectionStatus y →
  (Document.currentRevisionId x ≠ None → Document.currentRevisionId y ≠ None) →
  state_write (Document.state x) (Document.state y) →
  (engaged (Document.state y) = true → engaged (Document.state x) = true) →
  document_write x (Documents.bump x y).
Proof.
  intros ?????????? He. split_and!; [|done|done|].
  - unfold document_fixed. by split_and!.
  - intros Hw Hy. destruct (Hw (He Hy)) as (? & ? & ?). simpl. split_and!; [congruence|auto|congruence].
Qed.

(** Splitting [if guard then Throw else Ok ...] on success. *)
Lemma guarded_ok {E A} (c : bool) (e : E) (r : Result E A) a :
  (if c then Throw e else r) = Ok a ↔ c = false ∧ r = Ok a.
Proof. destruct c; naive_solver. Qed.

Lemma state_in_true l d : Documents.state_in l d = true ↔ Document.state d ∈ l.
Proof. unfold Documents.state_in. by rewrite bool_decide_eq_true. Qed.

Ltac document_write_tac :=
  intros; repeat match goal with
    | H : (if _ then Throw _ else _) = Ok _ |- _ => apply guarded_ok in H as [? H]
    | H : negb (Documents.state_in _ _) = false |- _ =>
      apply negb_false_iff, state_in_true in H; rewrite !elem_of_cons, elem_of_nil in H
    | H : Ok _ = Ok _ |- _ => apply Ok_inj in H; subst
    end;
  apply document_write_intro; simpl; try done;
  unfold state_write; destruct (Document.state _); naive_solver.

Section document_writes.
Context `{Env} (P : string → Prop).

(** An update of the row a table look-up finds. *)
Lemma update_one_at {T} `{!Table T} (R : relation St) `{!PreOrder R} p missing f s :
  (∀ i x y, find_index p (rows s) = Some (i, x) → f x = Ok (Write y) →
     R s (set_rows (<[i := y]> (rows s)) s)) →
  R s (update_one p missing f s).2.
Proof.
  intros Hf. unfold update_one. destruct (find_index p (rows s)) as [[i x]|] eqn:Hi; [|reflexivity].
  destruct (f x) as [[y|y]|e] eqn:Hy; simpl; [reflexivity|by eapply Hf|reflexivity].
Qed.

Lemma document_step s o i n x y :
  P o → find_index (Documents.key o i) (rows s) = Some (n, x) →
  document_write x y → document_rule s x y → TSteps P s (set_rows (<[n := y]> (rows s)) s).
Proof.
  intros Ho Hn Hw Hr. pose proof Hn as (Hl & Hk & _)%find_index_Some.
  apply key_document in Hk as [Horg Hid]. apply TSteps_once.
  eapply t_document; [exact Hl| | |done|done]; [by rewrite Horg|].
  unfold document_at, find_row. rewrite Horg, Hid. change (documents s) with (rows (T:=Document.t) s). by rewrite Hn.
Qed.

(** A write that is allowed whatever was read before. *)
Lemma bumpDocument_respects o i v update :
  P o →
  (∀ s x y, update x = Ok y →
     document_write x (Documents.bump x y) ∧ document_rule s x (Documents.bump x y)) →
  respects (TSteps P) (Documents.bumpDocument o i v update).
Proof.
  intros Ho Hu s. unfold Documents.bumpDocument. apply (update_one_at (TSteps P)). intros n x y Hn.
  unfold Documents.at_version. rewrite guarded_ok, bind_Result_ok.
  intros (_ & u & Hx & [= <-]). destruct (Hu s x u Hx). by eapply document_step.
Qed.

(** A write at the version that was read: the row has not changed since. *)
Lemma bumpDocument_triple (F : St → Prop) o i d update :
  P o →
  (∀ s y, F s → document_at s o i = Some d → update d = Ok y →
     document_write d (Documents.bump d y) ∧ document_rule s d (Documents.bump d y)) →
  triple (TSteps P) (λ s, knows o i d s ∧ F s)
    (Documents.bumpDocument o i (Document.version d) update)
    (λ y s, document_at s o i = Some y ∧ ∃ u, update d = Ok u ∧ y = Documents.bump d u).
Proof.
  intros Ho Hu s [(n & x & Hn & Hd & Hk) HF].
  assert (∀ u, Documents.at_version (Document.version d) update x = Ok (Write u) →
    x = d ∧ ∃ y, update d = Ok y ∧ u = Documents.bump d y) as Hx.
  { intros u. unfold Documents.at_version. rewrite guarded_ok, bind_Result_ok.
    intros (Hv & y & Hy & [= <-]). apply negb_false_iff, Z.eqb_eq in Hv.
    pose proof (document_evolves_same _ _ Hd Hv) as ->. eauto. }
  assert (document_at s o i = Some x) as Hat.
  { unfold document_at, find_row. by rewrite Hn. }
  split.
  - unfold Documents.bumpDocument. apply (update_one_at (TSteps P)). intros n' x' u Hn' Hu'.
    change (rows (T:=Document.t) s) with (documents s) in Hn'. rewrite Hn in Hn'. injection Hn' as <- <-.
    destruct (Hx _ Hu') as (-> & y & Hy & ->). destruct (Hu s y HF Hat Hy).
    by eapply document_step.
  - intros y Hy. destruct (Documents.bumpDocument _ _ _ _ s) as [r s'] eqn:Hrun; simpl in *. subst r.
    unfold Documents.bumpDocument in Hrun.
    apply update_one_ok in Hrun as (n' & x' & Hn' & Hcase).
    change (rows (T:=Document.t) s) with (documents s) in Hn'. rewrite Hn in Hn'. injection Hn' as <- <-.
    destruct Hcase as [[Hkeep _]|[Hw ->]].
    { unfold Documents.at_version in Hkeep. rewrite guarded_ok, bind_Result_ok in Hkeep.
      by destruct Hkeep as (_ & ? & _ & ?). }
    destruct (Hx _ Hw) as (-> & u & Hu' & ->). split; [|eauto].
    destruct (Hu s u HF Hat Hu') as [Hwr _].
    assert (Documents.key o i (Documents.bump d u) = true) as Hk'.
    { destruct Hwr as [(Hid & Horg & _) _]. apply key_document in Hk as [<- <-].
      by apply key_document. }
    assert (find_index (Documents.key o i) (<[n := Documents.bump d u]> (documents s)) =
      Some (n, Documents.bump d u)) as Hf; [|unfold document_at, find_row; simpl; by rewrite Hf].
    apply find_index_Some in Hn as (Hl & _ & Hbefore). apply find_index_Some. split_and!.
    + apply list_lookup_insert_eq. by eapply lookup_lt_Some.
    + done.
    + intros j z Hj Hlt. apply (Hbefore j z); [|done].
      rewrite list_lookup_insert_ne in Hj by lia. done.
Qed.
End document_writes.

(** ** Automation

    Primitive calls are closed by hints; other constants are unfolded. *)

Ltac head_of t := lazymatch t with ?f _ => head_of f | _ => t end.
Ltac respects_unfold :=
  match goal with
  | |- respects _ ?m => let h := head_of m in unfold h; cbv beta
  end.
Ltac respects_prim :=
  first
    [ apply respects_push; [apply _|intros ?; solve [done | eauto with esign]]
    | apply respects_modify; intros ?; solve [done | eauto with esign] ].
Ltac respects_tac :=
  repeat first
    [ solve [eauto 4 with esign typeclass_instances] | progress (respects_step)
    | apply respects_run; [apply _|] | respects_prim
    | progress (respects_unfold) ].

(** ** Views

    A view is what a rule looks at, in the tables only. *)
Class TableView {V} (view : St → V) : Prop := {
  view_durable s : view (durable s) = view s;
  view_rollback s s' : view (rollback s s') = view s
}.

Definition signing_view (s : St) :=
  (s.(documents), s.(signers), s.(signingSessions), s.(consentRecords)).
Definition envelope_view (s : St) := (s.(documents), s.(signers), s.(signatureFields)).

#[export] Instance documents_view : TableView documents.
Proof. by split. Qed.
#[export] Instance signers_view : TableView signers.
Proof. by split. Qed.
#[export] Instance revisions_view : TableView revisions.
Proof. by split. Qed.
#[export] Instance fields_view : TableView signatureFields.
Proof. by split. Qed.
#[export] Instance sessions_view : TableView signingSessions.
Proof. by split. Qed.
#[export] Instance consents_view : TableView consentRecords.
Proof. by split. Qed.
#[export] Instance audit_view : TableView auditEvents.
Proof. by split. Qed.
#[export] Instance outbox_view : TableView outboxEvents.
Proof. by split. Qed.
#[export] Instance idempotency_view : TableView idempotencyRecords.
Proof. by split. Qed.
#[export] Instance jobs_view : TableView backgroundJobs.
Proof. by split. Qed.
#[export] Instance signing_view_tables : TableView signing_view.
Proof. by split. Qed.
#[export] Instance envelope_view_tables : TableView envelope_view.
Proof. by split. Qed.

Definition keeps {V} (view : St → V) : relation St := λ s s', view s = view s'.

#[export] Instance keeps_StoreRel {V} (view : St → V) `{!TableView view} : StoreRel (keeps view).
Proof.
  unfold keeps. split.
  - split; [by intros ?|intros ?????; congruence].
  - intros s s' _. by rewrite (view_rollback (view:=view)).
  - intros s s' Hs. rewrite <-(view_durable (view:=view) s), <-(view_durable (view:=view) s'). by rewrite Hs.
Qed.

Lemma keeps_update {V} (view : St → V) `{!TableView view} {T} `{!Table T}
    (p : T → bool) missing f :
  (∀ s l, view s = view (set_rows l s)) → respects (keeps view) (update_one p missing f).
Proof. intros Hv. apply respects_update_one; [apply _|]. intros s i x y _ _ _. apply Hv. Qed.

#[export] Hint Extern 1 (respects (keeps _) (update_one _ _ _)) =>
  apply keeps_update; [apply _|reflexivity] : esign.
#[export] Hint Extern 1 (keeps _ _ _) => reflexivity : esign.

Lemma keeps_notifications {V} (view : St → V) `{!TableView view} `{!Notifier} msg :
  respects (keeps view) (sendSigningInvitation msg).
Proof. 
  intros s. unfold keeps. rewrite <-(view_durable (view:=view) s).
  by rewrite <-(view_durable (view:=view) (_ s).2), notify_durable.
Qed.
#[export] Hint Resolve keeps_notifications : esign.

(** Events are invisible to views that do not look at their tables. *)
Lemma keeps_append {V} (view : St → V) `{!TableView view} `{Env} input :
  (∀ s l, view s = view (set_auditEvents l s)) → respects (keeps view) (append input).
Proof.
  intros Hv. unfold append.
  apply respects_bind; [apply _|apply respects_lift; apply _|]. intros _.
  apply respects_bind; [apply _|apply respects_gets; apply _|]. intros latest.
  apply respects_bind; [apply _|apply respects_lift; apply _|]. intros e.
  apply respects_push; [apply _|]. intros s. apply Hv.
Qed.

Lemma keeps_publish {V} (view : St → V) `{!TableView view} input :
  (∀ s l, view s = view (set_outboxEvents l s)) → (∀ s l, view s = view (set_backgroundJobs l s)) →
  respects (keeps view) (Jobs.publish input).
Proof.
  intros He Hj. unfold Jobs.publish. cbv zeta.
  apply respects_bind; [apply _|apply respects_lift; apply _|]. intros _.
  apply respects_bind; [apply _|apply respects_push; [apply _|intros s; apply He]|]. intros e.
  apply respects_bind; [apply _|apply respects_push; [apply _|intros s; apply Hj]|]. intros j.
  apply respects_ret; apply _.
Qed.

#[export] Hint Extern 0 (respects (keeps _) (append _)) =>
  apply keeps_append; [apply _|reflexivity] : esign.
#[export] Hint Extern 0 (respects (keeps _) (audit _ _ _ _ _ _ _ _ _)) =>
  apply keeps_append; [apply _|reflexivity] : esign.
#[export] Hint Extern 0 (respects (keeps _) (audit_signer _ _ _ _ _ _)) =>
  apply keeps_append; [apply _|reflexivity] : esign.
#[export] Hint Extern 0 (respects (keeps _) (Jobs.publish _)) =>
  apply keeps_publish; [apply _|reflexivity|reflexivity] : esign.

(** ** The primitive writes *)

Section primitives.
Context `{Env} (P : string → Prop).
Abbreviation R := (TSteps P).

(** Rows pushed and rows replaced in place. *)
Lemma push_step {T} `{!Table T} (x : T) :
  (∀ s, TStep P s (set_rows (rows s ++ [x]) s)) → respects R (push x).
Proof. intros Hx. apply respects_push; [apply _|]. intros s. by apply TSteps_once. Qed.

Lemma update_step {T} `{!Table T} (p : T → bool) missing f :
  (∀ s i x y, rows s !! i = Some x → p x = true → f x = Ok (Write y) →
     TStep P s (set_rows (<[i := y]> (rows s)) s)) →
  respects R (update_one p missing f).
Proof.
  intros Hf. apply respects_update_one; [apply _|]. intros s i x y Hi Hp Hy.
  apply TSteps_once. by eapply Hf.
Qed.

(** A guarded push: only when no row passes the test. *)
Lemma guarded_push {T} `{!Table T} (p : T → bool) (e : Exn) (x : T) s :
  (find_row p (rows s) = None → TStep P s (set_rows (rows s ++ [x]) s)) →
  R s ((found ← find_one p; match found with Some _ => throw e | None => push x end) s).2.
Proof.
  intros Hx. unfold mbind, M_bind, find_one, gets.
  destruct (find_row p (rows s)) eqn:Hp; simpl; [reflexivity|].
  by apply TSteps_once, Hx.
Qed.

Lemma documents_create o d :
  P o → Document.organizationId d = o → document_init d → respects R (Documents.create d).
Proof. intros Ho <- ?. apply push_step. intros s. by apply t_document_new. Qed.

Lemma uploads_create o x :
  P o → UploadSession.organizationId x = o → UploadSession.status x = UploadSessionStatus.issued →
  respects R (UploadSessions.create x).
Proof. intros Ho <- ?. apply push_step. intros s. by apply t_upload_new. Qed.

Lemma uploads_key_org o i x :
  UploadSessions.key o i x = true → UploadSession.organizationId x = o.
Proof. unfold UploadSessions.key. by rewrite andb_true_iff, !String.eqb_eq; intros []. Qed.

Lemma uploads_complete o i r t : P o → respects R (UploadSessions.complete o i r t).
Proof.
  intros Ho. apply update_step. intros s n x y Hn Hk [= <-].
  eapply t_upload; [exact Hn|by rewrite (uploads_key_org _ _ _ Hk)|]. split_and!; try done. set_solver.
Qed.

Lemma uploads_abandon o i t : P o → respects R (UploadSessions.markAbandoned o i t).
Proof.
  intros Ho. apply update_step. intros s n x y Hn Hk [= <-].
  eapply t_upload; [exact Hn|by rewrite (uploads_key_org _ _ _ Hk)|]. split_and!; try done. set_solver.
Qed.

Lemma idempotency_create o x :
  P o → IdempotencyRecord.organizationId x = o → IdempotencyRecord.responseBody x = None →
  respects R (IdempotencyRecords.create o x).
Proof. intros Ho <- ? s. apply guarded_push. intros Hp. by apply t_idempotency_new. Qed.

Lemma idempotency_complete o i st b : P o → respects R (IdempotencyRecords.complete o i st b).
Proof.
  intros Ho. apply update_step. intros s n x y Hn Hk [= <-].
  apply andb_true_iff in Hk as [Hk _]. apply String.eqb_eq in Hk.
  eapply t_idempotency; [exact Hn|by rewrite Hk|by repeat split|done].
Qed.

Lemma consents_create o x :
  P o → ConsentRecord.organizationId x = o → respects R (ConsentRecords.create o x).
Proof. intros Ho <- s. apply guarded_push. intros Hp. by apply t_consent_new. Qed.

Lemma sessions_create o x :
  P o → SigningSession.organizationId x = o → session_init x →
  respects R (SigningSessions.create o x).
Proof. intros Ho <- ? s. apply guarded_push. intros Hp. by apply t_session_new. Qed.

Lemma sessions_key_org o i x :
  SigningSessions.key o i x = true → SigningSession.organizationId x = o.
Proof. unfold SigningSessions.key. by rewrite andb_true_iff, !String.eqb_eq; intros []. Qed.

Lemma open_status x :
  SigningSessions.is_open x = true ↔
  SigningSession.status x = SigningSessionStatus.issued ∨
  SigningSession.status x = SigningSessionStatus.active.
Proof. unfold SigningSessions.is_open. by rewrite orb_true_iff, !bool_decide_eq_true. Qed.

(** A write of an open session that keeps its identity and moves its status. *)
Lemma session_step o i s n x y :
  P o → rows s !! n = Some x → SigningSessions.key o i x = true →
  SigningSessions.is_open x = true → session_fixed x y → session_consumed x y →
  SigningSession.status x = SigningSession.status y ∨
    canTransitionSigningSession (SigningSession.status x) (SigningSession.status y) = true ∨
    SigningSession.status y = SigningSessionStatus.completed →
  TStep P s (set_rows (<[n := y]> (rows s)) s).
Proof.
  intros Ho Hn Hk Hop Hf Hc Hs. eapply t_session; [exact Hn| |done|].
  { by rewrite (sessions_key_org _ _ _ Hk). }
  split; [done|]. split; [done|]. split; [|congruence].
  destruct Hs as [-> | [Hs|Hs]]; [done|by apply rtc_once|]. rewrite Hs.
  apply open_status in Hop as [-> | ->]; [|by apply rtc_once].
  eapply (rtc_l _ _ SigningSessionStatus.active); [done|by apply rtc_once].
Qed.

Ltac session_tac :=
  intros Ho; apply update_step; intros s n x y Hn Hk Hy;
  repeat match type of Hy with
    | (if _ then Throw _ else _) = Ok _ => apply guarded_ok in Hy as [? Hy]
    end;
  repeat match goal with Hop : negb (SigningSessions.is_open _) = false |- _ =>
    apply negb_false_iff in Hop end;
  apply Ok_inj in Hy; injection Hy as <-;
  eapply session_step; [done|exact Hn|exact Hk|try done|by repeat split|try done|].

Lemma sessions_revoke o i t : P o → respects R (SigningSessions.revoke o i t).
Proof.
  session_tac. right; left. simpl.
  match goal with Hop : SigningSessions.is_open _ = true |- _ =>
    by apply open_status in Hop as [-> | ->] end.
Qed.

Lemma sessions_expire o i t : P o → respects R (SigningSessions.markExpired o i t).
Proof.
  session_tac. right; left. simpl.
  match goal with Hop : SigningSessions.is_open _ = true |- _ =>
    by apply open_status in Hop as [-> | ->] end.
Qed.

Lemma sessions_present o i t : P o → respects R (SigningSessions.markPresented o i t).
Proof.
  intros Ho. apply update_step. intros s n x y Hn Hk Hy.
  case_bool_decide as Ha.
  - injection Hy as <-.
    eapply session_step; [done|exact Hn|exact Hk| |by repeat split|done|by left].
    apply open_status. by right.
  - apply guarded_ok in Hy as [Hi [= <-]]. apply negb_false_iff, bool_decide_eq_true in Hi.
    eapply session_step; [done|exact Hn|exact Hk| |by repeat split|done|].
    + apply open_status. by left.
    + right; left. simpl. by rewrite Hi.
Qed.

Lemma sessions_complete o i t : P o → respects R (SigningSessions.markCompleted o i t).
Proof.
  intros Ho. apply update_step. intros s n x y Hn Hk Hy.
  case_bool_decide; [done|]. apply guarded_ok in Hy as [Hop [= <-]]. apply negb_false_iff in Hop.
  eapply session_step; [done|exact Hn|exact Hk|done|by repeat split|done|by right; right].
Qed.

Lemma sessions_consume o i v h c t :
  P o → respects R (SigningSessions.consumeAndRotate o i v h c t).
Proof.
  intros Ho. apply update_step. intros s n x y Hn Hk Hy.
  apply guarded_ok in Hy as [Hg [= <-]]. rewrite !orb_false_iff, !negb_false_iff in Hg.
  destruct Hg as [[_ Hc] Hop]. apply bool_decide_eq_true in Hc.
  eapply session_step; [done|exact Hn|exact Hk|done|by repeat split|by intros []|].
  simpl. apply open_status in Hop as [-> | ->]; [by right; left|by left].
Qed.

Lemma audit_append o input :
  P o → NewAuditEvent.organizationId input = o → respects R (append input).
Proof.
  intros Ho <- s. unfold append, findLatest, lift, gets, mbind, M_bind, push, modify, mret, M_ret.
  destruct (assertApprovedAuditPayload _ _) as [[]|] eqn:Ha; simpl; [|reflexivity].
  destruct (next_event input _) as [e|] eqn:He; simpl; [|reflexivity].
  apply TSteps_once, t_audit; [|by exists input].
  clear -Ho He. destruct input. unfold next_event in He. apply bind_Result_ok in He as (h & _ & He).
  by injection He as <-.
Qed.

Lemma jobs_publish o' input :
  P o' → Jobs.PublishInput.organizationId input = o' → respects R (Jobs.publish input).
Proof.
  intros Ho <-. destruct input as [i o d ty p rq av jb mx]. unfold Jobs.publish. simpl in Ho.
  intros s. unfold lift, mbind, M_bind, push, modify, mret, M_ret. simpl.
  destruct (assertSafeJobPayload p) as [[]|] eqn:Hp; simpl; [|reflexivity].
  set (input := Jobs.PublishInput.mk i o d ty p rq av jb mx).
  set (s1 := set_outboxEvents (outboxEvents s ++ [Jobs.new_event input (default 0%Z av)]) s).
  transitivity s1; apply TSteps_once; [by apply t_event_new|].
  by apply (t_job_new P s1 (Jobs.new_job input (default 0%Z av))).
Qed.

Lemma notifications `{!Notifier} msg : respects R (sendSigningInvitation msg).
Proof. intros s. apply TSteps_quiet. symmetry. apply notify_durable. Qed.

Lemma put_object o' input :
  P o' → PutObjectInput.organizationId input = o' → respects R (putObject input).
Proof.
  intros Ho <- s. destruct (putObject input s) as [[m|e] s'] eqn:Hrun; simpl.
  - apply putObject_ok in Hrun as (key & Hk & _ & [(o & _ & _ & ->)|(Hn & t & ->)]); [reflexivity|].
    apply put_checks_ok in Hk as (Hk & _). apply tenantObjectKey_accepted in Hk.
    etrans; [by apply (TSteps_quiet P s (set_clockReads (S (clockReads s)) s))|].
    apply TSteps_once. by eapply (t_object_new P (set_clockReads (S (clockReads s)) s)).
  - by apply putObject_throw_store in Hrun as ->.
Qed.
End primitives.

Section document_calls.
Context `{Env} (P : string → Prop).
Abbreviation R := (TSteps P).
Implicit Types (o i : string).

Lemma no_rule s x y :
  Document.state y ∉ [DocumentState.sent; DocumentState.completed; DocumentState.declined] ∨
  Document.state x = Document.state y →
  document_rule s x y.
Proof.
  intros Hs Hne. destruct Hs as [Hs|]; [|done].
  destruct (Document.state y); try done; destruct Hs; set_solver.
Qed.

Lemma documents_void o i v : P o → respects R (Documents.markVoided o i v).
Proof.
  intros Ho. apply bumpDocument_respects; [done|]. intros s x y Hy. split.
  - revert Hy. document_write_tac.
  - apply guarded_ok in Hy as [_ [= <-]]. apply no_rule. left. simpl. set_solver.
Qed.

Lemma documents_progress o i v : P o → respects R (Documents.markInProgress o i v).
Proof.
  intros Ho. apply bumpDocument_respects; [done|]. intros s x y Hy. split.
  - revert Hy. document_write_tac.
  - apply guarded_ok in Hy as [_ [= <-]]. apply no_rule. left. simpl. set_solver.
Qed.

Lemma lease_write x u y :
  Documents.state_in Documents.flattenable x = true →
  Document.state y = Documents.next_lease_state (Document.state x) →
  y = Document.set_state (Document.state y) (Document.set_leaseOwner (Document.leaseOwner y)
        (Document.set_leaseUntil (Document.leaseUntil y)
           (Document.set_finalizationAttemptCount u x))) →
  document_write x (Documents.bump x y) ∧ ∀ s, document_rule s x (Documents.bump x y).
Proof.
  intros Hin Hs Hy. apply state_in_true in Hin. split.
  - rewrite Hy. apply document_write_intro; simpl; try done; rewrite Hs;
      destruct (Document.state x); try done; unfold state_write; simpl; auto;
      try (right; left; done); exfalso; set_solver.
  - intros s. apply no_rule. simpl. rewrite Hs.
    destruct (Document.state x); simpl; (left; set_solver) || (by right).
Qed.

Lemma documents_lease o i v w u n : P o → respects R (Documents.claimProcessingLease o i v w u n).
Proof.
  intros Ho. apply bumpDocument_respects; [done|]. intros s x y Hy.
  apply guarded_ok in Hy as [_ Hy]. apply guarded_ok in Hy as [Hin [= <-]].
  apply negb_false_iff in Hin.
  edestruct (lease_write x) as [Hw Hr]; [exact Hin| | |split; [exact Hw|apply Hr]]; by destruct x.
Qed.

Lemma documents_commit o i v w r f : P o → respects R (Documents.commitFlattenedRevision o i v w r f).
Proof.
  intros Ho. apply bumpDocument_respects; [done|]. intros s x y Hy.
  apply guarded_ok in Hy as [_ Hy]. destruct f.
  - split; [revert Hy; document_write_tac|].
    apply guarded_ok in Hy as [_ [= <-]]. apply no_rule. left. simpl. set_solver.
  - injection Hy as <-. split; [|by apply no_rule; right].
    apply document_write_intro; simpl; auto. by left.
Qed.

Lemma documents_write_row o i s n x y :
  P o → find_index (Documents.key o i) (documents s) = Some (n, x) →
  document_write x (Documents.bump x y) → document_rule s x (Documents.bump x y) →
  R s (set_rows (<[n := Documents.bump x y]> (rows s)) s).
Proof. intros. by eapply document_step. Qed.

Lemma documents_failed o i w : P o → respects R (Documents.markFinalizationFailed o i w).
Proof.
  intros Ho s. apply (update_one_at R). intros n x y Hn Hy.
  destruct (_ && _); [done|]. injection Hy as <-. eapply documents_write_row; [done|exact Hn| |].
  - apply document_write_intro; simpl; auto; case_bool_decide as Hs; auto.
    + right; left. by rewrite Hs.
    + by left.
    + by rewrite Hs.
  - apply no_rule. simpl. case_bool_decide; [left; set_solver|by right].
Qed.

Lemma documents_release o i w : P o → respects R (Documents.releaseProcessingLease o i w).
Proof.
  intros Ho s. unfold Documents.releaseProcessingLease.
  destruct (find_index _ _) as [[n x]|] eqn:Hn; [|reflexivity].
  destruct (negb _); [reflexivity|]. simpl. eapply documents_write_row; [done|exact Hn| |].
  - apply document_write_intro; simpl; auto. by left.
  - apply no_rule. by right.
Qed.

(** A state entered under its rule. *)
Lemma bumpDocument_under (F : St → Prop) o i v update :
  P o →
  (∀ s x y, F s → Documents.key o i x = true → update x = Ok y →
     document_write x (Documents.bump x y) ∧ document_rule s x (Documents.bump x y)) →
  triple R F (Documents.bumpDocument o i v update) (λ _ _, True).
Proof.
  intros Ho Hu s HF. split; [|done]. unfold Documents.bumpDocument.
  apply (update_one_at R). intros n x y Hn.
  unfold Documents.at_version. rewrite guarded_ok, bind_Result_ok.
  intros (_ & u & Hx & [= <-]). pose proof Hn as (_ & Hk & _)%find_index_Some.
  destruct (Hu s x u HF Hk Hx). by eapply document_step.
Qed.

Lemma documents_decline o i v :
  P o → triple R (λ s, someone_declined s o i) (Documents.markDeclined o i v) (λ _ _, True).
Proof.
  intros Ho. apply bumpDocument_under; [done|]. intros s x y HF Hk Hy. split.
  - revert Hy. document_write_tac.
  - apply guarded_ok in Hy as [_ [= <-]]. apply key_document in Hk as [<- <-]. by intros _.
Qed.

Lemma documents_complete o i v :
  P o → triple R (λ s, all_signed s o i) (Documents.markCompleted o i v) (λ _ _, True).
Proof.
  intros Ho. apply bumpDocument_under; [done|]. intros s x y HF Hk Hy. split.
  - revert Hy. document_write_tac.
  - apply guarded_ok in Hy as [_ [= <-]]. apply key_document in Hk as [<- <-]. by intros _.
Qed.
End document_calls.

Section preparation_calls.
Context `{Env} (P : string → Prop).
Abbreviation R := (TSteps P).
Implicit Types (o i : string).

Lemma preparing_not_engaged s : isPreparationState s = true → engaged s = false.
Proof. by destruct s. Qed.

Lemma state_write_refl a : state_write a a.
Proof. by left. Qed.

(** A write of a document in preparation that stays in preparation. *)
Lemma preparing_write x y :
  isPreparationState (Document.state x) = true → isPreparationState (Document.state y) = true →
  Document.id x = Document.id y → Document.organizationId x = Document.organizationId y →
  Document.ownerMembershipId x = Document.ownerMembershipId y →
  Document.title x = Document.title y → state_write (Document.state x) (Document.state y) →
  document_write x (Documents.bump x y) ∧ ∀ s, document_rule s x (Documents.bump x y).
Proof.
  intros Hx Hy ?????. split; [split_and!|].
  - unfold document_fixed. split_and!; [done..|]. simpl. by rewrite Hx.
  - done.
  - done.
  - intros _. unfold document_wf. simpl. by rewrite (preparing_not_engaged _ Hy).
  - intros s. apply no_rule. simpl. left. destruct (Document.state y); try done; set_solver.
Qed.

Lemma documents_mode F o i d m :
  P o → isPreparationState (Document.state d) = true →
  triple R (λ s, knows o i d s ∧ F s) (Documents.setSigningMode o i (Document.version d) m)
    (λ y s, document_at s o i = Some y ∧
            y = Documents.bump d (Document.set_signingMode m d)).
Proof.
  intros Ho Hd. eapply triple_conseq; [apply (bumpDocument_triple P F); [done|]|done|].
  - intros s y _ _ [= <-]. destruct (preparing_write d (Document.set_signingMode m d)) as [Hw Hr];
      auto using state_write_refl.
  - simpl. intros y s (? & u & [= <-] & ->). done.
Qed.

Lemma documents_prepared F o i d st :
  P o → isPreparationState (Document.state d) = true → isPreparationState st = true →
  canTransitionDocument (Document.state d) st = true →
  triple R (λ s, knows o i d s ∧ F s) (Documents.setPreparationState o i (Document.version d) st)
    (λ y s, document_at s o i = Some y).
Proof.
  intros Ho Hd Hst Hc. eapply triple_conseq; [apply (bumpDocument_triple P F); [done|]|done|].
  - intros s y _ _ [= <-]. destruct (preparing_write d (Document.set_state st d)) as [Hw Hr];
      auto. by right; left.
  - by simpl; intros y s (? & _).
Qed.

Lemma documents_attach F o i d r n :
  P o → Document.state d = DocumentState.draft →
  triple R (λ s, knows o i d s ∧ F s) (Documents.attachSourceRevision o i (Document.version d) r n)
    (λ y s, document_at s o i = Some y).
Proof.
  intros Ho Hd. eapply triple_conseq; [apply (bumpDocument_triple P F); [done|]|done|].
  - intros s y _ _ [= <-].
    destruct (preparing_write d (Document.set_currentRevisionId (Some r)
      (Document.set_sourceDisplayName (Some n) d))) as [Hw Hr]; simpl; rewrite ?Hd; auto using state_write_refl.
  - by simpl; intros y s (? & _).
Qed.

Lemma documents_inspect F o i d st :
  P o → Document.inspectionStatus d = DocumentInspectionStatus.pending →
  triple R (λ s, knows o i d s ∧ F s) (Documents.setInspectionStatus o i (Document.version d) st)
    (λ y s, document_at s o i = Some y).
Proof.
  intros Ho Hd. eapply triple_conseq; [apply (bumpDocument_triple P F); [done|]|done|].
  - intros s y _ _ [= <-]. split; [split_and!|].
    + by repeat split.
    + done.
    + by left.
    + intros Hw He. simpl in He. destruct (Hw He) as [Ha _]. congruence.
    + apply no_rule. by right.
  - by simpl; intros y s (? & _).
Qed.

Lemma documents_send o i d r e :
  P o → isPreparationState (Document.state d) = true →
  Document.inspectionStatus d = DocumentInspectionStatus.accepted →
  Document.currentRevisionId d ≠ None →
  triple R (λ s, knows o i d s ∧ envelopeIsPrepared d (roster s o i) (fields_of s o i) = true)
    (Documents.markSent o i (Document.version d) r e)
    (λ y s, document_at s o i = Some y).
Proof.
  intros Ho Hd Hi Hc. eapply triple_conseq.
  - apply (bumpDocument_triple P (λ s, envelopeIsPrepared d (roster s o i) (fields_of s o i) = true));
      [done|].
    intros s y Henv Hat [= <-].
    assert (Documents.key o i d = true) as Hk.
    { unfold document_at in Hat. by apply find_row_Some in Hat as [_ ?]. }
    apply key_document in Hk as [<- <-]. split; [split_and!|].
    + unfold document_fixed. split_and!; try done. simpl. by rewrite Hd.
    + done.
    + right; left. simpl. by destruct (Document.state d).
    + intros _ _. simpl. done.
    + by intros _.
  - done.
  - by simpl; intros y s (? & _).
Qed.

Lemma revisions_create x :
  P (DocumentRevision.organizationId x) →
  triple R (λ s, object_stored s (DocumentRevision.organizationId x)
                   (DocumentRevision.objectKey x) (DocumentRevision.sha256Digest x))
    (Revisions.create x) (λ _ _, True).
Proof. intros Ho s Hs. split; [|done]. by apply TSteps_once, t_revision_new. Qed.

Lemma artifacts_create o x :
  P o → FinalizedArtifact.organizationId x = o →
  triple R (λ s, object_stored s o (FinalizedArtifact.objectKey x)
                   (FinalizedArtifact.sha256Digest x))
    (FinalizedArtifacts.create o x) (λ _ _, True).
Proof.
  intros Ho <- s Hs. split; [|done]. apply guarded_push. intros Hp. by apply t_artifact_new.
Qed.

Lemma fields_replace o d l :
  P o →
  triple R (λ s, in_preparation s o d ∧
      Forall (λ f, SignatureFields.of_document o d f = true ∧
        (f ∈ s.(signatureFields) ∨ SignatureField.completionObjectKey f = None)) l)
    (SignatureFields.replaceAll o d l) (λ l' _, l' = l).
Proof.
  intros Ho s [Hp Hl]. split; [|by intros ? [= <-]]. by apply TSteps_once, t_fields_replaced.
Qed.

Lemma fields_key_org o i x :
  SignatureFields.key o i x = true → SignatureField.organizationId x = o.
Proof. unfold SignatureFields.key. by rewrite andb_true_iff, !String.eqb_eq; intros []. Qed.

Lemma fields_flattened o i r : P o → respects R (SignatureFields.markFlattened o i r).
Proof.
  intros Ho. apply update_step. intros s n x y Hn Hk [= <-].
  eapply t_field; [exact Hn|by rewrite (fields_key_org _ _ _ Hk)|by repeat split|].
  intros key Hkey. by left.
Qed.

(** Completing a field with the image that was stored, or with none. *)
Definition ink_stored (s : St) (o : string) (key digest : option string) : Prop :=
  ∀ k, key = Some k → ∃ d, digest = Some d ∧ object_stored s o k d.

Lemma fields_complete o i t key ty size digest :
  P o →
  triple R (λ s, ink_stored s o key digest)
    (SignatureFields.complete o i t key ty size digest) (λ _ _, True).
Proof.
  intros Ho s Hs. split; [|done]. apply (update_one_at R). intros n x y Hn [= <-].
  pose proof Hn as (Hl & Hk & _)%find_index_Some. apply TSteps_once.
  eapply t_field; [exact Hl|by rewrite (fields_key_org _ _ _ Hk)|by repeat split|].
  intros k Hk'. right. destruct (Hs k Hk') as (d & -> & Hst). exists d.
  by rewrite (fields_key_org _ _ _ Hk).
Qed.

(** What a signer's answer needs of the row it is written to. *)
Definition answerable (o i : string) (answer : SignerStatus.t) (s : St) : Prop :=
  ∃ x, find_row (Signers.key o i) s.(signers) = Some x ∧ in_turn s x ∧
       (answer = SignerStatus.signed → consented s x).

Lemma signers_key o i x :
  Signers.key o i x = true ↔ Signer.organizationId x = o ∧ Signer.id x = i.
Proof. unfold Signers.key. by rewrite andb_true_iff, !String.eqb_eq. Qed.

Lemma find_index_row {T} (p : T → bool) l n x :
  find_index p l = Some (n, x) → find_row p l = Some x.
Proof. unfold find_row. by intros ->. Qed.

Lemma signers_decline o i v t :
  P o → triple R (answerable o i SignerStatus.declined) (Signers.markDeclined o i v t) (λ _ _, True).
Proof.
  intros Ho s (x & Hx & Ht & _). split; [|done]. apply (update_one_at R). intros n x' y Hn Hy.
  change (rows (T:=Signer.t) s) with (signers s) in Hn.
  rewrite (find_index_row _ _ _ _ Hn) in Hx. injection Hx as ->.
  apply guarded_ok in Hy as [Hg [= <-]]. apply orb_false_iff in Hg as [_ Hg].
  apply negb_false_iff, bool_decide_eq_true in Hg.
  apply find_index_Some in Hn as (Hl & Hk & _). apply signers_key in Hk as [Hk _].
  apply TSteps_once. eapply t_signer; [exact Hl|by rewrite Hk| |].
  - by repeat split.
  - by split.
Qed.

Lemma signers_sign o i v t :
  P o → triple R (answerable o i SignerStatus.signed) (Signers.markSigned o i v t) (λ _ _, True).
Proof.
  intros Ho s (x & Hx & Ht & Hc). split; [|done]. apply (update_one_at R). intros n x' y Hn Hy.
  change (rows (T:=Signer.t) s) with (signers s) in Hn.
  rewrite (find_index_row _ _ _ _ Hn) in Hx. injection Hx as ->.
  case_bool_decide; [done|].
  apply guarded_ok in Hy as [Hg [= <-]]. apply orb_false_iff in Hg as [_ Hg].
  apply negb_false_iff, bool_decide_eq_true in Hg.
  apply find_index_Some in Hn as (Hl & Hk & _). apply signers_key in Hk as [Hk _].
  apply TSteps_once. eapply t_signer; [exact Hl|by rewrite Hk| |].
  - by repeat split.
  - split; [done|]. intros _. by apply Hc.
Qed.

(** The new roster: the rows of other documents and of the signers kept, with
    the given signers in their places or at the end. *)
Lemma upsert_elem o x l r : r ∈ Signers.upsert o x l → r ∈ l ∨ r = x.
Proof.
  unfold Signers.upsert. destruct (find_index _ _) as [[n y]|].
  - intros Hr. apply list_elem_of_lookup in Hr as [j Hj].
    destruct (decide (j = n)) as [->|Hne].
    + apply list_lookup_insert_Some in Hj as [(? & ? & ?)|[? ?]]; [by right|done].
    + rewrite list_lookup_insert_ne in Hj by done. left. by eapply list_elem_of_lookup_2.
  - rewrite elem_of_app, list_elem_of_singleton. tauto.
Qed.

Lemma upserts_elem o l rows r :
  r ∈ foldl (λ records x, Signers.upsert o x records) rows l → r ∈ rows ∨ r ∈ l.
Proof.
  revert rows. induction l as [|x l IH]; intros rows; simpl; [by left|].
  intros [[?| ->]%upsert_elem|?]%IH; [by left|right; left|right; by right].
Qed.

Lemma upsert_foreign o x l o' :
  o' ≠ o → Signer.organizationId x = o →
  List.filter (λ r, String.eqb (Signer.organizationId r) o') (Signers.upsert o x l) =
  List.filter (λ r, String.eqb (Signer.organizationId r) o') l.
Proof.
  intros Hne Hx. unfold Signers.upsert. destruct (find_index _ _) as [[n y]|] eqn:Hn.
  - apply find_index_Some in Hn as (Hl & Hk & _). apply signers_key in Hk as [Hy _].
    eapply filter_insert_same; [exact Hl| |]; apply String.eqb_neq; congruence.
  - apply filter_push_false. apply String.eqb_neq. congruence.
Qed.

Lemma upserts_foreign o l rows o' :
  o' ≠ o → Forall (λ x, Signer.organizationId x = o) l →
  List.filter (λ r, String.eqb (Signer.organizationId r) o')
    (foldl (λ records x, Signers.upsert o x records) rows l) =
  List.filter (λ r, String.eqb (Signer.organizationId r) o') rows.
Proof.
  intros Hne Hl. revert rows. induction Hl as [|x l Hx _ IH]; intros rows; simpl; [done|].
  by rewrite IH, upsert_foreign.
Qed.

Lemma upsert_keys o x l :
  Signer.organizationId x = o → NoDup (signer_keys l) → NoDup (signer_keys (Signers.upsert o x l)).
Proof.
  intros Hx Hd. unfold Signers.upsert. destruct (find_index _ _) as [[n y]|] eqn:Hn.
  - apply find_index_Some in Hn as (Hl & Hk & _). apply signers_key in Hk as [Hy Hid].
    unfold signer_keys. rewrite list_fmap_insert, list_insert_id; [done|].
    rewrite list_lookup_fmap, Hl. simpl. congruence.
  - unfold signer_keys. rewrite fmap_app. apply NoDup_app. split_and!; [done| |apply NoDup_singleton].
    intros k Hin ->%list_elem_of_singleton. apply list_elem_of_fmap in Hin as (r & Hr & Hin).
    injection Hr as Ho Hi. assert (Signers.key o (Signer.id x) r = true) as Hk.
    { apply signers_key. split; congruence. }
    rewrite find_index_None in Hn. specialize (Hn r Hin). congruence.
Qed.

Lemma upserts_keys o l rows :
  Forall (λ x, Signer.organizationId x = o) l → NoDup (signer_keys rows) →
  NoDup (signer_keys (foldl (λ records x, Signers.upsert o x records) rows l)).
Proof.
  intros Hl. revert rows. induction Hl as [|x l Hx _ IH]; intros rows Hd; simpl; [done|].
  by apply IH, upsert_keys.
Qed.

Lemma filter_sublist {T} (f : T → bool) (l : list T) : List.filter f l `sublist_of` l.
Proof. induction l as [|x l IH]; simpl; [constructor|]. destruct (f x); by constructor. Qed.

Lemma signers_replace o d l :
  P o → Forall (λ x, Signers.of_document o d x = true ∧ Signer.status x = SignerStatus.pending) l →
  triple R (λ s, in_preparation s o d) (Signers.replaceAll o d l) (λ l' _, l' = l).
Proof.
  intros Ho Hl s Hp. split; [|by intros ? [= <-]].
  unfold Signers.replaceAll, mbind, M_bind, modify, mret, M_ret. simpl.
  set (kept := List.filter _ _).
  set (new := foldl _ _ _). change (set_signers new (set_signers kept s)) with (set_signers new s).
  assert (Forall (λ x, Signer.organizationId x = o) l) as Hl'.
  { eapply Forall_impl; [exact Hl|]. intros x [Hx _]. unfold Signers.of_document in Hx.
    apply andb_true_iff in Hx as [Hx _]. by apply String.eqb_eq. }
  apply TSteps_once, (t_signers_replaced P s o d new); [done|done| | |].
  - intros o' Hne. unfold new. rewrite upserts_foreign by done. unfold kept.
    induction (signers s) as [|r rs IH]; simpl; [done|].
    destruct (String.eqb (Signer.organizationId r) o') eqn:Hr.
    + apply String.eqb_eq in Hr. assert (Signers.of_document o d r = false) as ->.
      { unfold Signers.of_document. apply andb_false_iff. left. apply String.eqb_neq. congruence. }
      simpl. rewrite Hr, String.eqb_refl. by f_equal.
    + destruct (negb _); simpl; [by rewrite Hr|done].
  - intros r Hr. apply upserts_elem in Hr as [Hr|Hr].
    + left. by eapply elem_of_sublist; [exact Hr|apply filter_sublist].
    + right. by apply (proj1 (Forall_forall _ _) Hl).
  - intros Hd. apply upserts_keys; [done|]. eapply sublist_NoDup; [exact Hd|].
    apply fmap_sublist, filter_sublist.
Qed.
End preparation_calls.

#[export] Hint Resolve documents_create uploads_create uploads_complete uploads_abandon
  idempotency_create idempotency_complete consents_create sessions_create sessions_revoke
  sessions_expire sessions_present sessions_complete sessions_consume audit_append jobs_publish
  notifications put_object documents_void documents_progress documents_lease documents_commit
  documents_failed documents_release fields_flattened : esign.
Lemma revoke_open_steps `{Env} P o now l : P o → respects (TSteps P) (revoke_open o now l).
Proof.
  intros Ho. induction l as [|x l IH]; simpl; respects_tac. 
Qed.
#[export] Hint Resolve revoke_open_steps : esign.

Lemma new_draft_init id o m t n now : document_init (new_draft id o m t n now).
Proof. done. Qed.
Lemma new_session_init id o d g h e now rq : session_init (new_session id o d g h e now rq).
Proof. done. Qed.
#[export] Hint Resolve new_draft_init new_session_init : esign.
#[export] Hint Extern 1 (durable _ = durable _) => reflexivity : esign.
#[export] Hint Resolve TSteps_quiet : esign.

(** Steps of a proof of a triple. *)
Ltac t_throw := apply triple_throw; apply _.
Ltac t_ret := apply triple_ret; [apply _|].
Ltac t_lift := apply triple_bind_lift; [apply _|].
(** Bind with an assertion on the result. *)
Ltac t_bind Q :=
  lazymatch goal with |- triple ?R _ _ _ => apply (triple_bind R _ _ Q); try apply _ end.
(** Bind a call that changes nothing the assertion looks at in [view]. *)
Ltac t_keep view :=
  lazymatch goal with |- triple ?R _ _ _ => apply (triple_bind_keep R (keeps view)) end;
  [|solve [respects_tac]|solve [respects_tac]|intros ?].
(** [if c then throw ... else ...]. *)
Ltac t_guard H :=
  lazymatch goal with |- triple _ _ (if ?c then _ else _) _ => destruct c eqn:H; [t_throw|] end.
(** Nothing more to remember: the rest only has to take steps. *)
Ltac t_rest := apply triple_respects_true; respects_tac.

(** ** Assertions that outlive every step *)

Section stability.
Context `{Env} (P : string → Prop).

Lemma stable_true : stable (TSteps P) (λ _, True).
Proof. by intros s s' _ _. Qed.
Lemma stable_pure (φ : Prop) : stable (TSteps P) (λ _, φ).
Proof. by intros s s' _ ?. Qed.
Lemma stable_and F G : stable (TSteps P) F → stable (TSteps P) G →
  stable (TSteps P) (λ s, F s ∧ G s).
Proof. intros HF HG s s' Hs []. split; [by eapply HF|by eapply HG]. Qed.
Lemma stable_forall {A} (F : A → St → Prop) :
  (∀ a, stable (TSteps P) (F a)) → stable (TSteps P) (λ s, ∀ a, F a s).
Proof. intros HF s s' Hs Ha a. by eapply HF. Qed.
Lemma stable_imp (φ : Prop) (F : St → Prop) :
  stable (TSteps P) F → stable (TSteps P) (λ s, φ → F s).
Proof. intros HF s s' Hs Hi Hφ. eapply HF; [exact Hs|auto]. Qed.

Lemma TStep_objects s s' key x :
  TStep P s s' → object_at key s.(objects) = Some x → object_at key s'.(objects) = Some x.
Proof.
  destruct 1; simpl; try done.
  - assert (objects s = objects s') as ->; [|done].
    change (objects (durable s) = objects (durable s')). congruence.
  - intros Hx. by rewrite object_at_app, Hx.
Qed.

Lemma object_stored_stable o key digest : stable (TSteps P) (λ s, object_stored s o key digest).
Proof.
  intros s s' Hs (Hk & x & Hx & Hd). split; [done|]. exists x. split; [|done].
  induction Hs; [done|]. by apply IHHs; eapply TStep_objects.
Qed.

Lemma ink_stored_stable o key digest : stable (TSteps P) (λ s, ink_stored s o key digest).
Proof.
  intros s s' Hs Hi k Hk. destruct (Hi k Hk) as (d & Hd & Hst). exists d. split; [done|].
  by eapply object_stored_stable.
Qed.
End stability.

#[export] Hint Resolve stable_true stable_pure stable_and stable_forall stable_imp
  object_stored_stable ink_stored_stable knows_stable : esign.

(** ** What is stored stays *)

Section stored.
Context `{Env}.

(** A put under an accepted key leaves the object on file. *)
Lemma put_stored input s m s' :
  putObject input s = (Ok m, s') →
  assertTenantObjectKey (PutObjectInput.organizationId input) (PutObjectInput.key input) =
    Ok (PutObjectInput.key input) →
  object_stored s' (PutObjectInput.organizationId input) (PutObjectInput.key input)
    (sha256Bytes (PutObjectInput.body input)).
Proof.
  intros Hrun Hk. split; [done|]. apply putObject_ok in Hrun as (key & Hc & _ & Hcase).
  apply put_checks_ok in Hc as (Hc & _). rewrite (tenantObjectKey_accepts _ _ Hk) in Hc.
  injection Hc as <-. destruct Hcase as [(x & Hx & Hd & ->)|(Hn & t & ->)]; [by exists x|].
  eexists. split; [simpl; rewrite object_at_app, Hn; simpl; by rewrite String.eqb_refl|done].
Qed.

(** A read that checks the digest has seen the object on file. *)
Lemma get_stored o k s x s' :
  getObject o k s = (Ok (Some x), s') → object_stored s o k (StoredObject.sha256Digest x) ∧ s' = s.
Proof.
  intros Hrun. unfold getObject in Hrun. run_inv Hrun.
  match goal with Ha : assertTenantObjectKey o k = Ok _ |- _ =>
    pose proof (assertTenantObjectKey_ok _ _ _ Ha) as [-> _]; split; [split; [done|by exists x]|done]
  end.
Qed.

Definition ink_ok (o : string) (x : option (string * string * Z)) (s : St) : Prop :=
  ∀ k d z, x = Some (k, d, z) → object_stored s o k d.

Lemma store_ink_stored o png s x s' : store_ink o png s = (Ok x, s') → ink_ok o x s'.
Proof.
  intros Hrun k d z ->. unfold store_ink in Hrun. destruct png as [png|]; [|by run_inv Hrun].
  cbv zeta in Hrun. apply bind_ok in Hrun as (key & s1 & Hk & Hrun).
  apply lift_ok in Hk as [Hk ->]. apply bind_ok in Hrun as (m & s2 & Hput & Hrun).
  apply ret_ok in Hrun as [[= <- <- <-] ->].
  apply (put_stored _ _ _ _ Hput). simpl. unfold signatureImageObjectKey, digestObjectKey in Hk.
  destruct (negb _); [done|]. by eapply tenantObjectKey_accepted.
Qed.
End stored.

Lemma ink_ok_stable `{Env} P o x : stable (TSteps P) (ink_ok o x).
Proof. intros s s' Hs Hi k d z Hx. eapply object_stored_stable; [exact Hs|by eapply Hi]. Qed.
#[export] Hint Resolve ink_ok_stable : esign.
