(* ===== verification/SigningRefinement.v ===== *)
(** The use cases refine the abstract specification: whatever a use case
    returns or throws, the stores only take the steps of [Steps], and only for
    the tenant it is called for. *)

From Stdlib Require Import String.
From S2P Require Export Rules.
Local Open Scope string_scope.

Section refinement.
Context `{Env} `{!AuthorizationPolicy} `{!UnitOfWork} (P : string → Prop).
Abbreviation R := (TSteps P).

(** ** Creating a draft *)

Lemma create_checks_org input o k n t :
  create_checks input = Ok (o, k, n, t) →
  o = AccountUserActor.organizationId (CreateDraftDocumentInput.actor input).
Proof.
  unfold create_checks. rewrite bind_Result_ok. intros (o' & Ho & Hr).
  apply organizationContextFromActor_user in Ho as ->.
  repeat (apply bind_Result_ok in Hr as (? & _ & Hr)). by injection Hr as <- _ _ _.
Qed.

Lemma createDraftDocument_steps input :
  P (AccountUserActor.organizationId (CreateDraftDocumentInput.actor input)) →
  respects R (createDraftDocument input).
Proof.
  intros HP. unfold createDraftDocument. cbv zeta.
  apply respects_bind_lift; [apply _|]. intros [[[o k] n] t] Ho.
  apply create_checks_org in Ho as ->. respects_tac.
Qed.

(** ** Control of a document and its sessions *)

Section account_calls.
Context `{!Notifier}.

Ltac account_call :=
  cbv zeta; apply respects_bind_lift; [apply _|];
  intros o Ho; unfold account in Ho; apply organizationContextFromActor_user in Ho as ->;
  respects_tac.

Lemma voidDocument_steps input :
  P (AccountUserActor.organizationId (VoidDocumentInput.actor input)) →
  respects R (voidDocument input).
Proof.
  intros HP. unfold voidDocument. cbv zeta. account_call.
Qed.

Lemma rotateSigningSession_steps input :
  P (AccountUserActor.organizationId (RotateSigningSessionInput.actor input)) →
  respects R (rotateSigningSession input).
Proof. intros HP. unfold rotateSigningSession. account_call. Qed.

Lemma revokeSigningSession_steps input :
  P (AccountUserActor.organizationId (RevokeSigningSessionInput.actor input)) →
  respects R (revokeSigningSession input).
Proof. intros HP. unfold revokeSigningSession. account_call. Qed.

Lemma downloadFinalizedArtifact_steps user d rq :
  P (AccountUserActor.organizationId user) → respects R (downloadFinalizedArtifact user d rq).
Proof. intros HP. unfold downloadFinalizedArtifact. account_call. Qed.
End account_calls.

Lemma cleanupAbandonedUploads_steps limit :
  (∀ o, P o) → respects R (cleanupAbandonedUploads limit).
Proof. intros HP. unfold cleanupAbandonedUploads. respects_tac. Qed.

(** ** The signer's calls *)

(** The tenant of the session a token belongs to. *)
Definition token_scope (rawToken : string) (s : St) : Prop :=
  ∀ x, find_row (λ row, String.eqb (SigningSession.tokenHash row) (token_hash rawToken))
         s.(signingSessions) = Some x → P (SigningSession.organizationId x).

(** What a loaded session is, as long as the tables it was read from stay. *)
Definition loaded_ok (L : LoadedSignerSession.t) (s : St) : Prop :=
  let session := LoadedSignerSession.session L in
  let document := LoadedSignerSession.document L in
  let row := LoadedSignerSession.signer L in
  let o := SigningSession.organizationId session in
  session ∈ s.(signingSessions) ∧
  document_at s o (SigningSession.documentId session) = Some document ∧
  find_row (Signers.key o (SigningSession.signerId session)) s.(signers) = Some row ∧
  Signer.documentId row = Document.id document ∧
  LoadedSignerSession.actor L = SignerActor.mk o (SigningSession.documentId session)
    (SigningSession.signerId session) (SigningSession.id session) ∧
  (SigningSession.status session = SigningSessionStatus.completed ∨
   isAvailableForSigning document = true).

Lemma loadSignerSession_steps input :
  triple R (token_scope (LoadSignerSessionInput.rawToken input)) (loadSignerSession input)
    (λ L s, P (SigningSession.organizationId (LoadedSignerSession.session L)) ∧ loaded_ok L s).
Proof.
  unfold loadSignerSession, rejectToken, SigningSessions.findByTokenHash, find_one. cbv zeta.
  apply triple_bind_gets. intros [found|]; [|t_throw].
  t_guard Hg0.
  apply (triple_conseq _ _ (λ s, P (SigningSession.organizationId found) ∧
    found ∈ signingSessions s) _ _ (λ L s, P (SigningSession.organizationId
      (LoadedSignerSession.session L)) ∧ loaded_ok L s)); [| |done].
  2: { intros s [HP Hf]. split; [by apply HP|]. by apply find_row_Some in Hf as [? _]. }
  apply triple_pure. intros HP.
  t_keep signing_view.
  { unfold keeps, signing_view. by intros s s' _ [= _ _ -> _]. }
  t_guard Hg.
  destruct (_ <=? _)%Z.
  { t_bind (λ (_ : unit) (_ : St), True); [t_rest|intros _; t_throw]. }
  t_guard Hg1.
  t_guard Hg2.
  unfold Documents.findById, find_one. apply triple_bind_gets.
  intros [document|]; [|t_throw].
  t_guard Hav.
  unfold Signers.findById, find_one. apply triple_bind_gets.
  intros [row|]; [|t_throw].
  t_guard Hdoc.
  t_guard Hg'.
  t_ret. intros s [[Hin Hd] Hr]. split; [done|].
  apply negb_false_iff, String.eqb_eq in Hdoc.
  split_and!; [done..|]. simpl.
  rewrite andb_false_iff, !negb_false_iff, bool_decide_eq_true in Hav. done.
Qed.

Lemma load_exchanged_steps rawToken ac u :
  triple R (token_scope rawToken) (load_exchanged rawToken ac u)
    (λ L s, P (SigningSession.organizationId (LoadedSignerSession.session L)) ∧ loaded_ok L s).
Proof.
  unfold load_exchanged.
  eapply (triple_bind R _ _ _ _ _
    (loadSignerSession_steps (LoadSignerSessionInput.mk rawToken true ac u))).
  intros L. t_lift. intros _ _. by t_ret.
Qed.

(** A call that needs no more of the session than its tenant. *)
Lemma loaded_call {A} F (m : Run LoadedSignerSession.t) (f : LoadedSignerSession.t → Run A) :
  triple R F m
    (λ L s, P (SigningSession.organizationId (LoadedSignerSession.session L)) ∧ loaded_ok L s) →
  (∀ L, P (SigningSession.organizationId (LoadedSignerSession.session L)) →
     SignerActor.organizationId (LoadedSignerSession.actor L) =
       SigningSession.organizationId (LoadedSignerSession.session L) → respects R (f L)) →
  triple R F (m ≫= f) (λ _ _, True).
Proof.
  intros Hm Hf. eapply triple_bind; [apply _|exact Hm|]. intros L.
  apply triple_pure. intros HP s (_ & _ & _ & _ & Ha & _). split; [|done].
  apply Hf; [done|]. by rewrite Ha.
Qed.

Lemma exchangeSigningToken_steps rawToken rq u :
  triple R (token_scope rawToken) (exchangeSigningToken rawToken rq u) (λ _ _, True).
Proof.
  apply loaded_call;
    [exact (loadSignerSession_steps (LoadSignerSessionInput.mk rawToken false false u))|]. intros L HP _. cbv zeta. respects_tac.
Qed.

Lemma recordSignerViewed_steps rawToken rq u :
  triple R (token_scope rawToken) (recordSignerViewed rawToken rq u) (λ _ _, True).
Proof.
  apply loaded_call; [apply load_exchanged_steps|]. intros L HP _. cbv zeta. respects_tac.
Qed.

Lemma recordSignerConsent_steps input :
  triple R (token_scope (RecordSignerConsentInput.rawToken input)) (recordSignerConsent input)
    (λ _ _, True).
Proof.
  unfold recordSignerConsent. t_lift. intros d _.
  apply loaded_call; [apply load_exchanged_steps|]. intros L HP ->. cbv zeta. respects_tac.
Qed.

(** ** Answering *)

Lemma triple_bind_roster {A} F o d (f : list Signer.t → Run A) K :
  (∀ l, triple R (λ s, F s ∧ roster s o d = l) (f l) K) →
  triple R F (Signers.listByDocument o d ≫= f) K.
Proof. intros Hf s HF. by apply (Hf (roster s o d)). Qed.

Lemma document_at_key s o i d :
  document_at s o i = Some d → Document.organizationId d = o ∧ Document.id d = i.
Proof. intros [_ Hk]%find_row_Some. by apply key_document. Qed.

(** The signer of a loaded session is the row on file, of the loaded document. *)
Lemma loaded_signer L s :
  loaded_ok L s →
  let o := SigningSession.organizationId (LoadedSignerSession.session L) in
  let row := LoadedSignerSession.signer L in
  Signer.organizationId row = o ∧
  Signer.id row = SigningSession.signerId (LoadedSignerSession.session L) ∧
  Signer.documentId row = Document.id (LoadedSignerSession.document L) ∧
  Document.id (LoadedSignerSession.document L) =
    SigningSession.documentId (LoadedSignerSession.session L) ∧
  find_row (Signers.key o (Signer.id row)) s.(signers) = Some row ∧
  SignerActor.organizationId (LoadedSignerSession.actor L) = o.
Proof.
  intros (_ & Hd & Hr & Hdoc & Ha & _). simpl.
  pose proof (find_row_Some _ _ _ Hr) as [_ Hk]. apply signers_key in Hk as [Ho Hi].
  apply document_at_key in Hd as [_ Hd]. rewrite Ha. split_and!; [congruence..| |done].
  by rewrite Hi.
Qed.

Definition turn (L : LoadedSignerSession.t) (l : list Signer.t) (s : St) : Prop :=
  loaded_ok L s ∧
  roster s (SigningSession.organizationId (LoadedSignerSession.session L))
    (Document.id (LoadedSignerSession.document L)) = l.

Lemma turn_keeps L l s s' : keeps signing_view s s' → turn L l s → turn L l s'.
Proof.
  unfold keeps, signing_view, turn, loaded_ok, roster, signers_of, document_at.
  intros [= -> -> -> _]. done.
Qed.

Lemma turn_in_turn L l s :
  turn L l s →
  canSignerActNow (Document.signingMode (LoadedSignerSession.document L))
    (LoadedSignerSession.signer L) l = true →
  in_turn s (LoadedSignerSession.signer L).
Proof.
  intros [Hok Hl] Hc. pose proof (loaded_signer _ _ Hok) as (Ho & Hi & Hd & Hid & _).
  destruct Hok as (Hin & Hat & _ & _ & _ & Hav).
  exists (LoadedSignerSession.document L). rewrite Ho, Hd, Hid. split_and!; [done| |].
  - destruct Hav as [Hcomp|]; [right|by left]. eexists. split_and!; [done|congruence|done].
  - by rewrite <-Hid, Hl.
Qed.

(** What declining leaves behind. *)
Lemma signers_decline_found o i v t s x s' :
  Signers.markDeclined o i v t s = (Ok x, s') →
  ∃ y, find_row (Signers.key o i) s.(signers) = Some y ∧ signer_fixed y x ∧
       Signer.status x = SignerStatus.declined ∧ x ∈ s'.(signers).
Proof.
  intros Hrun. unfold Signers.markDeclined in Hrun. apply update_one_ok in Hrun as (n & y & Hn & Hc).
  change (rows (T:=Signer.t) s) with (signers s) in Hn.
  exists y. split; [by eapply find_index_row|].
  destruct (_ || _); [by destruct Hc as [[? _]|[? _]]|].
  destruct Hc as [[? _]|[[= <-] ->]]; [done|]. split_and!; [by repeat split|done|].
  apply find_index_Some in Hn as (Hl & _). simpl. eapply list_elem_of_lookup_2.
  apply list_lookup_insert_eq. by eapply lookup_lt_Some.
Qed.

Lemma decline_transaction_steps L l reason rq now :
  P (SigningSession.organizationId (LoadedSignerSession.session L)) →
  SignerActor.organizationId (LoadedSignerSession.actor L) =
    SigningSession.organizationId (LoadedSignerSession.session L) →
  canSignerActNow (Document.signingMode (LoadedSignerSession.document L))
    (LoadedSignerSession.signer L) l = true →
  triple R (turn L l) (decline_transaction L reason rq now) (λ _ _, True).
Proof.
  intros HP Ha Hc. unfold decline_transaction. rewrite Ha. cbv zeta.
  set (o := SigningSession.organizationId (LoadedSignerSession.session L)) in *.
  set (row := LoadedSignerSession.signer L) in *.
  t_bind (λ (_ : Signer.t) (s : St),
    someone_declined s o (Document.id (LoadedSignerSession.document L))).
  - intros s Hs. pose proof (loaded_signer _ _ (proj1 Hs)) as (Ho & Hi & Hd & Hid & Hr & _).
    fold o row in Ho, Hd, Hr. split.
    + apply (signers_decline P o (Signer.id row) (Signer.version row) now HP s).
      exists row. split_and!; [done|by eapply turn_in_turn|done].
    + intros x Hx. destruct (Signers.markDeclined _ _ _ _ s) as [r s'] eqn:Hrun; simpl in *. subst r.
      apply signers_decline_found in Hrun as (y & Hy & Hf & Hst & Hin). rewrite Hr in Hy.
      injection Hy as <-. exists x. split; [|done]. apply list_elem_of_In, List.filter_In.
      split; [by apply list_elem_of_In|]. destruct Hf as (_ & Ho' & Hd' & _).
      unfold Signers.of_document. apply andb_true_iff. rewrite !String.eqb_eq. split; congruence.
  - intros _. t_bind (λ (_ : Document.t) (_ : St), True); [by apply documents_decline|].
    intros _. t_rest.
Qed.

Lemma declineToSign_steps input :
  triple R (token_scope (DeclineToSignInput.rawToken input)) (declineToSign input) (λ _ _, True).
Proof.
  unfold declineToSign. eapply triple_bind; [apply _|apply load_exchanged_steps|]. intros L.
  apply triple_pure. intros HP. cbv zeta.
  apply (triple_conseq _ _ (λ s, SignerActor.organizationId (LoadedSignerSession.actor L) =
    SigningSession.organizationId (LoadedSignerSession.session L) ∧ loaded_ok L s) _ _ (λ _ _, True));
    [| |done].
  2: { intros s Hs. split; [by apply loaded_signer in Hs as (_ & _ & _ & _ & _ & ?)|done]. }
  apply triple_pure. intros Ha. rewrite Ha.
  apply triple_bind_roster. intros l. t_guard Hc. apply negb_false_iff in Hc.
  case_bool_decide; [by t_ret|]. t_guard Hp. t_lift. intros _ _.
  change (λ s, loaded_ok L s ∧ _) with (turn L l).
  t_keep signing_view. { intros s s' _. apply turn_keeps. }
  t_bind (λ (_ : unit) (_ : St), True).
  - apply triple_run; [apply _|]. by apply decline_transaction_steps.
  - intros _. t_rest.
Qed.

(** ** Completing *)

(** What the transaction of a completion may rely on. *)
Definition completion_ok (c : Completion) (s : St) : Prop :=
  let session := LoadedSignerSession.session (c_loaded c) in
  let o := SigningSession.organizationId session in
  (turn (c_loaded c) (c_roster c) s ∧
   find_row (ConsentRecords.of_session o (SigningSession.id session)) s.(consentRecords) =
     Some (c_consent c)) ∧
  ink_ok o (c_signature c) s ∧ ink_ok o (c_initials c) s.

Definition completion_admitted (c : Completion) : Prop :=
  P (SigningSession.organizationId (LoadedSignerSession.session (c_loaded c))) ∧
  SignerActor.organizationId (LoadedSignerSession.actor (c_loaded c)) =
    SigningSession.organizationId (LoadedSignerSession.session (c_loaded c)) ∧
  canSignerActNow (Document.signingMode (LoadedSignerSession.document (c_loaded c)))
    (LoadedSignerSession.signer (c_loaded c)) (c_roster c) = true.

(** The assertion of the preparation: closed under the view, except for ink. *)
Definition prepared (L : LoadedSignerSession.t) (l : list Signer.t) (consent : ConsentRecord.t)
    (s : St) : Prop :=
  turn L l s ∧
  find_row (ConsentRecords.of_session (SigningSession.organizationId (LoadedSignerSession.session L))
              (SigningSession.id (LoadedSignerSession.session L))) s.(consentRecords) = Some consent.

Lemma prepared_keeps L l c s s' : keeps signing_view s s' → prepared L l c s → prepared L l c s'.
Proof.
  intros Hk [Ht Hc]. split; [by eapply turn_keeps|].
  unfold keeps, signing_view in Hk. by injection Hk as _ _ _ <-.
Qed.

Lemma store_ink_respects o png : P o → respects R (store_ink o png).
Proof. intros HP. unfold store_ink. respects_tac. Qed.
Lemma store_ink_keeps o png : respects (keeps signing_view) (store_ink o png).
Proof. unfold store_ink. respects_tac. Qed.

Lemma store_ink_steps F o png :
  P o → (∀ s s', R s s' → keeps signing_view s s' → F s → F s') →
  triple R F (store_ink o png) (λ x s, F s ∧ ink_ok o x s).
Proof.
  intros HP HF. apply triple_and.
  - intros s Hs. split; [by apply store_ink_respects|].
    intros _ _. eapply HF; [|apply store_ink_keeps|exact Hs]. by apply store_ink_respects.
  - intros s a s' _. apply store_ink_stored.
Qed.

Lemma complete_prepare_steps input :
  triple R (token_scope (CompleteSigningInput.rawToken input)) (complete_prepare input)
    (λ r s, match r with
            | inl _ => True
            | inr c => completion_admitted c ∧ completion_ok c s
            end).
Proof.
  unfold complete_prepare. t_lift. intros _ _.
  eapply triple_bind; [apply _|apply load_exchanged_steps|]. intros L.
  apply triple_pure. intros HP. cbv zeta.
  apply (triple_conseq _ _ (λ s, SignerActor.organizationId (LoadedSignerSession.actor L) =
    SigningSession.organizationId (LoadedSignerSession.session L) ∧ loaded_ok L s) _ _ (λ r s,
      match r with inl _ => True | inr c => completion_admitted c ∧ completion_ok c s end));
    [| |done].
  2: { intros s Hs. split; [by apply loaded_signer in Hs as (_ & _ & _ & _ & _ & ?)|done]. }
  apply triple_pure. intros Ha. rewrite Ha.
  set (o := SigningSession.organizationId (LoadedSignerSession.session L)) in *.
  apply triple_bind_roster. intros l.
  change (λ s, loaded_ok L s ∧ _) with (turn L l).
  t_keep signing_view. { intros s s' _. apply turn_keeps. }
  case_bool_decide; [by t_ret|]. t_guard Hc. apply negb_false_iff in Hc.
  unfold ConsentRecords.findBySession, find_one. apply triple_bind_gets.
  intros [consent|]; [|t_throw]. t_guard Hcopy.
  change (λ s, turn L l s ∧ _) with (prepared L l consent).
  t_lift. intros selected _. t_lift. intros signaturePng _. t_lift. intros initialsPng _.
  t_lift. intros _ _. t_lift. intros key _.
  t_keep signing_view. { intros s s' _. apply prepared_keeps. }
  destruct a0 as [record|record].
  { t_lift. intros answer _. by t_ret. }
  t_keep signing_view. { intros s s' _. apply prepared_keeps. }
  t_bind (λ x s, prepared L l consent s ∧ ink_ok o x s).
  { apply store_ink_steps; [done|]. intros s s' _. apply prepared_keeps. }
  intros sig. t_bind (λ x s, (prepared L l consent s ∧ ink_ok o sig s) ∧ ink_ok o x s).
  { apply store_ink_steps; [done|]. intros s s' Hs Hk [Hp Hi].
    split; [by eapply prepared_keeps|by eapply ink_ok_stable]. }
  intros ini.
  destruct (Document.currentRevisionId _) as [src|]; [|destruct (Document.signingRevisionId _) as [src|]];
    try t_throw; t_ret; intros s [[Hp Hi] Hj]; done.
Qed.

(** The transaction of a completion. *)
Lemma complete_field_steps F c f :
  completion_admitted c → (∀ s s', keeps signing_view s s' → F s → F s') →
  let o := SigningSession.organizationId (LoadedSignerSession.session (c_loaded c)) in
  triple R (λ s, F s ∧ ink_ok o (c_signature c) s ∧ ink_ok o (c_initials c) s)
    (complete_field c f)
    (λ _ s, F s ∧ ink_ok o (c_signature c) s ∧ ink_ok o (c_initials c) s).
Proof.
  intros (HP & Ha & _) HF o. unfold complete_field. cbv zeta. rewrite Ha. fold o.
  set (ink := match SignatureField.type f with
              | SignatureFieldType.signature => c_signature c
              | SignatureFieldType.initials => c_initials c
              | _ => None end).
  set (G := λ s, F s ∧ ink_ok o (c_signature c) s ∧ ink_ok o (c_initials c) s).
  t_bind (λ (_ : SignatureField.t), G).
  - intros s Hs. pose proof Hs as (Hf & Hsig & Hini).
    assert (R s ((SignatureFields.complete o (SignatureField.id f) (c_now c)
      ((λ x, x.1.1) <$> ink) ((λ _, PNG_CONTENT_TYPE) <$> ink) ((λ x, x.2) <$> ink)
      ((λ x, x.1.2) <$> ink)) s).2) as Hstep.
    { apply (fields_complete P); [done|]. intros k Hk.
      destruct ink as [[[k' d] z]|] eqn:Hink; [|done]. injection Hk as ->. exists d. split; [done|].
      subst ink. destruct (SignatureField.type f); try done; [by eapply Hsig|by eapply Hini]. }
    split; [done|]. intros _ _. split_and!.
    + eapply HF; [|exact Hf]. unfold SignatureFields.complete.
      by apply (respects_update_one (keeps signing_view)).
    + by eapply ink_ok_stable.
    + by eapply ink_ok_stable.
  - intros _. t_ret. done.
Qed.

(** The rows of a roster after one of them is replaced. *)
Lemma markSigned_found o i v t s x s' :
  Signers.markSigned o i v t s = (Ok x, s') →
  ∃ n y, find_index (Signers.key o i) s.(signers) = Some (n, y) ∧ signer_fixed y x ∧
    Signer.status x = SignerStatus.signed ∧ s'.(signers) = <[n := x]> s.(signers).
Proof.
  intros Hrun. apply update_one_ok in Hrun as (n & y & Hn & Hc).
  change (rows (T:=Signer.t) s) with (signers s) in Hn. exists n, y. split; [done|].
  case_bool_decide as Hs.
  - destruct Hc as [[[= ->] ->]|[? _]]; [|done]. split_and!; [by repeat split|done|].
    symmetry. apply list_insert_id. by apply find_index_Some in Hn as (? & _).
  - destruct (_ || _); [by destruct Hc as [[? _]|[? _]]|].
    destruct Hc as [[? _]|[[= <-] ->]]; [done|]. split_and!; [by repeat split|done|done].
Qed.

Lemma roster_elem s o d r : r ∈ roster s o d ↔ r ∈ signers_of s o d.
Proof. unfold roster. apply sort_by_elem. Qed.

(** When the roster says that this was the last signature, it was. *)
Lemma all_signed_after L l s x s' v t :
  turn L l s →
  Signers.markSigned (SigningSession.organizationId (LoadedSignerSession.session L))
    (Signer.id (LoadedSignerSession.signer L)) v t s = (Ok x, s') →
  allRequiredSigned ((λ row,
    if String.eqb (Signer.id row) (Signer.id (LoadedSignerSession.signer L))
    then SignerStatus.signed else Signer.status row) <$> l) = true →
  all_signed s' (SigningSession.organizationId (LoadedSignerSession.session L))
    (Document.id (LoadedSignerSession.document L)).
Proof.
  intros [Hok <-] Hrun Hall. pose proof (loaded_signer _ _ Hok) as (Ho & Hi & Hd & _ & Hr & _).
  set (o := SigningSession.organizationId _) in *. set (row := LoadedSignerSession.signer L) in *.
  set (d := Document.id _) in *.
  apply markSigned_found in Hrun as (n & y & Hn & Hf & Hst & Hs').
  pose proof (find_index_row _ _ _ _ Hn) as Hy. rewrite Hr in Hy. injection Hy as <-.
  apply find_index_Some in Hn as (Hl & Hk & _).
  destruct Hf as (Hid & Horg & Hdoc & _).
  assert (x ∈ signers s') as Hx.
  { rewrite Hs'. eapply list_elem_of_lookup_2, list_lookup_insert_eq. by eapply lookup_lt_Some. }
  split.
  - intros Hnil. assert (x ∈ signers_of s' o d) as Hin; [|rewrite Hnil in Hin; by apply elem_of_nil in Hin].
    apply list_elem_of_In, List.filter_In. split; [by apply list_elem_of_In|].
    unfold Signers.of_document. apply andb_true_iff. rewrite !String.eqb_eq. split; congruence.
  - intros r Hr'. apply list_elem_of_In, List.filter_In in Hr' as [Hin Hof].
    apply list_elem_of_In in Hin. destruct (decide (Signer.id r = Signer.id row)) as [He|Hne].
    + exists x. split_and!; [done| |done]. apply signers_key. split; congruence.
    + exists r. rewrite Hs' in Hin. apply list_elem_of_lookup in Hin as [j Hj].
      destruct (decide (j = n)) as [->|Hj'].
      { rewrite list_lookup_insert_eq in Hj by (by eapply lookup_lt_Some). congruence. }
      split_and!.
      * rewrite Hs'. by eapply list_elem_of_lookup_2.
      * apply signers_key. split; [|done]. unfold Signers.of_document in Hof.
        apply andb_true_iff in Hof as [Hof _]. by apply String.eqb_eq.
      * rewrite list_lookup_insert_ne in Hj by done. unfold allRequiredSigned in Hall.
        rewrite forallb_forall in Hall. specialize (Hall (Signer.status r)).
        apply bool_decide_eq_true in Hall; [done|]. apply list_elem_of_In.
        apply list_elem_of_fmap. exists r. split.
        { by rewrite (proj2 (String.eqb_neq _ _) Hne). }
        apply roster_elem, list_elem_of_In, List.filter_In. split; [|done].
        apply list_elem_of_In. by eapply list_elem_of_lookup_2.
Qed.

Lemma complete_transaction_steps rq c :
  completion_admitted c →
  triple R (completion_ok c) (complete_transaction rq c) (λ _ _, True).
Proof.
  intros Hadm. pose proof Hadm as (HP & Ha & Hc). unfold complete_transaction. rewrite Ha. cbv zeta.
  set (L := c_loaded c) in *. set (l := c_roster c) in *.
  set (o := SigningSession.organizationId (LoadedSignerSession.session L)) in *.
  t_bind (λ (_ : unit), prepared L l (c_consent c)).
  - eapply triple_conseq.
    + apply (triple_for_each R (λ s, prepared L l (c_consent c) s ∧
        ink_ok o (c_signature c) s ∧ ink_ok o (c_initials c) s)).
      intros f _. apply complete_field_steps; [done|]. intros s s'. apply prepared_keeps.
    + done.
    + by intros _ s (? & _).
  - intros _. t_bind (λ (_ : Signer.t) (s : St), document_completed c = true →
      all_signed s o (Document.id (LoadedSignerSession.document L))).
    + intros s [Ht Hcons]. pose proof (loaded_signer _ _ (proj1 Ht)) as (Ho & Hi & Hd & Hid & Hr & _).
      fold o in Ho, Hr. split.
      * apply (signers_sign P o (Signer.id (LoadedSignerSession.signer L))); [done|].
        exists (LoadedSignerSession.signer L). split_and!; [done|by eapply turn_in_turn|].
        intros _. exists (LoadedSignerSession.session L), (c_consent c).
        apply find_row_Some in Hcons as [Hcin Hcof]. rewrite Ho.
        split_and!; [apply (proj1 (proj1 Ht))|done|done|congruence|congruence|done].
      * intros x Hx. destruct (Signers.markSigned _ _ _ _ s) as [r s'] eqn:Hrun; simpl in *.
        subst r. intros Hall. by eapply all_signed_after.
    + intros _. t_keep signers.
      { unfold keeps, all_signed, signers_of. intros s s' _ <-. done. }
      t_bind (λ (_ : unit) (_ : St), True); [|intros _; t_rest].
      destruct (document_completed c).
      * t_bind (λ (_ : Document.t) (_ : St), True); [|intros _; by t_ret].
        eapply triple_conseq; [by apply documents_complete|simpl; auto|done].
      * t_rest.
Qed.

Lemma completeSigning_steps input :
  triple R (token_scope (CompleteSigningInput.rawToken input)) (completeSigning input) (λ _ _, True).
Proof.
  unfold completeSigning. eapply triple_bind; [apply _|apply complete_prepare_steps|].
  intros [answer|c]; [by t_ret|]. apply triple_pure. intros Hadm. unfold complete_commit.
  pose proof Hadm as (HP & Ha & _).
  t_bind (λ (_ : object) (_ : St), True).
  - apply triple_run; [apply _|]. by apply complete_transaction_steps.
  - intros result. rewrite Ha. t_rest.
Qed.
End refinement.
