(* ===== verification/DocumentRefinement.v ===== *)
(** The use cases refine the abstract specification, continued: preparation,
    sending, and reading, which changes nothing but the sessions it finds expired
    and grants previews for revisions of the tenant only. *)

From Stdlib Require Import String.
From S2P Require Export SigningRefinement Queries.
Local Open Scope string_scope.

Section refinement.
Context `{Env} `{!AuthorizationPolicy} `{!UnitOfWork} (P : string → Prop).
Abbreviation R := (TSteps P).

(** ** Reading a document *)

Lemma triple_bind_document {A} F o i (f : Document.t → Run A) K :
  (∀ d, Document.organizationId d = o → Document.id d = i →
     triple R (λ s, F s ∧ document_at s o i = Some d) (f d) K) →
  triple R F (requireDocument o i ≫= f) K.
Proof.
  intros Hf s HF. unfold requireDocument, Documents.findById, find_one, gets, mbind, M_bind.
  change (find_row (Documents.key o i) (rows s)) with (document_at s o i).
  destruct (document_at s o i) as [d|] eqn:Hd; simpl; [|split; [reflexivity|done]].
  destruct (document_at_key _ _ _ _ Hd). by apply Hf.
Qed.

Lemma preparing_of d :
  assertPreparationUnlocked d = Ok () → isPreparationState (Document.state d) = true.
Proof.
  unfold assertPreparationUnlocked, isPreparationLocked. rewrite throw_if_ok.
  apply negb_false_iff.
Qed.

(** ** Preparing *)

Lemma toSigner_pending o d ids now row s x s' :
  toSigner o d ids now row s = (Ok x, s') →
  Signers.of_document o d x = true ∧ Signer.status x = SignerStatus.pending.
Proof.
  unfold toSigner. destruct (negb _); [done|]. cbv zeta. destruct (_ || _); [done|]. intros Hrun.
  apply bind_ok in Hrun as (id & s1 & _ & Hrun).
  destruct (match SignerRow.signerId row with Some _ => _ | None => _ end); [done|].
  apply ret_ok in Hrun as [<- _]. split; [|done].
  unfold Signers.of_document. simpl. by rewrite !String.eqb_refl.
Qed.

Lemma maybeMarkPrepared_steps F o i d l fs :
  P o → Document.organizationId d = o → Document.id d = i →
  isPreparationState (Document.state d) = true →
  triple R (λ s, knows o i d s ∧ F s) (maybeMarkPrepared d l fs) (λ _ _, True).
Proof.
  intros HP <- <- Hd. unfold maybeMarkPrepared. cbv zeta. case_bool_decide; [by t_ret|].
  destruct (canTransitionDocument _ _) eqn:Hc; simpl; [|by t_ret].
  eapply triple_conseq; [apply (documents_prepared P F); [done|done| |exact Hc]|done|done].
  by destruct (envelopeIsPrepared _ _ _).
Qed.

Lemma store_signers_steps input o d m l now :
  P o → Document.organizationId d = o → isPreparationState (Document.state d) = true →
  Forall (λ x, Signers.of_document o (Document.id d) x = true ∧
               Signer.status x = SignerStatus.pending) l →
  triple R (λ s, document_at s o (Document.id d) = Some d)
    (store_signers input o d m l now) (λ _ _, True).
Proof.
  intros HP Ho Hd Hl. unfold store_signers. cbv zeta.
  set (i := Document.id d) in *. set (F := λ s, document_at s o i = Some d).
  t_bind (λ (_ : list Signer.t), F).
  { intros s Hs. split; [|intros _ _; exact Hs].
    apply (signers_replace P o i l HP Hl s). by exists d. }
  intros replaced. unfold SignatureFields.listByDocument, find_many.
  apply triple_bind_gets. intros fields.
  t_bind (λ (_ : unit), F).
  { destruct (negb _); [|by t_ret; intros s []].
    t_bind (λ (_ : list SignatureField.t), F); [|intros _; by t_ret].
    intros s [Hs Hfs]. split; [|intros _ _; exact Hs].
    apply (fields_replace P o i); [done|]. split; [by exists d|].
    apply Forall_forall. intros f Hf. apply list_elem_of_In, List.filter_In in Hf as [Hf _].
    rewrite <-Hfs in Hf. apply List.filter_In in Hf as [Hf Hof]. split; [done|].
    left. by apply list_elem_of_In. }
  intros _. t_bind (λ y s, document_at s o i = Some y ∧
    y = Documents.bump d (Document.set_signingMode m d)).
  { eapply triple_conseq; [by apply (documents_mode P (λ _, True))| |done].
    intros s Hs. split; [by apply document_at_knows|done]. }
  intros next. apply (triple_conseq _ _ (λ s,
    next = Documents.bump d (Document.set_signingMode m d) ∧ knows o i next s) _ _ (λ _ _, True));
    [| |done].
  2: { intros s [Hs ->]. split; [done|by apply document_at_knows]. }
  apply triple_pure. intros Hnext.
  apply (triple_bind_stable R); [apply knows_stable|respects_tac|]. intros _.
  t_bind (λ (_ : Document.t) (_ : St), True).
  { eapply triple_conseq; [apply (maybeMarkPrepared_steps (λ _, True) o i); by rewrite ?Hnext|
      by intros|done]. }
  intros next'. t_rest.
Qed.

Lemma replaceDocumentSigners_steps input :
  P (AccountUserActor.organizationId (ReplaceSignersInput.actor input)) →
  respects R (replaceDocumentSigners input).
Proof.
  intros HP. apply respects_triple. unfold replaceDocumentSigners. cbv zeta.
  t_lift. intros o Ho. apply organizationContextFromActor_user in Ho as ->.
  set (o := AccountUserActor.organizationId _) in *.
  t_lift. intros _ _. apply triple_bind_document. intros d Ho Hi.
  t_lift. intros [] Hp. apply preparing_of in Hp. t_lift. intros m _.
  set (F := λ s, True ∧ document_at s o (ReplaceSignersInput.documentId input) = Some d).
  assert (∀ s s', R s s' → keeps documents s s' → F s → F s') as HF.
  { unfold F, keeps, document_at. by intros s s' _ ->. }
  t_keep documents; [exact HF|]. t_keep documents; [exact HF|].
  t_bind (λ l s, F s ∧ Forall (λ x, Signers.of_document o (Document.id d) x = true ∧
    Signer.status x = SignerStatus.pending) l).
  { apply triple_and.
    - intros s Hs. assert (respects R (map_each (toSigner o (Document.id d)
        (Signer.id <$> a0) a) (ReplaceSignersInput.signers input))) as Hr by respects_tac.
      split; [by apply Hr|]. intros _ _. eapply HF; [apply Hr| |exact Hs].
      assert (respects (keeps documents) (map_each (toSigner o (Document.id d)
        (Signer.id <$> a0) a) (ReplaceSignersInput.signers input))) as Hk by respects_tac.
      apply Hk.
    - intros s l s' _. apply map_each_Forall. intros. by eapply toSigner_pending. }
  intros l. t_lift. intros _ _. t_lift. intros _ _.
  t_bind (λ (_ : Document.t * list Signer.t * list SignatureField.t) (_ : St), True).
  { apply triple_run; [apply _|]. intros s [[_ Hat] Hl].
    apply (store_signers_steps input o d m l a HP Ho Hp Hl s). by rewrite Hi. }
  intros [[next replaced] kept]. t_rest.
Qed.

Lemma toField_fresh o d ids now row s x s' :
  toField o d ids now row s = (Ok x, s') →
  SignatureFields.of_document o d x = true ∧ SignatureField.completionObjectKey x = None.
Proof.
  unfold toField. destruct (negb _); [done|]. destruct (list_find _ _) as [[n ty]|]; [|done].
  intros Hrun. apply bind_ok in Hrun as (id & s1 & _ & Hrun). apply ret_ok in Hrun as [<- _].
  split; [|done]. unfold SignatureFields.of_document. simpl. by rewrite !String.eqb_refl.
Qed.

Lemma store_fields_steps input o d l fs now :
  P o → Document.organizationId d = o → isPreparationState (Document.state d) = true →
  Forall (λ f, SignatureFields.of_document o (Document.id d) f = true ∧
               SignatureField.completionObjectKey f = None) fs →
  triple R (λ s, document_at s o (Document.id d) = Some d)
    (store_fields input o d l fs now) (λ _ _, True).
Proof.
  intros HP Ho Hd Hl. unfold store_fields. cbv zeta.
  set (i := Document.id d) in *. set (F := λ s, document_at s o i = Some d).
  t_bind (λ (_ : list SignatureField.t), F).
  { intros s Hs. split; [|intros _ _; exact Hs].
    apply (fields_replace P o i); [done|]. split; [by exists d|].
    eapply Forall_impl; [exact Hl|]. intros f []. auto. }
  intros replaced. t_bind (λ (_ : Document.t) (_ : St), True); [|intros next; t_rest].
  eapply triple_conseq; [by apply (maybeMarkPrepared_steps (λ _, True) o i)| |done].
  intros s Hs. split; [by apply document_at_knows|done].
Qed.

(** A call that keeps what is asserted of the documents. *)
Lemma triple_keep_documents {A} (F : St → Prop) (m : Run A) (φ : A → Prop) :
  (∀ s s', keeps documents s s' → F s → F s') →
  respects R m → respects (keeps documents) m → (∀ s a s', m s = (Ok a, s') → φ a) →
  triple R F m (λ a s, F s ∧ φ a).
Proof.
  intros HF Hm Hk Hφ. apply triple_and; [|intros s a s' _; apply Hφ].
  intros s Hs. split; [apply Hm|]. intros _ _. eapply HF; [apply Hk|exact Hs].
Qed.

Lemma replaceDocumentFields_steps input :
  P (AccountUserActor.organizationId (ReplaceFieldsInput.actor input)) →
  respects R (replaceDocumentFields input).
Proof.
  intros HP. apply respects_triple. unfold replaceDocumentFields. cbv zeta.
  t_lift. intros o Ho. apply organizationContextFromActor_user in Ho as ->.
  set (o := AccountUserActor.organizationId _) in *.
  t_lift. intros _ _. apply triple_bind_document. intros d Ho Hi.
  t_lift. intros [] Hp. apply preparing_of in Hp.
  set (F := λ s, True ∧ document_at s o (ReplaceFieldsInput.documentId input) = Some d).
  assert (∀ s s', keeps documents s s' → F s → F s') as HF.
  { unfold F, keeps, document_at. by intros s s' ->. }
  t_keep documents; [by intros ? ? _; apply HF|]. destruct a as [revision|]; [|t_throw].
  t_keep documents; [by intros ? ? _; apply HF|]. t_lift. intros _ _. t_keep documents; [by intros ? ? _; apply HF|].
  t_bind (λ fs s, F s ∧ Forall (λ f, SignatureFields.of_document o (Document.id d) f = true ∧
    SignatureField.completionObjectKey f = None) fs).
  { apply triple_keep_documents; [exact HF|respects_tac|respects_tac|].
    intros s fs s'. apply map_each_Forall. intros. by eapply toField_fresh. }
  intros fs. t_lift. intros _ _. t_lift. intros _ _.
  t_bind (λ (_ : Document.t * list SignatureField.t) (_ : St), True).
  { apply triple_run; [apply _|]. intros s [[_ Hat] Hl].
    apply (store_fields_steps input o d a fs a0 HP Ho Hp Hl s). by rewrite Hi. }
  intros [next replaced]. by t_ret.
Qed.

(** ** Sending *)

Section sending.
Context `{!Notifier}.

Lemma envelopeIsPrepared_accepted d l fs :
  envelopeIsPrepared d l fs = true →
  Document.inspectionStatus d = DocumentInspectionStatus.accepted ∧
  Document.currentRevisionId d ≠ None.
Proof.
  unfold envelopeIsPrepared. destruct (_ || _) eqn:Hg; [done|]. intros _.
  apply orb_false_iff in Hg as [Ha Hc]. apply negb_false_iff, bool_decide_eq_true in Ha.
  by apply bool_decide_eq_false in Hc.
Qed.

Lemma issue_session_steps user o d now rq x :
  P o → respects R (issue_session user o d now rq x).
Proof. intros HP. unfold issue_session. respects_tac. Qed.

Lemma send_transaction_steps user o rq d r l e now :
  P o → isPreparationState (Document.state d) = true →
  triple R (λ s, document_at s o (Document.id d) = Some d ∧
      envelopeIsPrepared d (roster s o (Document.id d)) (fields_of s o (Document.id d)) = true)
    (send_transaction user o rq d r l e now) (λ _ _, True).
Proof.
  intros HP Hd. unfold send_transaction. cbv zeta.
  t_bind (λ (_ : Document.t) (_ : St), True).
  - intros s [Hat Henv]. destruct (envelopeIsPrepared_accepted _ _ _ Henv) as [Hi Hc].
    destruct (documents_send P o (Document.id d) d (DocumentRevision.id r) e HP Hd Hi Hc s)
      as [? _]; [|done]. split; [by apply document_at_knows|done].
  - intros updated. apply triple_respects_true.
    apply respects_bind; [apply _| |intros issued; respects_tac].
    apply respects_map_each; [apply _|]. intros x _. by apply issue_session_steps.
Qed.

Lemma sendDocument_steps input :
  P (AccountUserActor.organizationId (SendDocumentInput.actor input)) →
  respects R (sendDocument input).
Proof.
  intros HP. apply respects_triple. unfold sendDocument. cbv zeta.
  t_lift. intros o Ho. apply organizationContextFromActor_user in Ho as ->.
  set (o := AccountUserActor.organizationId _) in *.
  t_lift. intros _ _. t_lift. intros key _.
  t_bind (λ (_ : Begun) (_ : St), True); [t_rest|]. intros [record|record]; [t_rest|].
  apply triple_bind_document. intros d Ho Hi. t_lift. intros [] Hready.
  set (F := λ s, True ∧ document_at s o (SendDocumentInput.documentId input) = Some d).
  t_keep documents. { unfold F, keeps, document_at. by intros s s' _ ->. }
  destruct a as [revision|]; [|t_throw].
  apply triple_bind_roster. intros l. unfold SignatureFields.listByDocument, find_many.
  apply triple_bind_gets. intros fs. t_lift. intros [] Henv.
  apply throw_if_ok, negb_false_iff in Henv.
  t_keep envelope_view.
  { unfold F, keeps, envelope_view, document_at, roster, signers_of.
    intros s s' _ [= -> -> Hfs]. change (rows (T:=SignatureField.t) ?x) with (signatureFields x).
    by rewrite Hfs. }
  t_lift. intros e _.
  t_bind (λ (_ : Document.t * list (SigningSession.t * string)) (_ : St), True).
  - apply triple_run; [apply _|]. intros s [[[_ Hat] Hl] Hfs].
    apply (send_transaction_steps _ o _ d revision l e a HP).
    + unfold assertReadyToSend in Hready. apply bind_Result_ok in Hready as ([] & Hp & _).
      by apply throw_if_ok, negb_false_iff in Hp.
    + rewrite Hi. split; [done|]. rewrite <-Hi, Hl. unfold fields_of.
      change (rows (T:=SignatureField.t) s) with (signatureFields s) in Hfs. by rewrite Hfs.
  - intros [sent issued]. t_rest.
Qed.
End sending.
End refinement.

(** ** Reading *)

Section reads.
Context `{Env} `{!AuthorizationPolicy} `{!UnitOfWork} (P : string → Prop).
Abbreviation R := (TSteps P).

Lemma read_access_org user d o :
  read_access (account user) d = Ok o → o = AccountUserActor.organizationId user.
Proof.
  unfold read_access. rewrite bind_Result_ok. intros (o' & Ho & Hr).
  apply organizationContextFromActor_user in Ho as ->.
  apply bind_Result_ok in Hr as ([] & _ & [= <-]). done.
Qed.

Lemma loadDocument_steps actor d : respects R (loadDocument actor d).
Proof. unfold loadDocument, requireDocument. respects_tac. Qed.

Lemma getOrganizationDocument_steps user d : respects R (getOrganizationDocument user d).
Proof. unfold getOrganizationDocument, requireDocument. respects_tac. Qed.

Lemma streamDocumentPreview_steps g t : respects R (streamDocumentPreview g t).
Proof. unfold streamDocumentPreview. respects_tac. Qed.

(** ** Granting a preview *)

Lemma previews_create x :
  P (PreviewGrant.organizationId x) →
  triple R (λ s, preview_rule s x) (PreviewGrants.create x) (λ _ _, True).
Proof. intros HP s Hx. split; [|done]. apply TSteps_once. by apply t_preview_new. Qed.

Lemma grant_preview_steps o d r ct :
  P o → DocumentRevision.organizationId r = o →
  triple R (λ s, r ∈ s.(revisions)) (grant_preview o d (DocumentRevision.id r) ct) (λ _ _, True).
Proof.
  intros HP Ho. unfold grant_preview.
  assert (∀ s s', R s s' → keeps revisions s s' → r ∈ s.(revisions) → r ∈ s'.(revisions)) as Hk.
  { intros s s' _ Hs. by rewrite Hs. }
  t_keep revisions; [exact Hk|]. t_keep revisions; [exact Hk|]. t_keep revisions; [exact Hk|].
  t_bind (λ (_ : PreviewGrant.t) (_ : St), True); [|intros g; by t_ret].
  eapply triple_conseq; [by apply previews_create| |done]. intros s Hr. by exists r.
Qed.

(** The revision a preview is granted for. *)
Lemma triple_bind_revision {A} F o i (f : option DocumentRevision.t → Run A) K :
  triple R F (f None) K →
  (∀ r, DocumentRevision.organizationId r = o → DocumentRevision.id r = i →
     triple R (λ s, r ∈ s.(revisions)) (f (Some r)) K) →
  triple R F (Revisions.findById o i ≫= f) K.
Proof.
  intros Hn Hs s HF. unfold mbind, M_bind, Revisions.findById, find_one, gets. simpl.
  destruct (find_row _ _) as [r|] eqn:Hr; [|by apply Hn].
  apply find_row_Some in Hr as [Hin Hk]. apply andb_true_iff in Hk as [Ho Hi].
  apply String.eqb_eq in Ho, Hi. by apply Hs.
Qed.

Lemma issueDocumentPreview_steps user d :
  P (AccountUserActor.organizationId user) → respects R (issueDocumentPreview user d).
Proof.
  intros HP. unfold issueDocumentPreview. apply respects_bind_lift; [apply _|].
  intros o Ho. apply read_access_org in Ho as ->.
  apply respects_bind; [apply _|respects_tac|]. intros document.
  destruct (document ≫= _) as [[x i]|]; [|respects_tac]. apply respects_triple.
  apply triple_bind_revision; [t_throw|]. intros r Ho _. by apply grant_preview_steps.
Qed.

(** ** Signers *)

Lemma getSignerSession_steps rawToken u :
  triple R (token_scope P rawToken) (getSignerSession rawToken u) (λ _ _, True).
Proof. apply loaded_call; [apply load_exchanged_steps|]. intros L HP _. cbv zeta. respects_tac. Qed.

Lemma getSignerDocument_steps rawToken u :
  triple R (token_scope P rawToken) (getSignerDocument rawToken u) (λ _ _, True).
Proof. apply loaded_call; [apply load_exchanged_steps|]. intros L HP _. cbv zeta. respects_tac. Qed.

Lemma getSignerFields_steps rawToken u :
  triple R (token_scope P rawToken) (getSignerFields rawToken u) (λ _ _, True).
Proof. apply loaded_call; [apply load_exchanged_steps|]. intros L HP _. respects_tac. Qed.

Lemma getSignerConsent_steps rawToken u :
  triple R (token_scope P rawToken) (getSignerConsent rawToken u) (λ _ _, True).
Proof. apply loaded_call; [apply load_exchanged_steps|]. intros L HP _. respects_tac. Qed.

Lemma issueSignerPreview_steps rawToken u :
  triple R (token_scope P rawToken) (issueSignerPreview rawToken u) (λ _ _, True).
Proof.
  apply loaded_call; [apply load_exchanged_steps|]. intros L HP Ha. cbv zeta. rewrite Ha.
  destruct (shown_revision _) as [i|]; [|respects_tac]. apply respects_triple.
  apply triple_bind_revision; [t_throw|]. intros r Ho _. by apply grant_preview_steps.
Qed.
End reads.
