(* ===== verification/WorkerRefinement.v ===== *)
(** The use cases refine the abstract specification, concluded: uploads,
    inspection, token resolution, finalization, clean-up and the job queue. *)

From Stdlib Require Import String.
From S2P Require Export DocumentRefinement.
Local Open Scope string_scope.

Section refinement.
Context `{Env} `{!AuthorizationPolicy} `{!UnitOfWork} (P : string → Prop).
Abbreviation R := (TSteps P).

(** ** Receiving and inspecting the source *)

(** The tenant of the upload session a token belongs to. *)
Definition upload_scope (rawToken : string) (s : St) : Prop :=
  ∀ x, find_row (λ row, String.eqb (UploadSession.tokenHash row) (token_hash rawToken))
         s.(uploadSessions) = Some x → P (UploadSession.organizationId x).

Lemma store_source_steps o digest body F :
  P o → stable R F →
  triple R F (store_source o digest body) (λ key s, F s ∧ object_stored s o key digest).
Proof.
  intros HP HF. apply triple_and.
  - apply respects_stable; [unfold store_source; respects_tac|done].
  - intros s key s' _ Hrun. unfold store_source in Hrun.
    apply bind_ok in Hrun as (k & s1 & Hk & Hrun). apply bind_ok in Hrun as (m & s2 & Hput & Hrun).
    apply bind_ok in Hrun as ([x|] & s3 & Hget & Hrun); [|done]. cbv zeta in Hrun.
    destruct (_ || _) eqn:Hg in Hrun; [done|]. apply ret_ok in Hrun as [<- ->].
    apply get_stored in Hget as [Hst ->]. rewrite !orb_false_iff, !negb_false_iff in Hg.
    destruct Hg as [[_ Hd] _]. apply String.eqb_eq in Hd. by rewrite <-Hd.
Qed.

Lemma record_source_steps session d rid key digest body now rq :
  let o := UploadSession.organizationId session in
  let i := UploadSession.documentId session in
  P o → Document.state d = DocumentState.draft →
  triple R (λ s, knows o i d s ∧ object_stored s o key digest)
    (record_source session d rid key digest body now rq) (λ _ _, True).
Proof.
  intros o i HP Hd. unfold record_source. cbv zeta. fold o i.
  t_bind (λ (_ : DocumentRevision.t) s, True ∧ knows o i d s).
  - eapply triple_conseq.
    + apply (triple_frame R (knows o i d)); [apply knows_stable|]. by apply revisions_create.
    + by intros s [].
    + done.
  - intros revision. t_bind (λ (_ : Document.t) (_ : St), True).
    + eapply triple_conseq; [by apply (documents_attach P (λ _, True) o i d)|by intros s [_ ?]|done].
    + intros updated. t_rest.
Qed.

Lemma receive_source_steps input session now :
  P (UploadSession.organizationId session) → respects R (receive_source input session now).
Proof.
  intros HP. apply respects_triple. unfold receive_source. cbv zeta.
  set (o := UploadSession.organizationId session) in *.
  set (i := UploadSession.documentId session) in *.
  t_guard Hst. t_guard Hexp. do 3 (t_lift; intros _ _).
  unfold Documents.findById, find_one. apply triple_bind_gets. intros [d|]; [|t_throw].
  t_guard Hd. apply negb_false_iff, bool_decide_eq_true in Hd. t_guard Hr.
  t_bind (λ key s, knows o i d s ∧ object_stored s o key
    (sha256Bytes (CompleteSourceUploadInput.body input))).
  - eapply triple_conseq; [apply (store_source_steps o _ _ (knows o i d)); [done|apply knows_stable]| |by intros].
    intros s [_ Hat]. by apply document_at_knows.
  - intros key. apply (triple_bind_stable R); [eauto with esign|respects_tac|]. intros rid.
    t_bind (λ (_ : Document.t * DocumentRevision.t) (_ : St), True).
    + apply triple_run; [apply _|]. by apply record_source_steps.
    + intros [updated revision]. by t_ret.
Qed.

Lemma completeSourceUpload_steps input :
  triple R (upload_scope (CompleteSourceUploadInput.rawToken input)) (completeSourceUpload input)
    (λ _ _, True).
Proof.
  unfold completeSourceUpload, UploadSessions.findByTokenHash, find_one. cbv zeta.
  apply triple_bind_gets. intros [session|]; [|t_throw].
  apply (triple_conseq _ _ (λ s, P (UploadSession.organizationId session) ∧ True) _ _ (λ _ _, True));
    [| |done].
  2: { intros s [HP Hf]. split; [by apply HP|done]. }
  apply triple_pure. intros HP. t_guard Hg. apply triple_respects_true.
  apply respects_bind; [apply _|respects_tac|]. intros now.
  pose proof (receive_source_steps input session now HP) as Hr.
  destruct (UploadSession.status session), (UploadSession.revisionId session) as [[|? ?]|];
    try exact Hr. respects_tac.
Qed.

Lemma inspectDocument_steps input :
  P (InspectDocumentInput.organizationId input) → respects R (inspectDocument input).
Proof.
  destruct input as [o i rid jid oid rq]. simpl. intros HP. apply respects_triple.
  unfold inspectDocument, Documents.findById, find_one.
  apply triple_bind_gets. intros [d|]; [|t_throw].
  destruct (negb (bool_decide (Document.inspectionStatus d = _))) eqn:Hd; [by t_ret|].
  apply negb_false_iff, bool_decide_eq_true in Hd. t_guard Hg.
  apply (triple_conseq _ _ (knows o i d) _ _ (λ _ _, True)); [| |done].
  2: { intros s [_ Hat]. by apply document_at_knows. }
  apply (triple_bind_stable R); [apply knows_stable|respects_tac|]. intros [revision|]; [|t_throw].
  apply (triple_bind_stable R); [apply knows_stable|respects_tac|]. intros body. cbv zeta.
  apply (triple_bind_stable R); [apply knows_stable|respects_tac|]. intros _.
  apply (triple_bind_stable R); [apply knows_stable|respects_tac|]. intros now.
  t_bind (λ (_ : AuditEvent.t) (_ : St), True).
  - apply triple_run; [apply _|]. t_bind (λ (_ : Document.t) (_ : St), True).
    + eapply triple_conseq; [by apply (documents_inspect P (λ _, True) o i d)|by intros|done].
    + intros _. t_rest.
  - intros _. by t_ret.
Qed.

(** ** Resolving a token *)

Lemma resolveSigningSession_steps rawToken :
  triple R (token_scope P rawToken) (resolveSigningSession rawToken) (λ _ _, True).
Proof.
  unfold resolveSigningSession, SigningSessions.findByTokenHash, find_one. cbv zeta.
  apply triple_bind_gets. intros [x|]; [|t_throw].
  apply (triple_conseq _ _ (λ s, P (SigningSession.organizationId x) ∧ True) _ _ (λ _ _, True));
    [| |done].
  2: { intros s [HP Hf]. split; [by apply HP|done]. }
  apply triple_pure. intros HP. t_rest.
Qed.

(** ** Flattening and finalizing *)

Lemma put_verified_stored o key body digest s u s' :
  putVerifiedObject o key body digest s = (Ok u, s') → object_stored s' o key digest.
Proof.
  intros Hrun. unfold putVerifiedObject in Hrun. apply bind_ok in Hrun as (u0 & s1 & _ & Hrun).
  apply bind_ok in Hrun as ([x|] & s2 & Hget & Hrun); [|done].
  destruct (_ || _) eqn:Hg in Hrun; [done|]. apply ret_ok in Hrun as [_ ->].
  apply get_stored in Hget as [Hst ->]. apply orb_false_iff in Hg as [_ Hg].
  apply negb_false_iff, String.eqb_eq in Hg. by rewrite <-Hg.
Qed.

Lemma put_verified_steps o key body digest F :
  P o → stable R F →
  triple R F (putVerifiedObject o key body digest) (λ _ s, F s ∧ object_stored s o key digest).
Proof.
  intros HP HF. apply triple_and.
  - apply respects_stable; [unfold putVerifiedObject; respects_tac|done].
  - intros s u s' _. apply put_verified_stored.
Qed.

Lemma download_stored revision s body digest s' :
  downloadAndVerifySource revision s = (Ok (body, digest), s') →
  object_stored s' (DocumentRevision.organizationId revision)
    (DocumentRevision.objectKey revision) digest.
Proof.
  intros Hrun. unfold downloadAndVerifySource in Hrun.
  apply bind_ok in Hrun as (key & s1 & Hk & Hrun). apply lift_ok in Hk as [Hk ->].
  pose proof (assertTenantObjectKey_ok _ _ _ Hk) as [-> _].
  apply bind_ok in Hrun as ([x|] & s2 & Hget & Hrun); [|done]. cbv zeta in Hrun.
  apply get_stored in Hget as [Hst ->].
  destruct (negb _) in Hrun; [done|]. destruct (_ || _) eqn:Hg in Hrun; [done|].
  destruct (_ <? _)%Z in Hrun; [done|]. destruct (negb _) in Hrun; [done|].
  apply ret_ok in Hrun as [[= _ <-] ->]. apply orb_false_iff in Hg as [_ Hg].
  apply negb_false_iff, String.eqb_eq in Hg. by rewrite Hg.
Qed.

Definition output_stored (o : string) (out : Output.t) (s : St) : Prop :=
  object_stored s o (Output.objectKey out) (Output.digest out).

Lemma flatten_onto_stored input d revision fields name t s out s' :
  flattenOntoRevision input d revision fields name t s = (Ok out, s') →
  output_stored (FlattenSignatureInput.organizationId input) out s'.
Proof.
  intros Hrun. unfold flattenOntoRevision in Hrun.
  apply bind_ok in Hrun as ([src dig] & s1 & _ & Hrun).
  apply bind_ok in Hrun as (apps & s2 & _ & Hrun).
  apply bind_ok in Hrun as ([pdf pages] & s3 & _ & Hrun). cbv zeta in Hrun.
  apply bind_ok in Hrun as (key & s4 & _ & Hrun). apply bind_ok in Hrun as (u & s5 & Hput & Hrun).
  apply ret_ok in Hrun as [<- ->]. by apply put_verified_stored in Hput.
Qed.

(** What the transaction that records a flattening may rely on. *)
Definition flattened (o : string) (finalize : bool) (out : Output.t) (s : St) : Prop :=
  output_stored o out s ∧
  (finalize = true → ∀ key, artifactObjectKey o (Output.digest out) = Ok key →
     object_stored s o key (Output.digest out)).

Lemma output_stored_stable o out : stable R (output_stored o out).
Proof. apply object_stored_stable. Qed.

Lemma flattened_stable o fin out : stable R (flattened o fin out).
Proof.
  intros s s' Hs [Ho Hf]. split; [by eapply output_stored_stable|]. intros Hfin key Hk.
  eapply object_stored_stable; [exact Hs|by apply Hf].
Qed.

Lemma flatten_transaction_steps input work leased revision pending out rid aid at_ :
  P (FlattenSignatureInput.organizationId input) →
  triple R (flattened (FlattenSignatureInput.organizationId input)
              (Work.allSignersComplete work) out)
    (flatten_transaction input work leased revision pending out rid aid at_) (λ _ _, True).
Proof.
  intros HP. unfold flatten_transaction. cbv zeta.
  set (o := FlattenSignatureInput.organizationId input) in *.
  set (F := flattened o (Work.allSignersComplete work) out).
  t_bind (λ (_ : unit), F).
  - destruct (negb _); [|by t_ret].
    t_bind (λ (_ : DocumentRevision.t), F).
    + eapply triple_conseq.
      * apply (triple_frame R F); [apply flattened_stable|]. by apply revisions_create.
      * intros s Hs. split; [exact (proj1 Hs)|exact Hs].
      * by intros _ s [_ ?].
    + intros _. apply respects_stable; [respects_tac|apply flattened_stable].
  - intros _. apply (triple_bind_stable R); [apply flattened_stable|respects_tac|]. intros _.
    destruct (Work.allSignersComplete work) eqn:Hfin; [|t_rest].
    apply (triple_bind_stable R); [apply flattened_stable|respects_tac|]. intros found.
    t_bind (λ (_ : unit) (_ : St), True); [|intros _; t_rest].
    destruct found as [x|]; [by t_ret|].
    t_lift. intros key Hkey. t_bind (λ (_ : FinalizedArtifact.t) (_ : St), True); [|intros _; t_rest].
    eapply triple_conseq; [by apply (artifacts_create P o)| |done].
    intros s [_ Hs]. by apply Hs.
Qed.

Lemma commit_failure_steps {A} F e (Q : A → St → Prop) : triple R F (commit_failure e) Q.
Proof.
  unfold commit_failure. destruct (is_conflict e); [t_throw|].
  destruct e as [[]|]; t_throw.
Qed.

Lemma find_revision_org {A} F o i (f : option DocumentRevision.t → Run A) K :
  (∀ r, (∀ x, r = Some x → DocumentRevision.organizationId x = o) → triple R F (f r) K) →
  triple R F (Revisions.findById o i ≫= f) K.
Proof.
  intros Hf s HF. apply Hf; [|done]. intros x [_ Hk]%find_row_Some.
  apply andb_true_iff in Hk as [Hk _]. by apply String.eqb_eq.
Qed.

Lemma flatten_leased_steps input work leased :
  P (FlattenSignatureInput.organizationId input) → respects R (flatten_leased input work leased).
Proof.
  intros HP. apply respects_triple. unfold flatten_leased. cbv zeta.
  set (o := FlattenSignatureInput.organizationId input) in *.
  apply find_revision_org. intros [revision|] Hrev; [|t_throw].
  specialize (Hrev revision eq_refl). set (pending := List.filter _ _).
  t_bind (output_stored o).
  { apply triple_result; [respects_tac|]. intros s out s' Hrun.
    destruct (negb _) in Hrun; [by apply flatten_onto_stored in Hrun|].
    apply bind_ok in Hrun as ([body digest] & s1 & Hd & Hrun). apply ret_ok in Hrun as [<- ->].
    apply download_stored in Hd. by rewrite Hrev in Hd. }
  intros out. pose proof (output_stored_stable o out) as Hstable.
  do 3 (apply (triple_bind_stable R); [exact Hstable|respects_tac|]; intros ?).
  t_bind (λ (_ : unit), flattened o (Work.allSignersComplete work) out).
  { destruct (Work.allSignersComplete work); [|by t_ret].
    t_lift. intros key Hkey. destruct (String.eqb (Output.objectKey out) key) eqn:He; simpl.
    - apply String.eqb_eq in He as <-. t_ret. intros s Hs. split; [done|]. intros _ key Hkey'.
      rewrite Hkey in Hkey'. by injection Hkey' as <-.
    - eapply triple_conseq; [by apply (put_verified_steps o)|done|].
      intros _ s [Hs Hst]. split; [done|]. intros _ key' Hkey'. rewrite Hkey in Hkey'.
      by injection Hkey' as <-. }
  intros _. t_bind (λ (_ : unit) (_ : St), True); [|intros _; by t_ret].
  apply triple_try; [apply _| |intros e; apply commit_failure_steps].
  apply triple_run; [apply _|]. by apply flatten_transaction_steps.
Qed.

Lemma persistMissing_steps input work :
  P (FlattenSignatureInput.organizationId input) →
  DocumentRevision.organizationId (Work.revision work) =
    FlattenSignatureInput.organizationId input →
  respects R (persistMissingFinalArtifact input work).
Proof.
  intros HP Hrev. apply respects_triple. unfold persistMissingFinalArtifact. cbv zeta.
  set (o := FlattenSignatureInput.organizationId input) in *.
  t_bind (λ (r : list Z * string) s,
    object_stored s o (DocumentRevision.objectKey (Work.revision work)) r.2).
  { apply triple_result; [respects_tac|]. intros s [body digest] s' Hrun. apply download_stored in Hrun. by rewrite Hrev in Hrun. }
  intros [source digest]. t_lift. intros key Hkey. simpl.
  t_bind (λ (_ : unit) s, object_stored s o key digest).
  { destruct (String.eqb (DocumentRevision.objectKey (Work.revision work)) key) eqn:He; simpl.
    - apply String.eqb_eq in He as <-. by t_ret.
    - eapply triple_conseq; [apply (put_verified_steps o _ _ _ (λ _, True))|done|];
        [done|by intros ?|by intros _ s [_ ?]]. }
  intros _. apply (triple_bind_stable R); [apply object_stored_stable|respects_tac|]. intros at_.
  t_bind (λ (_ : unit) (_ : St), True); [|intros _; by t_ret].
  apply triple_try; [apply _| |intros e; apply commit_failure_steps]. apply triple_run; [apply _|].
  apply (triple_bind_stable R); [apply object_stored_stable|respects_tac|]. intros [x|]; [by t_ret|].
  apply (triple_bind_stable R); [apply object_stored_stable|respects_tac|]. intros aid.
  t_bind (λ (_ : FinalizedArtifact.t) (_ : St), True); [|intros _; t_rest].
  by apply (artifacts_create P o (new_artifact aid o _ key source digest at_)).
Qed.

(** The revision a job may work on is one of its tenant. *)
Lemma loadAuthorizedWork_tenant input s w s' :
  loadAuthorizedWork input s = (Ok (inr w), s') →
  DocumentRevision.organizationId (Work.revision w) = FlattenSignatureInput.organizationId input.
Proof.
  destruct input as [o d sg se rv jb ob rq ow]. simpl. intros Hrun. unfold loadAuthorizedWork in Hrun.
  sym_run Hrun; apply ret_ok in Hrun as [[= <-] _]; simpl;
    match goal with Hf : Revisions.findById _ _ _ = _ |- _ =>
      apply gets_ok in Hf as [[_ Hk]%find_row_Some _]; apply andb_true_iff in Hk as [Hk _];
      by apply String.eqb_eq end.
Qed.

Lemma flatten_failure_steps {A} input e :
  P (FlattenSignatureInput.organizationId input) → respects R (flatten_failure (A := A) input e).
Proof. intros HP. unfold flatten_failure. cbv zeta. respects_tac. Qed.

#[local] Hint Resolve flatten_leased_steps flatten_failure_steps : esign.

Lemma flattenSignature_steps input :
  P (FlattenSignatureInput.organizationId input) → respects R (flattenSignature input).
Proof.
  intros HP. apply respects_triple. unfold flattenSignature. cbv zeta.
  t_bind (λ (w : string + Work.t) (_ : St), match w with
    | inl _ => True
    | inr w => DocumentRevision.organizationId (Work.revision w) =
               FlattenSignatureInput.organizationId input
    end ∧ True).
  { apply triple_result; [respects_tac|]. intros s [digest|w] s' Hrun; [done|].
    by apply loadAuthorizedWork_tenant in Hrun. }
  intros [digest|w]; [by t_ret|]. apply triple_pure. intros Hrev. apply triple_respects_true.
  case_bool_decide; [by apply persistMissing_steps|respects_tac].
Qed.

(** ** Cleaning up *)

(** The look-ups that decide whether a key is still needed. *)
Lemma object_referenced_quiet o key s : (object_referenced o key s).2 = s.
Proof.
  unfold object_referenced, Revisions.findFirstByObjectKey, FinalizedArtifacts.findFirstByObjectKey,
    SignatureFields.findFirstByCompletionObjectKey, find_one, gets, mbind, M_bind, mret, M_ret.
  destruct (find_row _ _); [done|]. by destruct (find_row _ _).
Qed.

Lemma object_referenced_false o key s s' :
  object_referenced o key s = (Ok false, s') → unreferenced s o key.
Proof.
  intros Hrun. unfold object_referenced in Hrun.
  apply bind_ok in Hrun as (r & s1 & Hr & Hrun). apply gets_ok in Hr as [Hr ->].
  destruct r; [by run_inv Hrun|].
  apply bind_ok in Hrun as (a & s2 & Ha & Hrun). apply gets_ok in Ha as [Ha ->].
  destruct a; [by run_inv Hrun|].
  apply bind_ok in Hrun as (f & s3 & Hf & Hrun). apply gets_ok in Hf as [Hf ->].
  apply ret_ok in Hrun as [Hrun _]. destruct f; [done|].
  rewrite find_row_None in Hr. rewrite find_row_None in Ha. rewrite find_row_None in Hf. split_and!.
  - intros x Hx Ho Hk. specialize (Hr x Hx). by rewrite Ho, Hk, !String.eqb_refl in Hr.
  - intros x Hx Ho Hk. specialize (Ha x Hx). by rewrite Ho, Hk, !String.eqb_refl in Ha.
  - intros x Hx Ho Hk. specialize (Hf x Hx).
    by rewrite Ho, String.eqb_refl, (bool_decide_eq_true_2 _ Hk) in Hf.
Qed.

Lemma cleanup_key_steps o key : P o → respects (Steps P) (cleanup_key o key).
Proof.
  intros HP s. unfold cleanup_key, lift, mbind, M_bind.
  destruct (assertTenantObjectKey o key) as [k|e] eqn:Hk; simpl; [|reflexivity].
  assert (R s ((run (object_referenced o key)) s).2) as Hq.
  { apply (respects_run R). intros t. rewrite object_referenced_quiet. reflexivity. }
  destruct (run (object_referenced o key) s) as [[[]|e] s'] eqn:Hrun; simpl in *;
    [by apply TSteps_Steps| |by apply TSteps_Steps].
  apply run_ok in Hrun. pose proof (object_referenced_quiet o key s) as Hs.
  rewrite Hrun in Hs. simpl in Hs. subst s'. apply object_referenced_false in Hrun.
  pose proof (assertTenantObjectKey_ok _ _ _ Hk) as (_ & Ho & Hp & _).
  unfold deleteObject, lift, mbind, M_bind. rewrite Hk. simpl.
  pose proof (assertTenantObjectKey_ok _ _ _ Hk) as (-> & _).
  simpl in Hp. rewrite Hp. simpl. apply rtc_once. by apply (step_object_deleted P s o key).
Qed.

Lemma cleanupOrphanedObjects_steps age prefixes o :
  P o → respects (Steps P) (cleanupOrphanedObjects age prefixes o).
Proof.
  intros HP. unfold cleanupOrphanedObjects, cleanup_prefix.
  apply respects_bind; [apply _| |intros t].
  { apply respects_fmap. apply respects_Steps. respects_tac. }
  apply respects_fmap. apply respects_map_each; [apply _|]. intros prefix _.
  apply respects_bind; [apply _| |intros keys].
  { apply respects_Steps. respects_tac. }
  apply respects_fmap. apply respects_map_each; [apply _|]. intros key _.
  by apply cleanup_key_steps.
Qed.

(** ** The job queue *)

Section queue.
Context (all_tenants : ∀ o, P o).

Lemma update_first_event p f :
  (∀ x, p x = true → event_settled x = false ∧ event_evolves x (f x)) →
  respects R (update_first (T:=OutboxEvent.t) p f).
Proof.
  intros Hf s. unfold update_first, modify. simpl.
  destruct (find_index p (outboxEvents s)) as [[n x]|] eqn:Hn; [|reflexivity].
  apply find_index_Some in Hn as (Hl & Hp & _). destruct (Hf x Hp).
  apply TSteps_once. by eapply (t_event P s n x).
Qed.

Lemma update_first_job p f :
  (∀ x, p x = true → BackgroundJob.id x = BackgroundJob.id (f x)) →
  respects R (update_first (T:=BackgroundJob.t) p f).
Proof.
  intros Hf s. unfold update_first, modify. simpl.
  destruct (find_index p (backgroundJobs s)) as [[n x]|] eqn:Hn; [|reflexivity].
  apply find_index_Some in Hn as (Hl & Hp & _).
  apply TSteps_once. by eapply (t_job P s n x); [exact Hl|..]; auto.
Qed.

Lemma ensureJob_steps event now : respects R (ensureJob event now).
Proof.
  unfold ensureJob. apply respects_bind; [apply _|respects_tac|]. intros [job|]; [respects_tac|].
  apply push_step. intros s. by apply t_job_new.
Qed.

Lemma claimable_open type now x : claimable type now x = true → event_settled x = false.
Proof.
  unfold claimable, event_settled. rewrite !andb_true_iff, orb_true_iff, andb_true_iff.
  rewrite !bool_decide_eq_true, bool_decide_eq_false.
  intros (_ & Hs). destruct Hs as [-> | [-> _]]; set_solver.
Qed.

Lemma claim_steps type now owner until : respects R (claimNextByType type now owner until).
Proof.
  apply respects_triple. unfold claimNextByType. apply triple_bind_gets.
  intros [[n x]|]; [|by t_ret]. cbv zeta. t_bind (λ (_ : unit) (_ : St), True).
  - intros s [_ Hn]. split; [|done]. simpl. apply find_index_Some in Hn as (Hl & Hp & _).
    apply TSteps_once. eapply (t_event P s n x); [exact Hl|done|by eapply claimable_open|].
    split_and!; simpl; try done; [lia|]. intros Hs. apply claimable_open in Hp. congruence.
  - intros _. apply triple_respects_true.
    apply respects_bind; [apply _|apply ensureJob_steps|]. intros job.
    apply respects_bind; [apply _| |intros _; respects_tac].
    apply update_first_job. intros row Hrow. by apply String.eqb_eq in Hrow as ->.
Qed.

Lemma settle_steps o event held job :
  (∀ x, event_evolves x (event x) ∨ event_settled x = true) →
  (∀ e x, BackgroundJob.id x = BackgroundJob.id (job e x)) →
  respects R (settle o event held job).
Proof.
  intros He Hj. unfold settle. apply respects_bind; [apply _|respects_tac|].
  intros [current|]; [|respects_tac]. apply respects_bind; [apply _| |intros _].
  - apply update_first_event. intros x Hx. unfold held_event in Hx.
    apply andb_true_iff in Hx as [_ Hs]. apply bool_decide_eq_true in Hs.
    assert (event_settled x = false) as Hns.
    { unfold event_settled. rewrite Hs. done. }
    split; [done|]. destruct (He x); [done|congruence].
  - apply update_first_job. auto.
Qed.

Lemma settled_evolves (f : OutboxEvent.t → OutboxEvent.t) :
  (∀ x, OutboxEvent.id x = OutboxEvent.id (f x) ∧
     OutboxEvent.organizationId x = OutboxEvent.organizationId (f x) ∧
     OutboxEvent.type x = OutboxEvent.type (f x) ∧ OutboxEvent.payload x = OutboxEvent.payload (f x) ∧
     OutboxEvent.attemptCount x = OutboxEvent.attemptCount (f x)) →
  ∀ x, event_evolves x (f x) ∨ event_settled x = true.
Proof.
  intros Hf x. destruct (event_settled x) eqn:Hs; [by right|left].
  destruct (Hf x) as (? & ? & ? & ? & ?). split_and!; [done..|lia|congruence].
Qed.

Lemma markProcessed_steps o t : respects R (markProcessed o t).
Proof. apply settle_steps; [|done]. by apply settled_evolves. Qed.
Lemma applyOutcome_steps o c st js av : respects R (applyOutcome o c st js av).
Proof. apply settle_steps; [|done]. by apply settled_evolves. Qed.

#[local] Hint Resolve claim_steps markProcessed_steps applyOutcome_steps : esign.

(** One turn of the worker, around any handler that itself takes steps. *)
Lemma processNext_steps stop backoff random type owner handler :
  (∀ w, respects R (handler w)) →
  respects R (processNext stop backoff random type owner handler).
Proof.
  intros Hh. unfold processNext, process_claimed, process_failure. respects_tac.
Qed.
End queue.
End refinement.
