(* ===== verification/System.v ===== *)
(** The system: every call a client or the worker can make, and the refinement
    theorem that each only takes the steps of the abstract specification. *)

From Stdlib Require Import String SpecFloat.
From S2P Require Export WorkerRefinement Worker.
Local Open Scope string_scope.

(** ** Checkpoint stores

    What the verifier relies on: a checkpoint store only files checkpoints,
    for the tenant it is asked to. *)
Class CheckpointLaws `{Env} `{!ImmutableCheckpointStore} : Prop := {
  checkpoint_put P c :
    P (AuditCheckpoint.organizationId c) → respects (TSteps P) (putIfAbsent c);
  checkpoint_get P o d : respects (TSteps P) (getLatest o d)
}.

Lemma memory_checkpoint_laws `{Env} :
  @CheckpointLaws _ createMemoryCheckpointStore.
Proof.
  split.
  - intros P c HP s. simpl. unfold memory_putIfAbsent, gets, mbind, M_bind, modify, mret, M_ret.
    destruct (find_row _ _) as [x|] eqn:Hx; simpl.
    + by destruct (negb _).
    + apply TSteps_once. by apply t_checkpoint_new.
  - intros P o d. apply respects_gets. apply _.
Qed.

Lemma disabled_checkpoint_laws `{Env} :
  @CheckpointLaws _ createDisabledCheckpointStore.
Proof. split; intros; simpl; apply respects_ret; apply _. Qed.

Section verification.
Context `{Env} `{!AuthorizationPolicy} `{!UnitOfWork} `{!Notifier}
  `{!ImmutableCheckpointStore} `{!CheckpointLaws} (P : string → Prop).
Abbreviation R := (TSteps P).

Lemma publishOutcome_steps report : respects R (publishOutcome report).
Proof. unfold publishOutcome. cbv zeta. respects_tac. Qed.

Lemma verify_events_steps o d previous l : respects R (verify_events o d previous l).
Proof.
  revert previous. induction l as [|e l IH]; intros previous; simpl; [respects_tac|].
  apply respects_bind; [apply _|respects_tac|]. intros artifact.
  apply respects_bind; [apply _|apply IH|]. intros failures. respects_tac.
Qed.

Lemma anchor_head_steps o d e : P o → respects R (anchor_head o d e).
Proof.
  intros HP. unfold anchor_head. apply respects_try; [apply _| |intros ex; respects_tac].
  apply respects_bind; [apply _|respects_tac|]. intros t.
  apply respects_bind; [apply _|by apply checkpoint_put|]. intros r. respects_tac.
Qed.

Lemma checkpoint_findings_steps o d l : respects R (checkpoint_findings o d l).
Proof.
  unfold checkpoint_findings. destruct (negb _); [respects_tac|].
  apply respects_try; [apply _| |intros ex; respects_tac].
  apply respects_bind; [apply _|apply checkpoint_get|]. intros r. respects_tac.
Qed.

#[local] Hint Resolve publishOutcome_steps verify_events_steps anchor_head_steps
  checkpoint_findings_steps : esign.

Lemma verifyAuditChain_steps input :
  P (VerifyAuditChainInput.organizationId input) → respects R (verifyAuditChain input).
Proof. destruct input as [o d a]. simpl. intros HP. unfold verifyAuditChain. respects_tac. Qed.
#[local] Hint Resolve verifyAuditChain_steps : esign.

Lemma verifyOrganizationAuditChains_steps o a d :
  P o → respects R (verifyOrganizationAuditChains o a d).
Proof.
  intros HP. unfold verifyOrganizationAuditChains. respects_tac.
  all: by apply verifyAuditChain_steps.
Qed.

(** ** The worker's poll *)

Section poll.
Context (all_tenants : ∀ o, P o).

Lemma ingestion_handler_steps w : respects R (ingestion_handler w).
Proof.
  unfold ingestion_handler. cbv zeta. destruct (negb _); [respects_tac|].
  apply respects_bind; [apply _|by apply inspectDocument_steps|]. intros _. respects_tac.
Qed.

Lemma notification_handler_steps w : respects R (notification_handler w).
Proof. unfold notification_handler. cbv zeta. respects_tac. Qed.

Lemma flatten_handler_steps id w : respects R (flatten_handler id w).
Proof.
  unfold flatten_handler. cbv zeta. destruct (_ || _); [respects_tac|].
  apply respects_bind; [apply _|by apply flattenSignature_steps|]. intros _. respects_tac.
Qed.

Lemma scheduled_steps input last : respects R (scheduledAuditVerificationPoll input last).
Proof.
  unfold scheduledAuditVerificationPoll, runScheduledAuditVerification.
  apply respects_bind; [apply _|respects_tac|]. intros now. destruct (negb _); [respects_tac|].
  apply respects_bind; [apply _| |intros r; respects_tac].
  apply respects_bind; [apply _|respects_tac|]. intros orgs.
  apply respects_bind; [apply _| |intros r; respects_tac].
  apply respects_map_each; [apply _|]. intros o _. by apply verifyOrganizationAuditChains_steps.
Qed.

Lemma poll_steps input last : respects (Steps P) (poll input last).
Proof.
  unfold poll.
  apply respects_bind; [apply _| |intros [inspected abandoned]].
  { apply respects_Steps. unfold processDocumentIngestionJobs.
    apply respects_bind; [apply _|by apply cleanupAbandonedUploads_steps|]. intros n.
    apply respects_bind; [apply _| |intros r; respects_tac].
    apply processNext_steps; [done|apply ingestion_handler_steps]. }
  apply respects_bind; [apply _| |intros notified].
  { apply respects_Steps. unfold processSignerNotificationJobs.
    apply respects_bind; [apply _| |intros r; respects_tac].
    apply processNext_steps; [done|apply notification_handler_steps]. }
  apply respects_bind; [apply _| |intros flattened_].
  { apply respects_Steps. unfold processSignatureFlattenJobs.
    apply respects_bind; [apply _| |intros r; respects_tac].
    apply processNext_steps; [done|apply flatten_handler_steps]. }
  apply respects_bind; [apply _| |intros deleted].
  { apply respects_fmap. apply respects_map_each; [apply _|]. intros o _.
    by apply cleanupOrphanedObjects_steps. }
  apply respects_bind; [apply _|apply respects_Steps, scheduled_steps|]. intros [failed last'].
  apply respects_bind; [apply _|apply respects_Steps; respects_tac|]. intros _. respects_tac.
Qed.
End poll.
End verification.

(** ** Calls *)

Inductive UseCase : Type :=
  | CreateDraftDocument (input : CreateDraftDocumentInput.t)
  | CompleteSourceUpload (input : CompleteSourceUploadInput.t)
  | InspectDocument (input : InspectDocumentInput.t)
  | ReplaceDocumentSigners (input : ReplaceSignersInput.t)
  | ReplaceDocumentFields (input : ReplaceFieldsInput.t)
  | SendDocument (input : SendDocumentInput.t)
  | VoidDocument (input : VoidDocumentInput.t)
  | RotateSigningSession (input : RotateSigningSessionInput.t)
  | RevokeSigningSession (input : RevokeSigningSessionInput.t)
  | ResolveSigningSession (rawToken : string)
  | ExchangeSigningToken (rawToken requestId : string) (accountUserId : option string)
  | RecordSignerViewed (rawToken requestId : string) (accountUserId : option string)
  | RecordSignerConsent (input : RecordSignerConsentInput.t)
  | DeclineToSign (input : DeclineToSignInput.t)
  | CompleteSigning (input : CompleteSigningInput.t)
  | DownloadFinalizedArtifact (user : AccountUserActor.t) (documentId requestId : string)
  | LoadDocument (actor : RequestActor) (documentId : string)
  | GetOrganizationDocument (user : AccountUserActor.t) (documentId : string)
  | IssueDocumentPreview (user : AccountUserActor.t) (documentId : string)
  | StreamDocumentPreview (grantId rawToken : string)
  | GetSignerSession (rawToken : string) (accountUserId : option string)
  | GetSignerDocument (rawToken : string) (accountUserId : option string)
  | GetSignerFields (rawToken : string) (accountUserId : option string)
  | GetSignerConsent (rawToken : string) (accountUserId : option string)
  | IssueSignerPreview (rawToken : string) (accountUserId : option string)
  | VerifyAuditChain (input : VerifyAuditChainInput.t)
  | FlattenSignature (input : FlattenSignatureInput.t)
  | CleanupAbandonedUploads (limit : nat)
  | CleanupOrphanedObjects (olderThanMs : Z) (prefixes : list string) (organizationId : string)
  | WorkerPoll (input : PollInput) (lastRunAt : option Z).

Section system.
Context `{Env} `{!AuthorizationPolicy} `{!UnitOfWork} `{!Notifier}
  `{!ImmutableCheckpointStore}.

(** The store after the call, returned or thrown. *)
Definition exec (c : UseCase) (s : St) : St :=
  match c with
  | CreateDraftDocument i => (createDraftDocument i s).2
  | CompleteSourceUpload i => (completeSourceUpload i s).2
  | InspectDocument i => (inspectDocument i s).2
  | ReplaceDocumentSigners i => (replaceDocumentSigners i s).2
  | ReplaceDocumentFields i => (replaceDocumentFields i s).2
  | SendDocument i => (sendDocument i s).2
  | VoidDocument i => (voidDocument i s).2
  | RotateSigningSession i => (rotateSigningSession i s).2
  | RevokeSigningSession i => (revokeSigningSession i s).2
  | ResolveSigningSession t => (resolveSigningSession t s).2
  | ExchangeSigningToken t r u => (exchangeSigningToken t r u s).2
  | RecordSignerViewed t r u => (recordSignerViewed t r u s).2
  | RecordSignerConsent i => (recordSignerConsent i s).2
  | DeclineToSign i => (declineToSign i s).2
  | CompleteSigning i => (completeSigning i s).2
  | DownloadFinalizedArtifact u d r => (downloadFinalizedArtifact u d r s).2
  | LoadDocument a d => (loadDocument a d s).2
  | GetOrganizationDocument u d => (getOrganizationDocument u d s).2
  | IssueDocumentPreview u d => (issueDocumentPreview u d s).2
  | StreamDocumentPreview g t => (streamDocumentPreview g t s).2
  | GetSignerSession t u => (getSignerSession t u s).2
  | GetSignerDocument t u => (getSignerDocument t u s).2
  | GetSignerFields t u => (getSignerFields t u s).2
  | GetSignerConsent t u => (getSignerConsent t u s).2
  | IssueSignerPreview t u => (issueSignerPreview t u s).2
  | VerifyAuditChain i => (verifyAuditChain i s).2
  | FlattenSignature i => (flattenSignature i s).2
  | CleanupAbandonedUploads n => (cleanupAbandonedUploads n s).2
  | CleanupOrphanedObjects t ps o => (cleanupOrphanedObjects t ps o s).2
  | WorkerPoll i t => (poll i t s).2
  end.

(** The tenant of the session a signing token is filed under. *)
Definition token_tenant (rawToken : string) (s : St) (o : string) : Prop :=
  ∃ x, find_row (λ row, String.eqb (SigningSession.tokenHash row) (token_hash rawToken))
         s.(signingSessions) = Some x ∧ o = SigningSession.organizationId x.
Definition upload_tenant (rawToken : string) (s : St) (o : string) : Prop :=
  ∃ x, find_row (λ row, String.eqb (UploadSession.tokenHash row) (token_hash rawToken))
         s.(uploadSessions) = Some x ∧ o = UploadSession.organizationId x.

(** The tenants a call may write: the actor's, the token's or the job's; only
    the worker's sweeps are for all. *)
Definition tenant_of (c : UseCase) (s : St) (o : string) : Prop :=
  let user (a : AccountUserActor.t) := o = AccountUserActor.organizationId a in
  match c with
  | CreateDraftDocument i => user (CreateDraftDocumentInput.actor i)
  | CompleteSourceUpload i => upload_tenant (CompleteSourceUploadInput.rawToken i) s o
  | InspectDocument i => o = InspectDocumentInput.organizationId i
  | ReplaceDocumentSigners i => user (ReplaceSignersInput.actor i)
  | ReplaceDocumentFields i => user (ReplaceFieldsInput.actor i)
  | SendDocument i => user (SendDocumentInput.actor i)
  | VoidDocument i => user (VoidDocumentInput.actor i)
  | RotateSigningSession i => user (RotateSigningSessionInput.actor i)
  | RevokeSigningSession i => user (RevokeSigningSessionInput.actor i)
  | ResolveSigningSession t | ExchangeSigningToken t _ _ | RecordSignerViewed t _ _ =>
    token_tenant t s o
  | RecordSignerConsent i => token_tenant (RecordSignerConsentInput.rawToken i) s o
  | DeclineToSign i => token_tenant (DeclineToSignInput.rawToken i) s o
  | CompleteSigning i => token_tenant (CompleteSigningInput.rawToken i) s o
  | DownloadFinalizedArtifact u _ _ => user u
  | LoadDocument _ _ | StreamDocumentPreview _ _ => False
  | GetOrganizationDocument _ _ => False
  | IssueDocumentPreview u _ => user u
  | GetSignerSession t _ | GetSignerDocument t _ | GetSignerFields t _ | GetSignerConsent t _
  | IssueSignerPreview t _ => token_tenant t s o
  | VerifyAuditChain i => o = VerifyAuditChainInput.organizationId i
  | FlattenSignature i => o = FlattenSignatureInput.organizationId i
  | CleanupOrphanedObjects _ _ o' => o = o'
  | CleanupAbandonedUploads _ | WorkerPoll _ _ => True
  end.

Lemma token_tenant_scope raw s : token_scope (token_tenant raw s) raw s.
Proof. intros x Hx. by exists x. Qed.
Lemma upload_tenant_scope raw s : upload_scope (upload_tenant raw s) raw s.
Proof. intros x Hx. by exists x. Qed.

Lemma exec_steps `{!CheckpointLaws} c s : Steps (tenant_of c s) s (exec c s).
Proof.
  destruct c; simpl.
  all: try (apply (poll_steps (λ _, True)); done).
  all: try (apply (cleanupOrphanedObjects_steps (λ o, o = organizationId)); done).
  all: apply TSteps_Steps.
  - by apply (createDraftDocument_steps _).
  - apply (completeSourceUpload_steps (upload_tenant _ s)), upload_tenant_scope.
  - by apply (inspectDocument_steps _).
  - by apply (replaceDocumentSigners_steps _).
  - by apply (replaceDocumentFields_steps _).
  - by apply (sendDocument_steps _).
  - by apply (voidDocument_steps _).
  - by apply (rotateSigningSession_steps _).
  - by apply (revokeSigningSession_steps _).
  - apply (resolveSigningSession_steps (token_tenant _ s)), token_tenant_scope.
  - apply (exchangeSigningToken_steps (token_tenant _ s)), token_tenant_scope.
  - apply (recordSignerViewed_steps (token_tenant _ s)), token_tenant_scope.
  - apply (recordSignerConsent_steps (token_tenant _ s)), token_tenant_scope.
  - apply (declineToSign_steps (token_tenant _ s)), token_tenant_scope.
  - apply (completeSigning_steps (token_tenant _ s)), token_tenant_scope.
  - by apply (downloadFinalizedArtifact_steps _).
  - apply (loadDocument_steps _).
  - apply (getOrganizationDocument_steps _).
  - by apply (issueDocumentPreview_steps _).
  - apply (streamDocumentPreview_steps _).
  - apply (getSignerSession_steps (token_tenant _ s)), token_tenant_scope.
  - apply (getSignerDocument_steps (token_tenant _ s)), token_tenant_scope.
  - apply (getSignerFields_steps (token_tenant _ s)), token_tenant_scope.
  - apply (getSignerConsent_steps (token_tenant _ s)), token_tenant_scope.
  - apply (issueSignerPreview_steps (token_tenant _ s)), token_tenant_scope.
  - by apply (verifyAuditChain_steps _).
  - by apply (flattenSignature_steps _).
  - by apply (cleanupAbandonedUploads_steps _).
Qed.

(** Stores that calls lead to, from a store and from the start. *)
Definition reaches : relation St := rtc (λ s s', ∃ c, s' = exec c s).
Definition reachable (s : St) : Prop := reaches empty_store s.

Definition run_calls (calls : list UseCase) (s : St) : St := foldl (λ s c, exec c s) s calls.

Lemma run_calls_reaches calls s : reaches s (run_calls calls s).
Proof.
  revert s. induction calls as [|c calls IH]; intros s; [done|]. simpl.
  eapply rtc_l; [by exists c|apply IH].
Qed.

Lemma exec_any_steps `{!CheckpointLaws} c s : Steps (λ _, True) s (exec c s).
Proof. eapply Steps_mono; [|apply exec_steps]. done. Qed.

Lemma reaches_steps `{!CheckpointLaws} s s' : reaches s s' → Steps (λ _, True) s s'.
Proof.
  induction 1 as [|s1 s2 s3 [c ->] _ IH]; [done|]. etrans; [apply exec_any_steps|exact IH].
Qed.

(** What every step keeps holds of every reachable store. *)
Lemma reachable_invariant `{!CheckpointLaws} (I : St → Prop) s :
  (∀ s s', Step (λ _, True) s s' → I s → I s') → I empty_store → reachable s → I s.
Proof.
  intros HI Hinit Hr. apply reaches_steps in Hr.
  induction Hr as [s|s1 s2 s3 Hs _ IH]; [done|]. apply IH. by eapply HI.
Qed.
End system.
