(* ===== verification/Routes.v ===== *)
(** The API: the routes of [apps/api/src/http/routes/] with their middlewares,
    in the order a request passes them, and the application of
    [apps/api/src/create-app.ts] around them.

    Express is not part of the program: [Route.t] is what its router has matched,
    with the parameters of the path, and [Body] what its body parsers have made
    of the body.  Cookies are given to it with their options and are not
    serialized here; CORS, Helmet, time-outs, metrics and the health routes are
    left out.  The members of a JSON answer are in the order the use case wrote
    them. *)

From Stdlib Require Import String.
From S2P Require Export Schemas ConfigRules Sending Ingestion Finalization.
Local Open Scope string_scope.

(** ** Requests and answers *)

Module Route.
(** What the router has matched. *)
Inductive t : Type :=
  (* [/auth] *)
  | login | logout | revokeAccountSession | me
  (* [/organizations/:organizationId] *)
  | organizationMe (organizationId : string)
  | createDocument (organizationId : string)
  | getDocument (organizationId documentId : string)
  | issuePreview (organizationId documentId : string)
  | uploadSource (organizationId documentId : string)
  | replaceSigners (organizationId documentId : string)
  | replaceFields (organizationId documentId : string)
  | sendDocument (organizationId documentId : string)
  | voidDocument (organizationId documentId : string)
  | downloadArtifact (organizationId documentId : string)
  | rotateSession (organizationId documentId signerId : string)
  | revokeSession (organizationId documentId sessionId : string)
  | verifyDocument (organizationId documentId : string)
  | verifyOrganization (organizationId : string)
  (* [/document-previews] *)
  | streamPreview (grantId : string)
  (* [/signing] *)
  | exchange | signingSession | signingDocument | signingFields | getConsent | signingPreviews
  | signingViewed | recordConsent | decline | complete.
End Route.

(** A body that could not be read: the parser's error, with its [type]. *)
Inductive Body : Type :=
  | NoBody
  | JsonBody (v : value)
  | BytesBody (l : list Z)
  | Unreadable (type : option string) (e : Exn).

(** [req.body ?? {}], and [req.body]. *)
Definition body_or_empty (b : Body) : value :=
  match b with JsonBody VNull | NoBody => VObj [] | JsonBody v => v | _ => VUndef end.
Definition body_value (b : Body) : value := match b with JsonBody v => v | _ => VUndef end.

Module CookieOptions.
(* [src: apps/api/src/http/cookies.ts:43-51 sessionCookieOptions] *)
Record t : Type := mk { httpOnly : bool; secure : bool; sameSite : string; path : string; maxAge : Z }.
End CookieOptions.

(** A call of [res.cookie] or [res.clearCookie]. *)
Inductive CookieCall : Type :=
  | SetCookie (name value : string) (options : CookieOptions.t)
  | ClearCookie (name : string) (options : CookieOptions.t).

Inductive Payload : Type :=
  | Json (v : value)
  | Bytes (l : list Z)
  | Empty.

Record Reply : Type := mkReply { reply_status : Z; reply_payload : Payload }.

Module Res.
(** What has been set on the response so far. *)
Record t : Type := mk { headers : list (string * string); cookies : list CookieCall }.
Definition fresh : t := mk [] [].
End Res.

Module Answer.
(** What the client gets. *)
Record t : Type := mk {
  status : Z;
  headers : list (string * string);
  cookies : list CookieCall;
  payload : Payload
}.
End Answer.

(** ** The server and the context of a request *)

Module Server.
Record t : Type := mk {
  store : St;
  auth : AuthSt;
  loginBuckets : Buckets;
  signingBuckets : Buckets;
  apiBuckets : Buckets;
  overload : Overload.t
}.
Definition set_store v s := mk v s.(auth) s.(loginBuckets) s.(signingBuckets) s.(apiBuckets) s.(overload).
Definition set_auth v s := mk s.(store) v s.(loginBuckets) s.(signingBuckets) s.(apiBuckets) s.(overload).
Definition set_loginBuckets v s := mk s.(store) s.(auth) v s.(signingBuckets) s.(apiBuckets) s.(overload).
Definition set_signingBuckets v s := mk s.(store) s.(auth) s.(loginBuckets) v s.(apiBuckets) s.(overload).
Definition set_apiBuckets v s := mk s.(store) s.(auth) s.(loginBuckets) s.(signingBuckets) v s.(overload).
Definition set_overload v s := mk s.(store) s.(auth) s.(loginBuckets) s.(signingBuckets) s.(apiBuckets) v.
End Server.

Record Ctx : Type := mkCtx { server : Server.t; res : Res.t }.
Definition on_server (f : Server.t → Server.t) (c : Ctx) : Ctx := mkCtx (f c.(server)) c.(res).
Definition on_res (f : Res.t → Res.t) (c : Ctx) : Ctx := mkCtx c.(server) (f c.(res)).

(** A chain of middlewares ends with an error, passed to [next] with the [type]
    a body parser gave it, or with an answer of a middleware. *)
Inductive Exit : Type :=
  | Errored (type : option string) (e : Exn)
  | Replied (r : Response).

Abbreviation Web := (M Exit Ctx).

Definition fail {A} (e : Exn) : Web A := throw (Errored None e).

Definition lift_result {A} (r : Result Exn A) : Web A :=
  match r with Ok a => mret a | Throw e => fail e end.

(** A use case runs on the store. *)
Definition on_store {A} (m : Run A) : Web A := λ c,
  let '(r, s) := m c.(server).(Server.store) in
  (match r with Ok a => Ok a | Throw e => Throw (Errored None e) end,
   on_server (Server.set_store s) c).

(** The account's side runs on its own tables, with the clock and generators
    of the store. *)
Definition auth_view (s : Server.t) : AuthSt :=
  let a := s.(Server.auth) in
  mkAuth a.(users) a.(memberships) a.(accountSessions) a.(securityEvents)
    s.(Server.store).(clockReads) s.(Server.store).(idReads) s.(Server.store).(tokenReads).
Definition put_auth (a : AuthSt) (s : Server.t) : Server.t :=
  Server.set_store (set_tokenReads a.(auth_tokenReads) (set_idReads a.(auth_idReads)
    (set_clockReads a.(auth_clockReads) s.(Server.store)))) (Server.set_auth a s).
Definition on_auth {A} (m : AuthRun A) : Web A := λ c,
  let '(r, a) := m (auth_view c.(server)) in
  (match r with Ok x => Ok x | Throw e => Throw (Errored None e) end, on_server (put_auth a) c).

(** [next], [next(error)] or an answer. *)
Definition handled (h : Handled) : Web unit :=
  match h with Next => mret tt | Failed e => fail e | Answered r => throw (Replied r) end.

(** [res.setHeader] and [res.cookie]. *)
Definition setHeader (name v : string) : Web unit :=
  modify (on_res (λ r, Res.mk (map_set name v (Res.headers r)) (Res.cookies r))).
Definition cookie_call (k : CookieCall) : Web unit :=
  modify (on_res (λ r, Res.mk (Res.headers r) (Res.cookies r ++ [k])%list)).

Module SessionCookieSettings.
(* [src: apps/api/src/http/cookies.ts:3-9 SessionCookieSettings] *)
Record t : Type := mk {
  sessionCookieName : string;
  csrfCookieName : string;
  secure : bool;
  maxAgeSeconds : Z;
  path : option string
}.
End SessionCookieSettings.

(* [src: apps/api/src/http/cookies.ts:43-51 sessionCookieOptions] *)
Definition sessionCookieOptions (s : SessionCookieSettings.t) : CookieOptions.t :=
  CookieOptions.mk true (SessionCookieSettings.secure s) "lax"
    (default "/" (SessionCookieSettings.path s)) (SessionCookieSettings.maxAgeSeconds s * 1000).
(* [src: apps/api/src/http/cookies.ts:53-61 csrfCookieOptions] *)
Definition csrfCookieOptions (s : SessionCookieSettings.t) : CookieOptions.t :=
  CookieOptions.mk false (SessionCookieSettings.secure s) "strict"
    (default "/" (SessionCookieSettings.path s)) (SessionCookieSettings.maxAgeSeconds s * 1000).

(* [src: apps/api/src/http/cookies.ts:29-36 setSessionCookies] *)
Definition setSessionCookies (s : SessionCookieSettings.t) (sessionToken csrfToken : string) : Web unit :=
  cookie_call (SetCookie (SessionCookieSettings.sessionCookieName s) sessionToken (sessionCookieOptions s));;
  cookie_call (SetCookie (SessionCookieSettings.csrfCookieName s) csrfToken (csrfCookieOptions s)).
(* [src: apps/api/src/http/cookies.ts:38-41 clearSessionCookies] *)
Definition clearSessionCookies (s : SessionCookieSettings.t) : Web unit :=
  cookie_call (ClearCookie (SessionCookieSettings.sessionCookieName s) (sessionCookieOptions s));;
  cookie_call (ClearCookie (SessionCookieSettings.csrfCookieName s) (csrfCookieOptions s)).

(** [req.header(name)?.trim()], when there is something. *)
(* [src: apps/api/src/http/routes/documents.ts:421-430 headerValue] *)
Definition headerValue (r : Request.t) (name : string) : option string :=
  v ← Request.header r name;
  let v := trim v in
  if String.eqb v EmptyString then None else Some v.

(** [value.replaceAll('', '')] of the double quote, for a file name in a header. *)
Definition unquoted (s : string) : string :=
  of_units (List.filter (λ c, negb (code c =? 34)%Z) (units s)).
Definition disposition (kind name : string) : string :=
  let quote := of_units [char 34] in
  kind +:+ "; filename=" +:+ quote +:+ unquoted name +:+ quote.

(* [src: apps/api/src/http/middleware/require-signer-session.ts:10-15 SIGNING_RESPONSE_HEADERS] *)
Definition SIGNING_RESPONSE_HEADERS : list (string * string) :=
  [("Cache-Control", "no-store"); ("Pragma", "no-cache"); ("Referrer-Policy", "no-referrer");
   ("Content-Security-Policy", "default-src 'none'; frame-ancestors 'none'; base-uri 'none'")].

(** The headers of a document's bytes. *)
Definition content_headers (contentType disposition : string) : Web unit :=
  setHeader "Content-Type" contentType;;
  setHeader "Cache-Control" "no-store";;
  setHeader "Pragma" "no-cache";;
  setHeader "Referrer-Policy" "no-referrer";;
  setHeader "Content-Disposition" disposition.

(** ** Routes *)

Section routes.
Context `{Env} `{!AuthorizationPolicy} `{!UnitOfWork} `{!Notifier} `{!ImmutableCheckpointStore}
  `{!IdentityProvider}.
(** Zod's date format and the text of its errors, and [new URL(s).origin]. *)
Context (datetime : string → bool) (zod_message : value → string)
  (url_origin : string → option string) (config : ApiConfig.t bool).

(** [schema.parse(v)] of an answer: a value the schema refuses is a [ZodError]. *)
Definition parsed (s : schema) (v : value) : Web value :=
  if s v then mret v else fail (OtherError "ZodError" (zod_message v)).
Definition json (status : Z) (s : schema) (v : value) : Web Reply :=
  v ← parsed s v; mret (mkReply status (Json v)).

(** [schema.safeParse(v)] of a request, or the route's error. *)
Definition request_body {A} (s : schema) (read : value → A) (v : value) (invalid : object) : Web A :=
  match safe_parse s read v with Some a => mret a | None => fail (ValidationError invalid) end.

(** [express.json] and [express.raw]: an unreadable body is their error. *)
Definition read_body (b : Body) : Web unit :=
  match b with Unreadable type e => throw (Errored type e) | _ => mret tt end.

Definition requestId (r : Request.t) : string := default EmptyString (Request.correlationId r).

(** [singleParam] and a check of the format. *)
Definition parse_id (field id : string) : Web string :=
  if zod_uuid id then mret id else fail (ValidationError (fieldReason field "invalid")).
(* [src: apps/api/src/http/routes/documents.ts:377-383 parseOrganizationId] *)
Definition parseOrganizationId : string → Web string := parse_id "organizationId".
(* [src: apps/api/src/http/routes/documents.ts:385-391 parseDocumentId] *)
Definition parseDocumentId : string → Web string := parse_id "documentId".
(* [src: apps/api/src/http/routes/documents.ts:393-399 parseGrantId] *)
Definition parseGrantId : string → Web string := parse_id "grantId".
(* [src: apps/api/src/http/routes/documents.ts:401-407 parseSignerId] *)
Definition parseSignerId : string → Web string := parse_id "signerId".
(* [src: apps/api/src/http/routes/documents.ts:409-415 parseSessionId] *)
Definition parseSessionId : string → Web string := parse_id "sessionId".

(** *** Middlewares *)

(* [src: apps/api/src/http/middleware/require-origin.ts:5-15 createRequireAllowedOrigin] *)
Definition requireOrigin (r : Request.t) : Web unit :=
  handled (requireAllowedOrigin url_origin (ApiConfig.CORS_ORIGINS config) r).

(* [src: apps/api/src/http/middleware/require-account-session.ts:5-18 createRequireAccountSession] *)
Definition requireSession (r : Request.t) : Web AccountSession.t :=
  on_auth (resolveAccountSession
    (map_get (ApiConfig.AUTH_SESSION_COOKIE_NAME config) (Request.cookies r))).

(* [src: apps/api/src/http/middleware/require-account-session.ts:20-47 createRequireCsrf] *)
Definition requireCsrf (session : AccountSession.t) (r : Request.t) : Web unit :=
  if isCsrfSafeMethod (Request.method r) then mret tt else
  lift_result (assertCsrfToken
    (Request.header r (ApiConfig.AUTH_CSRF_HEADER_NAME config))
    (map_get (ApiConfig.AUTH_CSRF_COOKIE_NAME config) (Request.cookies r))
    (AccountSession.csrfTokenHash session) token_hash).

(* [src: apps/api/src/http/middleware/require-organization-membership.ts:6-29 createRequireOrganizationMembership] *)
Definition requireMembership (session : AccountSession.t) (organizationId : string) :
    Web AccountUserActor.t :=
  organizationId ← parseOrganizationId organizationId;
  resolved ← on_auth (resolveOrganizationActor (AccountSession.userId session) organizationId);
  mret resolved.1.

(* [src: packages/application/src/auth/organization-actor.ts:63-72 createAssertAccountAction] *)
Definition assertAction (actor : AccountUserActor.t) (action : AuthorizationAction.t) : Web unit :=
  lift_result (assertAllowed (account_user actor) action
    (org_resource (AccountUserActor.organizationId actor))).

(** The middlewares before a route that changes something, and before one that
    reads. *)
Definition changing (r : Request.t) (organizationId : string) : Web AccountUserActor.t :=
  requireOrigin r;;
  session ← requireSession r;
  requireCsrf session r;;
  requireMembership session organizationId.
Definition reading (r : Request.t) (organizationId : string) : Web AccountUserActor.t :=
  session ← requireSession r;
  requireMembership session organizationId.

(** *** Accounts *)

Definition accountCookies : SessionCookieSettings.t :=
  SessionCookieSettings.mk (ApiConfig.AUTH_SESSION_COOKIE_NAME config)
    (ApiConfig.AUTH_CSRF_COOKIE_NAME config) (ApiConfig.AUTH_COOKIE_SECURE config)
    (ApiConfig.AUTH_SESSION_TTL_SECONDS config) None.

Definition client_address (r : Request.t) : string :=
  default "unknown" (match Request.clientIp r with Some ip => Some ip | None => Request.ip r end).

Definition take_login (key : string) : Web unit :=
  now ← on_store nowUtc;
  buckets ← gets (λ c, c.(server).(Server.loginBuckets));
  let '(decision, buckets) := consume (ApiConfig.AUTH_LOGIN_RATE_LIMIT_MAX config)
    (ApiConfig.AUTH_LOGIN_RATE_LIMIT_WINDOW_MS config) key now buckets in
  modify (on_server (Server.set_loginBuckets buckets));;
  if RateLimitDecision.allowed decision then mret tt
  else fail (RateLimitError
    [("retryAfterSeconds", VInt (RateLimitDecision.retryAfterSeconds decision))]).

(* [src: apps/api/src/http/routes/account-auth.ts:189-210 consumeLoginRateLimit] *)
Definition consumeLoginRateLimit (r : Request.t) (body : value) : Web unit :=
  take_login ("login:ip:" +:+ sha256Hex (client_address r));;
  match member "email" body with
  | VStr email =>
    if String.eqb (trim email) EmptyString then mret tt
    else take_login ("login:email:" +:+ sha256Hex (toLowerCase (trim email)))
  | _ => mret tt
  end.

(* [src: apps/api/src/http/routes/account-auth.ts:75-101 POST /auth/login] *)
Definition post_login (r : Request.t) (b : Body) : Web Reply :=
  read_body b;;
  requireOrigin r;;
  consumeLoginRateLimit r (body_value b);;
  '(email, secret) ← request_body loginRequestSchema read_login (body_value b)
                       (reasonOnly "invalid_login");
  let existing := map_get (ApiConfig.AUTH_SESSION_COOKIE_NAME config) (Request.cookies r) in
  let existingHash := match existing with
                      | None | Some EmptyString => None
                      | Some token => Some (token_hash token)
                      end in
  '(user, session, rawSessionToken, rawCsrfToken) ←
    on_auth (loginAccountUser (AuthProvider.to_string (ApiConfig.AUTH_PROVIDER config))
               email secret (requestId r) existingHash);
  setSessionCookies accountCookies rawSessionToken rawCsrfToken;;
  json 200 (loginResponseSchema datetime)
    (VObj [("userId", VStr (AccountUser.id user));
           ("expiresAt", VStr (toISOString (AccountSession.expiresAt session)))]).

(* [src: apps/api/src/http/routes/account-auth.ts:103-117 POST /auth/logout] *)
Definition post_logout (r : Request.t) (b : Body) : Web Reply :=
  read_body b;;
  requireOrigin r;;
  session ← requireSession r;
  requireCsrf session r;;
  on_auth (logoutAccountUser session (requestId r));;
  clearSessionCookies accountCookies;;
  mret (mkReply 204 Empty).

(* [src: apps/api/src/http/routes/account-auth.ts:119-143 POST /auth/sessions/revoke] *)
Definition post_sessions_revoke (r : Request.t) (b : Body) : Web Reply :=
  read_body b;;
  requireOrigin r;;
  session ← requireSession r;
  requireCsrf session r;;
  sessionId ← request_body revokeSessionRequestSchema read_revoke (body_value b)
                (fieldReason "sessionId" "invalid");
  on_auth (revokeAccountSession (AccountSession.userId session) sessionId (requestId r));;
  (if String.eqb sessionId (AccountSession.id session) then clearSessionCookies accountCookies
   else mret tt);;
  mret (mkReply 204 Empty).

(** The memberships of a user, as the route shows them. *)
Definition membership_summary (m : OrganizationMembership.t) : value :=
  VObj [("membershipId", VStr (OrganizationMembership.id m));
        ("organizationId", VStr (OrganizationMembership.organizationId m));
        ("role", VStr (MembershipRole.to_string (OrganizationMembership.role m)))].

(* [src: packages/application/src/auth/organization-actor.ts:14-28 createLoadCurrentAccountUser] *)
Definition loadCurrentAccountUser (userId : string) :
    AuthRun (AccountUser.t * list OrganizationMembership.t) :=
  user ← findUserById userId;
  match user with
  | None => throw (AuthenticationError (reasonOnly "account_user_missing"))
  | Some user =>
    memberships ← gets (λ s, List.filter
      (λ m, String.eqb (OrganizationMembership.userId m) userId) s.(memberships));
    mret (user, memberships)
  end.

(* [src: apps/api/src/http/routes/account-auth.ts:145-165 GET /auth/me] *)
Definition get_me (r : Request.t) (b : Body) : Web Reply :=
  read_body b;;
  session ← requireSession r;
  '(user, memberships) ← on_auth (loadCurrentAccountUser (AccountSession.userId session));
  json 200 currentAccountUserResponseSchema
    (VObj [("userId", VStr (AccountUser.id user));
           ("displayName", VStr (AccountUser.displayName user));
           ("memberships", VArr (membership_summary <$> memberships))]).

(* [src: apps/api/src/http/routes/account-auth.ts:167-185 GET /organizations/:organizationId/me] *)
Definition get_organization_me (organizationId : string) (r : Request.t) : Web Reply :=
  actor ← reading r organizationId;
  assertAction actor AuthorizationAction.organization_membership_read;;
  json 200 organizationActorResponseSchema
    (VObj [("userId", VStr (AccountUserActor.userId actor));
           ("organizationId", VStr (AccountUserActor.organizationId actor));
           ("membershipId", VStr (AccountUserActor.membershipId actor));
           ("role", VStr (MembershipRole.to_string (AccountUserActor.role actor)))]).

(** *** Documents and audit *)

(** A route on the JSON of an organization, for a member who may take the
    action. *)
Definition member_route (r : Request.t) (b : Body) (organizationId : string)
    (action : option AuthorizationAction.t) : Web AccountUserActor.t :=
  read_body b;;
  actor ← changing r organizationId;
  match action with Some action => assertAction actor action | None => mret tt end;;
  mret actor.
Definition reader_route (r : Request.t) (b : Body) (organizationId : string)
    (action : option AuthorizationAction.t) : Web AccountUserActor.t :=
  read_body b;;
  actor ← reading r organizationId;
  match action with Some action => assertAction actor action | None => mret tt end;;
  mret actor.

Definition idempotencyKey (r : Request.t) : string :=
  default EmptyString (headerValue r "idempotency-key").

(* [src: apps/api/src/http/routes/documents.ts:91-116 POST /organizations/:organizationId/documents] *)
Definition post_documents (organizationId : string) (r : Request.t) (b : Body) : Web Reply :=
  actor ← member_route r b organizationId (Some AuthorizationAction.document_write);
  '(title, filename) ← request_body createDocumentRequestSchema read_create (body_or_empty b)
                         (reasonOnly "invalid_create_document");
  result ← on_store (createDraftDocument
    (CreateDraftDocumentInput.mk actor title filename (idempotencyKey r) (requestId r)));
  json 201 (createDocumentResponseSchema datetime) (VObj result).

(* [src: apps/api/src/http/routes/documents.ts:118-131 GET /organizations/:organizationId/documents/:documentId] *)
Definition get_document (organizationId documentId : string) (r : Request.t) (b : Body) : Web Reply :=
  actor ← reader_route r b organizationId None;
  documentId ← parseDocumentId documentId;
  result ← on_store (getOrganizationDocument actor documentId);
  json 200 publicDocumentSchema (VObj result).

Definition preview_value (p : PreviewView.t) : value :=
  VObj [("url", VStr (PreviewView.url p)); ("expiresAt", VStr (PreviewView.expiresAt p));
        ("tokenHeader", VStr (PreviewView.tokenHeader p)); ("token", VStr (PreviewView.token p));
        ("contentType", VStr (PreviewView.contentType p))].

(* [src: apps/api/src/http/routes/documents.ts:133-148 POST /organizations/:organizationId/documents/:documentId/previews] *)
Definition post_previews (organizationId documentId : string) (r : Request.t) (b : Body) : Web Reply :=
  actor ← member_route r b organizationId None;
  documentId ← parseDocumentId documentId;
  result ← on_store (issueDocumentPreview actor documentId);
  json 201 (issuePreviewResponseSchema datetime) (preview_value result).

(* [src: apps/api/src/http/routes/documents.ts:432-440 requestBytes] *)
Definition requestBytes (b : Body) : Web (list Z) :=
  match b with
  | BytesBody l => mret l
  | _ => fail (ValidationError (reasonOnly "empty_body"))
  end.

(** The token in a header, which must be there. *)
Definition header_token (r : Request.t) (name : string) : Web string :=
  match headerValue r name with
  | Some token => mret token
  | None => fail (ValidationError (fieldReason name "missing"))
  end.

(* [src: apps/api/src/http/routes/documents.ts:150-174 PUT /organizations/:organizationId/documents/:documentId/source] *)
Definition put_source (organizationId documentId : string) (r : Request.t) (b : Body) : Web Reply :=
  read_body b;;
  organizationId ← parseOrganizationId organizationId;
  documentId ← parseDocumentId documentId;
  token ← header_token r (ApiConfig.DOCUMENT_UPLOAD_TOKEN_HEADER config);
  body ← requestBytes b;
  result ← on_store (completeSourceUpload (CompleteSourceUploadInput.mk organizationId documentId
    token (Request.header r "content-type") body (requestId r)));
  json 200 publicDocumentSchema (VObj result).

(* [src: apps/api/src/http/routes/documents.ts:176-198 GET /document-previews/:grantId] *)
Definition get_preview (grantId : string) (r : Request.t) : Web Reply :=
  grantId ← parseGrantId grantId;
  token ← header_token r (ApiConfig.DOCUMENT_PREVIEW_TOKEN_HEADER config);
  result ← on_store (streamDocumentPreview grantId token);
  content_headers (StreamDocumentPreviewResult.contentType result)
    (disposition "inline" (StreamDocumentPreviewResult.displayName result));;
  mret (mkReply 200 (Bytes (StreamDocumentPreviewResult.body result))).

(* [src: apps/api/src/http/routes/documents.ts:200-225 PUT /organizations/:organizationId/documents/:documentId/signers] *)
Definition put_signers (organizationId documentId : string) (r : Request.t) (b : Body) : Web Reply :=
  actor ← member_route r b organizationId (Some AuthorizationAction.document_write);
  '(signingMode, rows) ← request_body replaceSignersRequestSchema read_signers (body_or_empty b)
                           (reasonOnly "invalid_signers");
  documentId ← parseDocumentId documentId;
  result ← on_store (replaceDocumentSigners
    (ReplaceSignersInput.mk actor documentId signingMode rows (requestId r)));
  json 200 publicDocumentSchema (VObj result).

(* [src: apps/api/src/http/routes/documents.ts:227-252 PUT /organizations/:organizationId/documents/:documentId/fields] *)
Definition put_fields (organizationId documentId : string) (r : Request.t) (b : Body) : Web Reply :=
  actor ← member_route r b organizationId (Some AuthorizationAction.document_write);
  rows ← request_body replaceFieldsRequestSchema read_fields (body_or_empty b)
           (reasonOnly "invalid_fields");
  documentId ← parseDocumentId documentId;
  result ← on_store (replaceDocumentFields (ReplaceFieldsInput.mk actor documentId
    (ApiConfig.DOCUMENT_FIELD_OVERLAP_POLICY config) rows (requestId r)));
  json 200 publicDocumentSchema (VObj result).

(* [src: apps/api/src/http/routes/documents.ts:254-279 POST /organizations/:organizationId/documents/:documentId/send] *)
Definition post_send (organizationId documentId : string) (r : Request.t) (b : Body) : Web Reply :=
  actor ← member_route r b organizationId (Some AuthorizationAction.document_send);
  expiresAt ← request_body (sendDocumentRequestSchema datetime) read_send (body_or_empty b)
                (reasonOnly "invalid_send");
  documentId ← parseDocumentId documentId;
  result ← on_store (sendDocument
    (SendDocumentInput.mk actor documentId expiresAt (idempotencyKey r) (requestId r)));
  json 200 (sendDocumentResponseSchema datetime) (VObj result).

(* [src: apps/api/src/http/routes/documents.ts:281-301 POST /organizations/:organizationId/documents/:documentId/void] *)
Definition post_void (organizationId documentId : string) (r : Request.t) (b : Body) : Web Reply :=
  actor ← member_route r b organizationId (Some AuthorizationAction.document_void);
  documentId ← parseDocumentId documentId;
  result ← on_store (voidDocument
    (VoidDocumentInput.mk actor documentId (idempotencyKey r) (requestId r)));
  json 200 publicDocumentSchema (VObj result).

(* [src: apps/api/src/http/routes/documents.ts:303-328 GET /organizations/:organizationId/documents/:documentId/artifact] *)
Definition get_artifact (organizationId documentId : string) (r : Request.t) (b : Body) : Web Reply :=
  actor ← reader_route r b organizationId (Some AuthorizationAction.document_download_artifact);
  documentId ← parseDocumentId documentId;
  '(body, displayName, _, _) ← on_store (downloadFinalizedArtifact actor documentId (requestId r));
  content_headers "application/pdf" (disposition "attachment" displayName);;
  mret (mkReply 200 (Bytes body)).

(* [src: apps/api/src/http/routes/documents.ts:330-350 POST .../signers/:signerId/sessions/rotate] *)
Definition post_rotate (organizationId documentId signerId : string) (r : Request.t) (b : Body) :
    Web Reply :=
  actor ← member_route r b organizationId (Some AuthorizationAction.document_send);
  documentId ← parseDocumentId documentId;
  signerId ← parseSignerId signerId;
  result ← on_store (rotateSigningSession
    (RotateSigningSessionInput.mk actor documentId signerId (requestId r)));
  json 201 (rotateSessionResponseSchema datetime) (VObj result).

(* [src: apps/api/src/http/routes/documents.ts:352-372 POST .../sessions/:sessionId/revoke] *)
Definition post_revoke (organizationId documentId sessionId : string) (r : Request.t) (b : Body) :
    Web Reply :=
  actor ← member_route r b organizationId (Some AuthorizationAction.document_send);
  documentId ← parseDocumentId documentId;
  sessionId ← parseSessionId sessionId;
  result ← on_store (revokeSigningSession
    (RevokeSigningSessionInput.mk actor documentId sessionId (requestId r)));
  json 200 revokeSessionResponseSchema (VObj result).

Definition warning_code (c : WarningCode) : string :=
  match c with
  | CHECKPOINT_ANCHORING_DISABLED => "CHECKPOINT_ANCHORING_DISABLED"
  | CHECKPOINT_STORE_UNAVAILABLE => "CHECKPOINT_STORE_UNAVAILABLE"
  end.
Definition report_value (x : Report.t) : value :=
  VObj [("ok", VBool (Report.ok x)); ("schemaVersion", VInt (Report.schemaVersion x));
        ("organizationId", VStr (Report.organizationId x)); ("documentId", VStr (Report.documentId x));
        ("eventCount", VInt (Report.eventCount x)); ("checkedAt", VStr (Report.checkedAt x));
        ("headEventHash", VOptStr (Report.headEventHash x));
        ("headSequence", nullable VInt (Report.headSequence x));
        ("failures", VArr ((λ f, VObj
           [("code", VStr (FailureCode.to_string (Failure.code f)));
            ("organizationId", VStr (Failure.organizationId f));
            ("documentId", VStr (Failure.documentId f));
            ("sequence", nullable VInt (Failure.sequence f));
            ("eventId", VOptStr (Failure.eventId f))]) <$> Report.failures x));
        ("warnings", VArr ((λ w, VObj
           [("code", VStr (warning_code (Warning.code w)));
            ("organizationId", VStr (Warning.organizationId w));
            ("documentId", VStr (Warning.documentId w))]) <$> Report.warnings x))].
Definition organization_report_value (x : OrganizationReport.t) : value :=
  VObj [("ok", VBool (OrganizationReport.ok x));
        ("organizationId", VStr (OrganizationReport.organizationId x));
        ("documentCount", VInt (OrganizationReport.documentCount x));
        ("failedDocumentCount", VInt (OrganizationReport.failedDocumentCount x));
        ("checkedAt", VStr (OrganizationReport.checkedAt x));
        ("reports", VArr (report_value <$> OrganizationReport.reports x))].

(* [src: apps/api/src/http/routes/audit.ts:53-74 POST .../documents/:documentId/audit/verify] *)
Definition post_verify_document (organizationId documentId : string) (r : Request.t) (b : Body) :
    Web Reply :=
  actor ← member_route r b organizationId (Some AuthorizationAction.audit_verify);
  organizationId ← parseOrganizationId organizationId;
  documentId ← parseDocumentId documentId;
  report ← on_store (verifyAuditChain
    (VerifyAuditChainInput.mk organizationId documentId (Some (account_user actor))));
  json 200 (auditVerificationReportSchema datetime) (report_value report).

(* [src: apps/api/src/http/routes/audit.ts:76-95 POST /organizations/:organizationId/audit/verify] *)
Definition post_verify_organization (organizationId : string) (r : Request.t) (b : Body) : Web Reply :=
  actor ← member_route r b organizationId (Some AuthorizationAction.audit_verify);
  organizationId ← parseOrganizationId organizationId;
  report ← on_store (verifyOrganizationAuditChains organizationId (Some (account_user actor)) None);
  json 200 (organizationAuditVerificationReportSchema datetime) (organization_report_value report).

(** *** Signing *)

Definition signingCookies : SessionCookieSettings.t :=
  SessionCookieSettings.mk (ApiConfig.SIGNING_SESSION_COOKIE_NAME config)
    (ApiConfig.SIGNING_CSRF_COOKIE_NAME config) (ApiConfig.AUTH_COOKIE_SECURE config)
    (ApiConfig.SIGNING_SESSION_TTL_SECONDS config) (Some "/signing").

(* [src: apps/api/src/http/middleware/require-signer-session.ts:17-24 createSigningResponseHeaders] *)
Definition signingResponseHeaders : Web unit :=
  for_each (λ '(name, v), setHeader name v) SIGNING_RESPONSE_HEADERS.

(* [src: apps/api/src/http/middleware/require-signer-session.ts:26-38 createSigningRateLimit] *)
Definition signingRateLimit (r : Request.t) : Web unit :=
  now ← on_store nowUtc;
  buckets ← gets (λ c, c.(server).(Server.signingBuckets));
  let '(decision, buckets) := consume (ApiConfig.SIGNING_RATE_LIMIT_MAX config)
    (ApiConfig.SIGNING_RATE_LIMIT_WINDOW_MS config) ("signing:" +:+ client_address r) now buckets in
  modify (on_server (Server.set_signingBuckets buckets));;
  if RateLimitDecision.allowed decision then mret tt
  else fail (RateLimitError
    [("retryAfterSeconds", VInt (RateLimitDecision.retryAfterSeconds decision))]).

(** What every request under [/signing] passes. *)
(* [src: apps/api/src/http/routes/signing.ts:87-93 router.use] *)
Definition signing_entry (r : Request.t) (b : Body) : Web unit :=
  read_body b;; signingResponseHeaders;; signingRateLimit r.

(* [src: apps/api/src/http/middleware/require-signer-session.ts:40-52 createRequireSignerToken] *)
Definition requireToken (r : Request.t) : Web string :=
  lift_result (requireSignerToken (ApiConfig.SIGNING_SESSION_COOKIE_NAME config) r).

(* [src: apps/api/src/compose-documents.ts:288-291 loadCsrfHash] *)
Definition loadCsrfHash (rawToken : string) : Run (option string) :=
  session ← SigningSessions.findByTokenHash (token_hash rawToken);
  mret (session ≫= SigningSession.csrfTokenHash).

(** The middleware looks the session up unless the method is safe. *)
(* [src: apps/api/src/http/middleware/require-signer-session.ts:54-86 createRequireSignerCsrf] *)
Definition requireSigningCsrf (token : string) (r : Request.t) : Web unit :=
  expected ← (if isCsrfSafeMethod (Request.method r) then mret None
              else on_store (loadCsrfHash token));
  lift_result (requireSignerCsrf (ApiConfig.SIGNING_CSRF_COOKIE_NAME config)
    (ApiConfig.AUTH_CSRF_HEADER_NAME config) token_hash (λ _, Ok expected) (Some token) r).

(** A signer's request that reads, and one that changes something. *)
Definition signer_reads (r : Request.t) (b : Body) : Web string := signing_entry r b;; requireToken r.
Definition signer_changes (r : Request.t) (b : Body) : Web string :=
  signing_entry r b;;
  requireOrigin r;;
  token ← requireToken r;
  requireSigningCsrf token r;;
  mret token.

(* [src: apps/api/src/http/routes/signing.ts:271-284 metadataFromRequest] *)
Definition metadataFromRequest (r : Request.t) : ClientRequestMetadata.t :=
  clientRequestMetadataFromHeaders None
    (match Request.clientIp r with Some ip => Some ip | None => Request.ip r end)
    (Request.header r "user-agent").

(* [src: apps/api/src/http/routes/signing.ts:95-122 POST /signing/exchange] *)
Definition post_exchange (r : Request.t) (b : Body) : Web Reply :=
  signing_entry r b;;
  requireOrigin r;;
  bodyToken ← request_body exchangeSigningTokenRequestSchema read_exchange (body_or_empty b)
                (reasonOnly "invalid_exchange");
  rawToken ← lift_result (extractExchangeToken bodyToken (Request.header r "authorization"));
  result ← on_store (exchangeSigningToken rawToken (requestId r) None);
  setSessionCookies signingCookies (str_of (prop "rawSessionToken" result))
    (str_of (prop "rawCsrfToken" result));;
  json 200 (exchangeSigningTokenResponseSchema datetime)
    (VObj [("sessionId", prop "sessionId" result); ("expiresAt", prop "expiresAt" result)]).

Definition session_view_value (x : SignerSessionView.t) : value :=
  VObj [("documentId", VStr (SignerSessionView.documentId x));
        ("signerId", VStr (SignerSessionView.signerId x));
        ("sessionId", VStr (SignerSessionView.sessionId x));
        ("sessionStatus", VStr (SignerSessionView.sessionStatus x));
        ("title", VStr (SignerSessionView.title x));
        ("signingMode", VStr (SigningMode.to_string (SignerSessionView.signingMode x)));
        ("expiresAt", VStr (SignerSessionView.expiresAt x));
        ("signerDisplayName", VStr (SignerSessionView.signerDisplayName x));
        ("signerStatus", VStr (SignerStatus.to_string (SignerSessionView.signerStatus x)));
        ("consentRequired", VBool (SignerSessionView.consentRequired x));
        ("consented", VBool (SignerSessionView.consented x))].
Definition document_view_value (x : SignerDocumentView.t) : value :=
  VObj [("documentId", VStr (SignerDocumentView.documentId x));
        ("title", VStr (SignerDocumentView.title x));
        ("signingMode", VStr (SigningMode.to_string (SignerDocumentView.signingMode x)));
        ("pageCount", nullable VInt (SignerDocumentView.pageCount x));
        ("signerDisplayName", VStr (SignerDocumentView.signerDisplayName x))].
Definition field_view_value (x : SignerFieldView.t) : value :=
  VObj [("fieldId", VStr (SignerFieldView.fieldId x));
        ("type", VStr (SignatureFieldType.to_string (SignerFieldView.type x)));
        ("pageNumber", VNum (SignerFieldView.pageNumber x)); ("x", VNum (SignerFieldView.x x));
        ("y", VNum (SignerFieldView.y x)); ("width", VNum (SignerFieldView.width x));
        ("height", VNum (SignerFieldView.height x));
        ("required", VBool (SignerFieldView.required x))].
Definition consent_view_value (x : SignerConsentView.t) : value :=
  VObj [("copyId", VStr (SignerConsentView.copyId x)); ("version", VStr (SignerConsentView.version x));
        ("title", VStr (SignerConsentView.title x)); ("text", VStr (SignerConsentView.text x));
        ("required", VBool (SignerConsentView.required x));
        ("accepted", VBool (SignerConsentView.accepted x))].

(* [src: apps/api/src/http/routes/signing.ts:124-131 GET /signing/session] *)
Definition get_signing_session (r : Request.t) (b : Body) : Web Reply :=
  token ← signer_reads r b;
  result ← on_store (getSignerSession token None);
  json 200 (signerSessionResponseSchema datetime) (session_view_value result).

(* [src: apps/api/src/http/routes/signing.ts:133-140 GET /signing/document] *)
Definition get_signing_document (r : Request.t) (b : Body) : Web Reply :=
  token ← signer_reads r b;
  result ← on_store (getSignerDocument token None);
  json 200 signerDocumentResponseSchema (document_view_value result).

(* [src: apps/api/src/http/routes/signing.ts:142-149 GET /signing/fields] *)
Definition get_signing_fields (r : Request.t) (b : Body) : Web Reply :=
  token ← signer_reads r b;
  result ← on_store (getSignerFields token None);
  json 200 signerFieldsResponseSchema (VObj [("fields", VArr (field_view_value <$> result))]).

(* [src: apps/api/src/http/routes/signing.ts:151-158 GET /signing/consent] *)
Definition get_signing_consent (r : Request.t) (b : Body) : Web Reply :=
  token ← signer_reads r b;
  result ← on_store (getSignerConsent token None);
  json 200 signerConsentResponseSchema (consent_view_value result).

(* [src: apps/api/src/http/routes/signing.ts:160-169 POST /signing/previews] *)
Definition post_signing_previews (r : Request.t) (b : Body) : Web Reply :=
  token ← signer_changes r b;
  result ← on_store (issueSignerPreview token None);
  json 201 (issuePreviewResponseSchema datetime) (preview_value result).

(* [src: apps/api/src/http/routes/signing.ts:171-183 POST /signing/viewed] *)
Definition post_viewed (r : Request.t) (b : Body) : Web Reply :=
  token ← signer_changes r b;
  on_store (recordSignerViewed token (requestId r) None);;
  json 200 recordSignerViewedResponseSchema (VObj [("viewed", VBool true)]).

(* [src: apps/api/src/http/routes/signing.ts:185-204 POST /signing/consent] *)
Definition post_consent (r : Request.t) (b : Body) : Web Reply :=
  token ← signer_changes r b;
  '(copyId, accepted) ← request_body recordSignerConsentRequestSchema read_consent (body_or_empty b)
                          (reasonOnly "invalid_consent");
  result ← on_store (recordSignerConsent (RecordSignerConsentInput.mk token copyId accepted
    (requestId r) (metadataFromRequest r) None));
  json 200 (recordSignerConsentResponseSchema datetime) (VObj result).

(* [src: apps/api/src/http/routes/signing.ts:206-224 POST /signing/decline] *)
Definition post_decline (r : Request.t) (b : Body) : Web Reply :=
  token ← signer_changes r b;
  reason ← request_body declineToSignRequestSchema read_decline (body_or_empty b)
             (reasonOnly "invalid_decline");
  result ← on_store (declineToSign (DeclineToSignInput.mk token reason (requestId r) None));
  json 200 declineToSignResponseSchema (VObj result).

(* [src: apps/api/src/http/routes/signing.ts:226-248 POST /signing/complete] *)
Definition post_complete (r : Request.t) (b : Body) : Web Reply :=
  token ← signer_changes r b;
  rq ← request_body completeSigningRequestSchema read_complete (body_or_empty b)
         (reasonOnly "invalid_complete_signing");
  result ← on_store (completeSigning (CompleteSigningInput.mk token (rq_consentCopyId rq)
    (rq_intentToSign rq) (rq_fieldIds rq) (rq_signature rq) (rq_initials rq) (idempotencyKey r)
    (requestId r) None));
  json 200 completeSigningResponseSchema (VObj [("status", prop "status" result)]).

(** *** The routers *)

Definition route (x : Route.t) (r : Request.t) (b : Body) : Web Reply :=
  match x with
  | Route.login => post_login r b
  | Route.logout => post_logout r b
  | Route.revokeAccountSession => post_sessions_revoke r b
  | Route.me => get_me r b
  | Route.organizationMe o => get_organization_me o r
  | Route.createDocument o => post_documents o r b
  | Route.getDocument o d => get_document o d r b
  | Route.issuePreview o d => post_previews o d r b
  | Route.uploadSource o d => put_source o d r b
  | Route.replaceSigners o d => put_signers o d r b
  | Route.replaceFields o d => put_fields o d r b
  | Route.sendDocument o d => post_send o d r b
  | Route.voidDocument o d => post_void o d r b
  | Route.downloadArtifact o d => get_artifact o d r b
  | Route.rotateSession o d g => post_rotate o d g r b
  | Route.revokeSession o d x => post_revoke o d x r b
  | Route.verifyDocument o d => post_verify_document o d r b
  | Route.verifyOrganization o => post_verify_organization o r b
  | Route.streamPreview g => get_preview g r
  | Route.exchange => post_exchange r b
  | Route.signingSession => get_signing_session r b
  | Route.signingDocument => get_signing_document r b
  | Route.signingFields => get_signing_fields r b
  | Route.getConsent => get_signing_consent r b
  | Route.signingPreviews => post_signing_previews r b
  | Route.signingViewed => post_viewed r b
  | Route.recordConsent => post_consent r b
  | Route.decline => post_decline r b
  | Route.complete => post_complete r b
  end.

(** ** The application *)

(* [src: apps/api/src/create-app.ts:42-46 ALLOWED_CONTENT_TYPES] *)
Definition ALLOWED_CONTENT_TYPES : list string :=
  ["application/json"; "application/pdf"; "application/octet-stream"].

Context (decodeURIComponent : string → Result Exn string).

(** What arrives: the request as Node has parsed it, a fresh [randomUUID()], and
    what Express matches and reads. *)
Record Incoming : Type := mkIncoming {
  in_method : string;
  in_headers : list (string * string);
  in_query : object;
  in_socketAddress : option string;
  in_forwardedFor : Header;
  in_ip : option string;
  in_freshId : string;
  in_route : option Route.t;
  in_body : Body
}.

Definition correlation_header : string := toLowerCase (ApiConfig.CORRELATION_ID_HEADER config).
Definition correlation_of (i : Incoming) : string :=
  correlationIdOf (map_get correlation_header (in_headers i)) (in_freshId i).

(** The request as the middlewares see it, with the cookies parsed so far. *)
Definition request_of (i : Incoming) (cookies : list (string * string)) : Request.t :=
  Request.mk (in_method i) (in_headers i) (in_query i) cookies
    (Some (resolveClientIp (in_socketAddress i) (in_forwardedFor i) (ApiConfig.TRUST_PROXY config)))
    (in_ip i) (Some (correlation_of i)).

Definition overloadGuard (r : Request.t) : Web unit := λ c,
  let '(h, o) := Overload.arrive (ApiConfig.API_MAX_CONCURRENT_REQUESTS config) 1
                   (Request.correlationId r) c.(server).(Server.overload) in
  handled h (on_server (Server.set_overload o) c).

Definition apiRateLimit (r : Request.t) : Web unit :=
  now ← on_store nowUtc;
  buckets ← gets (λ c, c.(server).(Server.apiBuckets));
  let '(h, buckets) := ipRateLimit (ApiConfig.API_RATE_LIMIT_MAX config)
    (ApiConfig.API_RATE_LIMIT_WINDOW_MS config) "api" now r buckets in
  modify (on_server (Server.set_apiBuckets buckets));;
  handled h.

(* [src: apps/api/src/http/middleware/not-found.ts:5-11 notFoundHandler] *)
Definition notFoundHandler (i : Incoming) : Reply :=
  mkReply 404 (Json (errorEnvelope ErrorCode.not_found (PUBLIC_ERROR_MESSAGES ErrorCode.not_found)
    (correlation_of i))).

(** The middlewares and routers in the order they are mounted. *)
(* [src: apps/api/src/create-app.ts:48-149 createApiApp] *)
Definition createApiApp (i : Incoming) : Web Reply :=
  setHeader correlation_header (correlation_of i);;
  let bare := request_of i [] in
  handled (no_pollution (in_query i));;
  handled (strictContentType ALLOWED_CONTENT_TYPES bare);;
  cookies ← lift_result (parseCookieHeader decodeURIComponent (Request.header bare "cookie"));
  let r := request_of i cookies in
  overloadGuard r;;
  apiRateLimit r;;
  match in_route i with
  | Some x => route x r (in_body i)
  | None => mret (notFoundHandler i)
  end.

(** The answer: the handler's, a middleware's or the error handler's, with the
    headers and cookies set before. *)
Definition conclude (i : Incoming) (outcome : Result Exit Reply) (r : Res.t) : Answer.t :=
  let respond (x : Response) :=
    Answer.mk (r_status x) (Res.headers r ++ r_headers x)%list (Res.cookies r) (Json (r_body x)) in
  match outcome with
  | Ok reply => Answer.mk (reply_status reply) (Res.headers r) (Res.cookies r) (reply_payload reply)
  | Throw (Replied x) => respond x
  | Throw (Errored type e) => respond (errorHandler type e (Some (correlation_of i))).1
  end.

(** The admitted request is released when its answer is finished. *)
Definition release_request (before : Server.t) (after : Server.t) : Server.t :=
  if (length (Overload.released before.(Server.overload)) <?
      length (Overload.released after.(Server.overload)))%nat
  then Server.set_overload (Overload.release (length (Overload.released before.(Server.overload)))
         after.(Server.overload)) after
  else after.

(** One request, to the end. *)
Definition serve (i : Incoming) (s : Server.t) : Answer.t * Server.t :=
  let '(outcome, c) := createApiApp i (mkCtx s Res.fresh) in
  (conclude i outcome c.(res), release_request s c.(server)).
End routes.
