(* ===== verification/RouteRules.v ===== *)
(** What the routes promise: a request succeeds or changes anything only after
    the checks of its route, and then changes only the tenant it was admitted to. *)

From Stdlib Require Import String.
From S2P Require Export Routes System HttpRules.
Local Open Scope string_scope.

(** ** Rules for chains of middlewares

    [c0] is the context of a request when it arrives.  A check leaves the tables
    as they were then; what it finds out holds of [c0]. *)

Definition store_of (c : Ctx) : St := c.(server).(Server.store).
Definition auth_of (c : Ctx) : AuthSt := c.(server).(Server.auth).

(** Nothing but buckets, readings of the clock, security events and what is set
    on the response has changed. *)
Definition kept (c c' : Ctx) : Prop :=
  durable (store_of c) = durable (store_of c') ∧
  ((store_of c).(clockReads) ≤ (store_of c').(clockReads))%nat ∧
  (auth_of c').(users) = (auth_of c).(users) ∧
  (auth_of c').(memberships) = (auth_of c).(memberships) ∧
  (auth_of c').(accountSessions) = (auth_of c).(accountSessions).

#[export] Instance kept_preorder : PreOrder kept.
Proof.
  split; unfold kept.
  - intros c. done.
  - intros c1 c2 c3 (?&?&?&?&?) (?&?&?&?&?). split_and!; try congruence. lia.
Qed.

(** How a refused request ends. *)
Definition refusal (e : Exit) : Prop :=
  match e with Replied x => (400 <= r_status x)%Z | Errored _ _ => True end.
Definition refused (r : Result Exit Reply) : Prop :=
  match r with Ok x => (400 <= reply_status x)%Z | Throw e => refusal e end.

Section logic.
Context {environment : Env} (c0 : Ctx).

(** A check that returns [a] has found out [Q a]. *)
Definition checks {A} (m : Web A) (Q : A → Prop) : Prop := ∀ c, kept c0 c →
  kept c0 (m c).2 ∧ match (m c).1 with Ok a => Q a | Throw e => refusal e end.

Lemma checks_ret {A} (a : A) (Q : A → Prop) : Q a → checks (mret a) Q.
Proof. by intros Ha c Hc. Qed.

Lemma checks_fail {A} e (Q : A → Prop) : checks (fail e) Q.
Proof. by intros c Hc. Qed.

Lemma checks_conseq {A} (m : Web A) (Q Q' : A → Prop) :
  checks m Q → (∀ a, Q a → Q' a) → checks m Q'.
Proof. intros Hm HQ c Hc. destruct (Hm c Hc) as [Hk Ha]. split; [done|]. destruct (m c).1; eauto. Qed.

Lemma checks_bind {A B} (m : Web A) (f : A → Web B) Q K :
  checks m Q → (∀ a, Q a → checks (f a) K) → checks (m ≫= f) K.
Proof.
  intros Hm Hf c Hc. destruct (Hm c Hc) as [Hk Ha]. unfold mbind, M_bind.
  destruct (m c) as [[a|e] c'] eqn:Hr; simpl in *; [by apply Hf|done].
Qed.

Lemma checks_lift {A} (r : Result Exn A) (Q : A → Prop) :
  (∀ a, r = Ok a → Q a) → checks (lift_result r) Q.
Proof. intros HQ. destruct r as [a|e]; [by apply checks_ret, HQ|apply checks_fail]. Qed.

Lemma checks_modify f (Q : unit → Prop) : (∀ c, kept c (f c)) → Q tt → checks (modify f) Q.
Proof. intros Hf HQ c Hc. split; [by etrans|done]. Qed.

Lemma checks_gets {A} (f : Ctx → A) : checks (gets f) (λ _, True).
Proof. by intros c Hc. Qed.

Lemma checks_handled h (Q : unit → Prop) :
  (h = Next → Q tt) → (∀ r, h = Answered r → (400 <= r_status r)%Z) → checks (handled h) Q.
Proof. intros HQ Hr c Hc. destruct h as [|e|r]; simpl; (split; [done|]); auto. Qed.

(** Reading the store, and the account's tables. *)
Lemma checks_store {A} (m : Run A) (Q : A → Prop) :
  (∀ s a, durable (store_of c0) = durable s → (m s).1 = Ok a → Q a) →
  (∀ s, durable (m s).2 = durable s ∧ (clockReads s ≤ clockReads (m s).2)%nat) →
  checks (on_store m) Q.
Proof.
  intros HQ Hd c (Hs & Hn & Hu & Hm & Ha). specialize (Hd (store_of c)) as [Hd Hl]. unfold on_store.
  specialize (HQ (store_of c)). fold (store_of c). destruct (m (store_of c)) as [r s'] eqn:Hr. simpl in *.
  split; [|destruct r; [by apply HQ|done]].
  unfold kept. simpl. unfold store_of, auth_of in *. simpl. split_and!; try done; [congruence|lia].
Qed.

(** The account's tables as [c0] has them, read no earlier. *)
Definition auth_kept (a : AuthSt) : Prop :=
  ((store_of c0).(clockReads) ≤ a.(auth_clockReads))%nat ∧
  a.(users) = (auth_of c0).(users) ∧ a.(memberships) = (auth_of c0).(memberships) ∧
  a.(accountSessions) = (auth_of c0).(accountSessions).

Lemma checks_auth {A} (m : AuthRun A) (Q : A → Prop) :
  (∀ a, auth_kept a → auth_kept (m a).2 ∧ ∀ x, (m a).1 = Ok x → Q x) → checks (on_auth m) Q.
Proof.
  intros Hm c (Hs & Hn & Hu & Hme & Ha).
  assert (Hk : auth_kept (auth_view (server c))) by (unfold auth_kept; by split_and!).
  destruct (Hm _ Hk) as [(Hn' & Hu' & Hm' & Ha') HQ]. unfold on_auth.
  destruct (m (auth_view (server c))) as [r a] eqn:Hr. simpl in *.
  split; [|destruct r; [by apply HQ|done]]. unfold kept. by split_and!.
Qed.

(** ** What a request does to the store

    [secure G P m]: the store only takes steps for tenants of [P], and unless
    [G] holds nothing changes and the request is refused. *)
Context (G : Prop) (P : string → Prop).

Definition confined {A} (m : Web A) : Prop := ∀ c, kept c0 c →
  Steps P (store_of c0) (store_of (m c).2).
Definition secure (m : Web Reply) : Prop := ∀ c, kept c0 c →
  Steps P (store_of c0) (store_of (m c).2) ∧ (G ∨ kept c0 (m c).2 ∧ refused (m c).1).

Lemma kept_steps c : kept c0 c → Steps P (store_of c0) (store_of c).
Proof. intros (Hd & _). by apply TSteps_Steps, TSteps_quiet. Qed.

Lemma secure_bind {A} (m : Web A) Q (f : A → Web Reply) :
  checks m Q → (∀ a, Q a → secure (f a)) → secure (m ≫= f).
Proof.
  intros Hm Hf c Hc. destruct (Hm c Hc) as [Hk Ha]. unfold mbind, M_bind.
  destruct (m c) as [[a|e] c'] eqn:Hr; simpl in *; [by apply Hf|].
  split; [by apply kept_steps|by right].
Qed.

Lemma secure_confined (m : Web Reply) : G → confined m → secure m.
Proof. intros HG Hm c Hc. split; [by apply Hm|by left]. Qed.

Lemma secure_refused (m : Web Reply) : checks m (λ x, (400 <= reply_status x)%Z) → secure m.
Proof.
  intros Hm c Hc. destruct (Hm c Hc) as [Hk Hr]. split; [by apply kept_steps|]. right. split; [done|].
  unfold refused. by destruct (m c).1.
Qed.

Lemma confined_bind {A B} (m : Web A) Q (f : A → Web B) :
  checks m Q → (∀ a, Q a → confined (f a)) → confined (m ≫= f).
Proof.
  intros Hm Hf c Hc. destruct (Hm c Hc) as [Hk Ha]. unfold mbind, M_bind.
  destruct (m c) as [[a|e] c'] eqn:Hr; simpl in *; [by apply Hf|by apply kept_steps].
Qed.

(** What follows the use case leaves the durable part alone. *)
Definition passive {A} (m : Web A) : Prop := ∀ c, durable (store_of (m c).2) = durable (store_of c).

Lemma confined_use {A B} (F : St → Prop) (u : Run A) (f : A → Web B) :
  triple (TSteps P) F u (λ _ _, True) → (∀ s, durable (store_of c0) = durable s → F s) →
  (∀ a, passive (f a)) → confined (on_store u ≫= f).
Proof.
  intros Hu HF Hf c Hc. destruct (Hu (store_of c)) as [Hs _]; [by apply HF, Hc|].
  unfold mbind, M_bind, on_store. fold (store_of c).
  destruct (u (store_of c)) as [[a|e] s'] eqn:Hr; simpl in *.
  - etrans; [by apply kept_steps|]. etrans; [by apply TSteps_Steps|].
    apply TSteps_Steps, TSteps_quiet. symmetry. apply Hf.
  - etrans; [by apply kept_steps|by apply TSteps_Steps].
Qed.

Lemma confined_passive {A} (m : Web A) : passive m → confined m.
Proof.
  intros Hm c Hc. etrans; [by apply kept_steps|]. apply TSteps_Steps, TSteps_quiet. symmetry. apply Hm.
Qed.
End logic.

Lemma passive_ret {A} (a : A) : passive (mret a).
Proof. done. Qed.
Lemma passive_bind {A B} (m : Web A) (f : A → Web B) :
  passive m → (∀ a, passive (f a)) → passive (m ≫= f).
Proof.
  intros Hm Hf c. unfold mbind, M_bind. specialize (Hm c).
  destruct (m c) as [[a|e] c'] eqn:Hr; simpl in *; [by rewrite (Hf a c')|done].
Qed.
Lemma passive_fail {A} e : passive (fail e : Web A).
Proof. done. Qed.
Lemma passive_throw {A} e : passive (throw e : Web A).
Proof. done. Qed.
Lemma passive_cookie k : passive (cookie_call k).
Proof. done. Qed.
Lemma passive_header n v : passive (setHeader n v).
Proof. done. Qed.
Lemma passive_auth {A} (m : AuthRun A) : passive (on_auth m).
Proof. intros c. unfold on_auth. by destruct (m (auth_view (server c))). Qed.

(** ** What a request must show *)

Section admission.
Context `{Env} `{!AuthorizationPolicy} (datetime : string → bool) (zod_message : value → string)
  (url_origin : string → option string) (config : ApiConfig.t bool).

Definition origin_allowed (r : Request.t) : Prop :=
  originIsAllowed url_origin (Request.header r "origin") (Request.header r "referer")
    (ApiConfig.CORS_ORIGINS config) = true.

(** The request carries the token of an account session on file that is neither
    revoked nor expired when the request is served. *)
Definition live_session (r : Request.t) (s : Server.t) (session : AccountSession.t) : Prop :=
  ∃ raw n, map_get (ApiConfig.AUTH_SESSION_COOKIE_NAME config) (Request.cookies r) = Some raw ∧
    session ∈ (s.(Server.auth)).(accountSessions) ∧
    AccountSession.tokenHash session = token_hash raw ∧ AccountSession.revokedAt session = None ∧
    (s.(Server.store).(clockReads) ≤ n)%nat ∧ (clock n < AccountSession.expiresAt session)%Z.

(** Unless its method is safe, header and cookie carry one token, with the hash
    filed with the session. *)
Definition csrf_shown (r : Request.t) (csrfCookieName expectedHash : string) : Prop :=
  isCsrfSafeMethod (Request.method r) = false →
  ∃ token, Request.header r (ApiConfig.AUTH_CSRF_HEADER_NAME config) = Some token ∧
    map_get csrfCookieName (Request.cookies r) = Some token ∧ token_hash token = expectedHash.

Definition actor_of (m : OrganizationMembership.t) : AccountUserActor.t :=
  AccountUserActor.mk (OrganizationMembership.userId m) (OrganizationMembership.id m)
    (OrganizationMembership.organizationId m) (OrganizationMembership.role m).

(** The session's user is a member of the organization, whom the policy allows
    the action. *)
Definition member_of (s : Server.t) (session : AccountSession.t) (o : string)
    (actor : AccountUserActor.t) : Prop :=
  ∃ m, m ∈ (s.(Server.auth)).(memberships) ∧
    OrganizationMembership.userId m = AccountSession.userId session ∧
    OrganizationMembership.organizationId m = o ∧ actor = actor_of m.
Definition allowed (actor : AccountUserActor.t) (o : string) (action : option AuthorizationAction.t) :
    Prop :=
  match action with
  | Some action => assertAllowed (account_user actor) action (org_resource o) = Ok tt
  | None => True
  end.

(** A member who reads, and one who changes something. *)
Definition reader (r : Request.t) (s : Server.t) (o : string) (action : option AuthorizationAction.t) : Prop :=
  ∃ session actor, live_session r s session ∧ member_of s session o actor ∧ allowed actor o action.
Definition writer (r : Request.t) (s : Server.t) (o : string) (action : option AuthorizationAction.t) : Prop :=
  origin_allowed r ∧ ∃ session actor, live_session r s session ∧
    csrf_shown r (ApiConfig.AUTH_CSRF_COOKIE_NAME config) (AccountSession.csrfTokenHash session) ∧
    member_of s session o actor ∧ allowed actor o action.

(** A signer who reads, and one who changes something: the request carries a
    signing token, and the anti-forgery token filed with its session. *)
Definition signer_reader (r : Request.t) (token : string) : Prop :=
  requireSignerToken (ApiConfig.SIGNING_SESSION_COOKIE_NAME config) r = Ok token.
Definition signer_writer (r : Request.t) (s : Server.t) (token : string) : Prop :=
  origin_allowed r ∧ signer_reader r token ∧
  (isCsrfSafeMethod (Request.method r) = false →
   ∃ session h, session ∈ s.(Server.store).(signingSessions) ∧
     SigningSession.tokenHash session = token_hash token ∧
     SigningSession.csrfTokenHash session = Some h ∧
     csrf_shown r (ApiConfig.SIGNING_CSRF_COOKIE_NAME config) h).

(** The token of an exchange: in the body, else in the header. *)
Definition exchange_token (r : Request.t) (b : Body) (token : string) : Prop :=
  ∃ bodyToken, safe_parse exchangeSigningTokenRequestSchema read_exchange (body_or_empty b) = Some bodyToken ∧
    extractExchangeToken bodyToken (Request.header r "authorization") = Ok token.

(** What each route asks for before it succeeds or changes anything. *)
Definition route_admitted (x : Route.t) (r : Request.t) (b : Body) (s : Server.t) : Prop :=
  match x with
  | Route.login => origin_allowed r
  | Route.logout | Route.revokeAccountSession =>
    origin_allowed r ∧ ∃ session, live_session r s session ∧
      csrf_shown r (ApiConfig.AUTH_CSRF_COOKIE_NAME config) (AccountSession.csrfTokenHash session)
  | Route.me => ∃ session, live_session r s session
  | Route.organizationMe o => reader r s o (Some AuthorizationAction.organization_membership_read)
  | Route.createDocument o | Route.replaceSigners o _ | Route.replaceFields o _ =>
    writer r s o (Some AuthorizationAction.document_write)
  | Route.getDocument o _ => reader r s o None
  | Route.issuePreview o _ => writer r s o None
  | Route.sendDocument o _ | Route.rotateSession o _ _ | Route.revokeSession o _ _ =>
    writer r s o (Some AuthorizationAction.document_send)
  | Route.voidDocument o _ => writer r s o (Some AuthorizationAction.document_void)
  | Route.downloadArtifact o _ => reader r s o (Some AuthorizationAction.document_download_artifact)
  | Route.verifyDocument o _ | Route.verifyOrganization o =>
    writer r s o (Some AuthorizationAction.audit_verify)
  | Route.uploadSource _ _ =>
    headerValue r (ApiConfig.DOCUMENT_UPLOAD_TOKEN_HEADER config) ≠ None
  | Route.streamPreview _ => headerValue r (ApiConfig.DOCUMENT_PREVIEW_TOKEN_HEADER config) ≠ None
  | Route.exchange => origin_allowed r ∧ ∃ token, exchange_token r b token
  | Route.signingSession | Route.signingDocument | Route.signingFields | Route.getConsent =>
    ∃ token, signer_reader r token
  | Route.signingPreviews | Route.signingViewed | Route.recordConsent | Route.decline
  | Route.complete => ∃ token, signer_writer r s token
  end.

(** The tenant a request may change: that of the path, or that of the session
    its token is filed under. *)
Definition route_tenant (x : Route.t) (r : Request.t) (b : Body) (s : Server.t) (o : string) : Prop :=
  match x with
  | Route.createDocument p | Route.replaceSigners p _ | Route.replaceFields p _
  | Route.issuePreview p _ | Route.sendDocument p _ | Route.rotateSession p _ _
  | Route.revokeSession p _ _ | Route.voidDocument p _ | Route.downloadArtifact p _
  | Route.verifyDocument p _ | Route.verifyOrganization p => o = p
  | Route.uploadSource _ _ =>
    ∃ token, headerValue r (ApiConfig.DOCUMENT_UPLOAD_TOKEN_HEADER config) = Some token ∧
      upload_tenant token s.(Server.store) o
  | Route.exchange => ∃ token, exchange_token r b token ∧ token_tenant token s.(Server.store) o
  | Route.signingSession | Route.signingDocument | Route.signingFields | Route.getConsent
  | Route.signingPreviews | Route.signingViewed | Route.recordConsent | Route.decline
  | Route.complete => ∃ token, signer_reader r token ∧ token_tenant token s.(Server.store) o
  | _ => False
  end.
End admission.

Section middlewares.
Context `{Env} `{!AuthorizationPolicy} (url_origin : string → option string)
  (config : ApiConfig.t bool) (c0 : Ctx).
Abbreviation s0 := (server c0).

Lemma checks_body b : checks c0 (read_body b) (λ _, True).
Proof. by intros c Hc; destruct b. Qed.

Lemma checks_request {A} s (read : value → A) v invalid :
  checks c0 (request_body s read v invalid) (λ a, safe_parse s read v = Some a).
Proof. unfold request_body. destruct (safe_parse s read v); [by apply checks_ret|apply checks_fail]. Qed.

Lemma checks_id field id : checks c0 (parse_id field id) (λ i, i = id).
Proof. unfold parse_id. destruct (zod_uuid id); [by apply checks_ret|apply checks_fail]. Qed.

Lemma checks_header_token r name :
  checks c0 (header_token r name) (λ t, headerValue r name = Some t).
Proof. unfold header_token. destruct (headerValue r name); [by apply checks_ret|apply checks_fail]. Qed.

Lemma checks_bytes b : checks c0 (requestBytes b) (λ _, True).
Proof. by intros c Hc; destruct b. Qed.

Lemma checks_setHeader n v : checks c0 (setHeader n v) (λ _, True).
Proof. by apply checks_modify. Qed.

Lemma checks_clock : checks c0 (on_store nowUtc) (λ _, True).
Proof. apply checks_store; [done|]. intros s. simpl. split; [done|lia]. Qed.

Lemma checks_origin r : checks c0 (requireOrigin url_origin config r) (λ _, origin_allowed url_origin config r).
Proof.
  unfold requireOrigin. apply checks_handled; unfold requireAllowedOrigin, origin_allowed;
    by destruct (originIsAllowed _ _ _ _).
Qed.

Lemma resolve_session_run raw a x :
  (resolveAccountSession raw a).1 = Ok x → ∃ t n, raw = Some t ∧ x ∈ a.(accountSessions) ∧
    AccountSession.tokenHash x = token_hash t ∧ AccountSession.revokedAt x = None ∧
    (a.(auth_clockReads) ≤ n)%nat ∧ (clock n < AccountSession.expiresAt x)%Z.
Proof.
  unfold resolveAccountSession. destruct (blank raw); [done|]. destruct raw as [t|]; [|done].
  unfold findSessionByTokenHash, gets, mbind, M_bind. simpl.
  destruct (find_row _ _) as [y|] eqn:Hy; [|done].
  destruct (bool_decide _) eqn:Hr; [|done]. apply bool_decide_eq_true in Hr. simpl.
  destruct (Z.leb_spec (AccountSession.expiresAt y) (clock (auth_clockReads a))); [done|].
  intros [= <-]. apply find_row_Some in Hy as [Hin Hh%String.eqb_eq].
  exists t, (auth_clockReads a). by split_and!.
Qed.

Lemma resolve_session_kept raw a : auth_kept c0 a → auth_kept c0 (resolveAccountSession raw a).2.
Proof.
  intros (Hn & Hu & Hm & Ha). unfold resolveAccountSession. destruct (blank raw); [done|].
  destruct raw as [t|]; [|done]. unfold findSessionByTokenHash, gets, mbind, M_bind. simpl.
  destruct (find_row _ _) as [y|]; [|done]. destruct (bool_decide _); [|done]. simpl.
  destruct (_ <=? _)%Z; unfold auth_kept; simpl; split_and!; try done; lia.
Qed.

Lemma checks_session r : checks c0 (requireSession config r) (live_session config r s0).
Proof.
  apply checks_auth. intros a Ha. split; [by apply resolve_session_kept|].
  intros x (t & n & Hr & Hin & Hh & Hv & Hn & He)%resolve_session_run. destruct Ha as (Hc & _ & _ & Hs).
  exists t, n. rewrite Hs in Hin. unfold store_of in Hc. split_and!; try done. lia.
Qed.

Lemma assert_csrf_shown header cookie expected hash :
  assertCsrfToken header cookie expected hash = Ok tt →
  ∃ token, header = Some token ∧ cookie = Some token ∧ hash token = expected.
Proof.
  unfold assertCsrfToken. destruct (blank header || blank cookie); [done|].
  destruct header as [h|], cookie as [k|]; try done.
  destruct (String.eqb_spec h k) as [->|]; [|done].
  destruct (String.eqb_spec (hash k) expected); [|done]. intros _. by exists k.
Qed.

Lemma checks_csrf session r : checks c0 (requireCsrf config session r)
  (λ _, csrf_shown config r (ApiConfig.AUTH_CSRF_COOKIE_NAME config) (AccountSession.csrfTokenHash session)).
Proof.
  unfold requireCsrf, csrf_shown. destruct (isCsrfSafeMethod _); [by apply checks_ret|].
  apply checks_lift. intros [] Ht _. by apply assert_csrf_shown in Ht.
Qed.

Lemma checks_membership session o : checks c0 (requireMembership session o) (member_of s0 session o).
Proof.
  unfold requireMembership. eapply checks_bind; [apply checks_id|]. intros i ->.
  eapply (checks_bind c0 _ _ (λ p, member_of s0 session o p.1)); [|intros p Hp; by apply checks_ret].
  apply checks_auth. intros a (Hn & Hu & Hm & Ha). unfold resolveOrganizationActor, lift, mbind, M_bind.
  unfold organizationContext, requireOrganizationId, requireOpaqueId.
  destruct (String.eqb (trim o) EmptyString); [by split; [split_and!|]|].
  destruct (isOpaqueId o); simpl; [|by split; [split_and!|]].
  unfold findByUser, gets. simpl. destruct (find_row _ _) as [m|] eqn:Hf; simpl; (split; [by split_and!|]); [|done].
  intros p [= <-]. apply find_row_Some in Hf as [Hin Hk]. apply andb_true_iff in Hk as [Ho Hu'].
  apply String.eqb_eq in Ho, Hu'. exists m. rewrite Hm in Hin. split_and!; try done.
  unfold actor_of. simpl. by rewrite Hu'.
Qed.

Lemma checks_action actor action o : AccountUserActor.organizationId actor = o →
  checks c0 (assertAction actor action) (λ _, allowed actor o (Some action)).
Proof. intros <-. apply checks_lift. by intros []. Qed.

Lemma checks_optional_action actor action o : AccountUserActor.organizationId actor = o →
  checks c0 (match action with Some action => assertAction actor action | None => mret tt end)
    (λ _, allowed actor o action).
Proof. intros Ho. destruct action; [by apply checks_action|by apply checks_ret]. Qed.

Lemma member_of_org s session o actor :
  member_of s session o actor → AccountUserActor.organizationId actor = o.
Proof. by intros (m & _ & _ & Ho & ->). Qed.

(** The actor a route goes on with. *)
Definition written_by r o action (actor : AccountUserActor.t) : Prop :=
  AccountUserActor.organizationId actor = o ∧ writer url_origin config r s0 o action.
Definition read_by r o action (actor : AccountUserActor.t) : Prop :=
  AccountUserActor.organizationId actor = o ∧ reader config r s0 o action.

Lemma checks_member_route r b o action :
  checks c0 (member_route url_origin config r b o action) (written_by r o action).
Proof.
  eapply checks_bind; [apply checks_body|]. intros _ _.
  eapply (checks_bind c0 _ _ (λ actor, origin_allowed url_origin config r ∧ ∃ session,
    live_session config r s0 session ∧
    csrf_shown config r (ApiConfig.AUTH_CSRF_COOKIE_NAME config) (AccountSession.csrfTokenHash session) ∧
    member_of s0 session o actor)).
  { eapply checks_bind; [apply checks_origin|]. intros [] Ho.
    eapply checks_bind; [apply checks_session|]. intros session Hs.
    eapply checks_bind; [apply checks_csrf|]. intros [] Hc.
    eapply checks_conseq; [apply checks_membership|]. eauto 8. }
  intros actor (Ho & session & Hs & Hc & Hm).
  apply member_of_org in Hm as Ha.
  eapply checks_bind; [by apply checks_optional_action|]. intros [] Hal. apply checks_ret.
  split; [done|]. split; [done|]. eauto 8.
Qed.

Lemma checks_reading r o : checks c0 (reading config r o) (λ actor, ∃ session,
  live_session config r s0 session ∧ member_of s0 session o actor).
Proof.
  eapply checks_bind; [apply checks_session|]. intros session Hs.
  eapply checks_conseq; [apply checks_membership|]. eauto.
Qed.

Lemma checks_reader_action r o action (m : Web AccountUserActor.t) :
  m = reading config r o →
  checks c0 (actor ← m;
             match action with Some action => assertAction actor action | None => mret tt end;;
             mret actor) (read_by r o action).
Proof.
  intros ->. eapply checks_bind; [apply checks_reading|]. intros actor (session & Hs & Hm).
  apply member_of_org in Hm as Ha.
  eapply checks_bind; [by apply checks_optional_action|]. intros [] Hal. apply checks_ret.
  split; [done|]. unfold reader. eauto 8.
Qed.

Lemma checks_reader_route r b o action :
  checks c0 (reader_route config r b o action) (read_by r o action).
Proof. eapply checks_bind; [apply checks_body|]. intros _ _. by apply checks_reader_action. Qed.

(** *** Signers *)

Lemma checks_take (f : Ctx → Buckets) g key max windowMs Q :
  (∀ b c, kept c (on_server (g b) c)) → Q →
  checks c0 (now ← on_store nowUtc; buckets ← gets f;
    let '(decision, buckets) := consume max windowMs key now buckets in
    modify (on_server (g buckets));;
    if RateLimitDecision.allowed decision then mret tt
    else fail (RateLimitError
      [("retryAfterSeconds", VInt (RateLimitDecision.retryAfterSeconds decision))])) (λ _, Q).
Proof.
  intros Hg HQ. eapply checks_bind; [apply checks_clock|]. intros now _.
  eapply checks_bind; [apply checks_gets|]. intros buckets _.
  destruct (consume _ _ _ _ _) as [decision buckets'].
  eapply (checks_bind c0 _ _ (λ _, True)); [by apply checks_modify|]. intros _ _.
  destruct (RateLimitDecision.allowed decision); [by apply checks_ret|apply checks_fail].
Qed.

Lemma checks_entry r b : checks c0 (signing_entry config r b) (λ _, True).
Proof.
  eapply checks_bind; [apply checks_body|]. intros _ _.
  eapply (checks_bind c0 _ _ (λ _, True)).
  { intros c Hc. split; [by etrans|done]. }
  intros _ _. apply (checks_take (λ c, Server.signingBuckets (server c)) Server.set_signingBuckets); done.
Qed.

Lemma checks_token r : checks c0 (requireToken config r) (signer_reader config r).
Proof. by apply checks_lift. Qed.

Lemma csrf_hash_of token s h : durable (store_of c0) = durable s →
  (loadCsrfHash token s).1 = Ok (Some h) →
  ∃ session, session ∈ (store_of c0).(signingSessions) ∧
    SigningSession.tokenHash session = token_hash token ∧ SigningSession.csrfTokenHash session = Some h.
Proof.
  intros Hd%(f_equal signingSessions). unfold loadCsrfHash, SigningSessions.findByTokenHash, find_one, gets, mbind, M_bind.
  simpl. destruct (find_row _ _) as [session|] eqn:Hf; simpl; [|done].
  intros [= Hh]. apply find_row_Some in Hf as [Hin Ht%String.eqb_eq]. exists session.
  split_and!; try done. unfold durable in Hd. simpl in Hd. by rewrite Hd.
Qed.

Lemma checks_signing_csrf token r : checks c0 (requireSigningCsrf config token r)
  (λ _, isCsrfSafeMethod (Request.method r) = false →
   ∃ session h, session ∈ s0.(Server.store).(signingSessions) ∧
     SigningSession.tokenHash session = token_hash token ∧
     SigningSession.csrfTokenHash session = Some h ∧
     csrf_shown config r (ApiConfig.SIGNING_CSRF_COOKIE_NAME config) h).
Proof.
  unfold requireSigningCsrf, requireSignerCsrf. destruct (isCsrfSafeMethod (Request.method r)) eqn:Hm.
  { by eapply (checks_bind c0 _ _ (λ _, True)); intros; apply checks_ret. }
  eapply (checks_bind c0 _ _ (λ e, ∀ h, e = Some h → ∃ session,
    session ∈ (store_of c0).(signingSessions) ∧
    SigningSession.tokenHash session = token_hash token ∧ SigningSession.csrfTokenHash session = Some h)).
  { apply checks_store; [|intros s; split; done].
    intros s e Hd He h ->. by eapply csrf_hash_of. }
  intros [h|] Hh; apply checks_lift; [|done]. intros [] Ht _.
  destruct (Hh h eq_refl) as (session & Hin & Htok & Hcs). exists session, h. split_and!; try done.
  intros _. by apply assert_csrf_shown in Ht.
Qed.

Lemma checks_signer_reads r b : checks c0 (signer_reads config r b) (signer_reader config r).
Proof. eapply checks_bind; [apply checks_entry|]. intros _ _. apply checks_token. Qed.

Lemma checks_signer_changes r b :
  checks c0 (signer_changes url_origin config r b) (signer_writer url_origin config r s0).
Proof.
  eapply checks_bind; [apply checks_entry|]. intros _ _.
  eapply checks_bind; [apply checks_origin|]. intros [] Ho.
  eapply checks_bind; [apply checks_token|]. intros token Ht.
  eapply checks_bind; [apply checks_signing_csrf|]. intros [] Hc. apply checks_ret. by split_and!.
Qed.
End middlewares.

(** ** Every route *)

Section every_route.
Context `{Env} `{!AuthorizationPolicy} `{!UnitOfWork} `{!Notifier} `{!ImmutableCheckpointStore}
  `{!CheckpointLaws} `{!IdentityProvider}.
Context (datetime : string → bool) (zod_message : value → string)
  (url_origin : string → option string) (config : ApiConfig.t bool) (c0 : Ctx).

Lemma passive_json status s v : passive (json zod_message status s v).
Proof. intros c. unfold json, parsed. by destruct (s v). Qed.
Lemma passive_set k a b : passive (setSessionCookies k a b).
Proof. done. Qed.
Lemma passive_clear k : passive (clearSessionCookies k).
Proof. done. Qed.
Lemma passive_content t d : passive (content_headers t d).
Proof. done. Qed.

Lemma confined_call {A B} P (u : Run A) (f : A → Web B) :
  respects (TSteps P) u → (∀ a, passive (f a)) → confined c0 P (on_store u ≫= f).
Proof.
  intros Hu. apply (confined_use c0 P (λ _, True)); [|done].
  apply (triple_respects_true (TSteps P)), Hu.
Qed.

(** The tenants a token is filed under do not change on the way. *)
Lemma token_scope_kept (P : string → Prop) token :
  (∀ o, token_tenant token (store_of c0) o → P o) →
  ∀ s, durable (store_of c0) = durable s → token_scope P token s.
Proof.
  intros HP s Hd%(f_equal signingSessions) x Hx. apply HP. exists x. split; [|done].
  unfold durable in Hd. simpl in Hd. by rewrite Hd.
Qed.
Lemma upload_scope_kept (P : string → Prop) token :
  (∀ o, upload_tenant token (store_of c0) o → P o) →
  ∀ s, durable (store_of c0) = durable s → upload_scope P token s.
Proof.
  intros HP s Hd%(f_equal uploadSessions) x Hx. apply HP. exists x. split; [|done].
  unfold durable in Hd. simpl in Hd. by rewrite Hd.
Qed.

Lemma passive_clock : passive (on_store nowUtc).
Proof. done. Qed.
Lemma passive_gets {A} (f : Ctx → A) : passive (gets f).
Proof. done. Qed.
Lemma passive_modify f : (∀ c, durable (store_of (f c)) = durable (store_of c)) → passive (modify f).
Proof. intros Hf c. apply Hf. Qed.
Lemma passive_request {A} s (read : value → A) v invalid : passive (request_body s read v invalid).
Proof. unfold request_body. destruct (safe_parse s read v); [apply passive_ret|apply passive_fail]. Qed.

Ltac passive_step :=
  lazymatch goal with
  | |- passive (json _ _ _ _) => apply passive_json
  | |- passive (setSessionCookies _ _ _) => apply passive_set
  | |- passive (clearSessionCookies _) => apply passive_clear
  | |- passive (content_headers _ _) => apply passive_content
  | |- passive (request_body _ _ _ _) => apply passive_request
  | |- passive (on_auth _) => apply passive_auth
  | |- passive (on_store nowUtc) => apply passive_clock
  | |- passive (gets _) => apply passive_gets
  | |- passive (modify _) => by apply passive_modify
  | |- passive (fail _) => apply passive_fail
  | |- passive (mret _) => apply passive_ret
  | |- passive (_ ≫= _) => apply passive_bind; [|intros ?; cbv beta]
  | |- passive (let '_ := ?x in _) => destruct x
  end.
Ltac passive_tac := intros; cbv beta zeta; repeat passive_step.

(** The parsers between the checks and the use case. *)
Ltac confined_step :=
  lazymatch goal with
  | |- confined _ _ (request_body _ _ _ _ ≫= _) =>
    eapply confined_bind; [apply checks_request|]; let Hq := fresh "Hq" in intros ? Hq
  | |- confined _ _ (match ?p with (_, _) => _ end) => destruct p
  | |- confined _ _ (parseDocumentId _ ≫= _) => eapply confined_bind; [apply checks_id|]; intros ? ->
  | |- confined _ _ (parseSignerId _ ≫= _) => eapply confined_bind; [apply checks_id|]; intros ? ->
  | |- confined _ _ (parseSessionId _ ≫= _) => eapply confined_bind; [apply checks_id|]; intros ? ->
  | |- confined _ _ (parseOrganizationId _ ≫= _) => eapply confined_bind; [apply checks_id|]; intros ? ->
  | |- confined _ _ (parseGrantId _ ≫= _) => eapply confined_bind; [apply checks_id|]; intros ? ->
  end.

(** A route for members, and the call it ends in. *)
Ltac member_tac :=
  eapply secure_bind;
    [lazymatch goal with
     | |- checks _ (member_route _ _ _ _ _ _) _ => apply checks_member_route
     | |- checks _ (reader_route _ _ _ _ _) _ => apply checks_reader_route
     end|];
  let Ho := fresh "Ho" in let Hw := fresh "Hw" in
  intros ? [Ho Hw]; apply secure_confined; [exact Hw|];
  repeat confined_step; apply confined_call; [|passive_tac].

Lemma member_routes_secure x r b :
  match x with
  | Route.createDocument _ | Route.getDocument _ _ | Route.issuePreview _ _
  | Route.replaceSigners _ _ | Route.replaceFields _ _ | Route.sendDocument _ _
  | Route.voidDocument _ _ | Route.downloadArtifact _ _ | Route.rotateSession _ _ _
  | Route.revokeSession _ _ _ | Route.verifyDocument _ _ | Route.verifyOrganization _ =>
    secure c0 (route_admitted url_origin config x r b (server c0)) (route_tenant config x r b (server c0))
      (route datetime zod_message url_origin config x r b)
  | _ => True
  end.
Proof.
  destruct x; try exact I; cbv beta iota delta [route route_admitted route_tenant post_documents
    get_document post_previews put_signers put_fields post_send post_void get_artifact post_rotate
    post_revoke post_verify_document post_verify_organization]; member_tac.
  - by apply createDraftDocument_steps.
  - apply getOrganizationDocument_steps.
  - by apply issueDocumentPreview_steps.
  - by apply replaceDocumentSigners_steps.
  - by apply replaceDocumentFields_steps.
  - by apply sendDocument_steps.
  - by apply voidDocument_steps.
  - by apply downloadFinalizedArtifact_steps.
  - by apply rotateSigningSession_steps.
  - by apply revokeSigningSession_steps.
  - by apply verifyAuditChain_steps.
  - by apply verifyOrganizationAuditChains_steps.
Qed.

(** A signer's route, and the call it ends in. *)
Lemma signer_reads_secure x r b {A} (u : string → Run A) (f : A → Web Reply) :
  route_admitted url_origin config x r b (server c0) = (∃ token, signer_reader config r token) →
  (∀ token o, signer_reader config r token → token_tenant token (store_of c0) o →
     route_tenant config x r b (server c0) o) →
  (∀ P token, triple (TSteps P) (token_scope P token) (u token) (λ _ _, True)) →
  (∀ a, passive (f a)) →
  secure c0 (route_admitted url_origin config x r b (server c0)) (route_tenant config x r b (server c0))
    (token ← signer_reads config r b; a ← on_store (u token); f a).
Proof.
  intros -> HP Hu Hf. eapply secure_bind; [apply checks_signer_reads|]. intros token Ht.
  apply secure_confined; [by exists token|]. eapply confined_use; [apply Hu| |done].
  apply token_scope_kept. intros o. by apply HP.
Qed.

Lemma signer_changes_secure x r b (m : string → Web Reply) :
  route_admitted url_origin config x r b (server c0) = (∃ token, signer_writer url_origin config r (server c0) token) →
  (∀ token, signer_reader config r token → confined c0 (route_tenant config x r b (server c0)) (m token)) →
  secure c0 (route_admitted url_origin config x r b (server c0)) (route_tenant config x r b (server c0))
    (token ← signer_changes url_origin config r b; m token).
Proof.
  intros -> Hm. eapply secure_bind; [apply checks_signer_changes|]. intros token Ht.
  apply secure_confined; [by exists token|]. by apply Hm, Ht.
Qed.

Ltac signer_call :=
  lazymatch goal with
  | Ht : signer_reader _ _ ?token |- confined _ ?P _ =>
    apply (confined_use c0 P (token_scope P token));
      [|apply token_scope_kept; intros ? ?; exists token; split; assumption|passive_tac]
  end.

Lemma signer_routes_secure x r b :
  match x with
  | Route.signingSession | Route.signingDocument | Route.signingFields | Route.getConsent
  | Route.signingPreviews | Route.signingViewed | Route.recordConsent | Route.decline
  | Route.complete =>
    secure c0 (route_admitted url_origin config x r b (server c0)) (route_tenant config x r b (server c0))
      (route datetime zod_message url_origin config x r b)
  | _ => True
  end.
Proof.
  destruct x; try exact I.
  - apply (signer_reads_secure Route.signingSession r b (λ t, getSignerSession t None));
      [done|by eexists|intros; apply getSignerSession_steps|passive_tac].
  - apply (signer_reads_secure Route.signingDocument r b (λ t, getSignerDocument t None));
      [done|by eexists|intros; apply getSignerDocument_steps|passive_tac].
  - apply (signer_reads_secure Route.signingFields r b (λ t, getSignerFields t None));
      [done|by eexists|intros; apply getSignerFields_steps|passive_tac].
  - apply (signer_reads_secure Route.getConsent r b (λ t, getSignerConsent t None));
      [done|by eexists|intros; apply getSignerConsent_steps|passive_tac].
  - apply signer_changes_secure; [done|]. intros token Ht. signer_call. apply issueSignerPreview_steps.
  - apply signer_changes_secure; [done|]. intros token Ht. signer_call. apply recordSignerViewed_steps.
  - apply signer_changes_secure; [done|]. intros token Ht. repeat confined_step. signer_call.
    apply (recordSignerConsent_steps _ (RecordSignerConsentInput.mk _ _ _ _ _ _)).
  - apply signer_changes_secure; [done|]. intros token Ht. repeat confined_step. signer_call.
    apply (declineToSign_steps _ (DeclineToSignInput.mk _ _ _ _)).
  - apply signer_changes_secure; [done|]. intros token Ht. repeat confined_step. signer_call.
    apply (completeSigning_steps _ (CompleteSigningInput.mk _ _ _ _ _ _ _ _ _)).
Qed.

(** Accounts, and the routes that take a token of their own. *)
Lemma checks_account_session r :
  checks c0 (requireOrigin url_origin config r;; session ← requireSession config r;
             requireCsrf config session r;; mret session)
    (λ session, origin_allowed url_origin config r ∧ live_session config r (server c0) session ∧
       csrf_shown config r (ApiConfig.AUTH_CSRF_COOKIE_NAME config) (AccountSession.csrfTokenHash session)).
Proof.
  eapply checks_bind; [apply checks_origin|]. intros [] Ho.
  eapply checks_bind; [apply checks_session|]. intros session Hs.
  eapply checks_bind; [apply checks_csrf|]. intros [] Hc. by apply checks_ret.
Qed.

Lemma passive_login_limit r v : passive (consumeLoginRateLimit config r v).
Proof.
  assert (Ht : ∀ key, passive (take_login config key)).
  { intros key. unfold take_login. do 2 (passive_step; [passive_step|]).
    destruct (consume _ _ _ _ _) as [d bs]. passive_tac. }
  apply passive_bind; [apply Ht|]. intros []. destruct (member "email" v);
    lazymatch goal with
    | |- passive (mret _) => apply passive_ret
    | |- passive (if ?e then _ else _) => destruct e; [apply passive_ret|apply Ht]
    end.
Qed.

Ltac then_passive := apply confined_passive; passive_tac.

Lemma account_routes_secure x r b :
  match x with
  | Route.login | Route.logout | Route.revokeAccountSession | Route.me | Route.organizationMe _ =>
    secure c0 (route_admitted url_origin config x r b (server c0)) (route_tenant config x r b (server c0))
      (route datetime zod_message url_origin config x r b)
  | _ => True
  end.
Proof.
  destruct x; try exact I;
    cbv beta iota delta [route route_admitted route_tenant post_login post_logout post_sessions_revoke get_me
      get_organization_me].
  - eapply secure_bind; [apply checks_body|]. intros [] _.
    eapply secure_bind; [apply checks_origin|]. intros [] Ho.
    apply secure_confined; [done|]. apply confined_passive.
    apply passive_bind; [apply passive_login_limit|]. intros []. passive_tac.
  - eapply secure_bind; [apply checks_body|]. intros [] _.
    eapply secure_bind; [apply checks_origin|]. intros [] Ho.
    eapply secure_bind; [apply checks_session|]. intros session Hs.
    eapply secure_bind; [apply checks_csrf|]. intros [] Hc.
    apply secure_confined; [eauto 6|]. then_passive.
  - eapply secure_bind; [apply checks_body|]. intros [] _.
    eapply secure_bind; [apply checks_origin|]. intros [] Ho.
    eapply secure_bind; [apply checks_session|]. intros session Hs.
    eapply secure_bind; [apply checks_csrf|]. intros [] Hc.
    apply secure_confined; [eauto 6|]. then_passive.
  - eapply secure_bind; [apply checks_body|]. intros [] _.
    eapply secure_bind; [apply checks_session|]. intros session Hs.
    apply secure_confined; [eauto|]. then_passive.
  - eapply secure_bind; [apply checks_reading|]. intros actor (session & Hs & Hm).
    apply member_of_org in Hm as Ho.
    eapply secure_bind; [by apply checks_action|]. intros [] Ha.
    apply secure_confined; [|then_passive]. unfold reader. eauto 8.
Qed.

Lemma token_routes_secure x r b :
  match x with
  | Route.uploadSource _ _ | Route.streamPreview _ | Route.exchange =>
    secure c0 (route_admitted url_origin config x r b (server c0)) (route_tenant config x r b (server c0))
      (route datetime zod_message url_origin config x r b)
  | _ => True
  end.
Proof.
  destruct x; try exact I;
    cbv beta iota delta [route route_admitted put_source get_preview post_exchange].
  - eapply secure_bind; [apply checks_body|]. intros [] _.
    eapply secure_bind; [apply checks_id|]. intros ? ->.
    eapply secure_bind; [apply checks_id|]. intros ? ->.
    eapply secure_bind; [apply checks_header_token|]. intros token Ht.
    apply secure_confined; [by rewrite Ht|].
    eapply confined_bind; [apply checks_bytes|]. intros body _.
    eapply (confined_use c0 _ (upload_scope _ token));
      [apply (completeSourceUpload_steps _ (CompleteSourceUploadInput.mk _ _ _ _ _ _))| |passive_tac].
    apply upload_scope_kept. intros o Ho. by exists token.
  - eapply secure_bind; [apply checks_id|]. intros ? ->.
    eapply secure_bind; [apply checks_header_token|]. intros token Ht.
    apply secure_confined; [by rewrite Ht|].
    apply confined_call; [apply streamDocumentPreview_steps|passive_tac].
  - eapply secure_bind; [apply checks_entry|]. intros [] _.
    eapply secure_bind; [apply checks_origin|]. intros [] Ho.
    eapply secure_bind; [apply checks_request|]. intros bodyToken Hb.
    eapply secure_bind; [by apply (checks_lift c0 _ (λ t, extractExchangeToken bodyToken
      (Request.header r "authorization") = Ok t))|]. intros token Ht.
    assert (Hx : exchange_token r b token) by (by exists bodyToken).
    apply secure_confined; [by eauto|].
    eapply (confined_use c0 _ (token_scope _ token)); [apply exchangeSigningToken_steps| |passive_tac].
    apply token_scope_kept. intros o Hto. by exists token.
Qed.

(** Every route asks for what [route_admitted] says, and changes no other tenant. *)
Lemma route_secure x r b :
  secure c0 (route_admitted url_origin config x r b (server c0)) (route_tenant config x r b (server c0))
    (route datetime zod_message url_origin config x r b).
Proof.
  pose proof (member_routes_secure x r b). pose proof (signer_routes_secure x r b).
  pose proof (account_routes_secure x r b). pose proof (token_routes_secure x r b).
  by destruct x.
Qed.
End every_route.
