(* ===== verification/Invariants.v ===== *)
(** What the abstract specification keeps: tenants apart, documents and
    sessions on their life cycles, one open session per signer, settled events
    settled, every stored reference resolvable. *)

From Stdlib Require Import String.
From S2P Require Export System.
Local Open Scope string_scope.

Lemma durable_same {A} (f : St → A) s s' :
  (∀ s, f (durable s) = f s) → durable s = durable s' → f s = f s'.
Proof. intros Hf Hs. rewrite <-(Hf s), <-(Hf s'). by rewrite Hs. Qed.

(** Replace a projection of the store after a quiet step. *)
Ltac quiet_rewrite :=
  repeat match goal with
    | Hd : durable ?s = durable ?s' |- context [?f ?s'] =>
      rewrite <-(durable_same f s s' ltac:(done) Hd)
    end.

(** ** Tenants *)

Definition of_org {T} `{!Table T} (o : string) (s : St) : list T :=
  List.filter (λ r, String.eqb (row_org r) o) (rows s).

(** Everything a tenant has: its rows, its checkpoints and its objects. *)
Definition foreign_same (o : string) (s s' : St) : Prop :=
  of_org (T:=Document.t) o s = of_org o s' ∧ of_org (T:=DocumentRevision.t) o s = of_org o s' ∧
  of_org (T:=UploadSession.t) o s = of_org o s' ∧ of_org (T:=PreviewGrant.t) o s = of_org o s' ∧
  of_org (T:=IdempotencyRecord.t) o s = of_org o s' ∧ of_org (T:=AuditEvent.t) o s = of_org o s' ∧
  of_org (T:=OutboxEvent.t) o s = of_org o s' ∧ of_org (T:=BackgroundJob.t) o s = of_org o s' ∧
  of_org (T:=Signer.t) o s = of_org o s' ∧ of_org (T:=SignatureField.t) o s = of_org o s' ∧
  of_org (T:=SigningSession.t) o s = of_org o s' ∧ of_org (T:=ConsentRecord.t) o s = of_org o s' ∧
  of_org (T:=FinalizedArtifact.t) o s = of_org o s' ∧
  List.filter (λ c, String.eqb (AuditCheckpoint.organizationId c) o) s.(checkpoints) =
    List.filter (λ c, String.eqb (AuditCheckpoint.organizationId c) o) s'.(checkpoints) ∧
  (isOpaqueId o = true → ∀ k, startsWith ("org/" +:+ o +:+ "/") k = true →
     object_at k s.(objects) = object_at k s'.(objects)).

#[export] Instance foreign_same_preorder o : PreOrder (foreign_same o).
Proof.
  split; [by repeat split|]. intros s1 s2 s3 H1 H2. unfold foreign_same in *.
  repeat match goal with H : _ ∧ _ |- _ => destruct H end.
  split_and!; try congruence. intros Ho k Hk.
  match goal with
  | Ha : isOpaqueId o = true → _, Hb : isOpaqueId o = true → _ |- _ =>
    etrans; [first [by apply (Ha Ho k)|by apply (Hb Ho k)]|first [by apply (Hb Ho k)|by apply (Ha Ho k)]]
  end.
Qed.

Section tenants.
Context `{Env} (P : string → Prop) (o : string).
Hypothesis outside : ¬ P o.

Lemma other_org x : P x → String.eqb x o = false.
Proof. intros Hx. apply String.eqb_neq. by intros ->. Qed.

Lemma of_org_push {T} `{!Table T} (l : list T) x :
  P (row_org x) →
  List.filter (λ r, String.eqb (row_org r) o) l =
  List.filter (λ r, String.eqb (row_org r) o) (l ++ [x]).
Proof. intros Hx. symmetry. apply filter_push_false. by apply other_org. Qed.

Lemma of_org_write {T} `{!Table T} (l : list T) i x y :
  l !! i = Some x → P (row_org x) → P (row_org y) →
  List.filter (λ r, String.eqb (row_org r) o) l =
  List.filter (λ r, String.eqb (row_org r) o) (<[i := y]> l).
Proof. intros Hi Hx Hy. symmetry. eapply filter_insert_same; [exact Hi|..]; by apply other_org. Qed.

(** The tenant of a written row is that of the row before. *)
Ltac org_tac :=
  match goal with
  | Hx : P ?x |- P ?y =>
    first [ exact Hx | replace y with x; [exact Hx|];
      simpl; unfold document_write, document_fixed, upload_write, idempotency_fixed, event_evolves,
        signer_write, signer_fixed, field_fixed, session_evolves, session_fixed in *;
      naive_solver ]
  end.

Ltac foreign_tac T :=
  split_and!; try done;
  first [ apply (of_org_push (T:=T)); org_tac
        | eapply (of_org_write (T:=T)); [eassumption|org_tac|org_tac] ].

Lemma Step_foreign s s' : Step P s s' → foreign_same o s s'.
Proof.
  destruct 1 as [s s' Hs|s o' key HP Hk Ho' _].
  2: { split_and!; try done. intros Ho k Hk'. simpl. rewrite object_at_filter.
       destruct (String.eqb k key) eqn:He; [|done]. apply String.eqb_eq in He as ->.
       destruct outside. by rewrite (tenant_prefix_unique o o' key). }
  destruct Hs.
  - split_and!; (unfold of_org; simpl; by quiet_rewrite) || (intros _ k _; by quiet_rewrite).
  - foreign_tac Document.t.
  - foreign_tac Document.t.
  - foreign_tac DocumentRevision.t.
  - foreign_tac UploadSession.t.
  - foreign_tac UploadSession.t.
  - foreign_tac PreviewGrant.t.
  - foreign_tac IdempotencyRecord.t.
  - foreign_tac IdempotencyRecord.t.
  - foreign_tac AuditEvent.t.
  - foreign_tac OutboxEvent.t.
  - foreign_tac OutboxEvent.t.
  - foreign_tac BackgroundJob.t.
  - foreign_tac BackgroundJob.t.
  - split_and!; try done. unfold of_org. simpl. symmetry. 
    match goal with Hf : ∀ o', o' ≠ _ → _ |- _ => apply Hf end. by intros ->.
  - foreign_tac Signer.t.
  - split_and!; try done. unfold of_org. simpl. rewrite List.filter_app.
    match goal with |- _ = (_ ++ List.filter ?p ?l)%list => assert (List.filter p l = []) as -> end.
    { match goal with Hl : Forall _ ?l |- _ => induction Hl as [|f fs [Hof _] _ IH]; simpl; [done|] end.
      rewrite IH. unfold SignatureFields.of_document in Hof. apply andb_true_iff in Hof as [Hof _].
      apply String.eqb_eq in Hof as ->. by rewrite other_org. }
    rewrite app_nil_r. generalize (signatureFields s) as fields. clear -outside H0.
    induction fields as [|f fs IH]; simpl; [done|].
    destruct (SignatureFields.of_document o0 d f) eqn:Hof; simpl; rewrite IH; [|done].
    unfold SignatureFields.of_document in Hof. apply andb_true_iff in Hof as [Hof _].
    apply String.eqb_eq in Hof as ->. by rewrite other_org.
  - foreign_tac SignatureField.t.
  - foreign_tac SigningSession.t.
  - foreign_tac SigningSession.t.
  - foreign_tac ConsentRecord.t.
  - foreign_tac FinalizedArtifact.t.
  - split_and!; try done. intros Ho k Hk. simpl. rewrite object_at_app.
    destruct (object_at k (objects s)) eqn:Hat; [done|]. simpl.
    destruct (String.eqb key k) eqn:He; [|done]. apply String.eqb_eq in He as ->.
    match goal with Hk' : assertTenantObjectKey _ _ = _ |- _ =>
      apply assertTenantObjectKey_ok in Hk' as (_ & Ho'' & Hp & _) end.
    destruct outside. by rewrite (tenant_prefix_unique o o0 k).
  - split_and!; try done. simpl. symmetry. apply filter_push_false. by apply other_org.
Qed.

Lemma Steps_foreign s s' : Steps P s s' → foreign_same o s s'.
Proof. induction 1; [reflexivity|]. etrans; [by apply Step_foreign|done]. Qed.
End tenants.

(** ** Tables that only evolve *)

(** [evolves_tac]: the one table that changed changed by its rule. *)
Ltac evolves_tac :=
  let Hs := fresh in
  intros Hs; destruct Hs as [s s' Hs|]; [|reflexivity]; destruct Hs; simpl; try reflexivity;
  [ quiet_rewrite; reflexivity
  | eapply evolves_push; [apply _|]
  | eapply evolves_write; [apply _|eassumption|] ].

Section evolution.
Context `{Env} (P : string → Prop).

Lemma Steps_evolve {T} (f : St → list T) rel init `{!PreOrder rel} :
  (∀ s s', Step P s s' → evolves rel init (f s) (f s')) →
  ∀ s s', Steps P s s' → evolves rel init (f s) (f s').
Proof. intros Hf. induction 1; [reflexivity|]. etrans; [by apply Hf|done]. Qed.

Lemma Steps_documents s s' : Steps P s s' → documents_evolve s s'.
Proof.
  apply Steps_evolve; [apply _|]. intros s1 s2 [t t' Ht|]; [by eapply TStep_documents|].
  reflexivity.
Qed.

Lemma Step_sessions s s' :
  Step P s s' → evolves session_evolves session_init s.(signingSessions) s'.(signingSessions).
Proof. evolves_tac. all: done. Qed.

Lemma Steps_sessions s s' :
  Steps P s s' → evolves session_evolves session_init s.(signingSessions) s'.(signingSessions).
Proof. apply Steps_evolve; [apply _|exact Step_sessions]. Qed.

Definition event_init (x : OutboxEvent.t) : Prop :=
  OutboxEvent.status x = OutboxStatus.pending ∧
  assertSafeJobPayload (OutboxEvent.payload x) = Ok tt.

Lemma Step_events s s' :
  Step P s s' → evolves event_evolves event_init s.(outboxEvents) s'.(outboxEvents).
Proof. evolves_tac; [by split|done]. Qed.

Lemma Steps_events s s' :
  Steps P s s' → evolves event_evolves event_init s.(outboxEvents) s'.(outboxEvents).
Proof. apply Steps_evolve; [apply _|exact Step_events]. Qed.

#[local] Instance idempotency_fixed_preorder : PreOrder idempotency_fixed.
Proof.
  split; [intros x; by repeat split|]. intros x y z (? & ? & ? & ? & ? & ?) (? & ? & ? & ? & ? & ?).
  split_and!; congruence.
Qed.

(** Idempotency records keep their key and request. *)
Lemma Step_idempotency s s' :
  Step P s s' →
  evolves idempotency_fixed (λ x, IdempotencyRecord.responseBody x = None)
    s.(idempotencyRecords) s'.(idempotencyRecords).
Proof. evolves_tac. all: done. Qed.
End evolution.

(** ** At most one row *)

Definition sole {T} (p : T → bool) (l : list T) : Prop := (List.length (List.filter p l) ≤ 1)%nat.

Section sole.
Context {T : Type} (p : T → bool).

Lemma sole_nil : sole p [].
Proof. unfold sole. simpl. lia. Qed.

Lemma filter_nil (l : list T) : find_row p l = None → List.filter p l = [].
Proof.
  rewrite find_row_None. induction l as [|x l IH]; intros Hl; simpl; [done|].
  rewrite (Hl x) by left. apply IH. intros y Hy. apply Hl. by right.
Qed.

Lemma sole_push l x : (p x = true → find_row p l = None) → sole p l → sole p (l ++ [x]).
Proof.
  unfold sole. intros Hx Hl. rewrite List.filter_app. simpl. destruct (p x).
  - rewrite filter_nil by auto. simpl. lia.
  - by rewrite app_nil_r.
Qed.

Lemma sole_write l i x y :
  l !! i = Some x → (p y = true → p x = true) → sole p l → sole p (<[i := y]> l).
Proof.
  unfold sole. intros Hi Hxy. rewrite insert_take_drop by (by eapply lookup_lt_Some).
  rewrite <-(take_drop_middle _ _ _ Hi) at 1. rewrite !List.filter_app, !length_app. simpl.
  destruct (p y); [rewrite Hxy by done|destruct (p x)]; simpl; lia.
Qed.

Lemma sole_eq l x y :
  sole p l → x ∈ l → y ∈ l → p x = true → p y = true → x = y.
Proof.
  unfold sole. intros Hl Hx Hy Hpx Hpy.
  assert (∀ z, z ∈ l → p z = true → z ∈ List.filter p l) as Hin.
  { intros z Hz Hpz. apply list_elem_of_In, filter_In. by rewrite <-list_elem_of_In. }
  pose proof (Hin x Hx Hpx) as Hx'. pose proof (Hin y Hy Hpy) as Hy'.
  destruct (List.filter p l) as [|z [|w l']]; simpl in *; [by apply elem_of_nil in Hx'| |lia].
  apply list_elem_of_singleton in Hx', Hy'. congruence.
Qed.
End sole.

(** Both tables and objects of the store, and what may be asked of each. *)
Definition one_open_session (s : St) : Prop :=
  ∀ o i, sole (SigningSessions.open_of_signer o i) s.(signingSessions).
Definition one_record_per_key (s : St) : Prop :=
  ∀ o p r k, sole (IdempotencyRecords.key o p r k) s.(idempotencyRecords).
Definition one_artifact (s : St) : Prop :=
  ∀ o d, sole (FinalizedArtifacts.of_document o d) s.(finalizedArtifacts).
Definition one_consent (s : St) : Prop :=
  ∀ o i, sole (ConsentRecords.of_session o i) s.(consentRecords).

(** [sole_tac]: the write that touched the table respects the key. *)
Ltac sole_tac :=
  let Hs := fresh in let Hi := fresh in
  intros Hs Hi; destruct Hs as [s s' Hs|]; [|done]; destruct Hs; simpl; try done;
  [ quiet_rewrite; done
  | apply sole_push; [|done]
  | try (eapply sole_write; [eassumption| |done]) .. ].

(** Two keys a row matches are one. *)
Ltac same_key :=
  repeat match goal with
    | H : andb _ _ = true |- _ => apply andb_true_iff in H as [? ?]
    | H : String.eqb _ _ = true |- _ => apply String.eqb_eq in H
    end; subst.

Section uniqueness.
Context `{Env} (P : string → Prop).

Lemma Step_one_open s s' o i :
  Step P s s' → sole (SigningSessions.open_of_signer o i) s.(signingSessions) →
  sole (SigningSessions.open_of_signer o i) s'.(signingSessions).
Proof.
  sole_tac.
  - unfold SigningSessions.open_of_signer at 1. intros Hk. by same_key.
  - match goal with Hx : SigningSessions.is_open _ = true, Hw : session_evolves _ _ |- _ =>
      destruct Hw as [(_ & Ho & _ & Hi & _) _]; unfold SigningSessions.open_of_signer;
      rewrite Ho, Hi, Hx end.
    rewrite !andb_true_iff. tauto.
Qed.

Lemma Step_one_record s s' o p r k :
  Step P s s' → sole (IdempotencyRecords.key o p r k) s.(idempotencyRecords) →
  sole (IdempotencyRecords.key o p r k) s'.(idempotencyRecords).
Proof.
  sole_tac.
  - unfold IdempotencyRecords.key at 1. intros Hk. by same_key.
  - match goal with Hw : idempotency_fixed _ _ |- _ => destruct Hw as (_ & Ho & Hp & Hr & Hk & _) end.
    unfold IdempotencyRecords.key. by rewrite Ho, Hp, Hr, Hk.
Qed.

Lemma Step_one_artifact s s' o d :
  Step P s s' → sole (FinalizedArtifacts.of_document o d) s.(finalizedArtifacts) →
  sole (FinalizedArtifacts.of_document o d) s'.(finalizedArtifacts).
Proof. sole_tac. unfold FinalizedArtifacts.of_document at 1. intros Hk. by same_key. Qed.

Lemma Step_one_consent s s' o i :
  Step P s s' → sole (ConsentRecords.of_session o i) s.(consentRecords) →
  sole (ConsentRecords.of_session o i) s'.(consentRecords).
Proof. sole_tac. unfold ConsentRecords.of_session at 1. intros Hk. by same_key. Qed.

Lemma Step_signer_keys s s' :
  Step P s s' → NoDup (signer_keys s.(signers)) → NoDup (signer_keys s'.(signers)).
Proof.
  intros Hs Hd. destruct Hs as [s s' Hs|]; [|done]. destruct Hs; simpl; try done.
  - by quiet_rewrite.
  - auto.
  - match goal with Hw : signer_write _ _ |- _ => destruct Hw as [(Hid & Ho & _) _] end.
    unfold signer_keys. rewrite list_fmap_insert, list_insert_id; [done|].
    rewrite list_lookup_fmap. match goal with Hl : signers _ !! _ = _ |- _ => rewrite Hl end.
    simpl. by rewrite Hid, Ho.
Qed.
End uniqueness.
