(* ===== verification/Envelopes.v ===== *)
(** What every reachable envelope satisfies: documents on their way, signatures
    behind completed documents, consent behind signatures, the layout frozen by
    sending, and an object behind every revision, artifact and completed field,
    the orphan clean-up included. *)

From Stdlib Require Import String.
From S2P Require Export Invariants.
Local Open Scope string_scope.

Definition documents_wf (s : St) : Prop := Forall document_wf s.(documents).

(** Behind a document every signer of which has signed. *)
Definition late_signed (s : St) : Prop :=
  ∀ o d x r, document_at s o d = Some x → late (Document.state x) = true →
    r ∈ signers_of s o d → Signer.status r = SignerStatus.signed.

Definition signed_consented (s : St) : Prop :=
  ∀ r, r ∈ s.(signers) → Signer.status r = SignerStatus.signed → consented s r.

(** What is placed where on the pages, whatever was filled in since. *)
Definition layout (s : St) (o d : string) : list (string * string * FieldBox.t) :=
  (λ f, (SignatureField.id f, SignatureField.signerId f, FieldBox.of_field f)) <$> fields_of s o d.

Section documents.
Context `{Env} (P : string → Prop).

Lemma Step_documents s s' : Step P s s' → documents_evolve s s'.
Proof. intros [t t' Ht|]; [by eapply TStep_documents|]. unfold documents_evolve. simpl. reflexivity. Qed.

Lemma document_init_wf x : document_init x → document_wf x.
Proof. intros (Hs & _) He. unfold engaged in He. by rewrite Hs in He. Qed.

Lemma Steps_documents_wf s s' : Steps P s s' → documents_wf s → documents_wf s'.
Proof.
  intros Hs Hw. apply Steps_documents in Hs. apply Forall_forall. intros y Hy.
  assert (∀ x, document_wf x → document_evolves x y → document_wf y) as Hev.
  { intros x Hx [<- |(_ & _ & _ & Hi)]; auto. }
  destruct (evolves_elem _ _ _ _ _ Hs Hy) as [(x & Hx & Hxy)|(x & Hx & Hxy)].
  - apply (Hev x); [|done]. by apply (proj1 (Forall_forall _ _) Hw).
  - apply (Hev x); [|done]. by apply document_init_wf.
Qed.

(** The document a key finds keeps its place. *)
Lemma evolve_document_at s s' o d x :
  documents_evolve s s' → document_at s o d = Some x →
  ∃ y, document_at s' o d = Some y ∧ document_evolves x y.
Proof.
  intros Hs. unfold document_at, find_row. rewrite fmap_Some. intros ([n u] & Hf & ->).
  destruct (evolves_find_index _ _ _ _ _ _ _ (document_evolves_key o d) Hs Hf) as (y & Hy & ?).
  exists y. by rewrite Hy.
Qed.

(** What the writes of documents make of one that is looked up. *)
Lemma document_at_write s i x y o d z :
  s.(documents) !! i = Some x → document_write x y →
  document_at (set_documents (<[i := y]> s.(documents)) s) o d = Some z →
  document_at s o d = Some z ∨ document_at s o d = Some x ∧ z = y.
Proof.
  intros Hi ((Hid & Ho & _) & _). apply find_row_write; [done|].
  unfold Documents.key. by rewrite Hid, Ho.
Qed.

(** The only way past the signatures is through completion. *)
Lemma state_write_late a b :
  state_write a b → late b = true → late a = false → b = DocumentState.completed.
Proof. intros [-> | [Hab | [-> ->]]]; [congruence|by destruct a, b|done]. Qed.
End documents.

Section signatures.
Context `{Env} (P : string → Prop).

Lemma signers_of_elem s o d r :
  r ∈ signers_of s o d ↔ r ∈ s.(signers) ∧ Signers.of_document o d r = true.
Proof. unfold signers_of. by rewrite !list_elem_of_In, filter_In. Qed.

Lemma signer_key_eq (l : list Signer.t) x y :
  NoDup (signer_keys l) → x ∈ l → y ∈ l →
  Signers.key (Signer.organizationId x) (Signer.id x) y = true → x = y.
Proof.
  intros Hd Hx Hy Hk. apply signers_key in Hk as [Ho Hi].
  apply list_elem_of_lookup in Hx as [i Hx], Hy as [j Hy].
  assert (i = j) as ->; [|congruence]. eapply (NoDup_lookup (signer_keys l)); [done| |];
    unfold signer_keys; rewrite list_lookup_fmap; [by rewrite Hx|]. rewrite Hy. simpl. by rewrite Ho, Hi.
Qed.

Lemma all_signed_each s o d r :
  NoDup (signer_keys s.(signers)) → all_signed s o d → r ∈ signers_of s o d →
  Signer.status r = SignerStatus.signed.
Proof.
  intros Hd [_ Ha] Hr. destruct (Ha r Hr) as (r' & Hr' & Hk & Hs).
  apply signers_of_elem in Hr as [Hr Hof]. unfold Signers.of_document in Hof.
  apply andb_true_iff in Hof as [Ho _]. apply String.eqb_eq in Ho as <-.
  by rewrite (signer_key_eq _ _ _ Hd Hr Hr' Hk).
Qed.

(** A step that leaves the signers and documents alone. *)
Lemma late_signed_same s s' :
  documents s = documents s' → signers s = signers s' → late_signed s → late_signed s'.
Proof. intros Hd Hs Hl o d x r. unfold document_at, signers_of. rewrite <-Hd, <-Hs. by apply Hl. Qed.

Lemma TStep_late_signed s s' :
  TStep P s s' → NoDup (signer_keys s.(signers)) → late_signed s → late_signed s'.
Proof.
  intros Hs Hd Hl. destruct Hs; try (by eapply late_signed_same; [| |exact Hl]).
  - eapply late_signed_same; [| |exact Hl]; by apply durable_same.
  - intros o d z r Hz Hlate Hr. apply find_row_push in Hz as [Hz| ->]; [by eapply Hl|].
    match goal with Hi : document_init _ |- _ => destruct Hi as [Hi _]; by rewrite Hi in Hlate end.
  - intros o d z r Hz Hlate Hr. eapply document_at_write in Hz as [Hz|[Hz ->]]; [by eapply Hl| |done..].
    destruct (late (Document.state x)) eqn:Hx; [by eapply Hl|].
    destruct (document_at_key _ _ _ _ Hz) as [<- <-].
    assert (Document.state y = DocumentState.completed) as Hy.
    { eapply state_write_late; [|done|done]. by destruct H3 as (_ & _ & ? & _). }
    assert (all_signed s (Document.organizationId x) (Document.id x)) as Ha; [|by eapply all_signed_each].
    unfold document_rule in H4. rewrite Hy in H4. apply H4. intros Heq. by rewrite Heq in Hx.
  - intros o' d' z r Hz Hlate Hr. apply signers_of_elem in Hr as [Hr Hof]. simpl in Hr.
    change (document_at s o' d' = Some z) in Hz.
    destruct (H3 r Hr) as [Hin|[Hof' _]].
    { eapply Hl; [exact Hz|done|]. by apply signers_of_elem. }
    unfold Signers.of_document in Hof, Hof'. same_key.
    destruct H1 as (x & Hx & Hp). rewrite Hx in Hz. injection Hz as ->. by destruct (Document.state z).
  - intros o' d' z r Hz Hlate Hr. apply signers_of_elem in Hr as [Hr Hof]. simpl in Hr.
    change (document_at s o' d' = Some z) in Hz.
    apply list_elem_of_lookup in Hr as [j Hj]. destruct (decide (i = j)) as [->|Hne].
    + rewrite list_lookup_insert_eq in Hj by (by eapply lookup_lt_Some). injection Hj as <-.
      destruct H2 as ((_ & Ho & Hdoc & _) & Hpend & _).
      assert (Signer.status x = SignerStatus.signed); [|congruence].
      eapply Hl; [exact Hz|done|]. apply signers_of_elem. split; [by eapply list_elem_of_lookup_2|].
      unfold Signers.of_document in *. by rewrite Ho, Hdoc.
    + rewrite list_lookup_insert_ne in Hj by done. eapply Hl; [exact Hz|done|].
      apply signers_of_elem. split; [by eapply list_elem_of_lookup_2|done].
Qed.

Lemma Step_late_signed s s' :
  Step P s s' → NoDup (signer_keys s.(signers)) → late_signed s → late_signed s'.
Proof. destruct 1; [by apply TStep_late_signed|done]. Qed.
End signatures.

(** ** Consent *)

Section consent.
Context `{Env} (P : string → Prop).

Lemma evolves_lookup_elem {T} (rel : relation T) init l l' x :
  evolves rel init l l' → x ∈ l → ∃ y, y ∈ l' ∧ rel x y.
Proof.
  intros He Hx. apply list_elem_of_lookup in Hx as [i Hi].
  destruct (evolves_lookup _ _ _ _ _ _ He Hi) as (y & Hy & Hr). exists y.
  split; [by eapply list_elem_of_lookup_2|done].
Qed.

Lemma Step_consents s s' : Step P s s' → s.(consentRecords) `prefix_of` s'.(consentRecords).
Proof.
  intros [t t' Ht|]; [|done]. destruct Ht; simpl; try done.
  - assert (consentRecords s0 = consentRecords s'0) as -> by (by apply durable_same). done.
  - by apply prefix_app_r.
Qed.

Lemma consented_step s s' x y :
  Step P s s' → Signer.id x = Signer.id y → Signer.organizationId x = Signer.organizationId y →
  Signer.documentId x = Signer.documentId y → consented s x → consented s' y.
Proof.
  intros Hs Hi Ho Hd (session & consent & Hse & Hc & Hso & Hsd & Hsi & Hof).
  pose proof (Step_consents _ _ Hs) as [l Hl]. apply Step_sessions in Hs.
  destruct (evolves_lookup_elem _ _ _ _ _ Hs Hse) as (se' & Hse' & (Hid & Hor & Hdo & Hsg & _) & _).
  exists se', consent. split_and!; try congruence.
  - rewrite Hl. apply elem_of_app. by left.
Qed.

Lemma Step_signed_consented s s' : Step P s s' → signed_consented s → signed_consented s'.
Proof.
  intros Hs Hc. pose proof Hs as Hstep.
  assert (∀ r, r ∈ s.(signers) → Signer.status r = SignerStatus.signed → consented s' r) as Hold.
  { intros r Hr Hst. eapply consented_step; [exact Hs|done..|]. by apply Hc. }
  destruct Hs as [t t' Ht|]; [|by intros r; apply Hold].
  destruct Ht; try (by intros r; apply Hold).
  - intros r. assert (signers s = signers s') as <- by (by apply durable_same). by apply Hold.
  - intros r Hr Hst. destruct (H3 r Hr) as [Hin|[_ Hp]]; [by apply Hold|congruence].
  - intros r Hr Hst. simpl in Hr. apply list_elem_of_lookup in Hr as [j Hj].
    destruct (decide (i = j)) as [->|Hne].
    + rewrite list_lookup_insert_eq in Hj by (by eapply lookup_lt_Some). injection Hj as <-.
      destruct H2 as ((Hid & Ho & Hd & _) & _), H3 as [_ Hcon].
      eapply consented_step; [exact Hstep|exact Hid|exact Ho|exact Hd|]. by apply Hcon.
    + rewrite list_lookup_insert_ne in Hj by done. apply Hold; [by eapply list_elem_of_lookup_2|done].
Qed.

(** Only the signers of a document in preparation are replaced. *)
Lemma Step_layout s s' o d x :
  Step P s s' → document_at s o d = Some x → isPreparationState (Document.state x) = false →
  layout s' o d = layout s o d.
Proof.
  intros Hs Hx Hp. destruct Hs as [t t' Ht|]; [|done]. unfold layout, fields_of.
  destruct Ht; simpl; try done.
  - assert (signatureFields s = signatureFields s') as -> by (by apply durable_same). done.
  - assert (o0 ≠ o ∨ d0 ≠ d) as Hne.
    { destruct (decide (o0 = o)) as [->|]; [|by left]. right. intros ->.
      destruct H1 as (z & Hz & Hpz). congruence. }
    assert (∀ f, SignatureFields.of_document o0 d0 f = true → SignatureFields.of_document o d f = false) as Hoth.
    { intros f Hf. destruct (SignatureFields.of_document o d f) eqn:Hf'; [|done].
      unfold SignatureFields.of_document in *. same_key. tauto. }
    rewrite List.filter_app. assert (List.filter (SignatureFields.of_document o d) l = []) as ->.
    { clear -H2 Hoth. induction H2 as [|f fs [Hf _] _ IH]; simpl; [done|]. by rewrite (Hoth f Hf). }
    rewrite app_nil_r. f_equal. generalize (signatureFields s) as fields. clear -Hoth.
    induction fields as [|f fs IH]; simpl; [done|].
    destruct (SignatureFields.of_document o0 d0 f) eqn:Hf; simpl; [by rewrite (Hoth f Hf)|].
    destruct (SignatureFields.of_document o d f); [by f_equal|done].
  - match goal with Hw : field_fixed _ _, Hl : signatureFields _ !! _ = _ |- _ =>
      destruct Hw as (Hid & Ho & Hd & Hsi & _ & Hb & _); rename Hl into Hlk end.
    rewrite insert_take_drop by (by eapply lookup_lt_Some).
    rewrite <-(take_drop_middle _ _ _ Hlk) at 3. rewrite !List.filter_app, !fmap_app. f_equal. simpl.
    assert (SignatureFields.of_document o d y = SignatureFields.of_document o d x0) as ->.
    { unfold SignatureFields.of_document. by rewrite Ho, Hd. }
    destruct (SignatureFields.of_document o d x0); [|done]. simpl. by rewrite Hid, Hsi, Hb.
Qed.

Lemma Steps_layout s s' o d x :
  Steps P s s' → document_at s o d = Some x → isPreparationState (Document.state x) = false →
  layout s' o d = layout s o d.
Proof.
  intros Hs. revert x. induction Hs as [s|s s1 s2 Hs _ IH]; intros x Hx Hp; [done|].
  rewrite <-(Step_layout _ _ _ _ _ Hs Hx Hp).
  destruct (evolve_document_at _ _ _ _ _ (Step_documents _ _ _ Hs) Hx) as (y & Hy & Hxy).
  eapply IH; [exact Hy|]. destruct Hxy as [<- |(_ & _ & Hst & _)]; [done|].
  by eapply state_path_preparation.
Qed.
End consent.

(** ** Objects behind the rows *)

Definition revision_stored (s : St) (r : DocumentRevision.t) : Prop :=
  object_stored s (DocumentRevision.organizationId r) (DocumentRevision.objectKey r)
    (DocumentRevision.sha256Digest r).
Definition artifact_stored (s : St) (a : FinalizedArtifact.t) : Prop :=
  object_stored s (FinalizedArtifact.organizationId a) (FinalizedArtifact.objectKey a)
    (FinalizedArtifact.sha256Digest a).
Definition field_stored (s : St) (f : SignatureField.t) : Prop :=
  ∀ key, SignatureField.completionObjectKey f = Some key →
    ∃ digest, object_stored s (SignatureField.organizationId f) key digest.

(** Every reference resolves. *)
Definition references_resolve (s : St) : Prop :=
  Forall (revision_stored s) s.(revisions) ∧ Forall (artifact_stored s) s.(finalizedArtifacts) ∧
  Forall (field_stored s) s.(signatureFields).

Section references.
Context `{Env} (P : string → Prop).

Lemma object_stored_TStep s s' o k d : TStep P s s' → object_stored s o k d → object_stored s' o k d.
Proof. intros Hs. by apply (object_stored_stable P o k d _ _ (TSteps_once P _ _ Hs)). Qed.

(** Deleting an unreferenced object leaves the referenced ones. *)
Lemma object_stored_kept s o key o' k d :
  startsWith ("org/" +:+ o +:+ "/") key = true → isOpaqueId o = true →
  (o = o' → k ≠ key) →
  object_stored s o' k d →
  object_stored (set_objects (List.filter (λ e, negb (String.eqb e.1 key)) s.(objects)) s) o' k d.
Proof.
  intros Hp Ho Hne (Hk & x & Hx & Hd). split; [done|]. exists x. split; [|done].
  simpl. rewrite object_at_filter. destruct (String.eqb k key) eqn:He; [|done].
  apply String.eqb_eq in He as ->. destruct Hne; [|done].
  apply assertTenantObjectKey_ok in Hk as (_ & Ho' & Hp' & _). by eapply tenant_prefix_unique.
Qed.

(** The rows that were there before the step are still backed after it. *)
Lemma Step_backed s s' :
  Step P s s' → references_resolve s →
  Forall (revision_stored s') s.(revisions) ∧ Forall (artifact_stored s') s.(finalizedArtifacts) ∧
  Forall (field_stored s') s.(signatureFields).
Proof.
  intros Hs (Hr & Ha & Hf). rewrite Forall_forall in Hr; rewrite Forall_forall in Ha; rewrite Forall_forall in Hf. rewrite !Forall_forall.
  destruct Hs as [s s' Ht|s o key HP Hp Ho (Hur & Hua & Huf)].
  - split_and!; intros x Hx.
    + by eapply object_stored_TStep, Hr.
    + by eapply object_stored_TStep, Ha.
    + intros k Hk. destruct (Hf x Hx k Hk) as [d Hd]. exists d. by eapply object_stored_TStep.
  - split_and!; intros x Hx.
    + eapply object_stored_kept; [done..| |by apply Hr]. intros ->. by apply Hur.
    + eapply object_stored_kept; [done..| |by apply Ha]. intros ->. by apply Hua.
    + intros k Hk. destruct (Hf x Hx k Hk) as [d Hd]. exists d.
      eapply object_stored_kept; [done..| |done]. intros -> ->. by eapply Huf.
Qed.

Lemma Step_references s s' : Step P s s' → references_resolve s → references_resolve s'.
Proof.
  intros Hs Hr. pose proof (Step_backed _ _ Hs Hr) as (Hrev & Hart & Hfld).
  destruct Hs as [s s' Ht|]; [|done].
  destruct Ht; try done.
  - unfold references_resolve.
    assert (revisions s = revisions s') as <- by (by apply durable_same).
    assert (finalizedArtifacts s = finalizedArtifacts s') as <- by (by apply durable_same).
    by assert (signatureFields s = signatureFields s') as <- by (by apply durable_same).
  - split; [|done]. apply Forall_app. split; [done|]. by constructor.
  - split; [done|]. split; [done|]. apply Forall_app. split.
    + apply Forall_forall. intros f Hf. apply list_elem_of_In, filter_In in Hf as [Hf _].
      apply (proj1 (Forall_forall _ _) Hfld). by apply list_elem_of_In.
    + eapply Forall_impl; [exact H2|]. intros f [_ [Hf|Hn]].
      * by apply (proj1 (Forall_forall _ _) Hfld).
      * intros k Hk. congruence.
  - split; [done|]. split; [done|]. apply Forall_insert; [done|].
    intros k Hk. pose proof H2 as (_ & Ho & _).
    destruct (H3 k Hk) as [Hx|(d & Hst & _)].
    + pose proof (Forall_lookup_1 _ _ _ _ Hfld H0) as Hfx. destruct (Hfx k Hx) as [d Hd].
      exists d. by rewrite <-Ho.
    + exists d. by rewrite <-Ho.
  - split; [done|]. split; [|done]. apply Forall_app. split; [done|]. by constructor.
Qed.

(** Objects never change, and only the cleanup removes them. *)
Lemma Step_object s s' key x :
  Step P s s' → object_at key s.(objects) = Some x →
  object_at key s'.(objects) = Some x ∨ object_at key s'.(objects) = None.
Proof.
  destruct 1 as [s s' Ht|s o key' _ _ _ _].
  - intros Hx. left. by eapply TStep_objects.
  - intros Hx. simpl. rewrite object_at_filter. destruct (String.eqb key key'); auto.
Qed.

Lemma Step_storage_ok s s' : Step P s s' → storage_ok s.(objects) → storage_ok s'.(objects).
Proof.
  intros Hs Hok. destruct Hs as [s s' Ht|]; [|by apply storage_ok_filter].
  destruct Ht; try done.
  - by assert (objects s = objects s') as <- by (by apply durable_same).
  - destruct Hok as [Hd Hw]. split; simpl.
    + rewrite fmap_app. apply NoDup_app. split_and!; [done| |apply NoDup_singleton].
      intros k Hk ->%list_elem_of_singleton. by apply object_at_None in H2.
    + apply Forall_app. split; [done|]. by apply Forall_singleton.
Qed.
End references.

(** What holds of every reachable store. *)
Section reachable.
Context `{Env} `{!AuthorizationPolicy} `{!UnitOfWork} `{!Notifier} `{!ImmutableCheckpointStore}
  `{!CheckpointLaws}.

Lemma reachable_storage s : reachable s → storage_ok s.(objects).
Proof.
  intros Hr. refine (reachable_invariant (λ s, storage_ok s.(objects)) s _ _ Hr).
  - intros s1 s2 Hs. by eapply Step_storage_ok.
  - split; constructor.
Qed.

Lemma reachable_references s : reachable s → references_resolve s.
Proof.
  intros Hr. refine (reachable_invariant references_resolve s _ _ Hr).
  - intros s1 s2 Hs. by eapply Step_references.
  - by repeat constructor.
Qed.
End reachable.
