(* ===== verification/Unambiguity.v ===== *)
(** Canonical audit documents are unambiguous: the text of a document
    determines the document, and the order in which the members of a payload
    were written does not matter. *)

From Stdlib Require Import String Ascii Permutation Sorted.
From stdpp Require Import pretty sorting.
From S2P Require Export Canonical.
Local Open Scope string_scope.

(** ** Induction on nested documents *)

Fixpoint canonical_ind' (Q : CanonicalJson → Prop)
    (Hnull : Q CNull) (Hbool : ∀ b, Q (CBool b)) (Hnum : ∀ n, Q (CNum n)) (Hstr : ∀ s, Q (CStr s))
    (Harr : ∀ l, Forall Q l → Q (CArr l))
    (Hobj : ∀ m, Forall (λ e, Q e.2) m → Q (CObj m)) (c : CanonicalJson) : Q c :=
  match c with
  | CNull => Hnull
  | CBool b => Hbool b
  | CNum n => Hnum n
  | CStr s => Hstr s
  | CArr l => Harr l
      ((fix go l : Forall Q l :=
          match l with
          | [] => Forall_nil_2 Q
          | x :: l => Forall_cons_2 Q x l (canonical_ind' Q Hnull Hbool Hnum Hstr Harr Hobj x) (go l)
          end) l)
  | CObj m => Hobj m
      ((fix go m : Forall (λ e, Q e.2) m :=
          match m with
          | [] => Forall_nil_2 (λ e, Q e.2)
          | e :: m => Forall_cons_2 (λ e, Q e.2) e m
              (canonical_ind' Q Hnull Hbool Hnum Hstr Harr Hobj e.2) (go m)
          end) m)
  end.

(** ** Characters *)

(** What the text of a number is made of. *)
Definition num_char (c : ascii) : bool :=
  is_digit c || Ascii.eqb c "-" || Ascii.eqb c "+" || Ascii.eqb c "." || Ascii.eqb c "e".
Definition number_text (l : list ascii) : Prop := l ≠ [] ∧ Forall (λ c, num_char c = true) l.

(** Nothing of a number follows. *)
Definition closed (l : list ascii) : Prop := match l with [] => True | c :: _ => num_char c = false end.

Lemma pretty_digit x : num_char (pretty_N_char x) = true.
Proof. unfold pretty_N_char. by repeat case_match. Qed.

Lemma pretty_N_go_text x s :
  Forall (λ c, num_char c = true) (units s) → Forall (λ c, num_char c = true) (units (pretty_N_go x s)).
Proof.
  revert s. induction (N.lt_wf_0 x) as [x _ IH]; intros s Hs.
  assert (x = 0 ∨ 0 < x)%N as [->|Hx] by lia; [by rewrite pretty_N_go_0|].
  rewrite pretty_N_go_step by done. apply IH; [by apply N.div_lt|].
  constructor; [apply pretty_digit|done].
Qed.

Lemma pretty_N_go_nonempty x s : (0 < x)%N ∨ units s ≠ [] → units (pretty_N_go x s) ≠ [].
Proof.
  revert s. induction (N.lt_wf_0 x) as [x _ IH]; intros s Hs.
  assert (x = 0 ∨ 0 < x)%N as [->|Hx] by lia.
  { rewrite pretty_N_go_0. destruct Hs as [Hs|Hs]; [lia|done]. }
  rewrite pretty_N_go_step by done. apply IH; [by apply N.div_lt|]. by right.
Qed.

Lemma of_int_text z : number_text (units (of_int z)).
Proof.
  assert (∀ p, number_text (units (pretty (N.pos p)))) as Hp.
  { intros p. unfold pretty, pretty_N. case_decide; [done|]. split.
    - apply pretty_N_go_nonempty. left. lia.
    - by apply pretty_N_go_text. }
  unfold of_int, pretty, pretty_Z. destruct z as [|p|p].
  - split; [done|]. by repeat constructor.
  - apply Hp.
  - destruct (Hp p) as [_ Hf]. split; [done|]. constructor; [done|exact Hf].
Qed.

(** ** Prefix codes *)

Definition all_chars : list ascii := ascii_of_nat <$> seq 0 256.

Lemma all_chars_elem c : c ∈ all_chars.
Proof.
  apply list_elem_of_fmap. exists (nat_of_ascii c). split; [by rewrite ascii_nat_embedding|].
  apply elem_of_seq. pose proof (nat_ascii_bounded c). lia.
Qed.

Lemma all_chars_forall (p : ascii → bool) : forallb p all_chars = true → ∀ c, p c = true.
Proof. intros Hp c. apply (proj1 (forallb_forall p all_chars) Hp), list_elem_of_In, all_chars_elem. Qed.

Fixpoint is_prefix (l l' : list ascii) : bool :=
  match l, l' with
  | [], _ => true
  | _, [] => false
  | c :: l, d :: l' => Ascii.eqb c d && is_prefix l l'
  end.

Lemma app_prefix (l l' x y : list ascii) :
  (l ++ x = l' ++ y)%list → is_prefix l l' = true ∨ is_prefix l' l = true.
Proof.
  revert l'. induction l as [|c l IH]; intros [|d l']; simpl; auto.
  intros [= -> He]. rewrite Ascii.eqb_refl. by apply IH.
Qed.

Lemma escape_char_code c d : is_prefix (escape_char c) (escape_char d) = true → c = d.
Proof.
  assert (forallb (λ c, forallb (λ d,
    implb (is_prefix (escape_char c) (escape_char d)) (Ascii.eqb c d)) all_chars) all_chars = true) as Hall
    by (vm_compute; reflexivity).
  pose proof (all_chars_forall _ (all_chars_forall _ Hall c) d) as Hcd. simpl in Hcd.
  intros Hp. rewrite Hp in Hcd. by apply Ascii.eqb_eq.
Qed.

Lemma escape_char_head c : ∃ h t, escape_char c = h :: t ∧ h ≠ dquote.
Proof.
  assert (forallb (λ c, match escape_char c with [] => false | h :: _ => negb (Ascii.eqb h dquote) end)
    all_chars = true) as Hall by (vm_compute; reflexivity).
  pose proof (all_chars_forall _ Hall c) as Hc. simpl in Hc.
  destruct (escape_char c) as [|h t]; [done|]. exists h, t. split; [done|].
  by apply Ascii.eqb_neq, negb_true_iff.
Qed.

(** A quoted string ends where it ends. *)
Lemma quote_inj s1 s2 r1 r2 : (quote s1 ++ r1 = quote s2 ++ r2)%list → s1 = s2 ∧ r1 = r2.
Proof.
  unfold quote. intros [= Hq]. rewrite <-!(assoc app) in Hq. simpl in Hq.
  assert (units s1 = units s2 ∧ r1 = r2) as [Hs ->]; [|by split; [apply units_inj|]].
  revert Hq. generalize (units s1) as l1, (units s2) as l2. clear s1 s2.
  induction l1 as [|c l1 IH]; intros [|d l2]; simpl.
  - by intros [= ->].
  - destruct (escape_char_head d) as (h & t & -> & Hh). intros [= <- _]. done.
  - destruct (escape_char_head c) as (h & t & -> & Hh). intros [= -> _]. done.
  - rewrite <-!(assoc app). intros Hq.
    assert (c = d) as ->.
    { destruct (app_prefix _ _ _ _ Hq) as [Hp|Hp]; [|symmetry]; by apply escape_char_code. }
    apply app_inv_head in Hq. by destruct (IH l2 Hq) as [-> ->].
Qed.

(** A number ends where it ends. *)
Lemma number_text_inj l1 l2 r1 r2 :
  number_text l1 → number_text l2 → closed r1 → closed r2 →
  (l1 ++ r1 = l2 ++ r2)%list → l1 = l2 ∧ r1 = r2.
Proof.
  intros [_ H1] [_ H2] Hr1 Hr2. revert l2 H2.
  induction H1 as [|c l1 Hc _ IH]; intros [|d l2] H2; simpl.
  - done.
  - intros ->. apply Forall_cons in H2 as [Hd _]. simpl in Hr1. congruence.
  - intros <-. simpl in Hr2. congruence.
  - intros [= <- He]. apply Forall_cons in H2 as [_ H2]. by destruct (IH l2 H2 He) as [-> ->].
Qed.

(** ** Documents *)

(** The same document, numbers compared by their text. *)
Inductive same_json `{Env} : relation CanonicalJson :=
  | same_null : same_json CNull CNull
  | same_bool b : same_json (CBool b) (CBool b)
  | same_num n n' : print_number n = print_number n' → same_json (CNum n) (CNum n')
  | same_str s : same_json (CStr s) (CStr s)
  | same_arr l l' : Forall2 same_json l l' → same_json (CArr l) (CArr l')
  | same_obj m m' : m.*1 = m'.*1 → Forall2 same_json m.*2 m'.*2 → same_json (CObj m) (CObj m').

(** All numbers are finite. *)
Fixpoint finite_json (c : CanonicalJson) : bool :=
  match c with
  | CNum n => isFinite n
  | CArr l => forallb finite_json l
  | CObj m => forallb (λ e, finite_json e.2) m
  | _ => true
  end.

Section printing.
Context `{Env}.

(** [String(x)] of a finite number is written in digits, signs, a point and an
    exponent. *)
Context (number_format : ∀ f, isFinite (NFlt f) = true → number_text (units (number_to_string f))).

Fixpoint print_items (l : list CanonicalJson) : list ascii :=
  match l with
  | [] => ["]"%char]
  | x :: l => (print_json x ++ match l with [] => ["]"%char] | _ => comma :: print_items l end)%list
  end.
Fixpoint print_members (m : list (string * CanonicalJson)) : list ascii :=
  match m with
  | [] => ["}"%char]
  | (k, x) :: m =>
    (quote k ++ ":"%char :: print_json x ++
       match m with [] => ["}"%char] | _ => comma :: print_members m end)%list
  end.

Lemma print_arr l : print_json (CArr l) = "["%char :: print_items l.
Proof. reflexivity. Qed.
Lemma print_obj m : print_json (CObj m) = "{"%char :: print_members m.
Proof. reflexivity. Qed.

Lemma print_number_text n : isFinite n = true → number_text (print_number n).
Proof. destruct n as [z|f]; simpl; [intros _; apply of_int_text|apply number_format]. Qed.

(** The first character tells what is printed. *)
Definition head_kind (c : ascii) : nat :=
  if Ascii.eqb c "n" then 0 else if Ascii.eqb c "t" then 1 else if Ascii.eqb c "f" then 2
  else if num_char c then 3 else if Ascii.eqb c dquote then 4 else if Ascii.eqb c "[" then 5
  else if Ascii.eqb c "{" then 6 else 7.
Definition kind (c : CanonicalJson) : nat :=
  match c with
  | CNull => 0 | CBool true => 1 | CBool false => 2 | CNum _ => 3 | CStr _ => 4
  | CArr _ => 5 | CObj _ => 6
  end.

Lemma num_char_kind c : num_char c = true → head_kind c = 3%nat.
Proof.
  assert (forallb (λ c, implb (num_char c) (head_kind c =? 3)%nat) all_chars = true) as Hall
    by (vm_compute; reflexivity).
  pose proof (all_chars_forall _ Hall c) as Hc. simpl in Hc. intros Hn. rewrite Hn in Hc.
  by apply Nat.eqb_eq.
Qed.

Lemma print_head c : finite_json c = true → ∃ h t, print_json c = h :: t ∧ head_kind h = kind c.
Proof.
  destruct c as [|[]|n|s|l|m]; simpl; intros Hf; try (by eexists _, _).
  destruct (print_number_text n Hf) as [Hne Ht].
  destruct (print_number n) as [|h t]; [done|]. exists h, t. split; [done|].
  apply Forall_cons in Ht as [Hh _]. by apply num_char_kind.
Qed.

Lemma print_kind c1 c2 r1 r2 :
  finite_json c1 = true → finite_json c2 = true →
  (print_json c1 ++ r1 = print_json c2 ++ r2)%list → kind c1 = kind c2.
Proof.
  intros H1 H2. destruct (print_head c1 H1) as (h1 & t1 & -> & <-), (print_head c2 H2) as (h2 & t2 & -> & <-).
  by intros [= ->].
Qed.

Definition unambiguous (c1 : CanonicalJson) : Prop :=
  ∀ c2 r1 r2, finite_json c1 = true → finite_json c2 = true → closed r1 → closed r2 →
    (print_json c1 ++ r1 = print_json c2 ++ r2)%list → same_json c1 c2 ∧ r1 = r2.

(** Neither an element nor a member starts like the end of its list. *)
Lemma print_not_close c r t : finite_json c = true → "]"%char :: t ≠ (print_json c ++ r)%list.
Proof.
  intros Hf. destruct (print_head c Hf) as (h & u & -> & Hk). intros [= <- _].
  destruct c as [|[]|?|?|?|?]; done.
Qed.

Lemma items_unambiguous l1 l2 r1 r2 :
  Forall unambiguous l1 → forallb finite_json l1 = true → forallb finite_json l2 = true →
  (print_items l1 ++ r1 = print_items l2 ++ r2)%list → Forall2 same_json l1 l2 ∧ r1 = r2.
Proof.
  intros Hu. revert l2. induction Hu as [|x l1 Hx _ IH]; intros [|y l2] H1 H2 He; simpl in *.
  - by injection He as ->.
  - apply andb_true_iff in H2 as [Hy _]. rewrite <-(assoc app) in He. by apply print_not_close in He.
  - apply andb_true_iff in H1 as [Hy _]. rewrite <-(assoc app) in He. symmetry in He.
    by apply print_not_close in He.
  - apply andb_true_iff in H1 as [Hfx H1], H2 as [Hfy H2]. rewrite <-!(assoc app) in He.
    apply (Hx y) in He as [Hxy He]; [|done|done|by destruct l1|by destruct l2].
    destruct l1 as [|x' l1], l2 as [|y' l2]; simpl in He.
    + injection He as ->. by repeat constructor.
    + discriminate He.
    + discriminate He.
    + injection He as He. destruct (IH (y' :: l2)) as [Hl ->]; [done..|]. by split; [constructor|].
Qed.

Lemma print_members_cons k x m r :
  (print_members ((k, x) :: m) ++ r =
   quote k ++ ":"%char :: print_json x ++
     match m with [] => ["}"%char] | _ => comma :: print_members m end ++ r)%list.
Proof. cbn [print_members]. rewrite <-(assoc app). cbn [app]. by rewrite <-(assoc app). Qed.

Lemma members_unambiguous m1 m2 r1 r2 :
  Forall (λ e, unambiguous e.2) m1 → forallb (λ e, finite_json e.2) m1 = true →
  forallb (λ e, finite_json e.2) m2 = true →
  (print_members m1 ++ r1 = print_members m2 ++ r2)%list →
  m1.*1 = m2.*1 ∧ Forall2 same_json m1.*2 m2.*2 ∧ r1 = r2.
Proof.
  intros Hu. revert m2. induction Hu as [|[k x] m1 Hx _ IH]; intros [|[j y] m2] H1 H2 He.
  - by injection He as ->.
  - discriminate He.
  - discriminate He.
  - simpl in H1, H2. apply andb_true_iff in H1 as [Hfx H1], H2 as [Hfy H2].
    rewrite !print_members_cons in He. apply quote_inj in He as [-> He]. injection He as He.
    apply (Hx y) in He as [Hxy He]; [|done|done|by destruct m1|by destruct m2].
    destruct m1 as [|[k' x'] m1], m2 as [|[j' y'] m2].
    + injection He as ->. by repeat constructor.
    + discriminate He.
    + discriminate He.
    + apply (f_equal tail) in He. cbn [tail app] in He. apply IH in He as (Hk & Hl & ->); [|done..].
      split_and!; [cbn in Hk |- *; congruence|by constructor|done].
Qed.

Lemma print_unambiguous c : unambiguous c.
Proof.
  induction c as [|b|n|s|l IH|m IH] using canonical_ind'; intros c2 r1 r2 Hf1 Hf2 Hr1 Hr2 He;
    pose proof (print_kind _ _ _ _ Hf1 Hf2 He) as Hk.
  - destruct c2 as [|[]|?|?|?|?]; try done. injection He as ->. split; [constructor|done].
  - destruct b, c2 as [|[]|?|?|?|?]; try done; injection He as ->; (split; [constructor|done]).
  - destruct c2 as [|[]|n'|?|?|?]; try done. simpl in *.
    apply number_text_inj in He as [He ->]; [|by apply print_number_text..|done|done].
    by split; [constructor|].
  - destruct c2 as [|[]|?|s'|?|?]; try done. apply quote_inj in He as [-> ->]. by split; [constructor|].
  - destruct c2 as [|[]|?|?|l'|?]; try done. rewrite !print_arr in He. injection He as He.
    apply items_unambiguous in He as [Hl ->]; [|done..]. by split; [constructor|].
  - destruct c2 as [|[]|?|?|?|m']; try done. rewrite !print_obj in He. injection He as He.
    apply members_unambiguous in He as (Hk' & Hl & ->); [|done..]. by split; [constructor|].
Qed.

Lemma json_stringify_same c1 c2 :
  finite_json c1 = true → finite_json c2 = true →
  json_stringify c1 = json_stringify c2 → same_json c1 c2.
Proof.
  intros H1 H2 He. unfold json_stringify in He.
  assert (print_json c1 = print_json c2) as Hp.
  { by rewrite <-(units_of_units (print_json c1)), He, units_of_units. }
  apply (print_unambiguous c1 c2 [] []); [done..|]. by rewrite Hp.
Qed.
End printing.

(** ** Canonicalization *)

Fixpoint value_ind' (Q : value → Prop)
    (Hundef : Q VUndef) (Hnull : Q VNull) (Hbool : ∀ b, Q (VBool b)) (Hnum : ∀ n, Q (VNum n))
    (Hstr : ∀ s, Q (VStr s)) (Hdate : ∀ d, Q (VDate d)) (Hbytes : ∀ b, Q (VBytes b))
    (Harr : ∀ l, Forall Q l → Q (VArr l)) (Hobj : ∀ m, Forall (λ e, Q e.2) m → Q (VObj m))
    (Hother : ∀ ty, Q (VOther ty)) (v : value) : Q v :=
  let rec := value_ind' Q Hundef Hnull Hbool Hnum Hstr Hdate Hbytes Harr Hobj Hother in
  match v with
  | VUndef => Hundef
  | VNull => Hnull
  | VBool b => Hbool b
  | VNum n => Hnum n
  | VStr s => Hstr s
  | VDate d => Hdate d
  | VBytes b => Hbytes b
  | VArr l => Harr l
      ((fix go l : Forall Q l :=
          match l with
          | [] => Forall_nil_2 Q
          | x :: l => Forall_cons_2 Q x l (rec x) (go l)
          end) l)
  | VObj m => Hobj m
      ((fix go m : Forall (λ e, Q e.2) m :=
          match m with
          | [] => Forall_nil_2 (λ e, Q e.2)
          | e :: m => Forall_cons_2 (λ e, Q e.2) e m (rec e.2) (go m)
          end) m)
  | VOther ty => Hother ty
  end.

(** What becomes of a member. *)
Definition entry_of (e : string * value) : string * option (Result Exn CanonicalJson) :=
  (e.1, match e.2 with VUndef => None | v => Some (canonicalizeJsonValue v) end).

Lemma canonicalize_obj m :
  canonicalizeJsonValue (VObj m) =
  (canonical ← sequence_entries (sort_by entry_leb (entry_of <$> m));
   mret (CObj (sort_by key_leb canonical))).
Proof.
  cbn [canonicalizeJsonValue]. do 3 f_equal.
  induction m as [|[k v] m IH]; [done|]. rewrite fmap_cons, <-IH. by destruct v.
Qed.

Lemma sequence_entries_Forall {A} (Q : A → Prop) (l : list (string * option (Result Exn A))) m :
  Forall (λ e, ∀ a, e.2 = Some (Ok a) → Q a) l → sequence_entries l = Ok m →
  Forall (λ e, Q e.2) m.
Proof.
  intros Hl. revert m. induction Hl as [|[k [r|]] l He _ IH]; intros m; simpl.
  - intros [= <-]. constructor.
  - rewrite bind_Result_ok. intros (x & -> & Hm). rewrite bind_Result_ok in Hm.
    destruct Hm as (rest & Hrest & [= <-]). destruct (String.eqb k "__proto__"); [by apply IH|].
    constructor; [by apply He|by apply IH].
  - apply IH.
Qed.

Lemma forallb_Forall {A} (p : A → bool) l : forallb p l = true ↔ Forall (λ x, p x = true) l.
Proof. rewrite forallb_forall, Forall_forall. by setoid_rewrite list_elem_of_In. Qed.

(** What is canonical has only finite numbers. *)
Lemma canonicalize_finite v c : canonicalizeJsonValue v = Ok c → finite_json c = true.
Proof.
  revert c. induction v as [| | | n | | d | |l IH|m IH|] using value_ind'; intros c; try done;
    try (by intros [= <-]).
  - simpl. destruct (isFinite n) eqn:Hn; [|done]. by intros [= <-].
  - simpl. destruct d; [|done]. by intros [= <-].
  - cbn [canonicalizeJsonValue].
    match goal with |- context [CArr <$> ?r] => destruct r as [cs|] eqn:Hr end; [|done].
    intros [= <-]. simpl. revert cs Hr. induction IH as [|x l Hx _ IH']; intros cs Hr.
    { injection Hr as <-. done. }
    destruct (canonicalizeJsonValue x) as [y|] eqn:Hy; [|done].
    match type of Hr with (match ?r with _ => _ end) = _ => destruct r as [ys|] eqn:Hys end; [|done].
    injection Hr as <-. simpl. apply andb_true_iff. split; [by apply Hx|by apply IH'].
  - rewrite canonicalize_obj, bind_Result_ok. intros (es & Hes & [= <-]). simpl.
    apply forallb_Forall. apply sort_by_Forall.
    eapply (sequence_entries_Forall (λ a, finite_json a = true)); [|exact Hes].
    apply sort_by_Forall, Forall_fmap. eapply Forall_impl; [exact IH|].
    intros [k v] Hv a Ha. apply Hv. unfold entry_of in Ha. cbn [fst snd] in *. destruct v; congruence.
Qed.

(** *** The order of members *)

Lemma entry_leb_total {A} (a b : string * A) : entry_leb a b = true ∨ entry_leb b a = true.
Proof. apply string_leb_total. Qed.
Lemma entry_leb_trans {A} (a b c : string * A) :
  entry_leb a b = true → entry_leb b c = true → entry_leb a c = true.
Proof. apply string_leb_trans. Qed.

Lemma NoDup_key_eq {A} (l : list (string * A)) a b :
  NoDup l.*1 → a ∈ l → b ∈ l → a.1 = b.1 → a = b.
Proof.
  intros Hd Ha Hb Hk. apply list_elem_of_lookup in Ha as [i Ha], Hb as [j Hb].
  assert (i = j) as ->; [|congruence].
  eapply (NoDup_lookup l.*1); [done| |]; rewrite list_lookup_fmap; [by rewrite Ha|].
  rewrite Hb. simpl. by rewrite Hk.
Qed.

(** Canonicalization does not depend on the order in which the members of an
    object were written: two objects with the same members, each under its own
    key, have the same canonical text, or fail with the same error. *)
Theorem canonical_order_independent `{Env} (m m' : object) :
  NoDup (keys m) → m ≡ₚ m' →
  serializeCanonicalJson (VObj m) = serializeCanonicalJson (VObj m').
Proof.
  intros Hd Hp. unfold serializeCanonicalJson. rewrite !canonicalize_obj.
  rewrite (sort_by_permutation entry_leb entry_leb_total entry_leb_trans
    (entry_of <$> m) (entry_of <$> m')); [done| |by rewrite Hp].
  intros a b Ha Hb Hab Hba. eapply NoDup_key_eq; [|exact Ha|exact Hb|].
  - rewrite <-list_fmap_compose. exact Hd.
  - by apply string_leb_antisym.
Qed.

Lemma canonical_order_independent_witness :
  NoDup (keys [("b", VNum (NInt 2)); ("a", VStr "x")]) ∧
  @serializeCanonicalJson Sample.env (VObj [("b", VNum (NInt 2)); ("a", VStr "x")]) =
  @serializeCanonicalJson Sample.env (VObj [("a", VStr "x"); ("b", VNum (NInt 2))]).
Proof.
  assert (NoDup (keys [("b", VNum (NInt 2)); ("a", VStr "x")])) as Hd.
  { apply (bool_decide_unpack _). vm_compute. exact I. }
  split; [exact Hd|].
  apply (@canonical_order_independent Sample.env); [exact Hd|]. apply Permutation_swap.
Defined.

(** C12: canonical audit text is unambiguous: when two values have the same
    canonical text they canonicalize to the same document, up to the text of
    their numbers; no choice of strings, keys or nesting can make one document
    read as another. *)
Theorem canonical_text_unambiguous `{Env}
    (number_format : ∀ f, isFinite (NFlt f) = true → number_text (units (number_to_string f)))
    v1 v2 text :
  serializeCanonicalJson v1 = Ok text → serializeCanonicalJson v2 = Ok text →
  ∃ c1 c2, canonicalizeJsonValue v1 = Ok c1 ∧ canonicalizeJsonValue v2 = Ok c2 ∧ same_json c1 c2.
Proof.
  unfold serializeCanonicalJson. intros H1 H2.
  destruct (canonicalizeJsonValue v1) as [c1|] eqn:Hc1; [|done].
  destruct (canonicalizeJsonValue v2) as [c2|] eqn:Hc2; [|done].
  exists c1, c2. split_and!; [done..|]. injection H1 as H1. injection H2 as H2.
  apply (json_stringify_same number_format); [by eapply canonicalize_finite..|congruence].
Qed.

Lemma sample_number_format f :
  isFinite (NFlt f) = true → number_text (units (@number_to_string Sample.env f)).
Proof. intros _. split; [done|]. by repeat constructor. Qed.

Lemma canonical_text_unambiguous_witness :
  ∃ c1 c2,
    canonicalizeJsonValue (VObj [("b", VBool true); ("a", VStr "x")]) = Ok c1 ∧
    canonicalizeJsonValue (VObj [("a", VStr "x"); ("b", VBool true); ("c", VUndef)]) = Ok c2 ∧
    @same_json Sample.env c1 c2.
Proof.
  eapply (@canonical_text_unambiguous Sample.env sample_number_format); vm_compute; reflexivity.
Defined.

(** ** The document an event is hashed by *)

Section documents.
Context `{Env}.

Definition hashed_document (input : AuditEventHashInput.t) : Result Exn CanonicalJson :=
  toCanonicalAuditEventV1 input ≫= canonicalizeJsonValue.

Lemma auditEventText_document input text :
  auditEventText input = Ok text ↔ ∃ c, hashed_document input = Ok c ∧ text = json_stringify c.
Proof.
  unfold auditEventText, hashed_document, serializeCanonicalJson.
  destruct (toCanonicalAuditEventV1 input) as [v|]; simpl; [|naive_solver].
  unfold mbind, Result_bind. destruct (canonicalizeJsonValue v) as [c|]; simpl; [|naive_solver].
  split; [intros [= <-]; by exists c|]. by intros (c' & [= ->] & ->).
Qed.

(** The members of the document are already in order. *)
Lemma event_members_sorted {A} (a b c d e f g h : A) :
  let l := [("actorId", a); ("actorType", b); ("occurredAt", c); ("payload", d);
            ("previousEventHash", e); ("schemaVersion", f); ("sequence", g); ("type", h)] in
  sort_by entry_leb l = l ∧ sort_by key_leb l = l.
Proof. split; vm_compute; reflexivity. Qed.

Lemma hashed_document_shape input c :
  hashed_document input = Ok c →
  ∃ t p q, AuditEventHashInput.occurredAt input = Some t ∧
    canonicalizeJsonValue (AuditEventHashInput.payload input) = Ok p ∧
    canonicalizeJsonValue (embed p) = Ok q ∧
    c = CObj [("actorId", CStr (AuditEventHashInput.actorId input));
              ("actorType", CStr (AuditActorType.to_string (AuditEventHashInput.actorType input)));
              ("occurredAt", CStr (toISOString t)); ("payload", q);
              ("previousEventHash", CStr (AuditEventHashInput.previousEventHash input));
              ("schemaVersion", CNum (NInt AUDIT_CHAIN_SCHEMA_VERSION));
              ("sequence", CNum (NInt (AuditEventHashInput.sequence input)));
              ("type", CStr (AuditEventType.to_string (AuditEventHashInput.type input)))].
Proof.
  destruct input as [v prev seq ty aty aid [t|] payload]; unfold hashed_document; simpl.
  2: { by destruct (throw_if _ _). }
  rewrite bind_Result_ok. intros (doc & Hdoc & Hc).
  rewrite bind_Result_ok in Hdoc. destruct Hdoc as (u & _ & Hdoc).
  rewrite bind_Result_ok in Hdoc. destruct Hdoc as (p & Hp & [= <-]).
  exists t, p. rewrite canonicalize_obj in Hc.
  rewrite !fmap_cons, fmap_nil in Hc. unfold entry_of in Hc. cbn [fst snd] in Hc.
  assert (match embed p with VUndef => None | v => Some (canonicalizeJsonValue v) end =
          Some (canonicalizeJsonValue (embed p))) as He by (by destruct p).
  rewrite He, (proj1 (event_members_sorted _ _ _ _ _ _ _ _)) in Hc. cbn [canonicalizeJsonValue] in Hc.
  destruct (canonicalizeJsonValue (embed p)) as [q|e] eqn:Hq; [|done].
  exists q. split_and!; [done..|]. cbn -[sort_by toISOString AUDIT_CHAIN_SCHEMA_VERSION] in Hc.
  rewrite (proj2 (event_members_sorted _ _ _ _ _ _ _ _)) in Hc. by injection Hc as <-.
Qed.
End documents.
