(* ===== verification/JsonText.v ===== *)
(** [JSON.parse], [TextEncoder] and [TextDecoder], as far as the program uses
    them, and that they read back what [JSON.stringify] wrote.

    The members of a parsed object are in the order of the text, the last of a
    name counting; text beyond U+00FF is not modelled and does not parse. *)

From Stdlib Require Import String Ascii SpecFloat.
From stdpp Require Import pretty.
From S2P Require Export Unambiguity.
Local Open Scope string_scope.

(** ** UTF-8 *)

(** Two bytes from U+0080 on. *)
Definition utf8_char (c : ascii) : list Z :=
  let z := code c in if (z <? 128)%Z then [z] else [192 + z / 64; 128 + z mod 64]%Z.
Definition utf8_encode (s : string) : list Z := mjoin (utf8_char <$> units s).

Fixpoint utf8_decode (l : list Z) : option (list ascii) :=
  match l with
  | [] => Some []
  | b :: l =>
    if (b <? 128)%Z then cons (char b) <$> utf8_decode l
    else match l with
    | b' :: l =>
      if ((b =? 194) || (b =? 195))%Z && ((128 <=? b') && (b' <? 192))%Z
      then cons (char ((b - 192) * 64 + (b' - 128))%Z) <$> utf8_decode l else None
    | [] => None
    end
  end.

Lemma utf8_round_trip s : utf8_decode (utf8_encode s) = Some (units s).
Proof.
  unfold utf8_encode. induction (units s) as [|c l IH]; [done|].
  assert (∀ l, utf8_decode (utf8_char c ++ l) = cons c <$> utf8_decode l) as Hc.
  { intros k.
    assert (forallb (λ c, match utf8_char c with
      | [b] => (b <? 128)%Z && Ascii.eqb (char b) c
      | [b; b'] => negb (b <? 128)%Z && (((b =? 194) || (b =? 195))%Z && ((128 <=? b') && (b' <? 192))%Z)
                   && Ascii.eqb (char ((b - 192) * 64 + (b' - 128))%Z) c
      | _ => false end) all_chars = true) as Hall by (vm_compute; reflexivity).
    apply all_chars_forall with (c := c) in Hall.
    destruct (utf8_char c) as [|b [|b' [|]]]; try done; simpl.
    - apply andb_true_iff in Hall as [Hb Hch%Ascii.eqb_eq]. by rewrite Hb, Hch.
    - rewrite !andb_true_iff in Hall. destruct Hall as [[Hb Hr] Hch%Ascii.eqb_eq].
      apply negb_true_iff in Hb. destruct Hr as [H1 [H2 H3]]. by rewrite Hb, H1, H2, H3, Hch. }
  change (mjoin (utf8_char <$> c :: l)) with (utf8_char c ++ mjoin (utf8_char <$> l))%list.
  by rewrite Hc, IH.
Qed.

(** ** JSON texts *)

Definition json_space (c : ascii) : bool :=
  let z := code c in ((z =? 32) || (z =? 9) || (z =? 10) || (z =? 13))%Z.
Definition skip_space : list ascii → list ascii := drop_while json_space.

(** What follows the character, white space before it skipped. *)
Definition after (c : ascii) (l : list ascii) : option (list ascii) :=
  match skip_space l with d :: r => if Ascii.eqb d c then Some r else None | [] => None end.

Fixpoint strip_prefix (p l : list ascii) : option (list ascii) :=
  match p, l with
  | [], _ => Some l
  | c :: p, d :: l => if Ascii.eqb c d then strip_prefix p l else None
  | _, [] => None
  end.

Definition hex_code (c : ascii) : option Z :=
  if is_digit c then Some (code c - 48)%Z
  else if between "a" "f" c then Some (code c - 87)%Z
  else if between "A" "F" c then Some (code c - 55)%Z
  else None.

(** The character of a short escape. *)
Definition short_escape (c : ascii) : option ascii :=
  if Ascii.eqb c dquote || Ascii.eqb c backslash || Ascii.eqb c "/" then Some c
  else if Ascii.eqb c "b" then Some (char 8) else if Ascii.eqb c "f" then Some (char 12)
  else if Ascii.eqb c "n" then Some (char 10) else if Ascii.eqb c "r" then Some (char 13)
  else if Ascii.eqb c "t" then Some (char 9) else None.

(** One character of a string, and what follows it. *)
Definition parse_char (l : list ascii) : option (ascii * list ascii) :=
  match l with
  | [] => None
  | c :: l =>
    if Ascii.eqb c backslash then
      match l with
      | [] => None
      | e :: l' =>
        if negb (Ascii.eqb e "u") then (λ d, (d, l')) <$> short_escape e else
        match l' with
        | z1 :: z2 :: h :: k :: l'' =>
          if Ascii.eqb z1 "0" && Ascii.eqb z2 "0" then
            a ← hex_code h; b ← hex_code k; Some (char (a * 16 + b)%Z, l'')
          else None
        | _ => None
        end
      end
    else if (code c <? 32)%Z || Ascii.eqb c dquote then None else Some (c, l)
  end.

(** The characters up to the closing quote. *)
Fixpoint parse_string (fuel : nat) (l : list ascii) : option (list ascii * list ascii) :=
  match fuel, l with
  | _, [] | O, _ => None
  | S fuel, c :: l' =>
    if Ascii.eqb c dquote then Some ([], l')
    else
      '(d, rest) ← parse_char l;
      '(s, rest) ← parse_string fuel rest;
      Some (d :: s, rest)
  end.

Fixpoint take_digits (l : list ascii) : list ascii * list ascii :=
  match l with
  | c :: l' => if is_digit c then let '(ds, r) := take_digits l' in (c :: ds, r) else ([], l)
  | [] => ([], [])
  end.

Definition digits_Z (l : list ascii) : Z := foldl (λ acc c, (acc * 10 + (code c - 48))%Z) 0%Z l.

(** The fraction and the exponent of a number, [None] when malformed. *)
Definition take_fraction (l : list ascii) : option (list ascii * list ascii) :=
  match l with
  | c :: l' =>
    if Ascii.eqb c "." then
      match take_digits l' with ([], _) => None | (ds, r) => Some (c :: ds, r) end
    else Some ([], l)
  | [] => Some ([], [])
  end.
Definition is_exponent (c : ascii) : bool := Ascii.eqb c "e" || Ascii.eqb c "E".
Definition take_exponent (l : list ascii) : option (list ascii * list ascii) :=
  match l with
  | c :: l' =>
    if is_exponent c then
      let '(sign, l'') := match l' with
        | d :: k => if Ascii.eqb d "+" || Ascii.eqb d "-" then ([d], k) else ([], l')
        | [] => ([], [])
        end in
      match take_digits l'' with
      | ([], _) => None
      | (ds, r) => Some (c :: sign ++ ds, r)%list
      end
    else Some ([], l)
  | [] => Some ([], [])
  end.

(** An object from its members: one that is there keeps its place and takes the
    later value. *)
Definition object_of (m : object) : object := foldl (λ o e, assign e.1 e.2 o) [] m.

Section parsing.
Context `{Env}.

(** The number of a sign, an integer part and the rest of its text: integers
    below [2^53] exactly, anything else as [Number] of the text. *)
Definition number_value (negative : bool) (ds rest : list ascii) : jsnum :=
  let z := digits_Z ds in
  if (match rest with [] => true | _ => false end) && (z <? 9007199254740992)%Z &&
     negb (negative && (z =? 0)%Z)
  then NInt (if negative then - z else z)
  else string_to_number (of_units ((if negative then ["-"%char] else []) ++ ds ++ rest)).

Definition parse_number (l : list ascii) : option (jsnum * list ascii) :=
  let '(negative, l) := match l with
    | c :: l' => if Ascii.eqb c "-" then (true, l') else (false, l)
    | [] => (false, [])
    end in
  let '(ds, r) := take_digits l in
  match ds with
  | [] => None
  | d :: ds' =>
    if Ascii.eqb d "0" && negb (length ds' =? 0)%nat then None else
    '(fraction, r) ← take_fraction r;
    '(exponent, r) ← take_exponent r;
    Some (number_value negative ds (fraction ++ exponent)%list, r)
  end.

Fixpoint parse_value (fuel : nat) (l : list ascii) : option (value * list ascii) :=
  match fuel with
  | O => None
  | S fuel =>
    match skip_space l with
    | [] => None
    | c :: l' =>
      if Ascii.eqb c "n" then (λ r, (VNull, r)) <$> strip_prefix (units "ull") l'
      else if Ascii.eqb c "t" then (λ r, (VBool true, r)) <$> strip_prefix (units "rue") l'
      else if Ascii.eqb c "f" then (λ r, (VBool false, r)) <$> strip_prefix (units "alse") l'
      else if Ascii.eqb c dquote then
        (λ '(s, r), (VStr (of_units s), r)) <$> parse_string (length l') l'
      else if Ascii.eqb c "[" then
        match after "]" l' with
        | Some r => Some (VArr [], r)
        | None => (λ '(vs, r), (VArr vs, r)) <$> parse_items fuel l'
        end
      else if Ascii.eqb c "{" then
        match after "}" l' with
        | Some r => Some (VObj [], r)
        | None => (λ '(m, r), (VObj (object_of m), r)) <$> parse_members fuel l'
        end
      else (λ '(n, r), (VNum n, r)) <$> parse_number (c :: l')
    end
  end
with parse_items (fuel : nat) (l : list ascii) : option (list value * list ascii) :=
  match fuel with
  | O => None
  | S fuel =>
    '(v, r) ← parse_value fuel l;
    match after "," r with
    | Some r => '(vs, r) ← parse_items fuel r; Some (v :: vs, r)
    | None => (λ r, ([v], r)) <$> after "]" r
    end
  end
with parse_members (fuel : nat) (l : list ascii) : option (object * list ascii) :=
  match fuel with
  | O => None
  | S fuel =>
    l ← after dquote l;
    '(k, r) ← parse_string (length l) l;
    r ← after ":" r;
    '(v, r) ← parse_value fuel r;
    match after "," r with
    | Some r => '(m, r) ← parse_members fuel r; Some ((of_units k, v) :: m, r)
    | None => (λ r, ([(of_units k, v)], r)) <$> after "}" r
    end
  end.

(** [JSON.parse(text)]; [None] is a [SyntaxError].  A value has fewer levels,
    elements and members than its text has characters, so that twice as much
    fuel is enough. *)
Definition json_parse (text : string) : option value :=
  let l := units text in
  match parse_value (S (2 * length l)) l with
  | Some (v, r) => match skip_space r with [] => Some v | _ => None end
  | None => None
  end.
End parsing.

(** ** Reading back what was written *)

Lemma parse_escape c r : parse_char (escape_char c ++ r) = Some (c, r).
Proof. by destruct c as [[] [] [] [] [] [] [] []]. Qed.

Lemma escape_nonempty c : (1 <= length (escape_char c))%nat.
Proof. destruct (escape_char_head c) as (h & t & -> & _). simpl. lia. Qed.

Lemma escapes_length l : (length l <= length (mjoin (escape_char <$> l)))%nat.
Proof.
  induction l as [|c l IH]; [done|].
  change (mjoin (escape_char <$> c :: l)) with (escape_char c ++ mjoin (escape_char <$> l))%list.
  rewrite length_app. pose proof (escape_nonempty c). simpl. lia.
Qed.

Lemma parse_string_escapes fuel l r :
  (length l < fuel)%nat →
  parse_string fuel (mjoin (escape_char <$> l) ++ dquote :: r) = Some (l, r).
Proof.
  revert fuel. induction l as [|c l IH]; intros [|fuel] Hf; simpl in Hf; try lia; [done|].
  change (mjoin (escape_char <$> c :: l)) with (escape_char c ++ mjoin (escape_char <$> l))%list.
  rewrite <-(assoc app). destruct (escape_char_head c) as (h & t & He & Hh).
  pose proof (parse_escape c (mjoin (escape_char <$> l) ++ dquote :: r)) as Hp.
  rewrite He in Hp |- *. cbn [app] in Hp |- *. cbn [parse_string].
  rewrite (proj2 (Ascii.eqb_neq h dquote) Hh), Hp. cbn. by rewrite IH by lia.
Qed.

Lemma parse_quoted s r :
  ∃ l, (quote s ++ r)%list = dquote :: l ∧ parse_string (length l) l = Some (units s, r).
Proof.
  exists ((mjoin (escape_char <$> units s) ++ [dquote]) ++ r)%list. split; [done|].
  rewrite <-(assoc app). apply parse_string_escapes.
  rewrite length_app. pose proof (escapes_length (units s)). simpl. lia.
Qed.

(** *** Integers *)

Definition all_digits (l : list ascii) : Prop := Forall (λ c, is_digit c = true) l.

Lemma digits_Z_snoc l c : digits_Z (l ++ [c]) = (digits_Z l * 10 + (code c - 48))%Z.
Proof. unfold digits_Z. by rewrite foldl_app. Qed.

Lemma pretty_char_code x : (x < 10)%N →
  is_digit (pretty_N_char x) = true ∧ code (pretty_N_char x) = (48 + Z.of_N x)%Z ∧
  ((0 < x)%N → pretty_N_char x ≠ "0"%char).
Proof.
  intros Hx. assert (x ∈ N.of_nat <$> seq 0 10) as Hin.
  { apply list_elem_of_fmap. exists (N.to_nat x). split; [lia|]. apply elem_of_seq. lia. }
  revert Hin. repeat (rewrite fmap_cons || simpl). 
  rewrite !elem_of_cons, elem_of_nil. intros Hin.
  repeat (destruct Hin as [-> | Hin]; [by split_and!|]). done.
Qed.

Lemma pretty_go_digits x s :
  (0 < x)%N → ∃ ds, units (pretty_N_go x s) = (ds ++ units s)%list ∧ all_digits ds ∧
    digits_Z ds = Z.of_N x ∧ ∃ d ds', ds = d :: ds' ∧ d ≠ "0"%char.
Proof.
  revert s. induction (N.lt_wf_0 x) as [x _ IH]; intros s Hx.
  rewrite pretty_N_go_step by done.
  destruct (pretty_char_code (x mod 10)) as (Hd & Hc & Hz); [by apply N.mod_lt|].
  pose proof (N.div_mod x 10 ltac:(done)) as Hdm.
  destruct (decide (x / 10 = 0)%N) as [H0|H0].
  - rewrite H0, pretty_N_go_0. exists [pretty_N_char (x mod 10)]. split_and!; [done|by constructor| |].
    + unfold digits_Z. simpl. lia.
    + eexists _, []. split; [done|]. apply Hz. lia.
  - destruct (IH (x / 10)%N (N.div_lt x 10 ltac:(lia) ltac:(done))
      (String (pretty_N_char (x mod 10)) s) (proj1 (N.neq_0_lt_0 _) H0)) as (ds & Hu & Ha & Hv & d & ds' & -> & Hd0).
    exists ((d :: ds') ++ [pretty_N_char (x mod 10)])%list. split_and!.
    + rewrite Hu. simpl. by rewrite <-(assoc app).
    + apply Forall_app. split; [done|by constructor].
    + rewrite digits_Z_snoc, Hv. lia.
    + by eexists d, _.
Qed.

(** The text of an integer: a sign, and digits without a leading zero. *)
Lemma of_int_digits z :
  ∃ d ds, units (of_int z) = ((if (z <? 0)%Z then ["-"%char] else []) ++ d :: ds)%list ∧
    all_digits (d :: ds) ∧ digits_Z (d :: ds) = Z.abs z ∧ (d = "0"%char → ds = []) ∧
    (d = "0"%char → z = 0%Z).
Proof.
  assert (∀ p, ∃ d ds, units (pretty (N.pos p)) = d :: ds ∧ all_digits (d :: ds) ∧
    digits_Z (d :: ds) = Zpos p ∧ d ≠ "0"%char) as Hp.
  { intros p. unfold pretty, pretty_N. case_decide; [done|].
    destruct (pretty_go_digits (N.pos p) "" ltac:(lia)) as (ds & Hu & Ha & Hv & d & ds' & -> & Hd).
    exists d, ds'. split_and!; [|done..]. rewrite Hu. simpl. by rewrite app_nil_r. }
  destruct z as [|p|p].
  - exists "0"%char, []. split_and!; try done. by constructor.
  - destruct (Hp p) as (d & ds & Hu & Ha & Hv & Hd). exists d, ds. by split_and!.
  - destruct (Hp p) as (d & ds & Hu & Ha & Hv & Hd). exists d, ds. split_and!; try done.
    change (of_int (Zneg p)) with ("-" +:+ pretty (N.pos p)). by rewrite units_app, Hu.
Qed.

(** What may follow a value. *)
Definition ends (l : list ascii) : Prop :=
  match l with [] => True | c :: _ => c = ","%char ∨ c = "]"%char ∨ c = "}"%char end.

Lemma take_digits_app ds r :
  all_digits ds → ends r → take_digits (ds ++ r) = (ds, r).
Proof.
  intros Ha Hr. induction Ha as [|d ds Hd _ IH]; simpl.
  - destruct r as [|c r]; [done|]. by destruct Hr as [-> | [-> | ->]].
  - by rewrite Hd, IH.
Qed.

Lemma not_minus d : is_digit d = true → Ascii.eqb d "-" = false.
Proof.
  intros Hd. apply Ascii.eqb_neq. by intros ->.
Qed.

Section reading.
Context `{Env}.

Lemma parse_int z r :
  (Z.abs z < 9007199254740992)%Z → ends r →
  parse_number (units (of_int z) ++ r) = Some (NInt z, r).
Proof.
  intros Hz Hr. destruct (of_int_digits z) as (d & ds & -> & Ha & Hv & Hlead & Hzero).
  assert (∀ neg, neg = (z <? 0)%Z → number_value neg (d :: ds) [] = NInt z) as Hn.
  { intros neg ->. unfold number_value. rewrite Hv. simpl.
    rewrite (proj2 (Z.ltb_lt _ _) Hz). simpl.
    destruct (Z.ltb_spec z 0); simpl.
    - rewrite (proj2 (Z.eqb_neq _ _)) by lia. simpl. f_equal. lia.
    - f_equal. lia. }
  assert ((if (Ascii.eqb d "0" && negb (length ds =? 0)%nat) then None else
    '(fraction, r) ← take_fraction r; '(exponent, r) ← take_exponent r;
    Some (number_value (z <? 0)%Z (d :: ds) (fraction ++ exponent)%list, r)) = Some (NInt z, r)) as Hrest.
  { destruct (Ascii.eqb d "0") eqn:Hd; simpl.
    - apply Ascii.eqb_eq in Hd. rewrite (Hlead Hd). simpl.
      rewrite (Hlead Hd) in Hn. destruct r as [|c r]; simpl; [by rewrite Hn|].
      destruct Hr as [-> | [-> | ->]]; simpl; by rewrite Hn.
    - destruct r as [|c r]; simpl; [by rewrite Hn|].
      destruct Hr as [-> | [-> | ->]]; simpl; by rewrite Hn. }
  unfold parse_number. pose proof (Forall_inv Ha) as Hd. simpl in Hd.
  destruct (z <? 0)%Z.
  - cbn [app]. rewrite Ascii.eqb_refl. change (d :: (ds ++ r))%list with ((d :: ds) ++ r)%list.
    rewrite take_digits_app by done. exact Hrest.
  - cbn [app]. rewrite (not_minus d Hd). change (d :: (ds ++ r))%list with ((d :: ds) ++ r)%list.
    rewrite take_digits_app by done. exact Hrest.
Qed.

(** *** Documents *)

(** Documents whose numbers are integers below [2^53] and whose members are
    named apart. *)
Fixpoint integral (c : CanonicalJson) : bool :=
  match c with
  | CNum (NInt z) => (Z.abs z <? 9007199254740992)%Z
  | CNum (NFlt _) => false
  | CArr l => forallb integral l
  | CObj m => bool_decide (NoDup m.*1) && forallb (λ e, integral e.2) m
  | _ => true
  end.

(** The fuel that reading a document takes. *)
Fixpoint need (c : CanonicalJson) : nat :=
  match c with
  | CArr l => S (foldr (λ x n, S (max (need x) n)) 0%nat l)
  | CObj m => S (foldr (λ e n, S (max (need e.2) n)) 0%nat m)
  | _ => 1
  end.
Definition need_items (l : list CanonicalJson) : nat := foldr (λ x n, S (max (need x) n)) 0%nat l.
Definition need_members (m : list (string * CanonicalJson)) : nat :=
  foldr (λ e n, S (max (need e.2) n)) 0%nat m.

Definition embed_members (m : list (string * CanonicalJson)) : object :=
  (λ '(k, x), (k, embed x)) <$> m.

Lemma embed_members_keys m : (embed_members m).*1 = m.*1.
Proof. induction m as [|[k x] m IH]; [done|]. cbn. f_equal. exact IH. Qed.

Lemma assign_fresh k v o : k ∉ o.*1 → assign k v o = (o ++ [(k, v)])%list.
Proof.
  induction o as [|[j w] o IH]; simpl; [done|]. rewrite not_elem_of_cons. intros [Hne Hk].
  rewrite (proj2 (String.eqb_neq j k)) by done. by rewrite IH.
Qed.

Lemma object_of_NoDup m : NoDup m.*1 → object_of m = m.
Proof.
  intros Hd. unfold object_of.
  assert (∀ o : object, NoDup (o ++ m)%list.*1 → foldl (λ o e, assign e.1 e.2 o) o m = (o ++ m)%list) as Hg.
  { clear Hd. induction m as [|[k v] m IH]; intros o Hd; simpl; [by rewrite app_nil_r|].
    rewrite assign_fresh.
    - rewrite IH by (by rewrite <-(assoc app)). by rewrite <-(assoc app).
    - rewrite fmap_app in Hd. apply NoDup_app in Hd as (_ & Hd & _). intros Hk. apply (Hd k Hk). by left. }
  by apply (Hg []).
Qed.

(** The first character of a document is not white space. *)
Lemma print_unspaced c r : integral c = true → ∃ h t,
  (print_json c ++ r)%list = h :: t ∧ json_space h = false ∧ ¬ ends [h].
Proof.
  destruct c as [|[]|n|s|l|m]; intros Hi; try (eexists _, _; split_and!; [reflexivity|done|];
    by intros [|[|]]).
  destruct n as [z|]; [|done]. destruct (of_int_digits z) as (d & ds & Hu & Ha & _).
  simpl print_json. rewrite Hu. pose proof (Forall_inv Ha) as Hd. simpl in Hd.
  assert (json_space d = false ∧ ¬ ends [d]) as [Hs He].
  { assert (forallb (λ c, implb (is_digit c) (negb (json_space c) &&
      negb (Ascii.eqb c "," || Ascii.eqb c "]" || Ascii.eqb c "}"))) all_chars = true) as Hall
      by (vm_compute; reflexivity).
    apply all_chars_forall with (c := d) in Hall. rewrite Hd in Hall. simpl in Hall.
    apply andb_true_iff in Hall as [Hs%negb_true_iff He%negb_true_iff]. split; [done|].
    rewrite !orb_false_iff, !Ascii.eqb_neq in He. by intros [|[|]]; naive_solver. }
  destruct (z <? 0)%Z; cbn [app]; eexists _, _; (split_and!; [reflexivity|done|]); [|done].
  by intros [|[|]].
Qed.

Lemma after_other c h t : json_space h = false → h ≠ c → after c (h :: t) = None.
Proof.
  intros Hs Hne. unfold after, skip_space. simpl. rewrite Hs. by rewrite (proj2 (Ascii.eqb_neq h c)).
Qed.
Lemma after_same c t : json_space c = false → after c (c :: t) = Some t.
Proof. intros Hs. unfold after, skip_space. simpl. rewrite Hs. by rewrite Ascii.eqb_refl. Qed.

Definition reads (c : CanonicalJson) : Prop :=
  ∀ fuel r, integral c = true → (need c <= fuel)%nat → ends r →
    parse_value fuel (print_json c ++ r) = Some (embed c, r).

Lemma parse_items_S fuel l :
  parse_items (S fuel) l =
  ('(v, r) ← parse_value fuel l;
   match after "," r with
   | Some r => '(vs, r) ← parse_items fuel r; Some (v :: vs, r)
   | None => (λ r, ([v], r)) <$> after "]" r
   end).
Proof. reflexivity. Qed.

Lemma parse_members_S fuel l :
  parse_members (S fuel) l =
  (l ← after dquote l;
   '(k, r) ← parse_string (length l) l;
   r ← after ":" r;
   '(v, r) ← parse_value fuel r;
   match after "," r with
   | Some r => '(m, r) ← parse_members fuel r; Some ((of_units k, v) :: m, r)
   | None => (λ r, ([(of_units k, v)], r)) <$> after "}" r
   end).
Proof. reflexivity. Qed.

Lemma items_read x l fuel r :
  Forall reads (x :: l) → forallb integral (x :: l) = true → (need_items (x :: l) <= fuel)%nat →
  parse_items fuel (print_items (x :: l) ++ r) = Some (embed <$> x :: l, r).
Proof.
  intros Hall. revert fuel. remember (x :: l) as k eqn:Hk. revert x l Hk.
  induction Hall as [|y k Hy _ IH]; [done|]. intros x l [= -> ->] fuel Hi Hn.
  simpl in Hi. apply andb_true_iff in Hi as [Hx Hi].
  change (need_items (x :: l)) with (S (max (need x) (need_items l))) in Hn.
  destruct fuel as [|fuel]; [lia|]. rewrite parse_items_S. cbn [print_items]. rewrite <-(assoc app).
  destruct l as [|y l].
  - cbn [app]. rewrite Hy; [|done|lia|by right; left]. cbn.
    by rewrite after_other, after_same.
  - cbn [app]. rewrite Hy; [|done|lia|by left]. unfold mbind at 1, option_bind at 1.
    rewrite after_same by done. rewrite (IH y l) by (done || lia). done.
Qed.

Lemma members_read e m fuel r :
  Forall (λ e, reads e.2) (e :: m) → forallb (λ e, integral e.2) (e :: m) = true →
  (need_members (e :: m) <= fuel)%nat →
  parse_members fuel (print_members (e :: m) ++ r) = Some (embed_members (e :: m), r).
Proof.
  intros Hall. revert fuel. remember (e :: m) as k eqn:Hk. revert e m Hk.
  induction Hall as [|y k Hy _ IH]; [done|]. intros [j x] m [= -> ->] fuel Hi Hn.
  simpl in Hi. apply andb_true_iff in Hi as [Hx Hi].
  change (need_members ((j, x) :: m)) with (S (max (need x) (need_members m))) in Hn.
  destruct fuel as [|fuel]; [lia|]. rewrite parse_members_S, print_members_cons.
  destruct (parse_quoted j (":"%char :: print_json x ++
    match m with [] => ["}"%char] | _ => comma :: print_members m end ++ r)%list) as (l & -> & Hq).
  rewrite after_same by done. unfold mbind at 1, option_bind at 1. rewrite Hq.
  unfold mbind at 1, option_bind at 1. rewrite after_same by done.
  unfold mbind at 1, option_bind at 1. rewrite of_units_units. destruct m as [|e m].
  - cbn [app]. rewrite Hy; [|done|simpl; lia|by right; right]. cbn. by rewrite after_other, after_same.
  - cbn [app]. rewrite Hy; [|done|simpl; lia|by left]. unfold mbind at 1, option_bind at 1.
    rewrite after_same by done. rewrite (IH e m) by (done || lia). done.
Qed.

Lemma parse_value_S fuel c l :
  json_space c = false →
  parse_value (S fuel) (c :: l) =
  (if Ascii.eqb c "n" then (λ r, (VNull, r)) <$> strip_prefix (units "ull") l
   else if Ascii.eqb c "t" then (λ r, (VBool true, r)) <$> strip_prefix (units "rue") l
   else if Ascii.eqb c "f" then (λ r, (VBool false, r)) <$> strip_prefix (units "alse") l
   else if Ascii.eqb c dquote then
     (λ '(s, r), (VStr (of_units s), r)) <$> parse_string (length l) l
   else if Ascii.eqb c "[" then
     match after "]" l with
     | Some r => Some (VArr [], r)
     | None => (λ '(vs, r), (VArr vs, r)) <$> parse_items fuel l
     end
   else if Ascii.eqb c "{" then
     match after "}" l with
     | Some r => Some (VObj [], r)
     | None => (λ '(m, r), (VObj (object_of m), r)) <$> parse_members fuel l
     end
   else (λ '(n, r), (VNum n, r)) <$> parse_number (c :: l)).
Proof. intros Hs. cbn [parse_value]. unfold skip_space. cbn [drop_while]. by rewrite Hs. Qed.

Lemma number_reads z : reads (CNum (NInt z)).
Proof.
  intros [|fuel] r Hi Hn Hr; [simpl in Hn; lia|].
  assert (Z.abs z < 9007199254740992)%Z as Hz by (by apply Z.ltb_lt).
  pose proof (parse_int z r Hz Hr) as Hp. simpl print_json.
  destruct (of_int_digits z) as (d & ds & Hu & Ha & _). pose proof (Forall_inv Ha) as Hd. simpl in Hd.
  assert (∃ h t, (units (of_int z) ++ r)%list = h :: t ∧ num_char h = true) as (h & t & He & Hh).
  { rewrite Hu. destruct (z <? 0)%Z; cbn [app]; eexists _, _; (split; [reflexivity|]); [done|].
    unfold num_char. by rewrite Hd. }
  rewrite He in Hp |- *.
  assert (forallb (λ c, implb (num_char c) (negb (json_space c || Ascii.eqb c "n" || Ascii.eqb c "t" ||
    Ascii.eqb c "f" || Ascii.eqb c dquote || Ascii.eqb c "[" || Ascii.eqb c "{"))) all_chars = true) as Hall
    by (vm_compute; reflexivity).
  apply all_chars_forall with (c := h) in Hall. rewrite Hh in Hall. simpl in Hall.
  apply negb_true_iff in Hall. rewrite !orb_false_iff in Hall.
  destruct Hall as ((((((Hs & H1) & H2) & H3) & H4) & H5) & H6).
  rewrite parse_value_S, H1, H2, H3, H4, H5, H6, Hp by done. done.
Qed.

Lemma print_reads c : reads c.
Proof.
  induction c as [|b|n|s|l IH|m IH] using canonical_ind'; intros [|fuel] r Hi Hn Hr;
    try (simpl in Hn; lia).
  - done.
  - by destruct b.
  - destruct n as [z|]; [|done]. by apply (number_reads z (S fuel) r).
  - simpl print_json. destruct (parse_quoted s r) as (l & -> & Hq).
    rewrite parse_value_S by done. simpl Ascii.eqb. cbv iota. rewrite Hq. cbn. by rewrite of_units_units.
  - rewrite print_arr. cbn [app]. rewrite parse_value_S by done. simpl Ascii.eqb. cbv iota.
    destruct l as [|x l]; [done|].
    destruct (print_unspaced x (match l with [] => ["]"%char] | _ => comma :: print_items l end ++ r)%list)
      as (h & t & Hp & Hs & He).
    { simpl in Hi. by apply andb_true_iff in Hi as [Hx _]. }
    assert (after "]" (print_items (x :: l) ++ r) = None) as ->.
    { cbn [print_items]. rewrite <-(assoc app), Hp. apply after_other; [done|]. intros ->.
      apply He. by right; left. }
    rewrite items_read; [done|done|done|]. change (need (CArr (x :: l))) with (S (need_items (x :: l))) in Hn. lia.
  - rewrite print_obj. cbn [app]. rewrite parse_value_S by done. simpl Ascii.eqb. cbv iota.
    destruct m as [|e m]; [done|]. simpl integral in Hi. apply andb_true_iff in Hi as [Hd Hi].
    apply bool_decide_eq_true in Hd.
    assert (after "}" (print_members (e :: m) ++ r) = None) as ->.
    { destruct e as [k x]. rewrite print_members_cons. by apply after_other. }
    rewrite members_read; [|done|done|].
    2: { change (need (CObj (e :: m))) with (S (need_members (e :: m))) in Hn. lia. }
    cbn [fmap option_fmap option_map]. rewrite object_of_NoDup; [done|]. by rewrite embed_members_keys.
Qed.

(** The fuel of [json_parse] is enough. *)
Lemma need_length c : integral c = true → (need c + 1 <= 2 * length (print_json c))%nat.
Proof.
  induction c as [|[]|n|s|l IH|m IH] using canonical_ind'; intros Hi; try (simpl; lia).
  - destruct (print_unspaced (CNum n) [] Hi) as (h & t & He & _). rewrite app_nil_r in He.
    rewrite He. simpl. lia.
  - rewrite print_arr. change (need (CArr l)) with (S (need_items l)). simpl in Hi.
    assert (need_items l + 1 <= 2 * length (print_items l))%nat; [|simpl; lia].
    induction IH as [|x l Hx _ IHl]; [simpl; lia|]. simpl in Hi. apply andb_true_iff in Hi as [Hxi Hi].
    specialize (Hx Hxi). specialize (IHl Hi). cbn [print_items].
    change (need_items (x :: l)) with (S (max (need x) (need_items l))).
    rewrite length_app. destruct l; simpl in *; lia.
  - rewrite print_obj. change (need (CObj m)) with (S (need_members m)). simpl in Hi.
    apply andb_true_iff in Hi as [_ Hi].
    assert (need_members m + 1 <= 2 * length (print_members m))%nat; [|simpl; lia].
    induction IH as [|[k x] m Hx _ IHm]; [simpl; lia|]. simpl in Hi. apply andb_true_iff in Hi as [Hxi Hi].
    specialize (Hx Hxi). specialize (IHm Hi). cbn [print_members].
    change (need_members ((k, x) :: m)) with (S (max (need x) (need_members m))).
    rewrite length_app. cbn [length]. rewrite length_app. cbn [snd] in Hx.
    destruct m as [|e m]; cbn [length]; [change (need_members []) with 0%nat|]; lia.
Qed.

(** What [JSON.stringify] wrote, [JSON.parse] reads back. *)
Lemma json_round_trip c : integral c = true → json_parse (json_stringify c) = Some (embed c).
Proof.
  intros Hi. unfold json_parse, json_stringify. rewrite units_of_units.
  pose proof (need_length c Hi) as Hn.
  rewrite <-(app_nil_r (print_json c)) at 2. rewrite print_reads; [done|done|lia|done].
Qed.
End reading.
