(* ===== verification/CheckpointStore.v ===== *)
(** Checkpoints of the audit chains as immutable objects, from
    [packages/application/src/audit/object-storage-checkpoint-store.ts] and
    [configured-checkpoint-store.ts], over the in-memory object storage. *)

From Stdlib Require Import String Ascii.
From S2P Require Export JsonText System.
Local Open Scope string_scope.

Definition CHECKPOINT_CONTENT_TYPE : string := "application/json".

(** [new Date(8.64e15)]: the last valid date. *)
Definition end_of_time : Z := 8640000000000000.

Definition checkpoint_prefix (documentId : string) : string :=
  "audit-checkpoints/" +:+ documentId +:+ "/".

(* [src: packages/application/src/audit/object-storage-checkpoint-store.ts:13-22 auditCheckpointObjectKey] *)
Definition auditCheckpointObjectKey (organizationId documentId : string) (sequence : Z) :
    Result Exn string :=
  tenantObjectKey organizationId (checkpoint_prefix documentId +:+ of_int sequence +:+ ".json").

Section checkpoint_objects.
Context `{Env}.

Definition checkpoint_value (c : AuditCheckpoint.t) : value :=
  VObj [("anchoredAt", VStr (toISOString (AuditCheckpoint.anchoredAt c)));
        ("documentId", VStr (AuditCheckpoint.documentId c));
        ("eventHash", VStr (AuditCheckpoint.eventHash c));
        ("organizationId", VStr (AuditCheckpoint.organizationId c));
        ("schemaVersion", VInt (AuditCheckpoint.schemaVersion c));
        ("sequence", VInt (AuditCheckpoint.sequence c))].

(** The body and its digest. *)
(* [src: packages/application/src/audit/object-storage-checkpoint-store.ts:24-41 checkpointBytes] *)
Definition checkpointBytes (c : AuditCheckpoint.t) : Result Exn (list Z * string) :=
  canonical ← serializeCanonicalJson (checkpoint_value c);
  let body := utf8_encode canonical in
  mret (body, sha256Bytes body).

(** The members of a parsed checkpoint.  One whose numbers are not integers is
    none: the source would return it with its fractional numbers. *)
(* [src: packages/application/src/audit/object-storage-checkpoint-store.ts:46-66 parseCheckpoint members] *)
Definition read_checkpoint (parsed : value) : option AuditCheckpoint.t :=
  match member "organizationId" parsed, member "documentId" parsed, member "eventHash" parsed,
        member "anchoredAt" parsed, member "sequence" parsed, member "schemaVersion" parsed with
  | VStr organizationId, VStr documentId, VStr eventHash, VStr anchored, VNum (NInt sequence),
    VNum (NInt schemaVersion) =>
    anchoredAt ← parse_date anchored;
    Some (AuditCheckpoint.mk organizationId documentId sequence eventHash schemaVersion anchoredAt)
  | _, _, _, _, _, _ => None
  end.

(** Text outside Latin-1 is none as well. *)
(* [src: packages/application/src/audit/object-storage-checkpoint-store.ts:43-70 parseCheckpoint] *)
Definition parseCheckpoint (body : list Z) : option AuditCheckpoint.t :=
  text ← utf8_decode body;
  parsed ← json_parse (of_units text);
  read_checkpoint parsed.

(* [src: packages/application/src/audit/object-storage-checkpoint-store.ts:85-112 putIfAbsent] *)
Definition object_putIfAbsent (checkpoint : AuditCheckpoint.t) : Run CheckpointPutResult :=
  let organizationId := AuditCheckpoint.organizationId checkpoint in
  key ← lift (auditCheckpointObjectKey organizationId (AuditCheckpoint.documentId checkpoint)
                (AuditCheckpoint.sequence checkpoint));
  existing ← getObject organizationId key;
  '(body, digest) ← lift (checkpointBytes checkpoint);
  match existing with
  | Some existing =>
    if negb (String.eqb (StoredObject.sha256Digest existing) digest) then
      throw (IntegrityError [("reason", VStr "checkpoint_immutable_conflict"); ("key", VStr key)])
    else mret exists_
  | None =>
    putObject (PutObjectInput.mk organizationId key body CHECKPOINT_CONTENT_TYPE None (Some digest));;
    mret stored
  end.

(* [src: packages/application/src/audit/object-storage-checkpoint-store.ts:113-120 get] *)
Definition object_get (organizationId documentId : string) (sequence : Z) :
    Run (option AuditCheckpoint.t) :=
  key ← lift (auditCheckpointObjectKey organizationId documentId sequence);
  found ← getObject organizationId key;
  mret (found ≫= λ o, parseCheckpoint (StoredObject.body o)).

(** The later of two checkpoints, the first found when equal. *)
Definition later (latest parsed : option AuditCheckpoint.t) : option AuditCheckpoint.t :=
  match parsed, latest with
  | None, _ => latest
  | Some p, None => Some p
  | Some p, Some l =>
    if (AuditCheckpoint.sequence l <? AuditCheckpoint.sequence p)%Z then Some p else latest
  end.

Definition latest_of (organizationId : string) :
    list string → option AuditCheckpoint.t → Run (option AuditCheckpoint.t) :=
  fix go keys latest :=
    match keys with
    | [] => mret latest
    | key :: keys =>
      found ← getObject organizationId key;
      go keys (later latest (found ≫= λ o, parseCheckpoint (StoredObject.body o)))
    end.

(* [src: packages/application/src/audit/object-storage-checkpoint-store.ts:121-137 getLatest] *)
Definition object_getLatest (organizationId documentId : string) :
    Run (option AuditCheckpoint.t) :=
  keys ← listKeys organizationId (checkpoint_prefix documentId) end_of_time;
  latest_of organizationId keys None.

(* [src: packages/application/src/audit/object-storage-checkpoint-store.ts:79-139 createObjectStorageCheckpointStore] *)
Definition createObjectStorageCheckpointStore : ImmutableCheckpointStore :=
  {| enabled := true; putIfAbsent := object_putIfAbsent; getLatest := object_getLatest |}.

(* [src: packages/application/src/audit/configured-checkpoint-store.ts:5-19 createConfiguredCheckpointStore] *)
Definition createConfiguredCheckpointStore (name : string) : ImmutableCheckpointStore :=
  if String.eqb name "object_storage" then createObjectStorageCheckpointStore
  else createDisabledCheckpointStore.

(** ** The laws of a checkpoint store *)

Lemma object_checkpoint_laws : @CheckpointLaws _ createObjectStorageCheckpointStore.
Proof.
  split.
  - intros P c HP. simpl. unfold object_putIfAbsent. cbv zeta. respects_tac.
  - intros P o d. simpl. unfold object_getLatest. apply respects_bind; [apply _|respects_tac|].
    intros keys. generalize (@None AuditCheckpoint.t).
    induction keys as [|k keys IH]; intros latest; simpl; [respects_tac|].
    apply respects_bind; [apply _|respects_tac|]. intros found. apply IH.
Qed.

Lemma configured_checkpoint_laws name : @CheckpointLaws _ (createConfiguredCheckpointStore name).
Proof.
  unfold createConfiguredCheckpointStore. destruct (String.eqb _ _);
    [apply object_checkpoint_laws|apply disabled_checkpoint_laws].
Qed.
End checkpoint_objects.
