(* ===== verification/CheckpointRules.v ===== *)
(** What the object-storage checkpoint store promises: an anchored checkpoint is
    read back as it was anchored, and is never replaced. *)

From Stdlib Require Import String Ascii.
From S2P Require Export CheckpointStore.
Local Open Scope string_scope.

Section rules.
Context `{Env}.

(** The integers JavaScript prints and reads exactly. *)
Definition safe_integer (z : Z) : Prop := (Z.abs z < 9007199254740992)%Z.

(** A checkpoint whose date and numbers survive their texts. *)
Record writable (c : AuditCheckpoint.t) : Prop := {
  writable_date : parse_date (toISOString (AuditCheckpoint.anchoredAt c)) =
    Some (AuditCheckpoint.anchoredAt c);
  writable_sequence : safe_integer (AuditCheckpoint.sequence c);
  writable_version : safe_integer (AuditCheckpoint.schemaVersion c)
}.

Definition checkpoint_document (c : AuditCheckpoint.t) : CanonicalJson :=
  CObj [("anchoredAt", CStr (toISOString (AuditCheckpoint.anchoredAt c)));
        ("documentId", CStr (AuditCheckpoint.documentId c));
        ("eventHash", CStr (AuditCheckpoint.eventHash c));
        ("organizationId", CStr (AuditCheckpoint.organizationId c));
        ("schemaVersion", CNum (NInt (AuditCheckpoint.schemaVersion c)));
        ("sequence", CNum (NInt (AuditCheckpoint.sequence c)))].

Definition checkpoint_body (c : AuditCheckpoint.t) : list Z :=
  utf8_encode (json_stringify (checkpoint_document c)).

Lemma checkpointBytes_eq c :
  checkpointBytes c = Ok (checkpoint_body c, sha256Bytes (checkpoint_body c)).
Proof. reflexivity. Qed.

Lemma checkpoint_integral c : writable c → integral (checkpoint_document c) = true.
Proof.
  intros [_ Hs Hv]. cbn. rewrite !andb_true_iff, !Z.ltb_lt. split_and!; try done.
Qed.

Lemma read_document c : writable c → read_checkpoint (embed (checkpoint_document c)) = Some c.
Proof.
  intros Hw. pose proof (writable_date _ Hw) as Hd. revert Hd. unfold checkpoint_document.
  generalize (toISOString (AuditCheckpoint.anchoredAt c)). intros text Hd.
  simpl. unfold read_checkpoint. simpl. rewrite Hd. by destruct c.
Qed.

Lemma option_bind_Some {A B} (x : A) (f : A → option B) : Some x ≫= f = f x.
Proof. reflexivity. Qed.

Lemma parse_body c : writable c → parseCheckpoint (checkpoint_body c) = Some c.
Proof.
  intros Hw. unfold parseCheckpoint, checkpoint_body. rewrite utf8_round_trip.
  rewrite option_bind_Some, of_units_units.
  rewrite (json_round_trip _ (checkpoint_integral c Hw)), option_bind_Some.
  by apply read_document.
Qed.

(** Keys of checkpoints lie under the prefix that is listed. *)
Lemma checkpoint_key o d z k p :
  auditCheckpointObjectKey o d z = Ok k → tenantObjectKey o (checkpoint_prefix d) = Ok p →
  startsWith p k = true.
Proof.
  assert (∀ r t, tenantObjectKey o ("audit-checkpoints/" +:+ r) = Ok t →
    t = ("org/" +:+ o +:+ "/") +:+ "audit-checkpoints/" +:+ r) as Hk.
  { intros r t. unfold tenantObjectKey. rewrite bind_Result_ok. intros (q & Hq & Ht).
    apply tenantObjectKeyPrefix_ok in Hq as [_ ->]. apply bind_Result_ok in Ht as (x & _ & Ht).
    assert (of_units (drop_while (is_char slash) (units ("audit-checkpoints/" +:+ r))) =
      "audit-checkpoints/" +:+ r) as Htrim.
    { simpl. f_equal. unfold of_units, units. simpl. by rewrite string_of_list_ascii_of_string. }
    rewrite Htrim in Ht. simpl in Ht. by apply assertSafeObjectKeySegments_id in Ht as ->. }
  unfold auditCheckpointObjectKey, checkpoint_prefix. rewrite !append_assoc.
  intros ->%Hk ->%Hk. apply startsWith_iff. exists (of_int z +:+ ".json"). by rewrite !append_assoc.
Qed.

(** What a put does, given what is on file under the key. *)
Lemma object_putIfAbsent_at c k s :
  auditCheckpointObjectKey (AuditCheckpoint.organizationId c) (AuditCheckpoint.documentId c)
    (AuditCheckpoint.sequence c) = Ok k →
  object_putIfAbsent c s =
  match object_at k s.(objects) with
  | Some o =>
    if String.eqb (StoredObject.sha256Digest o) (sha256Bytes (checkpoint_body c)) then (Ok exists_, s)
    else (Throw (IntegrityError [("reason", VStr "checkpoint_immutable_conflict"); ("key", VStr k)]), s)
  | None =>
    (Ok stored, set_objects (s.(objects) ++ [(k, StoredObject.mk k CHECKPOINT_CONTENT_TYPE
       (byteLength (checkpoint_body c)) (sha256Bytes (checkpoint_body c)) (checkpoint_body c)
       (clock s.(clockReads)))])%list (set_clockReads (S s.(clockReads)) s))
  end.
Proof.
  intros Hk. pose proof (tenantObjectKey_accepted _ _ _ Hk) as Ha.
  pose proof (tenantObjectKey_accepts _ _ Ha) as Ht.
  unfold object_putIfAbsent. cbv zeta. rewrite Hk, checkpointBytes_eq.
  unfold getObject. cbv [lift gets mbind M_bind]. rewrite Ha. cbv [lift gets mbind M_bind].
  destruct (object_at k (objects s)) as [o|] eqn:Ho; [by destruct (String.eqb _ _)|].
  unfold putObject, put_checks. cbn [PutObjectInput.maxBytes PutObjectInput.organizationId
    PutObjectInput.key PutObjectInput.expectedSha256Digest PutObjectInput.body throw_if].
  rewrite Ht, String.eqb_refl. cbv [lift gets mbind M_bind Result_bind throw_if negb].
  by rewrite Ho.
Qed.

Lemma object_putIfAbsent_stored c s s' :
  object_putIfAbsent c s = (Ok stored, s') →
  ∃ k, auditCheckpointObjectKey (AuditCheckpoint.organizationId c) (AuditCheckpoint.documentId c)
         (AuditCheckpoint.sequence c) = Ok k ∧ object_at k s.(objects) = None ∧
    s'.(objects) = (s.(objects) ++ [(k, StoredObject.mk k CHECKPOINT_CONTENT_TYPE
      (byteLength (checkpoint_body c)) (sha256Bytes (checkpoint_body c)) (checkpoint_body c)
      (clock s.(clockReads)))])%list.
Proof.
  intros Hrun. pose proof Hrun as Hput. unfold object_putIfAbsent in Hrun. cbv zeta in Hrun.
  apply bind_ok in Hrun as (k & s1 & [Hk ->]%lift_ok & _). exists k. split; [done|].
  rewrite (object_putIfAbsent_at _ _ _ Hk) in Hput.
  destruct (object_at k (objects s)); [by destruct (String.eqb _ _)|]. by injection Hput as <-.
Qed.

Lemma object_get_at o d z k s :
  auditCheckpointObjectKey o d z = Ok k →
  object_get o d z s = (Ok (object_at k s.(objects) ≫= λ o, parseCheckpoint (StoredObject.body o)), s).
Proof.
  intros Hk. pose proof (tenantObjectKey_accepted _ _ _ Hk) as Ha.
  unfold object_get, getObject. cbv [lift gets mbind M_bind]. by rewrite Hk, Ha.
Qed.

Lemma later_snoc o keys k latest s b s0 :
  latest_of o keys latest s = (Ok b, s0) → assertTenantObjectKey o k = Ok k →
  s0 = s ∧ ∀ s', (∀ j x, object_at j s.(objects) = Some x → object_at j s'.(objects) = Some x) →
    Forall (λ j, j ∈ s.(objects).*1) keys →
    latest_of o (keys ++ [k]) latest s' =
      (Ok (later b (object_at k s'.(objects) ≫= λ o, parseCheckpoint (StoredObject.body o))), s').
Proof.
  intros Hrun Hk. revert latest Hrun. induction keys as [|j keys IH]; intros latest Hrun; simpl in *.
  - apply ret_ok in Hrun as [<- ->]. split; [done|]. intros s' _ _.
    unfold getObject. rewrite Hk. done.
  - apply bind_ok in Hrun as (x & s1 & Hget & Hrun). unfold getObject in Hget.
    apply bind_ok in Hget as (j' & ? & [Hj ->]%lift_ok & [Hx ->]%gets_ok).
    pose proof (assertTenantObjectKey_ok _ _ _ Hj) as (-> & _).
    destruct (IH _ Hrun) as [-> IH']. split; [done|]. intros s' Hs' [Hin Hall]%Forall_cons.
    unfold getObject. rewrite Hj. cbv [lift gets mbind M_bind]. fold (@mbind option _).
    destruct (object_at j (objects s)) as [y|] eqn:Hy; [|by apply object_at_None in Hy].
    rewrite (Hs' _ _ Hy), Hx. by apply IH'.
Qed.

(** The latest checkpoint after a new one is put. *)
Lemma getLatest_after c k s before s0 s' :
  writable c → (clock s.(clockReads) <= end_of_time)%Z →
  auditCheckpointObjectKey (AuditCheckpoint.organizationId c) (AuditCheckpoint.documentId c)
    (AuditCheckpoint.sequence c) = Ok k →
  object_at k s.(objects) = None →
  object_putIfAbsent c s = (Ok stored, s') →
  object_getLatest (AuditCheckpoint.organizationId c) (AuditCheckpoint.documentId c) s =
    (Ok before, s0) →
  object_getLatest (AuditCheckpoint.organizationId c) (AuditCheckpoint.documentId c) s' =
    (Ok (later before (Some c)), s').
Proof.
  intros Hw Hclock Hk Hnone Hput Hlatest. rewrite (object_putIfAbsent_at _ _ _ Hk), Hnone in Hput.
  injection Hput as Hs'. unfold object_getLatest, listKeys in Hlatest |- *.
  apply bind_ok in Hlatest as (keys & s1 & Hkeys & Hlatest).
  apply bind_ok in Hkeys as (p & s2 & [Hp ->]%lift_ok & [Hkeys ->]%gets_ok).
  destruct (later_snoc _ _ _ _ _ _ _ Hlatest (tenantObjectKey_accepted _ _ _ Hk)) as [-> Hnew].
  rewrite Hp. cbv [lift gets mbind M_bind]. fold (@mbind option _).
  rewrite <-Hs'. cbn [objects set_objects set_clockReads].
  rewrite List.filter_app, fmap_app, Hkeys. cbn [List.filter fst snd StoredObject.storedAt].
  rewrite (checkpoint_key _ _ _ _ _ Hk Hp), (proj2 (Z.leb_le _ _) Hclock). cbn [andb fmap list_fmap fst].
  rewrite Hnew.
  - cbn [objects set_objects set_clockReads]. rewrite object_at_app, Hnone. simpl object_at.
    rewrite String.eqb_refl. rewrite option_bind_Some. cbn [StoredObject.body]. by rewrite parse_body.
  - intros j x Hx. cbn. by rewrite object_at_app, Hx.
  - rewrite <-Hkeys. apply Forall_forall. intros j. apply fst_filter_elem.
Qed.

(** C39: a checkpoint the object store has anchored is read back exactly as it was
    anchored; anchoring it again changes nothing; a checkpoint of the same
    sequence whose text has another digest is refused and changes nothing; and
    the latest checkpoint of the document is the new one exactly when no older
    one has a sequence as high. *)
Theorem checkpoints_round_trip c s s' :
  writable c → (clock s.(clockReads) <= end_of_time)%Z →
  object_putIfAbsent c s = (Ok stored, s') →
  let o := AuditCheckpoint.organizationId c in
  let d := AuditCheckpoint.documentId c in
  object_get o d (AuditCheckpoint.sequence c) s' = (Ok (Some c), s') ∧
  object_putIfAbsent c s' = (Ok exists_, s') ∧
  (∀ c' body digest, AuditCheckpoint.organizationId c' = o → AuditCheckpoint.documentId c' = d →
     AuditCheckpoint.sequence c' = AuditCheckpoint.sequence c →
     checkpointBytes c' = Ok (body, digest) → digest ≠ sha256Bytes (checkpoint_body c) →
     ∃ e, object_putIfAbsent c' s' = (Throw (IntegrityError e), s')) ∧
  (∀ before s0, object_getLatest o d s = (Ok before, s0) →
     object_getLatest o d s' = (Ok (later before (Some c)), s')).
Proof.
  intros Hw Hclock Hput o d. destruct (object_putIfAbsent_stored _ _ _ Hput) as (k & Hk & Hnone & Hs').
  assert (object_at k (objects s') = Some (StoredObject.mk k CHECKPOINT_CONTENT_TYPE
      (byteLength (checkpoint_body c)) (sha256Bytes (checkpoint_body c)) (checkpoint_body c)
      (clock s.(clockReads)))) as Hat.
  { rewrite Hs', object_at_app, Hnone. simpl. by rewrite String.eqb_refl. }
  split_and!.
  - rewrite (object_get_at _ _ _ _ _ Hk), Hat, option_bind_Some. simpl. by rewrite parse_body.
  - rewrite (object_putIfAbsent_at _ _ _ Hk), Hat. simpl. by rewrite String.eqb_refl.
  - intros c' body digest Ho Hd Hz Hbytes Hne.
    rewrite checkpointBytes_eq in Hbytes. injection Hbytes as _ <-.
    rewrite (object_putIfAbsent_at c' k), Hat by (by rewrite Ho, Hd, Hz). simpl.
    rewrite (proj2 (String.eqb_neq _ _)) by done. by eexists.
  - intros before s0 Hb. by eapply getLatest_after.
Qed.
End rules.

#[local] Existing Instance Sample.env.

Definition sample_checkpoint (z : Z) : AuditCheckpoint.t :=
  AuditCheckpoint.mk (Sample.uuid 1) (Sample.uuid 9) z "0123" 1 (1000000 + z).

(** The second checkpoint of a document, put after the first. *)
Lemma checkpoints_round_trip_witness :
  let s := (object_putIfAbsent (sample_checkpoint 1) empty_store).2 in
  ∃ s', object_putIfAbsent (sample_checkpoint 2) s = (Ok stored, s') ∧
    object_getLatest (Sample.uuid 1) (Sample.uuid 9) s' = (Ok (Some (sample_checkpoint 2)), s').
Proof.
  intros s. destruct (object_putIfAbsent (sample_checkpoint 2) s) as [r s'] eqn:Hput.
  assert (r = Ok stored) as ->.
  { change r with (r, s').1. rewrite <-Hput. vm_compute. reflexivity. }
  exists s'. split; [done|].
  assert (writable (sample_checkpoint 2)) as Hw by (by split; vm_compute).
  assert (clock s.(clockReads) <= end_of_time)%Z as Hclock by (by vm_compute).
  destruct (checkpoints_round_trip _ s s' Hw Hclock Hput) as (_ & _ & _ & Hlatest).
  apply (Hlatest (Some (sample_checkpoint 1)) s). vm_compute. reflexivity.
Defined.
