(* ===== verification/Outcomes.v ===== *)
(** What the calls on an envelope have done when they return. *)

From Stdlib Require Import String.
From S2P Require Export Envelopes.
Local Open Scope string_scope.

(** Past a pure check: its result, and the store as it was. *)
Tactic Notation "pull_lift" hyp(Hrun) simple_intropattern(x) simple_intropattern(Hx) :=
  let s := fresh "s" in let H := fresh "H" in
  apply bind_ok in Hrun as (x & s & H & Hrun); apply lift_ok in H as [Hx ->].

Section outcomes.
Context `{Env} `{!AuthorizationPolicy} `{!UnitOfWork} `{!Notifier}.
Abbreviation R := (TSteps (λ _, True)).

(** The steps between two points of a run. *)
Lemma run_steps {A} (m : Run A) s r s' : respects R m → m s = (r, s') → R s s'.
Proof. intros Hm Hrun. pose proof (Hm s) as Hs. by rewrite Hrun in Hs. Qed.

(** ** Documents *)

Lemma document_at_update o i s n x y :
  find_index (Documents.key o i) s.(documents) = Some (n, x) →
  Document.id y = Document.id x → Document.organizationId y = Document.organizationId x →
  document_at (set_documents (<[n := y]> s.(documents)) s) o i = Some y.
Proof.
  intros Hn Hid Ho. unfold document_at, find_row. simpl.
  pose proof Hn as (Hl & Hk & _)%find_index_Some.
  rewrite (find_index_write _ _ _ _ _ Hl); [|by unfold Documents.key; rewrite Hid, Ho].
  rewrite Hn. simpl. by rewrite decide_True.
Qed.

(** A versioned write of a document: what was there, and what is there now. *)
Lemma bumpDocument_ok o i v update s y s' :
  Documents.bumpDocument o i v update s = (Ok y, s') →
  (∀ x u, update x = Ok u →
     Document.id u = Document.id x ∧ Document.organizationId u = Document.organizationId x) →
  ∃ x u, document_at s o i = Some x ∧ Document.version x = v ∧ update x = Ok u ∧
    y = Documents.bump x u ∧ document_at s' o i = Some y.
Proof.
  intros Hrun Hu. unfold Documents.bumpDocument in Hrun.
  apply update_one_ok in Hrun as (n & x & Hn & [[Hf _]|[Hf ->]]).
  { unfold Documents.at_version in Hf. rewrite guarded_ok, bind_Result_ok in Hf.
    by destruct Hf as (_ & ? & _ & ?). }
  unfold Documents.at_version in Hf. rewrite guarded_ok, bind_Result_ok in Hf.
  destruct Hf as (Hv & u & Hx & [= <-]). apply negb_false_iff, Z.eqb_eq in Hv.
  destruct (Hu x u Hx) as [Hid Ho]. exists x, u. split_and!; [|done..|].
  - change (find_row (Documents.key o i) (rows s) = Some x). unfold find_row. by rewrite Hn.
  - by apply (document_at_update o i s n x).
Qed.

(** A closed document stays what it is. *)
Lemma closed_document_steps s s' o i x :
  R s s' → document_at s o i = Some x →
  Document.state x ∈ [DocumentState.voided; DocumentState.declined; DocumentState.finalized] →
  ∃ y, document_at s' o i = Some y ∧ Document.state y = Document.state x.
Proof.
  intros Hs Hx Hst. destruct (evolve_document_at _ _ _ _ _ (TSteps_documents _ _ _ Hs) Hx)
    as (y & Hy & [<- |(_ & _ & Hp & _)]); [by exists x|].
  exists y. split; [done|]. destruct Hp as [|a b c Hab _]; [done|].
  rewrite !elem_of_cons, elem_of_nil in Hst. by destruct a, b; naive_solver.
Qed.

(** ** Sessions *)

(** The session a key finds is closed. *)
Definition closed_session (o i : string) (s : St) : Prop :=
  ∃ x, find_row (SigningSessions.key o i) s.(signingSessions) = Some x ∧
       SigningSessions.is_open x = false.

Lemma session_evolves_key o i x y :
  session_evolves x y → SigningSessions.key o i x = SigningSessions.key o i y.
Proof. intros ((Hi & Ho & _) & _). unfold SigningSessions.key. by rewrite Hi, Ho. Qed.

Lemma closed_session_steps o i s s' : R s s' → closed_session o i s → closed_session o i s'.
Proof.
  intros Hs (x & Hx & Hc). apply TSteps_Steps, Steps_sessions in Hs.
  unfold find_row in Hx. apply fmap_Some in Hx as ([n x'] & Hn & ->). simpl in Hc.
  destruct (evolves_find_index _ _ _ _ _ _ _ (session_evolves_key o i) Hs Hn)
    as (y & Hy & _ & _ & _ & Hsame).
  exists y. unfold find_row. rewrite Hy. split; [done|]. by rewrite (Hsame Hc).
Qed.

Lemma revoke_closes o i t s x s' :
  SigningSessions.revoke o i t s = (Ok x, s') → closed_session o i s'.
Proof.
  intros Hrun. unfold SigningSessions.revoke in Hrun.
  apply update_one_ok in Hrun as (n & y & Hn & [[Hf _]|[Hf ->]]).
  { by destruct (negb _) in Hf. }
  apply guarded_ok in Hf as [_ [= <-]]. pose proof Hn as (Hl & Hk & _)%find_index_Some.
  eexists. split.
  - unfold find_row. simpl. change (rows (T:=SigningSession.t) s) with (signingSessions s) in Hn, Hl.
    rewrite (find_index_write _ _ _ _ _ Hl) by done. rewrite Hn. simpl. by rewrite decide_True.
  - done.
Qed.

Lemma revoke_open_closes o now l s ids s' :
  revoke_open o now l s = (Ok ids, s') →
  ∀ x, x ∈ l → SigningSessions.is_open x = true → closed_session o (SigningSession.id x) s'.
Proof.
  revert s ids. induction l as [|y l IH]; intros s ids Hrun x; simpl in Hrun.
  { intros Hx. by apply elem_of_nil in Hx. }
  destruct (SigningSessions.is_open y) eqn:Hy.
  - apply bind_ok in Hrun as (z & s1 & Hz & Hrun). apply bind_ok in Hrun as (zs & s2 & Hzs & Hrun).
    apply ret_ok in Hrun as [_ ->]. intros [->|Hx]%elem_of_cons Ho; [|by eapply IH].
    eapply closed_session_steps; [|by eapply revoke_closes].
    eapply run_steps; [|exact Hzs]. by apply revoke_open_steps.
  - intros [->|Hx]%elem_of_cons Ho; [congruence|by eapply IH].
Qed.

(** All sessions of a document are closed. *)
Definition sessions_closed (s0 s : St) (o d : string) : Prop :=
  ∀ x, x ∈ s0.(signingSessions) → SigningSession.organizationId x = o →
    SigningSession.documentId x = d → SigningSessions.is_open x = true →
    closed_session o (SigningSession.id x) s.

(** ** Beginning *)

Lemma run_keeps {A V} (view : St → V) (m : Run A) s r s' :
  respects (keeps view) m → m s = (r, s') → view s = view s'.
Proof. intros Hm Hrun. pose proof (Hm s) as Hs. by rewrite Hrun in Hs. Qed.

Lemma requireDocument_ok o i s d s' :
  requireDocument o i s = (Ok d, s') → document_at s o i = Some d ∧ s' = s.
Proof.
  unfold requireDocument. intros Hrun. apply bind_ok in Hrun as (x & s1 & Hx & Hrun).
  apply gets_ok in Hx as [Hx ->]. destruct x as [x|]; [|done]. by apply ret_ok in Hrun as [<- ->].
Qed.

Lemma roster_ok o d s l s' :
  Signers.listByDocument o d s = (Ok l, s') → l = roster s o d ∧ s' = s.
Proof.
  unfold Signers.listByDocument. intros Hl. apply bind_ok in Hl as (rs & s1 & Hrs & Hl).
  apply gets_ok in Hrs as [<- ->]. by apply ret_ok in Hl as [<- ->].
Qed.

(** Reading the clock and opening the idempotency record. *)
Definition begin_call (input : Z → IdempotencyInput.t) : Run Begun :=
  now ← nowUtc; replayOrBeginIdempotency (input now).

Lemma begin_replay input s r s' :
  begin_call input s = (Ok (Replay r), s') → durable s' = durable s.
Proof.
  unfold begin_call. intros Hrun. apply bind_ok in Hrun as (now & s1 & [= <- <-] & Hrun).
  unfold replayOrBeginIdempotency in Hrun. destruct (input _) as [o pt p rt k rq n ri].
  apply bind_ok in Hrun as (x & s1 & Hx & Hrun). apply gets_ok in Hx as [_ ->].
  destruct x as [x|].
  - by apply lift_ok in Hrun as [_ ->].
  - apply bind_ok in Hrun as (i & s1 & _ & Hrun). by apply bind_ok in Hrun as (y & s2 & _ & Hrun).
Qed.

Lemma begin_keeps input s b s' :
  begin_call input s = (Ok b, s') →
  signing_view s = signing_view s' ∧ envelope_view s = envelope_view s'.
Proof.
  intros Hrun. split; (eapply run_keeps; [|exact Hrun]); unfold begin_call; respects_tac.
Qed.

(** A begun call's record is on file. *)
Definition recorded (o : string) (r : IdempotencyRecord.t) (s : St) : Prop :=
  r ∈ s.(idempotencyRecords) ∧ IdempotencyRecord.organizationId r = o.

Lemma begin_recorded o pt p rt k rq n ri s r s' :
  replayOrBeginIdempotency (IdempotencyInput.mk o pt p rt k rq n ri) s = (Ok (Begin r), s') →
  recorded o r s'.
Proof.
  unfold replayOrBeginIdempotency. intros Hrun.
  apply bind_ok in Hrun as (x & s1 & Hx & Hrun). apply gets_ok in Hx as [Hx ->].
  destruct x as [x|].
  - apply lift_ok in Hrun as [Hr ->]. apply find_row_Some in Hx as [Hin Hk].
    assert (x = r) as ->.
    { unfold resume in Hr. repeat case_match; simplify_eq; done. }
    split; [exact Hin|]. unfold IdempotencyRecords.key in Hk.
    rewrite !andb_true_iff, String.eqb_eq in Hk. by destruct Hk as [[[? _] _] _].
  - apply bind_ok in Hrun as (i & s1 & _ & Hrun). apply bind_ok in Hrun as (y & s2 & Hy & Hrun).
    apply ret_ok in Hrun as [[= <-] ->]. unfold IdempotencyRecords.create in Hy.
    apply bind_ok in Hy as (z & s3 & Hz & Hy). apply gets_ok in Hz as [_ ->]. destruct z; [done|].
    rewrite push_run in Hy. injection Hy as <- <-. split; [|done].
    apply elem_of_app. right. by apply list_elem_of_singleton.
Qed.

(** ** Voiding and declining *)

(** What has become of the document: the given closed state, every session
    that was open closed. *)
Definition envelope_closed (state : DocumentState.t) (s s' : St) (o d : string) : Prop :=
  (∃ y, document_at s' o d = Some y ∧ Document.state y = state) ∧ sessions_closed s s' o d.

Lemma sessions_closed_after s0 s s' o d : R s s' → sessions_closed s0 s o d → sessions_closed s0 s' o d.
Proof. intros Hs Hc x Hx Ho Hd Hop. eapply closed_session_steps; [exact Hs|by apply Hc]. Qed.

Lemma listed_sessions s o d x :
  x ∈ s.(signingSessions) → SigningSession.organizationId x = o → SigningSession.documentId x = d →
  x ∈ List.filter (λ row : SigningSession.t,
    String.eqb (SigningSession.organizationId row) o && String.eqb (SigningSession.documentId row) d)
    s.(signingSessions).
Proof.
  intros Hx <- <-. apply list_elem_of_In, List.filter_In. rewrite !String.eqb_refl.
  by rewrite <-list_elem_of_In.
Qed.

(** The tail of a transaction that closes an envelope: the document is in its
    closed state, and what was open of its sessions is revoked. *)
Lemma envelope_closes s0 s s2 s' o d x state now l ids :
  document_at s o d = Some x → Document.state x = state →
  state ∈ [DocumentState.voided; DocumentState.declined; DocumentState.finalized] →
  keeps signingSessions s0 s →
  List.filter (λ row : SigningSession.t,
    String.eqb (SigningSession.organizationId row) o && String.eqb (SigningSession.documentId row) d)
    (rows s) = l →
  revoke_open o now l s = (Ok ids, s2) → R s2 s' →
  envelope_closed state s0 s' o d.
Proof.
  intros Hx <- Hst Hsame Hl Hids Hs2.
  assert (R s s2) as Hs by (eapply run_steps; [|exact Hids]; by apply revoke_open_steps).
  split.
  - eapply closed_document_steps; [exact (transitivity Hs Hs2)|exact Hx|exact Hst].
  - apply (sessions_closed_after s0 s2); [done|]. intros w Hw Ho Hd Hop.
    eapply revoke_open_closes; [exact Hids| |done]. rewrite <-Hl.
    change (rows (T:=SigningSession.t) s) with (signingSessions s). rewrite <-Hsame.
    by apply listed_sessions.
Qed.

Lemma void_transaction_ok user o rq d now s y s' :
  void_transaction user o rq d now s = (Ok y, s') →
  document_at s o (Document.id d) = Some d →
  Document.state d ∈ [DocumentState.draft; DocumentState.prepared; DocumentState.sent;
                      DocumentState.in_progress] ∧
  envelope_closed DocumentState.voided s s' o (Document.id d) ∧ R s s'.
Proof.
  intros Hrun Hd. assert (R s s') as Hss.
  { eapply run_steps; [|exact Hrun]. unfold void_transaction. respects_tac. }
  unfold void_transaction in Hrun. cbv zeta in Hrun.
  apply bind_ok in Hrun as (z & s1 & Hz & Hrun).
  assert (signingSessions s = signingSessions s1) as Hsame.
  { eapply (run_keeps signingSessions); [|exact Hz]. respects_tac. }
  apply bumpDocument_ok in Hz as (x & u & Hx & _ & Hu & -> & Hat).
  2: { intros x u. case_match; [done|]. by intros [= <-]. }
  simplify_eq. apply guarded_ok in Hu as [Hst [= <-]]. apply negb_false_iff, state_in_true in Hst.
  split; [done|].
  apply bind_ok in Hrun as (open & s2 & Hopen & Hrun). apply gets_ok in Hopen as [Hopen ->].
  apply bind_ok in Hrun as (ids & s3 & Hids & Hrun).
  assert (R s3 s') as H3' by (eapply run_steps; [|exact Hrun]; respects_tac).
  split; [|done].
  eapply envelope_closes; [exact Hat|done| |exact Hsame|exact Hopen|exact Hids|exact H3'].
  simpl. set_solver.
Qed.

End outcomes.
