(* ===== verification/Queue.v ===== *)
(** What the job queue promises its workers: a claimed event is theirs until the
    lease runs out, nobody else can settle it, and every turn on it ends in
    success, a later retry or the dead letters. *)

From Stdlib Require Import String.
From S2P Require Export Outcomes.
Local Open Scope string_scope.

(** Event [n] of the outbox. *)
Definition event_at (n : nat) (e : OutboxEvent.t) (s : St) : Prop := s.(outboxEvents) !! n = Some e.

(** The lease of [owner] on an event. *)
Definition holds (owner : string) (e : OutboxEvent.t) : Prop :=
  OutboxEvent.status e = OutboxStatus.processing ∧ OutboxEvent.leaseOwner e = Some owner.

Lemma update_first_keeps_events p (f : BackgroundJob.t → BackgroundJob.t) :
  respects (keeps outboxEvents) (update_first (T:=BackgroundJob.t) p f).
Proof. intros s. unfold keeps, update_first, modify. simpl. by destruct (find_index _ _) as [[]|]. Qed.

Lemma ensureJob_keeps_events e now : respects (keeps outboxEvents) (ensureJob e now).
Proof. unfold ensureJob. respects_tac. Qed.
#[export] Hint Resolve update_first_keeps_events ensureJob_keeps_events : esign.

(** A claim takes one claimable event and leaves the others. *)
Lemma claim_ok type now owner until s w s' :
  claimNextByType type now owner until s = (Ok (Some w), s') →
  ∃ n x, event_at n x s ∧ claimable type now x = true ∧
    ClaimedOutboxWork.event w = leased_event owner until now x ∧
    s'.(outboxEvents) = <[n := ClaimedOutboxWork.event w]> s.(outboxEvents).
Proof.
  unfold claimNextByType. intros Hrun. apply bind_ok in Hrun as (found & s1 & Hf & Hrun).
  apply gets_ok in Hf as [Hf ->]. destruct found as [[n x]|]; [|by apply ret_ok in Hrun as [? _]].
  cbv zeta in Hrun. apply bind_ok in Hrun as ([] & s1 & [= <-] & Hrun).
  apply find_index_Some in Hf as (Hl & Hc & _). exists n, x. split_and!; [done..| |].
  - apply bind_ok in Hrun as (job & s2 & _ & Hrun). apply bind_ok in Hrun as ([] & s3 & _ & Hrun).
    apply ret_ok in Hrun as [[= <-] _]. done.
  - assert (ClaimedOutboxWork.event w = leased_event owner until now x) as ->.
    { apply bind_ok in Hrun as (job & s2 & _ & Hrun). apply bind_ok in Hrun as ([] & s3 & _ & Hrun).
      by apply ret_ok in Hrun as [[= <-] _]. }
    eapply (run_keeps outboxEvents) in Hrun; [by rewrite <-Hrun|]. respects_tac.
Qed.

(** ** Settling *)

Lemma settle_run o f held job s :
  ∃ s', settle o f held job s = (Ok tt, s') ∧
    s'.(outboxEvents) = match find_index (held_event o) s.(outboxEvents) with
                        | Some (n, x) => <[n := f x]> s.(outboxEvents)
                        | None => s.(outboxEvents)
                        end ∧ s'.(clockReads) = s.(clockReads).
Proof.
  unfold settle, find_one, gets, mbind, M_bind, update_first, modify, find_row. simpl.
  destruct (find_index (held_event o) (outboxEvents s)) as [[n x]|] eqn:Hn; simpl; [|by exists s].
  eexists. split; [done|]. rewrite Hn. simpl. by destruct (find_index held _) as [[]|].
Qed.

(** An event that another owner holds is not settled. *)
Lemma settle_foreign o f held job owner n e s r s' :
  event_at n e s → holds owner e → Outcome.owner o ≠ owner →
  settle o f held job s = (r, s') → event_at n e s'.
Proof.
  intros He [_ Hown] Hne Hrun. destruct (settle_run o f held job s) as (s1 & Hs & Hev & _).
  rewrite Hs in Hrun. injection Hrun as _ <-. unfold event_at. rewrite Hev.
  destruct (find_index _ _) as [[m x]|] eqn:Hm; [|done].
  apply find_index_Some in Hm as (Hl & Hh & _).
  rewrite list_lookup_insert_ne; [done|]. intros ->. unfold event_at in He. simplify_eq.
  unfold held_event in Hh. rewrite !andb_true_iff, !bool_decide_eq_true in Hh.
  destruct Hh as [[_ Ho] _]. congruence.
Qed.

(** A leased event is not claimed before its lease has run out. *)
Lemma leased_not_claimable type now owner until t x :
  (now ≤ until)%Z → claimable type now (leased_event owner until t x) = false.
Proof.
  intros Hle. unfold claimable. apply andb_false_iff. right. simpl.
  by apply Z.ltb_ge.
Qed.

Lemma claim_elsewhere type now owner until n e s w s' :
  event_at n e s → claimable type now e = false →
  claimNextByType type now owner until s = (Ok (Some w), s') → event_at n e s'.
Proof.
  intros He Hc Hrun. apply claim_ok in Hrun as (m & x & Hx & Hcx & _ & Hev). unfold event_at in *.
  rewrite Hev, list_lookup_insert_ne; [done|]. intros ->. simplify_eq. congruence.
Qed.

(** C24: a claim is exclusive: it takes one event that was due, counts the attempt
    and leaves every other event alone; until the lease runs out no other claim
    takes the event, and a worker that does not hold the lease can neither
    complete nor retry nor dead-letter it. *)
Theorem claims_are_exclusive type now owner until s w s' :
  claimNextByType type now owner until s = (Ok (Some w), s') →
  let e := ClaimedOutboxWork.event w in
  ∃ n x, event_at n x s ∧ claimable type now x = true ∧
    event_at n e s' ∧ holds owner e ∧
    OutboxEvent.attemptCount e = (OutboxEvent.attemptCount x + 1)%Z ∧
    (∀ m, m ≠ n → s'.(outboxEvents) !! m = s.(outboxEvents) !! m) ∧
    (∀ type' now' owner' until' w' s'', (now' ≤ until)%Z →
       claimNextByType type' now' owner' until' s' = (Ok (Some w'), s'') → event_at n e s'') ∧
    (∀ o t c status job_status at_ r s'', Outcome.owner o ≠ owner →
       markProcessed o t s' = (r, s'') ∨ applyOutcome o c status job_status at_ s' = (r, s'') →
       event_at n e s'').
Proof.
  intros Hrun e. apply claim_ok in Hrun as (n & x & Hx & Hc & He & Hev). fold e in He, Hev.
  assert (event_at n e s') as Hn.
  { unfold event_at. rewrite Hev. apply list_lookup_insert_eq. by eapply lookup_lt_Some. }
  assert (holds owner e) as Hh by (by rewrite He).
  exists n, x. split_and!; try done.
  - by rewrite He.
  - intros m Hm. rewrite Hev. by apply list_lookup_insert_ne.
  - intros type' now' owner' until' w' s'' Hle Hrun. eapply claim_elsewhere; [exact Hn| |exact Hrun].
    rewrite He. by apply leased_not_claimable.
  - intros o t c st jst av r s'' Hne [Hrun|Hrun]; by eapply settle_foreign.
Qed.

(** The event the holder of a claim settles is the one it claimed. *)
Lemma held_found o l n e :
  NoDup (OutboxEvent.id <$> l) → l !! n = Some e → held_event o e = true →
  find_index (held_event o) l = Some (n, e).
Proof.
  intros Hnd Hn Hh. apply find_index_Some. split_and!; [done..|]. intros j y Hj Hlt.
  destruct (held_event o y) eqn:Hy; [|done]. exfalso.
  assert (∀ z, held_event o z = true → OutboxEvent.id z = Outcome.outboxEventId o) as Hid.
  { intros z. unfold held_event. rewrite !andb_true_iff, String.eqb_eq. by intros [[[? _] _] _]. }
  assert (j = n); [|lia].
  eapply (NoDup_lookup _ _ _ (OutboxEvent.id e) Hnd); rewrite list_lookup_fmap.
  - rewrite Hj. simpl. f_equal. by rewrite (Hid y), (Hid e).
  - by rewrite Hn.
Qed.

Section turns.
Context `{Env}.

(** What a turn of the worker has made of the event it claimed. *)
Definition turn_result (outcome : ProcessOutcome) (w : ClaimedOutboxWork.t) (y : OutboxEvent.t) :
    Prop :=
  match outcome with
  | idle => False
  | succeeded => OutboxEvent.status y = OutboxStatus.processed
  | retry_scheduled =>
    OutboxEvent.status y = OutboxStatus.pending ∧
    (OutboxEvent.attemptCount y < BackgroundJob.maxAttempts (ClaimedOutboxWork.job w))%Z
  | dead_lettered => OutboxEvent.status y = OutboxStatus.failed
  end ∧
  OutboxEvent.leaseOwner y = None ∧
  OutboxEvent.attemptCount y = OutboxEvent.attemptCount (ClaimedOutboxWork.event w).

(** Settling the claimed event. *)
Lemma settle_claimed w owner f held job s n :
  NoDup (OutboxEvent.id <$> s.(outboxEvents)) → event_at n (ClaimedOutboxWork.event w) s →
  holds owner (ClaimedOutboxWork.event w) →
  ∃ s', settle (outcome_of owner w) f held job s = (Ok tt, s') ∧
    s'.(outboxEvents) = <[n := f (ClaimedOutboxWork.event w)]> s.(outboxEvents).
Proof.
  intros Hnd Hn [Hst Hown]. destruct (settle_run (outcome_of owner w) f held job s) as (s' & Hs & Hev & _).
  exists s'. split; [done|]. rewrite Hev, (held_found _ _ _ _ Hnd Hn); [done|].
  unfold held_event. simpl. rewrite !String.eqb_refl, Hst, Hown.
  by rewrite !bool_decide_eq_true_2.
Qed.

(** A failed turn. *)
Lemma process_failure_run backoff random owner w e s n :
  NoDup (OutboxEvent.id <$> s.(outboxEvents)) → event_at n (ClaimedOutboxWork.event w) s →
  holds owner (ClaimedOutboxWork.event w) →
  ∃ outcome s' y, process_failure backoff random owner w e s = (Ok (outcome, Some w), s') ∧
    turn_result outcome w y ∧ s'.(outboxEvents) = <[n := y]> s.(outboxEvents).
Proof.
  intros Hnd Hn Hh. unfold process_failure. cbv zeta. destruct (is_terminal e w) eqn:Ht.
  - unfold markDeadLettered, applyOutcome.
    destruct (settle_claimed w owner (settled_event OutboxStatus.failed
        (formatJobErrorCode (ClassifiedJobFailure.category (classifyJobFailure e))
           (ClassifiedJobFailure.code (classifyJobFailure e))) None)
      (held_job (outcome_of owner w)) (settled_job BackgroundJobStatus.failed
        (formatJobErrorCode (ClassifiedJobFailure.category (classifyJobFailure e))
           (ClassifiedJobFailure.code (classifyJobFailure e))) None)
      (set_clockReads (S (clockReads s)) s) n Hnd Hn Hh) as (s' & Hs & Hev).
    do 3 eexists. split.
    + erewrite bind_run; [|reflexivity]. erewrite bind_run; [|exact Hs]. reflexivity.
    + split; [|exact Hev]. by split_and!.
  - unfold scheduleRetry, applyOutcome.
    set (at_ := (clock (clockReads s) + computeBackoffMs
      (OutboxEvent.attemptCount (ClaimedOutboxWork.event w)) backoff random)%Z).
    destruct (settle_claimed w owner (settled_event OutboxStatus.pending
        (formatJobErrorCode (ClassifiedJobFailure.category (classifyJobFailure e))
           (ClassifiedJobFailure.code (classifyJobFailure e))) (Some at_))
      (held_job (outcome_of owner w)) (settled_job BackgroundJobStatus.pending
        (formatJobErrorCode (ClassifiedJobFailure.category (classifyJobFailure e))
           (ClassifiedJobFailure.code (classifyJobFailure e))) (Some at_))
      (set_clockReads (S (clockReads s)) s) n Hnd Hn Hh) as (s' & Hs & Hev).
    do 3 eexists. split.
    + erewrite bind_run; [|reflexivity]. erewrite bind_run; [|exact Hs]. reflexivity.
    + split; [|exact Hev]. unfold is_terminal in Ht. apply orb_false_iff in Ht as [_ Ht%Z.leb_gt].
      by split_and!.
Qed.

Lemma claim_total type now owner until s :
  ∃ w s', claimNextByType type now owner until s = (Ok w, s') ∧
    (w = None → s' = s ∧ ∀ x, x ∈ s.(outboxEvents) → claimable type now x = false).
Proof.
  unfold claimNextByType, gets, ensureJob, find_one, mbind, M_bind. simpl.
  destruct (find_index (claimable type now) (outboxEvents s)) as [[n x]|] eqn:Hn; simpl.
  - destruct (find_row _ _); by repeat eexists.
  - exists None, s. split; [done|]. split; [done|]. by apply find_index_None.
Qed.

(** The work on a claim: it succeeds, or it throws and the outbox is as it was. *)
Lemma process_claimed_run owner handler w started s n :
  NoDup (OutboxEvent.id <$> s.(outboxEvents)) → event_at n (ClaimedOutboxWork.event w) s →
  holds owner (ClaimedOutboxWork.event w) → respects (keeps outboxEvents) (handler w) →
  ∃ r s', process_claimed owner handler w started s = (r, s') ∧
    match r with
    | Ok (outcome, w') => w' = Some w ∧ ∃ y, turn_result outcome w y ∧
        s'.(outboxEvents) = <[n := y]> s.(outboxEvents)
    | Throw _ => keeps outboxEvents s s'
    end.
Proof.
  intros Hnd Hn Hh Hkeep. unfold process_claimed.
  destruct (assertSafeJobPayload _) as [[]|e]; [|by exists (Throw e), s].
  erewrite bind_run; [|reflexivity]. specialize (Hkeep s).
  destruct (handler w s) as [[[]|e] s1] eqn:Hrun; simpl in Hkeep.
  2: { exists (Throw e), s1. split; [by erewrite bind_run_throw|done]. }
  erewrite bind_run; [|exact Hrun]. erewrite bind_run; [|reflexivity].
  destruct (settle_claimed w owner (processed_event (clock (clockReads s1)))
    (λ row, held_job (outcome_of owner w) row &&
       bool_decide (BackgroundJob.status row = BackgroundJobStatus.leased))
    (λ _, succeeded_job (clock (clockReads s1))) (set_clockReads (S (clockReads s1)) s1) n)
    as (s2 & Hs & Hev).
  { simpl. by rewrite <-Hkeep. }
  { unfold event_at. simpl. by rewrite <-Hkeep. }
  { done. }
  do 2 eexists. split.
  - erewrite bind_run; [|exact Hs]. reflexivity.
  - split; [done|]. eexists. split; [|simpl; by rewrite Hev, Hkeep]. by split_and!.
Qed.

(** The part of a turn after the claim. *)
Lemma claimed_turn backoff random owner handler w started s n :
  NoDup (OutboxEvent.id <$> s.(outboxEvents)) → event_at n (ClaimedOutboxWork.event w) s →
  holds owner (ClaimedOutboxWork.event w) → respects (keeps outboxEvents) (handler w) →
  ∃ outcome s' y,
    try_catch (process_claimed owner handler w started) (process_failure backoff random owner w) s =
      (Ok (outcome, Some w), s') ∧
    turn_result outcome w y ∧ s'.(outboxEvents) = <[n := y]> s.(outboxEvents).
Proof.
  intros Hnd Hn Hh Hkeep. unfold try_catch.
  destruct (process_claimed_run owner handler w started s n Hnd Hn Hh Hkeep) as (r & s1 & -> & Hr).
  destruct r as [[outcome w']|e].
  - destruct Hr as [-> (y & Hy & Hev)]. by exists outcome, s1, y.
  - unfold keeps in Hr.
    destruct (process_failure_run backoff random owner w e s1 n) as (outcome & s2 & y & Hs & Hy & Hev).
    + by rewrite <-Hr.
    + unfold event_at. by rewrite <-Hr.
    + done.
    + exists outcome, s2, y. by rewrite Hr.
Qed.

Lemma turn_settles stop backoff random type owner handler s :
  NoDup (OutboxEvent.id <$> s.(outboxEvents)) →
  (∀ w, respects (keeps outboxEvents) (handler w)) →
  ∃ outcome w s', processNext stop backoff random type owner handler s = (Ok (outcome, w), s') ∧
    match w with
    | None => outcome = idle ∧ keeps outboxEvents s s' ∧
        (stop = true ∨ ∀ x, x ∈ s.(outboxEvents) → claimable type (clock s.(clockReads)) x = false)
    | Some w => ∃ n x y, event_at n x s ∧ claimable type (clock s.(clockReads)) x = true ∧
        turn_result outcome w y ∧
        OutboxEvent.attemptCount y = (OutboxEvent.attemptCount x + 1)%Z ∧
        s'.(outboxEvents) = <[n := y]> s.(outboxEvents)
    end.
Proof.
  intros Hnd Hh. unfold processNext. destruct stop.
  { exists idle, None, s. split_and!; [done..|by left]. }
  set (s0 := set_clockReads (S (clockReads s)) s).
  set (until := (clock (clockReads s) + leaseMs)%Z).
  destruct (claim_total type (clock (clockReads s)) owner until s0) as (w & s1 & Hclaim & Hnone).
  erewrite bind_run; [|reflexivity]. erewrite bind_run; [|exact Hclaim].
  destruct w as [w|].
  2: { destruct (Hnone eq_refl) as [-> Hno]. exists idle, None, s0. split_and!; [done..|by right]. }
  apply claim_ok in Hclaim as (n & x & Hx & Hc & He & Hev). simpl in Hev.
  erewrite bind_run; [|reflexivity]. erewrite bind_run; [|reflexivity].
  erewrite bind_run; [|reflexivity].
  match goal with |- context [try_catch (process_claimed _ _ _ ?t) _ ?st] =>
    set (s2 := st); set (started := t) end.
  assert (s2.(outboxEvents) = <[n := ClaimedOutboxWork.event w]> s.(outboxEvents)) as Hev2 by done.
  destruct (claimed_turn backoff random owner handler w started s2 n) as (outcome & s3 & y & Hs & Hy & Hs3).
  - rewrite Hev2, list_fmap_insert, He. simpl. rewrite list_insert_id; [done|].
    rewrite list_lookup_fmap. change (outboxEvents s !! n = Some x) in Hx. by rewrite Hx.
  - unfold event_at. rewrite Hev2. apply list_lookup_insert_eq. by eapply lookup_lt_Some.
  - by rewrite He.
  - apply Hh.
  - exists outcome, (Some w), s3. split; [exact Hs|]. exists n, x, y. split_and!; [done..| |].
    + destruct Hy as (_ & _ & ->). by rewrite He.
    + rewrite Hs3, Hev2. apply list_insert_insert_eq.
Qed.

(** C26: every turn settles: a turn of a worker never throws, whatever its handler
    does, as long as the handler leaves the outbox alone; it is idle only when told
    to stop or when nothing is due; otherwise it has taken one event that was due,
    counted the attempt, left the other events alone, given the lease back, and the
    event is processed, or pending again with attempts left, or failed. *)
Theorem every_turn_settles stop backoff random type owner handler s :
  NoDup (OutboxEvent.id <$> s.(outboxEvents)) →
  (∀ w, respects (keeps outboxEvents) (handler w)) →
  ∃ outcome w s', processNext stop backoff random type owner handler s = (Ok (outcome, w), s') ∧
    match w with
    | None => outcome = idle ∧ keeps outboxEvents s s' ∧
        (stop = true ∨ ∀ x, x ∈ s.(outboxEvents) → claimable type (clock s.(clockReads)) x = false)
    | Some w => ∃ n x y, event_at n x s ∧ claimable type (clock s.(clockReads)) x = true ∧
        turn_result outcome w y ∧
        OutboxEvent.attemptCount y = (OutboxEvent.attemptCount x + 1)%Z ∧
        s'.(outboxEvents) = <[n := y]> s.(outboxEvents)
    end.
Proof. apply turn_settles. Qed.
(** ** Termination of retries

    [retries max n k s s']: from [s] to [s'] event [n] was retried [k] times, by
    any workers with any handlers, none of whose jobs allows more than [max]
    attempts; in between the store took any steps at all. *)
Inductive retries (max : Z) (n : nat) : nat → St → St → Prop :=
  | retries_none s s' : Steps (λ _, True) s s' → retries max n 0 s s'
  | retries_turn k s s1 s2 s3 backoff random type owner handler w :
      Steps (λ _, True) s s1 →
      NoDup (OutboxEvent.id <$> s1.(outboxEvents)) →
      (∀ w, respects (keeps outboxEvents) (handler w)) →
      processNext false backoff random type owner handler s1 = (Ok (retry_scheduled, Some w), s2) →
      s2.(outboxEvents) !! n ≠ s1.(outboxEvents) !! n →
      (BackgroundJob.maxAttempts (ClaimedOutboxWork.job w) ≤ max)%Z →
      retries max n k s2 s3 → retries max n (S k) s s3.

Lemma attempts_grow s s' n x :
  Steps (λ _, True) s s' → event_at n x s →
  ∃ y, event_at n y s' ∧ (OutboxEvent.attemptCount x ≤ OutboxEvent.attemptCount y)%Z.
Proof.
  intros Hs Hx. apply Steps_events in Hs. destruct (evolves_lookup _ _ _ _ _ _ Hs Hx) as (y & Hy & He).
  exists y. split; [exact Hy|]. by destruct He as (_ & _ & _ & _ & ? & _).
Qed.

(** A retry of an event counts an attempt, within the job's limit. *)
Lemma retry_turn_counts backoff random type owner handler s w s' n x :
  NoDup (OutboxEvent.id <$> s.(outboxEvents)) → (∀ w, respects (keeps outboxEvents) (handler w)) →
  processNext false backoff random type owner handler s = (Ok (retry_scheduled, Some w), s') →
  s'.(outboxEvents) !! n ≠ s.(outboxEvents) !! n → event_at n x s →
  ∃ y, event_at n y s' ∧ OutboxEvent.attemptCount y = (OutboxEvent.attemptCount x + 1)%Z ∧
    (OutboxEvent.attemptCount y < BackgroundJob.maxAttempts (ClaimedOutboxWork.job w))%Z.
Proof.
  intros Hnd Hh Hrun Hne Hx.
  destruct (turn_settles false backoff random type owner handler s Hnd Hh) as (o & w' & s2 & Hrun' & Hres).
  rewrite Hrun in Hrun'. injection Hrun' as <- <- <-.
  destruct Hres as (m & x' & y & Hm & _ & (Hy & _ & _) & Hatt & Hev).
  destruct (decide (m = n)) as [->|Hmn].
  - unfold event_at in *. simplify_eq. exists y. split_and!; [|done|apply Hy].
    rewrite Hev. apply list_lookup_insert_eq. by eapply lookup_lt_Some.
  - destruct Hne. rewrite Hev. by apply list_lookup_insert_ne.
Qed.

(** C27: retries end: however many workers retry an event, and whatever happens in
    between, an event that has had [a] attempts is retried fewer than [max - a]
    times; after that a failing turn dead-letters it. *)
Theorem retries_are_bounded max n k s s' x :
  retries max n k s s' → event_at n x s →
  ∃ y, event_at n y s' ∧
    (OutboxEvent.attemptCount x + Z.of_nat k ≤ OutboxEvent.attemptCount y)%Z ∧
    (k = 0%nat ∨ OutboxEvent.attemptCount x + Z.of_nat k < max)%Z.
Proof.
  intros Hr. revert x. induction Hr as [s s' Hs|k s s1 s2 s3 b r t o h w Hs Hnd Hh Hrun Hne Hmax _ IH];
    intros x Hx.
  { destruct (attempts_grow _ _ _ _ Hs Hx) as (y & Hy & Hle). exists y. split_and!; [done|lia|by left]. }
  destruct (attempts_grow _ _ _ _ Hs Hx) as (y & Hy & Hle).
  destruct (retry_turn_counts _ _ _ _ _ _ _ _ _ _ Hnd Hh Hrun Hne Hy) as (z & Hz & Hatt & Hlt).
  destruct (IH z Hz) as (u & Hu & Hku & Hk). exists u. split_and!; [done|lia|right; lia].
Qed.
End turns.
