(* ===== verification/Finalized.v ===== *)
(** What finalizing and downloading a document have done when they return. *)

From Stdlib Require Import String.
From S2P Require Export Outcomes.
Local Open Scope string_scope.

#[export] Instance artifacts_view : TableView finalizedArtifacts.
Proof. by split. Qed.

Definition artifact_of (s : St) (o d : string) : option FinalizedArtifact.t :=
  find_row (FinalizedArtifacts.of_document o d) s.(finalizedArtifacts).

Section finalized.
Context `{Env} `{!AuthorizationPolicy} `{!UnitOfWork}.

(** ** Downloading *)

Lemma getObject_ok o k s x s' :
  getObject o k s = (Ok (Some x), s') → ∃ k', object_at k' s.(objects) = Some x ∧ s' = s.
Proof.
  unfold getObject. intros Hrun. pull_lift Hrun k' Hk. apply gets_ok in Hrun as [Hx ->]. by exists k'.
Qed.

Lemma append_ok input s e s' :
  append input s = (Ok e, s') →
  s'.(auditEvents) = (s.(auditEvents) ++ [e])%list ∧ AuditEvent.type e = NewAuditEvent.type input ∧
  AuditEvent.actorId e = NewAuditEvent.actorId input.
Proof.
  unfold append. intros Hrun. pull_lift Hrun [] ?.
  apply bind_ok in Hrun as (l & s1 & Hl & Hrun). apply gets_ok in Hl as [_ ->].
  pull_lift Hrun x Hx. rewrite push_run in Hrun. injection Hrun as <- <-. split; [done|].
  destruct input. unfold next_event in Hx. apply bind_Result_ok in Hx as (h & _ & Hx).
  by injection Hx as <-.
Qed.

(** C22: downloads are intact: a download that returns was of a finalized document,
    by a member who may, and returns the bytes whose digest the artifact records,
    with their size; and it is the newest audit event. *)
Theorem downloads_are_intact user d rq s bytes name digest size s' :
  downloadFinalizedArtifact user d rq s = (Ok (bytes, name, digest, size), s') →
  let o := AccountUserActor.organizationId user in
  assertAllowed (account user) AuthorizationAction.document_download_artifact (doc_resource o d) = Ok tt ∧
  (∃ x, document_at s o d = Some x ∧ Document.state x = DocumentState.finalized) ∧
  (∃ a, artifact_of s o d = Some a ∧ digest = FinalizedArtifact.sha256Digest a) ∧
  sha256Bytes bytes = digest ∧ size = byteLength bytes ∧
  ∃ e, s'.(auditEvents) = (s.(auditEvents) ++ [e])%list ∧
    AuditEvent.type e = AuditEventType.artifact_downloaded ∧
    AuditEvent.actorId e = actorId (account user).
Proof.
  intros Hrun o. unfold downloadFinalizedArtifact in Hrun. cbv zeta in Hrun.
  pull_lift Hrun o' Ho. apply organizationContextFromActor_user in Ho as ->. fold o in Hrun.
  pull_lift Hrun [] Hallow. fold o in Hallow.
  apply bind_ok in Hrun as (x & s1 & Hx & Hrun). apply requireDocument_ok in Hx as [Hx ->].
  pose proof (document_at_key _ _ _ _ Hx) as [_ Hid].
  destruct (negb _) eqn:Hst; [done|]. apply negb_false_iff, bool_decide_eq_true in Hst.
  apply bind_ok in Hrun as (found & s1 & Hf & Hrun). apply gets_ok in Hf as [Hf ->].
  destruct found as [a|]; [|done].
  apply bind_ok in Hrun as (stored & s1 & Hs & Hrun). destruct stored as [b|]; [|done].
  apply getObject_ok in Hs as (k & Hk & ->).
  destruct (_ || _) eqn:Hd; [done|]. apply orb_false_iff in Hd as [Hd _].
  apply negb_false_iff, String.eqb_eq in Hd.
  apply bind_ok in Hrun as (now & s1 & [= <- <-] & Hrun).
  apply bind_ok in Hrun as (e & s2 & He & Hrun). apply run_ok in He.
  apply ret_ok in Hrun as [[= <- _ <- <-] ->].
  apply bind_ok in He as (i & s3 & [= <- <-] & He). apply append_ok in He as (He & Hty & Hac).
  split_and!; try done.
  - by exists x.
  - exists a. split; [|done]. unfold artifact_of. by rewrite <-Hid.
  - by exists e.
Qed.
(** ** Finalizing *)

(** What a job may work on, as the store has it. *)
Definition work_of (s : St) (input : FlattenSignatureInput.t) (w : Work.t) : Prop :=
  let o := FlattenSignatureInput.organizationId input in
  let d := FlattenSignatureInput.documentId input in
  document_at s o d = Some (Work.document w) ∧
  Work.allSignersComplete w = allRequiredSigned (Signer.status <$> roster s o d).

Lemma loadAuthorizedWork_ok input s r s' :
  loadAuthorizedWork input s = (Ok r, s') →
  keeps durable s s' ∧ match r with inl _ => True | inr w => work_of s input w end.
Proof.
  destruct input as [o d g sid rid j ev rq w]. unfold loadAuthorizedWork, work_of. simpl. intros Hrun.
  apply bind_ok in Hrun as (x & s1 & Hx & Hrun). apply gets_ok in Hx as [Hx ->].
  destruct x as [x|]; [|done]. change (document_at s o d = Some x) in Hx.
  pose proof (document_at_key _ _ _ _ Hx) as [_ Hid].
  apply bind_ok in Hrun as (a & s1 & Ha & Hrun). apply gets_ok in Ha as [_ ->].
  assert (keeps durable s s' ∧ match r with
    | inl _ => True
    | inr w => Work.document w = x ∧
        Work.allSignersComplete w = allRequiredSigned (Signer.status <$> roster s o (Document.id x))
    end) as [Hk Hw].
  { clear Hx Hid. destruct (Document.state x), a; try (by apply ret_ok in Hrun as [<- ->]).
    all: apply bind_ok in Hrun as (row & s1 & Hr & Hrun); apply gets_ok in Hr as [_ ->];
      destruct row as [row|]; [|done]; destruct (negb _); [done|].
    all: apply bind_ok in Hrun as (ses & s1 & Hr & Hrun); apply gets_ok in Hr as [_ ->];
      destruct ses as [ses|]; [|done]; destruct (_ || _); [done|].
    all: apply bind_ok in Hrun as (con & s1 & Hr & Hrun); apply gets_ok in Hr as [_ ->];
      destruct con as [con|]; [|done].
    all: apply bind_ok in Hrun as (rev & s1 & Hr & Hrun); apply gets_ok in Hr as [_ ->];
      destruct rev as [rev|]; [|done]; destruct (negb _); [done|].
    all: apply bind_ok in Hrun as (l & s1 & Hr & Hrun); apply roster_ok in Hr as [-> ->].
    all: apply bind_ok in Hrun as (fs & s1 & Hr & Hrun); apply gets_ok in Hr as [_ ->];
      destruct (_ =? 0)%nat; [done|].
    all: apply bind_ok in Hrun as (tm & s2 & Ht & Hrun); apply ret_ok in Hrun as [<- ->].
    all: split; [|done]; destruct (Signer.completedAt row);
      [by apply ret_ok in Ht as [_ ->]|by injection Ht as _ <-]. }
  split; [done|]. destruct r as [|w1]; [done|]. destruct Hw as [Hdoc Hall]. rewrite Hdoc, Hall, Hid. by split.
Qed.
(** The artifact of a document is on file, the one there was or one with the
    digest. *)
Definition sealed (s0 s : St) (o d digest : string) : Prop :=
  ∃ a, artifact_of s o d = Some a ∧
    (artifact_of s0 o d = Some a ∨
     artifact_of s0 o d = None ∧ FinalizedArtifact.sha256Digest a = digest).

Lemma artifact_create_ok o x s y s' :
  FinalizedArtifacts.create o x s = (Ok y, s') → FinalizedArtifact.organizationId x = o →
  artifact_of s o (FinalizedArtifact.documentId x) = None ∧
  artifact_of s' o (FinalizedArtifact.documentId x) = Some x.
Proof.
  unfold FinalizedArtifacts.create. intros Hrun Ho.
  apply bind_ok in Hrun as (z & s1 & Hz & Hrun). apply gets_ok in Hz as [Hz ->].
  destruct z; [done|]. rewrite push_run in Hrun. injection Hrun as _ <-.
  change (artifact_of s o (FinalizedArtifact.documentId x) = None) in Hz. split; [done|].
  unfold artifact_of, find_row in *. apply fmap_None in Hz.
  apply fmap_Some. exists (length s.(finalizedArtifacts), x). split; [|done].
  apply find_index_Some. simpl. change (rows (T:=FinalizedArtifact.t) s) with (finalizedArtifacts s).
  split_and!.
  - by apply list_lookup_middle.
  - unfold FinalizedArtifacts.of_document. by rewrite Ho, !String.eqb_refl.
  - intros j w Hj Hlt. rewrite lookup_app_l in Hj by done. rewrite find_index_None in Hz.
    apply Hz. by eapply list_elem_of_lookup_2.
Qed.

(** Filing the artifact unless there is one. *)
Lemma seal_ok (s : St) o d digest existing (file : Run unit) s' :
  artifact_of s o d = existing →
  (match existing with Some _ => mret tt | None => file end : Run unit) s = (Ok tt, s') →
  (file s = (Ok tt, s') →
     ∃ a, artifact_of s' o d = Some a ∧ FinalizedArtifact.sha256Digest a = digest) →
  sealed s s' o d digest.
Proof.
  intros Hx Hrun Hfile. destruct existing as [a|].
  - apply ret_ok in Hrun as [_ ->]. exists a. split; [done|by left].
  - destruct (Hfile Hrun) as (a & Ha & Hd). exists a. split; [done|by right].
Qed.

Lemma sealed_keeps s0 s1 s s' o d digest :
  keeps finalizedArtifacts s0 s1 → keeps finalizedArtifacts s s' →
  sealed s1 s o d digest → sealed s0 s' o d digest.
Proof. unfold keeps, sealed, artifact_of. by intros -> ->. Qed.

Lemma flatten_transaction_ok input w leased r pend out rid aid at_ s s' :
  flatten_transaction input w leased r pend out rid aid at_ s = (Ok tt, s') →
  Work.allSignersComplete w = true →
  let o := FlattenSignatureInput.organizationId input in
  let d := FlattenSignatureInput.documentId input in
  (∃ y, document_at s' o d = Some y ∧ Document.state y = DocumentState.finalized) ∧
  sealed s s' o d (Output.digest out).
Proof.
  intros Hrun Hall o d. unfold flatten_transaction in Hrun. cbv zeta in Hrun. fold o d in Hrun.
  rewrite Hall in Hrun. apply bind_ok in Hrun as ([] & s1 & Hpend & Hrun).
  assert (keeps finalizedArtifacts s s1) as Hk1 by (eapply run_keeps; [|exact Hpend]; respects_tac).
  apply bind_ok in Hrun as (y & s2 & Hdoc & Hrun).
  assert (keeps finalizedArtifacts s1 s2) as Hk2 by (eapply run_keeps; [|exact Hdoc]; respects_tac).
  assert (keeps documents s2 s') as Hkd by (eapply run_keeps; [|exact Hrun]; respects_tac).
  apply bumpDocument_ok in Hdoc as (x & u & _ & _ & Hu & -> & Hat).
  2: { intros x u. repeat case_match; try done; by intros [= <-]. }
  apply guarded_ok in Hu as [_ Hu]. apply guarded_ok in Hu as [_ [= <-]].
  split.
  { eexists. unfold document_at. rewrite <-Hkd. split; [exact Hat|done]. }
  apply bind_ok in Hrun as (existing & s3 & He & Hrun). apply gets_ok in He as [He ->].
  apply bind_ok in Hrun as ([] & s4 & Hfile & Hrun).
  assert (keeps finalizedArtifacts s4 s') as Hk4 by (eapply run_keeps; [|exact Hrun]; respects_tac).
  eapply sealed_keeps; [|exact Hk4|]; [unfold keeps in *; by rewrite Hk1|].
  eapply seal_ok; [exact He|exact Hfile|]. intros Hf. pull_lift Hf key ?.
  apply bind_ok in Hf as (a & s5 & Ha & Hf). apply ret_ok in Hf as [_ ->].
  apply artifact_create_ok in Ha as [_ Ha]; [|done]. by eexists.
Qed.

(** A handler that only rethrows returns nothing. *)
Definition rethrows {A} (h : Exn → Run A) : Prop := ∀ e s a s', h e s ≠ (Ok a, s').

Lemma try_rethrow_ok {A} (m : Run A) h s a s' :
  rethrows h → try_catch m h s = (Ok a, s') → m s = (Ok a, s').
Proof. intros Hh [Hm|(e & s1 & _ & He)]%try_ok; [done|]. by apply Hh in He. Qed.

Lemma commit_failure_rethrows {A} : rethrows (@commit_failure A).
Proof. intros e s a s'. unfold commit_failure. by repeat case_match. Qed.

Lemma flatten_failure_rethrows {A} input : rethrows (@flatten_failure _ _ A input).
Proof.
  intros e s a s' Hrun. apply bind_ok in Hrun as (u & s1 & _ & Hrun).
  by apply bind_ok in Hrun as (v & s2 & _ & Hrun).
Qed.

(** A document that was finalized without its artifact. *)
Lemma persistMissingFinalArtifact_ok input w s st digest s' :
  persistMissingFinalArtifact input w s = (Ok (st, digest), s') →
  let o := FlattenSignatureInput.organizationId input in
  let d := FlattenSignatureInput.documentId input in
  ∃ g, digest = Some g ∧ keeps documents s s' ∧ sealed s s' o d g.
Proof.
  intros Hrun o d. unfold persistMissingFinalArtifact in Hrun. cbv zeta in Hrun. fold o d in Hrun.
  assert (keeps documents s s') as Hdocs.
  { eapply run_keeps; [|exact Hrun]. respects_tac. }
  apply bind_ok in Hrun as ([source g] & s1 & Hs1 & Hrun).
  assert (keeps finalizedArtifacts s s1) as Hk1 by (eapply run_keeps; [|exact Hs1]; respects_tac).
  pull_lift Hrun key ?. apply bind_ok in Hrun as ([] & s2 & Hs2 & Hrun).
  assert (keeps finalizedArtifacts s1 s2) as Hk2 by (eapply run_keeps; [|exact Hs2]; respects_tac).
  apply bind_ok in Hrun as (now & s3 & [= <- <-] & Hrun).
  apply bind_ok in Hrun as ([] & s3 & Hs3 & Hrun). apply ret_ok in Hrun as [[= _ <-] ->].
  exists g. split_and!; [done..|].
  apply (try_rethrow_ok _ _ _ _ _ commit_failure_rethrows), run_ok in Hs3.
  apply bind_ok in Hs3 as (existing & s4 & He & Hfile). apply gets_ok in He as [He ->].
  eapply (sealed_keeps s (set_clockReads (S (clockReads s2)) s2) s3 s3);
    [unfold keeps in *; by rewrite Hk1, Hk2|done|].
  eapply seal_ok; [exact He|exact Hfile|]. intros Hf.
  apply bind_ok in Hf as (i & s5 & [= _ <-] & Hf). apply bind_ok in Hf as (a & s5 & Ha & Hf).
  apply artifact_create_ok in Ha as [_ Ha]; [|done].
  assert (keeps finalizedArtifacts s5 s3) as Hk by (eapply run_keeps; [|exact Hf]; respects_tac).
  exists (new_artifact i o d key source g (clock (clockReads s2))).
  split; [unfold artifact_of; rewrite <-Hk; exact Ha|done].
Qed.

Lemma flatten_leased_ok input w leased s digest s' :
  flatten_leased input w leased s = (Ok (finalized, digest), s') →
  let o := FlattenSignatureInput.organizationId input in
  let d := FlattenSignatureInput.documentId input in
  Work.allSignersComplete w = true ∧
  (∃ y, document_at s' o d = Some y ∧ Document.state y = DocumentState.finalized) ∧
  ∃ g, digest = Some g ∧ sealed s s' o d g.
Proof.
  intros Hrun o d. unfold flatten_leased in Hrun. cbv zeta in Hrun. fold o in Hrun.
  apply bind_ok in Hrun as (rev & s1 & Hr & Hrun). apply gets_ok in Hr as [_ ->].
  destruct rev as [rev|]; [|done].
  apply bind_ok in Hrun as (out & s1 & Hout & Hrun).
  apply bind_ok in Hrun as (rid & s2 & Hrid & Hrun).
  apply bind_ok in Hrun as (aid & s3 & Haid & Hrun).
  apply bind_ok in Hrun as (now & s4 & Hnow & Hrun).
  apply bind_ok in Hrun as ([] & s5 & Hput & Hrun).
  assert (keeps finalizedArtifacts s s5) as Hk.
  { transitivity s1; [eapply run_keeps; [|exact Hout]; respects_tac|].
    transitivity s2; [eapply run_keeps; [|exact Hrid]; respects_tac|].
    transitivity s3; [eapply run_keeps; [|exact Haid]; respects_tac|].
    transitivity s4; [eapply run_keeps; [|exact Hnow]; respects_tac|].
    eapply run_keeps; [|exact Hput]. respects_tac. }
  apply bind_ok in Hrun as ([] & s6 & Ht & Hrun).
  apply (try_rethrow_ok _ _ _ _ _ commit_failure_rethrows), run_ok in Ht.
  apply ret_ok in Hrun as [[= Hst <-] ->]. destruct (Work.allSignersComplete w) eqn:Hall; [|done].
  apply flatten_transaction_ok in Ht as [Hdoc Hseal]; [|done]. split_and!; [done..|].
  eexists. split; [done|]. by eapply sealed_keeps; [exact Hk| |exact Hseal].
Qed.

(** C21: finalizing seals: a flatten job that reports a finalized document leaves it
    finalized with its artifact on file, the one that was there or one with the
    reported digest; and every signer had signed, or the document was finalized
    before. *)
Theorem finalizing_seals_the_document input s digest s' :
  flattenSignature input s = (Ok (finalized, digest), s') →
  let o := FlattenSignatureInput.organizationId input in
  let d := FlattenSignatureInput.documentId input in
  ∃ x y g, document_at s o d = Some x ∧ document_at s' o d = Some y ∧
    Document.state y = DocumentState.finalized ∧ digest = Some g ∧ sealed s s' o d g ∧
    (Document.state x = DocumentState.finalized ∨
     ∀ r, r ∈ signers_of s o d → Signer.status r = SignerStatus.signed).
Proof.
  intros Hrun o d. unfold flattenSignature in Hrun.
  apply bind_ok in Hrun as (loaded & s1 & Hl & Hrun). apply loadAuthorizedWork_ok in Hl as [Hk Hw].
  destruct loaded as [|w]; [by apply ret_ok in Hrun as [[=] _]|].
  destruct Hw as [Hx Hall]. fold o d in Hx, Hall.
  case_bool_decide as Hfin.
  { apply persistMissingFinalArtifact_ok in Hrun as (g & -> & Hd & Hs).
    pose proof (durable_same documents _ _ (λ _, eq_refl) Hk) as Hk'.
    exists (Work.document w), (Work.document w), g. split_and!; [done| |done|done| |by left].
    - unfold document_at in *. by rewrite <-Hd, <-Hk'.
    - eapply sealed_keeps; [|done|exact Hs]. by apply (durable_same finalizedArtifacts _ _ (λ _, eq_refl)). }
  cbv zeta in Hrun. fold o d in Hrun.
  apply bind_ok in Hrun as (now & s2 & [= <- <-] & Hrun).
  apply bind_ok in Hrun as (leased & s3 & Hlease & Hrun).
  apply bind_ok in Hrun as ([] & s4 & Hstart & Hrun).
  assert (keeps finalizedArtifacts s s4) as Hka.
  { transitivity s1; [by apply (durable_same finalizedArtifacts _ _ (λ _, eq_refl))|].
    transitivity (set_clockReads (S (clockReads s1)) s1); [done|].
    transitivity s3; [eapply run_keeps; [|exact Hlease]; respects_tac|].
    eapply run_keeps; [|exact Hstart]. respects_tac. }
  apply (try_rethrow_ok _ _ _ _ _ (flatten_failure_rethrows input)) in Hrun.
  apply flatten_leased_ok in Hrun as (Hac & (y & Hy & Hst) & g & -> & Hs).
  exists (Work.document w), y, g. split_and!; [done..| |].
  - by eapply sealed_keeps; [exact Hka| |exact Hs].
  - right. intros r Hr. rewrite Hall in Hac. unfold allRequiredSigned in Hac.
    rewrite forallb_forall in Hac. apply (bool_decide_eq_true_1 _), Hac.
    apply list_elem_of_In, list_elem_of_fmap_2. unfold roster. by apply sort_by_elem.
Qed.
End finalized.
