(* ===== verification/Chain.v ===== *)
(** The audit chain of every document: what the writer keeps, what the verifier
    decides, and what a matching head hash proves about the whole chain. *)

From Stdlib Require Import String.
From S2P Require Export Invariants Unambiguity.
Local Open Scope string_scope.

Section links.
Context `{Env}.

(** An event that follows [previous]. *)
Definition event_ok (previous : option AuditEvent.t) (e : AuditEvent.t) : Prop :=
  AuditEvent.sequence e =
    match previous with None => 0%Z | Some p => (AuditEvent.sequence p + 1)%Z end ∧
  AuditEvent.chainVersion e = AUDIT_CHAIN_SCHEMA_VERSION ∧
  AuditEvent.previousEventHash e =
    match previous with
    | None => AUDIT_GENESIS_PREVIOUS_EVENT_HASH
    | Some p => AuditEvent.eventHash p
    end ∧
  (∃ m, as_record (AuditEvent.payload e) = Some m ∧ assertApprovedAuditPayload m 0 = Ok tt) ∧
  computeAuditEventHash (hash_input e (AuditEvent.payload e)) = Ok (AuditEvent.eventHash e).

Fixpoint links (previous : option AuditEvent.t) (l : list AuditEvent.t) : Prop :=
  match l with
  | [] => True
  | e :: l => event_ok previous e ∧ links (Some e) l
  end.

Definition last_or (previous : option AuditEvent.t) (l : list AuditEvent.t) : option AuditEvent.t :=
  match last l with Some e => Some e | None => previous end.

Lemma last_or_cons p e l : last_or p (e :: l) = last_or (Some e) l.
Proof. unfold last_or. rewrite last_cons. by destruct (last l). Qed.

Lemma links_snoc p l e : links p l → event_ok (last_or p l) e → links p (l ++ [e]).
Proof.
  revert p. induction l as [|f l IH]; intros p; simpl; [done|].
  intros [Hf Hl] He. split; [done|]. apply IH; [done|]. by rewrite last_or_cons in He.
Qed.

(** The sequence numbers of a linked chain count up. *)
Lemma links_sequence p l i e :
  links p l → l !! i = Some e →
  AuditEvent.sequence e =
    (match p with None => 0 | Some p => AuditEvent.sequence p + 1 end + Z.of_nat i)%Z.
Proof.
  revert p i. induction l as [|f l IH]; intros p i; simpl; [done|].
  intros [(Hs & _) Hl]. destruct i as [|i]; simpl.
  - intros [= <-]. lia.
  - intros Hi. rewrite (IH _ _ Hl Hi), Hs. lia.
Qed.

Lemma foldl_latest l e :
  links (Some e) l →
  Some (foldl (λ head row,
      if (AuditEvent.sequence head <? AuditEvent.sequence row)%Z then row else head) e l) =
  last_or (Some e) l.
Proof.
  revert e. induction l as [|f l IH]; intros e; simpl; [done|].
  intros [(Hs & _) Hl]. assert ((AuditEvent.sequence e <? AuditEvent.sequence f)%Z = true) as -> by lia.
  rewrite IH by done. by rewrite last_or_cons.
Qed.

Lemma links_latest l : links None l → latest_event l = last_or None l.
Proof.
  destruct l as [|e l]; simpl; [done|]. intros [_ Hl]. rewrite (foldl_latest _ _ Hl).
  by rewrite last_or_cons.
Qed.

(** The writer's next event follows the last one. *)
Lemma next_event_ok input latest e :
  assertApprovedAuditPayload (NewAuditEvent.payload input) 0 = Ok tt →
  next_event input latest = Ok e →
  event_ok latest e ∧ AuditEvent.organizationId e = NewAuditEvent.organizationId input ∧
  AuditEvent.documentId e = NewAuditEvent.documentId input.
Proof.
  destruct input as [id o d ty aty aid t m rid]. simpl. intros Hp.
  rewrite bind_Result_ok. intros (h & Hh & [= <-]). split; [|done].
  split_and!; simpl; [by destruct latest..|by exists m|exact Hh].
Qed.

(** What every store keeps of every document's events. *)
Definition document_events (s : St) (o d : string) : list AuditEvent.t :=
  List.filter (event_of o d) s.(auditEvents).
Definition chains_linked (s : St) : Prop := ∀ o d, links None (document_events s o d).

Lemma Step_chains P s s' : Step P s s' → chains_linked s → chains_linked s'.
Proof.
  intros Hs Hc. destruct Hs as [s s' Ht|]; [|done]. destruct Ht; try done.
  - unfold chains_linked, document_events.
    by assert (auditEvents s = auditEvents s') as <- by (by apply durable_same).
  - match goal with Hn : next_in_chain _ _ |- _ => destruct Hn as (input & Ha & Hnext) end.
    pose proof (Hc (NewAuditEvent.organizationId input) (NewAuditEvent.documentId input)) as Hl.
    unfold document_events in Hl. rewrite (links_latest _ Hl) in Hnext. destruct (next_event_ok _ _ _ Ha Hnext) as (He & Ho & Hd).
    intros o d. unfold document_events. simpl.
    destruct (event_of o d x) eqn:Hx.
    + unfold event_of in Hx. same_key. rewrite List.filter_app. simpl.
      unfold event_of at 2. rewrite !String.eqb_refl. simpl. rewrite Ho, Hd in *.
      by apply links_snoc.
    + rewrite filter_push_false by done. apply Hc.
Qed.

(** ** The verifier *)

Context `{!AuthorizationPolicy} `{!ImmutableCheckpointStore}.

Lemma event_failures_nil o d p e :
  event_failures o d p e = [] ↔
  (AuditEvent.chainVersion e = AUDIT_CHAIN_SCHEMA_VERSION ∧
   AuditEvent.previousEventHash e =
     match p with None => AUDIT_GENESIS_PREVIOUS_EVENT_HASH | Some p => AuditEvent.eventHash p end ∧
   (∃ m, as_record (AuditEvent.payload e) = Some m ∧ assertApprovedAuditPayload m 0 = Ok tt) ∧
   computeAuditEventHash (hash_input e (AuditEvent.payload e)) = Ok (AuditEvent.eventHash e)).
Proof.
  unfold event_failures. cbv zeta. rewrite !app_nil.
  destruct (as_record (AuditEvent.payload e)) as [m|] eqn:Hm; [|naive_solver].
  split.
  - intros (Hv & Hp & Ha & Hh).
    destruct (AuditEvent.chainVersion e =? _)%Z eqn:Hv'; [|done]. apply Z.eqb_eq in Hv'.
    split; [done|]. split.
    + destruct p as [p|]; simpl in Hp; repeat case_bool_decide; simplify_eq; simpl in Hp;
        destruct (String.eqb _ _) eqn:He in Hp; try done; by apply String.eqb_eq in He.
    + destruct (assertApprovedAuditPayload m 0) as [[]|] eqn:Hap; [|done]. split; [by exists m|].
      destruct (computeAuditEventHash _) as [h|] in *; [|done].
      destruct (String.eqb h _) eqn:He in Hh; [|done]. apply String.eqb_eq in He. by subst.
  - intros (Hv & Hp & (m' & [= <-] & Ha) & Hh). rewrite Hv, Hp, Ha, Hh, !String.eqb_refl. simpl.
    split_and!; try done. destruct p; case_bool_decide; done.
Qed.

Lemma first_misplaced_None i l :
  first_misplaced i l = None ↔
  ∀ j e, l !! j = Some e → AuditEvent.sequence e = (i + Z.of_nat j)%Z.
Proof.
  revert i. induction l as [|f l IH]; intros i; simpl; [done|].
  destruct (AuditEvent.sequence f =? i)%Z eqn:Hf; simpl.
  - apply Z.eqb_eq in Hf. rewrite IH. split.
    + intros Hl [|j] e; simpl; [intros [= <-]; lia|]. intros Hj. rewrite (Hl j e Hj). lia.
    + intros Hl j e Hj. rewrite (Hl (S j) e Hj). lia.
  - split; [done|]. intros Hl. apply Z.eqb_neq in Hf. specialize (Hl 0%nat f eq_refl). lia.
Qed.

Lemma sequence_failures_nil o d l : sequence_failures o d l = [] ↔ first_misplaced 0 l = None.
Proof. unfold sequence_failures. destruct (first_misplaced 0 l); [|done]. by destruct (any_descent _). Qed.

(** Sorting events that already count up changes nothing. *)
Lemma sort_counting i l :
  (∀ j e, l !! j = Some e → AuditEvent.sequence e = (i + Z.of_nat j)%Z) → sort_by by_sequence l = l.
Proof.
  revert i. induction l as [|f l IH]; intros i Hl; [done|]. simpl.
  rewrite (IH (i + 1)%Z). 2: { intros j e Hj. rewrite (Hl (S j) e Hj). lia. }
  destruct l as [|g l]; [done|]. simpl. unfold by_sequence.
  rewrite (Hl 0%nat f eq_refl), (Hl 1%nat g eq_refl).
  assert ((i + Z.of_nat 0 <=? i + Z.of_nat 1)%Z = true) as -> by (apply Z.leb_le; lia). done.
Qed.

(** The failures the event checks find along a list. *)
Fixpoint chain_failures (o d : string) (p : option AuditEvent.t) (l : list AuditEvent.t) :
    list Failure.t :=
  match l with
  | [] => []
  | e :: l => (event_failures o d p e ++ chain_failures o d (Some e) l)%list
  end.

(** A chain is linked exactly when neither check finds a failure. *)
Lemma links_failures o d l :
  links None l ↔ sequence_failures o d l = [] ∧ chain_failures o d None l = [].
Proof.
  rewrite sequence_failures_nil, first_misplaced_None.
  assert (∀ p i, match p with None => 0%Z | Some p => (AuditEvent.sequence p + 1)%Z end = i →
    (links p l ↔ (∀ j e, l !! j = Some e → AuditEvent.sequence e = (i + Z.of_nat j)%Z) ∧
                 chain_failures o d p l = [])) as Hgen; [|by apply Hgen].
  induction l as [|f l IH]; intros p i Hi; simpl; [done|].
  rewrite app_nil, event_failures_nil, (IH (Some f) (AuditEvent.sequence f + 1)%Z) by done.
  unfold event_ok. rewrite Hi. split.
  - intros [(Hs & ?) [Hl ?]]. split; [|done]. intros [|j] e; simpl; [intros [= <-]; lia|].
    intros Hj. rewrite (Hl j e Hj). lia.
  - intros (Hl & He & Hc). pose proof (Hl 0%nat f eq_refl) as Hf. split; [split; [lia|done]|].
    split; [|done]. intros j e Hj. rewrite (Hl (S j) e Hj). lia.
Qed.

(** What else the verifier may report. *)
Definition external_code (c : FailureCode.t) : bool :=
  match c with
  | FailureCode.ARTIFACT_MISSING | FailureCode.ARTIFACT_DIGEST_MISMATCH
  | FailureCode.CHECKPOINT_MISMATCH => true
  | _ => false
  end.
Definition external (f : Failure.t) : Prop := external_code (Failure.code f) = true.

Lemma artifact_failures_external o d e s fs s' :
  verifyFinalizedArtifact o d e s = (Ok fs, s') → Forall external fs.
Proof.
  unfold verifyFinalizedArtifact. cbv zeta. intros Hrun.
  apply bind_ok in Hrun as (a & s1 & _ & Hrun). destruct a as [a|].
  2: { apply ret_ok in Hrun as [<- _]. by apply Forall_singleton. }
  apply bind_ok in Hrun as (stored & s2 & _ & Hrun).
  apply bind_ok in Hrun as (body & s3 & _ & Hrun).
  match type of Hrun with context [mret (?mm ++ _)%list] => assert (Forall external mm) as Hm end.
  { destruct (match as_record _ with Some _ => _ | None => _ end) as [dg|]; [|constructor].
    destruct (negb _); [by apply Forall_singleton|constructor]. }
  destruct body as [body|]; apply ret_ok in Hrun as [<- _]; apply Forall_app; split; try done.
  - destruct (negb _); [by apply Forall_singleton|constructor].
  - by apply Forall_singleton.
Qed.

Lemma verify_events_parts o d p l s fs s' :
  verify_events o d p l s = (Ok fs, s') →
  (∀ f, f ∈ chain_failures o d p l → f ∈ fs) ∧
  (∀ f, f ∈ fs → f ∈ chain_failures o d p l ∨ external f).
Proof.
  revert p s fs s'. induction l as [|e l IH]; intros p s fs s' Hrun; simpl in *.
  { apply ret_ok in Hrun as [<- _]. split; [done|by left]. }
  apply bind_ok in Hrun as (af & s1 & Ha & Hrun). apply bind_ok in Hrun as (rest & s2 & Hr & Hrun).
  apply ret_ok in Hrun as [<- _]. destruct (IH _ _ _ _ Hr) as [Hin Hout].
  assert (Forall external af) as Haf.
  { case_bool_decide; [by eapply artifact_failures_external|].
    apply ret_ok in Ha as [<- _]. constructor. }
  rewrite Forall_forall in Haf. split; intros f; rewrite !elem_of_app; naive_solver.
Qed.

Lemma checkpoint_failures_external o d l s fs ws s' :
  checkpoint_findings o d l s = (Ok (fs, ws), s') → Forall external fs.
Proof.
  unfold checkpoint_findings. destruct (negb enabled); [by intros [[= <- _] _]%ret_ok|].
  intros Hrun. apply try_ok in Hrun as [Hrun|(e & s1 & _ & Hrun)];
    [|by apply ret_ok in Hrun as [[= <- _] _]].
  apply bind_ok in Hrun as (c & s1 & _ & Hrun). apply ret_ok in Hrun as [[= <- _] _].
  destruct c as [c|]; [|constructor]. cbv zeta.
  case_bool_decide; [constructor|by apply Forall_singleton].
Qed.

Lemma dedupe_elem seen l f : f ∈ dedupe seen l → f ∈ l.
Proof.
  revert seen. induction l as [|g l IH]; intros seen; simpl; [done|].
  case_bool_decide; [intros Hf%IH; by right|]. intros [->|Hf%IH]%elem_of_cons; [left|by right].
Qed.

Lemma dedupe_nil l : dedupe [] l = [] ↔ l = [].
Proof. by destruct l. Qed.

(** A report on a document with events. *)
Lemma verifyAuditChain_report o d s report s' :
  verifyAuditChain (VerifyAuditChainInput.mk o d None) s = (Ok report, s') →
  document_events s o d ≠ [] →
  (∀ f, f ∈ Report.failures report →
     f ∈ sequence_failures o d (document_events s o d) ∨
     f ∈ chain_failures o d None (sort_by by_sequence (document_events s o d)) ∨ external f) ∧
  (Report.failures report = [] →
     sequence_failures o d (document_events s o d) = [] ∧
     chain_failures o d None (sort_by by_sequence (document_events s o d)) = []) ∧
  (Report.ok report = true ↔ Report.failures report = []).
Proof.
  intros Hrun Hne. unfold verifyAuditChain in Hrun.
  apply bind_ok in Hrun as (u & s1 & Hu & Hrun). apply lift_ok in Hu as [_ ->].
  apply bind_ok in Hrun as (x & s1 & Hx & Hrun). apply gets_ok in Hx as [_ ->].
  destruct x as [x|]; [|done].
  apply bind_ok in Hrun as (events & s1 & He & Hrun). apply gets_ok in He as [He ->].
  change (document_events s o d = events) in He. rewrite He in *.
  apply bind_ok in Hrun as (at_ & s1 & _ & Hrun).
  destruct events as [|e0 events']; [done|]. cbv zeta in Hrun. set (events := e0 :: events') in *.
  apply bind_ok in Hrun as (fs & s2 & Hfs & Hrun). apply verify_events_parts in Hfs as [Hin Hout].
  apply bind_ok in Hrun as ([cf ws] & s3 & Hcf & Hrun). apply checkpoint_failures_external in Hcf.
  apply bind_ok in Hrun as (more & s4 & _ & Hrun). apply bind_ok in Hrun as (u' & s5 & _ & Hrun).
  apply ret_ok in Hrun as [<- _]. simpl. rewrite Forall_forall in Hcf. split_and!.
  - intros f Hf. apply dedupe_elem in Hf. rewrite !elem_of_app in Hf. naive_solver.
  - intros Hnil. unfold dedupeFailures in Hnil. rewrite dedupe_nil in Hnil.
    apply app_nil in Hnil as [Hs [-> _]%app_nil]. split; [done|].
    destruct (chain_failures o d None _) as [|f l] eqn:Hc; [done|].
    exfalso. apply (not_elem_of_nil f), Hin. left.
  - rewrite bool_decide_eq_true. by destruct (dedupeFailures _).
Qed.

Lemma verifyAuditChain_empty o d s report s' :
  verifyAuditChain (VerifyAuditChainInput.mk o d None) s = (Ok report, s') →
  document_events s o d = [] → Report.ok report = false.
Proof.
  intros Hrun Hne. unfold verifyAuditChain in Hrun.
  apply bind_ok in Hrun as (u & s1 & Hu & Hrun). apply lift_ok in Hu as [_ ->].
  apply bind_ok in Hrun as (x & s1 & Hx & Hrun). apply gets_ok in Hx as [_ ->].
  destruct x as [x|]; [|done].
  apply bind_ok in Hrun as (events & s1 & He & Hrun). apply gets_ok in He as [He ->].
  change (document_events s o d = events) in He. rewrite Hne in He. subst events.
  apply bind_ok in Hrun as (at_ & s1 & _ & Hrun). cbv zeta in Hrun.
  apply bind_ok in Hrun as (u' & s2 & _ & Hrun). by apply ret_ok in Hrun as [<- _].
Qed.

(** C10: the verifier decides the chain: a document it reports as ok has events
    and they form a linked chain; and on a linked chain it never reports a
    sequence, hash or payload failure, only a missing or different artifact or a
    checkpoint that disagrees. *)
Theorem verifier_decides_chains o d s report s' :
  verifyAuditChain (VerifyAuditChainInput.mk o d None) s = (Ok report, s') →
  (Report.ok report = true →
     document_events s o d ≠ [] ∧ links None (document_events s o d)) ∧
  (document_events s o d ≠ [] → links None (document_events s o d) →
     ∀ f, f ∈ Report.failures report → external_code (Failure.code f) = true).
Proof.
  intros Hrun. assert (∀ l, sequence_failures o d l = [] → sort_by by_sequence l = l) as Hsort.
  { intros l Hl. apply sequence_failures_nil in Hl. apply (sort_counting 0).
    by apply first_misplaced_None. }
  split.
  - intros Hok. assert (document_events s o d ≠ []) as Hne.
    { intros He. rewrite (verifyAuditChain_empty _ _ _ _ _ Hrun He) in Hok. done. }
    split; [done|]. destruct (verifyAuditChain_report _ _ _ _ _ Hrun Hne) as (_ & Hnil & Hiff).
    destruct (Hnil (proj1 Hiff Hok)) as [Hs Hc]. rewrite (Hsort _ Hs) in Hc.
    by apply (links_failures o d).
  - intros Hne Hl f Hf. apply (links_failures o d) in Hl as [Hs Hc].
    destruct (verifyAuditChain_report _ _ _ _ _ Hrun Hne) as (Hin & _ & _).
    destruct (Hin f Hf) as [Hf'|[Hf'|Hf']]; [| |done].
    + rewrite Hs in Hf'. by apply elem_of_nil in Hf'.
    + rewrite (Hsort _ Hs), Hc in Hf'. by apply elem_of_nil in Hf'.
Qed.
End links.

(** ** Tamper evidence *)

Section tampering.
Context `{Env}.
Context (number_format : ∀ f, isFinite (NFlt f) = true → number_text (units (number_to_string f))).

(** What is hashed of a stored event. *)
Definition event_text (e : AuditEvent.t) : Result Exn string :=
  auditEventText (hash_input e (AuditEvent.payload e)).

(** Two events that say the same. *)
Definition same_event (e1 e2 : AuditEvent.t) : Prop :=
  AuditEvent.type e1 = AuditEvent.type e2 ∧ AuditEvent.actorType e1 = AuditEvent.actorType e2 ∧
  AuditEvent.actorId e1 = AuditEvent.actorId e2 ∧ AuditEvent.sequence e1 = AuditEvent.sequence e2 ∧
  AuditEvent.previousEventHash e1 = AuditEvent.previousEventHash e2 ∧
  AuditEvent.eventHash e1 = AuditEvent.eventHash e2 ∧
  toISOString <$> AuditEvent.occurredAt e1 = toISOString <$> AuditEvent.occurredAt e2 ∧
  ∃ p1 p2, (canonicalizeJsonValue (AuditEvent.payload e1) ≫= canonicalizeJsonValue ∘ embed) = Ok p1 ∧
    (canonicalizeJsonValue (AuditEvent.payload e2) ≫= canonicalizeJsonValue ∘ embed) = Ok p2 ∧
    same_json p1 p2.

Lemma type_to_string_inj a b : AuditEventType.to_string a = AuditEventType.to_string b → a = b.
Proof. destruct a, b; (reflexivity || discriminate). Qed.
Lemma actor_to_string_inj a b : AuditActorType.to_string a = AuditActorType.to_string b → a = b.
Proof. destruct a, b; (reflexivity || discriminate). Qed.

Lemma same_str_inv a b : same_json (CStr a) (CStr b) → a = b.
Proof. by inversion 1. Qed.
Lemma same_int_inv a b : same_json (CNum (NInt a)) (CNum (NInt b)) → a = b.
Proof. inversion 1 as [| |n n' Hn| | |]. apply units_inj in Hn. by apply (inj pretty.pretty) in Hn. Qed.
Lemma same_obj_inv m m' : same_json (CObj m) (CObj m') → Forall2 same_json m.*2 m'.*2.
Proof. by inversion 1. Qed.

Lemma event_ok_text p e : event_ok p e → ∃ t, event_text e = Ok t ∧ sha256Hex t = AuditEvent.eventHash e.
Proof.
  intros (_ & _ & _ & _ & Hh). unfold computeAuditEventHash in Hh. unfold event_text.
  destruct (auditEventText _) as [t|]; [|done]. injection Hh as Hh. by exists t.
Qed.

Lemma same_text e1 e2 t :
  event_text e1 = Ok t → event_text e2 = Ok t → AuditEvent.eventHash e1 = AuditEvent.eventHash e2 →
  same_event e1 e2.
Proof.
  unfold event_text. rewrite !auditEventText_document. intros (c1 & H1 & ->) (c2 & H2 & Ht) Hh.
  assert (same_json c1 c2) as Hs.
  { apply (json_stringify_same number_format); [| |done].
    - unfold hashed_document in H1. apply bind_Result_ok in H1 as (v & _ & H1). by eapply canonicalize_finite.
    - unfold hashed_document in H2. apply bind_Result_ok in H2 as (v & _ & H2). by eapply canonicalize_finite. }
  apply hashed_document_shape in H1 as (t1 & p1 & q1 & Ho1 & Hp1 & Hq1 & ->).
  apply hashed_document_shape in H2 as (t2 & p2 & q2 & Ho2 & Hp2 & Hq2 & ->).
  clear Ht. apply same_obj_inv in Hs.
  rewrite !fmap_cons, !fmap_nil in Hs. cbn [snd] in Hs. rewrite !Forall2_cons in Hs. destruct Hs as (Ha & Hat & Ho & Hp & Hpr & _ & Hseq & Hty & _).
  apply same_str_inv in Ha, Hat, Ho, Hpr, Hty. apply same_int_inv in Hseq.
  apply actor_to_string_inj in Hat. apply type_to_string_inj in Hty.
  split_and!; [done..| |].
  - change (AuditEvent.occurredAt e1 = Some t1) in Ho1. change (AuditEvent.occurredAt e2 = Some t2) in Ho2.
    rewrite Ho1, Ho2. exact (f_equal Some Ho).
  - exists q1, q2. change (canonicalizeJsonValue (AuditEvent.payload e1) = Ok p1) in Hp1.
    change (canonicalizeJsonValue (AuditEvent.payload e2) = Ok p2) in Hp2. by rewrite Hp1, Hp2.
Qed.

Lemma links_app_inv p l e : links p (l ++ [e]) → links p l ∧ event_ok (last_or p l) e.
Proof.
  revert p. induction l as [|f l IH]; intros p; simpl; [by intros [? _]|].
  intros [Hf Hl]. destruct (IH _ Hl) as [Hl' He]. by rewrite last_or_cons.
Qed.

Lemma links_next_sequence l e :
  links None (l ++ [e]) → AuditEvent.sequence e = Z.of_nat (length l).
Proof.
  intros Hl. rewrite (links_sequence None (l ++ [e]) (length l) e Hl); [lia|].
  by rewrite lookup_app_r, Nat.sub_diag by lia.
Qed.

(** Two different texts, one in each list, with one hash. *)
Definition collision (l1 l2 : list AuditEvent.t) : Prop :=
  ∃ e1 e2 t1 t2, e1 ∈ l1 ∧ e2 ∈ l2 ∧ event_text e1 = Ok t1 ∧ event_text e2 = Ok t2 ∧
    t1 ≠ t2 ∧ sha256Hex t1 = sha256Hex t2.

(** C11: the audit log is tamper-evident: two complete chains whose last events
    carry the same hash record the same events one by one, from the first to the
    last, or exhibit two different hashed texts with the same SHA-256, one in
    each chain. *)
Theorem matching_heads_match_chains l1 l2 h :
  links None l1 → links None l2 →
  AuditEvent.eventHash <$> last l1 = Some h → AuditEvent.eventHash <$> last l2 = Some h →
  Forall2 same_event l1 l2 ∨ collision l1 l2.
Proof.
  revert l2 h. induction l1 as [|e1 l1 IH] using rev_ind; [done|]. intros l2 h.
  induction l2 as [|e2 l2 _] using rev_ind; [done|].
  intros Hl1 Hl2. rewrite !last_snoc. intros [= H1] [= H2].
  pose proof (links_next_sequence _ _ Hl1) as Hs1. pose proof (links_next_sequence _ _ Hl2) as Hs2.
  apply links_app_inv in Hl1 as [Hl1 He1], Hl2 as [Hl2 He2].
  destruct (event_ok_text _ _ He1) as (t1 & Ht1 & Hh1), (event_ok_text _ _ He2) as (t2 & Ht2 & Hh2).
  destruct (decide (t1 = t2)) as [->|Hne].
  2: { right. exists e1, e2, t1, t2. rewrite !elem_of_app, !list_elem_of_singleton.
       split_and!; [by right..|done|done|done|congruence]. }
  assert (same_event e1 e2) as Hsame by (eapply same_text; [done|done|congruence]).
  pose proof Hsame as (_ & _ & _ & Hseq & Hprev & _).
  assert (length l1 = length l2) as Hlen by lia.
  destruct He1 as (_ & _ & Hp1 & _), He2 as (_ & _ & Hp2 & _). unfold last_or in Hp1, Hp2.
  destruct (last l1) as [f1|] eqn:Hf1.
  - destruct (last l2) as [f2|] eqn:Hf2.
    2: { apply last_None in Hf2 as ->. by destruct l1. }
    destruct (IH l2 (AuditEvent.eventHash f1)) as [Hall|(a & b & ta & tb & Ha & Hb & Hc)];
      [done|done|done|rewrite Hf2; simpl; congruence|left|right].
    + apply Forall2_app; [done|by constructor].
    + exists a, b, ta, tb. rewrite !elem_of_app. split_and!; [by left|by left|apply Hc..].
  - apply last_None in Hf1 as ->. destruct l2; [|done]. left. by constructor.
Qed.
End tampering.
