(* ===== verification/Scenario.v ===== *)
(** A concrete run of the whole system: one envelope from draft to the finalized
    document, two signers in parallel, in the sample environment with the
    membership policy, the in-memory unit of work, notifier and checkpoint
    store. *)

From Stdlib Require Import String SpecFloat.
From S2P Require Export System.
Local Open Scope string_scope.

#[export] Existing Instance Sample.env.
#[export] Existing Instance membership_policy.
#[export] Existing Instance memory_unit_of_work.
#[export] Existing Instance createMemoryNotifier.
#[export] Existing Instance createMemoryCheckpointStore.
#[export] Existing Instance memory_checkpoint_laws.

Definition org : string := Sample.uuid 1.
Definition other_org : string := Sample.uuid 2.
Definition owner : AccountUserActor.t :=
  AccountUserActor.mk "user-1" "membership-1" org MembershipRole.owner.

(** The identifiers and tokens the environment hands out. *)
Definition id (n : nat) : string := @fresh_id Sample.env n.
Definition token (n : nat) : string := @raw_token Sample.env n.

Definition pdf : list Z := code <$> units "%PDF-1.4 /Type /Page %%EOF".

(** A field across the page, of half its height. *)
Definition box (signerId type : string) (y : jsnum) : FieldRow.t :=
  FieldRow.mk signerId type (NInt 1) (NInt 0) y (NInt 1) (NFlt half) (Some true).

Definition poll_input : PollInput :=
  {| p_shouldStop := false; p_backoff := BackoffPolicy.mk 1000 60000;
     p_random := λ _, S754_zero false; p_workerId := "worker-1"; p_cleanupLimit := 10;
     p_orphanTtlMs := 86400000; p_auditIntervalMs := 3600000; p_organizations := [org] |}.

Definition document : string := id 1.
Definition anna : string := id 9.
Definition ben : string := id 10.

(** Draft, upload, inspection. *)
Definition draft_calls : list UseCase :=
  [CreateDraftDocument (CreateDraftDocumentInput.mk owner "Lease" "lease.pdf" "create-key" "r1");
   CompleteSourceUpload (CompleteSourceUploadInput.mk org document (token 0)
     (Some "application/pdf") pdf "r2");
   WorkerPoll poll_input None].

(** Two signers in parallel, a date and a name to fill in for each. *)
Definition prepare_calls : list UseCase :=
  [ReplaceDocumentSigners (ReplaceSignersInput.mk owner document "parallel"
     [SignerRow.mk None "anna@example.org" "Anna" (NInt 1);
      SignerRow.mk None "ben@example.org" "Ben" (NInt 1)] "r3");
   ReplaceDocumentFields (ReplaceFieldsInput.mk owner document FieldOverlapPolicy.prohibit
     [box anna "date_signed" (NInt 0); box ben "signer_name" (NFlt half)] "r4")].

Definition send_calls : list UseCase :=
  [SendDocument (SendDocumentInput.mk owner document None "send-key-1" "r5")].

(** A signer exchanges the token of the invitation, views, consents and signs. *)
Definition sign_calls (invitation session : string) (field key : string) : list UseCase :=
  [ResolveSigningSession invitation;
   ExchangeSigningToken invitation "r6" None;
   RecordSignerViewed session "r7" None;
   RecordSignerConsent (RecordSignerConsentInput.mk session "consent-v1" true "r8"
     (ClientRequestMetadata.mk None None) None);
   CompleteSigning (CompleteSigningInput.mk session "consent-v1" true [field] None None key "r9"
     None)].

Definition anna_signs : list UseCase := sign_calls (token 1) (token 3) (id 12) "complete-anna".
Definition ben_signs : list UseCase := sign_calls (token 2) (token 5) (id 13) "complete-ben-1".


(** Anna signs, her fields are flattened, Ben signs, his are flattened and the
    document is finalized, its audit chain is verified, the owner downloads it. *)
Definition finish_calls : list UseCase :=
  [WorkerPoll poll_input (Some 0)] ++ ben_signs ++
  [WorkerPoll poll_input (Some 0); WorkerPoll poll_input None;
   DownloadFinalizedArtifact owner document "r10"].

(** ** The stores on the way *)

Definition drafted : St := Eval vm_compute in run_calls draft_calls empty_store.
Definition prepared_store : St := Eval vm_compute in run_calls prepare_calls drafted.
Definition sent_out : St := Eval vm_compute in run_calls send_calls prepared_store.
Definition half_signed : St := Eval vm_compute in run_calls anna_signs sent_out.
(** Ben has consented and is about to answer. *)
Definition ben_ready : St := Eval vm_compute in run_calls (take 4 ben_signs) half_signed.
(** Both have signed before the worker has flattened anything. *)
Definition both_signed : St := Eval vm_compute in run_calls ben_signs half_signed.
Definition finished : St := Eval vm_compute in run_calls finish_calls half_signed.

Lemma drafted_run : run_calls draft_calls empty_store = drafted.
Proof. vm_compute. reflexivity. Qed.
Lemma prepared_run : run_calls prepare_calls drafted = prepared_store.
Proof. vm_compute. reflexivity. Qed.
Lemma sent_out_run : run_calls send_calls prepared_store = sent_out.
Proof. vm_compute. reflexivity. Qed.
Lemma half_signed_run : run_calls anna_signs sent_out = half_signed.
Proof. vm_compute. reflexivity. Qed.
Lemma finished_run : run_calls finish_calls half_signed = finished.
Proof. vm_compute. reflexivity. Qed.

Lemma drafted_reachable : reachable drafted.
Proof. rewrite <-drafted_run. apply run_calls_reaches. Qed.
Lemma drafted_sent_out : reaches drafted sent_out.
Proof.
  rewrite <-sent_out_run, <-prepared_run. unfold reaches.
  etrans; [apply run_calls_reaches|apply run_calls_reaches].
Qed.
Lemma sent_out_half_signed : reaches sent_out half_signed.
Proof. rewrite <-half_signed_run. apply run_calls_reaches. Qed.
Lemma half_signed_finished : reaches half_signed finished.
Proof. rewrite <-finished_run. apply run_calls_reaches. Qed.

Lemma sent_out_reachable : reachable sent_out.
Proof. unfold reachable, reaches. etrans; [apply drafted_reachable|apply drafted_sent_out]. Qed.
Lemma half_signed_reachable : reachable half_signed.
Proof. unfold reachable, reaches. etrans; [apply sent_out_reachable|apply sent_out_half_signed]. Qed.
Lemma finished_reachable : reachable finished.
Proof. unfold reachable, reaches. etrans; [apply half_signed_reachable|apply half_signed_finished]. Qed.

Lemma both_signed_run : run_calls ben_signs half_signed = both_signed.
Proof. vm_compute. reflexivity. Qed.
Lemma both_signed_reachable : reachable both_signed.
Proof.
  unfold reachable, reaches. etrans; [apply half_signed_reachable|].
  rewrite <-both_signed_run. apply run_calls_reaches.
Qed.

Example run_finishes :
  (Document.state <$> documents finished, List.length (auditEvents finished),
   Signer.status <$> signers finished) =
  ([DocumentState.finalized], 21%nat, [SignerStatus.signed; SignerStatus.signed]).
Proof. reflexivity. Qed.

Lemma sent_out_finished : reaches sent_out finished.
Proof. unfold reaches. etrans; [apply sent_out_half_signed|apply half_signed_finished]. Qed.

(** The document, a session and a signer of the run. *)
Definition document_in (s : St) : Document.t :=
  default (new_draft document org "" "" "" 0) (document_at s org document).
Definition anna_in (s : St) : Signer.t :=
  default (Signer.mk anna org document None (NInt 1) SignerStatus.pending None "" 1 None None 0 0)
    (s.(signers) !! 0%nat).
Definition session_in (s : St) : SigningSession.t :=
  default (new_session (id 16) org document anna "" 0 0 "") (s.(signingSessions) !! 0%nat).
Definition void_call : UseCase :=
  VoidDocument (VoidDocumentInput.mk owner document "void-key-1" "r11").
