(* ===== verification/SignerOutcomes.v ===== *)
(** What the signer's calls have done when they return: who may call, what
    declining and completing leave behind, and that a failed call leaves nothing
    when the unit of work is a transaction. *)

From Stdlib Require Import String.
From S2P Require Export Outcomes Invariants SigningRefinement.
Local Open Scope string_scope.

(** The session a raw token finds. *)
Definition session_of_token `{Env} (rawToken : string) (s : St) : option SigningSession.t :=
  find_row (λ row, String.eqb (SigningSession.tokenHash row) (token_hash rawToken))
    s.(signingSessions).

(** Who is let in: the session the token finds is not closed (a completed one
    only where asked for), was exchanged exactly if the call is for exchanged
    sessions, and belongs to the signer and document it was loaded with. *)
Definition admitted `{Env} (input : LoadSignerSessionInput.t) (L : LoadedSignerSession.t)
    (s : St) : Prop :=
  let session := LoadedSignerSession.session L in
  session_of_token (LoadSignerSessionInput.rawToken input) s = Some session ∧
  session_admitted input session = true ∧
  bool_decide (SigningSession.consumedAt session = None) =
    negb (LoadSignerSessionInput.requireExchanged input) ∧
  (clock s.(clockReads) < SigningSession.expiresAt session)%Z ∧
  (requiresAccountAuth = true → account_matches (LoadedSignerSession.signer L)
     (LoadSignerSessionInput.accountUserId input) = true) ∧
  loaded_ok L s.

(** The tables a completion writes besides events. *)
Definition row_view (s : St) :=
  (s.(documents), s.(signers), s.(signingSessions), s.(signatureFields)).

#[export] Instance row_view_tables : TableView row_view.
Proof. by split. Qed.
Section signer_outcomes.
Context `{Env} `{!AuthorizationPolicy} `{!UnitOfWork}.
Abbreviation R := (TSteps (λ _, True)).

Lemma keeps_loaded L s s' : keeps signing_view s s' → loaded_ok L s → loaded_ok L s'.
Proof.
  unfold keeps, signing_view, loaded_ok, document_at. intros [= -> -> -> _]. done.
Qed.

Lemma loadSignerSession_ok input s L s' :
  loadSignerSession input s = (Ok L, s') →
  keeps durable s s' ∧ admitted input L s.
Proof.
  intros Hrun. pose proof (loadSignerSession_steps (λ _, True) input s) as [_ Hok]; [by intros ? _|].
  rewrite Hrun in Hok. destruct (Hok L eq_refl) as [_ Hl]. clear Hok. simpl in Hl.
  unfold loadSignerSession, rejectToken, SigningSessions.findByTokenHash in Hrun. cbv zeta in Hrun.
  sym_run Hrun. apply ret_ok in Hrun as [<- ->].
  apply gets_ok in Hr as [Hf ->]. apply gets_ok in Hr1 as [_ ->]. apply gets_ok in Hr2 as [_ ->].
  injection Hr0 as <- <-. split; [done|]. split_and!.
  - exact Hf.
  - by apply negb_false_iff.
  - simpl. by destruct (LoadSignerSessionInput.requireExchanged _), (bool_decide _).
  - simpl. by apply Z.leb_gt.
  - simpl. intros Ha. rewrite Ha in Heqb6. by apply negb_false_iff.
  - by eapply keeps_loaded.
Qed.

Lemma durable_keeps {V} (view : St → V) `{!TableView view} s s' : keeps durable s s' → keeps view s s'.
Proof. apply (durable_same view), view_durable. Qed.

(** ** Declining *)

(** The row of a signer on file. *)
Definition signer_at (s : St) (o g : string) : option Signer.t :=
  find_row (Signers.key o g) s.(signers).

Lemma markDeclined_found o g v t s x s' :
  Signers.markDeclined o g v t s = (Ok x, s') →
  signer_at s' o g = Some x ∧ Signer.status x = SignerStatus.declined.
Proof.
  intros Hrun. pose proof (signers_decline_found _ _ _ _ _ _ _ Hrun)
    as (y & Hy & (Hid & Ho & _) & Hst & _). split; [|done].
  apply find_row_Some in Hy as [_ Hk]. apply signers_key in Hk as [Hyo Hyi].
  apply update_one_found in Hrun as (z & _ & [[Hf _]|[_ Hx]]); [|exact Hx|apply signers_key; split; congruence].
  by destruct (_ || _) in Hf.
Qed.

Lemma revoke_open_keeps_signers o now l : respects (keeps signers) (revoke_open o now l).
Proof. induction l as [|x l IH]; simpl; respects_tac; apply IH. Qed.
#[local] Hint Resolve revoke_open_keeps_signers : esign.

Lemma decline_transaction_ok L reason rq now s u s' :
  decline_transaction L reason rq now s = (Ok u, s') → loaded_ok L s →
  let o := SigningSession.organizationId (LoadedSignerSession.session L) in
  let d := SigningSession.documentId (LoadedSignerSession.session L) in
  (∃ r, signer_at s' o (SigningSession.signerId (LoadedSignerSession.session L)) = Some r ∧
        Signer.status r = SignerStatus.declined) ∧
  envelope_closed DocumentState.declined s s' o d.
Proof.
  intros Hrun Hok o d. pose proof (loaded_signer _ _ Hok) as (_ & Hi & _ & Hid & _ & Ha).
  unfold decline_transaction in Hrun. rewrite Ha, Hi, Hid in Hrun. cbv zeta in Hrun. fold o d in Hrun.
  apply bind_ok in Hrun as (x & s1 & Hx & Hrun).
  apply bind_ok in Hrun as (z & s2 & Hz & Hrun).
  assert (keeps signingSessions s s2) as Hsame.
  { transitivity s1; [eapply run_keeps; [|exact Hx]|eapply run_keeps; [|exact Hz]]; respects_tac. }
  assert (keeps signers s1 s') as Hsign.
  { transitivity s2; [eapply run_keeps; [|exact Hz]; respects_tac|].
    eapply run_keeps; [|exact Hrun]. respects_tac. }
  apply markDeclined_found in Hx as [Hx Hst]. split.
  { exists x. split; [|done]. unfold signer_at. by rewrite <-Hsign. }
  apply bumpDocument_ok in Hz as (y & w & _ & _ & Hu & -> & Hat).
  2: { intros y w. case_match; [done|]. by intros [= <-]. }
  apply guarded_ok in Hu as [_ [= <-]].
  apply bind_ok in Hrun as (open & s3 & Hopen & Hrun). apply gets_ok in Hopen as [Hopen ->].
  apply bind_ok in Hrun as (ids & s3 & Hids & Hrun).
  assert (R s3 s') as H3' by (eapply run_steps; [|exact Hrun]; respects_tac).
  eapply envelope_closes; [exact Hat|done| |exact Hsame|exact Hopen|exact Hids|exact H3'].
  simpl. set_solver.
Qed.
Lemma load_exchanged_ok raw ac u s L s' :
  load_exchanged raw ac u s = (Ok L, s') →
  keeps durable s s' ∧ admitted (LoadSignerSessionInput.mk raw true ac u) L s ∧
  authorize_signer (LoadedSignerSession.actor L) = Ok tt ∧ loaded_ok L s'.
Proof.
  intros Hrun. apply bind_ok in Hrun as (L' & s1 & HL & Hrun).
  apply bind_ok in Hrun as ([] & s2 & Ha & Hrun). apply lift_ok in Ha as [Ha ->].
  apply ret_ok in Hrun as [<- ->]. apply loadSignerSession_ok in HL as [Hd Hadm].
  split_and!; [done..|]. eapply keeps_loaded; [|apply Hadm].
  by apply durable_keeps.
Qed.

Lemma keeps_envelope_closed st s0 s s' o d :
  keeps durable s0 s → envelope_closed st s s' o d → envelope_closed st s0 s' o d.
Proof.
  intros Hk [Hd Hc]. split; [done|]. intros x Hx. apply Hc.
  by rewrite <-(durable_keeps signingSessions _ _ Hk).
Qed.

Lemma canSignerActNow_pending m r l :
  canSignerActNow m r l = true → Signer.status r = SignerStatus.pending.
Proof. unfold canSignerActNow. by case_bool_decide. Qed.

(** C19: declining closes the envelope: a decline that returns was made with the
    exchanged, unexpired token of an open session, by a signer whose turn it was;
    it leaves the signer and the document declined and no session of the document
    open. *)
Theorem declining_closes_the_envelope input s body s' :
  declineToSign input s = (Ok body, s') →
  ∃ x d r,
    session_of_token (DeclineToSignInput.rawToken input) s = Some x ∧
    SigningSessions.is_open x = true ∧ SigningSession.consumedAt x ≠ None ∧
    (clock s.(clockReads) < SigningSession.expiresAt x)%Z ∧
    let o := SigningSession.organizationId x in
    document_at s o (SigningSession.documentId x) = Some d ∧ isAvailableForSigning d = true ∧
    signer_at s o (SigningSession.signerId x) = Some r ∧
    canSignerActNow (Document.signingMode d) r (roster s o (SigningSession.documentId x)) = true ∧
    (∃ r', signer_at s' o (SigningSession.signerId x) = Some r' ∧
           Signer.status r' = SignerStatus.declined) ∧
    envelope_closed DocumentState.declined s s' o (SigningSession.documentId x).
Proof.
  intros Hrun. apply bind_ok in Hrun as (L & s1 & HL & Hrun). cbv zeta in Hrun.
  apply load_exchanged_ok in HL as (Hd1 & (Htok & Hst & Hcons & Hexp & _ & Hok) & _ & Hok1).
  pose proof (loaded_signer _ _ Hok) as (_ & _ & _ & Hid & _ & Ha).
  pose proof Hok as (_ & Hat & Hsg & _ & _ & Hav).
  rewrite Ha, Hid in Hrun. set (x := LoadedSignerSession.session L) in *.
  apply bind_ok in Hrun as (l & s2 & Hl & Hrun). apply roster_ok in Hl as [-> ->].
  destruct (negb (canSignerActNow _ _ _)) eqn:Hturn; [done|]. apply negb_false_iff in Hturn.
  pose proof (canSignerActNow_pending _ _ _ Hturn) as Hpend.
  rewrite (bool_decide_eq_false_2 (Signer.status _ = SignerStatus.declined)) in Hrun by congruence.
  rewrite (bool_decide_eq_true_2 (Signer.status _ = SignerStatus.pending)) in Hrun by done.
  change (if negb true then ?a else ?b) with b in Hrun. cbv iota in Hrun.
  apply bind_ok in Hrun as ([] & s2 & Hu & Hrun). apply lift_ok in Hu as [_ ->].
  apply bind_ok in Hrun as (now & s2 & [= <- <-] & Hrun).
  apply bind_ok in Hrun as ([] & s3 & Hrun' & Hrun). apply run_ok in Hrun'.
  apply decline_transaction_ok in Hrun' as [Hdecl Hcl]; [|done]. fold x in Hdecl, Hcl.
  apply bind_ok in Hrun as ([] & s4 & [= <-] & Hrun). apply ret_ok in Hrun as [_ ->].
  assert (SigningSession.status x ≠ SigningSessionStatus.completed) as Hnc.
  { intros Hc. unfold session_admitted in Hst. fold x in Hst. rewrite Hc in Hst. done. }
  exists x, (LoadedSignerSession.document L), (LoadedSignerSession.signer L). cbv zeta.
  split_and!; [done| | |done|done|by destruct Hav|done| |done|].
  - unfold session_admitted in Hst. fold x in Hst. unfold SigningSessions.is_open.
    by destruct (SigningSession.status x).
  - by apply bool_decide_eq_false in Hcons.
  - unfold roster, signers_of in *. by rewrite <-(durable_keeps signers _ _ Hd1) in Hturn.
  - eapply keeps_envelope_closed; [|exact Hcl]. exact Hd1.
Qed.
(** ** Completing *)

Lemma selectFields_ok fs ids sel :
  selectFields fs ids = Ok sel →
  ∀ f, f ∈ fs → SignatureField.required f = true → f ∈ sel.
Proof.
  unfold selectFields. rewrite !bind_Result_ok. intros (_ & _ & Hrest).
  rewrite bind_Result_ok in Hrest. destruct Hrest as ([] & Heach & [= <-]) .
  intros f Hf Hreq. rewrite each_ok in Heach. specialize (Heach f).
  apply list_elem_of_In, List.filter_In. split; [by apply list_elem_of_In|].
  destruct (bool_decide _) eqn:He; [done|]. discriminate Heach.
  apply list_elem_of_In, List.filter_In. split; [by apply list_elem_of_In|done].
Qed.

(** The field a key finds has been completed. *)
Definition field_completed (o i : string) (s : St) : Prop :=
  ∃ f, find_row (SignatureFields.key o i) s.(signatureFields) = Some f ∧
       SignatureField.completedAt f ≠ None.

Lemma field_completed_write o i o' i' t k ty z g s x s' :
  SignatureFields.complete o' i' t k ty z g s = (Ok x, s') →
  field_completed o' i' s' ∧ (field_completed o i s → field_completed o i s').
Proof.
  intros Hrun. pose proof Hrun as Hw. apply update_one_ok in Hw as (n & y & Hn & [[? _]|[[= <-] ->]]); [done|].
  change (rows (T:=SignatureField.t) s) with (signatureFields s) in Hn.
  pose proof Hn as (Hl & Hk & _)%find_index_Some. unfold field_completed, find_row. simpl.
  change (rows (T:=SignatureField.t) s) with (signatureFields s).
  split.
  - rewrite (find_index_write _ _ _ _ _ Hl) by done. rewrite Hn. simpl. rewrite decide_True by done.
    by eexists.
  - intros (f & Hf & Hc). rewrite (find_index_write _ _ _ _ _ Hl) by done.
    destruct (find_index (SignatureFields.key o i) _) as [[m f']|]; [|done]. simpl in *.
    injection Hf as ->. eexists. split; [done|]. by case_decide.
Qed.

Lemma complete_field_completes o i c f s u s' :
  complete_field c f s = (Ok u, s') →
  field_completed (SignerActor.organizationId (LoadedSignerSession.actor (c_loaded c)))
    (SignatureField.id f) s' ∧ (field_completed o i s → field_completed o i s').
Proof.
  unfold complete_field. cbv zeta. intros Hrun. apply bind_ok in Hrun as (x & s1 & Hx & Hrun).
  apply ret_ok in Hrun as [_ ->]. by eapply field_completed_write.
Qed.

Lemma complete_fields_completes c l s u s' :
  for_each (complete_field c) l s = (Ok u, s') →
  let o := SignerActor.organizationId (LoadedSignerSession.actor (c_loaded c)) in
  (∀ i, field_completed o i s → field_completed o i s') ∧
  ∀ f, f ∈ l → field_completed o (SignatureField.id f) s'.
Proof.
  revert s. induction l as [|f l IH]; intros s Hrun o; simpl in Hrun.
  { apply ret_ok in Hrun as [_ ->]. split; [done|]. intros f Hf. by apply elem_of_nil in Hf. }
  apply bind_ok in Hrun as ([] & s1 & Hf & Hrun). destruct (IH s1 Hrun) as [Hkeep Hl]. split.
  - intros i Hi. apply Hkeep. by eapply complete_field_completes.
  - intros g [->|Hg]%elem_of_cons; [|by apply Hl]. apply Hkeep.
    by apply (complete_field_completes o (SignatureField.id f)) in Hf as [? _].
Qed.

Lemma markSigned_signs o g v t s x s' :
  Signers.markSigned o g v t s = (Ok x, s') →
  signer_at s' o g = Some x ∧ Signer.status x = SignerStatus.signed.
Proof.
  intros Hrun. pose proof (markSigned_found _ _ _ _ _ _ _ Hrun)
    as (n & y & Hn & (Hid & Ho & _) & Hst & Hs'). split; [|done].
  pose proof Hn as (Hl & Hk & _)%find_index_Some. pose proof Hk as [Hyo Hyi]%signers_key.
  unfold signer_at, find_row. rewrite Hs', (find_index_write _ _ _ _ _ Hl).
  - rewrite Hn. simpl. by rewrite decide_True.
  - rewrite Hk. symmetry. apply signers_key. split; congruence.
Qed.

Lemma markCompleted_completes o i t s x s' :
  SigningSessions.markCompleted o i t s = (Ok x, s') →
  ∃ y, find_row (SigningSessions.key o i) s'.(signingSessions) = Some y ∧
       SigningSession.status y = SigningSessionStatus.completed.
Proof.
  intros Hrun. pose proof Hrun as Hw.
  apply update_one_ok in Hw as (n & y & Hn & Hc). pose proof Hn as (_ & Hk & _)%find_index_Some.
  apply find_index_row in Hn. case_bool_decide as Hst.
  - destruct Hc as [[[= ->] ->]|[? _]]; [|done]. by exists x.
  - destruct Hc as [[Hf _]|[Hf _]]; apply guarded_ok in Hf as [_ [= <-]].
    apply update_one_found in Hrun as (z & Hz & [[Hf _]|[_ Hx]]); [|by eexists|done].
    change (rows (T:=SigningSession.t) s) with (signingSessions s) in Hz, Hn.
    rewrite Hz in Hn. injection Hn as ->. rewrite bool_decide_eq_false_2 in Hf by done.
    by apply guarded_ok in Hf as [_ ?].
Qed.

Lemma publish_pushes input s e s' :
  Jobs.publish input s = (Ok e, s') →
  OutboxEvent.type e = Jobs.PublishInput.type input ∧
  OutboxEvent.payload e = Jobs.PublishInput.payload input ∧
  OutboxEvent.status e = OutboxStatus.pending ∧
  s'.(outboxEvents) = (s.(outboxEvents) ++ [e])%list.
Proof.
  unfold Jobs.publish. cbv zeta. intros Hrun.
  apply bind_ok in Hrun as ([] & s1 & Hu & Hrun). apply lift_ok in Hu as [_ ->].
  apply bind_ok in Hrun as (x & s1 & Hx & Hrun). rewrite push_run in Hx. injection Hx as <- <-.
  apply bind_ok in Hrun as (j & s2 & Hj & Hrun). rewrite push_run in Hj. injection Hj as _ <-.
  apply ret_ok in Hrun as [<- ->]. by destruct input.
Qed.

(** Everyone else who is asked to sign the document has signed. *)
Definition others_signed (s : St) (o d g : string) : bool :=
  forallb (λ r, String.eqb (Signer.id r) g || bool_decide (Signer.status r = SignerStatus.signed))
    (signers_of s o d).

Lemma document_completed_others c s o d :
  c_roster c = roster s o d →
  document_completed c =
  others_signed s o d (Signer.id (LoadedSignerSession.signer (c_loaded c))).
Proof.
  intros Hl. unfold document_completed, allRequiredSigned, others_signed. rewrite Hl.
  set (g := Signer.id _). apply eq_true_iff_eq. rewrite !forallb_forall. split.
  - intros Hall r Hr. apply list_elem_of_In in Hr.
    specialize (Hall (if String.eqb (Signer.id r) g then SignerStatus.signed else Signer.status r)).
    destruct (String.eqb _ g) eqn:Hg; [done|]. apply Hall, list_elem_of_In, list_elem_of_fmap.
    exists r. rewrite Hg. split; [done|by apply roster_elem].
  - intros Hall st [r [-> Hr%roster_elem]]%list_elem_of_In%list_elem_of_fmap.
    specialize (Hall r (proj1 (list_elem_of_In _ _) Hr)). by destruct (String.eqb _ g).
Qed.
(** What a completion has done: the signer signed, the session is completed,
    every selected field is completed, the document is completed exactly if
    everyone else had signed, and a flatten job is queued. *)
Definition signed_outcome (c : Completion) (s s' : St) : Prop :=
  let o := SigningSession.organizationId (LoadedSignerSession.session (c_loaded c)) in
  let document := LoadedSignerSession.document (c_loaded c) in
  let g := Signer.id (LoadedSignerSession.signer (c_loaded c)) in
  (∃ r, signer_at s' o g = Some r ∧ Signer.status r = SignerStatus.signed) ∧
  (∃ y, find_row (SigningSessions.key o (SigningSession.id (LoadedSignerSession.session (c_loaded c))))
          s'.(signingSessions) = Some y ∧
        SigningSession.status y = SigningSessionStatus.completed) ∧
  (∀ f, f ∈ c_selected c → field_completed o (SignatureField.id f) s') ∧
  (∃ y, document_at s' o (Document.id document) = Some y ∧
     Document.state y =
       if others_signed s o (Document.id document) g then DocumentState.completed
       else if bool_decide (Document.state document = DocumentState.sent)
            then DocumentState.in_progress else Document.state document) ∧
  (∃ e, e ∈ s'.(outboxEvents) ∧ OutboxEvent.type e = FLATTEN_SIGNATURE_JOB_TYPE ∧
     OutboxEvent.status e = OutboxStatus.pending ∧
     prop "documentId" (OutboxEvent.payload e) = VStr (Document.id document) ∧
     prop "signerId" (OutboxEvent.payload e) = VStr g).

(** The document's part of the transaction. *)
Lemma answer_document_ok c o s s' :
  let document := LoadedSignerSession.document (c_loaded c) in
  (if document_completed c then
     Documents.markCompleted o (Document.id document) (Document.version document);; mret tt
   else if bool_decide (Document.state document = DocumentState.sent) then
     Documents.markInProgress o (Document.id document) (Document.version document);; mret tt
   else mret tt) s = (Ok tt, s') →
  document_at s o (Document.id document) = Some document →
  ∃ y, document_at s' o (Document.id document) = Some y ∧
    Document.state y =
      if document_completed c then DocumentState.completed
      else if bool_decide (Document.state document = DocumentState.sent)
           then DocumentState.in_progress else Document.state document.
Proof.
  intros document Hrun Hat. destruct (document_completed c); [|case_bool_decide].
  3: { apply ret_ok in Hrun as [_ ->]. by exists document. }
  all: apply bind_ok in Hrun as (y & s1 & Hy & Hrun); apply ret_ok in Hrun as [_ ->];
    apply bumpDocument_ok in Hy as (x & u & _ & _ & Hu & -> & Hy);
    [eexists; split; [exact Hy|]; by apply guarded_ok in Hu as [_ [= <-]]
    |intros x u; case_match; [done|]; by intros [= <-]].
Qed.

Lemma complete_transaction_ok rq c s result s' :
  complete_transaction rq c s = (Ok result, s') → turn (c_loaded c) (c_roster c) s →
  signed_outcome c s s'.
Proof.
  intros Hrun [Hok Hroster].
  pose proof (loaded_signer _ _ Hok) as (_ & _ & _ & Hid & _ & Ha).
  assert (document_at s (SigningSession.organizationId (LoadedSignerSession.session (c_loaded c)))
    (Document.id (LoadedSignerSession.document (c_loaded c))) =
      Some (LoadedSignerSession.document (c_loaded c))) as Hat by (rewrite Hid; apply Hok).
  unfold complete_transaction in Hrun. rewrite Ha in Hrun. cbv zeta in Hrun.
  unfold signed_outcome. cbv zeta.
  set (o := SigningSession.organizationId _) in *. set (document := LoadedSignerSession.document _) in *.
  apply bind_ok in Hrun as ([] & s1 & Hfields & Hrun).
  apply bind_ok in Hrun as (r & s2 & Hsign & Hrun).
  apply bind_ok in Hrun as (x & s3 & Hses & Hrun).
  apply bind_ok in Hrun as ([] & s4 & Hdoc & Hrun).
  assert (keeps documents s s3) as Hd.
  { transitivity s1; [|transitivity s2]; (eapply run_keeps; [|eassumption]); respects_tac. }
  assert (keeps row_view s4 s') as Htail by (eapply run_keeps; [|exact Hrun]; respects_tac).
  injection Htail as Hd4 Hs4 Hx4 Hf4.
  assert (keeps signers s2 s') as Hk2.
  { transitivity s3; [eapply run_keeps; [|exact Hses]; respects_tac|].
    transitivity s4; [eapply run_keeps; [|exact Hdoc]; respects_tac|exact Hs4]. }
  assert (keeps signingSessions s3 s') as Hk3.
  { transitivity s4; [eapply run_keeps; [|exact Hdoc]; respects_tac|exact Hx4]. }
  assert (keeps signatureFields s1 s') as Hk1.
  { transitivity s2; [eapply run_keeps; [|exact Hsign]; respects_tac|].
    transitivity s3; [eapply run_keeps; [|exact Hses]; respects_tac|].
    transitivity s4; [eapply run_keeps; [|exact Hdoc]; respects_tac|exact Hf4]. }
  apply complete_fields_completes in Hfields as [_ Hfields].
  apply markSigned_signs in Hsign. apply markCompleted_completes in Hses.
  split_and!.
  - exists r. unfold signer_at. by rewrite <-Hk2.
  - by rewrite <-Hk3.
  - intros f Hf. unfold field_completed. rewrite <-Hk1, <-Ha. by apply Hfields.
  - rewrite <-(document_completed_others c s o (Document.id document)) by done.
    destruct (answer_document_ok c o s3 s4 Hdoc) as (y & Hy & Hst).
    { unfold document_at. by rewrite <-Hd. }
    exists y. split; [|done]. unfold document_at. by rewrite <-Hd4.
  - apply bind_ok in Hrun as (i1 & s5 & _ & Hrun). apply bind_ok in Hrun as (i2 & s6 & _ & Hrun).
    apply bind_ok in Hrun as (i3 & s7 & _ & Hrun). apply bind_ok in Hrun as (i4 & s8 & _ & Hrun).
    apply bind_ok in Hrun as (e & s9 & Hpub & Hrun). apply ret_ok in Hrun as [<- ->].
    apply publish_pushes in Hpub as (Hty & Hpay & Hst & Hev). exists e.
    rewrite Hev, Hpay. split_and!; [|done..]. apply elem_of_app. right. by apply list_elem_of_singleton.
Qed.
Lemma signed_outcome_keeps c s0 s s' s1 :
  keeps signers s0 s → keeps row_view s' s1 → keeps outboxEvents s' s1 →
  signed_outcome c s s' → signed_outcome c s0 s1.
Proof.
  unfold keeps, row_view, signed_outcome, others_signed, signers_of, signer_at, document_at,
    field_completed. by intros -> [= -> -> -> ->] ->.
Qed.

(** What is committed: the session the token found, exchanged and not expired;
    its signer's turn; a consent to the text the signer names; every required
    field of the signer selected. *)
Definition completion_of (input : CompleteSigningInput.t) (c : Completion) (s : St) : Prop :=
  let L := c_loaded c in
  let session := LoadedSignerSession.session L in
  let o := SigningSession.organizationId session in
  let d := SigningSession.documentId session in
  CompleteSigningInput.intentToSign input = true ∧
  session_of_token (CompleteSigningInput.rawToken input) s = Some session ∧
  SigningSession.consumedAt session ≠ None ∧
  (clock s.(clockReads) < SigningSession.expiresAt session)%Z ∧
  loaded_ok L s ∧ c_roster c = roster s o d ∧
  canSignerActNow (Document.signingMode (LoadedSignerSession.document L))
    (LoadedSignerSession.signer L) (roster s o d) = true ∧
  find_row (ConsentRecords.of_session o (SigningSession.id session)) s.(consentRecords) =
    Some (c_consent c) ∧
  ConsentRecord.consentCopyId (c_consent c) = CompleteSigningInput.consentCopyId input ∧
  (∀ f, f ∈ fields_of s o d → SignatureField.signerId f = Signer.id (LoadedSignerSession.signer L) →
     SignatureField.required f = true → f ∈ c_selected c).

Lemma complete_prepare_ok input s r s' :
  complete_prepare input s = (Ok r, s') →
  match r with
  | inl _ => keeps durable s s'
  | inr c => completion_of input c s ∧ keeps signing_view s s' ∧
      recorded (SigningSession.organizationId (LoadedSignerSession.session (c_loaded c))) (c_record c) s'
  end.
Proof.
  unfold complete_prepare. intros Hrun. pull_lift Hrun [] Hint.
  apply throw_if_ok, negb_false_iff in Hint.
  apply bind_ok in Hrun as (L & s1 & HL & Hrun). cbv zeta in Hrun.
  apply load_exchanged_ok in HL as (Hd1 & (Htok & Hst & Hcons & Hexp & _ & Hok) & _ & Hok1).
  pose proof (loaded_signer _ _ Hok) as (_ & _ & _ & Hid & _ & Ha).
  rewrite Ha, Hid in Hrun. set (o := SigningSession.organizationId _) in *.
  set (d := SigningSession.documentId _) in *.
  apply bind_ok in Hrun as (l & s2 & Hl & Hrun). apply roster_ok in Hl as [Hl ->].
  assert (l = roster s o d) as ->.
  { rewrite Hl. unfold roster, signers_of. by rewrite (durable_keeps signers _ _ Hd1). }
  clear Hl. apply bind_ok in Hrun as (fs & s2 & Hfs & Hrun). apply gets_ok in Hfs as [Hfs ->].
  assert (fs = fields_of s o d) as ->.
  { rewrite <-Hfs. unfold fields_of. by rewrite (durable_keeps signatureFields _ _ Hd1). }
  clear Hfs. case_bool_decide; [by apply ret_ok in Hrun as [<- ->]|].
  destruct (negb (canSignerActNow _ _ _)) eqn:Hturn; [done|]. apply negb_false_iff in Hturn.
  apply bind_ok in Hrun as (found & s2 & Hf & Hrun). apply gets_ok in Hf as [Hf ->].
  destruct found as [consent|]; [|done]. destruct (negb (String.eqb _ _)) eqn:Hcopy; [done|].
  apply negb_false_iff, String.eqb_eq in Hcopy.
  pull_lift Hrun selected Hsel. do 4 pull_lift Hrun ? ?.
  apply bind_ok in Hrun as (b & s2 & Hb & Hrun).
  pose proof (durable_keeps signing_view _ _ Hd1) as Hv1.
  destruct b as [record|record].
  { pull_lift Hrun a ?. apply ret_ok in Hrun as [<- ->].
    apply (begin_replay (λ now, IdempotencyInput.mk _ _ _ _ _ _ now _)) in Hb.
    unfold keeps in *. congruence. }
  assert (recorded o record s2) as Hrec.
  { apply bind_ok in Hb as (t & s3 & _ & Hb). by eapply begin_recorded. }
  apply (begin_keeps (λ now, IdempotencyInput.mk _ _ _ _ _ _ now _)) in Hb as [Hv2 _].
  assert (keeps idempotencyRecords s2 s') as Hk by (eapply run_keeps; [|exact Hrun]; respects_tac).
  assert (keeps signing_view s2 s') as Hv3 by (eapply run_keeps; [|exact Hrun]; respects_tac).
  apply bind_ok in Hrun as (now & s3 & _ & Hrun). apply bind_ok in Hrun as (k1 & s4 & _ & Hrun).
  apply bind_ok in Hrun as (k2 & s5 & _ & Hrun).
  assert (∃ src, r = inr {| c_loaded := L; c_roster := roster s o d; c_selected := selected;
    c_consent := consent; c_signature := k1; c_initials := k2; c_source := src;
    c_record := record; c_now := now |}) as [src ->].
  { destruct (Document.currentRevisionId _); [|destruct (Document.signingRevisionId _); [|done]];
      apply ret_ok in Hrun as [<- _]; by eexists. }
  split; [|split; [unfold keeps in *; congruence|by unfold recorded in *; rewrite <-Hk]].
  unfold completion_of; simpl; split_and!; try done.
  - by apply bool_decide_eq_false in Hcons.
  - rewrite <-Hf. by rewrite (durable_keeps consentRecords _ _ Hd1).
  - intros f Hin Hg Hreq. eapply selectFields_ok; [exact Hsel| |done].
    apply list_elem_of_In, List.filter_In. split; [by apply list_elem_of_In|by apply String.eqb_eq].
Qed.
End signer_outcomes.

(** ** What a failed answer leaves behind *)

(** What an answer of a signer is recorded in. *)
Definition answer_view (s : St) :=
  (s.(documents), s.(signers), s.(signatureFields), s.(consentRecords), s.(auditEvents),
   s.(outboxEvents), s.(backgroundJobs)).

#[export] Instance answer_view_tables : TableView answer_view.
Proof. by split. Qed.

Section atomicity.
Context `{Env} `{!AuthorizationPolicy}.
#[local] Existing Instance transactional_unit_of_work.

(** A transaction that fails keeps what a view sees of the tables. *)
Lemma failed_run_keeps {A V} (view : St → V) `{!TableView view} (m : Run A) s e s' :
  run m s = (Throw e, s') → keeps view s s'.
Proof.
  simpl. unfold transactional_run, keeps. destruct (m s) as [[a|e'] s1]; [done|].
  intros [= _ <-]. symmetry. apply view_rollback.
Qed.

(** Completing a record that is on file does not fail. *)
Lemma recorded_completes o r st b s :
  recorded o r s → ∃ x s', IdempotencyRecords.complete o (IdempotencyRecord.id r) st b s = (Ok x, s').
Proof.
  intros [Hin Ho]. unfold IdempotencyRecords.complete, update_one.
  destruct (find_index _ _) as [[n x]|] eqn:Hn; [by do 2 eexists|].
  rewrite find_index_None in Hn. specialize (Hn r Hin). by rewrite Ho, !String.eqb_refl in Hn.
Qed.

Lemma throw_run_keeps {A V} (view : St → V) `{!TableView view} (m : Run A) s e s' :
  respects (keeps view) m → m s = (Throw e, s') → keeps view s s'.
Proof. intros Hm Hrun. by eapply run_keeps. Qed.

(** Where a failed sequence failed. *)
Lemma bind_throw {A B} (m : Run A) (f : A → Run B) s e s' :
  (m ≫= f) s = (Throw e, s') →
  m s = (Throw e, s') ∨ ∃ a s1, m s = (Ok a, s1) ∧ f a s1 = (Throw e, s').
Proof. unfold mbind, M_bind. destruct (m s) as [[a|x] s1]; naive_solver. Qed.

Lemma complete_prepare_keeps input : respects (keeps answer_view) (complete_prepare input).
Proof. unfold complete_prepare. respects_tac. Qed.

Lemma complete_transaction_keeps rq c : respects (keeps idempotencyRecords) (complete_transaction rq c).
Proof. unfold complete_transaction. respects_tac. Qed.

Lemma failed_completion input s e s' :
  completeSigning input s = (Throw e, s') → keeps answer_view s s'.
Proof.
  intros Hrun.
  apply bind_throw in Hrun as [Hrun|(r & s1 & Hp & Hrun)].
  { eapply throw_run_keeps; [apply _|apply complete_prepare_keeps|exact Hrun]. }
  assert (keeps answer_view s s1) as Hk by (eapply run_keeps; [apply complete_prepare_keeps|exact Hp]).
  apply complete_prepare_ok in Hp. destruct r as [answer|c]; [done|].
  destruct Hp as (Hc & _ & Hrec). unfold complete_commit in Hrun.
  apply bind_throw in Hrun as [Hrun|(result & s2 & Ht & Hrun)].
  { transitivity s1; [exact Hk|]. by apply (failed_run_keeps answer_view) in Hrun. }
  exfalso. apply run_ok in Ht.
  assert (keeps idempotencyRecords s1 s2) as Hi.
  { eapply run_keeps; [apply complete_transaction_keeps|exact Ht]. }
  assert (recorded (SignerActor.organizationId (LoadedSignerSession.actor (c_loaded c))) (c_record c) s2) as Hr.
  { destruct Hc as (_ & _ & _ & _ & Hok & _). apply loaded_signer in Hok as (_ & _ & _ & _ & _ & ->).
    destruct Hrec as [Hin Ho]. split; [by rewrite <-Hi|done]. }
  apply (recorded_completes _ _ 200 result) in Hr as (x & s3 & Hr).
  erewrite bind_run in Hrun; [|exact Hr]. done.
Qed.

Lemma load_exchanged_keeps raw ac u : respects (keeps answer_view) (load_exchanged raw ac u).
Proof. unfold load_exchanged, loadSignerSession, rejectToken. respects_tac. Qed.

Lemma failed_decline input s e s' :
  declineToSign input s = (Throw e, s') → keeps answer_view s s'.
Proof.
  intros Hrun. apply bind_throw in Hrun as [Hrun|(L & s1 & HL & Hrun)].
  { eapply throw_run_keeps; [apply _|apply load_exchanged_keeps|exact Hrun]. }
  assert (keeps answer_view s s1) as Hk by (eapply run_keeps; [apply load_exchanged_keeps|exact HL]).
  transitivity s1; [exact Hk|]. clear Hk HL. cbv zeta in Hrun.
  apply bind_throw in Hrun as [Hrun|(l & s2 & Hl & Hrun)]; [done|]. apply roster_ok in Hl as [_ ->].
  destruct (negb (canSignerActNow _ _ _)); [by injection Hrun as _ <-|].
  destruct (bool_decide (Signer.status _ = SignerStatus.declined)); [done|].
  destruct (negb (bool_decide (Signer.status _ = SignerStatus.pending))); [by injection Hrun as _ <-|].
  apply bind_throw in Hrun as [Hrun|(u & s2 & Hu & Hrun)]; [by injection Hrun as _ <-|].
  apply lift_ok in Hu as [_ ->].
  apply bind_throw in Hrun as [Hrun|(now & s2 & [= <- <-] & Hrun)]; [done|].
  apply bind_throw in Hrun as [Hrun|([] & s3 & _ & Hrun)]; [|done].
  by apply (failed_run_keeps answer_view) in Hrun.
Qed.

End atomicity.
