(* ===== verification/Previews.v ===== *)
(** What a preview promises: its token streams the revision it was granted for,
    until it expires, and nothing else opens one. *)

From Stdlib Require Import String.
From S2P Require Export SignerOutcomes Envelopes Finalized.
Local Open Scope string_scope.

(** ** Tables that only grow *)

Definition revisions_and_grants_grow (s s' : St) : Prop :=
  s.(revisions) `prefix_of` s'.(revisions) ∧ s.(previewGrants) `prefix_of` s'.(previewGrants).

#[export] Instance grow_preorder : PreOrder revisions_and_grants_grow.
Proof. split; [done|]. intros s1 s2 s3 [] []. split; by etrans. Qed.

Lemma Step_grow `{Env} P s s' : Step P s s' → revisions_and_grants_grow s s'.
Proof.
  intros [t t' Ht|]; [|done].
  destruct Ht; split; simpl; try done; try (by apply prefix_app_r).
  - assert (revisions s0 = revisions s'0) as -> by (by apply durable_same). done.
  - assert (previewGrants s0 = previewGrants s'0) as -> by (by apply durable_same). done.
Qed.

Lemma Steps_grow `{Env} P s s' : Steps P s s' → revisions_and_grants_grow s s'.
Proof. induction 1 as [|s1 s2 s3 H1 _ IH]; [done|]. etrans; [by eapply Step_grow|done]. Qed.

(** The first row found stays the first. *)
Lemma find_row_prefix {T} (p : T → bool) l l' x :
  l `prefix_of` l' → find_row p l = Some x → find_row p l' = Some x.
Proof.
  intros [k ->] Hx. unfold find_row in *. apply fmap_Some in Hx as ([i y] & Hi & ->).
  apply fmap_Some. exists (i, y). split; [|done]. apply list_find_app_Some. by left.
Qed.

(** The first row with a key no other row has. *)
Lemma find_row_snoc {T} (p : T → bool) l x :
  (∀ y, y ∈ l → p y = false) → p x = true → find_row p (l ++ [x]) = Some x.
Proof.
  intros Hl Hx. unfold find_row. apply fmap_Some. exists (length l, x). split; [|done].
  apply list_find_app_Some. right. split_and!; [lia| |].
  - apply list_find_None, Forall_forall. intros y Hy. by rewrite (Hl y Hy).
  - rewrite Nat.sub_diag. simpl. by rewrite decide_True.
Qed.

(** Where the preview is found. *)
Definition preview_url (grantId : string) : string := "/document-previews/" +:+ grantId.

#[export] Instance previews_view : TableView previewGrants.
Proof. by split. Qed.

Section previews.
Context `{Env} `{!AuthorizationPolicy} `{!UnitOfWork} `{!Notifier} `{!ImmutableCheckpointStore}
  `{!CheckpointLaws}.

(** A grant on file opens the revision it names. *)
Definition opens (s : St) (g : PreviewGrant.t) (r : DocumentRevision.t) (rawToken : string) : Prop :=
  find_row (λ row, String.eqb (PreviewGrant.tokenHash row) (token_hash rawToken))
    s.(previewGrants) = Some g ∧
  find_row (λ row, String.eqb (DocumentRevision.organizationId row) (PreviewGrant.organizationId g) &&
                   String.eqb (DocumentRevision.id row) (PreviewGrant.revisionId g))
    s.(revisions) = Some r.

Lemma opens_grow s s' g r t : revisions_and_grants_grow s s' → opens s g r t → opens s' g r t.
Proof. intros [Hr Hg] [Hf Hv]. split; by eapply find_row_prefix. Qed.

(** What a granted preview leaves behind: a grant at the end of the table. *)
Lemma grant_preview_ok o d i ct s v s' :
  grant_preview o d i ct s = (Ok v, s') →
  ∃ g, s'.(previewGrants) = (s.(previewGrants) ++ [g])%list ∧ s'.(revisions) = s.(revisions) ∧
    PreviewGrant.organizationId g = o ∧ PreviewGrant.revisionId g = i ∧
    PreviewGrant.tokenHash g = token_hash (PreviewView.token v) ∧
    PreviewGrant.expiresAt g = (clock s.(clockReads) + previewTtlMs)%Z ∧
    PreviewView.url v = preview_url (PreviewGrant.id g) ∧
    PreviewView.token v = raw_token s.(tokenReads).
Proof. intros [= <- <-]. by eexists. Qed.

(** A grant that opens a revision streams it as long as it has not expired. *)
Lemma stream_run s g r rawToken :
  reachable s → opens s g r rawToken →
  (clock s.(clockReads) < PreviewGrant.expiresAt g)%Z →
  ∃ result s', streamDocumentPreview (PreviewGrant.id g) rawToken s = (Ok result, s') ∧
    sha256Bytes (StreamDocumentPreviewResult.body result) = DocumentRevision.sha256Digest r ∧
    StreamDocumentPreviewResult.displayName result = DocumentRevision.displayName r.
Proof.
  intros Hs [Hg Hr] Hexp.
  pose proof (reachable_references s Hs) as (Hrev & _ & _).
  pose proof (find_row_Some _ _ _ Hr) as [Hin Hk]. apply andb_true_iff in Hk as [Ho _].
  apply String.eqb_eq in Ho. rewrite Forall_forall in Hrev.
  destruct (Hrev r Hin) as (Hkey & b & Hb & Hd). rewrite Ho in Hkey.
  unfold streamDocumentPreview, PreviewGrants.findByTokenHash, Revisions.findById, getObject.
  rewrite (bind_run _ _ _ _ _ (find_one_run _ _)). change (rows s) with s.(previewGrants).
  rewrite Hg, String.eqb_refl. simpl.
  eexists _, _. unfold mbind at 1, M_bind at 1, nowUtc. rewrite (proj2 (Z.leb_gt _ _) Hexp).
  rewrite (bind_run _ _ _ _ _ (find_one_run _ _)).
  change (rows (set_clockReads (S s.(clockReads)) s)) with s.(revisions). rewrite Hr.
  unfold lift, gets, mbind, M_bind. rewrite Hkey. simpl. rewrite Hb.
  split; [reflexivity|]. simpl. split; [|done].
  pose proof (reachable_storage s Hs) as [_ Hw]. rewrite Forall_forall in Hw.
  destruct (Hw (_, b) (object_at_elem _ _ _ Hb)) as (_ & Hsha & _). simpl in Hsha. congruence.
Qed.

(** Who may open a preview, and of what: an account user who may read the
    document, of its current revision; a signer with an open session, of the
    revision to sign. *)
Definition may_preview (s : St) (call : UseCase) (o i : string) : Prop :=
  match call with
  | IssueDocumentPreview user d =>
    o = AccountUserActor.organizationId user ∧
    assertAllowed (account user) AuthorizationAction.document_read (doc_resource o d) = Ok tt ∧
    ∃ x, document_at s o d = Some x ∧ Document.currentRevisionId x = Some i
  | IssueSignerPreview rawToken u =>
    ∃ L, admitted (LoadSignerSessionInput.mk rawToken true false u) L s ∧
      o = SigningSession.organizationId (LoadedSignerSession.session L) ∧
      shown_revision (LoadedSignerSession.document L) = Some i
  | _ => False
  end.

Definition issue (call : UseCase) : Run PreviewView.t :=
  match call with
  | IssueDocumentPreview user d => issueDocumentPreview user d
  | IssueSignerPreview rawToken u => issueSignerPreview rawToken u
  | _ => throw preview_token
  end.

Lemma revision_found {A} o i (f : option DocumentRevision.t → Run A) s r :
  (Revisions.findById o i ≫= f) s = r →
  f (find_row (λ row, String.eqb (DocumentRevision.organizationId row) o &&
                      String.eqb (DocumentRevision.id row) i) s.(revisions)) s = r.
Proof. done. Qed.

Lemma revision_key o i (l : list DocumentRevision.t) r :
  find_row (λ row, String.eqb (DocumentRevision.organizationId row) o &&
                   String.eqb (DocumentRevision.id row) i) l = Some r →
  DocumentRevision.id r = i.
Proof. intros [_ Hk]%find_row_Some. apply andb_true_iff in Hk as [_ Hk]. by apply String.eqb_eq. Qed.

Lemma issue_ok call s v s' :
  issue call s = (Ok v, s') →
  ∃ o i d ct r s1, may_preview s call o i ∧ keeps durable s s1 ∧
    find_row (λ row, String.eqb (DocumentRevision.organizationId row) o &&
                     String.eqb (DocumentRevision.id row) i) s.(revisions) = Some r ∧
    grant_preview o d i ct s1 = (Ok v, s').
Proof.
  destruct call; try done; intros Hrun; simpl in Hrun.
  - unfold issueDocumentPreview, read_access in Hrun. pull_lift Hrun o Ho.
    apply bind_Result_ok in Ho as (o' & Ho & Ha). apply organizationContextFromActor_user in Ho as ->.
    apply bind_Result_ok in Ha as ([] & Ha & [= <-]).
    apply bind_ok in Hrun as (x & s1 & Hx & Hrun). apply gets_ok in Hx as [Hx ->].
    destruct x as [x|]; [|done]. simpl in Hrun.
    destruct (Document.currentRevisionId x) as [i|] eqn:Hi; [|done]. simpl in Hrun.
    apply revision_found in Hrun. destruct (find_row _ (revisions s)) as [r|] eqn:Hr; [|done].
    rewrite (revision_key _ _ _ _ Hr) in Hrun.
    do 6 eexists. split_and!; [split_and!; [done|exact Ha|by exists x]|done|exact Hr|exact Hrun].
  - unfold issueSignerPreview in Hrun. apply bind_ok in Hrun as (L & s1 & HL & Hrun).
    apply load_exchanged_ok in HL as (Hk & Hadm & _ & Hok). cbv zeta in Hrun.
    apply loaded_signer in Hok as (_ & _ & _ & _ & _ & Ho). rewrite Ho in Hrun.
    destruct (shown_revision _) as [i|] eqn:Hi; [|done].
    apply revision_found in Hrun.
    destruct (find_row _ (revisions s1)) as [r|] eqn:Hr; [|done].
    rewrite (revision_key _ _ _ _ Hr) in Hrun.
    rewrite <-(durable_keeps revisions _ _ Hk) in Hr.
    do 6 eexists. split_and!;
      [exists L; split_and!; [exact Hadm|reflexivity|exact Hi]|exact Hk|exact Hr|exact Hrun].
Qed.

(** C40: previews stay open: when an account user who may read a document, or a
    signer with an open session, is granted a preview under a token hash not yet
    on file, then whatever calls follow, until the grant expires the token streams
    the revision that was current, with exactly the bytes whose digest the revision
    records. *)
Theorem previews_stay_open call s v s' s'' :
  reachable s → issue call s = (Ok v, s') → reaches s' s'' →
  (∀ g, g ∈ s.(previewGrants) → PreviewGrant.tokenHash g ≠ token_hash (PreviewView.token v)) →
  ∃ o i r g, may_preview s call o i ∧ DocumentRevision.id r = i ∧ r ∈ s.(revisions) ∧
    PreviewView.url v = preview_url (PreviewGrant.id g) ∧ g ∈ s'.(previewGrants) ∧
    ((clock s''.(clockReads) < PreviewGrant.expiresAt g)%Z →
     ∃ result s3,
       streamDocumentPreview (PreviewGrant.id g) (PreviewView.token v) s'' = (Ok result, s3) ∧
       sha256Bytes (StreamDocumentPreviewResult.body result) = DocumentRevision.sha256Digest r ∧
       StreamDocumentPreviewResult.displayName result = DocumentRevision.displayName r).
Proof.
  intros Hs Hrun Hlater Hnew.
  assert (s' = exec call s) as Hs' by (destruct call; try done; simpl in *; by rewrite Hrun).
  assert (reachable s'') as Hr''.
  { unfold reachable, reaches. etrans; [exact Hs|]. eapply rtc_l; [exists call; exact Hs'|exact Hlater]. }
  apply issue_ok in Hrun as (o & i & d & ct & r & s1 & Hmay & Hk & Hr & Hg).
  apply grant_preview_ok in Hg as (g & Hgs & Hrs & Ho & Hi & Hh & _ & Hurl & _).
  exists o, i, r, g. split_and!; [done|by eapply revision_key|exact (proj1 (find_row_Some _ _ _ Hr))|done| |].
  { rewrite Hgs. apply elem_of_app. right. by apply list_elem_of_singleton. }
  intros Hexp. apply stream_run; [done| |done].
  eapply opens_grow; [eapply Steps_grow, reaches_steps, Hlater|]. split.
  - rewrite Hgs, <-(durable_keeps previewGrants _ _ Hk). apply find_row_snoc; [|by apply String.eqb_eq].
    intros x Hx. by apply String.eqb_neq, Hnew.
  - by rewrite Hrs, <-(durable_keeps revisions _ _ Hk), Ho, Hi.
Qed.

(** Nothing but a grant on file, named by its identifier and not expired, opens
    a preview, and a stream changes nothing. *)
Lemma streams_are_granted grantId rawToken s result s' :
  streamDocumentPreview grantId rawToken s = (Ok result, s') →
  keeps durable s s' ∧
  ∃ g r, opens s g r rawToken ∧ PreviewGrant.id g = grantId ∧
    (clock s.(clockReads) < PreviewGrant.expiresAt g)%Z.
Proof.
  unfold streamDocumentPreview. intros Hrun.
  apply bind_ok in Hrun as (g & s1 & Hg & Hrun). apply gets_ok in Hg as [Hg ->].
  destruct g as [g|]; [|done]. destruct (negb _) eqn:Hid; [done|]. apply negb_false_iff, String.eqb_eq in Hid.
  apply bind_ok in Hrun as (now & s1 & [= <- <-] & Hrun). destruct (_ <=? _)%Z eqn:Hexp; [done|].
  apply bind_ok in Hrun as (r & s1 & Hr & Hrun). apply gets_ok in Hr as [Hr ->].
  destruct r as [r|]; [|done]. apply bind_ok in Hrun as (b & s1 & Hb & Hrun).
  destruct b as [b|]; [|done]. apply ret_ok in Hrun as [_ ->]. apply getObject_ok in Hb as (k & _ & ->).
  split; [done|]. exists g, r. by split_and!; [split| |apply Z.leb_gt].
Qed.
End previews.
