(* ===== verification/SendOutcomes.v ===== *)
(** What sending a document and exchanging a signing token have done when they
    return. *)

From Stdlib Require Import String.
From S2P Require Export SignerOutcomes DocumentRefinement.
Local Open Scope string_scope.

(** The results of a traversal, one by one, as the store is in the end. *)
Lemma map_each_Forall2 {E S A B} (R : relation S) `{!PreOrder R} (f : A → M E S B)
    (φ : A → B → S → Prop) l s ys s' :
  (∀ x s y s', f x s = (Ok y, s') → R s s' ∧ φ x y s') → (∀ x y, stable R (φ x y)) →
  map_each f l s = (Ok ys, s') → R s s' ∧ Forall2 (λ x y, φ x y s') l ys.
Proof.
  intros Hf Hst. revert s ys. induction l as [|x l IH]; intros s ys Hrun; simpl in Hrun.
  { apply ret_ok in Hrun as [<- ->]. split; [reflexivity|constructor]. }
  apply bind_ok in Hrun as (y & s1 & Hy & Hrun). apply bind_ok in Hrun as (zs & s2 & Hzs & Hrun).
  apply ret_ok in Hrun as [<- ->]. destruct (Hf _ _ _ _ Hy) as [Hs1 Hφ].
  destruct (IH _ _ Hzs) as [Hs2 Hall]. split; [by etrans|]. constructor; [|done]. by eapply Hst.
Qed.

(** Rows are only added. *)
Definition sessions_added (s s' : St) : Prop := s.(signingSessions) `prefix_of` s'.(signingSessions).

#[export] Instance sessions_added_preorder : PreOrder sessions_added.
Proof. split; [intros ?|intros ???]; unfold sessions_added; [done|apply transitivity]. Qed.

(** The session issued to a signer under the hash of a raw token. *)
Definition issued_to `{Env} (o d : string) (now : Z) (signer : Signer.t)
    (row : SigningSession.t * string) (s : St) : Prop :=
  row.1 ∈ s.(signingSessions) ∧
  SigningSession.organizationId row.1 = o ∧ SigningSession.documentId row.1 = d ∧
  SigningSession.signerId row.1 = Signer.id signer ∧
  SigningSession.status row.1 = SigningSessionStatus.issued ∧
  SigningSession.consumedAt row.1 = None ∧
  SigningSession.tokenHash row.1 = token_hash row.2 ∧
  SigningSession.expiresAt row.1 = (now + sessionTtlMs)%Z.

Section send_outcomes.
Context `{Env} `{!AuthorizationPolicy} `{!UnitOfWork} `{!Notifier}.
Abbreviation R := (TSteps (λ _, True)).

Lemma issued_to_stable o d now g row : stable sessions_added (issued_to o d now g row).
Proof.
  intros s s' Hs (Hin & Hrest). split; [|exact Hrest].
  destruct Hs as [l Hl]. rewrite Hl. apply elem_of_app. by left.
Qed.

Lemma sessions_create_ok o x s y s' :
  SigningSessions.create o x s = (Ok y, s') →
  s'.(signingSessions) = (s.(signingSessions) ++ [x])%list.
Proof.
  unfold SigningSessions.create. intros Hrun. apply bind_ok in Hrun as (z & s1 & Hz & Hrun).
  apply gets_ok in Hz as [_ ->]. destruct z; [done|]. rewrite push_run in Hrun. by injection Hrun as _ <-.
Qed.

Lemma issue_session_ok user o d now rq g s row s' :
  issue_session user o d now rq g s = (Ok row, s') →
  sessions_added s s' ∧ issued_to o d now g row s'.
Proof.
  unfold issue_session. intros Hrun. apply bind_ok in Hrun as (open & s1 & Hopen & Hrun).
  apply gets_ok in Hopen as [_ ->]. destruct (negb _); [done|].
  apply bind_ok in Hrun as (raw & s1 & [= <- <-] & Hrun).
  apply bind_ok in Hrun as (i & s1 & [= <- <-] & Hrun). cbv zeta in Hrun.
  apply bind_ok in Hrun as (x & s1 & Hx & Hrun). apply sessions_create_ok in Hx.
  assert (keeps signingSessions s1 s') as Hk by (eapply run_keeps; [|exact Hrun]; respects_tac).
  unfold keeps in Hk. rewrite Hk in Hx. split; [by eexists|].
  do 5 (apply bind_ok in Hrun as (? & ? & _ & Hrun)). apply ret_ok in Hrun as [<- _].
  unfold issued_to. split_and!; [|done..]. rewrite Hx. apply elem_of_app. right.
  by apply list_elem_of_singleton.
Qed.
Lemma issue_session_keeps user o d now rq g : respects (keeps documents) (issue_session user o d now rq g).
Proof. unfold issue_session. respects_tac. Qed.
#[local] Hint Resolve issue_session_keeps : esign.

Lemma send_transaction_ok user o rq d r l e now s y issued s' :
  send_transaction user o rq d r l e now s = (Ok (y, issued), s') →
  (document_at s' o (Document.id d) = Some y ∧ Document.state y = DocumentState.sent ∧
   Document.signingRevisionId y = Some (DocumentRevision.id r) ∧ Document.expiresAt y = e) ∧
  Forall2 (λ g row, issued_to o (Document.id d) now g row s') l issued.
Proof.
  unfold send_transaction. cbv zeta. intros Hrun.
  apply bind_ok in Hrun as (z & s1 & Hz & Hrun).
  apply bumpDocument_ok in Hz as (x & u & _ & _ & [= <-] & -> & Hat); [|by intros x u [= <-]].
  assert (keeps documents s1 s') as Hk by (eapply run_keeps; [|exact Hrun]; respects_tac).
  apply bind_ok in Hrun as (rows & s2 & Hrows & Hrun).
  apply (map_each_Forall2 sessions_added _ (issued_to o (Document.id d) now)) in Hrows as [_ Hrows].
  2: { intros g s3 row s4. apply issue_session_ok. }
  2: { intros g row. apply issued_to_stable. }
  assert (keeps signingSessions s2 s') as Hk2 by (eapply run_keeps; [|exact Hrun]; respects_tac).
  apply bind_ok in Hrun as (i & s3 & _ & Hrun). apply bind_ok in Hrun as (ev & s4 & _ & Hrun).
  apply ret_ok in Hrun as [[= <- <-] ->]. split.
  - split_and!; [|done..]. unfold document_at. by rewrite <-Hk.
  - eapply Forall2_impl; [exact Hrows|]. intros g row. apply issued_to_stable.
    unfold sessions_added. by rewrite Hk2.
Qed.

Lemma throw_ready d :
  assertReadyToSend d = Ok tt →
  isPreparationState (Document.state d) = true ∧
  Document.inspectionStatus d = DocumentInspectionStatus.accepted.
Proof.
  unfold assertReadyToSend, assertInspectionAccepted. rewrite bind_Result_ok.
  intros ([] & Hp & Ha). apply bind_Result_ok in Ha as (? & _ & Ha). apply throw_if_ok, negb_false_iff in Hp, Ha.
  split; [done|]. by apply bool_decide_eq_true in Ha.
Qed.

Lemma begin_at s s' o i : keeps envelope_view s s' → document_at s' o i = document_at s o i.
Proof. unfold keeps, envelope_view, document_at. by intros [= -> _ _]. Qed.

(** What a document must be to be sent: in preparation, inspected, with a
    revision, its signers and fields complete. *)
Definition sendable (s : St) (o i : string) (d : Document.t) (r : DocumentRevision.t) : Prop :=
  document_at s o i = Some d ∧ isPreparationState (Document.state d) = true ∧
  Document.inspectionStatus d = DocumentInspectionStatus.accepted ∧
  Document.currentRevisionId d = Some (DocumentRevision.id r) ∧ r ∈ s.(revisions) ∧
  envelopeIsPrepared d (roster s o i) (fields_of s o i) = true.

(** ** Exchanging a token *)

Lemma consumeAndRotate_ok o i v h c t s y s' :
  SigningSessions.consumeAndRotate o i v h c t s = (Ok y, s') →
  find_row (SigningSessions.key o i) s'.(signingSessions) = Some y ∧
  SigningSession.tokenHash y = h ∧ SigningSession.csrfTokenHash y = Some c ∧
  SigningSession.consumedAt y = Some t ∧ SigningSession.status y = SigningSessionStatus.active.
Proof.
  intros Hrun. pose proof Hrun as Hw. apply update_one_ok in Hw as (n & x & Hn & Hc).
  pose proof Hn as (_ & Hk & _)%find_index_Some.
  destruct Hc as [[Hf _]|[Hf _]]; apply guarded_ok in Hf as [_ [= <-]].
  apply update_one_found in Hrun as (z & _ & [[Hf _]|[_ Hx]]); [|by split_and!|done].
  by apply guarded_ok in Hf as [_ ?].
Qed.

(** C20: exchanging consumes: an exchange that returns was made with the unexpired,
    never exchanged token of an open session; it leaves the session active and
    consumed, filed under the hash of the fresh token it returns, with the hash of
    the fresh CSRF token it returns. *)
Theorem exchanging_consumes_the_token raw rq u s body s' :
  exchangeSigningToken raw rq u s = (Ok body, s') →
  ∃ x y rawSession rawCsrf,
    session_of_token raw s = Some x ∧ SigningSessions.is_open x = true ∧
    SigningSession.consumedAt x = None ∧ (clock s.(clockReads) < SigningSession.expiresAt x)%Z ∧
    find_row (SigningSessions.key (SigningSession.organizationId x) (SigningSession.id x))
      s'.(signingSessions) = Some y ∧
    SigningSession.consumedAt y ≠ None ∧ SigningSession.status y = SigningSessionStatus.active ∧
    SigningSession.tokenHash y = token_hash rawSession ∧
    SigningSession.csrfTokenHash y = Some (token_hash rawCsrf) ∧
    prop "rawSessionToken" body = VStr rawSession ∧ prop "rawCsrfToken" body = VStr rawCsrf.
Proof.
  intros Hrun. unfold exchangeSigningToken in Hrun.
  apply bind_ok in Hrun as (L & s1 & HL & Hrun). cbv zeta in Hrun.
  apply loadSignerSession_ok in HL as (Hd1 & Htok & Hst & Hcons & Hexp & _ & Hok).
  simpl in Htok, Hcons. set (x := LoadedSignerSession.session L) in *.
  apply bind_ok in Hrun as (now & s2 & [= <- <-] & Hrun).
  apply bind_ok in Hrun as (rawSession & s2 & [= Hraw <-] & Hrun).
  apply bind_ok in Hrun as (rawCsrf & s2 & [= Hcsrf <-] & Hrun).
  apply bind_ok in Hrun as (y & s3 & Hy & Hrun). apply run_ok in Hy.
  apply ret_ok in Hrun as [<- ->].
  apply bind_ok in Hy as (y' & s4 & Hy & Hrun). apply consumeAndRotate_ok in Hy as (Hy & Hh & Hc & Ht & Hs).
  assert (keeps signingSessions s4 s3) as Hk by (eapply run_keeps; [|exact Hrun]; respects_tac).
  do 2 (apply bind_ok in Hrun as (? & ? & _ & Hrun)). apply ret_ok in Hrun as [<- _].
  exists x, y', rawSession, rawCsrf. split_and!; try done.
  - unfold session_admitted in Hst. fold x in Hst. unfold SigningSessions.is_open.
    by destruct (SigningSession.status x).
  - by apply bool_decide_eq_true in Hcons.
  - by rewrite <-Hk.
  - by rewrite Ht.
Qed.
End send_outcomes.
