(* ===== verification/Correctness.v ===== *)
(** What holds of the whole system: the theorems about every reachable store
    and every sequence of calls, each with an instance on the sample run. *)

From Stdlib Require Import String.
From S2P Require Export Envelopes Previews SendOutcomes Queue Finalized Chain Scenario.
Local Open Scope string_scope.

(** Everything that may be held at most once. *)
Definition uniqueness (s : St) : Prop :=
  one_open_session s ∧ one_record_per_key s ∧ one_artifact s ∧ one_consent s ∧
  NoDup (signer_keys s.(signers)).

(** No open transition leads out of these states. *)
Definition closed_state (x : DocumentState.t) : bool :=
  bool_decide (x ∈ [DocumentState.finalized; DocumentState.voided; DocumentState.expired;
                    DocumentState.declined]).

Lemma closed_state_path a b : state_path a b → closed_state a = true → b = a.
Proof. intros Hp Ha. destruct Hp as [|a b c Hab _]; [done|]. by destruct a, b. Qed.

Section sound.
Context `{Env}.

(** Chains linked, references resolved, one of each, no completion without
    signatures and no signature without consent. *)
Definition sound (s : St) : Prop :=
  chains_linked s ∧ storage_ok s.(objects) ∧ references_resolve s ∧ uniqueness s ∧
  late_signed s ∧ signed_consented s.

Lemma sound_empty : sound empty_store.
Proof.
  refine (conj _ (conj _ (conj _ (conj _ (conj _ _))))).
  - by intros o d.
  - split; constructor.
  - by repeat constructor.
  - split_and!; try (repeat intro; apply sole_nil). constructor.
  - by intros o d x r.
  - intros r Hr. by apply elem_of_nil in Hr.
Qed.

Lemma sound_step s s' : Step (λ _, True) s s' → sound s → sound s'.
Proof.
  intros Hs (Hc & Hst & Hr & (Hu1 & Hu2 & Hu3 & Hu4 & Hu5) & Hl & Hsc).
  refine (conj _ (conj _ (conj _ (conj _ (conj _ _))))).
  - by eapply Step_chains.
  - by eapply Step_storage_ok.
  - by eapply Step_references.
  - split_and!; repeat intro.
    + eapply Step_one_open; [exact Hs|apply Hu1].
    + eapply Step_one_record; [exact Hs|apply Hu2].
    + eapply Step_one_artifact; [exact Hs|apply Hu3].
    + eapply Step_one_consent; [exact Hs|apply Hu4].
    + by eapply Step_signer_keys.
  - by eapply Step_late_signed.
  - by eapply Step_signed_consented.
Qed.

End sound.

Section system.
Context `{Env} `{!AuthorizationPolicy} `{!UnitOfWork} `{!Notifier}
  `{!ImmutableCheckpointStore} `{!CheckpointLaws}.

Lemma reachable_sound s : reachable s → sound s.
Proof. apply (reachable_invariant sound); [apply sound_step|apply sound_empty]. Qed.

Lemma reachable_signatures s : reachable s → late_signed s ∧ signed_consented s.
Proof. intros (_ & _ & _ & _ & Hs)%reachable_sound. exact Hs. Qed.

Lemma reachable_chains s : reachable s → chains_linked s.
Proof. by intros (Hc & _)%reachable_sound. Qed.

(** C1: every call refines the specification: whatever a client or the worker
    calls, returning or throwing, the store only takes steps the specification
    allows, and only for tenants the call is about. *)
Theorem use_cases_refine c s : Steps (tenant_of c s) s (exec c s).
Proof. apply exec_steps. Qed.

(** C2: tenants are isolated: a call leaves every row, checkpoint and object of
    every tenant it is not about exactly as it was; it is about the tenant of
    its actor, token or job alone. *)
Theorem tenants_isolated c s o : ¬ tenant_of c s o → foreign_same o s (exec c s).
Proof. intros Ho. eapply Steps_foreign; [exact Ho|]. apply exec_steps. Qed.

(** C3: documents follow their life cycle: along any calls a document keeps its
    place, its identity, owner and title; its state moves along the declared
    transitions only; its version never decreases and an unchanged version means
    an unchanged row; and once it has left preparation its signing mode, signing
    revision and expiry never change. *)
Theorem documents_follow_life_cycle s s' o d x :
  reaches s s' → document_at s o d = Some x →
  ∃ y, document_at s' o d = Some y ∧
    rtc (λ a b, canTransitionDocument a b = true) (Document.state x) (Document.state y) ∧
    document_fixed x y ∧ (Document.version x ≤ Document.version y)%Z ∧
    (Document.version x = Document.version y → x = y).
Proof.
  intros Hr Hx. apply reaches_steps, Steps_documents in Hr.
  destruct (evolve_document_at _ _ _ _ _ Hr Hx) as (y & Hy & Hxy). exists y. split; [done|].
  destruct Hxy as [<- |(Hf & Hv & Hp & _)].
  - split_and!; [done|apply document_fixed_refl|lia|done].
  - split_and!; [done|done|lia|lia].
Qed.

(** Finalized, voided, expired and declined documents stay what they are,
    whatever is called afterwards. *)
Theorem closed_documents_stay s s' o d x :
  reaches s s' → document_at s o d = Some x → closed_state (Document.state x) = true →
  ∃ y, document_at s' o d = Some y ∧ Document.state y = Document.state x.
Proof.
  intros Hr Hx Hc. apply reaches_steps, Steps_documents in Hr.
  destruct (evolve_document_at _ _ _ _ _ Hr Hx) as (y & Hy & [<- |(_ & _ & Hp & _)]); [by exists x|].
  exists y. split; [done|]. by apply closed_state_path.
Qed.

(** C4: nothing is completed without its signatures: in every reachable store
    every signer of a completed, finalizing, finalized or failed document has
    signed, and every signer who has signed consented in a session of theirs. *)
Theorem completed_documents_are_signed s o d x r :
  reachable s → document_at s o d = Some x → late (Document.state x) = true →
  r ∈ signers_of s o d → Signer.status r = SignerStatus.signed ∧ consented s r.
Proof.
  intros Hr Hx Hl Hin. destruct (reachable_signatures s Hr) as (Hls & Hc).
  assert (Signer.status r = SignerStatus.signed) as Hs by (by eapply Hls).
  split; [done|]. apply Hc; [|done]. by apply signers_of_elem in Hin as [? _].
Qed.

(** C15: at most one: a reachable store holds at most one open session per
    signer, one idempotency record per principal, route and key, one artifact
    per document, one consent per session, and one signer per identifier. *)
Theorem rows_are_unique s : reachable s → uniqueness s.
Proof. by intros (_ & _ & _ & Hu & _)%reachable_sound. Qed.

(** C14: a signing session is consumed once: along any calls it keeps its
    document, signer and expiry, moves along the declared transitions, is never
    reopened, and once its token was exchanged the token that replaced it stays. *)
Theorem sessions_are_consumed_once s s' i x :
  reaches s s' → s.(signingSessions) !! i = Some x →
  ∃ y, s'.(signingSessions) !! i = Some y ∧ session_fixed x y ∧
    rtc (λ a b, canTransitionSigningSession a b = true)
      (SigningSession.status x) (SigningSession.status y) ∧
    (SigningSessions.is_open x = false → y = x) ∧
    (SigningSession.consumedAt x ≠ None →
       SigningSession.consumedAt y = SigningSession.consumedAt x ∧
       SigningSession.tokenHash y = SigningSession.tokenHash x).
Proof.
  intros Hr Hx. apply reaches_steps, Steps_sessions in Hr.
  destruct (evolves_lookup _ _ _ _ _ _ Hr Hx) as (y & Hy & Hf & Hc & Hp & Ho).
  exists y. split_and!; [done..|]. intros Hn. by destruct (Hc Hn) as (? & ? & _).
Qed.

(** C16: sending freezes the envelope: from the moment a document has left
    preparation its fields stay the same fields, of the same signers, at the
    same places, in the same order. *)
Theorem sent_layout_is_frozen s s' o d x :
  reaches s s' → document_at s o d = Some x → isPreparationState (Document.state x) = false →
  layout s' o d = layout s o d.
Proof. intros Hr Hx Hp. apply reaches_steps in Hr. by eapply Steps_layout. Qed.

(** C9: every document's audit events form a chain in every reachable store:
    numbered from zero without gaps, each holding the hash of the one before it
    and the hash of its own content, with an approved payload. *)
Theorem audit_chains_are_linked s o d : reachable s → links None (document_events s o d).
Proof. intros Hr. by apply reachable_chains. Qed.

(** C13: every reference resolves: in every reachable store each object is filed
    under its own digest and size, and the object a revision, an artifact or a
    completed field names is on file, for revisions and artifacts with the
    recorded digest; in particular the orphan cleanup never removed it. *)
Theorem stored_references_resolve s :
  reachable s → storage_ok s.(objects) ∧ references_resolve s.
Proof. intros Hr. split; [by apply reachable_storage|by apply reachable_references]. Qed.

(** The outbox only moves forward: along any calls an event keeps its type
    and payload, its attempts never decrease and a processed or failed event
    never changes again; and in every reachable store no payload carries
    anything but approved opaque identifiers. *)
Theorem outbox_events_settle s s' i x :
  reachable s → reaches s s' → s.(outboxEvents) !! i = Some x →
  assertSafeJobPayload (OutboxEvent.payload x) = Ok tt ∧
  ∃ y, s'.(outboxEvents) !! i = Some y ∧ event_evolves x y.
Proof.
  intros Hs Hr Hx. split.
  - apply reaches_steps, Steps_events in Hs. apply list_elem_of_lookup_2 in Hx.
    destruct (evolves_elem _ _ _ _ _ Hs Hx) as [(z & Hz & _)|(z & [_ Hz] & Hzx)].
    + by apply elem_of_nil in Hz.
    + by destruct Hzx as (_ & _ & _ & <- & _).
  - apply reaches_steps, Steps_events in Hr. by eapply evolves_lookup.
Qed.
End system.

(** ** On the sample run *)

Lemma use_cases_refine_witness :
  Steps (tenant_of void_call sent_out) sent_out (exec void_call sent_out).
Proof. apply use_cases_refine. Defined.

Lemma tenants_isolated_witness :
  ¬ tenant_of void_call sent_out other_org ∧ foreign_same other_org sent_out (exec void_call sent_out).
Proof.
  assert (¬ tenant_of void_call sent_out other_org) as Ho by (intros He; vm_compute in He; discriminate He).
  split; [exact Ho|]. apply tenants_isolated. exact Ho.
Defined.

Lemma documents_follow_life_cycle_witness :
  ∃ y, document_at finished org document = Some y ∧
    rtc (λ a b, canTransitionDocument a b = true) DocumentState.sent (Document.state y) ∧
    document_fixed (document_in sent_out) y ∧ (Document.version (document_in sent_out) ≤ Document.version y)%Z ∧
    (Document.version (document_in sent_out) = Document.version y → document_in sent_out = y).
Proof.
  refine (documents_follow_life_cycle sent_out finished org document (document_in sent_out) _ _).
  - apply sent_out_finished.
  - vm_compute. reflexivity.
Defined.

Lemma closed_documents_stay_witness :
  ∃ y, document_at (exec void_call finished) org document = Some y ∧
    Document.state y = DocumentState.finalized.
Proof.
  refine (closed_documents_stay finished _ org document (document_in finished) _ _ _).
  - apply (run_calls_reaches [void_call]).
  - vm_compute. reflexivity.
  - vm_compute. reflexivity.
Defined.

Lemma completed_documents_are_signed_witness :
  Signer.status (anna_in finished) = SignerStatus.signed ∧ consented finished (anna_in finished).
Proof.
  refine (completed_documents_are_signed finished org document (document_in finished) _ _ _ _ _).
  - apply finished_reachable.
  - vm_compute. reflexivity.
  - vm_compute. reflexivity.
  - apply (list_elem_of_lookup_2 _ 0). vm_compute. reflexivity.
Defined.

Lemma rows_are_unique_witness : uniqueness finished.
Proof. apply rows_are_unique, finished_reachable. Defined.

Lemma sessions_are_consumed_once_witness :
  ∃ y, finished.(signingSessions) !! 0%nat = Some y ∧ session_fixed (session_in half_signed) y ∧
    rtc (λ a b, canTransitionSigningSession a b = true)
      (SigningSession.status (session_in half_signed)) (SigningSession.status y) ∧
    (SigningSessions.is_open (session_in half_signed) = false → y = session_in half_signed) ∧
    (SigningSession.consumedAt (session_in half_signed) ≠ None →
       SigningSession.consumedAt y = SigningSession.consumedAt (session_in half_signed) ∧
       SigningSession.tokenHash y = SigningSession.tokenHash (session_in half_signed)).
Proof.
  refine (sessions_are_consumed_once half_signed finished 0 (session_in half_signed) _ _).
  - apply half_signed_finished.
  - vm_compute. reflexivity.
Defined.

Lemma sent_layout_is_frozen_witness : layout finished org document = layout sent_out org document.
Proof.
  refine (sent_layout_is_frozen sent_out finished org document (document_in sent_out) _ _ _).
  - apply sent_out_finished.
  - vm_compute. reflexivity.
  - vm_compute. reflexivity.
Defined.

Lemma audit_chains_are_linked_witness : links None (document_events finished org document).
Proof. apply audit_chains_are_linked, finished_reachable. Defined.

Lemma stored_references_resolve_witness :
  storage_ok finished.(objects) ∧ references_resolve finished.
Proof. apply stored_references_resolve, finished_reachable. Defined.

Lemma outbox_events_settle_witness :
  ∃ x, half_signed.(outboxEvents) !! 0%nat = Some x ∧
    assertSafeJobPayload (OutboxEvent.payload x) = Ok tt ∧
    ∃ y, finished.(outboxEvents) !! 0%nat = Some y ∧ event_evolves x y.
Proof.
  eexists. split; [vm_compute; reflexivity|].
  eapply outbox_events_settle; [apply half_signed_reachable|apply half_signed_finished|].
  vm_compute. reflexivity.
Defined.

Lemma verifier_decides_chains_witness :
  ∃ report,
    (verifyAuditChain (VerifyAuditChainInput.mk org document None) finished).1 = Ok report ∧
    (Report.ok report = true → document_events finished org document ≠ [] ∧
       links None (document_events finished org document)) ∧
    (document_events finished org document ≠ [] → links None (document_events finished org document) →
       ∀ f, f ∈ Report.failures report → external_code (Failure.code f) = true).
Proof.
  eexists. split; [vm_compute; reflexivity|].
  eapply verifier_decides_chains. vm_compute. reflexivity.
Defined.

Lemma matching_heads_match_chains_witness :
  Forall2 same_event (document_events finished org document) (document_events finished org document) ∨
  collision (document_events finished org document) (document_events finished org document).
Proof.
  eapply (matching_heads_match_chains sample_number_format).
  - apply (reachable_chains finished finished_reachable).
  - apply (reachable_chains finished finished_reachable).
  - vm_compute. reflexivity.
  - vm_compute. reflexivity.
Defined.


Definition send_input : SendDocumentInput.t :=
  SendDocumentInput.mk owner document None "send-key-1" "r5".


Lemma exchanging_consumes_the_token_witness :
  ∃ body s', exchangeSigningToken (token 1) "r6" None sent_out = (Ok body, s') ∧
    ∃ x y rawSession rawCsrf,
      session_of_token (token 1) sent_out = Some x ∧ SigningSessions.is_open x = true ∧
      SigningSession.consumedAt x = None ∧
      (clock sent_out.(clockReads) < SigningSession.expiresAt x)%Z ∧
      find_row (SigningSessions.key (SigningSession.organizationId x) (SigningSession.id x))
        s'.(signingSessions) = Some y ∧
      SigningSession.consumedAt y ≠ None ∧ SigningSession.status y = SigningSessionStatus.active ∧
      SigningSession.tokenHash y = token_hash rawSession ∧
      SigningSession.csrfTokenHash y = Some (token_hash rawCsrf) ∧
      prop "rawSessionToken" body = VStr rawSession ∧ prop "rawCsrfToken" body = VStr rawCsrf.
Proof.
  eexists _, _. split; [vm_compute; reflexivity|].
  apply (exchanging_consumes_the_token (token 1) "r6" None sent_out). vm_compute. reflexivity.
Defined.

Definition decline_input : DeclineToSignInput.t :=
  DeclineToSignInput.mk (token 5) (Some "not my lease") "r12" None.

Lemma declining_closes_the_envelope_witness :
  ∃ body s', declineToSign decline_input ben_ready = (Ok body, s') ∧
    ∃ x d r,
      session_of_token (token 5) ben_ready = Some x ∧
      SigningSessions.is_open x = true ∧ SigningSession.consumedAt x ≠ None ∧
      (clock ben_ready.(clockReads) < SigningSession.expiresAt x)%Z ∧
      let o := SigningSession.organizationId x in
      document_at ben_ready o (SigningSession.documentId x) = Some d ∧ isAvailableForSigning d = true ∧
      signer_at ben_ready o (SigningSession.signerId x) = Some r ∧
      canSignerActNow (Document.signingMode d) r (roster ben_ready o (SigningSession.documentId x)) = true ∧
      (∃ r', signer_at s' o (SigningSession.signerId x) = Some r' ∧
             Signer.status r' = SignerStatus.declined) ∧
      envelope_closed DocumentState.declined ben_ready s' o (SigningSession.documentId x).
Proof.
  eexists _, _. split; [vm_compute; reflexivity|].
  eapply (declining_closes_the_envelope decline_input). vm_compute. reflexivity.
Defined.

Definition complete_input : CompleteSigningInput.t :=
  CompleteSigningInput.mk (token 5) "consent-v1" true [id 13] None None "complete-ben-1" "r9" None.


(** ** The queue on the sample run *)

Definition claim_sample : Run (option ClaimedOutboxWork.t) :=
  claimNextByType NOTIFY_SIGNER_JOB_TYPE 2000000 "worker-1" 2060000.

Lemma claims_are_exclusive_witness :
  ∃ w s', claim_sample sent_out = (Ok (Some w), s') ∧
    let e := ClaimedOutboxWork.event w in
    ∃ n x, event_at n x sent_out ∧ claimable NOTIFY_SIGNER_JOB_TYPE 2000000 x = true ∧
      event_at n e s' ∧ holds "worker-1" e ∧
      OutboxEvent.attemptCount e = (OutboxEvent.attemptCount x + 1)%Z ∧
      (∀ m, m ≠ n → s'.(outboxEvents) !! m = sent_out.(outboxEvents) !! m) ∧
      (∀ type' now' owner' until' w' s'', (now' ≤ 2060000)%Z →
         claimNextByType type' now' owner' until' s' = (Ok (Some w'), s'') → event_at n e s'') ∧
      (∀ o t c status job_status at_ r s'', Outcome.owner o ≠ "worker-1" →
         markProcessed o t s' = (r, s'') ∨ applyOutcome o c status job_status at_ s' = (r, s'') →
         event_at n e s'').
Proof.
  eexists _, _. split; [vm_compute; reflexivity|].
  apply (claims_are_exclusive NOTIFY_SIGNER_JOB_TYPE 2000000 "worker-1" 2060000 sent_out).
  vm_compute. reflexivity.
Defined.

(** A handler whose external service is down. *)
Definition unavailable (_ : ClaimedOutboxWork.t) : Run unit :=
  throw (ExternalServiceError (reasonOnly "unavailable")).

Lemma unavailable_keeps w : respects (keeps outboxEvents) (unavailable w).
Proof. intros s. done. Qed.

Definition backoff_sample : BackoffPolicy.t := BackoffPolicy.mk 1000 60000.
Definition turn_sample : Run (ProcessOutcome * option ClaimedOutboxWork.t) :=
  processNext false backoff_sample (SpecFloat.S754_zero false) NOTIFY_SIGNER_JOB_TYPE "worker-1" unavailable.

Lemma sent_out_event_ids : NoDup (OutboxEvent.id <$> sent_out.(outboxEvents)).
Proof. apply (bool_decide_eq_true_1 _). vm_compute. reflexivity. Qed.

Lemma every_turn_settles_witness :
  ∃ outcome w s', turn_sample sent_out = (Ok (outcome, w), s') ∧
    match w with
    | None => outcome = idle ∧ keeps outboxEvents sent_out s' ∧
        (false = true ∨ ∀ x, x ∈ sent_out.(outboxEvents) →
           claimable NOTIFY_SIGNER_JOB_TYPE (clock sent_out.(clockReads)) x = false)
    | Some w => ∃ n x y, event_at n x sent_out ∧
        claimable NOTIFY_SIGNER_JOB_TYPE (clock sent_out.(clockReads)) x = true ∧
        turn_result outcome w y ∧
        OutboxEvent.attemptCount y = (OutboxEvent.attemptCount x + 1)%Z ∧
        s'.(outboxEvents) = <[n := y]> sent_out.(outboxEvents)
    end.
Proof.
  apply (every_turn_settles false backoff_sample _ NOTIFY_SIGNER_JOB_TYPE "worker-1" unavailable sent_out).
  - exact sent_out_event_ids.
  - exact unavailable_keeps.
Defined.

Lemma retries_are_bounded_witness :
  ∃ n s' x, retries 8 n 1 sent_out s' ∧ event_at n x sent_out ∧
    ∃ y, event_at n y s' ∧
      (OutboxEvent.attemptCount x + Z.of_nat 1 ≤ OutboxEvent.attemptCount y)%Z ∧
      (1%nat = 0%nat ∨ OutboxEvent.attemptCount x + Z.of_nat 1 < 8)%Z.
Proof.
  assert (∃ n s' x, retries 8 n 1 sent_out s' ∧ event_at n x sent_out) as (n & s' & x & Hr & Hx).
  { eexists 1%nat, _, _. split; [|vm_compute; reflexivity].
    eapply (retries_turn 8 1 0 sent_out sent_out _ _ backoff_sample (SpecFloat.S754_zero false)
      NOTIFY_SIGNER_JOB_TYPE "worker-1" unavailable).
    - reflexivity.
    - exact sent_out_event_ids.
    - exact unavailable_keeps.
    - vm_compute. reflexivity.
    - vm_compute. discriminate.
    - vm_compute. discriminate.
    - apply retries_none. reflexivity. }
  exists n, s', x. split; [exact Hr|]. split; [exact Hx|].
  exact (retries_are_bounded 8 n 1 sent_out s' x Hr Hx).
Defined.

(** ** A completion that leaves out a required field *)

Definition incomplete_input : CompleteSigningInput.t :=
  CompleteSigningInput.mk (token 5) "consent-v1" true [] None None "complete-ben-1" "r9" None.


(** ** Finalizing and downloading on the sample run *)

Definition flatten_input : FlattenSignatureInput.t :=
  FlattenSignatureInput.mk org document anna (SigningSession.id (session_in both_signed))
    (default "" (Document.currentRevisionId (document_in both_signed))) "job" "event" None "worker-1".

Lemma finalizing_seals_the_document_witness :
  ∃ digest s', flattenSignature flatten_input both_signed = (Ok (finalized, digest), s') ∧
    ∃ x y g, document_at both_signed org document = Some x ∧ document_at s' org document = Some y ∧
      Document.state y = DocumentState.finalized ∧ digest = Some g ∧
      sealed both_signed s' org document g ∧
      (Document.state x = DocumentState.finalized ∨
       ∀ r, r ∈ signers_of both_signed org document → Signer.status r = SignerStatus.signed).
Proof.
  eexists _, _. split; [vm_compute; reflexivity|].
  apply (finalizing_seals_the_document flatten_input both_signed). vm_compute. reflexivity.
Defined.

Lemma downloads_are_intact_witness :
  ∃ bytes name digest size s',
    downloadFinalizedArtifact owner document "r10" finished = (Ok (bytes, name, digest, size), s') ∧
    assertAllowed (account owner) AuthorizationAction.document_download_artifact
      (doc_resource org document) = Ok tt ∧
    (∃ x, document_at finished org document = Some x ∧ Document.state x = DocumentState.finalized) ∧
    (∃ a, artifact_of finished org document = Some a ∧ digest = FinalizedArtifact.sha256Digest a) ∧
    sha256Bytes bytes = digest ∧ size = byteLength bytes ∧
    ∃ e, s'.(auditEvents) = (finished.(auditEvents) ++ [e])%list ∧
      AuditEvent.type e = AuditEventType.artifact_downloaded ∧
      AuditEvent.actorId e = actorId (account owner).
Proof.
  eexists _, _, _, _, _. split; [vm_compute; reflexivity|].
  eapply (downloads_are_intact owner document "r10" finished). vm_compute. reflexivity.
Defined.

Lemma previews_stay_open_witness :
  ∃ v s' s'',
    issue (IssueDocumentPreview owner document) sent_out = (Ok v, s') ∧ s'' = exec void_call s' ∧
    ∃ o i r g, may_preview sent_out (IssueDocumentPreview owner document) o i ∧
      DocumentRevision.id r = i ∧ r ∈ sent_out.(revisions) ∧
      PreviewView.url v = preview_url (PreviewGrant.id g) ∧ g ∈ s'.(previewGrants) ∧
      ((clock s''.(clockReads) < PreviewGrant.expiresAt g)%Z →
       ∃ result s3,
         streamDocumentPreview (PreviewGrant.id g) (PreviewView.token v) s'' = (Ok result, s3) ∧
         sha256Bytes (StreamDocumentPreviewResult.body result) = DocumentRevision.sha256Digest r ∧
         StreamDocumentPreviewResult.displayName result = DocumentRevision.displayName r).
Proof.
  eexists _, _, _. split; [vm_compute; reflexivity|]. split; [reflexivity|].
  eapply (previews_stay_open (IssueDocumentPreview owner document) sent_out).
  - apply sent_out_reachable.
  - vm_compute. reflexivity.
  - apply rtc_once. by exists void_call.
  - intros g Hg. by apply not_elem_of_nil in Hg.
Defined.
