(* ===== verification/RequestScenario.v ===== *)
(** A server with one account, and the requests of its owner: logging in, then
    drafting a document. *)

From Stdlib Require Import String.
From S2P Require Export RouteRules Scenario.
Local Open Scope string_scope.

#[export] Instance shared_secret : IdentityProvider := @createLocalIdentityProvider Sample.env "secret".

(** The production configuration of [ConfigSample]. *)
Definition api_config : ApiConfig.t bool := Eval vm_compute in
  match ConfigSample.loaded "https://idp.example.invalid" as c
    return match c with Ok _ => ApiConfig.t bool | Throw _ => unit end with
  | Ok c => c
  | Throw _ => tt
  end.

Lemma api_config_loaded : ConfigSample.loaded "https://idp.example.invalid" = Ok api_config.
Proof. vm_compute. reflexivity. Qed.

Definition any_datetime (s : string) : bool := negb (String.eqb s EmptyString).
Definition a_message (_ : value) : string := "invalid".
Definition same_origin (s : string) : option string :=
  if startsWith "https://" s then Some s else None.
Definition no_escapes (s : string) : Result Exn string := Ok s.

Definition web_owner : AccountUser.t :=
  AccountUser.mk (Sample.uuid 7) "owner@example.org" "Owner" 0 0.
Definition web_membership : OrganizationMembership.t :=
  OrganizationMembership.mk (Sample.uuid 8) org (Sample.uuid 7) MembershipRole.owner 0 0.

Definition opened : Server.t :=
  Server.mk empty_store (mkAuth [web_owner] [web_membership] [] [] 0 0 0) ∅ ∅ ∅ Overload.init.

Definition incoming (method : string) (headers : list (string * string)) (x : option Route.t)
    (b : Body) : Incoming :=
  mkIncoming method (("content-type", "application/json") :: ("content-length", "2") ::
    ("origin", "https://app.example.invalid") :: headers)%list [] (Some "203.0.113.7") NoHeader
    (Some "203.0.113.7") (Sample.uuid 99) x b.

Definition log_in : Incoming := incoming "POST" [] (Some Route.login)
  (JsonBody (VObj [("email", VStr "Owner@example.org"); ("secret", VStr "secret")])).

(** The cookies a login sets, as the browser returns them. *)
Definition cookies : string :=
  ApiConfig.AUTH_SESSION_COOKIE_NAME api_config +:+ "=" +:+ token 0 +:+ "; " +:+
  ApiConfig.AUTH_CSRF_COOKIE_NAME api_config +:+ "=" +:+ token 1.

Definition draft (csrf : list (string * string)) : Incoming :=
  incoming "POST" (("cookie", cookies) :: ("idempotency-key", "create-key-1") :: csrf)%list
    (Some (Route.createDocument org))
    (JsonBody (VObj [("title", VStr "Lease"); ("filename", VStr "lease.pdf")])).

Definition with_csrf : Incoming := draft [(ApiConfig.AUTH_CSRF_HEADER_NAME api_config, token 1)].
Definition without_csrf : Incoming := draft [].

Definition serving (i : Incoming) (s : Server.t) : Answer.t * Server.t :=
  serve any_datetime a_message same_origin api_config no_escapes i s.

Definition logged_in : Server.t := Eval vm_compute in (serving log_in opened).2.
(** An upload with the token of the draft, a request that is not routed, and one
    with a body that is not JSON. *)
Definition upload : Incoming :=
  mkIncoming "PUT" [("content-type", "application/pdf"); ("content-length", "32");
    (ApiConfig.DOCUMENT_UPLOAD_TOKEN_HEADER api_config, token 2)] [] (Some "203.0.113.7") NoHeader
    (Some "203.0.113.7") (Sample.uuid 98) (Some (Route.uploadSource org (id 3))) (BytesBody pdf).
Definition malformed : Incoming :=
  incoming "POST" [] (Some Route.login)
    (Unreadable (Some "entity.parse.failed") (OtherError "SyntaxError" "Unexpected token")).

Definition drafted_web : Server.t := Eval vm_compute in (serving with_csrf logged_in).2.

Lemma served i s :
  serve any_datetime a_message same_origin api_config no_escapes i s = ((serving i s).1, (serving i s).2).
Proof. apply surjective_pairing. Qed.
