(* ===== verification/Requests.v ===== *)
(** Requests from arrival to answer: what the application of [create-app.ts]
    promises about every request and its answer, and about any sequence of requests
    and turns of the worker. *)

From Stdlib Require Import String.
From S2P Require Export Correctness RequestScenario.
Local Open Scope string_scope.

Lemma no_pollution_passes query r : no_pollution query ≠ Answered r.
Proof. induction query as [|[k []] query IH]; done. Qed.

Lemma strict_answers allowed r x : strictContentType allowed r = Answered x → r_status x = 415%Z.
Proof.
  unfold strictContentType. destruct (_ || _); [done|].
  destruct (baseContentType _) as [t|]; [case_bool_decide; [done|]|]; by intros [= <-].
Qed.

Lemma overload_answers max retry id o x :
  (Overload.arrive max retry id o).1 = Answered x → r_status x = 503%Z.
Proof. unfold Overload.arrive. by destruct (_ <=? _)%Z; [intros [= <-]|]. Qed.

Lemma error_status `{Env} type e id : (400 <= r_status (errorHandler type e id).1)%Z.
Proof.
  unfold errorHandler. case_bool_decide; simpl; [lia|].
  destruct (toHttpError_status e) as [-> _]. by destruct (HttpErrorMapping.code (toHttpError e)).
Qed.

Lemma secure_conseq `{Env} c0 (G G' : Prop) (P P' : string → Prop) m :
  (G' → G) → (∀ o, P' o → P o) → secure c0 G' P' m → secure c0 G P m.
Proof.
  intros HG HP Hm c Hc. destruct (Hm c Hc) as [Hs Hr]. split.
  - by eapply Steps_mono.
  - destruct Hr as [Hg|Hr]; [left; by apply HG|by right].
Qed.

Section requests.
Context `{Env} `{!AuthorizationPolicy} `{!UnitOfWork} `{!Notifier} `{!ImmutableCheckpointStore}
  `{!CheckpointLaws} `{!IdentityProvider}.
Context (datetime : string → bool) (zod_message : value → string)
  (url_origin : string → option string) (config : ApiConfig.t bool)
  (decodeURIComponent : string → Result Exn string).
Abbreviation app := (createApiApp datetime zod_message url_origin config decodeURIComponent).
Abbreviation serve := (serve datetime zod_message url_origin config decodeURIComponent).

(** The route of a request and the request as the route sees it. *)
Definition routed (i : Incoming) (x : Route.t) (r : Request.t) : Prop :=
  in_route i = Some x ∧ ∃ cookies,
    parseCookieHeader decodeURIComponent (map_get "cookie" (in_headers i)) = Ok cookies ∧
    r = request_of config i cookies.

(** What the application has to see, and whom it may change something for. *)
Definition request_admitted (i : Incoming) (s : Server.t) : Prop :=
  ∃ x r, routed i x r ∧ route_admitted url_origin config x r (in_body i) s.
Definition request_tenant (i : Incoming) (s : Server.t) (o : string) : Prop :=
  ∃ x r, routed i x r ∧ route_tenant config x r (in_body i) s o.

Lemma checks_overload c0 r : checks c0 (overloadGuard config r) (λ _, True).
Proof.
  intros c Hc. unfold overloadGuard. destruct (Overload.arrive _ _ _ _) as [h o] eqn:Ho.
  apply (checks_handled c0 h (λ _, True)); [done| |by etrans].
  intros x ->. rewrite (overload_answers (ApiConfig.API_MAX_CONCURRENT_REQUESTS config) 1
    (Request.correlationId r) (Server.overload (server c)) x); [lia|by rewrite Ho].
Qed.

Lemma checks_rate_limit c0 r : checks c0 (apiRateLimit config r) (λ _, True).
Proof.
  eapply checks_bind; [apply checks_clock|]. intros now _.
  eapply checks_bind; [apply checks_gets|]. intros buckets _.
  unfold ipRateLimit. destruct (consume _ _ _ _ _) as [d b]. cbv beta iota zeta.
  eapply (checks_bind c0 _ _ (λ _, True)); [by apply checks_modify|]. intros _ _.
  apply checks_handled; [done|]. by destruct (negb _).
Qed.

Lemma app_secure c0 i :
  secure c0 (request_admitted i (server c0)) (request_tenant i (server c0)) (app i).
Proof.
  eapply secure_bind; [apply checks_setHeader|]. intros _ _. cbv zeta.
  eapply (secure_bind c0 _ _ _ (λ _, True)).
  { apply checks_handled; [done|]. intros x Hx. by apply no_pollution_passes in Hx. }
  intros _ _. eapply (secure_bind c0 _ _ _ (λ _, True)).
  { apply checks_handled; [done|]. intros x Hx%strict_answers. lia. }
  intros _ _. eapply (secure_bind c0 _ _ _ (λ cookies, parseCookieHeader decodeURIComponent
    (map_get "cookie" (in_headers i)) = Ok cookies)); [by apply checks_lift|].
  intros cookies Hk. eapply secure_bind; [apply checks_overload|]. intros _ _.
  eapply secure_bind; [apply checks_rate_limit|]. intros _ _.
  destruct (in_route i) as [x|] eqn:Hx.
  - assert (Hr : routed i x (request_of config i cookies)) by (split; [done|by exists cookies]).
    eapply secure_conseq; [| |apply route_secure].
    + intros Ha. by exists x, (request_of config i cookies).
    + intros o Ho. by exists x, (request_of config i cookies).
  - apply secure_refused. by apply checks_ret.
Qed.

Lemma serve_app i s a s' : serve i s = (a, s') →
  ∃ outcome c, app i (mkCtx s Res.fresh) = (outcome, c) ∧
    a = conclude config i outcome c.(res) ∧ store_of c = s'.(Server.store) ∧
    auth_of c = s'.(Server.auth).
Proof.
  unfold Routes.serve. destruct (createApiApp _ _ _ _ _ _ _) as [outcome c]. intros [= <- <-].
  exists outcome, c. unfold release_request. by case_match.
Qed.

Lemma refused_status i outcome r :
  refused outcome → (400 <= Answer.status (conclude config i outcome r))%Z.
Proof.
  destruct outcome as [x|[type e|x]]; simpl; [done| |done].
  intros _. apply error_status.
Qed.

(** C5: nothing without permission: a request that is answered without an error,
    or after which any row, object or account session differs, has shown
    everything its route asks for: an allowed origin, an account session on file
    that is neither revoked nor expired, the anti-forgery token filed with it, a
    membership in the organization of the path and a role the policy admits to the
    action; or, for signers, a signing token with its anti-forgery token. *)
Theorem only_admitted_requests_succeed i s a s' :
  serve i s = (a, s') →
  (Answer.status a < 400)%Z ∨ durable s.(Server.store) ≠ durable s'.(Server.store) ∨
  s.(Server.auth).(accountSessions) ≠ s'.(Server.auth).(accountSessions) →
  request_admitted i s.
Proof.
  intros (outcome & c & Happ & -> & Hs & Ha)%serve_app Hdone.
  destruct (app_secure (mkCtx s Res.fresh) i (mkCtx s Res.fresh)) as [_ [HG|[Hk Hr]]]; [done|done|].
  exfalso. rewrite Happ in Hk, Hr. simpl in Hk, Hr. destruct Hk as (Hd & _ & _ & _ & Hse).
  apply (refused_status i _ (res c)) in Hr. destruct Hdone as [Hst|[Hn|Hn]].
  - lia.
  - apply Hn. by rewrite <-Hs.
  - apply Hn. by rewrite <-Ha.
Qed.

(** C6: a request changes one tenant at most: it only takes the steps of the
    specification, for the organization of its path or of the session its token
    is filed under; every row, checkpoint and object of every other tenant stays
    exactly as it was. *)
Theorem requests_stay_in_their_tenant i s a s' :
  serve i s = (a, s') →
  Steps (request_tenant i s) s.(Server.store) s'.(Server.store) ∧
  ∀ o, ¬ request_tenant i s o → foreign_same o s.(Server.store) s'.(Server.store).
Proof.
  intros (outcome & c & Happ & _ & Hs & _)%serve_app.
  destruct (app_secure (mkCtx s Res.fresh) i (mkCtx s Res.fresh)) as [Hst _]; [done|].
  rewrite Happ in Hst. simpl in Hst. rewrite Hs in Hst. split; [exact Hst|].
  intros o Ho. by eapply Steps_foreign.
Qed.

(** ** Sequences of requests and turns of the worker *)

Inductive Event : Type :=
  | Arrives (i : Incoming)
  | Background (c : UseCase).

Definition handle (s : Server.t) (e : Event) : Server.t :=
  match e with
  | Arrives i => (serve i s).2
  | Background c => Server.set_store (exec c s.(Server.store)) s
  end.
Definition handle_all (events : list Event) (s : Server.t) : Server.t := foldl handle s events.

Lemma handle_steps s e : Steps (λ _, True) s.(Server.store) (handle s e).(Server.store).
Proof.
  destruct e as [i|c]; simpl; [|apply exec_any_steps].
  destruct (serve i s) as [a s'] eqn:Hs. apply serve_app in Hs as (outcome & c & Happ & _ & Hc & _).
  destruct (app_secure (mkCtx s Res.fresh) i (mkCtx s Res.fresh)) as [Hst _]; [done|].
  rewrite Happ in Hst. simpl in Hst. rewrite Hc in Hst. by eapply Steps_mono.
Qed.

Lemma handle_all_steps events s :
  Steps (λ _, True) s.(Server.store) (handle_all events s).(Server.store).
Proof.
  revert s. induction events as [|e events IH]; intros s; [done|]. simpl.
  etrans; [apply handle_steps|apply IH].
Qed.

Lemma Steps_invariant (I : St → Prop) s s' :
  (∀ s s', Step (λ _, True) s s' → I s → I s') → Steps (λ _, True) s s' → I s → I s'.
Proof. intros HI. induction 1 as [|s1 s2 s3 Hs _ IH]; [done|]. intros Hi. apply IH. by eapply HI. Qed.

(** C7: whatever arrives, the data stays sound: after any sequence of requests
    and background calls on an empty store, every audit chain is linked, every
    reference resolves to an object under its own digest, everything that may be
    held once is held once, and no document is completed without the signatures
    and consents of its signers; and documents never leave their life cycle. *)
Theorem served_stores_are_sound events events' s :
  s.(Server.store) = empty_store →
  let before := handle_all events s in
  let after := handle_all events' before in
  sound before.(Server.store) ∧
  ∀ o d x, document_at before.(Server.store) o d = Some x →
    ∃ y, document_at after.(Server.store) o d = Some y ∧ document_evolves x y.
Proof.
  intros Hs before after. pose proof (handle_all_steps events s) as Hb. rewrite Hs in Hb. split.
  - eapply Steps_invariant; [apply sound_step|exact Hb|apply sound_empty].
  - intros o d x Hx. eapply evolve_document_at; [|exact Hx]. eapply Steps_documents, handle_all_steps.
Qed.
End requests.

(** ** The owner logs in, drafts a document and uploads its file *)

Lemma only_admitted_requests_succeed_witness :
  request_admitted same_origin api_config no_escapes with_csrf logged_in.
Proof.
  apply (only_admitted_requests_succeed any_datetime a_message same_origin api_config no_escapes
    with_csrf logged_in (serving with_csrf logged_in).1 (serving with_csrf logged_in).2).
  - apply served.
  - left. vm_compute. reflexivity.
Defined.

Lemma requests_stay_in_their_tenant_witness :
  foreign_same other_org logged_in.(Server.store) drafted_web.(Server.store).
Proof.
  apply (requests_stay_in_their_tenant any_datetime a_message same_origin api_config no_escapes
    with_csrf logged_in (serving with_csrf logged_in).1 drafted_web).
  - vm_compute. reflexivity.
  - intros (x & r & [[= <-] _] & [=]).
Defined.

Definition upload_events : list Event :=
  [Arrives log_in; Arrives without_csrf; Arrives with_csrf; Arrives upload;
   Background (WorkerPoll poll_input None)].

Lemma served_stores_are_sound_witness :
  sound (handle_all any_datetime a_message same_origin api_config no_escapes upload_events opened).(Server.store).
Proof.
  apply (served_stores_are_sound any_datetime a_message same_origin api_config no_escapes
    upload_events [Arrives with_csrf] opened eq_refl).
Defined.

(** One request of the four is refused, and the document is ready for its signers. *)
Example upload_events_run :
  let s := handle_all any_datetime a_message same_origin api_config no_escapes upload_events opened in
  (Document.inspectionStatus <$> documents s.(Server.store),
   length (revisions s.(Server.store)), length (accountSessions s.(Server.auth))) =
  ([DocumentInspectionStatus.accepted], 1%nat, 1%nat).
Proof. vm_compute. reflexivity. Qed.

(** ** What the API answers *)

(** A computation whose result satisfies [Q], and that answers by itself only as
    [E] says. *)
Definition yields {A} (E : Response → Prop) (Q : A → Prop) (m : Web A) : Prop := ∀ c,
  match (m c).1 with Ok a => Q a | Throw (Errored _ _) => True | Throw (Replied x) => E x end.

Section logic.
Context (E : Response → Prop).
Abbreviation yields := (yields E).

Lemma yields_ret {A} (Q : A → Prop) a : Q a → yields Q (mret a).
Proof. by intros Ha c. Qed.
Lemma yields_bind {A B} (Q : B → Prop) (m : Web A) (f : A → Web B) :
  yields (λ _, True) m → (∀ a, yields Q (f a)) → yields Q (m ≫= f).
Proof.
  intros Hm Hf c. specialize (Hm c). unfold mbind, M_bind.
  destruct (m c) as [[a|[]] c']; simpl in *; [apply Hf|done|done].
Qed.
Lemma yields_fail {A} (Q : A → Prop) e : yields Q (fail e).
Proof. done. Qed.
Lemma yields_store {A} (m : Run A) : yields (λ _, True) (on_store m).
Proof. intros c. unfold on_store. by destruct (m _) as [[] ?]. Qed.
Lemma yields_auth {A} (m : AuthRun A) : yields (λ _, True) (on_auth m).
Proof. intros c. unfold on_auth. by destruct (m _) as [[] ?]. Qed.
Lemma yields_lift {A} (r : Result Exn A) : yields (λ _, True) (lift_result r).
Proof. by destruct r. Qed.
Lemma yields_request {A} s (read : value → A) v invalid : yields (λ _, True) (request_body s read v invalid).
Proof. unfold request_body. by destruct (safe_parse s read v). Qed.
Lemma yields_handled h : (∀ x, h = Answered x → E x) → yields (λ _, True) (handled h).
Proof. intros Hx c. destruct h as [|e|x]; simpl; auto. Qed.
Lemma yields_gets {A} (f : Ctx → A) : yields (λ _, True) (gets f).
Proof. done. Qed.
Lemma yields_modify f : yields (λ _, True) (modify f).
Proof. done. Qed.
Lemma yields_body b : yields (λ _, True) (read_body b).
Proof. by destruct b. Qed.
Lemma yields_id `{Env} field i : yields (λ _, True) (parse_id field i).
Proof. intros c. unfold parse_id. by destruct (zod_uuid _). Qed.
Lemma yields_header_token r name : yields (λ _, True) (header_token r name).
Proof. unfold header_token. by destruct (headerValue r name). Qed.
Lemma yields_bytes b : yields (λ _, True) (requestBytes b).
Proof. by destruct b. Qed.

End logic.

Create HintDb routes.

Definition succeeds (r : Reply) : Prop := (reply_status r < 400)%Z.

Section answers.
Context `{Env} `{!AuthorizationPolicy} `{!UnitOfWork} `{!Notifier} `{!ImmutableCheckpointStore}
  `{!CheckpointLaws} `{!IdentityProvider}.
Context (datetime : string → bool) (zod_message : value → string)
  (url_origin : string → option string) (config : ApiConfig.t bool)
  (decodeURIComponent : string → Result Exn string).
Abbreviation app := (createApiApp datetime zod_message url_origin config decodeURIComponent).
Abbreviation serve := (serve datetime zod_message url_origin config decodeURIComponent).

Section route.
Context (E : Response → Prop).
Abbreviation yields := (yields E).

Lemma yields_json status s v : (status < 400)%Z → yields succeeds (json zod_message status s v).
Proof. intros Hs c. unfold json, parsed. by destruct (s v). Qed.

Lemma yields_origin r : yields (λ _, True) (requireOrigin url_origin config r).
Proof. intros c. unfold requireOrigin, requireAllowedOrigin. by destruct (originIsAllowed _ _ _ _). Qed.

Lemma yields_headers : yields (λ _, True) signingResponseHeaders.
Proof. done. Qed.

#[local] Hint Unfold post_login post_logout post_sessions_revoke get_me get_organization_me post_documents
  get_document post_previews put_source get_preview put_signers put_fields post_send post_void
  get_artifact post_rotate post_revoke post_verify_document post_verify_organization post_exchange
  get_signing_session get_signing_document get_signing_fields get_signing_consent
  post_signing_previews post_viewed post_consent post_decline post_complete member_route
  reader_route changing reading requireSession requireCsrf requireMembership assertAction
  take_login consumeLoginRateLimit signing_entry signingRateLimit requireToken requireSigningCsrf
  signer_reads signer_changes parseOrganizationId parseDocumentId parseGrantId parseSignerId
  parseSessionId setSessionCookies clearSessionCookies cookie_call content_headers setHeader : routes.

Ltac yields_step :=
  lazymatch goal with
  | |- Requests.yields _ _ (_ ≫= _) => apply yields_bind; [|intros ?; cbv beta]
  | |- Requests.yields _ _ (mret _) => apply yields_ret; first [exact I | reflexivity]
  | |- Requests.yields _ _ (json _ _ _ _) => apply yields_json; reflexivity
  | |- Requests.yields _ _ (on_store _) => apply yields_store
  | |- Requests.yields _ _ (on_auth _) => apply yields_auth
  | |- Requests.yields _ _ (lift_result _) => apply yields_lift
  | |- Requests.yields _ _ (fail _) => apply yields_fail
  | |- Requests.yields _ _ (request_body _ _ _ _) => apply yields_request
  | |- Requests.yields _ _ (gets _) => apply yields_gets
  | |- Requests.yields _ _ (modify _) => apply yields_modify
  | |- Requests.yields _ _ (read_body _) => apply yields_body
  | |- Requests.yields _ _ (parse_id _ _) => apply yields_id
  | |- Requests.yields _ _ (header_token _ _) => apply yields_header_token
  | |- Requests.yields _ _ (requestBytes _) => apply yields_bytes
  | |- Requests.yields _ _ (requireOrigin _ _ _) => apply yields_origin
  | |- Requests.yields _ _ signingResponseHeaders => apply yields_headers
  | |- Requests.yields _ _ (match ?x with _ => _ end) => destruct x
  | |- _ => progress autounfold with routes; cbv beta zeta
  end.

Lemma route_yields x r b : yields succeeds (route datetime zod_message url_origin config x r b).
Proof.
  destruct x; cbv beta iota delta [route]; repeat yields_step.
Qed.
End route.


(** The public envelope of a code, under the code's status. *)
Definition public_error (id : string) (status : Z) (payload : Payload) : Prop :=
  ∃ code, status = status_of code ∧
    payload = Json (errorEnvelope code (PUBLIC_ERROR_MESSAGES code) id).
Definition public_response (id : string) (x : Response) : Prop :=
  public_error id (r_status x) (Json (r_body x)).

Lemma strict_public id allowed method headers query cookies client ip x :
  strictContentType allowed (Request.mk method headers query cookies client ip (Some id)) = Answered x →
  public_response id x.
Proof.
  unfold strictContentType. destruct (_ || _); [done|].
  destruct (baseContentType _) as [t|]; [case_bool_decide; [done|]|]; intros [= <-];
    by exists ErrorCode.unsupported_media_type.
Qed.

Lemma overload_public max retry id o x :
  (Overload.arrive max retry (Some id) o).1 = Answered x → public_response id x.
Proof.
  unfold Overload.arrive. destruct (_ <=? _)%Z; [|done]. intros [= <-].
  by exists ErrorCode.service_unavailable.
Qed.

Lemma error_public type e id : public_response id (errorHandler type e (Some id)).1.
Proof.
  unfold errorHandler. case_bool_decide; [by exists ErrorCode.payload_too_large|].
  destruct (toHttpError_status e) as [Hs Hm]. exists (HttpErrorMapping.code (toHttpError e)). simpl.
  by rewrite Hm.
Qed.

Lemma app_yields i :
  yields (public_response (correlation_of config i))
    (λ r, succeeds r ∨ public_error (correlation_of config i) (reply_status r) (reply_payload r)) (app i).
Proof.
  set (E := public_response _).
  assert (Hs : ∀ n v, yields E (λ _, True) (setHeader n v)) by done.
  apply yields_bind; [apply Hs|]. intros _. cbv zeta.
  apply yields_bind; [apply yields_handled; intros x Hx; by apply no_pollution_passes in Hx|]. intros _.
  apply yields_bind; [apply yields_handled, strict_public|]. intros _.
  apply yields_bind; [apply yields_lift|]. intros cookies.
  apply yields_bind.
  { intros c. unfold overloadGuard. destruct (Overload.arrive _ _ _ _) as [h o] eqn:Ho.
    apply (yields_handled E h). intros x ->.
    apply (overload_public (ApiConfig.API_MAX_CONCURRENT_REQUESTS config) 1 _ (Server.overload (server c))).
    change (Request.correlationId (request_of config i cookies)) with (Some (correlation_of config i)) in Ho.
    by rewrite Ho. }
  intros _. apply yields_bind.
  { apply yields_bind; [apply yields_store|]. intros now. apply yields_bind; [apply yields_gets|]. intros bs.
    unfold ipRateLimit. destruct (consume _ _ _ _ _) as [d b]. cbv beta iota zeta.
    apply yields_bind; [apply yields_modify|]. intros _. apply yields_handled. by destruct (negb _). }
  intros _. destruct (in_route i) as [x|].
  - intros c. pose proof (route_yields E x (request_of config i cookies) (in_body i) c) as Hr.
    destruct (route _ _ _ _ _ _ _ c).1 as [r|[]]; [by left|done|done].
  - apply yields_ret. right. by exists ErrorCode.not_found.
Qed.

Lemma correlation_nonempty i : in_freshId i ≠ EmptyString → correlation_of config i ≠ EmptyString.
Proof.
  intros Hf. unfold correlation_of, correlationIdOf. destruct (map_get _ _) as [h|]; [|done].
  destruct (safe_id _) eqn:Hs; [|done]. intros ->. done.
Qed.

End answers.


(** A body that is not JSON is answered as an error of the server: of the errors
    of the body parser the handler only knows the one for size. *)
Lemma malformed_body_is_internal :
  Answer.status (serving malformed opened).1 = 500%Z.
Proof. vm_compute. reflexivity. Qed.
