(* ===== verification/Findings.v ===== *)
(** Behaviours of the program that its design does not intend, each shown on a
    run of the whole system. *)

From Stdlib Require Import String.
From S2P Require Export Queue Scenario CheckpointRules.
Local Open Scope string_scope.

(** ** Fields of the second signer left out of the final document

    Both signers sign before the first flatten job runs.  That job sees every
    signer as complete, flattens the fields of its own signer and finalizes; the
    second signer's job then finds the document finalized and does nothing. *)

Definition one_flattened : St := Eval vm_compute in
  run_calls [WorkerPoll poll_input (Some 0%Z); WorkerPoll poll_input (Some 0%Z)] both_signed.

Lemma one_flattened_run :
  run_calls [WorkerPoll poll_input (Some 0%Z); WorkerPoll poll_input (Some 0%Z)] both_signed =
    one_flattened.
Proof. vm_compute. reflexivity. Qed.

(** A reachable store with a finalized document and no job left, in which a
    required field its signer completed is not on the document. *)
Theorem second_signers_fields_are_lost :
  reachable one_flattened ∧
  Document.state <$> document_at one_flattened org document = Some DocumentState.finalized ∧
  Forall (λ e, OutboxEvent.status e = OutboxStatus.processed) one_flattened.(outboxEvents) ∧
  Exists (λ f, SignatureField.required f = true ∧ SignatureField.completedAt f ≠ None ∧
               SignatureField.flattenedRevisionId f = None) (fields_of one_flattened org document).
Proof.
  split_and!.
  - unfold reachable, reaches. etrans; [apply both_signed_reachable|].
    rewrite <-one_flattened_run. apply run_calls_reaches.
  - vm_compute. reflexivity.
  - repeat constructor.
  - apply Exists_cons_tl, Exists_cons_hd. by vm_compute.
Qed.

(** ** More than 64 fields *)

Definition many_fields (n : nat) : ReplaceFieldsInput.t :=
  ReplaceFieldsInput.mk owner document FieldOverlapPolicy.allow
    (replicate n (box anna "date_signed" (NInt 0)) ++ [box ben "signer_name" (NInt 0)])%list "r13".

Definition answer_of {A} (r : Result Exn A) : option Exn := match r with Ok _ => None | Throw e => Some e end.

(** 64 fields are stored, 65 are refused by the check of the audit payload,
    although the contract of the request accepts 200. *)
Theorem more_than_64_fields_are_refused :
  answer_of (replaceDocumentFields (many_fields 63) prepared_store).1 = None ∧
  answer_of (replaceDocumentFields (many_fields 64) prepared_store).1 =
    Some (ValidationError (reasonOnly "audit_payload_too_large")).
Proof. split; vm_compute; reflexivity. Qed.

(** ** A notifier that fails after the commit *)

Definition unsent : Result Exn object * St := Eval vm_compute in
  @sendDocument _ _ _ createFailClosedNotifier
    (SendDocumentInput.mk owner document None "send-key-1" "r5") prepared_store.

(** The send fails, but the document is sent; its sessions are issued, and no
    answer holds their tokens: a retry with the same key is told that the first
    call is in progress, a retry with another that the document is sent. *)
Theorem failed_notification_strands_the_invitations :
  answer_of unsent.1 = Some (ExternalServiceError
    [("service", VStr "notification"); ("reason", VStr "notifier_unconfigured")]) ∧
  Document.state <$> document_at unsent.2 org document = Some DocumentState.sent ∧
  Forall (λ x, SigningSession.status x = SigningSessionStatus.issued) unsent.2.(signingSessions) ∧
  answer_of (sendDocument (SendDocumentInput.mk owner document None "send-key-1" "r5") unsent.2).1 =
    Some (conflictFor "idempotency_in_progress") ∧
  is_ok (sendDocument (SendDocumentInput.mk owner document None "send-key-2" "r5") unsent.2).1 = false.
Proof. split_and!; try (vm_compute; reflexivity). repeat constructor. Qed.

(** ** Two completions between each other's reads

    Three signers in parallel; the first has signed, so that the document is in
    progress and a completion no longer writes the document.  Both others read
    the roster before either commits. *)

Definition carl : string := id 11.
Definition three_prepared : St := Eval vm_compute in
  run_calls [ReplaceDocumentSigners (ReplaceSignersInput.mk owner document "parallel"
     [SignerRow.mk None "anna@example.org" "Anna" (NInt 1);
      SignerRow.mk None "ben@example.org" "Ben" (NInt 1);
      SignerRow.mk None "carl@example.org" "Carl" (NInt 1)] "r3");
   ReplaceDocumentFields (ReplaceFieldsInput.mk owner document FieldOverlapPolicy.allow
     [box anna "date_signed" (NInt 0); box ben "signer_name" (NInt 0);
      box carl "signer_name" (NInt 0)] "r4");
   SendDocument (SendDocumentInput.mk owner document None "send-key-1" "r5")] drafted.

(** Anna has signed; Ben and Carl have consented. *)
Definition two_ready : St := Eval vm_compute in
  run_calls (sign_calls (token 1) (token 4) (id 13) "complete-anna" ++
             take 4 (sign_calls (token 2) (token 6) (id 14) "complete-ben-1") ++
             take 4 (sign_calls (token 3) (token 8) (id 15) "complete-carl"))%list three_prepared.

Definition completion (session field key : string) : CompleteSigningInput.t :=
  CompleteSigningInput.mk session "consent-v1" true [field] None None key "r9" None.

(** Both prepare, then both commit. *)
Definition interleaved : St := Eval vm_compute in
  match complete_prepare (completion (token 6) (id 14) "complete-ben-1") two_ready with
  | (Ok (inr ben_c), s1) =>
    match complete_prepare (completion (token 8) (id 15) "complete-carl") s1 with
    | (Ok (inr carl_c), s2) => (complete_commit "r9" carl_c (complete_commit "r9" ben_c s2).2).2
    | (_, s2) => s2
    end
  | (_, s1) => s1
  end.

(** Both signatures are recorded and the document is never completed. *)
Theorem interleaved_completions_never_complete :
  Document.state <$> document_at interleaved org document = Some DocumentState.in_progress ∧
  Forall (λ r, Signer.status r = SignerStatus.signed) (signers_of interleaved org document).
Proof. split; [vm_compute; reflexivity|]. repeat constructor. Qed.

(** ** The second verification of a chain

    The object-storage checkpoint store compares digests of whole checkpoints,
    the time of anchoring included, where the in-memory one compares hashes. *)

Definition verify_twice (store : ImmutableCheckpointStore) : list Warning.t * list Warning.t :=
  let verify := @verifyAuditChain _ _ store
    (VerifyAuditChainInput.mk org document None) in
  let warnings r := match r with Ok report => Report.warnings report | Throw _ => [] end in
  let '(first, s) := verify finished in (warnings first, warnings (verify s).1).

(** The first verification anchors the head; the second, of the same chain, warns
    that the checkpoint store is unavailable. *)
Theorem second_verification_warns :
  verify_twice createObjectStorageCheckpointStore =
    ([], [Warning.mk CHECKPOINT_STORE_UNAVAILABLE org document]) ∧
  verify_twice createMemoryCheckpointStore = ([], []).
Proof. split; vm_compute; reflexivity. Qed.
