(* ===== verification/S3.v ===== *)
(** Objects in S3: the driver of
    [packages/object-storage/src/s3-object-storage.ts].

    The SDK and the service are not part of the program: [S3Client] is what the
    driver calls of them, over any state, and [S3Laws] what S3 documents: a bucket
    maps keys to objects, reads see earlier writes, a listing comes in pages.  A
    call may fail at any time, and a failed write may or may not have happened.
    [S3Rules.OneBucket] is an instance on a finite map. *)

From Stdlib Require Import String.
From stdpp Require Import gmap.
From S2P Require Export ObjectStorage Http.
Local Open Scope string_scope.

(** ** The client *)

(** What the SDK rejects with: an error with its name and the HTTP status of
    [$metadata], when there was an answer. *)
Record S3Error : Type := mkS3Error { s3_name : string; httpStatusCode : option Z }.

(** The body of an answer: something with [transformToByteArray], bytes, chunks
    to iterate over, or something else; reading one may fail. *)
Inductive BodyStream : Type :=
  | Transformable (read : Result S3Error (list Z))
  | Uint8Array (bytes : list Z)
  | AsyncIterable (chunks : Result S3Error (list (list Z)))
  | Unreadable.

Definition Metadata : Type := list (string * string).

Module HeadObjectOutput.
Record t : Type := mk { Metadata : option Metadata }.
End HeadObjectOutput.
Module GetObjectOutput.
Record t : Type := mk {
  Body : option BodyStream;
  ContentType : option string;
  Metadata : option Metadata
}.
End GetObjectOutput.
Module PutObjectCommand.
Record t : Type := mk { Key : string; Body : list Z; ContentType : string; Metadata : Metadata }.
End PutObjectCommand.
Module ListedObject.
Record t : Type := mk { Key : option string; LastModified : option Z }.
End ListedObject.
Module ListObjectsV2Output.
Record t : Type := mk {
  Contents : option (list ListedObject.t);
  IsTruncated : option bool;
  NextContinuationToken : option string
}.
End ListObjectsV2Output.

Class S3Client : Type := {
  s3 : Type;
  HeadObjectCommand : string → string → M S3Error s3 HeadObjectOutput.t;
  GetObjectCommand : string → string → M S3Error s3 GetObjectOutput.t;
  PutObjectCommand : string → PutObjectCommand.t → M S3Error s3 unit;
  DeleteObjectCommand : string → string → M S3Error s3 unit;
  ListObjectsV2Command : string → string → option string → M S3Error s3 ListObjectsV2Output.t
}.

(** ** The driver *)

(* [src: packages/object-storage/src/s3-object-storage.ts:18-18 META_DIGEST] *)
Definition META_DIGEST : string := "sha256-digest".

(** What a [catch] of the driver may be given: an error of the SDK, or one the
    [try] has thrown itself. *)
Inductive Caught : Type :=
  | Sdk (e : S3Error)
  | Own (e : Exn).

(** [error.name]. *)
Definition exn_name (e : Exn) : string :=
  match e with AppError kind _ => (error_class kind).1 | OtherError name _ => name end.
Definition caught_name (e : Caught) : string :=
  match e with Sdk e => s3_name e | Own e => exn_name e end.

(* [src: packages/object-storage/src/s3-object-storage.ts:201-214 isNotFound] *)
Definition isNotFound (error : Caught) : bool :=
  let name := caught_name error in
  let status := match error with Sdk e => httpStatusCode e | Own _ => None end in
  String.eqb name "NotFound" || String.eqb name "NoSuchKey" || bool_decide (status = Some 404%Z).

(* [src: packages/object-storage/src/s3-object-storage.ts:216-226 mapS3Error] *)
Definition mapS3Error (error : Caught) (operation : string) : Exn :=
  match error with
  | Own (AppError integrity _ as e) | Own (AppError validation _ as e) => e
  | _ => ExternalServiceError
      [("service", VStr "object-storage"); ("reason", VStr "s3_operation_failed");
       ("operation", VStr operation); ("cause", VStr (caught_name error))]
  end.

(** [await m] inside a [try], and [catch (error) { return handler(error) }]. *)
Definition caught {S A} (m : M S3Error S A) : M Caught S A := λ s,
  let '(r, s) := m s in (match r with Ok a => Ok a | Throw e => Throw (Sdk e) end, s).
Definition catching {S A} (m : M Caught S A) (handler : Caught → M Exn S A) : M Exn S A := λ s,
  match m s with (Ok a, s) => (Ok a, s) | (Throw e, s) => handler e s end.

(** The loops over the chunks of a body: their bytes one after another, copied to
    their places in an array of the total length. *)
Definition copy_at (offset : nat) (chunk out : list Z) : list Z :=
  (take offset out ++ chunk ++ drop (offset + length chunk) out)%list.
(* [src: packages/object-storage/src/s3-object-storage.ts:239-252 streamToUint8Array chunks] *)
Definition concatenated (chunks : list (list Z)) : list Z :=
  let total := list_sum (length <$> chunks) in
  (foldl (λ '(out, offset) chunk, (copy_at offset chunk out, (offset + length chunk)%nat))
     (replicate total 0%Z, 0%nat) chunks).1.

(* [src: packages/object-storage/src/s3-object-storage.ts:228-259 streamToUint8Array] *)
Definition streamToUint8Array (body : BodyStream) : Result Caught (list Z) :=
  match body with
  | Transformable (Ok l) | Uint8Array l => Ok l
  | AsyncIterable (Ok chunks) => Ok (concatenated chunks)
  | Transformable (Throw e) | AsyncIterable (Throw e) => Throw (Sdk e)
  | Unreadable => Throw (Own (ExternalServiceError
      [("service", VStr "object-storage"); ("reason", VStr "s3_unexpected_body")]))
  end.

Module ObjectBody.
(* [src: packages/domain/src/ports/services.ts:38-43 StoredObject] *)
Record t : Type := mk {
  body : list Z;
  contentType : string;
  sha256Digest : string;
  sizeBytes : Z
}.
End ObjectBody.

Section driver.
Context `{Env} `{!S3Client} (bucket : string).
Abbreviation Run := (M Exn s3).

(** [response.Metadata?.[META_DIGEST]]. *)
Definition meta_digest (m : option Metadata) : option string := m ≫= map_get META_DIGEST.

(* [src: packages/object-storage/src/s3-object-storage.ts:180-195 headDigest] *)
Definition headDigest (key : string) : Run (option string) :=
  catching (head ← caught (HeadObjectCommand bucket key);
            mret (meta_digest (HeadObjectOutput.Metadata head)))
    (λ error, if isNotFound error then mret None else throw (mapS3Error error "headObject")).

(** The part after the checks that all drivers share. *)
(* [src: packages/object-storage/src/s3-object-storage.ts:53-93 putObject] *)
Definition s3_putObject (input : PutObjectInput.t) : Run StoredObjectMetadata.t :=
  key ← lift (put_checks input);
  let sha256Digest := sha256Bytes (PutObjectInput.body input) in
  existingDigest ← headDigest key;
  match existingDigest with
  | Some digest =>
    if negb (String.eqb digest sha256Digest) then
      throw (IntegrityError (reasonOnly "immutable_key_conflict"))
    else mret (metadata_of key input)
  | None =>
    catching (caught (PutObjectCommand bucket (PutObjectCommand.mk key (PutObjectInput.body input)
                (PutObjectInput.contentType input) [(META_DIGEST, sha256Digest)])))
      (λ error, throw (mapS3Error error "putObject"));;
    mret (metadata_of key input)
  end.

(* [src: packages/object-storage/src/s3-object-storage.ts:95-128 getObject] *)
Definition s3_getObject (organizationId key : string) : Run (option ObjectBody.t) :=
  key ← lift (assertTenantObjectKey organizationId key);
  catching
    (response ← caught (GetObjectCommand bucket key);
     match GetObjectOutput.Body response with
     | None => mret None
     | Some stream =>
       body ← lift (streamToUint8Array stream);
       let metaDigest := meta_digest (GetObjectOutput.Metadata response) in
       let digest := sha256Bytes body in
       if match metaDigest with Some d => negb (String.eqb d digest) | None => false end
       then throw (Own digest_mismatch)
       else mret (Some (ObjectBody.mk body
              (default "application/octet-stream" (GetObjectOutput.ContentType response))
              (default digest metaDigest) (byteLength body)))
     end)
    (λ error, if isNotFound error then mret None else throw (mapS3Error error "getObject")).

(* [src: packages/object-storage/src/s3-object-storage.ts:130-145 deleteObject] *)
Definition s3_deleteObject (organizationId key : string) : Run unit :=
  key ← lift (assertTenantObjectKey organizationId key);
  if negb (startsWith ("org/" +:+ organizationId +:+ "/") key) then
    throw (IntegrityError (reasonOnly "object_key_tenant_mismatch"))
  else catching (caught (DeleteObjectCommand bucket key))
         (λ error, throw (mapS3Error error "deleteObject")).

(** The items of a page that are old enough. *)
Definition old_keys (olderThan : Z) (contents : list ListedObject.t) : list string :=
  omap (λ item, match ListedObject.Key item, ListedObject.LastModified item with
                | Some key, Some t => if (t <=? olderThan)%Z then Some key else None
                | _, _ => None
                end) contents.

(** The pages from a token on; nothing when there are more than [fuel]. *)
(* [src: packages/object-storage/src/s3-object-storage.ts:149-174 listKeys loop] *)
Fixpoint list_pages (fuel : nat) (prefix : string) (olderThan : Z) (continuationToken : option string) :
    Run (option (list string)) :=
  match fuel with
  | O => mret None
  | S fuel =>
    response ← catching (caught (ListObjectsV2Command bucket prefix continuationToken))
                 (λ error, throw (mapS3Error error "listKeys"));
    let keys := old_keys olderThan (default [] (ListObjectsV2Output.Contents response)) in
    match (if bool_decide (ListObjectsV2Output.IsTruncated response = Some true)
           then ListObjectsV2Output.NextContinuationToken response else None) with
    | Some token =>
      rest ← list_pages fuel prefix olderThan (Some token);
      mret ((λ rest, keys ++ rest)%list <$> rest)
    | None => mret (Some keys)
    end
  end.

(* [src: packages/object-storage/src/s3-object-storage.ts:147-176 listKeys] *)
Definition s3_listKeys (fuel : nat) (organizationId prefix : string) (olderThan : Z) :
    Run (option (list string)) :=
  prefix ← lift (tenantObjectKey organizationId prefix);
  list_pages fuel prefix olderThan None.
End driver.
