(* ===== verification/S3Rules.v ===== *)
(** What the S3 driver promises: it refines the in-memory object storage, whatever
    calls to the service fail; its listings are complete; what it reads is intact
    on any service. *)

From Stdlib Require Import String.
From stdpp Require Import gmap.
From S2P Require Export S3.
Local Open Scope string_scope.

(** ** What S3 documents *)

Module S3Object.
Record t : Type := mk { Body : list Z; ContentType : string; Metadata : Metadata; LastModified : Z }.
End S3Object.

(** A stream of these bytes; reading it may break off. *)
Inductive carries (l : list Z) : BodyStream → Prop :=
  | carries_transformable : carries l (Transformable (Ok l))
  | carries_bytes : carries l (Uint8Array l)
  | carries_chunks chunks : mjoin chunks = l → carries l (AsyncIterable (Ok chunks))
  | carries_broken e : isNotFound (Sdk e) = false → carries l (Transformable (Throw e))
  | carries_broken_chunks e : isNotFound (Sdk e) = false → carries l (AsyncIterable (Throw e)).

Definition listed (e : string * Z) : ListedObject.t := ListedObject.mk (Some e.1) (Some e.2).

Class S3Laws `{!S3Client} : Type := {
  (** The objects of a bucket, the listing of a prefix, and the place in it a
      continuation token stands for. *)
  stored_in : string → s3 → gmap string S3Object.t;
  listing : string → string → s3 → list (string * Z);
  place : s3 → option string → nat;
  place_start st : place st None = 0%nat;
  listing_nodup bucket prefix st : NoDup (listing bucket prefix st).*1;
  listing_objects bucket prefix st k t :
    (k, t) ∈ listing bucket prefix st ↔
    ∃ x, stored_in bucket st !! k = Some x ∧ startsWith prefix k = true ∧ S3Object.LastModified x = t;
  head_law bucket key st :
    match HeadObjectCommand bucket key st with
    | (Ok head, st') => stored_in bucket st' = stored_in bucket st ∧
        ∃ x, stored_in bucket st !! key = Some x ∧
          HeadObjectOutput.Metadata head = Some (S3Object.Metadata x)
    | (Throw e, st') => stored_in bucket st' = stored_in bucket st ∧
        (isNotFound (Sdk e) = true → stored_in bucket st !! key = None)
    end;
  get_law bucket key st :
    match GetObjectCommand bucket key st with
    | (Ok answer, st') => stored_in bucket st' = stored_in bucket st ∧
        ∃ x stream, stored_in bucket st !! key = Some x ∧
          GetObjectOutput.Body answer = Some stream ∧ carries (S3Object.Body x) stream ∧
          GetObjectOutput.ContentType answer = Some (S3Object.ContentType x) ∧
          GetObjectOutput.Metadata answer = Some (S3Object.Metadata x)
    | (Throw e, st') => stored_in bucket st' = stored_in bucket st ∧
        (isNotFound (Sdk e) = true → stored_in bucket st !! key = None)
    end;
  put_law bucket c st :
    let put st' := ∃ t, stored_in bucket st' = <[PutObjectCommand.Key c := S3Object.mk
      (PutObjectCommand.Body c) (PutObjectCommand.ContentType c) (PutObjectCommand.Metadata c) t]>
      (stored_in bucket st) in
    match PutObjectCommand bucket c st with
    | (Ok _, st') => put st'
    | (Throw _, st') => stored_in bucket st' = stored_in bucket st ∨ put st'
    end;
  delete_law bucket key st :
    match DeleteObjectCommand bucket key st with
    | (Ok _, st') => stored_in bucket st' = delete key (stored_in bucket st)
    | (Throw _, st') => stored_in bucket st' = stored_in bucket st ∨
        stored_in bucket st' = delete key (stored_in bucket st)
    end;
  list_law bucket prefix token st :
    match ListObjectsV2Command bucket prefix token st with
    | (Ok page, st') =>
        (stored_in bucket st' = stored_in bucket st ∧
         listing bucket prefix st' = listing bucket prefix st ∧ place st' = place st) ∧
        ∃ n, default [] (ListObjectsV2Output.Contents page) =
               listed <$> take n (drop (place st token) (listing bucket prefix st)) ∧
          if bool_decide (ListObjectsV2Output.IsTruncated page = Some true)
          then ∃ next, ListObjectsV2Output.NextContinuationToken page = Some next ∧ (0 < n)%nat ∧
            place st (Some next) = (place st token + n)%nat ∧
            (place st token + n < length (listing bucket prefix st))%nat
          else (length (listing bucket prefix st) <= place st token + n)%nat
    | (Throw e, st') => stored_in bucket st' = stored_in bucket st
    end
}.

(** ** The chunks of a body *)

Lemma copy_at_end offset chunk out rest :
  length out = offset →
  copy_at offset chunk (out ++ replicate (length chunk + rest) 0%Z) =
  (out ++ chunk ++ replicate rest 0%Z)%list.
Proof.
  intros Hl. unfold copy_at. rewrite take_app_length', drop_app_ge by lia.  f_equal. f_equal.
  rewrite drop_replicate. f_equal. lia.
Qed.

(** The array the loops fill is the chunks one after another. *)
Lemma concatenated_join chunks : concatenated chunks = mjoin chunks.
Proof.
  unfold concatenated.
  enough (∀ out : list Z, (foldl (λ '(out, offset) chunk, (copy_at offset chunk out, (offset + length chunk)%nat))
    (out ++ replicate (list_sum (length <$> chunks)) 0%Z, length out)%list chunks).1 = (out ++ mjoin chunks)%list)
    as He by apply (He []).
  induction chunks as [|c chunks IH]; intros out; simpl; [by rewrite app_nil_r|].
  rewrite copy_at_end by done. specialize (IH (out ++ c)%list). rewrite length_app, <-app_assoc in IH.
  etrans; [exact IH|by rewrite <-app_assoc].
Qed.

Lemma carries_read l stream :
  carries l stream →
  streamToUint8Array stream = Ok l ∨
  ∃ e, streamToUint8Array stream = Throw (Sdk e) ∧ isNotFound (Sdk e) = false.
Proof.
  intros [| |chunks <-|e|e]; simpl; [by left|by left| |right; by exists e|right; by exists e].
  left. by rewrite concatenated_join.
Qed.

(** ** Reading what is on file, on any service *)

Section reads.
Context `{Env} `{!S3Client} (bucket : string).

Lemma catching_ok {S A} (m : M Caught S A) h s a s' :
  catching m h s = (Ok a, s') →
  m s = (Ok a, s') ∨ ∃ e s1, m s = (Throw e, s1) ∧ h e s1 = (Ok a, s').
Proof. unfold catching. destruct (m s) as [[x|e] s1]; intros Hr; [left; by injection Hr as -> ->|right; eauto]. Qed.

(** Reads are intact whatever the service answers: bytes that are returned
    have the digest and the size they are returned with, and come for the tenant
    that asked. *)
Theorem s3_reads_are_intact o k st x st' :
  s3_getObject bucket o k st = (Ok (Some x), st') →
  ObjectBody.sha256Digest x = sha256Bytes (ObjectBody.body x) ∧
  ObjectBody.sizeBytes x = byteLength (ObjectBody.body x) ∧
  startsWith ("org/" +:+ o +:+ "/") k = true.
Proof.
  unfold s3_getObject. intros Hrun. apply bind_ok in Hrun as (key & s1 & Hk & Hrun).
  unfold lift in Hk. injection Hk as Hk ->. apply assertTenantObjectKey_ok in Hk as (-> & _ & Hp & _).
  apply catching_ok in Hrun as [Hrun|(e & s2 & _ & He)]; [|by destruct (isNotFound e)].
  apply bind_ok in Hrun as (response & s2 & _ & Hrun).
  destruct (GetObjectOutput.Body response) as [stream|]; [|done].
  apply bind_ok in Hrun as (body & s3' & _ & Hrun).
  destruct (meta_digest _) as [d|]; simpl in Hrun.
  - destruct (String.eqb_spec d (sha256Bytes body)); [|done]. simpl in Hrun. by injection Hrun as <- _.
  - by injection Hrun as <- _.
Qed.
End reads.

(** ** Refinement of the in-memory storage *)

Section refinement.
Context `{Env} `{!S3Client} `{!S3Laws} (bucket : string).
Abbreviation filed := (stored_in bucket).

(** An object of the bucket is the object in memory, but for the times. *)
Definition same_object (x : S3Object.t) (o : StoredObject.t) : Prop :=
  S3Object.Body x = StoredObject.body o ∧ S3Object.ContentType x = StoredObject.contentType o ∧
  map_get META_DIGEST (S3Object.Metadata x) = Some (StoredObject.sha256Digest o) ∧
  StoredObject.sha256Digest o = sha256Bytes (StoredObject.body o) ∧
  StoredObject.sizeBytes o = byteLength (StoredObject.body o).
Definition mirrored (objects : gmap string S3Object.t) (s : St) : Prop := ∀ k,
  option_Forall2 same_object (objects !! k) (object_at k s.(Store.objects)).

Lemma mirrored_None m s k : mirrored m s → m !! k = None ↔ object_at k s.(objects) = None.
Proof. intros Hm. specialize (Hm k). by destruct Hm. Qed.
Lemma mirrored_Some m s k x :
  mirrored m s → m !! k = Some x → ∃ o, object_at k s.(objects) = Some o ∧ same_object x o.
Proof. intros Hm Hx. specialize (Hm k). rewrite Hx in Hm. inversion Hm; subst. by eexists. Qed.

Lemma mirrored_put m s key input t n :
  mirrored m s → object_at key s.(objects) = None →
  mirrored (<[key := S3Object.mk (PutObjectInput.body input) (PutObjectInput.contentType input)
      [(META_DIGEST, sha256Bytes (PutObjectInput.body input))] t]> m)
    (set_objects (s.(objects) ++ [(key, StoredObject.mk key (PutObjectInput.contentType input)
       (byteLength (PutObjectInput.body input)) (sha256Bytes (PutObjectInput.body input))
       (PutObjectInput.body input) n)]) (set_clockReads (S s.(clockReads)) s)).
Proof.
  intros Hm Hn k. simpl. rewrite object_at_app. simpl. destruct (String.eqb_spec key k) as [->|Hk].
  - rewrite lookup_insert_eq, Hn. by constructor.
  - rewrite lookup_insert_ne by done. specialize (Hm k).
    destruct Hm; by constructor.
Qed.

Lemma mirrored_delete m s key :
  mirrored m s →
  mirrored (delete key m) (set_objects (List.filter (λ e, negb (String.eqb e.1 key)) s.(objects)) s).
Proof.
  intros Hm k. simpl. rewrite object_at_filter. destruct (String.eqb_spec k key) as [->|Hk].
  - rewrite lookup_delete_eq. constructor.
  - rewrite lookup_delete_ne by done. apply Hm.
Qed.

(** The error of an operation of the service that has failed. *)
Definition storage_failure (e : Exn) : Prop := ∃ operation cause,
  e = ExternalServiceError [("service", VStr "object-storage"); ("reason", VStr "s3_operation_failed");
    ("operation", VStr operation); ("cause", VStr cause)].

Lemma sdk_failure e operation : storage_failure (mapS3Error (Sdk e) operation).
Proof. by exists operation, (s3_name e). Qed.

(** The calls, on S3 and in memory. *)
Inductive ObjectCall : Type → Type :=
  | Put (input : PutObjectInput.t) : ObjectCall StoredObjectMetadata.t
  | Get (organizationId key : string) : ObjectCall (option ObjectBody.t)
  | Delete (organizationId key : string) : ObjectCall unit.

Definition on_s3 {A} (c : ObjectCall A) : M Exn s3 A :=
  match c with
  | Put input => s3_putObject bucket input
  | Get o k => s3_getObject bucket o k
  | Delete o k => s3_deleteObject bucket o k
  end.
Definition view (o : StoredObject.t) : ObjectBody.t :=
  ObjectBody.mk (StoredObject.body o) (StoredObject.contentType o) (StoredObject.sha256Digest o)
    (StoredObject.sizeBytes o).
Definition in_memory {A} (c : ObjectCall A) : Store.Run A :=
  match c with
  | Put input => putObject input
  | Get o k => found ← getObject o k; mret (view <$> found)
  | Delete o k => deleteObject o k
  end.

Definition refines_call {A} (m : M Exn s3 A) (n : Store.Run A) (st : s3) (s : St) : Prop :=
  match m st with
  | (Ok a, st') => ∃ s', n s = (Ok a, s') ∧ mirrored (filed st') s'
  | (Throw e, st') =>
      (∃ s', n s = (Throw e, s') ∧ mirrored (filed st') s') ∨
      (storage_failure e ∧ (mirrored (filed st') s ∨ mirrored (filed st') (n s).2))
  end.

Lemma head_digest key st s :
  mirrored (filed st) s →
  match headDigest bucket key st with
  | (Ok d, st') => filed st' = filed st ∧ d = StoredObject.sha256Digest <$> object_at key s.(objects)
  | (Throw e, st') => filed st' = filed st ∧ storage_failure e
  end.
Proof.
  intros Hm. unfold headDigest, catching, caught, mbind, M_bind, mret, M_ret, throw.
  pose proof (head_law bucket key st) as Hl.
  destruct (HeadObjectCommand bucket key st) as [[head|e] st']; cbv beta iota zeta.
  - destruct Hl as (Hf & x & Hx & Hmd). split; [done|].
    destruct (mirrored_Some _ _ _ _ Hm Hx) as (o & -> & _ & _ & Hd & _). by rewrite Hmd.
  - destruct Hl as [Hf Hn]. destruct (isNotFound (Sdk e)) eqn:He; [|by split; [|apply sdk_failure]].
    split; [done|]. specialize (Hn eq_refl). apply (mirrored_None _ _ _ Hm) in Hn. by rewrite Hn.
Qed.

Lemma put_refines input st s :
  mirrored (filed st) s → refines_call (s3_putObject bucket input) (putObject input) st s.
Proof.
  intros Hm. unfold refines_call, s3_putObject, putObject, lift, mbind, M_bind.
  destruct (put_checks input) as [key|e]; [|left; by eexists].
  pose proof (head_digest key st s Hm) as Hh. unfold gets.
  destruct (headDigest bucket key st) as [[d|e] st']; destruct Hh as [Hf Hd].
  2: { right. split; [done|left]. by rewrite Hf. }
  subst d. destruct (object_at key (objects s)) as [o|] eqn:Ho; simpl.
  - destruct (String.eqb _ _); simpl.
    + exists s. split; [done|by rewrite Hf].
    + left. exists s. split; [done|by rewrite Hf].
  - unfold catching, caught, throw.
    match goal with |- context [PutObjectCommand _ ?c _] => pose proof (put_law bucket c st') as Hp end.
    cbv zeta in Hp. destruct (PutObjectCommand _ _ st') as [[[]|e] st'']; simpl in *.
    + destruct Hp as [t Hp]. eexists. split; [done|]. rewrite Hp, Hf. by apply mirrored_put.
    + right. split; [apply sdk_failure|]. destruct Hp as [Hp|[t Hp]]; [left; by rewrite Hp, Hf|].
      right. rewrite Hp, Hf. by apply mirrored_put.
Qed.

Lemma get_refines o k st s :
  mirrored (filed st) s → refines_call (on_s3 (Get o k)) (in_memory (Get o k)) st s.
Proof.
  intros Hm. unfold refines_call. simpl. unfold s3_getObject, getObject, lift, gets, mbind, M_bind.
  destruct (assertTenantObjectKey o k) as [key|e]; [|left; by eexists].
  unfold catching, caught, mret, M_ret, throw.
  pose proof (get_law bucket key st) as Hl.
  destruct (GetObjectCommand bucket key st) as [[answer|e] st']; cbv beta iota zeta.
  - destruct Hl as (Hf & x & stream & Hx & Hb & Hc & Hct & Hmd).
    destruct (mirrored_Some _ _ _ _ Hm Hx) as (x' & Ho & Hbody & Hct' & Hdig & Hd & Hsz).
    rewrite Hb. destruct (carries_read _ _ Hc) as [->|(e & -> & He)]; cbv beta iota zeta.
    + rewrite Hmd, Hct. simpl. rewrite Hdig, Hd, Hbody, String.eqb_refl. simpl.
      exists s. rewrite Ho. split; [|by rewrite Hf]. simpl. unfold view.
      by rewrite Hct', Hd, Hsz.
    + rewrite He. right. split; [apply sdk_failure|left; by rewrite Hf].
  - destruct Hl as [Hf Hn]. destruct (isNotFound (Sdk e)) eqn:He; simpl.
    + exists s. specialize (Hn eq_refl). apply (mirrored_None _ _ _ Hm) in Hn as ->.
      split; [done|by rewrite Hf].
    + right. split; [apply sdk_failure|left; by rewrite Hf].
Qed.

Lemma delete_refines o k st s :
  mirrored (filed st) s → refines_call (s3_deleteObject bucket o k) (deleteObject o k) st s.
Proof.
  intros Hm. unfold refines_call, s3_deleteObject, deleteObject, lift, mbind, M_bind.
  destruct (assertTenantObjectKey o k) as [key|e]; [|left; by eexists].
  destruct (negb _); [left; by exists s|].
  unfold catching, caught, modify, throw. pose proof (delete_law bucket key st) as Hl.
  destruct (DeleteObjectCommand bucket key st) as [[[]|e] st']; simpl in *.
  - eexists. split; [done|]. rewrite Hl. by apply mirrored_delete.
  - right. split; [apply sdk_failure|]. destruct Hl as [-> | ->]; [by left|right].
    by apply mirrored_delete.
Qed.

(** C30: objects in S3 are the objects in memory: a put, get or delete that
    returns, returns what the in-memory storage does and leaves the same objects;
    one that throws throws its error, or a failure of the service, after which the
    objects are those before or those after the call. *)
Theorem s3_refines_memory {A} (c : ObjectCall A) st s :
  mirrored (filed st) s →
  match on_s3 c st with
  | (Ok a, st') => ∃ s', in_memory c s = (Ok a, s') ∧ mirrored (filed st') s'
  | (Throw e, st') =>
      (∃ s', in_memory c s = (Throw e, s') ∧ mirrored (filed st') s') ∨
      (storage_failure e ∧ (mirrored (filed st') s ∨ mirrored (filed st') (in_memory c s).2))
  end.
Proof.
  intros Hm. destruct c; [by apply put_refines|by apply get_refines|by apply delete_refines].
Qed.
End refinement.

(** ** Listings *)

Section listings.
Context `{Env} `{!S3Client} `{!S3Laws} (bucket : string).

Lemma old_keys_listed t l :
  old_keys t (listed <$> l) = (List.filter (λ e, (e.2 <=? t)%Z) l).*1.
Proof.
  induction l as [|[k n] l IH]; [done|]. cbn. destruct (n <=? t)%Z; cbn; by rewrite <-IH.
Qed.

(** The keys from a place of the listing on. *)
Definition rest_of (prefix : string) (t : Z) (st : s3) (p : nat) : list string :=
  (List.filter (λ e, (e.2 <=? t)%Z) (drop p (listing bucket prefix st))).*1.

Lemma rest_of_page prefix t st p n :
  rest_of prefix t st p =
  (old_keys t (listed <$> take n (drop p (listing bucket prefix st))) ++ rest_of prefix t st (p + n))%list.
Proof.
  rewrite old_keys_listed. unfold rest_of. rewrite <-fmap_app, <-List.filter_app, <-drop_drop.
  by rewrite take_drop.
Qed.

Lemma list_pages_complete fuel prefix t token st :
  (place st token <= length (listing bucket prefix st))%nat →
  (length (listing bucket prefix st) < place st token + fuel)%nat →
  match list_pages bucket fuel prefix t token st with
  | (Ok keys, _) => keys = Some (rest_of prefix t st (place st token))
  | (Throw e, _) => storage_failure e
  end.
Proof.
  revert token st. induction fuel as [|fuel IH]; intros token st Hp Hf; [lia|]. simpl.
  unfold catching, caught, mbind, M_bind, mret, M_ret, throw.
  pose proof (list_law bucket prefix token st) as Hl.
  destruct (ListObjectsV2Command bucket prefix token st) as [[page|e] st']; [|apply sdk_failure].
  destruct Hl as ((Hs & Hli & Hpl) & n & Hc & Hn). rewrite Hc, (rest_of_page _ _ _ _ n).
  destruct (bool_decide _).
  - destruct Hn as (next & -> & Hpos & Hnext & Hlt).
    specialize (IH (Some next) st'). rewrite Hli, Hpl, Hnext in IH.
    destruct (list_pages bucket fuel prefix t (Some next) st') as [[keys|e] st''];
      [|apply IH; lia]. rewrite IH by lia. unfold rest_of. by rewrite Hli.
  - f_equal. unfold rest_of at 1. by rewrite (drop_ge _ (_ + n)), app_nil_r.
Qed.

(** C31: listings are complete and paging ends: with fuel for one page more than
    there are objects under the prefix, listing keys returns every key under it
    that was last modified by the given time, once each, and no other, unless the
    prefix is refused or the service fails. *)
Theorem s3_listing_complete fuel o p t st prefix :
  tenantObjectKey o p = Ok prefix →
  (length (listing bucket prefix st) < fuel)%nat →
  match s3_listKeys bucket fuel o p t st with
  | (Ok found, _) => ∃ keys, found = Some keys ∧ NoDup keys ∧ ∀ k, k ∈ keys ↔
      ∃ x, stored_in bucket st !! k = Some x ∧ startsWith prefix k = true ∧
        startsWith ("org/" +:+ o +:+ "/") k = true ∧ (S3Object.LastModified x <= t)%Z
  | (Throw e, _) => storage_failure e
  end.
Proof.
  intros Hp Hf. unfold s3_listKeys, lift, mbind, M_bind. rewrite Hp.
  pose proof (list_pages_complete fuel prefix t None st) as Hl. rewrite place_start in Hl.
  specialize (Hl ltac:(lia) ltac:(lia)).
  destruct (list_pages bucket fuel prefix t None st) as [[found|e] st']; [|exact Hl]. subst found.
  eexists. split; [done|]. unfold rest_of. rewrite drop_0. split.
  - pose proof (listing_nodup bucket prefix st) as Hnd. clear -Hnd.
    induction (listing bucket prefix st) as [|[k n] l IH]; [constructor|].
    apply NoDup_cons in Hnd as [Hk Hnd]. simpl. destruct (n <=? t)%Z; [|by apply IH].
    apply NoDup_cons. split; [|by apply IH]. intros (e & Heq & He)%list_elem_of_fmap. apply Hk.
    apply list_elem_of_In, List.filter_In in He as [He _]. apply list_elem_of_fmap. exists e.
    split; [exact Heq|by apply list_elem_of_In].
  - apply tenantObjectKey_accepted, assertTenantObjectKey_ok in Hp as (_ & _ & Hp & _).
    intros k. rewrite list_elem_of_fmap. split.
    + intros ([k' n] & -> & He%list_elem_of_In%List.filter_In). destruct He as [He Ht].
      apply list_elem_of_In, listing_objects in He as (x & Hx & Hk & <-). exists x.
      split_and!; [done|done| |by apply Z.leb_le].
      apply startsWith_iff in Hp as [y ->], Hk as [z ->]. simpl. rewrite append_assoc. apply startsWith_app.
    + intros (x & Hx & Hk & _ & Ht). exists (k, S3Object.LastModified x). split; [done|].
      apply list_elem_of_In, List.filter_In. split; [|by apply Z.leb_le].
      apply list_elem_of_In, listing_objects. by exists x.
Qed.
End listings.

(** ** A service that runs

    One bucket on a finite map, with a clock, and pages of two keys; a token is as
    long as the keys before its page are many. *)

Module OneBucket.
Record t : Type := mk { held : gmap string S3Object.t; now : Z }.

Definition not_found_error : S3Error := mkS3Error "NoSuchKey" (Some 404%Z).
Definition token_of (n : nat) : string := of_units (replicate n (char 120)).
Definition list_under (prefix : string) (st : t) : list (string * Z) :=
  omap (λ '(k, x), if startsWith prefix k then Some (k, S3Object.LastModified x) else None)
    (map_to_list (held st)).
Definition page_start (token : option string) : nat :=
  match token with Some token => String.length token | None => 0%nat end.

#[export] Instance client : S3Client := {|
  s3 := t;
  HeadObjectCommand _ key st :=
    (match held st !! key with
     | Some x => Ok (HeadObjectOutput.mk (Some (S3Object.Metadata x)))
     | None => Throw (mkS3Error "NotFound" (Some 404%Z))
     end, st);
  GetObjectCommand _ key st :=
    (match held st !! key with
     | Some x => Ok (GetObjectOutput.mk
         (Some (AsyncIterable (Ok [take 2 (S3Object.Body x); drop 2 (S3Object.Body x)])))
         (Some (S3Object.ContentType x)) (Some (S3Object.Metadata x)))
     | None => Throw not_found_error
     end, st);
  PutObjectCommand _ c st :=
    (Ok tt, mk (<[PutObjectCommand.Key c := S3Object.mk (PutObjectCommand.Body c)
      (PutObjectCommand.ContentType c) (PutObjectCommand.Metadata c) (now st)]> (held st)) (now st + 1));
  DeleteObjectCommand _ key st := (Ok tt, mk (delete key (held st)) (now st));
  ListObjectsV2Command _ prefix token st :=
    let l := list_under prefix st in
    let p := page_start token in
    (Ok (ListObjectsV2Output.mk (Some (listed <$> take 2 (drop p l)))
           (Some (p + 2 <? length l)%nat) (Some (token_of (p + 2)))), st)
|}.

Lemma token_length n : String.length (token_of n) = n.
Proof. unfold token_of, of_units. induction n as [|n IH]; [done|]. simpl. by f_equal. Qed.

Lemma list_under_elem prefix st k n :
  (k, n) ∈ list_under prefix st ↔
  ∃ x, held st !! k = Some x ∧ startsWith prefix k = true ∧ S3Object.LastModified x = n.
Proof.
  unfold list_under. rewrite list_elem_of_omap. split.
  - intros ([k' x] & Hx%elem_of_map_to_list & He). destruct (startsWith prefix k') eqn:Hp; [|done].
    injection He as <- <-. by exists x.
  - intros (x & Hx & Hp & <-). exists (k, x). rewrite Hp. split; [by apply elem_of_map_to_list|done].
Qed.

Lemma list_under_nodup prefix st : NoDup (list_under prefix st).*1.
Proof.
  unfold list_under. pose proof (NoDup_fst_map_to_list (held st)) as Hnd.
  induction (map_to_list (held st)) as [|[k x] l IH]; [constructor|].
  apply NoDup_cons in Hnd as [Hk Hnd]. simpl. destruct (startsWith prefix k); [|by apply IH].
  apply NoDup_cons. split; [|by apply IH]. intros ([k' n] & Heq & He)%list_elem_of_fmap.
  apply list_elem_of_omap in He as ([k2 y] & Hy & Hsome). destruct (startsWith prefix k2); [|done].
  injection Hsome as -> _. apply Hk, list_elem_of_fmap. exists (k', y). split; [exact Heq|done].
Qed.

Lemma next_page l (n : nat) :
  if bool_decide (Some (n + 2 <? length l)%nat = Some true)
  then ∃ next, Some (token_of (n + 2)) = Some next ∧ (0 < 2)%nat ∧
    page_start (Some next) = (n + 2)%nat ∧ (n + 2 < length (l : list (string * Z)))%nat
  else (length l <= n + 2)%nat.
Proof.
  destruct (n + 2 <? length l)%nat eqn:Hl; simpl.
  - apply Nat.ltb_lt in Hl. exists (token_of (n + 2)). split_and!; [done|lia|apply token_length|done].
  - by apply Nat.ltb_ge in Hl.
Qed.

#[export] Instance laws : S3Laws.
Proof.
  refine {| stored_in := λ _ st, held st; listing := λ _ prefix st, list_under prefix st;
            place := λ _, page_start |}; intros.
  - done.
  - apply list_under_nodup.
  - apply list_under_elem.
  - cbn. destruct (held st !! key) as [x|]; (split; [done|]); [by exists x|done].
  - cbn. destruct (held st !! key) as [x|]; (split; [done|]); [|done].
    eexists x, _. split_and!; [done..| |done|done]. constructor. simpl.
    by rewrite app_nil_r, take_drop.
  - cbn. by exists (now st).
  - cbn. done.
  - cbn -[next_page]. split; [done|]. exists 2%nat. split; [done|]. apply next_page.
Defined.
End OneBucket.

(** ** Runs on that service *)

#[local] Existing Instances Sample.env OneBucket.client OneBucket.laws.

Definition small (name : string) (l : list Z) : PutObjectInput.t :=
  PutObjectInput.mk (Sample.uuid 1) ("revisions/" +:+ name) l "application/pdf" (Some 10%Z) None.
Definition small_key (name : string) : string := "org/" +:+ Sample.uuid 1 +:+ "/revisions/" +:+ name.

Definition puts (inputs : list PutObjectInput.t) (st : s3) : s3 :=
  foldl (λ st input, (s3_putObject "documents" input st).2) st inputs.
Definition empty_bucket : s3 := OneBucket.mk ∅ 5.
Definition three_objects : s3 := Eval vm_compute in
  puts [small "a" [1; 2; 3]; small "b" [4]; small "c" []]%Z empty_bucket.

Lemma empty_mirrored : mirrored (stored_in "documents" empty_bucket) empty_store.
Proof. intros k. constructor. Qed.

Lemma s3_refines_memory_witness :
  match on_s3 "documents" (Put (small "a" [1; 2; 3]%Z)) empty_bucket with
  | (Ok a, st') => ∃ s', in_memory (Put (small "a" [1; 2; 3]%Z)) empty_store = (Ok a, s') ∧
      mirrored (stored_in "documents" st') s'
  | (Throw e, st') =>
      (∃ s', in_memory (Put (small "a" [1; 2; 3]%Z)) empty_store = (Throw e, s') ∧
         mirrored (stored_in "documents" st') s') ∨
      (storage_failure e ∧ (mirrored (stored_in "documents" st') empty_store ∨
         mirrored (stored_in "documents" st') (in_memory (Put (small "a" [1; 2; 3]%Z)) empty_store).2))
  end.
Proof.
  exact (s3_refines_memory "documents" (Put (small "a" [1; 2; 3]%Z)) empty_bucket empty_store
    empty_mirrored).
Defined.

Lemma s3_reads_are_intact_witness :
  ∃ x, s3_getObject "documents" (Sample.uuid 1) (small_key "a") three_objects =
         (Ok (Some x), three_objects) ∧
    ObjectBody.sha256Digest x = sha256Bytes (ObjectBody.body x) ∧
    ObjectBody.sizeBytes x = byteLength (ObjectBody.body x) ∧
    startsWith ("org/" +:+ Sample.uuid 1 +:+ "/") (small_key "a") = true.
Proof.
  eexists. split; [vm_compute; reflexivity|].
  eapply (s3_reads_are_intact "documents" (Sample.uuid 1) (small_key "a") three_objects).
  vm_compute. reflexivity.
Defined.

Lemma s3_listing_complete_witness :
  match s3_listKeys "documents" 4 (Sample.uuid 1) "revisions/" 6 three_objects with
  | (Ok found, _) => ∃ keys, found = Some keys ∧ NoDup keys ∧ ∀ k, k ∈ keys ↔
      ∃ x, stored_in "documents" three_objects !! k = Some x ∧ startsWith (small_key "") k = true ∧
        startsWith ("org/" +:+ Sample.uuid 1 +:+ "/") k = true ∧ (S3Object.LastModified x <= 6)%Z
  | (Throw e, _) => storage_failure e
  end.
Proof.
  apply (s3_listing_complete "documents" 4 (Sample.uuid 1) "revisions/" 6 three_objects (small_key "")).
  - vm_compute. reflexivity.
  - vm_compute. lia.
Defined.

(** Two pages; the third object is too young. *)
Example pages_listed :
  match s3_listKeys "documents" 4 (Sample.uuid 1) "revisions/" 6 three_objects with
  | (Ok (Some keys), _) => length keys
  | _ => 0%nat
  end = 2%nat.
Proof. vm_compute. reflexivity. Qed.

(** ** What the driver does not promise *)

(** The look-up and the write of a put are two calls: of two puts of one key, each
    may find it free, and the object of the first is overwritten after its put has
    returned. *)
Definition two_puts (key : string) : M Exn s3 (option string * option string) :=
  let put l := PutObjectCommand "documents" (PutObjectCommand.mk key l "application/pdf"
    [(META_DIGEST, sha256Bytes l)]) in
  first ← headDigest "documents" key;
  second ← headDigest "documents" key;
  catching (caught (put [1; 2; 3]%Z)) (λ e, throw (mapS3Error e "putObject"));;
  catching (caught (put [9]%Z)) (λ e, throw (mapS3Error e "putObject"));;
  mret (first, second).

Lemma concurrent_puts_overwrite :
  let '(answer, st) := two_puts (small_key "a") empty_bucket in
  (answer, S3Object.Body <$> stored_in "documents" st !! small_key "a") =
  (Ok (None, None), Some [9]%Z).
Proof. vm_compute. reflexivity. Qed.

(** An object without the driver's metadata counts as absent, and is overwritten. *)
Lemma unlabelled_object_overwritten :
  let st := OneBucket.mk {[small_key "a" := S3Object.mk [7; 7]%Z "application/pdf" [] 1]} 5 in
  S3Object.Body <$>
    stored_in "documents" (s3_putObject "documents" (small "a" [1; 2; 3]%Z) st).2 !! small_key "a" =
  Some [1; 2; 3]%Z.
Proof. vm_compute. reflexivity. Qed.
