(* ===== verification/SigningClient.v ===== *)
(** The way from the signer's page to the API: the calls of
    [apps/web/src/signing/signing-api.ts], the proxy of
    [apps/web/src/app/signing/api/] they go through, and the screens of
    [apps/web/src/signing/status.ts].

    The browser's and Next's [fetch] are not part of the program: the calls are
    the requests they make of it and what they make of its answers.  Header names
    are in lower case, as [Headers] has them; the body of a request is the JSON
    value it holds. *)

From Stdlib Require Import String Ascii.
From S2P Require Export Pad Routes.
Local Open Scope string_scope.

(** ** The proxy *)

(* [src: packages/contracts/src/auth.ts:5-5 ACCOUNT_CSRF_HEADER_NAME_DEFAULT] *)
Definition ACCOUNT_CSRF_HEADER_NAME_DEFAULT : string := "x-csrf-token".
(* [src: packages/contracts/src/documents.ts:3-3 IDEMPOTENCY_KEY_HEADER] *)
Definition IDEMPOTENCY_KEY_HEADER : string := "idempotency-key".
(* [src: packages/contracts/src/documents.ts:194-194 SIGNING_CSRF_COOKIE_NAME_DEFAULT] *)
Definition SIGNING_CSRF_COOKIE_NAME_DEFAULT : string := "esign_sign_csrf".

(* [src: apps/web/src/app/signing/api/_proxy.ts:5-15 ALLOWED_SIGNING_PATHS] *)
Definition ALLOWED_SIGNING_PATHS : list string :=
  ["exchange"; "session"; "document"; "fields"; "consent"; "previews"; "viewed"; "decline";
   "complete"].

(* [src: apps/web/src/app/signing/api/_proxy.ts:17-23 isAllowedSigningPath] *)
Definition isAllowedSigningPath (parts : list string) : bool :=
  match parts with
  | [first] => bool_decide (first ∈ ALLOWED_SIGNING_PATHS)
  | _ => false
  end.

Module FetchRequest.
(** What [fetch] is asked for, and what a handler of Next is given; [origin] is
    that of the URL. *)
Record t : Type := mk {
  origin : string;
  path : string;
  method : string;
  headers : list (string * string);
  body : option value
}.
End FetchRequest.

Module FetchResponse.
(** [json] is the value the body parses into, when it does. *)
Record t : Type := mk {
  status : Z;
  headers : list (string * string);
  setCookies : list string;
  json : option value
}.
Definition ok (r : t) : bool := ((200 <=? status r) && (status r <=? 299))%Z.
End FetchResponse.

(* [src: apps/web/src/app/signing/api/_proxy.ts:99-104 copyHeader] *)
Definition copyHeader (from : FetchRequest.t) (name : string) (to : list (string * string)) :
    list (string * string) :=
  match map_get name (FetchRequest.headers from) with
  | None | Some EmptyString => to
  | Some v => map_set name v to
  end.

(* [src: apps/web/src/app/signing/api/_proxy.ts:31-46 buildUpstreamSigningHeaders] *)
Definition buildUpstreamSigningHeaders (request : FetchRequest.t) (origin : string) :
    list (string * string) :=
  let headers := foldl (λ headers name, copyHeader request name headers) []
    ["cookie"; "content-type"; ACCOUNT_CSRF_HEADER_NAME_DEFAULT; "x-preview-token";
     "x-correlation-id"; IDEMPOTENCY_KEY_HEADER; "user-agent"] in
  let headers :=
    match trim <$> map_get "x-real-ip" (FetchRequest.headers request) with
    | None | Some EmptyString => headers
    | Some realIp => map_set "x-forwarded-for" realIp headers
    end in
  map_set "origin" origin headers.

Definition web_error (code message : string) : value :=
  VObj [("error", VObj [("code", VStr code); ("message", VStr message);
                        ("correlationId", VStr "web-proxy")])].

(** [toUpperCase]. *)
Definition upper_char (c : Ascii.ascii) : Ascii.ascii :=
  if ((97 <=? code c) && (code c <=? 122))%Z then char (code c - 32) else c.
Definition toUpperCase (s : string) : string := of_units (upper_char <$> units s).

(** The request to the API. *)
(* [src: apps/web/src/app/signing/api/_proxy.ts:48-66 proxyToApi request] *)
Definition upstream_request (baseUrl : string) (request : FetchRequest.t) (apiPath : string) :
    FetchRequest.t :=
  let method := toUpperCase (FetchRequest.method request) in
  FetchRequest.mk baseUrl apiPath method
    (buildUpstreamSigningHeaders request (FetchRequest.origin request))
    (if bool_decide (method ∈ ["GET"; "HEAD"]) then None else FetchRequest.body request).

(** What the browser gets: the API's answer with its cookies, or that there was
    none. *)
(* [src: apps/web/src/app/signing/api/_proxy.ts:57-97 proxyToApi response] *)
Definition proxied (upstream : option FetchResponse.t) : FetchResponse.t :=
  match upstream with
  | None => FetchResponse.mk 503 [("cache-control", "no-store"); ("referrer-policy", "no-referrer")] []
      (Some (web_error "external_service" "The signing service is temporarily unavailable."))
  | Some upstream =>
    FetchResponse.mk (FetchResponse.status upstream)
      (match map_get "content-type" (FetchResponse.headers upstream) with
       | Some t => [("content-type", t)] | None => [] end ++
       [("cache-control", "no-store, no-cache, must-revalidate, private"); ("pragma", "no-cache");
        ("referrer-policy", "no-referrer")])%list
      (FetchResponse.setCookies upstream) (FetchResponse.json upstream)
  end.

(* [src: apps/web/src/app/signing/api/_proxy.ts:48-97 proxyToApi] *)
Definition proxyToApi (baseUrl : string) (fetch : FetchRequest.t → option FetchResponse.t)
    (request : FetchRequest.t) (apiPath : string) : FetchResponse.t :=
  proxied (fetch (upstream_request baseUrl request apiPath)).

Definition web_not_found : FetchResponse.t :=
  FetchResponse.mk 404 [("cache-control", "no-store")] [] (Some (web_error "not_found" "Not found.")).

(* [src: apps/web/src/app/signing/api/[...path]/route.ts:18-46 handle] *)
Definition handle_signing (baseUrl : string) (fetch : FetchRequest.t → option FetchResponse.t)
    (request : FetchRequest.t) (path : list string) : FetchResponse.t :=
  if isAllowedSigningPath path then
    match path with
    | first :: _ => proxyToApi baseUrl fetch request ("/signing/" +:+ first)
    | [] => web_not_found
    end
  else web_not_found.

(* [src: apps/web/src/app/signing/api/document-previews/[grantId]/route.ts:11-27 GET] *)
Definition handle_preview `{Env} (baseUrl : string) (fetch : FetchRequest.t → option FetchResponse.t)
    (request : FetchRequest.t) (grantId : string) : FetchResponse.t :=
  if zod_uuid grantId then proxyToApi baseUrl fetch request ("/document-previews/" +:+ grantId)
  else web_not_found.

(** ** Failures and screens *)

Module SigningRequestError.
(* [src: apps/web/src/signing/signing-api.ts:23-33 SigningRequestError] *)
Record t : Type := mk {
  authentication : bool;
  network : bool;
  forbidden : bool;
  correlationId : value
}.
End SigningRequestError.

(** What a call may reject with. *)
Inductive CallFailure : Type :=
  | RequestError (e : SigningRequestError.t)
  | OtherFailure.

Module Screen.
(* [src: apps/web/src/signing/status.ts:1-12 SigningScreen] *)
Inductive t : Type :=
  | bootstrapping | unavailable | expired | revoked | declined | completed | error | network_error
  | ready | review | submitting.
#[global] Instance eq_dec : EqDecision t.
Proof. solve_decision. Defined.
End Screen.

(** [None] is the workspace.  A date that does not parse is NaN, which is not at
    most anything. *)
(* [src: apps/web/src/signing/status.ts:14-31 screenFromSession] *)
Definition screenFromSession `{Env} (session : SignerSessionView.t) (nowIso : string) : option Screen.t :=
  match SignerSessionView.signerStatus session with
  | SignerStatus.declined => Some Screen.declined
  | SignerStatus.signed => Some Screen.completed
  | SignerStatus.pending =>
    match parse_date (SignerSessionView.expiresAt session), parse_date nowIso with
    | Some t, Some now => if (t <=? now)%Z then Some Screen.expired else None
    | _, _ => None
    end
  end.

(* [src: apps/web/src/signing/status.ts:33-45 screenFromFailure] *)
Definition screenFromFailure (authentication network hadSession : bool) : Screen.t :=
  if network then Screen.network_error
  else if authentication then (if hadSession then Screen.revoked else Screen.unavailable)
  else Screen.error.

(** ** The calls *)

Section calls.
Context `{Env} (datetime : string → bool) (decodeURIComponent : string → Result Exn string).
(** The page's origin and [document.cookie]. *)
Context (origin documentCookie : string).

(* [src: apps/web/src/signing/signing-api.ts:58-58 API_PREFIX] *)
Definition API_PREFIX : string := "/signing/api".

(* [src: apps/web/src/signing/csrf.ts:22-27 readSigningCsrfToken] *)
Definition readSigningCsrfToken (cookieHeader : string) : Result Exn (option string) :=
  readCookie decodeURIComponent SIGNING_CSRF_COOKIE_NAME_DEFAULT cookieHeader.

(** The request of a call; reading the cookie may throw. *)
(* [src: apps/web/src/signing/signing-api.ts:150-173 signingFetch] *)
Definition signingFetch (path method : string) (headers : list (string * string)) (body : option value) :
    Result Exn FetchRequest.t :=
  headers ←
    (if String.eqb method "GET" then Ok headers else
     csrf ← readSigningCsrfToken documentCookie;
     let headers := match csrf with Some csrf => map_set "x-csrf-token" csrf headers | None => headers end in
     Ok (match body, map_get "content-type" headers with
         | Some _, None => map_set "content-type" "application/json" headers
         | _, _ => headers
         end));
  Ok (FetchRequest.mk origin (API_PREFIX +:+ path) method headers body).

(** [body.error?.correlationId]. *)
Definition error_correlation (json : option value) : value :=
  match json with Some v => member "correlationId" (member "error" v) | None => VUndef end.

(* [src: apps/web/src/signing/signing-api.ts:175-194 assertOk] *)
Definition assertOk (response : FetchResponse.t) : Result CallFailure unit :=
  if FetchResponse.ok response then Ok tt else
  let status := FetchResponse.status response in
  Throw (RequestError (SigningRequestError.mk (status =? 401)%Z ((502 <=? status) || (status =? 408))%Z
    (status =? 403)%Z (error_correlation (FetchResponse.json response)))).

(** A call of [fetch] that fails. *)
Definition fetch_failed : CallFailure :=
  RequestError (SigningRequestError.mk false true false VUndef).

(** [response.json()] and a schema's [parse]. *)
Definition answered (response : option FetchResponse.t) : Result CallFailure FetchResponse.t :=
  match response with
  | None => Throw fetch_failed
  | Some response => assertOk response ≫= λ _, Ok response
  end.
Definition parsed_json {A} (s : schema) (read : value → A) (response : option FetchResponse.t) :
    Result CallFailure A :=
  response ← answered response;
  match FetchResponse.json response ≫= safe_parse s read with
  | Some a => Ok a
  | None => Throw OtherFailure
  end.

Definition read_mode (v : value) : SigningMode.t :=
  if String.eqb (str_of v) "parallel" then SigningMode.parallel else SigningMode.ordered.
Definition read_status (v : value) : SignerStatus.t :=
  if String.eqb (str_of v) "signed" then SignerStatus.signed
  else if String.eqb (str_of v) "declined" then SignerStatus.declined else SignerStatus.pending.
Definition read_type (v : value) : SignatureFieldType.t :=
  default SignatureFieldType.signature
    (List.find (λ t, String.eqb (SignatureFieldType.to_string t) (str_of v)) SignatureFieldType.all).
Definition read_bool (v : value) : bool := default false (opt_bool v).

Definition read_session (v : value) : SignerSessionView.t :=
  let text k := str_of (member k v) in
  SignerSessionView.mk (text "documentId") (text "signerId") (text "sessionId") (text "sessionStatus")
    (text "title") (read_mode (member "signingMode" v)) (text "expiresAt") (text "signerDisplayName")
    (read_status (member "signerStatus" v)) (read_bool (member "consentRequired" v))
    (read_bool (member "consented" v)).
Definition read_document (v : value) : SignerDocumentView.t :=
  let text k := str_of (member k v) in
  SignerDocumentView.mk (text "documentId") (text "title") (read_mode (member "signingMode" v))
    (match member "pageCount" v with VNum (NInt n) => Some n | _ => None end) (text "signerDisplayName").
Definition read_field (v : value) : SignerFieldView.t :=
  let number k := num_of (member k v) in
  SignerFieldView.mk (str_of (member "fieldId" v)) (read_type (member "type" v)) (number "pageNumber")
    (number "x") (number "y") (number "width") (number "height") (read_bool (member "required" v)).
Definition read_consent_view (v : value) : SignerConsentView.t :=
  let text k := str_of (member k v) in
  SignerConsentView.mk (text "copyId") (text "version") (text "title") (text "text")
    (read_bool (member "required" v)) (read_bool (member "accepted" v)).

(** What a call answers with. *)
(* [src: apps/web/src/signing/signing-api.ts:62-70 exchange] *)
Definition exchange_request (token : string) : Result Exn FetchRequest.t :=
  signingFetch "/exchange" "POST" [] (Some (VObj [("token", VStr token)])).
Definition no_content (response : option FetchResponse.t) : Result CallFailure unit :=
  answered response ≫= λ _, Ok tt.
(* [src: apps/web/src/signing/signing-api.ts:71-75 getSession] *)
Definition getSession (response : option FetchResponse.t) : Result CallFailure SignerSessionView.t :=
  parsed_json (signerSessionResponseSchema datetime) read_session response.
(* [src: apps/web/src/signing/signing-api.ts:76-80 getDocument] *)
Definition getDocument (response : option FetchResponse.t) : Result CallFailure SignerDocumentView.t :=
  parsed_json signerDocumentResponseSchema read_document response.
(* [src: apps/web/src/signing/signing-api.ts:81-85 getFields] *)
Definition getFields (response : option FetchResponse.t) : Result CallFailure (list SignerFieldView.t) :=
  parsed_json signerFieldsResponseSchema (λ v, read_field <$> list_of (member "fields" v)) response.
(* [src: apps/web/src/signing/signing-api.ts:86-90 getConsent] *)
Definition getConsent (response : option FetchResponse.t) : Result CallFailure SignerConsentView.t :=
  parsed_json signerConsentResponseSchema read_consent_view response.

(** The members are taken as they come. *)
(* [src: apps/web/src/signing/signing-api.ts:91-101 issuePreview] *)
Definition issuePreview (response : option FetchResponse.t) : Result CallFailure (string * string * string) :=
  response ← answered response;
  match FetchResponse.json response with
  | Some v => Ok (str_of (member "url" v), str_of (member "tokenHeader" v), str_of (member "token" v))
  | None => Throw OtherFailure
  end.
(* [src: apps/web/src/signing/signing-api.ts:102-118 fetchPreviewBlob] *)
Definition preview_request (url tokenHeader token : string) : Result CallFailure FetchRequest.t :=
  match last (split "/"%char url) with
  | None | Some EmptyString =>
    Throw (RequestError (SigningRequestError.mk false false false VUndef))
  | Some grantId =>
    Ok (FetchRequest.mk origin (API_PREFIX +:+ "/document-previews/" +:+ grantId) "GET"
      [(toLowerCase tokenHeader, token)] None)
  end.

(* [src: apps/web/src/signing/signing-api.ts:119-122 recordViewed] *)
Definition viewed_request : Result Exn FetchRequest.t := signingFetch "/viewed" "POST" [] None.
(* [src: apps/web/src/signing/signing-api.ts:123-129 recordConsent] *)
Definition consent_request (copyId : string) : Result Exn FetchRequest.t :=
  signingFetch "/consent" "POST" [] (Some (VObj [("copyId", VStr copyId); ("accepted", VBool true)])).
(* [src: apps/web/src/signing/signing-api.ts:130-136 decline] *)
Definition decline_request (reason : option string) : Result Exn FetchRequest.t :=
  signingFetch "/decline" "POST" [] (Some (VObj
    (match reason with
     | None => []
     | Some reason => if String.eqb (trim reason) EmptyString then [] else [("reason", VStr reason)]
     end))).
(* [src: apps/web/src/signing/signing-api.ts:137-146 complete] *)
Definition complete_request (request : value) (idempotencyKey : string) : Result Exn FetchRequest.t :=
  signingFetch "/complete" "POST" [("idempotency-key", idempotencyKey)] (Some request).
Definition complete_answer (response : option FetchResponse.t) : Result CallFailure bool :=
  response ← answered response;
  match FetchResponse.json response with
  | Some v => Ok (String.eqb (str_of (member "status" v)) "pending")
  | None => Throw OtherFailure
  end.
End calls.
