(* ===== verification/SigningPage.v ===== *)
(** The signer's page: the component of [apps/web/src/signing/SignerApp.tsx] as a
    machine that answers events.

    The page is its React state and refs.  An event is a click the page offers, the
    end of something it awaits, the expiry timer, or its removal; between two
    events its code runs alone.  What an asynchronous function still has to do when
    it awaits is a [Task], with what it has captured, so that any number of them may
    be under way and be resumed in any order.  [log] records the calls of the API,
    what was heard of them, and each wiping of what is sensitive.  Drawing and
    encoding images, the clock and random keys are the browser's. *)

From Stdlib Require Import String.
From coqutil Require Import Datatypes.RecordSetters.
From S2P Require Export SigningClient.
Import DoubleBraceUpdate.
Local Open Scope string_scope.

(** ** The state *)

Module Page.
(* [src: apps/web/src/signing/SignerApp.tsx:40-67 SignerApp state] *)
Record t : Type := mk {
  screen : Screen.t;
  session : option SignerSessionView.t;
  signingDocument : option SignerDocumentView.t;
  fields : list SignerFieldView.t;
  consent : option SignerConsentView.t;
  previewUrl : option string;
  previewFailed : bool;
  signature : PadState.t;
  initials : PadState.t;
  intentToSign : bool;
  currentFieldIndex : Z;
  busy : bool;
  correlationId : value;
  declineOpen : bool;
  declineReason : string;
  signaturePreview : option string;
  (* refs *)
  pendingToken : option string;
  hadSession : bool;
  previewUrlRef : option string;
  signaturePreviewRef : option string;
  idempotencyKey : option string;
  cancelled : bool;
  retrySubmit : bool;
  signatureCapture : option InkCapture.t;
  initialsCapture : option InkCapture.t
}.
Definition initial : t :=
  mk Screen.bootstrapping None None [] None None false PadState.empty PadState.empty false 0 false
    VUndef false EmptyString None None false None None None false false None None.
End Page.
Import Page(screen, session, signingDocument, fields, consent, previewUrl, previewFailed, signature,
  initials, intentToSign, currentFieldIndex, busy, correlationId, declineOpen, declineReason,
  signaturePreview, pendingToken, hadSession, previewUrlRef, signaturePreviewRef, idempotencyKey,
  cancelled, retrySubmit, signatureCapture, initialsCapture).

(** The calls of the API. *)
Inductive Call : Type :=
  | Exchange (token : string)
  | GetSession
  | GetWorkspace
  | RecordViewed
  | IssuePreview
  | FetchPreview (url tokenHeader token : string)
  | RecordConsent (copyId : string)
  | Decline (reason : option string)
  | Complete (request : value) (idempotencyKey : string).

(** Where an asynchronous function awaits, with what it has captured. *)
Inductive Task : Type :=
  | Exchanging
  | LoadingSession
  | LoadingWorkspace
  | OpeningPreview
  | FetchingPreview
  | RecordingConsent (consent : SignerConsentView.t)
  | CapturingSignature (fields : list SignerFieldView.t) (signature initials : PadState.t)
  | PreviewingSignature (fields : list SignerFieldView.t) (initials : PadState.t)
  | CapturingInitials (initials : PadState.t)
  | Completing
  | AwaitingCompletion (attempt : nat)
  | Pausing (attempt : nat)
  | Declining.

(** What an awaited promise settles with; [now] is [Date.now()], [nowIso] what
    [nowFn()] gives then. *)
Inductive Settled : Type :=
  | Rejected (e : CallFailure)
  | Done
  | GotSession (session : SignerSessionView.t) (nowIso : string) (now : Z)
  | GotWorkspace (document : SignerDocumentView.t) (fields : list SignerFieldView.t)
      (consent : SignerConsentView.t)
  | GotGrant (url tokenHeader token : string)
  | GotUrl (objectUrl : string)
  | GotImage (pngBase64 : string)
  | GotCompletion (pending : bool).

Inductive Entry : Type :=
  | Called (c : Call)
  | Heard (t : Task) (r : Settled)
  | Wiped.

Module App.
(** The page with what runs beside it: the token in the address bar, the expiry
    timer, the tasks, the log, the keys drawn and the object URLs revoked. *)
Record t : Type := mk {
  page : Page.t;
  location : option string;
  armed : bool;
  tasks : list Task;
  log : list Entry;
  keys : nat;
  revoked : list string
}.
Definition initial (location : option string) : t := mk Page.initial location false [] [] 0 [].
End App.
Import App(page, location, armed, tasks, log, keys, revoked).

Definition on_page (f : Page.t → Page.t) (s : App.t) : App.t := s {{ page := f (page s) }}.
Definition record (e : Entry) (s : App.t) : App.t := s {{ log := (log s ++ [e])%list }}.
Definition await (t : Task) (s : App.t) : App.t := s {{ tasks := (tasks s ++ [t])%list }}.
Definition call (c : Call) (s : App.t) : App.t := record (Called c) s.
(** [if (ref.current !== undefined) URL.revokeObjectURL(ref.current)]. *)
Definition revoke (ref : Page.t → option string) (s : App.t) : App.t :=
  match ref (page s) with
  | Some url => s {{ revoked := (revoked s ++ [url])%list }}
  | None => s
  end.

(** ** The functions of the component *)

Section component.
Context `{Env}.

(* [src: apps/web/src/signing/SignerApp.tsx:181-201 wipeSensitiveState] *)
Definition wipeSensitiveState (s : App.t) : App.t :=
  let s := record Wiped (revoke signaturePreviewRef (revoke previewUrlRef s)) in
  on_page (λ p,
    let p := p {{ pendingToken := None; idempotencyKey := None; signatureCapture := None;
                  initialsCapture := None; previewUrlRef := None; signaturePreviewRef := None }} in
    if cancelled p then p else
    p {{ previewUrl := None; signaturePreview := None; signature := clearSignatureState;
         initials := clearSignatureState }}) s.

(* [src: apps/web/src/signing/SignerApp.tsx:169-179 handleFailure] *)
Definition handleFailure (e : CallFailure) : App.t → App.t := on_page (λ p,
  let '(unauthenticated, unreachable, id) :=
    match e with
    | RequestError e => (SigningRequestError.authentication e, SigningRequestError.network e,
                         SigningRequestError.correlationId e)
    | OtherFailure => (false, false, VUndef)
    end in
  p {{ correlationId := id; screen := screenFromFailure unauthenticated unreachable (hadSession p) }}).

(** The effect of a new session: it has expired, or the timer is set. *)
(* [src: apps/web/src/signing/SignerApp.tsx:84-102 useEffect session] *)
Definition session_effect (session : SignerSessionView.t) (now : Z) (s : App.t) : App.t :=
  match parse_date (SignerSessionView.expiresAt session) with
  | Some t =>
    if (t - now <=? 0)%Z
    then wipeSensitiveState (on_page (λ p, p {{ screen := Screen.expired }}) s {{ armed := false }})
    else s {{ armed := true }}
  | None => s {{ armed := true }}
  end.
Definition session_expires (s : App.t) : App.t :=
  if armed s
  then wipeSensitiveState (on_page (λ p, p {{ screen := Screen.expired }}) s {{ armed := false }})
  else s.

(** [loadWorkspace], [loadPreview] and [bootstrap] up to what they first await. *)
Definition loadWorkspace (s : App.t) : App.t := await LoadingSession (call GetSession s).
Definition loadPreview (s : App.t) : App.t := await OpeningPreview (call IssuePreview s).
Definition exchange (token : string) (s : App.t) : App.t := await Exchanging (call (Exchange token) s).

(* [src: apps/web/src/signing/SignerApp.tsx:104-118 bootstrap] *)
Definition bootstrap (s : App.t) : App.t :=
  let s := on_page (λ p, p {{ screen := Screen.bootstrapping }}) s in
  match location s with
  | None | Some EmptyString => loadWorkspace s
  | Some token =>
    exchange token (on_page (λ p, p {{ pendingToken := Some token }}) s {{ location := None }})
  end.

(* [src: apps/web/src/signing/SignerApp.tsx:120-146 loadWorkspace] *)
Definition session_loaded (session' : SignerSessionView.t) (nowIso : string) (now : Z) (s : App.t) : App.t :=
  if cancelled (page s) then s else
  let s := on_page (λ p, p {{ hadSession := true; session := Some session' }}) s in
  session_effect session' now
    (match screenFromSession session' nowIso with
     | Some mapped => on_page (λ p, p {{ screen := mapped }}) s
     | None => await LoadingWorkspace (call GetWorkspace s)
     end).
Definition workspace_loaded (document : SignerDocumentView.t) (fields' : list SignerFieldView.t)
    (consent' : SignerConsentView.t) (s : App.t) : App.t :=
  if cancelled (page s) then s else
  loadPreview (call RecordViewed (on_page (λ p,
    p {{ signingDocument := Some document; fields := fields'; consent := Some consent';
         screen := Screen.ready }}) s)).

(* [src: apps/web/src/signing/SignerApp.tsx:148-167 loadPreview] *)
Definition preview_loaded (url : string) (s : App.t) : App.t :=
  if cancelled (page s) then s else
  on_page (λ p, p {{ previewUrlRef := Some url; previewUrl := Some url; previewFailed := false }})
    (revoke previewUrlRef s).
Definition preview_failed (s : App.t) : App.t :=
  if cancelled (page s) then s else on_page (λ p, p {{ previewFailed := true }}) s.

Definition accepted (c : SignerConsentView.t) : SignerConsentView.t :=
  SignerConsentView.mk (SignerConsentView.copyId c) (SignerConsentView.version c)
    (SignerConsentView.title c) (SignerConsentView.text c) (SignerConsentView.required c) true.

(* [src: apps/web/src/signing/SignerApp.tsx:203-216 acceptConsent] *)
Definition acceptConsent (s : App.t) : App.t :=
  match consent (page s) with
  | None => s
  | Some c => await (RecordingConsent c) (call (RecordConsent (SignerConsentView.copyId c))
      (on_page (λ p, p {{ busy := true }}) s))
  end.

(** The rest of [goToReview] after the signature. *)
Definition capture_initials (fields : list SignerFieldView.t) (initials : PadState.t) (s : App.t) : App.t :=
  if needsInk fields SignatureFieldType.initials then await (CapturingInitials initials) s
  else on_page (λ p, p {{ screen := Screen.review }}) s.
(* [src: apps/web/src/signing/SignerApp.tsx:218-237 goToReview] *)
Definition goToReview (s : App.t) : App.t :=
  let p := page s in
  if needsInk (fields p) SignatureFieldType.signature
  then await (CapturingSignature (fields p) (signature p) (initials p)) s
  else capture_initials (fields p) (initials p) s.

Definition ready_to_submit (submitting : bool) (c : SignerConsentView.t) (p : Page.t) : bool :=
  canSubmit (submitReadiness (SignerConsentView.accepted c) (intentToSign p) submitting (fields p)
    (signature p) (initials p)).

(** [idempotencyKeyRef.current], drawn when there is none. *)
Definition draw_key (s : App.t) : string * App.t :=
  match idempotencyKey (page s) with
  | Some key => (key, s)
  | None =>
    let key := fresh_id (keys s) in
    (key, on_page (λ p, p {{ idempotencyKey := Some key }}) s {{ keys ::= S }})
  end.

(** [finally { setBusy(false) }]. *)
Definition not_busy : App.t → App.t := on_page (λ p, p {{ busy := false }}).

(** [screen'] is the screen the function has captured. *)
(* [src: apps/web/src/signing/SignerApp.tsx:239-279 submit] *)
Definition submit (screen' : Screen.t) (s : App.t) : App.t :=
  match consent (page s), session (page s) with
  | Some c, Some _ =>
    if negb (ready_to_submit (bool_decide (screen' = Screen.submitting)) c (page s)) then s else
    let '(key, s) := draw_key (on_page (λ p,
      p {{ screen := Screen.submitting; busy := true; retrySubmit := true }}) s) in
    let request := buildCompleteRequest (SignerConsentView.copyId c) (fields (page s))
                     (signatureCapture (page s)) (initialsCapture (page s)) in
    if completeSigningRequestSchema request then await Completing (call (Complete request key) s)
    else not_busy (handleFailure OtherFailure s)
  | _, _ => s
  end.
Definition submitted (s : App.t) : App.t :=
  not_busy (on_page (λ p, p {{ screen := Screen.completed }})
    (wipeSensitiveState (on_page (λ p, p {{ retrySubmit := false }}) s))).

(* [src: apps/web/src/signing/SignerApp.tsx:281-289 waitForCompletion] *)
Definition waitForCompletion (attempt : nat) (s : App.t) : App.t :=
  if (attempt <? 8)%nat then await (AwaitingCompletion attempt) (call GetSession s) else submitted s.

(* [src: apps/web/src/signing/SignerApp.tsx:299-311 confirmDecline] *)
Definition confirmDecline (s : App.t) : App.t :=
  let reason := declineReason (page s) in
  await Declining (call (Decline (if String.eqb (trim reason) EmptyString then None else Some reason))
    (on_page (λ p, p {{ busy := true }}) s)).
Definition decline_ended (s : App.t) : App.t :=
  on_page (λ p, p {{ busy := false; declineOpen := false }}) s.

(* [src: apps/web/src/signing/SignerApp.tsx:313-332 retry] *)
Definition retry (s : App.t) : App.t :=
  let screen' := screen (page s) in
  let s := on_page (λ p, p {{ correlationId := VUndef }}) s in
  if retrySubmit (page s) then submit screen' (on_page (λ p, p {{ screen := Screen.review }}) s)
  else match pendingToken (page s) with
  | Some token => exchange token s
  | None => bootstrap s
  end.

(** ** Resuming *)

(** What a function does when what it awaits has settled; any other answer does
    not occur. *)
Definition continue_task (t : Task) (r : Settled) (s : App.t) : App.t :=
  match t, r with
  | Exchanging, Done => loadWorkspace (on_page (λ p, p {{ pendingToken := None }}) s)
  | (Exchanging | LoadingSession | LoadingWorkspace), Rejected e => handleFailure e s
  | LoadingSession, GotSession session nowIso now => session_loaded session nowIso now s
  | LoadingWorkspace, GotWorkspace document fields consent => workspace_loaded document fields consent s
  | OpeningPreview, GotGrant url tokenHeader token =>
    await FetchingPreview (call (FetchPreview url tokenHeader token) s)
  | FetchingPreview, GotUrl url => preview_loaded url s
  | (OpeningPreview | FetchingPreview), Rejected _ => preview_failed s
  | RecordingConsent c, Done => not_busy (on_page (λ p, p {{ consent := Some (accepted c) }}) s)
  | RecordingConsent _, Rejected e => not_busy (handleFailure e s)
  | CapturingSignature fields signature initials, GotImage png =>
    await (PreviewingSignature fields initials)
      (revoke signaturePreviewRef
         (on_page (λ p, p {{ signatureCapture := Some (InkCapture.mk png signature) }}) s))
  | PreviewingSignature fields initials, GotUrl url =>
    capture_initials fields initials
      (on_page (λ p, p {{ signaturePreviewRef := Some url; signaturePreview := Some url }}) s)
  | CapturingInitials initials, GotImage png =>
    on_page (λ p, p {{ initialsCapture := Some (InkCapture.mk png initials); screen := Screen.review }}) s
  | (CapturingSignature _ _ _ | PreviewingSignature _ _ | CapturingInitials _), Rejected e =>
    handleFailure e s
  | Completing, GotCompletion pending => if pending then waitForCompletion 0 s else submitted s
  | AwaitingCompletion attempt, GotSession session _ _ =>
    if bool_decide (SignerSessionView.signerStatus session = SignerStatus.signed) then submitted s
    else await (Pausing attempt) s
  | Pausing attempt, Done => waitForCompletion (S attempt) s
  | (Completing | AwaitingCompletion _), Rejected e => not_busy (handleFailure e s)
  | Declining, Done =>
    decline_ended (on_page (λ p, p {{ screen := Screen.declined }}) (wipeSensitiveState s))
  | Declining, Rejected e => decline_ended (handleFailure e s)
  | _, _ => s
  end.

(** ** Events *)

Inductive Click : Type :=
  | Agree
  | ReviewAndSubmit
  | Back
  | SubmitSignature
  | OpenDecline
  | CancelDecline
  | TypeReason (text : string)
  | ConfirmDecline
  | RetryClick
  | RetryPreview
  | DrawSignature (pad : PadState.t)
  | DrawInitials (pad : PadState.t)
  | Intend (checked : bool)
  | GoToField (index : Z).

(** What the page shows: a status screen, the workspace or the review. *)
Inductive Shown : Type := StatusScreen | Workspace | Review.
(* [src: apps/web/src/signing/SignerApp.tsx:334-374 SignerApp render] *)
Definition shown (p : Page.t) : Shown :=
  match screen p with
  | Screen.ready | Screen.review =>
    match signingDocument p, consent p with
    | Some _, Some _ => if bool_decide (screen p = Screen.review) then Review else Workspace
    | _, _ => StatusScreen
    end
  | _ => StatusScreen
  end.

(** The controls of what is shown, unless they are disabled. *)
(* [src: apps/web/src/signing/SignerApp.tsx:390-514 SignerApp controls] *)
Definition offered (p : Page.t) (c : Click) : bool :=
  let ready := match consent p with Some c => ready_to_submit (busy p) c p | None => false end in
  match c, shown p with
  | RetryClick, StatusScreen =>
    bool_decide (screen p ∈ [Screen.network_error; Screen.error])
  | Agree, Workspace =>
    match consent p with Some c => negb (SignerConsentView.accepted c) && negb (busy p) | None => false end
  | ReviewAndSubmit, Workspace | SubmitSignature, Review => ready
  | Back, Review => true
  | (OpenDecline | DrawSignature _ | DrawInitials _ | Intend _ | GoToField _), Workspace => true
  | RetryPreview, Workspace => previewFailed p
  | (CancelDecline | TypeReason _), (Workspace | Review) => declineOpen p
  | ConfirmDecline, (Workspace | Review) => declineOpen p && negb (busy p)
  | _, _ => false
  end.

Definition clicked (c : Click) (s : App.t) : App.t :=
  match c with
  | Agree => acceptConsent s
  | ReviewAndSubmit => goToReview s
  | Back => on_page (λ p, p {{ screen := Screen.ready }}) s
  | SubmitSignature => submit (screen (page s)) s
  | OpenDecline => on_page (λ p, p {{ declineOpen := true }}) s
  | CancelDecline => on_page (λ p, p {{ declineOpen := false }}) s
  | TypeReason text => on_page (λ p, p {{ declineReason := text }}) s
  | ConfirmDecline => confirmDecline s
  | RetryClick => retry s
  | RetryPreview => loadPreview s
  | DrawSignature pad => on_page (λ p, p {{ signature := pad }}) s
  | DrawInitials pad => on_page (λ p, p {{ initials := pad }}) s
  | Intend checked => on_page (λ p, p {{ intentToSign := checked }}) s
  | GoToField index => on_page (λ p, p {{ currentFieldIndex := index }}) s
  end.

(** Events of the page: the [n]-th task settles; the page is removed.  A removed
    page is offered no click. *)
Inductive PageEvent : Type :=
  | Clicked (c : Click)
  | Settles (n : nat) (r : Settled)
  | SessionExpires
  | Unmounted.

(* [src: apps/web/src/signing/SignerApp.tsx:69-76 useEffect bootstrap] *)
Definition page_step (s : App.t) (e : PageEvent) : App.t :=
  match e with
  | Clicked c => if negb (cancelled (page s)) && offered (page s) c then clicked c s else s
  | Settles n r =>
    match tasks s !! n with
    | Some t => continue_task t r (record (Heard t r) (s {{ tasks := delete n (tasks s) }}))
    | None => s
    end
  | SessionExpires => session_expires s
  | Unmounted => wipeSensitiveState (on_page (λ p, p {{ cancelled := true }}) s {{ armed := false }})
  end.
Definition opened_page (location : option string) : App.t := bootstrap (App.initial location).
Definition page_run (location : option string) (events : list PageEvent) : App.t :=
  foldl page_step (opened_page location) events.
End component.
