(* ===== verification/PageRules.v ===== *)
(** What the signer's page and the proxy promise: however events interleave, a
    completion is only requested with consent on record and repeated under its
    key; and a request of the page passes the checks of the API. *)

From Stdlib Require Import String Ascii.
From coqutil Require Import Datatypes.RecordSetters.
From S2P Require Export SigningPage RequestScenario PadRules.
Import DoubleBraceUpdate.
Import Page(screen, session, signingDocument, fields, consent, signature, initials, intentToSign,
  busy, idempotencyKey, cancelled, retrySubmit, pendingToken).
Import App(page, location, armed, tasks, log, keys, revoked).
Local Open Scope string_scope.

(** ** Completions *)

Create HintDb signing_page.

Section page.
Context `{Env}.

(** The server has consent to this copy of the disclosure on record: it has said
    so, or has recorded it for the page. *)
Definition consents_to (copyId : string) (e : Entry) : Prop :=
  match e with
  | Heard (RecordingConsent c) Done => SignerConsentView.copyId c = copyId
  | Heard LoadingWorkspace (GotWorkspace _ _ c) =>
    SignerConsentView.copyId c = copyId ∧ SignerConsentView.accepted c = true
  | _ => False
  end.
Definition consented (l : list Entry) (copyId : string) : Prop := ∃ e, e ∈ l ∧ consents_to copyId e.

(** The key of the last completion since the page was wiped. *)
Definition use_key (key : option string) (e : Entry) : option string :=
  match e with Called (Complete _ k) => Some k | Wiped => None | _ => key end.
Definition key_in_use (l : list Entry) : option string := foldl use_key None l.

Definition completion_ok (before : list Entry) (request : value) (key : string) : Prop :=
  completeSigningRequestSchema request = true ∧
  consented before (str_of (member "consentCopyId" request)) ∧
  ∀ k, key_in_use before = Some k → k = key.

Record page_ok (s : App.t) : Prop := {
  ok_consent c : consent (page s) = Some c → SignerConsentView.accepted c = true →
    consented (log s) (SignerConsentView.copyId c);
  ok_key k : key_in_use (log s) = Some k → idempotencyKey (page s) = Some k;
  ok_completions l1 l2 request key :
    log s = (l1 ++ Called (Complete request key) :: l2)%list → completion_ok l1 request key
}.

Lemma consented_app l l' copyId : consented l copyId → consented (l ++ l')%list copyId.
Proof. intros (e & He & Hc). exists e. split; [apply elem_of_app; by left|done]. Qed.

Lemma key_in_use_snoc l e : key_in_use (l ++ [e])%list = use_key (key_in_use l) e.
Proof. unfold key_in_use. by rewrite foldl_app. Qed.

Lemma snoc_split {A} (l l1 l2 : list A) x e :
  (l ++ [e])%list = (l1 ++ x :: l2)%list →
  (l2 = [] ∧ l1 = l ∧ x = e) ∨ ∃ l2', l2 = (l2' ++ [e])%list ∧ l = (l1 ++ x :: l2')%list.
Proof.
  destruct l2 as [|y l2 _] using rev_ind.
  - intros [-> [= ->]]%app_inj_tail. by left.
  - intros Heq. right. exists l2. rewrite app_comm_cons, app_assoc in Heq.
    by apply app_inj_tail in Heq as [-> ->].
Qed.

(** What leaves the log, the consent and the key alone. *)
Lemma ok_same s s' :
  log s' = log s → consent (page s') = consent (page s) →
  idempotencyKey (page s') = idempotencyKey (page s) → page_ok s → page_ok s'.
Proof. intros Hl Hc Hk [H1 H2 H3]. split; rewrite Hl, ?Hc, ?Hk; auto. Qed.

(** A new entry that is no completion. *)
Lemma ok_entry e s s' :
  log s' = (log s ++ [e])%list → (∀ request key, e ≠ Called (Complete request key)) →
  consent (page s') = consent (page s) →
  (e = Wiped ∨ idempotencyKey (page s') = idempotencyKey (page s)) → page_ok s → page_ok s'.
Proof.
  intros Hl He Hc Hk [H1 H2 H3]. split; rewrite Hl, ?Hc.
  - intros c Hc' Ha. apply consented_app. auto.
  - intros k. rewrite key_in_use_snoc. destruct Hk as [->|Hk]; [done|].
    destruct e as [[]| |]; simpl; rewrite ?Hk; intros Hin;
      first [done | by apply H2 | exfalso; by eapply He].
  - intros l1 l2 request key [(_ & _ & Heq)|(l2' & _ & Heq)]%snoc_split; [by destruct (He _ _ (eq_sym Heq))|].
    by eapply H3.
Qed.

Lemma wipe_log s : log (wipeSensitiveState s) = (log s ++ [Wiped])%list.
Proof.
  destruct s as [p ? ? ? ? ? ?]. unfold wipeSensitiveState, revoke. cbn.
  by destruct (Page.previewUrlRef p); cbn; destruct (Page.signaturePreviewRef p).
Qed.
Lemma wipe_consent s : consent (page (wipeSensitiveState s)) = consent (page s).
Proof.
  destruct s as [p ? ? ? ? ? ?]. unfold wipeSensitiveState, revoke. cbn.
  destruct p as [? ? ? ? ? ? ? ? ? ? ? ? ? ? ? ? ? ? [] [] ? [] ? ? ?]; reflexivity.
Qed.
Lemma ok_wipe s : page_ok s → page_ok (wipeSensitiveState s).
Proof. apply (ok_entry Wiped); [apply wipe_log|done|apply wipe_consent|by left]. Qed.

Lemma ok_revoke ref s : page_ok s → page_ok (revoke ref s).
Proof. apply ok_same; unfold revoke; by destruct (ref (page s)). Qed.

(** Calls that are no completion, and new tasks. *)
Definition completes (c : Call) : bool := match c with Complete _ _ => true | _ => false end.
Lemma ok_call c s : completes c = false → page_ok s → page_ok (call c s).
Proof.
  intros Hc. apply (ok_entry (Called c)); [done| |done|by right]. by intros request key [= ->].
Qed.
Lemma ok_await t s : page_ok s → page_ok (await t s).
Proof. by apply ok_same. Qed.
Lemma ok_on_page f s :
  (∀ p, consent (f p) = consent p ∧ idempotencyKey (f p) = idempotencyKey p) →
  page_ok s → page_ok (on_page f s).
Proof. intros Hf. apply ok_same; [done|by apply Hf|by apply Hf]. Qed.

Lemma ok_failure e s : page_ok s → page_ok (handleFailure e s).
Proof. apply ok_on_page. intros p. by destruct e. Qed.

Hint Unfold loadWorkspace loadPreview exchange bootstrap session_loaded workspace_loaded
  preview_loaded preview_failed acceptConsent capture_initials goToReview submitted waitForCompletion
  confirmDecline decline_ended not_busy session_effect session_expires : signing_page.

Ltac ok_step :=
  lazymatch goal with
  | |- page_ok (on_page _ _) => apply ok_on_page; [by intros []|]
  | |- page_ok (call _ _) => apply ok_call; [reflexivity|]
  | |- page_ok (await _ _) => apply ok_await
  | |- page_ok (revoke _ _) => apply ok_revoke
  | |- page_ok (wipeSensitiveState _) => apply ok_wipe
  | |- page_ok (handleFailure _ _) => apply ok_failure
  | |- page_ok (apply_update _ ?s) => apply (ok_same s); [reflexivity..|]
  | |- page_ok (match ?x with _ => _ end) => destruct x
  | |- page_ok ?s => first [assumption | progress autounfold with signing_page; cbv zeta]
  end.
Ltac ok_tac := repeat ok_step.

Lemma ok_bootstrap s : page_ok s → page_ok (bootstrap s).
Proof. intros Hs. ok_tac. Qed.
Lemma ok_submitted s : page_ok s → page_ok (submitted s).
Proof. intros Hs. ok_tac. Qed.
Lemma ok_wait attempt s : page_ok s → page_ok (waitForCompletion attempt s).
Proof. intros Hs. ok_tac. Qed.
Lemma ok_session session nowIso now s : page_ok s → page_ok (session_loaded session nowIso now s).
Proof. intros Hs. ok_tac. Qed.
Lemma ok_review s : page_ok s → page_ok (goToReview s).
Proof. intros Hs. ok_tac. Qed.
Lemma ok_initials fields initials s : page_ok s → page_ok (capture_initials fields initials s).
Proof. intros Hs. ok_tac. Qed.

(** Submitting: the key in use is used again. *)
Lemma ready_consented submitting c p :
  ready_to_submit submitting c p = true → SignerConsentView.accepted c = true.
Proof.
  unfold ready_to_submit, canSubmit, submitReadiness.
  rewrite !length_app, Nat.eqb_eq. by destruct (SignerConsentView.accepted c); simpl; [|lia].
Qed.

Lemma draw_key_same s :
  log (draw_key s).2 = log s ∧ consent (page (draw_key s).2) = consent (page s) ∧
  idempotencyKey (page (draw_key s).2) = Some (draw_key s).1 ∧
  ∀ k, idempotencyKey (page s) = Some k → k = (draw_key s).1.
Proof.
  unfold draw_key. destruct (idempotencyKey (page s)) as [key|] eqn:Hk; simpl fst; simpl snd.
  - split_and!; [done|done|done|by intros k [= ->]].
  - split_and!; done.
Qed.

Lemma ok_complete request key s :
  page_ok s → completion_ok (log s) request key → idempotencyKey (page s) = Some key →
  page_ok (call (Complete request key) s).
Proof.
  intros [H1 H2 H3] Hc Hk.
  assert (Hl : log (call (Complete request key) s) = (log s ++ [Called (Complete request key)])%list)
    by done.
  split; rewrite Hl.
  - intros c Hc' Ha. apply consented_app. auto.
  - intros k. rewrite key_in_use_snoc. by intros [= <-].
  - intros l1 l2 request' key' [(_ & -> & [= -> ->])|(l2' & _ & Heq)]%snoc_split; [done|].
    by eapply H3.
Qed.

Lemma ok_submit screen' s : page_ok s → page_ok (submit screen' s).
Proof.
  intros Hs. unfold submit. destruct (consent (page s)) as [c|] eqn:Hc; [|done].
  destruct (session (page s)); [|done]. destruct (ready_to_submit _ c _) eqn:Hr; [|done]. simpl negb.
  apply ready_consented in Hr. cbv iota.
  set (s1 := on_page _ s). assert (Hs1 : page_ok s1) by (unfold s1; ok_tac).
  assert (Hc1 : consent (page s1) = Some c) by exact Hc.
  pose proof (draw_key_same s1) as (Hl & Hcd & Hk & Hsame).
  destruct (draw_key s1) as [key s2]. cbn [fst snd] in *. cbv zeta.
  assert (Hs2 : page_ok s2).
  { destruct Hs1 as [H1 H2 H3]. split; rewrite Hl, ?Hcd, ?Hk; auto. intros k Hk'. f_equal. symmetry. auto. }
  destruct (completeSigningRequestSchema _) eqn:Hschema; [|by ok_tac].
  apply ok_await, ok_complete; [exact Hs2| |exact Hk]. split_and!.
  - exact Hschema.
  - apply (ok_consent _ Hs2); [by rewrite Hcd|exact Hr].
  - intros k Hu. apply Hsame. apply (ok_key _ Hs1). by rewrite <-Hl.
Qed.

Lemma ok_retry s : page_ok s → page_ok (retry s).
Proof.
  intros Hs. unfold retry. cbv zeta. set (s1 := on_page _ s).
  assert (Hs1 : page_ok s1) by (unfold s1; ok_tac).
  destruct (retrySubmit (page s1)).
  - apply ok_submit. by ok_tac.
  - destruct (pendingToken (page s1)); by ok_tac.
Qed.

Lemma ok_clicked c s : page_ok s → page_ok (clicked c s).
Proof.
  intros Hs. destruct c; unfold clicked; cbv beta iota; try (by ok_tac).
  - by apply ok_submit.
  - by apply ok_retry.
Qed.

(** The entry just heard may be what the server's consent is known from. *)
Lemma ok_continue t r s :
  page_ok s → Heard t r ∈ log s → page_ok (continue_task t r s).
Proof.
  intros Hs Hin. destruct t, r; unfold continue_task; try (by ok_tac).
  - (* the workspace *)
    unfold workspace_loaded. destruct (cancelled (page s)); [done|]. unfold loadPreview.
    apply ok_await, ok_call; [done|]. apply ok_call; [done|]. destruct Hs as [H1 H2 H3].
    split; [|exact H2|exact H3]. intros c [= <-] Ha. by eexists.
  - (* consent recorded *)
    apply ok_on_page; [by intros []|]. destruct Hs as [H1 H2 H3].
    split; [|exact H2|exact H3]. intros c [= <-] Ha. by eexists.
Qed.

Lemma ok_heard t r s : page_ok s → page_ok (record (Heard t r) s).
Proof. apply (ok_entry (Heard t r)); [done|done|done|by right]. Qed.

Lemma ok_step s e : page_ok s → page_ok (page_step s e).
Proof.
  intros Hs. destruct e as [c|n r| |]; unfold page_step; cbv beta iota.
  - destruct (_ && _); [by apply ok_clicked|done].
  - destruct (tasks s !! n) as [t|]; [|done]. apply ok_continue.
    + apply ok_heard. by ok_tac.
    + apply elem_of_app. right. by left.
  - by ok_tac.
  - by ok_tac.
Qed.

Lemma ok_run location events : page_ok (page_run location events).
Proof.
  unfold page_run. assert (Ho : page_ok (opened_page location)).
  { apply ok_bootstrap. split; simpl.
    - done.
    - done.
    - by intros [] ? ? ?. }
  revert Ho. generalize (opened_page location). induction events as [|e events IH]; intros s Hs; [done|].
  by apply IH, ok_step.
Qed.

Lemma key_in_use_after l1 l2 request key :
  Wiped ∉ l2 →
  (∀ l2a l2b r k, l2 = (l2a ++ Called (Complete r k) :: l2b)%list → k = key) →
  key_in_use (l1 ++ Called (Complete request key) :: l2) = Some key.
Proof.
  induction l2 as [|e l2 IH] using rev_ind; intros Hw Hk; [apply key_in_use_snoc|].
  rewrite app_comm_cons, app_assoc, key_in_use_snoc, IH.
  - destruct e as [[]| |]; simpl; try done; [|set_solver]. f_equal. by eapply (Hk l2 []).
  - set_solver.
  - intros l2a l2b r k ->. eapply Hk. by rewrite <-app_assoc.
Qed.

(** C37: however the signer clicks and whatever the API answers, in any order and
    with anything under way: the page only asks for a completion with a request
    the contract accepts, for a copy of the disclosure the server has consent to
    on record; and as long as the page is not wiped it repeats a completion under
    the same idempotency key, so that a retry cannot sign twice. *)
Theorem completions_are_consented_and_repeatable location events :
  let calls := log (page_run location events) in
  (∀ before after request key, calls = (before ++ Called (Complete request key) :: after)%list →
     completeSigningRequestSchema request = true ∧
     ∃ e, e ∈ before ∧ consents_to (str_of (member "consentCopyId" request)) e) ∧
  (∀ l1 l2 l3 request key request' key',
     calls = (l1 ++ Called (Complete request key) :: l2 ++ Called (Complete request' key') :: l3)%list →
     Wiped ∉ l2 → key = key').
Proof.
  pose proof (ok_run location events) as Hok. intros calls. split.
  - intros before after request key Hc. by destruct (ok_completions _ Hok _ _ _ _ Hc) as (? & ? & _).
  - intros l1 l2. remember (length l2) as n eqn:Hn. revert l2 Hn.
    induction (lt_wf n) as [n _ IH]. intros l2 -> l3 request key request' key' Hc Hw.
    rewrite app_comm_cons, app_assoc in Hc. destruct (ok_completions _ Hok _ _ _ _ Hc) as (_ & _ & Hk).
    apply Hk, key_in_use_after; [done|]. intros l2a l2b r k ->. symmetry.
    eapply (IH (length l2a)); [rewrite length_app; simpl; lia|done| |set_solver].
    rewrite Hc. rewrite <-!app_assoc. simpl. by rewrite <-!app_assoc.
Qed.
End page.

(** ** From the page through the proxy to the API *)

(** The request of the page with the cookies the browser sends along. *)
Definition with_cookies (cookieHeader : string) (request : FetchRequest.t) : FetchRequest.t :=
  FetchRequest.mk (FetchRequest.origin request) (FetchRequest.path request) (FetchRequest.method request)
    (map_set "cookie" cookieHeader (FetchRequest.headers request)) (FetchRequest.body request).

Lemma copyHeader_get request name to k :
  map_get k (copyHeader request name to) =
  if String.eqb name k then
    match map_get name (FetchRequest.headers request) with
    | None | Some EmptyString => map_get k to
    | Some v => Some v
    end
  else map_get k to.
Proof.
  unfold copyHeader. destruct (map_get name _) as [[|a v]|]; [by destruct (String.eqb name k)| |
    by destruct (String.eqb name k)]. by rewrite map_get_set.
Qed.

Definition given (v : option string) : option string :=
  match v with Some EmptyString => None | _ => v end.

(** Of a request's headers the API gets the cookies, the anti-forgery token and
    few others, the page's origin, and no address but the edge's. *)
Lemma upstream_headers request origin k :
  map_get k (buildUpstreamSigningHeaders request origin) =
  if String.eqb k "origin" then Some origin
  else if String.eqb k "x-forwarded-for" then
    given (trim <$> map_get "x-real-ip" (FetchRequest.headers request))
  else if bool_decide (k ∈ ["cookie"; "content-type"; "x-csrf-token"; "x-preview-token";
     "x-correlation-id"; "idempotency-key"; "user-agent"])
  then given (map_get k (FetchRequest.headers request)) else None.
Proof.
  unfold buildUpstreamSigningHeaders. rewrite map_get_set, (String.eqb_sym "origin" k).
  destruct (String.eqb_spec k "origin") as [_|Ho]; [done|].
  set (names := ["cookie"; "content-type"; _; _; _; _; _]). set (headers := foldl _ [] names).
  assert (Hh : map_get k headers =
    if bool_decide (k ∈ names) then given (map_get k (FetchRequest.headers request)) else None).
  { unfold headers, names. cbn [foldl]. rewrite !copyHeader_get. case_bool_decide as Hin.
    - rewrite !elem_of_cons, elem_of_nil in Hin.
      destruct Hin as [->|[->|[->|[->|[->|[->|[->|[]]]]]]]]; simpl;
        by destruct (map_get _ (FetchRequest.headers request)) as [[]|].
    - rewrite !not_elem_of_cons in Hin. destruct Hin as (H1 & H2 & H3 & H4 & H5 & H6 & H7 & _).
      by rewrite !(proj2 (String.eqb_neq _ k)) by congruence. }
  destruct (String.eqb_spec k "x-forwarded-for") as [->|Hf].
  - destruct (trim <$> map_get "x-real-ip" _) as [[|a v]|]; rewrite ?map_get_set; by rewrite ?Hh.
  - rewrite <-Hh. destruct (trim <$> map_get "x-real-ip" _) as [[|a v]|]; [done| |done].
    rewrite map_get_set. by rewrite (proj2 (String.eqb_neq _ _)) by congruence.
Qed.

(** A signer's request as the API gets it. *)
Definition at_api (decodeURIComponent : string → Result Exn string) (u : FetchRequest.t) (r : Request.t) :
    Prop :=
  Request.method r = FetchRequest.method u ∧
  (∀ k, k ∈ ["origin"; "referer"; "x-csrf-token"; "cookie"] →
     Request.header r k = map_get k (FetchRequest.headers u)) ∧
  parseCookieHeader decodeURIComponent (Request.header r "cookie") = Ok (Request.cookies r).

Section reaching.
Context `{Env} (url_origin : string → option string) (config : ApiConfig.t bool)
  (decodeURIComponent : string → Result Exn string).

Lemma headers_pass c : ∃ c', signingResponseHeaders c = (Ok tt, c') ∧ server c' = server c.
Proof. eexists. by split. Qed.

(** The rate limit admits the client at its next reading of the clock. *)
Definition rate_admits (r : Request.t) (c : Ctx) : Prop :=
  RateLimitDecision.allowed (consume (ApiConfig.SIGNING_RATE_LIMIT_MAX config)
    (ApiConfig.SIGNING_RATE_LIMIT_WINDOW_MS config) ("signing:" +:+ client_address r)
    (clock (store_of c).(clockReads)) (server c).(Server.signingBuckets)).1 = true.

Lemma rate_limit_passes r c :
  rate_admits r c →
  ∃ c', signingRateLimit config r c = (Ok tt, c') ∧
    (store_of c').(signingSessions) = (store_of c).(signingSessions).
Proof.
  unfold rate_admits, signingRateLimit. intros Ha.
  set (c1 := on_server (Server.set_store (set_clockReads (S (clockReads (store_of c))) (store_of c))) c).
  rewrite (bind_run _ _ c (clock (clockReads (store_of c))) c1) by done.
  rewrite (bind_run _ _ c1 (Server.signingBuckets (server c)) c1) by done.
  destruct (consume _ _ _ _ _) as [decision buckets]. simpl in Ha.
  rewrite (bind_run _ _ c1 tt (on_server (Server.set_signingBuckets buckets) c1)) by done.
  rewrite Ha. eexists. by split.
Qed.

Lemma signing_entry_passes r b c :
  is_ok (read_body b c).1 = true → rate_admits r c →
  ∃ c', signing_entry config r b c = (Ok tt, c') ∧
    (store_of c').(signingSessions) = (store_of c).(signingSessions).
Proof.
  intros Hb Ha. unfold signing_entry.
  assert (Hr : read_body b c = (Ok tt, c)) by by destruct b.
  rewrite (bind_run _ _ c tt c Hr). destruct (headers_pass c) as (c1 & Hh & Hs).
  rewrite (bind_run _ _ c tt c1 Hh).
  assert (Hst : store_of c1 = store_of c) by (unfold store_of; by rewrite Hs).
  rewrite <-Hst. apply rate_limit_passes. unfold rate_admits in *. by rewrite Hst, Hs.
Qed.

(** A request with an allowed origin, a token, and the anti-forgery token filed
    with its session passes everything before the use case. *)
Lemma signer_changes_passes r b c token csrf session :
  is_ok (read_body b c).1 = true → rate_admits r c →
  origin_allowed url_origin config r → signer_reader config r token →
  find_row (λ row : SigningSession.t, String.eqb (SigningSession.tokenHash row) (token_hash token))
    (store_of c).(signingSessions) = Some session →
  SigningSession.csrfTokenHash session = Some (token_hash csrf) →
  Request.header r (ApiConfig.AUTH_CSRF_HEADER_NAME config) = Some csrf →
  map_get (ApiConfig.SIGNING_CSRF_COOKIE_NAME config) (Request.cookies r) = Some csrf →
  trim csrf ≠ EmptyString →
  (signer_changes url_origin config r b c).1 = Ok token.
Proof.
  intros Hb Ha Ho Ht Hs Hh Hheader Hcookie Hne.
  destruct (signing_entry_passes r b c Hb Ha) as (c1 & He & Hs1). unfold signer_changes.
  rewrite (bind_run _ _ c tt c1 He).
  assert (Hor : requireOrigin url_origin config r c1 = (Ok tt, c1)).
  { unfold requireOrigin, requireAllowedOrigin. unfold origin_allowed in Ho. by rewrite Ho. }
  rewrite (bind_run _ _ c1 tt c1 Hor).
  assert (Htk : requireToken config r c1 = (Ok token, c1)).
  { unfold requireToken. unfold signer_reader in Ht. by rewrite Ht. }
  rewrite (bind_run _ _ c1 token c1 Htk).
  assert (Hcsrf : ∃ c2, requireSigningCsrf config token r c1 = (Ok tt, c2)).
  { unfold requireSigningCsrf. destruct (isCsrfSafeMethod (Request.method r)) eqn:Hm.
    - rewrite (bind_run _ _ c1 None c1) by done. unfold requireSignerCsrf. rewrite Hm. by eexists.
    - assert (Hl : on_store (loadCsrfHash token) c1 = (Ok (Some (token_hash csrf)), c1)).
      { unfold on_store, loadCsrfHash, SigningSessions.findByTokenHash, find_one, gets, mbind, M_bind.
        fold (store_of c1). change (rows (store_of c1)) with (store_of c1).(signingSessions).
        rewrite Hs1, Hs. cbv beta iota. simpl. rewrite Hh. by destruct c1 as [[]]. }
      rewrite (bind_run _ _ c1 _ c1 Hl). unfold requireSignerCsrf. rewrite Hm. simpl.
      unfold assertCsrfToken. rewrite Hheader, Hcookie. simpl.
      rewrite (proj2 (String.eqb_neq _ _) Hne), !String.eqb_refl. by eexists. }
  destruct Hcsrf as [c2 Hcsrf]. by rewrite (bind_run _ _ c1 tt c2 Hcsrf).
Qed.

(** The page's own headers: it adds the anti-forgery token it reads. *)
Lemma signingFetch_csrf origin documentCookie path headers body w csrf :
  signingFetch decodeURIComponent origin documentCookie path "POST" headers body = Ok w →
  readSigningCsrfToken decodeURIComponent documentCookie = Ok (Some csrf) →
  FetchRequest.origin w = origin ∧ FetchRequest.method w = "POST" ∧
  map_get "x-csrf-token" (FetchRequest.headers w) = Some csrf.
Proof.
  unfold signingFetch. simpl String.eqb. cbv iota. intros Hw Hc. rewrite Hc in Hw. simpl in Hw.
  set (hs := map_set "x-csrf-token" csrf headers) in Hw.
  assert (Hg : map_get "x-csrf-token" hs = Some csrf) by (unfold hs; by rewrite map_get_set).
  destruct body as [body|]; [destruct (map_get "content-type" hs)|]; injection Hw as <-;
    (split; [done|split; [done|]]); simpl; by rewrite ?map_get_set.
Qed.

Lemma originFromHeaders_given o referer :
  o ≠ EmptyString → trim o = o → originFromHeaders url_origin (Some o) referer = Some o.
Proof.
  intros Ho Ht. unfold originFromHeaders, blank. rewrite Ht.
  rewrite (proj2 (String.eqb_neq _ _) Ho). simpl. by rewrite Ht.
Qed.

End reaching.

(** ** A signing on the page *)

Definition shown_session (status : SignerStatus.t) : SignerSessionView.t :=
  SignerSessionView.mk (Sample.uuid 1) (Sample.uuid 2) (Sample.uuid 3) "active" "Lease"
    SigningMode.parallel (toISOString 1000030) "Anna" status true false.
Definition shown_field : SignerFieldView.t :=
  SignerFieldView.mk (Sample.uuid 4) SignatureFieldType.date_signed (NInt 1) (NInt 0) (NInt 0) (NInt 1)
    (NInt 1) true.
Definition shown_consent : SignerConsentView.t :=
  SignerConsentView.mk "consent-v1" "1" "Consent" "I agree" true false.
Definition session_at (status : SignerStatus.t) : Settled :=
  GotSession (shown_session status) (toISOString 1000010) 1000010.
Definition unreachable : Settled := Rejected fetch_failed.

(** The signer opens the link, agrees, reviews and submits; the connection fails,
    and a retry gets through. *)
Definition opening : list PageEvent :=
  [Settles 0 Done; Settles 0 (session_at SignerStatus.pending);
   Settles 0 (GotWorkspace (SignerDocumentView.mk (Sample.uuid 1) "Lease" SigningMode.parallel (Some 1%Z)
     "Anna") [shown_field] shown_consent);
   Settles 0 unreachable; Clicked Agree; Settles 0 Done; Clicked (Intend true)].
Definition submitting_twice : list PageEvent :=
  opening ++ [Clicked ReviewAndSubmit; Clicked SubmitSignature; Settles 0 unreachable;
              Clicked RetryClick].

Definition completion_keys (l : list Entry) : list string :=
  omap (λ e, match e with Called (Complete _ key) => Some key | _ => None end) l.

Example retry_repeats_the_key :
  let s := page_run (Some "link-token") submitting_twice in
  (completion_keys (log s), screen (page s), location s) =
  ([Sample.uuid 4096; Sample.uuid 4096], Screen.submitting, None).
Proof. vm_compute. reflexivity. Qed.

(** The expiry timer is not stopped when the signing ends: a page that shows the
    completed signing says it has expired later on. *)
Lemma expiry_overrides_completion :
  let s := page_run (Some "link-token") (submitting_twice ++ [Settles 0 (GotCompletion false)]) in
  screen (page s) = Screen.completed ∧ screen (page (page_step s SessionExpires)) = Screen.expired.
Proof. split; vm_compute; reflexivity. Qed.

(** The page says completed after two seconds although the server has not
    recorded the signature. *)
Lemma unsettled_completion_is_shown :
  let waiting := concat (replicate 8 [Settles 0 (session_at SignerStatus.pending); Settles 0 Done]) in
  screen (page (page_run (Some "link-token")
    (submitting_twice ++ Settles 0 (GotCompletion true) :: waiting))) = Screen.completed.
Proof. vm_compute. reflexivity. Qed.

(** What is called in that signing, and what its two submissions carry. *)
Abbreviation retried := (log (page_run (Some "link-token") submitting_twice)).
Definition submitted_at (n : nat) : value * string :=
  match retried !! n with Some (Called (Complete request key)) => (request, key) | _ => (VNull, "") end.

Lemma completions_are_consented_and_repeatable_witness :
  retried = (take 11 retried ++
    Called (Complete (fst (submitted_at 11)) (snd (submitted_at 11))) :: take 1 (drop 12 retried) ++
    Called (Complete (fst (submitted_at 13)) (snd (submitted_at 13))) :: [])%list ∧
  completeSigningRequestSchema (fst (submitted_at 11)) = true ∧
  (∃ e, e ∈ take 11 retried ∧
     consents_to (str_of (member "consentCopyId" (fst (submitted_at 11)))) e) ∧
  snd (submitted_at 11) = snd (submitted_at 13).
Proof.
  pose proof (completions_are_consented_and_repeatable (Some "link-token") submitting_twice) as H.
  cbv zeta in H. destruct H as [Hconsented Hrepeated].
  assert (Hw : Wiped ∉ take 1 (drop 12 retried))
    by (intros Hw; vm_compute in Hw; apply list_elem_of_singleton in Hw; discriminate).
  match goal with |- ?P ∧ _ => assert (Hc : P) by (vm_compute; reflexivity) end.
  revert Hconsented Hrepeated Hw Hc. generalize (submitted_at 11) (submitted_at 13).
  generalize retried. intros calls first second Hconsented Hrepeated Hw Hc.
  destruct (Hconsented _ _ _ _ Hc) as [H1 H2].
  split; [exact Hc|]. split; [exact H1|]. split; [exact H2|].
  exact (Hrepeated _ _ _ _ _ _ _ Hc Hw).
Defined.

(** ** A request of the page at the API *)

Definition page_origin : string := "https://app.example.invalid".
Definition csrf_cookie : string := SIGNING_CSRF_COOKIE_NAME_DEFAULT +:+ "=" +:+ token 4.
Definition signer_cookies : string :=
  ApiConfig.SIGNING_SESSION_COOKIE_NAME api_config +:+ "=" +:+ token 3 +:+ "; " +:+ csrf_cookie.
Definition viewed : FetchRequest.t := FetchRequest.mk page_origin "/signing/api/viewed" "POST"
  [("x-csrf-token", token 4)] None.
Definition viewed_upstream : FetchRequest.t :=
  upstream_request "https://api.example.invalid" (with_cookies signer_cookies viewed) "/signing/viewed".
Definition viewed_request : Request.t :=
  Request.mk "POST" (FetchRequest.headers viewed_upstream) []
    [(ApiConfig.SIGNING_SESSION_COOKIE_NAME api_config, token 3); (SIGNING_CSRF_COOKIE_NAME_DEFAULT, token 4)]
    (Some "203.0.113.7") None None.
Definition signing_ctx : Ctx :=
  mkCtx (Server.mk half_signed (Server.auth opened) ∅ ∅ ∅ Overload.init) Res.fresh.

Lemma viewed_at_api : at_api no_escapes viewed_upstream viewed_request.
Proof.
  split; [reflexivity|]. split; [|vm_compute; reflexivity]. intros k _. reflexivity.
Qed.

